(* ===== verification/_CoqProject ===== *)
-Q . S2P
Prelude.v
PyVal.v
PyText.v
Sha256.v
Utf8.v
Json.v
JsonLoads.v
Regex.v
Binary64.v
Postgres.v
DecisionStore.v
OperationalMemory.v
LlmClient.v
IpAddr.v
Topology.v
Policy.v
Models.v
Safety.v
Knowledge.v
KnowledgeParser.v
KnowledgeGraph.v
KnowledgeReload.v
KnowledgeRoundtrip.v
KnowledgeRestore.v
Boot.v
RateLimiter.v
CircuitBreaker.v
Consistency.v
Redis.v
Gate.v
Flow.v
FlowWindow.v
EventsStore.v
Dispatcher.v
Consumer.v
IdsApi.v
IncidentMemory.v
ResponseCache.v
Enforcement.v
Reasoning.v
Nodes.v
Agent.v
Api.v
RolePolicy.v
TamperLog.v
GnmiPool.v
GnmiClient.v
Adapter.v
NetconfFraming.v
RoleApi.v
Yang.v
NetconfSession.v
Tools.v
Reputation.v
PromptGuard.v
Prompts.v
Renderers.v
AlertContext.v
KnowledgeLoader.v
PromptContext.v
IdsAgent.v
ClosedLoop.v
MarkdownBlocks.v
KnowledgeDump.v
DumpRoundtrip.v
Schemas.v
KnowledgeView.v
StatusRoutes.v
SecureServer.v
Evaluation.v
GraphVerify.v
Tracer.v
Configuration.v
