(* ===== verification/Prelude.v ===== *)
(** * Verification of the 3S-NOS zero-trust control plane

    The repository (src/) is a closed loop around an emulated datacenter of four
    zones (WEB, APP, DB, MGT) behind two leaf switches.

    - The intelligence layer (src/intelligence-layer/src) receives Suricata events
      over a server-sent-event stream ([pipeline/consumer.py]).  Alerts pass a gate
      of filters; flows are gathered in windows, aggregated into IP pairs, scored,
      and the suspicious pairs become synthetic alerts.  An alert that passes the
      gate is decided by an LLM inside a pipeline of deterministic safety layers
      ([agent/]), and a validated DROP rule is posted to the ids-agent.
    - The secure framework (src/secure-framework) is where rules enter the
      leafs: NETCONF sessions of an orchestrator, whose role comes from the
      client's certificate ([sam/]), are translated to gNMI requests
      ([netconf_gnmi_adapter.py]) sent over a pool of connections to the leafs
      ([nos_gnmi_pool.py]); everything is recorded in a signed audit log
      ([tamper_logger.py]).

    ** The files

    Foundations (the language and its standard library, as far as the code uses it):
    - [Prelude]: tactics, the hint database [cplane], list lemmas.
    - [PyVal]: exceptions and the error monad [res], [str] operations, JSON-like
      values, truthiness, dict operations, [int()], hashability; [PyText]: numbers
      printed and read, stripping.
    - [Sha256], [Utf8], [Json], [JsonLoads]: hashlib/hmac with the standards' test
      vectors, the UTF-8 codec with its round trip, [json.dumps], [json.loads]
      (which reads back what [json.dumps] writes).
    - [IpAddr]: the ipaddress module (parsing, membership, subnets).
    - [Regex]: the [re] module with a language semantics its matcher agrees with;
      [Binary64]: Python's [float] on SpecFloat.

    The intelligence layer:
    - [Topology] (core/topology.py), [Policy] (core/policy.py, knowledge.py,
      threat_playbook.py, baselines.py, severity_scoring.py, the start-up check of
      main.py), [Models] (models/*.py), [Safety] (agent/safety/guardrails.py,
      validators.py, confidence.py).
    - [Knowledge] (core/system_model.py and the models of the other core modules),
      [KnowledgeParser] (core/knowledge_parser.py), [KnowledgeGraph]
      (storage/neo4j_kg.py, neo4j_reader.py, over the interface [Neo4j]), with the
      proofs of the round trip in [KnowledgeReload], [KnowledgeRoundtrip] and
      [KnowledgeRestore]; [Boot] (main.py: the parsed files, the graph, the hot swap of
      the modules and the safety floor).
    - [MarkdownBlocks], [KnowledgeDump], [DumpRoundtrip]: the script that writes the
      authored files from the modules and the one that compares them
      (scripts/dump_pydantic_to_markdown.py, verify_knowledge_roundtrip.py), with the
      proof that the parser reads what was written; [GraphVerify]: the script that
      compares the graph with the files (scripts/verify_neo4j_roundtrip.py).
    - [RateLimiter], [CircuitBreaker], [Consistency]: the stateful safety layers of
      agent/safety, each method one step on a record of its state.
    - [Redis] (storage/redis.py) and [EventsStore] (storage/events_store.py): the
      stores, over the interfaces [RedisServer] and [SortedSets].
    - [Postgres], [DecisionStore] (storage/postgres.py: the schema, the dual write,
      the reads), [OperationalMemory] (storage/operational_memory.py),
      [IncidentMemory] (storage/incident_memory.py), over the interface [Postgres].
    - [Gate] (pipeline/filters.py, gate.py), [Flow] (models/flow.py,
      pipeline/flow_aggregator.py), [FlowWindow] (pipeline/flow_window.py),
      [Dispatcher] (pipeline/llama_batch_classifier.py, flow_batch_dispatcher.py),
      [Consumer] (pipeline/consumer.py).
    - [LlmClient] (agent/llm/openai_compat.py), [ResponseCache]
      (agent/response_cache.py), [Enforcement] (enforcement/*.py: the interface
      [EnforcementBackend] and its instance), [Reasoning] and [Nodes]
      (agent/nodes.py), [Agent] (agent/graph.py).
    - [Tools] and [Schemas] (agent/tools.py: the tools, their declarations and the schemas
      of the answers), [Reputation] (core/asset_reputation.py), [PromptGuard]
      (agent/safety/prompt_injection.py), [Prompts] (agent/prompts.py), [Renderers] (the
      text of the core modules), [AlertContext] and [KnowledgeLoader]
      (core/knowledge_loader.py): what the LLM may ask for and what its prompt is made of;
      [PromptContext] (the first nodes of agent/nodes.py): the prompts composed from the
      alert alone.
    - [Api] (the callback of main.py, api/routes.py, storage/embedder.py): from an
      alert to its record, its streams and the routes over them; [StatusRoutes]: the
      operator's routes; [KnowledgeView] (core/kg_visualizer.py and its routes): the
      picture of the knowledge base; [Tracer] (observability/langfuse_tracer.py);
      [Configuration] (config.py, agent/llm/factory.py and the parts main.py constructs).
    - [IdsApi] (src/ids-vm/ids-api.py): the rings, the tail of the log, the
      server-sent events the consumer reads.

    The secure framework:
    - [RolePolicy] (sam/role_policy.py, session_context.py), [TamperLog]
      (tamper_logger.py), [GnmiPool] (nos_gnmi_pool.py), [GnmiClient]
      (gnmi/gnmiclient.py), [Adapter] (netconf_gnmi_adapter.py), [RoleApi]
      (sam/role_api.py).
    - [NetconfFraming] (receive_message and send_response), [Yang] (the YANG
      modules' loading and escaping), [NetconfSession] (the dispatch of
      netconf/netconf_session.py and the server's handling of a connection).
    - [SecureServer] (app.py, netconf/netconfserver.py, the server of sam/role_api.py):
      the start-up, the TLS context and the accept loop.

    Between them:
    - [IdsAgent] (src/ids-agent/main.go: the handlers of the rules and of the manual
      block) and [ClosedLoop]: the decision agent, its HTTP backend, the ids-agent, the
      REST API and the leafs put together.
    - [Evaluation] (experiments/eval_iid.py, eval_memory.py): how a run of the whole loop
      is attributed, measured and judged.

    ** How the model corresponds to the code

    A method of an object is a function from its arguments and the object's state
    (a record) to its result and the new state; a function that can raise returns
    [res]; a node of the agent's pipeline maps the pipeline's state to the state
    with its patch applied.  Module constants keep their names.  Where two objects
    are shared (the intent that the reasoning trace patches while it is enforced,
    the gNMI clients that the pool, the sessions and the disconnect handlers hold)
    the sharing is explicit: an interleaving flag, a heap of clients.  Times are
    integers: nanoseconds of a clock, or milliseconds for scores of events.

    ** What the theorems show

    - The whole chain: one run sends a leaf nothing, or exactly the rule of a validated
      DROP, field by field ([ClosedLoop.loop_step_installs]); a sequence of runs makes at
      most as many writes as the limiter allows ([ClosedLoop.loop_run_bounded]).
    - Enforcement is guarded: a run of the agent posts at most one rule, only a
      validated DROP with enough confidence, with the breaker closed and the
      limiter's grant ([Agent.enforcement_guarded]); a sequence of runs stays
      within the blast radius whatever the LLM answers ([Agent.agent_blast_radius]);
      the reasoning trace cannot change a decision
      ([Agent.reasoning_noninterference]); the conversation with the LLM is bounded
      and well formed ([LlmClient.react_bounded]).
    - An agent that starts with the graph has the safety floor, and, when the graph held no
      foreign nodes, decides with the authored policy, however the graph server behaves
      during start-up ([Boot.boot_policy]); what is loaded into such a graph is read back
      ([Boot.reload_read]) and start-up then succeeds ([Boot.boot_starts]); the files written
      from the modules parse to what the modules hold but for what
      [DumpRoundtrip.rewritten] lists ([DumpRoundtrip.dump_parses],
      [DumpRoundtrip.verify_exit]), and the graph script can only report parts that are
      reordered or cut ([GraphVerify.differences_confined]).  An answer that the decision
      schema allows becomes an intent ([Schemas.decision_accepted]).  The LLM's
      graph queries are refused exactly when they hold a write keyword
      ([Tools.query_kg_reads]); the prompt's reputation is the count of the labels
      ([Reputation.reputation_counts]); the redaction of the attacker's texts happens
      exactly when its patterns occur ([PromptGuard.sanitize_exact]), and of an alert
      whose SID is catalogued they reach a prompt only inside their block
      ([PromptContext.alert_prompts_confined]), which they can end
      ([Prompts.tag_not_filtered]).  The system message of an alert holds everything the alert calls for ([KnowledgeLoader.alert_prompt]) and rules that
      are not older than their time to live ([KnowledgeLoader.rules_fresh]); the context of
      an alert can always be rendered ([AlertContext.context_renders]).
    - The limiter and the breaker decide as specifications over their whole
      histories ([RateLimiter.run_refines_history],
      [CircuitBreaker.breaker_refines_history]), and the window as a specification
      over the pushed flows ([FlowWindow.window_delivers]).
    - The validators accept exactly what their layers allow, and a validated host
      rule spares the whitelist ([Safety]); the vote, the gate, the aggregation,
      the dispatch and the cache's rebinding each have their functional
      specification.
    - What was enforced is recorded: one history row for each request that
      succeeded ([Api.audit_complete]), of the table's type ([Api.record_typed]),
      in both tables ([DecisionStore.history_covers]), read back as it was saved
      ([DecisionStore.save_get_roundtrip]), published once
      ([Api.published_decision]), summarised exactly
      ([OperationalMemory.summary_counts]) and labelled in the end
      ([IncidentMemory.decisions_labeled], [IncidentMemory.system_label]).
    - An event of the IDS is delivered in order and once when the log is ASCII
      ([IdsApi.tail_exactly_once], [IdsApi.sse_delivery]) and, with the trigger on, an alert
      in the log reaches the agent ([IdsApi.logged_alert_dispatched]).
    - The secure framework writes only well-formed rules, an AGENT session only its
      own DROPs ([Adapter.edit_config_sound]), by REST as by NETCONF
      ([RoleApi.api_run_sound], [RoleApi.rest_netconf_agree]); a connection acts
      only with the role of its certificate ([RolePolicy.session_role_justified],
      [NetconfSession.connection_confined]; deletions are open to every role and an OPERATOR
      edits like an ADMIN, [Adapter.operator_edits_as_admin]), which the authority has
      issued when certificates are asked for at all and the bypass is off
      ([SecureServer.session_roles]); a rule goes to a live client of the
      leaf of its source ([GnmiPool.routed_client_correct]), which reconnects
      ([GnmiClient.monitor_live]); requests arrive as they were sent, however the
      stream is cut between characters, and are answered in order ([NetconfFraming.chunked_roundtrip],
      [NetconfSession.replies_in_order]); the log it writes verifies, after a
      restart too ([TamperLog.own_log_verifies], [TamperLog.restart_verifies]).
    - What is shown of the system is what it holds: the elements of the picture
      ([KnowledgeView.kg_json_exact]); tracing changes nothing of a step whose span can be
      opened ([Tracer.span_transparent]); an evaluated run passes under exactly stated
      conditions and ends ([Evaluation.passed_iff], [Evaluation.run_ends]).
    - Behaviours the code has and its documentation does not mean are stated as
      theorems and examples too, next to the definitions they are about.

    ** Parameters

    Code outside the repository is a parameter, its documented behaviour a law:
    the Redis server ([RedisServer]/[RedisLaws], with the instance [redis0]), its
    sorted sets ([SortedSets]/[SortedSetLaws]), the PostgreSQL server
    ([Postgres]/[PostgresLaws]: a transaction applies all its statements or none,
    the schema is enforced, a query returns the rows in its order), the graph server
    ([Neo4j]/[Neo4jLaws], with the instance [graph0]), the character classes beyond ASCII
    ([UnicodeData]), YAML ([Yaml]/[YamlLaws], with JSON as the instance), pydantic's
    coercions and [float()] ([External]/[ExternalLaws]), the nested audit models
    ([MetaCodec]), [repr] and [str] of values that never matter ([PyRepr]), the
    HTTP client, gNMI servers, the embedding model and the LLM (oracles that may
    answer anything, exceptions included), the reading and printing of dates, the
    C library's [log2], the iteration order of a set, graphs and layouts of networkx, TLS ([Tls]/[TlsLaws]), the
    tracing service ([Langfuse]).  Each has a concrete
    instance in the witnesses.

    ** Bounds and fuel

    Only the NETCONF decoder loops without a structural bound: [decode_chunks]
    takes fuel, [NetconfFraming.decode_terminates] shows that the length of the
    message is enough when no size is negative, and
    [NetconfFraming.negative_chunk_hangs] that no fuel is enough for one with a
    negative size.  The loop over a session's messages ends with its input
    ([NetconfSession.rpc_loop_total]); the JSON parser recurses on its input's
    length.  The retries of the vote, of the first stage and of the LLM client are
    recursions on their number.

    ** Not modelled

    Alerts are processed one after another and every method that holds its lock is
    one step: the interleaving of two alerts inside the agent is not considered.
    Log lines and metrics have no effect and are left out; the tracer is modelled by
    itself, not in the steps it surrounds.  The safety layers take the catalogue as a
    parameter ([Policy.catalogue0] is the authored one); of the graph's picture the HTML
    page and the GraphML text are not modelled.  The creation of the tables and indexes in
    PostgreSQL, the wiring of the tasks in main.py, the generation of certificates and
    sockets, threads and signals are glue.
    Confidences are rationals in the gate; the entropy, the reputation and the
    injection score are computed on IEEE binary64 (SpecFloat).  Text is bytes with ASCII case mapping and white space.
    Of the Go ids-agent only the handlers of the rules, of the manual block and of the
    alerts the labelling asks for are modelled.  The front end and the benchmark script are other
    programs; of the experiments the consoles of the emulated hosts, the reset of the
    services between runs and the spreadsheets are left out. *)

From stdpp Require Export base gmap strings list sorting pretty.
From Stdlib Require Export ZArith QArith Lia Lqa Ascii.
#[global] Open Scope Z_scope.

Create HintDb cplane.
#[export] Set Warnings "-clear-no-such-hyp,-register-all".

(** Case analysis on the innermost [match] of a hypothesis or the goal. *)
Ltac case_step :=
  match goal with
  | H : context [match ?x with _ => _ end] |- _ => destruct x eqn:?; simplify_eq/=
  | |- context [match ?x with _ => _ end] => destruct x eqn:?; simplify_eq/=
  end.
Ltac cases := repeat case_step.

(** Splits conjunctions, but not equivalences. *)
Ltac splits := repeat match goal with |- _ /\ _ => split end.

(** ** Lists as Python sequences *)
Section PyList.
  Context {A : Type}.
  Implicit Types (l : list A) (n : nat).

(** [l[-n:]] for [n > 0]: the last [n] elements. *)
Definition last_n n l : list A := drop (length l - n) l.

(** [collections.deque(maxlen=n).append(x)]. *)
Definition deque_append n l (x : A) : list A := last_n n (l ++ [x]).

Lemma last_n_length n l : length (last_n n l) = min n (length l).
Proof. unfold last_n. rewrite length_drop. lia. Qed.

Lemma deque_append_length n l x : (length (deque_append n l x) <= n)%nat.
Proof. unfold deque_append. rewrite last_n_length. lia. Qed.

Lemma last_n_all n l : (length l <= n)%nat -> last_n n l = l.
Proof. intros. unfold last_n. by replace (length l - n)%nat with 0%nat by lia. Qed.

Lemma last_n_app_last n l l' : last_n n (last_n n l ++ l') = last_n n (l ++ l').
Proof.
  destruct (decide (length l <= n)%nat) as [Hl|Hl]; [by rewrite (last_n_all n l)|].
  assert (Hl' : l = take (length l - n) l ++ last_n n l) by (symmetry; apply take_drop).
  pose proof (last_n_length n l) as Hq. rewrite Hl' at 2. generalize dependent (last_n n l). intros q _ Hq.
  generalize (take (length l - n) l). intros p.
  unfold last_n. rewrite <- (assoc_L (++) p). rewrite (length_app p).
  replace (length p + length (q ++ l') - n)%nat with (length p + (length (q ++ l') - n))%nat
    by (rewrite length_app; lia).
  by rewrite drop_app_add.
Qed.

End PyList.

#[export] Hint Resolve deque_append_length : cplane.

(** ** Time
    The monotonic clock in nanoseconds. *)
Definition SEC : Z := 1000000000.

(** ** Deques that evict a stale prefix
    [while q and q[0] < cutoff: q.popleft()] *)
Fixpoint evict (cutoff : Z) (q : list Z) : list Z :=
  match q with
  | [] => []
  | t :: q' => if t <? cutoff then evict cutoff q' else q
  end.

(** [q] is what is left of the recorded times [gs] when only entries older than
    [now - win] have been evicted; it is sorted and not ahead of the clock. *)
Definition sliding (win now : Z) (gs q : list Z) : Prop :=
  exists ev, gs = ev ++ q /\ Forall (fun t => t < now - win) ev /\
             StronglySorted Z.le q /\ Forall (fun t => t <= now) q.

(** The number of recorded times in the closed window that ends at [T]. *)
Definition in_window (win T : Z) (gs : list Z) : nat :=
  length (filter (fun t => T - win <= t <= T) gs).

Lemma evict_app cutoff q : exists ev, q = ev ++ evict cutoff q /\ Forall (fun t => t < cutoff) ev.
Proof.
  induction q as [|t q (ev & Hq & Hev)]; [by exists []|]. cbn.
  destruct (Z.ltb_spec t cutoff); [|by exists []].
  exists (t :: ev). split; [cbn; by f_equal|by constructor].
Qed.

Lemma evict_length cutoff q : (length (evict cutoff q) <= length q)%nat.
Proof. induction q; cbn; [lia|]. case_match; cbn; lia. Qed.

Lemma evict_sorted cutoff q : StronglySorted Z.le q ->
  StronglySorted Z.le (evict cutoff q) /\ Forall (fun t => cutoff <= t) (evict cutoff q).
Proof.
  induction 1 as [|t q Hs IH Ht]; cbn; [by split; constructor|].
  destruct (Z.ltb_spec t cutoff); [done|]. split; [by constructor|].
  constructor; [done|]. eapply Forall_impl; [exact Ht|]. cbn. lia.
Qed.

Lemma StronglySorted_snoc q t : StronglySorted Z.le q -> Forall (fun x => x <= t) q ->
  StronglySorted Z.le (q ++ [t]).
Proof.
  induction 1 as [|x q Hs IH Hx]; cbn; intros Hq; [by repeat constructor|].
  inversion Hq; subst. constructor; [auto|]. apply Forall_app. by split; [|repeat constructor].
Qed.

Lemma sliding_nil win now : sliding win now [] [].
Proof. exists []. repeat split; constructor. Qed.

Lemma sliding_mono win now now' gs q : now <= now' -> sliding win now gs q -> sliding win now' gs q.
Proof.
  intros Hle (ev & -> & Hev & Hs & Hn). exists ev. split_and!; [done| |done|].
  - eapply Forall_impl; [exact Hev|]. cbn. lia.
  - eapply Forall_impl; [exact Hn|]. cbn. lia.
Qed.

Lemma sliding_evict win now now' gs q : now <= now' -> sliding win now gs q ->
  sliding win now' gs (evict (now' - win) q).
Proof.
  intros Hle (ev & -> & Hev & Hs & Hn)%(sliding_mono _ _ now'); [|done].
  destruct (evict_app (now' - win) q) as (ev' & Hq & Hev').
  exists (ev ++ ev'). split_and!; [by rewrite <- app_assoc, <- Hq|by apply Forall_app|by apply evict_sorted|].
  rewrite Hq in Hn. by apply Forall_app in Hn as [_ ?].
Qed.

Lemma sliding_snoc win now gs q : sliding win now gs q -> sliding win now (gs ++ [now]) (q ++ [now]).
Proof.
  intros (ev & -> & Hev & Hs & Hn). exists ev. rewrite app_assoc.
  split_and!; [done|done|by apply StronglySorted_snoc|].
  apply Forall_app. split; [done|]. by repeat constructor.
Qed.

Lemma filter_none {A} (P : A -> Prop) `{forall x, Decision (P x)} (l : list A) :
  Forall (fun x => ~ P x) l -> filter P l = [].
Proof. induction 1 as [|x l Hx _ IH]; [done|]. by rewrite filter_cons_False. Qed.

Lemma filter_all {A} (P : A -> Prop) `{forall x, Decision (P x)} (l : list A) :
  Forall P l -> filter P l = l.
Proof. induction 1 as [|x l Hx _ IH]; [done|]. rewrite filter_cons_True by done. by f_equal. Qed.

Lemma filter_split {A} (P : A -> Prop) `{forall x, Decision (P x)} (l : list A) :
  l ≡ₚ filter P l ++ filter (fun x => ~ P x) l.
Proof.
  induction l as [|x l IH]; [done|]. rewrite !filter_cons. destruct (decide (P x)).
  - rewrite decide_False by tauto. cbn. by rewrite <- IH.
  - rewrite decide_True by done. rewrite <- Permutation_middle. by rewrite <- IH.
Qed.

(** After an eviction the queue holds exactly the recorded times of the window. *)
Lemma sliding_evict_window win now now' gs q : now <= now' -> sliding win now gs q ->
  length (evict (now' - win) q) = in_window win now' gs.
Proof.
  intros Hle Hsl. destruct (sliding_evict _ _ _ _ _ Hle Hsl) as (ev & Hgs & Hev & _ & Hn).
  destruct Hsl as (_ & _ & _ & Hs & _). destruct (evict_sorted (now' - win) q Hs) as [_ Hge].
  unfold in_window. rewrite Hgs, filter_app, length_app.
  rewrite (filter_none _ ev) by (eapply Forall_impl; [exact Hev|]; cbn; lia).
  rewrite filter_all; [done|]. apply Forall_forall. intros t Ht.
  rewrite Forall_forall in Hge, Hn. auto.
Qed.

(** Recording [now] keeps every window within [m] when the window that ends now
    holds fewer than [m] entries. *)
Lemma window_bound_snoc win now gs (m : nat) : Forall (fun t => t <= now) gs ->
  (in_window win now gs < m)%nat ->
  (forall T, (in_window win T gs <= m)%nat) -> forall T, (in_window win T (gs ++ [now]) <= m)%nat.
Proof.
  intros Hgs Hq Hb T. unfold in_window in *. rewrite filter_app, length_app.
  destruct (decide (T - win <= now <= T)) as [HT|HT].
  - rewrite (filter_cons_True _ now) by done. cbn [length]. rewrite filter_nil. cbn [length].
    assert (length (filter (fun t => (T - win <= t <= T)%Z) gs) <=
            length (filter (fun t => (now - win <= t <= now)%Z) gs))%nat; [|lia].
    clear -Hgs HT. induction Hgs as [|t gs Ht _ IH]; [done|]. rewrite !filter_cons.
    repeat case_decide; cbn; lia.
  - rewrite (filter_cons_False _ now), filter_nil by done. cbn. specialize (Hb T). lia.
Qed.

Lemma sliding_le win now gs q : 0 <= win -> sliding win now gs q -> Forall (fun t => t <= now) gs.
Proof.
  intros Hw (ev & -> & Hev & _ & Hn). apply Forall_app. split; [|done].
  eapply Forall_impl; [exact Hev|]. cbn. lia.
Qed.
