(* ===== verification/PyVal.v ===== *)
(** * Python values as the modelled code uses them

    Exceptions and the error monad, [str] operations, JSON-like values with
    Python's truthiness and [dict.get]/[or] idioms.  A Python [str] is the
    [string] of its UTF-8 bytes: [len] and slices count code points
    ([py_len], [py_take]), and case mapping and whitespace are those of the ASCII range. *)
From S2P Require Import Prelude.
Local Open Scope string_scope.

(** ** Exceptions and the error monad *)
Inductive exn :=
  | ValueError (msg : string)
  | TypeError (msg : string)
  | KeyError (key : string)
  | IndexError
  | AttributeError (name : string)
  | RuntimeError (msg : string)
  | OtherError (kind : string).

#[export] Instance exn_eq_dec : EqDecision exn.
Proof. solve_decision. Defined.

Inductive res (A : Type) :=
  | Ok (a : A)
  | Raise (e : exn).
Arguments Ok {A} a.
Arguments Raise {A} e.

#[export] Instance res_ret : MRet res := fun A x => Ok x.
#[export] Instance res_bind : MBind res := fun A B k m =>
  match m with Ok a => k a | Raise e => Raise e end.
#[export] Instance res_fmap : FMap res := fun A B f m =>
  match m with Ok a => Ok (f a) | Raise e => Raise e end.

(** The same bind with the computation first, for continuations that destruct a tuple. *)
Definition rbind {A B} (m : res A) (k : A -> res B) : res B :=
  match m with Ok a => k a | Raise e => Raise e end.
Notation "'let*' x ':=' m 'in' k" := (rbind m (fun x => k))
  (at level 10, x name, m at level 100, k at level 200).
Notation "'let*' ' p ':=' m 'in' k" := (rbind m (fun x => match x with p => k end))
  (at level 10, p strict pattern, m at level 100, k at level 200).

Definition is_ok {A} (r : res A) : bool := match r with Ok _ => true | Raise _ => false end.

Definition res_or {A} (d : A) (r : res A) : A := match r with Ok x => x | Raise _ => d end.

Lemma res_or_ok {A} (d : A) (r : res A) : is_ok r = true -> r = Ok (res_or d r).
Proof. by destruct r. Qed.

(** [try: m except ValueError: d] *)
Definition catch_value_error {A} (m : res A) (d : A) : res A :=
  match m with Raise (ValueError _) => Ok d | _ => m end.

Lemma res_bind_ok {A B} (m : res A) (k : A -> res B) b :
  (m ≫= k) = Ok b <-> exists a, m = Ok a /\ k a = Ok b.
Proof.
  destruct m as [a|e]; cbn; split.
  - intros; by exists a.
  - intros (a' & Ha & Hk). by simplify_eq.
  - done.
  - by intros (a' & Ha & Hk).
Qed.

Lemma rbind_ok {A B} (m : res A) (k : A -> res B) b :
  rbind m k = Ok b <-> exists a, m = Ok a /\ k a = Ok b.
Proof. apply res_bind_ok. Qed.

Lemma rbind_raise {A B} (m : res A) (k : A -> res B) e :
  rbind m k = Raise e <-> m = Raise e \/ exists a, m = Ok a /\ k a = Raise e.
Proof.
  destruct m as [a|e']; cbn; split; intros H.
  - right. by exists a.
  - destruct H as [|(a' & Ha & Hk)]; [done|]. by simplify_eq.
  - left. by simplify_eq.
  - destruct H as [|(a' & Ha & Hk)]; by simplify_eq.
Qed.

(** ** Characters *)
Definition code (c : ascii) : N := N_of_ascii c.
Definition is_digit (c : ascii) : bool := (48 <=? code c)%N && (code c <=? 57)%N.
Definition is_upper (c : ascii) : bool := (65 <=? code c)%N && (code c <=? 90)%N.
Definition is_lower (c : ascii) : bool := (97 <=? code c)%N && (code c <=? 122)%N.
Definition digit_val (c : ascii) : Z := Z.of_N (code c) - 48.
Definition to_lower (c : ascii) : ascii := if is_upper c then ascii_of_N (code c + 32) else c.
Definition to_upper (c : ascii) : ascii := if is_lower c then ascii_of_N (code c - 32) else c.
(** [str.isspace] on the ASCII range. *)
Definition is_space (c : ascii) : bool :=
  (code c =? 32)%N || ((9 <=? code c)%N && (code c <=? 13)%N) || ((28 <=? code c)%N && (code c <=? 31)%N).
(** UTF-8 continuation bytes [10xxxxxx]. *)
Definition is_cont (c : ascii) : bool := (128 <=? code c)%N && (code c <? 192)%N.
Definition is_ascii_char (c : ascii) : bool := (code c <? 128)%N.

(** ** Strings *)
Fixpoint str_map (f : ascii -> ascii) (s : string) : string :=
  match s with EmptyString => EmptyString | String c s' => String (f c) (str_map f s') end.
Definition py_lower : string -> string := str_map to_lower.
Definition py_upper : string -> string := str_map to_upper.

Fixpoint str_forallb (p : ascii -> bool) (s : string) : bool :=
  match s with EmptyString => true | String c s' => p c && str_forallb p s' end.

(** [s.split(c)] for a one-character separator. *)
Fixpoint split_on (c : ascii) (s : string) : list string :=
  match s with
  | EmptyString => [""]
  | String a s' =>
      if bool_decide (a = c) then "" :: split_on c s'
      else match split_on c s' with
           | [] => [String a ""]
           | h :: t => String a h :: t
           end
  end.

(** [sep.join(l)] *)
Fixpoint py_join (sep : string) (l : list string) : string :=
  match l with
  | [] => ""
  | [x] => x
  | x :: l' => x ++ sep ++ py_join sep l'
  end.

Fixpoint starts_with (p s : string) : bool :=
  match p, s with
  | EmptyString, _ => true
  | String a p', String b s' => bool_decide (a = b) && starts_with p' s'
  | String _ _, EmptyString => false
  end.

(** [p in s] *)
Fixpoint str_contains (p s : string) : bool :=
  starts_with p s || match s with EmptyString => false | String _ s' => str_contains p s' end.

Definition str_rev (s : string) : string := String.string_of_list_ascii (rev (String.list_ascii_of_string s)).
Definition ends_with (p s : string) : bool := starts_with (str_rev p) (str_rev s).

Definition list_contains_char (c : ascii) (s : string) : bool :=
  existsb (fun a => bool_decide (a = c)) (String.list_ascii_of_string s).

Fixpoint lstrip (s : string) : string :=
  match s with
  | String c s' => if is_space c then lstrip s' else s
  | EmptyString => s
  end.
Definition py_strip (s : string) : string := str_rev (lstrip (str_rev (lstrip s))).

(** [len(s)]: the number of code points. *)
Fixpoint py_len (s : string) : nat :=
  match s with
  | EmptyString => 0
  | String c s' => (if is_cont c then 0 else 1) + py_len s'
  end.

(** [s[:n]] by code points: a continuation byte stays with its lead byte. *)
Fixpoint py_take (n : nat) (s : string) : string :=
  match s with
  | EmptyString => ""
  | String c s' =>
      if is_cont c then String c (py_take n s')
      else match n with O => "" | S n' => String c (py_take n' s') end
  end.

(** [s[n:]] by code points. *)
Fixpoint py_drop (n : nat) (s : string) : string :=
  match s with
  | EmptyString => ""
  | String c s' =>
      match n with
      | O => s
      | S n' => if is_cont c then py_drop n s' else
          match n' with
          | O => (fix skip (t : string) : string :=
                    match t with
                    | String d t' => if is_cont d then skip t' else t
                    | EmptyString => ""
                    end) s'
          | S _ => py_drop n' s'
          end
      end
  end.

Definition nonempty (s : string) : bool := match s with EmptyString => false | _ => true end.
(** [a or b] on strings. *)
Definition str_or (a b : string) : string := if nonempty a then a else b.

(** ** Integers *)
Fixpoint digits_val (acc : Z) (s : string) : option Z :=
  match s with
  | EmptyString => Some acc
  | String c s' => if is_digit c then digits_val (acc * 10 + digit_val c) s' else None
  end.

(** [s.isascii() and s.isdigit()] then [int(s)]. *)
Definition parse_digits (s : string) : option Z :=
  match s with EmptyString => None | _ => digits_val 0 s end.

(** Digits with single underscores between them, as [int()] accepts. *)
Fixpoint digits_us (acc : Z) (prev_digit : bool) (s : string) : option Z :=
  match s with
  | EmptyString => if prev_digit then Some acc else None
  | String c s' =>
      if is_digit c then digits_us (acc * 10 + digit_val c) true s'
      else if bool_decide (c = "_"%char) && prev_digit then digits_us acc false s'
      else None
  end.

(** [int(s)] on a string: surrounding whitespace, an optional sign, digits. *)
Definition py_int (s : string) : res Z :=
  let bad := Raise (ValueError "invalid literal for int() with base 10") in
  let num (neg : bool) (t : string) :=
    match digits_us 0 false t with
    | Some z => Ok (if neg then - z else z)
    | None => bad
    end in
  match py_strip s with
  | String "-"%char t => num true t
  | String "+"%char t => num false t
  | t => num false t
  end.

Definition str_of_Z (z : Z) : string := pretty z.

(** ** JSON-like values *)
Inductive pyval :=
  | PNone
  | PBool (b : bool)
  | PInt (z : Z)
  | PFloat (q : Q)
  | PStr (s : string)
  | PList (l : list pyval)
  | PDict (d : list (string * pyval)).

#[export] Instance Q_eq_dec : EqDecision Q.
Proof. solve_decision. Defined.

(** Structural equality of values is decidable. *)
Fixpoint pyval_eqb (a b : pyval) : bool :=
  match a, b with
  | PNone, PNone => true
  | PBool x, PBool y => bool_decide (x = y)
  | PInt x, PInt y => bool_decide (x = y)
  | PFloat x, PFloat y => bool_decide (x = y)
  | PStr x, PStr y => bool_decide (x = y)
  | PList l, PList k =>
      (fix go (l k : list pyval) : bool :=
         match l, k with
         | [], [] => true
         | x :: l', y :: k' => pyval_eqb x y && go l' k'
         | _, _ => false
         end) l k
  | PDict l, PDict k =>
      (fix go (l k : list (string * pyval)) : bool :=
         match l, k with
         | [], [] => true
         | (i, x) :: l', (j, y) :: k' => bool_decide (i = j) && pyval_eqb x y && go l' k'
         | _, _ => false
         end) l k
  | _, _ => false
  end.

Lemma pyval_eqb_eq : forall a b, pyval_eqb a b = true <-> a = b.
Proof.
  fix IH 1. intros [ |x|x|x|x|l|l] [ |y|y|y|y|k|k]; cbn;
    rewrite ?bool_decide_eq_true; try (split; [discriminate|discriminate]); try (by split; congruence).
  - revert k. induction l as [|x l IHl]; intros [|y k]; try (by split).
    rewrite andb_true_iff, IH, IHl. split; [intros [? ?]; congruence|intros ?; split; congruence].
  - revert k. induction l as [|[i x] l IHl]; intros [|[j y] k]; try (by split).
    rewrite !andb_true_iff, IH, IHl, bool_decide_eq_true.
    split; [intros [[? ?] ?]; congruence|intros ?; split_and!; congruence].
Qed.

#[export] Instance pyval_eq_dec : EqDecision pyval.
Proof.
  intros a b. destruct (pyval_eqb a b) eqn:E.
  - left. by apply pyval_eqb_eq.
  - right. intros He%pyval_eqb_eq. congruence.
Defined.

(** Induction over the values inside lists and objects. *)
Lemma pyval_nested_ind (P : pyval -> Prop) :
  P PNone -> (forall b, P (PBool b)) -> (forall z, P (PInt z)) -> (forall q, P (PFloat q)) -> (forall s, P (PStr s)) ->
  (forall l, Forall P l -> P (PList l)) -> (forall d, Forall (fun kv => P kv.2) d -> P (PDict d)) -> forall v, P v.
Proof.
  intros Hn Hb Hz Hq Hs Hl Hd. fix IH 1. intros [ |b|z|q|s|l|d]; [done|by apply Hb|by apply Hz|by apply Hq|by apply Hs| |].
  - apply Hl. induction l; constructor; auto.
  - apply Hd. induction d as [|[k v] d IHd]; constructor; auto.
Qed.

(** [bool(v)] *)
Definition truthy (v : pyval) : bool :=
  match v with
  | PNone => false
  | PBool b => b
  | PInt z => negb (Z.eqb z 0)
  | PFloat q => negb (Qeq_bool q 0)
  | PStr s => nonempty s
  | PList l => match l with [] => false | _ => true end
  | PDict d => match d with [] => false | _ => true end
  end.

(** An insertion-ordered [dict] as an association list with distinct keys. *)
Section Dict.
Context {K V : Type} `{EqDecision K}.

Fixpoint dict_get (d : list (K * V)) (k : K) : option V :=
  match d with
  | [] => None
  | (k', v) :: d' => if decide (k = k') then Some v else dict_get d' k
  end.

(** [d[k] = v]: the position of an existing key is kept. *)
Fixpoint dict_set (d : list (K * V)) (k : K) (v : V) : list (K * V) :=
  match d with
  | [] => [(k, v)]
  | (k', v') :: d' => if decide (k = k') then (k, v) :: d' else (k', v') :: dict_set d' k v
  end.

Definition dict_del (d : list (K * V)) (k : K) : list (K * V) :=
  filter (fun kv => kv.1 <> k) d.

Definition dict_mem (d : list (K * V)) (k : K) : bool :=
  match dict_get d k with Some _ => true | None => false end.

Lemma dict_get_set_eq d k v : dict_get (dict_set d k v) k = Some v.
Proof.
  induction d as [|[k' v'] d IH]; cbn; [by rewrite decide_True|].
  destruct (decide (k = k')); cbn; [by rewrite decide_True|by rewrite decide_False].
Qed.

Lemma dict_get_set_ne d k k' v : k <> k' -> dict_get (dict_set d k v) k' = dict_get d k'.
Proof.
  intros Hne. induction d as [|[k2 v2] d IH]; cbn; [by rewrite decide_False by congruence|].
  destruct (decide (k = k2)) as [->|]; cbn.
  - by rewrite !decide_False by congruence.
  - by destruct (decide (k' = k2)).
Qed.

Lemma dict_get_set d k k' v :
  dict_get (dict_set d k v) k' = if decide (k = k') then Some v else dict_get d k'.
Proof.
  destruct (decide (k = k')) as [->|]; [apply dict_get_set_eq|by apply dict_get_set_ne].
Qed.

Lemma dict_get_del d k k' :
  dict_get (dict_del d k) k' = if decide (k = k') then None else dict_get d k'.
Proof.
  unfold dict_del. induction d as [|[k2 v2] d IH]; [by destruct (decide (k = k'))|].
  rewrite filter_cons. cbn. destruct (decide (k2 <> k)) as [Hne|He]; cbn.
  - destruct (decide (k' = k2)) as [->|]; [by rewrite decide_False by congruence|apply IH].
  - apply dec_stable in He as ->. rewrite IH.
    destruct (decide (k = k')) as [->|]; [done|by rewrite decide_False by congruence].
Qed.

Lemma dict_get_elem d k v : dict_get d k = Some v -> (k, v) ∈ d.
Proof.
  induction d as [|[k' v'] d IH]; cbn; [done|].
  case_decide; intros; simplify_eq; set_solver.
Qed.

Lemma dict_get_in d k v : NoDup d.*1 -> (k, v) ∈ d -> dict_get d k = Some v.
Proof.
  induction d as [|[k' v'] d IH]; cbn; intros Hd Hin; [set_solver|].
  apply NoDup_cons in Hd as [Hk Hd]. apply elem_of_cons in Hin as [Hin|Hin]; simplify_eq.
  - by rewrite decide_True.
  - rewrite decide_False; [auto|]. intros ->. apply Hk, list_elem_of_fmap. by exists (k', v).
Qed.

Lemma dict_get_None d k : dict_get d k = None <-> k ∉ d.*1.
Proof.
  induction d as [|[k' v'] d IH]; cbn; [set_solver|].
  case_decide; rewrite elem_of_cons; naive_solver.
Qed.

Lemma dict_set_keys d k v :
  (dict_set d k v).*1 = if decide (k ∈ d.*1) then d.*1 else (d.*1 ++ [k])%list.
Proof.
  induction d as [|[k' v'] d IH]; cbn; [done|].
  destruct (decide (k = k')) as [->|Hne]; cbn.
  - by rewrite decide_True by set_solver.
  - rewrite IH. destruct (decide (k ∈ d.*1)).
    + by rewrite decide_True by set_solver.
    + by rewrite decide_False by (rewrite elem_of_cons; naive_solver).
Qed.

Lemma dict_set_fresh d k v : k ∉ d.*1 -> dict_set d k v = (d ++ [(k, v)])%list.
Proof.
  induction d as [|[k' v'] d IH]; [done|]. rewrite fmap_cons, not_elem_of_cons. intros [Hk Hd]. cbn in *.
  rewrite decide_False by done. by rewrite IH.
Qed.

Lemma dict_set_NoDup d k v : NoDup d.*1 -> NoDup (dict_set d k v).*1.
Proof.
  intros Hd. rewrite dict_set_keys. case_decide; [done|].
  apply NoDup_app. split_and!; [done|set_solver|apply NoDup_singleton].
Qed.

Lemma dict_del_sublist d k : (dict_del d k).*1 `sublist_of` d.*1.
Proof.
  unfold dict_del. induction d as [|[k' v'] d IH]; [done|].
  rewrite filter_cons. case_decide; cbn; [by apply sublist_skip|by apply sublist_cons].
Qed.

Lemma dict_del_NoDup d k : NoDup d.*1 -> NoDup (dict_del d k).*1.
Proof. intros H. eapply sublist_NoDup; [exact H|apply dict_del_sublist]. Qed.
End Dict.

(** A JSON object. *)
Definition obj := list (string * pyval).

(** [data[k]] on a value. *)
Definition index_key (v : pyval) (k : string) : res pyval :=
  match v with
  | PDict d => match dict_get d k with Some x => Ok x | None => Raise (KeyError k) end
  | PList _ | PStr _ => Raise (TypeError "indices must be integers")
  | _ => Raise (TypeError "object is not subscriptable")
  end.

(** [d.get(k)] on a JSON object: [None] when absent. *)
Definition jget (d : list (string * pyval)) (k : string) : pyval := default PNone (dict_get d k).
(** [d.get(k, x)] *)
Definition jget_or (d : list (string * pyval)) (k : string) (x : pyval) : pyval :=
  default x (dict_get d k).
(** [a or b] *)
Definition por (a b : pyval) : pyval := if truthy a then a else b.

(** The characters of a [str]: a lead byte with its continuation bytes. *)
Fixpoint py_chars (s : string) : list string :=
  match s with
  | EmptyString => []
  | String c s' =>
      match py_chars s', s' with
      | w :: ws, String d _ => if is_cont d then String c w :: ws else String c "" :: w :: ws
      | ws, _ => String c "" :: ws
      end
  end.

(** [for x in v] on a value. *)
Definition py_iter (v : pyval) : res (list pyval) :=
  match v with
  | PList l => Ok l
  | PStr s => Ok (map PStr (py_chars s))
  | PDict d => Ok (map (fun kv => PStr kv.1) d)
  | _ => Raise (TypeError "object is not iterable")
  end.

(** [int(v)] *)
Definition int_of (v : pyval) : res Z :=
  match v with
  | PInt z => Ok z
  | PBool b => Ok (if b then 1 else 0)
  | PFloat q => Ok (Z.quot (Qnum q) (Zpos (Qden q)))
  | PStr s => py_int s
  | PNone | PList _ | PDict _ => Raise (TypeError "int() argument must be a string or a real number")
  end.

(** [v.get(k, d)] on a value. *)
Definition get_of (v : pyval) (k : string) (d : pyval) : res pyval :=
  match v with PDict o => Ok (jget_or o k d) | _ => Raise (AttributeError "get") end.

(** [v[0]] on a value. *)
Definition index0 (v : pyval) : res pyval :=
  match v with
  | PList (x :: _) => Ok x
  | PStr s => match py_chars s with c :: _ => Ok (PStr c) | [] => Raise IndexError end
  | PList [] => Raise IndexError
  | PDict _ => Raise (KeyError "0")
  | _ => Raise (TypeError "object is not subscriptable")
  end.

(** [v.lower()], [v.upper()], ... : a method of [str]. *)
Definition as_str (method : string) (v : pyval) : res string :=
  match v with PStr s => Ok s | _ => Raise (AttributeError method) end.

(** ** Keys of a dict: values up to Python's [==] on hashable scalars *)
Inductive hkey := HNone | HNum (n : Z) (d : positive) | HStr (s : string).
#[export] Instance hkey_eq_dec : EqDecision hkey.
Proof. solve_decision. Defined.

Definition num_key (q : Q) : hkey := let r := Qred q in HNum (Qnum r) (Qden r).

Definition key_of (v : pyval) : res hkey :=
  match v with
  | PNone => Ok HNone
  | PBool b => Ok (num_key (if b then 1 else 0))
  | PInt z => Ok (num_key (inject_Z z))
  | PFloat q => Ok (num_key q)
  | PStr s => Ok (HStr s)
  | PList _ | PDict _ => Raise (TypeError "unhashable type")
  end.

(** ** Text *)
(** [str(v)], as in an f-string; the text of floats and containers is a parameter. *)
Class PyRepr := repr_other : pyval -> string.
Definition py_str `{PyRepr} (v : pyval) : string :=
  match v with
  | PStr s => s | PNone => "None" | PBool true => "True" | PBool false => "False"
  | PInt z => str_of_Z z | _ => repr_other v
  end.

Fixpoint mapM_res {A B} (f : A -> res B) (l : list A) : res (list B) :=
  match l with
  | [] => Ok []
  | x :: l' => let* y := f x in let* ys := mapM_res f l' in Ok (y :: ys)
  end.

Lemma mapM_res_ok {A B} (f : A -> res B) l ys :
  mapM_res f l = Ok ys <-> Forall2 (fun x y => f x = Ok y) l ys.
Proof.
  revert ys. induction l as [|x l IH]; intros ys; cbn.
  - split; [intros; simplify_eq; constructor|by inversion 1].
  - rewrite rbind_ok. split.
    + intros (y & Hy & (ys' & Hys & ?)%rbind_ok). simplify_eq. constructor; [done|by apply IH].
    + inversion 1 as [|? y ? ys' Hy Hys]; subst. exists y. split; [done|]. apply rbind_ok.
      exists ys'. split; [by apply IH|done].
Qed.

(** ** String lemmas *)
Lemma str_app_cons a s t : String a s ++ t = String a (s ++ t).
Proof. done. Qed.
Lemma str_forallb_app p s t : str_forallb p (s ++ t) = str_forallb p s && str_forallb p t.
Proof. induction s as [|c s IH]; [done|]. rewrite str_app_cons. cbn. by rewrite IH, andb_assoc. Qed.
Lemma str_app_assoc s t u : ((s ++ t) ++ u = s ++ (t ++ u))%string.
Proof. induction s as [|c s IH]; [done|]. change (String c ((s ++ t) ++ u) = String c (s ++ (t ++ u)))%string. by rewrite IH. Qed.
Lemma str_app_nil_l s : "" ++ s = s.
Proof. done. Qed.
Lemma str_app_nil_r s : s ++ "" = s.
Proof. induction s as [|a s IH]; [done|]. rewrite str_app_cons. by f_equal. Qed.

Lemma bool_decide_char c : bool_decide (c = c :> ascii) = true.
Proof. by apply bool_decide_eq_true. Qed.

Lemma split_on_nonempty c s : split_on c s <> [].
Proof. destruct s; cbn; [done|]. repeat case_match; done. Qed.

Lemma join_split c s : py_join (String c "") (split_on c s) = s.
Proof.
  induction s as [|a s IH]; [done|]. cbn [split_on].
  pose proof (split_on_nonempty c s).
  case_bool_decide as Hac; destruct (split_on c s) as [|h [|h2 t]] eqn:E; try done; subst; done.
Qed.

Lemma split_on_fresh c s : list_contains_char c s = false -> split_on c s = [s].
Proof.
  unfold list_contains_char. induction s as [|a s IH]; [done|]. cbn.
  intros [Ha Hs]%orb_false_iff. rewrite Ha, IH; done.
Qed.

Lemma split_on_app c s t : list_contains_char c s = false ->
  split_on c (s ++ String c t) = s :: split_on c t.
Proof.
  unfold list_contains_char. induction s as [|a s IH]; cbn; intros H.
  - change ("" ++ String c t) with (String c t). cbn. by rewrite bool_decide_char.
  - rewrite str_app_cons. cbn. apply orb_false_iff in H as [Ha Hs]. rewrite Ha, IH; done.
Qed.

Lemma split_on_parts_fresh c s p : p ∈ split_on c s -> list_contains_char c p = false.
Proof.
  revert p. induction s as [|a s IH]; intros p; cbn.
  - by intros ->%list_elem_of_singleton.
  - pose proof (split_on_nonempty c s). case_bool_decide as Ha.
    + rewrite elem_of_cons. intros [->|?]; [done|auto].
    + destruct (split_on c s) as [|h t] eqn:E; [done|].
      rewrite elem_of_cons. intros [->|Hp].
      * unfold list_contains_char. cbn. rewrite bool_decide_eq_false_2 by done.
        apply IH. set_solver.
      * apply IH. set_solver.
Qed.

Lemma starts_with_spec p s : starts_with p s = true <-> exists t, s = p ++ t.
Proof.
  revert s. induction p as [|a p IH]; intros s; [split; [by exists s|done]|].
  destruct s as [|b s]; cbn.
  - split; [done|]. intros [t Ht]. by rewrite str_app_cons in Ht.
  - rewrite andb_true_iff, bool_decide_eq_true, IH. split.
    + intros [-> [t ->]]. exists t. by rewrite str_app_cons.
    + intros [t Ht]. rewrite str_app_cons in Ht. simplify_eq. eauto.
Qed.

Lemma py_take_len n s : (py_len (py_take n s) <= n)%nat.
Proof.
  revert n. induction s as [|c s IH]; intros n; cbn; [lia|].
  destruct (is_cont c) eqn:E; cbn; [rewrite E; apply IH|].
  destruct n; cbn; [lia|]. rewrite E. specialize (IH n). lia.
Qed.

Lemma nonempty_false s : nonempty s = false <-> s = "".
Proof. by destruct s. Qed.
Lemma nonempty_true s : nonempty s = true <-> s <> "".
Proof. by destruct s. Qed.

#[export] Hint Resolve py_take_len split_on_nonempty : cplane.
