(* ===== verification/PyText.v ===== *)
(** * The text of numbers

    [str(z)] is a text of digits that [int] and a digit scanner read back, and
    stripping leaves a text without white space as it is. *)
From S2P Require Import Prelude PyVal.
Local Open Scope string_scope.
Local Open Scope Z_scope.
Local Open Scope list_scope.

(** ** Stripping and [int] *)
Lemma str_rev_involutive s : str_rev (str_rev s) = s.
Proof.
  unfold str_rev. rewrite String.list_ascii_of_string_of_list_ascii, rev_involutive.
  apply String.string_of_list_ascii_of_string.
Qed.

Lemma str_rev_app s t : str_rev (s ++ t) = (str_rev t ++ str_rev s)%string.
Proof.
  assert (Hl : forall a b, String.list_ascii_of_string (a ++ b) = String.list_ascii_of_string a ++ String.list_ascii_of_string b).
  { induction a as [|c a IH]; intros b; [done|]. rewrite str_app_cons. cbn. by rewrite IH. }
  assert (Hs : forall a b, String.string_of_list_ascii (a ++ b) = (String.string_of_list_ascii a ++ String.string_of_list_ascii b)%string).
  { induction a as [|c a IH]; intros b; [done|]. cbn. by rewrite IH, str_app_cons. }
  unfold str_rev. by rewrite Hl, rev_app_distr, Hs.
Qed.

Lemma lstrip_id s : str_forallb (fun c => negb (is_space c)) s = true -> lstrip s = s.
Proof. destruct s as [|c s]; [done|]. cbn. by destruct (is_space c). Qed.

Lemma str_forallb_list p s : str_forallb p s = forallb p (String.list_ascii_of_string s).
Proof. induction s as [|c s IH]; cbn; [done|]. by rewrite IH. Qed.

Lemma str_forallb_rev p s : str_forallb p (str_rev s) = str_forallb p s.
Proof.
  rewrite !str_forallb_list. unfold str_rev. rewrite String.list_ascii_of_string_of_list_ascii.
  apply eq_true_iff_eq. rewrite !forallb_forall. split; intros H x Hx; apply H; [by apply -> in_rev|by apply in_rev].
Qed.

Lemma py_strip_id s : str_forallb (fun c => negb (is_space c)) s = true -> py_strip s = s.
Proof.
  intros Hs. unfold py_strip. rewrite (lstrip_id s Hs), lstrip_id by (by rewrite str_forallb_rev).
  apply str_rev_involutive.
Qed.

Lemma digit_not_space c : is_digit c = true -> negb (is_space c) = true.
Proof. destruct c as [[] [] [] [] [] [] [] []]; vm_compute; congruence. Qed.
Lemma digit_not_sign c : is_digit c = true -> c <> "-"%char /\ c <> "+"%char.
Proof. destruct c as [[] [] [] [] [] [] [] []]; vm_compute; split; congruence. Qed.

Lemma str_forallb_impl (p q : ascii -> bool) s : (forall c, p c = true -> q c = true) ->
  str_forallb p s = true -> str_forallb q s = true.
Proof.
  intros H. induction s as [|c s IH]; [done|]. cbn. rewrite !andb_true_iff. intros [? ?]. auto.
Qed.

Lemma py_int_digits s z : str_forallb is_digit s = true -> digits_us 0 false s = Some z -> py_int s = Ok z.
Proof.
  intros Hs Hd. unfold py_int.
  rewrite py_strip_id by (eapply str_forallb_impl; [|exact Hs]; apply digit_not_space).
  destruct s as [|c s]; [done|]. cbn in Hs. apply andb_true_iff in Hs as [Hc _].
  pose proof (digit_not_sign c Hc) as [Hm Hp].
  destruct c as [[] [] [] [] [] [] [] []]; try (by rewrite Hd); vm_compute in Hc; congruence.
Qed.

Lemma pretty_char_digit n : (n < 10)%N -> is_digit (pretty_N_char n) = true /\ digit_val (pretty_N_char n) = Z.of_N n.
Proof.
  intros Hn. assert (Hc : n = 0%N \/ n = 1%N \/ n = 2%N \/ n = 3%N \/ n = 4%N \/ n = 5%N \/ n = 6%N \/ n = 7%N \/
    n = 8%N \/ n = 9%N) by lia.
  repeat destruct Hc as [->|Hc]; try (vm_compute; split; reflexivity). subst. vm_compute; split; reflexivity.
Qed.

Lemma pretty_N_go_digits x : forall s pd, (0 < x)%N ->
  str_forallb is_digit (pretty_N_go x s) = str_forallb is_digit s /\
  digits_us 0 pd (pretty_N_go x s) = digits_us (Z.of_N x) true s.
Proof.
  induction (N.lt_wf_0 x) as [x _ IH]. intros s pd Hx.
  rewrite pretty_N_go_step by lia.
  pose proof (pretty_char_digit (x mod 10) ltac:(apply N.mod_lt; lia)) as [Hc Hv].
  destruct (decide (x < 10)%N) as [Hlt|Hge].
  - rewrite N.div_small, N.mod_small in * by lia. rewrite pretty_N_go_0. cbn. rewrite Hc, Hv. cbn. done.
  - destruct (IH (x / 10)%N) with (s := String (pretty_N_char (x mod 10)) s) (pd := pd) as [H1 H2].
    { apply N.div_lt; lia. }
    { apply N.div_str_pos. lia. }
    rewrite H1, H2. cbn. rewrite Hc, Hv. cbn. split; [done|]. f_equal.
    rewrite N2Z.inj_div, N2Z.inj_mod. pose proof (Z.div_mod (Z.of_N x) 10). lia.
Qed.

Lemma str_of_nonneg z : 0 <= z ->
  str_forallb is_digit (str_of_Z z) = true /\ digits_us 0 false (str_of_Z z) = Some z.
Proof.
  intros Hz. unfold str_of_Z. destruct (decide (z = 0)) as [->|]; [vm_compute; auto|].
  assert (Hp : pretty z = pretty_N_go (Z.to_N z) "").
  { destruct z as [|p|p]; [done| |lia]. change (pretty (Z.pos p)) with (pretty (N.pos p)).
    unfold pretty, pretty_N. cbn. by rewrite decide_False by done. }
  rewrite Hp. destruct (pretty_N_go_digits (Z.to_N z) "" false) as [-> ->]; [lia|].
  cbn. split; [done|]. f_equal. lia.
Qed.

(** [int(str(z)) = z] on the sizes the code writes. *)
Lemma py_int_str z : 0 <= z -> py_int (str_of_Z z) = Ok z.
Proof. intros Hz. destruct (str_of_nonneg z Hz). by apply py_int_digits. Qed.

(** ** Numerals without a leading zero *)
Lemma pretty_N_go_head x : forall s, (0 < x)%N -> exists c t, pretty_N_go x s = String c t /\ c <> "0"%char.
Proof.
  induction (N.lt_wf_0 x) as [x _ IH]. intros s Hx. rewrite pretty_N_go_step by lia.
  destruct (decide (x < 10)%N) as [Hlt|Hge].
  - rewrite N.div_small, N.mod_small by lia. rewrite pretty_N_go_0. exists (pretty_N_char x), s. split; [done|].
    intros Hc. pose proof (pretty_char_digit x Hlt) as [_ Hv]. rewrite Hc in Hv. change (digit_val "0"%char) with 0 in Hv. lia.
  - apply IH; [apply N.div_lt; lia|apply N.div_str_pos; lia].
Qed.

Lemma pretty_pos z : 0 < z -> str_of_Z z = pretty_N_go (Z.to_N z) "".
Proof.
  intros Hz. destruct z as [|p|p]; [done| |lia]. unfold str_of_Z. change (pretty (Z.pos p)) with (pretty (N.pos p)).
  unfold pretty, pretty_N. cbn. by rewrite decide_False by done.
Qed.

Lemma str_of_pos_head z : 0 < z -> exists c t, str_of_Z z = String c t /\ c <> "0"%char.
Proof. intros Hz. rewrite pretty_pos by done. apply pretty_N_go_head. lia. Qed.

Lemma str_of_neg z : z < 0 -> str_of_Z z = String "-" (str_of_Z (- z)).
Proof. intros Hz. destruct z as [|p|p]; [lia|lia|]. reflexivity. Qed.

Lemma digits_us_val s : forall acc pd, str_forallb is_digit s = true -> (pd = true \/ s <> "") ->
  digits_us acc pd s = digits_val acc s.
Proof.
  induction s as [|c s IH]; intros acc pd Hd Hp; cbn in *; [by destruct Hp as [->|]|].
  apply andb_true_iff in Hd as [Hc Hs]. rewrite Hc. by apply IH; [|left].
Qed.

Lemma parse_digits_str z : 0 <= z -> parse_digits (str_of_Z z) = Some z.
Proof.
  intros Hz. destruct (str_of_nonneg z Hz) as [Hd Hv].
  assert (Hne : str_of_Z z <> "") by (by intros He; rewrite He in Hv).
  unfold parse_digits. destruct (str_of_Z z) eqn:E; [done|]. rewrite <- E in *. rewrite <- Hv. symmetry.
  apply digits_us_val; [done|by right].
Qed.
