(* ===== verification/Sha256.v ===== *)
(** * SHA-256 and HMAC (what the code uses of hashlib and hmac)

    FIPS 180-4 on 32-bit words as [Z] modulo 2^32, and RFC 2104 on top of it.
    A message is the list of the bytes of a [string]. *)
From S2P Require Import Prelude PyVal.
Local Open Scope string_scope.
Local Open Scope Z_scope.
Local Open Scope list_scope.

Definition w32 (z : Z) : Z := Z.land z 4294967295.
Definition rotr (n x : Z) : Z := Z.lor (Z.shiftr x n) (w32 (Z.shiftl x (32 - n))).

(** The constants of FIPS 180-4 (4.2.2, 5.3.3): the first 32 bits of the
    fractional parts of the cube roots of the first 64 primes, and of the
    square roots of the first eight. *)
Definition primes_below (m : Z) : list Z :=
  foldl (fun ps k => if forallb (fun p => negb (k mod p =? 0)) ps then ps ++ [k] else ps)
    [] (seqZ 2 (m - 2)).
Definition primes : list Z := primes_below 312.

(** The integer cube root of [z], from bit [n - 1] down. *)
Definition cbrt (n : nat) (z : Z) : Z :=
  foldr (fun k r => let r' := r + 2 ^ k in if r' ^ 3 <=? z then r' else r) 0 (seqZ 0 (Z.of_nat n)).

Definition K256 : list Z := Eval vm_compute in map (fun p => w32 (cbrt 36 (p * 2 ^ 96))) primes.
Definition H256 : list Z := Eval vm_compute in map (fun p => w32 (Z.sqrt (p * 2 ^ 64))) (take 8 primes).

(** The message schedule, newest word first. *)
Fixpoint schedule (n : nat) (w : list Z) : list Z :=
  match n with
  | O => w
  | S n' =>
      let at_ k := nth k w 0 in
      let x := at_ 14%nat in let s0 := Z.lxor (Z.lxor (rotr 7 x) (rotr 18 x)) (Z.shiftr x 3) in
      let y := at_ 1%nat in let s1 := Z.lxor (Z.lxor (rotr 17 y) (rotr 19 y)) (Z.shiftr y 10) in
      schedule n' (w32 (at_ 15%nat + s0 + at_ 6%nat + s1) :: w)
  end.

Definition round (h : list Z) (kw : Z * Z) : list Z :=
  match h with
  | [a; b; c; d; e; f; g; hh] =>
      let s1 := Z.lxor (Z.lxor (rotr 6 e) (rotr 11 e)) (rotr 25 e) in
      let ch := Z.lxor (Z.land e f) (Z.land (4294967295 - e) g) in
      let t1 := hh + s1 + ch + kw.1 + kw.2 in
      let s0 := Z.lxor (Z.lxor (rotr 2 a) (rotr 13 a)) (rotr 22 a) in
      let maj := Z.lxor (Z.lxor (Z.land a b) (Z.land a c)) (Z.land b c) in
      [w32 (t1 + s0 + maj); a; b; c; w32 (d + t1); e; f; g]
  | _ => h
  end.

Definition block (h : list Z) (w : list Z) : list Z :=
  let w64 := rev (schedule 48 (rev w)) in
  zip_with (fun x y => w32 (x + y)) h (foldl round h (zip K256 w64)).

(** ** Bytes and words *)
Definition bytes_of (s : string) : list Z := map (fun c => Z.of_N (code c)) (String.list_ascii_of_string s).

Fixpoint words (l : list Z) : list Z :=
  match l with
  | a :: b :: c :: d :: l' => (a * 16777216 + b * 65536 + c * 256 + d) :: words l'
  | _ => []
  end.

Fixpoint blocks (n : nat) (l : list Z) : list (list Z) :=
  match n with O => [] | S n' => take 16 l :: blocks n' (drop 16 l) end.

Definition be64 (z : Z) : list Z :=
  map (fun k => Z.land (Z.shiftr z (8 * k)) 255) [7; 6; 5; 4; 3; 2; 1; 0].

Definition pad (l : list Z) : list Z :=
  let n := Z.of_nat (length l) in
  l ++ [128] ++ repeat 0 (Z.to_nat ((55 - n) mod 64)) ++ be64 (8 * n).

Definition be32 (z : Z) : list Z := map (fun k => Z.land (Z.shiftr z (8 * k)) 255) [3; 2; 1; 0].

(** [hashlib.sha256(b).digest()] *)
Definition sha256 (l : list Z) : list Z :=
  let ws := words (pad l) in
  flat_map be32 (foldl block H256 (blocks (length ws / 16) ws)).

Definition hex_digit (z : Z) : ascii := ascii_of_N (Z.to_N (if z <? 10 then 48 + z else 87 + z)).
Fixpoint hex (l : list Z) : string :=
  match l with
  | [] => ""
  | b :: l' => String (hex_digit (b / 16)) (String (hex_digit (b mod 16)) (hex l'))
  end.

(** [hashlib.sha256(s.encode("utf-8")).hexdigest()] *)
Definition sha256_hex (s : string) : string := hex (sha256 (bytes_of s)).

(** [hmac.new(key, s.encode("utf-8"), hashlib.sha256).hexdigest()] *)
Definition hmac_key (key : list Z) : list Z :=
  let k := if (64 <? length key)%nat then sha256 key else key in
  k ++ repeat 0 (64 - length k).
Definition hmac_sha256 (key : string) (s : string) : string :=
  let k := hmac_key (bytes_of key) in
  let inner := sha256 (map (Z.lxor 54) k ++ bytes_of s) in
  hex (sha256 (map (Z.lxor 92) k ++ inner)).

(** The test vectors of the standards. *)
Example sha256_abc :
  sha256_hex "abc" = "ba7816bf8f01cfea414140de5dae2223b00361a396177a9cb410ff61f20015ad".
Proof. vm_compute. reflexivity. Qed.
Example sha256_empty :
  sha256_hex "" = "e3b0c44298fc1c149afbf4c8996fb92427ae41e4649b934ca495991b7852b855".
Proof. vm_compute. reflexivity. Qed.
Example sha256_two_blocks :
  sha256_hex "abcdbcdecdefdefgefghfghighijhijkijkljklmklmnlmnomnopnopq" =
  "248d6a61d20638b8e5c026930c3e6039a33ce45964ff2167f6ecedd419db06c1".
Proof. vm_compute. reflexivity. Qed.
Example hmac_jefe :
  hmac_sha256 "Jefe" "what do ya want for nothing?" =
  "5bdcc146bf60754e6a042426089575c75a003f089d2739839dec58b964ec3843".
Proof. vm_compute. reflexivity. Qed.

(** ** Lemmas *)
Lemma hex_length l : String.length (hex l) = (2 * length l)%nat.
Proof. induction l as [|b l IH]; cbn; [done|]. rewrite IH. lia. Qed.

Lemma hex_digit_ascii z : 0 <= z < 16 -> is_ascii_char (hex_digit z) = true.
Proof.
  intros Hz. unfold hex_digit. assert (Hc : z = 0 \/ z = 1 \/ z = 2 \/ z = 3 \/ z = 4 \/ z = 5 \/ z = 6 \/ z = 7 \/
    z = 8 \/ z = 9 \/ z = 10 \/ z = 11 \/ z = 12 \/ z = 13 \/ z = 14 \/ z = 15) by lia.
  repeat destruct Hc as [->|Hc]; try reflexivity. by subst.
Qed.

Lemma be32_range z : Forall (fun b => 0 <= b < 256) (be32 z).
Proof.
  unfold be32. apply Forall_fmap, Forall_forall. intros k _. cbn. change 255 with (Z.ones 8).
  rewrite Z.land_ones by lia. apply Z.mod_pos_bound. lia.
Qed.

Lemma sha256_range l : Forall (fun b => 0 <= b < 256) (sha256 l).
Proof.
  unfold sha256. generalize (foldl block H256 (blocks (length (words (pad l)) / 16) (words (pad l)))).
  intros ws. induction ws as [|w ws IH]; cbn [flat_map]; [constructor|]. apply Forall_app. split; [apply be32_range|done].
Qed.

Lemma hex_ascii l : Forall (fun b => 0 <= b < 256) l -> str_forallb is_ascii_char (hex l) = true.
Proof.
  induction 1 as [|b l Hb Hl IH]; [done|]. cbn [hex str_forallb].
  rewrite !hex_digit_ascii, IH; [done| |].
  - apply Z.mod_pos_bound. lia.
  - split; [apply Z.div_pos; lia|apply Z.div_lt_upper_bound; lia].
Qed.

(** A digest is a string of ASCII characters, as [hmac.compare_digest] requires. *)
Lemma hmac_ascii key s : str_forallb is_ascii_char (hmac_sha256 key s) = true.
Proof. apply hex_ascii, sha256_range. Qed.
