(* ===== verification/Utf8.v ===== *)
(** * UTF-8 as the code uses it

    [str.encode("utf-8")] and [bytes.decode("utf-8", errors="ignore")] between
    code points and bytes, both as [Z].  On an ill-formed sequence the decoder
    drops its longest well-formed prefix (at least one byte) and goes on. *)
From S2P Require Import Prelude PyVal.
Local Open Scope Z_scope.
Local Open Scope list_scope.

Definition between (a b x : Z) : bool := (a <=? x) && (x <=? b).
Definition cont (x : Z) : bool := between 128 191 x.

(** A code point a [str] that can be encoded holds: no surrogate. *)
Definition scalar (c : Z) : bool := between 0 55295 c || between 57344 1114111 c.

Definition encode1 (c : Z) : list Z :=
  if c <? 128 then [c]
  else if c <? 2048 then [192 + c / 64; 128 + c mod 64]
  else if c <? 65536 then [224 + c / 4096; 128 + (c / 64) mod 64; 128 + c mod 64]
  else [240 + c / 262144; 128 + (c / 4096) mod 64; 128 + (c / 64) mod 64; 128 + c mod 64].

Definition utf8_encode (l : list Z) : list Z := flat_map encode1 l.

(** The range of the second byte depends on the lead byte. *)
Definition second3 (b c : Z) : bool :=
  between (if b =? 224 then 160 else 128) (if b =? 237 then 159 else 191) c.
Definition second4 (b c : Z) : bool :=
  between (if b =? 240 then 144 else 128) (if b =? 244 then 143 else 191) c.

Fixpoint utf8_decode (l : list Z) : list Z :=
  match l with
  | [] => []
  | b :: r =>
      if b <? 128 then b :: utf8_decode r
      else if between 194 223 b then
        match r with
        | c1 :: r1 => if cont c1 then ((b - 192) * 64 + (c1 - 128)) :: utf8_decode r1 else utf8_decode r
        | [] => []
        end
      else if between 224 239 b then
        match r with
        | c1 :: r1 =>
            if second3 b c1 then
              match r1 with
              | c2 :: r2 =>
                  if cont c2 then ((b - 224) * 4096 + (c1 - 128) * 64 + (c2 - 128)) :: utf8_decode r2
                  else utf8_decode r1
              | [] => []
              end
            else utf8_decode r
        | [] => []
        end
      else if between 240 244 b then
        match r with
        | c1 :: r1 =>
            if second4 b c1 then
              match r1 with
              | c2 :: r2 =>
                  if cont c2 then
                    match r2 with
                    | c3 :: r3 =>
                        if cont c3 then
                          ((b - 240) * 262144 + (c1 - 128) * 4096 + (c2 - 128) * 64 + (c3 - 128)) :: utf8_decode r3
                        else utf8_decode r2
                    | [] => []
                    end
                  else utf8_decode r1
              | [] => []
              end
            else utf8_decode r
        | [] => []
        end
      else utf8_decode r
  end.

Example decode_split : utf8_decode [104; 195; 169; 195] = [104; 233].
Proof. reflexivity. Qed.
Example decode_resync : utf8_decode [226; 130; 65] = [65].
Proof. reflexivity. Qed.

(** ** Lemmas *)
Lemma between_spec a b x : between a b x = true <-> a <= x <= b.
Proof. unfold between. rewrite andb_true_iff, !Z.leb_le. done. Qed.
Lemma between_true a b x : a <= x <= b -> between a b x = true.
Proof. apply between_spec. Qed.
Lemma between_false a b x : x < a \/ b < x -> between a b x = false.
Proof. intros Hx. destruct (between a b x) eqn:E; [|done]. apply between_spec in E. lia. Qed.

Lemma decode_encode1 c l : scalar c = true -> utf8_decode (encode1 c ++ l) = c :: utf8_decode l.
Proof.
  intros Hc. assert (Hr : 0 <= c <= 55295 \/ 57344 <= c <= 1114111).
  { unfold scalar in Hc. apply orb_true_iff in Hc. by rewrite !between_spec in Hc. }
  unfold encode1. destruct (Z.ltb_spec c 128) as [H1|H1].
  { cbn. by rewrite (proj2 (Z.ltb_lt c 128) H1). }
  pose proof (Z.div_mod c 64 ltac:(lia)) as D1. pose proof (Z.mod_pos_bound c 64 ltac:(lia)) as M1.
  set (q := c / 64) in *. set (m := c mod 64) in *.
  destruct (Z.ltb_spec c 2048) as [H2|H2].
  { cbn [utf8_decode app]. rewrite (proj2 (Z.ltb_ge (192 + q) 128)) by lia.
    rewrite between_true by lia. unfold cont. rewrite between_true by lia. f_equal. lia. }
  assert (Hq : c / 4096 = q / 64) by (unfold q; rewrite Z.div_div by lia; done).
  pose proof (Z.div_mod q 64 ltac:(lia)) as D2. pose proof (Z.mod_pos_bound q 64 ltac:(lia)) as M2.
  rewrite Hq. set (q2 := q / 64) in *. set (m2 := q mod 64) in *.
  destruct (Z.ltb_spec c 65536) as [H3|H3].
  { cbn [utf8_decode app]. rewrite (proj2 (Z.ltb_ge (224 + q2) 128)) by lia.
    rewrite (between_false 194 223) by lia. rewrite between_true by lia.
    assert (Hs : second3 (224 + q2) (128 + m2) = true).
    { unfold second3. apply between_true.
      destruct (Z.eqb_spec (224 + q2) 224), (Z.eqb_spec (224 + q2) 237); lia. }
    rewrite Hs. unfold cont. rewrite between_true by lia. f_equal. lia. }
  assert (Hq2 : c / 262144 = q2 / 64) by (unfold q2, q; rewrite !Z.div_div by lia; done).
  pose proof (Z.div_mod q2 64 ltac:(lia)) as D3. pose proof (Z.mod_pos_bound q2 64 ltac:(lia)) as M3.
  rewrite Hq2. set (q3 := q2 / 64) in *. set (m3 := q2 mod 64) in *.
  cbn [utf8_decode app]. rewrite (proj2 (Z.ltb_ge (240 + q3) 128)) by lia.
  rewrite (between_false 194 223), (between_false 224 239) by lia. rewrite between_true by lia.
  assert (Hs : second4 (240 + q3) (128 + m3) = true).
  { unfold second4. apply between_true. destruct (Z.eqb_spec (240 + q3) 240), (Z.eqb_spec (240 + q3) 244); lia. }
  rewrite Hs. unfold cont. rewrite !between_true by lia. f_equal. lia.
Qed.

(** Decoding what was encoded gives the text back. *)
Lemma decode_encode l : Forall (fun c => scalar c = true) l -> utf8_decode (utf8_encode l) = l.
Proof.
  induction 1 as [|c l Hc Hl IH]; [done|]. unfold utf8_encode in *. cbn [flat_map].
  by rewrite decode_encode1, IH.
Qed.

Lemma decode_encode_app l r : Forall (fun c => scalar c = true) l ->
  utf8_decode (utf8_encode l ++ r) = l ++ utf8_decode r.
Proof.
  induction 1 as [|c l Hc Hl IH]; [done|]. unfold utf8_encode in *. cbn [flat_map].
  by rewrite <- app_assoc, decode_encode1, IH.
Qed.

Lemma encode_ascii l : Forall (fun c => 0 <= c < 128) l -> utf8_encode l = l.
Proof.
  induction 1 as [|c l Hc Hl IH]; [done|]. unfold utf8_encode in *. cbn [flat_map]. rewrite IH.
  unfold encode1. by rewrite (proj2 (Z.ltb_lt c 128)) by lia.
Qed.

Lemma ascii_scalar c : 0 <= c < 128 -> scalar c = true.
Proof. intros. unfold scalar. rewrite between_true by lia. done. Qed.
