(* ===== verification/Json.v ===== *)
(** * [json.dumps] (the encoder of the standard library)

    Default separators and [ensure_ascii], with and without [sort_keys].  The
    text of a float is [float.__repr__], the parameter [repr_other] of PyVal. *)
From S2P Require Import Prelude PyVal Sha256 Utf8.
Local Open Scope string_scope.
Local Open Scope Z_scope.
Local Open Scope list_scope.

Definition hex4 (z : Z) : string := hex [z / 256; z mod 256].

Definition chr (z : Z) : string := String (ascii_of_N (Z.to_N z)) "".

Definition dq : string := chr 34.
Definition newline : string := chr 10.

(** One code point inside a JSON string. *)
Definition escape_cp (c : Z) : string :=
  if c =? 34 then ("\" ++ dq)%string else if c =? 92 then "\\"
  else if c =? 10 then "\n" else if c =? 13 then "\r" else if c =? 9 then "\t"
  else if c =? 12 then "\f" else if c =? 8 then "\b"
  else if between 32 126 c then chr c
  else if c <? 65536 then ("\u" ++ hex4 c)%string
  else let v := c - 65536 in ("\u" ++ hex4 (55296 + v / 1024) ++ "\u" ++ hex4 (56320 + v mod 1024))%string.

Definition concat_str (l : list string) : string := foldr String.append "" l.
Definition json_string (s : string) : string :=
  (dq ++ concat_str (map escape_cp (utf8_decode (bytes_of s))) ++ dq)%string.

(** ** Sorting the keys *)
Fixpoint str_leb (a b : string) : bool :=
  match a, b with
  | EmptyString, _ => true
  | String _ _, EmptyString => false
  | String c a', String d b' => (code c <? code d)%N || (bool_decide (c = d) && str_leb a' b')
  end.

Fixpoint insert_key {A} (kv : string * A) (l : list (string * A)) : list (string * A) :=
  match l with
  | [] => [kv]
  | x :: l' => if str_leb kv.1 x.1 then kv :: l else x :: insert_key kv l'
  end.
Definition sort_items {A} (l : list (string * A)) : list (string * A) := foldr insert_key [] l.

(** [sorted] of texts: by code point, which is the order of their bytes. *)
Definition py_sorted (l : list string) : list string :=
  map fst (foldr insert_key [] (map (fun s => (s, tt)) l)).

(** ** The encoder *)
Section Json.
Context `{PyRepr}.

Fixpoint json_dumps (sort_keys : bool) (v : pyval) : string :=
  match v with
  | PNone => "null"
  | PBool b => if b then "true" else "false"
  | PInt z => str_of_Z z
  | PFloat q => repr_other (PFloat q)
  | PStr s => json_string s
  | PList l => ("[" ++ py_join ", " (map (json_dumps sort_keys) l) ++ "]")%string
  | PDict d =>
      let items := map (fun kv => (kv.1, (json_string kv.1 ++ ": " ++ json_dumps sort_keys kv.2)%string)) d in
      ("{" ++ py_join ", " (map snd (if sort_keys then sort_items items else items)) ++ "}")%string
  end.
End Json.

Example dumps_1 :
  @json_dumps (fun _ => "") true (PDict [("b", PList [PInt 1; PNone]); ("a", PStr "x")]) =
  ("{" ++ dq ++ "a" ++ dq ++ ": " ++ dq ++ "x" ++ dq ++ ", " ++ dq ++ "b" ++ dq ++ ": [1, null]}")%string.
Proof. vm_compute. reflexivity. Qed.
