(* ===== verification/JsonLoads.v ===== *)
(** * [json.loads] (the decoder of the standard library)

    The scanner over a text's bytes, strict about control characters as the
    default is.  The value of a numeral with a fraction or an exponent, and of
    [NaN] and [Infinity], is [float]'s, the parameter [float_of]; a lone
    surrogate escape is kept as its three bytes, and the depth and length
    limits of the interpreter are left out. *)
From S2P Require Import Prelude PyVal PyText Sha256 Utf8 Json.
Local Open Scope string_scope.
Local Open Scope Z_scope.
Local Open Scope list_scope.

Definition code_z (c : ascii) : Z := Z.of_N (code c).
Definition str_of_bytes (l : list Z) : string :=
  String.string_of_list_ascii (map (fun z => ascii_of_N (Z.to_N z)) l).

(** ** Characters and literals *)
Definition json_space (c : ascii) : bool :=
  (code_z c =? 32) || (code_z c =? 9) || (code_z c =? 10) || (code_z c =? 13).
Fixpoint skip_ws (s : string) : string :=
  match s with String c s' => if json_space c then skip_ws s' else s | EmptyString => "" end.

(** The rest of [s] after the literal [p]. *)
Fixpoint after (p s : string) : option string :=
  match p, s with
  | EmptyString, _ => Some s
  | String a p', String b s' => if bool_decide (a = b) then after p' s' else None
  | String _ _, EmptyString => None
  end.

Definition hex_val (c : ascii) : option Z :=
  let z := code_z c in
  if between 48 57 z then Some (z - 48) else if between 97 102 z then Some (z - 87)
  else if between 65 70 z then Some (z - 55) else None.

(** Four hexadecimal digits. *)
Definition read4 (s : string) : option (Z * string) :=
  match s with
  | String a (String b (String c (String d r))) =>
      match hex_val a, hex_val b, hex_val c, hex_val d with
      | Some w, Some x, Some y, Some z => Some (((w * 16 + x) * 16 + y) * 16 + z, r)
      | _, _, _, _ => None
      end
  | _ => None
  end.

Definition simple_escape (c : ascii) : option Z :=
  let z := code_z c in
  if (z =? 34) || (z =? 92) || (z =? 47) then Some z
  else if z =? 98 then Some 8 else if z =? 102 then Some 12 else if z =? 110 then Some 10
  else if z =? 114 then Some 13 else if z =? 116 then Some 9 else None.

Definition high_surrogate (z : Z) : bool := between 55296 56319 z.
Definition low_surrogate (z : Z) : bool := between 56320 57343 z.

(** A string after its opening quote: its text and what follows the closing one. *)
Fixpoint scan_string (fuel : nat) (s : string) : option (list Z * string) :=
  let cons l r := match r with Some (t, rest) => Some (l ++ t, rest) | None => None end in
  match fuel, s with
  | O, _ | _, EmptyString => None
  | S fuel, String c r =>
      if code_z c =? 34 then Some ([], r)
      else if code_z c =? 92 then
        match r with
        | EmptyString => None
        | String e r =>
            match simple_escape e with
            | Some z => cons [z] (scan_string fuel r)
            | None =>
                if negb (code_z e =? 117) then None else
                match read4 r with
                | None => None
                | Some (u, r) =>
                    match (if high_surrogate u then
                             match after "\u" r with Some r2 => read4 r2 | None => None end
                           else None) with
                    | Some (v, r2) =>
                        if low_surrogate v
                        then cons (encode1 (65536 + (u - 55296) * 1024 + (v - 56320))) (scan_string fuel r2)
                        else cons (encode1 u) (scan_string fuel r)
                    | None => cons (encode1 u) (scan_string fuel r)
                    end
                end
            end
        end
      else if code_z c <? 32 then None
      else cons [code_z c] (scan_string fuel r)
  end.

(** ** Numbers *)
Fixpoint span_digits (s : string) : string * string :=
  match s with
  | String c s' => if is_digit c then let '(d, r) := span_digits s' in (String c d, r) else ("", s)
  | EmptyString => ("", "")
  end.

(** The optional fraction and exponent of a numeral. *)
Definition scan_frac (s : string) : string * string :=
  match s with
  | String c r =>
      if code_z c =? 46 then
        match span_digits r with (EmptyString, _) => ("", s) | (d, r) => (String c d, r) end
      else ("", s)
  | EmptyString => ("", "")
  end.
Definition scan_exp (s : string) : string * string :=
  match s with
  | String e r =>
      if (code_z e =? 101) || (code_z e =? 69) then
        let '(sign, r) := match r with
                          | String c r' => if (code_z c =? 43) || (code_z c =? 45) then (String c "", r') else ("", r)
                          | EmptyString => ("", "")
                          end in
        match span_digits r with (EmptyString, _) => ("", s) | (d, r) => ((String e sign ++ d)%string, r) end
      else ("", s)
  | EmptyString => ("", "")
  end.

Section Loads.
Context (float_of : string -> pyval).

Definition scan_number (s : string) : option (pyval * string) :=
  let '(sign, t) := match s with
                    | String c r => if code_z c =? 45 then (String c "", r) else ("", s)
                    | EmptyString => ("", "")
                    end in
  let '(digits, r) := match t with
                      | String c r => if code_z c =? 48 then (String c "", r) else span_digits t
                      | EmptyString => ("", "")
                      end in
  if negb (nonempty digits) then None else
  let '(frac, r) := scan_frac r in
  let '(ex, r) := scan_exp r in
  if nonempty frac || nonempty ex then Some (float_of (sign ++ digits ++ frac ++ ex)%string, r)
  else
    let z := default 0 (parse_digits digits) in
    Some (PInt (if nonempty sign then - z else z), r).

(** ** Values *)
Definition literals : list (string * pyval) :=
  [("null", PNone); ("true", PBool true); ("false", PBool false); ("NaN", float_of "NaN");
   ("Infinity", float_of "Infinity"); ("-Infinity", float_of "-Infinity")].
Fixpoint scan_literal (ls : list (string * pyval)) (s : string) : option (pyval * string) :=
  match ls with
  | [] => None
  | (t, v) :: ls' => match after t s with Some r => Some (v, r) | None => scan_literal ls' s end
  end.

(** The value at the start of [s] and what follows it; [None] when the text has an error. *)
Fixpoint scan_value (fuel : nat) (s : string) : option (pyval * string) :=
  match fuel with
  | O => None
  | S fuel =>
      match s with
      | EmptyString => None
      | String c r =>
          if code_z c =? 34 then
            match scan_string (S (String.length r)) r with
            | Some (t, rest) => Some (PStr (str_of_bytes t), rest)
            | None => None
            end
          else if code_z c =? 123 then
            match after "}" (skip_ws r) with
            | Some rest => Some (PDict [], rest)
            | None => match scan_members fuel [] (skip_ws r) with Some (d, rest) => Some (PDict d, rest) | None => None end
            end
          else if code_z c =? 91 then
            match after "]" (skip_ws r) with
            | Some rest => Some (PList [], rest)
            | None => match scan_elements fuel (skip_ws r) with Some (l, rest) => Some (PList l, rest) | None => None end
            end
          else match scan_literal literals s with Some x => Some x | None => scan_number s end
      end
  end
with scan_elements (fuel : nat) (s : string) : option (list pyval * string) :=
  match fuel with
  | O => None
  | S fuel =>
      match scan_value fuel s with
      | None => None
      | Some (v, r) =>
          match after "]" (skip_ws r) with
          | Some rest => Some ([v], rest)
          | None =>
              match after "," (skip_ws r) with
              | None => None
              | Some r => match scan_elements fuel (skip_ws r) with Some (l, rest) => Some (v :: l, rest) | None => None end
              end
          end
      end
  end
with scan_members (fuel : nat) (d : obj) (s : string) : option (obj * string) :=
  match fuel with
  | O => None
  | S fuel =>
      match s with
      | EmptyString => None
      | String q r =>
          if negb (code_z q =? 34) then None else
          match scan_string (S (String.length r)) r with
          | None => None
          | Some (k, r) =>
              match after ":" (skip_ws r) with
              | None => None
              | Some r =>
                  match scan_value fuel (skip_ws r) with
                  | None => None
                  | Some (v, r) =>
                      let d := dict_set d (str_of_bytes k) v in
                      match after "}" (skip_ws r) with
                      | Some rest => Some (d, rest)
                      | None => match after "," (skip_ws r) with
                                | None => None
                                | Some r => scan_members fuel d (skip_ws r)
                                end
                      end
                  end
              end
          end
      end
  end.

(** [json.loads]: [None] is the [JSONDecodeError]. *)
Definition json_loads (s : string) : option pyval :=
  match scan_value (2 * String.length s) (skip_ws s) with
  | Some (v, rest) => match skip_ws rest with EmptyString => Some v | _ => None end
  | None => None
  end.
End Loads.

Definition floats0 : string -> pyval := fun _ => PFloat 0.
Definition loads0 : string -> option pyval := json_loads floats0.
Example loads_1 :
  loads0 (" {" ++ dq ++ "a" ++ dq ++ " : [1, -20,null ,{}] , " ++ dq ++ "b\u00e9\ud83d\ude00" ++ dq ++ ":" ++ dq ++ "x\n" ++ dq ++ "} ")%string =
  Some (PDict [("a", PList [PInt 1; PInt (-20); PNone; PDict []]);
    (str_of_bytes [98; 195; 169; 240; 159; 152; 128], PStr ("x" ++ chr 10)%string)]).
Proof. vm_compute. reflexivity. Qed.
Example loads_bad : map loads0 [""; "[1,]"; "{}x"; "01"; "tru"; "[1"; "1.5"; "nul"] =
  [None; None; None; None; None; None; Some (PFloat 0); None].
Proof. vm_compute. reflexivity. Qed.

(** ** The scanner moves forward *)
Lemma str_length_app s t : String.length (s ++ t) = (String.length s + String.length t)%nat.
Proof. induction s as [|c s IH]; [done|]. rewrite str_app_cons. cbn. by rewrite IH. Qed.

Lemma skip_ws_le s : (String.length (skip_ws s) <= String.length s)%nat.
Proof. induction s as [|c s IH]; cbn; [done|]. destruct (json_space c); cbn; lia. Qed.

Lemma after_length p : forall s r, after p s = Some r -> String.length s = (String.length p + String.length r)%nat.
Proof.
  induction p as [|a p IH]; intros s r; cbn; [intros; by simplify_eq|]. destruct s as [|b s]; [done|].
  case_bool_decide; [|done]. intros Hr%IH. cbn. lia.
Qed.

Lemma read4_length s z r : read4 s = Some (z, r) -> (String.length r < String.length s)%nat.
Proof.
  destruct s as [|a [|b [|c [|d s]]]]; cbn; try done.
  destruct (hex_val a), (hex_val b), (hex_val c), (hex_val d); try done. intros; simplify_eq. lia.
Qed.

Ltac forward := repeat match goal with
  | H : after _ _ = Some _ |- _ => apply after_length in H; cbn [String.length] in H
  | H : read4 _ = Some _ |- _ => apply read4_length in H
  | H : context [String.length (skip_ws ?s)] |- _ => learn_hyp (skip_ws_le s)
  | |- context [String.length (skip_ws ?s)] => learn_hyp (skip_ws_le s)
  end.

Lemma scan_string_length n : forall s t r, scan_string n s = Some (t, r) -> (String.length r < String.length s)%nat.
Proof.
  induction n as [|n IH]; intros s t r; [done|]. destruct s as [|c s]; [done|]. cbn [scan_string String.length].
  destruct (code_z c =? 34); [intros; simplify_eq; lia|].
  destruct (code_z c =? 92).
  - destruct s as [|e s]; [done|]. cbn [String.length]. destruct (simple_escape e).
    + destruct (scan_string n s) as [[? ?]|] eqn:E; [|done]. intros; simplify_eq. apply IH in E. lia.
    + destruct (negb _); [done|]. destruct (read4 s) as [[u s1]|] eqn:E1; [|done].
      destruct (if high_surrogate u then _ else _) as [[v s2]|] eqn:E2.
      * assert (String.length s2 < String.length s1)%nat.
        { destruct (high_surrogate u); [|done]. destruct (after "\u" s1) eqn:Ea; [|done]. forward. lia. }
        forward. destruct (low_surrogate v).
        -- destruct (scan_string n s2) as [[? ?]|] eqn:E; [|done]. intros; simplify_eq. apply IH in E. lia.
        -- destruct (scan_string n s1) as [[? ?]|] eqn:E; [|done]. intros; simplify_eq. apply IH in E. lia.
      * forward. destruct (scan_string n s1) as [[? ?]|] eqn:E; [|done]. intros; simplify_eq. apply IH in E. lia.
  - destruct (code_z c <? 32); [done|]. destruct (scan_string n s) as [[? ?]|] eqn:E; [|done].
    intros; simplify_eq. apply IH in E. lia.
Qed.

Lemma span_digits_length s : (String.length (span_digits s).2 + String.length (span_digits s).1 = String.length s)%nat.
Proof.
  induction s as [|c s IH]; [done|]. cbn. destruct (is_digit c); [|done].
  destruct (span_digits s). cbn in *. lia.
Qed.
Lemma scan_frac_length s : (String.length (scan_frac s).2 <= String.length s)%nat.
Proof.
  destruct s as [|c s]; [done|]. cbn. destruct (code_z c =? 46); [|done].
  pose proof (span_digits_length s). destruct (span_digits s) as [[|d ds] r]; cbn in *; lia.
Qed.
Lemma scan_exp_length s : (String.length (scan_exp s).2 <= String.length s)%nat.
Proof.
  destruct s as [|c s]; [done|]. cbn. destruct (_ || _); [|done].
  destruct s as [|b s]; [done|]. destruct (_ || _).
  - pose proof (span_digits_length s). destruct (span_digits s) as [[|d ds] r]; cbn in *; lia.
  - pose proof (span_digits_length (String b s)). destruct (span_digits (String b s)) as [[|d ds] r]; cbn in *; lia.
Qed.

Section LoadsLemmas.
Context (float_of : string -> pyval).

Lemma scan_number_length s v r : scan_number float_of s = Some (v, r) -> (String.length r < String.length s)%nat.
Proof.
  unfold scan_number.
  set (p := match s with String c t => if code_z c =? 45 then (String c "", t) else ("", s) | EmptyString => ("", "") end).
  assert (Hp : (String.length p.2 <= String.length s)%nat).
  { subst p. destruct s as [|c s]; [done|]. destruct (code_z c =? 45); cbn; lia. }
  destruct p as [sign t]. cbn [snd] in Hp.
  set (q := match t with String c r => if code_z c =? 48 then (String c "", r) else span_digits t | EmptyString => ("", "") end).
  assert (Hq : (String.length q.2 + String.length q.1 = String.length t)%nat).
  { subst q. destruct t as [|c t]; [done|]. destruct (code_z c =? 48); [cbn; lia|apply span_digits_length]. }
  destruct q as [digits r1]. cbn [fst snd] in Hq.
  pose proof (scan_frac_length r1) as Hf. destruct (scan_frac r1) as [frac r2]. cbn [snd] in Hf.
  pose proof (scan_exp_length r2) as He. destruct (scan_exp r2) as [ex r3]. cbn [snd] in He.
  destruct digits as [|d ds]; [done|]. cbn [nonempty negb String.length] in *.
  destruct (nonempty frac || nonempty ex); intros; simplify_eq; lia.
Qed.

Lemma scan_literal_length ls s v r : Forall (fun x : string * pyval => x.1 <> "") ls ->
  scan_literal ls s = Some (v, r) -> (String.length r < String.length s)%nat.
Proof.
  induction 1 as [|[t w] ls Ht _ IH]; cbn; [done|]. destruct (after t s) eqn:Ea; [|exact IH].
  intros; simplify_eq. forward. destruct t; [done|]. cbn in *. lia.
Qed.

Lemma scan_lengths n :
  (forall s v r, scan_value float_of n s = Some (v, r) -> (String.length r < String.length s)%nat) /\
  (forall s l r, scan_elements float_of n s = Some (l, r) -> (String.length r < String.length s)%nat) /\
  (forall d s d' r, scan_members float_of n d s = Some (d', r) -> (String.length r < String.length s)%nat).
Proof.
  induction n as [|n (IHv & IHe & IHm)]; [done|]. split_and!.
  - intros s v r. cbn [scan_value]. destruct s as [|c s]; [done|]. cbn [String.length].
    destruct (code_z c =? 34).
    { destruct (scan_string _ s) as [[? ?]|] eqn:E; [|done]. intros; simplify_eq. apply scan_string_length in E. lia. }
    destruct (code_z c =? 123).
    { destruct (after "}" _) eqn:Ea; [intros; simplify_eq; forward; lia|].
      destruct (scan_members _ _ _ _) as [[? ?]|] eqn:E; [|done]. intros; simplify_eq. apply IHm in E. forward. lia. }
    destruct (code_z c =? 91).
    { destruct (after "]" _) eqn:Ea; [intros; simplify_eq; forward; lia|].
      destruct (scan_elements _ _ _) as [[? ?]|] eqn:E; [|done]. intros; simplify_eq. apply IHe in E. forward. lia. }
    destruct (scan_literal _ _) as [[? ?]|] eqn:E.
    + intros; simplify_eq. apply scan_literal_length in E; [cbn in E; lia|]. unfold literals. by repeat constructor.
    + intros H%scan_number_length. cbn in H. lia.
  - intros s l r. cbn [scan_elements]. destruct (scan_value _ n s) as [[v r1]|] eqn:Ev; [|done]. apply IHv in Ev.
    destruct (after "]" _) eqn:Ea; [intros; simplify_eq; forward; lia|].
    destruct (after "," _) eqn:Eb; [|done]. destruct (scan_elements _ n _) as [[? ?]|] eqn:E; [|done].
    intros; simplify_eq. apply IHe in E. forward. lia.
  - intros d s d' r. cbn [scan_members]. destruct s as [|q s]; [done|]. cbn [String.length]. destruct (negb _); [done|].
    destruct (scan_string _ s) as [[k r1]|] eqn:Ek; [|done]. apply scan_string_length in Ek.
    destruct (after ":" _) eqn:Ec; [|done]. destruct (scan_value _ n _) as [[v r2]|] eqn:Ev; [|done]. apply IHv in Ev.
    destruct (after "}" _) eqn:Ea; [intros; simplify_eq; forward; lia|].
    destruct (after "," _) eqn:Eb; [|done]. intros H%IHm. forward. lia.
Qed.

(** One step of each scanner. *)
Lemma elements_S n s : scan_elements float_of (S n) s =
  ltac:(let t := eval cbn [scan_elements] in (scan_elements float_of (S n) s) in exact t).
Proof. reflexivity. Qed.
Lemma members_S n d s : scan_members float_of (S n) d s =
  ltac:(let t := eval cbn [scan_members] in (scan_members float_of (S n) d s) in exact t).
Proof. reflexivity. Qed.
Lemma value_S n s : scan_value float_of (S n) s =
  ltac:(let t := eval cbn [scan_value] in (scan_value float_of (S n) s) in exact t).
Proof. reflexivity. Qed.

(** Twice the length of the text is fuel enough: more changes nothing. *)
Lemma scan_fuel_step n :
  (forall s, (2 * String.length s <= n)%nat -> scan_value float_of (S n) s = scan_value float_of n s) /\
  (forall s, (2 * String.length s < n)%nat -> scan_elements float_of (S n) s = scan_elements float_of n s) /\
  (forall d s, (2 * String.length s < n)%nat -> scan_members float_of (S n) d s = scan_members float_of n d s).
Proof.
  induction n as [|n (IHv & IHe & IHm)].
  { split_and!; try lia. intros [|c s]; cbn [String.length]; [done|lia]. }
  split_and!.
  - intros s Hs. destruct s as [|c s]; [done|].
    cbn [String.length] in Hs. rewrite (value_S (S n)), (value_S n). pose proof (skip_ws_le s).
    by rewrite IHm, IHe by lia.
  - intros s Hs. rewrite (elements_S (S n)), (elements_S n).
    rewrite IHv by lia. destruct (scan_value _ n s) as [[v r]|] eqn:Ev; [|done].
    apply (proj1 (scan_lengths n)) in Ev. destruct (after "]" _) eqn:Ea; [done|].
    destruct (after "," _) as [r2|] eqn:Eb; [|done]. forward. pose proof (skip_ws_le r2). by rewrite IHe by lia.
  - intros d s Hs. destruct s as [|q s]; [done|]. cbn [String.length] in Hs.
    rewrite (members_S (S n)), (members_S n).
    destruct (negb _); [done|]. destruct (scan_string _ s) as [[k r]|] eqn:Ek; [|done].
    apply scan_string_length in Ek. destruct (after ":" _) as [r1|] eqn:Ec; [|done]. forward. pose proof (skip_ws_le r1). rewrite IHv by lia.
    destruct (scan_value _ n _) as [[v r2]|] eqn:Ev; [|done]. apply (proj1 (scan_lengths n)) in Ev.
    destruct (after "}" _) eqn:Ea; [done|]. destruct (after "," _) as [r3|] eqn:Eb; [|done]. forward. pose proof (skip_ws_le r3). by rewrite IHm by lia.
Qed.

Lemma scan_value_fuel n s : (2 * String.length s <= n)%nat ->
  scan_value float_of n s = scan_value float_of (2 * String.length s) s.
Proof.
  intros Hn. replace n with (2 * String.length s + (n - 2 * String.length s))%nat by lia.
  generalize (n - 2 * String.length s)%nat as k. induction k as [|k IH]; [f_equal; lia|].
  rewrite <- IH. replace (2 * String.length s + S k)%nat with (S (2 * String.length s + k)) by lia.
  apply (proj1 (scan_fuel_step _)). lia.
Qed.
End LoadsLemmas.

(** ** Strings *)
Lemma code_chr z : 0 <= z < 256 -> code_z (ascii_of_N (Z.to_N z)) = z.
Proof. intros Hz. unfold code_z, code. rewrite N_ascii_embedding by lia. lia. Qed.

Lemma after_app p s : after p (p ++ s) = Some s.
Proof. induction p as [|a p IH]; [done|]. rewrite str_app_cons. cbn. by rewrite bool_decide_char. Qed.

Lemma hex_val_digit d : 0 <= d < 16 -> hex_val (hex_digit d) = Some d.
Proof.
  intros Hd. assert (Hall : forallb (fun d => bool_decide (hex_val (hex_digit d) = Some d)) (seqZ 0 16) = true).
  { vm_compute. reflexivity. }
  rewrite forallb_forall in Hall. apply (bool_decide_unpack _), Is_true_true, Hall, list_elem_of_In, elem_of_seqZ. lia.
Qed.

Lemma read4_hex4 c r : 0 <= c < 65536 -> read4 (hex4 c ++ r) = Some (c, r).
Proof.
  intros Hc. unfold hex4. cbn [hex]. rewrite !str_app_cons, str_app_nil_l. cbn [read4].
  pose proof (Z.div_mod c 256 ltac:(lia)) as D. pose proof (Z.mod_pos_bound c 256 ltac:(lia)) as M. set (h := c / 256) in *. set (l := c mod 256) in *.
  pose proof (Z.div_mod h 16 ltac:(lia)). pose proof (Z.mod_pos_bound h 16 ltac:(lia)). pose proof (Z.div_mod l 16 ltac:(lia)). pose proof (Z.mod_pos_bound l 16 ltac:(lia)).
  rewrite !hex_val_digit by lia. do 2 f_equal. lia.
Qed.

Lemma simple_escape_u : simple_escape "u" = None.
Proof. reflexivity. Qed.

Lemma scan_char n c r t rest : 32 <= c < 256 -> c <> 34 -> c <> 92 -> scan_string n r = Some (t, rest) ->
  scan_string (S n) (chr c ++ r) = Some (c :: t, rest).
Proof.
  intros Hc Hq Hb Hr. unfold chr. rewrite str_app_cons, str_app_nil_l. cbn [scan_string]. rewrite code_chr by lia.
  rewrite (proj2 (Z.eqb_neq c 34)), (proj2 (Z.eqb_neq c 92)), (proj2 (Z.ltb_ge c 32)) by lia. by rewrite Hr.
Qed.

Lemma scan_simple n e z r t rest : simple_escape e = Some z -> scan_string n r = Some (t, rest) ->
  scan_string (S n) (String "\" (String e "") ++ r) = Some (z :: t, rest).
Proof. intros He Hr. rewrite !str_app_cons, str_app_nil_l. cbn. by rewrite He, Hr. Qed.

Lemma scan_u n u r t rest : 0 <= u < 65536 -> high_surrogate u = false -> scan_string n r = Some (t, rest) ->
  scan_string (S n) (("\u" ++ hex4 u) ++ r) = Some (encode1 u ++ t, rest).
Proof.
  intros Hu Hh Hr. rewrite str_app_assoc, !str_app_cons, str_app_nil_l. cbn [scan_string]. rewrite simple_escape_u.
  change (code_z "\" =? 34) with false. change (code_z "\" =? 92) with true. change (negb (code_z "u" =? 117)) with false.
  cbn match. rewrite read4_hex4 by done. rewrite Hh. by rewrite Hr.
Qed.

Lemma scan_pair n c r t rest : 65536 <= c < 1114112 -> scan_string n r = Some (t, rest) ->
  scan_string (S n) (("\u" ++ hex4 (55296 + (c - 65536) / 1024) ++ "\u" ++ hex4 (56320 + (c - 65536) mod 1024)) ++ r) =
  Some (encode1 c ++ t, rest).
Proof.
  intros Hc Hr. remember (c - 65536) as v eqn:Hv. pose proof (Z.div_mod v 1024 ltac:(lia)) as D. pose proof (Z.mod_pos_bound v 1024 ltac:(lia)) as M.
  set (q := v / 1024) in *. set (m := v mod 1024) in *.
  rewrite !str_app_assoc, (str_app_cons "\"), (str_app_cons "u"), str_app_nil_l. cbn [scan_string]. rewrite simple_escape_u.
  change (code_z "\" =? 34) with false. change (code_z "\" =? 92) with true. change (negb (code_z "u" =? 117)) with false.
  cbn match. rewrite read4_hex4 by lia. unfold high_surrogate. rewrite between_true by lia. rewrite after_app.
  rewrite read4_hex4 by lia. unfold low_surrogate. rewrite between_true by lia. rewrite Hr.
  by replace (65536 + (55296 + q - 55296) * 1024 + (56320 + m - 56320)) with c by lia.
Qed.

Lemma scan_escape n c r t rest : scalar c = true -> scan_string n r = Some (t, rest) ->
  scan_string (S n) (escape_cp c ++ r) = Some (encode1 c ++ t, rest).
Proof.
  intros Hs Hr. assert (Hc : 0 <= c <= 55295 \/ 57344 <= c <= 1114111).
  { unfold scalar in Hs. apply orb_true_iff in Hs. by rewrite !between_spec in Hs. }
  assert (Ha : c < 128 -> encode1 c = [c]) by (intros; unfold encode1; by rewrite (proj2 (Z.ltb_lt c 128))).
  unfold escape_cp.
  repeat match goal with |- context [if c =? ?k then _ else _] => destruct (Z.eqb_spec c k) as [->|?]; [by apply scan_simple|] end.
  destruct (between 32 126 c) eqn:Eb.
  { apply between_spec in Eb. rewrite Ha by lia. apply scan_char; (done || lia). }
  destruct (Z.ltb_spec c 65536).
  - apply scan_u; [lia| |done]. unfold high_surrogate. by apply between_false; lia.
  - cbv zeta. apply scan_pair; [lia|done].
Qed.

Lemma scan_escapes cps : forall n rest, Forall (fun c => scalar c = true) cps -> (length cps < n)%nat ->
  scan_string n (concat_str (map escape_cp cps) ++ dq ++ rest) = Some (utf8_encode cps, rest).
Proof.
  induction cps as [|c cps IH]; intros n rest Hs Hn; (destruct n as [|n]; [cbn in Hn; lia|]).
  - cbn [map concat_str foldr]. rewrite str_app_nil_l. unfold dq, chr. rewrite str_app_cons, str_app_nil_l. done.
  - apply Forall_cons in Hs as [Hc Hs]. cbn [map concat_str foldr]. rewrite str_app_assoc.
    apply scan_escape; [done|]. apply IH; [done|]. cbn in Hn. lia.
Qed.

Lemma bytes_of_range s : Forall (fun b => 0 <= b < 256) (bytes_of s).
Proof.
  unfold bytes_of. induction s as [|c s IH]; cbn; [constructor|]. constructor; [|done].
  pose proof (N_ascii_bounded c). unfold code. lia.
Qed.
Lemma str_of_bytes_of s : str_of_bytes (bytes_of s) = s.
Proof.
  unfold str_of_bytes, bytes_of. rewrite map_map. rewrite (map_ext _ id), map_id.
  - apply String.string_of_list_ascii_of_string.
  - intros c. unfold code. rewrite N2Z.id. apply ascii_N_embedding.
Qed.

(** The decoder gives no surrogate. *)
Lemma decode_scalar l : Forall (fun b => 0 <= b < 256) l -> Forall (fun c => scalar c = true) (utf8_decode l).
Proof.
  assert (Hs : forall c, 0 <= c <= 55295 \/ 57344 <= c <= 1114111 -> scalar c = true).
  { intros c Hc. unfold scalar. apply orb_true_iff. rewrite !between_spec. lia. }
  induction l as [l IH] using (induction_ltof1 _ (@length Z)). unfold ltof in IH. intros Hl.
  destruct l as [|b r]; [constructor|]. apply Forall_cons in Hl as [Hb Hr].
  assert (IHr : Forall (fun c => scalar c = true) (utf8_decode r)) by (apply IH; [cbn; lia|done]).
  cbn [utf8_decode]. destruct (Z.ltb_spec b 128); [constructor; [apply Hs; lia|done]|].
  destruct (between 194 223 b) eqn:E2.
  { destruct r as [|c1 r1]; [done|]. destruct (cont c1) eqn:C1; [|done]. apply between_spec in E2, C1.
    apply Forall_cons in Hr as [_ Hr]. constructor; [apply Hs; lia|]. apply IH; [cbn; lia|done]. }
  destruct (between 224 239 b) eqn:E3.
  { destruct r as [|c1 r1]; [done|]. destruct (second3 b c1) eqn:C1; [|done]. apply Forall_cons in Hr as [Hc1 Hr].
    destruct r1 as [|c2 r2]; [constructor|]. destruct (cont c2) eqn:C2; [|apply IH; [cbn; lia|done]].
    apply between_spec in E3, C1, C2. apply Forall_cons in Hr as [_ Hr]. constructor; [|apply IH; [cbn; lia|done]].
    apply Hs. destruct (Z.eqb_spec b 224), (Z.eqb_spec b 237); lia. }
  destruct (between 240 244 b) eqn:E4; [|done].
  destruct r as [|c1 r1]; [done|]. destruct (second4 b c1) eqn:C1; [|done]. apply Forall_cons in Hr as [Hc1 Hr].
  destruct r1 as [|c2 r2]; [constructor|]. destruct (cont c2) eqn:C2; [|apply IH; [cbn; lia|done]].
  destruct r2 as [|c3 r3]; [constructor|]. apply Forall_cons in Hr as [Hc2 Hr].
  destruct (cont c3) eqn:C3; [|apply IH; [cbn; lia|done]].
  apply between_spec in E4, C1, C2, C3. apply Forall_cons in Hr as [_ Hr]. constructor; [|apply IH; [cbn; lia|done]].
  apply Hs. destruct (Z.eqb_spec b 240), (Z.eqb_spec b 244); lia.
Qed.

(** A text that is well-formed UTF-8, as that of every [str] that can be written is. *)
Definition text_ok (s : string) : bool := bool_decide (utf8_encode (utf8_decode (bytes_of s)) = bytes_of s).

Lemma bytes_of_app s t : bytes_of (s ++ t) = bytes_of s ++ bytes_of t.
Proof. induction s as [|c s IH]; [done|]. rewrite str_app_cons. unfold bytes_of in *. cbn. by f_equal. Qed.

Lemma text_ok_app s t : text_ok s = true -> text_ok t = true -> text_ok (s ++ t) = true.
Proof.
  unfold text_ok. rewrite !bool_decide_eq_true, bytes_of_app. intros Hs Ht. rewrite <- Hs, <- Ht at 1.
  rewrite decode_encode_app by apply decode_scalar, bytes_of_range. rewrite Ht. unfold utf8_encode in *.
  rewrite flat_map_app. by rewrite Hs, Ht.
Qed.

Lemma text_ok_ascii s : str_forallb is_ascii_char s = true -> text_ok s = true.
Proof.
  intros Hs. apply bool_decide_eq_true. assert (Ha : Forall (fun c => 0 <= c < 128) (bytes_of s)).
  { unfold bytes_of. induction s as [|c s IH]; cbn; [constructor|]. cbn in Hs. apply andb_prop in Hs as [Hc Hs].
    constructor; [|by apply IH]. unfold is_ascii_char in Hc. apply N.ltb_lt in Hc. lia. }
  rewrite <- (encode_ascii (bytes_of s)) at 1 by done.
  rewrite decode_encode by (eapply Forall_impl; [exact Ha|]; apply ascii_scalar). by apply encode_ascii.
Qed.

Lemma escapes_length s : forall n, (String.length (concat_str (map escape_cp (utf8_decode (bytes_of s)))) <= n)%nat ->
  (length (utf8_decode (bytes_of s)) <= n)%nat.
Proof.
  generalize (utf8_decode (bytes_of s)) as l. unfold concat_str. intros l. induction l as [|c l IH]; cbn; [lia|].
  intros n Hn. rewrite str_length_app in Hn.
  assert (Hc : (1 <= String.length (escape_cp c))%nat).
  { unfold escape_cp, chr. repeat match goal with |- context [if ?b then _ else _] => destruct b end;
    cbv zeta; rewrite ?str_length_app; cbn [String.length]; lia. }
  destruct n as [|n]; [lia|]. specialize (IH n ltac:(lia)). lia.
Qed.

Lemma scan_json_string s rest : text_ok s = true ->
  let r := (concat_str (map escape_cp (utf8_decode (bytes_of s))) ++ dq)%string in
  (json_string s ++ rest)%string = String (ascii_of_nat 34) (r ++ rest) /\
  scan_string (S (String.length (r ++ rest))) (r ++ rest) = Some (bytes_of s, rest).
Proof.
  intros Hs. cbv zeta. split; [unfold json_string; by rewrite str_app_assoc|].
  rewrite str_app_assoc. apply bool_decide_eq_true in Hs. rewrite <- Hs at 3.
  apply scan_escapes; [apply decode_scalar, bytes_of_range|].
  rewrite str_length_app. pose proof (escapes_length s _ (le_n _)). lia.
Qed.

(** ** Numbers *)
(** What may follow a value that was written: nothing, a comma or a closing bracket. *)
Definition sep (s : string) : bool :=
  match s with EmptyString => true | String c _ => (code_z c =? 44) || (code_z c =? 93) || (code_z c =? 125) end.

Lemma sep_not_digit c r : sep (String c r) = true -> is_digit c = false /\ code_z c <> 46 /\ code_z c <> 101 /\ code_z c <> 69.
Proof.
  cbn. rewrite !orb_true_iff, !Z.eqb_eq. intros Hc. unfold is_digit, code_z in *. split; [|lia].
  apply andb_false_iff. rewrite !N.leb_gt. lia.
Qed.

Lemma span_digits_app d r : str_forallb is_digit d = true -> sep r = true -> span_digits (d ++ r) = (d, r).
Proof.
  intros Hd Hr. induction d as [|c d IH].
  - rewrite str_app_nil_l. destruct r as [|c r]; [done|]. cbn. by rewrite (proj1 (sep_not_digit _ _ Hr)).
  - cbn in Hd. apply andb_true_iff in Hd as [Hc Hd]. rewrite str_app_cons. cbn. by rewrite Hc, IH.
Qed.

Lemma scan_frac_sep r : sep r = true -> scan_frac r = ("", r).
Proof.
  destruct r as [|c r]; [done|]. intros Hr. pose proof (sep_not_digit _ _ Hr) as (_ & H & _). cbn.
  by rewrite (proj2 (Z.eqb_neq _ _) H).
Qed.
Lemma scan_exp_sep r : sep r = true -> scan_exp r = ("", r).
Proof.
  destruct r as [|c r]; [done|]. intros Hr. pose proof (sep_not_digit _ _ Hr) as (_ & _ & H1 & H2). cbn.
  by rewrite (proj2 (Z.eqb_neq _ _) H1), (proj2 (Z.eqb_neq _ _) H2).
Qed.

Lemma code_z_inj a b : code_z a = code_z b -> a = b.
Proof. unfold code_z, code. intros H. rewrite <- (ascii_N_embedding a), <- (ascii_N_embedding b). f_equal. lia. Qed.

Lemma scan_nonneg fl z r : 0 <= z -> sep r = true ->
  scan_number fl (str_of_Z z ++ r) = Some (PInt z, r) /\ scan_number fl (String "-" (str_of_Z z) ++ r) = Some (PInt (- z), r).
Proof.
  intros Hz Hr. destruct (str_of_nonneg z Hz) as [Hd Hv]. pose proof (parse_digits_str z Hz) as Hp.
  rewrite str_app_cons. unfold scan_number. change (code_z "-" =? 45) with true. cbn match.
  assert (Hq : match (str_of_Z z ++ r)%string with
               | EmptyString => ("", "")
               | String c t => if code_z c =? 48 then (String c "", t) else span_digits (str_of_Z z ++ r)
               end = (str_of_Z z, r)).
  { destruct (decide (z = 0)) as [->|Hnz].
    - change (str_of_Z 0) with "0". rewrite str_app_cons, str_app_nil_l. reflexivity.
    - destruct (str_of_pos_head z) as (c & t & Ec & Hc); [lia|]. rewrite <- (span_digits_app _ _ Hd Hr). rewrite Ec, str_app_cons.
      destruct (Z.eqb_spec (code_z c) 48) as [E|]; [|done]. by destruct Hc; apply code_z_inj. }
  assert (Hm : match (str_of_Z z ++ r)%string with
               | EmptyString => ("", "")
               | String c t => if code_z c =? 45 then (String c "", t) else ("", str_of_Z z ++ r)%string
               end = ("", str_of_Z z ++ r)%string).
  { destruct (str_of_Z z) as [|c t]; [by destruct r|]. rewrite str_app_cons. cbn in Hd. apply andb_true_iff in Hd as [Hc _].
    destruct (Z.eqb_spec (code_z c) 45) as [E|]; [|done]. unfold is_digit, code_z in *. rewrite !andb_true_iff, !N.leb_le in Hc. lia. }
  rewrite Hm, Hq. assert (Hne : nonempty (str_of_Z z) = true) by (by destruct (str_of_Z z)).
  rewrite Hne, scan_frac_sep, scan_exp_sep by done. cbn. by rewrite Hp.
Qed.

Lemma scan_number_str fl z r : sep r = true -> scan_number fl (str_of_Z z ++ r) = Some (PInt z, r).
Proof.
  intros Hr. destruct (decide (0 <= z)); [by apply scan_nonneg|]. rewrite str_of_neg by lia.
  rewrite (proj2 (scan_nonneg fl (- z) r ltac:(lia) Hr)). by rewrite Z.opp_involutive.
Qed.

(** ** Values *)
(** A value whose texts can be encoded, without a repeated key or a float. *)
Fixpoint loadable (v : pyval) : bool :=
  match v with
  | PNone | PBool _ | PInt _ => true
  | PFloat _ => false
  | PStr s => text_ok s
  | PList l => forallb loadable l
  | PDict d => bool_decide (NoDup d.*1) && forallb (fun kv => text_ok kv.1 && loadable kv.2) d
  end.

Section RoundTrip.
Context `{PyRepr} (float_of : string -> pyval).
#[local] Abbreviation dumps := (json_dumps false).
#[local] Abbreviation scan := (scan_value float_of).

Lemma number_head z : exists c t, str_of_Z z = String c t /\ json_space c = false /\
  code_z c <> 34 /\ code_z c <> 91 /\ code_z c <> 93 /\ code_z c <> 123 /\ code_z c <> 125 /\
  forall r, scan_literal (literals float_of) (str_of_Z z ++ r) = None.
Proof.
  assert (Hdig : forall d, is_digit d = true -> 48 <= code_z d <= 57).
  { intros d Hd. unfold is_digit, code_z in *. rewrite andb_true_iff, !N.leb_le in Hd. lia. }
  assert (Hne : forall d k, is_digit d = true -> (code_z k < 48 \/ 57 < code_z k) -> bool_decide (k = d) = false).
  { intros d k Hd Hk. apply bool_decide_eq_false. intros ->. apply Hdig in Hd. lia. }
  assert (Hpos : forall z, 0 <= z -> exists d t, str_of_Z z = String d t /\ is_digit d = true).
  { intros x Hx. destruct (str_of_nonneg x Hx) as [Hd Hv]. destruct (str_of_Z x) as [|d t]; [done|].
    exists d, t. split; [done|]. cbn in Hd. by apply andb_true_iff in Hd as [Hd _]. }
  assert (Hsp : forall c, code_z c <> 32 -> code_z c <> 9 -> code_z c <> 10 -> code_z c <> 13 -> json_space c = false).
  { intros c ? ? ? ?. unfold json_space. rewrite !orb_false_iff, !Z.eqb_neq. done. }
  destruct (decide (0 <= z)) as [Hz|Hz].
  - destruct (Hpos z Hz) as (d & t & E & Hd). pose proof (Hdig d Hd). exists d, t. rewrite E.
    split_and!; [done|apply Hsp; lia|lia..|]. intros r. rewrite str_app_cons. unfold literals. cbn [scan_literal after].
    by rewrite !Hne by (done || vm_compute; auto).
  - rewrite str_of_neg by lia. destruct (Hpos (- z) ltac:(lia)) as (d & t & E & Hd). pose proof (Hdig d Hd).
    exists "-"%char, (str_of_Z (- z)). split_and!; [done..|]. intros r. rewrite E, !str_app_cons. unfold literals.
    cbn [scan_literal after]. rewrite (bool_decide_char "-"), (Hne d "I"%char) by (done || vm_compute; auto). reflexivity.
Qed.

(** Every written value starts with a character that is neither white space nor a
    closing bracket. *)
Lemma dumps_head v : loadable v = true ->
  exists c t, dumps v = String c t /\ json_space c = false /\ code_z c <> 93 /\ code_z c <> 125.
Proof.
  destruct v as [|b|z|q|s|l|d]; intros Hv; [by eexists _, _|destruct b; by eexists _, _| |done|by eexists _, _..].
  destruct (number_head z) as (c & t & E & ? & ? & ? & ? & ? & ? & ?). cbn [json_dumps]. rewrite E. by exists c, t.
Qed.

Lemma dumps_skip v r : loadable v = true -> skip_ws (dumps v ++ r) = (dumps v ++ r)%string.
Proof. intros Hv. destruct (dumps_head v Hv) as (c & t & -> & Hc & _). rewrite str_app_cons. cbn. by rewrite Hc. Qed.

Lemma after_code a c s : code_z a <> code_z c -> after (String a "") (String c s) = None.
Proof. intros Hc. cbn. rewrite bool_decide_eq_false_2; [done|]. by intros ->. Qed.

(** A string, a key or a number where the scanner expects one. *)
Lemma scan_str n s rest : text_ok s = true -> scan (S n) (json_string s ++ rest) = Some (PStr s, rest).
Proof.
  intros Hs. destruct (scan_json_string s rest Hs) as [-> Hr]. rewrite value_S.
  change (code_z (ascii_of_nat 34) =? 34) with true. cbn match. by rewrite Hr, str_of_bytes_of.
Qed.

Lemma scan_int n z rest : sep rest = true -> scan (S n) (str_of_Z z ++ rest) = Some (PInt z, rest).
Proof.
  intros Hr. destruct (number_head z) as (c & t & E & _ & H1 & H2 & _ & H3 & _ & Hl). rewrite value_S.
  rewrite Hl, scan_number_str by done. rewrite E, str_app_cons.
  by rewrite (proj2 (Z.eqb_neq _ _) H1), (proj2 (Z.eqb_neq _ _) H2), (proj2 (Z.eqb_neq _ _) H3).
Qed.

Definition reads (v : pyval) : Prop := loadable v = true -> forall n rest, sep rest = true ->
  (2 * String.length (dumps v ++ rest) <= n)%nat -> scan n (dumps v ++ rest) = Some (v, rest).

Lemma scan_list l : Forall reads l -> forallb loadable l = true -> l <> [] -> forall n rest,
  (2 * String.length (py_join ", " (map dumps l) ++ "]" ++ rest) < n)%nat ->
  scan_elements float_of n (py_join ", " (map dumps l) ++ "]" ++ rest) = Some (l, rest).
Proof.
  induction 1 as [|v l Hv Hl IH]; [done|]. cbn [forallb]. rewrite andb_true_iff. intros [Lv Ll] _ n rest Hn.
  destruct n as [|n]; [lia|]. rewrite elements_S. destruct l as [|w l].
  - cbn [map py_join] in *. rewrite Hv by (done || lia). rewrite str_app_cons. cbn [skip_ws]. 
    change (json_space "]") with false. cbn match. by rewrite <- str_app_cons, after_app.
  - remember (w :: l) as l' eqn:El. assert (Hj : py_join ", " (map dumps (v :: l')) = (dumps v ++ ", " ++ py_join ", " (map dumps l'))%string) by (by subst).
    rewrite Hj in *. rewrite !str_app_assoc in *. rewrite Hv by (done || lia).
    assert (Hw : skip_ws (py_join ", " (map dumps l') ++ "]" ++ rest) = (py_join ", " (map dumps l') ++ "]" ++ rest)%string).
    { subst l'. cbn [forallb] in Ll. apply andb_true_iff in Ll as [Lw _].
      destruct l as [|x l]; cbn [map py_join]; rewrite ?str_app_assoc; by apply dumps_skip. }
    rewrite (str_app_cons ","), (str_app_cons " "), str_app_nil_l. cbn [skip_ws]. change (json_space ",") with false. cbn match.
    rewrite after_code by done. cbn [after]. rewrite bool_decide_char. cbn [skip_ws]. change (json_space " ") with true. cbn match.
    rewrite Hw. rewrite !str_length_app in Hn. cbn [String.length] in Hn.
    rewrite IH; [done|done|by subst|]. rewrite !str_length_app. cbn [String.length]. lia.
Qed.

Definition item (kv : string * pyval) : string := (json_string kv.1 ++ ": " ++ dumps kv.2)%string.

Lemma scan_member n acc k v rest : text_ok k = true -> reads v -> loadable v = true -> sep rest = true ->
  (2 * String.length (item (k, v) ++ rest) <= n)%nat ->
  scan_members float_of (S n) acc (item (k, v) ++ rest) =
    let d := dict_set acc k v in
    match after "}" (skip_ws rest) with
    | Some rest => Some (d, rest)
    | None => match after "," (skip_ws rest) with None => None | Some r => scan_members float_of n d (skip_ws r) end
    end.
Proof.
  intros Hk Hv Lv Hr Hn. unfold item in *. cbn [fst snd] in *. rewrite !str_app_assoc in *.
  destruct (scan_json_string k (": " ++ dumps v ++ rest) Hk) as [E Hs]. rewrite members_S, E.
  change (code_z (ascii_of_nat 34) =? 34) with true. cbn [negb]. rewrite Hs, str_of_bytes_of.
  rewrite (str_app_cons ":"), (str_app_cons " "), str_app_nil_l. cbn [skip_ws]. change (json_space ":") with false. cbn match.
  cbn [after]. rewrite bool_decide_char. cbn [skip_ws]. change (json_space " ") with true. cbn match.
  rewrite dumps_skip by done. rewrite Hv; [done|done|done|].
  rewrite E in Hn. cbn [String.length] in Hn. rewrite !str_length_app in *. lia.
Qed.

Lemma items_head kv d : exists u, py_join ", " (map item (kv :: d)) = String (ascii_of_nat 34) u.
Proof. destruct d; cbn [map py_join]; unfold item at 1; unfold json_string, dq, chr; rewrite !str_app_cons; by eexists. Qed.

Lemma scan_dict d : Forall (fun kv => reads kv.2) d -> forallb (fun kv => text_ok kv.1 && loadable kv.2) d = true -> d <> [] ->
  forall acc n rest, NoDup (acc ++ d).*1 -> (2 * String.length (py_join ", " (map item d) ++ "}" ++ rest) < n)%nat ->
  scan_members float_of n acc (py_join ", " (map item d) ++ "}" ++ rest) = Some (acc ++ d, rest).
Proof.
  induction 1 as [|[k v] d Hv Hd IH]; [done|]. cbn [forallb fst snd] in *. rewrite !andb_true_iff.
  intros [[Lk Lv] Ld] _ acc n rest Hnd Hn. destruct n as [|n]; [lia|].
  assert (Hf : dict_set acc k v = acc ++ [(k, v)]).
  { apply dict_set_fresh. rewrite fmap_app in Hnd. apply NoDup_app in Hnd as (_ & Hx & _). intros Hin. apply (Hx k Hin). left. }
  destruct d as [|kv d].
  - cbn [map py_join] in *. rewrite scan_member by (done || lia). rewrite Hf. cbv zeta.
    rewrite str_app_cons. cbn [skip_ws]. change (json_space "}") with false. cbn match. by rewrite <- str_app_cons, after_app.
  - remember (kv :: d) as d' eqn:Ed.
    assert (Hj : py_join ", " (map item ((k, v) :: d')) = (item (k, v) ++ ", " ++ py_join ", " (map item d'))%string) by (by subst).
    rewrite Hj in *. rewrite !str_app_assoc in *. rewrite scan_member by (done || lia). rewrite Hf. cbv zeta.
    assert (Hw : skip_ws (py_join ", " (map item d') ++ "}" ++ rest) = (py_join ", " (map item d') ++ "}" ++ rest)%string).
    { subst d'. destruct (items_head kv d) as [u ->]. by rewrite str_app_cons. }
    rewrite (str_app_cons ","), (str_app_cons " "), str_app_nil_l. cbn [skip_ws]. change (json_space ",") with false. cbn match.
    rewrite after_code by done. cbn [after]. rewrite bool_decide_char. cbn [skip_ws]. change (json_space " ") with true. cbn match.
    rewrite Hw. rewrite !str_length_app in Hn. cbn [String.length] in Hn.
    rewrite IH; [by rewrite <- app_assoc|done|by subst|by rewrite <- app_assoc|]. rewrite !str_length_app. cbn [String.length]. lia.
Qed.

Lemma scan_dumps v : reads v.
Proof.
  induction v as [|b|z|q|s|l IH|d IH] using pyval_nested_ind; intros Lv n rest Hr Hn;
    (destruct n as [|n]; [exfalso; revert Hn; rewrite str_length_app; destruct (dumps_head _ Lv) as (c & t & -> & _); cbn; lia|]);
    cbn [loadable] in Lv.
  - reflexivity.
  - by destruct b.
  - by apply scan_int.
  - done.
  - by apply scan_str.
  - rewrite value_S. cbn [json_dumps] in *. destruct l as [|v l]; [reflexivity|]. remember (v :: l) as l' eqn:El.
    assert (Hw : skip_ws (py_join ", " (map dumps l') ++ "]" ++ rest) = (py_join ", " (map dumps l') ++ "]" ++ rest)%string /\
                 after "]" (py_join ", " (map dumps l') ++ "]" ++ rest) = None).
    { subst l'. cbn [forallb] in Lv. apply andb_true_iff in Lv as [Lv _].
      destruct (dumps_head v Lv) as (c & t & E & Hc & Hb & _).
      assert (Hh : exists u, py_join ", " (map dumps (v :: l)) = String c u) by (destruct l; cbn [map py_join]; rewrite E; by eexists).
      destruct Hh as [u ->]. rewrite str_app_cons. cbn [skip_ws]. rewrite Hc. split; [done|]. by apply after_code, not_eq_sym. }
    rewrite !str_app_assoc, (str_app_cons "["), str_app_nil_l in *. cbn [String.length] in Hn.
    change (code_z "[" =? 34) with false. change (code_z "[" =? 123) with false. change (code_z "[" =? 91) with true. cbn match.
    destruct Hw as [-> ->]. rewrite scan_list; [done|done|done|by subst|lia].
  - rewrite value_S. cbn [json_dumps] in *. rewrite map_map in *. cbn [snd] in *.
    change (map (fun x : string * pyval => (json_string x.1 ++ ": " ++ dumps x.2)%string) d) with (map item d) in *.
    apply andb_true_iff in Lv as [Hnd%bool_decide_eq_true Ld].
    destruct d as [|kv d]; [reflexivity|]. remember (kv :: d) as d' eqn:Ed.
    assert (Hh : exists u, py_join ", " (map item d') = String (ascii_of_nat 34) u).
    { subst d'. apply items_head. }
    destruct Hh as [u Hu]. rewrite !str_app_assoc, (str_app_cons "{"), str_app_nil_l in *. cbn [String.length] in Hn.
    change (code_z "{" =? 34) with false. change (code_z "{" =? 123) with true. cbn match.
    assert (Hw : skip_ws (py_join ", " (map item d') ++ "}" ++ rest) = (py_join ", " (map item d') ++ "}" ++ rest)%string /\
                 after "}" (py_join ", " (map item d') ++ "}" ++ rest) = None) by (by rewrite Hu, str_app_cons).
    destruct Hw as [-> ->]. rewrite (scan_dict d' IH Ld ltac:(by subst) []); [done|done|lia].
Qed.

(** What [json.dumps] writes, [json.loads] reads back. *)
Theorem loads_dumps v : loadable v = true -> json_loads float_of (dumps v) = Some v.
Proof.
  intros Lv. unfold json_loads. rewrite <- (str_app_nil_r (dumps v)), dumps_skip by done.
  by rewrite scan_dumps.
Qed.

(** A written value has no white space at its ends, so stripping the line it is on
    gives its text. *)
Lemma dumps_ends v : loadable v = true -> (exists c t, dumps v = String c t /\ is_space c = false) /\
  exists u d, dumps v = (u ++ String d "")%string /\ is_space d = false.
Proof.
  assert (Hdig : forall c, is_digit c = true -> is_space c = false) by (intros c Hc; by apply negb_true_iff, digit_not_space).
  intros Lv. destruct v as [|b|z|q|s|l|d].
  - split; [by eexists _, _|]. by exists "nul", "l"%char.
  - split; [destruct b; by eexists _, _|]. destruct b; [by exists "tru", "e"%char|by exists "fals", "e"%char].
  - cbn [json_dumps]. assert (Hz : exists p x, str_of_Z z = (p ++ str_of_Z x)%string /\ 0 <= x /\ (p = "" \/ p = "-")).
    { destruct (decide (0 <= z)); [by exists "", z; auto|]. exists "-", (- z). rewrite str_of_neg by lia.
      split_and!; [done|lia|auto]. }
    destruct Hz as (p & x & -> & Hx & Hp). destruct (str_of_nonneg x Hx) as [Hd Hv].
    assert (Hne : str_of_Z x <> "") by (by intros E; rewrite E in Hv). split.
    + destruct Hp as [->| ->]; [|by eexists _, _]. rewrite str_app_nil_l. destruct (str_of_Z x) as [|c t]; [done|].
      cbn in Hd. apply andb_true_iff in Hd as [Hc _]. exists c, t. auto.
    + assert (Hl : forall t, t <> "" -> str_forallb is_digit t = true -> exists u d, t = (u ++ String d "")%string /\ is_digit d = true).
      { induction t as [|c t IH]; [done|]. cbn. rewrite andb_true_iff. intros _ [Hc Ht].
        destruct t as [|c' t]; [by exists "", c|]. destruct IH as (u & d & -> & Hd'); [done|done|].
        exists (String c u), d. by rewrite str_app_cons. }
      destruct (Hl _ Hne Hd) as (u & d & -> & Hd'). exists (p ++ u)%string, d. rewrite str_app_assoc. auto.
  - done.
  - cbn [json_dumps]. unfold json_string. split; [by eexists _, _|].
    eexists (dq ++ concat_str (map escape_cp (utf8_decode (bytes_of s))))%string, (ascii_of_nat 34).
    by rewrite str_app_assoc.
  - cbn [json_dumps]. split; [by eexists _, _|]. eexists ("[" ++ _)%string, "]"%char. by rewrite str_app_assoc.
  - cbn [json_dumps]. split; [by eexists _, _|]. eexists ("{" ++ _)%string, "}"%char. by rewrite str_app_assoc.
Qed.

Lemma py_strip_ends s w : (exists c t, s = String c t /\ is_space c = false) ->
  (exists u d, s = (u ++ String d "")%string /\ is_space d = false) -> str_forallb is_space w = true ->
  py_strip (s ++ w) = s.
Proof.
  intros (c & t & Hs & Hc) (u & d & Hu & Hd) Hw. unfold py_strip.
  assert (Hl : forall r, lstrip (s ++ r) = (s ++ r)%string) by (intros r; rewrite Hs, str_app_cons; cbn; by rewrite Hc).
  assert (Hrev : forall a b, str_rev (a ++ b) = (str_rev b ++ str_rev a)%string).
  { apply str_rev_app. }
  rewrite Hl, Hrev. assert (Hsp : forall x r, str_forallb is_space x = true -> lstrip (x ++ r) = lstrip r).
  { induction x as [|a x IH]; intros r; [done|]. cbn. rewrite andb_true_iff. intros [Ha Hx]. rewrite str_app_cons. cbn.
    rewrite Ha. auto. }
  rewrite Hsp by (by rewrite str_forallb_rev). rewrite Hu, Hrev. change (str_rev (String d "")) with (String d "").
  rewrite str_app_cons, str_app_nil_l. cbn [lstrip]. rewrite Hd. change (String d (str_rev u)) with (String d "" ++ str_rev u)%string.
  change (String d "") with (str_rev (String d "")). rewrite <- Hrev. apply str_rev_involutive.
Qed.

Lemma strip_dumps v w : loadable v = true -> str_forallb is_space w = true -> py_strip (dumps v ++ w) = dumps v.
Proof. intros Lv. destruct (dumps_ends v Lv). by apply py_strip_ends. Qed.
End RoundTrip.
