(* ===== verification/Regex.v ===== *)
(** * Regular expressions (the module [re], as far as the code uses it)

    Patterns on texts of code points: a pattern, its context (the character before) and
    the text left over give the ways to match in the order the backtracking matcher of
    Python tries them.  [Matches] says which words a pattern matches where; [ms_spec]
    and [search_iff] show that the matcher finds exactly those.  Which characters
    beyond ASCII are letters or digits is the parameter [UnicodeData].  The patterns of
    the code have no back references and match no empty text ([never_empty]). *)
From S2P Require Import Prelude PyVal Sha256 Utf8 JsonLoads.
Local Open Scope string_scope.
Local Open Scope Z_scope.
Local Open Scope list_scope.

(** ** Texts as code points *)
Definition points (s : string) : list Z := utf8_decode (bytes_of s).
Definition of_points (l : list Z) : string := str_of_bytes (utf8_encode l).

Class UnicodeData := { uni_word : Z -> bool; uni_digit : Z -> bool }.

(** [\s] *)
Definition space_cp (c : Z) : bool :=
  between 9 13 c || between 28 32 c || (c =? 133) || (c =? 160) || (c =? 5760) || between 8192 8202 c ||
  between 8232 8233 c || (c =? 8239) || (c =? 8287) || (c =? 12288).
Section Unicode.
Context `{UnicodeData}.
(** [\w] and [\d] *)
Definition word_cp (c : Z) : bool :=
  if c <? 128 then between 48 57 c || between 65 90 c || between 97 122 c || (c =? 95) else uni_word c.
Definition digit_cp (c : Z) : bool := if c <? 128 then between 48 57 c else uni_digit c.
End Unicode.

(** [re.IGNORECASE] on an ASCII character of the pattern: besides the two cases of a letter
    there are U+0130 and U+0131 for i, U+017F for s and U+212A for k. *)
Definition lower_cp (c : Z) : Z := if between 65 90 c then c + 32 else c.
Definition same_letter (p c : Z) : bool :=
  (lower_cp p =? lower_cp c) || ((lower_cp p =? 105) && between 304 305 c) || ((lower_cp p =? 115) && (c =? 383)) ||
  ((lower_cp p =? 107) && (c =? 8490)).

(** ** Patterns *)
Inductive re :=
  | REps
  | RChar (f : Z -> bool)
  | RSeq (a b : re)
  | RAlt (a b : re)
  | RStar (greedy : bool) (a : re)
  | RBound          (* \b *)
  | RBol            (* ^ with re.MULTILINE *)
  | REol.           (* $ with re.MULTILINE *)

Definition seqs (l : list re) : re := foldr RSeq REps l.
Fixpoint alts (l : list re) : re := match l with [] => RChar (fun _ => false) | [r] => r | r :: l => RAlt r (alts l) end.
Definition opt (r : re) : re := RAlt r REps.
Definition plus (r : re) : re := RSeq r (RStar true r).
Fixpoint times (n : nat) (r : re) : re := match n with O => REps | S n => RSeq r (times n r) end.
(** [r{m,m+n}] *)
Fixpoint upto (n : nat) (r : re) : re := match n with O => REps | S n => opt (RSeq r (upto n r)) end.
Definition lit (s : string) : re := seqs (map (fun p => RChar (same_letter p)) (points s)).
Definition exact (s : string) : re := seqs (map (fun p => RChar (Z.eqb p)) (points s)).
Definition spaces : re := RStar true (RChar space_cp).
Definition spaces1 : re := plus (RChar space_cp).

(** ** The matcher *)
(** The character before the position, and the text from it. *)
Definition pos : Type := option Z * list Z.

Section Matcher.
Context `{UnicodeData}.

Definition word_at (c : option Z) : bool := match c with Some c => word_cp c | None => false end.
Definition at_bound (b : option Z) (t : list Z) : bool := xorb (word_at b) (word_at (head t)).
Definition at_bol (b : option Z) : bool := match b with Some c => c =? 10 | None => true end.
Definition at_eol (t : list Z) : bool := match t with c :: _ => c =? 10 | [] => true end.

Fixpoint iter (g : bool) (step : pos -> list pos) (n : nat) (p : pos) : list pos :=
  match n with
  | O => [p]
  | S n =>
      let again := flat_map (iter g step n) (filter (fun q : pos => (length q.2 < length p.2)%nat) (step p)) in
      if g then again ++ [p] else p :: again
  end.

(** The ends of the ways to match at a position, in the order they are tried. *)
Fixpoint ms (r : re) (p : pos) : list pos :=
  match r with
  | REps => [p]
  | RChar f => match p.2 with c :: t => if f c then [(Some c, t)] else [] | [] => [] end
  | RSeq a b => flat_map (ms b) (ms a p)
  | RAlt a b => ms a p ++ ms b p
  | RStar g a => iter g (ms a) (length p.2) p
  | RBound => if at_bound p.1 p.2 then [p] else []
  | RBol => if at_bol p.1 then [p] else []
  | REol => if at_eol p.2 then [p] else []
  end.

(** [pattern.search]: where the leftmost match begins and ends. *)
Fixpoint search (r : re) (b : option Z) (t : list Z) : option (pos * pos) :=
  match head (ms r (b, t)) with
  | Some q => Some ((b, t), q)
  | None => match t with [] => None | c :: t' => search r (Some c) t' end
  end.
(** [m.group(0)] *)
Definition group0 (m : pos * pos) : list Z := take (length m.1.2 - length m.2.2) m.1.2.
Definition found (r : re) (t : list Z) : bool := bool_decide (is_Some (search r None t)).

(** [pattern.sub]; [skip] characters belong to the last match. *)
Fixpoint sub_from (r : re) (repl : list Z) (skip : nat) (b : option Z) (t : list Z) : list Z :=
  match t with
  | [] => []
  | c :: t' =>
      match skip with
      | S k => sub_from r repl k (Some c) t'
      | O =>
          match head (ms r (b, t)) with
          | Some q =>
              match (length t - length q.2)%nat with
              | S k => repl ++ sub_from r repl k (Some c) t'
              | O => c :: sub_from r repl 0 (Some c) t'
              end
          | None => c :: sub_from r repl 0 (Some c) t'
          end
      end
  end.
Definition sub (r : re) (repl t : list Z) : list Z := sub_from r repl 0 None t.

(** ** What a pattern matches *)
Definition before (b : option Z) (w : list Z) : option Z := match last w with Some c => Some c | None => b end.

(** [r] matches [w] where [b] comes before it and [t] after it. *)
Inductive Matches : re -> option Z -> list Z -> list Z -> Prop :=
  | M_eps b t : Matches REps b [] t
  | M_char f b c t : f c = true -> Matches (RChar f) b [c] t
  | M_seq r1 r2 b w1 w2 t : Matches r1 b w1 (w2 ++ t) -> Matches r2 (before b w1) w2 t -> Matches (RSeq r1 r2) b (w1 ++ w2) t
  | M_left r1 r2 b w t : Matches r1 b w t -> Matches (RAlt r1 r2) b w t
  | M_right r1 r2 b w t : Matches r2 b w t -> Matches (RAlt r1 r2) b w t
  | M_done g r b t : Matches (RStar g r) b [] t
  | M_more g r b w1 w2 t : w1 <> [] -> Matches r b w1 (w2 ++ t) -> Matches (RStar g r) (before b w1) w2 t ->
      Matches (RStar g r) b (w1 ++ w2) t
  | M_bound b t : at_bound b t = true -> Matches RBound b [] t
  | M_bol b t : at_bol b = true -> Matches RBol b [] t
  | M_eol b t : at_eol t = true -> Matches REol b [] t.
End Matcher.

(** A pattern that matches no empty text. *)
Fixpoint never_empty (r : re) : bool :=
  match r with
  | RChar _ => true
  | RSeq a b => never_empty a || never_empty b
  | RAlt a b => never_empty a && never_empty b
  | _ => false
  end.

(** ** Lemmas *)
Section Facts.
Context `{UnicodeData}.

Lemma before_nil b : before b [] = b.
Proof. done. Qed.
Lemma before_app b w1 w2 : before (before b w1) w2 = before b (w1 ++ w2).
Proof.
  unfold before. destruct w2 as [|c w2 _] using rev_ind; [by rewrite app_nil_r|].
  by rewrite app_assoc, !last_snoc.
Qed.

(** The end of a match: the position after a word the pattern matches. *)
Definition ends (r : re) (p q : pos) : Prop := exists w, p.2 = w ++ q.2 /\ q.1 = before p.1 w /\ Matches r p.1 w q.2.

Lemma ends_word r b w t : ends r (b, w ++ t) (before b w, t) <-> Matches r b w t.
Proof.
  split; [|intros Hm; by exists w]. intros (w' & Hw & _ & Hm). cbn in *.
  apply app_inv_tail in Hw as ->. exact Hm.
Qed.

Lemma iter_ends g r : (forall p q, q ∈ ms r p <-> ends r p q) ->
  forall n p q, (length p.2 <= n)%nat -> q ∈ iter g (ms r) n p <-> ends (RStar g r) p q.
Proof.
  intros Hr. assert (Hsplit : forall p q, ends (RStar g r) p q <->
    q = p \/ exists m, ends r p m /\ (length m.2 < length p.2)%nat /\ ends (RStar g r) m q).
  { intros [b t] [b' t']. split.
    - intros (w & Ht & Hb & Hm). cbn in *. subst. remember (RStar g r) as s eqn:Es. remember t' as u eqn:Eu.
      destruct Hm; try discriminate; [by left|]. injection Es as -> ->. subst. right.
      exists (before b w1, w2 ++ t'). rewrite <- (app_assoc w1).
      split; [by apply ends_word|]. cbn. split; [destruct w1; [done|]; cbn; rewrite !length_app; lia|].
      exists w2. cbn. by rewrite before_app.
    - intros [->|([bm tm] & (w1 & E1 & E2 & M1) & Hlt & (w2 & E3 & E4 & M2))]; [exists []; repeat constructor|].
      cbn in *. subst. exists (w1 ++ w2). cbn. rewrite <- app_assoc, <- before_app. split_and!; try done.
      constructor; try done. intros ->. cbn in Hlt. lia. }
  induction n as [|n IH]; intros p q Hn.
  - cbn [iter]. rewrite list_elem_of_singleton, Hsplit. split; [by left|intros [->|(m & _ & Hm & _)]; [done|lia]].
  - cbn [iter]. rewrite Hsplit.
    assert (Hagain : q ∈ flat_map (iter g (ms r) n) (filter (fun q : pos => (length q.2 < length p.2)%nat) (ms r p)) <->
      exists m, ends r p m /\ (length m.2 < length p.2)%nat /\ ends (RStar g r) m q).
    { rewrite list_elem_of_In, in_flat_map. setoid_rewrite <- list_elem_of_In. setoid_rewrite list_elem_of_filter. setoid_rewrite Hr.
      split; [intros (m & [Hl Hm] & Hq)|intros (m & Hm & Hl & Hq)]; exists m.
      - split_and!; [done|done|]. apply IH; [lia|done].
      - split; [done|]. apply IH; [lia|done]. }
    destruct g; [rewrite elem_of_app, list_elem_of_singleton|rewrite elem_of_cons]; rewrite Hagain; tauto.
Qed.

(** The matcher finds the words the pattern matches. *)
Lemma ms_ends r : forall p q, q ∈ ms r p <-> ends r p q.
Proof.
  induction r as [|f|r1 IH1 r2 IH2|r1 IH1 r2 IH2|g r IH| | |]; intros [b t] [b' t']; cbn [ms fst snd].
  - rewrite list_elem_of_singleton. split; [intros [= -> ->]; exists []; repeat constructor|].
    intros (w & E1 & E2 & M). cbn in *. inversion M; subst. done.
  - split.
    + destruct t as [|c t]; [by intros ?%elem_of_nil|]. destruct (f c) eqn:Ef; [|by intros ?%elem_of_nil].
      intros [= -> ->]%list_elem_of_singleton. exists [c]. by repeat constructor.
    + intros (w & E1 & E2 & M). cbn in *. inversion M; subst. cbn. by rewrite H1, list_elem_of_singleton.
  - rewrite list_elem_of_In, in_flat_map. setoid_rewrite <- list_elem_of_In. setoid_rewrite IH1. setoid_rewrite IH2. split.
    + intros ([bm tm] & (w1 & E1 & E2 & M1) & (w2 & E3 & E4 & M2)). cbn in *. subst. exists (w1 ++ w2). cbn.
      rewrite <- app_assoc, <- before_app. split_and!; try done. by constructor.
    + intros (w & E1 & E2 & M). cbn in *. inversion M; subst. exists (before b w1, w2 ++ t').
      rewrite <- app_assoc. split; [by apply ends_word|]. rewrite <- before_app. by apply ends_word.
  - rewrite elem_of_app, IH1, IH2. split.
    + intros [(w & E1 & E2 & M)|(w & E1 & E2 & M)]; exists w; split_and!; try done; [by apply M_left|by apply M_right].
    + intros (w & E1 & E2 & M). cbn in *. inversion M; subst; [left|right]; by exists w.
  - by apply iter_ends.
  - destruct (at_bound b t) eqn:E; [rewrite list_elem_of_singleton|rewrite elem_of_nil].
    + split; [intros [= -> ->]; exists []; repeat constructor; done|]. intros (w & E1 & E2 & M). cbn in *. by inversion M; subst.
    + split; [done|]. intros (w & E1 & E2 & M). cbn in *. inversion M; subst. cbn in *. congruence.
  - destruct (at_bol b) eqn:E; [rewrite list_elem_of_singleton|rewrite elem_of_nil].
    + split; [intros [= -> ->]; exists []; repeat constructor; done|]. intros (w & E1 & E2 & M). cbn in *. by inversion M; subst.
    + split; [done|]. intros (w & E1 & E2 & M). cbn in *. inversion M; subst. cbn in *. congruence.
  - destruct (at_eol t) eqn:E; [rewrite list_elem_of_singleton|rewrite elem_of_nil].
    + split; [intros [= -> ->]; exists []; repeat constructor; done|]. intros (w & E1 & E2 & M). cbn in *. by inversion M; subst.
    + split; [done|]. intros (w & E1 & E2 & M). cbn in *. inversion M; subst. cbn in *. congruence.
Qed.

Lemma ms_word r b w t : (before b w, t) ∈ ms r (b, w ++ t) <-> Matches r b w t.
Proof. by rewrite ms_ends, ends_word. Qed.

(** [search] finds something exactly when the text has a word the pattern matches. *)
Lemma search_iff r t : forall b,
  is_Some (search r b t) <-> exists u w v, t = u ++ w ++ v /\ Matches r (before b u) w v.
Proof.
  assert (Hhere : forall b t, (exists q, head (ms r (b, t)) = Some q) <-> exists w v, t = w ++ v /\ Matches r b w v).
  { intros b t'. split.
    - intros (q & Hq). destruct (proj1 (ms_ends r (b, t') q)) as (w & E1 & _ & M).
      { destruct (ms r (b, t')); [done|]. injection Hq as ->. by left. }
      by exists w, q.2.
    - intros (w & v & -> & M%ms_word). destruct (ms r (b, w ++ v)) as [|q l]; [by apply elem_of_nil in M|by exists q]. }
  induction t as [|c t IH]; intros b; cbn [search].
  - split.
    + intros [x Hx]. destruct (head (ms r (b, []))) eqn:E; [|done].
      destruct (proj1 (Hhere b [])) as (w & v & E1 & M); [by eexists|]. exists [], w, v. by rewrite before_nil.
    + intros (u & w & v & E & M). symmetry in E. apply app_eq_nil in E as [-> [-> ->]%app_eq_nil].
      destruct (proj2 (Hhere b [])) as [q Hq]; [by exists [], []|]. by rewrite Hq.
  - split.
    + intros Hs. destruct (head (ms r (b, c :: t))) eqn:E.
      * destruct (proj1 (Hhere b (c :: t))) as (w & v & E1 & M); [by eexists|]. exists [], w, v. by rewrite before_nil.
      * apply IH in Hs as (u & w & v & -> & M). exists (c :: u), w, v. split; [done|].
        replace (before b (c :: u)) with (before (Some c) u); [done|]. apply (before_app b [c] u).
    + intros (u & w & v & E & M). destruct (head (ms r (b, c :: t))) eqn:Eh; [done|]. destruct u as [|c' u]; cbn in E.
      * destruct (proj2 (Hhere b (c :: t))) as [q Hq]; [by exists w, v|congruence].
      * injection E as <- ->. apply IH. exists u, w, v. split; [done|].
        replace (before (Some c) u) with (before b (c :: u)); [done|]. symmetry. apply (before_app b [c] u).
Qed.

Lemma found_iff r t : found r t = true <-> exists u w v, t = u ++ w ++ v /\ Matches r (before None u) w v.
Proof. unfold found. by rewrite bool_decide_eq_true, search_iff. Qed.

(** Without a match nothing is replaced. *)
Lemma sub_not_found r repl t : found r t = false -> sub r repl t = t.
Proof.
  unfold found, sub. rewrite bool_decide_eq_false. generalize (None : option Z) as b. induction t as [|c t IH]; intros b Hs; [done|].
  cbn [search sub_from] in *. destruct (head (ms r (b, c :: t))) eqn:E; [by destruct Hs|]. f_equal. by apply IH.
Qed.

Lemma matches_nonempty r b w t : never_empty r = true -> Matches r b w t -> w <> [].
Proof.
  intros Hr Hm. induction Hm; cbn in Hr; try done.
  - apply orb_true_iff in Hr as [Hr|Hr]; intros [-> ->]%app_eq_nil; [by apply IHHm1|by apply IHHm2].
  - apply IHHm. by apply andb_true_iff in Hr as [? _].
  - apply IHHm. by apply andb_true_iff in Hr as [_ ?].
Qed.

(** ** What the derived patterns match *)
Lemma matches_seqs l b w t : Matches (seqs l) b w t <->
  match l with [] => w = [] | r :: l => exists w1 w2, w = w1 ++ w2 /\ Matches r b w1 (w2 ++ t) /\ Matches (seqs l) (before b w1) w2 t end.
Proof.
  destruct l as [|r l]; cbn [seqs foldr].
  - split; [by inversion 1|intros ->; constructor].
  - split; [inversion 1; subst; by eexists _, _|intros (w1 & w2 & -> & ? & ?); by constructor].
Qed.

Lemma matches_alts l b w t : Matches (alts l) b w t <-> exists r, r ∈ l /\ Matches r b w t.
Proof.
  induction l as [|r l IH].
  - split; [by inversion 1|intros (r & ?%elem_of_nil & _); done].
  - destruct l as [|r' l].
    + split; [intros; exists r; by rewrite list_elem_of_singleton|by intros (r' & ->%list_elem_of_singleton & ?)].
    + cbn [alts]. split.
      * inversion 1; subst; [exists r; by split; [left|]|]. destruct (proj1 IH) as (r2 & ? & ?); [done|]. exists r2. by split; [right|].
      * intros (r2 & [->|Hin]%elem_of_cons & Hm); [by apply M_left|]. apply M_right, IH. by exists r2.
Qed.

(** A literal matches the same letters in either case. *)
Lemma matches_chars fs b w t : Matches (seqs (map RChar fs)) b w t <-> Forall2 (fun (f : Z -> bool) c => f c = true) fs w.
Proof.
  revert b w. induction fs as [|f fs IH]; intros b w; cbn [map]; rewrite matches_seqs.
  - split; [by intros ->|by inversion 1].
  - split.
    + intros (w1 & w2 & -> & Hm & Hs%IH). inversion Hm; subst. by constructor.
    + inversion 1 as [|? c ? w' Hc Hw]; subst. exists [c], w'. split_and!; [done|by constructor|by apply IH].
Qed.

Definition ci_eq (p c : Z) : Prop := same_letter p c = true.
Lemma matches_lit s b w t : Matches (lit s) b w t <-> Forall2 ci_eq (points s) w.
Proof.
  unfold lit. rewrite <- (map_map same_letter RChar), matches_chars. by rewrite Forall2_fmap_l.
Qed.
End Facts.
