(* ===== verification/Binary64.v ===== *)
(** * Floating-point numbers (IEEE binary64, SpecFloat)

    The operations of Python's [float] that the scores of the prompt texts are computed
    with, in the order of the code, and the exact value of a number. *)
From Stdlib Require Import SpecFloat.
From S2P Require Import Prelude.
Local Open Scope Z_scope.

Definition f_of (z : Z) : spec_float := binary_normalize 53 1024 z 0 false.
(** The literal [n / d], correctly rounded. *)
Definition f_lit (n d : Z) : spec_float := SFdiv 53 1024 (f_of n) (f_of d).
Definition f_div : spec_float -> spec_float -> spec_float := SFdiv 53 1024.
Definition f_add : spec_float -> spec_float -> spec_float := SFadd 53 1024.
Definition f_sub : spec_float -> spec_float -> spec_float := SFsub 53 1024.
Definition f_mul : spec_float -> spec_float -> spec_float := SFmul 53 1024.
(** [max(a, b)] and [min(a, b)]: the second only when it is larger, smaller. *)
Definition f_max (a b : spec_float) : spec_float := if SFltb a b then b else a.
Definition f_min (a b : spec_float) : spec_float := if SFltb b a then b else a.
(** The number itself. *)
Definition f_value (f : spec_float) : Q :=
  match f with
  | S754_finite s m e =>
      let n := if s then Zneg m else Zpos m in
      if 0 <=? e then inject_Z (n * 2 ^ e) else Qmake n (Z.to_pos (2 ^ (- e)))
  | _ => 0%Q
  end.

Lemma ltb_leb a b : SFltb a b = true -> SFleb a b = true.
Proof. unfold SFltb, SFleb. by destruct (SFcompare a b) as [[]|]. Qed.
