(* ===== verification/Postgres.v ===== *)
(** * The decision tables and the database that holds them (storage/postgres.py)

    The schema of the two tables, the statements the code sends and what they mean.
    The server is outside the repository: it is the class [Postgres], and
    [PostgresLaws] states the documented behaviour of transactions and queries the
    code relies on; [pg0] is an instance on lists.  A row keeps its times, in
    microseconds, and its vector apart from the columns with JSON values. *)
From S2P Require Import Prelude PyVal PyText Sha256 Utf8 Json JsonLoads.
Local Open Scope string_scope.
Local Open Scope Z_scope.
Local Open Scope list_scope.

Record row := Row {
  created_at : Z; reasoning_completed_at : option Z; labeled_at : option Z; embedding : option string;
  columns : obj }.
Definition column (r : row) (k : string) : pyval := jget (columns r) k.
Definition has_id (i : string) (r : row) : bool := bool_decide (column r "id" = PStr i).

(** ** The schema *)
Inductive coltype := TString (max : option nat) | TInteger | TFloat | TBoolean.
(** Name, type, and whether NULL is allowed. *)
Definition SCHEMA : list (string * (coltype * bool)) := [
  ("id", (TString None, false)); ("alert_sid", (TInteger, false)); ("alert_src_ip", (TString None, false));
  ("outcome", (TString None, false)); ("action", (TString None, true)); ("src_ip", (TString None, true));
  ("dst_ip", (TString None, true)); ("dst_port", (TInteger, true)); ("confidence", (TFloat, true));
  ("rejection_reason", (TString None, false)); ("safety_checks", (TString None, false));
  ("reasoning", (TString None, false)); ("hypotheses", (TString None, false)); ("rollback_plan", (TString None, false));
  ("rule_id", (TString None, true)); ("ttl_seconds", (TInteger, true)); ("latency_ms", (TFloat, false));
  ("dry_run", (TBoolean, false)); ("trace_id", (TString None, true)); ("primary_hypothesis", (TString None, true));
  ("alternative_actions", (TString None, false)); ("follow_up_actions", (TString None, false));
  ("mitre_technique", (TString None, true)); ("mitre_tactic", (TString None, true));
  ("notification_title", (TString (Some 200%nat), true)); ("notification_body", (TString None, true));
  ("notification_severity", (TString (Some 20%nat), true));
  ("retrospective_outcome", (TString None, true)); ("retrospective_notes", (TString None, true))].

(** A text the server can store: valid UTF-8 without NUL, within the length. *)
Definition storable (max : option nat) (s : string) : bool :=
  text_ok s && str_forallb (fun c => negb (code c =? 0)%N) s &&
  match max with Some n => (py_len s <=? n)%nat | None => true end.
Definition int32 (z : Z) : bool := (-2147483648 <=? z) && (z <=? 2147483647).

Lemma storable_app s t : storable None s = true -> storable None t = true -> storable None (s ++ t) = true.
Proof.
  unfold storable. rewrite !andb_true_r, !andb_true_iff. intros [H1 H2] [H3 H4].
  split; [by apply text_ok_app|]. by rewrite str_forallb_app, H2, H4.
Qed.

Lemma storable_digits s : str_forallb is_digit s = true -> storable None s = true.
Proof.
  intros Hs. unfold storable. rewrite andb_true_r. apply andb_true_iff. split.
  - apply text_ok_ascii. revert Hs. apply str_forallb_impl. intros c. unfold is_digit, is_ascii_char.
    rewrite andb_true_iff, !N.leb_le, N.ltb_lt. lia.
  - revert Hs. apply str_forallb_impl. intros c. unfold is_digit. rewrite andb_true_iff, !N.leb_le.
    intros [? ?]. apply negb_true_iff, N.eqb_neq. lia.
Qed.

Lemma storable_number z : storable None (str_of_Z z) = true.
Proof.
  destruct (decide (0 <= z)) as [|Hn]; [by apply storable_digits, str_of_nonneg|]. rewrite str_of_neg by lia.
  change (String "-" (str_of_Z (- z))) with ("-" ++ str_of_Z (- z))%string.
  apply storable_app; [vm_compute; reflexivity|]. by apply storable_digits, str_of_nonneg; lia.
Qed.

(** *** JSON texts can be stored *)
Definition printable (c : ascii) : bool := (32 <=? code c)%N && (code c <=? 126)%N.
Lemma storable_printable s : str_forallb printable s = true -> storable None s = true.
Proof.
  intros Hs. unfold storable. rewrite andb_true_r. apply andb_true_iff. split.
  - apply text_ok_ascii. revert Hs. apply str_forallb_impl. intros c. unfold printable, is_ascii_char.
    rewrite andb_true_iff, !N.leb_le, N.ltb_lt. lia.
  - revert Hs. apply str_forallb_impl. intros c. unfold printable. rewrite andb_true_iff, !N.leb_le.
    intros [? ?]. apply negb_true_iff, N.eqb_neq. lia.
Qed.

Lemma hex_digit_printable d : 0 <= d < 16 -> printable (hex_digit d) = true.
Proof.
  intros Hd. assert (Hall : forallb (fun d => printable (hex_digit d)) (seqZ 0 16) = true) by (vm_compute; reflexivity).
  rewrite forallb_forall in Hall. apply Hall, list_elem_of_In, elem_of_seqZ. lia.
Qed.
Lemma hex4_printable z : 0 <= z < 65536 -> str_forallb printable (hex4 z) = true.
Proof.
  intros Hz. unfold hex4. cbn [hex str_forallb]. rewrite !hex_digit_printable; [done|..]; try (apply Z.mod_pos_bound; lia).
  - split; [apply Z.div_pos; [apply Z.mod_pos_bound|]; lia|]. apply Z.div_lt_upper_bound; [lia|]. pose proof (Z.mod_pos_bound z 256). lia.
  - split; [apply Z.div_pos; [apply Z.div_pos|]; lia|]. apply Z.div_lt_upper_bound; [lia|]. apply Z.div_lt_upper_bound; lia.
Qed.

Lemma escape_printable c : scalar c = true -> str_forallb printable (escape_cp c) = true.
Proof.
  intros Hc. assert (Hr : 0 <= c < 1114112) by (unfold scalar in Hc; apply orb_true_iff in Hc; rewrite !between_spec in Hc; lia).
  unfold escape_cp. repeat (destruct (c =? _); [vm_compute; reflexivity|]).
  destruct (between 32 126 c) eqn:E.
  { apply between_spec in E. unfold chr. cbn. unfold printable, code. rewrite N_ascii_embedding by lia.
    apply andb_true_iff. split; [|done]. apply andb_true_iff. rewrite !N.leb_le. lia. }
  destruct (Z.ltb_spec c 65536); cbv zeta; rewrite ?str_forallb_app; cbn [andb].
  - by rewrite hex4_printable by lia.
  - rewrite !hex4_printable; [done|..].
    + pose proof (Z.mod_pos_bound (c - 65536) 1024). lia.
    + assert (0 <= (c - 65536) / 1024 < 1024) by (split; [apply Z.div_pos; lia|apply Z.div_lt_upper_bound; lia]). lia.
Qed.

Lemma json_string_printable s : str_forallb printable (json_string s) = true.
Proof.
  unfold json_string. rewrite !str_forallb_app. cbn [andb]. rewrite andb_true_r.
  pose proof (decode_scalar _ (bytes_of_range s)) as Hs. induction Hs as [|c l Hc _ IH]; [done|].
  cbn [map concat_str foldr]. rewrite str_forallb_app, escape_printable by done. exact IH.
Qed.

Lemma number_printable z : str_forallb printable (str_of_Z z) = true.
Proof.
  assert (Hd : forall t, str_forallb is_digit t = true -> str_forallb printable t = true).
  { intros t. apply str_forallb_impl. intros c. unfold is_digit, printable. rewrite !andb_true_iff, !N.leb_le. lia. }
  destruct (decide (0 <= z)); [by apply Hd, str_of_nonneg|]. rewrite str_of_neg by lia. cbn. by apply Hd, str_of_nonneg; lia.
Qed.

Lemma join_printable sep l : str_forallb printable sep = true -> Forall (fun s => str_forallb printable s = true) l ->
  str_forallb printable (py_join sep l) = true.
Proof.
  intros Hs. induction 1 as [|s l H1 Hl IH]; [done|]. destruct l as [|t l]; [done|].
  cbn [py_join]. change (str_forallb printable (s ++ sep ++ py_join sep (t :: l)) = true).
  by rewrite !str_forallb_app, H1, Hs, IH.
Qed.

(** [json.dumps] escapes whatever is not printable ASCII. *)
Lemma dumps_printable `{PyRepr} v : (forall q, str_forallb printable (repr_other (PFloat q)) = true) ->
  str_forallb printable (json_dumps false v) = true.
Proof.
  intros Hf. induction v as [ |b|z|q|s|l IH|d IH] using pyval_nested_ind; [done|by destruct b|apply number_printable|apply Hf|apply json_string_printable|..].
  - cbn [json_dumps]. rewrite !str_forallb_app. cbn [andb]. rewrite andb_true_r. apply join_printable; [done|].
    induction IH; constructor; done.
  - cbn [json_dumps]. rewrite !str_forallb_app. cbn [andb]. rewrite andb_true_r. apply join_printable; [done|].
    rewrite map_map. induction IH as [|[k v] d Hv _ IH]; constructor; [|done]. cbn [fst snd].
    rewrite !str_forallb_app, json_string_printable. exact Hv.
Qed.

(** The value is stored as it is given. *)
Definition fits (t : coltype * bool) (v : pyval) : bool :=
  match v, t.1 with
  | PNone, _ => t.2
  | PStr s, TString max => storable max s
  | PInt z, TInteger => int32 z
  | PFloat _, TFloat => true
  | PBool _, TBoolean => true
  | _, _ => false
  end.
(** The server refuses it: NULL where it is not allowed, a number beyond 32 bits, a text
    that is too long. *)
Definition refused (t : coltype * bool) (v : pyval) : bool :=
  match v, t.1 with
  | PNone, _ => negb t.2
  | PStr s, TString (Some n) => (n <? py_len s)%nat
  | PInt z, TInteger => negb (int32 z)
  | _, _ => false
  end.
Definition row_fits (r : row) : bool := forallb (fun c => fits c.2 (column r c.1)) SCHEMA.
Definition row_refused (r : row) : bool := existsb (fun c => refused c.2 (column r c.1)) SCHEMA.

(** ** Statements *)
Inductive table := Decisions | History.
#[export] Instance table_eq_dec : EqDecision table.
Proof. solve_decision. Defined.

Inductive stmt := Insert (t : table) (r : row) | Update (t : table) (p : row -> bool) (f : row -> row).
Inductive order := Unordered | Newest | Oldest.

Definition set_row (p : row -> bool) (f : row -> row) (r : row) : row := if p r then f r else r.
Definition run_stmt (T : table -> list row) (st : stmt) : table -> list row :=
  fun u => match st with
           | Insert t r => if decide (u = t) then r :: T u else T u
           | Update t p f => if decide (u = t) then map (set_row p f) (T u) else T u
           end.
Definition run_stmts (ss : list stmt) (T : table -> list row) : table -> list row := foldl run_stmt T ss.

(** The rows the statements write can be stored, and an update keeps the key. *)
Definition stmt_fits (st : stmt) : Prop :=
  match st with
  | Insert _ r => row_fits r = true
  | Update _ _ f => forall r, row_fits r = true -> row_fits (f r) = true /\ column (f r) "id" = column r "id"
  end.

Definition newer_row (a b : row) : Prop := created_at b <= created_at a.
Definition older_row (a b : row) : Prop := created_at a <= created_at b.
#[export] Instance newer_dec a b : Decision (newer_row a b).
Proof. unfold newer_row. apply _. Defined.
#[export] Instance older_dec a b : Decision (older_row a b).
Proof. unfold older_row. apply _. Defined.
Definition in_order (o : order) (l : list row) : Prop :=
  match o with
  | Unordered => True
  | Newest => StronglySorted newer_row l
  | Oldest => StronglySorted older_row l
  end.
Definition limited (lim : option Z) (l : list row) : list row :=
  match lim with Some n => take (Z.to_nat n) l | None => l end.

(** ** The server *)
Class Postgres := {
  pg : Type;
  pg_rows : pg -> table -> list row;                                   (** what a table holds *)
  pg_commit : list stmt -> pg -> res pg;                               (** one transaction *)
  pg_select : table -> (row -> bool) -> order -> option Z -> pg -> res (list row);
  pg_search : string -> (row -> bool) -> Z -> pg -> res (list (row * option Q)) (** nearest vectors first, with their similarity *)
}.

Definition ids (l : list row) : list pyval := map (fun r => column r "id") l.

Class PostgresLaws `{Postgres} := {
  (** A transaction that commits has run all its statements, and keys stay unique. *)
  commit_runs ss s s' t : pg_commit ss s = Ok s' -> Forall stmt_fits ss ->
    pg_rows s' t ≡ₚ run_stmts ss (pg_rows s) t;
  commit_unique ss s s' t : pg_commit ss s = Ok s' -> NoDup (ids (pg_rows s' t));
  commit_refuses ss t r s : Insert t r ∈ ss -> row_refused r = true -> exists e, pg_commit ss s = Raise e;
  select_rows t p o lim s l : pg_select t p o lim s = Ok l -> (forall n, lim = Some n -> 0 <= n) ->
    exists l', l' ≡ₚ filter (fun r => p r = true) (pg_rows s t) /\ in_order o l' /\ l = limited lim l';
  search_rows v p n s l : pg_search v p n s = Ok l -> 0 <= n ->
    l.*1 ⊆+ filter (fun r => p r = true) (pg_rows s Decisions) /\ (length l <= Z.to_nat n)%nat
}.

(** ** Instance *)
Definition sort_rows (o : order) (l : list row) : list row :=
  match o with Unordered => l | Newest => merge_sort newer_row l | Oldest => merge_sort older_row l end.
Definition pg0_rows (s : list row * list row) (t : table) : list row :=
  match t with Decisions => s.1 | History => s.2 end.
Definition stmt_refused (st : stmt) : bool := match st with Insert _ r => row_refused r | _ => false end.

#[export] Instance pg0 : Postgres := {|
  pg := list row * list row;
  pg_rows := pg0_rows;
  pg_commit ss s :=
    let T := run_stmts ss (pg0_rows s) in
    if existsb stmt_refused ss || negb (bool_decide (NoDup (ids (T Decisions)))) || negb (bool_decide (NoDup (ids (T History))))
    then Raise (OtherError "IntegrityError") else Ok (T Decisions, T History);
  pg_select t p o lim s := Ok (limited lim (sort_rows o (filter (fun r => p r = true) (pg0_rows s t))));
  pg_search v p n s := Ok (map (fun r => (r, Some 1%Q)) (take (Z.to_nat n) (filter (fun r => p r = true) s.1))) |}.

#[local] Instance newer_total : Total newer_row.
Proof. intros a b. unfold newer_row. lia. Qed.
#[local] Instance older_total : Total older_row.
Proof. intros a b. unfold older_row. lia. Qed.
#[local] Instance newer_trans : Transitive newer_row.
Proof. intros a b c. unfold newer_row. lia. Qed.
#[local] Instance older_trans : Transitive older_row.
Proof. intros a b c. unfold older_row. lia. Qed.

#[export] Instance pg0_laws : PostgresLaws.
Proof.
  constructor; cbn.
  - intros ss s s' t Hc _. destruct (_ || _); [done|]. injection Hc as <-. by destruct t.
  - intros ss s s' t Hc. destruct (_ || _) eqn:E; [done|]. injection Hc as <-.
    apply orb_false_iff in E as [[_ E1]%orb_false_iff E2].
    apply negb_false_iff, bool_decide_eq_true in E1, E2. by destruct t.
  - intros ss t r s Hin Hr. exists (OtherError "IntegrityError").
    assert (existsb stmt_refused ss = true) as -> by (apply existsb_exists; exists (Insert t r); split; [by apply list_elem_of_In|done]).
    done.
  - intros t p o lim s l [= <-] _. exists (sort_rows o (filter (fun r => p r = true) (pg0_rows s t))).
    split; [destruct o; cbn; [done|apply merge_sort_Permutation..]|]. split; [|done].
    destruct o; cbn; [done|apply (StronglySorted_merge_sort _)..].
  - intros v p n s l [= <-] _. rewrite length_map, length_take. split; [|lia].
    rewrite <- list_fmap_compose. replace (fst ∘ _) with (@id row) by done. rewrite list_fmap_id. apply sublist_submseteq, sublist_take.
Qed.

Definition pg_empty : @pg pg0 := ([], []).
