(* ===== verification/DecisionStore.v ===== *)
(** * The decision store (storage/postgres.py, class PostgresStore)

    Every method over the tables of [Postgres]: the dual write of a decision, the
    reasoning added later, the vectors, and the reads with the row's conversion to a
    dict.  [None] is a store that is not connected.  A dict of a decision keeps the
    time under [reasoning_completed_at] apart; [iso] is a time's [isoformat]. *)
From S2P Require Import Prelude PyVal Json JsonLoads Postgres.
Local Open Scope string_scope.
Local Open Scope Z_scope.
Local Open Scope list_scope.

(** ** [f"{x:.6f}"] and [round] of an exact value *)
(** The nearest integer to [n / d], the even one when there are two. *)
Definition div_half_even (n d : Z) : Z :=
  let q := n / d in let r := n mod d in
  if (d <? 2 * r) || ((2 * r =? d) && Z.odd q) then q + 1 else q.
Definition scaled (digits : nat) (q : Q) : Z := div_half_even (Qnum q * 10 ^ Z.of_nat digits) (Zpos (Qden q)).
Definition py_round (digits : nat) (q : Q) : Q := Qmake (scaled digits q) (Z.to_pos (10 ^ Z.of_nat digits)).

Fixpoint zeros (n : nat) : string := match n with O => "" | S n => String "0" (zeros n) end.
Definition pad (n : nat) (s : string) : string := (zeros (n - String.length s) ++ s)%string.
Definition fixed6 (q : Q) : string :=
  let z := Z.abs (scaled 6 q) in
  ((if (Qnum q <? 0)%Z then "-" else "") ++ str_of_Z (z / 1000000) ++ "." ++ pad 6 (str_of_Z (z mod 1000000)))%string.
Definition vec_literal (v : list Q) : string := ("[" ++ py_join "," (map fixed6 v) ++ "]")%string.

Section Store.
Context `{PyRepr} `{Postgres} (json_loads : string -> option pyval) (iso : Z -> string).

Definition store := option pg.

(** ** Writes *)
Definition dumped (data : obj) (k : string) (dflt : pyval) : pyval := PStr (json_dumps false (jget_or data k dflt)).

Definition common_fields (data : obj) : res obj :=
  let* id := index_key (PDict data) "id" in
  let* sid := index_key (PDict data) "alert_sid" in
  let* src := index_key (PDict data) "alert_src_ip" in
  let* outcome := index_key (PDict data) "outcome" in
  Ok [("id", id); ("alert_sid", sid); ("alert_src_ip", src); ("outcome", outcome);
      ("action", jget data "action"); ("src_ip", jget data "src_ip"); ("dst_ip", jget data "dst_ip");
      ("dst_port", jget data "dst_port"); ("confidence", jget data "confidence");
      ("rejection_reason", jget_or data "rejection_reason" (PStr ""));
      ("safety_checks", dumped data "safety_checks" (PDict [])); ("reasoning", dumped data "reasoning" (PList []));
      ("hypotheses", dumped data "hypotheses" (PList [])); ("rollback_plan", dumped data "rollback_plan" (PDict []));
      ("rule_id", jget data "rule_id"); ("ttl_seconds", jget data "ttl_seconds");
      ("latency_ms", jget_or data "latency_ms" (PFloat 0)); ("dry_run", jget_or data "dry_run" (PBool true));
      ("trace_id", jget data "trace_id"); ("primary_hypothesis", jget data "primary_hypothesis");
      ("alternative_actions", dumped data "alternative_actions" (PList []));
      ("follow_up_actions", dumped data "follow_up_actions" (PList []));
      ("mitre_technique", jget data "mitre_technique"); ("mitre_tactic", jget data "mitre_tactic");
      ("notification_title", jget data "notification_title"); ("notification_body", jget data "notification_body");
      ("notification_severity", jget data "notification_severity")].

(** A record built from the fields: the clock's reading is its creation, the columns of
    the labeller are empty. *)
Definition new_row (now : Z) (fields : obj) (completed : option Z) : row :=
  Row now completed None None (fields ++ [("retrospective_outcome", PNone); ("retrospective_notes", PNone)]).

(** Each record reads the clock itself. *)
Definition save_decision (now now' : Z) (data : obj) (completed : option Z) (s : store) : res store :=
  match s with
  | None => Ok None
  | Some db =>
      let* fields := common_fields data in
      let* db := pg_commit [Insert Decisions (new_row now fields completed); Insert History (new_row now' fields completed)] db in
      Ok (Some db)
  end.

(** [update(...).values(...)] *)
Definition set_columns (values : obj) (r : row) : row :=
  Row (created_at r) (reasoning_completed_at r) (labeled_at r) (embedding r)
    (foldl (fun d kv => dict_set d kv.1 kv.2) (columns r) values).
Definition set_completed (t : Z) (r : row) : row :=
  Row (created_at r) (Some t) (labeled_at r) (embedding r) (columns r).
Definition set_labeled (t : Z) (r : row) : row :=
  Row (created_at r) (reasoning_completed_at r) (Some t) (embedding r) (columns r).
Definition set_embedding (v : string) (r : row) : row :=
  Row (created_at r) (reasoning_completed_at r) (labeled_at r) (Some v) (columns r).

(** The same update of both tables. *)
Definition both (p : row -> bool) (f : row -> row) : list stmt := [Update Decisions p f; Update History p f].

Definition reasoning_values (data : obj) : obj :=
  [("reasoning", dumped data "reasoning_steps" (PList [])); ("hypotheses", dumped data "hypotheses" (PList []));
   ("rollback_plan", dumped data "rollback_plan" (PDict [])); ("primary_hypothesis", jget data "primary_hypothesis");
   ("alternative_actions", dumped data "alternative_actions" (PList []));
   ("follow_up_actions", dumped data "follow_up_actions" (PList []));
   ("mitre_technique", jget data "mitre_technique"); ("mitre_tactic", jget data "mitre_tactic")].

(** Whether a row of the workspace was updated. *)
Definition update_reasoning (now : Z) (decision_id : string) (data : obj) (s : store) : res (bool * store) :=
  match s with
  | None => Ok (false, None)
  | Some db =>
      let* db' := pg_commit (both (has_id decision_id) (fun r => set_completed now (set_columns (reasoning_values data) r))) db in
      Ok (existsb (has_id decision_id) (pg_rows db Decisions), Some db')
  end.

Definition write_embedding (decision_id : string) (vec : list Q) (s : store) : bool * store :=
  match s, vec with
  | Some db, _ :: _ =>
      match pg_commit (both (has_id decision_id) (set_embedding (vec_literal vec))) db with
      | Ok db' => (true, Some db')
      | Raise _ => (false, s)
      end
  | _, _ => (false, s)
  end.

(** ** Reads *)
Definition loads_text (v : pyval) : res pyval :=
  match v with
  | PStr t => match json_loads t with Some x => Ok x | None => Raise (ValueError "JSONDecodeError") end
  | _ => Raise (TypeError "the JSON object must be str, bytes or bytearray")
  end.
Definition loads_or (v dflt : pyval) : res pyval := if truthy v then loads_text v else Ok dflt.
Definition iso_or_none (t : option Z) : pyval := match t with Some t => PStr (iso t) | None => PNone end.

Definition reasoning_loading (r : row) : bool :=
  bool_decide (reasoning_completed_at r = None) &&
  bool_decide (column r "outcome" ∈ [PStr "enforced"; PStr "dry_run"]).

Definition record_to_dict (r : row) : res obj :=
  let c := column r in
  let* safety := loads_text (c "safety_checks") in
  let* reasoning := loads_text (c "reasoning") in
  let* hypotheses := loads_or (c "hypotheses") (PList []) in
  let* rollback := loads_or (c "rollback_plan") (PDict []) in
  let* alternative := loads_or (c "alternative_actions") (PList []) in
  let* follow_up := loads_or (c "follow_up_actions") (PList []) in
  Ok [("id", c "id"); ("alert_sid", c "alert_sid"); ("alert_src_ip", c "alert_src_ip"); ("outcome", c "outcome");
      ("action", c "action"); ("src_ip", c "src_ip"); ("dst_ip", c "dst_ip"); ("dst_port", c "dst_port");
      ("confidence", c "confidence"); ("rejection_reason", c "rejection_reason"); ("safety_checks", safety);
      ("reasoning", reasoning); ("hypotheses", hypotheses); ("rollback_plan", rollback); ("rule_id", c "rule_id");
      ("ttl_seconds", c "ttl_seconds"); ("latency_ms", c "latency_ms"); ("created_at", PStr (iso (created_at r)));
      ("dry_run", c "dry_run"); ("retrospective_outcome", c "retrospective_outcome"); ("trace_id", c "trace_id");
      ("primary_hypothesis", c "primary_hypothesis"); ("alternative_actions", alternative);
      ("follow_up_actions", follow_up); ("mitre_technique", c "mitre_technique"); ("mitre_tactic", c "mitre_tactic");
      ("reasoning_completed_at", iso_or_none (reasoning_completed_at r));
      ("reasoning_loading", PBool (reasoning_loading r)); ("retrospective_notes", c "retrospective_notes");
      ("labeled_at", iso_or_none (labeled_at r)); ("notification_title", c "notification_title");
      ("notification_body", c "notification_body"); ("notification_severity", c "notification_severity")].

(** [get_decision] of the workspace, [get_decision_history] of the history. *)
Definition get_from (t : table) (decision_id : string) (s : store) : res (option obj) :=
  match s with
  | None => Ok None
  | Some db =>
      let* rows := pg_select t (has_id decision_id) Unordered None db in
      match rows with
      | [] => Ok None
      | [r] => let* d := record_to_dict r in Ok (Some d)
      | _ => Raise (OtherError "MultipleResultsFound")
      end
  end.
Definition get_decision : string -> store -> res (option obj) := get_from Decisions.
Definition get_decision_history : string -> store -> res (option obj) := get_from History.

Definition list_from (t : table) (limit : Z) (s : store) : res (list obj) :=
  match s with
  | None => Ok []
  | Some db => let* rows := pg_select t (fun _ => true) Newest (Some limit) db in mapM_res record_to_dict rows
  end.
Definition list_decisions : Z -> store -> res (list obj) := list_from Decisions.
Definition list_decisions_history : Z -> store -> res (list obj) := list_from History.

(** ** Search by vector *)
Definition similar_filter (sid : option Z) (mitre : option string) (cutoff : Z) (r : row) : bool :=
  (cutoff <=? created_at r) && bool_decide (is_Some (embedding r)) &&
  match sid with Some n => bool_decide (column r "alert_sid" = PInt n) | None => true end &&
  match mitre with
  | Some m => if nonempty m then bool_decide (column r "mitre_technique" = PStr m) else true
  | None => true
  end.
Definition similar_entry (r : row) (sim : Q) : pyval :=
  let c := column r in
  PDict [("id", c "id"); ("alert_sid", c "alert_sid"); ("alert_src_ip", c "alert_src_ip"); ("outcome", c "outcome");
         ("action", c "action"); ("confidence", c "confidence"); ("mitre_technique", c "mitre_technique");
         ("mitre_tactic", c "mitre_tactic"); ("primary_hypothesis", c "primary_hypothesis");
         ("created_at", PStr (iso (created_at r))); ("similarity", PFloat (py_round 3 sim))].

Definition DAY : Z := 86400000000.
Definition search_similar_by_embedding (now : Z) (vec : list Q) (sid : option Z) (mitre : option string)
    (lookback_days limit : Z) (min_similarity : Q) (s : store) : list pyval :=
  match s, vec with
  | Some db, _ :: _ =>
      match pg_search (vec_literal vec) (similar_filter sid mitre (now - lookback_days * DAY)) limit db with
      | Raise _ => []
      | Ok rows => omap (fun rs : row * option Q =>
          let sim := default 0%Q rs.2 in
          if Qle_bool min_similarity sim then Some (similar_entry rs.1 sim) else None) rows
      end
  | _, _ => []
  end.
End Store.

(** ** Lemmas *)
Lemma div_half_even_near n d : 0 < d -> 2 * Z.abs (div_half_even n d * d - n) <= d.
Proof.
  intros Hd. unfold div_half_even. pose proof (Z.div_mod n d) as E. pose proof (Z.mod_pos_bound n d Hd) as Hr.
  set (q := n / d) in *. set (r := n mod d) in *.
  destruct (Z.ltb_spec d (2 * r)); cbn [orb]; [nia|]. destruct (Z.eqb_spec (2 * r) d); cbn [andb]; [destruct (Z.odd q)|]; nia.
Qed.

Lemma dict_get_foldl_set (values : obj) k : forall d, dict_get (foldl (fun d kv => dict_set d kv.1 kv.2) d values) k =
  match dict_get (rev values) k with Some v => Some v | None => dict_get d k end.
Proof.
  induction values as [|[k' v'] vs IH] using rev_ind; intros d; [done|].
  rewrite foldl_app, rev_unit. cbn [foldl fst snd]. rewrite dict_get_set. cbn [dict_get].
  destruct (decide (k' = k)) as [->|]; [by rewrite decide_True|]. rewrite decide_False by done. apply IH.
Qed.

Lemma column_set_columns values r k : column (set_columns values r) k = default (column r k) (dict_get (rev values) k).
Proof. unfold column, jget. cbn [set_columns columns]. rewrite dict_get_foldl_set. by destruct (dict_get (rev values) k). Qed.

Section StoreLemmas.
Context `{PyRepr} `{PostgresLaws}.
Implicit Types (s : pg) (r : row) (i : string).

(** The updates of both tables in one transaction, each of the rows with a key. *)
Definition row_updates (us : list (string * (row -> row))) : list stmt := flat_map (fun u => both (has_id u.1) u.2) us.
Definition updated (us : list (string * (row -> row))) (r : row) : row :=
  foldl (fun r u => set_row (has_id u.1) u.2 r) r us.

Lemma run_row_updates us : forall T t, run_stmts (row_updates us) T t = map (updated us) (T t).
Proof.
  induction us as [|[i f] us IH]; intros T t; [symmetry; apply map_id|].
  cbn [row_updates flat_map both app]. unfold run_stmts in *. cbn [foldl fst snd].
  rewrite IH. unfold run_stmt. destruct t; repeat case_decide; try done; by rewrite map_map.
Qed.

Definition update_fits (f : row -> row) : Prop :=
  forall r, row_fits r = true -> row_fits (f r) = true /\ column (f r) "id" = column r "id".

Lemma row_updates_fit us : Forall (fun u => update_fits u.2) us -> Forall stmt_fits (row_updates us).
Proof. induction 1 as [|u us Hu _ IH]; [constructor|]. by do 2 (apply Forall_cons_2; [exact Hu|]). Qed.

Lemma commit_row_updates us s s' t : pg_commit (row_updates us) s = Ok s' -> Forall (fun u => update_fits u.2) us ->
  pg_rows s' t ≡ₚ map (updated us) (pg_rows s t).
Proof. intros Hc Hf%row_updates_fit. rewrite <- run_row_updates. by apply commit_runs. Qed.

(** ** The dual write *)
(** Equal but for the time of creation. *)
Definition twin (a b : row) : Prop :=
  reasoning_completed_at a = reasoning_completed_at b /\ labeled_at a = labeled_at b /\
  embedding a = embedding b /\ columns a = columns b.
Definition uniform (f : row -> row) : Prop := forall a b, twin a b -> twin (f a) (f b).

(** Every row of the workspace has its twin in the history. *)
Definition mirrored s : Prop := forall r, r ∈ pg_rows s Decisions -> exists r', r' ∈ pg_rows s History /\ twin r r'.
Definition keyed s : Prop := forall t, NoDup (ids (pg_rows s t)).

Lemma uniform_columns values : uniform (set_columns values).
Proof. intros a b (? & ? & ? & E). unfold twin. cbn. by rewrite E. Qed.
Lemma uniform_completed t : uniform (set_completed t).
Proof. intros a b (? & ? & ? & ?). by unfold twin. Qed.
Lemma uniform_labeled t : uniform (set_labeled t).
Proof. intros a b (? & ? & ? & ?). by unfold twin. Qed.
Lemma uniform_embedding v : uniform (set_embedding v).
Proof. intros a b (? & ? & ? & ?). by unfold twin. Qed.
Lemma uniform_compose f g : uniform f -> uniform g -> uniform (fun r => f (g r)).
Proof. intros Hf Hg a b Hab. by apply Hf, Hg. Qed.

Lemma updated_twin us a b : Forall (fun u => uniform u.2) us -> twin a b -> twin (updated us a) (updated us b).
Proof.
  intros Hu. revert a b. induction Hu as [|[i f] us Hf _ IH]; intros a b Hab; [done|]. cbn. apply IH.
  unfold set_row, has_id, column. destruct Hab as (E1 & E2 & E3 & E4). rewrite E4. case_match; [by apply Hf|done].
Qed.

(** What happens to the tables: a decision is saved, rows are updated in both tables, and
    the scripts of the experiments empty the workspace. *)
Inductive store_step : pg -> pg -> Prop :=
  | step_save now now' data completed fields s s' :
      save_decision now now' data completed (Some s) = Ok (Some s') -> common_fields data = Ok fields ->
      row_fits (new_row now fields completed) = true -> store_step s s'
  | step_update us s s' :
      pg_commit (row_updates us) s = Ok s' -> Forall (fun u => update_fits u.2 /\ uniform u.2) us -> store_step s s'
  | step_truncate s s' :
      pg_rows s' Decisions = [] -> pg_rows s' History ≡ₚ pg_rows s History -> store_step s s'.

Lemma save_rows now now' data completed fields s s' :
  save_decision now now' data completed (Some s) = Ok (Some s') -> common_fields data = Ok fields ->
  row_fits (new_row now fields completed) = true ->
  pg_rows s' Decisions ≡ₚ new_row now fields completed :: pg_rows s Decisions /\
  pg_rows s' History ≡ₚ new_row now' fields completed :: pg_rows s History /\ keyed s'.
Proof.
  intros Hs Hf Hfit. unfold save_decision in Hs. rewrite Hf in Hs. cbn [rbind] in Hs.
  destruct (pg_commit _ s) as [s1|] eqn:Hc; [|done]. injection Hs as <-.
  assert (Hfits : Forall stmt_fits [Insert Decisions (new_row now fields completed); Insert History (new_row now' fields completed)])
    by (by repeat constructor).
  split_and!; [rewrite (commit_runs _ _ _ _ Hc Hfits)..|]; [done..|]. intros t. by eapply commit_unique.
Qed.

Lemma step_keeps s s' : store_step s s' -> keyed s -> mirrored s -> keyed s' /\ mirrored s'.
Proof.
  intros Hst Hk Hm. destruct Hst as [now now' data completed fields s s' Hs Hf Hfit|us s s' Hc Hu|s s' Hd Hh].
  - destruct (save_rows _ _ _ _ _ _ _ Hs Hf Hfit) as (Ed & Eh & Hk'). split; [done|].
    intros r [->|Hr]%(elem_of_Permutation_proper _ _ _ Ed)%elem_of_cons.
    + exists (new_row now' fields completed). rewrite Eh. split; [by left|done].
    + destruct (Hm r Hr) as (r' & Hr' & Ht). exists r'. rewrite Eh. split; [by right|done].
  - assert (Hfits : Forall (fun u => update_fits u.2) us) by (eapply Forall_impl; [exact Hu|]; by intros u []).
    assert (Huni : Forall (fun u => uniform u.2) us) by (eapply Forall_impl; [exact Hu|]; by intros u []).
    split; [intros t; by eapply commit_unique|]. intros r Hr. rewrite (commit_row_updates _ _ _ _ Hc Hfits) in Hr.
    apply list_elem_of_fmap in Hr as (r0 & -> & Hr0). destruct (Hm r0 Hr0) as (r' & Hr' & Ht).
    exists (updated us r'). rewrite (commit_row_updates _ _ _ _ Hc Hfits). split; [by apply list_elem_of_fmap_2|by apply updated_twin].
  - split; [|intros r Hr; rewrite Hd in Hr; by apply not_elem_of_nil in Hr].
    intros []; [rewrite Hd; constructor|]. unfold ids. rewrite Hh. apply Hk.
Qed.

(** ** Reading a row back *)
Lemma unique_id s t i a b : keyed s -> a ∈ pg_rows s t -> b ∈ pg_rows s t -> has_id i a = true -> has_id i b = true -> a = b.
Proof.
  intros Hk Ha Hb Hia%bool_decide_eq_true Hib%bool_decide_eq_true. specialize (Hk t). unfold ids in Hk.
  apply elem_of_Permutation in Ha as (l & Hl). rewrite Hl in Hb, Hk. cbn [map] in Hk. apply NoDup_cons in Hk as [Hn _].
  apply elem_of_cons in Hb as [->|Hb]; [done|]. destruct Hn. rewrite Hia, <- Hib. by apply (list_elem_of_fmap_2 (fun r => column r "id")).
Qed.

Lemma select_id s t i l : keyed s -> pg_select t (has_id i) Unordered None s = Ok l ->
  (forall r, r ∈ l <-> r ∈ pg_rows s t /\ has_id i r = true) /\ (l = [] \/ exists r, l = [r]).
Proof.
  intros Hk (l' & Hl' & _ & ->)%select_rows; [|done]. cbn [limited].
  assert (Hin : forall r, r ∈ l' <-> r ∈ pg_rows s t /\ has_id i r = true).
  { intros r. rewrite Hl', list_elem_of_filter. tauto. }
  split; [done|]. destruct l' as [|a [|b l]]; [by left|right; by exists a|]. exfalso.
  assert (Hab : a = b) by (apply (unique_id s t i); try apply Hin; try done; [by left|right; by left|by left|right; by left]).
  subst b. assert (Hd : NoDup (ids (a :: a :: l))).
  { unfold ids. rewrite Hl'. apply (sublist_NoDup _ (ids (pg_rows s t))); [apply Hk|]. apply fmap_sublist, sublist_filter. }
  unfold ids in Hd. cbn [map] in Hd. apply NoDup_cons in Hd as [Hn _]. destruct Hn. by left.
Qed.

Context (json_loads : string -> option pyval) (iso : Z -> string).
#[local] Abbreviation get_from := (get_from json_loads iso).
#[local] Abbreviation record_to_dict := (record_to_dict json_loads iso).

Lemma get_from_row s t i d : keyed s -> get_from t i (Some s) = Ok (Some d) ->
  exists r, r ∈ pg_rows s t /\ has_id i r = true /\ record_to_dict r = Ok d.
Proof.
  intros Hk. cbn. intros (l & Hl & Hd)%rbind_ok. destruct (select_id _ _ _ _ Hk Hl) as [Hin [->|[r ->]]]; [done|].
  apply rbind_ok in Hd as (d' & Hd' & [= <-]). exists r. destruct (proj1 (Hin r) ltac:(by left)). done.
Qed.

Lemma get_from_here s t i r x : keyed s -> r ∈ pg_rows s t -> has_id i r = true ->
  get_from t i (Some s) = Ok x -> exists d, x = Some d /\ record_to_dict r = Ok d.
Proof.
  intros Hk Hr Hi. cbn. intros (l & Hl & Hd)%rbind_ok. destruct (select_id _ _ _ _ Hk Hl) as [Hin [->|[r' ->]]].
  - by pose proof (proj2 (Hin r) (conj Hr Hi)) as ?%not_elem_of_nil.
  - assert (r = r') as <- by (by apply list_elem_of_singleton, Hin). apply rbind_ok in Hd as (d & Hd & [= <-]). eauto.
Qed.

Lemma twin_dict a b d : twin a b -> record_to_dict a = Ok d ->
  exists d', record_to_dict b = Ok d' /\ forall k, k <> "created_at" -> jget d' k = jget d k.
Proof.
  intros (E1 & E2 & E3 & E4) Hd. unfold DecisionStore.record_to_dict, reasoning_loading, column in *.
  rewrite E1, E2, E4 in *.
  apply rbind_ok in Hd as (v1 & -> & (v2 & -> & (v3 & -> & (v4 & -> & (v5 & -> & (v6 & -> & [= <-])%rbind_ok)%rbind_ok)%rbind_ok)%rbind_ok)%rbind_ok).
  eexists. split; [done|]. intros k Hk. unfold jget. cbn [dict_get]. by rewrite !(decide_False (P := k = "created_at")) by done.
Qed.

End StoreLemmas.

(** ** Properties *)
(** Whatever decisions are saved, whatever rows are updated in both tables and however
    often the workspace is emptied, keys stay unique and every decision that can be read from the
    workspace can be read from the history with the same fields, but for the time of
    creation, which each row takes from the clock by itself. *)
Theorem history_covers `{PyRepr} `{PostgresLaws} json_loads iso (s s' : pg) i d x :
  keyed s -> mirrored s -> rtc store_step s s' ->
  get_decision json_loads iso i (Some s') = Ok (Some d) -> get_decision_history json_loads iso i (Some s') = Ok x ->
  keyed s' /\ exists d', x = Some d' /\ forall k, k <> "created_at" -> jget d' k = jget d k.
Proof.
  intros Hk Hm Hrun Hd Hx.
  assert (Hinv : keyed s' /\ mirrored s').
  { clear Hd Hx. induction Hrun as [|s s1 s2 Hst _ IH]; [done|]. apply IH; by eapply step_keeps. }
  destruct Hinv as [Hk' Hm']. split; [done|].
  destruct (get_from_row json_loads iso _ _ _ _ Hk' Hd) as (r & Hr & Hi & Hrd).
  destruct (Hm' r Hr) as (r' & Hr' & Ht).
  assert (Hi' : has_id i r' = true) by (unfold has_id, column in *; by rewrite <- (proj2 (proj2 (proj2 Ht)))).
  destruct (get_from_here json_loads iso _ _ _ _ _ Hk' Hr' Hi' Hx) as (d' & -> & Hd').
  exists d'. split; [done|]. destruct (twin_dict json_loads iso r r' d Ht Hrd) as (d2 & Hd2 & Heq).
  rewrite Hd2 in Hd'. by injection Hd' as <-.
Qed.

(** The columns that hold JSON text, with the value of a missing field. *)
Definition JSON_FIELDS : list (string * pyval) := [
  ("safety_checks", PDict []); ("reasoning", PList []); ("hypotheses", PList []); ("rollback_plan", PDict []);
  ("alternative_actions", PList []); ("follow_up_actions", PList [])].
Definition PLAIN_FIELDS : list (string * pyval) := [
  ("id", PNone); ("alert_sid", PNone); ("alert_src_ip", PNone); ("outcome", PNone); ("action", PNone); ("src_ip", PNone);
  ("dst_ip", PNone); ("dst_port", PNone); ("confidence", PNone); ("rejection_reason", PStr ""); ("rule_id", PNone);
  ("ttl_seconds", PNone); ("latency_ms", PFloat 0); ("dry_run", PBool true); ("trace_id", PNone);
  ("primary_hypothesis", PNone); ("mitre_technique", PNone); ("mitre_tactic", PNone); ("notification_title", PNone);
  ("notification_body", PNone); ("notification_severity", PNone)].

(** The text of the value reads back as the value. *)
Definition survives `{PyRepr} (json_loads : string -> option pyval) (v : pyval) : Prop :=
  json_loads (json_dumps false v) = Some v.

Lemma index_key_get (d : obj) k v : index_key (PDict d) k = Ok v -> dict_get d k = Some v.
Proof. cbn. destruct (dict_get d k); [by intros [= ->]|done]. Qed.

Lemma dumps_nonempty `{PyRepr} v : (forall q, v <> PFloat q) -> json_dumps false v <> "".
Proof.
  intros Hf E. apply (f_equal String.length) in E. destruct v as [|[]|z|q|t|l|d]; cbn in E; try done.
  - destruct (number_head floats0 z) as (c & u & Hz & _). by rewrite Hz in E.
  - by destruct (Hf q).
Qed.

(** C28: a decision whose values fit their columns, and whose JSON fields JSON reads back as it
    wrote them, is read back in the state its save leaves, from the workspace
    and from the history alike, with every field as it was given and a missing one with its
    default, the JSON fields decoded; there it is shown as still loading exactly when its
    reasoning is not complete and its outcome is "enforced" or "dry_run", so that a decision
    with another outcome never is. *)
Theorem save_get_roundtrip `{PyRepr} `{PostgresLaws} json_loads iso now now' data completed fields (s s' : pg) t i x :
  save_decision now now' data completed (Some s) = Ok (Some s') -> common_fields data = Ok fields ->
  row_fits (new_row now fields completed) = true -> dict_get data "id" = Some (PStr i) ->
  (forall k v, (k, v) ∈ JSON_FIELDS -> survives json_loads (jget_or data k v) /\ forall q, jget_or data k v <> PFloat q) ->
  get_from json_loads iso t i (Some s') = Ok x ->
  exists d, x = Some d /\
    (forall k v, (k, v) ∈ JSON_FIELDS ++ PLAIN_FIELDS -> jget d k = jget_or data k v) /\
    jget d "created_at" = PStr (iso (match t with Decisions => now | History => now' end)) /\
    jget d "reasoning_loading" =
      PBool (bool_decide (completed = None) && bool_decide (jget data "outcome" ∈ [PStr "enforced"; PStr "dry_run"])).
Proof.
  intros Hs Hf Hfit Hid Hj Hx. destruct (save_rows _ _ _ _ _ _ _ Hs Hf Hfit) as (Ed & Eh & Hk).
  set (r := new_row (match t with Decisions => now | History => now' end) fields completed).
  assert (Hr : r ∈ pg_rows s' t) by (destruct t; [rewrite Ed|rewrite Eh]; by left).
  unfold common_fields in Hf. cbn [index_key] in Hf. rewrite Hid in Hf. cbn [rbind] in Hf.
  apply rbind_ok in Hf as (sid & Hsid & (src & Hsrc & (outcome & Hout & [= <-])%rbind_ok)%rbind_ok).
  assert (Hi : has_id i r = true) by (unfold has_id; by rewrite bool_decide_true).
  destruct (get_from_here json_loads iso _ _ _ _ _ Hk Hr Hi Hx) as (d & -> & Hd). exists d. split; [done|].
  assert (Hread : forall k v, (k, v) ∈ JSON_FIELDS -> loads_text json_loads (dumped data k v) = Ok (jget_or data k v) /\
      forall e, loads_or json_loads (dumped data k v) e = Ok (jget_or data k v)).
  { intros k v Hin. destruct (Hj k v Hin) as [Hsv Hnf]. unfold survives in Hsv. unfold dumped, loads_or. cbn [truthy loads_text]. rewrite Hsv.
    split; [done|]. intros e. by rewrite (proj2 (nonempty_true _) (dumps_nonempty _ Hnf)). }
  unfold record_to_dict in Hd.
  change (column r "safety_checks") with (dumped data "safety_checks" (PDict [])) in Hd.
  change (column r "reasoning") with (dumped data "reasoning" (PList [])) in Hd.
  change (column r "hypotheses") with (dumped data "hypotheses" (PList [])) in Hd.
  change (column r "rollback_plan") with (dumped data "rollback_plan" (PDict [])) in Hd.
  change (column r "alternative_actions") with (dumped data "alternative_actions" (PList [])) in Hd.
  change (column r "follow_up_actions") with (dumped data "follow_up_actions" (PList [])) in Hd.
  rewrite (proj1 (Hread "safety_checks" (PDict []) ltac:(set_solver))), (proj1 (Hread "reasoning" (PList []) ltac:(set_solver))),
    (proj2 (Hread "hypotheses" (PList []) ltac:(set_solver))), (proj2 (Hread "rollback_plan" (PDict []) ltac:(set_solver))),
    (proj2 (Hread "alternative_actions" (PList []) ltac:(set_solver))), (proj2 (Hread "follow_up_actions" (PList []) ltac:(set_solver))) in Hd.
  cbn [rbind] in Hd. injection Hd as <-. apply index_key_get in Hsid, Hsrc, Hout. split_and!.
  - intros k v Hin. unfold JSON_FIELDS, PLAIN_FIELDS in Hin. cbn [app] in Hin. rewrite !elem_of_cons in Hin.
    destruct_or! Hin; try (injection Hin as -> ->; unfold jget_or; rewrite ?Hid, ?Hsid, ?Hsrc, ?Hout; reflexivity).
    by apply not_elem_of_nil in Hin.
  - reflexivity.
  - unfold jget, reasoning_loading. rewrite Hout. reflexivity.
Qed.

(** ** Examples *)
#[local] Instance repr0 : PyRepr := fun _ => "".
Definition sample_data (i : string) : obj :=
  [("id", PStr i); ("alert_sid", PInt 9000001); ("alert_src_ip", PStr "10.1.100.10"); ("outcome", PStr "dry_run");
   ("hypotheses", PList [PDict [("name", PStr "scan")]])].
Definition saved_db (i : string) (s : @pg pg0) : @pg pg0 :=
  match save_decision 5 6 (sample_data i) None (Some s) with Ok (Some s') => s' | _ => s end.
Definition iso0 (t : Z) : string := str_of_Z t.

Lemma save_get_roundtrip_witness :
  match get_decision_history loads0 iso0 "d1" (Some (saved_db "d1" pg_empty)) with
  | Ok (Some d) => jget d "hypotheses" = PList [PDict [("name", PStr "scan")]] /\ jget d "created_at" = PStr "6" /\
                   jget d "reasoning_loading" = PBool true
  | _ => False
  end.
Proof.
  destruct (get_decision_history loads0 iso0 "d1" (Some (saved_db "d1" pg_empty))) as [x|] eqn:E; [|by vm_compute in E].
  destruct (save_get_roundtrip loads0 iso0 5 6 (sample_data "d1") None
    (res_or [] (common_fields (sample_data "d1"))) pg_empty (saved_db "d1" pg_empty) History "d1" x) as (d & -> & Hf & Hc & Hl);
    [vm_compute; reflexivity|vm_compute; reflexivity|vm_compute; reflexivity|reflexivity| |exact E|].
  - intros k v Hin. unfold JSON_FIELDS in Hin. rewrite !elem_of_cons in Hin.
    destruct_or! Hin; try (injection Hin as -> ->; split; [vm_compute; reflexivity|intros q [=]]). by apply not_elem_of_nil in Hin.
  - rewrite Hc, Hl. split; [|done]. rewrite (Hf "hypotheses" (PList [])); [reflexivity|]. unfold JSON_FIELDS. set_solver.
Defined.

(** The first decision is gone from the workspace, the second is in both tables. *)
Lemma history_covers_witness :
  let s' := saved_db "d2" ([], (saved_db "d1" pg_empty).2) in
  (exists d, get_decision loads0 iso0 "d2" (Some s') = Ok (Some d) /\
     exists d', get_decision_history loads0 iso0 "d2" (Some s') = Ok (Some d') /\ jget d' "outcome" = jget d "outcome") /\
  get_decision loads0 iso0 "d1" (Some s') = Ok None.
Proof.
  intros s'. split; [|vm_compute; reflexivity].
  assert (Hrun : rtc store_step pg_empty s').
  { apply (rtc_l _ _ (saved_db "d1" pg_empty)).
    { apply (step_save 5 6 (sample_data "d1") None (res_or [] (common_fields (sample_data "d1")))); vm_compute; reflexivity. }
    apply (rtc_l _ _ ([], (saved_db "d1" pg_empty).2)); [by apply step_truncate|].
    apply rtc_once, (step_save 5 6 (sample_data "d2") None (res_or [] (common_fields (sample_data "d2")))); vm_compute; reflexivity. }
  destruct (get_decision loads0 iso0 "d2" (Some s')) as [[d|]|] eqn:E1; [|by vm_compute in E1..].
  destruct (get_decision_history loads0 iso0 "d2" (Some s')) as [x|] eqn:E2; [|by vm_compute in E2].
  assert (Hk : keyed pg_empty) by (intros []; constructor).
  assert (Hm : mirrored pg_empty) by (intros r Hr; by apply not_elem_of_nil in Hr).
  destruct (history_covers loads0 iso0 pg_empty s' "d2" d x Hk Hm Hrun E1 E2) as [_ (d' & -> & Hd')].
  exists d. split; [done|]. exists d'. split; [done|]. by apply Hd'.
Defined.
