(* ===== verification/OperationalMemory.v ===== *)
(** * Summaries of past decisions (storage/operational_memory.py)

    The two aggregations over the workspace table.  Every statement of a session sees
    the database as it is then ([snap n] at the [n]-th); an aggregate is computed on the
    rows its filter selects, and groups come in the order the server returns them.
    The arithmetic of the trust score is exact. *)
From S2P Require Import Prelude PyVal Postgres DecisionStore.
Local Open Scope string_scope.
Local Open Scope Z_scope.
Local Open Scope list_scope.

Section Memory.
Context `{PyRepr} `{Postgres} (iso : Z -> string).

(** ** Aggregates *)
(** [GROUP BY] with a count *)
Definition group_count (f : row -> pyval) (rows : list row) : list (pyval * Z) :=
  foldl (fun d r => dict_set d (f r) (default 0 (dict_get d (f r)) + 1)) [] rows.
(** The largest groups first, at most [n] *)
Definition more (a b : pyval * Z) : Prop := b.2 <= a.2.
#[export] Instance more_dec a b : Decision (more a b).
Proof. unfold more. apply _. Defined.
Definition top_groups (n : nat) (groups : list (pyval * Z)) : list (pyval * Z) := take n (merge_sort more groups).

Definition distinct (f : row -> pyval) (rows : list row) : list pyval := remove_dups (map f rows).
Definition opt_best (best : Z -> Z -> Z) (rows : list row) : option Z :=
  match rows with [] => None | r :: rest => Some (foldl (fun t r => best t (created_at r)) (created_at r) rest) end.

Definition of_source (src_ip : string) (cutoff : Z) (r : row) : bool :=
  bool_decide (column r "alert_src_ip" = PStr src_ip) && (cutoff <=? created_at r).
Definition labeled (r : row) : bool := bool_decide (column r "retrospective_outcome" <> PNone).

(** ** [get_ip_summary] *)
Definition key_text (v : pyval) : string := match v with PStr s => s | v => py_str v end.
Definition as_dict (groups : list (pyval * Z)) : obj := map (fun g => (key_text g.1, PInt g.2)) groups.
Definition count_in (groups : list (pyval * Z)) (k : string) : Z := default 0 (dict_get groups (PStr k)).

Definition qmax (a b : Q) : Q := if Qle_bool a b then b else a.
Definition qmin (a b : Q) : Q := if Qle_bool a b then a else b.
Definition trust_score (enforced total : Z) : Q :=
  qmax 0 (qmin 1 (1 - (inject_Z enforced / inject_Z (Z.max total 1)) * (4 # 5))).

Definition first_observation (src_ip : string) (window_days : Z) : obj :=
  [("src_ip", PStr src_ip); ("window_days", PInt window_days); ("total_alerts", PInt 0); ("first_seen", PNone);
   ("last_seen", PNone); ("distinct_sids", PInt 0); ("outcome_breakdown", PDict []);
   ("decision_summary", PStr "first observation in this window"); ("trust_score", PFloat (1 # 2))].

Definition get_ip_summary (now : Z) (src_ip : string) (window_days : Z) (snap : nat -> option pg) : res obj :=
  let cutoff := now - window_days * DAY in
  let select n p :=
    match snap n with
    | None => Raise (RuntimeError "Postgres not connected")
    | Some db => pg_select Decisions (fun r => of_source src_ip cutoff r && p r) Unordered None db
    end in
  let any := fun _ : row => true in
  let* counted := select 0%nat any in
  let total := Z.of_nat (length counted) in
  if total =? 0 then Ok (first_observation src_ip window_days) else
  let* stats := select 1%nat any in
  let* by_outcome := select 2%nat any in
  let* by_label := select 3%nat labeled in
  let* by_sid := select 4%nat any in
  let outcome_breakdown := group_count (fun r => column r "outcome") by_outcome in
  let retro_breakdown := group_count (fun r => column r "retrospective_outcome") by_label in
  let top_sids := top_groups 5 (group_count (fun r => column r "alert_sid") by_sid) in
  let decisions_str := py_join ", " (map (fun g => (key_text g.1 ++ "=" ++ str_of_Z g.2)%string) outcome_breakdown) in
  let sids_str := py_join ", " (map (fun g => ("SID " ++ key_text g.1 ++ "(" ++ str_of_Z g.2 ++ "x)")%string) top_sids) in
  Ok [("src_ip", PStr src_ip); ("window_days", PInt window_days); ("total_alerts", PInt total);
      ("first_seen", iso_or_none iso (opt_best Z.min stats)); ("last_seen", iso_or_none iso (opt_best Z.max stats));
      ("distinct_sids", PInt (Z.of_nat (length (distinct (fun r => column r "alert_sid") stats))));
      ("outcome_breakdown", PDict (as_dict outcome_breakdown)); ("retrospective_breakdown", PDict (as_dict retro_breakdown));
      ("top_sids", PList (map (fun g => PDict [("sid", g.1); ("count", PInt g.2)]) top_sids));
      ("decision_summary", PStr ("alerts: " ++ decisions_str ++ "; top SIDs: " ++ sids_str)%string);
      ("trust_score", PFloat (py_round 2 (trust_score (count_in outcome_breakdown "enforced") total)))].

(** ** [get_recent_alerts_for_correlation] *)
Definition MINUTE : Z := 60000000.
Definition row_sid (r : row) : Z := match column r "alert_sid" with PInt z => z | _ => 0 end.

Definition sid_severity (sid : Z) : option string :=
  if bool_decide (sid ∈ [9000010; 9000011; 9000020]) then Some "recon"
  else if bool_decide (sid ∈ [9000003; 9000004; 9000005]) then Some "lateral"
  else if bool_decide (sid ∈ [9000001; 9000002]) then Some "critical"
  else None.

Definition kill_chain_signal (unique_sids : list Z) : string :=
  if (length unique_sids <? 2)%nat then "single-SID activity" else
  let severities := omap sid_severity unique_sids in
  let has s := bool_decide (s ∈ severities) in
  if has "recon" && (has "lateral" || has "critical") then "MULTI-STAGE — recon → escalation pattern detected"
  else if has "lateral" && has "critical" then "MULTI-STAGE — lateral → critical pattern detected"
  else ("multi-SID activity (" ++ py_join ", " severities ++ ")")%string.

Definition unique_sids (rows : list row) : list Z := merge_sort Z.le (remove_dups (map row_sid rows)).

Definition get_recent_alerts_for_correlation (now : Z) (src_ip : string) (window_minutes : Z) (db : option pg) : res obj :=
  match db with
  | None => Raise (RuntimeError "Postgres not connected")
  | Some db =>
      let* rows := pg_select Decisions (of_source src_ip (now - window_minutes * MINUTE)) Oldest None db in
      match rows with
      | [] => Ok [("src_ip", PStr src_ip); ("window_minutes", PInt window_minutes); ("alert_count", PInt 0);
                  ("sid_sequence", PList []); ("kill_chain_signal", PStr "no recent activity")]
      | _ =>
          let sid_sequence := map (fun r => PDict [("sid", column r "alert_sid"); ("ts", PStr (iso (created_at r)))]) rows in
          Ok [("src_ip", PStr src_ip); ("window_minutes", PInt window_minutes); ("alert_count", PInt (Z.of_nat (length rows)));
              ("unique_sids", PList (map PInt (unique_sids rows))); ("sid_sequence", PList (last_n 10 sid_sequence));
              ("kill_chain_signal", PStr (kill_chain_signal (unique_sids rows)))]
      end
  end.
End Memory.

(** ** Lemmas *)
Definition total_of (groups : list (pyval * Z)) : Z := foldr Z.add 0 groups.*2.

Lemma total_set (d : list (pyval * Z)) k : NoDup d.*1 ->
  total_of (dict_set d k (default 0 (dict_get d k) + 1)) = total_of d + 1.
Proof.
  unfold total_of. induction d as [|[k' v] d IH]; intros Hd; [done|]. cbn. apply NoDup_cons in Hd as [Hn Hd].
  destruct (decide (k = k')); cbn; [lia|]. specialize (IH Hd). lia.
Qed.

Lemma group_count_spec f rows :
  NoDup (group_count f rows).*1 /\ total_of (group_count f rows) = Z.of_nat (length rows) /\
  forall k, default 0 (dict_get (group_count f rows) k) = Z.of_nat (length (filter (fun r => f r = k) rows)).
Proof.
  unfold group_count. induction rows as [|r rows (Hn & Ht & Hk)] using rev_ind; [split_and!; [constructor|done|done]|].
  rewrite foldl_app. cbn [foldl]. set (d := foldl _ [] rows) in *. split_and!.
  - by apply dict_set_NoDup.
  - rewrite total_set by done. rewrite length_app. cbn. lia.
  - intros k. rewrite dict_get_set, filter_app, length_app, filter_cons, filter_nil. rewrite Hk.
    destruct (decide (f r = k)) as [->|]; cbn; [lia|]. rewrite Hk. lia.
Qed.

Lemma length_filter_perm {A} (P : A -> Prop) `{forall x, Decision (P x)} (l l' : list A) :
  l ≡ₚ l' -> length (filter P l) = length (filter P l').
Proof. by intros ->. Qed.

#[local] Instance more_total : Total more.
Proof. intros a b. unfold more. lia. Qed.
#[local] Instance more_trans : Transitive more.
Proof. intros a b c. unfold more. lia. Qed.

(** The groups that are kept are at least as large as the others. *)
Lemma top_groups_spec n groups : (length (top_groups n groups) <= n)%nat /\ (forall g, g ∈ top_groups n groups -> g ∈ groups) /\
  forall g g', g ∈ top_groups n groups -> g' ∈ groups -> g' ∉ top_groups n groups -> g'.2 <= g.2.
Proof.
  unfold top_groups. pose proof (merge_sort_Permutation more groups) as Hp. pose proof (StronglySorted_merge_sort more groups) as Hs.
  generalize dependent (merge_sort more groups). intros l Hp Hs. split; [rewrite length_take; lia|]. split.
  - intros g Hg. rewrite <- Hp. by eapply elem_of_take in Hg as (i & Hi%list_elem_of_lookup_2 & _).
  - intros g g' Hg Hg' Hn. rewrite <- Hp, <- (take_drop n l) in Hg'. apply elem_of_app in Hg' as [?|Hd]; [done|].
    rewrite <- (take_drop n l) in Hs. apply StronglySorted_app_1_elem_of with (x1 := g) (x2 := g') in Hs; done.
Qed.

Lemma py_round_near n q : (Qmult 2 (Qmult (inject_Z (10 ^ Z.of_nat n)) (Qminus (py_round n q) q)) <= 1 /\
  -(1) <= Qmult 2 (Qmult (inject_Z (10 ^ Z.of_nat n)) (Qminus (py_round n q) q)))%Q.
Proof.
  set (k := 10 ^ Z.of_nat n). assert (Hk : 0 < k) by (apply Z.pow_pos_nonneg; lia).
  pose proof (div_half_even_near (Qnum q * k) (Zpos (Qden q)) ltac:(lia)) as Hd.
  assert (Hq : (inject_Z k * (py_round n q - q) == inject_Z (scaled n q) - inject_Z k * q)%Q).
  { unfold py_round. fold k. unfold Qeq, Qminus, Qplus, Qmult, Qopp, inject_Z. cbn [Qnum Qden].
    rewrite !Pos2Z.inj_mul, !Z2Pos.id by lia. ring. }
  rewrite Hq. unfold scaled in *. fold k in Hd. set (m := div_half_even _ _) in *. clearbody m. clear Hq.
  unfold Qle, Qminus, Qplus, Qmult, Qopp, inject_Z. cbn [Qnum Qden]. rewrite !Pos.mul_1_l, !Z.mul_1_r, ?Z.mul_1_l.
  split; lia.
Qed.

Lemma round_between n q a b : (inject_Z a <= inject_Z (10 ^ Z.of_nat n) * q)%Q -> (inject_Z (10 ^ Z.of_nat n) * q <= inject_Z b)%Q ->
  a <= scaled n q <= b.
Proof.
  intros Ha Hb. destruct (py_round_near n q) as [H1 H2]. set (k := 10 ^ Z.of_nat n) in *.
  assert (Hk : 0 < k) by (apply Z.pow_pos_nonneg; lia).
  assert (Hs : (inject_Z k * py_round n q == inject_Z (scaled n q))%Q).
  { unfold py_round. fold k. unfold Qeq, Qmult, inject_Z. cbn [Qnum Qden]. rewrite Pos.mul_1_l, Z2Pos.id by lia. ring. }
  set (m := scaled n q) in *. clearbody m. set (r := py_round n q) in *. clearbody r.
  assert (Hlo : (2 * inject_Z a - 1 <= 2 * inject_Z m)%Q) by nra. assert (Hhi : (2 * inject_Z m <= 2 * inject_Z b + 1)%Q) by nra.
  unfold Qle, Qminus, Qplus, Qmult, Qopp, inject_Z in Hlo, Hhi. cbn [Qnum Qden] in Hlo, Hhi. lia.
Qed.

(** With no more enforced decisions than decisions, the score is between 0.2 and 1. *)
Lemma trust_bounds e t : 0 <= e <= t -> 1 <= t ->
  (trust_score e t == 1 - inject_Z e / inject_Z t * (4 # 5))%Q /\
  (1 # 5 <= py_round 2 (trust_score e t))%Q /\ (py_round 2 (trust_score e t) <= 1)%Q.
Proof.
  intros He Ht. unfold trust_score. rewrite Z.max_l by lia.
  assert (Ht' : (0 < inject_Z t)%Q) by (unfold Qlt; cbn; lia).
  assert (Hx : (0 <= inject_Z e / inject_Z t)%Q /\ (inject_Z e / inject_Z t <= 1)%Q).
  { split; [apply Qle_shift_div_l|apply Qle_shift_div_r]; try done; unfold Qle; cbn; lia. }
  set (x := (inject_Z e / inject_Z t)%Q) in *. clearbody x. destruct Hx as [Hx0 Hx1].
  assert (Hmin : (qmin 1 (1 - x * (4 # 5)) == 1 - x * (4 # 5))%Q).
  { unfold qmin. destruct (Qle_bool 1 _) eqn:E; [|done]. apply Qle_bool_iff in E. lra. }
  assert (Hmax : (qmax 0 (qmin 1 (1 - x * (4 # 5))) == 1 - x * (4 # 5))%Q).
  { unfold qmax. destruct (Qle_bool 0 _) eqn:E; [done|]. rewrite <- not_true_iff_false, Qle_bool_iff in E. lra. }
  split; [done|]. set (q := qmax 0 _) in *. clearbody q.
  destruct (round_between 2 q 20 100) as [H1 H2]; [change (inject_Z (10 ^ Z.of_nat 2)) with (100 # 1); change (inject_Z 20) with (20 # 1); lra|
    change (inject_Z (10 ^ Z.of_nat 2)) with (100 # 1); change (inject_Z 100) with (100 # 1); lra|].
  unfold py_round, Qle. cbn [Qnum Qden]. change (Z.pos (Z.to_pos (10 ^ Z.of_nat 2))) with 100. lia.
Qed.

(** ** Properties *)
(** on a table that stands still the summary of a source counts its decisions in the window:
    the outcomes and the labels are partitioned with their exact numbers, the five SIDs
    shown are the most frequent ones with theirs, and the trust score is one minus 0.8
    times the share of enforced decisions, rounded, between 0.2 and 1. *)
Theorem summary_counts `{PyRepr} `{PostgresLaws} iso now src days (db : pg) d :
  get_ip_summary iso now src days (fun _ => Some db) = Ok d ->
  let rows := filter (fun r => of_source src (now - days * DAY) r = true) (pg_rows db Decisions) in
  let number f k := Z.of_nat (length (filter (fun r : row => f r = k) rows)) in
  rows <> [] ->
  jget d "total_alerts" = PInt (Z.of_nat (length rows)) /\
  (exists outcomes, jget d "outcome_breakdown" = PDict (as_dict outcomes) /\ NoDup outcomes.*1 /\
     total_of outcomes = Z.of_nat (length rows) /\
     forall k, default 0 (dict_get outcomes k) = number (fun r => column r "outcome") k) /\
  (exists labels, jget d "retrospective_breakdown" = PDict (as_dict labels) /\ NoDup labels.*1 /\
     forall k, k <> PNone -> default 0 (dict_get labels k) = number (fun r => column r "retrospective_outcome") k) /\
  (exists top, jget d "top_sids" = PList (map (fun g : pyval * Z => PDict [("sid", g.1); ("count", PInt g.2)]) top) /\
     (length top <= 5)%nat /\
     forall g, g ∈ top -> g.2 = number (fun r => column r "alert_sid") g.1 /\
       forall k, k ∉ top.*1 -> number (fun r => column r "alert_sid") k <= g.2) /\
  exists q, jget d "trust_score" = PFloat (py_round 2 q) /\ (1 # 5 <= py_round 2 q)%Q /\ (py_round 2 q <= 1)%Q /\
    (q == 1 - inject_Z (number (fun r => column r "outcome") (PStr "enforced")) / inject_Z (Z.of_nat (length rows)) * (4 # 5))%Q.
Proof.
  intros Hd rows number Hne.
  assert (Hsel : forall p l, pg_select Decisions (fun r => of_source src (now - days * DAY) r && p r) Unordered None db = Ok l ->
    l ≡ₚ filter (fun r => p r = true) rows).
  { intros p l (l' & Hl & _ & ->)%select_rows; [|done]. cbn [limited]. rewrite Hl. unfold rows. rewrite list_filter_filter.
    apply reflexive_eq, list_filter_iff. intros r. rewrite andb_true_iff. tauto. }
  assert (Hany : forall l, pg_select Decisions (fun r => of_source src (now - days * DAY) r && true) Unordered None db = Ok l -> l ≡ₚ rows).
  { intros l Hl. rewrite (Hsel (fun _ => true) l Hl). apply reflexive_eq, filter_all, Forall_forall. done. }
  unfold get_ip_summary in Hd. apply rbind_ok in Hd as (l0 & E0%Hany & Hd).
  rewrite (Permutation_length E0) in Hd. destruct (Z.eqb_spec (Z.of_nat (length rows)) 0) as [Hz|Hz].
  { destruct rows; [done|cbn in Hz; lia]. }
  apply rbind_ok in Hd as (l1 & _ & (l2 & E2%Hany & (l3 & E3%Hsel & (l4 & E4%Hany & [= <-])%rbind_ok)%rbind_ok)%rbind_ok).
  assert (Hnum : forall f l k, l ≡ₚ rows -> default 0 (dict_get (group_count f l) k) = number f k).
  { intros f l k Hl. rewrite (proj2 (proj2 (group_count_spec f l))). unfold number. by rewrite (length_filter_perm _ l rows Hl). }
  split_and!; [done|..].
  - exists (group_count (fun r => column r "outcome") l2). destruct (group_count_spec (fun r => column r "outcome") l2) as (Hn & Ht & _).
    split_and!; [done|done|by rewrite Ht, (Permutation_length E2)|]. intros k. by apply Hnum.
  - exists (group_count (fun r => column r "retrospective_outcome") l3).
    destruct (group_count_spec (fun r => column r "retrospective_outcome") l3) as (Hn & _ & Hk).
    split_and!; [done|done|]. intros k Hkn. rewrite Hk. rewrite (length_filter_perm _ _ _ E3), list_filter_filter. unfold number. do 2 f_equal.
    apply list_filter_iff. intros r. unfold labeled. rewrite bool_decide_eq_true. split; [tauto|]. intros ->. done.
  - exists (top_groups 5 (group_count (fun r => column r "alert_sid") l4)). split; [done|].
    destruct (top_groups_spec 5 (group_count (fun r => column r "alert_sid") l4)) as (Hlen & Hin & Hbest).
    destruct (group_count_spec (fun r => column r "alert_sid") l4) as (Hn & _). split; [done|].
    intros g Hg. assert (Hgn : g.2 = number (fun r => column r "alert_sid") g.1).
    { rewrite <- (Hnum _ l4) by done. destruct g as [k v]. cbn [fst snd]. by rewrite (dict_get_in _ k v) by auto. }
    split; [done|]. intros k Hk. rewrite <- (Hnum _ l4) by done.
    destruct (dict_get (group_count _ l4) k) as [v|] eqn:Ek; cbn [default].
    + apply dict_get_elem in Ek. apply (Hbest g (k, v) Hg Ek). intros Hkin. apply Hk. by apply (list_elem_of_fmap_2 fst _ (k, v)).
    + rewrite Hgn. unfold number. cbn. lia.
  - exists (trust_score (count_in (group_count (fun r => column r "outcome") l2) "enforced") (Z.of_nat (length rows))). split; [done|].
    unfold count_in. rewrite (Hnum _ l2 (PStr "enforced")) by done.
    assert (He : 0 <= number (fun r => column r "outcome") (PStr "enforced") <= Z.of_nat (length rows)).
    { unfold number. pose proof (length_filter (fun r => column r "outcome" = PStr "enforced") rows). lia. }
    destruct (trust_bounds _ _ He ltac:(lia)) as (Hq & Hlo & Hhi). done.
Qed.

Lemma unique_sids_in rows n : n ∈ unique_sids rows <-> exists r, r ∈ rows /\ row_sid r = n.
Proof.
  unfold unique_sids. rewrite merge_sort_Permutation, elem_of_remove_dups. rewrite (list_elem_of_fmap row_sid).
  split; intros (r & H1 & H2); exists r; [by subst|done].
Qed.

(** A source is reported for an escalation after reconnaissance exactly when a
    reconnaissance SID and a lateral or critical one are both among its decisions of the
    window; which of them came first does not matter. *)
Theorem escalation_iff rows :
  kill_chain_signal (unique_sids rows) = "MULTI-STAGE — recon → escalation pattern detected" <->
  (exists r, r ∈ rows /\ sid_severity (row_sid r) = Some "recon") /\
  (exists r s, r ∈ rows /\ sid_severity (row_sid r) = Some s /\ s ∈ ["lateral"; "critical"]).
Proof.
  assert (Hsev : forall s, s ∈ omap sid_severity (unique_sids rows) <-> exists r, r ∈ rows /\ sid_severity (row_sid r) = Some s).
  { intros s. rewrite list_elem_of_omap. split.
    - intros (n & (r & Hr & <-)%unique_sids_in & Hs). by exists r.
    - intros (r & Hr & Hs). exists (row_sid r). split; [|done]. apply unique_sids_in. by exists r. }
  unfold kill_chain_signal. destruct (Nat.ltb_spec (length (unique_sids rows)) 2) as [Hlt|Hge].
  - split; [done|]. intros [(r & Hr & Hsr) (r' & s & Hr' & Hs & Hin)]. exfalso.
    assert (H1 : row_sid r ∈ unique_sids rows) by (apply unique_sids_in; by exists r).
    assert (H2 : row_sid r' ∈ unique_sids rows) by (apply unique_sids_in; by exists r').
    destruct (unique_sids rows) as [|a [|b l]]; [by apply not_elem_of_nil in H1| |cbn in Hlt; lia].
    apply list_elem_of_singleton in H1, H2. rewrite H2, <- H1, Hsr in Hs. injection Hs as <-. set_solver.
  - assert (Hb : forall s, bool_decide (s ∈ omap sid_severity (unique_sids rows)) = true <->
      exists r, r ∈ rows /\ sid_severity (row_sid r) = Some s) by (intros s; by rewrite bool_decide_eq_true).
    destruct (bool_decide ("recon" ∈ _)) eqn:E1; cbn [andb].
    + destruct (bool_decide ("lateral" ∈ _)) eqn:E2; [|destruct (bool_decide ("critical" ∈ _)) eqn:E3]; cbn [andb orb].
      * split; [|done]. intros _. split; [by apply Hb|]. apply Hb in E2 as (r & Hr & Hs). exists r, "lateral". split_and!; [done|done|set_solver].
      * split; [|done]. intros _. split; [by apply Hb|]. apply Hb in E3 as (r & Hr & Hs). exists r, "critical". split_and!; [done|done|set_solver].
      * split; [intros [=]|]. intros [_ (r & s & Hr & Hs & Hin)]. rewrite <- not_true_iff_false, Hb in E2, E3.
        apply elem_of_cons in Hin as [->|Hs1%list_elem_of_singleton]; [destruct E2; by exists r|]. subst s. destruct E3. by exists r.
    + split.
      * destruct (_ && _); intros [=].
      * intros [Hr _]. rewrite <- not_true_iff_false, Hb in E1. done.
Qed.

(** ** Examples *)
#[local] Instance repr0 : PyRepr := fun _ => "".
Definition sample_row (sid : Z) (outcome : string) (t : Z) : row :=
  Row t None None None [("id", PStr (str_of_Z t)); ("alert_sid", PInt sid); ("alert_src_ip", PStr "10.1.100.10");
    ("outcome", PStr outcome)].
Definition sample_db : @pg pg0 :=
  ([sample_row 9000010 "enforced" 3; sample_row 9000003 "enforced" 2; sample_row 9000010 "rejected" 1], []).

Lemma summary_counts_witness : exists d, get_ip_summary iso0 10 "10.1.100.10" 30 (fun _ => Some sample_db) = Ok d /\
  jget d "total_alerts" = PInt 3 /\ jget d "trust_score" = PFloat (47 # 100).
Proof.
  destruct (get_ip_summary iso0 10 "10.1.100.10" 30 (fun _ => Some sample_db)) as [d|] eqn:E; [|by vm_compute in E].
  destruct (summary_counts iso0 10 "10.1.100.10" 30 sample_db d E) as (Ht & _); [vm_compute; discriminate|].
  exists d. split; [done|]. split; [exact Ht|]. vm_compute in E. injection E as <-. vm_compute. reflexivity.
Defined.

(** The critical alert came first. *)
Example escalation_backwards :
  kill_chain_signal (unique_sids [sample_row 9000001 "enforced" 1; sample_row 9000010 "rejected" 2]) =
  "MULTI-STAGE — recon → escalation pattern detected".
Proof. vm_compute. reflexivity. Qed.
