(* ===== verification/LlmClient.v ===== *)
(** * The LLM client (agent/llm/openai_compat.py)

    A chat call, the forced JSON output with its fallbacks and the tool loop, over
    a server that answers the [n]-th request as it likes.  The handlers of the
    tools, the text of an exception, the parser and the indented printer of JSON
    are parameters; tracing, which swallows its own exceptions, is left out. *)
From S2P Require Import Prelude PyVal Json.
Local Open Scope string_scope.
Local Open Scope Z_scope.
Local Open Scope list_scope.

(** What a POST yields: a JSON body, a body that is not JSON, an error status, or an
    exception of the connection. *)
Inductive http_answer := Body (v : pyval) | NotJson | Status (code : Z) | Failed (e : exn).

(** [httpx.HTTPStatusError], [json.JSONDecodeError] and the others. *)
Inductive llm_exn := StatusError (code : Z) | DecodeError | PyExn (e : exn).
Inductive llm_res (A : Type) := Got (a : A) | Err (e : llm_exn).
Arguments Got {A} a.
Arguments Err {A} e.

Definition lift {A} (r : res A) : llm_res A := match r with Ok a => Got a | Raise e => Err (PyExn e) end.
Definition lbind {A B} (m : llm_res A) (k : A -> llm_res B) : llm_res B := match m with Got a => k a | Err e => Err e end.
Notation "'do*' x ':=' m 'in' k" := (lbind m (fun x => k)) (at level 10, x name, m at level 100, k at level 200).

Record tool_call := ToolCall { tc_name : pyval; tc_arguments : pyval; tc_id : pyval }.
Record chat_result := ChatResult { r_content : pyval; r_tool_calls : list tool_call }.
Record client := LlmConfig { l_model : string; l_temperature : Q; l_max_tokens : Z }.

(** The payloads sent and the tools called, in order. *)
Record llm_state := LlmState { payloads : list obj; tool_uses : list (string * pyval) }.

Section Llm.
Context `{PyRepr} (json_loads : string -> option pyval) (dumps_indent : pyval -> string) (exn_str : exn -> string).
Context (http : nat -> obj -> http_answer) (cl : client).
(** The handler of a name, given the number of tool calls before it. *)
Context (handlers : string -> option (nat -> pyval -> res pyval)).

Definition post (payload : obj) (s : llm_state) : llm_res pyval * llm_state :=
  (match http (length (payloads s)) payload with
   | Body v => Got v
   | NotJson => Err DecodeError
   | Status c => Err (StatusError c)
   | Failed e => Err (PyExn e)
   end, LlmState (payloads s ++ [payload]) (tool_uses s)).

(** [json.loads] of any value *)
Definition loads_val (v : pyval) : llm_res pyval :=
  match v with
  | PStr t => match json_loads t with Some x => Got x | None => Err DecodeError end
  | _ => Err (PyExn (TypeError "the JSON object must be str, bytes or bytearray"))
  end.

(** ** [chat] *)
Definition base_payload (messages : list pyval) (temperature : Q) : obj :=
  [("model", PStr (l_model cl)); ("messages", PList messages); ("temperature", PFloat temperature);
   ("max_tokens", PInt (l_max_tokens cl))].

Definition parse_call (tc : pyval) : llm_res tool_call :=
  do* f := lift (index_key tc "function") in
  do* name := lift (index_key f "name") in
  do* g := lift (index_key tc "function") in
  do* text := lift (index_key g "arguments") in
  do* args := loads_val text in
  do* id := lift (get_of tc "id" (PStr "")) in
  Got (ToolCall name args id).
Fixpoint parse_calls (l : list pyval) : llm_res (list tool_call) :=
  match l with
  | [] => Got []
  | tc :: l' => do* c := parse_call tc in do* cs := parse_calls l' in Got (c :: cs)
  end.

Definition chosen_message (data : pyval) : llm_res pyval :=
  do* choices := lift (index_key data "choices") in
  do* choice := lift (index0 choices) in
  lift (index_key choice "message").

Definition parse_answer (data : pyval) : llm_res chat_result :=
  do* msg := chosen_message data in
  do* calls := lift (get_of msg "tool_calls" PNone) in
  do* parsed := (if truthy calls then do* l := lift (py_iter calls) in parse_calls l else Got []) in
  do* _ := lift (get_of data "usage" (PDict [])) in
  do* content := lift (get_of msg "content" PNone) in
  Got (ChatResult (por content (PStr "")) parsed).

Definition chat (messages tools : list pyval) (tool_choice : pyval) (s : llm_state) : llm_res chat_result * llm_state :=
  let payload := base_payload messages (l_temperature cl) ++
                 (match tools with [] => [] | _ => [("tools", PList tools)] end) ++
                 (match tool_choice with PNone => [] | c => [("tool_choice", c)] end) in
  let '(r, s) := post payload s in
  (do* data := r in parse_answer data, s).

(** ** [chat_json] *)
Definition final_tool (description : string) (schema : pyval) : pyval :=
  PDict [("type", PStr "function");
         ("function", PDict [("name", PStr "structured_output"); ("description", PStr description); ("parameters", schema)])].
Definition forced : pyval := PDict [("type", PStr "function"); ("function", PDict [("name", PStr "structured_output")])].

Definition schema_message (schema : pyval) : pyval :=
  PDict [("role", PStr "system");
         ("content", PStr ("Output ONLY a single JSON object matching this schema. "
            ++ "No prose, no markdown fences. Begin with `{` and end with `}`." ++ chr 10 ++ chr 10
            ++ "SCHEMA:" ++ chr 10 ++ dumps_indent schema)%string)].

(** The body of one attempt: [None] when the content is blank. *)
Definition attempt_json (messages : list pyval) (temperature : Q) (s : llm_state) : llm_res (option pyval) * llm_state :=
  let '(r, s) := post (base_payload messages temperature ++ [("response_format", PDict [("type", PStr "json_object")])]) s in
  (do* data := r in
   do* msg := chosen_message data in
   do* content := lift (get_of msg "content" PNone) in
   do* text := lift (as_str "strip" (por content (PStr ""))) in
   if nonempty (py_strip text) then do* v := loads_val (PStr text) in Got (Some v) else Got None, s).

Definition retried (e : llm_exn) : bool :=
  match e with StatusError _ | DecodeError | PyExn (KeyError _) => true | PyExn _ => false end.

(** The second attempt, a little warmer: its exceptions are not caught any more. *)
Definition last_attempt (msgs : list pyval) (s : llm_state) : llm_res pyval * llm_state :=
  match attempt_json msgs (Qplus (l_temperature cl) (Qmake 1 10)) s with
  | (Got (Some v), s) => (Got v, s)
  | (Got None, s) => (Err (PyExn (ValueError "LLM did not return valid JSON after fallback retries")), s)
  | (Err e, s) => (Err e, s)
  end.

Definition fallback (messages : list pyval) (schema : pyval) (s : llm_state) : llm_res pyval * llm_state :=
  let msgs := messages ++ [schema_message schema] in
  match attempt_json msgs (l_temperature cl) s with
  | (Got (Some v), s) => (Got v, s)
  | (Got None, s) => last_attempt msgs s
  | (Err e, s) => if retried e then last_attempt msgs s else (Err e, s)
  end.

Definition chat_json (messages : list pyval) (schema : pyval) (s : llm_state) : llm_res pyval * llm_state :=
  match chat messages [final_tool "Return the structured output" schema] forced s with
  | (Got r, s) =>
      match r_tool_calls r with
      | tc :: _ => (Got (tc_arguments tc), s)
      | [] => match loads_val (r_content r) with
              | Got v => (Got v, s)
              | Err _ => fallback messages schema s
              end
      end
  | (Err (StatusError 400), s) => fallback messages schema s
  | (Err e, s) => (Err e, s)
  end.

(** ** [chat_react] *)
Definition call_message (tc : tool_call) : pyval :=
  PDict [("id", tc_id tc); ("type", PStr "function");
         ("function", PDict [("name", tc_name tc); ("arguments", PStr (json_dumps false (tc_arguments tc)))])].
Definition assistant_message (content : pyval) (calls : list tool_call) : pyval :=
  PDict [("role", PStr "assistant"); ("content", por content PNone); ("tool_calls", PList (map call_message calls))].
Definition tool_message (tc : tool_call) (content : string) : pyval :=
  PDict [("role", PStr "tool"); ("tool_call_id", tc_id tc); ("name", tc_name tc); ("content", PStr content)].

Definition error_json (msg : string) : string := json_dumps false (PDict [("error", PStr msg)]).

(** One call: the text of its result.  A name that no dict can look up raises. *)
Definition run_tool (tc : tool_call) (s : llm_state) : llm_res string * llm_state :=
  match key_of (tc_name tc) with
  | Raise e => (Err (PyExn e), s)
  | Ok _ =>
      let unknown := (Got (error_json ("Unknown tool: " ++ py_str (tc_name tc))%string), s) in
      match tc_name tc with
      | PStr name =>
          match handlers name with
          | None => unknown
          | Some h =>
              let s' := LlmState (payloads s) (tool_uses s ++ [(name, tc_arguments tc)]) in
              (Got (match h (length (tool_uses s)) (tc_arguments tc) with
                    | Ok (PStr t) => t
                    | Ok v => py_take 4000 (json_dumps false v)
                    | Raise e => error_json (exn_str e)
                    end), s')
          end
      | _ => unknown
      end
  end.
Fixpoint run_tools (calls : list tool_call) (s : llm_state) : llm_res (list pyval) * llm_state :=
  match calls with
  | [] => (Got [], s)
  | tc :: calls' =>
      let '(r, s) := run_tool tc s in
      match r with
      | Err e => (Err e, s)
      | Got text => let '(rest, s) := run_tools calls' s in (do* l := rest in Got (tool_message tc text :: l), s)
      end
  end.

Definition structured (calls : list tool_call) : option pyval :=
  head (omap (fun tc => if bool_decide (tc_name tc = PStr "structured_output") then Some (tc_arguments tc) else None) calls).

(** The rounds that are left; [messages] are the original ones. *)
Fixpoint react_loop (rounds : nat) (messages tools : list pyval) (schema : pyval) (msgs : list pyval) (s : llm_state)
    : llm_res pyval * llm_state :=
  match rounds with
  | O => chat_json messages schema s
  | S rounds' =>
      let is_final := bool_decide (rounds' = 0%nat) in
      match chat msgs tools (if is_final then forced else PStr "auto") s with
      | (Err (StatusError 400), s) => if is_final then chat_json msgs schema s else (Err (StatusError 400), s)
      | (Err e, s) => (Err e, s)
      | (Got r, s) =>
          match r_tool_calls r with
          | [] =>
              match as_str "strip" (por (r_content r) (PStr "")) with
              | Raise e => (Err (PyExn e), s)
              | Ok text =>
                  match (if nonempty (py_strip text) then json_loads text else None) with
                  | Some v => (Got v, s)
                  | None => chat_json messages schema s
                  end
              end
          | calls =>
              match structured calls with
              | Some args => (Got args, s)
              | None =>
                  match run_tools calls s with
                  | (Err e, s) => (Err e, s)
                  | (Got results, s) =>
                      react_loop rounds' messages tools schema (msgs ++ assistant_message (r_content r) calls :: results) s
                  end
              end
          end
      end
  end.

Definition chat_react (messages tools : list pyval) (schema : pyval) (max_iterations : Z) (s : llm_state)
    : llm_res pyval * llm_state :=
  react_loop (Z.to_nat max_iterations) messages
    (tools ++ [final_tool "Emit the final structured policy decision after sufficient reasoning." schema]) schema messages s.
End Llm.

(** ** The protocol of tool messages *)
(** A message that neither calls tools nor answers a call. *)
Definition plain (m : pyval) : Prop :=
  match m with PDict d => dict_get d "tool_calls" = None /\ jget d "role" <> PStr "tool" | _ => True end.

(** The ids of the calls a message makes, and the id of the call it answers. *)
Definition key_in (v : pyval) (k : string) : pyval := match v with PDict d => jget d k | _ => PNone end.
Definition call_ids (m : pyval) : list pyval :=
  match key_in m "tool_calls" with PList cs => map (fun c => key_in c "id") cs | _ => [] end.
Definition answers_of (ms : list pyval) : list pyval := map (fun m => key_in m "tool_call_id") ms.

(** Every message with calls is followed by one answer to each, in the order of the
    calls and with their ids. *)
Inductive paired : list pyval -> Prop :=
  | paired_nil : paired []
  | paired_plain m l : plain m -> paired l -> paired (m :: l)
  | paired_calls m answers l : Forall (fun a => key_in a "role" = PStr "tool") answers ->
      answers_of answers = call_ids m -> paired l -> paired (m :: answers ++ l).

Lemma paired_app l1 l2 : paired l1 -> paired l2 -> paired (l1 ++ l2).
Proof.
  induction 1 as [|m l Hm _ IH|m answers l Hr Hids _ IH]; intros H2; [done| |]; cbn.
  - apply paired_plain; auto.
  - rewrite <- app_assoc. apply paired_calls; auto.
Qed.

(** The message the loop appends with its calls, and the answers to them. *)
Lemma paired_round `{PyRepr} content calls texts : length texts = length calls ->
  paired (assistant_message content calls :: zip_with tool_message calls texts).
Proof.
  intros Hl. rewrite <- (app_nil_r (zip_with _ _ _)). apply paired_calls; [| |constructor].
  - revert texts Hl. induction calls as [|c calls IH]; intros [|t texts] Hl; try done; cbn; constructor; [done|]. apply IH. by injection Hl.
  - change (call_ids (assistant_message content calls)) with (map (fun c => key_in c "id") (map call_message calls)).
    revert texts Hl. induction calls as [|c calls IH]; intros [|t texts] Hl; try done; cbn.
    f_equal. apply IH. by injection Hl.
Qed.
Lemma plain_paired l : Forall plain l -> paired l.
Proof. induction 1; constructor; auto. Qed.

(** A request whose messages keep the protocol. *)
Definition payload_ok (p : obj) : Prop := exists ms, dict_get p "messages" = Some (PList ms) /\ paired ms.
(** The request leaves the choice between tools and an answer to the model. *)
Definition auto (p : obj) : Prop := dict_get p "tool_choice" = Some (PStr "auto").
#[export] Instance auto_dec p : Decision (auto p) := _.

Section LlmLemmas.
Context `{PyRepr} (json_loads : string -> option pyval) (dumps_indent : pyval -> string) (exn_str : exn -> string).
Context (http : nat -> obj -> http_answer) (cl : client).
Context (handlers : string -> option (nat -> pyval -> res pyval)).

(** The value is what the answer [data] holds: the arguments of a call, or its content. *)
Definition yields (data v : pyval) : Prop :=
  (exists r tc, parse_answer json_loads data = Got r /\ tc ∈ r_tool_calls r /\ tc_arguments tc = v) \/
  (exists msg content t, chosen_message data = Got msg /\ get_of msg "content" PNone = Ok content /\
     por content (PStr "") = PStr t /\ json_loads t = Some v).

(** Between [lo] and [hi] requests were sent, all of them well formed and at most [free]
    of them [auto]; a result is what the answer to the last one holds. *)
Definition outcome (lo hi free : nat) (s s' : llm_state) (r : llm_res pyval) : Prop :=
  exists new, payloads s' = payloads s ++ new /\ (lo <= length new <= hi)%nat /\ Forall payload_ok new /\
    (length (filter auto new) <= free)%nat /\
    forall v, r = Got v -> exists k p data, payloads s' = k ++ [p] /\ http (length k) p = Body data /\ yields data v.

Lemma outcome_weaken lo hi free lo' hi' free' s s' r : outcome lo hi free s s' r ->
  (lo' <= lo)%nat -> (hi <= hi')%nat -> (free <= free')%nat -> outcome lo' hi' free' s s' r.
Proof. intros (new & H1 & H2 & H3 & H4 & H5) ? ? ?. exists new. split_and!; try done; lia. Qed.

(** The state after one more request. *)
Definition sent (p : obj) (s s' : llm_state) : Prop := payloads s' = payloads s ++ [p].

Lemma outcome_cons p lo hi free s s1 s' r : payload_ok p -> sent p s s1 -> outcome lo hi free s1 s' r ->
  outcome (S lo) (S hi) (if decide (auto p) then S free else free) s s' r.
Proof.
  intros Hp Hs (new & H1 & H2 & H3 & H4 & H5). exists (p :: new). unfold sent in Hs.
  split_and!; [by rewrite H1, Hs, <- app_assoc|cbn; lia|cbn; lia|by constructor| |done].
  rewrite filter_cons. destruct (decide (auto p)); cbn; lia.
Qed.

Lemma outcome_last p free s s' r : payload_ok p -> sent p s s' ->
  (forall v, r = Got v -> exists data, http (length (payloads s)) p = Body data /\ yields data v) ->
  (if decide (auto p) then 1 <= free else True)%nat -> outcome 1 1 free s s' r.
Proof.
  intros Hp Hs Hv Hf. exists [p]. split_and!; [done|cbn; lia|cbn; lia|by constructor| |].
  - rewrite filter_cons. destruct (decide (auto p)); cbn; lia.
  - intros v Hr. destruct (Hv v Hr) as (data & Hb & Hy). by exists (payloads s), p, data.
Qed.

Lemma post_sent p s : sent p s (post http p s).2 /\ tool_uses (post http p s).2 = tool_uses s /\
  forall data, (post http p s).1 = Got data -> http (length (payloads s)) p = Body data.
Proof. unfold post. split; [done|]. split; [done|]. cbn. destruct (http _ _); try done. by intros data [= ->]. Qed.

Lemma lbind_got {A B} (m : llm_res A) (k : A -> llm_res B) b : lbind m k = Got b <-> exists a, m = Got a /\ k a = Got b.
Proof. destruct m as [a|e]; cbn; split; [by exists a|by intros (? & [= ->] & ?)|done|by intros (? & ? & ?)]. Qed.
Lemma lift_got {A} (r : res A) a : lift r = Got a <-> r = Ok a.
Proof. destruct r; cbn; split; congruence. Qed.

(** *** [chat] *)
Definition chat_payload (messages tools : list pyval) (choice : pyval) : obj :=
  base_payload cl messages (l_temperature cl) ++
  (match tools with [] => [] | _ => [("tools", PList tools)] end) ++ (match choice with PNone => [] | c => [("tool_choice", c)] end).

Lemma chat_payload_ok messages tools choice : paired messages -> payload_ok (chat_payload messages tools choice).
Proof. intros Hm. by exists messages. Qed.

Lemma chat_sent messages tools choice s :
  sent (chat_payload messages tools choice) s (chat json_loads http cl messages tools choice s).2 /\
  forall r, (chat json_loads http cl messages tools choice s).1 = Got r ->
    exists data, http (length (payloads s)) (chat_payload messages tools choice) = Body data /\ parse_answer json_loads data = Got r.
Proof.
  unfold chat. fold (chat_payload messages tools choice). pose proof (post_sent (chat_payload messages tools choice) s) as (H1 & _ & H2).
  destruct (post _ _ s) as [r0 s1]. cbn [fst snd] in *. split; [done|].
  intros r (data & -> & Hp)%lbind_got. eauto.
Qed.

(** *** [chat_json] *)
Lemma attempt_sent messages t s : paired messages ->
  let p := base_payload cl messages t ++ [("response_format", PDict [("type", PStr "json_object")])] in
  let '(r, s') := attempt_json json_loads http cl messages t s in
  payload_ok p /\ ~ auto p /\ sent p s s' /\
  forall v, r = Got (Some v) -> exists data, http (length (payloads s)) p = Body data /\ yields data v.
Proof.
  intros Hm p. unfold attempt_json. fold p. pose proof (post_sent p s) as (H1 & _ & H2). destruct (post http p s) as [r0 s1].
  cbn [fst snd] in *. split; [by exists messages|]. split; [by intros [=]|]. split; [done|].
  intros v (data & -> & (msg & Hmsg & (c & Hc%lift_got & (t' & Ht%lift_got & Hv)%lbind_got)%lbind_got)%lbind_got)%lbind_got.
  exists data. split; [auto|]. right. destruct (por c (PStr "")) as [| | | |t0| |] eqn:Ec; try done. injection Ht as <-.
  exists msg, c, t0. split_and!; try done. destruct (nonempty (py_strip t0)); [|done].
  cbn in Hv. destruct (json_loads t0); [|done]. cbn in Hv. congruence.
Qed.

Lemma schema_plain schema : plain (schema_message dumps_indent schema).
Proof. split; [done|by intros [=]]. Qed.

Lemma fallback_outcome messages schema s : paired messages ->
  outcome 1 2 0 s (fallback json_loads dumps_indent http cl messages schema s).2
    (fallback json_loads dumps_indent http cl messages schema s).1.
Proof.
  intros Hm. assert (Hm' : paired (messages ++ [schema_message dumps_indent schema])).
  { apply paired_app; [done|]. apply paired_plain; [apply schema_plain|constructor]. }
  unfold fallback. set (msgs := messages ++ _) in *.
  set (last := last_attempt json_loads http cl msgs).
  assert (Hl : forall s, outcome 1 1 0 s (last s).2 (last s).1).
  { intros s0. subst last. unfold last_attempt. pose proof (attempt_sent msgs (Qplus (l_temperature cl) (Qmake 1 10)) s0 Hm') as Ha.
    destruct (attempt_json _ _ _ _ _ s0) as [r s1]. destruct Ha as (Hp & Hna & Hs & Hv).
    eapply outcome_last; [exact Hp|destruct r as [[v|]|e]; exact Hs| |by rewrite decide_False].
    destruct r as [[v0|]|e]; cbn [fst]; intros v; [intros [= <-]; by apply Hv|done|done]. }
  pose proof (attempt_sent msgs (l_temperature cl) s Hm') as Ha. destruct (attempt_json _ _ _ _ _ s) as [r s1].
  destruct Ha as (Hp & Hna & Hs & Hv).
  assert (Hagain : outcome 1 2 0 s (last s1).2 (last s1).1).
  { pose proof (outcome_cons _ _ _ _ _ _ _ _ Hp Hs (Hl s1)) as Hc. rewrite decide_False in Hc by done. eapply outcome_weaken; [exact Hc|lia..]. }
  assert (Hend : forall r', (forall v, r' = Got v -> r = Got (Some v)) -> outcome 1 2 0 s s1 r').
  { intros r' Hr. eapply outcome_weaken; [eapply (outcome_last _ 0 s s1 r' Hp Hs)|lia..]; [|by rewrite decide_False].
    intros v Hr'. apply Hv, Hr, Hr'. }
  destruct r as [[v|]|e]; cbn [fst snd]; [apply Hend; by intros ? [= ->]|exact Hagain|].
  destruct (retried e); [exact Hagain|by apply Hend].
Qed.

Lemma chat_json_outcome messages schema s : paired messages ->
  outcome 1 3 0 s (chat_json json_loads dumps_indent http cl messages schema s).2
    (chat_json json_loads dumps_indent http cl messages schema s).1.
Proof.
  intros Hm. unfold chat_json. set (tool := [final_tool _ schema]).
  pose proof (chat_sent messages tool forced s) as [Hs Hr]. destruct (chat json_loads http cl messages tool forced s) as [r s1].
  cbn [fst snd] in *. pose proof (chat_payload_ok messages tool forced Hm) as Hp.
  assert (Hna : ~ auto (chat_payload messages tool forced)) by (by intros [=]).
  assert (Hf : outcome 1 3 0 s (fallback json_loads dumps_indent http cl messages schema s1).2
                 (fallback json_loads dumps_indent http cl messages schema s1).1).
  { pose proof (outcome_cons _ _ _ _ _ _ _ _ Hp Hs (fallback_outcome messages schema s1 Hm)) as Hc.
    rewrite decide_False in Hc by done. eapply outcome_weaken; [exact Hc|lia..]. }
  assert (Hend : forall r', (forall v, r' = Got v -> exists data, http (length (payloads s)) (chat_payload messages tool forced) = Body data /\
      yields data v) -> outcome 1 3 0 s s1 r').
  { intros r' Hv. eapply outcome_weaken; [apply (outcome_last _ 0 s s1 r' Hp Hs Hv)|lia..]. by rewrite decide_False. }
  destruct r as [r|e].
  - destruct (Hr r eq_refl) as (data & Hb & Hpa). destruct (r_tool_calls r) as [|tc calls] eqn:Ec.
    + destruct (loads_val json_loads (r_content r)) as [v|] eqn:El; [|exact Hf]. cbn [fst snd]. apply Hend. intros v' [= <-].
      exists data. split; [done|]. right. unfold parse_answer in Hpa.
      apply lbind_got in Hpa as (msg & Hmsg & (c & _ & (l & _ & (u & _ & (ct & Hct%lift_got & [= <-])%lbind_got)%lbind_got)%lbind_got)%lbind_got).
      cbn [r_content] in El. destruct (por ct (PStr "")) as [| | | |t| |] eqn:Ep; try done. cbn in El.
      destruct (json_loads t) eqn:Ej; [|done]. injection El as ->. by exists msg, ct, t.
    + cbn [fst snd]. apply Hend. intros v [= <-]. exists data. split; [done|]. left. exists r, tc. rewrite Ec. split_and!; [done|by left|done].
  - destruct e as [code| |e]; try (by apply Hend). destruct code as [|p|p]; try (by apply Hend).
    repeat (destruct p as [p|p|]; try (by apply Hend)); exact Hf.
Qed.

(** *** The tool loop *)
Lemma run_tool_sent tc s : payloads (run_tool exn_str handlers tc s).2 = payloads s.
Proof. unfold run_tool. destruct (key_of _); [|done]. destruct (tc_name tc); try done. by destruct (handlers s0). Qed.

Lemma run_tools_sent calls : forall s, payloads (run_tools exn_str handlers calls s).2 = payloads s /\
  forall l, (run_tools exn_str handlers calls s).1 = Got l ->
    exists texts, length texts = length calls /\ l = zip_with tool_message calls texts.
Proof.
  induction calls as [|tc calls IH]; intros s; cbn [run_tools].
  - split; [done|]. intros l [= <-]. by exists [].
  - pose proof (run_tool_sent tc s) as Hs. destruct (run_tool _ _ tc s) as [[text|e] s1]; cbn [snd] in Hs; [|done].
    destruct (IH s1) as [H1 H2]. destruct (run_tools _ _ calls s1) as [r s2]. cbn [fst snd] in *. split; [congruence|].
    intros l (l' & -> & [= <-])%lbind_got. destruct (H2 l' eq_refl) as (texts & Hl & ->).
    exists (text :: texts). split; [cbn; lia|done].
Qed.

Lemma structured_in calls v : structured calls = Some v -> exists tc, tc ∈ calls /\ tc_arguments tc = v.
Proof.
  unfold structured. induction calls as [|tc calls IH]; cbn; [done|]. case_bool_decide.
  - cbn. intros [= <-]. exists tc. split; [by left|done].
  - intros (tc' & Hin & <-)%IH. exists tc'. split; [by right|done].
Qed.

Lemma react_outcome rounds : forall messages tools schema msgs s, paired messages -> paired msgs ->
  outcome 1 (rounds + 3) (pred rounds) s (react_loop json_loads dumps_indent exn_str http cl handlers rounds messages tools schema msgs s).2
    (react_loop json_loads dumps_indent exn_str http cl handlers rounds messages tools schema msgs s).1.
Proof.
  induction rounds as [|rounds IH]; intros messages tools schema msgs s Hm Hms; cbn [react_loop]; [by apply chat_json_outcome|].
  set (choice := if bool_decide (rounds = 0%nat) then forced else PStr "auto").
  pose proof (chat_sent msgs tools choice s) as [Hs Hr]. destruct (chat json_loads http cl msgs tools choice s) as [r s1].
  cbn [fst snd] in *. pose proof (chat_payload_ok msgs tools choice Hms) as Hp.
  assert (Hau : auto (chat_payload msgs tools choice) -> (1 <= rounds)%nat).
  { unfold choice, auto, chat_payload. case_bool_decide; [|lia]. by destruct tools; intros [=]. }
  assert (Hend : forall r', (forall v, r' = Got v -> exists data, http (length (payloads s)) (chat_payload msgs tools choice) = Body data /\
      yields data v) -> outcome 1 (S rounds + 3) (pred (S rounds)) s s1 r').
  { intros r' Hv. eapply outcome_weaken; [apply (outcome_last _ rounds s s1 r' Hp Hs Hv)|lia..]. destruct (decide _); auto. }
  assert (Hthen : forall s' r', outcome 1 (rounds + 3) (pred rounds) s1 s' r' -> outcome 1 (S rounds + 3) (pred (S rounds)) s s' r').
  { intros s' r' Ho. pose proof (outcome_cons _ _ _ _ _ _ _ _ Hp Hs Ho) as Hc. eapply outcome_weaken; [exact Hc|lia|lia|].
    destruct (decide _) as [Ha|]; [apply Hau in Ha; lia|lia]. }
  assert (Hjson : forall ms, paired ms -> outcome 1 (S rounds + 3) (pred (S rounds)) s
      (chat_json json_loads dumps_indent http cl ms schema s1).2 (chat_json json_loads dumps_indent http cl ms schema s1).1).
  { intros ms Hpm. apply Hthen. eapply outcome_weaken; [by apply chat_json_outcome|lia..]. }
  destruct r as [r|e].
  - destruct (Hr r eq_refl) as (data & Hb & Hpa). destruct (r_tool_calls r) as [|tc calls] eqn:Ec.
    + destruct (as_str "strip" _) as [text|x] eqn:Et; [|by apply Hend].
      destruct (if nonempty _ then _ else _) as [v|] eqn:Ev; [|by apply Hjson]. apply Hend. intros v' [= <-].
      exists data. split; [done|]. right. unfold parse_answer in Hpa.
      apply lbind_got in Hpa as (msg & Hmsg & (c & _ & (l & _ & (u & _ & (ct & Hct%lift_got & [= <-])%lbind_got)%lbind_got)%lbind_got)%lbind_got).
      cbn [r_content] in Et. destruct (nonempty (py_strip text)); [|done].
      assert (Hpp : por (por ct (PStr "")) (PStr "") = por ct (PStr "")).
      { unfold por. destruct (truthy ct) eqn:E; [by rewrite E|done]. }
      rewrite Hpp in Et. destruct (por ct (PStr "")) as [| | | |t| |] eqn:Ep; try done. injection Et as <-. by exists msg, ct, t.
    + destruct (structured (tc :: calls)) as [args|] eqn:Es.
      * apply Hend. intros v [= <-]. exists data. split; [done|]. left.
        apply structured_in in Es as (tc' & Hin & <-). exists r, tc'. by rewrite Ec.
      * destruct (run_tools_sent (tc :: calls) s1) as [Hrs Hrl].
        destruct (run_tools exn_str handlers (tc :: calls) s1) as [[results|x] s2]; cbn [fst snd] in *.
        -- destruct (Hrl results eq_refl) as (texts & Hlen & ->).
           assert (Hs2 : sent (chat_payload msgs tools choice) s s2) by (unfold sent in *; congruence).
           assert (Hnext : paired (msgs ++ assistant_message (r_content r) (tc :: calls) :: zip_with tool_message (tc :: calls) texts)).
           { apply paired_app; [done|]. by apply paired_round. }
           pose proof (outcome_cons _ _ _ _ _ _ _ _ Hp Hs2 (IH messages tools schema _ s2 Hm Hnext)) as Hc.
           eapply outcome_weaken; [exact Hc|lia|lia|]. destruct (decide _) as [Ha|]; [apply Hau in Ha; lia|lia].
        -- assert (Hs2 : sent (chat_payload msgs tools choice) s s2) by (unfold sent in *; congruence).
           eapply outcome_weaken; [apply (outcome_last _ rounds s s2 _ Hp Hs2)|lia..]; [done|]. destruct (decide _); auto.
  - destruct e as [code| |e]; try (by apply Hend). destruct code as [|p|p]; try (by apply Hend).
    repeat (destruct p as [p|p|]; try (by apply Hend)).
    unfold choice in *. case_bool_decide; [by apply Hjson|by apply Hend].
Qed.

(** *** When the model is left free *)
(** The model answered the [k]-th request of all, [q], without calling a tool. *)
Definition no_call (k : nat) (q : obj) : Prop :=
  exists data r, http k q = Body data /\ parse_answer json_loads data = Got r /\ r_tool_calls r = [].
(** The requests that leave the model free come first, at most [n] of them; fewer only when
    nothing follows, or the model has answered the last of them without calling a tool. *)
Definition freely (n : nat) (s s' : llm_state) : Prop :=
  exists free rest, payloads s' = payloads s ++ free ++ rest /\ Forall auto free /\ Forall (fun p => ~ auto p) rest /\
    (length free <= n)%nat /\
    (rest = [] \/ length free = n \/ exists q, last free = Some q /\ no_call (length (payloads s) + pred (length free)) q).

Lemma freely_none lo hi s s' r : outcome lo hi 0 s s' r -> freely 0 s s'.
Proof.
  intros (new & Hs & _ & _ & Hf & _). exists [], new. split_and!; [done|done| |done|auto].
  apply Forall_forall. intros p Hp Ha. assert (Hin : p ∈ filter auto new) by (by apply list_elem_of_filter).
  destruct (filter auto new); [by apply elem_of_nil in Hin|cbn in Hf; lia].
Qed.
Lemma freely_forced p s s1 s' : ~ auto p -> sent p s s1 -> freely 0 s1 s' -> freely 0 s s'.
Proof.
  intros Hp Hs (free & rest & Hs' & _ & Hr & Hl & _). destruct free; [|cbn in Hl; lia]. exists [], (p :: rest).
  split_and!; [by rewrite Hs', Hs, <- app_assoc|done|by constructor|done|auto].
Qed.
Lemma freely_sent n s : freely n s s.
Proof. exists [], []. split_and!; [by rewrite !app_nil_r|done|done|cbn; lia|auto]. Qed.
Lemma freely_cons p n s s1 s' : auto p -> sent p s s1 -> freely n s1 s' -> freely (S n) s s'.
Proof.
  intros Hp Hs (free & rest & Hs' & Hf & Hr & Hl & Hlast). exists (p :: free), rest. unfold sent in Hs.
  split_and!; [by rewrite Hs', Hs, <- app_assoc|by constructor|done|cbn; lia|].
  destruct Hlast as [?|[?|(q & Hq & Hc)]]; [auto|right; left; cbn; lia|]. right. right. exists q.
  destruct free as [|x free]; [done|]. split; [done|]. rewrite Hs, length_app in Hc. cbn in *.
  by replace (length (payloads s) + S (length free))%nat with (length (payloads s) + 1 + length free)%nat by lia.
Qed.
Lemma freely_unanswered p n s s1 s' : auto p -> sent p s s1 -> no_call (length (payloads s)) p -> freely 0 s1 s' -> freely (S n) s s'.
Proof.
  intros Hp Hs Hc (free & rest & Hs' & _ & Hr & Hl & _). destruct free; [|cbn in Hl; lia]. exists [p], rest.
  split_and!; [by rewrite Hs', Hs, <- app_assoc|by constructor|done|cbn; lia|]. right. right. exists p. split; [done|].
  by rewrite Nat.add_0_r.
Qed.

Lemma react_free rounds : forall messages tools schema msgs s, tools <> [] -> paired messages -> paired msgs ->
  freely (pred rounds) s (react_loop json_loads dumps_indent exn_str http cl handlers rounds messages tools schema msgs s).2.
Proof.
  induction rounds as [|rounds IH]; intros messages tools schema msgs s Ht Hm Hms; cbn [react_loop];
    [by eapply freely_none, chat_json_outcome|].
  set (choice := if bool_decide (rounds = 0%nat) then forced else PStr "auto").
  pose proof (chat_sent msgs tools choice s) as [Hs Hr]. destruct (chat json_loads http cl msgs tools choice s) as [r s1].
  cbn [fst snd pred] in *. set (p := chat_payload msgs tools choice) in *.
  assert (Hforced : rounds = 0%nat -> ~ auto p) by (intros ->; unfold p, auto, chat_payload; by destruct tools; intros [=]).
  assert (Hauto : rounds <> 0%nat -> auto p).
  { intros Hz. unfold p, choice. rewrite bool_decide_eq_false_2 by done. by destruct tools. }
  assert (Hjson : forall ms, paired ms -> freely 0 s1 (chat_json json_loads dumps_indent http cl ms schema s1).2).
  { intros ms Hpm. by eapply freely_none, chat_json_outcome. }
  assert (Hnext : forall s2 s', payloads s2 = payloads s1 -> freely (pred rounds) s2 s' -> freely rounds s s').
  { intros s2 s' E Hf. assert (Hs2 : sent p s s2) by (unfold sent in *; congruence).
    destruct rounds; [by eapply freely_forced; [apply Hforced|exact Hs2|exact Hf]|].
    by eapply freely_cons; [apply Hauto|exact Hs2|exact Hf]. }
  assert (Hend : forall s2, payloads s2 = payloads s1 -> freely rounds s s2).
  { intros s2 E. apply (Hnext s2 s2 E), freely_sent. }
  destruct r as [r|e].
  - destruct (r_tool_calls r) as [|tc calls] eqn:Ec.
    + destruct (as_str "strip" _) as [text|x]; [|by apply Hend]. destruct (if nonempty _ then _ else _) as [v|]; [by apply Hend|].
      destruct rounds; [by eapply freely_forced; [apply Hforced|exact Hs|apply Hjson]|].
      destruct (Hr r eq_refl) as (data & Hb & Hp). by eapply freely_unanswered; [apply Hauto|exact Hs|exists data, r|apply Hjson].
    + destruct (structured (tc :: calls)); [by apply Hend|]. destruct (run_tools_sent (tc :: calls) s1) as [Hrs Hrl].
      destruct (run_tools exn_str handlers (tc :: calls) s1) as [[results|x] s2]; cbn [fst snd] in *; [|by apply Hend].
      destruct (Hrl results eq_refl) as (texts & Hlen & ->). apply (Hnext s2 _ Hrs), IH; [done|done|].
      apply paired_app; [done|]. by apply paired_round.
  - destruct e as [code| |e]; try (by apply Hend). destruct code as [|q|q]; try (by apply Hend).
    repeat (destruct q as [q|q|]; try (by apply Hend)).
    case_bool_decide as E0; [|by apply Hend]. subst rounds. by eapply freely_forced; [apply Hforced|exact Hs|apply Hjson].
Qed.
End LlmLemmas.

(** ** Properties *)
(** C32: the tool loop ends within its rounds and three more requests, whatever the model
    and the tools do.  The requests that leave the model free to answer or to call a tool
    come first: those of all rounds but the last, and fewer only when the loop ends with
    them or when the model has answered the last of them without calling a tool; every
    later request demands the output.  Every request answers each tool call of the
    conversation once, in order and with its id; and a result is what the answer to the
    last request holds, the arguments of a call or its content. *)
Theorem react_bounded `{PyRepr} json_loads dumps_indent exn_str http cl handlers messages tools schema n s :
  Forall plain messages ->
  let '(r, s') := chat_react json_loads dumps_indent exn_str http cl handlers messages tools schema n s in
  exists free rest, payloads s' = payloads s ++ free ++ rest /\
    Z.of_nat (length (free ++ rest)) <= Z.max 0 n + 3 /\
    Forall auto free /\ Forall (fun p => ~ auto p) rest /\ Z.of_nat (length free) <= Z.max 0 (n - 1) /\
    (rest = [] \/ Z.of_nat (length free) = Z.max 0 (n - 1) \/
     exists q, last free = Some q /\ no_call json_loads http (length (payloads s) + pred (length free)) q) /\
    Forall payload_ok (free ++ rest) /\
    forall v, r = Got v -> exists before p data, payloads s' = before ++ [p] /\
      http (length before) p = Body data /\ yields json_loads data v.
Proof.
  intros Hm%plain_paired. unfold chat_react. set (all := tools ++ [_]).
  pose proof (react_outcome json_loads dumps_indent exn_str http cl handlers (Z.to_nat n) messages all schema messages s Hm Hm) as Ho.
  pose proof (react_free json_loads dumps_indent exn_str http cl handlers (Z.to_nat n) messages all schema messages s
    ltac:(by destruct tools) Hm Hm) as Hfree.
  destruct (react_loop _ _ _ _ _ _ _ _ _ _ _ s) as [r s']. cbn [fst snd] in *. destruct Ho as (new & H1 & H2 & H3 & _ & H5).
  destruct Hfree as (free & rest & E & Hf & Hr & Hl & Hlast). rewrite H1 in E. apply app_inv_head in E as ->.
  exists free, rest. split_and!; [done|lia|done|done|lia| |done|done].
  destruct Hlast as [?|[Hn|?]]; [auto|right; left; lia|auto].
Qed.

(** A tool call whose arguments are not JSON ends the forced output at once: the error
    is not among those the fallback is for. *)
Theorem bad_arguments_not_retried json_loads dumps_indent http cl messages schema s data e :
  (forall p, http (length (payloads s)) p = Body data) -> parse_answer json_loads data = Err e ->
  (forall code, e <> StatusError code) ->
  let '(r, s') := chat_json json_loads dumps_indent http cl messages schema s in
  r = Err e /\ length (payloads s') = S (length (payloads s)).
Proof.
  intros Hh Hp He. unfold chat_json, chat, post. rewrite Hh. cbn [lbind]. rewrite Hp.
  destruct e as [code| |x]; [by destruct (He code)| |]; split; try done; cbn; rewrite length_app; cbn; lia.
Qed.

(** ** Examples *)
(** The body of an answer that calls the tool [name] with the arguments [args]. *)
Definition answer_calling (name args : string) : pyval :=
  PDict [("choices", PList [PDict [("message", PDict [("tool_calls", PList [PDict [("id", PStr "c1");
    ("function", PDict [("name", PStr name); ("arguments", PStr args)])]])])]])].
Definition sample_http (k : nat) (p : obj) : http_answer :=
  Body (match k with O => answer_calling "lookup" "{}" | _ => answer_calling "structured_output" "[]" end).
Definition sample_json (t : string) : option pyval :=
  if bool_decide (t = "{}") then Some (PDict []) else if bool_decide (t = "[]") then Some (PList []) else None.
Definition sample_tools (name : string) : option (nat -> pyval -> res pyval) :=
  if bool_decide (name = "lookup") then Some (fun _ _ => Ok (PStr "found")) else None.
Definition sample_user : pyval := PDict [("role", PStr "user"); ("content", PStr "alert")].

Lemma react_bounded_witness :
  let out := @chat_react (fun _ => "") sample_json (fun _ => "") (fun _ => "") sample_http (LlmConfig "m" 0 10) sample_tools
               [sample_user] [] PNone 5 (LlmState [] []) in
  out.1 = Got (PList []) /\ length (payloads out.2) = 2%nat /\ tool_uses out.2 = [("lookup", PDict [])] /\
  exists free rest, payloads out.2 = [] ++ free ++ rest /\ Forall auto free /\ Forall payload_ok (free ++ rest).
Proof.
  cbv zeta. split; [vm_compute; reflexivity|]. split; [vm_compute; reflexivity|]. split; [vm_compute; reflexivity|].
  pose proof (@react_bounded (fun _ => "") sample_json (fun _ => "") (fun _ => "") sample_http (LlmConfig "m" 0 10) sample_tools
               [sample_user] [] PNone 5 (LlmState [] [])) as Hr.
  destruct (@chat_react _ _ _ _ _ _ _ _ _ _ _ _) as [r s'].
  destruct Hr as (free & rest & H1 & _ & H2 & _ & _ & _ & H3 & _); [|by exists free, rest].
  apply Forall_cons_2; [|apply Forall_nil_2]. split; [reflexivity|discriminate].
Defined.

Lemma bad_arguments_not_retried_witness :
  let out := chat_json sample_json (fun _ => "") (fun _ _ => Body (answer_calling "structured_output" "{"))
               (LlmConfig "m" 0 10) [sample_user] PNone (LlmState [] []) in
  out.1 = Err DecodeError /\ length (payloads out.2) = 1%nat.
Proof.
  pose proof (bad_arguments_not_retried sample_json (fun _ => "")
    (fun _ _ => Body (answer_calling "structured_output" "{")) (LlmConfig "m" 0 10) [sample_user] PNone (LlmState [] [])
    (answer_calling "structured_output" "{") DecodeError (fun _ => eq_refl) eq_refl) as Hb.
  cbv zeta. destruct (chat_json _ _ _ _ _ _ _) as [r s']. apply Hb. discriminate.
Defined.
