(* ===== verification/IpAddr.v ===== *)
(** * The [ipaddress] module of Python's standard library

    Parsing of IPv4/IPv6 addresses and networks (as [ipaddress.ip_address] and
    [ipaddress.ip_network] do it), membership [addr in net] and
    [subnet_of], on addresses as integers of 32 or 128 bits. *)
From S2P Require Import Prelude PyVal.
Local Open Scope string_scope.
Local Open Scope Z_scope.

Inductive ip_version := IPv4 | IPv6.
#[export] Instance ip_version_eq_dec : EqDecision ip_version.
Proof. solve_decision. Defined.

Definition max_prefixlen (v : ip_version) : Z := match v with IPv4 => 32 | IPv6 => 128 end.

Record ip_addr := Addr { a_ver : ip_version; a_int : Z; a_scope : option string }.
Record ip_net := Net { n_ver : ip_version; n_int : Z; n_scope : option string; n_plen : Z }.

#[export] Instance ip_addr_eq_dec : EqDecision ip_addr.
Proof. solve_decision. Defined.
#[export] Instance ip_net_eq_dec : EqDecision ip_net.
Proof. solve_decision. Defined.

(** ** IPv4 text *)
Definition parse_octet (s : string) : option Z :=
  match parse_digits s with
  | None => None
  | Some z =>
      if (3 <? String.length s)%nat then None
      else if negb (bool_decide (s = "0")) && starts_with "0" s then None
      else if 255 <? z then None else Some z
  end.

Definition ipv4_int_from_string (s : string) : option Z :=
  match split_on "."%char s with
  | [a; b; c; d] =>
      a ← parse_octet a; b ← parse_octet b; c ← parse_octet c; d ← parse_octet d;
      Some (((a * 256 + b) * 256 + c) * 256 + d)
  | _ => None
  end.

Definition parse_ipv4 (s : string) : option ip_addr :=
  if list_contains_char "/"%char s then None
  else z ← ipv4_int_from_string s; Some (Addr IPv4 z None).

(** ** IPv6 text *)
Definition hex_val (c : ascii) : option Z :=
  let n := Z.of_N (code c) in
  if is_digit c then Some (n - 48)
  else if (97 <=? n) && (n <=? 102) then Some (n - 87)
  else if (65 <=? n) && (n <=? 70) then Some (n - 55) else None.

Fixpoint hex_acc (acc : Z) (s : string) : option Z :=
  match s with
  | EmptyString => Some acc
  | String c s' => d ← hex_val c; hex_acc (acc * 16 + d) s'
  end.

Definition parse_hextet (s : string) : option Z :=
  if (String.length s =? 0)%nat || (4 <? String.length s)%nat then None else hex_acc 0 s.

Fixpoint hextets (acc : Z) (l : list string) : option Z :=
  match l with
  | [] => Some acc
  | h :: t => v ← parse_hextet h; hextets (acc * 65536 + v) t
  end.

(** A last part holding a dot is an IPv4 address: it becomes two groups. *)
Definition ipv6_parts (s : string) : option (list string + (list string * Z)) :=
  let parts := split_on ":"%char s in
  match reverse parts with
  | last :: hd =>
      if list_contains_char "."%char last then
        v ← ipv4_int_from_string last; Some (inr (reverse hd, v))
      else Some (inl parts)
  | [] => None
  end.

Definition is_empty_str (s : string) : bool := negb (nonempty s).

(** Indices [i] of empty inner parts, [0 < i < len - 1]. *)
Definition skip_indices (parts : list string) : list nat :=
  filter (fun i => is_empty_str (nth i parts "")) (seq 1 (length parts - 2)).

(** The value of the last groups, continuing from [acc]; with [tail4] the last
    two stand for the 32 bits of an embedded IPv4 address. *)
Definition group_value (tail4 : option Z) (acc : Z) (l : list string) : option Z :=
  match tail4 with
  | None => hextets acc l
  | Some v => a ← hextets acc (take (length l - 2) l); Some (a * 4294967296 + v)
  end.

Definition all_groups (parts : list string) (tail4 : option Z) : list string :=
  match tail4 with Some _ => (parts ++ ["x"; "x"])%list | None => parts end.

(** The groups are given as strings; [tail4], when present, stands for the two
    16-bit groups the embedded IPv4 address was printed to. *)
Definition ipv6_groups (parts : list string) (tail4 : option Z) : option Z :=
  let full := all_groups parts tail4 in
  let n := length full in
  if (9 <? n)%nat then None else
  match skip_indices full with
  | [] =>
      if (n =? 8)%nat && nonempty (nth 0 full "") && nonempty (nth (n - 1) full "")
      then group_value tail4 0 full else None
  | [k] =>
      let lead := is_empty_str (nth 0 full "") in
      let trail := is_empty_str (nth (n - 1) full "") in
      let hi := (if lead then k - 1 else k)%nat in
      let lo := (if trail then n - k - 2 else n - k - 1)%nat in
      if (lead && negb (hi =? 0)%nat) || (trail && negb (lo =? 0)%nat) then None
      else if (8 <=? hi + lo)%nat then None
      else
        h ← hextets 0 (take hi full);
        let base := h * 2 ^ (16 * (8 - Z.of_nat (hi + lo))) in
        if (lo =? 0)%nat then Some base else group_value tail4 base (drop (n - lo) full)
  | _ => None
  end.

Definition ipv6_int_from_string (s : string) : option Z :=
  if is_empty_str s || (length (split_on ":"%char s) <? 3)%nat then None
  else p ← ipv6_parts s;
       match p with
       | inl parts => ipv6_groups parts None
       | inr (parts, v) => ipv6_groups parts (Some v)
       end.

Definition split_scope (s : string) : option (string * option string) :=
  match split_on "%"%char s with
  | [a] => Some (a, None)
  | [a; sc] => if nonempty sc then Some (a, Some sc) else None
  | _ => None
  end.

Definition parse_ipv6 (s : string) : option ip_addr :=
  if list_contains_char "/"%char s then None
  else p ← split_scope s; z ← ipv6_int_from_string p.1; Some (Addr IPv6 z p.2).

(** [ipaddress.ip_address(s)] *)
Definition ip_address (s : string) : res ip_addr :=
  match parse_ipv4 s with
  | Some a => Ok a
  | None =>
      match parse_ipv6 s with
      | Some a => Ok a
      | None => Raise (ValueError "does not appear to be an IPv4 or IPv6 address")
      end
  end.

(** ** Networks *)
Definition host_size (v : ip_version) (plen : Z) : Z := 2 ^ (max_prefixlen v - plen).

(** [netmask]: the leading [plen] bits. *)
Definition netmask (v : ip_version) (plen : Z) : Z :=
  2 ^ max_prefixlen v - host_size v plen.

Definition prefix_from_string (v : ip_version) (s : string) : option Z :=
  z ← parse_digits s; if z <=? max_prefixlen v then Some z else None.

(** [_prefix_from_ip_int]: a mask whose one bits are leading. *)
Definition prefix_from_int (z : Z) : option Z :=
  find (fun p => bool_decide (z = netmask IPv4 p)) (seqZ 0 33).
Definition option_or {A} (a b : option A) : option A := match a with Some _ => a | None => b end.

(** [_make_netmask]: a prefix length, or for IPv4 a netmask or a hostmask. *)
Definition make_prefixlen (v : ip_version) (s : string) : option Z :=
  option_or (prefix_from_string v s)
    match v with
    | IPv4 => z ← ipv4_int_from_string s;
              option_or (prefix_from_int z) (prefix_from_int (Z.lxor z 4294967295))
    | IPv6 => None
    end.

Definition parse_net (v : ip_version) (strict : bool) (s : string) : option (res ip_net) :=
  let mk (a m : option string) : option (res ip_net) :=
    a ← a;
    ad ← (match v with IPv4 => parse_ipv4 a | IPv6 => parse_ipv6 a end);
    p ← (match m with None => Some (max_prefixlen v) | Some m => make_prefixlen v m end);
    let base := Z.land (a_int ad) (netmask v p) in
    if bool_decide (base = a_int ad) then Some (Ok (Net v base (a_scope ad) p))
    else if strict then Some (Raise (ValueError "has host bits set"))
    else Some (Ok (Net v base None p)) in
  match split_on "/"%char s with
  | [a] => mk (Some a) None
  | [a; m] => mk (Some a) (Some m)
  | _ => None
  end.

(** [ipaddress.ip_network(s, strict)] *)
Definition ip_network (s : string) (strict : bool) : res ip_net :=
  match parse_net IPv4 strict s with
  | Some r => r
  | None =>
      match parse_net IPv6 strict s with
      | Some r => r
      | None => Raise (ValueError "does not appear to be an IPv4 or IPv6 network")
      end
  end.

(** [addr in net] *)
Definition in_net (a : ip_addr) (n : ip_net) : bool :=
  bool_decide (a_ver a = n_ver n) &&
  (Z.land (a_int a) (netmask (n_ver n) (n_plen n)) =? n_int n).

Definition broadcast (n : ip_net) : Z := n_int n + host_size (n_ver n) (n_plen n) - 1.

(** [_is_subnet_of]: [b.network_address <= a.network_address and
    b.broadcast_address >= a.broadcast_address]. *)
Definition subnet_of (a b : ip_net) : res bool :=
  if decide (a_ver (Addr (n_ver a) 0 None) = n_ver b) then
    Ok (((n_int b <? n_int a) ||
         ((n_int b =? n_int a) && bool_decide (n_scope b = n_scope a))) &&
        (broadcast a <=? broadcast b))
  else Raise (TypeError "are not of the same version").

Definition addr_ok (a : ip_addr) : Prop := 0 <= a_int a < 2 ^ max_prefixlen (a_ver a).
Definition net_ok (n : ip_net) : Prop :=
  0 <= n_plen n <= max_prefixlen (n_ver n) /\
  0 <= n_int n < 2 ^ max_prefixlen (n_ver n) /\ (host_size (n_ver n) (n_plen n) | n_int n).

(** ** Masks as ranges *)
Lemma host_size_pos v p : 0 <= p <= max_prefixlen v -> 0 < host_size v p.
Proof. intros. apply Z.pow_pos_nonneg; lia. Qed.

Lemma max_prefixlen_pos v : 0 < max_prefixlen v.
Proof. by destruct v. Qed.

Lemma netmask_bits v p : 0 <= p <= max_prefixlen v ->
  netmask v p = Z.ldiff (Z.ones (max_prefixlen v)) (Z.ones (max_prefixlen v - p)).
Proof.
  intros Hp. unfold netmask, host_size.
  rewrite (Z.ldiff_ones_r (Z.ones _)) by lia.
  rewrite Z.shiftr_div_pow2, Z.shiftl_mul_pow2 by lia. rewrite Z.ones_div_pow2 by lia.
  rewrite Z.ones_equiv. replace (max_prefixlen v - (max_prefixlen v - p)) with p by lia.
  replace (2 ^ max_prefixlen v) with (2 ^ p * 2 ^ (max_prefixlen v - p)); [nia|].
  rewrite <- Z.pow_add_r by lia. f_equal. lia.
Qed.

(** Masking a value of the version's width clears its host bits. *)
Lemma land_netmask v p z : 0 <= p <= max_prefixlen v -> 0 <= z < 2 ^ max_prefixlen v ->
  Z.land z (netmask v p) = z - z mod host_size v p.
Proof.
  intros Hp Hz. rewrite netmask_bits by done.
  set (m := max_prefixlen v) in *. unfold host_size. fold m.
  transitivity (Z.ldiff z (Z.ones (m - p))).
  - apply Z.bits_inj'. intros i Hi. rewrite Z.land_spec, !Z.ldiff_spec.
    destruct (Z.lt_ge_cases i m).
    + rewrite (Z.ones_spec_low m) by lia. by rewrite andb_true_l.
    + rewrite (Z.ones_spec_high m) by lia. rewrite andb_false_l, andb_false_r.
      replace (Z.testbit z i) with false; [done|].
      symmetry. destruct (decide (z = 0)) as [->|]; [apply Z.bits_0|].
      apply Z.bits_above_log2; [lia|].
      apply Z.lt_le_trans with m; [|lia]. apply Z.log2_lt_pow2; lia.
  - rewrite Z.ldiff_ones_r, Z.shiftr_div_pow2, Z.shiftl_mul_pow2 by lia.
    pose proof (Z.div_mod z (2 ^ (m - p))). lia.
Qed.

Lemma in_net_range a n : addr_ok a -> net_ok n ->
  in_net a n = true <->
  a_ver a = n_ver n /\ n_int n <= a_int a < n_int n + host_size (n_ver n) (n_plen n).
Proof.
  intros Ha (Hp & Hn & [q Hq]). unfold in_net, addr_ok in *.
  pose proof (host_size_pos _ _ Hp) as Hh.
  rewrite andb_true_iff, bool_decide_eq_true, Z.eqb_eq.
  split; intros [He H]; (split; [done|]); rewrite He in Ha.
  - rewrite land_netmask in H by done.
    pose proof (Z.mod_pos_bound (a_int a) _ Hh). lia.
  - rewrite land_netmask by done.
    rewrite <- (Z.mod_unique (a_int a) (host_size (n_ver n) (n_plen n)) q (a_int a - n_int n)); lia.
Qed.

(** ** Parsed values are in range *)
Lemma digits_val_nonneg s : forall acc z, 0 <= acc -> digits_val acc s = Some z -> 0 <= z.
Proof.
  induction s as [|c s IH]; intros acc z Hacc; cbn; [congruence|].
  destruct (is_digit c) eqn:Hc; [|done]. apply IH.
  unfold is_digit, digit_val in *. apply andb_true_iff in Hc as [?%N.leb_le ?]. lia.
Qed.

Lemma parse_digits_nonneg s z : parse_digits s = Some z -> 0 <= z.
Proof. destruct s as [|c s]; [done|]. by apply (digits_val_nonneg (String c s) 0). Qed.

Lemma parse_octet_range s z : parse_octet s = Some z -> 0 <= z <= 255.
Proof.
  unfold parse_octet. destruct (parse_digits s) eqn:E; [|done].
  apply parse_digits_nonneg in E. repeat case_match; intros; simplify_eq. lia.
Qed.

Lemma ipv4_int_range s z : ipv4_int_from_string s = Some z -> 0 <= z < 2 ^ 32.
Proof.
  unfold ipv4_int_from_string. intros H.
  destruct (split_on "."%char s) as [|a [|b [|c [|d [|]]]]]; try done.
  repeat match goal with
  | H : (parse_octet ?x ≫= _) = Some _ |- _ =>
      destruct (parse_octet x) eqn:?; cbn in H; [|done]
  end.
  simplify_eq. repeat match goal with H : parse_octet _ = Some _ |- _ => apply parse_octet_range in H end.
  lia.
Qed.

Lemma parse_ipv4_ok s a : parse_ipv4 s = Some a -> addr_ok a /\ a_ver a = IPv4 /\ a_scope a = None.
Proof.
  unfold parse_ipv4. case_match; [done|].
  destruct (ipv4_int_from_string s) eqn:E; cbn; [|done]. intros; simplify_eq.
  split; [|done]. by apply ipv4_int_range in E.
Qed.

Lemma find_some_prefix z p : prefix_from_int z = Some p -> 0 <= p <= 32.
Proof.
  unfold prefix_from_int. intros [Hin _]%find_some. apply list_elem_of_In, elem_of_seqZ in Hin. lia.
Qed.

Lemma make_prefixlen_range v s p : make_prefixlen v s = Some p -> 0 <= p <= max_prefixlen v.
Proof.
  unfold make_prefixlen, prefix_from_string, option_or.
  destruct (parse_digits s) as [z|] eqn:E; cbn; [destruct (Z.leb_spec z (max_prefixlen v))|].
  - intros; simplify_eq. apply parse_digits_nonneg in E. lia.
  - destruct v; [|done]. destruct (ipv4_int_from_string s); cbn; [|done].
    destruct (prefix_from_int z0) eqn:?; intros ?; simplify_eq; eapply find_some_prefix; eauto.
  - destruct v; [|done]. destruct (ipv4_int_from_string s); cbn; [|done].
    destruct (prefix_from_int z) eqn:?; intros ?; simplify_eq; eapply find_some_prefix; eauto.
Qed.

Lemma masked_net_ok v z sc p : 0 <= p <= max_prefixlen v -> 0 <= z < 2 ^ max_prefixlen v ->
  net_ok (Net v (Z.land z (netmask v p)) sc p).
Proof.
  intros Hp Hz. pose proof (host_size_pos _ _ Hp) as Hh. unfold net_ok; cbn.
  rewrite land_netmask by done.
  pose proof (Z.mod_pos_bound z _ Hh). pose proof (Z.mod_le z _ (proj1 Hz) Hh).
  split_and!; [lia|lia|lia|lia|].
  exists (z / host_size v p). rewrite (Z.div_mod z (host_size v p)) at 1; lia.
Qed.

Lemma hex_val_range c d : hex_val c = Some d -> 0 <= d <= 15.
Proof.
  unfold hex_val, is_digit. pose proof (N_ascii_bounded c) as Hc. unfold code in *.
  repeat case_match; intros; simplify_eq;
    rewrite ?andb_true_iff, ?N.leb_le, ?Z.leb_le in *; lia.
Qed.

Lemma hex_acc_range s : forall acc z, 0 <= acc -> hex_acc acc s = Some z ->
  acc * 16 ^ Z.of_nat (String.length s) <= z < (acc + 1) * 16 ^ Z.of_nat (String.length s).
Proof.
  induction s as [|c s IH]; intros acc z Hacc; cbn [hex_acc String.length].
  - intros; simplify_eq. cbn. lia.
  - destruct (hex_val c) as [d|] eqn:Hd; cbn; [|done]. intros H.
    apply hex_val_range in Hd. apply IH in H; [|lia].
    rewrite Nat2Z.inj_succ, Z.pow_succ_r by lia.
    pose proof (Z.pow_pos_nonneg 16 (Z.of_nat (String.length s))). nia.
Qed.

Lemma parse_hextet_range s z : parse_hextet s = Some z -> 0 <= z < 65536.
Proof.
  unfold parse_hextet. case_match eqn:E; [done|]. intros H. apply hex_acc_range in H; [|lia].
  apply orb_false_iff in E as [_ E%Nat.ltb_ge].
  assert (16 ^ Z.of_nat (String.length s) <= 16 ^ 4) by (apply Z.pow_le_mono_r; lia). lia.
Qed.

Lemma hextets_range l : forall acc z, 0 <= acc -> hextets acc l = Some z ->
  0 <= z < (acc + 1) * 2 ^ (16 * Z.of_nat (length l)).
Proof.
  induction l as [|h l IH]; intros acc z Hacc; cbn [hextets length].
  - intros; simplify_eq. cbn. lia.
  - destruct (parse_hextet h) as [v|] eqn:Hv; cbn; [|done]. intros H.
    apply parse_hextet_range in Hv. apply IH in H; [|lia].
    replace (16 * Z.of_nat (S (length l))) with (16 + 16 * Z.of_nat (length l)) by lia.
    rewrite Z.pow_add_r by lia.
    pose proof (Z.pow_pos_nonneg 2 (16 * Z.of_nat (length l))). nia.
Qed.

Lemma group_value_range t acc l z :
  (forall v, t = Some v -> 0 <= v < 2 ^ 32 /\ (2 <= length l)%nat) ->
  0 <= acc -> group_value t acc l = Some z ->
  0 <= z < (acc + 1) * 2 ^ (16 * Z.of_nat (length l)).
Proof.
  intros Ht Hacc. destruct t as [v|]; cbn; [|by apply hextets_range].
  destruct (Ht v eq_refl) as [Hv Hl].
  destruct (hextets _ _) as [a|] eqn:Ha; cbn; [|done]. intros; simplify_eq.
  apply hextets_range in Ha; [|done]. rewrite length_take in Ha.
  replace ((length l - 2) `min` length l)%nat with (length l - 2)%nat in Ha by lia.
  replace (16 * Z.of_nat (length l)) with (16 * Z.of_nat (length l - 2) + 32) by lia.
  rewrite Z.pow_add_r, Z.mul_assoc by lia. change (2 ^ 32) with 4294967296 in *. lia.
Qed.

Lemma skip_indices_spec l k : k ∈ skip_indices l ->
  (1 <= k /\ k + 1 < length l)%nat /\ is_empty_str (nth k l "") = true.
Proof.
  unfold skip_indices. intros [Hk Hin]%list_elem_of_filter.
  apply elem_of_seq in Hin. split; [lia|]. by apply Is_true_true.
Qed.

Lemma ipv6_shift_range h hi lo rest :
  0 <= h < (0 + 1) * 2 ^ (16 * Z.of_nat hi) -> (hi + lo < 8)%nat -> rest = Z.of_nat (hi + lo) ->
  0 <= h * 2 ^ (16 * (8 - rest)) /\
  (h * 2 ^ (16 * (8 - rest)) + 1) * 2 ^ (16 * Z.of_nat lo) <= 2 ^ 128.
Proof.
  intros Hh Hlt ->. pose proof (Z.pow_pos_nonneg 2 (16 * (8 - Z.of_nat (hi + lo)))) as Hs.
  split; [nia|].
  replace (2 ^ 128) with (2 ^ (16 * Z.of_nat hi) * 2 ^ (16 * (8 - Z.of_nat (hi + lo)))
    * 2 ^ (16 * Z.of_nat lo)) by (rewrite <- !Z.pow_add_r by lia; f_equal; lia).
  apply Z.mul_le_mono_nonneg_r; [apply Z.pow_nonneg; lia|]. nia.
Qed.

Lemma tail4_groups parts v k :
  let full := all_groups parts (Some v) in
  is_empty_str (nth k full "") = true -> (1 <= k)%nat -> (k + 1 < length full)%nat ->
  (k + 3 <= length full)%nat /\ is_empty_str (nth (length full - 1) full "") = false.
Proof.
  cbn. rewrite length_app. cbn [length]. intros Hke ? ?. split.
  - destruct (decide (k = length parts)) as [->|]; [|lia].
    by rewrite app_nth2, Nat.sub_diag in Hke by lia.
  - rewrite app_nth2 by lia. by replace (length parts + 2 - 1 - length parts)%nat with 1%nat by lia.
Qed.

Lemma ipv6_groups_range parts t z :
  (forall v, t = Some v -> 0 <= v < 2 ^ 32) -> ipv6_groups parts t = Some z -> 0 <= z < 2 ^ 128.
Proof.
  intros Ht. unfold ipv6_groups.
  set (full := all_groups parts t). set (n := length full).
  case_match; [done|]. destruct (skip_indices full) as [|k [|]] eqn:Hk; [| |done].
  - destruct (Nat.eqb_spec n 8) as [H8|]; [|done]. cbn. repeat case_match; try done.
    intros Hv. apply group_value_range in Hv; [|intros v Hv'; split; [eauto|lia]|lia].
    fold n in Hv. rewrite H8 in Hv. cbn in *. lia.
  - assert (Hin : k ∈ skip_indices full) by (rewrite Hk; set_solver).
    apply skip_indices_spec in Hin as [Hkr Hke].
    set (lead := is_empty_str (nth 0 full "")). set (trail := is_empty_str (nth (n - 1) full "")).
    set (hi := (if lead then k - 1 else k)%nat).
    set (lo := (if trail then n - k - 2 else n - k - 1)%nat).
    case_match; [done|]. destruct (Nat.leb_spec 8 (hi + lo)); [done|].
    destruct (hextets 0 (take hi full)) as [h|] eqn:Hh; cbn; [|done].
    apply hextets_range in Hh; [|lia]. rewrite length_take in Hh.
    assert (hi <= k)%nat by (unfold hi; destruct lead; lia).
    replace (hi `min` length full)%nat with hi in Hh by lia.
    destruct (ipv6_shift_range h hi lo _ Hh H1 eq_refl) as [Hb1 Hb2].
    destruct (Nat.eqb_spec lo 0) as [Hlo|Hlo]; intros Hv; simplify_eq.
    { rewrite Hlo in Hb2. cbn [Z.of_nat Z.mul] in Hb2. rewrite Z.pow_0_r in Hb2. rewrite Hlo. lia. }
    apply group_value_range in Hv; [|intros v Hv'; split; [eauto|]|lia].
    + rewrite length_drop in Hv. fold n in Hv. replace (n - (n - lo))%nat with lo in Hv; [lia|].
      unfold lo; destruct trail; lia.
    + rewrite length_drop. fold n. subst t.
      destruct (tail4_groups parts v k Hke) as [Ht2 Htr]; [exact (proj1 Hkr)|exact (proj2 Hkr)|].
      fold full in Ht2, Htr. fold n in Ht2, Htr. unfold lo, trail. rewrite Htr. lia.
Qed.

Lemma parse_ipv6_ok s a : parse_ipv6 s = Some a -> addr_ok a /\ a_ver a = IPv6.
Proof.
  unfold parse_ipv6. case_match; [done|].
  destruct (split_scope s) as [[x sc]|]; cbn; [|done].
  destruct (ipv6_int_from_string x) as [z|] eqn:E; cbn; [|done]. intros; simplify_eq.
  split; [|done]. revert E. unfold ipv6_int_from_string. case_match; [done|].
  unfold ipv6_parts. destruct (reverse _) as [|l hd]; [done|]. case_match.
  - destruct (ipv4_int_from_string l) as [v|] eqn:Ev; [|done]. cbn. intros E.
    eapply ipv6_groups_range; [|exact E]. intros; simplify_eq. by eapply ipv4_int_range.
  - cbn. intros E. eapply ipv6_groups_range; [|exact E]. done.
Qed.

Lemma ip_address_ok s a : ip_address s = Ok a -> addr_ok a.
Proof.
  unfold ip_address. destruct (parse_ipv4 s) eqn:E4; [|destruct (parse_ipv6 s) eqn:E6];
    intros; simplify_eq.
  - by apply parse_ipv4_ok in E4 as [? _].
  - by apply parse_ipv6_ok in E6 as [? _].
Qed.

Lemma parse_net_ok v st s n : parse_net v st s = Some (Ok n) -> net_ok n.
Proof.
  unfold parse_net.
  assert (Hmk : forall a p sc, addr_ok a -> a_ver a = v -> 0 <= p <= max_prefixlen v ->
            net_ok (Net v (Z.land (a_int a) (netmask v p)) sc p)).
  { intros a p sc Ha Hv Hp. apply masked_net_ok; [done|]. by rewrite <- Hv. }
  assert (Hpa : forall t a, (match v with IPv4 => parse_ipv4 t | IPv6 => parse_ipv6 t end) = Some a ->
            addr_ok a /\ a_ver a = v).
  { intros t a H. destruct v; [apply parse_ipv4_ok in H|apply parse_ipv6_ok in H]; naive_solver. }
  destruct (split_on "/"%char s) as [|a [|m [|]]]; try done; cbn;
    (destruct (match v with IPv4 => parse_ipv4 a | IPv6 => parse_ipv6 a end) as [ad|] eqn:Ead;
       cbn; [|done]); apply Hpa in Ead as [Hok Hv].
  - assert (Hmax : 0 <= max_prefixlen v <= max_prefixlen v) by (destruct v; cbn; lia).
    intros Hn. destruct (bool_decide _); [|destruct st]; simplify_eq; by apply Hmk.
  - destruct (make_prefixlen v m) as [p|] eqn:Ep; cbn; [|done]. apply make_prefixlen_range in Ep.
    intros Hn. destruct (bool_decide _); [|destruct st]; simplify_eq; by apply Hmk.
Qed.

Lemma ip_network_ok s st n : ip_network s st = Ok n -> net_ok n.
Proof.
  unfold ip_network. destruct (parse_net IPv4 st s) eqn:E4; [|destruct (parse_net IPv6 st s) eqn:E6];
    intros; simplify_eq; by eapply parse_net_ok.
Qed.

(** Every exception of the two parsers is a [ValueError]. *)
Lemma ip_address_raise s e : ip_address s = Raise e -> exists m, e = ValueError m.
Proof. unfold ip_address. repeat case_match; intros; simplify_eq; eauto. Qed.

Lemma parse_net_raise v st s e : parse_net v st s = Some (Raise e) -> exists m, e = ValueError m.
Proof.
  unfold parse_net. destruct (split_on _ s) as [|a [|m [|]]]; try done; cbn;
    destruct (match v with IPv4 => parse_ipv4 a | IPv6 => parse_ipv6 a end); cbn; try done;
    try (destruct (make_prefixlen v m); cbn; [|done]);
    repeat case_match; intros; simplify_eq; eauto.
Qed.

Lemma ip_network_raise s st e : ip_network s st = Raise e -> exists m, e = ValueError m.
Proof.
  unfold ip_network. repeat case_match; intros; simplify_eq; eauto using parse_net_raise.
Qed.

(** Membership in a subnet is membership in the larger network. *)
Lemma subnet_of_in a n m : addr_ok a -> net_ok n -> net_ok m ->
  subnet_of n m = Ok true -> in_net a n = true -> in_net a m = true.
Proof.
  intros Ha Hn Hm Hs. rewrite !in_net_range by done. unfold subnet_of, broadcast in Hs. cbn in Hs.
  case_decide as Hv; [|done]. injection Hs as [Hlo Hb]%andb_true_iff.
  apply Z.leb_le in Hb. apply orb_true_iff in Hlo.
  rewrite andb_true_iff, Z.ltb_lt, Z.eqb_eq in Hlo. intros [? ?]. split; [congruence|lia].
Qed.

#[export] Hint Resolve ip_address_ok ip_network_ok : cplane.

Example ipv6_ex : ip_address "2001:db8::1" = Ok (Addr IPv6 42540766411282592856903984951653826561 None).
Proof. vm_compute. reflexivity. Qed.
Example ipv6_v4_ex : ip_address "::ffff:10.0.0.1" = Ok (Addr IPv6 281470849515521 None).
Proof. vm_compute. reflexivity. Qed.
Example net_mask_ex : ip_network "10.1.2.3/255.255.0.0" false = Ok (Net IPv4 167837696 None 16).
Proof. vm_compute. reflexivity. Qed.
Example leading_zero_ex : is_ok (ip_address "10.01.2.3") = false.
Proof. vm_compute. reflexivity. Qed.

(** ** No text is both an IPv4 and an IPv6 address *)
Lemma contains_split c d s : list_contains_char c s = true -> c <> d ->
  exists p, p ∈ split_on d s /\ list_contains_char c p = true.
Proof.
  unfold list_contains_char. intros H Hne. induction s as [|a s IH]; [done|]. cbn in *.
  destruct (bool_decide (a = c)) eqn:Hac.
  - apply bool_decide_eq_true in Hac as ->. rewrite bool_decide_eq_false_2 by done.
    pose proof (split_on_nonempty d s) as Hn. destruct (split_on d s) as [|h t]; [done|].
    exists (String c h). split; [set_solver|]. cbn. by rewrite bool_decide_char.
  - cbn in H. destruct (IH H) as (p & Hp & Hc).
    destruct (bool_decide (a = d)); [exists p; set_solver|].
    destruct (split_on d s) as [|h t]; [set_solver|].
    rewrite elem_of_cons in Hp. destruct Hp as [->|Hp]; [exists (String a h)|exists p; set_solver].
    cbn. rewrite Hac. set_solver.
Qed.

Lemma digits_val_not_contains c s : forall acc z, is_digit c = false ->
  digits_val acc s = Some z -> list_contains_char c s = false.
Proof.
  unfold list_contains_char.
  induction s as [|a s IH]; intros acc z Hc; cbn; [done|].
  destruct (is_digit a) eqn:Ha; [|done]. intros H. apply orb_false_iff. split.
  - apply bool_decide_eq_false. congruence.
  - by eapply IH.
Qed.

Lemma ipv4_no_colon s z : ipv4_int_from_string s = Some z -> list_contains_char ":"%char s = false.
Proof.
  intros H. apply not_true_is_false. intros Hc.
  apply (contains_split _ "."%char) in Hc as (p & Hp & Hc); [|done].
  assert (exists v, parse_octet p = Some v) as [v Hv].
  { unfold ipv4_int_from_string in H.
    destruct (split_on "."%char s) as [|a [|b [|c [|d [|]]]]]; try done.
    repeat match goal with
    | H : (parse_octet ?x ≫= _) = Some _ |- _ => destruct (parse_octet x) eqn:?; cbn in H; [|done]
    end.
    rewrite !elem_of_cons in Hp. destruct Hp as [->|[->|[->|[->|Hp]]]]; eauto. set_solver. }
  unfold parse_octet in Hv. destruct (parse_digits p) as [w|] eqn:E; [|done].
  destruct p as [|x p]; [done|]. apply (digits_val_not_contains ":"%char) in E; [congruence|done].
Qed.

Lemma contains_app c s t :
  list_contains_char c (s ++ t) = list_contains_char c s || list_contains_char c t.
Proof.
  unfold list_contains_char. induction s as [|a s IH]; [done|].
  rewrite str_app_cons. cbn. by rewrite IH, orb_assoc.
Qed.

Lemma parse_exclusive s a : parse_ipv4 s = Some a -> parse_ipv6 s = None.
Proof.
  unfold parse_ipv4, parse_ipv6. case_match; [done|].
  destruct (ipv4_int_from_string s) as [z|] eqn:E; [|done]. intros _.
  apply ipv4_no_colon in E. destruct (split_scope s) as [[x sc]|] eqn:Es; [|done]. cbn.
  assert (Hx : list_contains_char ":"%char x = false).
  { unfold split_scope in Es. pose proof (join_split "%"%char s) as Hj.
    destruct (split_on "%"%char s) as [|a1 [|a2 [|]]]; try done.
    - cbn in Hj. by simplify_eq.
    - destruct (nonempty a2); [|done]. cbn [py_join] in Hj. simplify_eq.
      rewrite contains_app in E. by apply orb_false_iff in E as [-> _]. }
  unfold ipv6_int_from_string. rewrite (split_on_fresh _ _ Hx). cbn. by rewrite orb_true_r.
Qed.

(** The address part of a parsed network is the parsed bare address. *)
Lemma parse_net_addr v st s n : parse_net v st s = Some (Ok n) ->
  exists a, (match v with IPv4 => parse_ipv4 (hd "" (split_on "/"%char s))
             | IPv6 => parse_ipv6 (hd "" (split_on "/"%char s)) end) = Some a /\
    n_ver n = v /\ n_int n = Z.land (a_int a) (netmask v (n_plen n)).
Proof.
  unfold parse_net. destruct (split_on "/"%char s) as [|a [|m [|]]]; try done; cbn [hd mbind option_bind];
    destruct (match v with IPv4 => parse_ipv4 a | IPv6 => parse_ipv6 a end) as [ad|]; try done; cbn;
    try (destruct (make_prefixlen v m); cbn; [|done]);
    intros H; exists ad; (split; [done|]); revert H;
    (destruct (bool_decide _); [|destruct st]); intros H; simplify_eq; done.
Qed.

Lemma ip_network_addr s st n : ip_network s st = Ok n ->
  exists a, ip_address (hd "" (split_on "/"%char s)) = Ok a /\
    a_ver a = n_ver n /\ n_int n = Z.land (a_int a) (netmask (n_ver n) (n_plen n)).
Proof.
  unfold ip_network, ip_address.
  destruct (parse_net IPv4 st s) as [r|] eqn:E4.
  - intros ->. apply parse_net_addr in E4 as (a & Ha & Hv & Hi). rewrite Ha. exists a.
    apply parse_ipv4_ok in Ha as (_ & Hav & _). rewrite Hv. auto.
  - destruct (parse_net IPv6 st s) as [r|] eqn:E6; [|done]. intros ->.
    apply parse_net_addr in E6 as (a & Ha & Hv & Hi).
    destruct (parse_ipv4 (hd "" (split_on "/"%char s))) as [b|] eqn:Eb.
    { apply parse_exclusive in Eb. congruence. }
    rewrite Ha. exists a. apply parse_ipv6_ok in Ha as (_ & Hav). rewrite Hv. auto.
Qed.

(** A network of full prefix length holds exactly the address it was written with. *)
Lemma host_net_unique s st n a b : ip_network s st = Ok n -> n_plen n = max_prefixlen (n_ver n) ->
  ip_address (hd "" (split_on "/"%char s)) = Ok b -> addr_ok a -> in_net a n = true ->
  a_ver a = a_ver b /\ a_int a = a_int b.
Proof.
  intros Hn Hp Hb Ha Hin. pose proof (ip_network_ok _ _ _ Hn) as Hok.
  apply ip_network_addr in Hn as (b' & Hb' & Hv & Hi). rewrite Hb in Hb'. simplify_eq.
  pose proof (ip_address_ok _ _ Hb) as Hbo.
  apply in_net_range in Hin as [Hav Hr]; [|done|done].
  rewrite Hp in Hi, Hr. unfold host_size in Hr. rewrite Z.sub_diag in Hr.
  rewrite land_netmask in Hi; [|pose proof (max_prefixlen_pos (n_ver n)); lia|unfold addr_ok in Hbo; by rewrite <- Hv].
  unfold host_size in Hi. rewrite Z.sub_diag, Z.mod_1_r in Hi. split; [congruence|]. lia.
Qed.
