(* ===== verification/Topology.v ===== *)
(** * The datacenter topology (intelligence-layer/src/core/topology.py)

    The four zones, the hosts and the two leafs, the graph built from them, and
    the classification of an address into its zone and its leaf. *)
From S2P Require Import Prelude PyVal IpAddr.
Local Open Scope string_scope.
Local Open Scope Z_scope.

Record zone_attrs := ZoneAttrs { z_cidr : string; z_leaf : string; z_vlan : Z; z_svi : string }.
Record host_attrs := HostAttrs { h_ip : string; h_zone : string }.
Record leaf_attrs := LeafAttrs { l_ssh_host : string; l_zones : list string }.

Definition ZONES : list (string * zone_attrs) := [
  ("WEB", ZoneAttrs "10.1.100.0/24" "LEAF-1" 100 "10.1.100.1");
  ("DB",  ZoneAttrs "10.1.200.0/24" "LEAF-1" 200 "10.1.200.1");
  ("APP", ZoneAttrs "10.2.100.0/24" "LEAF-2" 100 "10.2.100.1");
  ("MGT", ZoneAttrs "10.2.50.0/24" "LEAF-2" 300 "10.2.50.1")].

Definition HOSTS : list (string * host_attrs) := [
  ("Alpine-Linux-1", HostAttrs "10.1.100.10" "WEB");
  ("Alpine-Linux-2", HostAttrs "10.1.200.10" "DB");
  ("Alpine-Linux-3", HostAttrs "10.2.100.10" "APP");
  ("Alpine-Linux-5", HostAttrs "10.2.50.10" "MGT")].

Definition LEAFS : list (string * leaf_attrs) := [
  ("LEAF-1", LeafAttrs "192.168.122.20" ["WEB"; "DB"]);
  ("LEAF-2", LeafAttrs "192.168.122.21" ["APP"; "MGT"])].

(** ** The graph: nodes with their type, labelled edges *)
Inductive node_type := NZone | NHost | NLeaf.
Record graph := Graph { g_nodes : list (string * node_type); g_edges : list (string * string * string) }.

(** The order of the edges is the order in which [build_graph] adds them. *)
Definition build_graph : graph :=
  Graph
    (map (fun z => (z.1, NZone)) ZONES ++ map (fun h => (h.1, NHost)) HOSTS
     ++ map (fun l => (l.1, NLeaf)) LEAFS)
    (map (fun h : string * host_attrs => (h.1, h_zone h.2, "belongs_to")) HOSTS
     ++ flat_map (fun l : string * leaf_attrs =>
          map (fun z => (l.1, z, "enforces")) (l_zones l.2)) LEAFS).

(** ** Classification *)
(** [s.split("/")[0]] *)
Definition bare_ip (s : string) : string := hd "" (split_on "/"%char s).

(** [addr in ipaddress.ip_network(cidr)] with the default [strict=True]. *)
Definition in_cidr (a : ip_addr) (cidr : string) : bool :=
  match ip_network cidr true with Ok n => in_net a n | Raise _ => false end.

Definition ip_to_zone (ip : string) : option string :=
  match ip_address (bare_ip ip) with
  | Raise _ => None
  | Ok addr => fst <$> find (fun z : string * zone_attrs => in_cidr addr (z_cidr z.2)) ZONES
  end.

Definition ip_to_leaf (ip : string) : option string :=
  match ip_to_zone ip with
  | None => None
  | Some zone =>
      fst <$> find (fun l : string * leaf_attrs => bool_decide (zone ∈ l_zones l.2)) LEAFS
  end.

Definition zone_svis : list string := map (fun z : string * zone_attrs => z_svi z.2) ZONES.

(** ** Lemmas *)
(** The first address and the size of each zone. *)
Definition zone_base (zone : string) : option Z :=
  dict_get [("WEB", 167863296); ("DB", 167888896); ("APP", 167928832); ("MGT", 167916032)] zone.

Lemma zone_nets :
  ip_network "10.1.100.0/24" true = Ok (Net IPv4 167863296 None 24) /\
  ip_network "10.1.200.0/24" true = Ok (Net IPv4 167888896 None 24) /\
  ip_network "10.2.100.0/24" true = Ok (Net IPv4 167928832 None 24) /\
  ip_network "10.2.50.0/24" true = Ok (Net IPv4 167916032 None 24).
Proof. vm_compute. auto. Qed.

Lemma in_zone_range a zone attrs b : addr_ok a ->
  dict_get ZONES zone = Some attrs -> zone_base zone = Some b ->
  in_cidr a (z_cidr attrs) = true <-> a_ver a = IPv4 /\ b <= a_int a < b + 256.
Proof.
  intros Ha Hz Hb. destruct zone_nets as (Hw & Hd & Hp & Hm). unfold zone_base in Hb. unfold ZONES in Hz. cbn [dict_get] in Hz, Hb.
  assert (Hr : forall b, net_ok (Net IPv4 b None 24) ->
     in_net a (Net IPv4 b None 24) = true <-> a_ver a = IPv4 /\ b <= a_int a < b + 256).
  { intros b' Hok. by rewrite in_net_range by done. }
  unfold in_cidr. repeat case_decide; simplify_eq; cbn [z_cidr];
    rewrite ?Hw, ?Hd, ?Hp, ?Hm; (apply Hr; unfold net_ok; cbn;
      split_and!; [lia|lia|lia|lia|by apply Z.mod_divide]).
Qed.

Lemma ip_to_zone_find a : addr_ok a -> forall zone,
  fst <$> find (fun z : string * zone_attrs => in_cidr a (z_cidr z.2)) ZONES = Some zone <->
  exists b, zone_base zone = Some b /\ a_ver a = IPv4 /\ b <= a_int a < b + 256.
Proof.
  intros Ha zone.
  pose proof (in_zone_range a "WEB" _ _ Ha eq_refl eq_refl) as Hw.
  pose proof (in_zone_range a "DB" _ _ Ha eq_refl eq_refl) as Hd.
  pose proof (in_zone_range a "APP" _ _ Ha eq_refl eq_refl) as Hp.
  pose proof (in_zone_range a "MGT" _ _ Ha eq_refl eq_refl) as Hm.
  cbn [z_cidr] in *. cbn [find ZONES snd z_cidr fst].
  assert (Hzb : forall b, zone_base zone = Some b ->
    (zone = "WEB" /\ b = 167863296) \/ (zone = "DB" /\ b = 167888896) \/
    (zone = "APP" /\ b = 167928832) \/ (zone = "MGT" /\ b = 167916032)).
  { intros b. unfold zone_base. cbn [dict_get]. repeat case_decide; intros; simplify_eq; auto. }
  destruct (in_cidr a "10.1.100.0/24"); destruct (in_cidr a "10.1.200.0/24");
  destruct (in_cidr a "10.2.100.0/24"); destruct (in_cidr a "10.2.50.0/24"); cbn.
  all: split; [intros; simplify_eq; eexists; (split; [reflexivity|]); tauto|].
  all: intros (b & Hb & Hv & Hr); apply Hzb in Hb as [[-> ->]|[[-> ->]|[[-> ->]|[-> ->]]]];
    try reflexivity; exfalso; lia || intuition (try lia; try done).
Qed.

Lemma bare_ip_no_slash s : list_contains_char "/"%char s = false -> bare_ip s = s.
Proof. intros H. unfold bare_ip. by rewrite split_on_fresh. Qed.

Lemma bare_ip_prefix s t : list_contains_char "/"%char s = false ->
  bare_ip (s ++ String "/"%char t) = s.
Proof. intros H. unfold bare_ip. by rewrite split_on_app. Qed.

Lemma bare_ip_fresh s : list_contains_char "/"%char (bare_ip s) = false.
Proof.
  unfold bare_ip. pose proof (split_on_nonempty "/"%char s).
  destruct (split_on "/"%char s) as [|h t] eqn:E; [done|]. cbn.
  apply (split_on_parts_fresh _ s). rewrite E. set_solver.
Qed.

Lemma bare_ip_idemp s : bare_ip (bare_ip s) = bare_ip s.
Proof. apply bare_ip_no_slash, bare_ip_fresh. Qed.

Lemma ip_to_zone_bare s : ip_to_zone (bare_ip s) = ip_to_zone s.
Proof. unfold ip_to_zone. by rewrite bare_ip_idemp. Qed.

Lemma ip_to_zone_Some s zone :
  ip_to_zone s = Some zone <->
  exists a b, ip_address (bare_ip s) = Ok a /\ zone_base zone = Some b /\
              a_ver a = IPv4 /\ b <= a_int a < b + 256.
Proof.
  unfold ip_to_zone. destruct (ip_address (bare_ip s)) as [a|e] eqn:E.
  - rewrite ip_to_zone_find by eauto with cplane. naive_solver.
  - naive_solver.
Qed.

Lemma ip_to_zone_known s zone : ip_to_zone s = Some zone -> zone ∈ ["WEB"; "DB"; "APP"; "MGT"].
Proof.
  intros (a & b & _ & Hb & _)%ip_to_zone_Some. unfold zone_base in Hb. cbn [dict_get] in Hb.
  repeat case_decide; simplify_eq; set_solver.
Qed.

(** ** Properties *)
(** [ip_to_zone] returns a zone exactly when the text before the first slash
    is an IPv4 address of that zone's /24: a name is never returned for an IPv6
    address, malformed text or an address outside the four zones. *)
Theorem ip_to_zone_spec s zone :
  ip_to_zone s = Some zone <->
  exists a b, ip_address (bare_ip s) = Ok a /\ zone_base zone = Some b /\
              a_ver a = IPv4 /\ b <= a_int a < b + 256.
Proof. apply ip_to_zone_Some. Qed.

(** The leaf an address is mapped to is the leaf its zone's attributes
    name, and every address with a zone has one: [ip_to_leaf] and [ZONES] agree
    although they are separate tables. *)
Theorem ip_to_leaf_zone_attrs s :
  ip_to_leaf s = (zone ← ip_to_zone s; z_leaf <$> dict_get ZONES zone).
Proof.
  unfold ip_to_leaf. destruct (ip_to_zone s) as [z|] eqn:E; [|done].
  apply ip_to_zone_known in E.
  repeat (apply elem_of_cons in E as [->|E]; [vm_compute; reflexivity|]). set_solver.
Qed.
