(* ===== verification/Policy.v ===== *)
(** * Zone policy and the SID catalogue

    intelligence-layer/src/core: policy.py (the zone matrix and the conflict
    check), knowledge.py (severity per SID), threat_playbook.py (detections and
    kill chains), baselines.py ([match_baseline]), severity_scoring.py (the
    rubric's lookups) and invariants.py with the start-up safety floor of
    main.py.  The catalogues are module-level variables that start-up replaces by
    what Neo4j holds: they are a record [catalogue] the functions take, and
    [catalogue0] is the content of knowledge/infra. *)
From S2P Require Import Prelude PyVal IpAddr Topology.
Local Open Scope string_scope.
Local Open Scope Z_scope.

Record sid_info := SidInfo { si_severity : Z; si_action : string; si_ttl : Z }.

Record sid_detection := SidDetection { sd_sid : Z; sd_p_level : Z; sd_recommended : string }.

Record kill_chain_stage := Stage { ks_stage : Z; ks_signals : list Z }.
Record kill_chain := KillChain { kc_name : string; kc_stages : list kill_chain_stage }.

Record traffic_pattern := Pattern {
  tp_name : string; tp_src_zone : string; tp_src_ip : string; tp_dst_zone : string;
  tp_dst_ip : string; tp_dst_port : Z; tp_proto : string }.

Record catalogue := Catalogue {
  POLICY_MATRIX : list ((string * string) * string);
  SID_DETECTIONS : list (Z * sid_detection);
  KILL_CHAINS : list kill_chain;
  ALL_BASELINES : list traffic_pattern;
  NEVER_BLOCK_CIDRS : list string }.

(** ** knowledge.py *)
Definition SID_KNOWLEDGE : list (Z * sid_info) := [
  (9000001, SidInfo 1 "block" 3600);
  (9000002, SidInfo 1 "block" 3600);
  (9000010, SidInfo 3 "log_only" 0);
  (9000011, SidInfo 3 "log_only" 0);
  (9000020, SidInfo 4 "log_only" 0);
  (9000030, SidInfo 2 "block_targeted" 1800);
  (9000031, SidInfo 2 "block_targeted" 1800);
  (9000032, SidInfo 2 "block_targeted" 1800);
  (9000033, SidInfo 1 "block_targeted_escalate" 3600);
  (9000034, SidInfo 3 "agent_time_eval" 900);
  (9000035, SidInfo 1 "block_targeted_flag_host" 3600)].

Definition get_sid_info (sid : Z) : option sid_info := dict_get SID_KNOWLEDGE sid.

(** ** policy.py *)
Inductive conflict := Conflict (src_zone dst_zone : string).

Section Catalogue.
Context (kb : catalogue).

Definition check_policy (src_zone dst_zone : string) : string :=
  default "DENY" (dict_get (POLICY_MATRIX kb) (src_zone, dst_zone)).

(** [det and det.recommended_response and "DROP" in det.recommended_response.upper()] *)
Definition sid_catalogues_drop (sid : Z) : bool :=
  match dict_get (SID_DETECTIONS kb) sid with
  | Some det => nonempty (sd_recommended det) && str_contains "DROP" (py_upper (sd_recommended det))
  | None => false
  end.

Definition detect_conflict (src_ip dst_ip action : string) (sid : option Z) : option conflict :=
  match ip_to_zone src_ip, ip_to_zone dst_ip with
  | Some src_zone, Some dst_zone =>
      let policy := check_policy src_zone dst_zone in
      if bool_decide (action = "DROP") && bool_decide (policy = "ALLOW") then
        match sid with
        | Some n => if sid_catalogues_drop n then None else Some (Conflict src_zone dst_zone)
        | None => Some (Conflict src_zone dst_zone)
        end
      else None
  | _, _ => None
  end.

(** ** threat_playbook.py *)
Definition get_sid_detection (sid : Z) : option sid_detection := dict_get (SID_DETECTIONS kb) sid.

Definition find_kill_chain_stage (sid : Z) : list (kill_chain * kill_chain_stage) :=
  flat_map (fun kc =>
    map (fun st => (kc, st)) (filter (fun st => sid ∈ ks_signals st) (kc_stages kc)))
    (KILL_CHAINS kb).

(** ** baselines.py *)
Definition match_baseline (src_ip dst_ip : string) (dst_port : Z) (proto : string)
    : option traffic_pattern :=
  let bare_src := bare_ip src_ip in
  let bare_dst := bare_ip dst_ip in
  find (fun p =>
    bool_decide (tp_proto p = proto) && bool_decide (tp_dst_port p = dst_port) &&
    bool_decide (tp_src_ip p = bare_src) && bool_decide (tp_dst_ip p ∈ ["rotating"; bare_dst]))
    (ALL_BASELINES kb).
End Catalogue.

(** ** The start-up safety floor (main.py) *)
Definition SAFETY_FLOOR : list string :=
  ["10.2.50.10/32"; "192.168.122.205/32"; "10.1.100.1/32"; "10.1.200.1/32"; "10.2.100.1/32";
   "10.2.50.1/32"; "192.168.122.0/24"].

Definition check_safety_floor (kb : catalogue) : res unit :=
  let missing := filter (fun c => c ∉ NEVER_BLOCK_CIDRS kb) SAFETY_FLOOR in
  match missing with
  | [] => Ok tt
  | _ => Raise (RuntimeError "Safety floor violated")
  end.

(** ** severity_scoring.py *)
Record severity_row := SevRow { sr_total_points : pyval; sr_p_level : string; sr_action : string }.

(** [s.replace(">=", "")] *)
Fixpoint remove_ge (s : string) : string :=
  match s with
  | String ">"%char (String "="%char s') => remove_ge s'
  | String c s' => String c (remove_ge s')
  | EmptyString => EmptyString
  end.

Definition all_digits (s : string) : bool := nonempty s && str_forallb is_digit s.

(** Whether one row of the mapping matches; the branches of the loop body. *)
Definition row_matches (total_points : Z) (tp : string) : res bool :=
  if str_contains ">=" tp then
    threshold ← py_int (py_strip (remove_ge tp)); Ok (threshold <=? total_points)
  else if str_contains "-" tp then
    match split_on "-"%char tp with
    | [a; b] =>
        lo ← py_int (py_strip a); hi ← py_int (py_strip b);
        Ok ((lo <=? total_points) && (total_points <=? hi))
    | _ => Raise (ValueError "too many values to unpack (expected 2)")
    end
  else if all_digits (py_strip tp) then
    n ← py_int (py_strip tp); Ok (total_points =? n)
  else Ok false.

Fixpoint p_level_loop (rows : list severity_row) (total_points : Z) : res (option severity_row) :=
  match rows with
  | [] => Ok None
  | row :: rest =>
      match sr_total_points row with
      | PStr tp =>
          m ← row_matches total_points tp;
          if m : bool then Ok (Some row) else p_level_loop rest total_points
      | _ => p_level_loop rest total_points
      end
  end.

Definition p_level_for_points (rows : list severity_row) (total_points : Z) : res severity_row :=
  r ← p_level_loop rows total_points;
  match r with
  | Some row => Ok row
  | None => match last rows with Some row => Ok row | None => Raise IndexError end
  end.

Definition action_rule (rules : list (list (string * pyval))) (p_level : string)
    : option (list (string * pyval)) :=
  find (fun r => match jget r "p_level" with PStr s => bool_decide (s = p_level) | _ => false end) rules.

(** ** The authored catalogue (knowledge/infra) *)
Definition catalogue0 : catalogue := {|
  POLICY_MATRIX := [
    (("WEB", "DB"), "DENY"); (("WEB", "APP"), "ALLOW"); (("WEB", "MGT"), "DENY");
    (("DB", "WEB"), "DENY"); (("DB", "APP"), "DENY"); (("DB", "MGT"), "DENY");
    (("APP", "WEB"), "DENY"); (("APP", "DB"), "ALLOW"); (("APP", "MGT"), "DENY");
    (("MGT", "WEB"), "ALLOW"); (("MGT", "DB"), "ALLOW"); (("MGT", "APP"), "ALLOW")];
  SID_DETECTIONS := [
    (9000001, SidDetection 9000001 1 "DROP src_ip");
    (9000002, SidDetection 9000002 1 "DROP src_ip");
    (9000030, SidDetection 9000030 2 "DROP targeted (src+dst+port)");
    (9000031, SidDetection 9000031 2 "DROP targeted (src+dst+port)");
    (9000032, SidDetection 9000032 2 "DROP targeted (src+dst+port)");
    (9000033, SidDetection 9000033 1 "DROP targeted (src+dst+port) + escalate");
    (9000034, SidDetection 9000034 3
      "agent-evaluated (log_only in business hours, DROP off-hours with corroboration)");
    (9000035, SidDetection 9000035 1 "DROP targeted (src+dst+port) + flag src host as suspicious");
    (9000010, SidDetection 9000010 3 "log_only");
    (9000011, SidDetection 9000011 3 "log_only");
    (9000020, SidDetection 9000020 4 "log_only")];
  KILL_CHAINS := [
    KillChain "presentation-tier-breach-to-data-exfiltration"
      [Stage 1 [9000010; 9000011]; Stage 2 [9000001]; Stage 3 [9000002]];
    KillChain "application-tier-breach-pivoting" [Stage 1 [9000003]; Stage 2 [9000005]];
    KillChain "management-plane-credential-compromise" [Stage 1 [9000020]];
    KillChain "data-tier-direct-exfiltration" [Stage 1 [9000002]]];
  ALL_BASELINES := [
    Pattern "web-to-application-proxy" "WEB" "10.1.100.10" "APP" "10.2.100.10" 8080 "tcp";
    Pattern "application-to-database-oltp" "APP" "10.2.100.10" "DB" "10.1.200.10" 5432 "tcp";
    Pattern "application-database-readiness" "APP" "10.2.100.10" "DB" "10.1.200.10" 5432 "tcp";
    Pattern "management-service-health-scrape-web" "MGT" "10.2.50.10" "WEB" "10.1.100.10" 80 "tcp";
    Pattern "management-service-health-scrape-app" "MGT" "10.2.50.10" "APP" "10.2.100.10" 8080 "tcp";
    Pattern "management-service-health-scrape-db" "MGT" "10.2.50.10" "DB" "10.1.200.10" 5432 "tcp";
    Pattern "management-compliance-ssh-audit" "MGT" "10.2.50.10" "WEB+APP+DB" "rotating" 22 "tcp";
    Pattern "management-application-log-retrieval" "MGT" "10.2.50.10" "APP" "10.2.100.10" 22 "tcp"];
  NEVER_BLOCK_CIDRS := ["127.0.0.0/8"; "192.168.122.0/24"; "10.10.6.0/24"; "10.1.100.1/32";
    "10.1.200.1/32"; "10.2.100.1/32"; "10.2.50.1/32"; "10.2.50.10/32"; "192.168.122.205/32"] |}.

Definition severity_mapping : list severity_row := [
  SevRow (PStr ">=8") "P1" "DROP"; SevRow (PStr "5-7") "P2" "DROP";
  SevRow (PStr "3-4") "P3" "log_only"; SevRow (PStr "1-2") "P4" "log_only";
  SevRow (PStr "0") "baseline" "none"].

(** ** Lemmas *)
Lemma detect_conflict_Some kb s d a sid c :
  detect_conflict kb s d a sid = Some c <->
  exists sz dz, ip_to_zone s = Some sz /\ ip_to_zone d = Some dz /\ c = Conflict sz dz /\
    a = "DROP" /\ check_policy kb sz dz = "ALLOW" /\
    (forall n, sid = Some n -> sid_catalogues_drop kb n = false).
Proof.
  unfold detect_conflict. split.
  - intros H. destruct (ip_to_zone s) as [sz|]; [|done]. destruct (ip_to_zone d) as [dz|]; [|done].
    case_bool_decide; [|done]. case_bool_decide; [|done]. cbn in H.
    exists sz, dz. destruct sid as [n|]; [destruct (sid_catalogues_drop kb n) eqn:E|];
      simplify_eq; split_and!; intros; simplify_eq; done.
  - intros (sz & dz & -> & -> & -> & -> & Hp & Hs). rewrite Hp. cbn.
    destruct sid as [n|]; [|done]. by rewrite (Hs n).
Qed.

Lemma p_level_loop_rubric n :
  p_level_loop severity_mapping n = Ok (
    if 8 <=? n then Some (SevRow (PStr ">=8") "P1" "DROP")
    else if (5 <=? n) && (n <=? 7) then Some (SevRow (PStr "5-7") "P2" "DROP")
    else if (3 <=? n) && (n <=? 4) then Some (SevRow (PStr "3-4") "P3" "log_only")
    else if (1 <=? n) && (n <=? 2) then Some (SevRow (PStr "1-2") "P4" "log_only")
    else if n =? 0 then Some (SevRow (PStr "0") "baseline" "none") else None).
Proof.
  assert (H8 : row_matches n ">=8" = Ok (8 <=? n)) by reflexivity.
  assert (H5 : row_matches n "5-7" = Ok ((5 <=? n) && (n <=? 7))) by reflexivity.
  assert (H3 : row_matches n "3-4" = Ok ((3 <=? n) && (n <=? 4))) by reflexivity.
  assert (H1 : row_matches n "1-2" = Ok ((1 <=? n) && (n <=? 2))) by reflexivity.
  assert (H0 : row_matches n "0" = Ok (n =? 0)) by reflexivity.
  unfold severity_mapping. cbn [p_level_loop sr_total_points].
  rewrite H8, H5, H3, H1, H0. cbn [mbind res_bind]. by repeat case_match.
Qed.

(** ** Properties *)
(** A conflict is reported exactly for a DROP between two known zones
    whose pair the matrix allows, unless the given SID is one whose catalogued
    response contains DROP; it names the two zones. *)
Theorem detect_conflict_iff kb src dst action sid c :
  detect_conflict kb src dst action sid = Some c <->
  exists sz dz, ip_to_zone src = Some sz /\ ip_to_zone dst = Some dz /\ c = Conflict sz dz /\
    action = "DROP" /\ check_policy kb sz dz = "ALLOW" /\
    (forall n, sid = Some n -> sid_catalogues_drop kb n = false).
Proof. apply detect_conflict_Some. Qed.

(** With the authored rubric every integer score is given a row: 8 and more P1,
    5 to 7 P2, 3 and 4 P3, 1 and 2 P4, 0 and every negative score the baseline
    row; no score raises. *)
Theorem p_level_rubric n :
  sr_p_level <$> p_level_for_points severity_mapping n = Ok (
    if 8 <=? n then "P1" else if 5 <=? n then "P2" else if 3 <=? n then "P3"
    else if 1 <=? n then "P4" else "baseline").
Proof.
  unfold p_level_for_points. rewrite p_level_loop_rubric. cbn [mbind res_bind].
  destruct (Z.leb_spec 8 n), (Z.leb_spec 5 n), (Z.leb_spec n 7), (Z.leb_spec 3 n), (Z.leb_spec n 4),
    (Z.leb_spec 1 n), (Z.leb_spec n 2), (Z.eqb_spec n 0); try lia; reflexivity.
Qed.

(** Start-up goes on exactly when every CIDR of the floor is in the never-block
    list read from the graph; otherwise it stops with a [RuntimeError]. *)
Theorem safety_floor_iff kb :
  (check_safety_floor kb = Ok tt <-> SAFETY_FLOOR ⊆ NEVER_BLOCK_CIDRS kb) /\
  (forall e, check_safety_floor kb = Raise e -> exists m, e = RuntimeError m).
Proof.
  unfold check_safety_floor.
  destruct (filter (fun c => c ∉ NEVER_BLOCK_CIDRS kb) SAFETY_FLOOR) as [|x l] eqn:E; split.
  - split; [intros _ c Hc|done]. apply dec_stable. intros Hn.
    assert (Hf : c ∈ filter (fun c => c ∉ NEVER_BLOCK_CIDRS kb) SAFETY_FLOOR)
      by (by apply list_elem_of_filter). rewrite E in Hf. set_solver.
  - done.
  - split; [done|]. intros Hs. exfalso.
    assert (Hx : x ∈ filter (fun c => c ∉ NEVER_BLOCK_CIDRS kb) SAFETY_FLOOR) by (rewrite E; set_solver).
    apply list_elem_of_filter in Hx as [Hn Hx]. by apply Hn, Hs.
  - intros e He. simplify_eq. eauto.
Qed.
