(* ===== verification/Models.v ===== *)
(** * The agent's data models (intelligence-layer/src/models)

    alert.py, decision.py and enforcement.py.  Pydantic's coercions and
    the parsing of a decimal into a float belong to code outside the repository:
    they are the operations of the class [External]; [ExternalLaws] states what
    the code relies on of them. *)
From S2P Require Import Prelude PyVal Sha256.
Local Open Scope string_scope.
Local Open Scope Z_scope.

(** ** What the models use of other packages *)
Class External := {
  pyd_int : pyval -> res Z;          (** an [int] field in lax mode *)
  pyd_float : pyval -> res Q;        (** a [float] field in lax mode *)
  float_of_str : string -> res Q;    (** [float(s)] on a string *)
  pyd_reason : string                (** the text of a validation error *)
}.

Class ExternalLaws `{External} := {
  pyd_int_PInt z : pyd_int (PInt z) = Ok z;
  pyd_float_PFloat q : pyd_float (PFloat q) = Ok q
}.

(** A [str] field accepts a [str] value only. *)
Definition pyd_str `{External} (v : pyval) : res string :=
  match v with PStr s => Ok s | _ => Raise (ValueError pyd_reason) end.
Definition pyd_dict `{External} (v : pyval) : res (list (string * pyval)) :=
  match v with PDict d => Ok d | _ => Raise (ValueError pyd_reason) end.

(** [float(v)] *)
Definition float_of `{External} (v : pyval) : res Q :=
  match v with
  | PInt z => Ok (inject_Z z)
  | PBool b => Ok (if b then 1%Q else 0%Q)
  | PFloat q => Ok q
  | PStr s => float_of_str s
  | PNone | PList _ | PDict _ => Raise (TypeError "float() argument must be a string or a real number")
  end.

(** ** alert.py *)
Record SuricataAlert := mkAlert {
  al_timestamp : string;
  al_src_ip : string;
  al_dest_ip : string;
  al_src_port : Z;
  al_dest_port : Z;
  al_proto : string;
  al_alert : list (string * pyval);
  al_raw : list (string * pyval) }.

(** The properties compute from the [alert] sub-object and raise when it holds
    something [int()] rejects. *)
Definition sid (a : SuricataAlert) : res Z := int_of (jget_or (al_alert a) "signature_id" (PInt 0)).
Definition severity (a : SuricataAlert) : res Z := int_of (jget_or (al_alert a) "severity" (PInt 4)).

Definition alert_from_raw `{External} (data : list (string * pyval)) : res SuricataAlert :=
  ts ← pyd_str (jget_or data "timestamp" (PStr ""));
  src ← pyd_str (jget_or data "src_ip" (PStr ""));
  dst ← pyd_str (jget_or data "dest_ip" (PStr ""));
  sp ← pyd_int (jget_or data "src_port" (PInt 0));
  dp ← pyd_int (jget_or data "dest_port" (PInt 0));
  proto ← pyd_str (jget_or data "proto" (PStr "tcp"));
  al ← pyd_dict (jget_or data "alert" (PDict []));
  Ok (mkAlert ts src dst sp dp proto al data).

(** ** decision.py *)
Inductive PolicyAction := DROP | LOG_ONLY | HOLD | REJECT.
#[export] Instance PolicyAction_eq_dec : EqDecision PolicyAction.
Proof. solve_decision. Defined.

Definition action_value (a : PolicyAction) : string :=
  match a with DROP => "DROP" | LOG_ONLY => "log_only" | HOLD => "hold" | REJECT => "reject" end.

(** [PolicyAction(v)], which raises [ValueError] when no member has this value. *)
Definition PolicyAction_of (v : pyval) : res PolicyAction :=
  match v with
  | PStr s =>
      match find (fun a => bool_decide (action_value a = s)) [DROP; LOG_ONLY; HOLD; REJECT] with
      | Some a => Ok a
      | None => Raise (ValueError "is not a valid PolicyAction")
      end
  | _ => Raise (ValueError "is not a valid PolicyAction")
  end.

Inductive NotificationSeverity := INFO | WARN | ALERT | CRITICAL.
Definition notification_value (n : NotificationSeverity) : string :=
  match n with INFO => "info" | WARN => "warn" | ALERT => "alert" | CRITICAL => "critical" end.

Record UserNotification := mkNotification { un_title : string; un_body : string; un_severity : NotificationSeverity }.

(** The decision fields; the audit metadata Stage 2 fills in afterwards is one
    object, [pi_reasoning]. *)
Record PolicyIntent := mkIntent {
  pi_rule_id : string;
  pi_action : PolicyAction;
  pi_src_ip : string;
  pi_dst_ip : string;
  pi_dst_port : Z;
  pi_protocol : string;
  pi_priority : Z;
  pi_ttl_seconds : Z;
  pi_comment : string;
  pi_confidence : Q;
  pi_reasoning : list (string * pyval);
  pi_notification : UserNotification }.

Definition rule_key (src_ip dst_ip : string) (dst_port : Z) (protocol : string) : string :=
  py_lower (src_ip ++ "|" ++ dst_ip ++ "|" ++ str_of_Z dst_port ++ "|" ++ protocol).

Definition deterministic_rule_id (src_ip dst_ip : string) (dst_port : Z) (protocol : string)
    : string :=
  "agent-" ++ py_take 10 (sha256_hex (rule_key src_ip dst_ip dst_port protocol)).

(** [PolicyIntent(...)]: the confidence bounds, then the model validator that
    fills an empty rule id. *)
Definition make_intent `{External} (i : PolicyIntent) : res PolicyIntent :=
  if Qle_bool 0 (pi_confidence i) && Qle_bool (pi_confidence i) 1 then
    Ok (if nonempty (pi_rule_id i) then i
        else mkIntent
               (deterministic_rule_id (pi_src_ip i) (pi_dst_ip i) (pi_dst_port i) (pi_protocol i))
               (pi_action i) (pi_src_ip i) (pi_dst_ip i) (pi_dst_port i) (pi_protocol i)
               (pi_priority i) (pi_ttl_seconds i) (pi_comment i) (pi_confidence i)
               (pi_reasoning i) (pi_notification i))
  else Raise (ValueError pyd_reason).

Inductive DecisionOutcome := ENFORCED | DRY_RUN | REJECTED | HELD | BENIGN | ERROR.
#[export] Instance DecisionOutcome_eq_dec : EqDecision DecisionOutcome.
Proof. solve_decision. Defined.

Definition outcome_value (o : DecisionOutcome) : string :=
  match o with
  | ENFORCED => "enforced" | DRY_RUN => "dry_run" | REJECTED => "rejected"
  | HELD => "held" | BENIGN => "benign" | ERROR => "error" end.

(** ** enforcement.py *)
Record EnforcementResult := mkResult {
  er_success : bool; er_rule_id : string; er_backend : string;
  er_response : list (string * pyval); er_error : string }.

(** ** Lemmas *)
Lemma PolicyAction_of_value a : PolicyAction_of (PStr (action_value a)) = Ok a.
Proof. by destruct a. Qed.

Lemma PolicyAction_of_ok v a : PolicyAction_of v = Ok a <-> v = PStr (action_value a).
Proof.
  split; [|intros ->; apply PolicyAction_of_value].
  destruct v; try done. unfold PolicyAction_of. destruct (find _ _) as [b|] eqn:E; [|done].
  intros; simplify_eq. apply find_some in E as [_ E%bool_decide_eq_true]. by rewrite E.
Qed.

Lemma PolicyAction_of_raise v e : PolicyAction_of v = Raise e -> exists m, e = ValueError m.
Proof. unfold PolicyAction_of. repeat case_match; intros; simplify_eq; eauto. Qed.

Lemma make_intent_ok `{External} i j : make_intent i = Ok j ->
  (0 <= pi_confidence i)%Q /\ (pi_confidence i <= 1)%Q /\
  pi_action j = pi_action i /\ pi_src_ip j = pi_src_ip i /\ pi_dst_ip j = pi_dst_ip i /\
  pi_ttl_seconds j = pi_ttl_seconds i /\ pi_confidence j = pi_confidence i.
Proof.
  unfold make_intent. destruct (Qle_bool 0 _) eqn:E1; [|done].
  destruct (Qle_bool _ 1) eqn:E2; [|done]. cbn.
  apply Qle_bool_iff in E1, E2. case_match; intros; simplify_eq; done.
Qed.

Lemma str_map_app f s t : str_map f (s ++ t) = str_map f s ++ str_map f t.
Proof.
  induction s as [|c s IH]; [done|].
  rewrite str_app_cons. cbn. rewrite IH. by rewrite str_app_cons.
Qed.

Lemma to_lower_idemp c : to_lower (to_lower c) = to_lower c.
Proof. destruct c as [[] [] [] [] [] [] [] []]; vm_compute; reflexivity. Qed.

Lemma py_lower_idemp s : py_lower (py_lower s) = py_lower s.
Proof. unfold py_lower. induction s as [|c s IH]; [done|]. cbn. by rewrite to_lower_idemp, IH. Qed.

(** ** Properties *)
(** The rule id is a function of the flow tuple up to letter case: two
    intents built without an id for tuples that differ only in case carry the
    same id, so that a repeated decision addresses the same rule. *)
Theorem rule_id_case_insensitive src dst port proto src' dst' proto' :
  py_lower src = py_lower src' -> py_lower dst = py_lower dst' -> py_lower proto = py_lower proto' ->
  deterministic_rule_id src dst port proto = deterministic_rule_id src' dst' port proto'.
Proof.
  intros Hs Hd Hp. unfold deterministic_rule_id, rule_key, py_lower in *.
  by rewrite !str_map_app, Hs, Hd, Hp.
Qed.

(** An instance to evaluate the definitions with. *)
Definition external0 : External := {|
  pyd_int v := int_of v;
  pyd_float v := match v with
                 | PFloat q => Ok q | PInt z => Ok (inject_Z z)
                 | _ => Raise (ValueError "Input should be a valid number") end;
  float_of_str s := Raise (ValueError "could not convert string to float");
  pyd_reason := "validation error" |}.

#[export] Instance external0_laws : @ExternalLaws external0.
Proof. by constructor. Qed.

Lemma rule_id_case_insensitive_witness :
  deterministic_rule_id "10.1.100.10/32" "" 22 "TCP" =
  deterministic_rule_id "10.1.100.10/32" "" 22 "tcp".
Proof. apply rule_id_case_insensitive; reflexivity. Defined.
