(* ===== verification/Safety.v ===== *)
(** * The stateless safety layers (intelligence-layer/src/agent/safety)

    guardrails.py (L4: the never-block whitelist and the allowed actions),
    validators.py (L1, L3, L4, L4b, L5 and L6 in [validate_intent]) and
    confidence.py (L7).  An error is a constructor that carries the values its
    message interpolates. *)
From S2P Require Import Prelude PyVal IpAddr Topology Policy Models.
Local Open Scope string_scope.
Local Open Scope Z_scope.

Inductive safety_error :=
  | L4_src (ip : string) | L4_dst (ip : string) | L4_action (action : string)
  | L4b_off_target (intent_src alert_src : string)
  | L3_zone (ip : string) | L3_conflict (c : conflict)
  | L6_action (sid severity : Z) (action : string) | L6_log_only (sid severity : Z)
  | L5_ttl (ttl ttl_min ttl_max : Z).

(** ** guardrails.py *)
Definition NEVER_BLOCK : list string := [
  "127.0.0.0/8"; "10.10.6.0/24"; "192.168.122.0/24";
  "10.1.100.1/32"; "10.1.200.1/32"; "10.2.100.1/32"; "10.2.50.1/32"].

Definition ALLOWED_AGENT_ACTIONS : list string := ["DROP"; "log_only"].

(** [[ipaddress.ip_network(cidr, strict=False) for cidr in NEVER_BLOCK]] *)
Definition NEVER_BLOCK_NETS : list ip_net :=
  omap (fun c => match ip_network c false with Ok n => Some n | Raise _ => None end) NEVER_BLOCK.

Definition is_protected_ip (ip : string) : bool :=
  match ip_address (bare_ip ip) with
  | Raise _ => false
  | Ok addr => existsb (in_net addr) NEVER_BLOCK_NETS
  end.

Definition check_never_block (src_ip dst_ip : string) : option safety_error :=
  if is_protected_ip src_ip then Some (L4_src src_ip)
  else if nonempty dst_ip && is_protected_ip dst_ip then Some (L4_dst dst_ip)
  else None.

Definition check_allowed_action (action : string) : option safety_error :=
  if bool_decide (action ∈ ALLOWED_AGENT_ACTIONS) then None else Some (L4_action action).

(** ** validators.py *)
Record severity_rule := SevRule { allowed_actions : list string; rule_ttl_min : Z; rule_ttl_max : Z }.

Definition SEVERITY_RULES : list (Z * severity_rule) := [
  (1, SevRule ["DROP"] 60 3600); (2, SevRule ["DROP"] 60 1800);
  (3, SevRule ["log_only"] 0 0); (4, SevRule ["log_only"] 0 0)].

Record ValidationResult := mkValidation { errors : list safety_error; warnings : list string }.

Definition vok (r : ValidationResult) : bool := match errors r with [] => true | _ => false end.

Definition ip_matches_alert_src (intent_src_ip alert_src_ip : string) : bool :=
  if nonempty alert_src_ip then
    match ip_address (py_strip alert_src_ip) with
    | Raise _ => false
    | Ok alert_addr =>
        match ip_network (py_strip intent_src_ip) false with
        | Raise _ => false
        | Ok intent_net => in_net alert_addr intent_net
        end
    end
  else false.

Definition opt_list {A} (o : option A) : list A := match o with Some x => [x] | None => [] end.

(** The checks before the short-circuit: L4 and L4b. *)
Definition l4_errors (intent : PolicyIntent) (alert_src_ip : string) : list safety_error :=
  opt_list (check_never_block (pi_src_ip intent) (pi_dst_ip intent)) ++
  opt_list (check_allowed_action (action_value (pi_action intent))) ++
  (if bool_decide (pi_action intent = DROP) && nonempty alert_src_ip &&
      negb (ip_matches_alert_src (pi_src_ip intent) alert_src_ip)
   then [L4b_off_target (pi_src_ip intent) alert_src_ip] else []).

Definition l3_errors (kb : catalogue) (intent : PolicyIntent) (sid : Z) : list safety_error :=
  (match ip_to_zone (pi_src_ip intent) with None => [L3_zone (pi_src_ip intent)] | Some _ => [] end) ++
  (if nonempty (pi_dst_ip intent) then
     L3_conflict <$> opt_list (detect_conflict kb (pi_src_ip intent) (pi_dst_ip intent)
                                 (action_value (pi_action intent)) (Some sid))
   else []).

Definition l6_errors (intent : PolicyIntent) (sid : Z) : list safety_error :=
  match get_sid_info sid with
  | None => []
  | Some info =>
      let sev := si_severity info in
      let allowed := default [] (allowed_actions <$> dict_get SEVERITY_RULES sev) in
      (if bool_decide (action_value (pi_action intent) ∈ allowed) then []
       else [L6_action sid sev (action_value (pi_action intent))]) ++
      (if (3 <=? sev) && bool_decide (pi_action intent = DROP) then [L6_log_only sid sev] else [])
  end.

Definition l5_errors (intent : PolicyIntent) (ttl_min ttl_max : Z) : list safety_error :=
  if bool_decide (pi_action intent = DROP) &&
     ((pi_ttl_seconds intent <? ttl_min) || (ttl_max <? pi_ttl_seconds intent))
  then [L5_ttl (pi_ttl_seconds intent) ttl_min ttl_max] else [].

Definition validate_intent (kb : catalogue) (intent : PolicyIntent) (sid ttl_min ttl_max : Z)
    (alert_src_ip : string) : ValidationResult :=
  let warns := if nonempty (pi_comment intent) && (py_len (pi_comment intent) <? 10)%nat
               then ["L1: comment is very short"] else [] in
  match l4_errors intent alert_src_ip with
  | [] => mkValidation (l3_errors kb intent sid ++ l6_errors intent sid ++
                        l5_errors intent ttl_min ttl_max) warns
  | errs => mkValidation errs warns
  end.

(** ** confidence.py *)
Inductive ConfidenceOutcome := C_ENFORCE | C_ENFORCE_AND_NOTIFY | C_HOLD | C_REJECT.
#[export] Instance ConfidenceOutcome_eq_dec : EqDecision ConfidenceOutcome.
Proof. solve_decision. Defined.

Definition evaluate_confidence (confidence auto_enforce notify hold : Q) : ConfidenceOutcome :=
  if Qle_bool auto_enforce confidence then C_ENFORCE
  else if Qle_bool notify confidence then C_ENFORCE_AND_NOTIFY
  else if Qle_bool hold confidence then C_HOLD
  else C_REJECT.

(** ** Lemmas *)
Lemma opt_list_nil {A} (o : option A) : opt_list o = [] <-> o = None.
Proof. by destruct o. Qed.

Lemma never_block_nets_eq : NEVER_BLOCK_NETS = [
  Net IPv4 2130706432 None 8; Net IPv4 168429056 None 24; Net IPv4 3232266752 None 24;
  Net IPv4 167863297 None 32; Net IPv4 167888897 None 32; Net IPv4 167928833 None 32;
  Net IPv4 167916033 None 32].
Proof. vm_compute. reflexivity. Qed.

Lemma never_block_nets_ok : Forall net_ok NEVER_BLOCK_NETS.
Proof.
  unfold NEVER_BLOCK_NETS. apply Forall_forall. intros n (c & _ & Hc)%list_elem_of_omap.
  case_match eqn:E; simplify_eq. eauto with cplane.
Qed.

Lemma check_never_block_None s d :
  check_never_block s d = None <-> is_protected_ip s = false /\ (d = "" \/ is_protected_ip d = false).
Proof.
  unfold check_never_block. destruct (is_protected_ip s); [naive_solver|].
  destruct d as [|c d]; [naive_solver|]. cbn.
  destruct (is_protected_ip (String c d)); naive_solver.
Qed.

Lemma check_allowed_action_None a :
  check_allowed_action (action_value a) = None <-> a = DROP \/ a = LOG_ONLY.
Proof. destruct a; vm_compute; naive_solver. Qed.

Lemma l4_errors_nil i alert_src :
  l4_errors i alert_src = [] <->
  is_protected_ip (pi_src_ip i) = false /\
  (pi_dst_ip i = "" \/ is_protected_ip (pi_dst_ip i) = false) /\
  (pi_action i = DROP \/ pi_action i = LOG_ONLY) /\
  (pi_action i = DROP -> alert_src = "" \/ ip_matches_alert_src (pi_src_ip i) alert_src = true).
Proof.
  unfold l4_errors. rewrite !app_nil, !opt_list_nil, check_never_block_None, check_allowed_action_None.
  destruct (ip_matches_alert_src (pi_src_ip i) alert_src) eqn:Em;
    case_bool_decide as Ha; destruct alert_src as [|c s]; cbn; try discriminate Em; naive_solver.
Qed.

Lemma l6_errors_nil i sid :
  l6_errors i sid = [] <->
  forall info, get_sid_info sid = Some info ->
    (si_severity info <= 2 /\ pi_action i = DROP) \/ (3 <= si_severity info /\ pi_action i = LOG_ONLY).
Proof.
  unfold l6_errors. destruct (get_sid_info sid) as [info|] eqn:E; [|naive_solver].
  assert (Hs : si_severity info ∈ [1; 2; 3; 4]).
  { unfold get_sid_info, SID_KNOWLEDGE in E. cbn [dict_get] in E.
    repeat case_decide; simplify_eq; cbn; set_solver. }
  transitivity ((si_severity info <= 2 /\ pi_action i = DROP) \/
    (3 <= si_severity info /\ pi_action i = LOG_ONLY)); [|naive_solver].
  rewrite !elem_of_cons in Hs.
  destruct Hs as [->|[->|[->|[->|Hs]]]]; [| | | |set_solver];
    destruct (pi_action i); vm_compute; split; intros H; try done;
    try (left; split; [discriminate|done]); try (right; split; [discriminate|done]);
    destruct H as [[H1 H2]|[H1 H2]]; try done; by destruct (H1 eq_refl).
Qed.

Lemma l5_errors_nil i lo hi :
  l5_errors i lo hi = [] <-> (pi_action i = DROP -> lo <= pi_ttl_seconds i <= hi).
Proof.
  unfold l5_errors. case_bool_decide as Hd; cbn; [|naive_solver].
  destruct (Z.ltb_spec (pi_ttl_seconds i) lo), (Z.ltb_spec hi (pi_ttl_seconds i)); cbn;
    (split; [intros He; try discriminate He; intros _; lia|]); intros He; try specialize (He Hd);
    done || lia.
Qed.

Lemma l3_errors_nil kb i sid :
  l3_errors kb i sid = [] <->
  (exists z, ip_to_zone (pi_src_ip i) = Some z) /\
  (pi_dst_ip i = "" \/
   detect_conflict kb (pi_src_ip i) (pi_dst_ip i) (action_value (pi_action i)) (Some sid) = None).
Proof.
  unfold l3_errors. rewrite app_nil.
  assert (H1 : match ip_to_zone (pi_src_ip i) with
               | Some _ => @nil safety_error | None => [L3_zone (pi_src_ip i)] end = [] <->
               exists z, ip_to_zone (pi_src_ip i) = Some z)
    by (destruct (ip_to_zone (pi_src_ip i)); naive_solver).
  rewrite H1. destruct (pi_dst_ip i) as [|c s]; cbn; [naive_solver|].
  destruct (detect_conflict _ _ _ _ _); cbn; naive_solver.
Qed.

(** What a validated intent satisfies, for the layers above. *)
Definition intent_safe (kb : catalogue) (i : PolicyIntent) (sid ttl_min ttl_max : Z)
    (alert_src : string) : Prop :=
  is_protected_ip (pi_src_ip i) = false /\
  (pi_dst_ip i = "" \/ is_protected_ip (pi_dst_ip i) = false) /\
  (exists z, ip_to_zone (pi_src_ip i) = Some z) /\
  (pi_dst_ip i = "" \/
   detect_conflict kb (pi_src_ip i) (pi_dst_ip i) (action_value (pi_action i)) (Some sid) = None) /\
  (forall info, get_sid_info sid = Some info ->
    (si_severity info <= 2 /\ pi_action i = DROP) \/ (3 <= si_severity info /\ pi_action i = LOG_ONLY)) /\
  ((pi_action i = DROP /\ ttl_min <= pi_ttl_seconds i <= ttl_max /\
    (alert_src = "" \/ ip_matches_alert_src (pi_src_ip i) alert_src = true)) \/
   pi_action i = LOG_ONLY).

Lemma validate_ok_safe kb i sid lo hi alert_src :
  vok (validate_intent kb i sid lo hi alert_src) = true <-> intent_safe kb i sid lo hi alert_src.
Proof.
  unfold vok, validate_intent, intent_safe.
  destruct (l4_errors i alert_src) as [|e l] eqn:E4; cbn.
  - apply l4_errors_nil in E4 as (H1 & H2 & H3 & H4).
    transitivity ((l3_errors kb i sid ++ l6_errors i sid ++ l5_errors i lo hi)%list = []).
    { by destruct (_ ++ _)%list. }
    rewrite !app_nil, l3_errors_nil, l6_errors_nil, l5_errors_nil.
    destruct H3 as [H3|H3]; rewrite H3 in *; [specialize (H4 eq_refl)|];
      (split; [intros ((? & ?) & ? & Ht)|intros (_ & _ & ? & ? & ? & Hd)];
       split_and!; try done; try (intros; discriminate)).
    + left. auto.
    + intros _. by destruct Hd as [(_ & ? & _)|?].
    + by right.
  - split; [done|]. intros (H1 & H2 & _ & _ & _ & H3). exfalso.
    assert (Hn : l4_errors i alert_src = []).
    { apply l4_errors_nil. split_and!; [done|done|..];
        destruct H3 as [(-> & _ & ?)| ->]; auto; discriminate. }
    congruence.
Qed.

Lemma in_net_ext a b n : a_ver a = a_ver b -> a_int a = a_int b -> in_net a n = in_net b n.
Proof. intros Hv Hi. unfold in_net. by rewrite Hv, Hi. Qed.

Lemma protected_false s a m : is_protected_ip s = false -> ip_address (bare_ip s) = Ok a ->
  m ∈ NEVER_BLOCK_NETS -> in_net a m = false.
Proof.
  unfold is_protected_ip. intros H Ha Hm. rewrite Ha in H.
  apply not_true_is_false. intros Ht. apply not_true_iff_false in H. apply H.
  apply existsb_exists. exists m. split; [by apply list_elem_of_In|done].
Qed.

(** ** Properties *)
(** C36: [validate_intent] accepts exactly the intents that every layer allows:
    neither bare address is whitelisted, the source is in a known zone, the
    zone pair gives no conflict, a catalogued SID of severity 1 or 2 goes with
    DROP and one of severity 3 or 4 with log_only, and the action is log_only,
    or DROP with the TTL in range and a source network that holds the alert's
    source (when the alert names one).  Reasoning steps are no condition: they are written
    after the validation, as the comment in validators.py says, and the repository's test
    [test_l1_empty_reasoning_rejected], which expects an intent without them to be
    rejected, does not describe this code. *)
Theorem validate_intent_accepts kb i sid lo hi alert_src :
  vok (validate_intent kb i sid lo hi alert_src) = true <->
  is_protected_ip (pi_src_ip i) = false /\
  (pi_dst_ip i = "" \/ is_protected_ip (pi_dst_ip i) = false) /\
  (exists z, ip_to_zone (pi_src_ip i) = Some z) /\
  (pi_dst_ip i = "" \/
   detect_conflict kb (pi_src_ip i) (pi_dst_ip i) (action_value (pi_action i)) (Some sid) = None) /\
  (forall info, get_sid_info sid = Some info ->
    (si_severity info <= 2 /\ pi_action i = DROP) \/ (3 <= si_severity info /\ pi_action i = LOG_ONLY)) /\
  ((pi_action i = DROP /\ lo <= pi_ttl_seconds i <= hi /\
    (alert_src = "" \/ ip_matches_alert_src (pi_src_ip i) alert_src = true)) \/
   pi_action i = LOG_ONLY).
Proof. apply validate_ok_safe. Qed.

(** When a validated intent's source is a single host (no prefix, or a full
    one), the rule's network holds no address of a never-block range. *)
Theorem host_rule_spares_whitelist kb i sid lo hi alert_src n a m :
  vok (validate_intent kb i sid lo hi alert_src) = true ->
  ip_network (pi_src_ip i) false = Ok n -> n_plen n = max_prefixlen (n_ver n) ->
  addr_ok a -> in_net a n = true -> m ∈ NEVER_BLOCK_NETS -> in_net a m = false.
Proof.
  intros (Hs & _)%validate_ok_safe Hn Hp Ha Hin Hm.
  destruct (ip_network_addr _ _ _ Hn) as (b & Hb & _).
  destruct (host_net_unique _ _ _ _ _ Hn Hp Hb Ha Hin) as [Hv Hi].
  rewrite (in_net_ext a b) by done. by eapply protected_false.
Qed.

Definition sample_intent (src dst : string) : PolicyIntent :=
  mkIntent "agent-0" DROP src dst 0 "tcp" 50 600 "" 1 [] (mkNotification "" "" INFO).

Lemma host_rule_spares_whitelist_witness :
  in_net (Addr IPv4 167863306 None) (Net IPv4 2130706432 None 8) = false.
Proof.
  apply (host_rule_spares_whitelist catalogue0 (sample_intent "10.1.100.10/32" "") 9000001 60 3600
           "10.1.100.10" (Net IPv4 167863306 None 32)).
  - vm_compute. reflexivity.
  - vm_compute. reflexivity.
  - reflexivity.
  - vm_compute. split; [discriminate|reflexivity].
  - vm_compute. reflexivity.
  - vm_compute. left.
Defined.

(** The bare address alone is checked: a prefix that covers gateways, the
    control plane and the loopback network passes every layer. *)
Lemma wide_prefix_passes :
  let i := sample_intent "10.1.100.10/0" "" in
  vok (validate_intent catalogue0 i 9000001 60 3600 "10.1.100.10") = true /\
  exists n, ip_network (pi_src_ip i) false = Ok n /\
    forall m, m ∈ NEVER_BLOCK_NETS -> subnet_of m n = Ok true.
Proof.
  split; [vm_compute; reflexivity|]. exists (Net IPv4 0 None 0). split; [vm_compute; reflexivity|].
  intros m Hm. rewrite never_block_nets_eq in Hm.
  repeat (apply elem_of_cons in Hm as [->|Hm]; [vm_compute; reflexivity|]). set_solver.
Qed.

(** Two hosts of the authored never-block list are not in the enforced one. *)
Lemma authored_whitelist_not_enforced :
  "10.2.50.10/32" ∈ NEVER_BLOCK_CIDRS catalogue0 /\ check_never_block "10.2.50.10/32" "" = None /\
  vok (validate_intent catalogue0 (sample_intent "10.2.50.10/32" "") 9000035 60 3600 "10.2.50.10") = true.
Proof. split_and!; vm_compute; [|reflexivity..]. do 7 right. left. Qed.

Definition confidence_rank (o : ConfidenceOutcome) : Z :=
  match o with C_REJECT => 0 | C_HOLD => 1 | C_ENFORCE_AND_NOTIFY => 2 | C_ENFORCE => 3 end.


(** The confidence gate is monotone: for ordered thresholds a higher score
    never gets a stricter outcome, and enforcement (with or without
    notification) requires the score to reach the notify threshold. *)
Theorem confidence_monotone a nt h c1 c2 :
  (h <= nt)%Q -> (nt <= a)%Q -> (c1 <= c2)%Q ->
  confidence_rank (evaluate_confidence c1 a nt h) <= confidence_rank (evaluate_confidence c2 a nt h) /\
  (2 <= confidence_rank (evaluate_confidence c2 a nt h) <-> (nt <= c2)%Q).
Proof.
  intros Hh Ha Hc. unfold evaluate_confidence.
  pose proof (Qle_bool_iff a c1). pose proof (Qle_bool_iff nt c1). pose proof (Qle_bool_iff h c1).
  pose proof (Qle_bool_iff a c2). pose proof (Qle_bool_iff nt c2). pose proof (Qle_bool_iff h c2).
  destruct (Qle_bool a c1), (Qle_bool nt c1), (Qle_bool h c1), (Qle_bool a c2), (Qle_bool nt c2),
    (Qle_bool h c2); cbn; intuition (try discriminate; try lia; try (exfalso; lra)).
Qed.

Lemma confidence_monotone_witness :
  confidence_rank (evaluate_confidence (3#4) (85#100) (7#10) (1#2)) <=
    confidence_rank (evaluate_confidence (9#10) (85#100) (7#10) (1#2)) /\
  (2 <= confidence_rank (evaluate_confidence (9#10) (85#100) (7#10) (1#2)) <-> (7#10 <= 9#10)%Q).
Proof. apply (confidence_monotone (85#100) (7#10) (1#2) (3#4) (9#10)); vm_compute; discriminate. Defined.
