(* ===== verification/Knowledge.v ===== *)
(** * The catalogue of the datacenter (core/system_model.py, baselines.py, threat_playbook.py, enforcement_plane.py)

    The pydantic models of the knowledge base with their validation, the lookups on
    them, and the projection to the [Policy.catalogue] that the agent decides with.
    What pydantic makes of a value is the parameter [External] of Models.v; [pyd_bool]
    is its coercion to [bool]. *)
From S2P Require Import Prelude PyVal Models Topology Policy.
Local Open Scope string_scope.
Local Open Scope Z_scope.
Local Open Scope list_scope.

(** ** Enumerations *)
Section Enum.
Context `{External} {A : Type} (members : list A) (value : A -> string).
(** [E(v)] *)
Definition enum_of (v : pyval) : res A :=
  match v with
  | PStr s => match find (fun a => bool_decide (value a = s)) members with Some a => Ok a | None => Raise (ValueError pyd_reason) end
  | _ => Raise (ValueError pyd_reason)
  end.
End Enum.

Inductive Criticality := CRITICAL | HIGH | MEDIUM | LOW.
Definition criticality_value (c : Criticality) : string :=
  match c with CRITICAL => "critical" | HIGH => "high" | MEDIUM => "medium" | LOW => "low" end.
Definition criticalities : list Criticality := [CRITICAL; HIGH; MEDIUM; LOW].
Inductive DataClassification := PUBLIC | INTERNAL | CONFIDENTIAL | RESTRICTED.
Definition data_value (c : DataClassification) : string :=
  match c with PUBLIC => "public" | INTERNAL => "internal" | CONFIDENTIAL => "confidential" | RESTRICTED => "restricted" end.
Definition data_classifications : list DataClassification := [PUBLIC; INTERNAL; CONFIDENTIAL; RESTRICTED].
Inductive TrustLevel := UNTRUSTED | TRUSTED_INTERNAL | CROWN_JEWEL | PRIVILEGED.
Definition trust_value (t : TrustLevel) : string :=
  match t with
  | UNTRUSTED => "untrusted" | TRUSTED_INTERNAL => "trusted-internal" | CROWN_JEWEL => "crown-jewel" | PRIVILEGED => "privileged"
  end.
Definition trust_levels : list TrustLevel := [UNTRUSTED; TRUSTED_INTERNAL; CROWN_JEWEL; PRIVILEGED].
Inductive FlowCriticality := FCritical | FHigh | FMedium | FLow.
Definition flow_value (c : FlowCriticality) : string :=
  match c with FCritical => "critical" | FHigh => "high" | FMedium => "medium" | FLow => "low" end.
Definition flow_criticalities : list FlowCriticality := [FCritical; FHigh; FMedium; FLow].

(** ** Models *)
Record Service := mkService { sv_port : Z; sv_proto : string; sv_name : string; sv_facing : string; sv_purpose : string }.
Record Zone := mkZone {
  zn_name : string; zn_cidr : string; zn_leaf : string; zn_vlan : Z; zn_svi_gateway : string; zn_purpose : string;
  zn_trust_level : TrustLevel; zn_criticality : Criticality }.
Record Asset := mkAsset {
  as_ip : string; as_hostname : string; as_zone : string; as_tier : string; as_role : string; as_criticality : Criticality;
  as_data_classification : DataClassification; as_services : list Service; as_expected_inbound_sources : list string;
  as_expected_outbound_destinations : list string; as_if_compromised_impact : string; as_if_blocked_impact : string;
  as_owner_team : string }.
Record Leaf := mkLeaf { lf_name : string; lf_mgmt_ip : string; lf_zones : list string; lf_role : string }.
Record TrafficPattern := mkPattern {
  pt_flow :> traffic_pattern; pt_cadence : string; pt_expected_volume_per_hour : Z; pt_burst_anomaly_threshold : string;
  pt_production_description : string; pt_criticality_to_business : FlowCriticality; pt_if_disrupted : string }.
Record SidDetection := mkSid {
  dt_detection :> sid_detection; dt_signature_msg : string; dt_production_description : string; dt_mitre_tactic : string;
  dt_mitre_technique : string; dt_detection_logic : string; dt_uses_flags_s_workaround : bool; dt_default_ttl_seconds : Z;
  dt_false_positive_likelihood : string; dt_false_positive_scenarios : list string }.
Record KillChainStage := mkStage {
  st_stage :> kill_chain_stage; st_tactic : string; st_production_indicators : string; st_false_positive_sources : list string }.
Record KillChain := mkChain {
  ch_name : string; ch_production_description : string; ch_stages : list KillChainStage; ch_typical_dwell : string;
  ch_intervention_point : string; ch_containment_strategy : string }.
Record FailureMode := mkFailure {
  fm_name : string; fm_trigger : string; fm_rest_status : string; fm_body_signature : string; fm_state : string;
  fm_agent_action : string }.

(** A flow signature with the response to it (core/threat_patterns.py). *)
Record ThreatPattern := mkThreat {
  tt_id : string; tt_threat_class : string; tt_flow_signature : obj; tt_description : string; tt_severity : option string;
  tt_severity_inference : option (list string); tt_severity_progression : option (list pyval); tt_mitre_tactic : string;
  tt_mitre_technique : option string; tt_recommended_action : pyval; tt_recommended_scope : option string;
  tt_recommended_ttl_seconds : pyval; tt_confidence_baseline : pyval; tt_requires_corroboration : option pyval;
  tt_false_positive_scenarios : option (list string); tt_ref_yatesbury : option string; tt_ref_lab_scenario : option string;
  tt_note : option string }.
(** core/severity_scoring.py and core/flow_features.py *)
Record SeverityRubric := mkRubric {
  rb_signal_table : obj; rb_severity_mapping : list obj; rb_action_rules : list obj; rb_confidence_calibration : obj;
  rb_hard_overrides : list obj }.
Record FlowFeatureSet := mkFeatures {
  ff_features_per_ip_pair : list obj; ff_detection_window : obj; ff_unseen_port_policy : list obj;
  ff_aggregation_tradeoff : obj; ff_feature_to_pattern_map : obj }.

(** *** The values the modules publish
    What the authored files hold of them unchecked stays a value: the keys and entries of
    the policy matrix, the keys of the SIDs, the enforcement plane, the invariants. *)
Record baselines := Baselines {
  b_patterns : list TrafficPattern; b_anomalous_patterns : list pyval; b_steady_state : Z; b_audit_rate : Z }.
Record enforcement := EnforcementPlane {
  e_endpoint_contracts : list (pyval * pyval); e_field_name_mapping : list pyval; e_critical_gotchas : list pyval;
  e_failure_modes : list pyval; e_rbac_contract : pyval }.
Record invariants := Invariants {
  i_never_block_cidrs : list pyval; i_never_block_rationale : list (pyval * pyval); i_allowed_agent_actions : list pyval;
  i_protected_comment_prefixes : list pyval; i_agent_comment_prefix : pyval }.
Record knowledge := Knowledge {
  k_zones : list (string * Zone); k_assets : list (string * Asset); k_leafs : list (string * Leaf); k_baselines : baselines;
  k_policy_matrix : list ((pyval * pyval) * pyval); k_sids : list (pyval * SidDetection); k_kill_chains : list KillChain;
  k_enforcement : enforcement; k_invariants : invariants }.

(** The elements of a [frozenset], in the order they come first: equal keys are one element. *)
Fixpoint distinct_values (seen : list hkey) (l : list pyval) : res (list pyval) :=
  match l with
  | [] => Ok []
  | v :: l =>
      let* k := key_of v in
      if bool_decide (k ∈ seen) then distinct_values seen l
      else let* rest := distinct_values (k :: seen) l in Ok (v :: rest)
  end.
(** [frozenset(v)] *)
Definition frozenset (v : pyval) : res (list pyval) := let* l := py_iter v in distinct_values [] l.

(** What the policy and the validators read of it: a key or a value of another type never
    equals the texts and numbers they look for. *)
Definition text_of (v : pyval) : option string := match v with PStr s => Some s | _ => None end.
Definition policy_entry (e : (pyval * pyval) * pyval) : option ((string * string) * string) :=
  match e with ((PStr s, PStr d), PStr v) => Some ((s, d), v) | _ => None end.
Definition sid_entry (e : pyval * SidDetection) : option (Z * sid_detection) :=
  match e.1 with PInt n => Some (n, dt_detection e.2) | _ => None end.
Definition catalogue_of (k : knowledge) : catalogue := {|
  POLICY_MATRIX := omap policy_entry (k_policy_matrix k);
  SID_DETECTIONS := omap sid_entry (k_sids k);
  KILL_CHAINS := map (fun c => Policy.KillChain (ch_name c) (map st_stage (ch_stages c))) (k_kill_chains k);
  ALL_BASELINES := map pt_flow (b_patterns (k_baselines k));
  NEVER_BLOCK_CIDRS := omap text_of (i_never_block_cidrs (k_invariants k)) |}.

(** [get_asset], [get_zone] *)
Definition get_asset (k : knowledge) (ip_or_cidr : string) : option Asset := dict_get (k_assets k) (bare_ip ip_or_cidr).
Definition get_zone (k : knowledge) (zone_name : string) : option Zone := dict_get (k_zones k) zone_name.
(** [baselines.match_baseline] with its pattern in full *)
Definition find_baseline (k : knowledge) (src_ip dst_ip : string) (dst_port : Z) (proto : string) : option TrafficPattern :=
  let bare_src := bare_ip src_ip in
  let bare_dst := bare_ip dst_ip in
  find (fun p : TrafficPattern =>
    bool_decide (tp_proto p = proto) && bool_decide (tp_dst_port p = dst_port) &&
    bool_decide (tp_src_ip p = bare_src) && bool_decide (tp_dst_ip p ∈ ["rotating"; bare_dst])) (b_patterns (k_baselines k)).

Lemma find_baseline_match k s d p pr :
  match_baseline (catalogue_of k) s d p pr = option_map pt_flow (find_baseline k s d p pr).
Proof.
  unfold match_baseline, find_baseline. cbn [ALL_BASELINES catalogue_of]. induction (b_patterns (k_baselines k)) as [|q l IH]; [done|].
  cbn [map find]. by destruct (_ && _ && _ && _).
Qed.

(** ** Validation: what [Zone] and its likes make of keyword arguments *)
Class PydBool := pyd_bool : pyval -> res bool.
Section Validation.
Context `{External} `{PydBool}.

(** A required field; a missing one is a validation error. *)
Definition field {A} (d : obj) (k : string) (conv : pyval -> res A) : res A :=
  match dict_get d k with Some v => conv v | None => Raise (ValueError pyd_reason) end.
Definition pyd_list {A} (conv : pyval -> res A) (v : pyval) : res (list A) :=
  match v with PList l => mapM_res conv l | _ => Raise (ValueError pyd_reason) end.
Definition pyd_strs : pyval -> res (list string) := pyd_list pyd_str.
(** A nested model. *)
Definition pyd_model {A} (conv : obj -> res A) (v : pyval) : res A :=
  match v with PDict d => conv d | _ => Raise (ValueError pyd_reason) end.

Definition Service_of (d : obj) : res Service :=
  let* port := field d "port" pyd_int in
  let* proto := field d "proto" pyd_str in
  let* name := field d "name" pyd_str in
  let* facing := field d "facing" pyd_str in
  let* purpose := field d "purpose" pyd_str in
  Ok (mkService port proto name facing purpose).
Definition Zone_of (d : obj) : res Zone :=
  let* name := field d "name" pyd_str in
  let* cidr := field d "cidr" pyd_str in
  let* leaf := field d "leaf" pyd_str in
  let* vlan := field d "vlan" pyd_int in
  let* svi := field d "svi_gateway" pyd_str in
  let* purpose := field d "purpose" pyd_str in
  let* trust := field d "trust_level" (enum_of trust_levels trust_value) in
  let* crit := field d "criticality" (enum_of criticalities criticality_value) in
  Ok (mkZone name cidr leaf vlan svi purpose trust crit).
Definition Asset_of (d : obj) : res Asset :=
  let* ip := field d "ip" pyd_str in
  let* hostname := field d "hostname" pyd_str in
  let* zone := field d "zone" pyd_str in
  let* tier := field d "tier" pyd_str in
  let* role := field d "role" pyd_str in
  let* crit := field d "criticality" (enum_of criticalities criticality_value) in
  let* data := field d "data_classification" (enum_of data_classifications data_value) in
  let* services := field d "services" (pyd_list (pyd_model Service_of)) in
  let* inbound := field d "expected_inbound_sources" pyd_strs in
  let* outbound := field d "expected_outbound_destinations" pyd_strs in
  let* compromised := field d "if_compromised_impact" pyd_str in
  let* blocked := field d "if_blocked_impact" pyd_str in
  let* owner := field d "owner_team" pyd_str in
  Ok (mkAsset ip hostname zone tier role crit data services inbound outbound compromised blocked owner).
Definition Leaf_of (d : obj) : res Leaf :=
  let* name := field d "name" pyd_str in
  let* ip := field d "mgmt_ip" pyd_str in
  let* zones := field d "zones" pyd_strs in
  let* role := field d "role" pyd_str in
  Ok (mkLeaf name ip zones role).
Definition TrafficPattern_of (d : obj) : res TrafficPattern :=
  let* name := field d "name" pyd_str in
  let* src_zone := field d "src_zone" pyd_str in
  let* src_ip := field d "src_ip" pyd_str in
  let* dst_zone := field d "dst_zone" pyd_str in
  let* dst_ip := field d "dst_ip" pyd_str in
  let* dst_port := field d "dst_port" pyd_int in
  let* proto := field d "proto" pyd_str in
  let* cadence := field d "cadence" pyd_str in
  let* volume := field d "expected_volume_per_hour" pyd_int in
  let* burst := field d "burst_anomaly_threshold" pyd_str in
  let* description := field d "production_description" pyd_str in
  let* crit := field d "criticality_to_business" (enum_of flow_criticalities flow_value) in
  let* disrupted := field d "if_disrupted" pyd_str in
  Ok (mkPattern (Pattern name src_zone src_ip dst_zone dst_ip dst_port proto) cadence volume burst description crit disrupted).
Definition SidDetection_of (d : obj) : res SidDetection :=
  let* sid := field d "sid" pyd_int in
  let* level := field d "severity_p_level" pyd_int in
  let* msg := field d "signature_msg" pyd_str in
  let* description := field d "production_description" pyd_str in
  let* tactic := field d "mitre_tactic" pyd_str in
  let* technique := field d "mitre_technique" pyd_str in
  let* logic := field d "detection_logic" pyd_str in
  let* flags := field d "uses_flags_s_workaround" pyd_bool in
  let* response := field d "recommended_response" pyd_str in
  let* ttl := field d "default_ttl_seconds" pyd_int in
  let* likelihood := field d "false_positive_likelihood" pyd_str in
  let* scenarios := field d "false_positive_scenarios" pyd_strs in
  Ok (mkSid (Policy.SidDetection sid level response) msg description tactic technique logic flags ttl likelihood scenarios).
Definition KillChainStage_of (d : obj) : res KillChainStage :=
  let* stage := field d "stage" pyd_int in
  let* tactic := field d "tactic" pyd_str in
  let* signals := field d "expected_signals" (pyd_list pyd_int) in
  let* indicators := field d "production_indicators" pyd_str in
  let* sources := field d "false_positive_sources" pyd_strs in
  Ok (mkStage (Stage stage signals) tactic indicators sources).
Definition KillChain_of (d : obj) : res KillChain :=
  let* name := field d "name" pyd_str in
  let* description := field d "production_description" pyd_str in
  let* stages := field d "stages" (pyd_list (pyd_model KillChainStage_of)) in
  let* dwell := field d "typical_dwell_between_stages" pyd_str in
  let* point := field d "recommended_intervention_point" pyd_str in
  let* strategy := field d "containment_strategy" pyd_str in
  Ok (mkChain name description stages dwell point strategy).
Definition FailureMode_of (d : obj) : res FailureMode :=
  let* name := field d "name" pyd_str in
  let* trigger := field d "trigger" pyd_str in
  let* status := field d "rest_status" pyd_str in
  let* body := field d "body_signature" pyd_str in
  let* state := field d "state" pyd_str in
  let* action := field d "agent_action" pyd_str in
  Ok (mkFailure name trigger status body state action).

(** A field with the default [None]. *)
Definition opt_field {A} (d : obj) (k : string) (conv : pyval -> res A) : res (option A) :=
  match dict_get d k with
  | None | Some PNone => Ok None
  | Some v => let* a := conv v in Ok (Some a)
  end.
Definition pyd_any (v : pyval) : res pyval := Ok v.
Definition ThreatPattern_of (d : obj) : res ThreatPattern :=
  let* id := field d "id" pyd_str in
  let* cls := field d "threat_class" pyd_str in
  let* signature := field d "flow_signature" pyd_dict in
  let* description := field d "description" pyd_str in
  let* severity := opt_field d "severity" pyd_str in
  let* inference := opt_field d "severity_inference" pyd_strs in
  let* progression := opt_field d "severity_progression" (pyd_list pyd_any) in
  let* tactic := field d "mitre_tactic" pyd_str in
  let* technique := opt_field d "mitre_technique" pyd_str in
  let* action := field d "recommended_action" pyd_any in
  let* scope := opt_field d "recommended_scope" pyd_str in
  let* corroboration := opt_field d "requires_corroboration" pyd_any in
  let* scenarios := opt_field d "false_positive_scenarios" pyd_strs in
  let* yatesbury := opt_field d "ref_yatesbury" pyd_str in
  let* lab := opt_field d "ref_lab_scenario" pyd_str in
  let* note := opt_field d "note" pyd_str in
  Ok (mkThreat id cls signature description severity inference progression tactic technique action scope
    (jget_or d "recommended_ttl_seconds" (PInt 0)) (jget_or d "confidence_baseline" (PFloat 0)) corroboration scenarios
    yatesbury lab note).
Definition SeverityRubric_of (d : obj) : res SeverityRubric :=
  let* table := field d "signal_table" pyd_dict in
  let* mapping := field d "severity_mapping" (pyd_list pyd_dict) in
  let* rules := field d "action_rules" (pyd_list pyd_dict) in
  let* calibration := field d "confidence_calibration" pyd_dict in
  let* overrides := field d "hard_overrides" (pyd_list pyd_dict) in
  Ok (mkRubric table mapping rules calibration overrides).
Definition FlowFeatureSet_of (d : obj) : res FlowFeatureSet :=
  let* features := field d "features_per_ip_pair" (pyd_list pyd_dict) in
  let* window := field d "detection_window" pyd_dict in
  let* policy := field d "unseen_port_policy" (pyd_list pyd_dict) in
  let* tradeoff := field d "aggregation_tradeoff" pyd_dict in
  let* mapping := field d "feature_to_pattern_map" pyd_dict in
  Ok (mkFeatures features window policy tradeoff mapping).
End Validation.
