(* ===== verification/KnowledgeParser.v ===== *)
(** * The authored knowledge (core/knowledge_parser.py)

    From the Markdown files of knowledge/infra to the catalogue: the fenced blocks of a
    text, and one parser for each file.  The file system and the YAML parser are
    parameters; a mapping of YAML is a [PDict]. *)
From S2P Require Import Prelude PyVal Models Policy Regex Knowledge.
Local Open Scope string_scope.
Local Open Scope Z_scope.
Local Open Scope list_scope.

(** ** [_YAML_BLOCK]: [^```yaml\s*\n(.*?)^```\s*$] with MULTILINE and DOTALL *)
Definition FENCE_OPEN : re := seqs [RBol; exact "```yaml"; spaces; RChar (Z.eqb 10)].
Definition FENCE_BODY : re := RStar false (RChar (fun _ => true)).
Definition FENCE_CLOSE : re := seqs [RBol; exact "```"; spaces; REol].

Section Blocks.
Context `{UnicodeData}.
(** The ways to match at a position: where the body begins and ends, and where the match ends. *)
Definition fences (p : pos) : list (pos * pos * pos) :=
  flat_map (fun q1 => flat_map (fun q2 => map (fun q3 => (q1, q2, q3)) (ms FENCE_CLOSE q2)) (ms FENCE_BODY q1)) (ms FENCE_OPEN p).
(** [[m.group(1) for m in _YAML_BLOCK.finditer(text)]] *)
Fixpoint blocks_from (skip : nat) (b : option Z) (t : list Z) : list (list Z) :=
  match t with
  | [] => []
  | c :: t' =>
      match skip with
      | S k => blocks_from k (Some c) t'
      | O =>
          match head (fences (b, t)) with
          | Some (q1, q2, q3) => group0 (q1, q2) :: blocks_from (pred (length t - length q3.2)) (Some c) t'
          | None => blocks_from 0 (Some c) t'
          end
      end
  end.
Definition block_texts (t : list Z) : list (list Z) := blocks_from 0 None t.
End Blocks.

(** ** The parsers *)
Section Parsers.
Context `{UnicodeData} `{External} `{PydBool} (read_text : string -> option string) (yaml : string -> res pyval).

Definition yaml_blocks (file : string) : res (list pyval) :=
  match read_text file with
  | None => Raise (OtherError "FileNotFoundError")
  | Some text => mapM_res (fun b => yaml (of_points b)) (block_texts (points text))
  end.

(** [C( **b )]: the keyword arguments of a mapping. *)
Definition kwargs {A} (conv : obj -> res A) (b : pyval) : res A :=
  match b with PDict d => conv d | _ => Raise (TypeError "argument after ** must be a mapping") end.

(** [{b[k]: conv( **b ) for b in blocks}]; a list or mapping cannot be a key. *)
Fixpoint dict_of {K A} `{EqDecision K} (key : pyval -> res K) (hash : K -> res hkey) (conv : obj -> res A)
    (blocks : list pyval) (d : list (K * A)) : res (list (K * A)) :=
  match blocks with
  | [] => Ok d
  | b :: rest =>
      let* k := key b in
      let* a := kwargs conv b in
      let* _ := hash k in
      dict_of key hash conv rest (dict_set d k a)
  end.
(** A key that the model takes as a [str] field too, so it is a text when the model accepts it. *)
Definition text_key (k : string) (b : pyval) : res string :=
  let* v := index_key b k in
  match v with PStr s => Ok s | _ => Raise (ValueError pyd_reason) end.
Definition text_hash (s : string) : res hkey := Ok (HStr s).

Definition parse_zones : res (list (string * Zone)) :=
  let* bs := yaml_blocks "zones.md" in dict_of (text_key "name") text_hash Zone_of bs [].
Definition parse_assets : res (list (string * Asset)) :=
  let* bs := yaml_blocks "assets.md" in dict_of (text_key "ip") text_hash Asset_of bs [].
Definition parse_leafs : res (list (string * Leaf)) :=
  let* bs := yaml_blocks "leafs.md" in dict_of (text_key "name") text_hash Leaf_of bs [].

Definition has_key (k : string) (d : obj) : bool := dict_mem d k.

Fixpoint scan_baselines (bs : list pyval) (constants anomalous : option obj) (patterns : list TrafficPattern)
    : res (option obj * option obj * list TrafficPattern) :=
  match bs with
  | [] => Ok (constants, anomalous, patterns)
  | PDict d :: rest =>
      if has_key "steady_state_flows_per_minute" d then scan_baselines rest (Some d) anomalous patterns
      else if has_key "anomalous_patterns" d then scan_baselines rest constants (Some d) patterns
      else if has_key "name" d && has_key "src_ip" d then
        let* p := TrafficPattern_of d in scan_baselines rest constants anomalous (patterns ++ [p])
      else scan_baselines rest constants anomalous patterns
  | _ :: rest => scan_baselines rest constants anomalous patterns
  end.
Definition parse_baselines : res baselines :=
  let* bs := yaml_blocks "baselines.md" in
  let* '(constants, anomalous, patterns) := scan_baselines bs None None [] in
  match constants, anomalous with
  | None, _ => Raise (ValueError "baselines.md missing constants block")
  | _, None => Raise (ValueError "baselines.md missing anomalous_patterns block")
  | Some c, Some a =>
      let* listed := index_key (PDict a) "anomalous_patterns" in
      let* listed := py_iter listed in
      let* steady := index_key (PDict c) "steady_state_flows_per_minute" in
      let* steady := int_of steady in
      let* rate := index_key (PDict c) "mgt_audit_alert_rate_per_minute" in
      let* rate := int_of rate in
      Ok (Baselines patterns listed steady rate)
  end.

Fixpoint policy_rows (rows : list pyval) (out : list ((pyval * pyval) * pyval)) : res (list ((pyval * pyval) * pyval)) :=
  match rows with
  | [] => Ok out
  | row :: rest =>
      let* verdict := index_key row "verdict" in
      let* s := index_key row "src_zone" in
      let* d := index_key row "dst_zone" in
      let* _ := key_of s in
      let* _ := key_of d in
      policy_rows rest (dict_set out (s, d) verdict)
  end.
Fixpoint policy_block (bs : list pyval) : res (list ((pyval * pyval) * pyval)) :=
  match bs with
  | [] => Raise (ValueError "policy-matrix.md has no policy_matrix block")
  | PDict d :: rest =>
      match dict_get d "policy_matrix" with
      | Some rows => let* rows := py_iter rows in policy_rows rows []
      | None => policy_block rest
      end
  | _ :: rest => policy_block rest
  end.
Definition parse_policy_matrix : res (list ((pyval * pyval) * pyval)) :=
  let* bs := yaml_blocks "policy-matrix.md" in policy_block bs.

Definition parse_sids : res (list (pyval * SidDetection)) :=
  let* bs := yaml_blocks "sids.md" in dict_of (fun b => index_key b "sid") key_of SidDetection_of bs [].
Definition parse_kill_chains : res (list KillChain) :=
  let* bs := yaml_blocks "kill-chains.md" in mapM_res (kwargs KillChain_of) bs.

(** [out.update(b)] for every block that is a mapping *)
Definition merged (bs : list pyval) : obj :=
  foldl (fun out b => match b with PDict d => foldl (fun o kv => dict_set o kv.1 kv.2) out d | _ => out end) [] bs.

Fixpoint contracts (rows : list pyval) (out : list (pyval * pyval)) : res (list (pyval * pyval)) :=
  match rows with
  | [] => Ok out
  | row :: rest =>
      let* ep := index_key row "endpoint" in
      let* d := index_key row "description" in
      let* _ := key_of ep in
      contracts rest (dict_set out ep d)
  end.
Definition PLANE_KEYS : list string :=
  ["endpoint_contracts"; "field_name_mapping"; "critical_gotchas"; "failure_modes"; "rbac_contract"].
(** The module's [list(...)] and [FailureMode( **fm )] of the parts are applied on import. *)
Definition parse_enforcement_plane : res enforcement :=
  let* bs := yaml_blocks "enforcement-plane.md" in
  let out := merged bs in
  if negb (forallb (fun k => has_key k out) PLANE_KEYS) then Raise (ValueError "enforcement-plane.md missing blocks") else
  let* rows := py_iter (jget out "endpoint_contracts") in
  let* ec := contracts rows [] in
  let* mapping := py_iter (jget out "field_name_mapping") in
  let* gotchas := py_iter (jget out "critical_gotchas") in
  let* failures := py_iter (jget out "failure_modes") in
  Ok (EnforcementPlane ec mapping gotchas failures (jget out "rbac_contract")).

Fixpoint never_block (rows : list pyval) (cidrs : list pyval) (rationale : list (pyval * pyval))
    : res (list pyval * list (pyval * pyval)) :=
  match rows with
  | [] => Ok (cidrs, rationale)
  | row :: rest =>
      let* c := index_key row "cidr" in
      let* r := get_of row "rationale" (PStr "") in
      let* _ := key_of c in
      never_block rest (cidrs ++ [c]) (dict_set rationale c r)
  end.
Definition parse_invariants : res invariants :=
  let* bs := yaml_blocks "invariants.md" in
  let out := merged bs in
  match dict_get out "never_block" with
  | None => Raise (ValueError "invariants.md missing never_block block")
  | Some rows =>
      let* rows := py_iter rows in
      let* '(cidrs, rationale) := never_block rows [] [] in
      let* actions := frozenset (jget_or out "allowed_agent_actions" (PList [PStr "DROP"])) in
      let* protected := py_iter (jget_or out "protected_comment_prefixes" (PList [])) in
      Ok (Invariants cidrs rationale actions protected (jget_or out "agent_comment_prefix" (PStr "nos:agent-")))
  end.

Fixpoint scan_threats (bs : list pyval) (patterns : list ThreatPattern) (tiers : pyval) (insights : list pyval)
    : res (list ThreatPattern * pyval * list pyval) :=
  match bs with
  | [] => Ok (patterns, tiers, insights)
  | PDict d :: rest =>
      if has_key "id" d && has_key "threat_class" d && has_key "flow_signature" d then
        let* p := ThreatPattern_of d in scan_threats rest (patterns ++ [p]) tiers insights
      else match dict_get d "detection_difficulty_tiers" with
      | Some t => scan_threats rest patterns t insights
      | None =>
          match dict_get d "insights" with
          | Some l => let* l := py_iter l in scan_threats rest patterns tiers l
          | None => scan_threats rest patterns tiers insights
          end
      end
  | _ :: rest => scan_threats rest patterns tiers insights
  end.
Definition parse_threat_patterns : res (list ThreatPattern * pyval * list pyval) :=
  let* bs := yaml_blocks "threat-patterns.md" in
  let* '(patterns, tiers, insights) := scan_threats bs [] (PDict []) [] in
  match patterns with
  | [] => Raise (ValueError "threat-patterns.md has no pattern blocks")
  | _ => Ok (patterns, tiers, insights)
  end.

Definition RUBRIC_KEYS : list string :=
  ["signal_table"; "severity_mapping"; "action_rules"; "confidence_calibration"; "hard_overrides"].
Definition parse_severity_scoring : res SeverityRubric :=
  let* bs := yaml_blocks "severity-scoring.md" in
  let out := merged bs in
  if negb (forallb (fun k => has_key k out) RUBRIC_KEYS) then Raise (ValueError "severity-scoring.md missing blocks")
  else SeverityRubric_of out.

Definition parse_flow_features : res FlowFeatureSet :=
  let* bs := yaml_blocks "flow-features.md" in
  let out := merged bs in
  FlowFeatureSet_of [("features_per_ip_pair", jget_or out "features_per_ip_pair" (PList []));
    ("detection_window", jget_or out "detection_window" (PDict [])); ("unseen_port_policy", jget_or out "policy" (PList []));
    ("aggregation_tradeoff", jget_or out "aggregation_tradeoff" (PDict []));
    ("feature_to_pattern_map", jget_or out "feature_to_pattern_map" (PDict []))].

(** What the graph holds, and the parts that it does not. *)
Record authored := Authored {
  a_graph : knowledge; a_threats : list ThreatPattern * pyval * list pyval; a_rubric : SeverityRubric; a_features : FlowFeatureSet }.
Definition parse_all : res authored :=
  let* zones := parse_zones in
  let* assets := parse_assets in
  let* leafs := parse_leafs in
  let* bl := parse_baselines in
  let* matrix := parse_policy_matrix in
  let* sids := parse_sids in
  let* chains := parse_kill_chains in
  let* plane := parse_enforcement_plane in
  let* inv := parse_invariants in
  let* threats := parse_threat_patterns in
  let* rubric := parse_severity_scoring in
  let* features := parse_flow_features in
  Ok (Authored (Knowledge zones assets leafs bl matrix sids chains plane inv) threats rubric features).
End Parsers.
