(* ===== verification/KnowledgeGraph.v ===== *)
(** * The knowledge graph (storage/neo4j_kg.py, storage/neo4j_reader.py)

    The start-up loads the authored catalogue into Neo4j and reads it back; what it reads
    becomes the catalogue the agent decides with.  The server is outside the repository: it
    is the class [Neo4j], whose statements and queries may raise; [Neo4jLaws] states the
    documented meaning of the statements the code sends ([exec]) and of its queries, up to
    the order of nodes and edges; [graph0] is an instance on lists. *)
From S2P Require Import Prelude PyVal Json JsonLoads Models Policy Knowledge.
Local Open Scope string_scope.
Local Open Scope Z_scope.
Local Open Scope list_scope.

(** ** Property graphs *)
Record node := Node { n_id : Z; n_labels : list string; n_props : obj }.
Record edge := Edge { e_src : Z; e_dst : Z; e_type : string; e_props : obj }.
Record graph_data := GData { nodes : list node; edges : list edge }.

Definition has (k : string) (v : pyval) (props : obj) : bool := pyval_eqb (jget props k) v.
Definition managed (props : obj) : bool := has "kg_managed" (PBool true) props.
Definition labelled (l : string) (n : node) : bool := bool_decide (l ∈ n_labels n).

(** [SET x.k = v]; setting null removes the property. *)
Definition set_prop (props : obj) (kv : string * pyval) : obj :=
  match kv.2 with PNone => dict_del props kv.1 | v => dict_set props kv.1 v end.
Definition set_props (vals props : obj) : obj := foldl set_prop props vals.

(** ** Statements *)
(** The node of a label with the value of a key. *)
Record ref := Ref { r_label : string; r_key : string; r_value : pyval }.
Definition refers (r : ref) (n : node) : bool := labelled (r_label r) n && has (r_key r) (r_value r) (n_props n).

Inductive stmt :=
  | Wipe                                                    (* MATCH (n) WHERE n.kg_managed = true DETACH DELETE n *)
  | MergeNode (r : ref) (vals : obj)                        (* MERGE (x:L {k: v}) SET x.kg_managed = true, x.p = ..., ... *)
  | MergeEdge (s d : ref) (type : string) (key vals : obj). (* MATCH s, d MERGE (s)-[r:T key]->(d) SET r.kg_managed = true, ... *)

Definition on_node (p : node -> bool) (vals : obj) (n : node) : node :=
  if p n then Node (n_id n) (n_labels n) (set_props vals (n_props n)) else n.
Definition between_nodes (a b : node) (type : string) (key : obj) (e : edge) : bool :=
  (e_src e =? n_id a) && (e_dst e =? n_id b) && bool_decide (e_type e = type) && forallb (fun kv => has kv.1 kv.2 (e_props e)) key.
Definition on_edge (p : edge -> bool) (vals : obj) (e : edge) : edge :=
  if p e then Edge (e_src e) (e_dst e) (e_type e) (set_props vals (e_props e)) else e.
Definition merge_edge (type : string) (key vals : obj) (ab : node * node) (es : list edge) : list edge :=
  let p := between_nodes ab.1 ab.2 type key in
  if existsb p es then map (on_edge p vals) es
  else es ++ [Edge (n_id ab.1) (n_id ab.2) type (set_props vals key)].

Definition pairs (s d : ref) (ns : list node) : list (node * node) :=
  flat_map (fun a => map (fun b => (a, b)) (List.filter (refers d) ns)) (List.filter (refers s) ns).

(** A statement on a graph; a new node gets the number [id]. *)
Definition exec (st : stmt) (id : Z) (g : graph_data) : graph_data :=
  match st with
  | Wipe =>
      let gone := map n_id (List.filter (fun n => managed (n_props n)) (nodes g)) in
      GData (List.filter (fun n => negb (managed (n_props n))) (nodes g))
        (List.filter (fun e => negb (bool_decide (e_src e ∈ gone)) && negb (bool_decide (e_dst e ∈ gone))) (edges g))
  | MergeNode r vals =>
      let vals := ("kg_managed", PBool true) :: vals in
      if existsb (refers r) (nodes g) then GData (map (on_node (refers r) vals) (nodes g)) (edges g)
      else GData (nodes g ++ [Node id [r_label r] (set_props vals [(r_key r, r_value r)])]) (edges g)
  | MergeEdge s d type key vals =>
      GData (nodes g) (foldl (fun es ab => merge_edge type key (("kg_managed", PBool true) :: vals) ab es) (edges g) (pairs s d (nodes g)))
  end.

(** ** Queries *)
Definition node_at (g : graph_data) (i : Z) : option node := find (fun n => n_id n =? i) (nodes g).
(** The properties of the nodes of a label. *)
Definition nodes_of (l : string) (g : graph_data) : list obj := map n_props (List.filter (labelled l) (nodes g)).
Definition edge_row (l1 type l2 : string) (g : graph_data) (e : edge) : option (obj * obj * obj) :=
  if bool_decide (e_type e = type) && managed (e_props e) then
    match node_at g (e_src e), node_at g (e_dst e) with
    | Some a, Some b => if (labelled l1 a && labelled l2 b)%bool then Some (n_props a, e_props e, n_props b) else None
    | _, _ => None
    end
  else None.
Definition edges_of (l1 type l2 : string) (g : graph_data) : list (obj * obj * obj) := omap (edge_row l1 type l2 g) (edges g).

Definition int_prop (k : string) (p : obj) : Z := match jget p k with PInt z => z | _ => 0 end.
Definition idx_le (a b : obj) : Prop := int_prop "idx" a <= int_prop "idx" b.

(** Numbers are unique and edges lead from nodes to nodes. *)
Definition graph_ok (g : graph_data) : Prop :=
  NoDup (map n_id (nodes g)) /\ Forall (fun e => (e_src e ∈ map n_id (nodes g)) /\ (e_dst e ∈ map n_id (nodes g))) (edges g).
Definition same_graph (g h : graph_data) : Prop := nodes g ≡ₚ nodes h /\ edges g ≡ₚ edges h.

Class Neo4j := {
  graph : Type;
  contents : graph -> graph_data;
  g_run : stmt -> graph -> res graph;
  (** MATCH (x:L) WHERE x.kg_managed = true RETURN x, with ORDER BY x.idx or not *)
  g_nodes : string -> bool -> graph -> res (list obj);
  (** MATCH (m:L [{k: v}]) RETURN m *)
  g_ref : ref -> graph -> res (list obj);
  (** MATCH (s:L1)-[r:T]->(d:L2) WHERE r.kg_managed = true *)
  g_edges : string -> string -> string -> graph -> res (list (obj * obj * obj))
}.
Class Neo4jLaws `{Neo4j} := {
  contents_ok g : graph_ok (contents g);
  run_exec st g g' : g_run st g = Ok g' -> exists id, (id ∉ map n_id (nodes (contents g))) /\ same_graph (contents g') (exec st id (contents g));
  nodes_answer l ordered g rows : g_nodes l ordered g = Ok rows ->
    (rows ≡ₚ List.filter managed (nodes_of l (contents g))) /\ (ordered = true -> StronglySorted idx_le rows);
  ref_answer r g rows : g_ref r g = Ok rows -> rows ≡ₚ map n_props (List.filter (refers r) (nodes (contents g)));
  edges_answer l1 type l2 g rows : g_edges l1 type l2 g = Ok rows -> rows ≡ₚ edges_of l1 type l2 (contents g)
}.

(** ** [reload_from_models] *)
Section Load.
Context `{PyRepr}.

Definition model_dump (s : Service) : pyval :=
  PDict [("port", PInt (sv_port s)); ("proto", PStr (sv_proto s)); ("name", PStr (sv_name s)); ("facing", PStr (sv_facing s));
         ("purpose", PStr (sv_purpose s))].
Definition strs (l : list string) : pyval := PList (map PStr l).

Definition zone_ref (name : pyval) : ref := Ref "Zone" "name" name.
Definition zone_props (z : Zone) : obj :=
  [("cidr", PStr (zn_cidr z)); ("leaf", PStr (zn_leaf z)); ("vlan", PInt (zn_vlan z)); ("svi_gateway", PStr (zn_svi_gateway z));
   ("trust_level", PStr (trust_value (zn_trust_level z))); ("criticality", PStr (criticality_value (zn_criticality z)));
   ("purpose", PStr (zn_purpose z))].
Definition leaf_props (l : Leaf) : obj :=
  [("mgmt_ip", PStr (lf_mgmt_ip l)); ("role", PStr (lf_role l)); ("zones", strs (lf_zones l))].
Definition asset_props (a : Asset) : obj :=
  [("hostname", PStr (as_hostname a)); ("tier", PStr (as_tier a)); ("criticality", PStr (criticality_value (as_criticality a)));
   ("data_classification", PStr (data_value (as_data_classification a))); ("role", PStr (as_role a));
   ("owner_team", PStr (as_owner_team a)); ("if_blocked_impact", PStr (as_if_blocked_impact a));
   ("if_compromised_impact", PStr (as_if_compromised_impact a));
   ("expected_inbound_sources", strs (as_expected_inbound_sources a));
   ("expected_outbound_destinations", strs (as_expected_outbound_destinations a));
   ("services_json", PStr (json_dumps false (PList (map model_dump (as_services a))))); ("zone", PStr (as_zone a))].
Definition sid_props (d : SidDetection) : obj :=
  [("severity_p_level", PInt (sd_p_level d)); ("signature_msg", PStr (dt_signature_msg d));
   ("production_description", PStr (dt_production_description d)); ("mitre_tactic", PStr (dt_mitre_tactic d));
   ("mitre_technique", PStr (dt_mitre_technique d)); ("detection_logic", PStr (dt_detection_logic d));
   ("uses_flags_s_workaround", PBool (dt_uses_flags_s_workaround d)); ("recommended_response", PStr (sd_recommended d));
   ("default_ttl_seconds", PInt (dt_default_ttl_seconds d)); ("false_positive_likelihood", PStr (dt_false_positive_likelihood d));
   ("false_positive_scenarios", strs (dt_false_positive_scenarios d))].
Definition chain_props (c : KillChain) : obj :=
  [("production_description", PStr (ch_production_description c)); ("typical_dwell", PStr (ch_typical_dwell c));
   ("recommended_intervention", PStr (ch_intervention_point c)); ("containment_strategy", PStr (ch_containment_strategy c));
   ("stage_count", PInt (Z.of_nat (length (ch_stages c))))].
Definition stage_props (st : KillChainStage) : obj :=
  [("tactic", PStr (st_tactic st)); ("indicators", PStr (st_production_indicators st));
   ("false_positive_sources", strs (st_false_positive_sources st))].
Definition baseline_props (b : TrafficPattern) : obj :=
  [("src_zone", PStr (tp_src_zone b)); ("src_ip", PStr (tp_src_ip b)); ("dst_zone", PStr (tp_dst_zone b)); ("dst_ip", PStr (tp_dst_ip b));
   ("dst_port", PInt (tp_dst_port b)); ("proto", PStr (tp_proto b)); ("cadence", PStr (pt_cadence b));
   ("expected_volume_per_hour", PInt (pt_expected_volume_per_hour b)); ("burst_anomaly_threshold", PStr (pt_burst_anomaly_threshold b));
   ("criticality_to_business", PStr (flow_value (pt_criticality_to_business b)));
   ("production_description", PStr (pt_production_description b)); ("if_disrupted", PStr (pt_if_disrupted b))].

Definition zone_steps (zones : list (string * Zone)) : list (res stmt) :=
  map (fun z => Ok (MergeNode (zone_ref (PStr z.1)) (zone_props z.2))) zones.
Definition leaf_steps (leafs : list (string * Leaf)) : list (res stmt) :=
  flat_map (fun l : string * Leaf =>
    let leaf := Ref "Leaf" "name" (PStr l.1) in
    Ok (MergeNode leaf (leaf_props l.2)) :: map (fun z => Ok (MergeEdge leaf (zone_ref (PStr z)) "ENFORCES" [] [])) (lf_zones l.2)) leafs.
Definition asset_steps (assets : list (string * Asset)) : list (res stmt) :=
  flat_map (fun a : string * Asset =>
    let asset := Ref "Asset" "ip" (PStr a.1) in
    [Ok (MergeNode asset (asset_props a.2)); Ok (MergeEdge asset (zone_ref (PStr (as_zone a.2))) "MEMBER_OF" [] [])]) assets.
Definition rel (verdict : pyval) : string := if pyval_eqb verdict (PStr "ALLOW") then "ALLOW" else "DENY".
Definition policy_steps (matrix : list ((pyval * pyval) * pyval)) : list (res stmt) :=
  map (fun e : (pyval * pyval) * pyval => Ok (MergeEdge (zone_ref e.1.1) (zone_ref e.1.2) (rel e.2) [] [])) matrix.
Definition sid_ref (sid : pyval) : ref := Ref "Sid" "sid" sid.
Definition sid_steps (sids : list (pyval * SidDetection)) : list (res stmt) :=
  map (fun d : pyval * SidDetection => Ok (MergeNode (sid_ref d.1) (sid_props d.2))) sids.
Definition chain_ref (name : string) : ref := Ref "KillChain" "name" (PStr name).
Definition chain_steps (chains : list KillChain) : list (res stmt) :=
  flat_map (fun c =>
    Ok (MergeNode (chain_ref (ch_name c)) (chain_props c)) ::
    flat_map (fun st : KillChainStage => map (fun sid =>
      Ok (MergeEdge (sid_ref (PInt sid)) (chain_ref (ch_name c)) "EXPECTED_IN" [("stage", PInt (ks_stage st))] (stage_props st)))
      (ks_signals st)) (ch_stages c)) chains.
Definition meta_ref (key : string) : ref := Ref "KnowledgeMeta" "key" (PStr key).
Definition baseline_steps (b : baselines) : list (res stmt) :=
  map (fun p : TrafficPattern => Ok (MergeNode (Ref "Baseline" "name" (PStr (tp_name p))) (baseline_props p))) (b_patterns b) ++
  [Ok (MergeNode (meta_ref "baseline_constants")
    [("steady_state_flows_per_minute", PInt (b_steady_state b)); ("mgt_audit_alert_rate_per_minute", PInt (b_audit_rate b));
     ("anomalous_patterns", PList (b_anomalous_patterns b))])].

(** [enumerate] *)
Definition enumerate {A} (l : list A) : list (Z * A) := imap (fun i x => (Z.of_nat i, x)) l.
(** [x[k]] for every key, as properties. *)
Fixpoint items (x : pyval) (ks : list (string * string)) : res obj :=
  match ks with
  | [] => Ok []
  | (k, name) :: ks =>
      let* v := index_key x k in
      let* rest := items x ks in
      Ok ((name, v) :: rest)
  end.
Definition failure_step (fm : pyval) : res stmt :=
  let* name := index_key fm "name" in
  let* props := items fm [("trigger", "trigger"); ("rest_status", "rest_status"); ("body_signature", "body_signature");
    ("state", "state"); ("agent_action", "agent_action")] in
  Ok (MergeNode (Ref "FailureMode" "name" name) props).
Definition MAPPING_KEYS : list (string * string) := [("rest_request", "rest_request"); ("yang_gnmi", "yang_gnmi"); ("configdb", "configdb")].
Definition plane_steps (e : enforcement) : list (res stmt) :=
  map (fun c : pyval * pyval => Ok (MergeNode (Ref "ApiEndpoint" "endpoint" c.1) [("description", c.2)])) (e_endpoint_contracts e) ++
  map (fun g : Z * pyval => Ok (MergeNode (Ref "Gotcha" "idx" (PInt g.1)) [("text", g.2)])) (enumerate (e_critical_gotchas e)) ++
  map (fun m : Z * pyval => let* props := items m.2 MAPPING_KEYS in Ok (MergeNode (Ref "FieldMapping" "idx" (PInt m.1)) props))
    (enumerate (e_field_name_mapping e)) ++
  map failure_step (e_failure_modes e) ++
  [Ok (MergeNode (meta_ref "rbac_contract") [("text", e_rbac_contract e)])].

(** [sorted] on the distinct values of a set: one value, texts by code point, or numbers. *)
Definition text_le (a b : string) : Prop := String.leb a b = true.
#[export] Instance text_le_dec a b : Decision (text_le a b).
Proof. unfold text_le. apply _. Defined.
Definition as_text (v : pyval) : option string := match v with PStr s => Some s | _ => None end.
Definition as_number (v : pyval) : option (Q * pyval) :=
  match v with PInt z => Some (inject_Z z, v) | PFloat q => Some (q, v) | PBool b => Some (if b then 1%Q else 0%Q, v) | _ => None end.
Definition number_le (a b : Q * pyval) : Prop := Qle_bool a.1 b.1 = true.
#[export] Instance number_le_dec a b : Decision (number_le a b).
Proof. unfold number_le. apply _. Defined.
Definition sorted_values (l : list pyval) : res (list pyval) :=
  match l with
  | [] | [_] => Ok l
  | _ =>
      match mapM as_text l, mapM as_number l with
      | Some texts, _ => Ok (map PStr (merge_sort text_le texts))
      | _, Some numbers => Ok (map snd (merge_sort number_le numbers))
      | None, None => Raise (TypeError "not supported between instances")
      end
  end.
Definition invariant_steps (i : invariants) : list (res stmt) :=
  map (fun c => Ok (MergeNode (Ref "NeverBlockEntry" "cidr" c)
    [("rationale", default (PStr "") (dict_get (i_never_block_rationale i) c))])) (i_never_block_cidrs i) ++
  [let* actions := sorted_values (i_allowed_agent_actions i) in
   Ok (MergeNode (meta_ref "agent_invariants")
     [("allowed_agent_actions", PList actions); ("protected_comment_prefixes", PList (i_protected_comment_prefixes i));
      ("agent_comment_prefix", i_agent_comment_prefix i)])].

Definition load_steps (k : knowledge) : list (res stmt) :=
  Ok Wipe :: zone_steps (k_zones k) ++ leaf_steps (k_leafs k) ++ asset_steps (k_assets k) ++ policy_steps (k_policy_matrix k) ++
  sid_steps (k_sids k) ++ chain_steps (k_kill_chains k) ++ baseline_steps (k_baselines k) ++ plane_steps (k_enforcement k) ++
  invariant_steps (k_invariants k).

(** The statements one after another, each in a transaction of its own: an exception leaves
    the graph as it is then. *)
Fixpoint run_steps `{Neo4j} (steps : list (res stmt)) (g : graph) : graph * option exn :=
  match steps with
  | [] => (g, None)
  | Raise e :: _ => (g, Some e)
  | Ok st :: rest => match g_run st g with Ok g' => run_steps rest g' | Raise e => (g, Some e) end
  end.
Definition counts (steps : list (res stmt)) : Z * Z :=
  (Z.of_nat (length (List.filter (fun s => match s with Ok (MergeNode _ _) => true | _ => false end) steps)),
   Z.of_nat (length (List.filter (fun s => match s with Ok (MergeEdge _ _ _ _ _) => true | _ => false end) steps))).
Definition reload_from_models `{Neo4j} (k : res knowledge) (g : graph) : graph * res (Z * Z) :=
  match k with
  | Raise e => (g, Raise e)
  | Ok k =>
      match run_steps (load_steps k) g with
      | (g', None) => (g', Ok (counts (load_steps k)))
      | (g', Some e) => (g', Raise e)
      end
  end.
End Load.

(** ** [neo4j_reader]: the catalogue back from the graph *)
Section Read.
Context `{PyRepr} `{External} `{PydBool} `{Neo4j} (json_loads : string -> option pyval).

Definition get (p : obj) (k : string) : res pyval := index_key (PDict p) k.
(** The keyword arguments [k=p[k]]. *)
Definition pick (p : obj) (ks : list string) : res obj := items (PDict p) (map (fun k => (k, k)) ks).
(** [list(v)] *)
Definition listed (v : pyval) : res pyval := let* l := py_iter v in Ok (PList l).
(** [E(p[k])] as an argument *)
Definition member {A} (members : list A) (value : A -> string) (p : obj) (k : string) : res pyval :=
  let* v := get p k in
  let* a := enum_of members value v in Ok (PStr (value a)).

Fixpoint read_rows {K A} `{EqDecision K} (read : obj -> res (K * A)) (rows : list obj) (out : list (K * A)) : res (list (K * A)) :=
  match rows with
  | [] => Ok out
  | r :: rest => let* '(k, a) := read r in read_rows read rest (dict_set out k a)
  end.

Definition read_zone (z : obj) : res (pyval * Zone) :=
  let* args := pick z ["name"; "cidr"; "leaf"; "vlan"; "svi_gateway"; "purpose"] in
  let* trust := member trust_levels trust_value z "trust_level" in
  let* crit := member criticalities criticality_value z "criticality" in
  let* zone := Zone_of (args ++ [("trust_level", trust); ("criticality", crit)]) in
  Ok (jget z "name", zone).
(** [json.loads] of a text, else [TypeError]; [Service( **s )] of every element. *)
Definition services_of (v : pyval) : res pyval :=
  match v with
  | PStr s =>
      match json_loads s with
      | None => Raise (ValueError "JSONDecodeError")
      | Some l =>
          let* l := py_iter l in
          let* ss := mapM_res (fun x => match x with PDict d => Service_of d | _ => Raise (TypeError "argument after ** must be a mapping") end) l in
          Ok (PList (map model_dump ss))
      end
  | _ => Raise (TypeError "the JSON object must be str, bytes or bytearray")
  end.
Definition read_asset (a : obj) : res (pyval * Asset) :=
  let* services := services_of (jget_or a "services_json" (PStr "[]")) in
  let* args := pick a ["ip"; "hostname"; "zone"; "tier"; "role"] in
  let* crit := member criticalities criticality_value a "criticality" in
  let* data := member data_classifications data_value a "data_classification" in
  let* inbound := listed (jget_or a "expected_inbound_sources" (PList [])) in
  let* outbound := listed (jget_or a "expected_outbound_destinations" (PList [])) in
  let* more := pick a ["if_compromised_impact"; "if_blocked_impact"; "owner_team"] in
  let* asset := Asset_of (args ++ [("criticality", crit); ("data_classification", data); ("services", services);
    ("expected_inbound_sources", inbound); ("expected_outbound_destinations", outbound)] ++ more) in
  Ok (jget a "ip", asset).
Definition read_leaf (l : obj) : res (pyval * Leaf) :=
  let* args := pick l ["name"; "mgmt_ip"] in
  let* zones := listed (jget_or l "zones" (PList [])) in
  let* role := pick l ["role"] in
  let* leaf := Leaf_of (args ++ [("zones", zones)] ++ role) in
  Ok (jget l "name", leaf).
Definition read_pattern (b : obj) : res TrafficPattern :=
  let* args := pick b ["name"; "src_zone"; "src_ip"; "dst_zone"; "dst_ip"; "dst_port"; "proto"; "cadence";
    "expected_volume_per_hour"; "burst_anomaly_threshold"; "production_description"] in
  let* crit := member flow_criticalities flow_value b "criticality_to_business" in
  let* more := pick b ["if_disrupted"] in
  TrafficPattern_of (args ++ [("criticality_to_business", crit)] ++ more).
Definition read_sid (s : obj) : res (pyval * SidDetection) :=
  let* args := pick s ["sid"; "severity_p_level"; "signature_msg"; "production_description"; "mitre_tactic"; "mitre_technique";
    "detection_logic"; "uses_flags_s_workaround"; "recommended_response"; "default_ttl_seconds"; "false_positive_likelihood"] in
  let* scenarios := listed (jget_or s "false_positive_scenarios" (PList [])) in
  let* d := SidDetection_of (args ++ [("false_positive_scenarios", scenarios)]) in
  Ok (jget s "sid", d).

Definition read_zones (g : graph) : res (list (pyval * Zone)) :=
  let* rows := g_nodes "Zone" false g in read_rows read_zone rows [].
Definition read_assets (g : graph) : res (list (pyval * Asset)) :=
  let* rows := g_nodes "Asset" false g in read_rows read_asset rows [].
Definition read_leafs (g : graph) : res (list (pyval * Leaf)) :=
  let* rows := g_nodes "Leaf" false g in read_rows read_leaf rows [].
Definition read_sids (g : graph) : res (list (pyval * SidDetection)) :=
  let* rows := g_nodes "Sid" false g in read_rows read_sid rows [].

Definition is_mgt (p : TrafficPattern) : bool := bool_decide (tp_src_zone p = "MGT").
(** The singleton node with the key. *)
Definition read_meta (key : string) (g : graph) : res obj :=
  let* rows := g_ref (meta_ref key) g in
  match rows with m :: _ => Ok m | [] => Raise (RuntimeError ("Neo4j missing KnowledgeMeta " ++ key)) end.
Definition read_baselines (g : graph) : res baselines :=
  let* rows := g_nodes "Baseline" false g in
  let* patterns := mapM_res read_pattern rows in
  let* m := read_meta "baseline_constants" g in
  let* anomalous := py_iter (jget_or m "anomalous_patterns" (PList [])) in
  let* steady := get m "steady_state_flows_per_minute" in
  let* steady := int_of steady in
  let* rate := get m "mgt_audit_alert_rate_per_minute" in
  let* rate := int_of rate in
  Ok (Baselines (List.filter (fun p => negb (is_mgt p)) patterns ++ List.filter is_mgt patterns) anomalous steady rate).

Fixpoint verdict_rows (verdict : string) (rows : list (obj * obj * obj)) (out : list ((pyval * pyval) * pyval))
    : res (list ((pyval * pyval) * pyval)) :=
  match rows with
  | [] => Ok out
  | (s, _, d) :: rest =>
      let key := (jget s "name", jget d "name") in
      let* _ := key_of key.1 in
      let* _ := key_of key.2 in
      verdict_rows verdict rest (dict_set out key (PStr verdict))
  end.
Definition read_policy_matrix (g : graph) : res (list ((pyval * pyval) * pyval)) :=
  let* allow := g_edges "Zone" "ALLOW" "Zone" g in
  let* out := verdict_rows "ALLOW" allow [] in
  let* deny := g_edges "Zone" "DENY" "Zone" g in
  verdict_rows "DENY" deny out.

(** The stages of the chains, by name and number, from the edges. *)
Definition stage_row (r : obj * obj * obj) (out : list (pyval * list (Z * KillChainStage))) : res (list (pyval * list (Z * KillChainStage))) :=
  let '(s, e, k) := r in
  let chain := jget k "name" in
  let* n := int_of (jget e "stage") in
  let* _ := key_of chain in
  let stages := default [] (dict_get out chain) in
  let* st := match dict_get stages n with
    | Some st => Ok st
    | None =>
        let* sources := listed (por (jget e "false_positive_sources") (PList [])) in
        KillChainStage_of [("stage", PInt n); ("tactic", jget e "tactic"); ("expected_signals", PList []);
          ("production_indicators", jget e "indicators"); ("false_positive_sources", sources)]
    end in
  let* sid := int_of (jget s "sid") in
  Ok (dict_set out chain (dict_set stages n
    (mkStage (Stage (ks_stage st) (ks_signals st ++ [sid])) (st_tactic st) (st_production_indicators st) (st_false_positive_sources st)))).
Fixpoint stage_rows (rows : list (obj * obj * obj)) (out : list (pyval * list (Z * KillChainStage)))
    : res (list (pyval * list (Z * KillChainStage))) :=
  match rows with [] => Ok out | r :: rest => let* out := stage_row r out in stage_rows rest out end.
Definition sort_signals (st : KillChainStage) : KillChainStage :=
  mkStage (Stage (ks_stage st) (merge_sort Z.le (ks_signals st))) (st_tactic st) (st_production_indicators st) (st_false_positive_sources st).
Definition number_le' (a b : Z * KillChainStage) : Prop := a.1 <= b.1.
#[export] Instance number_le'_dec a b : Decision (number_le' a b).
Proof. unfold number_le'. apply _. Defined.
Definition read_chain (stages : list (pyval * list (Z * KillChainStage))) (k : obj) : res KillChain :=
  let* name := get k "name" in
  let mine := map snd (merge_sort number_le' (default [] (dict_get stages name))) in
  let* description := get k "production_description" in
  let* dwell := get k "typical_dwell" in
  let* point := get k "recommended_intervention" in
  let* strategy := get k "containment_strategy" in
  let* name := pyd_str name in
  let* description := pyd_str description in
  let* dwell := pyd_str dwell in
  let* point := pyd_str point in
  let* strategy := pyd_str strategy in
  Ok (mkChain name description mine dwell point strategy).
Definition read_kill_chains (g : graph) : res (list KillChain) :=
  let* chains := g_nodes "KillChain" false g in
  let* rows := g_edges "Sid" "EXPECTED_IN" "KillChain" g in
  let* stages := stage_rows rows [] in
  mapM_res (read_chain (map (fun c => (c.1, map (fun s => (s.1, sort_signals s.2)) c.2)) stages)) chains.

Definition read_enforcement_plane (g : graph) : res enforcement :=
  let* rows := g_nodes "ApiEndpoint" false g in
  let* contracts := read_rows (fun e => let* d := get e "description" in let* k := get e "endpoint" in
    let* _ := key_of k in Ok (k, d)) rows [] in
  let* rows := g_nodes "FieldMapping" true g in
  let* mapping := mapM_res (fun f => let* d := pick f ["rest_request"; "yang_gnmi"; "configdb"] in Ok (PDict d)) rows in
  let* rows := g_nodes "Gotcha" true g in
  let* gotchas := mapM_res (fun x => get x "text") rows in
  let* rows := g_nodes "FailureMode" false g in
  let* failures := mapM_res (fun m => let* d := pick m ["name"; "trigger"; "rest_status"; "body_signature"; "state"; "agent_action"] in
    Ok (PDict d)) rows in
  let* m := read_meta "rbac_contract" g in
  let* rbac := get m "text" in
  Ok (EnforcementPlane contracts mapping gotchas failures rbac).

Definition read_invariants (g : graph) : res invariants :=
  let* rows := g_nodes "NeverBlockEntry" false g in
  let* cidrs := mapM_res (fun n => let* c := get n "cidr" in let* _ := key_of c in Ok c) rows in
  let rationale := foldl (fun d n => dict_set d (jget n "cidr") (jget_or n "rationale" (PStr ""))) [] rows in
  let* m := read_meta "agent_invariants" g in
  let* actions := frozenset (jget_or m "allowed_agent_actions" (PList [PStr "DROP"])) in
  let* protected := py_iter (jget_or m "protected_comment_prefixes" (PList [])) in
  Ok (Invariants cidrs rationale actions protected (jget_or m "agent_comment_prefix" (PStr "nos:agent-"))).

Definition text_keys {A} (d : list (pyval * A)) : list (string * A) := omap (fun e => option_map (fun k => (k, e.2)) (text_of e.1)) d.
Definition read_all (g : graph) : res knowledge :=
  let* zones := read_zones g in
  let* assets := read_assets g in
  let* leafs := read_leafs g in
  let* bl := read_baselines g in
  let* matrix := read_policy_matrix g in
  let* sids := read_sids g in
  let* chains := read_kill_chains g in
  let* plane := read_enforcement_plane g in
  let* inv := read_invariants g in
  Ok (Knowledge (text_keys zones) (text_keys assets) (text_keys leafs) bl matrix sids chains plane inv).
End Read.

(** ** A server on lists *)
#[export] Instance graph_ok_dec g : Decision (graph_ok g).
Proof. unfold graph_ok. apply _. Defined.
#[export] Instance idx_le_dec a b : Decision (idx_le a b).
Proof. unfold idx_le. apply _. Defined.
Definition graph0_contents (g : graph_data) : graph_data := if decide (graph_ok g) then g else GData [] [].
Definition fresh_id (g : graph_data) : Z := 1 + foldr Z.max 0 (map n_id (nodes g)).
#[export] Instance graph0 : Neo4j := {|
  graph := graph_data;
  contents := graph0_contents;
  g_run st g := Ok (exec st (fresh_id (graph0_contents g)) (graph0_contents g));
  g_nodes l (ordered : bool) g :=
    let rows := List.filter managed (nodes_of l (graph0_contents g)) in
    Ok (if ordered then merge_sort idx_le rows else rows);
  g_ref r g := Ok (map n_props (List.filter (refers r) (nodes (graph0_contents g))));
  g_edges l1 t l2 g := Ok (edges_of l1 t l2 (graph0_contents g)) |}.

Lemma graph0_ok g : graph_ok (graph0_contents g).
Proof. unfold graph0_contents. destruct (decide (graph_ok g)); [done|]. by split; [apply NoDup_nil_2|]. Qed.
Lemma fresh_id_fresh g : fresh_id g ∉ map n_id (nodes g).
Proof.
  assert (H : forall l x, x ∈ l -> x <= foldr Z.max 0 l).
  { induction l as [|y l IH]; intros x Hx; [by apply elem_of_nil in Hx|]. cbn. apply elem_of_cons in Hx as [->|Hx]; [lia|]. specialize (IH x Hx). lia. }
  intros Hin%H. unfold fresh_id in Hin. lia.
Qed.
(** Both ends of the edges are nodes. *)
Definition ends_in (ids : list Z) (e : edge) : Prop := (e_src e ∈ ids) /\ (e_dst e ∈ ids).
Lemma merge_edge_ends t key vals a b es ids : (n_id a ∈ ids) -> (n_id b ∈ ids) -> Forall (ends_in ids) es ->
  Forall (ends_in ids) (merge_edge t key vals (a, b) es).
Proof.
  intros Ha Hb Hes. unfold merge_edge. destruct (existsb _ es).
  - apply Forall_map. eapply Forall_impl; [exact Hes|]. intros e He. unfold on_edge. by destruct (between_nodes _ _ _ _ e).
  - apply Forall_app. split; [done|]. by apply Forall_singleton.
Qed.
Lemma pairs_in s d ns ab : ab ∈ pairs s d ns -> (n_id ab.1 ∈ map n_id ns) /\ (n_id ab.2 ∈ map n_id ns).
Proof.
  intros (a & Ha & (b & <- & Hb)%in_map_iff)%list_elem_of_In%in_flat_map. apply filter_In in Ha as [Ha _], Hb as [Hb _]. cbn [fst snd].
  split; apply list_elem_of_In; by apply in_map.
Qed.
Lemma on_nodes_ids p vals ns : map n_id (map (on_node p vals) ns) = map n_id ns.
Proof. rewrite map_map. apply map_ext. intros n. unfold on_node. by destruct (p n). Qed.
Lemma filtered_ids p ns : (map n_id (List.filter p ns)) `sublist_of` (map n_id ns).
Proof. induction ns as [|n ns IH]; [constructor|]. cbn. destruct (p n); cbn; by constructor. Qed.
Lemma NoDup_app_fresh (l : list Z) x : NoDup l -> x ∉ l -> NoDup (l ++ [x]).
Proof. intros Hd Hx. apply NoDup_app. split_and!; [done| |apply NoDup_singleton]. intros y Hy ->%list_elem_of_singleton. done. Qed.

Lemma exec_ok st id g : graph_ok g -> id ∉ map n_id (nodes g) -> graph_ok (exec st id g).
Proof.
  intros [Hd He] Hid. destruct st as [|r vals|s d t key vals]; cbn [exec].
  - split; cbn [nodes edges]; [by eapply sublist_NoDup; [|apply filtered_ids]|]. apply Forall_forall. intros e Hin.
    apply list_elem_of_In, filter_In in Hin as [Hin Hg]. apply list_elem_of_In in Hin. rewrite Forall_forall in He. destruct (He e Hin) as [Hs Hdst].
    apply andb_true_iff in Hg as [Gs Gd]. apply negb_true_iff, bool_decide_eq_false in Gs, Gd.
    assert (Hleft : forall i, i ∈ map n_id (nodes g) -> i ∉ map n_id (List.filter (fun n => managed (n_props n)) (nodes g)) ->
      i ∈ map n_id (List.filter (fun n => negb (managed (n_props n))) (nodes g))).
    { intros i (n & -> & Hn)%list_elem_of_fmap Hng. apply (list_elem_of_fmap_2 n_id), list_elem_of_In, filter_In. split; [by apply list_elem_of_In|].
      apply negb_true_iff. destruct (managed (n_props n)) eqn:E; [|done]. exfalso. apply Hng. apply (list_elem_of_fmap_2 n_id), list_elem_of_In, filter_In.
      split; [by apply list_elem_of_In|done]. }
    by split; apply Hleft.
  - destruct (existsb _ _); split; cbn [nodes edges]; rewrite ?on_nodes_ids, ?map_app; try done; [by apply NoDup_app_fresh|].
    eapply Forall_impl; [exact He|]. intros e [? ?]. split; apply elem_of_app; by left.
  - split; cbn [nodes edges]; [done|]. assert (Hp : Forall (fun ab => (n_id ab.1 ∈ map n_id (nodes g)) /\ (n_id ab.2 ∈ map n_id (nodes g))) (pairs s d (nodes g))).
    { apply Forall_forall. apply pairs_in. }
    revert He. generalize (edges g) as es. induction Hp as [|[a b] ps [Ha Hb] _ IH]; intros es He; [done|]. cbn [foldl].
    apply IH. by apply merge_edge_ends.
Qed.

#[export] Instance idx_le_trans : Transitive idx_le.
Proof. intros a b c. unfold idx_le. lia. Qed.
#[export] Instance idx_le_total : Total idx_le.
Proof. intros a b. unfold idx_le. lia. Qed.
#[export] Instance graph0_laws : Neo4jLaws.
Proof.
  split; cbn.
  - apply graph0_ok.
  - intros st g g' [= <-]. exists (fresh_id (graph0_contents g)). split; [apply fresh_id_fresh|]. unfold graph0_contents at 1.
    rewrite decide_True by (apply exec_ok; [apply graph0_ok|apply fresh_id_fresh]). done.
  - intros l o g rows [= <-]. destruct o; [|done]. split; [apply merge_sort_Permutation|]. intros _. apply (StronglySorted_merge_sort idx_le).
  - by intros r g rows [= <-].
  - by intros l1 t l2 g rows [= <-].
Qed.
