(* ===== verification/KnowledgeReload.v ===== *)
(** * The catalogue survives its way through the graph (storage/neo4j_kg.py, neo4j_reader.py)

    What the statements of a load do to what a query sees of a graph, one phase of the
    load after another. *)
From S2P Require Import Prelude PyVal Json JsonLoads Models Policy Knowledge KnowledgeGraph.
Local Open Scope string_scope.
Local Open Scope Z_scope.
Local Open Scope list_scope.

(** ** What a query sees *)
Lemma filter_perm {A} (p : A -> bool) (l l' : list A) : l ≡ₚ l' -> List.filter p l ≡ₚ List.filter p l'.
Proof.
  induction 1; cbn; [done|destruct (p x); [by apply perm_skip|done]| |by etrans].
  destruct (p x), (p y); try done. apply perm_swap.
Qed.
Lemma filter_map_swap {A B} (f : A -> B) (p : B -> bool) l : List.filter p (map f l) = map f (List.filter (fun x => p (f x)) l).
Proof. induction l as [|x l IH]; [done|]. cbn. rewrite IH. by destruct (p (f x)). Qed.
Lemma filter_true {A} (p : A -> bool) (l : list A) : (forall x, x ∈ l -> p x = true) -> List.filter p l = l.
Proof.
  induction l as [|x l IH]; intros Hp; [done|]. cbn. rewrite Hp by (by left). f_equal. apply IH. intros y Hy. apply Hp. by right.
Qed.
Lemma filter_false {A} (p : A -> bool) (l : list A) : (forall x, x ∈ l -> p x = false) -> List.filter p l = [].
Proof.
  induction l as [|x l IH]; intros Hp; [done|]. cbn. rewrite Hp by (by left). apply IH. intros y Hy. apply Hp. by right.
Qed.
Lemma omap_perm {A B} (f : A -> option B) (l l' : list A) : l ≡ₚ l' -> omap f l ≡ₚ omap f l'.
Proof.
  induction 1; cbn; [done|destruct (f x); [by apply perm_skip|done]| |by etrans].
  destruct (f x), (f y); try done. apply perm_swap.
Qed.
Lemma omap_ext_in {A B} (f g : A -> option B) (l : list A) : (forall x, x ∈ l -> f x = g x) -> omap f l = omap g l.
Proof.
  induction l as [|x l IH]; intros Hf; [done|]. cbn. rewrite Hf, IH; [done| |by left]. intros y Hy. apply Hf. by right.
Qed.
Lemma omap_none {A B} (f : A -> option B) (l : list A) : (forall x, x ∈ l -> f x = None) -> omap f l = [].
Proof.
  induction l as [|x l IH]; intros Hf; [done|]. cbn. rewrite Hf by (by left). apply IH. intros y Hy. apply Hf. by right.
Qed.

Lemma omap_map {A B C} (f : B -> option C) (h : A -> B) (l : list A) : omap f (map h l) = omap (fun x => f (h x)) l.
Proof. induction l as [|x l IH]; [done|]. cbn. by rewrite <- IH. Qed.

Lemma omap_one {A B} (f : A -> option B) (x : A) y : f x = Some y -> omap f [x] = [y].
Proof. intros E. cbn. by rewrite E. Qed.

(** The rows of a type, whether the edge is managed or not. *)
Definition typed_row (l1 type l2 : string) (g : graph_data) (e : edge) : option (obj * obj * obj) :=
  if bool_decide (e_type e = type) then
    match node_at g (e_src e), node_at g (e_dst e) with
    | Some a, Some b => if (labelled l1 a && labelled l2 b)%bool then Some (n_props a, e_props e, n_props b) else None
    | _, _ => None
    end
  else None.
Definition typed (l1 type l2 : string) (g : graph_data) : list (obj * obj * obj) := omap (typed_row l1 type l2 g) (edges g).

Lemma edges_of_typed l1 t l2 g : edges_of l1 t l2 g = List.filter (fun r : obj * obj * obj => managed r.1.2) (typed l1 t l2 g).
Proof.
  unfold edges_of, typed. induction (edges g) as [|e es IH]; [done|]. cbn [omap list_omap]. unfold edge_row at 1, typed_row at 1.
  destruct (bool_decide (e_type e = t)); cbn [andb]; [|exact IH].
  destruct (managed (e_props e)) eqn:Em; destruct (node_at g (e_src e)), (node_at g (e_dst e)); try exact IH;
    destruct (labelled l1 n && labelled l2 n0)%bool; try exact IH; cbn [List.filter fst snd]; rewrite Em; [f_equal|]; exact IH.
Qed.

Lemma node_at_perm g h i : same_graph g h -> NoDup (map n_id (nodes g)) -> node_at g i = node_at h i.
Proof.
  intros [Hn _] Hd. unfold node_at. revert Hd. induction Hn as [|x l l' Hl IH|x y l|l1 l2 l3 H1 IH1 H2 IH2]; cbn [map find]; intros Hd.
  - done.
  - destruct (_ =? _); [done|]. apply IH. by inversion Hd.
  - destruct (Z.eqb_spec (n_id y) i) as [Hy|], (Z.eqb_spec (n_id x) i) as [Hx|]; try done.
    exfalso. apply NoDup_cons in Hd as [Hni _]. apply Hni. rewrite Hy, <- Hx. left.
  - rewrite IH1 by done. apply IH2. by rewrite <- H1.
Qed.

Lemma typed_perm l1 t l2 g h : same_graph g h -> NoDup (map n_id (nodes g)) -> typed l1 t l2 g ≡ₚ typed l1 t l2 h.
Proof.
  intros Hs Hd. unfold typed. rewrite (omap_perm _ (edges g) (edges h)) by apply Hs.
  rewrite (omap_ext_in _ (typed_row l1 t l2 h)); [done|]. intros e _. unfold typed_row. by rewrite !(node_at_perm g h).
Qed.
Lemma nodes_of_perm l g h : same_graph g h -> nodes_of l g ≡ₚ nodes_of l h.
Proof. intros [Hn _]. unfold nodes_of. by rewrite (filter_perm _ _ _ Hn). Qed.

(** ** What a statement changes of it *)
Lemma find_app_in (l : list node) m i : i ∈ map n_id l ->
  find (fun n => n_id n =? i) (l ++ [m]) = find (fun n => n_id n =? i) l.
Proof.
  induction l as [|x l IH]; cbn [map app find]; intros Hi; [by apply elem_of_nil in Hi|].
  destruct (Z.eqb_spec (n_id x) i) as [|Hne]; [done|]. apply IH. by apply elem_of_cons in Hi as [->|?].
Qed.

(** A node whose key is not there is added. *)
Lemma exec_new r vals id g : graph_ok g -> existsb (refers r) (nodes g) = false ->
  (forall l, nodes_of l (exec (MergeNode r vals) id g) = nodes_of l g ++
    (if bool_decide (l = r_label r) then [set_props (("kg_managed", PBool true) :: vals) [(r_key r, r_value r)]] else [])) /\
  (forall l1 t l2, typed l1 t l2 (exec (MergeNode r vals) id g) = typed l1 t l2 g).
Proof.
  intros Hok He. unfold exec. rewrite He. split.
  - intros l. unfold nodes_of. cbn [nodes]. rewrite List.filter_app, map_app. f_equal. cbn [List.filter]. unfold labelled. cbn [n_labels].
    destruct (decide (l = r_label r)) as [->|Hne].
    + rewrite (bool_decide_eq_true_2 (r_label r ∈ [r_label r])) by (by apply list_elem_of_singleton). by rewrite bool_decide_eq_true_2.
    + rewrite (bool_decide_eq_false_2 (l ∈ [r_label r])) by (by rewrite list_elem_of_singleton). by rewrite bool_decide_eq_false_2.
  - intros l1 t l2. unfold typed. cbn [edges]. apply omap_ext_in. intros e He'. unfold typed_row.
    destruct Hok as [Hd Hes]. rewrite Forall_forall in Hes. destruct (Hes e He'). unfold node_at. cbn [nodes]. by rewrite !find_app_in.
Qed.

Lemma refers_none r g : (forall p, p ∈ nodes_of (r_label r) g -> has (r_key r) (r_value r) p = false) -> existsb (refers r) (nodes g) = false.
Proof.
  intros Hp. destruct (existsb (refers r) (nodes g)) eqn:E; [|done]. apply existsb_exists in E as (n & Hin & Hr).
  unfold refers in Hr. apply andb_true_iff in Hr as [Hl Hh]. rewrite Hp in Hh; [done|]. unfold nodes_of.
  apply list_elem_of_In, in_map, filter_In. done.
Qed.

(** A wipe leaves no node of a label that only managed nodes have. *)
Lemma exec_wipe l id g : (forall n, n ∈ nodes g -> labelled l n = true -> managed (n_props n) = true) ->
  nodes_of l (exec Wipe id g) = [].
Proof.
  intros Hc. unfold nodes_of. cbn [nodes exec]. rewrite (filter_false (labelled l)); [done|].
  intros n [Hin Hm]%list_elem_of_In%filter_In. apply list_elem_of_In in Hin. apply negb_true_iff in Hm.
  destruct (labelled l n) eqn:E; [|done]. by rewrite (Hc n Hin E) in Hm.
Qed.

Lemma node_at_in g i n : node_at g i = Some n -> n ∈ nodes g /\ n_id n = i.
Proof. intros [Hin Hi]%find_some. apply list_elem_of_In in Hin. split; [done|]. by apply Z.eqb_eq. Qed.

Lemma typed_row_labels l1 t l2 g e r : typed_row l1 t l2 g e = Some r -> (r.1.1 ∈ nodes_of l1 g) /\ (r.2 ∈ nodes_of l2 g).
Proof.
  unfold typed_row. destruct (bool_decide _); [|done]. destruct (node_at g (e_src e)) as [a|] eqn:Ea; [|done].
  destruct (node_at g (e_dst e)) as [b|] eqn:Eb; [|done]. destruct (labelled l1 a && labelled l2 b)%bool eqn:El; [|done].
  intros [= <-]. apply andb_true_iff in El as [La Lb]. apply node_at_in in Ea as [Ha _], Eb as [Hb _].
  unfold nodes_of. cbn. rewrite !list_elem_of_In, !in_map_iff. setoid_rewrite filter_In.
  split; [exists a|exists b]; by rewrite <- list_elem_of_In.
Qed.

Lemma typed_none l1 t l2 g : nodes_of l1 g = [] -> typed l1 t l2 g = [].
Proof.
  intros Hn. apply omap_none. intros e _. destruct (typed_row l1 t l2 g e) eqn:E; [|done].
  apply typed_row_labels in E as [E _]. rewrite Hn in E. by apply elem_of_nil in E.
Qed.

(** Edges of a type change no rows of another. *)
Lemma merge_edge_other l1 t l2 g t' key vals ab es : t <> t' ->
  omap (typed_row l1 t l2 g) (merge_edge t' key vals ab es) = omap (typed_row l1 t l2 g) es.
Proof.
  intros Hne. unfold merge_edge. destruct (existsb _ es).
  - rewrite omap_map. apply omap_ext_in. intros e _. cbn. unfold on_edge, typed_row. destruct (between_nodes _ _ _ _ e) eqn:E; [|done].
    unfold between_nodes in E. rewrite !andb_true_iff in E. destruct E as [[_ Et%bool_decide_eq_true] _]. cbn [e_type].
    by rewrite Et, !bool_decide_eq_false_2 by congruence.
  - rewrite omap_app. cbn. unfold typed_row at 2. cbn [e_type]. rewrite bool_decide_eq_false_2 by congruence. by rewrite app_nil_r.
Qed.
Lemma exec_edge_other l1 t l2 g s d t' key vals id : t <> t' ->
  typed l1 t l2 (exec (MergeEdge s d t' key vals) id g) = typed l1 t l2 g.
Proof.
  intros Hne. unfold typed. change (typed_row l1 t l2 (exec _ _ _)) with (typed_row l1 t l2 g). cbn [exec edges].
  generalize (edges g) as es. induction (pairs s d (nodes g)) as [|ab ps IH]; intros es; [done|]. cbn [foldl].
  by rewrite IH, merge_edge_other.
Qed.

(** The one node a reference finds. *)
Lemma refers_one r g p : List.filter (has (r_key r) (r_value r)) (nodes_of (r_label r) g) ≡ₚ [p] ->
  exists a, List.filter (refers r) (nodes g) = [a] /\ n_props a = p /\ a ∈ nodes g /\ labelled (r_label r) a = true.
Proof.
  unfold nodes_of. rewrite filter_map_swap. intros Hp%Permutation_sym%Permutation_length_1_inv.
  assert (Hf : List.filter (fun x => has (r_key r) (r_value r) (n_props x)) (List.filter (labelled (r_label r)) (nodes g)) =
    List.filter (refers r) (nodes g)).
  { unfold refers. generalize (nodes g). intros l. induction l as [|x l IH]; [done|]. cbn. destruct (labelled _ x); cbn; [|done].
    rewrite IH. done. }
  rewrite Hf in Hp. destruct (List.filter (refers r) (nodes g)) as [|a [|? ?]] eqn:E; try done. injection Hp as Hp. exists a.
  split_and!; try done.
  - assert (Hin : In a (List.filter (refers r) (nodes g))) by (rewrite E; by left). apply filter_In in Hin as [Hin _]. by apply list_elem_of_In.
  - assert (Hin : In a (List.filter (refers r) (nodes g))) by (rewrite E; by left). apply filter_In in Hin as [_ Hr].
    by apply andb_true_iff in Hr as [? _].
Qed.
Lemma refers_nobody r g : List.filter (has (r_key r) (r_value r)) (nodes_of (r_label r) g) = [] -> List.filter (refers r) (nodes g) = [].
Proof.
  unfold nodes_of. rewrite filter_map_swap. intros Hp%map_eq_nil. apply filter_false. intros n Hin.
  destruct (refers r n) eqn:E; [|done]. apply andb_true_iff in E as [El Eh].
  assert (Hx : In n (List.filter (fun x => has (r_key r) (r_value r) (n_props x)) (List.filter (labelled (r_label r)) (nodes g)))).
  { apply filter_In. split; [|done]. apply filter_In. split; [by apply list_elem_of_In|done]. }
  rewrite Hp in Hx. done.
Qed.

Lemma node_at_self g a : graph_ok g -> a ∈ nodes g -> node_at g (n_id a) = Some a.
Proof.
  intros [Hd _]. unfold node_at. induction (nodes g) as [|x l IH]; intros Ha; [by apply elem_of_nil in Ha|].
  cbn [map find] in *. apply NoDup_cons in Hd as [Hx Hd]. apply elem_of_cons in Ha as [->|Ha]; [by rewrite Z.eqb_refl|].
  destruct (Z.eqb_spec (n_id x) (n_id a)) as [E|]; [|by apply IH]. exfalso. apply Hx. rewrite E. by apply (list_elem_of_fmap_2 n_id).
Qed.

Lemma exec_edge_none s d t' key vals id g : pairs s d (nodes g) = [] -> exec (MergeEdge s d t' key vals) id g = GData (nodes g) (edges g).
Proof. intros Hp. unfold exec. by rewrite Hp. Qed.

(** A new edge between two nodes adds a row. *)
Lemma exec_edge_new s d t key vals id g a b : graph_ok g ->
  List.filter (refers s) (nodes g) = [a] -> List.filter (refers d) (nodes g) = [b] -> a ∈ nodes g -> b ∈ nodes g ->
  labelled (r_label s) a = true -> labelled (r_label d) b = true ->
  (forall r, r ∈ typed (r_label s) t (r_label d) g -> r.1.1 = n_props a -> r.2 = n_props b ->
    forallb (fun kv => has kv.1 kv.2 r.1.2) key = false) ->
  typed (r_label s) t (r_label d) (exec (MergeEdge s d t key vals) id g) =
  typed (r_label s) t (r_label d) g ++ [(n_props a, set_props (("kg_managed", PBool true) :: vals) key, n_props b)].
Proof.
  intros Hok Fa Fb Ha Hb La Lb Hno. unfold typed.
  change (typed_row _ t _ (exec _ _ _)) with (typed_row (r_label s) t (r_label d) g). cbn [exec edges].
  unfold pairs. rewrite Fa, Fb. cbn [flat_map map app foldl]. unfold merge_edge. cbn [fst snd].
  assert (Hrow : forall e, between_nodes a b t [] e = true -> typed_row (r_label s) t (r_label d) g e = Some (n_props a, e_props e, n_props b)).
  { intros e He. unfold between_nodes in He. cbn in He. rewrite !andb_true_iff, !Z.eqb_eq in He. destruct He as [[[Es Ed] Et%bool_decide_eq_true] _].
    unfold typed_row. rewrite bool_decide_eq_true_2 by done. by rewrite Es, Ed, !node_at_self, La, Lb by done. }
  destruct (existsb _ (edges g)) eqn:Ee.
  - exfalso. apply existsb_exists in Ee as (e & Hin & He).
    assert (He' : between_nodes a b t [] e = true /\ forallb (fun kv => has kv.1 kv.2 (e_props e)) key = true).
    { unfold between_nodes in *. cbn. rewrite !andb_true_iff in *. tauto. }
    destruct He' as [Hb' Hk]. assert (Hr : (n_props a, e_props e, n_props b) ∈ typed (r_label s) t (r_label d) g).
    { apply list_elem_of_omap. exists e. split; [by apply list_elem_of_In|]. by apply Hrow. }
    pose proof (Hno _ Hr eq_refl eq_refl) as Hf. cbn [fst snd] in Hf. congruence.
  - rewrite omap_app. f_equal. apply omap_one. rewrite Hrow; [done|]. unfold between_nodes. cbn. by rewrite !Z.eqb_refl, bool_decide_eq_true_2.
Qed.

(** ** The run of a load *)
Definition TYPES : list string := ["ALLOW"; "DENY"; "EXPECTED_IN"].
Definition ends_of (t : string) : string * string := if bool_decide (t = "EXPECTED_IN") then ("Sid", "KillChain") else ("Zone", "Zone").

Section Run.
Context `{Neo4jLaws}.
Implicit Types (N : string -> list obj) (R : string -> list (obj * obj * obj)) (g : graph).

(** The nodes of the labels and the rows of the types that are read back. *)
Definition viewed g N R : Prop :=
  (forall l, nodes_of l (contents g) ≡ₚ N l) /\
  (forall t, t ∈ TYPES -> typed (ends_of t).1 t (ends_of t).2 (contents g) ≡ₚ R t).
Definition plus (l : string) (ps : list obj) N : string -> list obj := fun l' => N l' ++ (if bool_decide (l' = l) then ps else []).
Definition plus_rows (t : string) (rs : list (obj * obj * obj)) R : string -> list (obj * obj * obj) :=
  fun t' => R t' ++ (if bool_decide (t' = t) then rs else []).

Lemma viewed_ext g N N' R R' : viewed g N R -> (forall l, N l ≡ₚ N' l) -> (forall t, R t ≡ₚ R' t) -> viewed g N' R'.
Proof. intros [Hn Hr] HN HR. split; [intros l; by rewrite Hn|intros t Ht; by rewrite Hr]. Qed.

Lemma run_ok st g g' : g_run st g = Ok g' -> exists id, same_graph (contents g') (exec st id (contents g)) /\ graph_ok (exec st id (contents g)).
Proof.
  intros (id & _ & Hs)%run_exec. exists id. split; [done|]. destruct Hs as [Hn He]. destruct (contents_ok g') as [Hd Hes].
  split; [by rewrite <- Hn|]. rewrite <- He. eapply Forall_impl; [exact Hes|]. intros e [H1 H2]. by rewrite <- Hn.
Qed.
Lemma run_viewed st g g' : g_run st g = Ok g' -> exists id,
  (forall l, nodes_of l (contents g') ≡ₚ nodes_of l (exec st id (contents g))) /\
  (forall l1 t l2, typed l1 t l2 (contents g') ≡ₚ typed l1 t l2 (exec st id (contents g))).
Proof.
  intros (id & Hs & Hok)%run_ok. exists id. split; [intros l; by apply nodes_of_perm|].
  intros l1 t l2. apply typed_perm; [done|]. destruct (contents_ok g') as [? _]. done.
Qed.

Lemma run_app s1 s2 g g' : run_steps (s1 ++ s2) g = (g', None) ->
  exists gm, run_steps s1 g = (gm, None) /\ run_steps s2 gm = (g', None).
Proof.
  revert g. induction s1 as [|[st|e] s1 IH]; intros g Hr; cbn [app run_steps] in *; [by exists g| |done].
  destruct (g_run st g) as [gm|]; [|done]. by apply IH.
Qed.

Lemma view_wipe g g' : (forall n l, n ∈ nodes (contents g) -> labelled l n = true -> managed (n_props n) = true) ->
  g_run Wipe g = Ok g' -> viewed g' (fun _ => []) (fun _ => []).
Proof.
  intros Hc (id & Hn & Hr)%run_viewed.
  assert (Hw : forall l, nodes_of l (exec Wipe id (contents g)) = []) by (intros l; apply exec_wipe; eauto).
  split; [intros l; by rewrite Hn, Hw|]. intros t _. rewrite Hr. by rewrite typed_none.
Qed.

Lemma view_node g N R r vals g' : viewed g N R -> (forall p, p ∈ N (r_label r) -> has (r_key r) (r_value r) p = false) ->
  g_run (MergeNode r vals) g = Ok g' ->
  viewed g' (plus (r_label r) [set_props (("kg_managed", PBool true) :: vals) [(r_key r, r_value r)]] N) R.
Proof.
  intros [Hn Hr] Hno (id & Hn' & Hr')%run_viewed.
  destruct (exec_new r vals id (contents g)) as [En Er]; [apply contents_ok|apply refers_none; intros p Hp; apply Hno; by rewrite <- Hn|].
  split; [intros l; by rewrite Hn', En, Hn|]. intros t Ht. by rewrite Hr', Er, Hr.
Qed.

Lemma view_other g N R s d t key vals g' : viewed g N R -> t ∉ TYPES -> g_run (MergeEdge s d t key vals) g = Ok g' -> viewed g' N R.
Proof.
  intros [Hn Hr] Ht (id & Hn' & Hr')%run_viewed. split; [intros l; by rewrite Hn', <- Hn|].
  intros t' Ht'. rewrite Hr', exec_edge_other; [by apply Hr|]. intros ->. done.
Qed.

Lemma view_nobody g N R s d t key vals g' : viewed g N R -> List.filter (has (r_key s) (r_value s)) (N (r_label s)) = [] ->
  g_run (MergeEdge s d t key vals) g = Ok g' -> viewed g' N R.
Proof.
  intros [Hn Hr] Hno (id & Hn' & Hr')%run_viewed.
  assert (Hp : pairs s d (nodes (contents g)) = []).
  { unfold pairs. rewrite (refers_nobody s); [done|]. apply Permutation_nil. rewrite <- Hno. by apply filter_perm. }
  split; [intros l; by rewrite Hn', <- Hn|]. intros t' Ht'. rewrite Hr', exec_edge_none by done. by apply Hr.
Qed.

Lemma view_edge g N R s d t key vals pa pb g' : viewed g N R -> t ∈ TYPES -> ends_of t = (r_label s, r_label d) ->
  List.filter (has (r_key s) (r_value s)) (N (r_label s)) ≡ₚ [pa] -> List.filter (has (r_key d) (r_value d)) (N (r_label d)) ≡ₚ [pb] ->
  (forall r, r ∈ R t -> r.1.1 = pa -> r.2 = pb -> forallb (fun kv => has kv.1 kv.2 r.1.2) key = false) ->
  g_run (MergeEdge s d t key vals) g = Ok g' ->
  viewed g' N (plus_rows t [(pa, set_props (("kg_managed", PBool true) :: vals) key, pb)] R).
Proof.
  intros [Hn Hr] Ht Hends Fa Fb Hno (id & Hn' & Hr')%run_viewed.
  destruct (refers_one s (contents g) pa) as (a & Ea & <- & Ha & La); [rewrite (filter_perm _ _ _ (Hn _)); exact Fa|].
  destruct (refers_one d (contents g) pb) as (b & Eb & <- & Hb & Lb); [rewrite (filter_perm _ _ _ (Hn _)); exact Fb|].
  split; [intros l; by rewrite Hn', <- Hn|]. intros t' Ht'. rewrite Hr'. unfold plus_rows. destruct (decide (t' = t)) as [->|Hne].
  - rewrite bool_decide_eq_true_2 by done. rewrite <- (Hr t Ht), Hends. cbn [fst snd].
    rewrite (exec_edge_new s d t key vals id (contents g) a b); try done; [apply contents_ok|].
    intros r Hin. apply Hno. by rewrite <- Hr, Hends.
  - rewrite bool_decide_eq_false_2 by done. rewrite app_nil_r, exec_edge_other by done. by apply Hr.
Qed.

(** ** The phases of a load *)
(** The node a statement adds. *)
Definition added (key : string) (k : pyval) (vals : obj) : obj := set_props (("kg_managed", PBool true) :: vals) [(key, k)].

Lemma plus_nil l N l' : plus l [] N l' = N l'.
Proof. unfold plus. destruct (bool_decide _); apply app_nil_r. Qed.
Lemma plus_plus l ps qs N l' : plus l qs (plus l ps N) l' = plus l (ps ++ qs) N l'.
Proof. unfold plus. destruct (bool_decide _); by rewrite <- ?app_assoc, ?app_nil_r. Qed.
Lemma plus_rows_nil t R t' : plus_rows t [] R t' = R t'.
Proof. unfold plus_rows. destruct (bool_decide _); apply app_nil_r. Qed.
Lemma plus_rows_plus t ps qs R t' : plus_rows t qs (plus_rows t ps R) t' = plus_rows t (ps ++ qs) R t'.
Proof. unfold plus_rows. destruct (bool_decide _); by rewrite <- ?app_assoc, ?app_nil_r. Qed.

Lemma has_false k v p : jget p k <> v -> has k v p = false.
Proof. unfold has. intros Hn. destruct (pyval_eqb _ _) eqn:E; [|done]. by apply pyval_eqb_eq in E. Qed.
Lemma has_true k v p : has k v p = true <-> jget p k = v.
Proof. apply pyval_eqb_eq. Qed.

Definition untracked (st : stmt) : Prop := match st with MergeEdge _ _ t _ _ => t ∉ TYPES | _ => False end.
Lemma phase_untracked es : forall g N R g', viewed g N R -> Forall untracked es -> run_steps (map Ok es) g = (g', None) -> viewed g' N R.
Proof.
  induction es as [|st es IH]; intros g N R g' Hv Hu Hr; cbn [map run_steps] in Hr; [by simplify_eq|].
  apply Forall_cons in Hu as [Hst Hu]. destruct (g_run st g) as [gm|] eqn:E; [|done]. destruct st; try done.
  eapply IH; [|done|exact Hr]. by eapply view_other.
Qed.

Section NodePhase.
Context {A : Type} (label key : string) (f : A -> pyval) (h : A -> obj) (es : A -> list stmt).
Definition row_of (x : A) : obj := added key (f x) (h x).
Lemma phase_nodes xs : forall g N R g', viewed g N R ->
  Forall (fun x => Forall untracked (es x) /\ jget (row_of x) key = f x /\ forall p, p ∈ N label -> jget p key <> f x) xs ->
  NoDup (map f xs) ->
  run_steps (flat_map (fun x => Ok (MergeNode (Ref label key (f x)) (h x)) :: map Ok (es x)) xs) g = (g', None) ->
  viewed g' (plus label (map row_of xs) N) R.
Proof.
  induction xs as [|x xs IH]; intros g N R g' Hv Hx Hd Hr.
  - cbn in Hr. simplify_eq. eapply viewed_ext; [exact Hv| |done]. intros l. by rewrite plus_nil.
  - cbn [flat_map app map] in *. apply Forall_cons in Hx as [(Hu & Hk & Hf) Hx]. apply NoDup_cons in Hd as [Hxd Hd].
    cbn [run_steps] in Hr. destruct (g_run _ g) as [g1|] eqn:E1; [|done]. apply run_app in Hr as (g2 & E2 & E3).
    eapply view_node in E1; [|exact Hv|cbn; intros p Hp; by apply has_false, Hf].
    eapply phase_untracked in E2; [|exact E1|exact Hu]. cbn [r_label r_key r_value] in E2.
    eapply IH in E3; [|exact E2| |done].
    + eapply viewed_ext; [exact E3| |done]. intros l. by rewrite plus_plus.
    + rewrite Forall_forall in *. intros y Hy. destruct (Hx y Hy) as (? & ? & Hn). split_and!; try done.
      intros p. unfold plus. rewrite bool_decide_eq_true_2 by done. intros [Hp|Hp]%elem_of_app; [by apply Hn|].
      apply list_elem_of_singleton in Hp as ->. change (jget (row_of x) key <> f y). rewrite Hk. intros E. apply Hxd. rewrite E. by apply (list_elem_of_fmap_2 f).
Qed.
End NodePhase.
Lemma phase_plain {A} label key (f : A -> pyval) (h : A -> obj) xs g N R g' : viewed g N R ->
  Forall (fun x => jget (row_of key f h x) key = f x /\ forall p, p ∈ N label -> jget p key <> f x) xs -> NoDup (map f xs) ->
  run_steps (map (fun x => Ok (MergeNode (Ref label key (f x)) (h x))) xs) g = (g', None) ->
  viewed g' (plus label (map (row_of key f h) xs) N) R.
Proof.
  intros Hv Hx Hd Hr. apply (phase_nodes label key f h (fun _ => []) xs g N R g' Hv); [|done|].
  - eapply Forall_impl; [exact Hx|]. by intros x [? ?].
  - exact Hr.
Qed.

(** The allowed and denied pairs of zones. *)
Section PolicyPhase.
Context (zone : pyval -> obj).
Definition policy_row (e : (pyval * pyval) * pyval) : obj * obj * obj :=
  (zone e.1.1, [("kg_managed", PBool true)], zone e.1.2).
Definition of_type (t : string) (matrix : list ((pyval * pyval) * pyval)) : list (obj * obj * obj) :=
  map policy_row (List.filter (fun e => bool_decide (rel e.2 = t)) matrix).

Lemma rel_tracked v : rel v ∈ TYPES /\ ends_of (rel v) = ("Zone", "Zone").
Proof. unfold rel. destruct (pyval_eqb _ _); split; try done; unfold TYPES; set_solver. Qed.

Lemma phase_policy matrix : forall g N R g', viewed g N R ->
  Forall (fun e : (pyval * pyval) * pyval =>
    (forall z, z = e.1.1 \/ z = e.1.2 -> (List.filter (has "name" z) (N "Zone") ≡ₚ [zone z]) /\ jget (zone z) "name" = z) /\
    forall (t : string) (r : obj * obj * obj), t ∈ ["ALLOW"; "DENY"] -> r ∈ R t -> (jget r.1.1 "name", jget r.2 "name") <> e.1) matrix ->
  NoDup matrix.*1 -> run_steps (policy_steps matrix) g = (g', None) ->
  viewed g' N (fun t => R t ++ (if bool_decide (t ∈ ["ALLOW"; "DENY"]) then of_type t matrix else [])).
Proof.
  induction matrix as [|e matrix IH]; intros g N R g' Hv Hx Hd Hr.
  - cbn in Hr. simplify_eq. eapply viewed_ext; [exact Hv|done|]. intros t. by destruct (bool_decide _); rewrite app_nil_r.
  - apply Forall_cons in Hx as [[Hz Hno] Hx]. cbn [fmap list_fmap] in Hd. apply NoDup_cons in Hd as [Hed Hd].
    unfold policy_steps in Hr. cbn [map run_steps] in Hr. destruct (g_run _ g) as [g1|] eqn:E1; [|done].
    destruct (rel_tracked e.2) as [Ht Hends]. destruct (Hz e.1.1) as [F1 K1]; [by left|]. destruct (Hz e.1.2) as [F2 K2]; [by right|].
    assert (Hrel : rel e.2 ∈ ["ALLOW"; "DENY"]) by (unfold rel; destruct (pyval_eqb _ _); set_solver).
    eapply view_edge in E1; [|exact Hv|exact Ht|exact Hends|exact F1|exact F2|].
    2:{ intros r Hin E1' E2'. exfalso. apply (Hno _ _ Hrel Hin). rewrite E1', E2', K1, K2. by destruct e as [[] ?]. }
    eapply IH in Hr; [|exact E1| |done].
    + eapply viewed_ext; [exact Hr|done|]. intros t. unfold plus_rows, of_type. cbn [List.filter].
      destruct (decide (t = rel e.2)) as [->|Hne].
      * rewrite !bool_decide_eq_true_2 by done. cbn [map]. by rewrite <- app_assoc.
      * rewrite (bool_decide_eq_false_2 (t = _)), (bool_decide_eq_false_2 (rel e.2 = t)) by congruence. by rewrite app_nil_r.
    + rewrite Forall_forall in *. intros e' He'. destruct (Hx e' He') as [? Hn]. split; [done|].
      intros t r Htt. unfold plus_rows. intros [Hin|Hin]%elem_of_app; [by eapply Hn|].
      destruct (bool_decide (t = rel e.2)); [|by apply elem_of_nil in Hin]. apply list_elem_of_singleton in Hin as ->. cbn [fst snd].
      rewrite K1, K2. intros E. apply Hed. replace e.1 with e'.1 by (by rewrite <- E; destruct e as [[] ?]). by apply (list_elem_of_fmap_2 fst).
Qed.
End PolicyPhase.

(** The kill chains with the edges from the SIDs that are known. *)
Section ChainPhase.
Context (known : Z -> bool) (srow : Z -> obj).
Definition crow (c : KillChain) : obj := added "name" (PStr (ch_name c)) (chain_props c).
Definition link : Type := KillChainStage * Z.
Definition links (c : KillChain) : list link := flat_map (fun st : KillChainStage => map (fun s => (st, s)) (ks_signals st)) (ch_stages c).
Definition link_props (x : link) : obj := set_props (("kg_managed", PBool true) :: stage_props x.1) [("stage", PInt (ks_stage x.1))].
Definition link_row (c : KillChain) (x : link) : obj * obj * obj := (srow x.2, link_props x, crow c).
Definition link_step (c : KillChain) (x : link) : res stmt :=
  Ok (MergeEdge (sid_ref (PInt x.2)) (chain_ref (ch_name c)) "EXPECTED_IN" [("stage", PInt (ks_stage x.1))] (stage_props x.1)).
Definition known_links (c : KillChain) : list link := List.filter (fun x => known x.2) (links c).

Lemma link_stage x : jget (link_props x) "stage" = PInt (ks_stage x.1).
Proof. reflexivity. Qed.
Lemma crow_name c : jget (crow c) "name" = PStr (ch_name c).
Proof. reflexivity. Qed.

Lemma phase_links c xs : forall g N R g', viewed g N R ->
  (List.filter (has "name" (PStr (ch_name c))) (N "KillChain") ≡ₚ [crow c]) ->
  (forall s, if known s then (List.filter (has "sid" (PInt s)) (N "Sid") ≡ₚ [srow s]) /\ jget (srow s) "sid" = PInt s
             else List.filter (has "sid" (PInt s)) (N "Sid") = []) ->
  (forall (r : obj * obj * obj) (x : link), r ∈ R "EXPECTED_IN" -> x ∈ xs -> r.2 = crow c -> jget r.1.1 "sid" = PInt x.2 ->
    jget r.1.2 "stage" <> PInt (ks_stage x.1)) ->
  NoDup (map (fun x : link => (ks_stage x.1, x.2)) xs) -> run_steps (map (link_step c) xs) g = (g', None) ->
  viewed g' N (plus_rows "EXPECTED_IN" (map (link_row c) (List.filter (fun x => known x.2) xs)) R).
Proof.
  induction xs as [|x xs IH]; intros g N R g' Hv Hc Hs Hno Hd Hr.
  - cbn in Hr. simplify_eq. eapply viewed_ext; [exact Hv|done|]. intros t. by rewrite plus_rows_nil.
  - cbn [map] in *. apply NoDup_cons in Hd as [Hxd Hd]. unfold link_step at 1 in Hr. cbn [run_steps] in Hr.
    destruct (g_run _ g) as [g1|] eqn:E1; [|done]. pose proof (Hs x.2) as Hx. cbn [List.filter]. destruct (known x.2) eqn:Ek.
    + destruct Hx as [Fs Ks]. eapply view_edge in E1; [|exact Hv|unfold TYPES; set_solver|done|exact Fs|exact Hc|].
      2:{ intros r Hin E1' E2'. cbn [forallb fst snd]. rewrite has_false; [done|]. apply (Hno r x); try done; [by left|by rewrite E1']. }
      eapply IH in Hr; [|exact E1|done|done| |done].
      * eapply viewed_ext; [exact Hr|done|]. intros t. by rewrite plus_rows_plus.
      * intros r y. unfold plus_rows. rewrite bool_decide_eq_true_2 by done. intros [Hin|Hin]%elem_of_app Hy; [by apply Hno; [|right]|].
        apply list_elem_of_singleton in Hin as ->. cbn [fst snd]. intros _. fold (link_props x). rewrite Ks, link_stage. intros [= Esid] [= Est].
        apply Hxd. rewrite Est, Esid. by apply (list_elem_of_fmap_2 (fun x : link => (ks_stage x.1, x.2))).
    + eapply view_nobody in E1; [|exact Hv|exact Hx]. eapply IH; try done. intros r y Hin Hy. by apply Hno; [|right].
Qed.

Lemma chain_steps_links chains :
  chain_steps chains = flat_map (fun c => Ok (MergeNode (chain_ref (ch_name c)) (chain_props c)) :: map (link_step c) (links c)) chains.
Proof.
  unfold chain_steps. apply flat_map_ext. intros c. f_equal. unfold links. induction (ch_stages c) as [|st l IH]; [done|].
  cbn [flat_map]. rewrite map_app, IH. f_equal. by rewrite map_map.
Qed.

Lemma phase_chains chains : forall g N R g', viewed g N R ->
  (forall s, if known s then (List.filter (has "sid" (PInt s)) (N "Sid") ≡ₚ [srow s]) /\ jget (srow s) "sid" = PInt s
             else List.filter (has "sid" (PInt s)) (N "Sid") = []) ->
  Forall (fun c => NoDup (map (fun x : link => (ks_stage x.1, x.2)) (links c)) /\
    (forall p, p ∈ N "KillChain" -> jget p "name" <> PStr (ch_name c)) /\
    (forall r : obj * obj * obj, r ∈ R "EXPECTED_IN" -> jget r.2 "name" <> PStr (ch_name c))) chains ->
  NoDup (map ch_name chains) -> run_steps (chain_steps chains) g = (g', None) ->
  viewed g' (plus "KillChain" (map crow chains) N)
    (plus_rows "EXPECTED_IN" (flat_map (fun c => map (link_row c) (known_links c)) chains) R).
Proof.
  setoid_rewrite chain_steps_links. induction chains as [|c chains IH]; intros g N R g' Hv Hs Hx Hd Hr.
  - cbn in Hr. simplify_eq. eapply viewed_ext; [exact Hv| |]; intros t; by rewrite ?plus_rows_nil, ?plus_nil.
  - cbn [flat_map app map] in *. apply Forall_cons in Hx as [(Hn & Hp & Hr') Hx]. apply NoDup_cons in Hd as [Hcd Hd].
    cbn [run_steps] in Hr. destruct (g_run _ g) as [g1|] eqn:E1; [|done]. apply run_app in Hr as (g2 & E2 & E3).
    eapply view_node in E1; [|exact Hv|cbn; intros p Hin; by apply has_false, Hp]. cbn [r_label r_key r_value chain_ref] in E1.
    assert (Es : forall ps, plus "KillChain" ps N "Sid" = N "Sid") by (intros ps; apply app_nil_r).
    eapply phase_links in E2; [|exact E1| |intros s; rewrite Es; apply Hs| |exact Hn].
    2:{ unfold plus. rewrite bool_decide_eq_true_2 by done. rewrite List.filter_app, (filter_false _ (N "KillChain")).
        - change (List.filter (has "name" (PStr (ch_name c))) [crow c] ≡ₚ [crow c]). cbn [List.filter].
          by rewrite (proj2 (has_true _ _ _) (crow_name c)).
        - intros p Hin. by apply has_false, Hp. }
    2:{ intros r x Hin _ E _. exfalso. apply (Hr' r Hin). by rewrite E, crow_name. }
    eapply IH in E3; [|exact E2|intros s; rewrite Es; apply Hs| |done].
    + eapply viewed_ext; [exact E3| |]; intros t; by rewrite ?plus_rows_plus, ?plus_plus.
    + rewrite Forall_forall in *. intros y Hy. destruct (Hx y Hy) as (? & Hyp & Hyr).
      assert (Hne : PStr (ch_name c) <> PStr (ch_name y)) by (intros [= E]; apply Hcd; rewrite E; by apply (list_elem_of_fmap_2 ch_name)).
      split_and!; [done| |].
      * intros p. unfold plus. rewrite bool_decide_eq_true_2 by done. intros [Hin|Hin]%elem_of_app; [by apply Hyp|].
        apply list_elem_of_singleton in Hin as ->. exact Hne.
      * intros r. unfold plus_rows. rewrite bool_decide_eq_true_2 by done. intros [Hin|Hin]%elem_of_app; [by apply Hyr|].
        apply list_elem_of_fmap in Hin as (x & -> & _). exact Hne.
Qed.
End ChainPhase.
End Run.
