(* ===== verification/KnowledgeRoundtrip.v ===== *)
(** * What comes back of a catalogue (storage/neo4j_kg.py, neo4j_reader.py)

    [restored] says what a load and a read make of a catalogue: the same entries, in
    another order, except that a stage of a kill chain keeps only the signals that are
    known SIDs and is lost without one.  [loaded] says what a load leaves in the graph,
    [load_loaded] that it does. *)
From S2P Require Import Prelude PyVal Json JsonLoads Models Topology Policy Knowledge KnowledgeGraph KnowledgeReload.
Local Open Scope string_scope.
Local Open Scope Z_scope.
Local Open Scope list_scope.

(** ** Catalogues as they are authored *)
Definition service_text (s : Service) : bool :=
  text_ok (sv_proto s) && text_ok (sv_name s) && text_ok (sv_facing s) && text_ok (sv_purpose s).
(** A value that a property can hold and a dict can have as a key. *)
Definition keyed_by (v : pyval) : Prop := v <> PNone /\ is_ok (key_of v) = true.
Definition FAILURE_KEYS : list string := ["name"; "trigger"; "rest_status"; "body_signature"; "state"; "agent_action"].
Definition filled (ks : list string) (v : pyval) : Prop := forall k x, k ∈ ks -> index_key v k = Ok x -> x <> PNone.

Record authored_ok (k : knowledge) : Prop := {
  ok_zones : Forall (fun z => z.1 = zn_name z.2) (k_zones k) /\ NoDup (k_zones k).*1;
  ok_assets : Forall (fun a => a.1 = as_ip a.2 /\ forallb service_text (as_services a.2) = true) (k_assets k) /\ NoDup (k_assets k).*1;
  ok_leafs : Forall (fun l => l.1 = lf_name l.2) (k_leafs k) /\ NoDup (k_leafs k).*1;
  ok_sids : Forall (fun d : pyval * Knowledge.SidDetection => d.1 = PInt (sd_sid d.2)) (k_sids k) /\ NoDup (k_sids k).*1;
  ok_matrix : NoDup (k_policy_matrix k).*1 /\ Forall (fun e : (pyval * pyval) * pyval => exists s d, e.1 = (PStr s, PStr d) /\
    (s ∈ (k_zones k).*1) /\ (d ∈ (k_zones k).*1) /\ (e.2 = PStr "ALLOW" \/ e.2 = PStr "DENY")) (k_policy_matrix k);
  ok_chains : NoDup (map ch_name (k_kill_chains k)) /\ Forall (fun c => NoDup (map (fun st : KillChainStage => ks_stage st) (ch_stages c)) /\
    Forall (fun st : KillChainStage => NoDup (ks_signals st)) (ch_stages c)) (k_kill_chains k);
  ok_patterns : NoDup (map (fun p : TrafficPattern => tp_name p) (b_patterns (k_baselines k)));
  ok_contracts : Forall (fun c => keyed_by c.1 /\ c.2 <> PNone) (e_endpoint_contracts (k_enforcement k)) /\
    NoDup (e_endpoint_contracts (k_enforcement k)).*1;
  ok_gotchas : Forall (fun g => g <> PNone) (e_critical_gotchas (k_enforcement k));
  ok_mapping : Forall (filled ["rest_request"; "yang_gnmi"; "configdb"]) (e_field_name_mapping (k_enforcement k));
  ok_failures : Forall (filled FAILURE_KEYS) (e_failure_modes (k_enforcement k)) /\
    NoDup (map (fun m => index_key m "name") (e_failure_modes (k_enforcement k)));
  ok_rbac : e_rbac_contract (k_enforcement k) <> PNone;
  ok_cidrs : Forall (fun c => keyed_by c /\ dict_get (i_never_block_rationale (k_invariants k)) c <> Some PNone)
      (i_never_block_cidrs (k_invariants k)) /\ NoDup (i_never_block_cidrs (k_invariants k));
  ok_actions : Forall (fun a => is_ok (key_of a) = true) (i_allowed_agent_actions (k_invariants k)) /\
    NoDup (map key_of (i_allowed_agent_actions (k_invariants k)));
  ok_prefix : i_agent_comment_prefix (k_invariants k) <> PNone }.

(** ** What is restored *)
Definition knows (k : knowledge) (sid : Z) : bool := bool_decide (PInt sid ∈ (k_sids k).*1).
Definition restored_stage (k : knowledge) (st : KillChainStage) : option KillChainStage :=
  match List.filter (knows k) (ks_signals st) with
  | [] => None
  | l => Some (mkStage (Stage (ks_stage st) (merge_sort Z.le l)) (st_tactic st) (st_production_indicators st) (st_false_positive_sources st))
  end.
Definition stage_lt (a b : KillChainStage) : Prop := ks_stage a < ks_stage b.
Record restored_chain (k : knowledge) (c c' : KillChain) : Prop := {
  rc_texts : ch_name c' = ch_name c /\ ch_production_description c' = ch_production_description c /\
    ch_typical_dwell c' = ch_typical_dwell c /\ ch_intervention_point c' = ch_intervention_point c /\
    ch_containment_strategy c' = ch_containment_strategy c;
  rc_stages : ch_stages c' ≡ₚ omap (restored_stage k) (ch_stages c);
  rc_sorted : StronglySorted stage_lt (ch_stages c') }.
(** A mapping with the keys that are stored. *)
Definition canon (ks : list string) (v : pyval) : pyval := PDict (map (fun k => (k, res_or PNone (index_key v k))) ks).

Record restored (k k' : knowledge) : Prop := {
  rs_zones : k_zones k' ≡ₚ k_zones k;
  rs_assets : k_assets k' ≡ₚ k_assets k;
  rs_leafs : k_leafs k' ≡ₚ k_leafs k;
  rs_sids : k_sids k' ≡ₚ k_sids k;
  rs_matrix : k_policy_matrix k' ≡ₚ k_policy_matrix k;
  rs_patterns : exists app mgt, b_patterns (k_baselines k') = app ++ mgt /\
    (app ≡ₚ List.filter (fun p => negb (is_mgt p)) (b_patterns (k_baselines k))) /\
    (mgt ≡ₚ List.filter is_mgt (b_patterns (k_baselines k)));
  rs_baselines : b_anomalous_patterns (k_baselines k') = b_anomalous_patterns (k_baselines k) /\
    b_steady_state (k_baselines k') = b_steady_state (k_baselines k) /\ b_audit_rate (k_baselines k') = b_audit_rate (k_baselines k);
  rs_chains : exists cs, (cs ≡ₚ k_kill_chains k) /\ Forall2 (restored_chain k) cs (k_kill_chains k');
  rs_contracts : e_endpoint_contracts (k_enforcement k') ≡ₚ e_endpoint_contracts (k_enforcement k);
  rs_lists : e_critical_gotchas (k_enforcement k') = e_critical_gotchas (k_enforcement k) /\
    e_field_name_mapping (k_enforcement k') = map (canon ["rest_request"; "yang_gnmi"; "configdb"]) (e_field_name_mapping (k_enforcement k)) /\
    e_rbac_contract (k_enforcement k') = e_rbac_contract (k_enforcement k);
  rs_failures : e_failure_modes (k_enforcement k') ≡ₚ map (canon FAILURE_KEYS) (e_failure_modes (k_enforcement k));
  rs_cidrs : i_never_block_cidrs (k_invariants k') ≡ₚ i_never_block_cidrs (k_invariants k);
  rs_rationale : forall c, c ∈ i_never_block_cidrs (k_invariants k) ->
    dict_get (i_never_block_rationale (k_invariants k')) c = Some (default (PStr "") (dict_get (i_never_block_rationale (k_invariants k)) c));
  rs_actions : i_allowed_agent_actions (k_invariants k') ≡ₚ i_allowed_agent_actions (k_invariants k);
  rs_prefixes : i_protected_comment_prefixes (k_invariants k') = i_protected_comment_prefixes (k_invariants k) /\
    i_agent_comment_prefix (k_invariants k') = i_agent_comment_prefix (k_invariants k) }.

(** ** The nodes of a load *)
Definition zone_row (z : string * Zone) : obj := added "name" (PStr z.1) (zone_props z.2).
Definition leaf_row (l : string * Leaf) : obj := added "name" (PStr l.1) (leaf_props l.2).
Definition sid_row (d : pyval * SidDetection) : obj := added "sid" d.1 (sid_props d.2).
Definition pattern_row (p : TrafficPattern) : obj := added "name" (PStr (tp_name p)) (baseline_props p).
Definition contract_row (c : pyval * pyval) : obj := added "endpoint" c.1 [("description", c.2)].
Definition gotcha_row (g : Z * pyval) : obj := added "idx" (PInt g.1) [("text", g.2)].
Definition stored_items (ks : list string) (v : pyval) : obj := map (fun k => (k, res_or PNone (index_key v k))) ks.
Definition mapping_row (m : Z * pyval) : obj := added "idx" (PInt m.1) (stored_items ["rest_request"; "yang_gnmi"; "configdb"] m.2).
Definition failure_row (m : pyval) : obj :=
  added "name" (res_or PNone (index_key m "name")) (stored_items ["trigger"; "rest_status"; "body_signature"; "state"; "agent_action"] m).
Definition cidr_row (i : invariants) (c : pyval) : obj :=
  added "cidr" c [("rationale", default (PStr "") (dict_get (i_never_block_rationale i) c))].
Section Rows.
Context `{PyRepr}.
Definition asset_row (a : string * Asset) : obj := added "ip" (PStr a.1) (asset_props a.2).
End Rows.

(** ** Properties of the added nodes *)
Lemma set_props_get vals : forall p k, k ∉ vals.*1 -> dict_get (set_props vals p) k = dict_get p k.
Proof.
  induction vals as [|[k' v] vals IH]; intros p k Hk; [done|]. cbn [fmap list_fmap] in Hk. apply not_elem_of_cons in Hk as [Hne Hk].
  cbn [set_props foldl]. fold (set_props vals (set_prop p (k', v))). rewrite IH by done. unfold set_prop. cbn in *.
  destruct v; by rewrite ?dict_get_set_ne, ?dict_get_del, ?decide_False by congruence.
Qed.
Lemma set_props_in vals : forall p k v, NoDup vals.*1 -> (k, v) ∈ vals -> v <> PNone -> dict_get (set_props vals p) k = Some v.
Proof.
  induction vals as [|[k' v'] vals IH]; intros p k v Hd Hin Hv; [by apply elem_of_nil in Hin|]. cbn [fmap list_fmap] in Hd.
  apply NoDup_cons in Hd as [Hk Hd]. cbn [set_props foldl]. fold (set_props vals (set_prop p (k', v'))).
  apply elem_of_cons in Hin as [[= -> ->]|Hin]; [|by apply IH]. rewrite set_props_get by done. unfold set_prop. cbn in *.
  by destruct v'; rewrite ?dict_get_set_eq.
Qed.
Lemma added_key key k vals : key ∉ vals.*1 -> key <> "kg_managed" -> dict_get (added key k vals) key = Some k.
Proof.
  intros Hk Hm. unfold added. rewrite set_props_get; [cbn; by rewrite decide_True|]. cbn. by apply not_elem_of_cons.
Qed.
Lemma added_value key k vals x v : NoDup vals.*1 -> "kg_managed" ∉ vals.*1 -> (x, v) ∈ vals -> v <> PNone ->
  dict_get (added key k vals) x = Some v.
Proof.
  intros Hd Hm Hin Hv. unfold added. apply set_props_in; [|by right|done]. cbn. by apply NoDup_cons.
Qed.
Lemma added_managed key k vals : "kg_managed" ∉ vals.*1 -> managed (added key k vals) = true.
Proof.
  intros Hm. unfold managed, has, jget, added. cbn [set_props foldl]. fold (set_props vals (set_prop [(key, k)] ("kg_managed", PBool true))).
  rewrite set_props_get by done. unfold set_prop. cbn [snd fst]. by rewrite dict_get_set_eq.
Qed.
Lemma added_jget key k vals : key ∉ vals.*1 -> key <> "kg_managed" -> jget (added key k vals) key = k.
Proof. intros. unfold jget. by rewrite added_key. Qed.

(** The one row with a key. *)
Lemma filter_key {A} (key : string) (f : A -> pyval) (row : A -> obj) xs x : (forall y, jget (row y) key = f y) ->
  NoDup (map f xs) -> x ∈ xs -> List.filter (has key (f x)) (map row xs) = [row x].
Proof.
  intros Hr. induction xs as [|y xs IH]; intros Hd Hin; [by apply elem_of_nil in Hin|]. cbn [map List.filter] in *.
  apply NoDup_cons in Hd as [Hy Hd]. destruct (has key (f x) (row y)) eqn:E.
  - apply has_true in E. rewrite Hr in E. rewrite filter_false.
    + apply elem_of_cons in Hin as [->|Hin]; [done|]. exfalso. apply Hy. rewrite E. by apply (list_elem_of_fmap_2 f).
    + intros z (w & -> & Hw)%list_elem_of_fmap. apply has_false. rewrite Hr. intros Ew. apply Hy. rewrite E, <- Ew. by apply (list_elem_of_fmap_2 f).
  - apply elem_of_cons in Hin as [->|Hin]; [|by apply IH]. by rewrite (proj2 (has_true _ _ _) (Hr y)) in E.
Qed.
Lemma filter_no_key {A} (key : string) (f : A -> pyval) (row : A -> obj) xs v : (forall y, jget (row y) key = f y) ->
  v ∉ map f xs -> List.filter (has key v) (map row xs) = [].
Proof.
  intros Hr Hv. apply filter_false. intros z (w & -> & Hw)%list_elem_of_fmap. apply has_false. rewrite Hr. intros E. apply Hv. rewrite <- E.
  by apply (list_elem_of_fmap_2 f).
Qed.

Lemma zone_row_key z : jget (zone_row z) "name" = PStr z.1.
Proof. reflexivity. Qed.
Lemma sid_row_key d : jget (sid_row d) "sid" = d.1.
Proof. reflexivity. Qed.

Definition zone_at (k : knowledge) (v : pyval) : obj :=
  match v with PStr s => match dict_get (k_zones k) s with Some z => zone_row (s, z) | None => [] end | _ => [] end.
Definition sid_at (k : knowledge) (s : Z) : obj :=
  match dict_get (k_sids k) (PInt s) with Some d => sid_row (PInt s, d) | None => [] end.

Lemma NoDup_PStr (l : list string) : NoDup l -> NoDup (map PStr l).
Proof. apply NoDup_fmap_2. by intros ? ? [= ->]. Qed.
Lemma NoDup_PInt (l : list Z) : NoDup l -> NoDup (map PInt l).
Proof. apply NoDup_fmap_2. by intros ? ? [= ->]. Qed.

(** ** The graph after a load *)
Section Load.
Context `{PyRepr} `{Neo4jLaws}.

Definition meta_baselines (b : baselines) : obj :=
  added "key" (PStr "baseline_constants") [("steady_state_flows_per_minute", PInt (b_steady_state b));
    ("mgt_audit_alert_rate_per_minute", PInt (b_audit_rate b)); ("anomalous_patterns", PList (b_anomalous_patterns b))].
Definition meta_rbac (e : enforcement) : obj := added "key" (PStr "rbac_contract") [("text", e_rbac_contract e)].
Definition meta_invariants (i : invariants) (actions : list pyval) : obj :=
  added "key" (PStr "agent_invariants") [("allowed_agent_actions", PList actions);
    ("protected_comment_prefixes", PList (i_protected_comment_prefixes i)); ("agent_comment_prefix", i_agent_comment_prefix i)].

Record loaded (k : knowledge) (g : graph_data) : Prop := {
  ld_zones : nodes_of "Zone" g ≡ₚ map zone_row (k_zones k);
  ld_leafs : nodes_of "Leaf" g ≡ₚ map leaf_row (k_leafs k);
  ld_assets : nodes_of "Asset" g ≡ₚ map asset_row (k_assets k);
  ld_sids : nodes_of "Sid" g ≡ₚ map sid_row (k_sids k);
  ld_chains : nodes_of "KillChain" g ≡ₚ map crow (k_kill_chains k);
  ld_patterns : nodes_of "Baseline" g ≡ₚ map pattern_row (b_patterns (k_baselines k));
  ld_meta : exists actions, sorted_values (i_allowed_agent_actions (k_invariants k)) = Ok actions /\
    nodes_of "KnowledgeMeta" g ≡ₚ [meta_baselines (k_baselines k); meta_rbac (k_enforcement k); meta_invariants (k_invariants k) actions];
  ld_contracts : nodes_of "ApiEndpoint" g ≡ₚ map contract_row (e_endpoint_contracts (k_enforcement k));
  ld_gotchas : nodes_of "Gotcha" g ≡ₚ map gotcha_row (enumerate (e_critical_gotchas (k_enforcement k)));
  ld_mapping : nodes_of "FieldMapping" g ≡ₚ map mapping_row (enumerate (e_field_name_mapping (k_enforcement k))) /\
    Forall (fun m => Forall (fun x => is_ok (index_key m x) = true) ["rest_request"; "yang_gnmi"; "configdb"]) (e_field_name_mapping (k_enforcement k));
  ld_failures : nodes_of "FailureMode" g ≡ₚ map failure_row (e_failure_modes (k_enforcement k)) /\
    Forall (fun m => Forall (fun x => is_ok (index_key m x) = true) FAILURE_KEYS) (e_failure_modes (k_enforcement k));
  ld_cidrs : nodes_of "NeverBlockEntry" g ≡ₚ map (cidr_row (k_invariants k)) (i_never_block_cidrs (k_invariants k));
  ld_allow : typed "Zone" "ALLOW" "Zone" g ≡ₚ of_type (zone_at k) "ALLOW" (k_policy_matrix k);
  ld_deny : typed "Zone" "DENY" "Zone" g ≡ₚ of_type (zone_at k) "DENY" (k_policy_matrix k);
  ld_links : typed "Sid" "EXPECTED_IN" "KillChain" g ≡ₚ
    flat_map (fun c => map (link_row (sid_at k) c) (known_links (knows k) c)) (k_kill_chains k) }.

Lemma run_steps_ok (steps : list (res stmt)) : forall g g', run_steps steps g = (g', None) -> Forall (fun s => is_ok s = true) steps.
Proof.
  induction steps as [|[st|e] steps IH]; intros g g' Hr; cbn in Hr; [constructor| |done].
  destruct (g_run st g) as [gm|]; [|done]. constructor; [done|]. by eapply IH.
Qed.

Lemma items_stored x ks : is_ok (items x (map (fun k => (k, k)) ks)) = true ->
  items x (map (fun k => (k, k)) ks) = Ok (stored_items ks x) /\ Forall (fun k => is_ok (index_key x k) = true) ks.
Proof.
  induction ks as [|k ks IH]; cbn [map items stored_items]; [by split|]. destruct (index_key x k) as [v|e] eqn:E; cbn [rbind]; [|done].
  destruct (items x _) as [rest|] eqn:Er; cbn [rbind]; [|done]. intros _. destruct IH as [[= ->] Hok]; [done|].
  split; [done|]. constructor; [by rewrite E|done].
Qed.

Definition failure_items : list string := ["trigger"; "rest_status"; "body_signature"; "state"; "agent_action"].
Lemma failure_step_ok m : is_ok (failure_step m) = true ->
  failure_step m = Ok (MergeNode (Ref "FailureMode" "name" (res_or PNone (index_key m "name"))) (stored_items failure_items m)) /\
  Forall (fun x => is_ok (index_key m x) = true) FAILURE_KEYS.
Proof.
  unfold failure_step. destruct (index_key m "name") as [n|] eqn:En; cbn [rbind]; [|done].
  change [("trigger", "trigger"); _; _; _; _] with (map (fun k : string => (k, k)) failure_items).
  destruct (items m _) as [props|] eqn:Ei; cbn [rbind]; [|done]. intros _.
  destruct (items_stored m failure_items) as [Es Hok]; [by rewrite Ei|]. rewrite Es in Ei. injection Ei as <-.
  split; [done|]. constructor; [by rewrite En|exact Hok].
Qed.
Lemma mapping_step_ok (m : Z * pyval) : is_ok (let* props := items m.2 MAPPING_KEYS in Ok (MergeNode (Ref "FieldMapping" "idx" (PInt m.1)) props)) = true ->
  (let* props := items m.2 MAPPING_KEYS in Ok (MergeNode (Ref "FieldMapping" "idx" (PInt m.1)) props)) =
    Ok (MergeNode (Ref "FieldMapping" "idx" (PInt m.1)) (stored_items ["rest_request"; "yang_gnmi"; "configdb"] m.2)) /\
  Forall (fun x => is_ok (index_key m.2 x) = true) ["rest_request"; "yang_gnmi"; "configdb"].
Proof.
  change MAPPING_KEYS with (map (fun k : string => (k, k)) ["rest_request"; "yang_gnmi"; "configdb"]).
  destruct (items m.2 _) as [props|] eqn:Ei; cbn [rbind]; [|done]. intros _.
  destruct (items_stored m.2 ["rest_request"; "yang_gnmi"; "configdb"]) as [Es Hok]; [by rewrite Ei|]. rewrite Es in Ei. by injection Ei as <-.
Qed.

Lemma plus_eq l ps N : plus l ps N l = N l ++ ps.
Proof. unfold plus. by rewrite bool_decide_eq_true_2. Qed.
Lemma plus_ne l l' ps N : l' <> l -> plus l ps N l' = N l'.
Proof. intros Hn. unfold plus. rewrite bool_decide_eq_false_2 by done. apply app_nil_r. Qed.

Lemma enumerate_nodup {A} (l : list A) : NoDup (map (fun x : Z * A => PInt x.1) (enumerate l)).
Proof.
  unfold enumerate. apply NoDup_alt. intros i j x Hi Hj.
  apply list_lookup_fmap_Some in Hi as (a & -> & Ha), Hj as (b & E & Hb). rewrite list_lookup_imap in Ha, Hb.
  destruct (l !! i); [|done]. destruct (l !! j); [|done]. simplify_eq/=. lia.
Qed.
Lemma untracked_edge s d t key vals : t ∉ TYPES -> untracked (MergeEdge s d t key vals).
Proof. done. Qed.



Implicit Types (N : string -> list obj) (R : string -> list (obj * obj * obj)) (g : graph).

(** *** The phases of a load *)
Lemma phase_fresh {A} label key (f : A -> pyval) (h : A -> obj) xs g N R g' : viewed g N R -> N label = [] ->
  (forall x, jget (added key (f x) (h x)) key = f x) -> NoDup (map f xs) ->
  run_steps (map (fun x => Ok (MergeNode (Ref label key (f x)) (h x))) xs) g = (g', None) ->
  viewed g' (plus label (map (fun x => added key (f x) (h x)) xs) N) R.
Proof.
  intros Hv Hn Hk Hd Hr. apply (phase_plain label key f h xs g N R g' Hv); [|done|done].
  apply Forall_forall. intros x _. split; [apply Hk|]. rewrite Hn. by intros p ?%elem_of_nil.
Qed.

Lemma phase_topology k g N R g' : authored_ok k -> viewed g N R -> N "Zone" = [] -> N "Leaf" = [] -> N "Asset" = [] ->
  run_steps (zone_steps (k_zones k) ++ leaf_steps (k_leafs k) ++ asset_steps (k_assets k)) g = (g', None) ->
  viewed g' (plus "Asset" (map asset_row (k_assets k)) (plus "Leaf" (map leaf_row (k_leafs k)) (plus "Zone" (map zone_row (k_zones k)) N))) R.
Proof.
  intros Hk Hv Nz Nl Na Hr. apply run_app in Hr as (g1 & H1' & Hr). apply run_app in Hr as (g2 & H2' & Hr).
  apply (phase_fresh "Zone" "name" (fun z : string * Zone => PStr z.1) (fun z => zone_props z.2) _ _ _ _ _ Hv Nz) in H1'; [|done|].
  2:{ rewrite <- (map_map fst PStr). apply NoDup_PStr, Hk. }
  assert (El : leaf_steps (k_leafs k) = flat_map (fun l : string * Leaf => Ok (MergeNode (Ref "Leaf" "name" (PStr l.1)) (leaf_props l.2)) ::
    map Ok (map (fun z => MergeEdge (Ref "Leaf" "name" (PStr l.1)) (zone_ref (PStr z)) "ENFORCES" [] []) (lf_zones l.2))) (k_leafs k)).
  { apply flat_map_ext. intros l. by rewrite map_map. }
  rewrite El in H2'. apply (phase_nodes "Leaf" "name" (fun l : string * Leaf => PStr l.1) (fun l => leaf_props l.2) _ _ _ _ _ _ H1') in H2'.
  2:{ apply Forall_forall. intros l _. split_and!; [|done|rewrite plus_ne, Nl by done; by intros ? ?%elem_of_nil].
      apply Forall_map, Forall_true. intros z. cbn. unfold TYPES. set_solver. }
  2:{ rewrite <- (map_map fst PStr). apply NoDup_PStr, Hk. }
  apply (phase_nodes "Asset" "ip" (fun a : string * Asset => PStr a.1) (fun a => asset_props a.2)
    (fun a => [MergeEdge (Ref "Asset" "ip" (PStr a.1)) (zone_ref (PStr (as_zone a.2))) "MEMBER_OF" [] []]) _ _ _ _ _ H2') in Hr.
  2:{ apply Forall_forall. intros a _. split_and!; [|done|rewrite !plus_ne, Na by done; by intros ? ?%elem_of_nil].
      constructor; [|done]. cbn. unfold TYPES. set_solver. }
  2:{ rewrite <- (map_map fst PStr). apply NoDup_PStr, Hk. }
  exact Hr.
Qed.

Lemma zone_at_spec k z : authored_ok k -> z ∈ (k_zones k).*1 ->
  (List.filter (has "name" (PStr z)) (map zone_row (k_zones k)) ≡ₚ [zone_at k (PStr z)]) /\ jget (zone_at k (PStr z)) "name" = PStr z.
Proof.
  intros Hk Hz. destruct (dict_get (k_zones k) z) as [x|] eqn:E; [|by apply dict_get_None in E]. unfold zone_at. rewrite E. split; [|done].
  apply dict_get_elem in E. by rewrite (filter_key "name" (fun z : string * Zone => PStr z.1) zone_row _ (z, x));
    [|done|rewrite <- (map_map fst PStr); apply NoDup_PStr, Hk|].
Qed.
Lemma sid_at_spec k s : authored_ok k ->
  if knows k s then (List.filter (has "sid" (PInt s)) (map sid_row (k_sids k)) ≡ₚ [sid_at k s]) /\ jget (sid_at k s) "sid" = PInt s
  else List.filter (has "sid" (PInt s)) (map sid_row (k_sids k)) = [].
Proof.
  intros Hk. unfold knows. case_bool_decide as Hs.
  - destruct (dict_get (k_sids k) (PInt s)) as [x|] eqn:E; [|by apply dict_get_None in E]. unfold sid_at. rewrite E. split; [|done].
    apply dict_get_elem in E. by rewrite (filter_key "sid" fst sid_row _ (PInt s, x)); [|done|apply Hk|].
  - by apply (filter_no_key "sid" fst sid_row).
Qed.
Lemma links_nodup k c : authored_ok k -> c ∈ k_kill_chains k -> NoDup (map (fun x : link => (ks_stage x.1, x.2)) (links c)).
Proof.
  intros Hk Hc. destruct (ok_chains k Hk) as [_ Hs]. rewrite Forall_forall in Hs. destruct (Hs c Hc) as [Hn Hf]. unfold links.
  induction (ch_stages c) as [|st l IH]; [constructor|]. cbn [flat_map map] in *. apply NoDup_cons in Hn as [Hst Hn].
  apply Forall_cons in Hf as [Hd Hf]. rewrite map_app, map_map. apply NoDup_app. split_and!; [|intros [n s]|by apply IH].
  - apply (NoDup_fmap_2 (fun s => (ks_stage st, s))). done.
  - intros (s' & [= -> ->] & _)%list_elem_of_fmap ([st' s''] & [= E1 E2] & Hin)%list_elem_of_fmap. cbn in *.
    apply list_elem_of_In, in_flat_map in Hin as (st2 & Hst2 & (s2 & [= <- <-] & _)%in_map_iff). apply Hst. rewrite E1.
    apply list_elem_of_In in Hst2. by apply (list_elem_of_fmap_2 (fun st : KillChainStage => ks_stage st)).
Qed.

Lemma phase_relations k g N R g' : authored_ok k -> viewed g N R -> N "Zone" = map zone_row (k_zones k) -> N "Sid" = [] -> N "KillChain" = [] ->
  (forall t, R t = []) -> run_steps (policy_steps (k_policy_matrix k) ++ sid_steps (k_sids k) ++ chain_steps (k_kill_chains k)) g = (g', None) ->
  viewed g' (plus "KillChain" (map crow (k_kill_chains k)) (plus "Sid" (map sid_row (k_sids k)) N))
    (plus_rows "EXPECTED_IN" (flat_map (fun c => map (link_row (sid_at k) c) (known_links (knows k) c)) (k_kill_chains k))
      (fun t => if bool_decide (t ∈ ["ALLOW"; "DENY"]) then of_type (zone_at k) t (k_policy_matrix k) else [])).
Proof.
  intros Hk Hv Nz Ns Nk HR Hr. apply run_app in Hr as (g1 & H1' & Hr). apply run_app in Hr as (g2 & H2' & Hr).
  destruct (ok_matrix k Hk) as [Hmd Hm].
  apply (phase_policy (zone_at k) (k_policy_matrix k) _ _ _ _ Hv) in H1'; [| |done].
  2:{ eapply Forall_impl; [exact Hm|]. intros e (s & d & -> & Hs & Hd & _). split; [|intros t r _; rewrite HR; by intros ?%elem_of_nil].
      rewrite Nz. intros z [-> | ->]; by apply zone_at_spec. }
  apply (phase_fresh "Sid" "sid" fst (fun d : pyval * Knowledge.SidDetection => sid_props d.2) _ _ _ _ _ H1' Ns) in H2'; [|done|apply Hk].
  apply (phase_chains (knows k) (sid_at k) _ _ _ _ _ H2') in Hr; [|intros s; rewrite plus_eq, Ns; by apply sid_at_spec| |apply Hk].
  2:{ apply Forall_forall. intros c Hc. split_and!; [by eapply links_nodup|rewrite plus_ne, Nk by done; by intros ? ?%elem_of_nil|].
      rewrite HR. cbn. by intros ? ?%elem_of_nil. }
  eapply viewed_ext; [exact Hr|done|]. intros t. unfold plus_rows. by rewrite HR.
Qed.

(** One more node of a label, with a key of its own. *)
Lemma phase_one label key k vals g N R g' : viewed g N R -> (forall p, p ∈ N label -> jget p key <> k) ->
  run_steps [Ok (MergeNode (Ref label key k) vals)] g = (g', None) -> viewed g' (plus label [added key k vals] N) R.
Proof.
  intros Hv Hn Hr. cbn [run_steps] in Hr. destruct (g_run _ g) as [g1|] eqn:E1; [|done]. injection Hr as <-.
  eapply view_node in E1; [exact E1|exact Hv|]. cbn. intros p Hp. by apply has_false, Hn.
Qed.

Lemma phase_baselines k g N R g' : authored_ok k -> viewed g N R -> N "Baseline" = [] -> N "KnowledgeMeta" = [] ->
  run_steps (baseline_steps (k_baselines k)) g = (g', None) ->
  viewed g' (plus "KnowledgeMeta" [meta_baselines (k_baselines k)] (plus "Baseline" (map pattern_row (b_patterns (k_baselines k))) N)) R.
Proof.
  intros Hk Hv Nb Nm Hr. apply run_app in Hr as (g1 & H1' & Hr).
  apply (phase_fresh "Baseline" "name" (fun p : TrafficPattern => PStr (tp_name p)) (fun p => baseline_props p) _ _ _ _ _ Hv Nb) in H1'; [|done|].
  2:{ rewrite <- (map_map (fun p : TrafficPattern => tp_name p) PStr). apply NoDup_PStr, Hk. }
  apply (phase_one _ _ _ _ _ _ _ _ H1') in Hr; [exact Hr|]. rewrite plus_ne, Nm by done. by intros p ?%elem_of_nil.
Qed.

Lemma phase_plane k g N R g' : authored_ok k -> viewed g N R -> N "ApiEndpoint" = [] -> N "Gotcha" = [] -> N "FieldMapping" = [] ->
  N "FailureMode" = [] -> (forall p, p ∈ N "KnowledgeMeta" -> jget p "key" <> PStr "rbac_contract") ->
  run_steps (plane_steps (k_enforcement k)) g = (g', None) ->
  viewed g' (plus "KnowledgeMeta" [meta_rbac (k_enforcement k)] (plus "FailureMode" (map failure_row (e_failure_modes (k_enforcement k)))
    (plus "FieldMapping" (map mapping_row (enumerate (e_field_name_mapping (k_enforcement k))))
      (plus "Gotcha" (map gotcha_row (enumerate (e_critical_gotchas (k_enforcement k))))
        (plus "ApiEndpoint" (map contract_row (e_endpoint_contracts (k_enforcement k))) N))))) R /\
  Forall (fun m => Forall (fun x => is_ok (index_key m x) = true) ["rest_request"; "yang_gnmi"; "configdb"]) (e_field_name_mapping (k_enforcement k)) /\
  Forall (fun m => Forall (fun x => is_ok (index_key m x) = true) FAILURE_KEYS) (e_failure_modes (k_enforcement k)).
Proof.
  intros Hk Hv Na Ng Nf Nx Nm Hr. pose proof (run_steps_ok _ _ _ Hr) as Hall. unfold plane_steps in Hall.
  rewrite !Forall_app in Hall. destruct Hall as (_ & _ & Hmap & Hfail & _). rewrite Forall_map in Hmap, Hfail.
  apply run_app in Hr as (g1 & H1' & Hr). apply run_app in Hr as (g2 & H2' & Hr). apply run_app in Hr as (g3 & H3' & Hr).
  apply run_app in Hr as (g4 & H4' & Hr).
  apply (phase_fresh "ApiEndpoint" "endpoint" fst (fun c : pyval * pyval => [("description", c.2)]) _ _ _ _ _ Hv Na) in H1';
    [|intros x; by apply added_jget; cbn; rewrite ?list_elem_of_singleton|apply Hk].
  apply (phase_fresh "Gotcha" "idx" (fun x : Z * pyval => PInt x.1) (fun x => [("text", x.2)]) _ _ _ _ _ H1') in H2';
    [|by rewrite plus_ne|intros x; by apply added_jget; cbn; rewrite ?list_elem_of_singleton|apply enumerate_nodup].
  erewrite (map_ext_in _ (fun m : Z * pyval => Ok (MergeNode (Ref "FieldMapping" "idx" (PInt m.1)) (stored_items ["rest_request"; "yang_gnmi"; "configdb"] m.2)))) in H3'.
  2:{ intros m Hm. rewrite Forall_forall in Hmap. apply mapping_step_ok, Hmap. by apply list_elem_of_In. }
  apply (phase_fresh "FieldMapping" "idx" (fun m : Z * pyval => PInt m.1) (fun m => stored_items ["rest_request"; "yang_gnmi"; "configdb"] m.2)
    _ _ _ _ _ H2') in H3'; [|by rewrite !plus_ne|intros x; apply added_jget; [cbn; set_solver|done]|apply enumerate_nodup].
  erewrite (map_ext_in _ (fun m => Ok (MergeNode (Ref "FailureMode" "name" (res_or PNone (index_key m "name"))) (stored_items failure_items m)))) in H4'.
  2:{ intros m Hm. rewrite Forall_forall in Hfail. apply failure_step_ok, Hfail. by apply list_elem_of_In. }
  assert (Hfok : Forall (fun m => Forall (fun x => is_ok (index_key m x) = true) FAILURE_KEYS) (e_failure_modes (k_enforcement k))).
  { eapply Forall_impl; [exact Hfail|]. intros m Hm. by apply failure_step_ok. }
  apply (phase_fresh "FailureMode" "name" (fun m => res_or PNone (index_key m "name")) (fun m => stored_items failure_items m)
    _ _ _ _ _ H3') in H4'; [|by rewrite !plus_ne|intros x; apply added_jget; [cbn; set_solver|done]|].
  2:{ destruct (ok_failures k Hk) as [_ Hd]. revert Hd Hfok. clear. induction (e_failure_modes (k_enforcement k)) as [|m l IH]; [constructor|].
      cbn [map]. intros [Hm Hd]%NoDup_cons [Hok Hoks]%Forall_cons. apply NoDup_cons. split; [|by apply IH].
      intros (m' & E & Hin)%list_elem_of_fmap. apply Hm. apply list_elem_of_fmap. exists m'. split; [|done].
      rewrite Forall_forall in Hoks. pose proof (Hoks m' Hin) as Hok'. apply Forall_cons in Hok as [Hok _], Hok' as [Hok' _].
      rewrite (res_or_ok PNone _ Hok), (res_or_ok PNone _ Hok'). by rewrite E. }
  apply (phase_one _ _ _ _ _ _ _ _ H4') in Hr; [|by rewrite !plus_ne]. split_and!; [exact Hr| |exact Hfok].
  apply Forall_forall. intros m Hm. rewrite Forall_forall in Hmap. unfold enumerate in Hmap.
  apply list_elem_of_lookup in Hm as [i Hi]. specialize (Hmap (Z.of_nat i, m)). apply mapping_step_ok in Hmap as [_ Hx]; [exact Hx|].
  apply list_elem_of_lookup. exists i. by rewrite list_lookup_imap, Hi.
Qed.

Lemma phase_invariants k g N R g' : authored_ok k -> viewed g N R -> N "NeverBlockEntry" = [] ->
  (forall p, p ∈ N "KnowledgeMeta" -> jget p "key" <> PStr "agent_invariants") ->
  run_steps (invariant_steps (k_invariants k)) g = (g', None) ->
  exists actions, sorted_values (i_allowed_agent_actions (k_invariants k)) = Ok actions /\
  viewed g' (plus "KnowledgeMeta" [meta_invariants (k_invariants k) actions]
    (plus "NeverBlockEntry" (map (cidr_row (k_invariants k)) (i_never_block_cidrs (k_invariants k))) N)) R.
Proof.
  intros Hk Hv Nn Nm Hr. apply run_app in Hr as (g1 & H1' & Hr).
  apply (phase_fresh "NeverBlockEntry" "cidr" id (fun c => [("rationale", default (PStr "") (dict_get (i_never_block_rationale (k_invariants k)) c))])
    _ _ _ _ _ Hv Nn) in H1'; [|intros x; by apply added_jget; cbn; rewrite ?list_elem_of_singleton|rewrite map_id; apply Hk].
  destruct (sorted_values _) as [actions|e] eqn:Es; cbn [rbind] in Hr; [|done]. exists actions. split; [done|].
  apply (phase_one _ _ _ _ _ _ _ _ H1') in Hr; [exact Hr|by rewrite plus_ne].
Qed.

(** What the graph holds after a load that ended without an exception. *)
Lemma load_loaded k g g' : (forall n l, n ∈ nodes (contents g) -> labelled l n = true -> managed (n_props n) = true) ->
  authored_ok k -> run_steps (load_steps k) g = (g', None) -> loaded k (contents g').
Proof.
  intros Hc Hk Hr.
  assert (E : load_steps k = Ok Wipe :: (zone_steps (k_zones k) ++ leaf_steps (k_leafs k) ++ asset_steps (k_assets k)) ++
    (policy_steps (k_policy_matrix k) ++ sid_steps (k_sids k) ++ chain_steps (k_kill_chains k)) ++ baseline_steps (k_baselines k) ++
    plane_steps (k_enforcement k) ++ invariant_steps (k_invariants k)) by (unfold load_steps; by rewrite <- !app_assoc).
  rewrite E in Hr. cbn [run_steps] in Hr. destruct (g_run Wipe g) as [g0|] eqn:E0; [|done]. apply view_wipe in E0; [|exact Hc].
  apply run_app in Hr as (g1 & H1' & Hr). apply run_app in Hr as (g2 & H2' & Hr). apply run_app in Hr as (g3 & H3' & Hr).
  apply run_app in Hr as (g4 & H4' & Hr).
  apply (phase_topology k _ _ _ _ Hk E0) in H1'; [|done..].
  apply (phase_relations k _ _ _ _ Hk H1') in H2'; [|by rewrite !plus_ne, plus_eq by done|done..].
  apply (phase_baselines k _ _ _ _ Hk H2') in H3'; [|done..].
  apply (phase_plane k _ _ _ _ Hk H3') in H4' as (H4' & Hmap & Hfail); [|done..|].
  2:{ rewrite plus_eq, !plus_ne by done. by intros p ->%list_elem_of_singleton. }
  apply (phase_invariants k _ _ _ _ Hk H4') in Hr as (actions & Ha & [Hn HR]); [|done|].
  2:{ intros p. rewrite plus_eq, !plus_ne, plus_eq, !plus_ne by done.
      intros [Hin|Hin]%elem_of_app; apply list_elem_of_singleton in Hin as ->; unfold meta_baselines, meta_rbac;
        rewrite added_jget by (done || cbn; set_solver); discriminate. }
  assert (Hrel : forall t, t ∈ ["ALLOW"; "DENY"] -> typed "Zone" t "Zone" (contents g') ≡ₚ of_type (zone_at k) t (k_policy_matrix k)).
  { intros t Ht. assert (Hne : t <> "EXPECTED_IN") by set_solver. pose proof (HR t ltac:(unfold TYPES; set_solver)) as Ra.
    unfold plus_rows, ends_of in Ra. rewrite !(bool_decide_eq_false_2 (t = "EXPECTED_IN")), app_nil_r in Ra by done. cbn [fst snd] in Ra.
    by rewrite bool_decide_eq_true_2 in Ra. }
  constructor; try (split; [|done]); try (exists actions; split; [done|]);
    try (rewrite Hn; repeat (rewrite plus_eq || rewrite plus_ne by done); done); try (apply Hrel; set_solver).
  exact (HR "EXPECTED_IN" ltac:(unfold TYPES; set_solver)).
Qed.
End Load.
