(* ===== verification/KnowledgeRestore.v ===== *)
(** * Reading the catalogue back (storage/neo4j_reader.py)

    Every reader on a graph that a load has left ([loaded]), and [read_all_restored]:
    what [read_all] returns is [restored]. *)
From S2P Require Import Prelude PyVal Json JsonLoads Models Topology Policy Knowledge KnowledgeGraph KnowledgeReload KnowledgeRoundtrip.
Local Open Scope string_scope.
Local Open Scope Z_scope.
Local Open Scope list_scope.

(** ** Rows *)
Lemma mapM_res_map {A B C} (f : B -> res C) (row : A -> B) (h : A -> C) xs : (forall x, x ∈ xs -> f (row x) = Ok (h x)) ->
  mapM_res f (map row xs) = Ok (map h xs).
Proof.
  induction xs as [|x xs IH]; intros Hf; [done|]. cbn. rewrite Hf by (by left). cbn [rbind]. rewrite IH; [done|].
  intros y Hy. apply Hf. by right.
Qed.
Lemma read_rows_map {A K B} `{EqDecision K} (read : obj -> res (K * B)) (row : A -> obj) (ent : A -> K * B) xs :
  (forall x, x ∈ xs -> read (row x) = Ok (ent x)) -> forall out, NoDup (out ++ map ent xs).*1 ->
  read_rows read (map row xs) out = Ok (out ++ map ent xs).
Proof.
  induction xs as [|x xs IH]; intros Hr out Hd; [by rewrite app_nil_r|]. cbn [map read_rows]. rewrite Hr by (by left). cbn [rbind].
  destruct (ent x) as [k a] eqn:E. cbn [map] in Hd. rewrite E in Hd. rewrite dict_set_fresh.
  - rewrite IH; [by rewrite <- app_assoc|intros y Hy; apply Hr; by right|by rewrite <- app_assoc].
  - rewrite fmap_app in Hd. apply NoDup_app in Hd as (_ & Hd & _). intros Hk. apply (Hd _ Hk). by left.
Qed.
Lemma perm_map_inv {A B} (f : A -> B) l xs : l ≡ₚ map f xs -> exists ys, l = map f ys /\ ys ≡ₚ xs.
Proof. intros Hp. destruct (Permutation_map_inv _ _ Hp) as (ys & -> & Hy). by exists ys. Qed.
Lemma map_key_nodup {A B} (f : A -> B) xs ys : ys ≡ₚ xs -> NoDup (map f xs) -> NoDup (map f ys).
Proof. intros Hp Hd. by rewrite (Permutation_map f Hp). Qed.

(** Rows in the order of their numbers. *)
Lemma sorted_numbers {A} (ys : list (Z * A)) (xs : list A) : ys ≡ₚ enumerate xs -> StronglySorted (fun a b => a.1 <= b.1) ys -> ys = enumerate xs.
Proof.
  intros Hp Hs. apply (StronglySorted_unique_strong (fun a b : Z * A => a.1 <= b.1)); [|done| |done].
  - intros [i a] [j b] Ha Hb Hij Hji. cbn in *. rewrite Hp in Ha. unfold enumerate in *.
    apply elem_of_lookup_imap_1 in Ha as (n & x & [= -> ->] & Hx), Hb as (m & y & [= -> ->] & Hy).
    assert (n = m) by lia. subst. by rewrite Hx in Hy; simplify_eq.
  - clear. unfold enumerate. generalize (fun x : A => x). intros _.
    assert (Hg : forall (n : nat) (l : list A), StronglySorted (fun a b : Z * A => a.1 <= b.1) (imap (fun i x => (Z.of_nat (n + i), x)) l)).
    { intros n l. revert n. induction l as [|x l IH]; intros n; [constructor|]. cbn [imap]. constructor.
      - rewrite imap_ext with (g := fun i x => (Z.of_nat (S n + i), x)); [apply IH|]. intros i y _. cbn. do 2 f_equal. lia.
      - apply Forall_forall. intros [i y] Hy. apply elem_of_lookup_imap_1 in Hy as (m & z & [= -> ->] & _). cbn. lia. }
    exact (Hg 0%nat xs).
Qed.
Lemma sorted_map {A B} (R : B -> B -> Prop) (f : A -> B) l : StronglySorted R (map f l) -> StronglySorted (fun a b => R (f a) (f b)) l.
Proof.
  induction l as [|x l IH]; [constructor|]. cbn. intros [Hs Hf]%StronglySorted_inv. constructor; [by apply IH|]. by rewrite Forall_map in Hf.
Qed.

(** ** Values read back *)
Lemma enum_of_value `{External} {A} (members : list A) (value : A -> string) a :
  a ∈ members -> (forall x y, value x = value y -> x = y) -> enum_of members value (PStr (value a)) = Ok a.
Proof.
  intros Hin Hi. cbn. destruct (find _ members) as [x|] eqn:E.
  - apply find_some in E as [_ E%bool_decide_eq_true]. by rewrite (Hi _ _ E).
  - apply list_elem_of_In in Hin. apply (find_none _ _ E) in Hin. by apply bool_decide_eq_false in Hin.
Qed.
Lemma pyd_strs_strs `{External} l : pyd_strs (strs l) = Ok l.
Proof. unfold pyd_strs, strs, pyd_list. rewrite (mapM_res_map _ _ (fun s => s)); [by rewrite map_id|done]. Qed.
Lemma distinct_all l : forall seen, Forall (fun v => is_ok (key_of v) = true) l -> NoDup (map key_of l) ->
  (forall k, k ∈ seen -> Ok k ∉ map key_of l) -> distinct_values seen l = Ok l.
Proof.
  induction l as [|v l IH]; intros seen Hk Hd Hs; [done|]. cbn [map] in *. apply Forall_cons in Hk as [Hv Hk]. apply NoDup_cons in Hd as [Hvd Hd].
  cbn [distinct_values]. destruct (key_of v) as [k|] eqn:E; [|done]. cbn [rbind]. rewrite bool_decide_eq_false_2.
  - rewrite IH; [done..|]. intros k' [->|Hk']%elem_of_cons; [done|]. intros Hin. apply (Hs _ Hk'). by right.
  - intros Hin. apply (Hs _ Hin). by left.
Qed.
Lemma mapM_as_text l ts : mapM as_text l = Some ts -> l = map PStr ts.
Proof.
  revert ts. induction l as [|v l IH]; intros ts; cbn; [by intros [= <-]|]. destruct v; try done. cbn.
  destruct (mapM as_text l) as [ts'|]; [|done]. intros [= <-]. cbn. by rewrite (IH ts').
Qed.
Lemma mapM_as_number l ns : mapM as_number l = Some ns -> l = map snd ns.
Proof.
  revert ns. induction l as [|v l IH]; intros ns; cbn; [by intros [= <-]|]. destruct v; try done; cbn;
    (destruct (mapM as_number l) as [ns'|]; [|done]); intros [= <-]; cbn; by rewrite (IH ns').
Qed.
Lemma sorted_values_perm l l' : sorted_values l = Ok l' -> l' ≡ₚ l.
Proof.
  unfold sorted_values. destruct l as [|x [|y l]]; [by intros [= <-]..|]. set (xs := x :: y :: l).
  destruct (mapM as_text xs) as [ts|] eqn:Et; [intros [= <-]; apply mapM_as_text in Et as ->; by rewrite merge_sort_Permutation|].
  destruct (mapM as_number xs) as [ns|] eqn:En; [|done]. intros [= <-]. apply mapM_as_number in En as ->. by rewrite merge_sort_Permutation.
Qed.

(** ** The readers on the rows of a load *)
(** What the driver and pydantic leave as it is. *)
Class PydBoolLaws `{PydBool} := pyd_bool_PBool b : pyd_bool (PBool b) = Ok b.

Section Enums.
Context `{External}.

Lemma trust_value_read t : enum_of trust_levels trust_value (PStr (trust_value t)) = Ok t.
Proof. by destruct t. Qed.
Lemma criticality_read c : enum_of criticalities criticality_value (PStr (criticality_value c)) = Ok c.
Proof. by destruct c. Qed.
Lemma data_read c : enum_of data_classifications data_value (PStr (data_value c)) = Ok c.
Proof. by destruct c. Qed.
Lemma flow_read c : enum_of flow_criticalities flow_value (PStr (flow_value c)) = Ok c.
Proof. by destruct c. Qed.
End Enums.

(** Runs a reader on the properties of a row, with the lists of texts as they are read back. *)
Ltac hide_texts :=
  unfold strs; repeat match goal with |- context [map PStr ?l] =>
    let E := fresh "Etexts" in pose proof (pyd_strs_strs l) as E; unfold strs in E; revert E; generalize (map PStr l); intros ? E end.
Ltac reads :=
  repeat (progress (lazy -[pyd_int pyd_bool enum_of trust_levels trust_value criticalities criticality_value data_classifications
      data_value flow_criticalities flow_value services_of json_loads pyd_strs];
    rewrite ?pyd_int_PInt, ?pyd_bool_PBool, ?trust_value_read, ?criticality_read, ?data_read, ?flow_read;
    repeat match goal with E : pyd_strs _ = Ok _ |- _ => rewrite !E end)).

Section Readers.
Context `{PyRepr} `{ExternalLaws} `{PydBoolLaws} (float_of : string -> pyval).
Lemma read_zone_row z : z.1 = zn_name z.2 -> read_zone (zone_row z) = Ok (PStr z.1, z.2).
Proof. destruct z as [n []]. cbn [fst snd Knowledge.zn_name]. intros ->. by reads. Qed.
Lemma read_leaf_row l : l.1 = lf_name l.2 -> read_leaf (leaf_row l) = Ok (PStr l.1, l.2).
Proof. destruct l as [n []]. cbn [fst snd Knowledge.lf_name]. intros ->. unfold leaf_row, leaf_props. cbn [fst snd]. hide_texts. by reads. Qed.
Lemma read_sid_row d : d.1 = PInt (sd_sid (dt_detection d.2)) -> read_sid (sid_row d) = Ok d.
Proof.
  destruct d as [n [[]]]. cbn [fst snd Knowledge.dt_detection Policy.sd_sid]. intros ->. unfold sid_row, sid_props. cbn. hide_texts. by reads.
Qed.
Lemma read_pattern_row p : read_pattern (pattern_row p) = Ok p.
Proof. destruct p as [[]]. by reads. Qed.

Lemma service_dump s : pyd_model Service_of (model_dump s) = Ok s.
Proof. destruct s. by reads. Qed.
Lemma services_field ss : pyd_list (pyd_model Service_of) (PList (map model_dump ss)) = Ok ss.
Proof. cbn. rewrite (mapM_res_map _ _ (fun s => s)); [by rewrite map_id|]. intros s _. apply service_dump. Qed.
Lemma services_read ss : forallb service_text ss = true ->
  services_of (json_loads float_of) (PStr (json_dumps false (PList (map model_dump ss)))) = Ok (PList (map model_dump ss)).
Proof.
  intros Hs. unfold services_of. rewrite loads_dumps.
  - cbn [py_iter rbind]. rewrite (mapM_res_map _ _ (fun s => s)); [by rewrite map_id|]. intros s _. apply (service_dump s).
  - cbn [loadable]. induction ss as [|s ss IH]; [done|]. cbn [map forallb] in *. apply andb_true_iff in Hs as [Hs Hss]. rewrite IH by done.
    unfold service_text in Hs. rewrite !andb_true_iff in Hs. destruct Hs as [[[? ?] ?] ?]. destruct s as [p pr n f u]. cbn in *.
    by rewrite !andb_true_r; repeat (apply andb_true_iff; split).
Qed.
Lemma read_asset_row a : a.1 = as_ip a.2 -> forallb service_text (as_services a.2) = true ->
  read_asset (json_loads float_of) (asset_row a) = Ok (PStr a.1, a.2).
Proof.
  destruct a as [n [ip host zone tier role c dc ss ins outs imp blk own]]. cbn [fst snd Knowledge.as_ip Knowledge.as_services]. intros -> Hs.
  pose proof (services_read ss Hs) as Er. pose proof (services_field ss) as Ef. unfold asset_row, asset_props.
  cbn [fst snd Knowledge.as_ip Knowledge.as_hostname Knowledge.as_zone Knowledge.as_tier Knowledge.as_role Knowledge.as_criticality
    Knowledge.as_data_classification Knowledge.as_services Knowledge.as_expected_inbound_sources
    Knowledge.as_expected_outbound_destinations Knowledge.as_if_compromised_impact Knowledge.as_if_blocked_impact Knowledge.as_owner_team].
  revert Er Ef. generalize (json_dumps false (PList (map model_dump ss))). generalize (PList (map model_dump ss)). intros dumped text Er Ef.
  hide_texts. reads. rewrite Er. lazy -[pyd_int] in Ef. reads. rewrite Ef. by reads.
Qed.

(** *** The answers of the server *)
Context `{Neo4jLaws}.
Implicit Types (g : graph).
Definition NODE_QUERIES : list (string * bool) :=
  [("Zone", false); ("Asset", false); ("Leaf", false); ("Baseline", false); ("Sid", false); ("KillChain", false); ("ApiEndpoint", false);
   ("FieldMapping", true); ("Gotcha", true); ("FailureMode", false); ("NeverBlockEntry", false)].
Definition META_QUERIES : list string := ["baseline_constants"; "rbac_contract"; "agent_invariants"].
Definition EDGE_QUERIES : list (string * string * string) :=
  [("Zone", "ALLOW", "Zone"); ("Zone", "DENY", "Zone"); ("Sid", "EXPECTED_IN", "KillChain")].
(** Every query of [read_all] is answered. *)
Definition answers g : Prop :=
  Forall (fun q => is_ok (g_nodes q.1 q.2 g) = true) NODE_QUERIES /\ Forall (fun key => is_ok (g_ref (meta_ref key) g) = true) META_QUERIES /\
  Forall (fun q => is_ok (g_edges q.1.1 q.1.2 q.2 g) = true) EDGE_QUERIES.

Lemma answered_rows {A} g l o (row : A -> obj) xs : answers g -> bool_decide ((l, o) ∈ NODE_QUERIES) = true ->
  nodes_of l (contents g) ≡ₚ map row xs -> (forall x, managed (row x) = true) ->
  exists ys, g_nodes l o g = Ok (map row ys) /\ ys ≡ₚ xs /\ (o = true -> StronglySorted idx_le (map row ys)).
Proof.
  intros (Hn & _) Hq%bool_decide_eq_true Hp Hm. rewrite Forall_forall in Hn. pose proof (Hn _ Hq) as Hok. cbn [fst snd] in Hok.
  destruct (g_nodes l o g) as [rows|] eqn:E; [|done]. clear Hok.
  destruct (nodes_answer _ _ _ _ E) as [Hr Hs]. rewrite (filter_perm _ _ _ Hp), filter_true in Hr.
  - apply perm_map_inv in Hr as (ys & -> & Hy). by exists ys.
  - intros p (x & -> & _)%list_elem_of_fmap. apply Hm.
Qed.
Lemma answered_edges {A} g l1 t l2 (row : A -> obj * obj * obj) xs : answers g -> bool_decide ((l1, t, l2) ∈ EDGE_QUERIES) = true ->
  typed l1 t l2 (contents g) ≡ₚ map row xs ->
  (forall x, x ∈ xs -> managed (row x).1.2 = true) -> exists ys, g_edges l1 t l2 g = Ok (map row ys) /\ ys ≡ₚ xs.
Proof.
  intros (_ & _ & He) Hq%bool_decide_eq_true Hp Hm. rewrite Forall_forall in He. pose proof (He _ Hq) as Hok. cbn [fst snd] in Hok.
  destruct (g_edges l1 t l2 g) as [rows|] eqn:E; [|done]. clear Hok.
  apply edges_answer in E. rewrite edges_of_typed, (filter_perm _ _ _ Hp), filter_true in E.
  - apply perm_map_inv in E as (ys & -> & Hy). by exists ys.
  - intros p (x & -> & Hx)%list_elem_of_fmap. by apply Hm.
Qed.
Lemma refers_rows r (g : graph_data) : map n_props (List.filter (refers r) (nodes g)) = List.filter (has (r_key r) (r_value r)) (nodes_of (r_label r) g).
Proof.
  unfold nodes_of, refers. rewrite filter_map_swap. f_equal. generalize (nodes g). intros l. induction l as [|x l IH]; [done|]. cbn.
  destruct (labelled _ x); cbn; [|done]. by rewrite IH.
Qed.
(** The singleton with a key. *)
Lemma answered_meta g key p ps : answers g -> bool_decide (key ∈ META_QUERIES) = true -> nodes_of "KnowledgeMeta" (contents g) ≡ₚ ps ->
  List.filter (has "key" (PStr key)) ps = [p] -> read_meta key g = Ok p.
Proof.
  intros (_ & Hr & _) Hq%bool_decide_eq_true Hp Hf. unfold read_meta. rewrite Forall_forall in Hr. pose proof (Hr _ Hq) as Hok.
  destruct (g_ref _ g) as [rows|] eqn:E; [|done]. clear Hok.
  apply ref_answer in E. rewrite refers_rows in E. cbn [r_key r_value r_label meta_ref] in E. rewrite (filter_perm _ _ _ Hp), Hf in E.
  by apply Permutation_sym, Permutation_length_1_inv in E as ->.
Qed.

(** *** One reader after the other *)
Lemma text_keys_map {A} (xs : list (string * A)) : text_keys (map (fun x => (PStr x.1, x.2)) xs) = xs.
Proof. unfold text_keys. rewrite omap_map. induction xs as [|[k x] xs IH]; [done|]. exact (f_equal (cons (k, x)) IH). Qed.
Lemma read_dict {A} g l (row : string * A -> obj) (read : obj -> res (pyval * A)) xs : answers g -> bool_decide ((l, false) ∈ NODE_QUERIES) = true ->
  nodes_of l (contents g) ≡ₚ map row xs -> (forall x, managed (row x) = true) -> NoDup xs.*1 ->
  (forall x, x ∈ xs -> read (row x) = Ok (PStr x.1, x.2)) ->
  exists ys, (let* rows := g_nodes l false g in read_rows read rows []) = Ok (map (fun x => (PStr x.1, x.2)) ys) /\ ys ≡ₚ xs.
Proof.
  intros Ha Hq Hp Hm Hd Hr. destruct (answered_rows g l false row xs Ha Hq Hp Hm) as (ys & -> & Hy & _). exists ys. split; [|done]. cbn [rbind].
  rewrite (read_rows_map read row (fun x => (PStr x.1, x.2))); [done|intros x Hx; apply Hr; by rewrite <- Hy|]. cbn [app].
  change ((map (fun x : string * A => (PStr x.1, x.2)) ys).*1) with (map fst (map (fun x : string * A => (PStr x.1, x.2)) ys)).
  rewrite map_map. cbn [fst]. rewrite <- (map_map fst PStr). apply NoDup_PStr. by apply (map_key_nodup fst xs ys).
Qed.

Lemma read_zones_restored k g : authored_ok k -> loaded k (contents g) -> answers g ->
  exists zs, read_zones g = Ok zs /\ text_keys zs ≡ₚ k_zones k.
Proof.
  intros Hk Hl Ha. destruct (ok_zones k Hk) as [Hz Hd].
  destruct (read_dict g "Zone" zone_row read_zone (k_zones k) Ha eq_refl (ld_zones _ _ Hl)) as (ys & E & Hy); [done..| |].
  { intros z Hin. rewrite Forall_forall in Hz. by apply read_zone_row, Hz. }
  eexists. split; [exact E|]. by rewrite text_keys_map.
Qed.
Lemma read_leafs_restored k g : authored_ok k -> loaded k (contents g) -> answers g ->
  exists ls, read_leafs g = Ok ls /\ text_keys ls ≡ₚ k_leafs k.
Proof.
  intros Hk Hl Ha. destruct (ok_leafs k Hk) as [Hz Hd].
  destruct (read_dict g "Leaf" leaf_row read_leaf (k_leafs k) Ha eq_refl (ld_leafs _ _ Hl)) as (ys & E & Hy); [done..| |].
  { intros z Hin. rewrite Forall_forall in Hz. by apply read_leaf_row, Hz. }
  eexists. split; [exact E|]. by rewrite text_keys_map.
Qed.
Lemma read_assets_restored k g : authored_ok k -> loaded k (contents g) -> answers g ->
  exists xs, read_assets (json_loads float_of) g = Ok xs /\ text_keys xs ≡ₚ k_assets k.
Proof.
  intros Hk Hl Ha. destruct (ok_assets k Hk) as [Hz Hd].
  destruct (read_dict g "Asset" asset_row (read_asset (json_loads float_of)) (k_assets k) Ha eq_refl (ld_assets _ _ Hl)) as (ys & E & Hy); [done..| |].
  { intros z Hin. rewrite Forall_forall in Hz. by apply read_asset_row; apply Hz. }
  eexists. split; [exact E|]. by rewrite text_keys_map.
Qed.
Lemma read_sids_restored k g : authored_ok k -> loaded k (contents g) -> answers g ->
  exists ds, read_sids g = Ok ds /\ ds ≡ₚ k_sids k.
Proof.
  intros Hk Hl Ha. destruct (ok_sids k Hk) as [Hz Hd].
  destruct (answered_rows g "Sid" false sid_row (k_sids k) Ha eq_refl (ld_sids _ _ Hl)) as (ys & E & Hy & _); [done|].
  exists ys. split; [|done]. unfold read_sids. rewrite E. cbn [rbind]. rewrite (read_rows_map read_sid sid_row (fun d => d)); rewrite ?map_id; [done| |].
  - intros d Hin. apply read_sid_row. rewrite Forall_forall in Hz. apply Hz. by rewrite <- Hy.
  - by apply (map_key_nodup fst (k_sids k) ys).
Qed.

Lemma verdict_rows_map k verdict es : authored_ok k ->
  Forall (fun e : (pyval * pyval) * pyval => exists s d, e = ((PStr s, PStr d), PStr verdict) /\ (s ∈ (k_zones k).*1) /\ (d ∈ (k_zones k).*1)) es ->
  forall out, NoDup (out ++ es).*1 -> verdict_rows verdict (map (policy_row (zone_at k)) es) out = Ok (out ++ es).
Proof.
  intros Hk. induction es as [|e es IH]; intros He out Hd; [by rewrite app_nil_r|].
  apply Forall_cons in He as [(s & d & -> & Hs & Hd') He]. destruct (zone_at_spec k s Hk Hs) as [_ Ks], (zone_at_spec k d Hk Hd') as [_ Kd].
  cbn [map verdict_rows policy_row fst snd]. rewrite Ks, Kd. cbn [key_of rbind fst snd]. rewrite dict_set_fresh.
  - rewrite IH; [by rewrite <- app_assoc|done|by rewrite <- app_assoc].
  - rewrite fmap_app in Hd. apply NoDup_app in Hd as (_ & Hd & _). intros Hin. apply (Hd _ Hin). by left.
Qed.
Lemma filter_rels matrix : Forall (fun e : (pyval * pyval) * pyval => e.2 = PStr "ALLOW" \/ e.2 = PStr "DENY") matrix ->
  List.filter (fun e => bool_decide (rel e.2 = "ALLOW")) matrix ++ List.filter (fun e => bool_decide (rel e.2 = "DENY")) matrix ≡ₚ matrix.
Proof.
  induction 1 as [|[e v] l E _ IH]; [done|]. cbn [snd] in E. cbn [List.filter snd].
  destruct E as [-> | ->]; [change (rel (PStr "ALLOW")) with "ALLOW"|change (rel (PStr "DENY")) with "DENY"].
  - rewrite bool_decide_eq_true_2, bool_decide_eq_false_2 by done. cbn [app]. by rewrite IH.
  - rewrite bool_decide_eq_false_2, bool_decide_eq_true_2 by done. rewrite <- Permutation_middle. by rewrite IH.
Qed.

Lemma read_matrix_restored k g : authored_ok k -> loaded k (contents g) -> answers g ->
  exists m, read_policy_matrix g = Ok m /\ m ≡ₚ k_policy_matrix k.
Proof.
  intros Hk Hl Ha. destruct (ok_matrix k Hk) as [Hd Hm]. unfold read_policy_matrix.
  destruct (answered_edges g "Zone" "ALLOW" "Zone" (policy_row (zone_at k)) _ Ha eq_refl (ld_allow _ _ Hl)) as (as_ & -> & Pa); [done|].
  destruct (answered_edges g "Zone" "DENY" "Zone" (policy_row (zone_at k)) _ Ha eq_refl (ld_deny _ _ Hl)) as (ds & -> & Pd); [done|]. cbn [rbind].
  assert (Hp : as_ ++ ds ≡ₚ k_policy_matrix k).
  { rewrite Pa, Pd. apply filter_rels. eapply Forall_impl; [exact Hm|]. by intros e (? & ? & _ & _ & _ & ?). }
  assert (Hin : forall t es, t = "ALLOW" \/ t = "DENY" -> es ≡ₚ List.filter (fun e => bool_decide (rel e.2 = t)) (k_policy_matrix k) ->
    Forall (fun e : (pyval * pyval) * pyval => exists s d, e = ((PStr s, PStr d), PStr t) /\ (s ∈ (k_zones k).*1) /\ (d ∈ (k_zones k).*1)) es).
  { intros t es Ht Hes. apply Forall_forall. intros e He. rewrite Hes in He. apply list_elem_of_In, filter_In in He as [He Hr%bool_decide_eq_true].
    apply list_elem_of_In in He. rewrite Forall_forall in Hm. destruct (Hm e He) as (s & d & E & Hs & Hd' & Hv). exists s, d. split; [|done].
    destruct e as [e1 e2]. cbn in E, Hv, Hr. subst e1. f_equal. unfold rel in Hr.
    destruct Hv as [-> | ->]; cbn in Hr; by rewrite <- Hr. }
  assert (Hnd : NoDup (as_ ++ ds).*1) by (by apply (map_key_nodup fst (k_policy_matrix k) (as_ ++ ds))).
  rewrite (verdict_rows_map k "ALLOW" as_ Hk (Hin "ALLOW" as_ (or_introl eq_refl) Pa) []).
  - cbn [rbind app]. exists (as_ ++ ds). split; [|done]. apply (verdict_rows_map k "DENY" ds Hk); [|done]. apply Hin; [by right|done].
  - rewrite fmap_app in Hnd. by apply NoDup_app in Hnd as [? _].
Qed.

Lemma meta_filter key k actions : 
  List.filter (has "key" (PStr key)) [meta_baselines (k_baselines k); meta_rbac (k_enforcement k); meta_invariants (k_invariants k) actions] =
  List.filter (fun p => bool_decide (jget p "key" = PStr key)) [meta_baselines (k_baselines k); meta_rbac (k_enforcement k); meta_invariants (k_invariants k) actions].
Proof.
  generalize [meta_baselines (k_baselines k); meta_rbac (k_enforcement k); meta_invariants (k_invariants k) actions]. intros l.
  induction l as [|p l IH]; [done|]. cbn [List.filter]. rewrite IH. destruct (has "key" (PStr key) p) eqn:E.
  - apply has_true in E. by rewrite bool_decide_eq_true_2.
  - rewrite bool_decide_eq_false_2; [done|]. intros E'. by rewrite (proj2 (has_true _ _ _) E') in E.
Qed.
Lemma metas k g : authored_ok k -> loaded k (contents g) -> answers g -> exists actions, sorted_values (i_allowed_agent_actions (k_invariants k)) = Ok actions /\
  read_meta "baseline_constants" g = Ok (meta_baselines (k_baselines k)) /\ read_meta "rbac_contract" g = Ok (meta_rbac (k_enforcement k)) /\
  read_meta "agent_invariants" g = Ok (meta_invariants (k_invariants k) actions).
Proof.
  intros Hk Hl Ha. destruct (ld_meta _ _ Hl) as (actions & E & Hm). exists actions. split; [done|].
  assert (Kb : jget (meta_baselines (k_baselines k)) "key" = PStr "baseline_constants") by (apply added_jget; [cbn; set_solver|done]).
  assert (Kr : jget (meta_rbac (k_enforcement k)) "key" = PStr "rbac_contract") by (apply added_jget; [cbn; set_solver|done]).
  assert (Ki : jget (meta_invariants (k_invariants k) actions) "key" = PStr "agent_invariants") by (apply added_jget; [cbn; set_solver|done]).
  split_and!; eapply answered_meta; try done; rewrite meta_filter; cbn [List.filter]; by rewrite Kb, Kr, Ki.
Qed.

Lemma read_baselines_restored k g : authored_ok k -> loaded k (contents g) -> answers g ->
  exists app mgt, read_baselines g = Ok (Baselines (app ++ mgt) (b_anomalous_patterns (k_baselines k)) (b_steady_state (k_baselines k))
      (b_audit_rate (k_baselines k))) /\
    (app ≡ₚ List.filter (fun p => negb (is_mgt p)) (b_patterns (k_baselines k))) /\
    (mgt ≡ₚ List.filter is_mgt (b_patterns (k_baselines k))).
Proof.
  intros Hk Hl Ha. destruct (metas k g Hk Hl Ha) as (actions & _ & Em & _ & _).
  destruct (answered_rows g "Baseline" false pattern_row (b_patterns (k_baselines k)) Ha eq_refl (ld_patterns _ _ Hl)) as (ys & Er & Hy & _); [done|].
  unfold read_baselines. rewrite Er. cbn [rbind]. rewrite (mapM_res_map read_pattern pattern_row (fun p => p)) by (intros p _; apply read_pattern_row).
  cbn [rbind]. rewrite map_id, Em. cbn [rbind]. eexists _, _. split; [reflexivity|]. split; by apply filter_perm.
Qed.

Lemma get_added key v vals : key ∉ vals.*1 -> key <> "kg_managed" -> get (added key v vals) key = Ok v.
Proof. intros. unfold get, index_key. by rewrite added_key. Qed.
Lemma get_value key v vals x y : NoDup vals.*1 -> "kg_managed" ∉ vals.*1 -> (x, y) ∈ vals -> y <> PNone -> get (added key v vals) x = Ok y.
Proof. intros. unfold get, index_key. by rewrite (added_value key v vals x y). Qed.
Lemma pick_all p ks (f : string -> pyval) : (forall x, x ∈ ks -> get p x = Ok (f x)) -> pick p ks = Ok (map (fun x => (x, f x)) ks).
Proof.
  unfold pick, get. induction ks as [|x ks IH]; intros Hf; [done|]. cbn [map items]. rewrite Hf by (by left). cbn [rbind].
  rewrite IH; [done|]. intros y Hy. apply Hf. by right.
Qed.
Lemma stored_keys ks v : (stored_items ks v).*1 = ks.
Proof. unfold stored_items. change (map fst (map (fun x => (x, res_or PNone (index_key v x))) ks) = ks). by rewrite map_map, map_id. Qed.
(** The stored keys of a mapping that has them all. *)
Lemma get_stored ks v key w x : NoDup ks -> "kg_managed" ∉ ks -> x ∈ ks -> filled ks v -> Forall (fun x => is_ok (index_key v x) = true) ks ->
  get (added key w (stored_items ks v)) x = Ok (res_or PNone (index_key v x)).
Proof.
  intros Hd Hm Hx Hf Hok. apply get_value; rewrite ?stored_keys; [done..| |].
  - unfold stored_items. by apply (list_elem_of_fmap_2 (fun x => (x, res_or PNone (index_key v x)))).
  - rewrite Forall_forall in Hok. pose proof (res_or_ok PNone _ (Hok x Hx)) as E. by apply (Hf x).
Qed.

Lemma read_contracts k : authored_ok k -> forall ys, ys ≡ₚ e_endpoint_contracts (k_enforcement k) ->
  read_rows (fun e => let* d := get e "description" in let* x := get e "endpoint" in let* _ := key_of x in Ok (x, d)) (map contract_row ys) [] = Ok ys.
Proof.
  intros Hk ys Hy. destruct (ok_contracts k Hk) as [Hc Hd]. rewrite (read_rows_map _ contract_row (fun c => c)); rewrite ?map_id; [done| |].
  - intros c Hin. rewrite Hy in Hin. rewrite Forall_forall in Hc. destruct (Hc c Hin) as [[_ Hkey] Hv]. unfold contract_row.
    rewrite (get_value _ _ _ "description" c.2); [|cbn; apply NoDup_singleton|cbn; set_solver|by apply list_elem_of_singleton|done]. cbn [rbind].
    rewrite get_added; [|cbn; set_solver|done]. cbn [rbind]. destruct (key_of c.1); [|done]. cbn [rbind]. by destruct c.
  - by apply (map_key_nodup fst (e_endpoint_contracts (k_enforcement k)) ys).
Qed.

Lemma numbered_rows {A} g l (row : Z * A -> obj) xs : answers g -> bool_decide ((l, true) ∈ NODE_QUERIES) = true ->
  nodes_of l (contents g) ≡ₚ map row (enumerate xs) ->
  (forall x, managed (row x) = true) -> (forall x, jget (row x) "idx" = PInt x.1) -> g_nodes l true g = Ok (map row (enumerate xs)).
Proof.
  intros Ha Hq Hp Hm Hi. destruct (answered_rows g l true row _ Ha Hq Hp Hm) as (ys & -> & Hy & Hs). do 2 f_equal.
  apply sorted_numbers; [done|]. apply sorted_map in Hs; [|done].
  assert (Hle : forall a b, idx_le (row a) (row b) <-> a.1 <= b.1) by (intros a b; unfold idx_le, int_prop; by rewrite !Hi).
  revert Hs. clear -Hle. induction 1 as [|x l Hs IH Hf]; constructor; [done|]. eapply Forall_impl; [exact Hf|]. intros y. apply Hle.
Qed.
Lemma map_enumerate {A B} (f : A -> B) xs : map (fun x : Z * A => f x.2) (enumerate xs) = map f xs.
Proof.
  unfold enumerate. change (fmap (M := list) (fun x : Z * A => f x.2) (imap (fun i x => (Z.of_nat i, x)) xs) = map f xs).
  rewrite fmap_imap, (imap_ext _ (const f)) by done. by rewrite imap_const.
Qed.

Lemma enumerate_elem {A} (xs : list A) p : p ∈ enumerate xs -> p.2 ∈ xs.
Proof. destruct p as [i x]. unfold enumerate. by intros (n & y & [= _ <-] & Hy%list_elem_of_lookup_2)%elem_of_lookup_imap_1. Qed.
Lemma pick_mapping m : filled ["rest_request"; "yang_gnmi"; "configdb"] m.2 ->
  Forall (fun x => is_ok (index_key m.2 x) = true) ["rest_request"; "yang_gnmi"; "configdb"] ->
  (let* d := pick (mapping_row m) ["rest_request"; "yang_gnmi"; "configdb"] in Ok (PDict d)) = Ok (canon ["rest_request"; "yang_gnmi"; "configdb"] m.2).
Proof.
  intros Hf Hok. rewrite (pick_all _ _ (fun x => res_or PNone (index_key m.2 x))); [done|]. intros x Hx.
  apply get_stored; [by apply (bool_decide_unpack _)..|done|done|done].
Qed.
Lemma pick_failure m : filled FAILURE_KEYS m -> Forall (fun x => is_ok (index_key m x) = true) FAILURE_KEYS ->
  (let* d := pick (failure_row m) FAILURE_KEYS in Ok (PDict d)) = Ok (canon FAILURE_KEYS m).
Proof.
  intros Hf Ho. rewrite (pick_all _ _ (fun x => res_or PNone (index_key m x))); [done|]. intros x [->|Hx]%elem_of_cons.
  - apply get_added; [rewrite stored_keys; set_solver|done].
  - apply Forall_cons in Ho as [_ Ho]. apply get_stored; [by apply (bool_decide_unpack _)..|done| |done]. intros y v Hy. apply Hf. by right.
Qed.
Lemma get_gotcha x : x.2 <> PNone -> get (gotcha_row x) "text" = Ok x.2.
Proof. intros Hx. apply get_value; [apply NoDup_singleton|cbn; set_solver|by apply list_elem_of_singleton|done]. Qed.

Lemma read_plane_restored k g : authored_ok k -> loaded k (contents g) -> answers g ->
  exists contracts failures, read_enforcement_plane g = Ok (EnforcementPlane contracts
      (map (canon ["rest_request"; "yang_gnmi"; "configdb"]) (e_field_name_mapping (k_enforcement k)))
      (e_critical_gotchas (k_enforcement k)) failures (e_rbac_contract (k_enforcement k))) /\
    (contracts ≡ₚ e_endpoint_contracts (k_enforcement k)) /\
    (failures ≡ₚ map (canon FAILURE_KEYS) (e_failure_modes (k_enforcement k))).
Proof.
  intros Hk Hl Ha. destruct (metas k g Hk Hl Ha) as (actions & _ & _ & Em & _). unfold read_enforcement_plane.
  destruct (ld_mapping _ _ Hl) as [Lm Om], (ld_failures _ _ Hl) as [Lf Of], (ok_failures k Hk) as [Hf _].
  pose proof (ok_mapping k Hk) as Hm. pose proof (ok_gotchas k Hk) as Hg. rewrite Forall_forall in Hm, Hg, Hf, Om, Of.
  destruct (answered_rows g "ApiEndpoint" false contract_row _ Ha eq_refl (ld_contracts _ _ Hl)) as (cs & -> & Pc & _).
  { intros c. apply added_managed. cbn. set_solver. }
  cbn [rbind]. rewrite (read_contracts k Hk cs Pc). cbn [rbind]. rewrite (numbered_rows g "FieldMapping" mapping_row _ Ha eq_refl Lm).
  2:{ intros m. apply added_managed. rewrite stored_keys. set_solver. }
  2:{ intros m. apply added_jget; [rewrite stored_keys; set_solver|done]. }
  cbn [rbind]. rewrite (mapM_res_map _ mapping_row (fun m => canon ["rest_request"; "yang_gnmi"; "configdb"] m.2)).
  2:{ intros m Hin%enumerate_elem. apply pick_mapping; [by apply Hm|by apply Om]. }
  cbn [rbind]. rewrite map_enumerate. rewrite (numbered_rows g "Gotcha" gotcha_row _ Ha eq_refl (ld_gotchas _ _ Hl)).
  2:{ intros m. apply added_managed. cbn. set_solver. }
  2:{ intros m. apply added_jget; [cbn; set_solver|done]. }
  cbn [rbind]. rewrite (mapM_res_map _ gotcha_row (fun x => x.2)) by (intros x Hin%enumerate_elem; by apply get_gotcha, Hg).
  cbn [rbind]. rewrite (map_enumerate (fun x => x)), map_id.
  destruct (answered_rows g "FailureMode" false failure_row _ Ha eq_refl Lf) as (fs & -> & Pf & _).
  { intros m. apply added_managed. rewrite stored_keys. set_solver. }
  cbn [rbind]. rewrite (mapM_res_map _ failure_row (canon FAILURE_KEYS)).
  2:{ intros m Hin. rewrite Pf in Hin. apply pick_failure; [by apply Hf|by apply Of]. }
  cbn [rbind]. rewrite Em. cbn [rbind]. unfold meta_rbac.
  rewrite (get_value _ _ _ "text" (e_rbac_contract (k_enforcement k))); [|cbn; apply NoDup_singleton|cbn; set_solver|by apply list_elem_of_singleton|apply Hk].
  cbn [rbind]. eexists _, _. split; [reflexivity|]. split; [done|]. by rewrite (Permutation_map _ Pf).
Qed.

Lemma rationale_of i ys : forall d, (forall c, c ∈ ys -> dict_get (i_never_block_rationale i) c <> Some PNone) -> NoDup ys -> (forall c, c ∈ ys -> c <> PNone) ->
  let d' := foldl (fun d n => dict_set d (jget n "cidr") (jget_or n "rationale" (PStr ""))) d (map (cidr_row i) ys) in
  forall c, dict_get d' c = if bool_decide (c ∈ ys) then Some (default (PStr "") (dict_get (i_never_block_rationale i) c)) else dict_get d c.
Proof.
  induction ys as [|y ys IH]; intros d Hr Hd Hn; cbn zeta in *; [done|]. intros c. apply NoDup_cons in Hd as [Hy Hd]. cbn [map foldl].
  assert (Ey : jget (cidr_row i y) "cidr" = y) by (apply added_jget; [cbn; set_solver|done]).
  assert (Er : jget_or (cidr_row i y) "rationale" (PStr "") = default (PStr "") (dict_get (i_never_block_rationale i) y)).
  { unfold jget_or, cidr_row. erewrite added_value; [reflexivity|apply NoDup_singleton|cbn; set_solver|by apply list_elem_of_singleton|].
    specialize (Hr y ltac:(by left)). destruct (dict_get _ y); cbn; [congruence|done]. }
  rewrite Ey, Er, IH; [|intros c' Hc'; apply Hr; by right|done|intros c' Hc'; apply Hn; by right].
  destruct (decide (c = y)) as [->|Hne].
  - rewrite (bool_decide_eq_false_2 (y ∈ ys)), bool_decide_eq_true_2 by (done || by left). by rewrite dict_get_set_eq.
  - rewrite dict_get_set_ne by done. by rewrite (bool_decide_ext (c ∈ y :: ys) (c ∈ ys)) by (rewrite elem_of_cons; tauto).
Qed.
Lemma read_invariants_restored k g : authored_ok k -> loaded k (contents g) -> answers g ->
  exists i', read_invariants g = Ok i' /\ (i_never_block_cidrs i' ≡ₚ i_never_block_cidrs (k_invariants k)) /\
    (forall c, c ∈ i_never_block_cidrs (k_invariants k) ->
      dict_get (i_never_block_rationale i') c = Some (default (PStr "") (dict_get (i_never_block_rationale (k_invariants k)) c))) /\
    (i_allowed_agent_actions i' ≡ₚ i_allowed_agent_actions (k_invariants k)) /\
    i_protected_comment_prefixes i' = i_protected_comment_prefixes (k_invariants k) /\
    i_agent_comment_prefix i' = i_agent_comment_prefix (k_invariants k).
Proof.
  intros Hk Hl Ha. destruct (metas k g Hk Hl Ha) as (actions & Es & _ & _ & Em). apply sorted_values_perm in Es.
  destruct (ok_cidrs k Hk) as [Hc Hd], (ok_actions k Hk) as [Hka Hda]. rewrite Forall_forall in Hc. unfold read_invariants.
  destruct (answered_rows g "NeverBlockEntry" false (cidr_row (k_invariants k)) _ Ha eq_refl (ld_cidrs _ _ Hl)) as (cs & -> & Pc & _).
  { intros c. apply added_managed. cbn. set_solver. }
  cbn [rbind]. rewrite (mapM_res_map _ (cidr_row (k_invariants k)) (fun c => c)).
  2:{ intros c Hin. rewrite Pc in Hin. destruct (Hc c Hin) as [[_ Hkey] _]. unfold cidr_row. rewrite get_added; [|cbn; set_solver|done]. cbn [rbind].
      by destruct (key_of c). }
  cbn [rbind]. rewrite Em, map_id. cbn [rbind].
  assert (Em' : forall x v, (x, v) ∈ [("allowed_agent_actions", PList actions); ("protected_comment_prefixes", PList (i_protected_comment_prefixes (k_invariants k)));
      ("agent_comment_prefix", i_agent_comment_prefix (k_invariants k))] -> v <> PNone ->
      dict_get (meta_invariants (k_invariants k) actions) x = Some v).
  { intros x v Hin Hv. apply added_value; [by apply (bool_decide_unpack _)|by apply (bool_decide_unpack _)|done|done]. }
  unfold jget_or. rewrite (Em' "allowed_agent_actions" (PList actions)) by (done || left).
  change (frozenset _) with (distinct_values [] actions). rewrite distinct_all; [|by rewrite Es|by apply (map_key_nodup key_of (i_allowed_agent_actions (k_invariants k)))|by intros ? ?%elem_of_nil].
  cbn [rbind]. rewrite (Em' "protected_comment_prefixes" (PList (i_protected_comment_prefixes (k_invariants k)))) by (done || (right; left)).
  cbn [from_option id py_iter rbind]. rewrite (Em' "agent_comment_prefix" (i_agent_comment_prefix (k_invariants k))) by (apply Hk || (right; right; left)).
  eexists. split; [reflexivity|]. cbn [i_never_block_cidrs i_never_block_rationale i_allowed_agent_actions i_protected_comment_prefixes i_agent_comment_prefix from_option id].
  split_and!; try done. intros c Hin.
  pose proof (rationale_of (k_invariants k) cs [] ltac:(intros c' Hc'; rewrite Pc in Hc'; by apply Hc) ltac:(by rewrite Pc)
    ltac:(intros c' Hc'; rewrite Pc in Hc'; by apply (Hc c'))) as Hrat.
  cbn zeta in Hrat. unfold jget_or in Hrat. rewrite Hrat. by rewrite bool_decide_eq_true_2 by (by rewrite Pc).
Qed.

(** *** Kill chains: the stages grouped from the edges *)
Definition entry : Type := KillChain * link.
Definition at_stage (name : string) (n : Z) (y : entry) : bool := bool_decide (ch_name y.1 = name) && bool_decide (ks_stage y.2.1 = n).
Definition with_signals (st : KillChainStage) (n : Z) (l : list Z) : KillChainStage :=
  mkStage (Stage n l) (st_tactic st) (st_production_indicators st) (st_false_positive_sources st).
Definition grouped (out : list (pyval * list (Z * KillChainStage))) (ys : list entry) : Prop :=
  forall name, NoDup (default [] (dict_get out (PStr name))).*1 /\ forall n,
    dict_get (default [] (dict_get out (PStr name))) n =
    match List.filter (at_stage name n) ys with [] => None | y :: l => Some (with_signals y.2.1 n (map (fun y => y.2.2) (y :: l))) end.

Lemma fresh_stage st : (let* sources := listed (por (strs (st_false_positive_sources st)) (PList [])) in
    KillChainStage_of [("stage", PInt (ks_stage st)); ("tactic", PStr (st_tactic st)); ("expected_signals", PList []);
      ("production_indicators", PStr (st_production_indicators st)); ("false_positive_sources", sources)]) = Ok (with_signals st (ks_stage st) []).
Proof.
  assert (E : por (strs (st_false_positive_sources st)) (PList []) = strs (st_false_positive_sources st)).
  { unfold por, strs. by destruct (st_false_positive_sources st). }
  rewrite E. unfold with_signals. hide_texts. by reads.
Qed.

Lemma stage_row_step k (y : entry) out : authored_ok k -> knows k y.2.2 = true ->
  let name := PStr (ch_name y.1) in
  let stages := default [] (dict_get out name) in
  let n := ks_stage y.2.1 in
  let st := default (with_signals y.2.1 n []) (dict_get stages n) in
  stage_row (link_row (sid_at k) y.1 y.2) out = Ok (dict_set out name (dict_set stages n (with_signals st (ks_stage st) (ks_signals st ++ [y.2.2])))).
Proof.
  intros Hk Hs name stages n st. destruct y as [c [s0 sid]]. cbn [fst snd] in *.
  pose proof (sid_at_spec k sid Hk) as Hsid. rewrite Hs in Hsid. destruct Hsid as [_ Hsid].
  unfold stage_row, link_row. rewrite crow_name, link_stage. cbn [int_of rbind key_of fst snd]. fold name stages n.
  change (jget (link_props (s0, sid)) "tactic") with (PStr (st_tactic s0)).
  change (jget (link_props (s0, sid)) "indicators") with (PStr (st_production_indicators s0)).
  change (jget (link_props (s0, sid)) "false_positive_sources") with (strs (st_false_positive_sources s0)).
  rewrite Hsid. unfold st. destruct (dict_get stages n) as [x|]; cbn [rbind int_of default].
  - done.
  - by rewrite fresh_stage.
Qed.

Lemma grouped_nil : grouped [] [].
Proof. intros name. split; [constructor|done]. Qed.
Lemma grouped_step (y : entry) out ys :
  let name := PStr (ch_name y.1) in
  let stages := default [] (dict_get out name) in
  let n := ks_stage y.2.1 in
  let st := default (with_signals y.2.1 n []) (dict_get stages n) in
  grouped out ys -> grouped (dict_set out name (dict_set stages n (with_signals st (ks_stage st) (ks_signals st ++ [y.2.2])))) (ys ++ [y]).
Proof.
  intros name stages n st Hg name'. destruct (decide (ch_name y.1 = name')) as [<-|Hne].
  - fold name. rewrite dict_get_set_eq. cbn [from_option id]. destruct (Hg (ch_name y.1)) as [Hd Hget]. fold name stages in Hd, Hget.
    split; [by apply dict_set_NoDup|]. intros n'. rewrite List.filter_app. cbn [List.filter]. unfold at_stage at 2.
    rewrite (bool_decide_eq_true_2 (ch_name y.1 = ch_name y.1)) by done. cbn [andb]. fold n. destruct (decide (n = n')) as [<-|Hn].
    + rewrite dict_get_set_eq, bool_decide_eq_true_2 by done. unfold st. rewrite (Hget n).
      destruct (List.filter _ ys) as [|y0 l]; cbn [app from_option id]; [done|].
      unfold with_signals. cbn [ks_stage st_stage ks_signals st_tactic st_production_indicators st_false_positive_sources].
      do 2 f_equal. by rewrite app_comm_cons, map_app.
    + rewrite dict_get_set_ne, bool_decide_eq_false_2, app_nil_r by done. apply Hget.
  - rewrite dict_get_set_ne by (intros [= E]; done). destruct (Hg name') as [Hd Hget]. split; [done|]. intros n'.
    rewrite List.filter_app. cbn [List.filter]. unfold at_stage at 2. rewrite bool_decide_eq_false_2 by done. cbn [andb]. by rewrite app_nil_r.
Qed.
Lemma stage_rows_grouped k ys : authored_ok k -> Forall (fun y : entry => knows k y.2.2 = true) ys -> forall out done, grouped out done ->
  exists out', stage_rows (map (fun y : entry => link_row (sid_at k) y.1 y.2) ys) out = Ok out' /\ grouped out' (done ++ ys).
Proof.
  intros Hk. induction ys as [|y ys IH]; intros Hs out done Hg; [exists out; by rewrite app_nil_r|].
  apply Forall_cons in Hs as [Hy Hs]. cbn [map stage_rows]. rewrite (stage_row_step k y out Hk Hy). cbn [rbind].
  destruct (IH Hs _ (done ++ [y]) (grouped_step y out done Hg)) as (out' & E & Hg'). exists out'. split; [exact E|]. by rewrite <- app_assoc in Hg'.
Qed.

Lemma filter_flat_map_one {A B K} (key : A -> K) (f : A -> list B) (p : B -> bool) xs x : NoDup (map key xs) -> x ∈ xs ->
  (forall y z, y ∈ xs -> z ∈ f y -> p z = true -> key y = key x) -> List.filter p (flat_map f xs) = List.filter p (f x).
Proof.
  induction xs as [|y xs IH]; intros Hd Hx Hp; [by apply elem_of_nil in Hx|]. cbn [flat_map map] in *. apply NoDup_cons in Hd as [Hy Hd].
  rewrite List.filter_app. apply elem_of_cons in Hx as [->|Hx].
  - rewrite (filter_false _ (flat_map f xs)); [apply app_nil_r|]. intros z Hz. destruct (p z) eqn:E; [|done]. exfalso. apply Hy.
    apply list_elem_of_In, in_flat_map in Hz as (w & Hw & Hz). apply list_elem_of_In in Hw, Hz.
    rewrite <- (Hp w z); [by apply (list_elem_of_fmap_2 key)|by right|done|done].
  - rewrite (filter_false _ (f y)); [apply IH; try done; intros w z Hw; apply Hp; by right|]. intros z Hz. destruct (p z) eqn:E; [|done].
    exfalso. apply Hy. rewrite (Hp y z); [by apply (list_elem_of_fmap_2 key)|by left|done|done].
Qed.
Lemma filter_and {A} (p q : A -> bool) l : List.filter p (List.filter q l) = List.filter (fun x => q x && p x) l.
Proof. induction l as [|x l IH]; [done|]. cbn. destruct (q x); cbn; [|done]. by rewrite IH. Qed.

Definition entries k : list entry := flat_map (fun c => map (pair c) (known_links (knows k) c)) (k_kill_chains k).
Lemma entries_in k (y : entry) : y ∈ entries k -> (y.1 ∈ k_kill_chains k) /\ (y.2.1 ∈ ch_stages y.1) /\ (y.2.2 ∈ List.filter (knows k) (ks_signals y.2.1)).
Proof.
  intros (c & Hc & (x & <- & Hx)%in_map_iff)%list_elem_of_In%in_flat_map. apply filter_In in Hx as [Hx Hkn].
  apply in_flat_map in Hx as (st & Hst & (s & <- & Hs)%in_map_iff). cbn [fst snd] in *. rewrite !list_elem_of_In, filter_In. done.
Qed.
Lemma entries_of_stage k c (st : KillChainStage) : authored_ok k -> c ∈ k_kill_chains k -> st ∈ ch_stages c ->
  List.filter (at_stage (ch_name c) (ks_stage st)) (entries k) = map (fun s => (c, (st, s))) (List.filter (knows k) (ks_signals st)).
Proof.
  intros Hk Hc Hst. destruct (ok_chains k Hk) as [Hd Hs]. rewrite Forall_forall in Hs. destruct (Hs c Hc) as [Hn _].
  unfold entries. rewrite (filter_flat_map_one ch_name _ _ _ c Hd Hc).
  2:{ intros c' y _ (x & -> & _)%list_elem_of_fmap Hp. unfold at_stage in Hp. apply andb_true_iff in Hp as [Hp%bool_decide_eq_true _]. done. }
  rewrite filter_map_swap. unfold known_links. rewrite filter_and. unfold links.
  rewrite (filter_flat_map_one (fun s : KillChainStage => ks_stage s) _ _ _ st Hn Hst).
  2:{ intros st' x _ (s & -> & _)%list_elem_of_fmap Hp. unfold at_stage in Hp. rewrite !andb_true_iff in Hp. by destruct Hp as [_ [_ Hp%bool_decide_eq_true]]. }
  rewrite filter_map_swap, map_map. f_equal. apply List.filter_ext. intros s. unfold at_stage. cbn [fst snd].
  by rewrite !bool_decide_eq_true_2, andb_true_r.
Qed.

Lemma merge_sort_perm (l l' : list Z) : l ≡ₚ l' -> merge_sort Z.le l = merge_sort Z.le l'.
Proof.
  intros Hp. apply (StronglySorted_unique Z.le); [apply (StronglySorted_merge_sort Z.le)..|]. by rewrite !merge_sort_Permutation.
Qed.

(** The stages of a chain, however the edges came. *)
Lemma grouped_stage k out ys c (st : KillChainStage) : authored_ok k -> ys ≡ₚ entries k -> grouped out ys -> c ∈ k_kill_chains k -> st ∈ ch_stages c ->
  option_map sort_signals (dict_get (default [] (dict_get out (PStr (ch_name c)))) (ks_stage st)) = restored_stage k st.
Proof.
  intros Hk Hy Hg Hc Hst. destruct (Hg (ch_name c)) as [_ ->]. pose proof (filter_perm (at_stage (ch_name c) (ks_stage st)) _ _ Hy) as Hp.
  rewrite (entries_of_stage k c st Hk Hc Hst) in Hp. unfold restored_stage. set (sigs := List.filter (knows k) (ks_signals st)) in *.
  destruct (List.filter _ ys) as [|y l] eqn:E.
  - apply Permutation_nil in Hp. by destruct sigs.
  - assert (Hin : y ∈ map (fun s => (c, (st, s))) sigs) by (rewrite <- Hp; by left). apply list_elem_of_fmap in Hin as (s & -> & Hin).
    apply (Permutation_map (fun y : entry => y.2.2)) in Hp. rewrite map_map in Hp. cbn [snd] in Hp. rewrite map_id in Hp.
    destruct sigs as [|s' sigs]; [by apply elem_of_nil in Hin|]. cbn [option_map]. unfold sort_signals, with_signals.
    cbn [fst snd ks_stage st_stage ks_signals st_tactic st_production_indicators st_false_positive_sources].
    do 3 f_equal. exact (merge_sort_perm _ _ Hp).
Qed.
Lemma grouped_known k out ys c n (x : KillChainStage) : authored_ok k -> ys ≡ₚ entries k -> grouped out ys -> c ∈ k_kill_chains k ->
  dict_get (default [] (dict_get out (PStr (ch_name c)))) n = Some x -> ks_stage x = n /\ exists st : KillChainStage, st ∈ ch_stages c /\ ks_stage st = n.
Proof.
  intros Hk Hy Hg Hc. destruct (Hg (ch_name c)) as [_ ->]. destruct (List.filter _ ys) as [|y l] eqn:E; [done|]. intros [= <-]. split; [done|].
  assert (Hin : In y (List.filter (at_stage (ch_name c) n) ys)) by (rewrite E; by left). apply filter_In in Hin as [Hin Ha].
  apply list_elem_of_In in Hin. rewrite Hy in Hin. apply entries_in in Hin as (Hc' & Hst & _).
  unfold at_stage in Ha. apply andb_true_iff in Ha as [Hn%bool_decide_eq_true Hs%bool_decide_eq_true].
  destruct (ok_chains k Hk) as [Hd _]. assert (y.1 = c) as Ey.
  { apply list_elem_of_lookup in Hc as [i Hi], Hc' as [j Hj]. rewrite NoDup_alt in Hd.
    assert (i = j) by (eapply Hd; change (map ch_name (k_kill_chains k)) with (ch_name <$> k_kill_chains k); rewrite list_lookup_fmap; [by rewrite Hi|by rewrite Hj; cbn; f_equal]).
    subst. by rewrite Hi in Hj; simplify_eq. }
  exists y.2.1. by rewrite <- Ey.
Qed.

(** The stages of a chain as it is read: [D] holds them by number. *)
Lemma stages_restored k (D : list (Z * KillChainStage)) (sts : list KillChainStage) : NoDup D.*1 ->
  NoDup (map (fun st : KillChainStage => ks_stage st) sts) ->
  (forall n x, dict_get D n = Some x -> ks_stage x = n /\ exists st : KillChainStage, st ∈ sts /\ ks_stage st = n) ->
  (forall st : KillChainStage, st ∈ sts -> option_map sort_signals (dict_get D (ks_stage st)) = restored_stage k st) ->
  map (fun s : Z * KillChainStage => sort_signals s.2) D ≡ₚ omap (restored_stage k) sts.
Proof.
  intros Hd Hs Hin Hst. apply NoDup_Permutation.
  - apply (NoDup_fmap_1 (fun st : KillChainStage => ks_stage st)).
    assert (E : (fun st : KillChainStage => ks_stage st) <$> map (fun s : Z * KillChainStage => sort_signals s.2) D = D.*1); [|by rewrite E].
    change (map (fun st : KillChainStage => ks_stage st) (map (fun s : Z * KillChainStage => sort_signals s.2) D) = map fst D).
    rewrite map_map. apply map_ext_in. intros [n x] Hx. apply list_elem_of_In in Hx. apply (Hin n x). by apply dict_get_in.
  - apply (NoDup_fmap_1 (fun st : KillChainStage => ks_stage st)). clear Hst Hin. revert Hs. induction sts as [|st sts IH]; [constructor|].
    cbn [map]. intros [Hn Hs]%NoDup_cons. cbn [omap list_omap]. destruct (restored_stage k st) as [x|] eqn:E; [|by apply IH].
    cbn [fmap list_fmap]. apply NoDup_cons. split; [|by apply IH]. unfold restored_stage in E. destruct (List.filter _ _); [done|].
    injection E as <-. cbn. intros (y & Ey & (st' & Hst' & Er)%list_elem_of_omap)%list_elem_of_fmap. apply Hn. rewrite Ey.
    unfold restored_stage in Er. destruct (List.filter _ _); [done|]. injection Er as <-. cbn. by apply (list_elem_of_fmap_2 (fun st : KillChainStage => ks_stage st)).
  - intros x. rewrite list_elem_of_omap. split.
    + intros ([n y] & -> & Hy)%list_elem_of_fmap. apply dict_get_in in Hy; [|done]. destruct (Hin n y Hy) as (_ & st & Hst' & <-).
      exists st. split; [done|]. rewrite <- Hst by done. by rewrite Hy.
    + intros (st & Hst' & E). rewrite <- Hst in E by done. destruct (dict_get D (ks_stage st)) as [y|] eqn:Ey; [|done]. injection E as <-.
      apply dict_get_elem in Ey. apply list_elem_of_fmap. by eexists (_, y).
Qed.

#[local] Instance number_le'_trans : Transitive number_le'.
Proof. intros x y z. unfold number_le'. lia. Qed.
#[local] Instance number_le'_total : Total number_le'.
Proof. intros x y. unfold number_le'. lia. Qed.
Lemma sort_numbers (D : list (Z * KillChainStage)) : NoDup D.*1 -> (forall x : Z * KillChainStage, x ∈ D -> ks_stage x.2 = x.1) ->
  StronglySorted stage_lt (map snd (merge_sort number_le' D)).
Proof.
  intros Hd Hk. assert (Hs : StronglySorted number_le' (merge_sort number_le' D)).
  { apply (StronglySorted_merge_sort number_le'). }
  assert (Hd' : NoDup (map fst (merge_sort number_le' D))) by (by apply (map_key_nodup fst D); [apply merge_sort_Permutation|]).
  assert (Hk' : Forall (fun x : Z * KillChainStage => ks_stage x.2 = x.1) (merge_sort number_le' D)).
  { apply Forall_forall. intros x Hx. rewrite merge_sort_Permutation in Hx. by apply Hk. }
  revert Hd' Hk'. induction Hs as [|x l Hs IH Hf]; intros Hd' Hk'; cbn [map] in *; [constructor|].
  apply NoDup_cons in Hd' as [Hx Hd']. apply Forall_cons in Hk' as [Kx Kl]. constructor; [by apply IH|].
  apply Forall_map, Forall_forall. intros y Hy. rewrite Forall_forall in Hf, Kl. specialize (Hf y Hy). unfold stage_lt, number_le' in *.
  rewrite Kx, (Kl y Hy). assert (x.1 <> y.1) by (intros E; apply Hx; rewrite E; by apply (list_elem_of_fmap_2 fst)). lia.
Qed.

Lemma read_chain_row stages c : read_chain stages (crow c) = Ok (mkChain (ch_name c) (ch_production_description c)
  (map snd (merge_sort number_le' (default [] (dict_get stages (PStr (ch_name c)))))) (ch_typical_dwell c) (ch_intervention_point c)
  (ch_containment_strategy c)).
Proof.
  unfold read_chain. change (get (crow c) "name") with (Ok (PStr (ch_name c))). cbn [rbind].
  change (get (crow c) "production_description") with (Ok (PStr (ch_production_description c))).
  change (get (crow c) "typical_dwell") with (Ok (PStr (ch_typical_dwell c))).
  change (get (crow c) "recommended_intervention") with (Ok (PStr (ch_intervention_point c))).
  change (get (crow c) "containment_strategy") with (Ok (PStr (ch_containment_strategy c))). done.
Qed.
Lemma dict_get_map {A B} (f : A -> B) (d : list (pyval * A)) v : dict_get (map (fun c => (c.1, f c.2)) d) v = option_map f (dict_get d v).
Proof. induction d as [|[k a] d IH]; [done|]. cbn. by destruct (decide _). Qed.

Lemma read_chains_restored k g : authored_ok k -> loaded k (contents g) -> answers g ->
  exists cs cs', read_kill_chains g = Ok cs' /\ (cs ≡ₚ k_kill_chains k) /\ Forall2 (restored_chain k) cs cs'.
Proof.
  intros Hk Hl Ha. unfold read_kill_chains. destruct (answered_rows g "KillChain" false crow _ Ha eq_refl (ld_chains _ _ Hl)) as (cs & -> & Pc & _); [done|].
  assert (He : typed "Sid" "EXPECTED_IN" "KillChain" (contents g) ≡ₚ map (fun y : entry => link_row (sid_at k) y.1 y.2) (entries k)).
  { rewrite (ld_links _ _ Hl). unfold entries. clear. induction (k_kill_chains k) as [|c l IH]; [done|]. cbn [flat_map]. by rewrite map_app, map_map, IH. }
  destruct (answered_edges g "Sid" "EXPECTED_IN" "KillChain" _ _ Ha eq_refl He) as (ys & -> & Py); [done|]. cbn [rbind].
  destruct (stage_rows_grouped k ys Hk) with (out := @nil (pyval * list (Z * KillChainStage))) (done := @nil entry) as (out & -> & Hg); [|apply grouped_nil|].
  { apply Forall_forall. intros y Hy. rewrite Py in Hy. apply entries_in in Hy as (_ & _ & Hy). by apply list_elem_of_In, filter_In in Hy as [_ ?]. }
  cbn [rbind app] in *. rewrite (mapM_res_map _ crow _ cs (fun c _ => read_chain_row _ c)). eexists cs, _. split; [reflexivity|]. split; [done|].
  apply Forall2_fmap_r, Forall_Forall2_diag, Forall_forall. intros c Hc. rewrite Pc in Hc. split; cbn [ch_name ch_production_description ch_typical_dwell ch_intervention_point ch_containment_strategy ch_stages]; [done| |];
    rewrite (dict_get_map (fun l => map (fun s : Z * KillChainStage => (s.1, sort_signals s.2)) l));
    destruct (Hg (ch_name c)) as [Hd _]; set (D := default [] (dict_get out (PStr (ch_name c)))) in *;
    assert (E : default [] (option_map (fun l => map (fun s : Z * KillChainStage => (s.1, sort_signals s.2)) l) (dict_get out (PStr (ch_name c)))) =
      map (fun s : Z * KillChainStage => (s.1, sort_signals s.2)) D) by (unfold D; by destruct (dict_get out _)); rewrite E.
  - rewrite (Permutation_map snd (merge_sort_Permutation _ _)), map_map. cbn [snd].
    destruct (ok_chains k Hk) as [_ Hs]. rewrite Forall_forall in Hs. apply stages_restored; [done|by apply Hs| |].
    + intros n x. by apply (grouped_known k out ys c n x).
    + intros st. by apply (grouped_stage k out ys c st).
  - apply sort_numbers.
    + change (NoDup (map fst (map (fun s : Z * KillChainStage => (s.1, sort_signals s.2)) D))). by rewrite map_map.
    + intros x ([n st] & -> & Hx)%list_elem_of_fmap. cbn. apply dict_get_in in Hx; [|done]. by apply (grouped_known k out ys c n st).
Qed.

Lemma read_all_restored k g : authored_ok k -> loaded k (contents g) -> answers g ->
  exists k', read_all (json_loads float_of) g = Ok k' /\ restored k k'.
Proof.
  intros Hk Hl Ha. unfold read_all.
  destruct (read_zones_restored k g Hk Hl Ha) as (zs & -> & Pz), (read_assets_restored k g Hk Hl Ha) as (xs & -> & Px),
    (read_leafs_restored k g Hk Hl Ha) as (ls & -> & Pl), (read_baselines_restored k g Hk Hl Ha) as (app & mgt & -> & Pa & Pm),
    (read_matrix_restored k g Hk Hl Ha) as (m & -> & Pmx), (read_sids_restored k g Hk Hl Ha) as (ds & -> & Pd),
    (read_chains_restored k g Hk Hl Ha) as (cs & cs' & -> & Pc & Fc), (read_plane_restored k g Hk Hl Ha) as (ec & fs & -> & Pe & Pf),
    (read_invariants_restored k g Hk Hl Ha) as (i & -> & Pi & Hr & Pact & Hpre & Hag).
  cbn [rbind]. eexists. split; [reflexivity|]. constructor; cbn; try done.
  - by exists app, mgt.
  - by exists cs.
Qed.

(** A read that succeeds had all its answers. *)
Lemma read_all_answers loads g k' : read_all loads g = Ok k' -> answers g.
Proof.
  unfold read_all, read_zones, read_assets, read_leafs, read_baselines, read_policy_matrix, read_sids, read_kill_chains,
    read_enforcement_plane, read_invariants, read_meta.
  intros Hr. repeat match goal with
    | E : rbind _ _ = Ok _ |- _ => apply rbind_ok in E as (? & ? & E)
    | E : match ?l with [] => Raise _ | _ => _ end = Ok _ |- _ => destruct l; [done|]
    end.
  unfold answers, NODE_QUERIES, META_QUERIES, EDGE_QUERIES. rewrite !Forall_cons, !Forall_nil. cbn [fst snd].
  repeat match goal with E : ?t = Ok _ |- context [is_ok ?t] => rewrite E end. by repeat split.
Qed.
End Readers.
