(* ===== verification/Boot.v ===== *)
(** * Start-up of the knowledge base (main.py 66-162, core/*.py at import)

    The authored files fill the modules at import ([bootstrap]); start-up loads them into
    the graph, reads them back and replaces the modules' contents ([hot_swap]), part after
    part; an exception leaves what is replaced by then, and start-up goes on without the
    graph unless it is a [RuntimeError].  [boot_policy]: whatever the graph server answers,
    the agent starts with the graph only when the safety floor holds, and, from a graph
    without foreign nodes ([clean]), with the authored policy; [foreign_edge_changes_policy]
    shows what such nodes can do. *)
From S2P Require Import Prelude PyVal Json JsonLoads Models Topology Policy Safety Knowledge KnowledgeGraph KnowledgeReload KnowledgeRoundtrip KnowledgeRestore.
Local Open Scope string_scope.
Local Open Scope Z_scope.
Local Open Scope list_scope.

(** ** The variables of the modules *)
Record modules := Modules {
  md_zones : list (string * Zone); md_assets : list (string * Asset); md_leafs : list (string * Leaf); md_baselines : baselines;
  md_sids : list (pyval * Knowledge.SidDetection); md_kill_chains : list Knowledge.KillChain; md_policy_matrix : list ((pyval * pyval) * pyval);
  md_endpoint_contracts : list (pyval * pyval); md_field_name_mapping : list pyval; md_critical_gotchas : list pyval;
  md_failure_modes : list FailureMode; md_rbac_contract : string; md_invariants : invariants }.
(** What the agent decides with. *)
Definition catalogue_in (m : modules) : catalogue :=
  catalogue_of (Knowledge (md_zones m) (md_assets m) (md_leafs m) (md_baselines m) (md_policy_matrix m) (md_sids m) (md_kill_chains m)
    (EnforcementPlane (md_endpoint_contracts m) (md_field_name_mapping m) (md_critical_gotchas m) [] PNone) (md_invariants m)).

Section Boot.
Context `{External}.

(** [FailureMode( **fm )] *)
Definition failure_mode (fm : pyval) : res FailureMode :=
  match fm with PDict d => FailureMode_of d | _ => Raise (TypeError "argument after ** must be a mapping") end.
(** ["\n" + text + "\n"] *)
Definition framed (v : pyval) : res string :=
  match v with
  | PStr s => Ok (String (ascii_of_nat 10) s ++ String (ascii_of_nat 10) "")%string
  | _ => Raise (TypeError "can only concatenate str")
  end.

(** The modules as they are imported. *)
Definition bootstrap (k : knowledge) : res modules :=
  let* failures := mapM_res failure_mode (e_failure_modes (k_enforcement k)) in
  let* rbac := framed (e_rbac_contract (k_enforcement k)) in
  Ok (Modules (k_zones k) (k_assets k) (k_leafs k) (k_baselines k) (k_sids k) (k_kill_chains k) (k_policy_matrix k)
    (e_endpoint_contracts (k_enforcement k)) (e_field_name_mapping (k_enforcement k)) (e_critical_gotchas (k_enforcement k)) failures rbac
    (k_invariants k)).

(** [FAILURE_MODES.extend(FailureMode( **fm ) for fm in rows)]: what is added before an exception stays. *)
Fixpoint extend_failures (rows : list pyval) (out : list FailureMode) : list FailureMode * option exn :=
  match rows with
  | [] => (out, None)
  | fm :: rest => match failure_mode fm with Ok x => extend_failures rest (out ++ [x]) | Raise e => (out, Some e) end
  end.

Definition hot_swap (kb : knowledge) (m : modules) : modules * option exn :=
  let swapped failures rbac inv :=
    Modules (k_zones kb) (k_assets kb) (k_leafs kb) (k_baselines kb) (k_sids kb) (k_kill_chains kb) (k_policy_matrix kb)
      (e_endpoint_contracts (k_enforcement kb)) (e_field_name_mapping (k_enforcement kb)) (e_critical_gotchas (k_enforcement kb))
      failures rbac inv in
  match extend_failures (e_failure_modes (k_enforcement kb)) [] with
  | (failures, Some e) => (swapped failures (md_rbac_contract m) (md_invariants m), Some e)
  | (failures, None) =>
      match framed (e_rbac_contract (k_enforcement kb)) with
      | Raise e => (swapped failures (md_rbac_contract m) (md_invariants m), Some e)
      | Ok rbac => (swapped failures rbac (k_invariants kb), None)
      end
  end.

(** Start-up goes on, with the graph or without, or it is aborted. *)
Inductive outcome := Started (m : modules) (neo4j : bool) | Aborted (e : exn).
Definition unavailable (m : modules) (e : exn) : outcome := match e with RuntimeError _ => Aborted e | _ => Started m false end.

Context `{PyRepr} `{PydBool} `{Neo4j} (json_loads : string -> option pyval).
(** [connected]: what the driver makes of [connect]; [authored]: of [parse_all]. *)
Definition boot (connected : res unit) (authored : res knowledge) (m : modules) (g : graph) : graph * outcome :=
  match connected with
  | Raise e => (g, unavailable m e)
  | Ok _ =>
      match reload_from_models authored g with
      | (g, Raise e) => (g, unavailable m e)
      | (g, Ok _) =>
          match read_all json_loads g with
          | Raise e => (g, unavailable m e)
          | Ok kb =>
              match hot_swap kb m with
              | (m, Some e) => (g, unavailable m e)
              | (m, None) =>
                  match check_safety_floor (catalogue_in m) with
                  | Raise e => (g, unavailable m e)
                  | Ok _ => (g, Started m true)
                  end
              end
          end
      end
  end.
End Boot.

(** ** Catalogues with the same policy *)
Lemma dict_get_perm {K V} `{EqDecision K} (d d' : list (K * V)) k : NoDup d.*1 -> d ≡ₚ d' -> dict_get d k = dict_get d' k.
Proof.
  intros Hd Hp. assert (Hd' : NoDup d'.*1) by (by apply (map_key_nodup fst d d')).
  destruct (dict_get d k) as [v|] eqn:E; symmetry.
  - apply dict_get_in; [done|]. rewrite <- Hp. by apply dict_get_elem.
  - apply dict_get_None in E. apply dict_get_None. intros Hk. apply E. by rewrite Hp.
Qed.
(** Keys stay distinct under a projection that keeps them. *)
Lemma omap_keys {K V K' V'} (f : K * V -> option (K' * V')) (key : K' -> K) (l : list (K * V)) :
  (forall e k v, f e = Some (k, v) -> e.1 = key k) -> NoDup l.*1 -> NoDup (omap f l).*1.
Proof.
  intros Hf. induction l as [|e l IH]; [constructor|]. cbn [fmap list_fmap]. intros [He Hd]%NoDup_cons. cbn [omap list_omap].
  destruct (f e) as [[k v]|] eqn:E; [|by apply IH]. cbn [fmap list_fmap]. apply NoDup_cons. split; [|by apply IH].
  intros ([k' v'] & Ek & (e' & Hin & E')%list_elem_of_omap)%list_elem_of_fmap. cbn in Ek. subst k'. apply He.
  rewrite (Hf _ _ _ E), <- (Hf _ _ _ E'). by apply (list_elem_of_fmap_2 fst).
Qed.

Record same_policy (c c' : catalogue) : Prop := {
  sp_conflict src dst action sid : detect_conflict c src dst action sid = detect_conflict c' src dst action sid;
  sp_sid sid : get_sid_detection c sid = get_sid_detection c' sid;
  sp_never_block cidr : cidr ∈ NEVER_BLOCK_CIDRS c <-> cidr ∈ NEVER_BLOCK_CIDRS c' }.
Lemma same_policy_of c c' : (forall p, dict_get (POLICY_MATRIX c) p = dict_get (POLICY_MATRIX c') p) ->
  (forall sid, dict_get (SID_DETECTIONS c) sid = dict_get (SID_DETECTIONS c') sid) ->
  (forall x, x ∈ NEVER_BLOCK_CIDRS c <-> x ∈ NEVER_BLOCK_CIDRS c') -> same_policy c c'.
Proof.
  intros Hm Hs Hn. split; [|done|done]. intros src dst action sid. unfold detect_conflict, check_policy, sid_catalogues_drop.
  destruct (ip_to_zone src), (ip_to_zone dst); try done. rewrite Hm. destruct sid as [n|]; [|done]. by rewrite Hs.
Qed.
(** The safety layers read nothing else of the catalogue. *)
Lemma same_policy_validation c c' intent sid lo hi ip : same_policy c c' ->
  validate_intent c intent sid lo hi ip = validate_intent c' intent sid lo hi ip.
Proof. intros Hs. unfold validate_intent, l3_errors. by rewrite (sp_conflict _ _ Hs). Qed.
Lemma same_policy_floor c c' : same_policy c c' -> check_safety_floor c = check_safety_floor c'.
Proof.
  intros Hs. unfold check_safety_floor.
  rewrite (list_filter_iff (fun x => x ∉ NEVER_BLOCK_CIDRS c) (fun x => x ∉ NEVER_BLOCK_CIDRS c')); [done|].
  intros x. by rewrite (sp_never_block _ _ Hs).
Qed.

(** What the modules hold of the policy is the authored one, in some order. *)
Definition policy_kept (k : knowledge) (m : modules) : Prop :=
  (md_policy_matrix m ≡ₚ k_policy_matrix k) /\ (md_sids m ≡ₚ k_sids k) /\
  (i_never_block_cidrs (md_invariants m) ≡ₚ i_never_block_cidrs (k_invariants k)).
Lemma policy_kept_same k m : authored_ok k -> policy_kept k m -> same_policy (catalogue_in m) (catalogue_of k).
Proof.
  intros Hk (Pm & Ps & Pn). apply same_policy_of; cbn [catalogue_in catalogue_of POLICY_MATRIX SID_DETECTIONS NEVER_BLOCK_CIDRS k_policy_matrix k_sids
    k_invariants].
  - intros p. apply dict_get_perm; [|by apply omap_perm]. apply (omap_keys policy_entry (fun p : string * string => (PStr p.1, PStr p.2))).
    + intros [[s d] v] q w. cbn. by destruct s, d, v; try done; intros [= <- <-].
    + apply (map_key_nodup fst (k_policy_matrix k)); [done|]. apply (ok_matrix k Hk).
  - intros p. apply dict_get_perm; [|by apply omap_perm]. apply (omap_keys sid_entry PInt).
    + intros [s d] q w. unfold sid_entry. cbn [fst snd]. destruct s; try done. by intros [= <- <-].
    + apply (map_key_nodup fst (k_sids k)); [done|]. apply (ok_sids k Hk).
  - intros x. by rewrite (omap_perm text_of _ _ Pn).
Qed.

Section BootProofs.
Context `{PyRepr} `{ExternalLaws} `{PydBoolLaws} `{Neo4jLaws} (float_of : string -> pyval).

Lemma bootstrap_kept k m : bootstrap k = Ok m -> policy_kept k m.
Proof.
  unfold bootstrap. destruct (mapM_res _ _); [|done]. cbn [rbind]. destruct (framed _); [|done]. intros [= <-]. done.
Qed.
Lemma hot_swap_kept k kb m : restored k kb -> policy_kept k m -> policy_kept k (hot_swap kb m).1.
Proof.
  intros Hr (Pm & Ps & Pn). unfold hot_swap. destruct (extend_failures _ _) as [fs [e|]]; [by split_and!; cbn; [apply Hr|apply Hr|]|].
  destruct (framed _); by split_and!; cbn; try apply Hr.
Qed.

(** No foreign nodes: every labelled node is one that a load has made. *)
Definition clean (g : graph) : Prop := forall n l, n ∈ nodes (contents g) -> labelled l n = true -> managed (n_props n) = true.
Lemma reload_loaded k g g' n : clean g -> authored_ok k -> reload_from_models (Ok k) g = (g', Ok n) -> loaded k (contents g').
Proof.
  intros Hc Hk Hr. unfold reload_from_models in Hr. destruct (run_steps (load_steps k) g) as [g1 [e|]] eqn:E; [done|].
  injection Hr as <- _. by eapply load_loaded.
Qed.

Lemma unavailable_started (g1 g' : graph) m1 m' e b : (g1, unavailable m1 e) = (g', Started m' b) -> m' = m1 /\ b = false.
Proof. intros [= _ E]. unfold unavailable in E. by destruct e; simplify_eq. Qed.
(** Start-up with the graph has seen the floor, whatever the graph holds. *)
Lemma boot_floor connected authored m g g' m' : boot (json_loads float_of) connected authored m g = (g', Started m' true) ->
  check_safety_floor (catalogue_in m') = Ok tt.
Proof.
  unfold boot. destruct connected as [[]|e]; [|by intros [_ [=]]%unavailable_started].
  destruct (reload_from_models authored g) as [g1 [n|e]]; [|by intros [_ [=]]%unavailable_started].
  destruct (read_all _ g1) as [kb|e]; [|by intros [_ [=]]%unavailable_started].
  destruct (hot_swap kb m) as [m1 [e|]]; [by intros [_ [=]]%unavailable_started|].
  destruct (check_safety_floor (catalogue_in m1)) as [[]|e] eqn:Ef; [|by intros [_ [=]]%unavailable_started]. by intros [= _ <-].
Qed.

(** Whatever stops it, the modules hold the authored policy. *)
Lemma boot_kept connected authored k m g g' m' b : clean g -> authored_ok k -> (forall k', authored = Ok k' -> k' = k) -> policy_kept k m ->
  boot (json_loads float_of) connected authored m g = (g', Started m' b) -> policy_kept k m'.
Proof.
  intros Hc Hk Hauth Hm. assert (Hu : forall g1 m1 e, policy_kept k m1 -> (g1, unavailable m1 e) = (g', Started m' b) -> policy_kept k m').
  { by intros g1 m1 e Hm1 [-> _]%unavailable_started. }
  unfold boot. destruct connected as [[]|e]; [|by apply Hu]. destruct (reload_from_models authored g) as [g1 [n|e]] eqn:El; [|by apply Hu].
  destruct authored as [k0|e]; [|done]. rewrite (Hauth k0 eq_refl) in El.
  destruct (read_all _ g1) as [kb|e] eqn:Er; [|by apply Hu]. apply reload_loaded in El; [|done..].
  pose proof (read_all_answers (json_loads float_of) g1 kb Er) as Ha.
  destruct (read_all_restored float_of k g1 Hk El Ha) as (kb' & Er' & Hr). rewrite Er in Er'. injection Er' as <-.
  pose proof (hot_swap_kept k kb m Hr Hm) as Hs. destruct (hot_swap kb m) as [m1 [e|]]; cbn [fst] in Hs; [by apply Hu|].
  destruct (check_safety_floor (catalogue_in m1)) as [[]|e]; [|by apply Hu]. by intros [= <- <- <-].
Qed.

Lemma field_texts d k s : field d k pyd_str = Ok s -> dict_get d k = Some (PStr s).
Proof. unfold field. destruct (dict_get d k) as [[]|]; cbn; try done. by intros [= ->]. Qed.
(** The stored form of a failure mode is one. *)
Lemma failure_mode_canon m x : failure_mode m = Ok x -> failure_mode (canon FAILURE_KEYS m) = Ok x.
Proof.
  destruct m as [| | | | | |d]; try done. cbn [failure_mode]. unfold FailureMode_of. intros Hx.
  repeat match goal with E : rbind _ _ = Ok _ |- _ => apply rbind_ok in E as (? & ?%field_texts & E) end. injection Hx as <-.
  unfold canon, FAILURE_KEYS, index_key. cbn [map res_or].
  repeat match goal with E : dict_get d _ = Some _ |- _ => rewrite E; clear E end. reflexivity.
Qed.
Lemma extend_all rows xs : Forall2 (fun fm x => failure_mode fm = Ok x) rows xs -> forall out, extend_failures rows out = (out ++ xs, None).
Proof.
  induction 1 as [|fm x rows xs E _ IH]; intros out; [by rewrite app_nil_r|]. cbn. rewrite E. rewrite IH. by rewrite <- app_assoc.
Qed.
Lemma hot_swap_completes k kb m m0 : restored k kb -> bootstrap k = Ok m0 -> exists m', hot_swap kb m = (m', None).
Proof.
  intros Hr Hb. unfold bootstrap in Hb. destruct (mapM_res failure_mode _) as [xs|] eqn:Ex; [|done]. cbn [rbind] in Hb.
  destruct (framed _) as [rbac|] eqn:Ef; [|done]. apply mapM_res_ok in Ex.
  assert (Hall : forall fm, fm ∈ e_failure_modes (k_enforcement kb) -> exists x, failure_mode fm = Ok x).
  { intros fm Hin. rewrite (rs_failures _ _ Hr) in Hin. apply list_elem_of_fmap in Hin as (m1 & -> & Hin). apply list_elem_of_lookup in Hin as [i Hi].
    destruct (Forall2_lookup_l _ _ _ _ _ Ex Hi) as (x & _ & Hx). exists x. by apply failure_mode_canon. }
  assert (Hex : exists ys, Forall2 (fun fm x => failure_mode fm = Ok x) (e_failure_modes (k_enforcement kb)) ys).
  { induction (e_failure_modes (k_enforcement kb)) as [|fm l IH]; [by exists []|].
    destruct (Hall fm ltac:(by left)) as [x Hx]. destruct IH as [ys Hys]; [intros fm' Hin; apply Hall; by right|]. exists (x :: ys). by constructor. }
  destruct Hex as [ys Hys]. unfold hot_swap. rewrite (extend_all _ _ Hys). destruct (rs_lists _ _ Hr) as (_ & _ & ->). rewrite Ef. by eexists.
Qed.
End BootProofs.

(** ** Properties *)
(** C8: What is read back after a load is the authored catalogue.  From a graph whose labelled nodes all come from
    loads, a load that ends without an exception leaves a graph from which [read_all],
    when its queries are answered, restores every zone, asset, leaf, SID, policy entry,
    baseline, kill chain, endpoint contract, failure mode, allowed action and never-block
    entry, up to their order, the gotchas, field mappings and texts in order.  Not
    everything comes back as it was written: patterns of the management zone come last; of a
    kill chain come the stages with a known signal, in the order of their numbers, with
    their known signals sorted; of field mappings and failure modes the stored keys; a
    missing rationale comes back empty ([restored]). *)
Theorem reload_read `{PyRepr} `{ExternalLaws} `{PydBoolLaws} `{Neo4jLaws} float_of k g g' n :
  clean g -> authored_ok k -> reload_from_models (Ok k) g = (g', Ok n) -> answers g' ->
  exists k', read_all (json_loads float_of) g' = Ok k' /\ restored k k'.
Proof. intros Hc Hk Hr Ha. apply read_all_restored; try done. by eapply reload_loaded. Qed.

(** C6: However the graph server answers, raises or fails in between: an agent that starts
    with the graph has the safety floor in its never-block list, whatever the graph held
    and whatever was authored.  And when the graph held no foreign nodes ([clean]), the
    authored knowledge base is well formed ([authored_ok]) and the files loaded are the ones
    the modules were imported from, an agent that starts decides with the authored policy:
    every intent is validated alike, every SID is found alike and the never-block list has
    the same entries. *)
Theorem boot_policy `{PyRepr} `{ExternalLaws} `{PydBoolLaws} `{Neo4jLaws} float_of connected authored k m g g' m' b :
  boot (json_loads float_of) connected authored m g = (g', Started m' b) ->
  (b = true -> SAFETY_FLOOR ⊆ NEVER_BLOCK_CIDRS (catalogue_in m')) /\
  (clean g -> authored_ok k -> (forall k', authored = Ok k' -> k' = k) -> bootstrap k = Ok m ->
   (forall intent sid lo hi ip, validate_intent (catalogue_in m') intent sid lo hi ip = validate_intent (catalogue_of k) intent sid lo hi ip) /\
   same_policy (catalogue_in m') (catalogue_of k)).
Proof.
  intros Hb. split; [intros ->; apply boot_floor in Hb; by apply safety_floor_iff|]. intros Hc Hk Hauth Hm%bootstrap_kept.
  eapply boot_kept in Hb; [|done..]. apply policy_kept_same in Hb; [|done]. split; [intros; by apply same_policy_validation|done].
Qed.

(** C7: When the graph holds no foreign nodes ([clean]), the authored knowledge base is
    well formed ([authored_ok]) and its never-block list has the safety floor, the server is
    reached, the load ends without an exception and the queries are answered, start-up goes
    on with the graph: every variable of the modules is replaced by what was read back,
    which is the authored knowledge base as [restored] describes it, and the agent decides
    with the authored policy. *)
Theorem boot_starts `{PyRepr} `{ExternalLaws} `{PydBoolLaws} `{Neo4jLaws} float_of k m g g' n :
  clean g -> authored_ok k -> bootstrap k = Ok m -> SAFETY_FLOOR ⊆ NEVER_BLOCK_CIDRS (catalogue_of k) ->
  reload_from_models (Ok k) g = (g', Ok n) -> answers g' ->
  exists kb m', read_all (json_loads float_of) g' = Ok kb /\ restored k kb /\ hot_swap kb m = (m', None) /\
    boot (json_loads float_of) (Ok tt) (Ok k) m g = (g', Started m' true) /\ same_policy (catalogue_in m') (catalogue_of k).
Proof.
  intros Hc Hk Hb Hfl Hr Ha. destruct (read_all_restored float_of k g' Hk) as (kb & Er & Hrs); [by eapply reload_loaded|done|].
  unfold boot. rewrite Hr, Er. destruct (hot_swap_completes k kb m m Hrs Hb) as [m' Es]. rewrite Es.
  assert (Hp : policy_kept k m') by (pose proof (hot_swap_kept k kb m Hrs (bootstrap_kept _ _ Hb)) as Hp; by rewrite Es in Hp).
  apply policy_kept_same in Hp; [|done]. rewrite (same_policy_floor _ _ Hp). apply safety_floor_iff in Hfl. rewrite Hfl. by exists kb, m'.
Qed.

(** ** A small catalogue *)
#[export] Instance pyd_bool0 : PydBool := fun v => match v with PBool b => Ok b | _ => Raise (ValueError "") end.
#[export] Instance pyd_bool0_laws : PydBoolLaws.
Proof. done. Qed.
#[local] Instance repr0 : PyRepr := fun _ => "".
#[local] Existing Instance external0.
Definition sample : knowledge := Knowledge
  [("WEB", mkZone "WEB" "10.1.100.0/24" "LEAF-1" 100 "10.1.100.1" "web" UNTRUSTED HIGH);
   ("APP", mkZone "APP" "10.2.100.0/24" "LEAF-2" 100 "10.2.100.1" "app" TRUSTED_INTERNAL HIGH)]
  [("10.1.100.10", mkAsset "10.1.100.10" "web-01" "WEB" "presentation" "proxy" HIGH PUBLIC [mkService 80 "tcp" "http" "external" "proxy"] ["any"] []
     "" "" "ops")]
  [("LEAF-1", mkLeaf "LEAF-1" "192.168.122.11" ["WEB"] "enforcement")]
  (Baselines [mkPattern (Pattern "web-to-app" "WEB" "10.1.100.10" "APP" "10.2.100.10" 8080 "tcp") "steady" 100 "" "" FHigh ""] [] 10 1)
  [((PStr "WEB", PStr "APP"), PStr "ALLOW"); ((PStr "APP", PStr "WEB"), PStr "DENY")]
  [(PInt 9000001, mkSid (Policy.SidDetection 9000001 1 "DROP src_ip") "" "" "" "" "" false 3600 "" ["backup"])]
  [mkChain "breach" "" [mkStage (Stage 1 [9000003]) "recon" "" []; mkStage (Stage 2 [9000003; 9000001]) "pivot" "" []] "" "" ""]
  (EnforcementPlane [(PStr "GET /rules", PStr "lists the rules")] [] [PStr "no SSH"]
    [PDict [("name", PStr "down"); ("trigger", PStr ""); ("rest_status", PStr "503"); ("body_signature", PStr ""); ("state", PStr ""); ("agent_action", PStr "")]]
    (PStr "auto pushes DROP only"))
  (Invariants (map PStr SAFETY_FLOOR) [] [PStr "log_only"; PStr "DROP"] [PStr "nos:zt-"] (PStr "nos:agent-")).

#[local] Ltac plain := repeat match goal with
  | |- NoDup _ => by apply (bool_decide_unpack _)
  | |- Forall _ _ => constructor
  | |- _ /\ _ => split
  | |- keyed_by _ => split
  | |- filled _ _ => intros ? ? ?
  end.
Lemma sample_ok : authored_ok sample.
Proof.
  constructor; cbn; plain; try done; try set_solver; [apply NoDup_singleton|].
  apply NoDup_cons. split; [by intros ?%list_elem_of_singleton|apply NoDup_singleton].
Qed.
Definition emptied : @graph graph0 := GData [] [].
Definition sample_loaded : @graph graph0 := (run_steps (load_steps sample) emptied).1.
Lemma emptied_clean : clean emptied.
Proof. intros n l Hn. by apply elem_of_nil in Hn. Qed.
Lemma sample_answers : answers sample_loaded.
Proof. by repeat split; repeat constructor. Qed.
Definition sample_modules : modules := res_or (Modules [] [] [] (Baselines [] [] 0 0) [] [] [] [] [] [] [] "" (Invariants [] [] [] [] PNone)) (bootstrap sample).

Lemma reload_read_witness :
  (exists k', read_all (json_loads PStr) sample_loaded = Ok k' /\ restored sample k') /\
  reload_from_models (Ok sample) emptied = (sample_loaded, Ok (counts (load_steps sample))).
Proof.
  split; [|vm_compute; reflexivity].
  apply (reload_read PStr sample emptied sample_loaded (counts (load_steps sample)) emptied_clean sample_ok); [vm_compute; reflexivity|apply sample_answers].
Defined.
Definition sample_start : graph * outcome := boot (json_loads PStr) (Ok tt) (Ok sample) sample_modules emptied.
Definition modules_of (o : outcome) : modules := match o with Started m _ => m | Aborted _ => sample_modules end.
Lemma boot_policy_witness : SAFETY_FLOOR ⊆ NEVER_BLOCK_CIDRS (catalogue_in (modules_of sample_start.2)) /\
  same_policy (catalogue_in (modules_of sample_start.2)) (catalogue_of sample).
Proof.
  destruct (boot_policy PStr (Ok tt) (Ok sample) sample sample_modules emptied sample_start.1 (modules_of sample_start.2) true) as [Hf Hp].
  - vm_compute. reflexivity.
  - split; [by apply Hf|]. apply Hp; [exact emptied_clean|exact sample_ok|by intros k' [= <-]|reflexivity].
Defined.
(** A foreign edge: between two zone nodes without the loader's mark, which the load then
    adopts, an edge of the policy stays and is read back. *)
Definition foreign : @graph graph0 := GData [Node 1 ["Zone"] [("name", PStr "WEB")]; Node 2 ["Zone"] [("name", PStr "APP")]]
  [Edge 1 2 "DENY" [("kg_managed", PBool true)]].
Lemma foreign_edge_changes_policy : exists g' m', boot (json_loads PStr) (Ok tt) (Ok sample) sample_modules foreign = (g', Started m' true) /\
  dict_get (POLICY_MATRIX (catalogue_in sample_modules)) ("WEB", "APP") = Some "ALLOW" /\
  dict_get (POLICY_MATRIX (catalogue_in m')) ("WEB", "APP") = Some "DENY".
Proof. eexists _, _. split; [vm_compute; reflexivity|]. by vm_compute. Qed.
Lemma boot_starts_witness : exists kb m', read_all (json_loads PStr) sample_loaded = Ok kb /\ restored sample kb /\ hot_swap kb sample_modules = (m', None) /\
  boot (json_loads PStr) (Ok tt) (Ok sample) sample_modules emptied = (sample_loaded, Started m' true) /\
  same_policy (catalogue_in m') (catalogue_of sample).
Proof.
  apply (boot_starts PStr sample sample_modules emptied sample_loaded (counts (load_steps sample)) emptied_clean sample_ok);
    [reflexivity|by apply (bool_decide_unpack _)|vm_compute; reflexivity|apply sample_answers].
Defined.
