(* ===== verification/RateLimiter.v ===== *)
(** * The blast-radius limiter (agent/safety/rate_limiter.py)

    Times are nanoseconds of the monotonic clock.  The lock makes each method one
    atomic step.  [per_ip] is a defaultdict: reading an absent key inserts it. *)
From S2P Require Import Prelude PyVal Topology.
Local Open Scope string_scope.
Local Open Scope Z_scope.
Local Open Scope list_scope.

Record limits := Limits {
  max_per_minute : Z; max_total : Z; max_per_ip : Z; per_ip_window : Z (* nanoseconds *) }.

Definition default_limits : limits := Limits 5 50 3 (300 * SEC).

Record RateLimiter := mkLimiter {
  minute_window : list Z; total_count : Z; per_ip : gmap string (list Z) }.

Definition limiter0 : RateLimiter := mkLimiter [] 0 ∅.

Inductive rate_error :=
  | RateMinute (n : Z) | RateTotal (n : Z) | RateIp (ip : string) (n : Z).

Definition check_and_consume (lim : limits) (now : Z) (src_ip : string) (st : RateLimiter)
    : option rate_error * RateLimiter :=
  let mw := evict (now - 60 * SEC) (minute_window st) in
  let ip := bare_ip src_ip in
  let q := evict (now - per_ip_window lim) (default [] (per_ip st !! ip)) in
  let st' := mkLimiter mw (total_count st) (<[ip := q]> (per_ip st)) in
  if max_per_minute lim <=? Z.of_nat (length mw) then (Some (RateMinute (Z.of_nat (length mw))), st')
  else if max_total lim <=? total_count st then (Some (RateTotal (total_count st)), st')
  else if max_per_ip lim <=? Z.of_nat (length q) then (Some (RateIp ip (Z.of_nat (length q))), st')
  else (None, mkLimiter (mw ++ [now]) (total_count st + 1) (<[ip := (q ++ [now])%list]> (per_ip st))).

Definition reset (st : RateLimiter) : RateLimiter := limiter0.

Definition get_stats (st : RateLimiter) : Z * Z :=
  (Z.of_nat (length (minute_window st)), total_count st).

(** A sequence of calls [(now, src_ip)] and the grants [(now, bare ip)] it makes. *)
Fixpoint run (lim : limits) (calls : list (Z * string)) (st : RateLimiter)
    : list (Z * string) * RateLimiter :=
  match calls with
  | [] => ([], st)
  | (now, ip) :: calls' =>
      let '(r, st1) := check_and_consume lim now ip st in
      let '(g, st2) := run lim calls' st1 in
      ((match r with None => [(now, bare_ip ip)] | Some _ => [] end) ++ g, st2)
  end.

(** Clock readings of successive calls do not decrease. *)
Fixpoint ordered_from (t : Z) (calls : list (Z * string)) : Prop :=
  match calls with [] => True | (now, _) :: calls' => t <= now /\ ordered_from now calls' end.

Definition times_of (ip : string) (g : list (Z * string)) : list Z :=
  (filter (fun c : Z * string => c.2 = ip) g).*1.

(** The abstract limiter: it looks at the history of grants only. *)
Definition spec_decision (lim : limits) (now : Z) (src_ip : string) (g : list (Z * string))
    : option rate_error :=
  let ip := bare_ip src_ip in
  let n := Z.of_nat (in_window (60 * SEC) now g.*1) in
  let k := Z.of_nat (in_window (per_ip_window lim) now (times_of ip g)) in
  if max_per_minute lim <=? n then Some (RateMinute n)
  else if max_total lim <=? Z.of_nat (length g) then Some (RateTotal (Z.of_nat (length g)))
  else if max_per_ip lim <=? k then Some (RateIp ip k)
  else None.

Fixpoint spec_run (lim : limits) (calls : list (Z * string)) (g : list (Z * string))
    : list (Z * string) :=
  match calls with
  | [] => g
  | (now, ip) :: calls' =>
      spec_run lim calls' (match spec_decision lim now ip g with
                           | None => (g ++ [(now, bare_ip ip)])%list
                           | Some _ => g
                           end)
  end.

(** ** Invariant: the state against the grants [g] made so far *)
Record limiter_inv (lim : limits) (now : Z) (g : list (Z * string)) (st : RateLimiter) : Prop := {
  inv_minute : sliding (60 * SEC) now g.*1 (minute_window st);
  inv_total : total_count st = Z.of_nat (length g);
  inv_ip : forall ip, sliding (per_ip_window lim) now (times_of ip g) (default [] (per_ip st !! ip)) }.

Lemma limiter_inv0 lim now : limiter_inv lim now [] limiter0.
Proof. constructor; cbn; intros; rewrite ?lookup_empty; try apply sliding_nil; done. Qed.

Lemma times_of_snoc ip g c : times_of ip (g ++ [c]) =
  if decide (c.2 = ip) then (times_of ip g ++ [c.1])%list else times_of ip g.
Proof.
  unfold times_of. rewrite filter_app, fmap_app. case_decide.
  - by rewrite filter_cons_True.
  - by rewrite filter_cons_False, app_nil_r.
Qed.

Lemma check_spec lim now now' g ip st : now <= now' -> limiter_inv lim now g st ->
  let '(r, st') := check_and_consume lim now' ip st in
  r = spec_decision lim now' ip g /\
  limiter_inv lim now' (g ++ (match r with None => [(now', bare_ip ip)] | Some _ => [] end)) st'.
Proof.
  intros Hle [Hm Ht Hip].
  pose proof (sliding_evict _ _ _ _ _ Hle Hm) as Hm'.
  pose proof (sliding_evict_window _ _ _ _ _ Hle Hm) as Hml.
  assert (Hip' : forall ip', sliding (per_ip_window lim) now' (times_of ip' g) (default [] (per_ip st !! ip')))
    by (intros; by eapply sliding_mono).
  pose proof (sliding_evict _ _ _ _ _ Hle (Hip (bare_ip ip))) as Hq.
  pose proof (sliding_evict_window _ _ _ _ _ Hle (Hip (bare_ip ip))) as Hql.
  unfold check_and_consume, spec_decision. rewrite <- Hml, <- Hql, <- Ht.
  set (mw := evict _ (minute_window st)) in *. set (q := evict _ (default [] _)) in *.
  assert (Hdeny : limiter_inv lim now' (g ++ []) (mkLimiter mw (total_count st) (<[bare_ip ip := q]> (per_ip st)))).
  { rewrite app_nil_r. constructor; cbn; try done. intros ip'.
    destruct (decide (bare_ip ip = ip')) as [<-|Hne].
    - by rewrite lookup_insert_eq.
    - by rewrite lookup_insert_ne. }
  destruct (Z.leb_spec (max_per_minute lim) (Z.of_nat (length mw))); [done|].
  destruct (Z.leb_spec (max_total lim) (total_count st)); [done|].
  destruct (Z.leb_spec (max_per_ip lim) (Z.of_nat (length q))); [done|].
  split; [done|]. constructor; cbn [minute_window total_count per_ip].
  - rewrite fmap_app. by apply sliding_snoc.
  - rewrite length_app. cbn. lia.
  - intros ip'. rewrite times_of_snoc. cbn [fst snd]. case_decide as Hd.
    + subst. rewrite lookup_insert_eq. by apply sliding_snoc.
    + by rewrite lookup_insert_ne.
Qed.

Lemma run_spec lim calls : forall now g st, limiter_inv lim now g st -> ordered_from now calls ->
  g ++ (run lim calls st).1 = spec_run lim calls g /\
  exists now', limiter_inv lim now' (g ++ (run lim calls st).1) (run lim calls st).2.
Proof.
  induction calls as [|[t ip] calls IH]; intros now g st Hinv Hord; cbn.
  - rewrite app_nil_r. eauto.
  - destruct Hord as [Hle Hord]. pose proof (check_spec lim now t g ip st Hle Hinv) as Hc.
    destruct (check_and_consume lim t ip st) as [r st1]. destruct Hc as [Hr Hc].
    destruct (IH t _ _ Hc Hord) as [Hs [now' Hi]].
    destruct (run lim calls st1) as [g' st2]. cbn in *. rewrite app_assoc in *.
    split; [|eauto]. rewrite Hs, <- Hr. destruct r; by rewrite ?app_nil_r.
Qed.

(** What every history the abstract limiter produces satisfies. *)
Record bounded (lim : limits) (now : Z) (g : list (Z * string)) : Prop := {
  b_le : Forall (fun c => c.1 <= now) g;
  b_minute : forall T, (in_window (60 * SEC) T g.*1 <= Z.to_nat (max_per_minute lim))%nat;
  b_total : Z.of_nat (length g) <= Z.max 0 (max_total lim);
  b_ip : forall ip T, (in_window (per_ip_window lim) T (times_of ip g) <= Z.to_nat (max_per_ip lim))%nat }.

Lemma times_of_le ip g now : Forall (fun c : Z * string => c.1 <= now) g ->
  Forall (fun t => t <= now) (times_of ip g).
Proof.
  intros H. unfold times_of. apply Forall_fmap. apply Forall_forall. intros c [_ Hc]%list_elem_of_filter.
  rewrite Forall_forall in H. by apply H.
Qed.

Lemma spec_run_bounded lim calls : forall now g, bounded lim now g -> ordered_from now calls ->
  exists now', bounded lim now' (spec_run lim calls g).
Proof.
  induction calls as [|[t ip] calls IH]; intros now g Hb Hord; cbn; [eauto|].
  destruct Hord as [Hle Hord]. apply (IH t); [|done].
  destruct Hb as [Hl Hm Ht Hi].
  assert (Hl' : Forall (fun c : Z * string => c.1 <= t) g).
  { eapply Forall_impl; [exact Hl|]. intros c Hc. cbn in *. lia. }
  destruct (spec_decision lim t ip g) eqn:E; [by constructor|].
  unfold spec_decision in E. repeat case_match; simplify_eq.
  repeat match goal with H : (_ <=? _) = false |- _ => apply Z.leb_gt in H end.
  constructor.
  - apply Forall_app. split; [done|]. by repeat constructor.
  - rewrite fmap_app. apply (window_bound_snoc _ t); [by apply Forall_fmap|lia|done].
  - rewrite length_app. cbn. lia.
  - intros ip'. rewrite times_of_snoc. cbn [fst snd]. case_decide; [|done]. subst.
    apply (window_bound_snoc _ t); [by apply times_of_le|lia|done].
Qed.

Lemma bounded_nil lim now : bounded lim now [].
Proof. constructor; cbn; intros; unfold in_window, times_of; cbn; try constructor; lia. Qed.

(** ** Properties *)
(** whatever the calls, from a fresh limiter and with a clock that does not run
    backwards: in every closed window of 60 seconds at most [max_per_minute]
    calls are granted, per source address at most [max_per_ip] in every window
    of the configured length, and at most [max_total] in all; the counter equals
    the number of grants. *)
Theorem grants_bounded lim calls t0 :
  ordered_from t0 calls ->
  let '(g, st) := run lim calls limiter0 in
  (forall T, (in_window (60 * SEC) T g.*1 <= Z.to_nat (max_per_minute lim))%nat) /\
  (forall ip T, (in_window (per_ip_window lim) T (times_of ip g) <= Z.to_nat (max_per_ip lim))%nat) /\
  Z.of_nat (length g) <= Z.max 0 (max_total lim) /\ total_count st = Z.of_nat (length g).
Proof.
  intros Hord. destruct (run_spec lim calls t0 [] limiter0 (limiter_inv0 _ _) Hord) as [Hs [now' Hi]].
  destruct (spec_run_bounded lim calls t0 [] (bounded_nil _ _) Hord) as [now2 Hb].
  rewrite <- Hs in Hb. destruct (run lim calls limiter0) as [g st]. destruct Hi, Hb. auto.
Qed.

Lemma grants_bounded_witness :
  let calls := [(0, "10.1.100.10/32"); (SEC, "10.1.100.10"); (2 * SEC, "10.1.100.10"); (3 * SEC, "10.1.100.10");
                (4 * SEC, "10.2.100.10")] in
  (run default_limits calls limiter0).1 =
    [(0, "10.1.100.10"); (SEC, "10.1.100.10"); (2 * SEC, "10.1.100.10"); (4 * SEC, "10.2.100.10")] /\
  let '(g, st) := run default_limits calls limiter0 in
  (forall T, (in_window (60 * SEC) T g.*1 <= 5)%nat) /\
  (forall ip T, (in_window (per_ip_window default_limits) T (times_of ip g) <= 3)%nat) /\
  Z.of_nat (length g) <= 50 /\ total_count st = Z.of_nat (length g).
Proof.
  cbv zeta. split; [vm_compute; reflexivity|].
  apply (grants_bounded default_limits _ 0). cbn. unfold SEC. lia.
Defined.

(** C33: the limiter with its evicting queues decides as the abstract limiter that
    counts over the whole history of grants: the same calls are granted, so no
    slot is refused without cause and none is given back early. *)
Theorem run_refines_history lim calls t0 :
  ordered_from t0 calls -> (run lim calls limiter0).1 = spec_run lim calls [].
Proof.
  intros Hord. by destruct (run_spec lim calls t0 [] limiter0 (limiter_inv0 _ _) Hord) as [<- _].
Qed.

Lemma run_refines_history_witness :
  (run default_limits [(0, "10.1.100.10"); (400 * SEC, "10.1.100.10")] limiter0).1 =
  spec_run default_limits [(0, "10.1.100.10"); (400 * SEC, "10.1.100.10")] [].
Proof. apply (run_refines_history _ _ 0). cbn. unfold SEC. lia. Defined.
