(* ===== verification/CircuitBreaker.v ===== *)
(** * The circuit breaker (agent/safety/circuit_breaker.py)

    Times are nanoseconds of the monotonic clock, which is never negative; the
    lock makes each method one atomic step.  [is_open] reads the clock twice. *)
From S2P Require Import Prelude.
Local Open Scope Z_scope.

Record breaker_config := BreakerConfig { fail_threshold : Z; halt : Z (* nanoseconds *) }.
Definition default_breaker : breaker_config := BreakerConfig 3 (300 * SEC).

Record CircuitBreaker := mkBreaker { consecutive_failures : Z; open_until : Z }.
Definition breaker0 : CircuitBreaker := mkBreaker 0 0.

(** [Some (failures, remaining seconds)] when open: the values of the reason. *)
Definition is_open (now1 now2 : Z) (b : CircuitBreaker) : option (Z * Z) :=
  if now1 <? open_until b
  then Some (consecutive_failures b, Z.quot (open_until b - now2) SEC)
  else None.

Definition record_success (b : CircuitBreaker) : CircuitBreaker := mkBreaker 0 0.

Definition record_failure (cfg : breaker_config) (now : Z) (b : CircuitBreaker) : CircuitBreaker :=
  let n := consecutive_failures b + 1 in
  if fail_threshold cfg <=? n then mkBreaker n (now + halt cfg) else mkBreaker n (open_until b).

Definition breaker_stats (now : Z) (b : CircuitBreaker) : Z * bool * Z :=
  (consecutive_failures b, now <? open_until b, open_until b).

(** ** Histories *)
Inductive breaker_event := Success | Failure (now : Z).

Definition breaker_step (cfg : breaker_config) (b : CircuitBreaker) (e : breaker_event) : CircuitBreaker :=
  match e with Success => record_success b | Failure now => record_failure cfg now b end.

Definition breaker_run (cfg : breaker_config) (es : list breaker_event) : CircuitBreaker :=
  foldl (breaker_step cfg) breaker0 es.

(** The failures since the last success, oldest first. *)
Definition streak_step (fs : list Z) (e : breaker_event) : list Z :=
  match e with Success => [] | Failure now => fs ++ [now] end.
Definition streak (es : list breaker_event) : list Z := foldl streak_step [] es.

(** What the class documents: open for [halt] after the last failure, once the
    streak has reached the threshold. *)
Definition spec_open (cfg : breaker_config) (now : Z) (fs : list Z) : bool :=
  match last fs with
  | Some t => (fail_threshold cfg <=? Z.of_nat (length fs)) && (now <? t + halt cfg)
  | None => false
  end.

(** The state against the streak. *)
Definition breaker_inv (cfg : breaker_config) (fs : list Z) (b : CircuitBreaker) : Prop :=
  consecutive_failures b = Z.of_nat (length fs) /\
  open_until b = match last fs with
                 | Some t => if fail_threshold cfg <=? Z.of_nat (length fs) then t + halt cfg else 0
                 | None => 0
                 end.

Lemma breaker_step_inv cfg fs b e : breaker_inv cfg fs b ->
  breaker_inv cfg (streak_step fs e) (breaker_step cfg b e).
Proof.
  intros [Hn Ho]. destruct e as [|now]; cbn; [done|]. unfold breaker_inv, record_failure.
  rewrite last_snoc, length_app, Hn. cbn [length].
  replace (Z.of_nat (length fs + 1)) with (Z.of_nat (length fs) + 1) by lia.
  destruct (Z.leb_spec (fail_threshold cfg) (Z.of_nat (length fs) + 1)); cbn; [done|].
  split; [done|]. rewrite Ho. destruct (last fs); [|done].
  destruct (Z.leb_spec (fail_threshold cfg) (Z.of_nat (length fs))); [lia|done].
Qed.

Lemma breaker_run_inv cfg es : breaker_inv cfg (streak es) (breaker_run cfg es).
Proof.
  unfold streak, breaker_run. assert (H : breaker_inv cfg [] breaker0) by done.
  revert H. generalize (@nil Z) breaker0. induction es as [|e es IH]; intros fs b H; [done|].
  cbn. by apply IH, breaker_step_inv.
Qed.

Lemma is_open_spec cfg es now1 now2 : 0 <= now1 ->
  is_open now1 now2 (breaker_run cfg es) =
  if spec_open cfg now1 (streak es)
  then Some (Z.of_nat (length (streak es)), Z.quot (open_until (breaker_run cfg es) - now2) SEC)
  else None.
Proof.
  intros Hnow. destruct (breaker_run_inv cfg es) as [Hn Ho].
  unfold is_open, spec_open. rewrite Hn, Ho. destruct (last (streak es)) as [t|].
  - destruct (fail_threshold cfg <=? _); cbn; [done|]. destruct (Z.ltb_spec now1 0); [lia|done].
  - destruct (Z.ltb_spec now1 0); [lia|done].
Qed.

(** ** Properties *)
(** C38: after any history the breaker is open exactly while fewer than [halt] has
    passed since the last failure of a streak that has reached the threshold, a
    streak being the failures since the last success; the count it reports is
    the length of the streak. *)
Theorem breaker_refines_history cfg es now1 now2 :
  0 <= now1 ->
  (fst <$> is_open now1 now2 (breaker_run cfg es)) =
  if spec_open cfg now1 (streak es) then Some (Z.of_nat (length (streak es))) else None.
Proof. intros H. rewrite is_open_spec by done. by destruct (spec_open _ _ _). Qed.

Lemma breaker_refines_history_witness :
  (fst <$> is_open (10 * SEC) (10 * SEC)
     (breaker_run default_breaker [Failure 1; Success; Failure 2; Failure 3; Failure 4])) = Some 3.
Proof.
  etransitivity; [apply (breaker_refines_history default_breaker _ (10 * SEC) (10 * SEC)); unfold SEC; lia|].
  vm_compute. reflexivity.
Defined.
