(* ===== verification/Consistency.v ===== *)
(** * Self-consistency voting (agent/safety/consistency.py, semantic_uncertainty.py)

    The LLM is an oracle that answers the [n]-th call of the pipeline; the vote
    counts how many calls it makes.  The entropy and the consensus ratio are
    computed on IEEE binary64 numbers (SpecFloat); [math.log2] of the C library is
    a parameter. *)
From S2P Require Import Prelude PyVal IpAddr Topology Models.
From Stdlib Require Import SpecFloat.
Local Open Scope string_scope.
Local Open Scope Z_scope.
Local Open Scope list_scope.

Section Consistency.
(** [chat n] is the outcome of the [n]-th call of [client.chat_json]. *)
Context (chat : nat -> res pyval).
(** [math.log2]; the text of floats and containers in an f-string. *)
Context (log2 : spec_float -> spec_float) `{PyRepr}.

(** ** consistency.py: collecting the votes *)
Definition votes := list (hkey * list obj).

Definition add_vote (v : votes) (k : hkey) (r : obj) : votes :=
  dict_set v k (default [] (dict_get v k) ++ [r]).

(** The body of the [try]: the call, [result.get], the vote. *)
Definition one_attempt (v : votes) (n : nat) : res votes :=
  r ← chat n;
  match r with
  | PDict d => k ← key_of (jget_or d "action" (PStr "UNKNOWN")); Ok (add_vote v k d)
  | _ => Raise (AttributeError "get")
  end.

(** The attempts of one run: [fuel] is the number left, at least one attempt is made. *)
Fixpoint attempts (fuel : nat) (v : votes) (n : nat) : votes * nat :=
  match fuel with
  | O => (v, n)
  | S fuel' =>
      match one_attempt v n with
      | Ok v' => (v', S n)
      | Raise _ => attempts fuel' v (S n)
      end
  end.

Fixpoint runs (n_runs max_retries : nat) (v : votes) (n : nat) : votes * nat :=
  match n_runs with
  | O => (v, n)
  | S k => let '(v', n') := attempts (S max_retries) v n in runs k max_retries v' n'
  end.

(** [max(votes, key=lambda a: len(votes[a]))]: the first key of maximal count. *)
Fixpoint best_from (b : hkey * list obj) (v : votes) : hkey * list obj :=
  match v with
  | [] => b
  | x :: v' => best_from (if (length b.2 <? length x.2)%nat then x else b) v'
  end.

(** ** semantic_uncertainty.py *)
Definition ttl_bucket (ttl : Z) : string :=
  if ttl <=? 0 then "none" else if ttl <? 600 then "short" else if ttl <? 1800 then "medium"
  else if ttl <? 3600 then "long" else "max".

Definition zone_of_value (v : pyval) : res string :=
  match v with
  | PStr s => Ok (default "unknown" (ip_to_zone s))
  | _ => Raise (AttributeError "split")
  end.

Definition decision_signature (d : obj) : res string :=
  let src_ip := jget_or d "src_ip" (PStr "") in
  let dst_ip := jget_or d "dst_ip" (PStr "") in
  src_zone ← zone_of_value src_ip;
  dst_zone ← (if truthy dst_ip then zone_of_value dst_ip else Ok "none");
  ttl ← int_of (por (jget_or d "ttl_seconds" (PInt 0)) (PInt 0));
  Ok (py_str (jget_or d "action" (PStr "UNKNOWN")) ++ "|src=" ++ src_zone ++ "|dst=" ++ dst_zone
      ++ "|port=" ++ py_str (jget_or d "dst_port" (PInt 0)) ++ "|ttl=" ++ ttl_bucket ttl)%string.

(** [collections.Counter]: counts in order of first occurrence. *)
Fixpoint counter_add (c : list (string * nat)) (s : string) : list (string * nat) :=
  match c with
  | [] => [(s, 1%nat)]
  | (s', k) :: c' => if decide (s = s') then (s', S k) :: c' else (s', k) :: counter_add c' s
  end.
Definition counter (l : list string) : list (string * nat) := foldl counter_add [] l.

Definition sf_of_nat (n : nat) : spec_float := binary_normalize 53 1024 (Z.of_nat n) 0 false.
Definition fdiv : spec_float -> spec_float -> spec_float := SFdiv 53 1024.
Definition fmul : spec_float -> spec_float -> spec_float := SFmul 53 1024.
Definition fsub : spec_float -> spec_float -> spec_float := SFsub 53 1024.

Definition semantic_entropy (intents : list obj) : res (spec_float * list (string * nat)) :=
  match intents with
  | [] => Ok (S754_zero false, [])
  | _ =>
      signatures ← mapM_res decision_signature intents;
      let counts := counter signatures in
      let total := sf_of_nat (sum_list (map snd counts)) in
      let entropy := foldl (fun e c =>
        let p := fdiv (sf_of_nat c) total in
        if SFltb (S754_zero false) p then fsub e (fmul p (log2 p)) else e)
        (S754_zero false) (map snd counts) in
      Ok (entropy, counts)
  end.

Definition str_val (v : pyval) : option string :=
  match v with PStr s => if nonempty s then Some s else None | _ => None end.

(** [(ratio, dominant)]; every source is a string once the signatures exist. *)
Definition src_ip_consensus_ratio (intents : list obj) : spec_float * string :=
  let src_ips := omap (fun d => str_val (jget d "src_ip")) intents in
  match counter src_ips with
  | [] => (S754_zero false, "")
  | c :: cs =>
      let best := foldl (fun b x : string * nat => if (snd b <? snd x)%nat then x else b) c cs in
      (fdiv (sf_of_nat best.2) (sf_of_nat (length intents)), best.1)
  end.

Inductive uncertainty := EntropyHigh (e : spec_float) | ConsensusLow (c : spec_float) (dominant : string).

(** 1.0 and 0.67 as binary64. *)
Definition entropy_max : spec_float := binary_normalize 53 1024 1 0 false.
Definition src_ip_min_consensus : spec_float := binary_normalize 53 1024 6034823500676465 (-53) false.

Definition evaluate_uncertainty (intents : list obj) : res (option uncertainty) :=
  if (length intents <=? 1)%nat then Ok None else
  e ← semantic_entropy intents;
  if SFltb entropy_max e.1 then Ok (Some (EntropyHigh e.1)) else
  let '(consensus, dominant) := src_ip_consensus_ratio intents in
  if SFltb consensus src_ip_min_consensus then Ok (Some (ConsensusLow consensus dominant)) else Ok None.

(** ** The vote *)
Inductive vote_error := AllRunsFailed | NoAgreement (v : list (hkey * nat)) | Uncertain (u : uncertainty).

(** The result and the number of the next LLM call. *)
Definition self_consistency_vote (n_runs min_agree max_retries : nat) (n : nat)
    : res (obj + vote_error) * nat :=
  let '(v, n') := runs n_runs max_retries [] n in
  (match v with
   | [] => Ok (inr AllRunsFailed)
   | x :: v' =>
       let best := best_from x v' in
       if (length best.2 <? min_agree)%nat
       then Ok (inr (NoAgreement (map (fun a : hkey * list obj => (a.1, length a.2)) v)))
       else
         u ← evaluate_uncertainty (flat_map snd v);
         match u with
         | Some u => Ok (inr (Uncertain u))
         | None => match last best.2 with Some r => Ok (inl r) | None => Raise IndexError end
         end
   end, n').

(** ** What the votes hold: the answers of the calls [n0 .. n-1] *)
Definition voted (k : hkey) (r : obj) (n : nat) : Prop :=
  chat n = Ok (PDict r) /\ key_of (jget_or r "action" (PStr "UNKNOWN")) = Ok k.

(** Every list of votes is the list of answers of distinct calls, in order. *)
Definition votes_ok (n0 n : nat) (v : votes) : Prop :=
  NoDup v.*1 /\
  forall k rs, dict_get v k = Some rs ->
    exists calls, NoDup calls /\ Forall2 (fun r c => voted k r c /\ (n0 <= c < n)%nat) rs calls /\ rs <> [].

Lemma votes_ok_mono n0 n n' v : (n <= n')%nat -> votes_ok n0 n v -> votes_ok n0 n' v.
Proof.
  intros Hle [Hd Hv]. split; [done|]. intros k rs Hk. destruct (Hv k rs Hk) as (cs & Hn & Hf & Hne).
  exists cs. split_and!; [done| |done]. eapply Forall2_impl; [exact Hf|]. cbn. intros ? ? [? ?]. split; [done|lia].
Qed.

Lemma one_attempt_ok n0 n v v' : (n0 <= n)%nat -> votes_ok n0 n v -> one_attempt v n = Ok v' ->
  votes_ok n0 (S n) v'.
Proof.
  intros Hle Hv. unfold one_attempt. destruct (chat n) as [r|] eqn:Ec; cbn; [|done].
  destruct r; try done. destruct (key_of _) as [k|] eqn:Ek; cbn; [|done]. intros; simplify_eq.
  pose proof (votes_ok_mono n0 n (S n) v ltac:(lia) Hv) as [Hd Hv'].
  split; [by apply dict_set_NoDup|]. intros k' rs. unfold add_vote. rewrite dict_get_set.
  case_decide as He; [|apply Hv']. subst. intros; simplify_eq.
  destruct (dict_get v k') as [rs|] eqn:Eg; cbn.
  - destruct Hv as [_ Hv]. destruct (Hv _ _ Eg) as (cs & Hn & Hf & Hne).
    exists (cs ++ [n]). split_and!.
    + apply NoDup_app. split_and!; [done| |apply NoDup_singleton].
      intros c Hc ->%list_elem_of_singleton.
      apply list_elem_of_lookup in Hc as [i Hi].
      destruct (Forall2_lookup_r _ _ _ _ _ Hf Hi) as (? & _ & _ & ?). lia.
    + apply Forall2_app; [|repeat constructor; auto; lia].
      eapply Forall2_impl; [exact Hf|]. cbn. intros ? ? [? ?]. split; [done|lia].
    + by destruct rs.
  - exists [n]. split_and!; [apply NoDup_singleton|repeat constructor; auto; lia|done].
Qed.

Lemma attempts_ok fuel : forall v n v' n' n0, (n0 <= n)%nat -> votes_ok n0 n v ->
  attempts fuel v n = (v', n') -> votes_ok n0 n' v' /\ (n <= n' <= n + fuel)%nat.
Proof.
  induction fuel as [|fuel IH]; intros v n v' n' n0 Hle Hv; cbn.
  - intros; simplify_eq. split; [done|lia].
  - destruct (one_attempt v n) as [w|] eqn:E.
    + intros; simplify_eq. split; [by eapply one_attempt_ok|lia].
    + intros Hatt. apply (IH _ _ _ _ n0) in Hatt; [|lia|eapply votes_ok_mono; [|done]; lia].
      destruct Hatt as [? ?]. split; [done|lia].
Qed.

Lemma runs_ok n_runs max_retries : forall v n v' n' n0, (n0 <= n)%nat -> votes_ok n0 n v ->
  runs n_runs max_retries v n = (v', n') ->
  votes_ok n0 n' v' /\ (n <= n' <= n + n_runs * S max_retries)%nat.
Proof.
  induction n_runs as [|k IH]; intros v n v' n' n0 Hle Hv; cbn [runs].
  - intros; simplify_eq. split; [done|lia].
  - destruct (attempts (S max_retries) v n) as [w m] eqn:E.
    apply (attempts_ok _ _ _ _ _ n0) in E as [Hw ?]; [|done|done]. intros Hrun.
    apply (IH _ _ _ _ n0) in Hrun as [? ?]; [|lia|done]. split; [done|lia].
Qed.

Lemma best_from_in b v : best_from b v ∈ b :: v.
Proof.
  revert b. induction v as [|x v IH]; intros b; cbn [best_from]; [set_solver|].
  destruct (length b.2 <? length x.2)%nat; [specialize (IH x)|specialize (IH b)]; set_solver.
Qed.
End Consistency.

(** ** Properties *)
(** a vote makes at most [n_runs * (max_retries + 1)] LLM calls, and a result it
    returns is the answer of one of these calls whose action at least
    [min_agree] of them, distinct ones, have given. *)
Theorem vote_agreement `{PyRepr} chat log2 n_runs min_agree max_retries n result n' :
  self_consistency_vote chat log2 n_runs min_agree max_retries n = (result, n') ->
  (n <= n' <= n + n_runs * S max_retries)%nat /\
  forall r, result = Ok (inl r) ->
  exists k calls rs, NoDup calls /\ (min_agree <= length calls)%nat /\ last rs = Some r /\
    Forall2 (fun r c => voted chat k r c /\ (n <= c < n')%nat) rs calls.
Proof.
  unfold self_consistency_vote. destruct (runs chat n_runs max_retries [] n) as [v m] eqn:E.
  apply (runs_ok _ _ _ _ _ _ _ n) in E as [[Hd Hv] Hb]; [|lia|].
  2:{ split; [constructor|]. by intros. }
  intros Hvote. injection Hvote as Hr <-. split; [done|]. intros r ->.
  destruct v as [|x v]; [done|]. pose proof (best_from_in x v) as Hin.
  destruct (best_from x v) as [k rs]. cbn [snd] in Hr.
  destruct (Nat.ltb_spec (length rs) min_agree); [done|].
  destruct (evaluate_uncertainty _ _) as [[u|]|]; cbn in Hr; try done.
  destruct (last rs) as [r'|] eqn:El; simplify_eq.
  destruct (Hv k rs) as (cs & Hn & Hf & _); [by apply dict_get_in|].
  exists k, cs, rs. split_and!; try done. by rewrite <- (Forall2_length _ _ _ Hf).
Qed.

#[export] Instance repr0 : PyRepr := fun _ => "".

Definition sample_answer (n : nat) : res pyval :=
  match n with
  | 1%nat => Raise (RuntimeError "HTTP 400")
  | _ => Ok (PDict [("action", PStr "DROP"); ("src_ip", PStr "10.1.100.10/32")])
  end.

Lemma vote_agreement_witness :
  let out := self_consistency_vote sample_answer (fun _ => S754_zero false) 3 2 2 0 in
  (exists r, out.1 = Ok (inl r)) /\ out.2 = 4%nat /\ (0 <= out.2 <= 0 + 3 * 3)%nat.
Proof.
  cbv zeta. split; [vm_compute; by eexists|]. split; [vm_compute; reflexivity|].
  apply (vote_agreement sample_answer (fun _ => S754_zero false) 3 2 2 0
    (self_consistency_vote sample_answer (fun _ => S754_zero false) 3 2 2 0).1
    (self_consistency_vote sample_answer (fun _ => S754_zero false) 3 2 2 0).2).
  vm_compute. reflexivity.
Defined.
