(* ===== verification/Redis.v ===== *)
(** * The Redis warm cache (storage/redis.py)

    The server is outside the repository: it is the class [RedisServer], whose
    commands may raise; [RedisLaws] states the documented behaviour of the
    commands the code relies on, and [redis0] is an instance on finite maps. A
    JSON text is represented by the value it encodes.  Times are nanoseconds. *)
From S2P Require Import Prelude PyVal.
Local Open Scope string_scope.
Local Open Scope Z_scope.
Local Open Scope list_scope.

Class RedisServer := {
  redis : Type;
  rget : redis -> Z -> string -> res (option pyval);                 (** GET *)
  rset : redis -> Z -> string -> pyval -> option Z -> res redis;     (** SET with an optional EX *)
  rlist : redis -> Z -> string -> list pyval;                        (** the list at a key *)
  rlpush : redis -> Z -> string -> pyval -> res redis;               (** LPUSH *)
  rltrim : redis -> Z -> string -> nat -> res redis;                 (** LTRIM key 0 n *)
  rexpire : redis -> Z -> string -> Z -> res redis;                  (** EXPIRE *)
  rincr : redis -> Z -> string -> res redis;                         (** INCR *)
  rdelete : redis -> Z -> list string -> res redis                   (** DEL *)
}.

Class RedisLaws `{RedisServer} := {
  rget_set_same s now k v ex s' t x : rset s now k v ex = Ok s' -> now <= t -> rget s' t k = Ok x ->
    x = match ex with Some e => if t <? now + e then Some v else None | None => Some v end;
  rget_set_other s now k v ex s' t k' : rset s now k v ex = Ok s' -> k <> k' -> rget s' t k' = rget s t k';
  rlist_lpush s now k v s' : rlpush s now k v = Ok s' -> rlist s' now k = v :: rlist s now k;
  rlist_ltrim s now k n s' : rltrim s now k n = Ok s' -> rlist s' now k = take (S n) (rlist s now k);
  rlist_expire s now k e s' : rexpire s now k e = Ok s' -> 0 < e -> rlist s' now k = rlist s now k;
  rget_lpush s now k v s' t k' : rlpush s now k v = Ok s' -> k <> k' -> rget s' t k' = rget s t k';
  rget_ltrim s now k n s' t k' : rltrim s now k n = Ok s' -> k <> k' -> rget s' t k' = rget s t k';
  rget_expire s now k e s' t k' : rexpire s now k e = Ok s' -> k <> k' -> rget s' t k' = rget s t k'
}.

Section RedisStore.
Context `{RedisServer}.

(** [dedup:{src_ip}:{sid}] *)
Definition dedup_key (src_ip : string) (sid : Z) : string :=
  ("dedup:" ++ src_ip ++ ":" ++ str_of_Z sid)%string.

(** [SET key 1 EX window NX]: the answer is [None] when the key exists. *)
Definition is_duplicate (window now : Z) (src_ip : string) (sid : Z) (s : redis) : res (bool * redis) :=
  let key := dedup_key src_ip sid in
  v ← rget s now key;
  match v with
  | Some _ => Ok (true, s)
  | None => s' ← rset s now key (PStr "1") (Some window); Ok (false, s')
  end.

Definition history_key (src_ip : string) : string := ("alert_history:" ++ src_ip)%string.

(** [LRANGE key 0 limit-1]; a limit of 0 makes the stop index -1, the last element. *)
Definition get_alert_history (now : Z) (src_ip : string) (limit : nat) (s : redis) : list pyval :=
  let l := rlist s now (history_key src_ip) in
  match limit with O => l | _ => take limit l end.

Definition push_alert_history (now : Z) (src_ip : string) (alert : pyval) (s : redis) : res redis :=
  let key := history_key src_ip in
  s ← rlpush s now key alert;
  s ← rltrim s now key 99;
  rexpire s now key (86400 * SEC).

Definition cache_decision (now : Z) (decision_id : string) (data : pyval) (s : redis) : res redis :=
  rset s now ("decision:" ++ decision_id)%string data (Some (3600 * SEC)).

Definition get_cached_embedding (now : Z) (key_hash : string) (s : redis) : option pyval :=
  match rget s now ("emb:" ++ key_hash)%string with
  | Ok v => v
  | Raise _ => None
  end.

Definition cache_embedding (now : Z) (key_hash : string) (vec : pyval) (s : redis) : redis :=
  match rset s now ("emb:" ++ key_hash)%string vec (Some (3600 * SEC)) with
  | Ok s' => s'
  | Raise _ => s
  end.
End RedisStore.

(** ** Instance *)
Definition live {A} (now : Z) (e : option (A * option Z)) : option A :=
  match e with
  | Some (v, None) => Some v
  | Some (v, Some d) => if now <? d then Some v else None
  | None => None
  end.

#[export] Instance redis0 : RedisServer := {|
  redis := gmap string (pyval * option Z) * gmap string (list pyval * option Z);
  rget s now k := Ok (live now (s.1 !! k));
  rset s now k v ex := Ok (<[k := (v, (fun e => now + e) <$> ex)]> s.1, s.2);
  rlist s now k := default [] (live now (s.2 !! k));
  rlpush s now k v := Ok (s.1, <[k := (v :: default [] (live now (s.2 !! k)), None)]> s.2);
  rltrim s now k n := Ok (s.1, <[k := (take (S n) (default [] (live now (s.2 !! k))), None)]> s.2);
  rexpire s now k e := Ok (s.1, <[k := (default [] (live now (s.2 !! k)), Some (now + e))]> s.2);
  rincr s now k :=
    match live now (s.1 !! k) with
    | None => Ok (<[k := (PInt 1, None)]> s.1, s.2)
    | Some (PInt n) => Ok (<[k := (PInt (n + 1), s.1 !! k ≫= snd)]> s.1, s.2)
    | Some _ => Raise (OtherError "ResponseError")
    end;
  rdelete s now ks := Ok (foldr delete s.1 ks, foldr delete s.2 ks) |}.

#[export] Instance redis0_laws : RedisLaws.
Proof.
  constructor; cbn; intros; simplify_eq; cbn.
  - rewrite lookup_insert_eq. cbn. by destruct ex.
  - by rewrite lookup_insert_ne.
  - by rewrite lookup_insert_eq.
  - by rewrite lookup_insert_eq.
  - rewrite lookup_insert_eq. cbn. destruct (Z.ltb_spec now (now + e)); [done|lia].
  - done.
  - done.
  - done.
Qed.

Definition redis_empty : @redis redis0 := (∅, ∅).

(** ** Lemmas *)
Section RedisLemmas.
Context `{RedisLaws}.

(** A check that answers "not a duplicate" makes the key a duplicate for the
    whole window, and no check changes what other keys answer. *)
Lemma is_duplicate_first w now t ip sid s s' b s'' :
  is_duplicate w now ip sid s = Ok (false, s') -> now <= t < now + w ->
  is_duplicate w t ip sid s' = Ok (b, s'') -> b = true /\ s'' = s'.
Proof.
  unfold is_duplicate. intros H1 Ht H2.
  destruct (rget s now _) as [v|]; cbn in H1; [|done]. destruct v; [done|].
  destruct (rset s now _ _ _) as [s1|] eqn:E; cbn in H1; [|done]. simplify_eq.
  destruct (rget s' t _) as [v|] eqn:Eg; cbn in H2; [|done].
  pose proof (rget_set_same _ _ _ _ _ _ _ _ E (proj1 Ht) Eg) as Hv. subst v.
  destruct (Z.ltb_spec t (now + w)); [|lia]. by simplify_eq.
Qed.

Lemma push_history_list now ip a s s' : push_alert_history now ip a s = Ok s' ->
  rlist s' now (history_key ip) = take 100 (a :: rlist s now (history_key ip)).
Proof.
  unfold push_alert_history. intros (s1 & H1 & (s2 & H2 & H3)%res_bind_ok)%res_bind_ok.
  rewrite (rlist_expire _ _ _ _ _ H3) by (unfold SEC; lia).
  by rewrite (rlist_ltrim _ _ _ _ _ H2), (rlist_lpush _ _ _ _ _ H1).
Qed.
Lemma push_history_other now ip a s s' t k : push_alert_history now ip a s = Ok s' -> history_key ip <> k -> rget s' t k = rget s t k.
Proof.
  unfold push_alert_history. intros (s1 & H1 & (s2 & H2 & H3)%res_bind_ok)%res_bind_ok Hk.
  by rewrite (rget_expire _ _ _ _ _ _ _ H3), (rget_ltrim _ _ _ _ _ _ _ H2), (rget_lpush _ _ _ _ _ _ _ H1).
Qed.
End RedisLemmas.
