(* ===== verification/Gate.v ===== *)
(** * The pre-LLM gate (pipeline/filters.py, gate.py)

    The filters in their order, each evaluated only when the earlier ones passed,
    and the effect of the de-duplication filter on Redis. *)
From S2P Require Import Prelude PyVal IpAddr Topology Models Policy Safety Redis.
Local Open Scope string_scope.
Local Open Scope Z_scope.
Local Open Scope list_scope.

Inductive filter_reason :=
  | LowSeverity (severity min_severity : Z) | Duplicate (sid : Z) (src_ip : string)
  | NeverBlock (src_ip : string) | Whitelisted (ip : string) | OutsideZones.

Record FilterResult := mkFilter { passed : bool; reason : option filter_reason }.

Record gate_config := GateConfig {
  min_severity : Z; whitelist_ips : list string; dedup_window : Z (* nanoseconds *) }.

Definition default_gate : gate_config :=
  GateConfig 2 ["10.10.6.238"; "192.168.122.20"; "192.168.122.21"] (30 * SEC).

Definition severity_filter (alert : SuricataAlert) (min_sev : Z) : res FilterResult :=
  sev ← severity alert;
  Ok (if min_sev <? sev then mkFilter false (Some (LowSeverity sev min_sev)) else mkFilter true None).

Definition whitelist_filter (alert : SuricataAlert) (ips : list string) : FilterResult :=
  if is_protected_ip (al_src_ip alert) then mkFilter false (Some (NeverBlock (al_src_ip alert)))
  else if bool_decide (bare_ip (al_src_ip alert) ∈ ips)
  then mkFilter false (Some (Whitelisted (bare_ip (al_src_ip alert))))
  else mkFilter true None.

Definition zone_filter (alert : SuricataAlert) : FilterResult :=
  if nonempty (al_src_ip alert) && bool_decide (ip_to_zone (al_src_ip alert) = None)
  then mkFilter true (Some OutsideZones) else mkFilter true None.

Section Gate.
Context `{RedisServer} (cfg : gate_config).

Definition dedup_filter (now : Z) (alert : SuricataAlert) (s : redis) : res (FilterResult * redis) :=
  let* n := sid alert in
  let* '(dup, s') := is_duplicate (dedup_window cfg) now (al_src_ip alert) n s in
  Ok (if dup then mkFilter false (Some (Duplicate n (al_src_ip alert))) else mkFilter true None, s').

(** [AlertGate.should_process]: the verdict with the reason of the first failure. *)
Definition should_process (now : Z) (alert : SuricataAlert) (s : redis)
    : res (option filter_reason * redis) :=
  let* r1 := severity_filter alert (min_severity cfg) in
  if negb (passed r1) then Ok (reason r1, s) else
  let* '(r2, s) := dedup_filter now alert s in
  if negb (passed r2) then Ok (reason r2, s) else
  let r3 := whitelist_filter alert (whitelist_ips cfg) in
  if negb (passed r3) then Ok (reason r3, s) else
  let r4 := zone_filter alert in
  if negb (passed r4) then Ok (reason r4, s) else
  Ok (None, s).

(** The alerts of a run that reach the agent; an exception ends the run. *)
Fixpoint gate_run (alerts : list (Z * SuricataAlert)) (s : redis) : list (Z * SuricataAlert) * redis :=
  match alerts with
  | [] => ([], s)
  | (now, a) :: rest =>
      match should_process now a s with
      | Ok (None, s') => let '(ok, s2) := gate_run rest s' in ((now, a) :: ok, s2)
      | Ok (Some _, s') => gate_run rest s'
      | Raise _ => ([], s)
      end
  end.

(** ** Lemmas *)
Lemma should_process_pass now a s s' : should_process now a s = Ok (None, s') ->
  exists n sev, sid a = Ok n /\ severity a = Ok sev /\ sev <= min_severity cfg /\
    is_protected_ip (al_src_ip a) = false /\ (bare_ip (al_src_ip a) ∉ whitelist_ips cfg) /\
    is_duplicate (dedup_window cfg) now (al_src_ip a) n s = Ok (false, s').
Proof.
  unfold should_process, severity_filter, dedup_filter, whitelist_filter.
  destruct (severity a) as [sev|]; cbn; [|done].
  destruct (Z.ltb_spec (min_severity cfg) sev); cbn; [done|].
  destruct (sid a) as [n|]; cbn; [|done].
  destruct (is_duplicate _ _ _ _ _) as [[dup s1]|] eqn:Ed; cbn; [|done].
  destruct dup; cbn; [done|]. destruct (is_protected_ip (al_src_ip a)) eqn:Ep; cbn; [done|].
  case_bool_decide; cbn; [done|]. unfold zone_filter.
  assert (Hz : forall b : bool, passed (if b then mkFilter true (Some OutsideZones) else mkFilter true None) = true)
    by (by intros []).
  rewrite Hz. cbn. intros; simplify_eq. eauto 10.
Qed.

(** What a verdict does to the marks of other checks: either nothing, or the one
    [SET] of its own key. *)
Lemma should_process_store now a s r s' : should_process now a s = Ok (r, s') ->
  s' = s \/ exists n, sid a = Ok n /\
    rset s now (dedup_key (al_src_ip a) n) (PStr "1") (Some (dedup_window cfg)) = Ok s'.
Proof.
  unfold should_process, dedup_filter, is_duplicate.
  destruct (severity_filter a _) as [r1|]; cbn; [|done].
  destruct (passed r1); cbn; [|intros; simplify_eq; auto].
  destruct (sid a) as [n|]; cbn; [|done].
  destruct (rget s now _) as [v|]; cbn; [|done]. destruct v; cbn.
  - intros; simplify_eq; auto.
  - destruct (rset s now _ _ _) as [s1|] eqn:E; cbn; [|done].
    repeat case_match; intros; simplify_eq; eauto.
Qed.
End Gate.

Section GateRun.
Context `{RedisLaws} (cfg : gate_config).

Fixpoint alerts_from (t : Z) (alerts : list (Z * SuricataAlert)) : Prop :=
  match alerts with [] => True | (now, _) :: rest => t <= now /\ alerts_from now rest end.

(** A key marked at [t0] answers "present" until the window is over, whatever the gate does. *)
Lemma gate_keeps_mark t0 k alerts : forall t s,
  t0 <= t -> alerts_from t alerts ->
  (forall u x, t <= u < t0 + dedup_window cfg -> rget s u k = Ok x -> x <> None) ->
  forall now a, (now, a) ∈ (gate_run cfg alerts s).1 -> now < t0 + dedup_window cfg ->
    forall n, sid a = Ok n -> dedup_key (al_src_ip a) n <> k.
Proof.
  induction alerts as [|[u a] rest IH]; intros t s Ht Hord Hmark now b Hin Hnow n Hn; cbn in Hin; [set_solver|].
  destruct Hord as [Htu Hord].
  destruct (should_process cfg u a s) as [[r s']|] eqn:E; [|set_solver].
  assert (Hrest : forall v x, u <= v < t0 + dedup_window cfg -> rget s' v k = Ok x -> x <> None).
  { intros v x Hv Hx. destruct (should_process_store _ _ _ _ _ _ E) as [->|(m & Hm & Hset)].
    - eapply Hmark; [|exact Hx]. lia.
    - destruct (decide (dedup_key (al_src_ip a) m = k)) as [<-|Hne].
      + pose proof (rget_set_same _ _ _ _ _ _ _ _ Hset (proj1 Hv) Hx) as ->.
        destruct (Z.ltb_spec v (u + dedup_window cfg)); [done|lia].
      + rewrite (rget_set_other _ _ _ _ _ _ _ _ Hset Hne) in Hx. eapply Hmark; [|exact Hx]. lia. }
  destruct r as [r|].
  - eapply (IH u s'); try done; lia.
  - destruct (gate_run cfg rest s') as [ok s2] eqn:Er. cbn in Hin.
    apply elem_of_cons in Hin as [Hin|Hin].
    + simplify_eq. intros <-. apply should_process_pass in E as (m & sev & Hm & _ & _ & _ & _ & Hdup).
      assert (m = n) as -> by congruence. unfold is_duplicate in Hdup.
      destruct (rget s u (dedup_key (al_src_ip a) n)) as [x|] eqn:Eg; cbn in Hdup; [|done].
      destruct x; [done|]. by apply (Hmark u None).
    + eapply (IH u s'); try done; [lia|]. by rewrite Er.
Qed.

Lemma gate_run_spaced alerts : forall t s, alerts_from t alerts ->
  forall i j t1 a1 t2 a2 n, (i < j)%nat ->
    (gate_run cfg alerts s).1 !! i = Some (t1, a1) -> (gate_run cfg alerts s).1 !! j = Some (t2, a2) ->
    al_src_ip a1 = al_src_ip a2 -> sid a1 = Ok n -> sid a2 = Ok n -> t1 + dedup_window cfg <= t2.
Proof.
  induction alerts as [|[u a] rest IH]; intros t s Hord i j t1 a1 t2 a2 n Hij Hi Hj Hsrc Hn1 Hn2;
    [by destruct i|].
  cbn [gate_run] in Hi, Hj. destruct Hord as [Htu Hord].
  destruct (should_process cfg u a s) as [[r s']|] eqn:E; [|by destruct i].
  destruct r as [r|]; [by eapply (IH u s')|].
  destruct (gate_run cfg rest s') as [ok s2] eqn:Er. cbn [fst] in *.
  destruct i as [|i]; destruct j as [|j]; try lia.
  - cbn in Hi, Hj. simplify_eq. destruct (Z.le_gt_cases (t1 + dedup_window cfg) t2) as [|Hlt]; [done|].
    exfalso. apply should_process_pass in E as (m & sev & Hm & _ & _ & _ & _ & Hdup).
    assert (m = n) as -> by congruence.
    assert (Hin : (t2, a2) ∈ (gate_run cfg rest s').1) by (rewrite Er; by eapply list_elem_of_lookup_2).
    apply (gate_keeps_mark t1 (dedup_key (al_src_ip a1) n) rest t1 s' ltac:(lia) Hord) with (n := n) in Hin;
      try done; [by rewrite Hsrc in Hin|].
    intros v x Hv Hx -> . unfold is_duplicate in Hdup.
    destruct (rget s t1 _) as [y|]; cbn in Hdup; [|done]. destruct y; [done|].
    destruct (rset s t1 _ _ _) as [s1|] eqn:Es; cbn in Hdup; [|done]. simplify_eq.
    pose proof (rget_set_same _ _ _ _ _ _ _ _ Es (proj1 Hv) Hx) as Hx'.
    cbn in Hx'. destruct (Z.ltb_spec v (t1 + dedup_window cfg)); [done|lia].
  - cbn in Hi, Hj. eapply (IH u s' Hord i j t1 a1 t2 a2 n); rewrite ?Er; done || lia.
Qed.
End GateRun.

(** ** Properties *)
(** two alerts with the same source and SID reach the agent at least a whole
    dedup window apart, whatever else is processed in between, for every Redis
    that obeys the documented behaviour of its commands. *)
Theorem gate_dedups `{RedisLaws} cfg alerts t0 s i j t1 a1 t2 a2 n :
  alerts_from t0 alerts -> (i < j)%nat ->
  (gate_run cfg alerts s).1 !! i = Some (t1, a1) -> (gate_run cfg alerts s).1 !! j = Some (t2, a2) ->
  al_src_ip a1 = al_src_ip a2 -> sid a1 = Ok n -> sid a2 = Ok n -> t1 + dedup_window cfg <= t2.
Proof. intros. by eapply gate_run_spaced. Qed.

Definition sample_alert (src : string) (sid severity : Z) : SuricataAlert :=
  mkAlert "" src "10.1.200.10" 0 22 "tcp" [("signature_id", PInt sid); ("severity", PInt severity)] [].

Lemma gate_dedups_witness :
  let a := sample_alert "10.1.100.10" 9000001 1 in
  let alerts := [(0, a); (SEC, a); (40 * SEC, a)] in
  (gate_run (H := redis0) default_gate alerts redis_empty).1 = [(0, a); (40 * SEC, a)] /\
  0 + 30 * SEC <= 40 * SEC.
Proof.
  cbv zeta. split; [vm_compute; reflexivity|].
  apply (gate_dedups (H := redis0) default_gate
    [(0, sample_alert "10.1.100.10" 9000001 1); (SEC, sample_alert "10.1.100.10" 9000001 1);
     (40 * SEC, sample_alert "10.1.100.10" 9000001 1)] 0 redis_empty 0 1 0
    (sample_alert "10.1.100.10" 9000001 1) (40 * SEC) (sample_alert "10.1.100.10" 9000001 1) 9000001).
  - cbn. unfold SEC. lia.
  - lia.
  - vm_compute. reflexivity.
  - vm_compute. reflexivity.
  - reflexivity.
  - vm_compute. reflexivity.
  - vm_compute. reflexivity.
Defined.
