(* ===== verification/Flow.v ===== *)
(** * Flow records and their aggregation (models/flow.py, pipeline/flow_aggregator.py)

    One Suricata flow record, the per-window record of an IP pair, the grouping
    of a window's flows into pairs and the heuristic score of a pair. *)
From S2P Require Import Prelude PyVal Models.
Local Open Scope string_scope.
Local Open Scope Z_scope.
Local Open Scope list_scope.

(** ** models/flow.py *)
Record SuricataFlowEvent := mkFlow {
  f_timestamp : string; f_flow_id : Z; f_in_iface : string;
  f_src_ip : string; f_src_port : Z; f_dest_ip : string; f_dest_port : Z;
  f_proto : string; f_app_proto : string;
  f_flow : list (string * pyval); f_tcp : list (string * pyval); f_raw : list (string * pyval) }.

Definition pkts_toserver (f : SuricataFlowEvent) : res Z := int_of (jget_or (f_flow f) "pkts_toserver" (PInt 0)).
Definition pkts_toclient (f : SuricataFlowEvent) : res Z := int_of (jget_or (f_flow f) "pkts_toclient" (PInt 0)).
Definition bytes_toserver (f : SuricataFlowEvent) : res Z := int_of (jget_or (f_flow f) "bytes_toserver" (PInt 0)).
Definition bytes_toclient (f : SuricataFlowEvent) : res Z := int_of (jget_or (f_flow f) "bytes_toclient" (PInt 0)).
Definition flow_state `{PyRepr} (f : SuricataFlowEvent) : string :=
  py_str (jget_or (f_flow f) "state" (PStr "unknown")).

Definition flow_from_raw `{External} (data : list (string * pyval)) : res SuricataFlowEvent :=
  let* flow_id := int_of (jget_or data "flow_id" (PInt 0)) in
  let* src_port := int_of (jget_or data "src_port" (PInt 0)) in
  let* dest_port := int_of (jget_or data "dest_port" (PInt 0)) in
  let* ts := pyd_str (jget_or data "timestamp" (PStr "")) in
  let* iface := pyd_str (jget_or data "in_iface" (PStr "")) in
  let* src := pyd_str (jget_or data "src_ip" (PStr "")) in
  let* dst := pyd_str (jget_or data "dest_ip" (PStr "")) in
  let* proto := pyd_str (jget_or data "proto" (PStr "tcp")) in
  let* app := pyd_str (jget_or data "app_proto" (PStr "")) in
  let* flow := pyd_dict (jget_or data "flow" (PDict [])) in
  let* tcp := pyd_dict (jget_or data "tcp" (PDict [])) in
  Ok (mkFlow ts flow_id iface src src_port dst dest_port proto app flow tcp data).

Record AggregatedIPPair := mkPair {
  p_src_ip : string; p_dest_ip : string; p_window_start : string; p_window_end : string;
  flow_count : Z; tcp_flow_count : Z; udp_flow_count : Z;
  pkts_toserver_sum : Z; pkts_toclient_sum : Z; bytes_toserver_sum : Z; bytes_toclient_sum : Z;
  pkts_toserver_max : Z; pkts_toclient_max : Z; bytes_toserver_max : Z; bytes_toclient_max : Z;
  unique_dst_ports : list Z; unique_dst_port_count : Z;
  unique_app_protos : list string; states_observed : list string;
  p_src_zone : string; p_dest_zone : string; p_flow_ids : list Z }.

(** ** flow_aggregator.py *)
Definition flow_key (f : SuricataFlowEvent) : string * string := (f_src_ip f, f_dest_ip f).
Definition eligible (f : SuricataFlowEvent) : bool := nonempty (f_src_ip f) && nonempty (f_dest_ip f).

Definition buckets_t := list ((string * string) * list SuricataFlowEvent).

Definition bucket_add (b : buckets_t) (f : SuricataFlowEvent) : buckets_t :=
  if eligible f then dict_set b (flow_key f) (default [] (dict_get b (flow_key f)) ++ [f]) else b.

Definition buckets (flows : list SuricataFlowEvent) : buckets_t := foldl bucket_add [] flows.

(** [sorted(set)] on integers and on strings (code points order as UTF-8 bytes). *)
Definition sorted_ints (l : list Z) : list Z := merge_sort Z.le (remove_dups l).
Definition sorted_strs (l : list string) : list string :=
  merge_sort (fun a b => Is_true (String.leb a b)) (remove_dups l).

Definition count_proto (proto : string) (l : list SuricataFlowEvent) : Z :=
  Z.of_nat (length (filter (fun f => py_lower (f_proto f) = proto) l)).

(** [max(l)] of a list that is not empty. *)
Definition max_ints (l : list Z) : Z := match l with [] => 0 | x :: l' => foldl Z.max x l' end.
Definition sum_ints (l : list Z) : Z := foldr Z.add 0 l.

Section Aggregate.
Context `{PyRepr} (ip_to_zone : option (string -> option string)).

(** [(ip_to_zone(ip) if ip_to_zone else "") or ""] *)
Definition zone_name (ip : string) : string :=
  match ip_to_zone with Some f => default "" (f ip) | None => "" end.

Definition aggregate_bucket (ws we : string) (k : string * string) (b : list SuricataFlowEvent)
    : res AggregatedIPPair :=
  let* pts := mapM_res pkts_toserver b in
  let* ptc := mapM_res pkts_toclient b in
  let* bts := mapM_res bytes_toserver b in
  let* btc := mapM_res bytes_toclient b in
  let ports := sorted_ints (filter (fun p => p <> 0) (map f_dest_port b)) in
  Ok (mkPair k.1 k.2 ws we
        (Z.of_nat (length b)) (count_proto "tcp" b) (count_proto "udp" b)
        (sum_ints pts) (sum_ints ptc) (sum_ints bts) (sum_ints btc)
        (max_ints pts) (max_ints ptc) (max_ints bts) (max_ints btc)
        ports (Z.of_nat (length ports))
        (sorted_strs (filter (fun a => a <> "") (map f_app_proto b)))
        (sorted_strs (map flow_state b))
        (zone_name k.1) (zone_name k.2)
        (filter (fun i => i <> 0) (map f_flow_id b))).

Definition aggregate_flows (flows : list SuricataFlowEvent) (ws we : string) : res (list AggregatedIPPair) :=
  mapM_res (fun kb : (string * string) * list SuricataFlowEvent => aggregate_bucket ws we kb.1 kb.2)
    (buckets flows).
End Aggregate.

Definition admin_ports : list Z := [22; 3389; 5985; 5986].

Definition suspect_score (pair : AggregatedIPPair) : Z :=
  let src_z := py_upper (p_src_zone pair) in
  let dst_z := py_upper (p_dest_zone pair) in
  (if bool_decide (src_z <> dst_z) && bool_decide (dst_z ∈ ["DB"; "MGT"]) && (1 <? flow_count pair) then 2 else 0) +
  (if existsb (fun p => bool_decide (p ∈ admin_ports)) (unique_dst_ports pair) &&
      bool_decide (src_z <> "MGT") then 2 else 0) +
  (if 10 <? flow_count pair then 1 else 0) +
  (if 5 <? unique_dst_port_count pair then 2 else 0) +
  (if bool_decide (src_z = "DB") && nonempty dst_z && bool_decide (dst_z <> "DB") then 3 else 0).

(** ** Lemmas *)
Definition eligible_key (k : string * string) (f : SuricataFlowEvent) : Prop :=
  eligible f = true /\ flow_key f = k.
#[export] Instance eligible_key_dec k f : Decision (eligible_key k f).
Proof. unfold eligible_key. apply _. Defined.

Record buckets_ok (flows : list SuricataFlowEvent) (b : buckets_t) : Prop := {
  bk_nodup : NoDup b.*1;
  bk_get k : dict_get b k = match filter (eligible_key k) flows with [] => None | l => Some l end }.

Lemma bucket_add_ok flows b f : buckets_ok flows b -> buckets_ok (flows ++ [f]) (bucket_add b f).
Proof.
  intros [Hn Hg]. unfold bucket_add. destruct (eligible f) eqn:E; split; try done.
  - by apply dict_set_NoDup.
  - intros k. rewrite dict_get_set, filter_app. case_decide as Hk.
    + subst. rewrite (filter_cons_True _ f) by done. rewrite Hg, filter_nil.
      destruct (filter (eligible_key (flow_key f)) flows) as [|x l]; done.
    + rewrite (filter_cons_False _ f), filter_nil, app_nil_r; [done|]. by intros [_ ?].
  - intros k. rewrite Hg, filter_app, (filter_cons_False _ f), filter_nil, app_nil_r; [done|].
    intros [? _]. congruence.
Qed.

Lemma buckets_spec flows : buckets_ok flows (buckets flows).
Proof.
  unfold buckets. induction flows as [|f flows IH] using rev_ind.
  - split; [constructor|done].
  - rewrite foldl_app. cbn. by apply bucket_add_ok.
Qed.

Lemma bucket_in flows k b : (k, b) ∈ buckets flows ->
  b = filter (eligible_key k) flows /\ b <> [].
Proof.
  destruct (buckets_spec flows) as [Hn Hg]. intros Hin%dict_get_in; [|done].
  rewrite Hg in Hin. destruct (filter (eligible_key k) flows); by simplify_eq.
Qed.

Lemma bucket_total flows : sum_ints (map (fun kb : (string * string) * list SuricataFlowEvent => Z.of_nat (length kb.2)) (buckets flows))
  = Z.of_nat (length (filter (fun f => eligible f = true) flows)).
Proof.
  unfold buckets. induction flows as [|f flows IH] using rev_ind; [done|].
  rewrite foldl_app, filter_app, length_app. cbn [foldl]. set (b := foldl bucket_add [] flows) in *.
  unfold bucket_add. destruct (eligible f) eqn:E.
  - rewrite filter_cons_True by done. cbn [length].
    rewrite Nat2Z.inj_add, <- IH. clear. generalize (flow_key f). intros k.
    unfold sum_ints. induction b as [|[k' v'] b IH]; [done|].
    cbn [dict_get dict_set]. case_decide; cbn [map foldr snd].
    + simpl. rewrite length_app. simpl. lia.
    + rewrite IH. lia.
  - rewrite filter_cons_False by congruence. cbn. lia.
Qed.

Lemma sorted_ints_spec l : StronglySorted Z.lt (sorted_ints l) /\ forall x, x ∈ sorted_ints l <-> x ∈ l.
Proof.
  unfold sorted_ints. set (r := remove_dups l).
  pose proof (merge_sort_Permutation Z.le r) as Hp.
  assert (Hs : StronglySorted Z.le (merge_sort Z.le r)).
  { apply StronglySorted_merge_sort; [intros ???; lia|intros ??; lia]. }
  assert (Hn : NoDup (merge_sort Z.le r)) by (rewrite Hp; apply NoDup_remove_dups).
  split.
  - clear Hp. induction Hs as [|x l' Hs IH Hx]; constructor; apply NoDup_cons in Hn as [Hni Hn]; [auto|].
    apply Forall_forall. intros y Hy. rewrite Forall_forall in Hx. pose proof (Hx y Hy).
    assert (x <> y) by (by intros ->). lia.
  - intros x. rewrite Hp. apply elem_of_remove_dups.
Qed.

Lemma foldl_max_spec l : forall x, (foldl Z.max x l ∈ x :: l) /\ Forall (fun y => y <= foldl Z.max x l) (x :: l).
Proof.
  induction l as [|y l IH]; intros x; cbn [foldl].
  - split; [by left|]. by constructor.
  - destruct (IH (Z.max x y)) as [Hin Hle]. apply Forall_cons in Hle as [Hm Hle]. split.
    + rewrite !elem_of_cons in *. destruct Hin as [->|]; [|auto]. destruct (Z.max_spec x y) as [[_ ->]|[_ ->]]; auto.
    + repeat constructor; [lia..|done].
Qed.
(** The sum and the greatest of what a field of the flows reads as. *)
Definition summed (get : SuricataFlowEvent -> res Z) (fs : list SuricataFlowEvent) (sum greatest : Z) : Prop :=
  exists l, mapM_res get fs = Ok l /\ sum = sum_ints l /\ greatest ∈ l /\ Forall (fun x => x <= greatest) l.
Lemma summed_ints get fs l : fs <> [] -> mapM_res get fs = Ok l -> summed get fs (sum_ints l) (max_ints l).
Proof.
  intros Hne Hl. exists l. destruct l as [|x l]; [apply mapM_res_ok in Hl; by inversion Hl; subst|].
  destruct (foldl_max_spec l x). by split_and!.
Qed.

(** What the record of a pair says of its flows. *)
Record describes `{PyRepr} (zone : option (string -> option string)) (ws we : string) (fs : list SuricataFlowEvent) (p : AggregatedIPPair) : Prop := {
  ds_window : p_window_start p = ws /\ p_window_end p = we;
  ds_counts : flow_count p = Z.of_nat (length fs) /\
    tcp_flow_count p = Z.of_nat (length (filter (fun f => py_lower (f_proto f) = "tcp") fs)) /\
    udp_flow_count p = Z.of_nat (length (filter (fun f => py_lower (f_proto f) = "udp") fs));
  ds_pkts : summed pkts_toserver fs (pkts_toserver_sum p) (pkts_toserver_max p) /\
    summed pkts_toclient fs (pkts_toclient_sum p) (pkts_toclient_max p);
  ds_bytes : summed bytes_toserver fs (bytes_toserver_sum p) (bytes_toserver_max p) /\
    summed bytes_toclient fs (bytes_toclient_sum p) (bytes_toclient_max p);
  ds_ports : StronglySorted Z.lt (unique_dst_ports p) /\
    (forall port, port ∈ unique_dst_ports p <-> port <> 0 /\ exists f, f ∈ fs /\ f_dest_port f = port) /\
    unique_dst_port_count p = Z.of_nat (length (unique_dst_ports p));
  ds_texts : unique_app_protos p = sorted_strs (filter (fun a => a <> "") (map f_app_proto fs)) /\
    states_observed p = sorted_strs (map flow_state fs);
  ds_zones : p_src_zone p = zone_name zone (p_src_ip p) /\ p_dest_zone p = zone_name zone (p_dest_ip p);
  ds_ids : p_flow_ids p = filter (fun i => i <> 0) (map f_flow_id fs) }.
Lemma bucket_described `{PyRepr} zone ws we k b p : b <> [] -> aggregate_bucket zone ws we k b = Ok p ->
  (p_src_ip p, p_dest_ip p) = k /\ describes zone ws we b p.
Proof.
  intros Hne. unfold aggregate_bucket.
  intros (pts & H1 & (ptc & H2 & (bts & H3 & (btc & H4 & Hp)%rbind_ok)%rbind_ok)%rbind_ok)%rbind_ok. injection Hp as <-.
  split; [by destruct k|]. destruct (sorted_ints_spec (filter (fun p => p <> 0) (map f_dest_port b))) as [Hs Hin].
  constructor; cbn; try (split_and?; first [done | by apply summed_ints]).
  split; [done|]. split; [|done]. intros port. rewrite Hin, list_elem_of_filter.
  change (map f_dest_port b) with (f_dest_port <$> b). rewrite list_elem_of_fmap. naive_solver.
Qed.

(** ** Properties *)
(** C39: aggregation partitions the window: one record per pair of non-empty addresses, whose
    counts add up to the number of flows with both addresses.  A record describes exactly
    the flows of its pair ([describes]): the numbers of all flows and of the TCP and UDP
    ones, the sum and the greatest of the packets and of the bytes in either direction, the
    distinct non-zero ports in increasing order with their number, the protocols and
    states, the zones of the two addresses and the ids of the flows. *)
Theorem aggregate_partitions `{PyRepr} zone flows ws we aggs :
  aggregate_flows zone flows ws we = Ok aggs ->
  NoDup (map (fun p => (p_src_ip p, p_dest_ip p)) aggs) /\
  sum_ints (map flow_count aggs) = Z.of_nat (length (filter (fun f => eligible f = true) flows)) /\
  forall p, p ∈ aggs ->
    let fs := filter (eligible_key (p_src_ip p, p_dest_ip p)) flows in
    fs <> [] /\ describes zone ws we fs p.
Proof.
  unfold aggregate_flows. intros Ha%mapM_res_ok.
  assert (Hk : forall kb p, kb ∈ buckets flows -> aggregate_bucket zone ws we kb.1 kb.2 = Ok p ->
    (p_src_ip p, p_dest_ip p) = kb.1 /\ describes zone ws we kb.2 p).
  { intros [k b] p [_ Hne]%bucket_in. by apply bucket_described. }
  assert (Hmaps : map (fun p => (p_src_ip p, p_dest_ip p)) aggs = (buckets flows).*1 /\
    map flow_count aggs = map (fun kb : (string * string) * list SuricataFlowEvent => Z.of_nat (length kb.2)) (buckets flows)).
  { clear -Ha Hk. induction Ha as [|kb p bs ps Hp _ IH]; [done|]. destruct (Hk kb p ltac:(by left) Hp) as [E Hd].
    destruct IH as [IH1 IH2]; [intros ? ? Hin; apply Hk; by right|]. cbn. rewrite IH1, IH2, E. by rewrite (proj1 (ds_counts _ _ _ _ _ Hd)). }
  destruct Hmaps as [-> ->]. split_and!; [apply buckets_spec|by rewrite bucket_total|].
  intros p Hp. apply list_elem_of_lookup in Hp as [i Hi].
  destruct (Forall2_lookup_r _ _ _ _ _ Ha Hi) as ([k b] & Hb%list_elem_of_lookup_2 & Hagg).
  destruct (Hk _ _ Hb Hagg) as [Hkey Hd]. cbn [fst snd] in *. rewrite Hkey. apply bucket_in in Hb as [<- Hne]. done.
Qed.

(** The suspect score of every pair is between 0 and 10, and a pair with at most
    one flow, no admin port and a source outside DB stays below the dispatch
    threshold of 2 unless it fans out over more than five ports. *)
Theorem suspect_score_bounds pair :
  0 <= suspect_score pair <= 10 /\
  (flow_count pair <= 1 -> unique_dst_port_count pair <= 5 ->
   Forall (fun p => p ∉ admin_ports) (unique_dst_ports pair) -> py_upper (p_src_zone pair) <> "DB" ->
   suspect_score pair = 0).
Proof.
  unfold suspect_score. split; [repeat case_match; lia|]. intros Hf Hu Hp Hdb.
  destruct (Z.ltb_spec 1 (flow_count pair)); [lia|]. destruct (Z.ltb_spec 10 (flow_count pair)); [lia|].
  destruct (Z.ltb_spec 5 (unique_dst_port_count pair)); [lia|].
  rewrite (bool_decide_eq_false_2 (py_upper (p_src_zone pair) = "DB")) by done. rewrite andb_false_r. cbn.
  replace (existsb _ (unique_dst_ports pair)) with false; [done|].
  symmetry. induction Hp as [|x l Hx _ IH]; [done|]. cbn. by rewrite bool_decide_eq_false_2.
Qed.

Lemma aggregate_partitions_witness :
  let f p := mkFlow "" 1 "" "10.1.100.10" 4 "10.1.200.10" p "tcp" "" [("bytes_toserver", PInt 7)] [] [] in
  match aggregate_flows (H := fun _ => "") None [f 22; f 80; f 22] "a" "b" with
  | Ok aggs => map unique_dst_ports aggs = [[22; 80]] /\ sum_ints (map flow_count aggs) = 3
  | Raise _ => False
  end.
Proof.
  cbv zeta. destruct (aggregate_flows _ _ _ _) as [aggs|] eqn:E; [|vm_compute in E; discriminate E].
  destruct (@aggregate_partitions (fun _ => "") None _ "a" "b" aggs E) as (_ & Hs & _).
  split; [|rewrite Hs; vm_compute; reflexivity].
  vm_compute in E. injection E as <-. reflexivity.
Defined.
