(* ===== verification/FlowWindow.v ===== *)
(** * The window buffer (pipeline/flow_window.py)

    [push] and [fire] hold the buffer lock, so each is one atomic step; the
    callback runs after the lock is released and its exceptions are logged. *)
From S2P Require Import Prelude PyVal Flow.
Local Open Scope string_scope.
Local Open Scope Z_scope.
Local Open Scope list_scope.

Section FlowWindow.
Context {Ev : Type}.

Record FlowWindow := mkWindow { w_buffer : list Ev; w_start : string; w_running : bool }.

Definition window0 : FlowWindow := mkWindow [] "" false.

(** [start] at the time [now]: no effect when already running. *)
Definition start (now : string) (w : FlowWindow) : FlowWindow :=
  if w_running w then w else mkWindow (w_buffer w) now true.

Definition stop (w : FlowWindow) : FlowWindow := mkWindow (w_buffer w) (w_start w) false.

(** [self._buffer.pop(0)] raises on an empty buffer (a [max_buffer] of 0). *)
Definition push (max_buffer : nat) (flow : Ev) (w : FlowWindow) : res FlowWindow :=
  if (max_buffer <=? length (w_buffer w))%nat then
    match w_buffer w with
    | [] => Raise IndexError
    | _ :: rest => Ok (mkWindow (rest ++ [flow]) (w_start w) (w_running w))
    end
  else Ok (mkWindow (w_buffer w ++ [flow]) (w_start w) (w_running w)).

(** [_fire] at the time [now]: the new state and the call of the callback, if any. *)
Definition fire (has_callback : bool) (now : string) (w : FlowWindow)
    : FlowWindow * option (list Ev * string * string) :=
  (mkWindow [] now (w_running w),
   match w_buffer w with
   | [] => None
   | snapshot => if has_callback then Some (snapshot, w_start w, now) else None
   end).

(** ** Runs *)
Inductive window_event := Push (f : Ev) | Fire (now : string).

Fixpoint window_run (max_buffer : nat) (es : list window_event) (w : FlowWindow)
    : res (list (list Ev * string * string) * FlowWindow) :=
  match es with
  | [] => Ok ([], w)
  | Push f :: es' => let* w' := push max_buffer f w in window_run max_buffer es' w'
  | Fire now :: es' =>
      let '(w', call) := fire true now w in
      let* '(calls, w2) := window_run max_buffer es' w' in
      Ok ((match call with Some c => [c] | None => [] end) ++ calls, w2)
  end.

(** What each window delivers: the newest [max_buffer] of the flows pushed since
    the last fire, or nothing when there were none. *)
Fixpoint spec_run (max_buffer : nat) (pushed : list Ev) (start : string) (es : list window_event)
    : list (list Ev * string * string) :=
  match es with
  | [] => []
  | Push f :: es' => spec_run max_buffer (pushed ++ [f]) start es'
  | Fire now :: es' =>
      (match last_n max_buffer pushed with [] => [] | b => [(b, start, now)] end)
      ++ spec_run max_buffer [] now es'
  end.

Lemma last_n_snoc (n : nat) (l : list Ev) x : (0 < n)%nat ->
  last_n n (l ++ [x]) =
  if (n <=? length (last_n n l))%nat then tail (last_n n l) ++ [x] else last_n n l ++ [x].
Proof.
  intros Hn. rewrite last_n_length. unfold last_n. rewrite length_app. cbn [length].
  destruct (Nat.leb_spec n (n `min` length l)) as [Hle|Hlt].
  - rewrite drop_app_le by lia. f_equal.
    replace (length l + 1 - n)%nat with (S (length l - n)) by lia.
    replace (tail (drop (length l - n) l)) with (drop 1 (drop (length l - n) l))
      by (by destruct (drop (length l - n) l)).
    rewrite drop_drop. f_equal. lia.
  - replace (length l + 1 - n)%nat with 0%nat by lia. replace (length l - n)%nat with 0%nat by lia. done.
Qed.

Lemma window_run_spec (n : nat) es : (0 < n)%nat -> forall pushed start running,
  exists w', window_run n es (mkWindow (last_n n pushed) start running) =
    Ok (spec_run n pushed start es, w') /\ (length (w_buffer w') <= n)%nat.
Proof.
  intros Hn. induction es as [|[f|now] es IH]; intros pushed st running; cbn.
  - eexists. split; [done|]. cbn. rewrite last_n_length. lia.
  - unfold push. cbn [w_buffer w_start w_running].
    destruct (IH (pushed ++ [f]) st running) as (w' & Hr & Hw).
    rewrite (last_n_snoc n pushed f Hn) in Hr.
    destruct (Nat.leb_spec n (length (last_n n pushed))) as [Hle|Hlt]; cbn.
    + destruct (last_n n pushed) as [|x rest] eqn:E; [cbn in Hle; lia|]. cbn in *. eauto.
    + eauto.
  - destruct (IH [] now running) as (w' & Hr & Hw). 
    assert (E0 : last_n n (@nil Ev) = []) by apply drop_nil. rewrite E0 in Hr.
    exists w'. rewrite Hr. cbn. destruct (last_n n pushed); done.
Qed.
End FlowWindow.
Arguments FlowWindow : clear implicits.
Arguments window_event : clear implicits.

(** ** Properties *)
(** C35: for a positive capacity no push ever raises, the buffer never exceeds the
    capacity, and each fire hands over exactly the newest [max_buffer] flows
    pushed since the previous one, with the bounds of its own window: nothing
    is delivered twice and nothing recent is lost. *)
Theorem window_delivers {Ev} (n : nat) (es : list (window_event Ev)) (start : string) :
  (0 < n)%nat ->
  exists w', window_run n es (mkWindow [] start true) = Ok (spec_run n [] start es, w') /\
             (length (w_buffer w') <= n)%nat.
Proof. intros Hn. exact (window_run_spec n es Hn [] start true). Qed.

Lemma window_delivers_witness :
  exists w', window_run 2 [Push 1; Push 2; Push 3; Fire "t1"; Fire "t2"; Push 4; Fire "t3"]
    (mkWindow [] "t0" true) =
    Ok ([([2; 3], "t0", "t1"); ([4], "t2", "t3")], w') /\ (length (w_buffer w') <= 2)%nat.
Proof.
  apply (window_delivers 2 [Push 1; Push 2; Push 3; Fire "t1"; Fire "t2"; Push 4; Fire "t3"] "t0").
  lia.
Defined.
