(* ===== verification/Dispatcher.v ===== *)
(** * From a closed window to synthetic alerts
      (pipeline/llama_batch_classifier.py, pipeline/flow_batch_dispatcher.py)

    The LLM's answer, the parsing of a JSON or Python text, the iteration order
    of a set and the effect of the alert callback are parameters. *)
From S2P Require Import Prelude PyVal IpAddr Topology Models Flow Policy Safety Redis Gate.
Local Open Scope string_scope.
Local Open Scope Z_scope.
Local Open Scope list_scope.

(** ** llama_batch_classifier.py *)
Definition first_port (pair : AggregatedIPPair) : Z :=
  match unique_dst_ports pair with p :: _ => p | [] => 0 end.

Definition pair_key (pair : AggregatedIPPair) : string :=
  (p_src_ip pair ++ "→" ++ p_dest_ip pair ++ ":" ++ str_of_Z (first_port pair))%string.

Record classification := Cls { c_label : string; c_confidence : Q; c_reason : string }.

Section Classify.
Context `{External} `{PyRepr}.
(** [json.loads] ([None] for a JSONDecodeError) and [ast.literal_eval]. *)
Context (json_loads : string -> option pyval) (literal_eval : string -> res pyval).

(** [float(item.get("confidence", 0.5) or 0.5)] with its [except]. *)
Definition item_confidence (item : obj) : res Q :=
  match float_of (por (jget_or item "confidence" (PFloat (1#2))) (PFloat (1#2))) with
  | Raise (TypeError _) | Raise (ValueError _) => Ok (1#2)%Q
  | r => r
  end.

Definition class_step (out : res (list (string * classification))) (item : pyval)
    : res (list (string * classification)) :=
  let* out := out in
  match item with
  | PDict d =>
      let pid := py_str (por (jget_or d "pair_id" (PStr "")) (PStr "")) in
      if nonempty pid then
        let* conf := item_confidence d in
        Ok (dict_set out pid
              (Cls (py_str (por (jget_or d "label" (PStr "SUSPECT_other")) (PStr "SUSPECT_other"))) conf
                   (py_take 160 (py_str (por (jget_or d "reason" (PStr "")) (PStr ""))))))
      else Ok out
  | _ => Ok out
  end.

(** [raw_items] after the attempt to parse a string; [None] for an early return. *)
Definition raw_items (v : pyval) : res (option pyval) :=
  match v with
  | PStr s =>
      match json_loads s with
      | Some p => Ok (Some p)
      | None =>
          match literal_eval s with
          | Ok p => Ok (Some p)
          | Raise (ValueError _) | Raise (OtherError "SyntaxError") => Ok None
          | Raise e => Raise e
          end
      end
  | _ => Ok (Some v)
  end.

(** [answer] is the outcome of the one [chat_json] call. *)
Definition classify_batch (answer : res pyval) (pairs : list AggregatedIPPair)
    : res (list (string * classification)) :=
  match pairs with
  | [] => Ok []
  | _ =>
      match answer with
      | Raise _ => Ok []
      | Ok result =>
          let items := match result with PDict d => jget_or d "classifications" (PList []) | _ => PList [] end in
          let* raw := raw_items items in
          match raw with
          | Some (PList l) => foldl class_step (Ok []) l
          | _ => Ok []
          end
      end
  end.
End Classify.

(** ** flow_batch_dispatcher.py *)
Record window_stats := Stats {
  flows_in_window : Z; ip_pairs_total : Z; ip_pairs_suspect_heuristic : Z; ip_pairs_suspect_llama : Z;
  ip_pairs_suspect : Z; dispatched : Z; agent_calls_skipped : Z; llama_called : bool; window_end : string }.

Definition trigger_key : string := "agent:trigger:enabled".

(** The flag: enabled when Redis is absent, unreachable or has no value. *)
Definition trigger_enabled `{RedisServer} (r : option redis) (now : Z) : bool :=
  match r with
  | None => true
  | Some s =>
      match rget s now trigger_key with
      | Raise _ => true
      | Ok None => true
      | Ok (Some v) => bool_decide (v ∈ [PStr "1"; PStr "true"])
      end
  end.

Definition high_signal_labels : list string := ["SUSPECT_content"; "SUSPECT_lateral"; "SUSPECT_exfil"].
Definition mid_signal_labels : list string := ["SUSPECT_burst"; "SUSPECT_scan"; "SUSPECT_c2_beacon"].

Definition synth_severity (score : Z) (label : string) : Z :=
  if (6 <=? score) || bool_decide (label = "SUSPECT_content") then 1
  else if (4 <=? score) || bool_decide (label ∈ high_signal_labels) then 2
  else if (2 <=? score) || bool_decide (label ∈ mid_signal_labels) then 3
  else 4.

Definition synth_sid (score : Z) : Z := 9900000 + Z.min score 99.

Definition ints (l : list Z) : pyval := PList (map PInt l).
Definition strs (l : list string) : pyval := PList (map PStr l).

(** [pair.model_dump()] *)
Definition pair_dump (p : AggregatedIPPair) : obj := [
  ("src_ip", PStr (p_src_ip p)); ("dest_ip", PStr (p_dest_ip p));
  ("window_start", PStr (p_window_start p)); ("window_end", PStr (p_window_end p));
  ("flow_count", PInt (flow_count p)); ("tcp_flow_count", PInt (tcp_flow_count p));
  ("udp_flow_count", PInt (udp_flow_count p));
  ("pkts_toserver_sum", PInt (pkts_toserver_sum p)); ("pkts_toclient_sum", PInt (pkts_toclient_sum p));
  ("bytes_toserver_sum", PInt (bytes_toserver_sum p)); ("bytes_toclient_sum", PInt (bytes_toclient_sum p));
  ("pkts_toserver_max", PInt (pkts_toserver_max p)); ("pkts_toclient_max", PInt (pkts_toclient_max p));
  ("bytes_toserver_max", PInt (bytes_toserver_max p)); ("bytes_toclient_max", PInt (bytes_toclient_max p));
  ("unique_dst_ports", ints (unique_dst_ports p)); ("unique_dst_port_count", PInt (unique_dst_port_count p));
  ("unique_app_protos", strs (unique_app_protos p)); ("states_observed", strs (states_observed p));
  ("src_zone", PStr (p_src_zone p)); ("dest_zone", PStr (p_dest_zone p)); ("flow_ids", ints (p_flow_ids p))].

Definition cls_dump (c : option classification) : obj :=
  match c with
  | Some c => [("label", PStr (c_label c)); ("confidence", PFloat (c_confidence c)); ("reason", PStr (c_reason c))]
  | None => []
  end.

Definition synth_signature (p : AggregatedIPPair) (score : Z) : string :=
  ("FLOW_BATCH suspect (score=" ++ str_of_Z score ++ ") " ++ str_or (p_src_zone p) "?" ++ "→"
   ++ str_or (p_dest_zone p) "?" ++ " " ++ p_src_ip p ++ "→" ++ p_dest_ip p
   ++ " flows=" ++ str_of_Z (flow_count p) ++ " unique_ports=" ++ str_of_Z (unique_dst_port_count p)
   ++ " bytes_to_server=" ++ str_of_Z (bytes_toserver_sum p)
   ++ " bytes_to_client=" ++ str_of_Z (bytes_toclient_sum p))%string.

Definition build_synthetic_alert (p : AggregatedIPPair) (score : Z) (cls : option classification)
    : SuricataAlert :=
  let label := match cls with Some c => c_label c | None => "" end in
  let proto := if udp_flow_count p <=? tcp_flow_count p then "tcp" else "udp" in
  let blob : obj := [
    ("signature_id", PInt (synth_sid score)); ("signature", PStr (synth_signature p score));
    ("severity", PInt (synth_severity score label)); ("category", PStr "flow-batch-anomaly");
    ("flow_features", PDict (pair_dump p)); ("suspect_score", PInt score);
    ("llama_classification", PDict (cls_dump cls))] in
  mkAlert (p_window_end p) (p_src_ip p) (p_dest_ip p) 0 (first_port p) proto blob [
    ("event_type", PStr "flow_batch"); ("src_ip", PStr (p_src_ip p)); ("dest_ip", PStr (p_dest_ip p));
    ("dest_port", PInt (first_port p)); ("proto", PStr proto); ("alert", PDict blob);
    ("flow_window", PDict [("start", PStr (p_window_start p)); ("end", PStr (p_window_end p))]);
    ("flow_features", PDict (pair_dump p))].

Definition suspects := list (string * (AggregatedIPPair * Z)).
Definition llama_suspects_t := list (string * (AggregatedIPPair * classification)).

(** The dict comprehension over the scored pairs. *)
Definition heuristic_suspects (threshold : Z) (pairs : list AggregatedIPPair) : suspects :=
  foldl (fun d p => let s := suspect_score p in
    if threshold <=? s then dict_set d (pair_key p) (p, s) else d) [] pairs.

Definition llama_suspects (results : list (string * classification)) (pairs : list AggregatedIPPair)
    : llama_suspects_t :=
  foldl (fun d p =>
    match dict_get results (pair_key p) with
    | Some c => if starts_with "SUSPECT" (c_label c) then dict_set d (pair_key p) (p, c) else d
    | None => d
    end) [] pairs.

(** One entry of the window summary. *)
Definition pair_summary (results : list (string * classification)) (heur : suspects) (p : AggregatedIPPair) : pyval :=
  let pid := pair_key p in
  let cls := dict_get results pid in
  PDict [("pair", PStr pid); ("src_zone", PStr (p_src_zone p)); ("dst_zone", PStr (p_dest_zone p));
    ("flow_count", PInt (flow_count p)); ("bytes_to_server", PInt (bytes_toserver_sum p));
    ("bytes_to_client", PInt (bytes_toclient_sum p));
    ("heuristic_score", PInt (match dict_get heur pid with Some x => x.2 | None => 0 end));
    ("llama_label", PStr (match cls with Some c => c_label c | None => "—" end));
    ("llama_confidence", match cls with Some c => PFloat (c_confidence c) | None => PNone end);
    ("llama_reason", PStr (match cls with Some c => c_reason c | None => "" end))].

Definition stats_dump (s : window_stats) : obj := [
  ("flows_in_window", PInt (flows_in_window s)); ("ip_pairs_total", PInt (ip_pairs_total s));
  ("ip_pairs_suspect_heuristic", PInt (ip_pairs_suspect_heuristic s));
  ("ip_pairs_suspect_llama", PInt (ip_pairs_suspect_llama s)); ("ip_pairs_suspect", PInt (ip_pairs_suspect s));
  ("dispatched", PInt (dispatched s)); ("agent_calls_skipped", PInt (agent_calls_skipped s));
  ("llama_called", PBool (llama_called s)); ("window_end", PStr (window_end s))].

Definition window_summary (ws we : string) (pairs : list AggregatedIPPair)
    (results : list (string * classification)) (heur : suspects) (skipped : bool) (st : window_stats) : obj := [
  ("event_type", PStr "window_summary"); ("timestamp", PStr we); ("window_start", PStr ws);
  ("window_end", PStr we); ("skipped_by_toggle", PBool skipped); ("stats", PDict (stats_dump st));
  ("pairs", PList (map (pair_summary results heur) pairs))].

(** What the handling of one window does: the statistics it leaves, the summary it
    publishes, the alerts it hands to the callback, in order, and whether it
    called the classifier. *)
Record window_effect := Effect {
  ef_stats : option window_stats; ef_summary : option obj;
  ef_alerts : list SuricataAlert; ef_llm_calls : nat }.

Section Dispatcher.
Context `{External} `{PyRepr} `{RedisServer}.
Context (json_loads : string -> option pyval) (literal_eval : string -> res pyval).
(** The iteration order of a set of keys; whether the alert callback raises. *)
Context (set_order : list string -> list string) (callback_raises : SuricataAlert -> bool).
Context (ip_to_zone : option (string -> option string)) (threshold : Z).
(** The answer of the classifier's LLM, when one is wired in. *)
Context (fast_llm : option (res pyval)).

Definition union_keys (h : suspects) (l : llama_suspects_t) : list string :=
  remove_dups (h.*1 ++ l.*1).

(** The pair, the heuristic score and the label used for a key of the union. *)
Definition synth_for (h : suspects) (l : llama_suspects_t) (pid : string) : option SuricataAlert :=
  let pair := match dict_get h pid with Some x => Some x.1 | None => fst <$> dict_get l pid end in
  let score := match dict_get h pid with Some x => x.2 | None => 0 end in
  (fun p => build_synthetic_alert p score (snd <$> dict_get l pid)) <$> pair.

Definition on_window_close (flows : list SuricataFlowEvent) (ws we : string) (r : option redis) (now : Z)
    : res window_effect :=
  match flows with
  | [] => Ok (Effect None None [] 0)
  | _ =>
      let* aggregated := aggregate_flows ip_to_zone flows ws we in
      let heur := heuristic_suspects threshold aggregated in
      let n_heur := Z.of_nat (length heur) in
      let base llama susp disp skip called :=
        Stats (Z.of_nat (length flows)) (Z.of_nat (length aggregated)) n_heur llama susp disp skip called we in
      if negb (trigger_enabled r now) then
        let st := base 0 0 0 n_heur false in
        Ok (Effect (Some st) (Some (window_summary ws we aggregated [] heur true st)) [] 0)
      else
        let* results := match fast_llm, aggregated with
                        | Some answer, _ :: _ => classify_batch json_loads literal_eval answer aggregated
                        | _, _ => Ok []
                        end in
        let calls := match fast_llm, aggregated with Some _, _ :: _ => 1%nat | _, _ => 0%nat end in
        let called := match results with [] => false | _ => true end in
        let llama := llama_suspects results aggregated in
        let keys := union_keys heur llama in
        let n_llama := Z.of_nat (length llama) in
        let n_union := Z.of_nat (length keys) in
        match keys with
        | [] =>
            let st := base n_llama n_union 0 0 called in
            Ok (Effect (Some st) (Some (window_summary ws we aggregated results heur false st)) [] calls)
        | _ =>
            let alerts := omap (synth_for heur llama) (set_order keys) in
            let done := Z.of_nat (length (filter (fun a => callback_raises a = false) alerts)) in
            let st := base n_llama n_union done 0 called in
            Ok (Effect (Some st) (Some (window_summary ws we aggregated results heur false st)) alerts calls)
        end
  end.
End Dispatcher.

(** ** Lemmas *)
Lemma fold_suspects_keys {V} (f : AggregatedIPPair -> option V) (pairs : list AggregatedIPPair) :
  let d := foldl (fun d p => match f p with Some v => dict_set d (pair_key p) v | None => d end) [] pairs in
  NoDup d.*1 /\
  (forall k v, dict_get d k = Some v -> exists p, p ∈ pairs /\ pair_key p = k /\ f p = Some v) /\
  (forall p, p ∈ pairs -> is_Some (f p) -> is_Some (dict_get d (pair_key p))).
Proof.
  cbn. induction pairs as [|p pairs (Hn & Hg & Hc)] using rev_ind.
  - split_and!; [constructor|done|set_solver].
  - rewrite foldl_app. cbn. set (d := foldl _ [] pairs) in *. destruct (f p) as [v|] eqn:E.
    + split_and!; [by apply dict_set_NoDup| |].
      * intros k w. rewrite dict_get_set. case_decide as Hk.
        -- intros; simplify_eq. exists p. split_and!; [set_solver|done..].
        -- intros Hw. destruct (Hg _ _ Hw) as (q & ? & ? & ?). exists q. split_and!; [set_solver|done..].
      * intros q Hq Hs. rewrite dict_get_set. case_decide as Hk; [done|].
        apply elem_of_app in Hq as [Hq|Hq%list_elem_of_singleton]; [auto|]. by subst.
    + split_and!; [done| |].
      * intros k w Hw. destruct (Hg _ _ Hw) as (q & ? & ? & ?). exists q. split_and!; [set_solver|done..].
      * intros q Hq Hs. apply elem_of_app in Hq as [Hq|Hq%list_elem_of_singleton]; [auto|].
        subst. rewrite E in Hs. by destruct Hs.
Qed.

Lemma heuristic_suspects_eq threshold pairs :
  heuristic_suspects threshold pairs =
  foldl (fun d p => match (if threshold <=? suspect_score p then Some (p, suspect_score p) else None) with
                    | Some v => dict_set d (pair_key p) v | None => d end) [] pairs.
Proof.
  unfold heuristic_suspects. generalize (@nil (string * (AggregatedIPPair * Z))).
  induction pairs as [|p pairs IH]; intros d; [done|]. cbn. rewrite IH.
  by destruct (threshold <=? suspect_score p).
Qed.

Lemma llama_suspects_eq results pairs :
  llama_suspects results pairs =
  foldl (fun d p => match (match dict_get results (pair_key p) with
                           | Some c => if starts_with "SUSPECT" (c_label c) then Some (p, c) else None
                           | None => None end) with
                    | Some v => dict_set d (pair_key p) v | None => d end) [] pairs.
Proof.
  unfold llama_suspects. generalize (@nil (string * (AggregatedIPPair * classification))).
  induction pairs as [|p pairs IH]; intros d; [done|]. cbn [foldl]. rewrite IH.
  destruct (dict_get results (pair_key p)) as [c|]; [|done]. by destruct (starts_with "SUSPECT" (c_label c)).
Qed.

Lemma key_in_union h l k : k ∈ union_keys h l <-> is_Some (dict_get h k) \/ is_Some (dict_get l k).
Proof.
  unfold union_keys. rewrite elem_of_remove_dups, elem_of_app.
  assert (Hd : forall V (d : list (string * V)), k ∈ d.*1 <-> is_Some (dict_get d k)).
  { intros V d. destruct (dict_get d k) as [v|] eqn:E.
    - split; [eauto|]. intros _. apply dict_get_elem in E. apply list_elem_of_fmap. by exists (k, v).
    - apply dict_get_None in E. split; [done|]. by intros [? ?]. }
  by rewrite !Hd.
Qed.

Lemma synth_for_union h l k : k ∈ union_keys h l -> is_Some (synth_for h l k).
Proof.
  rewrite key_in_union. unfold synth_for. intros [[x ->]|[x Hx]]; [done|].
  destruct (dict_get h k); [done|]. by rewrite Hx.
Qed.

Lemma omap_all_Some {A B} (f : A -> option B) (l : list A) :
  Forall (fun x => is_Some (f x)) l -> Forall2 (fun x y => f x = Some y) l (omap f l).
Proof. induction 1 as [|x l [y Hy] _ IH]; cbn; [constructor|]. rewrite Hy. by constructor. Qed.

(** ** Properties *)
(** with the trigger off a window costs no LLM call and dispatches nothing; with
    it on there is at most one classifier call, every pair whose score reaches
    the threshold is dispatched, and the alerts are exactly the synthetic
    alerts of the distinct suspect keys, one per key, in some order. *)
Theorem window_dispatch `{External} `{PyRepr} `{RedisServer} json lit order raises zone threshold llm
    flows ws we r now ef :
  (forall l, order l ≡ₚ l) ->
  on_window_close json lit order raises zone threshold llm flows ws we r now = Ok ef ->
  (trigger_enabled r now = false -> ef_alerts ef = [] /\ ef_llm_calls ef = 0%nat) /\
  (ef_llm_calls ef <= 1)%nat /\
  (trigger_enabled r now = true -> flows <> [] ->
   exists aggs h l keys, aggregate_flows zone flows ws we = Ok aggs /\
     h = heuristic_suspects threshold aggs /\
     keys ≡ₚ union_keys h l /\ Forall2 (fun k a => synth_for h l k = Some a) keys (ef_alerts ef) /\
     (forall p, p ∈ aggs -> threshold <= suspect_score p -> pair_key p ∈ keys)).
Proof.
  intros Hord. unfold on_window_close. destruct flows as [|f flows]; [intros; simplify_eq; cbn; split_and!; [done|lia|done]|].
  remember (f :: flows) as fs. destruct (aggregate_flows zone fs ws we) as [aggs|] eqn:Ea; cbn [rbind]; [|done].
  destruct (trigger_enabled r now); cbn [negb]; [|intros; simplify_eq; cbn; split_and!; [done|lia|done]].
  set (res_ := match llm, aggs with Some a, _ :: _ => _ | _, _ => _ end).
  destruct res_ as [results|]; cbn [rbind]; [|done].
  set (calls := match llm, aggs with Some _, _ :: _ => 1%nat | _, _ => 0%nat end).
  assert (Hcalls : (calls <= 1)%nat) by (unfold calls; destruct llm, aggs; lia).
  set (h := heuristic_suspects threshold aggs). set (l := llama_suspects results aggs).
  assert (Hheur : forall p, p ∈ aggs -> threshold <= suspect_score p -> pair_key p ∈ union_keys h l).
  { intros p Hp Hs. apply key_in_union. left. unfold h. rewrite heuristic_suspects_eq.
    apply (fold_suspects_keys (fun p => if threshold <=? suspect_score p then Some (p, suspect_score p) else None)); [done|].
    destruct (Z.leb_spec threshold (suspect_score p)); [eauto|lia]. }
  destruct (union_keys h l) as [|k ks] eqn:Ek; intros; simplify_eq; (split; [done|split; [exact Hcalls|]]);
    intros _ _; exists aggs, h, l; [exists []|exists (order (k :: ks))];
    (split; [done|split; [done|split; [rewrite Ek|split]]]).
  - done.
  - constructor.
  - exact Hheur.
  - apply Hord.
  - apply omap_all_Some, Forall_forall. intros x Hx. rewrite Hord, <- Ek in Hx. by apply synth_for_union.
  - intros p Hp Hs. rewrite Hord. auto.
Qed.

(** The severity of a synthetic alert is between 1 and 4, its SID lies in the
    reserved range for every score the heuristic gives, and a pair suspected by
    the heuristic alone with a score of 2 or 3 - at or above the dispatch
    threshold - is turned away by the gate's default minimum severity. *)
Theorem synthetic_alert_gate `{RedisServer} pair score cls now s :
  let a := build_synthetic_alert pair score cls in
  (exists sev, severity a = Ok sev /\ 1 <= sev <= 4) /\
  (0 <= score -> sid a = Ok (synth_sid score) /\ 9900000 <= synth_sid score <= 9900099) /\
  (cls = None -> 2 <= score <= 3 ->
   should_process default_gate now a s = Ok (Some (LowSeverity 3 2), s)).
Proof.
  cbn zeta. split_and!.
  - exists (synth_severity score (match cls with Some c => c_label c | None => "" end)).
    split; [done|]. unfold synth_severity. repeat case_match; lia.
  - intros Hs. split; [done|]. unfold synth_sid. lia.
  - intros -> Hs. unfold should_process, severity_filter.
    replace (severity (build_synthetic_alert pair score None)) with (Ok 3); [done|].
    unfold severity. cbn. unfold synth_severity.
    destruct (Z.leb_spec 6 score), (Z.leb_spec 4 score), (Z.leb_spec 2 score); try lia. done.
Qed.

Definition sample_flow (src dst : string) (port : Z) : SuricataFlowEvent :=
  mkFlow "" 1 "" src 40000 dst port "tcp" "" [("bytes_toserver", PInt 100)] [] [].

Definition sample_window : res window_effect :=
  on_window_close (H := external0) (H0 := fun _ => "") (H1 := redis0)
    (fun _ => None) (fun _ => Raise (ValueError "")) (fun l => l) (fun _ => false) (Some ip_to_zone) 2 None
    [sample_flow "10.1.100.10" "10.1.200.10" 22; sample_flow "10.1.100.10" "10.1.200.10" 22;
     sample_flow "10.1.100.10" "10.2.100.10" 8080] "t0" "t1" None 0.

Definition sample_effect : window_effect :=
  match sample_window with Ok e => e | Raise _ => Effect None None [] 0 end.

Lemma window_dispatch_witness :
  map al_dest_ip (ef_alerts sample_effect) = ["10.1.200.10"] /\ (ef_llm_calls sample_effect <= 1)%nat.
Proof.
  split; [vm_compute; reflexivity|].
  apply (@window_dispatch external0 (fun _ => "") redis0 (fun _ => None) (fun _ => Raise (ValueError ""))
    (fun l => l) (fun _ => false) (Some ip_to_zone) 2 None
    [sample_flow "10.1.100.10" "10.1.200.10" 22; sample_flow "10.1.100.10" "10.1.200.10" 22;
     sample_flow "10.1.100.10" "10.2.100.10" 8080] "t0" "t1" None 0).
  - reflexivity.
  - vm_compute. reflexivity.
Defined.
