(* ===== verification/Consumer.v ===== *)
(** * The SSE consumer (pipeline/consumer.py)

    The handling of one line of the event stream, of a whole connection, the
    reconnection delays and the polling fallback.  What the consumer does to its
    collaborators is a list of actions; [json.loads], the trigger flag at each
    alert and the order of a set are parameters. *)
From S2P Require Import Prelude PyVal Models Flow.
Local Open Scope string_scope.
Local Open Scope Z_scope.
Local Open Scope list_scope.

Inductive action :=
  | StoreFlow (d : obj) | StoreViolation (d : obj) | WindowPush (f : SuricataFlowEvent)
  | OnAlert (a : SuricataAlert).

Definition HANDSHAKE_TYPES : list string := ["connected"; "heartbeat"].

Record consumer_config := ConsumerConfig {
  has_events_store : bool; has_flow_window : bool;
  reconnect_delay_base : Z; reconnect_delay_max : Z (* nanoseconds *) }.

Definition default_consumer : consumer_config := ConsumerConfig true true (3 * SEC) (60 * SEC).

Section Consumer.
Context `{External} (cfg : consumer_config) (json_loads : string -> option pyval).

(** [data.get("type") in _HANDSHAKE_TYPES]: a list or an object is unhashable. *)
Definition is_handshake (v : pyval) : res bool :=
  match v with
  | PStr s => Ok (bool_decide (s ∈ HANDSHAKE_TYPES))
  | PList _ | PDict _ => Raise (TypeError "unhashable type")
  | _ => Ok false
  end.

(** The mirror to the store and the push to the window buffer; exceptions are logged. *)
Definition flow_actions (d : obj) : list action :=
  (if has_events_store cfg then [StoreFlow d] else []) ++
  (if has_flow_window cfg then match flow_from_raw d with Ok f => [WindowPush f] | Raise _ => [] end else []).

(** An alert record: mirrored first, then built, then dispatched when the trigger
    is on.  When it is off the log call reads [alert.signature_id], an attribute
    the model class does not have. *)
Definition alert_actions (d : obj) (trigger : bool) : list action * option exn :=
  let mirror := if has_events_store cfg then [StoreViolation d] else [] in
  match alert_from_raw d with
  | Raise e => (mirror, Some e)
  | Ok alert =>
      if trigger then (mirror ++ [OnAlert alert], None)
      else (mirror, Some (AttributeError "signature_id"))
  end.

(** One iteration of the loop over the lines. *)
Definition process_line (line : string) (trigger : bool) : list action * option exn :=
  if negb (starts_with "data: " line) then ([], None) else
  let payload := py_strip (py_drop 6 line) in
  if negb (nonempty payload) then ([], None) else
  match json_loads payload with
  | None => ([], None)
  | Some (PDict data) =>
      match is_handshake (jget data "type") with
      | Raise e => ([], Some e)
      | Ok true => ([], None)
      | Ok false =>
          if bool_decide (jget data "event_type" = PStr "flow") then (flow_actions data, None)
          else if negb (dict_mem data "alert") || negb (dict_mem data "src_ip") then ([], None)
          else alert_actions data trigger
      end
  | Some _ => ([], Some (AttributeError "get"))
  end.

(** [_consume]: the lines of a connection with the flag at each; an exception
    that no handler catches ends the connection. *)
Fixpoint consume (lines : list (string * bool)) : list action * option exn :=
  match lines with
  | [] => ([], None)
  | (line, trigger) :: rest =>
      match process_line line trigger with
      | (acts, Some e) => (acts, Some e)
      | (acts, None) => let '(more, e) := consume rest in (acts ++ more, e)
      end
  end.

(** [_run_loop]: the delays slept after each connection, a normal end ([true])
    or an exception ([false]). *)
Fixpoint run_loop (ends : list bool) (delay : Z) : list Z :=
  match ends with
  | [] => []
  | ok :: rest =>
      let delay := if ok : bool then reconnect_delay_base cfg else delay in
      delay :: run_loop rest (Z.min (delay * 2) (reconnect_delay_max cfg))
  end.

(** ** The polling fallback *)
Context `{PyRepr} (set_order : gset string -> list string).

(** [set(list(seen)[-250:])]: which keys remain depends on the set's order. *)
Definition trim (seen : gset string) : gset string :=
  let l := set_order seen in list_to_set (drop (length l - 250) l).

(** The dedup key of a polled flow. *)
Definition poll_key (f : obj) : string :=
  (py_str (jget_or f "timestamp" (PStr "")) ++ "|" ++ py_str (jget_or f "src_ip" (PStr "")) ++ "|"
   ++ py_str (jget_or f "src_port" (PStr "")) ++ "|" ++ py_str (jget_or f "dest_ip" (PStr "")) ++ "|"
   ++ py_str (jget_or f "dest_port" (PStr "")))%string.

(** The ring after a key is added: when it exceeds 500 keys, 250 of them are kept. *)
Definition seen_add (seen : gset string) (k : string) : gset string :=
  let seen := {[k]} ∪ seen in
  if (500 <? size seen)%nat then trim seen else seen.

Fixpoint ingest_loop (flows : list pyval) (seen : gset string) : list action * gset string :=
  match flows with
  | [] => ([], seen)
  | PDict f :: rest =>
      if bool_decide (poll_key f ∈ seen) then ingest_loop rest seen
      else
        let '(acts, seen') := ingest_loop rest (seen_add seen (poll_key f)) in
        (flow_actions f ++ acts, seen')
  | _ :: rest => ingest_loop rest seen
  end.

Definition ingest_flow_batch (flows : list pyval) (seen : gset string) : list action * gset string :=
  if negb (has_events_store cfg) && negb (has_flow_window cfg) then ([], seen)
  else ingest_loop flows seen.
End Consumer.

(** ** Lemmas *)
Lemma consume_app `{External} cfg js l1 l2 :
  (consume cfg js l1).2 = None ->
  consume cfg js (l1 ++ l2) =
    ((consume cfg js l1).1 ++ (consume cfg js l2).1, (consume cfg js l2).2).
Proof.
  induction l1 as [|[line tr] l1 IH]; cbn; [by destruct (consume cfg js l2)|].
  destruct (process_line cfg js line tr) as [acts [e|]]; [done|].
  destruct (consume cfg js l1) as [more e]. cbn in *. intros ->. rewrite IH by done. cbn. by rewrite app_assoc.
Qed.

Lemma run_loop_bounds cfg ends : 0 <= reconnect_delay_base cfg <= reconnect_delay_max cfg ->
  forall d, reconnect_delay_base cfg <= d <= reconnect_delay_max cfg ->
  Forall (fun x => reconnect_delay_base cfg <= x <= reconnect_delay_max cfg) (run_loop cfg ends d).
Proof.
  intros Hb. induction ends as [|ok ends IH]; intros d Hd; cbn; constructor.
  - destruct ok; lia.
  - apply IH. destruct ok; lia.
Qed.

(** Trimming keeps a part of the set, of exactly 250 keys when there are as many. *)
Lemma trim_spec set_order s : (forall s, set_order s ≡ₚ elements s) ->
  trim set_order s ⊆ s /\ size (trim set_order s) = Nat.min 250 (size s).
Proof.
  intros Hp. unfold trim. pose proof (Hp s) as Hs. set (l := set_order s) in *.
  assert (Hd : NoDup (drop (length l - 250) l)).
  { assert (Hl : NoDup l) by (rewrite Hs; apply NoDup_elements).
    rewrite <- (take_drop (length l - 250) l), NoDup_app in Hl. tauto. }
  split.
  - intros x Hx%elem_of_list_to_set. apply elem_of_elements. rewrite <- Hs.
    rewrite <- (take_drop (length l - 250) l), elem_of_app. by right.
  - rewrite size_list_to_set by done. rewrite length_drop.
    assert (length l = size s) as -> by (rewrite Hs; done). lia.
Qed.

Lemma ingest_size `{External} cfg `{PyRepr} set_order flows :
  (forall s, set_order s ≡ₚ elements s) -> forall seen, (size seen <= 500)%nat -> (size (ingest_loop cfg set_order flows seen).2 <= 500)%nat.
Proof.
  intros Ht. induction flows as [|f flows IH]; intros seen Hs; cbn; [done|].
  destruct f; try (by apply IH). case_bool_decide; [by apply IH|].
  destruct (ingest_loop cfg set_order flows (seen_add set_order seen (poll_key d))) as [acts s'] eqn:E. cbn.
  change s' with (acts, s').2. rewrite <- E. apply IH. unfold seen_add.
  assert (size ({[poll_key d]} ∪ seen) <= 501)%nat.
  { rewrite size_union by set_solver. rewrite size_singleton. lia. }
  destruct (Nat.ltb_spec 500 (size ({[poll_key d]} ∪ seen))); [|lia].
  destruct (trim_spec set_order ({[poll_key d]} ∪ seen) Ht) as [_ ->]. lia.
Qed.

(** ** Properties *)
(** An alert that arrives while the trigger is off ends the connection: it
    is mirrored to the store, then an [AttributeError] escapes, and no later
    line of the connection is processed - although switching the trigger off is
    meant to pause the dispatch only. *)
Theorem trigger_off_drops_connection `{External} cfg js line data alert rest :
  starts_with "data: " line = true -> nonempty (py_strip (py_drop 6 line)) = true ->
  js (py_strip (py_drop 6 line)) = Some (PDict data) ->
  is_handshake (jget data "type") = Ok false -> jget data "event_type" <> PStr "flow" ->
  dict_mem data "alert" = true -> alert_from_raw data = Ok alert -> dict_mem data "src_ip" = true ->
  consume cfg js ((line, false) :: rest) =
    (if has_events_store cfg then [StoreViolation data] else [], Some (AttributeError "signature_id")) /\
  consume cfg js ((line, true) :: rest) =
    ((if has_events_store cfg then [StoreViolation data] else []) ++ OnAlert alert :: (consume cfg js rest).1,
     (consume cfg js rest).2).
Proof.
  intros H1 H2 H3 H4 H5 H6 H7 H8. cbn. unfold process_line, alert_actions.
  rewrite H1, H2, H3, H4, H6, H7, H8, bool_decide_eq_false_2 by done. cbn.
  split; [done|]. destruct (consume cfg js rest). cbn. by rewrite <- app_assoc.
Qed.

Lemma trigger_off_drops_connection_witness :
  let js (s : string) := Some (PDict [("alert", PDict []); ("src_ip", PStr "10.1.100.10")]) in
  consume (H := external0) default_consumer js [("data: x", false); ("data: x", true)] =
    ([StoreViolation [("alert", PDict []); ("src_ip", PStr "10.1.100.10")]], Some (AttributeError "signature_id")).
Proof.
  cbv zeta.
  apply (trigger_off_drops_connection (H := external0) default_consumer
    (fun _ => Some (PDict [("alert", PDict []); ("src_ip", PStr "10.1.100.10")])) "data: x"
    [("alert", PDict []); ("src_ip", PStr "10.1.100.10")]
    (mkAlert "" "10.1.100.10" "" 0 0 "tcp" [] [("alert", PDict []); ("src_ip", PStr "10.1.100.10")])
    [("data: x", true)]); done.
Defined.

(** Every reconnection delay stays between the base and the maximum
    whatever the outcomes of the connections, and the ring of polled flow keys
    never holds more than 500 keys after any batch. *)
Theorem consumer_bounds `{External} cfg `{PyRepr} set_order ends flows seen :
  0 <= reconnect_delay_base cfg <= reconnect_delay_max cfg ->
  (forall s, set_order s ≡ₚ elements s) ->
  (size seen <= 500)%nat ->
  Forall (fun x => reconnect_delay_base cfg <= x <= reconnect_delay_max cfg)
    (run_loop cfg ends (reconnect_delay_base cfg)) /\
  (size (ingest_flow_batch cfg set_order flows seen).2 <= 500)%nat.
Proof.
  intros Hb Ht Hs. split; [apply run_loop_bounds; lia|].
  unfold ingest_flow_batch. case_match; [done|]. by apply ingest_size.
Qed.

Lemma consumer_bounds_witness :
  run_loop default_consumer [false; false; true; false] (3 * SEC) = [3 * SEC; 6 * SEC; 3 * SEC; 6 * SEC] /\
  Forall (fun x => 3 * SEC <= x <= 60 * SEC) (run_loop default_consumer [false; false; true; false] (3 * SEC)) /\
  (size (ingest_flow_batch (H := external0) default_consumer (H0 := fun _ => "") elements [PDict []] ∅).2 <= 500)%nat.
Proof.
  split; [vm_compute; reflexivity|].
  apply (@consumer_bounds external0 default_consumer (fun _ => "") elements [false; false; true; false] [PDict []] ∅).
  - cbn. unfold SEC. lia.
  - done.
  - rewrite size_empty. lia.
Defined.
