(* ===== verification/IdsApi.v ===== *)
(** * The alert API beside the IDS (ids-vm/ids-api.py)

    The tail of Suricata's log, the two rings, the SSE streams with their queues
    and the GET routes.  A stream's handler runs in its own thread: a broadcast, a
    subscription and a round of a stream are atomic steps in any order.  A poll of
    the log sees the file's inode, size and bytes; positions are bytes, and texts
    are free of carriage returns.  The date parser and the clock are parameters. *)
From S2P Require Import Prelude PyVal Json JsonLoads Models Flow Consumer.
Local Open Scope string_scope.
Local Open Scope Z_scope.
Local Open Scope list_scope.

Definition RING_ALERTS : nat := 2000.
Definition RING_FLOWS : nat := 2000.
Definition SSE_MAX_CLIENTS : nat := 8.
Definition SSE_QUEUE_SIZE : nat := 256.

Record ids_state := Ids {
  ring_alerts : list pyval; ring_flows : list pyval;
  sse_clients : list nat;
  queues : gmap nat (list string) (* of every open stream, subscribed or not *);
  next_stream : nat }.
Definition ids0 : ids_state := Ids [] [] [] ∅ 0.

Definition set_alerts l s := Ids l (ring_flows s) (sse_clients s) (queues s) (next_stream s).
Definition set_flows l s := Ids (ring_alerts s) l (sse_clients s) (queues s) (next_stream s).
Definition set_streams cs qs s := Ids (ring_alerts s) (ring_flows s) cs qs (next_stream s).

Definition str_ltb (a b : string) : bool := negb (str_leb b a).

Section Ids.
Context `{PyRepr} (json_loads : string -> option pyval).

(** ** Broadcast *)
Definition sse_message (ev : pyval) : string := ("data: " ++ json_dumps false ev ++ chr 10 ++ chr 10)%string.

Definition queue_full (q : list string) : bool := (SSE_QUEUE_SIZE <=? length q)%nat.
(** The clients whose queue is full. *)
Definition is_dead (qs : gmap nat (list string)) (id : nat) : Prop :=
  match qs !! id with Some q => queue_full q = true | None => False end.
#[export] Instance is_dead_dec qs id : Decision (is_dead qs id).
Proof. unfold is_dead. destruct (qs !! id); apply _. Defined.

Definition put_nowait (msg : string) (q : list string) : list string := if queue_full q then q else q ++ [msg].
Definition broadcast (msg : string) (s : ids_state) : ids_state :=
  set_streams (filter (fun id => ~ is_dead (queues s) id) (sse_clients s))
    (foldl (fun qs id => alter (put_nowait msg) id qs) (queues s) (sse_clients s)) s.

(** ** The log *)
(** One line; [false] is the exception of a value without [get]. *)
Definition process_line (line : string) (s : ids_state) : ids_state * bool :=
  let line := py_strip line in
  if negb (nonempty line) then (s, true) else
  match json_loads line with
  | None => (s, true)
  | Some (PDict ev) =>
      if bool_decide (jget ev "event_type" = PStr "alert") then
        (broadcast (sse_message (PDict ev)) (set_alerts (deque_append RING_ALERTS (ring_alerts s) (PDict ev)) s), true)
      else if bool_decide (jget ev "event_type" = PStr "flow") then
        (set_flows (deque_append RING_FLOWS (ring_flows s) (PDict ev)) s, true)
      else (s, true)
  | Some _ => (s, false)
  end.

(** [readline] until the end: the lines with their line ends. *)
Fixpoint lines_of (s : string) : list string :=
  match s with
  | EmptyString => []
  | String c s' =>
      if code_z c =? 10 then String c "" :: lines_of s'
      else match lines_of s' with [] => [String c ""] | l :: ls => String c l :: ls end
  end.
Fixpoint seek (n : nat) (s : string) : string :=
  match n, s with S n, String _ s' => seek n s' | _, _ => s end.

Fixpoint read_loop (ls : list string) (pos : nat) (s : ids_state) : nat * ids_state :=
  match ls with
  | [] => (pos, s)
  | l :: ls' =>
      let pos := (pos + py_len l)%nat in
      let '(s, ok) := process_line l s in
      if ok : bool then read_loop ls' pos s else (pos, s)
  end.

Record tail_state := Tail { t_inode : option Z; t_pos : nat; t_file : option bool (* open, or closed *) }.
Definition tail0 : tail_state := Tail None 0 None.

Inductive poll := Missing | Present (inode : Z) (size : nat) (content : string) (openable : bool).

(** One round of [tail_loop]. *)
Definition tail_poll (p : poll) (ts : tail_state * ids_state) : tail_state * ids_state :=
  let '(t, s) := ts in
  let read t content := let '(pos, s) := read_loop (lines_of (seek (t_pos t) content)) (t_pos t) s in
                        (Tail (t_inode t) pos (t_file t), s) in
  match p with
  | Missing => (t, s)
  | Present inode size content openable =>
      if bool_decide (t_inode t <> Some inode) || bool_decide (t_file t = None) || (size <? t_pos t)%nat then
        if openable then read (Tail (Some inode) 0 (Some true)) content
        else (Tail (t_inode t) (t_pos t) (match t_file t with Some _ => Some false | None => None end), s)
      else if bool_decide (t_file t = Some true) then read t content
      else (t, s) (* [seek] on the closed file raises *)
  end.

(** ** Streams *)
Inductive sse_out := Connected | Msg (m : string) | Heartbeat | Busy.

Definition unsubscribe (id : nat) (s : ids_state) : ids_state :=
  set_streams (filter (fun c => c <> id) (sse_clients s)) (delete id (queues s)) s.

(** [_stream]: the subscription and its greeting.  A greeting that cannot be written ends
    the stream. *)
Definition subscribe (greeted : bool) (s : ids_state) : ids_state * list (nat * sse_out) :=
  if (SSE_MAX_CLIENTS <=? length (sse_clients s))%nat then (s, [(next_stream s, Busy)]) else
  let id := next_stream s in
  let s := Ids (ring_alerts s) (ring_flows s) (sse_clients s ++ [id]) (<[id := []]> (queues s)) (S id) in
  if greeted then (s, [(id, Connected)]) else (unsubscribe id s, []).

(** One round of a stream's loop. *)
Definition stream_round (id : nat) (written : bool) (s : ids_state) : ids_state * list (nat * sse_out) :=
  match queues s !! id with
  | None => (s, [])
  | Some q =>
      let out := match q with m :: _ => Msg m | [] => Heartbeat end in
      if written then (set_streams (sse_clients s) (<[id := tail q]> (queues s)) s, [(id, out)])
      else (unsubscribe id s, [])
  end.

(** ** Queries *)
(** [data[-n:]] *)
Definition slice_last {A} (n : Z) (l : list A) : list A :=
  if 0 <? n then last_n (Z.to_nat n) l else drop (Z.to_nat (- n)) l.

(** [a.get("timestamp", "") > since] *)
Definition newer (since : string) (a : pyval) : res bool :=
  let* ts := get_of a "timestamp" (PStr "") in
  match ts with PStr t => Ok (str_ltb since t) | _ => Raise (TypeError "'>' not supported") end.
Fixpoint filter_since (since : string) (l : list pyval) : res (list pyval) :=
  match l with
  | [] => Ok []
  | a :: l' =>
      let* keep := newer since a in
      let* rest := filter_since since l' in
      Ok (if keep : bool then a :: rest else rest)
  end.
(** A missing parameter is the empty text, a missing [last] 0. *)
Definition since_or_all (since : string) (l : list pyval) : res (list pyval) :=
  if nonempty since then filter_since since l else Ok l.

Definition get_alerts (last : Z) (since : string) (s : ids_state) : res (list pyval) :=
  let* data := since_or_all since (ring_alerts s) in
  Ok (if last =? 0 then data else slice_last last data).
Definition get_flows (last : Z) (since : string) (s : ids_state) : res (list pyval) :=
  let last := Z.min last 500 in
  let* data := since_or_all since (ring_flows s) in
  Ok (slice_last last data).

(** ** Service health *)
Definition SERVICES : list (string * string * Z * string) := [
  ("nginx:80", "10.1.100.10", 80, "WEB"); ("db-mock:5432", "10.1.200.10", 5432, "DB");
  ("python:8080", "10.2.100.10", 8080, "APP"); ("sshd:22", "10.2.50.10", 22, "MGT")].

(** [_ts_to_epoch], in seconds: 0 for anything that is no date. *)
Context (strptime : string -> option Z).
Definition ts_to_epoch (v : pyval) : Z :=
  match v with PStr t => if nonempty t then default 0 (strptime (py_take 19 t)) else 0 | _ => 0 end.

(** [v == n] *)
Definition eq_int (v : pyval) (n : Z) : bool :=
  match key_of v with Ok k => bool_decide (k = num_key (inject_Z n)) | Raise _ => false end.

(** The flow is old: it has a date, which is before the cutoff. *)
Definition too_old (now : Z (* nanoseconds *)) (ev : pyval) : res bool :=
  let* flow := get_of ev "flow" (PDict []) in
  let* fin := get_of flow "end" (PStr "") in
  let* ts := get_of ev "timestamp" (PStr "") in
  let t := ts_to_epoch (por fin ts) in
  Ok (negb (t =? 0) && (t * SEC <? now - 180 * SEC)).

Definition touches (ev : obj) (svc : string * string * Z * string) : bool :=
  let '(name, ip, port, zone) := svc in
  bool_decide (jget_or ev "dest_ip" (PStr "") = PStr ip) && eq_int (jget_or ev "dest_port" (PInt 0)) port ||
  bool_decide (jget_or ev "src_ip" (PStr "") = PStr ip).

Fixpoint seen_services (now : Z) (flows : list pyval) (seen : list string) : res (list string) :=
  match flows with
  | [] => Ok seen
  | ev :: rest =>
      let* old := too_old now ev in
      if old : bool then seen_services now rest seen else
      match ev with
      | PDict d =>
          seen_services now rest
            (seen ++ map (fun v : string * string * Z * string => v.1.1.1) (filter (fun v => touches d v = true) SERVICES))
      | _ => Raise (AttributeError "get")
      end
  end.

Definition service_health (now : Z) (s : ids_state) : res (list (string * string)) :=
  let* seen := seen_services now (ring_flows s) [] in
  Ok (map (fun v : string * string * Z * string =>
             (v.1.1.1, if bool_decide (v.1.1.1 ∈ seen) then "up" else "unknown")) SERVICES).

(** ** Routes *)
Inductive ids_response := Json200 (data : pyval) | Error500 | Stream.

(** [path.split("?")[0]] and the text after the first question mark. *)
Definition split_query (path : string) : string * string :=
  match split_on "?"%char path with [] => ("", "") | p :: rest => (p, py_join "?" rest) end.

(** [dict(p.split("=") for p in query.split("&") if "=" in p)] *)
Fixpoint query_pairs (ps : list string) (d : list (string * string)) : res (list (string * string)) :=
  match ps with
  | [] => Ok d
  | p :: ps' =>
      match split_on "="%char p with
      | [_] => query_pairs ps' d
      | [k; v] => query_pairs ps' (dict_set d k v)
      | _ => Raise (ValueError "dictionary update sequence element has length 3; 2 is required")
      end
  end.

Definition alert_sid (a : pyval) : res string :=
  let* alert := get_of a "alert" (PDict []) in
  let* sid := get_of alert "signature_id" (PStr "") in
  Ok (py_str sid).
Definition count_sids (sids : list string) : list (string * Z) :=
  foldl (fun d k => dict_set d k (default 0 (dict_get d k) + 1)) [] sids.

Definition alerts_page (qs : list (string * string)) (s : ids_state) : res pyval :=
  let last := res_or 0 (match dict_get qs "last" with Some t => py_int t | None => Ok 0 end) in
  let* alerts := get_alerts last (default "" (dict_get qs "since")) s in
  let* sids := mapM_res alert_sid alerts in
  Ok (PDict [("count", PInt (Z.of_nat (length alerts)));
             ("summary", PDict (map (fun x : string * Z => (x.1, PInt x.2)) (count_sids sids)));
             ("alerts", PList alerts)]).

Definition flows_page (qs : list (string * string)) (s : ids_state) : res pyval :=
  let last := res_or 100 (match dict_get qs "last" with Some t => py_int t | None => Ok 100 end) in
  let* flows := get_flows last (default "" (dict_get qs "since")) s in
  Ok (PList flows).

Definition health (suricata : bool) (ts : string) (uptime : Z) (s : ids_state) : pyval :=
  PDict [("status", PStr "ok"); ("suricata", PBool suricata); ("ts", PStr ts);
         ("ring_alerts", PInt (Z.of_nat (length (ring_alerts s)))); ("ring_flows", PInt (Z.of_nat (length (ring_flows s))));
         ("sse_clients", PInt (Z.of_nat (length (sse_clients s)))); ("uptime_sec", PInt uptime)].

Definition ENDPOINTS : list string := ["/health"; "/alerts"; "/alerts/clear"; "/flows"; "/stream"; "/service-health"].

Definition service_entry (statuses : list (string * string)) (svc : string * string * Z * string) : pyval :=
  let '(name, ip, port, zone) := svc in
  PDict [("name", PStr name); ("ip", PStr ip); ("port", PInt port); ("zone", PStr zone);
         ("status", PStr (default "unknown" (dict_get statuses name)))].

(** [_route] without the stream's loop: whether Suricata's pid file exists, the clock as a
    text and in nanoseconds, and the seconds since the start are given. *)
Definition route (suricata : bool) (ts : string) (now uptime : Z) (target : string) (s : ids_state) : ids_response :=
  let '(path, query) := split_query target in
  match query_pairs (split_on "&"%char query) [] with
  | Raise _ => Error500
  | Ok qs =>
      let send r := match r with Ok v => Json200 v | Raise _ => Error500 end in
      if bool_decide (path = "/stream") then Stream
      else if bool_decide (path = "/health") then Json200 (health suricata ts uptime s)
      else if bool_decide (path = "/alerts") then send (alerts_page qs s)
      else if bool_decide (path = "/alerts/clear") then Json200 (PDict [("cleared_at", PStr ts)])
      else if bool_decide (path = "/flows") then send (flows_page qs s)
      else if bool_decide (path = "/service-health") then
        send (let* statuses := service_health now s in
              Ok (PDict [("services", PList (map (service_entry statuses) SERVICES)); ("ts", PStr ts);
                         ("method", PStr "flow-inference-ring")]))
      else Json200 (PDict [("error", PStr "not found"); ("endpoints", PList (map PStr ENDPOINTS))])
  end.
End Ids.

(** ** Runs *)
Inductive ids_event := Line (text : string) | Subscribe_ (greeted : bool) | Round (id : nat) (written : bool).

Section Runs.
Context `{PyRepr} (json_loads : string -> option pyval).

Definition ids_step (s : ids_state) (e : ids_event) : ids_state * list (nat * sse_out) :=
  match e with
  | Line t => ((process_line json_loads t s).1, [])
  | Subscribe_ g => subscribe g s
  | Round id w => stream_round id w s
  end.
Fixpoint ids_run (evs : list ids_event) (s : ids_state) : ids_state * list (nat * sse_out) :=
  match evs with
  | [] => (s, [])
  | e :: evs' => let '(s, o1) := ids_step s e in let '(s, o2) := ids_run evs' s in (s, o1 ++ o2)
  end.

(** The messages the lines of a run broadcast, in order. *)
Definition message_of (e : ids_event) : list string :=
  match e with
  | Line t =>
      match (if nonempty (py_strip t) then json_loads (py_strip t) else None) with
      | Some (PDict ev) => if bool_decide (jget ev "event_type" = PStr "alert") then [sse_message (PDict ev)] else []
      | _ => []
      end
  | _ => []
  end.
Definition messages (evs : list ids_event) : list string := flat_map message_of evs.

(** The messages written to a stream. *)
Definition written_to (id : nat) (out : list (nat * sse_out)) : list string :=
  omap (fun o : nat * sse_out => match o.2 with Msg m => if decide (o.1 = id) then Some m else None | _ => None end) out.

(** ** The state of one stream *)
(** Its queue and whether it is subscribed; [None] when it is not open. *)
Definition view (id : nat) (s : ids_state) : option (list string * bool) :=
  (fun q => (q, bool_decide (id ∈ sse_clients s))) <$> queues s !! id.

Definition view_step (id : nat) (e : ids_event) (v : list string * bool) : option (list string * bool) * list string :=
  let '(q, sub) := v in
  match e with
  | Round i w => if decide (i = id) then (if w then (Some (tail q, sub), firstn 1 q) else (None, [])) else (Some v, [])
  | _ => match message_of e with
         | [] => (Some v, [])
         | m :: _ => (Some (if sub : bool then (put_nowait m q, negb (queue_full q)) else v), [])
         end
  end.

Record ids_wf (s : ids_state) : Prop := {
  wf_nodup : NoDup (sse_clients s);
  wf_open : forall id, id ∈ sse_clients s -> is_Some (queues s !! id);
  wf_next : forall id, is_Some (queues s !! id) -> (id < next_stream s)%nat;
  wf_clients : (length (sse_clients s) <= SSE_MAX_CLIENTS)%nat;
  wf_queues : forall id q, queues s !! id = Some q -> (length q <= SSE_QUEUE_SIZE)%nat;
  wf_alerts : (length (ring_alerts s) <= RING_ALERTS)%nat;
  wf_flows : (length (ring_flows s) <= RING_FLOWS)%nat }.

(** ** Lemmas *)
Lemma fold_alter_lookup {A} (f : A -> A) l : forall (m : gmap nat A) i, NoDup l ->
  foldl (fun m id => alter f id m) m l !! i = if decide (i ∈ l) then f <$> m !! i else m !! i.
Proof.
  induction l as [|x l IH]; intros m i Hnd; cbn [foldl]; [by rewrite decide_False by set_solver|].
  apply NoDup_cons in Hnd as [Hx Hnd]. rewrite IH by done. destruct (decide (i = x)) as [->|Hne].
  - rewrite decide_False by done. rewrite decide_True by set_solver. by rewrite lookup_alter_eq.
  - rewrite lookup_alter_ne by done. destruct (decide (i ∈ l)); [by rewrite decide_True by set_solver|].
    by rewrite decide_False by set_solver.
Qed.

Lemma put_nowait_length msg q : (length q <= SSE_QUEUE_SIZE)%nat -> (length (put_nowait msg q) <= SSE_QUEUE_SIZE)%nat.
Proof.
  intros Hq. unfold put_nowait, queue_full. destruct (Nat.leb_spec SSE_QUEUE_SIZE (length q)); [done|].
  rewrite length_app. cbn. lia.
Qed.

Lemma broadcast_queue msg s id : ids_wf s ->
  queues (broadcast msg s) !! id = if decide (id ∈ sse_clients s) then put_nowait msg <$> queues s !! id else queues s !! id.
Proof. intros Hw. cbn. by rewrite fold_alter_lookup by apply Hw. Qed.

Lemma broadcast_client msg s id : id ∈ sse_clients (broadcast msg s) <-> ~ is_dead (queues s) id /\ id ∈ sse_clients s.
Proof. cbn. by rewrite list_elem_of_filter. Qed.

Lemma broadcast_wf msg s : ids_wf s -> ids_wf (broadcast msg s).
Proof.
  intros Hw. constructor.
  - cbn. apply NoDup_filter, Hw.
  - intros id [_ Hin]%broadcast_client. rewrite broadcast_queue by done. rewrite decide_True by done.
    apply fmap_is_Some, Hw, Hin.
  - intros id. rewrite broadcast_queue by done. intros Hs. apply (wf_next s Hw).
    destruct (decide (id ∈ sse_clients s)); [by apply fmap_is_Some in Hs|done].
  - cbn. etransitivity; [apply length_filter|apply Hw].
  - intros id q. rewrite broadcast_queue by done. destruct (decide _); [|apply Hw].
    rewrite fmap_Some. intros (q' & Hq & ->). apply put_nowait_length. by eapply wf_queues.
  - apply Hw.
  - apply Hw.
Qed.

(** Only the streams and the rings matter to the invariant. *)
Lemma rings_wf s a f : ids_wf s -> (length a <= RING_ALERTS)%nat -> (length f <= RING_FLOWS)%nat ->
  ids_wf (set_flows f (set_alerts a s)).
Proof. intros [] ? ?. by constructor. Qed.

Lemma line_wf t s : ids_wf s -> ids_wf (process_line json_loads t s).1.
Proof.
  intros Hw. unfold process_line. destruct (negb _); [done|]. destruct (json_loads _) as [v|]; [|done].
  destruct v as [| | | | | |ev]; try done. case_bool_decide; [|case_bool_decide; [|done]].
  - apply broadcast_wf. by apply (rings_wf s _ (ring_flows s) Hw); [apply deque_append_length|apply Hw].
  - by apply (rings_wf s (ring_alerts s) _ Hw); [apply Hw|apply deque_append_length].
Qed.

Lemma unsubscribe_wf id s : ids_wf s -> ids_wf (unsubscribe id s).
Proof.
  intros Hw. constructor; cbn; try apply Hw.
  - apply NoDup_filter, Hw.
  - intros i [Hi Hin]%list_elem_of_filter. rewrite lookup_delete_ne by done. by apply Hw.
  - intros i [q Hq]. apply (wf_next s Hw). exists q. apply lookup_delete_Some in Hq. by destruct Hq.
  - etransitivity; [apply length_filter|apply Hw].
  - intros i q [_ Hq]%lookup_delete_Some. by eapply wf_queues.
Qed.

Lemma subscribe_wf g s : ids_wf s -> ids_wf (subscribe g s).1.
Proof.
  intros Hw. unfold subscribe. destruct (Nat.leb_spec SSE_MAX_CLIENTS (length (sse_clients s))) as [|Hlt]; [done|].
  assert (Hfresh : queues s !! next_stream s = None).
  { destruct (queues s !! next_stream s) eqn:E; [|done]. pose proof (wf_next s Hw (next_stream s)). rewrite E in H0.
    specialize (H0 ltac:(by eexists)). lia. }
  assert (Hnew : ids_wf (Ids (ring_alerts s) (ring_flows s) (sse_clients s ++ [next_stream s])
                          (<[next_stream s := []]> (queues s)) (S (next_stream s)))).
  { constructor; cbn; try apply Hw.
    - apply NoDup_app. split; [apply Hw|]. split; [|apply NoDup_singleton].
      intros x Hx Hin. apply list_elem_of_singleton in Hin as ->. destruct (wf_open s Hw _ Hx). congruence.
    - intros i [Hi|Hi]%elem_of_app.
      + destruct (decide (i = next_stream s)) as [->|]; [rewrite lookup_insert_eq; by eexists|].
        rewrite lookup_insert_ne by done. by apply Hw.
      + apply list_elem_of_singleton in Hi as ->. rewrite lookup_insert_eq. by eexists.
    - intros i. destruct (decide (i = next_stream s)) as [->|]; [lia|]. rewrite lookup_insert_ne by done.
      intros Hi%(wf_next s Hw). lia.
    - rewrite length_app. cbn. lia.
    - intros i q [[_ <-]|[_ Hq]]%lookup_insert_Some; [cbn; lia|]. by eapply wf_queues. }
  destruct g; [done|]. by apply unsubscribe_wf.
Qed.

Lemma round_wf id w s : ids_wf s -> ids_wf (stream_round id w s).1.
Proof.
  intros Hw. unfold stream_round. destruct (queues s !! id) as [q|] eqn:Eq; [|done].
  destruct w; [|by apply unsubscribe_wf]. constructor; cbn; try apply Hw.
  - intros i Hi. destruct (decide (i = id)) as [->|]; [rewrite lookup_insert_eq; by eexists|].
    rewrite lookup_insert_ne by done. by apply Hw.
  - intros i. destruct (decide (i = id)) as [->|]; [intros _; apply (wf_next s Hw); by eexists|].
    rewrite lookup_insert_ne by done. apply Hw.
  - intros i q' [[_ <-]|[_ Hq]]%lookup_insert_Some; [|by eapply wf_queues].
    pose proof (wf_queues s Hw _ _ Eq). destruct q; cbn in *; lia.
Qed.

Lemma ids_step_wf s e : ids_wf s -> ids_wf (ids_step s e).1.
Proof. destruct e; cbn; auto using line_wf, subscribe_wf, round_wf. Qed.
Lemma ids0_wf : ids_wf ids0.
Proof. constructor; cbn; try lia; [constructor|set_solver|intros id [q Hq]; by rewrite lookup_empty in Hq|]. intros id q Hq. by rewrite lookup_empty in Hq. Qed.

(** *** The view of a stream *)
Lemma view_broadcast msg s id : ids_wf s ->
  view id (broadcast msg s) =
    (fun v : list string * bool => if v.2 then (put_nowait msg v.1, negb (queue_full v.1)) else v) <$> view id s.
Proof.
  intros Hw. unfold view. rewrite broadcast_queue by done.
  assert (Hb : bool_decide (id ∈ sse_clients (broadcast msg s)) =
    bool_decide (id ∈ sse_clients s) && negb (bool_decide (is_dead (queues s) id))).
  { apply eq_true_iff_eq. rewrite andb_true_iff, negb_true_iff, bool_decide_eq_false, !bool_decide_eq_true, broadcast_client. tauto. }
  rewrite Hb. destruct (queues s !! id) as [q|] eqn:Eq; [|by destruct (decide _)].
  assert (Hd : bool_decide (is_dead (queues s) id) = queue_full q).
  { apply eq_true_iff_eq. rewrite bool_decide_eq_true. unfold is_dead. by rewrite Eq. }
  rewrite Hd. destruct (decide (id ∈ sse_clients s)).
  - by rewrite !bool_decide_eq_true_2 by done.
  - by rewrite !bool_decide_eq_false_2 by done.
Qed.

Lemma view_line t s id : ids_wf s ->
  view id (process_line json_loads t s).1 =
    match message_of (Line t) with
    | m :: _ => (fun v : list string * bool => if v.2 then (put_nowait m v.1, negb (queue_full v.1)) else v) <$> view id s
    | [] => view id s
    end.
Proof.
  intros Hw. unfold process_line, message_of. destruct (nonempty (py_strip t)); [|done]. cbn [negb].
  destruct (json_loads (py_strip t)) as [v|]; [|done]. destruct v as [| | | | | |ev]; try done.
  case_bool_decide; [|by case_bool_decide]. cbn [fst]. rewrite view_broadcast; [done|].
  by apply (rings_wf s _ (ring_flows s) Hw); [apply deque_append_length|apply Hw].
Qed.

Lemma message_of_line t : message_of (Line t) = [] \/ exists m, message_of (Line t) = [m].
Proof.
  cbn. destruct (if nonempty _ then _ else _) as [v|]; [|by left]. destruct v as [| | | | | |ev]; try by left.
  case_bool_decide; eauto.
Qed.

Lemma view_unsubscribe id i s : view id (unsubscribe i s) = if decide (i = id) then None else view id s.
Proof.
  unfold view. cbn. destruct (decide (i = id)) as [->|Hne]; [by rewrite lookup_delete_eq|].
  rewrite lookup_delete_ne by done. destruct (queues s !! id); [|done]. cbn. do 2 f_equal.
  apply bool_decide_ext. rewrite list_elem_of_filter. split; [tauto|]. intros ?. by split.
Qed.

Lemma view_step_ok id e s v : ids_wf s -> view id s = Some v ->
  view id (ids_step s e).1 = (view_step id e v).1 /\ written_to id (ids_step s e).2 = (view_step id e v).2.
Proof.
  intros Hw Hv. assert (Hid : (id < next_stream s)%nat).
  { apply (wf_next s Hw). unfold view in Hv. apply fmap_Some in Hv as (q & Hq & _). by exists q. }
  destruct v as [q sub]. destruct e as [t|g|i w].
  - cbn [ids_step fst snd view_step]. rewrite view_line, Hv by done.
    destruct (message_of_line t) as [->|[m ->]]; [done|]. cbn. by destruct sub.
  - cbn [ids_step view_step message_of]. cbn match. unfold subscribe. destruct (_ <=? _)%nat; cbn [fst snd].
    { split; [done|]. cbn. done. }
    assert (Hnew : view id (Ids (ring_alerts s) (ring_flows s) (sse_clients s ++ [next_stream s])
                     (<[next_stream s := []]> (queues s)) (S (next_stream s))) = Some (q, sub)).
    { unfold view in *. cbn. rewrite lookup_insert_ne by lia. apply fmap_Some in Hv as (q' & Hq & Hp). simplify_eq.
      rewrite Hq. cbn. do 2 f_equal. apply bool_decide_ext. rewrite elem_of_app, list_elem_of_singleton.
      split; [|tauto]. intros [?| ->]; [done|lia]. }
    destruct g; cbn [fst snd].
    + split; [done|]. cbn. done.
    + split; [|done]. rewrite view_unsubscribe. by rewrite decide_False by lia.
  - cbn [ids_step view_step]. unfold stream_round. destruct (decide (i = id)) as [->|Hne].
    + unfold view in Hv. apply fmap_Some in Hv as (q' & Hq & Hp). simplify_eq. rewrite Hq. destruct w; cbn [fst snd].
      * split; [unfold view; cbn; by rewrite lookup_insert_eq|]. destruct q'; cbn; [done|]. by rewrite decide_True by done.
      * split; [|done]. rewrite view_unsubscribe. by rewrite decide_True by done.
    + destruct (queues s !! i) as [q'|]; [|done]. destruct w; cbn [fst snd].
      * split; [|destruct q'; cbn; [done|]; by rewrite decide_False by done].
        unfold view in *. cbn. by rewrite lookup_insert_ne by done.
      * split; [|done]. rewrite view_unsubscribe. by rewrite decide_False by done.
Qed.

Lemma written_to_app id o1 o2 : written_to id (o1 ++ o2) = written_to id o1 ++ written_to id o2.
Proof. apply omap_app. Qed.

Lemma next_stream_mono s e : (next_stream s <= next_stream (ids_step s e).1)%nat.
Proof.
  destruct e as [t|g|i w]; cbn.
  - unfold process_line. destruct (negb _); [done|]. destruct (json_loads _) as [[| | | | | |ev]|]; try done.
    by do 2 (case_bool_decide; [done|]).
  - unfold subscribe. destruct (_ <=? _)%nat; [done|]. destruct g; cbn; lia.
  - unfold stream_round. destruct (queues s !! i); [|done]. by destruct w.
Qed.

(** A stream that is closed stays closed: ids are not used again. *)
Lemma closed_stays id e s : ids_wf s -> (id < next_stream s)%nat -> view id s = None ->
  view id (ids_step s e).1 = None /\ written_to id (ids_step s e).2 = [] /\ (id < next_stream (ids_step s e).1)%nat.
Proof.
  intros Hw Hid Hv. assert (Hq : queues s !! id = None) by (unfold view in Hv; by apply fmap_None in Hv).
  enough (view id (ids_step s e).1 = None /\ written_to id (ids_step s e).2 = []).
  { pose proof (next_stream_mono s e). split_and!; [tauto|tauto|lia]. }
  destruct e as [t|g|i w].
  - cbn [ids_step fst snd]. rewrite view_line, Hv by done. split; [by case_match|done].
  - cbn [ids_step]. unfold subscribe. destruct (_ <=? _)%nat; [done|]. destruct g; cbn [fst snd].
    + split; [|done]. unfold view. cbn. by rewrite lookup_insert_ne, Hq by lia.
    + rewrite view_unsubscribe. rewrite decide_False by lia. split; [|done].
      unfold view. cbn. by rewrite lookup_insert_ne, Hq by lia.
  - cbn [ids_step]. unfold stream_round. destruct (decide (i = id)) as [->|Hne]; [by rewrite Hq|].
    destruct (queues s !! i) as [q'|]; [|done]. destruct w; cbn [fst snd].
    + split; [unfold view; cbn; by rewrite lookup_insert_ne, Hq by done|].
      destruct q'; cbn; [done|]. by rewrite decide_False by done.
    + by rewrite view_unsubscribe, decide_False by done.
Qed.

Lemma closed_silent id evs : forall s, ids_wf s -> (id < next_stream s)%nat -> view id s = None ->
  view id (ids_run evs s).1 = None /\ written_to id (ids_run evs s).2 = [].
Proof.
  induction evs as [|e evs IH]; intros s Hw Hid Hv; [done|]. cbn [ids_run].
  destruct (closed_stays id e s Hw Hid Hv) as (H1 & H2 & H3). pose proof (ids_step_wf s e Hw) as Hw1.
  destruct (ids_step s e) as [s1 o1]. cbn [fst snd] in *. destruct (IH s1 Hw1 H3 H1) as [H4 H5].
  destruct (ids_run evs s1) as [s2 o2]. cbn [fst snd] in *. by rewrite written_to_app, H2, H5.
Qed.

Lemma ids_run_wf evs : forall s, ids_wf s -> ids_wf (ids_run evs s).1.
Proof.
  induction evs as [|e evs IH]; intros s Hw; [done|]. cbn [ids_run]. pose proof (ids_step_wf s e Hw) as Hw1.
  destruct (ids_step s e) as [s1 o1]. specialize (IH s1 Hw1). by destruct (ids_run evs s1).
Qed.

(** What a stream is owed: its queue, and what is broadcast while it is subscribed. *)
Definition owed (v : list string * bool) (evs : list ids_event) : list string :=
  v.1 ++ (if v.2 then messages evs else []).

Lemma run_view id evs : forall s v, ids_wf s -> view id s = Some v ->
  match view id (ids_run evs s).1 with
  | Some (q', true) => v.2 = true /\ written_to id (ids_run evs s).2 ++ q' = owed v evs
  | Some (q', false) => written_to id (ids_run evs s).2 ++ q' `prefix_of` owed v evs
  | None => written_to id (ids_run evs s).2 `prefix_of` owed v evs
  end.
Proof.
  induction evs as [|e evs IH]; intros s [q sub] Hw Hv; cbn [ids_run].
  - cbn [fst snd]. rewrite Hv. cbn. unfold owed. destruct sub; cbn; [by rewrite app_nil_r|by rewrite app_nil_r].
  - destruct (view_step_ok id e s (q, sub) Hw Hv) as [H1 H2]. pose proof (ids_step_wf s e Hw) as Hw1.
    destruct (ids_step s e) as [s1 o1] eqn:Es. cbn [fst snd] in *.
    assert (Hclosed : view id s1 = None -> view id (ids_run evs s1).1 = None /\ written_to id (ids_run evs s1).2 = []).
    { intros Hn. apply closed_silent; [done| |done]. assert (Hid : (id < next_stream s)%nat).
      { apply (wf_next s Hw). unfold view in Hv. apply fmap_Some in Hv as (q0 & Hq & _). by exists q0. }
      pose proof (next_stream_mono s e) as Hm. rewrite Es in Hm. cbn in Hm. lia. }
    specialize (fun v => IH s1 v Hw1). destruct (ids_run evs s1) as [s2 o2]. cbn [fst snd] in *.
    rewrite written_to_app, H2. clear H2 Es. cbn [messages flat_map]. 
    rewrite H1 in Hclosed, IH. clear H1 Hv.
    destruct e as [t|g|i w]; cbn [view_step] in *.
    + destruct (message_of_line t) as [Em|[m Em]]; rewrite Em in *; cbn [app fst snd] in *; specialize (IH _ eq_refl).
      * unfold owed in *. cbn [messages flat_map]. rewrite Em. exact IH.
      * unfold owed in *. cbn [messages flat_map fst snd]. rewrite Em. destruct sub; cbn [fst snd] in *; [|exact IH].
        unfold put_nowait in IH. destruct (queue_full q); cbn [negb] in *.
        -- destruct (view id s2) as [[q' [|]]|]; [by destruct IH| |].
           ++ etransitivity; [exact IH|]. rewrite app_nil_r. by eexists.
           ++ etransitivity; [exact IH|]. rewrite app_nil_r. by eexists.
        -- rewrite <- app_assoc in IH. exact IH.
    + cbn [message_of] in *. specialize (IH _ eq_refl). exact IH.
    + destruct (decide (i = id)) as [->|Hne]; [|cbn [fst snd] in *; specialize (IH _ eq_refl); exact IH].
      destruct w; cbn [fst snd] in *.
      * specialize (IH _ eq_refl). destruct q as [|x q]; cbn [firstn tail app] in *; [exact IH|].
        unfold owed in *. cbn [messages flat_map message_of fst snd app] in *. destruct (view id s2) as [[q' [|]]|].
        -- destruct IH as [-> IH]. split; [done|]. cbn. f_equal. exact IH.
        -- by apply prefix_cons.
        -- by apply prefix_cons.
      * destruct (Hclosed eq_refl) as [-> ->]. apply prefix_nil.
Qed.
End Runs.

(** ** Following the log *)
Section Follow.
Context `{PyRepr} (json_loads : string -> option pyval).

(** Whole lines. *)
Definition whole (s : string) : Prop := s = "" \/ exists u, s = (u ++ chr 10)%string.
(** A line the loop does not raise on: an object, or no JSON at all. *)
Definition benign (l : string) : Prop :=
  match (if nonempty (py_strip l) then json_loads (py_strip l) else None) with None | Some (PDict _) => True | Some _ => False end.

(** The polls of a file that grows by the texts [ds]. *)
Fixpoint growing (inode : Z) (before : string) (ds : list string) : list poll :=
  match ds with
  | [] => []
  | d :: ds' => let c := (before ++ d)%string in Present inode (String.length c) c true :: growing inode c ds'
  end.
Definition tail_run (ps : list poll) (ts : tail_state * ids_state) : tail_state * ids_state :=
  foldl (fun ts p => tail_poll json_loads p ts) ts ps.

Definition alert_event (l : string) : list pyval :=
  match (if nonempty (py_strip l) then json_loads (py_strip l) else None) with
  | Some (PDict ev) => if bool_decide (jget ev "event_type" = PStr "alert") then [PDict ev] else []
  | _ => []
  end.

Lemma lines_of_app a b : whole a -> lines_of (a ++ b) = lines_of a ++ lines_of b.
Proof.
  intros [->|(u & ->)]; [by rewrite str_app_nil_l|].
  assert (Hn : forall u b, lines_of ((u ++ chr 10) ++ b) = lines_of (u ++ chr 10) ++ lines_of b /\ lines_of (u ++ chr 10) <> []); [|apply Hn].
  clear u b. induction u as [|c u IH]; intros b.
  - unfold chr. rewrite str_app_nil_l, str_app_cons, str_app_nil_l. cbn. done.
  - rewrite !str_app_cons. cbn. destruct (IH b) as [-> Hne]. destruct (code_z c =? 10); [done|].
    by destruct (lines_of (u ++ chr 10)).
Qed.

Lemma whole_app a b : whole a -> whole b -> whole (a ++ b).
Proof.
  intros Ha [->|(u & ->)]; [by rewrite str_app_nil_r|]. right. exists (a ++ u)%string. by rewrite str_app_assoc.
Qed.

Lemma seek_app a b : seek (String.length a) (a ++ b) = b.
Proof. induction a as [|c a IH]; [by destruct b|]. by rewrite str_app_cons. Qed.

Lemma py_len_ascii s : str_forallb is_ascii_char s = true -> py_len s = String.length s.
Proof.
  induction s as [|c s IH]; [done|]. cbn. rewrite andb_true_iff. intros [Hc Hs]. rewrite IH by done.
  assert (Hn : is_cont c = false); [|by rewrite Hn]. unfold is_ascii_char, is_cont in *.
  apply N.ltb_lt in Hc. apply andb_false_iff. left. by apply N.leb_gt.
Qed.

Lemma lines_lengths s : str_forallb is_ascii_char s = true ->
  foldr (fun l n => (py_len l + n)%nat) 0%nat (lines_of s) = String.length s.
Proof.
  intros Hs. assert (Hl : forall s, foldr (fun l n => (String.length l + n)%nat) 0%nat (lines_of s) = String.length s).
  { clear. induction s as [|c s IH]; [done|]. cbn. destruct (code_z c =? 10); [cbn; by rewrite IH|].
    destruct (lines_of s) as [|l ls]; cbn in *; lia. }
  rewrite <- Hl. assert (Ha : Forall (fun l => str_forallb is_ascii_char l = true) (lines_of s)).
  { clear Hl. revert Hs. induction s as [|c s IH]; [constructor|]. cbn. rewrite andb_true_iff. intros [Hc Hs]. specialize (IH Hs).
    destruct (code_z c =? 10); [constructor; [cbn; by rewrite Hc|done]|].
    destruct (lines_of s) as [|l ls]; [constructor; [cbn; by rewrite Hc|constructor]|].
    apply Forall_cons in IH as [Hl' Hls]. constructor; [cbn; by rewrite Hc, Hl'|done]. }
  induction Ha as [|l ls Hl' _ IH]; [done|]. cbn. by rewrite IH, py_len_ascii.
Qed.

Lemma benign_ok l s : benign l -> (process_line json_loads l s).2 = true.
Proof.
  unfold benign, process_line. intros Hb. destruct (nonempty (py_strip l)); [|done]. cbn [negb].
  destruct (json_loads _) as [[| | | | | |ev]|]; try done.
  by do 2 (case_bool_decide; [done|]).
Qed.

Lemma read_loop_lines ls : Forall benign ls -> forall pos s,
  read_loop json_loads ls pos s =
    ((pos + foldr (fun l n => (py_len l + n)%nat) 0 ls)%nat, (ids_run json_loads (map Line ls) s).1).
Proof.
  induction 1 as [|l ls Hl _ IH]; intros pos s; [cbn; by rewrite Nat.add_0_r|]. cbn [read_loop map ids_run ids_step foldr].
  pose proof (benign_ok l s Hl) as Hok. destruct (process_line json_loads l s) as [s1 ok]. cbn [snd fst] in *. subst ok.
  rewrite IH. destruct (ids_run _ _ s1). cbn [fst]. f_equal. lia.
Qed.

Lemma ids_run_app evs1 evs2 s : (ids_run json_loads (evs1 ++ evs2) s).1 = (ids_run json_loads evs2 (ids_run json_loads evs1 s).1).1.
Proof.
  revert s. induction evs1 as [|e evs1 IH]; intros s; [done|]. cbn [app ids_run]. destruct (ids_step _ s e) as [s1 o1].
  specialize (IH s1). destruct (ids_run _ (evs1 ++ evs2) s1), (ids_run _ evs1 s1). cbn [fst] in *. done.
Qed.

Lemma tail_step inode before d s : str_forallb is_ascii_char d = true -> Forall benign (lines_of d) ->
  forall t, t = tail0 /\ before = "" \/ t = Tail (Some inode) (String.length before) (Some true) ->
  tail_poll json_loads (Present inode (String.length (before ++ d)) (before ++ d) true) (t, s) =
    (Tail (Some inode) (String.length (before ++ d)) (Some true), (ids_run json_loads (map Line (lines_of d)) s).1).
Proof.
  intros Ha Hb t [[-> ->]| ->]; cbn [tail_poll].
  - cbn [t_inode t_file tail0]. rewrite bool_decide_eq_true_2 by done. cbn [orb t_pos seek t_inode t_file].
    rewrite str_app_nil_l, read_loop_lines, lines_lengths by done. done.
  - cbn [t_inode t_file t_pos]. rewrite (bool_decide_eq_false_2 (Some inode <> Some inode)) by (intros Hn; by apply Hn).
    rewrite (bool_decide_eq_false_2 (Some true = None)) by done. rewrite str_length_app.
    rewrite (proj2 (Nat.ltb_ge _ _)) by lia. cbn [orb]. rewrite bool_decide_eq_true_2 by done.
    by rewrite seek_app, read_loop_lines, lines_lengths.
Qed.

Lemma tail_grows inode ds : forall before t s,
  Forall (fun d => whole d /\ str_forallb is_ascii_char d = true /\ Forall benign (lines_of d)) ds ->
  t = tail0 /\ before = "" /\ ds <> [] \/ t = Tail (Some inode) (String.length before) (Some true) ->
  let log := py_join "" ds in
  tail_run (growing inode before ds) (t, s) =
    (Tail (Some inode) (String.length (before ++ log)) (Some true), (ids_run json_loads (map Line (lines_of log)) s).1).
Proof.
  induction ds as [|d ds IH]; intros before t s Hds Ht; cbn zeta.
  - destruct Ht as [(_ & _ & ?)| ->]; [done|]. cbn. by rewrite str_app_nil_r.
  - apply Forall_cons in Hds as [(Hw & Ha & Hb) Hds]. unfold tail_run. cbn [growing foldl].
    rewrite (tail_step inode before d s) by (done || tauto).
    change (foldl _ ?x ?y) with (tail_run y x). rewrite IH by auto. rewrite str_app_assoc.
    assert (Hj : py_join "" (d :: ds) = (d ++ py_join "" ds)%string).
    { destruct ds; cbn [py_join]; [by rewrite str_app_nil_r|by rewrite str_app_nil_l]. }
    rewrite Hj, lines_of_app, map_app, ids_run_app by done. done.
Qed.

Lemma ring_run ls : forall s, (length (ring_alerts s) <= RING_ALERTS)%nat ->
  ring_alerts (ids_run json_loads (map Line ls) s).1 = last_n RING_ALERTS (ring_alerts s ++ flat_map alert_event ls).
Proof.
  induction ls as [|l ls IH]; intros s Hs; cbn [map ids_run ids_step flat_map].
  - cbn [fst]. rewrite app_nil_r. by rewrite last_n_all.
  - assert (Hr : ring_alerts (process_line json_loads l s).1 = last_n RING_ALERTS (ring_alerts s ++ alert_event l)).
    { unfold process_line, alert_event. destruct (nonempty (py_strip l)); cbn [negb]; [|cbn; rewrite app_nil_r; by rewrite last_n_all].
      destruct (json_loads _) as [[| | | | | |ev]|]; try (cbn; rewrite app_nil_r; by rewrite last_n_all).
      case_bool_decide; [done|]. by case_bool_decide; cbn; rewrite app_nil_r, last_n_all. }
    destruct (process_line json_loads l s) as [s1 ok]. cbn [fst] in *. specialize (IH s1).
    destruct (ids_run _ _ s1) as [s2 o]. cbn [fst] in *. rewrite IH.
    + rewrite Hr, last_n_app_last. by rewrite <- app_assoc.
    + rewrite Hr, last_n_length. lia.
Qed.
End Follow.

(** ** Properties *)
(** C23: a stream gets the alerts in order and without a gap: from its subscription on,
    what was written to it, then what waits in its queue, is an initial part of
    the alerts broadcast since, and all of them for as long as it is subscribed,
    whatever the other streams do and however the steps interleave; and there are
    never more than 8 subscriptions, 256 queued messages or 2000 ring entries. *)
Theorem sse_delivery `{PyRepr} json_loads before evs :
  let s := (ids_run json_loads before ids0).1 in
  let id := next_stream s in
  (length (sse_clients s) < SSE_MAX_CLIENTS)%nat ->
  let '(s', out) := ids_run json_loads (Subscribe_ true :: evs) s in
  (exists rest, messages json_loads evs = written_to id out ++ default [] (queues s' !! id) ++ rest /\
     (id ∈ sse_clients s' -> rest = [])) /\
  ids_wf s'.
Proof.
  cbv zeta. set (s := (ids_run json_loads before ids0).1). set (id := next_stream s). intros Hlt.
  assert (Hw : ids_wf s) by apply ids_run_wf, ids0_wf. cbn [ids_run]. pose proof (ids_step_wf json_loads s (Subscribe_ true) Hw) as Hw1.
  cbn [ids_step] in *. unfold subscribe in *. rewrite (proj2 (Nat.leb_gt _ _)) in * by done. cbn [fst] in Hw1.
  set (s1 := Ids _ _ _ _ _) in *. pose proof (ids_run_wf json_loads evs s1 Hw1) as Hw2.
  assert (Hv : view id s1 = Some ([], true)).
  { unfold view, s1. cbn. rewrite lookup_insert_eq. cbn.
    rewrite bool_decide_eq_true_2; [done|]. apply elem_of_app. right. by left. }
  pose proof (run_view json_loads id evs s1 _ Hw1 Hv) as Hr. destruct (ids_run json_loads evs s1) as [s' out].
  cbn [fst snd] in *. split; [|done]. rewrite written_to_app. change (written_to id [(id, Connected)]) with ([] : list string).
  unfold owed in Hr. cbn [fst snd app] in *. unfold view in Hr. destruct (queues s' !! id) as [q'|] eqn:Eq; cbn in Hr |- *.
  - case_bool_decide as Hin.
    + destruct Hr as [_ Hr]. exists []. by rewrite app_nil_r.
    + destruct Hr as [rest Hr]. exists rest. by rewrite app_assoc.
  - destruct Hr as [rest Hr]. exists rest. split; [done|]. intros Hin. destruct (wf_open s' Hw2 id Hin). congruence.
Qed.

(** A stream that was cut off because its queue was full is not closed: it gets what
    was queued, and after that only heartbeats, however many alerts there are,
    and it does not count as a client any more. *)
Theorem cut_off_stream `{PyRepr} json_loads id evs s q :
  ids_wf s -> view id s = Some (q, false) -> Forall (fun e => e <> Round id false) evs ->
  let '(s', out) := ids_run json_loads evs s in
  (exists q', view id s' = Some (q', false) /\ q = written_to id out ++ q').
Proof.
  revert s q. induction evs as [|e evs IH]; intros s q Hw Hv Hf; cbn [ids_run]; [by exists q|].
  apply Forall_cons in Hf as [He Hf]. destruct (view_step_ok json_loads id e s _ Hw Hv) as [H1 H2].
  pose proof (ids_step_wf json_loads s e Hw) as Hw1. destruct (ids_step json_loads s e) as [s1 o1]. cbn [fst snd] in *.
  assert (Hstep : exists q1, view id s1 = Some (q1, false) /\ q = written_to id o1 ++ q1).
  { rewrite H1, H2. destruct e as [t|g|i w]; cbn [view_step].
    - destruct (message_of json_loads (Line t)); by exists q.
    - by exists q.
    - destruct (decide (i = id)) as [->|]; [|by exists q]. destruct w; [|done]. exists (tail q). cbn. split; [done|]. by destruct q. }
  destruct Hstep as (q1 & Hv1 & ->). specialize (IH s1 q1 Hw1 Hv1 Hf). destruct (ids_run json_loads evs s1) as [s2 o2].
  destruct IH as (q2 & Hv2 & ->). exists q2. by rewrite written_to_app, app_assoc.
Qed.

(** C24: the tail follows a log that grows by whole lines of ASCII text, no line of which
    makes the handler raise, exactly: however the growth is split over the polls, every
    line is processed once and in order, the position is the end of the log, and the alert
    ring is the newest 2000 alerts of the log.  After a line with another character the
    position falls behind and text is read again ([tail_counts_characters]). *)
Theorem tail_exactly_once `{PyRepr} json_loads inode ds :
  Forall (fun d => whole d /\ str_forallb is_ascii_char d = true /\ Forall (benign json_loads) (lines_of d)) ds -> ds <> [] ->
  let log := py_join "" ds in
  let s := (ids_run json_loads (map Line (lines_of log)) ids0).1 in
  tail_run json_loads (growing inode "" ds) (tail0, ids0) = (Tail (Some inode) (String.length log) (Some true), s) /\
  ring_alerts s = last_n RING_ALERTS (flat_map (alert_event json_loads) (lines_of log)).
Proof.
  intros Hds Hne. split.
  - rewrite (tail_grows json_loads inode ds "" tail0) by auto. by rewrite str_app_nil_l.
  - apply (ring_run json_loads _ ids0). cbn. lia.
Qed.

Lemma line_of_fresh p w : p <> "" -> str_forallb (fun c => negb (code_z c =? 10)) p = true -> w = "" \/ w = chr 10 ->
  lines_of (p ++ w) = [(p ++ w)%string].
Proof.
  intros Hp Hf Hw. induction p as [|c p IH]; [done|]. rewrite str_app_cons. cbn in Hf |- *.
  apply andb_true_iff in Hf as [Hc Hf]. apply negb_true_iff in Hc. rewrite Hc.
  destruct p as [|c' p]; [|by rewrite IH]. rewrite str_app_nil_l. by destruct Hw as [->| ->].
Qed.

(** A line that is read before its end is written is lost: each part is read once,
    neither is JSON, and the position is past both, so that the alert of the
    whole line reaches neither the ring nor a stream. *)
Theorem partial_line_lost `{PyRepr} json_loads inode p1 p2 s ev :
  p1 <> "" -> p2 <> "" ->
  Forall (fun p => str_forallb is_ascii_char p = true /\ str_forallb (fun c => negb (code_z c =? 10)) p = true) [p1; p2] ->
  json_loads (py_strip p1) = None -> json_loads (py_strip (p2 ++ chr 10)) = None ->
  let line := (p1 ++ p2 ++ chr 10)%string in
  alert_event json_loads line = [ev] ->
  tail_run json_loads (growing inode "" [p1; (p2 ++ chr 10)%string]) (tail0, s) =
    (Tail (Some inode) (String.length line) (Some true), s) /\
  ring_alerts (ids_run json_loads (map Line (lines_of line)) s).1 = deque_append RING_ALERTS (ring_alerts s) ev.
Proof.
  intros H1 H2 Hp J1 J2 line Hev.
  apply Forall_cons in Hp as [[A1 N1] Hp]. apply Forall_cons in Hp as [[A2 N2] _].
  assert (Hskip : forall p, json_loads (py_strip p) = None -> process_line json_loads p s = (s, true)).
  { intros p Hn. unfold process_line. destruct (negb _); [done|]. by rewrite Hn. }
  assert (L1 : lines_of p1 = [p1]) by (rewrite <- (str_app_nil_r p1); by apply line_of_fresh; auto).
  assert (L2 : lines_of (p2 ++ chr 10) = [(p2 ++ chr 10)%string]) by (by apply line_of_fresh; auto).
  assert (Hb : forall p, json_loads (py_strip p) = None -> benign json_loads p).
  { intros p Hn. unfold benign. rewrite Hn. by destruct (nonempty _). }
  split.
  - unfold tail_run. cbn [growing foldl]. rewrite (tail_step json_loads inode "" p1 s); [|done| |auto]; [|rewrite L1; auto].
    rewrite L1. cbn [map ids_run ids_step]. rewrite Hskip by done. cbn [fst].
    rewrite !str_app_nil_l. rewrite (tail_step json_loads inode p1 (p2 ++ chr 10) s); [| | |auto].
    + rewrite L2. cbn [map ids_run ids_step]. by rewrite Hskip.
    + by rewrite str_forallb_app, A2.
    + rewrite L2. auto.
  - assert (Hl : lines_of line = [line]).
    { unfold line. rewrite <- str_app_assoc. apply line_of_fresh; [by destruct p1| |auto]. by rewrite str_forallb_app, N1. }
    rewrite Hl. cbn [map ids_run ids_step fst]. revert Hev. unfold alert_event, process_line.
    destruct (nonempty (py_strip line)); [|done]. cbn [negb]. destruct (json_loads (py_strip line)) as [[| | | | | |d]|]; try done.
    case_bool_decide; [|done]. intros [= <-]. done.
Qed.

(** The flow query returns the newest flows, at most 500 of them; asked for 0 it returns
    the whole ring. *)
Theorem get_flows_newest last s :
  (1 <= last -> get_flows last "" s = Ok (last_n (Z.to_nat (Z.min last 500)) (ring_flows s))) /\
  get_flows 0 "" s = Ok (ring_flows s).
Proof.
  split; [|done]. intros Hl. unfold get_flows, slice_last. cbn [since_or_all nonempty rbind].
  by rewrite (proj2 (Z.ltb_lt 0 _)) by lia.
Qed.

Lemma elem_of_map {A B} (f : A -> B) l y : y ∈ map f l <-> exists x, y = f x /\ x ∈ l.
Proof. apply list_elem_of_fmap. Qed.

Lemma service_name v w : v ∈ SERVICES -> w ∈ SERVICES -> v.1.1.1 = w.1.1.1 -> v = w.
Proof.
  unfold SERVICES. rewrite !elem_of_cons. intros Hv Hw.
  destruct Hv as [->|[->|[->|[->|Hv]]]]; [..|by apply not_elem_of_nil in Hv];
    (destruct Hw as [->|[->|[->|[->|Hw]]]]; [..|by apply not_elem_of_nil in Hw]; done).
Qed.

(** A service is reported up exactly when the ring holds a flow that is not old and
    goes to it or comes from its host. *)
Theorem service_up_iff strptime now s r svc :
  service_health strptime now s = Ok r -> svc ∈ SERVICES ->
  ((svc.1.1.1, "up") ∈ r <->
   exists d, PDict d ∈ ring_flows s /\ too_old strptime now (PDict d) = Ok false /\ touches d svc = true).
Proof.
  unfold service_health. rewrite rbind_ok. intros (seen & Hs & Hr) Hsvc. apply (f_equal (res_or [])) in Hr. unfold res_or in Hr. subst r.
  assert (Hseen : forall flows acc seen, seen_services strptime now flows acc = Ok seen -> forall n, n ∈ seen <-> n ∈ acc \/
    exists d v, PDict d ∈ flows /\ too_old strptime now (PDict d) = Ok false /\ v ∈ SERVICES /\ touches d v = true /\ n = v.1.1.1).
  { clear. induction flows as [|ev flows IH]; intros acc seen; cbn [seen_services].
    - intros [= <-] n. split; [by left|]. intros [?|(d & v & Hin & _)]; [done|]. by apply not_elem_of_nil in Hin.
    - rewrite rbind_ok. intros (old & Ho & Hr) n. destruct old.
      + rewrite (IH _ _ Hr n). split; [intros [?|(d & v & Hin & Hrest)]; [by left|]; right; exists d, v; split; [by right|done]|].
        intros [?|(d & v & Hin & Hn & Hrest)]; [by left|]. right. exists d, v.
        apply elem_of_cons in Hin as [<-|Hin]; [congruence|]. done.
      + destruct ev as [| | | | | |d0]; try done. rewrite (IH _ _ Hr n), elem_of_app, elem_of_map. split.
        * intros [[?|(v & -> & Hv)]|(d & v & Hin & Hrest)]; [by left| |].
          -- right. exists d0, v. apply list_elem_of_filter in Hv as [Ht Hv]. split_and!; [by left|done..].
          -- right. exists d, v. split; [by right|done].
        * intros [?|(d & v & Hin & Hn & Hv & Ht & ->)]; [by left; left|].
          apply elem_of_cons in Hin as [[= ->]|Hin]; [|right; by exists d, v].
          left. right. exists v. split; [done|]. by apply list_elem_of_filter. }
  rewrite elem_of_map. split.
  - intros (v & Heq & Hv). injection Heq as Hn Hup. case_bool_decide as Hin; [|done].
    apply (Hseen _ _ _ Hs) in Hin as [Hin|(d & w & Hd & Ho & Hw & Ht & Hnw)]; [by apply not_elem_of_nil in Hin|].
    exists d. split_and!; [done|done|]. by rewrite (service_name svc w) by (done || congruence).
  - intros (d & Hd & Ho & Ht). exists svc. split; [|done]. rewrite bool_decide_eq_true_2; [done|].
    apply (Hseen _ _ _ Hs). right. by exists d, svc.
Qed.

Lemma strip_dumps_obj `{PyRepr} d w : str_forallb is_space w = true -> py_strip (json_dumps false (PDict d) ++ w) = json_dumps false (PDict d).
Proof.
  apply py_strip_ends; cbn [json_dumps]; [by eexists _, _|]. eexists ("{" ++ _)%string, "}"%char. by rewrite str_app_assoc.
Qed.

(** C25: an alert that Suricata logs reaches the agent as it is.  Whatever the line's spelling
    (compact or spaced, with escapes, in any order of keys), when it parses to an alert
    event with its keys, fields the alert model takes and no handshake type, and Python's JSON reads back what it writes of that event, it is broadcast as one
    message; the consumer that reads the message's line stores the event, when it has a
    store, and, with the trigger on, hands the alert built from it to the agent; with the trigger off it raises,
    because the log call names an attribute the alert does not have. *)
Theorem logged_alert_dispatched `{External} `{PyRepr} cfg float_of raw ev alert trigger :
  json_loads float_of (py_strip raw) = Some (PDict ev) ->
  json_loads float_of (json_dumps false (PDict ev)) = Some (PDict ev) -> jget ev "event_type" = PStr "alert" ->
  dict_mem ev "alert" = true -> dict_mem ev "src_ip" = true -> is_handshake (jget ev "type") = Ok false ->
  alert_from_raw ev = Ok alert ->
  let line := ("data: " ++ json_dumps false (PDict ev))%string in
  message_of (json_loads float_of) (Line raw) = [(line ++ chr 10 ++ chr 10)%string] /\
  Consumer.process_line cfg (json_loads float_of) line trigger =
    ((if has_events_store cfg then [StoreViolation ev] else []) ++ (if trigger then [OnAlert alert] else []),
     if trigger then None else Some (AttributeError "signature_id")).
Proof.
  intros Lr Lv Ht Ha Hs Hh Hr line. split.
  - cbn [message_of]. rewrite Lr. destruct (py_strip raw); [by apply (f_equal (fun r => default PNone r)) in Lr|].
    cbn [nonempty negb]. rewrite bool_decide_eq_true_2 by done. unfold sse_message, line. by rewrite str_app_assoc.
  - unfold Consumer.process_line, line.
    assert (Hd : py_drop 6 ("data: " ++ json_dumps false (PDict ev)) = json_dumps false (PDict ev)) by done.
    assert (Hst : starts_with "data: " ("data: " ++ json_dumps false (PDict ev)) = true).
    { apply starts_with_spec. by eexists. }
    rewrite Hst, Hd. cbn [negb]. rewrite <- (str_app_nil_r (json_dumps false (PDict ev))), strip_dumps_obj by done.
    assert (Hne : nonempty (json_dumps false (PDict ev)) = true) by done. rewrite Hne. cbn [negb]. rewrite Lv, Hh.
    rewrite bool_decide_eq_false_2 by (rewrite Ht; by intros [=]). rewrite Ha, Hs. cbn [negb orb].
    unfold alert_actions. rewrite Hr. destruct trigger; [done|]. by rewrite app_nil_r.
Qed.

(** ** Examples *)
Definition sample_alert : obj :=
  [("event_type", PStr "alert"); ("src_ip", PStr "10.2.100.10"); ("alert", PDict [("signature_id", PInt 9000001)])].
Definition sample_line : string := (@json_dumps (fun _ => "") false (PDict sample_alert) ++ chr 10)%string.

Lemma sse_delivery_witness :
  let s' := @ids_run (fun _ => "") loads0 (Subscribe_ true :: [Line sample_line; Round 0 true; Line sample_line]) ids0 in
  written_to 0 s'.2 = [@sse_message (fun _ => "") (PDict sample_alert)] /\
  exists rest, messages (H := fun _ => "") loads0 [Line sample_line; Round 0 true; Line sample_line] =
    written_to 0 s'.2 ++ default [] (queues s'.1 !! 0%nat) ++ rest /\ (0%nat ∈ sse_clients s'.1 -> rest = []).
Proof.
  cbv zeta. split; [vm_compute; reflexivity|].
  pose proof (@sse_delivery (fun _ => "") loads0 [] [Line sample_line; Round 0 true; Line sample_line]) as Hd.
  specialize (Hd ltac:(vm_compute; lia)). change (@ids_run (fun _ => "") loads0 [] ids0).1 with ids0 in Hd.
  change (next_stream ids0) with 0%nat in Hd.
  destruct (@ids_run (fun _ => "") loads0 (Subscribe_ true :: _) ids0). exact (proj1 Hd).
Defined.

Lemma cut_off_stream_witness :
  let s := (@ids_run (fun _ => "") loads0 (Subscribe_ true :: repeat (Line sample_line) 257) ids0).1 in
  (exists q, view 0 s = Some (q, false) /\ length q = 256%nat) /\
  let '(s', out) := @ids_run (fun _ => "") loads0 (Line sample_line :: repeat (Round 0 true) 257) s in
  written_to 0 out = repeat (@sse_message (fun _ => "") (PDict sample_alert)) 256 /\ exists q', view 0 s' = Some (q', false).
Proof.
  cbv zeta. set (s := (@ids_run _ loads0 (_ :: _) ids0).1).
  assert (Hv : view 0 s = Some (repeat (@sse_message (fun _ => "") (PDict sample_alert)) 256, false)) by (vm_compute; reflexivity).
  split; [eexists; split; [exact Hv|reflexivity]|].
  assert (Hw : ids_wf s) by apply ids_run_wf, ids0_wf.
  pose proof (@cut_off_stream (fun _ => "") loads0 0 (Line sample_line :: repeat (Round 0 true) 257) s _ Hw Hv) as Hc.
  assert (Hout : written_to 0 (@ids_run (fun _ => "") loads0 (Line sample_line :: repeat (Round 0 true) 257) s).2 =
    repeat (@sse_message (fun _ => "") (PDict sample_alert)) 256) by (vm_compute; reflexivity).
  destruct (@ids_run (fun _ => "") loads0 _ s) as [s' out]. split; [exact Hout|].
  destruct Hc as (q' & Hq & _); [|by exists q'].
  constructor; [by intros [=]|]. apply Forall_forall. intros e He. apply list_elem_of_In, repeat_spec in He as ->. by intros [=].
Defined.

Lemma tail_exactly_once_witness :
  (@tail_run (fun _ => "") loads0 (growing 7 "" [sample_line; ""; (sample_line ++ sample_line)%string]) (tail0, ids0)).1 =
    Tail (Some 7) (3 * String.length sample_line) (Some true) /\
  ring_alerts (@ids_run (fun _ => "") loads0 (map Line (lines_of (py_join "" [sample_line; ""; (sample_line ++ sample_line)%string]))) ids0).1
    = last_n RING_ALERTS (flat_map (alert_event loads0) (lines_of (py_join "" [sample_line; ""; (sample_line ++ sample_line)%string]))).
Proof.
  destruct (@tail_exactly_once (fun _ => "") loads0 7 [sample_line; ""; (sample_line ++ sample_line)%string]) as [Ht Hr].
  - assert (Hb : Forall (benign loads0) (lines_of sample_line)).
    { change (lines_of sample_line) with [sample_line]. apply Forall_cons_2; [vm_compute; exact I|apply Forall_nil_2]. }
    assert (Hw : whole sample_line) by (right; eexists; reflexivity).
    apply Forall_cons_2; [|apply Forall_cons_2; [|apply Forall_cons_2; [|apply Forall_nil_2]]]; (split; [|split; [vm_compute; reflexivity|]]).
    + exact Hw.
    + exact Hb.
    + by left.
    + apply Forall_nil_2.
    + by apply whole_app.
    + rewrite lines_of_app by exact Hw. by apply Forall_app.
  - discriminate.
  - split; [|exact Hr]. etransitivity; [exact (f_equal fst Ht)|vm_compute; reflexivity].
Defined.

Definition first_part : string := py_take 20 (@json_dumps (fun _ => "") false (PDict sample_alert)).
Definition second_part : string := py_drop 20 (@json_dumps (fun _ => "") false (PDict sample_alert)).
Lemma partial_line_lost_witness :
  ring_alerts (@tail_run (fun _ => "") loads0 (growing 7 "" [first_part; (second_part ++ chr 10)%string]) (tail0, ids0)).2 = [] /\
  ring_alerts (@ids_run (fun _ => "") loads0 (map Line (lines_of (first_part ++ second_part ++ chr 10))) ids0).1 = [PDict sample_alert].
Proof.
  destruct (@partial_line_lost (fun _ => "") loads0 7 first_part second_part ids0 (PDict sample_alert)) as [Ht Hr];
    try (vm_compute; (reflexivity || discriminate)).
  - repeat constructor; vm_compute; reflexivity.
  - split; [by rewrite Ht|]. rewrite Hr. vm_compute. reflexivity.
Defined.

(** As Suricata writes it: without spaces. *)
Definition compact_line : string :=
  ("{" ++ dq ++ "event_type" ++ dq ++ ":" ++ dq ++ "alert" ++ dq ++ "," ++ dq ++ "src_ip" ++ dq ++ ":" ++ dq ++ "10.2.100.10" ++ dq ++ "," ++
   dq ++ "alert" ++ dq ++ ":{" ++ dq ++ "signature_id" ++ dq ++ ":9000001}}" ++ chr 10)%string.
Lemma logged_alert_dispatched_witness :
  let line := ("data: " ++ @json_dumps (fun _ => "") false (PDict sample_alert))%string in
  @message_of (fun _ => "") loads0 (Line compact_line) = [(line ++ chr 10 ++ chr 10)%string] /\
  exists a, @Consumer.process_line external0 default_consumer loads0 line true = ([StoreViolation sample_alert; OnAlert a], None).
Proof.
  cbv zeta. destruct (alert_from_raw (H := external0) sample_alert) as [a|] eqn:Ea; [|exfalso; vm_compute in Ea; discriminate].
  destruct (@logged_alert_dispatched external0 (fun _ => "") default_consumer floats0 compact_line sample_alert a true) as [Hm Hc];
    [vm_compute; reflexivity..|exact Ea|].
  split; [exact Hm|]. exists a. exact Hc.
Defined.

(** Positions are advanced by characters but are bytes: after a line with a character
    of two bytes, the last byte of the line is read again. *)
Example tail_counts_characters :
  let line := ("{" ++ dq ++ "a" ++ dq ++ ":" ++ dq ++ str_of_bytes [195; 169] ++ dq ++ "}" ++ chr 10)%string in
  t_pos (@tail_poll (fun _ => "") loads0 (Present 7 (String.length line) line true) (tail0, ids0)).1 = pred (String.length line).
Proof. vm_compute. reflexivity. Qed.
