(* ===== verification/IncidentMemory.v ===== *)
(** * The labelling of past decisions (storage/incident_memory.py)

    The scan of [IncidentLabeler], its question to the IDS and the label of one
    decision, with the path the question takes: the handler of ids-agent/main.go that
    passes it on and the IDS host API of [IdsApi].  The date parser, [isoformat] and
    the text of an exception are parameters; times are microseconds.  The scores sent
    to the tracer are left out. *)
From S2P Require Import Prelude PyVal Json JsonLoads Models Flow Consumer IdsApi Postgres DecisionStore.
Local Open Scope string_scope.
Local Open Scope Z_scope.
Local Open Scope list_scope.

(** What the GET yields: a status with a body ([None] when it is not JSON), or an
    exception with its text. *)
Inductive ids_reply := Reply (status : Z) (body : option pyval) | QueryFailed (text : string).

(** [datetime.fromisoformat]: with a time zone or without. *)
Inductive stamp := Aware (t : Z) | Naive (t : Z).

(** [s.replace("Z", "+00:00")] *)
Fixpoint replace_z (s : string) : string :=
  match s with
  | EmptyString => ""
  | String c s' => if decide (c = "Z"%char) then ("+00:00" ++ replace_z s')%string else String c (replace_z s')
  end.

Definition USEC : Z := 1000000.

Section Labeler.
Context `{PyRepr} `{Postgres} (iso : Z -> string) (fromisoformat : string -> option stamp) (json_error : string).

(** The time of an alert; [None] when it cannot be read. *)
Definition alert_stamp (a : obj) : option stamp :=
  match jget a "timestamp" with PStr t => fromisoformat (replace_z t) | _ => None end.

(** The alerts of the source. *)
Fixpoint recurrences (src : pyval) (alerts : list pyval) : res (list obj) :=
  match alerts with
  | [] => Ok []
  | PDict a :: rest =>
      let* l := recurrences src rest in
      Ok (if bool_decide (jget a "src_ip" = src) then a :: l else l)
  | _ => Raise (AttributeError "get")
  end.

(** The recurrences before and after the end of the block; comparing a time without a
    zone raises. *)
Fixpoint split_ttl (ttl_end : Z) (l : list obj) : res (nat * nat) :=
  match l with
  | [] => Ok (0%nat, 0%nat)
  | a :: rest =>
      match alert_stamp a with
      | None => split_ttl ttl_end rest
      | Some (Naive _) => Raise (TypeError "can't compare offset-naive and offset-aware datetimes")
      | Some (Aware t) =>
          let* '(within, after) := split_ttl ttl_end rest in
          Ok (if t <? ttl_end then (S within, after) else (within, S after))
      end
  end.

Definition nat_str (n : nat) : string := str_of_Z (Z.of_nat n).
Definition ttl_of (d : row) : Z := match column d "ttl_seconds" with PInt z => if z =? 0 then 3600 else z | _ => 3600 end.
Definition ttl_end (d : row) : Z := created_at d + ttl_of d * USEC.

Definition judge (d : row) (alerts : list pyval) : res (string * string) :=
  let* recs := recurrences (column d "alert_src_ip") alerts in
  let* '(within, after) := split_ttl (ttl_end d) recs in
  match recs, within with
  | [], _ => Ok ("true_positive", ("No recurrence from " ++ py_str (column d "alert_src_ip") ++ " in lookahead window. Block effective.")%string)
  | _, S _ => Ok ("recurrence", (nat_str within ++ " alerts during active TTL — rule may have been bypassed or attacker persisted")%string)
  | _, O => Ok ("true_positive", ("Recurrence only after TTL expired (" ++ nat_str after ++ " events). Block was effective during active period.")%string)
  end.

(** The answer of the IDS to [since] and [last]. *)
Definition label_one (ids : string -> string -> ids_reply) (d : row) : res (string * string) :=
  if bool_decide (column d "alert_src_ip" = PNone) then Ok ("inconclusive", "missing alert_src_ip") else
  match ids (iso (created_at d)) "200" with
  | QueryFailed text => Ok ("inconclusive", ("IDS query failed: " ++ text)%string)
  | Reply status body =>
      if negb (status =? 200) then Ok ("inconclusive", ("IDS API status " ++ str_of_Z status)%string) else
      match body with
      | None => Ok ("inconclusive", ("IDS query failed: " ++ json_error)%string)
      | Some payload =>
          match (match payload with PDict p => jget_or p "alerts" (PList []) | v => v end) with
          | PList alerts => judge d alerts
          | _ => Ok ("inconclusive", "unexpected IDS payload")
          end
      end
  end.

(** ** The scan *)
Record labeler := Labeler { label_age_min : Z }.

Definition pending (cutoff : Z) (r : row) : bool :=
  bool_decide (column r "outcome" = PStr "enforced") && bool_decide (column r "retrospective_outcome" = PNone) &&
  (created_at r <=? cutoff).

Definition row_id (r : row) : string := match column r "id" with PStr i => i | _ => "" end.
Definition label_row (now : Z) (label notes : string) (r : row) : row :=
  set_labeled now (set_columns [("retrospective_outcome", PStr label); ("retrospective_notes", PStr notes)] r).

(** The updates for the decisions, each with the IDS as it answers then and the clock. *)
Fixpoint label_rows (ids : nat -> string -> string -> ids_reply) (now : nat -> Z) (k : nat) (ds : list row)
    : res (list (string * (row -> row))) :=
  match ds with
  | [] => Ok []
  | d :: ds' =>
      let* '(label, notes) := label_one (ids k) d in
      let* us := label_rows ids now (S k) ds' in
      Ok ((row_id d, label_row (now k) label notes) :: us)
  end.

Definition label_pending (cfg : labeler) (scan_time : Z) (ids : nat -> string -> string -> ids_reply) (now : nat -> Z) (s : store)
    : res (nat * store) :=
  match s with
  | None => Ok (0%nat, None)
  | Some db =>
      let cutoff := scan_time - label_age_min cfg * 60 * USEC in
      let* decisions := pg_select Decisions (pending cutoff) Unordered (Some 20) db in
      match decisions with
      | [] => Ok (0%nat, Some db)
      | _ =>
          let* us := label_rows ids now 0 decisions in
          let* db' := pg_commit (row_updates us) db in
          Ok (length decisions, Some db')
      end
  end.

(** One round of [_run_loop]: an exception is logged. *)
Definition labeler_round (cfg : labeler) (scan_time : Z) (ids : nat -> string -> string -> ids_reply) (now : nat -> Z) (s : store)
    : store :=
  match label_pending cfg scan_time ids now s with Ok (_, s') => s' | Raise _ => s end.

(** What the rounds of the loop meet; the result counts the scans that did not raise. *)
Record round_input := RoundInput { scan_time : Z; ids_answers : nat -> string -> string -> ids_reply; clocks : nat -> Z }.
Fixpoint scan_loop (cfg : labeler) (rounds : list round_input) (s : store) : nat * store :=
  match rounds with
  | [] => (0%nat, s)
  | x :: rest =>
      let ok := is_ok (label_pending cfg (scan_time x) (ids_answers x) (clocks x) s) in
      let '(n, s) := scan_loop cfg rest (labeler_round cfg (scan_time x) (ids_answers x) (clocks x) s) in
      (if ok then S n else n, s)
  end.

(** ** The way to the IDS *)
(** [alertsHandler] of the ids-agent, over the IDS host's answer to a target; [proxyGet]
    answers with status 200 whatever the host's status is. *)
Definition alertsHandler (json_loads : string -> option pyval) (host : string -> option string) (since last : string) : ids_reply :=
  match host ("/alerts" ++ (if nonempty last then "?last=" ++ last else ""))%string with
  | None => Reply 503 (Some (PDict [("status", PStr "offline")]))
  | Some body => Reply 200 (json_loads body)
  end.

(** The body the IDS host API sends. *)
Definition ids_host (strptime : string -> option Z) (suricata : bool) (ts : string) (now uptime : Z) (s : ids_state)
    (target : string) : option string :=
  match route strptime suricata ts now uptime target s with
  | Json200 v => Some (json_dumps false v)
  | Error500 => Some ""
  | Stream => None
  end.
End Labeler.

(** ** Lemmas *)
Section LabelerLemmas.
Context `{PyRepr} (fromisoformat : string -> option stamp).
#[local] Abbreviation alert_stamp := (alert_stamp fromisoformat).

(** An alert of the source within the time of the block. *)
Definition recurs (src : pyval) (until : Z) (alerts : list pyval) : Prop :=
  exists a t, PDict a ∈ alerts /\ jget a "src_ip" = src /\ alert_stamp a = Some (Aware t) /\ t < until.

(** An object whose time, if it has one, has a zone. *)
Definition zoned (v : pyval) : Prop := exists a, v = PDict a /\ forall t, alert_stamp a <> Some (Naive t).

Lemma recurrences_ok src alerts : Forall zoned alerts ->
  exists l, recurrences src alerts = Ok l /\ (forall a, a ∈ l <-> PDict a ∈ alerts /\ jget a "src_ip" = src) /\
    Forall (fun a => forall t, alert_stamp a <> Some (Naive t)) l.
Proof.
  induction 1 as [|v alerts (a & -> & Ha) _ (l & Hl & Hin & Hz)]; cbn [recurrences].
  - exists []. split; [done|]. split; [|constructor]. intros a. split; [by intros ?%not_elem_of_nil|by intros [?%not_elem_of_nil _]].
  - rewrite Hl. cbn [rbind]. case_bool_decide as Hs.
    + exists (a :: l). split; [done|]. split; [|by constructor]. intros b. rewrite !elem_of_cons, Hin. split.
      * intros [->|[? ?]]; [split; [by left|done]|split; [by right|done]].
      * intros [[[= ->]|?] ?]; [by left|by right].
    + exists l. split; [done|]. split; [|done]. intros b. rewrite elem_of_cons, Hin. split; [tauto|].
      intros [[[= ->]|?] ?]; done.
Qed.

Lemma split_ttl_ok until l : Forall (fun a => forall t, alert_stamp a <> Some (Naive t)) l ->
  exists within after, split_ttl fromisoformat until l = Ok (within, after) /\
    ((0 < within)%nat <-> exists a t, a ∈ l /\ alert_stamp a = Some (Aware t) /\ t < until).
Proof.
  induction 1 as [|a l Ha _ (w & n & Hs & Hw)]; cbn [split_ttl].
  - exists 0%nat, 0%nat. split; [done|]. split; [lia|by intros (a & t & ?%not_elem_of_nil & _)].
  - destruct (alert_stamp a) as [[t|t]|] eqn:Ea; [|by destruct (Ha t)|].
    + rewrite Hs. cbn [rbind]. destruct (Z.ltb_spec t until) as [Hlt|Hge].
      * exists (S w), n. split; [done|]. split; [|lia]. intros _. exists a, t. split; [by left|done].
      * exists w, (S n). split; [done|]. rewrite Hw. split.
        -- intros (b & t' & Hb & Ht). exists b, t'. split; [by right|done].
        -- intros (b & t' & [->|Hb]%elem_of_cons & Ht & Hlt); [rewrite Ea in Ht; injection Ht as ->; lia|by exists b, t'].
    + exists w, n. split; [done|]. rewrite Hw. split.
      * intros (b & t' & Hb & Ht). exists b, t'. split; [by right|done].
      * intros (b & t' & [->|Hb]%elem_of_cons & Ht & Hlt); [congruence|by exists b, t'].
Qed.

Lemma judge_spec d alerts : Forall zoned alerts -> exists label notes, judge fromisoformat d alerts = Ok (label, notes) /\
  (label = "recurrence" \/ label = "true_positive") /\
  (label = "recurrence" <-> recurs (column d "alert_src_ip") (ttl_end d) alerts).
Proof.
  intros Hz. destruct (recurrences_ok (column d "alert_src_ip") alerts Hz) as (l & Hl & Hin & Hs).
  destruct (split_ttl_ok (ttl_end d) l Hs) as (w & n & Hw & Hpos).
  assert (Hrec : (0 < w)%nat <-> recurs (column d "alert_src_ip") (ttl_end d) alerts).
  { rewrite Hpos. split; intros (a & t & Ha & Ht); exists a, t; [apply Hin in Ha as []; tauto|].
    split; [|tauto]. apply Hin. tauto. }
  unfold judge. rewrite Hl. cbn [rbind]. rewrite Hw. cbn [rbind].
  destruct l as [|a l]; [|destruct w as [|w]]; do 2 eexists; (split; [done|]); split; auto; rewrite <- Hrec; split; try done; try lia.
  intros ?%Hpos. destruct H0 as (a & t & ?%not_elem_of_nil & _). done.
Qed.
End LabelerLemmas.

Section ScanLemmas.
Context `{PyRepr} `{PostgresLaws} (iso : Z -> string) (fromisoformat : string -> option stamp) (json_error : string).
#[local] Abbreviation label_one := (label_one iso fromisoformat json_error).
#[local] Abbreviation label_rows := (label_rows iso fromisoformat json_error).
#[local] Abbreviation label_pending := (label_pending iso fromisoformat json_error).

(** The texts of the exceptions can be stored. *)
Definition texts_storable (ids : nat -> string -> string -> ids_reply) : Prop :=
  storable None json_error = true /\ forall k since last text, ids k since last = QueryFailed text -> storable None text = true.

(** A value between fixed texts. *)
Lemma storable_within a t b : storable None a = true -> storable None b = true -> storable None t = true ->
  storable None (a ++ t ++ b) = true.
Proof. auto using storable_app. Qed.

Lemma label_texts ids k d label notes : texts_storable ids -> row_fits d = true ->
  label_one (ids k) d = Ok (label, notes) -> storable None label = true /\ storable None notes = true.
Proof.
  intros [Hj Hq] Hd Hl.
  assert (Hsrc : exists src, column d "alert_src_ip" = PStr src /\ storable None src = true).
  { unfold row_fits in Hd. rewrite forallb_forall in Hd.
    assert (Hf : fits (TString None, false) (column d "alert_src_ip") = true)
      by (apply (Hd ("alert_src_ip", (TString None, false))), list_elem_of_In; unfold SCHEMA; set_solver).
    destruct (column d "alert_src_ip"); try done. eauto. }
  destruct Hsrc as (src & Esrc & Hsrc). unfold IncidentMemory.label_one in Hl.
  rewrite Esrc, bool_decide_false in Hl by done.
  destruct (ids k _ _) as [status body|text] eqn:Er.
  2: { injection Hl as <- <-. split; [vm_compute; reflexivity|]. apply storable_app; [vm_compute; reflexivity|by eapply Hq]. }
  destruct (negb _).
  { injection Hl as <- <-. split; [vm_compute; reflexivity|]. apply storable_app; [vm_compute; reflexivity|apply storable_number]. }
  destruct body as [payload|].
  2: { injection Hl as <- <-. split; [vm_compute; reflexivity|]. by apply storable_app; [vm_compute; reflexivity|]. }
  destruct (match payload with PDict p => _ | v => v end); try (injection Hl as <- <-; split; vm_compute; reflexivity).
  unfold judge in Hl. rewrite Esrc in Hl. apply rbind_ok in Hl as (recs & _ & ([w n] & _ & Hl)%rbind_ok).
  destruct recs as [|]; [|destruct w]; injection Hl as <- <-; (split; [vm_compute; reflexivity|]).
  - apply storable_within; [vm_compute; reflexivity..|done].
  - apply storable_within; [vm_compute; reflexivity..|apply storable_number].
  - apply storable_app; [apply storable_number|vm_compute; reflexivity].
Qed.

(** An update that labels. *)
Definition labels (f : row -> row) : Prop :=
  update_fits f /\ uniform f /\ (forall r, column (f r) "id" = column r "id" /\ column (f r) "outcome" = column r "outcome" /\
    created_at (f r) = created_at r /\ column (f r) "retrospective_outcome" <> PNone).

Lemma label_row_labels now label notes : storable None label = true -> storable None notes = true -> labels (label_row now label notes).
Proof.
  intros Hl Hn. assert (Hcol : forall r k, column (label_row now label notes r) k =
    if decide (k = "retrospective_notes") then PStr notes else if decide (k = "retrospective_outcome") then PStr label else column r k).
  { intros r k. change (column (label_row now label notes r) k) with
      (column (set_columns [("retrospective_outcome", PStr label); ("retrospective_notes", PStr notes)] r) k).
    rewrite column_set_columns. cbn [rev app dict_get]. repeat case_decide; done. }
  split; [|split].
  - intros r Hr. split; [|by rewrite Hcol]. unfold row_fits in *. rewrite forallb_forall in *. intros c Hc. specialize (Hr c Hc).
    rewrite Hcol. apply list_elem_of_In in Hc. unfold SCHEMA in Hc. rewrite !elem_of_cons in Hc.
    destruct_or! Hc; try (by apply not_elem_of_nil in Hc); subst c; first [exact Hr|exact Hl|exact Hn].
  - apply (uniform_compose (set_labeled now) (set_columns _)); [apply uniform_labeled|apply uniform_columns].
  - intros r. rewrite !Hcol. done.
Qed.

Lemma label_rows_spec ids now ds : forall k us, texts_storable ids -> Forall (fun d => row_fits d = true) ds ->
  label_rows ids now k ds = Ok us -> us.*1 = map row_id ds /\ Forall (fun u => labels u.2) us.
Proof.
  induction ds as [|d ds IH]; intros k us Ht Hd; cbn; [by intros [= <-]|]. apply Forall_cons in Hd as [Hd Hds].
  intros ([label notes] & Hl & (us' & Hus & [= <-])%rbind_ok)%rbind_ok. destruct (IH _ _ Ht Hds Hus) as [E Hall].
  cbn. split; [by f_equal|]. constructor; [|done]. destruct (label_texts _ _ _ _ _ Ht Hd Hl). by apply label_row_labels.
Qed.

(** ** The effect of the updates on one row *)
Lemma labels_id us r : Forall (fun u : string * (row -> row) => labels u.2) us ->
  column (updated us r) "id" = column r "id" /\ column (updated us r) "outcome" = column r "outcome" /\
  created_at (updated us r) = created_at r.
Proof.
  intros Hu. revert r. induction Hu as [|[i f] us (_ & _ & Hk) _ IH]; intros r; [done|].
  change (updated ((i, f) :: us) r) with (updated us (set_row (has_id i) f r)).
  destruct (IH (set_row (has_id i) f r)) as (-> & -> & ->). unfold set_row. destruct (has_id i r); [|done].
  by destruct (Hk r) as (? & ? & ? & ?).
Qed.

Lemma updated_other us r : (forall i, i ∈ us.*1 -> has_id i r = false) -> updated us r = r.
Proof.
  induction us as [|[i f] us IH]; intros Hn; [done|]. cbn. unfold set_row. rewrite Hn by (by left). apply IH.
  intros j Hj. apply Hn. by right.
Qed.

Lemma updated_labeled us r : Forall (fun u : string * (row -> row) => labels u.2) us ->
  (exists i, i ∈ us.*1 /\ has_id i r = true) \/ column r "retrospective_outcome" <> PNone ->
  column (updated us r) "retrospective_outcome" <> PNone.
Proof.
  intros Hu. revert r. induction Hu as [|[i f] us (_ & _ & Hk) _ IH]; intros r Hor.
  { destruct Hor as [(i & ?%not_elem_of_nil & _)|Hne]; done. }
  cbn. apply IH. unfold set_row. destruct (has_id i r) eqn:Ei; [right; by apply Hk|].
  destruct Hor as [(j & Hj & Hij)|?]; [|by right].
  left. exists j. split; [|done]. apply elem_of_cons in Hj as [->|]; [cbn in Hij; congruence|done].
Qed.

(** ** One scan *)
(** Enforced and without a label. *)
Definition unlabeled (r : row) : Prop := column r "outcome" = PStr "enforced" /\ column r "retrospective_outcome" = PNone.
#[export] Instance unlabeled_dec r : Decision (unlabeled r).
Proof. unfold unlabeled. apply _. Defined.

Lemma pending_unlabeled cutoff r : pending cutoff r = true <-> unlabeled r /\ created_at r <= cutoff.
Proof. unfold pending, unlabeled. rewrite !andb_true_iff, !bool_decide_eq_true, Z.leb_le. tauto. Qed.

(** Every row fits the schema; in particular its key is a text. *)
Definition typed (s : pg) : Prop := forall t r, r ∈ pg_rows s t -> row_fits r = true.
Lemma typed_key s t r : typed s -> r ∈ pg_rows s t -> exists i, column r "id" = PStr i.
Proof.
  intros Hs Hr. specialize (Hs t r Hr). unfold row_fits in Hs. cbn [forallb SCHEMA fst snd] in Hs.
  apply andb_prop in Hs as [Hs _]. destruct (column r "id"); try done. eauto.
Qed.

Definition cutoff_of (cfg : labeler) (time : Z) : Z := time - label_age_min cfg * 60 * USEC.

(** A scan that does not raise updates both tables, by label updates of distinct pending
    rows, at most 20 and fewer only when no more are pending. *)
Lemma scan_effect cfg time ids now s n s' : texts_storable ids -> typed s -> label_pending cfg time ids now (Some s) = Ok (n, Some s') ->
  (keyed s -> keyed s') /\
  exists us ds rest, (forall t, pg_rows s' t ≡ₚ map (updated us) (pg_rows s t)) /\ Forall (fun u => labels u.2) us /\
    us.*1 = map row_id ds /\ n = length ds /\ (length ds <= 20)%nat /\ (rest <> [] -> length ds = 20%nat) /\
    ds ++ rest ≡ₚ filter (fun r => pending (cutoff_of cfg time) r = true) (pg_rows s Decisions).
Proof.
  intros Ht Hx. cbn [IncidentMemory.label_pending]. fold (cutoff_of cfg time).
  intros (sel & Hsel & Hrest)%rbind_ok. destruct (select_rows _ _ _ _ _ _ Hsel) as (l' & Hl' & _ & ->); [by intros m [= <-]|].
  cbn [limited] in *. change (Z.to_nat 20) with 20%nat in *.
  assert (Hlen : (length (take 20 l') <= 20)%nat) by (rewrite length_take; lia).
  assert (Hmore : drop 20 l' <> [] -> length (take 20 l') = 20%nat).
  { intros Hd. rewrite length_take. destruct (decide (length l' <= 20)%nat); [|lia]. by rewrite drop_ge in Hd by lia. }
  assert (Hperm : take 20 l' ++ drop 20 l' ≡ₚ filter (fun r => pending (cutoff_of cfg time) r = true) (pg_rows s Decisions))
    by (by rewrite take_drop).
  destruct (take 20 l') as [|d ds'] eqn:Etake.
  - injection Hrest as <- <-. split; [done|]. exists [], [], (drop 20 l'). split_and!; try done.
    intros t. change (updated []) with (fun r : row => r). by rewrite map_id.
  - apply rbind_ok in Hrest as (us & Hus & (s1 & Hc & [= <- <-])%rbind_ok).
    assert (Hd : Forall (fun d => row_fits d = true) (d :: ds')).
    { apply Forall_forall. intros r Hr. apply (Hx Decisions).
      assert (Hr' : r ∈ (d :: ds') ++ drop 20 l') by (apply elem_of_app; by left). rewrite Hperm in Hr'.
      by apply list_elem_of_filter in Hr' as []. }
    destruct (label_rows_spec _ _ _ _ _ Ht Hd Hus) as [Hids Hall].
    split; [intros _ t; by eapply commit_unique|]. exists us, (d :: ds'), (drop 20 l'). split_and!; try done.
    intros t. apply commit_row_updates; [done|]. eapply Forall_impl; [exact Hall|]. by intros u (? & _).
Qed.

(** Rows of a table with one key are the same row. *)
Lemma same_key s t a b : keyed s -> typed s -> a ∈ pg_rows s t -> b ∈ pg_rows s t -> has_id (row_id a) b = true -> b = a.
Proof.
  intros Hk Hx Ha Hb Hi. destruct (typed_key s t a Hx Ha) as [i Ea]. unfold row_id in Hi. rewrite Ea in Hi.
  apply (unique_id s t i); try done. unfold has_id. by rewrite bool_decide_true.
Qed.
Lemma own_key s t a : typed s -> a ∈ pg_rows s t -> has_id (row_id a) a = true.
Proof. intros Hx Ha. destruct (typed_key s t a Hx Ha) as [i Ea]. unfold row_id, has_id. rewrite Ea. by apply bool_decide_true. Qed.

Lemma scan_labels cfg time ids now s n s' : texts_storable ids -> keyed s -> typed s ->
  Forall (fun r => unlabeled r -> created_at r <= cutoff_of cfg time) (pg_rows s Decisions) ->
  label_pending cfg time ids now (Some s) = Ok (n, Some s') ->
  keyed s' /\ typed s' /\
  (length (filter unlabeled (pg_rows s' Decisions)) <= length (filter unlabeled (pg_rows s Decisions)) - 20)%nat /\
  (forall r', r' ∈ pg_rows s' Decisions -> exists r, r ∈ pg_rows s Decisions /\ created_at r' = created_at r /\
     (unlabeled r' -> r' = r)) /\
  (forall r, r ∈ pg_rows s Decisions -> ~ unlabeled r -> r ∈ pg_rows s' Decisions).
Proof.
  intros Ht Hk Hx Hold Hp. destruct (scan_effect _ _ _ _ _ _ _ Ht Hx Hp) as (Hk' & us & ds & rest & Hrows & Hall & Hids & _ & H20 & Hfull & Hsel).
  set (R := pg_rows s Decisions) in *.
  assert (Hin : forall d, d ∈ ds ++ rest -> d ∈ R /\ unlabeled d).
  { intros d Hd. rewrite Hsel in Hd. apply list_elem_of_filter in Hd as [[Hu _]%pending_unlabeled Hd]. done. }
  assert (Hcase : forall r, r ∈ R -> (r ∈ ds /\ ~ unlabeled (updated us r)) \/ ((r ∉ ds) /\ updated us r = r)).
  { intros r Hr. destruct (existsb (fun d => has_id (row_id d) r) ds) eqn:E.
    - left. apply existsb_exists in E as (d & Hd%list_elem_of_In & Hi). split.
      + rewrite (same_key s Decisions d r); try done. apply Hin, elem_of_app. by left.
      + intros [_ Hn]. revert Hn. apply updated_labeled; [done|]. left. exists (row_id d). split; [|done].
        rewrite Hids. by apply (list_elem_of_fmap_2 row_id).
    - right. split.
      { intros Hd. apply not_true_iff_false in E. apply E, existsb_exists. exists r. split; [by apply list_elem_of_In|by eapply own_key]. }
      apply updated_other. intros i Hi. rewrite Hids in Hi. apply elem_of_map in Hi as (d & -> & Hd).
      destruct (has_id (row_id d) r) eqn:Eh; [|done]. rewrite <- E. symmetry. apply existsb_exists. exists d. by rewrite <- list_elem_of_In. }
  assert (Hback : forall r', r' ∈ pg_rows s' Decisions -> exists r, r' = updated us r /\ r ∈ R)
    by (intros r' Hr'; rewrite Hrows in Hr'; by apply elem_of_map).
  split_and!; [by apply Hk'| | | |].
  - intros t r' Hr'. rewrite Hrows in Hr'. apply elem_of_map in Hr' as (r & -> & Hr).
    specialize (Hx t r Hr). clear -Hall Hx. revert r Hx. induction Hall as [|[i f] us (Hf & _ & _) _ IH]; intros r Hr; [done|].
    apply IH. unfold set_row. cbn [fst snd]. destruct (has_id i r); [by apply Hf|done].
  - set (others := filter (fun r => ~ pending (cutoff_of cfg time) r = true) R).
    assert (Hsplit : R ≡ₚ (ds ++ rest) ++ others) by (rewrite Hsel; apply filter_split).
    assert (Hoth : forall r, r ∈ others -> r ∈ R /\ ~ unlabeled r).
    { intros r [Hnp Hr]%list_elem_of_filter. split; [done|]. intros Hu. apply Hnp, pending_unlabeled. split; [done|].
      rewrite Forall_forall in Hold. by apply Hold. }
    rewrite (Hrows Decisions). fold R. rewrite Hsplit, !map_app, !filter_app, !length_app.
    rewrite (filter_none _ (map (updated us) ds)), (filter_none _ (map (updated us) others)), (filter_none _ others).
    + pose proof (length_filter unlabeled (map (updated us) rest)) as Hle. rewrite length_map in Hle.
      rewrite (filter_all _ ds), (filter_all _ rest) by (apply Forall_forall; intros r Hr; apply Hin, elem_of_app; tauto).
      cbn [length]. destruct rest as [|x rest]; [cbn; lia|]. rewrite Hfull by done. cbn in *. lia.
    + apply Forall_forall. intros r Hr. by apply Hoth.
    + apply Forall_forall. intros r' (r & -> & Hr)%elem_of_map. destruct (Hoth r Hr) as [HrR Hn].
      destruct (Hcase r HrR) as [[_ ?]|[_ ->]]; done.
    + apply Forall_forall. intros r' (r & -> & Hr)%elem_of_map. destruct (Hcase r) as [[_ ?]|[? _]]; try done.
      apply Hin, elem_of_app. by left.
  - intros r' (r & -> & Hr)%Hback. exists r. destruct (labels_id us r Hall) as (_ & _ & ->). split; [done|]. split; [done|].
    intros Hu. by destruct (Hcase r Hr) as [[_ ?]|[_ ?]].
  - intros r Hr Hn. rewrite Hrows. apply elem_of_map. exists r. split; [|done].
    destruct (Hcase r Hr) as [[Hd _]|[_ ?]]; [|done]. destruct Hn. apply Hin, elem_of_app. by left.
Qed.

(** ** The loop *)
Definition round_ok (cfg : labeler) (c0 : Z) (x : round_input) : Prop :=
  texts_storable (ids_answers x) /\ c0 <= cutoff_of cfg (scan_time x).
#[local] Abbreviation scan_loop := (scan_loop iso fromisoformat json_error).

Lemma loop_labels cfg c0 rounds : forall s n s', keyed s -> typed s -> Forall (round_ok cfg c0) rounds ->
  Forall (fun r => unlabeled r -> created_at r <= c0) (pg_rows s Decisions) ->
  scan_loop cfg rounds (Some s) = (n, s') ->
  exists db, s' = Some db /\
    (length (filter unlabeled (pg_rows db Decisions)) <= length (filter unlabeled (pg_rows s Decisions)) - 20 * n)%nat /\
    (forall r, r ∈ pg_rows s Decisions -> ~ unlabeled r -> r ∈ pg_rows db Decisions).
Proof.
  induction rounds as [|x rounds IH]; intros s n s' Hk Hx Hr Hold; cbn [IncidentMemory.scan_loop].
  - intros [= <- <-]. exists s. split_and!; [done|lia|done].
  - apply Forall_cons in Hr as [[Ht Hc] Hr]. unfold labeler_round.
    destruct (label_pending cfg (scan_time x) (ids_answers x) (clocks x) (Some s)) as [[m s1]|e] eqn:E; cbn [is_ok].
    + assert (Hs1 : exists db, s1 = Some db).
      { cbn in E. apply rbind_ok in E as (sel & _ & E). destruct sel; [injection E as _ <-; by eexists|].
        apply rbind_ok in E as (us & _ & (db & _ & [= _ <-])%rbind_ok). by eexists. }
      destruct Hs1 as [db ->].
      assert (Hold1 : Forall (fun r => unlabeled r -> created_at r <= cutoff_of cfg (scan_time x)) (pg_rows s Decisions)).
      { eapply Forall_impl; [exact Hold|]. cbn. intros r Hle Hu. specialize (Hle Hu). lia. }
      destruct (scan_labels _ _ _ _ _ _ _ Ht Hk Hx Hold1 E) as (Hk1 & Hx1 & Hlen & Hold2 & Hkeep).
      destruct (scan_loop cfg rounds (Some db)) as [n' s2] eqn:El. intros [= <- <-].
      destruct (IH _ _ _ Hk1 Hx1 Hr ltac:(apply Forall_forall; intros r' Hr' Hu;
        destruct (Hold2 r' Hr') as (r & HrR & -> & Heq); specialize (Heq Hu); subst r'; rewrite Forall_forall in Hold; by apply Hold) El)
        as (db' & -> & Hlen' & Hkeep').
      exists db'. split; [done|]. split; [lia|]. intros r HrR Hn. apply Hkeep'; [by apply Hkeep|done].
    + destruct (scan_loop cfg rounds (Some s)) as [n' s2] eqn:El. intros [= <- <-]. by apply IH.
Qed.
End ScanLemmas.

(** ** Properties *)
(** C31: the labeller gets to every decision whatever the IDS and the database do in between: after as
    many scans without an exception as it takes to go through the enforced decisions 20 at
    a time, each of them has a label; a row that was labelled, or that was not enforced, is
    never changed. *)
Theorem decisions_labeled `{PyRepr} `{PostgresLaws} iso fromisoformat json_error cfg c0 rounds (s : pg) n s' :
  keyed s -> typed s -> Forall (round_ok json_error cfg c0) rounds ->
  Forall (fun r => unlabeled r -> created_at r <= c0) (pg_rows s Decisions) ->
  scan_loop iso fromisoformat json_error cfg rounds (Some s) = (n, s') ->
  (length (filter unlabeled (pg_rows s Decisions)) <= 20 * n)%nat ->
  exists db, s' = Some db /\
    (forall r, r ∈ pg_rows db Decisions -> column r "outcome" = PStr "enforced" -> column r "retrospective_outcome" <> PNone) /\
    (forall r, r ∈ pg_rows s Decisions -> ~ unlabeled r -> r ∈ pg_rows db Decisions).
Proof.
  intros Hk Hx Hr Hold Hrun Hn. destruct (loop_labels _ _ _ _ _ _ _ _ _ Hk Hx Hr Hold Hrun) as (db & -> & Hlen & Hkeep).
  exists db. split; [done|]. split; [|done]. intros r Hin Ho Hnone.
  assert (Hf : r ∈ filter unlabeled (pg_rows db Decisions)) by (by apply list_elem_of_filter).
  assert (Hz : length (filter unlabeled (pg_rows db Decisions)) = 0%nat) by lia.
  apply nil_length_inv in Hz. rewrite Hz in Hf. by apply not_elem_of_nil in Hf.
Qed.

(** through the ids-agent the question of the labeller reaches the IDS host without its
    time: the label of a decision is "recurrence" exactly when one of the newest 200
    alerts of the ring is of its source and before the end of its block, however long
    before the decision it was, the very alert the decision was about included;
    otherwise it is "true_positive". *)
Theorem system_label `{PyRepr} json_loads iso fromisoformat json_error strptime suricata ts now uptime (s : ids_state) page d :
  alerts_page [("last", "200")] s = Ok page -> json_loads (json_dumps false page) = Some page ->
  Forall (zoned fromisoformat) (last_n 200 (ring_alerts s)) -> column d "alert_src_ip" <> PNone ->
  exists label notes,
    label_one iso fromisoformat json_error
      (alertsHandler json_loads (ids_host strptime suricata ts now uptime s)) d = Ok (label, notes) /\
    (label = "recurrence" \/ label = "true_positive") /\
    (label = "recurrence" <-> recurs fromisoformat (column d "alert_src_ip") (ttl_end d) (last_n 200 (ring_alerts s))).
Proof.
  intros Hp Hj Hz Hsrc. unfold label_one. rewrite bool_decide_false by done.
  assert (Hr : route strptime suricata ts now uptime "/alerts?last=200" s = Json200 page).
  { unfold route. replace (split_query "/alerts?last=200") with ("/alerts", "last=200") by reflexivity.
    replace (query_pairs (split_on "&"%char "last=200") []) with (Ok (A := list (string * string)) [("last", "200")]) by reflexivity.
    cbn match. do 2 (rewrite bool_decide_false by done). rewrite bool_decide_true by done. by rewrite Hp. }
  unfold alertsHandler, ids_host. change ("/alerts" ++ (if nonempty "200" then "?last=" ++ "200" else ""))%string with "/alerts?last=200".
  rewrite Hr. rewrite Z.eqb_refl. cbn [negb]. rewrite Hj.
  unfold alerts_page in Hp. change (default "" (dict_get [("last", "200")] "since")) with "" in Hp.
  replace (res_or 0 _) with 200 in Hp by reflexivity.
  change (get_alerts 200 "" s) with (Ok (last_n 200 (ring_alerts s))) in Hp. cbn [rbind] in Hp.
  apply rbind_ok in Hp as (sids & _ & [= <-]). by apply judge_spec.
Qed.

(** ** Examples *)
#[local] Instance repr0 : PyRepr := fun _ => "".
(** A parser of epoch seconds, all with a time zone. *)
Definition stamp0 (t : string) : option stamp := match py_int t with Ok z => Some (Aware (z * USEC)) | _ => None end.

Definition own_alert : obj :=
  [("timestamp", PStr "100"); ("event_type", PStr "alert"); ("src_ip", PStr "10.1.100.10");
         ("alert", PDict [("signature_id", PInt 9000001)])].
(** The decision was made five seconds after its alert, and nothing happened since. *)
Definition own_decision : row :=
  Row (105 * USEC) None None None
    [("id", PStr "d1"); ("alert_src_ip", PStr "10.1.100.10"); ("outcome", PStr "enforced"); ("ttl_seconds", PInt 3600);
     ("retrospective_outcome", PNone)].
Definition own_ring : ids_state := set_alerts [PDict own_alert] ids0.

Lemma system_label_witness : exists notes,
  label_one str_of_Z stamp0 "" (alertsHandler loads0 (ids_host (fun _ => None) true "" 0 0 own_ring)) own_decision = Ok ("recurrence", notes).
Proof.
  destruct (system_label loads0 str_of_Z stamp0 "" (fun _ => None) true "" 0 0 own_ring
    (res_or PNone (alerts_page [("last", "200")] own_ring)) own_decision) as (label & notes & -> & _ & Hl).
  - vm_compute. reflexivity.
  - vm_compute. reflexivity.
  - apply Forall_cons_2; [|apply Forall_nil_2]. eexists. split; [reflexivity|]. intros t [=].
  - discriminate.
  - exists notes. rewrite (proj2 Hl); [done|]. exists own_alert, (100 * USEC). split; [by left|]. by vm_compute.
Defined.

(** Two enforced decisions of one source. *)
Definition enforced_data (i : string) : obj := dict_set (sample_data i) "outcome" (PStr "enforced").
Definition enforced_db : @pg pg0 :=
  let add i s := match save_decision 5 6 (enforced_data i) None (Some s) with Ok (Some s') => s' | _ => s end in
  add "d2" (add "d1" pg_empty).

(** The first time the IDS answers with an alert whose time has no zone, then it is down. *)
Definition stamp_n (t : string) : option stamp := if bool_decide (t = "n") then Some (Naive 0) else None.
Definition no_zone : ids_reply := Reply 200 (Some (PList [PDict [("src_ip", PStr "10.1.100.10"); ("timestamp", PStr "n")]])).
Definition sample_rounds : list round_input :=
  [RoundInput (7 * USEC) (fun _ _ _ => no_zone) (fun _ => 0); RoundInput (8 * USEC) (fun _ _ _ => Reply 503 None) (fun _ => 0)].

Lemma decisions_labeled_witness :
  let out := scan_loop str_of_Z stamp_n "" (Labeler 0) sample_rounds (Some enforced_db) in
  out.1 = 1%nat /\ exists db, out.2 = Some db /\
    forall r, r ∈ pg_rows db Decisions -> column r "outcome" = PStr "enforced" -> column r "retrospective_outcome" <> PNone.
Proof.
  destruct (scan_loop str_of_Z stamp_n "" (Labeler 0) sample_rounds (Some enforced_db)) as [n s'] eqn:E. cbn [fst snd].
  assert (Hn : n = 1%nat) by (apply (f_equal fst) in E; vm_compute in E; congruence).
  split; [done|].
  destruct (decisions_labeled str_of_Z stamp_n "" (Labeler 0) (7 * USEC) sample_rounds enforced_db n s') as (db & -> & Hl & _).
  - intros []; apply (bool_decide_unpack _); vm_compute; exact I.
  - intros t. apply Forall_forall. destruct t; repeat (apply Forall_cons_2; [vm_compute; reflexivity|]); apply Forall_nil_2.
  - repeat (apply Forall_cons_2; [split; [split; [vm_compute; reflexivity|intros k since last text [=]]|by vm_compute]|]). apply Forall_nil_2.
  - repeat (apply Forall_cons_2; [intros _; by vm_compute|]). apply Forall_nil_2.
  - exact E.
  - subst n. vm_compute. lia.
  - exists db. split; [reflexivity|exact Hl].
Defined.
