(* ===== verification/ResponseCache.v ===== *)
(** * The response cache (agent/response_cache.py)

    The key of a threat shape, the cached intent template in Redis and its
    rebinding to a live alert.  A cached JSON text is the value it encodes;
    the nested audit metadata of an intent is validated by pydantic, outside
    the repository. *)
From S2P Require Import Prelude PyVal Sha256 IpAddr Topology Policy Models Redis.
Local Open Scope string_scope.
Local Open Scope Z_scope.
Local Open Scope list_scope.

Definition CACHE_KEY_PREFIX : string := "agent:resp_cache:".
Definition STATS_HITS : string := "agent:resp_cache:stats:hits".
Definition STATS_MISSES : string := "agent:resp_cache:stats:misses".

Record cache_config := CacheConfig { cache_ttl : Z (* nanoseconds *); cache_enabled : bool }.

(** The audit metadata of an intent read back from an object. *)
Class MetaCodec := { read_meta : obj -> res (list (string * pyval) * UserNotification) }.

Section Key.
Context `{External} (kb : catalogue).

Definition feature_blob (sid : Z) (src_ip dst_ip : string) (dst_port : Z) (protocol corr : string) : string :=
  let src_zone := default "unknown" (ip_to_zone src_ip) in
  let dst_zone := if nonempty dst_ip then default "unknown" (ip_to_zone dst_ip) else "none" in
  let proto := if nonempty protocol then py_lower protocol else "tcp" in
  let baseline := match match_baseline kb src_ip dst_ip dst_port proto with
                  | Some p => tp_name p | None => "none" end in
  ("sid=" ++ str_of_Z sid ++ "|src_zone=" ++ src_zone ++ "|dst_zone=" ++ dst_zone ++ "|dst_port="
   ++ str_of_Z dst_port ++ "|proto=" ++ protocol ++ "|baseline=" ++ baseline ++ "|corr=" ++ corr)%string.

Definition compute_key (sid : Z) (src_ip dst_ip : string) (dst_port : Z) (protocol corr : string) : string :=
  (CACHE_KEY_PREFIX ++ py_take 16 (sha256_hex (feature_blob sid src_ip dst_ip dst_port protocol corr)))%string.
End Key.

Section Store.
Context `{RedisServer} (cfg : cache_config).

Definition incr (now : Z) (key : string) (s : redis) : redis :=
  match rincr s now key with Ok s' => s' | Raise _ => s end.

(** [get]: the cached value and the store with the hit or the miss counted. *)
Definition cache_get (now : Z) (key : string) (s : redis) : option pyval * redis :=
  if negb (cache_enabled cfg) then (None, s) else
  match rget s now key with
  | Raise _ => (None, s)
  | Ok None => (None, incr now STATS_MISSES s)
  | Ok (Some v) => (Some v, incr now STATS_HITS s)
  end.

(** [intent.model_dump(mode="json")] *)
Definition intent_dump (i : PolicyIntent) : obj :=
  [("rule_id", PStr (pi_rule_id i)); ("action", PStr (action_value (pi_action i)));
   ("src_ip", PStr (pi_src_ip i)); ("dst_ip", PStr (pi_dst_ip i)); ("dst_port", PInt (pi_dst_port i));
   ("protocol", PStr (pi_protocol i)); ("priority", PInt (pi_priority i));
   ("ttl_seconds", PInt (pi_ttl_seconds i)); ("comment", PStr (pi_comment i));
   ("confidence", PFloat (pi_confidence i)); ("meta", PDict (pi_reasoning i));
   ("user_notification", PDict [("title", PStr (un_title (pi_notification i)));
      ("body", PStr (un_body (pi_notification i)));
      ("severity", PStr (notification_value (un_severity (pi_notification i))))])].

Definition cache_set (now : Z) (now_iso : string) (key : string) (i : PolicyIntent) (s : redis) : redis :=
  if negb (cache_enabled cfg) then s else
  match rset s now key (PDict [("intent", PDict (intent_dump i)); ("cached_at", PStr now_iso)])
          (Some (cache_ttl cfg)) with
  | Ok s' => s'
  | Raise _ => s
  end.

(** [stats]: hits, misses and their sum; zeros when Redis or a counter fails. *)
Definition cache_stats (now : Z) (s : redis) : Z * Z * Z :=
  let read :=
    let* h := rget s now STATS_HITS in
    let* m := rget s now STATS_MISSES in
    let* hits := int_of (match h with Some v => por v (PInt 0) | None => PInt 0 end) in
    let* misses := int_of (match m with Some v => por v (PInt 0) | None => PInt 0 end) in
    Ok (hits, misses, hits + misses) in
  match read with Ok r => r | Raise _ => (0, 0, 0) end.

Definition reset_stats (now : Z) (s : redis) : redis :=
  match rdelete s now [STATS_HITS; STATS_MISSES] with Ok s' => s' | Raise _ => s end.
End Store.

Section Rebind.
Context `{External} `{MetaCodec}.

(** [PolicyIntent( **raw )]: required fields, defaults, coercions, then the validator. *)
Definition intent_from_obj (d : obj) : res PolicyIntent :=
  let required (k : string) := match dict_get d k with Some v => Ok v | None => Raise (ValueError pyd_reason) end in
  let* rule_id := pyd_str (jget_or d "rule_id" (PStr "")) in
  let* av := required "action" in
  let* action := PolicyAction_of av in
  let* sv := required "src_ip" in
  let* src := pyd_str sv in
  let* dst := pyd_str (jget_or d "dst_ip" (PStr "")) in
  let* port := pyd_int (jget_or d "dst_port" (PInt 0)) in
  let* proto := pyd_str (jget_or d "protocol" (PStr "tcp")) in
  let* prio := pyd_int (jget_or d "priority" (PInt 50)) in
  let* ttl := pyd_int (jget_or d "ttl_seconds" (PInt 3600)) in
  let* comment := pyd_str (jget_or d "comment" (PStr "")) in
  let* cv := required "confidence" in
  let* conf := pyd_float cv in
  let* '(meta, notif) := read_meta d in
  make_intent (mkIntent rule_id action src dst port proto prio ttl comment conf meta notif).

(** The source the template is bound to: the alert's, as a host network. *)
Definition bound_src (alert_src : string) : string :=
  if list_contains_char "/"%char alert_src then alert_src else (alert_src ++ "/32")%string.

Definition cacheable_action (v : pyval) : bool := bool_decide (v ∈ [PStr "DROP"; PStr "log_only"]).

Definition rebind_cached_intent (cached : pyval) (alert : SuricataAlert) : option PolicyIntent :=
  match cached with
  | PDict data =>
      match dict_get data "intent" with
      | Some (PDict raw) =>
          let raw := dict_set raw "src_ip" (PStr (bound_src (al_src_ip alert))) in
          let raw := dict_set raw "rule_id" (PStr "") in
          let raw := if cacheable_action (jget_or raw "action" (PStr "log_only")) then raw
                     else dict_set raw "action" (PStr "log_only") in
          match intent_from_obj raw with Ok i => Some i | Raise _ => None end
      | _ => None
      end
  | _ => None
  end.
End Rebind.

(** ** Lemmas *)
Lemma make_intent_fields `{External} i j : make_intent i = Ok j ->
  pi_rule_id j = (if nonempty (pi_rule_id i) then pi_rule_id i
    else deterministic_rule_id (pi_src_ip i) (pi_dst_ip i) (pi_dst_port i) (pi_protocol i)) /\
  pi_src_ip j = pi_src_ip i /\ pi_dst_ip j = pi_dst_ip i /\ pi_dst_port j = pi_dst_port i /\
  pi_protocol j = pi_protocol i /\ pi_action j = pi_action i.
Proof. unfold make_intent. repeat case_match; intros; simplify_eq; auto 10. Qed.

Lemma intent_from_obj_ok `{External} `{MetaCodec} d i : intent_from_obj d = Ok i ->
  exists rid, jget_or d "rule_id" (PStr "") = PStr rid /\
  dict_get d "src_ip" = Some (PStr (pi_src_ip i)) /\
  dict_get d "action" = Some (PStr (action_value (pi_action i))) /\
  jget_or d "dst_ip" (PStr "") = PStr (pi_dst_ip i) /\
  (rid = "" -> pi_rule_id i = deterministic_rule_id (pi_src_ip i) (pi_dst_ip i) (pi_dst_port i) (pi_protocol i)).
Proof.
  unfold intent_from_obj.
  assert (Hstr : forall v s, pyd_str v = Ok s -> v = PStr s) by (intros [] ?; cbn; intros; by simplify_eq).
  repeat (match goal with |- rbind ?m _ = Ok _ -> _ => destruct m as [?x|?e] eqn:?; cbn [rbind]; [|done] end).
  destruct x12 as [meta notif]. intros Hm. apply make_intent_fields in Hm as (Hr & Hs & Hd & Hp & Hpr & Ha).
  cbn in *. repeat match goal with H : pyd_str _ = Ok _ |- _ => apply Hstr in H end.
  repeat match goal with H : match dict_get ?d ?k with _ => _ end = Ok _ |- _ =>
    destruct (dict_get d k) eqn:?; [injection H as H|discriminate H] end.
  match goal with H : PolicyAction_of _ = Ok _ |- _ => apply PolicyAction_of_ok in H end.
  exists x. rewrite Hs, Ha, Hd. split_and!; try congruence.
  intros ->. by rewrite Hr, Hp, Hpr.
Qed.

(** ** Properties *)
(** a cached template is always bound to the live alert's own source (as a
    host), carries the rule id of its new tuple and an action the agent may
    take; a template whose action is anything else comes back as log_only. *)
Theorem rebind_targets_alert `{External} `{MetaCodec} cached alert i :
  rebind_cached_intent cached alert = Some i ->
  pi_src_ip i = bound_src (al_src_ip alert) /\
  pi_rule_id i = deterministic_rule_id (pi_src_ip i) (pi_dst_ip i) (pi_dst_port i) (pi_protocol i) /\
  (pi_action i = DROP \/ pi_action i = LOG_ONLY) /\
  exists data raw, cached = PDict data /\ dict_get data "intent" = Some (PDict raw) /\
    (pi_action i = DROP -> dict_get raw "action" = Some (PStr "DROP")) /\
    jget_or raw "dst_ip" (PStr "") = PStr (pi_dst_ip i).
Proof.
  unfold rebind_cached_intent. destruct cached as [| | | | | |data]; try done.
  destruct (dict_get data "intent") as [v|] eqn:Ei; [|done]. destruct v as [| | | | | |raw]; try done.
  set (r1 := dict_set _ "src_ip" _). set (r2 := dict_set r1 "rule_id" _).
  set (r3 := if cacheable_action _ then r2 else _).
  assert (H3 : forall k, k <> "action" -> dict_get r3 k = dict_get r2 k).
  { intros k Hk. unfold r3. destruct (cacheable_action _); [done|]. by rewrite dict_get_set_ne. }
  destruct (intent_from_obj r3) as [i'|] eqn:E; [|done]. intros; simplify_eq.
  apply intent_from_obj_ok in E as (rid & Hr & Hs & Ha & Hd & Hid).
  unfold jget_or in Hr, Hd. rewrite H3 in Hr, Hs, Hd by done. unfold r2, r1 in Hr, Hs, Hd.
  rewrite dict_get_set_eq in Hr. rewrite dict_get_set_ne, dict_get_set_eq in Hs by done.
  rewrite !dict_get_set_ne in Hd by done. cbn in Hr. simplify_eq.
  assert (Hr2 : dict_get r2 "action" = dict_get raw "action").
  { unfold r2, r1. by rewrite !dict_get_set_ne. }
  assert (Hact : (pi_action i = DROP /\ dict_get raw "action" = Some (PStr "DROP")) \/ pi_action i = LOG_ONLY).
  { clear H3 Hid. unfold r3 in Ha. unfold jget_or in Ha. rewrite Hr2 in Ha.
    destruct (cacheable_action (default _ _)) eqn:Ec.
    - rewrite Hr2 in Ha. rewrite Ha in Ec |- *. cbn in Ec. unfold cacheable_action in Ec.
      apply bool_decide_eq_true in Ec. rewrite !elem_of_cons in Ec.
      destruct (pi_action i); cbn in *; auto; exfalso; set_solver.
    - rewrite dict_get_set_eq in Ha. right. destruct (pi_action i); cbn in Ha; by simplify_eq. }
  split_and!; [done|by apply Hid|tauto|]. exists data, raw. split_and!; [done|done| |done].
  intros HD. destruct Hact as [[_ ?]|?]; congruence.
Qed.

#[export] Instance meta0 : MetaCodec := {| read_meta d := Ok ([], mkNotification "" "" INFO) |}.

Definition cached_sample : pyval :=
  PDict [("intent", PDict [("action", PStr "DROP"); ("src_ip", PStr "10.1.100.99/32"); ("dst_ip", PStr "10.1.200.10/32");
                           ("confidence", PFloat (9#10))])].
Definition alert_sample : SuricataAlert := mkAlert "" "10.1.100.10" "10.1.200.77" 0 22 "tcp" [] [].

Lemma rebind_targets_alert_witness :
  match rebind_cached_intent (H := external0) cached_sample alert_sample with
  | Some i => pi_src_ip i = "10.1.100.10/32" /\ pi_action i = DROP
  | None => False
  end.
Proof.
  destruct (rebind_cached_intent cached_sample alert_sample) as [i|] eqn:E; [|vm_compute in E; discriminate E].
  destruct (rebind_targets_alert (H := external0) _ _ _ E) as (Hs & _).
  split; [rewrite Hs; reflexivity|]. vm_compute in E. injection E as <-. reflexivity.
Defined.

(** The destination is not rebound: two alerts whose destinations differ
    inside one zone share the cache key, and the hit yields a DROP on the
    destination of the first one. *)
Theorem rebind_keeps_cached_destination `{External} :
  compute_key catalogue0 9000001 "10.1.100.10" "10.1.200.10" 22 "tcp" "" =
  compute_key catalogue0 9000001 "10.1.100.10" "10.1.200.77" 22 "tcp" "" /\
  (pi_dst_ip <$> rebind_cached_intent (H := external0) cached_sample alert_sample) = Some "10.1.200.10/32" /\
  al_dest_ip alert_sample = "10.1.200.77".
Proof.
  split_and!; [|vm_compute; reflexivity|reflexivity].
  unfold compute_key. by do 3 f_equal.
Qed.
