(* ===== verification/Enforcement.v ===== *)
(** * Enforcement backends (enforcement/interface.py, ids_agent_proxy.py)

    The interface the agent is written against, as a class, and the proxy that
    posts a rule to the ids-agent.  The HTTP client is a parameter: the [n]-th
    request answers a status with the decoded body, or raises. *)
From S2P Require Import Prelude PyVal Models.
Local Open Scope string_scope.
Local Open Scope Z_scope.
Local Open Scope list_scope.

(** [enforce n i]: the outcome of the [n]-th request of the backend. *)
Class EnforcementBackend := {
  enforce : nat -> PolicyIntent -> res EnforcementResult;
  revoke : nat -> string -> res EnforcementResult;
  ping : nat -> bool
}.

Inductive http_request :=
  | Post (path : string) (payload : obj)
  | Delete (path : string)
  | Get (path : string).

(** The code only promises never to raise to the agent's enforcement step. *)
Class BackendTotal `{EnforcementBackend} := {
  enforce_total n i : is_ok (enforce n i) = true
}.

Section Proxy.
Context `{PyRepr} (http : nat -> http_request -> res (Z * obj)).

Definition has_slash (s : string) : bool := list_contains_char "/"%char s.

Definition rule_src (i : PolicyIntent) : string :=
  if has_slash (pi_src_ip i) then pi_src_ip i else (pi_src_ip i ++ "/32")%string.

Definition rule_dst (i : PolicyIntent) : string :=
  if nonempty (pi_dst_ip i) && has_slash (pi_dst_ip i) then pi_dst_ip i
  else if nonempty (pi_dst_ip i) then (pi_dst_ip i ++ "/32")%string else "".

Definition rule_payload (i : PolicyIntent) : obj :=
  [("rule_id", PStr (pi_rule_id i)); ("action", PStr (action_value (pi_action i)));
   ("src_ip", PStr (rule_src i)); ("priority", PInt (pi_priority i));
   ("comment", PStr (pi_comment i)); ("ttl_seconds", PInt (pi_ttl_seconds i))]
  ++ (if nonempty (rule_dst i) then [("dst_ip", PStr (rule_dst i))] else [])
  ++ (if pi_dst_port i =? 0 then [] else [("dst_port", PInt (pi_dst_port i))])
  ++ (if nonempty (pi_protocol i) then [("protocol", PStr (pi_protocol i))] else []).

Definition http_error (status : Z) (data : obj) : string :=
  ("HTTP " ++ str_of_Z status ++ ": " ++ py_str (PDict data))%string.

Definition proxy_enforce (n : nat) (i : PolicyIntent) : res EnforcementResult :=
  match http n (Post "/rules" (rule_payload i)) with
  | Ok (status, data) =>
      if status <? 400
      then Ok (mkResult true (pi_rule_id i) "ids_agent_proxy" data "")
      else Ok (mkResult false (pi_rule_id i) "ids_agent_proxy" [] (http_error status data))
  | Raise _ => Ok (mkResult false "" "ids_agent_proxy" [] "request failed")
  end.

Definition proxy_revoke (n : nat) (rule_id : string) : res EnforcementResult :=
  match http n (Delete ("/rules/" ++ rule_id)%string) with
  | Ok (status, data) =>
      Ok (mkResult (status <? 400) rule_id "ids_agent_proxy" data
            (if status <? 400 then "" else ("HTTP " ++ str_of_Z status)%string))
  | Raise _ => Ok (mkResult false "" "ids_agent_proxy" [] "request failed")
  end.

Definition proxy_ping (n : nat) : bool :=
  match http n (Get "/health") with Ok (status, _) => status =? 200 | Raise _ => false end.

#[export] Instance ids_agent_proxy : EnforcementBackend := {|
  enforce := proxy_enforce; revoke := proxy_revoke; ping := proxy_ping |}.

#[export] Instance ids_agent_proxy_total : BackendTotal.
Proof. constructor. intros n i. cbn. unfold proxy_enforce. by repeat case_match. Qed.
End Proxy.

(** ** Lemmas *)
Lemma has_slash_app s t : has_slash (s ++ t)%string = has_slash s || has_slash t.
Proof.
  unfold has_slash, list_contains_char. induction s as [|c s IH]; [done|].
  rewrite str_app_cons. cbn. by rewrite IH, orb_assoc.
Qed.

(** ** Properties *)
(** The rule the proxy posts names the intent's id, action, TTL and priority,
    its source is always in CIDR form, an optional field is present exactly
    when the intent has a value for it, and a destination in the payload is in
    CIDR form too. *)
Theorem rule_payload_wellformed i :
  dict_get (rule_payload i) "action" = Some (PStr (action_value (pi_action i))) /\
  dict_get (rule_payload i) "rule_id" = Some (PStr (pi_rule_id i)) /\
  dict_get (rule_payload i) "ttl_seconds" = Some (PInt (pi_ttl_seconds i)) /\
  (exists src, dict_get (rule_payload i) "src_ip" = Some (PStr src) /\ has_slash src = true /\
     (src = pi_src_ip i \/ src = (pi_src_ip i ++ "/32")%string)) /\
  (dict_get (rule_payload i) "dst_ip" = None <-> pi_dst_ip i = "") /\
  (forall dst, dict_get (rule_payload i) "dst_ip" = Some (PStr dst) -> has_slash dst = true) /\
  (dict_get (rule_payload i) "dst_port" = None <-> pi_dst_port i = 0) /\
  (dict_get (rule_payload i) "protocol" = None <-> pi_protocol i = "").
Proof.
  assert (Hs : has_slash (rule_src i) = true).
  { unfold rule_src. destruct (has_slash (pi_src_ip i)) eqn:E; [done|].
    by rewrite has_slash_app, orb_true_r. }
  assert (Hd : nonempty (rule_dst i) = nonempty (pi_dst_ip i) /\
               (nonempty (pi_dst_ip i) = true -> has_slash (rule_dst i) = true)).
  { unfold rule_dst. destruct (nonempty (pi_dst_ip i)) eqn:En; [|done].
    destruct (has_slash (pi_dst_ip i)) eqn:E; [done|].
    split; [by destruct (pi_dst_ip i)|]. intros _.
    change (has_slash (pi_dst_ip i ++ "/32")%string = true). by rewrite has_slash_app, orb_true_r. }
  destruct Hd as [Hd1 Hd2]. pose proof (nonempty_false (pi_dst_ip i)) as Hn1.
  pose proof (nonempty_false (pi_protocol i)) as Hn2.
  splits; try done.
  - exists (rule_src i). splits; [done|done|]. unfold rule_src. destruct (has_slash (pi_src_ip i)); auto.
  - unfold rule_payload. rewrite Hd1. destruct (nonempty (pi_dst_ip i)), (Z.eqb_spec (pi_dst_port i) 0),
      (nonempty (pi_protocol i)); cbn; split; intros Hx;
      first [done|by apply Hn1|by apply Hn2|apply Hn1 in Hx; done|apply Hn2 in Hx; done].
  - intros dst. unfold rule_payload. rewrite Hd1. destruct (nonempty (pi_dst_ip i)); cbn.
    + intros Hx. injection Hx as <-. by apply Hd2.
    + destruct (Z.eqb_spec (pi_dst_port i) 0), (nonempty (pi_protocol i)); done.
  - unfold rule_payload. destruct (nonempty (rule_dst i)), (Z.eqb_spec (pi_dst_port i) 0),
      (nonempty (pi_protocol i)); cbn; split; intros Hx;
      first [done|by apply Hn1|by apply Hn2|apply Hn1 in Hx; done|apply Hn2 in Hx; done].
  - unfold rule_payload. destruct (nonempty (rule_dst i)), (Z.eqb_spec (pi_dst_port i) 0),
      (nonempty (pi_protocol i)); cbn; split; intros Hx;
      first [done|by apply Hn1|by apply Hn2|apply Hn1 in Hx; done|apply Hn2 in Hx; done].
Qed.
