(* ===== verification/Reasoning.v ===== *)
(** * Reading the LLM's reasoning fields (agent/nodes.py)

    The hypotheses, the alternative actions and the rollback plan of an answer,
    as both the one-call decision (lines 286 to 347) and the reasoning trace
    (lines 571 to 637) read them.  [re.search] on the code's one pattern is
    written out; the parsing of a decimal into a float is the one of [External]. *)
From S2P Require Import Prelude PyVal Models.
Local Open Scope string_scope.
Local Open Scope Z_scope.
Local Open Scope list_scope.

(** ** [re.search(r"probability\s*=\s*([0-9.]+)", h)] *)
Fixpoint take_while (p : ascii -> bool) (s : string) : string :=
  match s with
  | String c s' => if p c then String c (take_while p s') else ""
  | EmptyString => ""
  end.
Definition number_char (c : ascii) : bool := is_digit c || bool_decide (c = "."%char).

(** The match of the pattern's tail after the word, at a fixed position. *)
Definition match_number (s : string) : option string :=
  match lstrip s with
  | String "="%char t => let n := take_while number_char (lstrip t) in if nonempty n then Some n else None
  | _ => None
  end.

Fixpoint search_probability (s : string) : option string :=
  match (if starts_with "probability" s then match_number (py_drop 11 s) else None) with
  | Some n => Some n
  | None => match s with String _ s' => search_probability s' | EmptyString => None end
  end.

Definition clamp01 (q : Q) : Q :=
  if Qle_bool q 0 then 0 else if Qle_bool 1 q then 1 else q.

Section Reasoning.
Context `{External}.

Definition pyd_str_list (v : pyval) : res (list string) :=
  match v with PList l => mapM_res pyd_str l | _ => Raise (ValueError pyd_reason) end.

Definition mk_hypothesis (name description : string) (probability : Q) (sup dis : list string) : pyval :=
  PDict [("name", PStr name); ("description", PStr description); ("probability", PFloat probability);
         ("supporting_evidence", PList (map PStr sup)); ("disconfirming_evidence", PList (map PStr dis))].

(** One item of the list; an exception skips the item, as does a value of another type. *)
Definition read_hypothesis (h : pyval) : res (option pyval) :=
  match h with
  | PStr s =>
      let* prob := match search_probability s with Some n => float_of_str n | None => Ok (1 # 2)%Q end in
      let name := str_or (py_strip (default "" (head (split_on "("%char s)))) "unnamed" in
      Ok (Some (mk_hypothesis (py_take 80 name) s (clamp01 prob) [] []))
  | PDict d =>
      let* prob := float_of (jget_or d "probability" (PFloat (1 # 2))) in
      let* name := pyd_str (jget_or d "name" (PStr "unnamed")) in
      let* descr := pyd_str (jget_or d "description" (PStr "")) in
      if Qle_bool 0 prob && Qle_bool prob 1 then
        let* sup := pyd_str_list (por (jget_or d "supporting_evidence" (PList [])) (PList [])) in
        let* dis := pyd_str_list (por (jget_or d "disconfirming_evidence" (PList [])) (PList [])) in
        Ok (Some (mk_hypothesis name descr prob sup dis))
      else Raise (ValueError pyd_reason)
  | _ => Ok None
  end.

Definition mk_alternative (trigger action rationale : string) : pyval :=
  PDict [("trigger_condition", PStr trigger); ("action", PStr action); ("rationale", PStr rationale)].

Definition read_alternative (a : pyval) : res (option pyval) :=
  match a with
  | PStr s =>
      let word := if str_contains "DROP" (py_upper s) then "DROP"
                  else if str_contains "ESCALATE" (py_upper s) then "ESCALATE_HUMAN" else "log_only" in
      Ok (Some (mk_alternative s word s))
  | PDict d =>
      let* t := pyd_str (jget_or d "trigger_condition" (PStr "")) in
      let* w := pyd_str (jget_or d "action" (PStr "log_only")) in
      let* r := pyd_str (jget_or d "rationale" (PStr "")) in
      Ok (Some (mk_alternative t w r))
  | _ => Ok None
  end.

(** The loop with its [try] per item. *)
Definition read_items (read : pyval -> res (option pyval)) (l : list pyval) : list pyval :=
  omap (fun x => match read x with Ok o => o | Raise _ => None end) l.

Definition mk_rollback (trigger action : string) (seconds : Z) : pyval :=
  PDict [("trigger", PStr trigger); ("action", PStr action); ("monitor_seconds", PInt seconds)].

(** Outside any [try]: an exception here ends the node. *)
Definition read_rollback (v : pyval) : res pyval :=
  match v with
  | PDict d =>
      let* secs := int_of (jget_or d "monitor_seconds" (PInt 300)) in
      let* t := pyd_str (jget_or d "trigger" (PStr "")) in
      let* a := pyd_str (jget_or d "action" (PStr "")) in
      Ok (mk_rollback t a secs)
  | PStr s => Ok (mk_rollback s s 300)
  | _ => Ok (mk_rollback "" "" 300)
  end.

(** The three parsed parts of an answer. *)
Definition read_parts (d : obj) : res (list pyval * list pyval * pyval) :=
  let* hs := py_iter (por (jget d "hypotheses") (PList [])) in
  let* alts := py_iter (por (jget d "alternative_actions") (PList [])) in
  let* rollback := read_rollback (jget d "rollback_plan") in
  Ok (read_items read_hypothesis hs, read_items read_alternative alts, rollback).

(** The audit fields Stage 2 writes into the intent, without validation. *)
Definition read_reasoning (d : obj) : res obj :=
  let* '(hs, alts, rollback) := read_parts d in
  Ok [("reasoning_steps", por (jget_or d "reasoning_steps" (PList [])) (PList []));
      ("hypotheses", PList hs);
      ("primary_hypothesis", jget_or d "primary_hypothesis" (PStr ""));
      ("alternative_actions", PList alts);
      ("rollback_plan", rollback);
      ("follow_up_actions", por (jget_or d "follow_up_actions" (PList [])) (PList []));
      ("mitre_technique", jget_or d "mitre_technique" (PStr ""));
      ("mitre_tactic", jget_or d "mitre_tactic" (PStr ""))].
End Reasoning.

Example search_1 : search_probability "scan (probability = 0.65) - x" = Some "0.65".
Proof. reflexivity. Qed.
Example search_2 : search_probability "probability: 3, probability=.5" = Some ".5".
Proof. reflexivity. Qed.
