(* ===== verification/Nodes.v ===== *)
(** * The nodes of the decision pipeline (agent/nodes.py)

    Each node as a function of the state and of the answers of what it calls
    (the LLM, the context fetches).  A state patch is the updated state. *)
From Stdlib Require Import SpecFloat.
From S2P Require Import Prelude PyVal IpAddr Topology Policy Models Safety Redis ResponseCache Consistency Reasoning.
Local Open Scope string_scope.
Local Open Scope Z_scope.
Local Open Scope list_scope.

(** Why a decision ended as it did: the values of the message. *)
Inductive reason :=
  | NoReason | ClassifiedBenign | LlmFailed | SchemaInvalid (e : exn)
  | Validation (errs : list safety_error) | LowConfidence (o : ConfidenceOutcome) | LogOnly
  | NoConsistency (e : vote_error) | LlmError (e : exn)
  | BreakerOpen (failures remaining : Z) | RateLimited | BackendError (msg : string) | Exception_ (e : exn).

(** agent/state.py: an absent key and [None] read alike through [state.get]. *)
Record AgentState := mkState {
  st_alert : SuricataAlert; st_context : string; st_classification : string;
  st_correlation : option (list (string * pyval)); st_alert_context : string;
  st_cache_key : string; st_cache_hit : bool;
  st_intent : option PolicyIntent; st_outcome : option DecisionOutcome; st_reason : reason;
  st_errors : list safety_error }.

Definition state0 (a : SuricataAlert) : AgentState :=
  mkState a "" "" None "" "" false None None NoReason [].

Definition set_intent (i : option PolicyIntent) (s : AgentState) : AgentState :=
  mkState (st_alert s) (st_context s) (st_classification s) (st_correlation s) (st_alert_context s)
    (st_cache_key s) (st_cache_hit s) i (st_outcome s) (st_reason s) (st_errors s).
Definition set_outcome (o : DecisionOutcome) (r : reason) (s : AgentState) : AgentState :=
  mkState (st_alert s) (st_context s) (st_classification s) (st_correlation s) (st_alert_context s)
    (st_cache_key s) (st_cache_hit s) (st_intent s) (Some o) r (st_errors s).
Definition set_cache (key : string) (hit : bool) (s : AgentState) : AgentState :=
  mkState (st_alert s) (st_context s) (st_classification s) (st_correlation s) (st_alert_context s)
    key hit (st_intent s) (st_outcome s) (st_reason s) (st_errors s).

Record settings := Settings {
  ttl_min_seconds : Z; ttl_max_seconds : Z;
  confidence_auto_enforce : Q; confidence_notify : Q; confidence_hold : Q }.

(** config.py; 0.85 and 0.70 as binary64. *)
Definition default_settings : settings :=
  Settings 60 3600 (7656119366529843 # 9007199254740992) (3152519739159347 # 4503599627370496) (1#2).

Section Nodes.
Context `{External} `{MetaCodec} (kb : catalogue) (cfg : settings).

(** ** Context and classification *)
Definition node_load_context (prompt : res string) (s : AgentState) : res AgentState :=
  let* p := prompt in
  Ok (mkState (st_alert s) p (st_classification s) (st_correlation s) (st_alert_context s)
        (st_cache_key s) (st_cache_hit s) (st_intent s) (st_outcome s) (st_reason s) (st_errors s)).

(** The fast LLM's answer; anything but a known label counts as suspicious. *)
Definition classify (answer : res pyval) : string :=
  match answer with
  | Ok (PDict d) =>
      match dict_get d "content" with
      | Some v =>
          match por v (PStr "") with
          | PStr c =>
              let raw := py_lower (py_strip c) in
              if bool_decide (raw ∈ ["benign"; "suspicious"; "threat"]) then raw else "suspicious"
          | _ => "suspicious"
          end
      | None => "suspicious"
      end
  | _ => "suspicious"
  end.

Definition node_classify_alert (answer : res pyval) (s : AgentState) : AgentState :=
  mkState (st_alert s) (st_context s) (classify answer) (st_correlation s) (st_alert_context s)
    (st_cache_key s) (st_cache_hit s) (st_intent s) (st_outcome s) (st_reason s) (st_errors s).

Definition node_log_and_end (s : AgentState) : AgentState :=
  set_intent None (set_outcome BENIGN ClassifiedBenign s).

(** [correlation] and [render] are the outcomes of the fetch and of the context's rendering,
    which [PromptContext.gather_context] computes; what was pushed stays when it raises. *)
Definition node_gather_context `{RedisServer} (now : Z) (correlation : res (option (list (string * pyval))))
    (render : res string) (s : AgentState) (r : redis) : res AgentState * redis :=
  match push_alert_history now (al_src_ip (st_alert s)) (PDict (al_raw (st_alert s))) r with
  | Raise e => (Raise e, r)
  | Ok r =>
      let corr := match correlation with Ok c => c | Raise _ => None end in
      (let* ctx := render in
       Ok (mkState (st_alert s) (st_context s) (st_classification s) corr ctx
             (st_cache_key s) (st_cache_hit s) (st_intent s) (st_outcome s) (st_reason s) (st_errors s)), r)
  end.

(** ** The response cache *)
Definition proto_of (a : SuricataAlert) : string :=
  if nonempty (al_proto a) then py_lower (al_proto a) else "tcp".

Definition node_check_response_cache `{RedisServer} `{PyRepr} (ccfg : cache_config) (now : Z)
    (s : AgentState) (r : redis) : res (AgentState * redis) :=
  let a := st_alert s in
  let signal := match st_correlation s with
                | Some c => py_str (jget_or c "kill_chain_signal" (PStr "")) | None => "" end in
  let* n := sid a in
  let key := compute_key kb n (al_src_ip a) (al_dest_ip a) (al_dest_port a) (proto_of a) signal in
  let '(cached, r) := cache_get ccfg now key r in
  match cached with
  | None => Ok (set_cache key false s, r)
  | Some c =>
      match rebind_cached_intent c a with
      | None => Ok (set_cache key false s, r)
      | Some i => Ok (set_intent (Some i) (set_cache key true s), r)
      end
  end.

(** ** Stage 1: the policy decision *)
(** [(result.get(k) or "")[:n]] on the fields of the notification. *)
Definition short_text (n : nat) (v : pyval) : res string :=
  match por v (PStr "") with
  | PStr s => Ok (py_take n s)
  | PList _ => Raise (ValueError pyd_reason)
  | _ => Raise (TypeError "object is not subscriptable")
  end.

Definition notification_severity (v : pyval) : NotificationSeverity :=
  match por v (PStr "info") with
  | PStr s =>
      match find (fun n => bool_decide (notification_value n = py_lower s)) [INFO; WARN; ALERT; CRITICAL] with
      | Some n => n
      | None => INFO
      end
  | _ => INFO
  end.

Definition parse_action (v : pyval) : res PolicyAction :=
  match PolicyAction_of v with
  | Raise (ValueError _) => Ok LOG_ONLY
  | r => r
  end.

(** The fields of the intent, inside the [try]. *)
Definition build_intent (alert : SuricataAlert) (d : obj) (action : PolicyAction) (n : UserNotification)
    : res PolicyIntent :=
  let* src := pyd_str (jget_or d "src_ip" (PStr (al_src_ip alert))) in
  let* dst := pyd_str (jget_or d "dst_ip" (PStr "")) in
  let* port := int_of (jget_or d "dst_port" (PInt 0)) in
  let* proto := pyd_str (jget_or d "protocol" (PStr "tcp")) in
  let* prio := int_of (jget_or d "priority" (PInt 50)) in
  let* ttl := int_of (jget_or d "ttl_seconds" (PInt 3600)) in
  let* comment := pyd_str (jget_or d "comment" (PStr "")) in
  let* conf := float_of (jget_or d "confidence" (PFloat 0)) in
  make_intent (mkIntent "" action src dst port proto prio ttl comment conf [] n).

(** The answers of [chat_json], tried up to [n] times; [None] stands for a JSON null. *)
Fixpoint first_answer (n : nat) (chat : nat -> res pyval) (k : nat) : option pyval :=
  match n with
  | O => None
  | S n' => match chat k with
            | Ok PNone => None
            | Ok v => Some v
            | Raise _ => first_answer n' chat (S k)
            end
  end.

(** [react] is the outcome of the ReAct loop when the graph driver is wired in. *)
Definition stage1_answer (react : option (res pyval)) (chat : nat -> res pyval) : option pyval :=
  match react with
  | Some (Ok PNone) | Some (Raise _) | None => first_answer 3 chat 0
  | Some (Ok v) => Some v
  end.

Definition rejected (r : reason) (s : AgentState) : AgentState :=
  set_intent None (set_outcome REJECTED r s).

Definition node_decide_policy (react : option (res pyval)) (chat : nat -> res pyval) (s : AgentState)
    : res AgentState :=
  match stage1_answer react chat with
  | None => Ok (rejected LlmFailed s)
  | Some (PDict d) =>
      let* action := parse_action (jget_or d "action" (PStr "log_only")) in
      let sev := notification_severity (jget d "notification_severity") in
      let* title := short_text 120 (jget d "notification_title") in
      let* body := short_text 400 (jget d "notification_body") in
      match build_intent (st_alert s) d action (mkNotification title body sev) with
      | Raise e => Ok (rejected (SchemaInvalid e) s)
      | Ok i => Ok (set_intent (Some i) s)
      end
  | Some _ => Raise (AttributeError "get")
  end.

(** ** Stage 2: the reasoning trace *)
(** The two attempts; [None] when both fail, when the answer is no object, and
    when reading it raises: the exception ends in the fork's [gather]. *)
Definition node_collect_reasoning (chat : nat -> res pyval) (i : option PolicyIntent) : option obj :=
  match i with
  | None => None
  | Some _ => match first_answer 2 chat 0 with
              | Some (PDict d) => match read_reasoning d with Ok m => Some m | Raise _ => None end
              | _ => None
              end
  end.

(** The patch mutates the shared intent object: only the audit fields change. *)
Definition patch_reasoning (m : obj) (i : PolicyIntent) : PolicyIntent :=
  mkIntent (pi_rule_id i) (pi_action i) (pi_src_ip i) (pi_dst_ip i) (pi_dst_port i) (pi_protocol i)
    (pi_priority i) (pi_ttl_seconds i) (pi_comment i) (pi_confidence i) m (pi_notification i).

(** ** The one-call decision *)
(** [node_reason_and_decide], which the pipeline no longer calls: a vote for the two
    upper severities, one call otherwise; the same fields plus the audit fields. *)
Definition one_call_answer `{PyRepr} (log2 : spec_float -> spec_float) (n_runs min_agree : nat)
    (chat : nat -> res pyval) (severity : Z) : res (obj + reason) :=
  if severity <=? 2 then
    match (self_consistency_vote chat log2 n_runs min_agree 2 0).1 with
    | Raise e => Raise e
    | Ok (inr e) => Ok (inr (NoConsistency e))
    | Ok (inl d) => Ok (inl d)
    end
  else
    match chat 0%nat with
    | Raise e => Ok (inr (LlmError e))
    | Ok PNone => Ok (inr LlmFailed)
    | Ok (PDict d) => Ok (inl d)
    | Ok _ => Raise (AttributeError "get")
    end.

Definition build_full_intent (alert : SuricataAlert) (d : obj) (action : PolicyAction)
    (hs alts : list pyval) (rollback : pyval) : res PolicyIntent :=
  let* i := build_intent alert d action (mkNotification "" "" INFO) in
  let* steps := pyd_str_list (jget_or d "reasoning_steps" (PList [])) in
  let* technique := pyd_str (jget_or d "mitre_technique" (PStr "")) in
  let* tactic := pyd_str (jget_or d "mitre_tactic" (PStr "")) in
  let* primary := pyd_str (jget_or d "primary_hypothesis" (PStr "")) in
  let* follow := pyd_str_list (por (jget_or d "follow_up_actions" (PList [])) (PList [])) in
  Ok (patch_reasoning
        [("reasoning_steps", PList (map PStr steps)); ("hypotheses", PList hs);
         ("primary_hypothesis", PStr primary); ("alternative_actions", PList alts);
         ("rollback_plan", rollback); ("follow_up_actions", PList (map PStr follow));
         ("mitre_technique", PStr technique); ("mitre_tactic", PStr tactic)] i).

Definition node_reason_and_decide `{PyRepr} (log2 : spec_float -> spec_float) (n_runs min_agree : nat)
    (chat : nat -> res pyval) (s : AgentState) : res AgentState :=
  let* sev := severity (st_alert s) in
  let* answer := one_call_answer log2 n_runs min_agree chat sev in
  match answer with
  | inr r => Ok (rejected r s)
  | inl d =>
      let* action := parse_action (jget_or d "action" (PStr "log_only")) in
      let* '(hs, alts, rollback) := read_parts d in
      match build_full_intent (st_alert s) d action hs alts rollback with
      | Raise e => Ok (rejected (SchemaInvalid e) s)
      | Ok i => Ok (set_intent (Some i) s)
      end
  end.

(** ** Validation *)
Definition node_validate_decision (s : AgentState) : res AgentState :=
  match st_intent s with
  | None => Ok s
  | Some i =>
      let a := st_alert s in
      let* n := sid a in
      let v := validate_intent kb i n (ttl_min_seconds cfg) (ttl_max_seconds cfg) (al_src_ip a) in
      let s := mkState a (st_context s) (st_classification s) (st_correlation s) (st_alert_context s)
                 (st_cache_key s) (st_cache_hit s) (Some i) (st_outcome s) (st_reason s) (errors v) in
      if negb (vok v) then Ok (set_outcome REJECTED (Validation (errors v)) s) else
      match evaluate_confidence (pi_confidence i) (confidence_auto_enforce cfg) (confidence_notify cfg)
              (confidence_hold cfg) with
      | C_HOLD => Ok (set_outcome HELD (LowConfidence C_HOLD) s)
      | C_REJECT => Ok (set_outcome REJECTED (LowConfidence C_REJECT) s)
      | _ =>
          if bool_decide (pi_action i = LOG_ONLY) then Ok (set_outcome BENIGN LogOnly s) else Ok s
      end
  end.
End Nodes.

(** ** Lemmas *)
Lemma classify_known answer : classify answer ∈ ["benign"; "suspicious"; "threat"].
Proof.
  unfold classify. destruct answer as [v|]; [|set_solver]. destruct v as [| | | | | |d]; try set_solver.
  destruct (dict_get d "content") as [v|]; [|set_solver].
  destruct (por v (PStr "")) as [| | | |c| |]; try set_solver.
  case_bool_decide; [done|set_solver].
Qed.

(** The conditions under which validation lets a DROP through. *)
Definition cleared (kb : catalogue) (cfg : settings) (a : SuricataAlert) (i : PolicyIntent) : Prop :=
  exists n, sid a = Ok n /\
    intent_safe kb i n (ttl_min_seconds cfg) (ttl_max_seconds cfg) (al_src_ip a) /\
    (evaluate_confidence (pi_confidence i) (confidence_auto_enforce cfg) (confidence_notify cfg)
       (confidence_hold cfg) = C_ENFORCE \/
     evaluate_confidence (pi_confidence i) (confidence_auto_enforce cfg) (confidence_notify cfg)
       (confidence_hold cfg) = C_ENFORCE_AND_NOTIFY).

Lemma validate_decision_pass kb cfg s s' i :
  node_validate_decision kb cfg s = Ok s' -> st_outcome s = None -> st_outcome s' = None ->
  st_intent s' = Some i -> cleared kb cfg (st_alert s) i /\ st_alert s' = st_alert s /\
    pi_action i <> LOG_ONLY /\ st_intent s = Some i /\ st_cache_hit s' = st_cache_hit s /\
    st_cache_key s' = st_cache_key s.
Proof.
  unfold node_validate_decision. intros H Ho Ho' Hi.
  destruct (st_intent s) as [j|] eqn:Ej; [|congruence].
  destruct (sid (st_alert s)) as [n|] eqn:En; cbn [rbind] in H; [|done].
  destruct (vok _) eqn:Ev; cbn [negb] in H; [|by simplify_eq].
  apply validate_ok_safe in Ev.
  destruct (evaluate_confidence _ _ _ _) eqn:Ec; try (by simplify_eq);
    case_bool_decide; simplify_eq; cbn in *; simplify_eq; split_and!; try done;
    exists n; rewrite Ec; auto.
Qed.

Lemma validate_decision_alert kb cfg s s' :
  node_validate_decision kb cfg s = Ok s' -> st_alert s' = st_alert s.
Proof.
  unfold node_validate_decision. destruct (st_intent s); [|by intros; simplify_eq].
  destruct (sid (st_alert s)) as [n|]; cbn [rbind]; [|done].
  destruct (vok _); cbn [negb]; [|intros; by simplify_eq].
  destruct (evaluate_confidence _ _ _ _); try case_bool_decide; intros; by simplify_eq.
Qed.

Lemma check_cache_frame `{External} `{MetaCodec} `{RedisServer} `{PyRepr} kb ccfg now s r s' r' :
  node_check_response_cache kb ccfg now s r = Ok (s', r') ->
  st_alert s' = st_alert s /\ st_outcome s' = st_outcome s.
Proof.
  unfold node_check_response_cache. destruct (sid _) as [n|]; cbn [rbind]; [|done].
  destruct (cache_get _ _ _ _) as [[c|] r1]; [destruct (rebind_cached_intent _ _)|]; intros; by simplify_eq.
Qed.

Lemma decide_policy_frame `{External} react chat s s' :
  node_decide_policy react chat s = Ok s' ->
  st_alert s' = st_alert s /\
  ((st_outcome s' = st_outcome s /\ is_Some (st_intent s')) \/ (st_outcome s' = Some REJECTED /\ st_intent s' = None)).
Proof.
  unfold node_decide_policy. destruct (stage1_answer _ _) as [v|]; [|intros; simplify_eq; cbn; auto].
  destruct v as [| | | | | |d]; try done.
  destruct (parse_action _); cbn [rbind]; [|done]. destruct (short_text 120 _); cbn [rbind]; [|done].
  destruct (short_text 400 _); cbn [rbind]; [|done].
  destruct (build_intent _ _ _ _); intros; simplify_eq; cbn; split; eauto.
Qed.
