(* ===== verification/Agent.v ===== *)
(** * The decision agent (agent/graph.py)

    The pipeline of one alert over the shared state: the circuit breaker, the
    rate limiter, the Redis cache and the requests made to the enforcement
    backend.  LLM answers and fetches are the inputs of a run.  The parallel
    fork of enforcement and reasoning is explicit: the only interleaving that
    matters is whether the reasoning patch reaches the shared intent object
    before the cache write. *)
From S2P Require Import Prelude PyVal IpAddr Topology Policy Models Safety Redis ResponseCache.
From S2P Require Import RateLimiter CircuitBreaker Enforcement Nodes.
Local Open Scope string_scope.
Local Open Scope Z_scope.
Local Open Scope list_scope.

(** What the calls of one run answer, and the clock readings of its steps. *)
Record run_inputs := Inputs {
  in_prompt : res string; in_classify : res pyval;
  in_correlation : res (option (list (string * pyval))); in_context : res string;
  in_react : option (res pyval); in_chat : nat -> res pyval; in_reasoning : nat -> res pyval;
  in_reasoning_first : bool;
  t_redis : Z; t_open1 : Z; t_open2 : Z; t_rate : Z; t_fail : Z; in_now_iso : string }.

Record PolicyDecision := mkDecision {
  d_alert_sid : Z; d_alert_src_ip : string; d_intent : option PolicyIntent;
  d_outcome : DecisionOutcome; d_reason : reason }.

Section Agent.
Context `{External} `{MetaCodec} `{PyRepr} `{RedisServer} `{EnforcementBackend}.
Context (kb : catalogue) (cfg : settings) (ccfg : cache_config) (lim : limits) (bcfg : breaker_config).
Context (dry_run : bool).

Record world := mkWorld {
  w_breaker : CircuitBreaker; w_limiter : RateLimiter; w_redis : redis;
  w_calls : list PolicyIntent (* the requests to the backend, oldest first *) }.

Definition set_redis (r : redis) (w : world) : world :=
  mkWorld (w_breaker w) (w_limiter w) r (w_calls w).

(** The live enforcement: the backend's answer, the breaker, the cache. *)
Definition live_enforce (x : run_inputs) (i : PolicyIntent) (s : AgentState) (w : world)
    (patched : PolicyIntent) : AgentState * world :=
  let answer := enforce (length (w_calls w)) i in
  let calls := w_calls w ++ [i] in
  match answer with
  | Ok result =>
      if er_success result then
        let s' := set_outcome ENFORCED (st_reason s) s in
        let r := if negb (st_cache_hit s) && nonempty (st_cache_key s)
                 then cache_set ccfg (t_redis x) (in_now_iso x) (st_cache_key s) patched (w_redis w)
                 else w_redis w in
        (s', mkWorld (record_success (w_breaker w)) (w_limiter w) r calls)
      else
        (set_outcome ERROR (BackendError (er_error result)) s,
         mkWorld (record_failure bcfg (t_fail x) (w_breaker w)) (w_limiter w) (w_redis w) calls)
  | Raise e =>
      (set_outcome ERROR (Exception_ e) s,
       mkWorld (record_failure bcfg (t_fail x) (w_breaker w)) (w_limiter w) (w_redis w) calls)
  end.

(** [_enforce]; [patched] is the intent object as it is when the cache is written. *)
Definition enforce_step (x : run_inputs) (patched : PolicyIntent) (s : AgentState) (w : world)
    : AgentState * world :=
  match st_intent s with
  | None => (s, w)
  | Some i =>
      if bool_decide (pi_action i <> DROP) then (s, w) else
      match is_open (t_open1 x) (t_open2 x) (w_breaker w) with
      | Some (failures, remaining) => (set_outcome REJECTED (BreakerOpen failures remaining) s, w)
      | None =>
          let '(err, limiter) := check_and_consume lim (t_rate x) (pi_src_ip i) (w_limiter w) in
          let w := mkWorld (w_breaker w) limiter (w_redis w) (w_calls w) in
          match err with
          | Some _ => (set_outcome REJECTED RateLimited s, w)
          | None =>
              if dry_run then (set_outcome DRY_RUN (st_reason s) s, w)
              else live_enforce x i s w patched
          end
      end
  end.

(** The fork: enforcement beside the reasoning trace; a cache hit has no trace. *)
Definition fork (x : run_inputs) (s : AgentState) (w : world) : AgentState * world :=
  let trace := if st_cache_hit s then None
               else node_collect_reasoning (in_reasoning x) (st_intent s) in
  let apply (i : PolicyIntent) := match trace with Some m => patch_reasoning m i | None => i end in
  match st_intent s with
  | None => (s, w)
  | Some i =>
      let '(s', w') := enforce_step x (if in_reasoning_first x then apply i else i) s w in
      (set_intent (apply <$> st_intent s') s', w')
  end.

Definition finalize (n : Z) (a : SuricataAlert) (s : AgentState) : PolicyDecision :=
  mkDecision n (al_src_ip a) (st_intent s) (default ERROR (st_outcome s)) (st_reason s).

Definition ends_with_outcome (os : list DecisionOutcome) (s : AgentState) : bool :=
  match st_outcome s with Some o => bool_decide (o ∈ os) | None => false end.

(** The body of the [try]: the state it ends in, or the exception with the state
    and the world at that point. *)
Definition pipeline (x : run_inputs) (s : AgentState) (w : world)
    : (AgentState * world) + (exn * AgentState * world) :=
  match node_load_context (in_prompt x) s with
  | Raise e => inr (e, s, w)
  | Ok s =>
      let s := node_classify_alert (in_classify x) s in
      if bool_decide (st_classification s = "benign") then inl (node_log_and_end s, w) else
      match node_gather_context (t_redis x) (in_correlation x) (in_context x) s (w_redis w) with
      | (Raise e, r) => inr (e, s, set_redis r w)
      | (Ok s, r) =>
          let w := set_redis r w in
          match node_check_response_cache kb ccfg (t_redis x) s (w_redis w) with
          | Raise e => inr (e, s, w)
          | Ok (s, r) =>
              let w := set_redis r w in
              match (if st_cache_hit s then Ok s else node_decide_policy (in_react x) (in_chat x) s) with
              | Raise e => inr (e, s, w)
              | Ok s =>
                  if ends_with_outcome [REJECTED; HELD] s then inl (s, w) else
                  match node_validate_decision kb cfg s with
                  | Raise e => inr (e, s, w)
                  | Ok s =>
                      if ends_with_outcome [REJECTED; HELD; BENIGN] s then inl (s, w)
                      else inl (fork x s w)
                  end
              end
          end
      end
  end.

(** [process]: the SID and the severity are read before the [try]. *)
Definition process (x : run_inputs) (a : SuricataAlert) (w : world) : res (PolicyDecision * world) :=
  let* n := sid a in
  let* _ := severity a in
  match pipeline x (state0 a) w with
  | inl (s, w') => Ok (finalize n a s, w')
  | inr (e, s, w') => Ok (finalize n a (set_outcome ERROR (Exception_ e) s), w')
  end.

(** ** Lemmas *)
(** The run called the backend once, for [i], and what it had established before. *)
Record called (x : run_inputs) (a : SuricataAlert) (w w' : world) (i : PolicyIntent) : Prop := {
  ca_calls : w_calls w' = w_calls w ++ [i];
  ca_live : dry_run = false;
  ca_drop : pi_action i = DROP;
  ca_cleared : cleared kb cfg a i;
  ca_closed : is_open (t_open1 x) (t_open2 x) (w_breaker w) = None;
  ca_granted : (check_and_consume lim (t_rate x) (pi_src_ip i) (w_limiter w)).1 = None;
  ca_limiter : w_limiter w' = (check_and_consume lim (t_rate x) (pi_src_ip i) (w_limiter w)).2 }.

Definition call_succeeds (w : world) (i : PolicyIntent) : Prop :=
  exists r, enforce (length (w_calls w)) i = Ok r /\ er_success r = true.

(** What one run that ends with outcome [o] does to the world. *)
Record step_ok (x : run_inputs) (a : SuricataAlert) (w w' : world) (o : option DecisionOutcome) : Prop := {
  so_calls : w_calls w' = w_calls w \/ exists i, called x a w w' i;
  so_limiter : w_limiter w' = w_limiter w \/
    exists src, w_limiter w' = (check_and_consume lim (t_rate x) src (w_limiter w)).2 /\
      ((check_and_consume lim (t_rate x) src (w_limiter w)).1 <> None -> w_calls w' = w_calls w);
  so_enforced : o = Some ENFORCED <-> exists i, called x a w w' i /\ call_succeeds w i }.

Lemma snoc_ne {A} (l : list A) x : l <> l ++ [x].
Proof. intros E. apply (f_equal length) in E. rewrite length_app in E. cbn in E. lia. Qed.

Lemma step_quiet x a w w' o : w_calls w' = w_calls w -> w_limiter w' = w_limiter w -> o <> Some ENFORCED ->
  step_ok x a w w' o.
Proof.
  intros Hc Hl Ho. constructor; auto. split; [done|]. intros (i & [E] & _). rewrite Hc in E. by apply snoc_ne in E.
Qed.

Lemma step_redis x a r w w' o : step_ok x a (set_redis r w) w' o -> step_ok x a w w' o.
Proof.
  intros [Hca Hli Hen]. constructor.
  - destruct Hca as [?|[i []]]; [auto|]. right. exists i. by constructor.
  - done.
  - rewrite Hen. split; intros (i & [] & ?); exists i; (split; [by constructor|done]).
Qed.

Lemma enforce_step_ok x p a s w : st_outcome s = None ->
  (forall i, st_intent s = Some i -> pi_action i = DROP -> cleared kb cfg a i) ->
  step_ok x a w (enforce_step x p s w).2 (st_outcome (enforce_step x p s w).1).
Proof.
  intros Ho Hc. unfold enforce_step.
  assert (Hno : st_outcome s <> Some ENFORCED) by congruence.
  destruct (st_intent s) as [i|]; [|by apply step_quiet].
  case_bool_decide as Hd; [by apply step_quiet|].
  destruct (is_open _ _ _) as [[f rem]|] eqn:Eo; [by apply step_quiet|].
  destruct (check_and_consume lim (t_rate x) (pi_src_ip i) (w_limiter w)) as [err l] eqn:Er.
  specialize (Hc i eq_refl Hd).
  assert (Hdenied : forall o r b, o <> Some ENFORCED -> step_ok x a w (mkWorld b l r (w_calls w)) o).
  { intros o r b Hne. constructor; [auto|right; exists (pi_src_ip i); by rewrite Er|].
    split; [done|]. intros (j & [E] & _). by apply snoc_ne in E. }
  destruct err as [e|]; [by apply Hdenied|].
  destruct dry_run eqn:Edry; [by apply Hdenied|].
  assert (Hcall : forall o r b, (o = Some ENFORCED <-> call_succeeds w i) ->
    step_ok x a w (mkWorld b l r (w_calls w ++ [i])) o).
  { intros o r b Hiff.
    assert (Hw : called x a w (mkWorld b l r (w_calls w ++ [i])) i) by (constructor; cbn; rewrite ?Er; auto).
    constructor; [eauto|right; exists (pi_src_ip i); by rewrite Er|].
    rewrite Hiff. split; [eauto|]. intros (j & [E] & Hj). cbn in E. apply app_inj_tail in E as [_ ->]. done. }
  unfold live_enforce. destruct (enforce (length _) i) as [result|e] eqn:Ee; [destruct (er_success result) eqn:Es|];
    apply Hcall; unfold call_succeeds; cbn in Ee; rewrite Ee; cbn; split; try done; try (intros (? & ? & ?); congruence).
  eauto.
Qed.

Lemma fork_ok x a s w : st_outcome s = None ->
  (forall i, st_intent s = Some i -> pi_action i = DROP -> cleared kb cfg a i) ->
  step_ok x a w (fork x s w).2 (st_outcome (fork x s w).1).
Proof.
  intros Ho Hc. unfold fork. destruct (st_intent s) as [i|] eqn:Ei; [|apply step_quiet; [done..|cbn; congruence]].
  match goal with |- context [enforce_step x ?p s w] => pose proof (enforce_step_ok x p a s w Ho) as He;
    destruct (enforce_step x p s w) end.
  apply He. by rewrite Ei.
Qed.

(** The state and world a run ends in; an exception makes the outcome [ERROR]. *)
Definition pipeline_end (r : (AgentState * world) + (exn * AgentState * world)) : option DecisionOutcome * world :=
  match r with inl (s, w) => (st_outcome s, w) | inr (_, _, w) => (Some ERROR, w) end.

Lemma validate_decision_outcome s s' : node_validate_decision kb cfg s = Ok s' ->
  st_outcome s' = st_outcome s \/ st_outcome s' ∈ [Some REJECTED; Some HELD; Some BENIGN].
Proof.
  unfold node_validate_decision. destruct (st_intent s); [|by intros; simplify_eq; auto].
  destruct (sid (st_alert s)) as [n|]; cbn [rbind]; [|done].
  destruct (vok _); cbn [negb]; [|intros; simplify_eq; set_solver].
  destruct (evaluate_confidence _ _ _ _); try case_bool_decide; intros; simplify_eq; set_solver.
Qed.

Lemma ends_with_ne os s : ends_with_outcome os s = true -> ENFORCED ∉ os -> st_outcome s <> Some ENFORCED.
Proof.
  unfold ends_with_outcome. destruct (st_outcome s) as [o|]; [|done].
  intros Hin%bool_decide_eq_true Hni Heq. by simplify_eq.
Qed.

Lemma pipeline_ok x a w :
  step_ok x a w (pipeline_end (pipeline x (state0 a) w)).2 (pipeline_end (pipeline x (state0 a) w)).1.
Proof.
  unfold pipeline. unfold node_load_context. destruct (in_prompt x) as [p|]; cbn [rbind]; [|by apply step_quiet].
  case_bool_decide; [by apply step_quiet|].
  set (s1 := node_classify_alert _ _). assert (Ha1 : st_alert s1 = a /\ st_outcome s1 = None) by done.
  destruct (node_gather_context _ _ _ s1 _) as [[s2|] r2] eqn:E2; [|by apply step_quiet].
  assert (Ha2 : st_alert s2 = a /\ st_outcome s2 = None).
  { unfold node_gather_context in E2. destruct (push_alert_history _ _ _ _); [|done]. injection E2 as E2 <-.
    apply rbind_ok in E2 as (c & _ & E2). by simplify_eq. }
  apply (step_redis x a r2). clear E2.
  destruct (node_check_response_cache _ _ _ s2 _) as [[s3 r3]|] eqn:E3; [|by apply step_quiet].
  apply check_cache_frame in E3 as [Ha3 Ho3].
  apply (step_redis x a r3).
  set (dec := if st_cache_hit s3 then Ok s3 else _). destruct dec as [s4|] eqn:E4; [|by apply step_quiet].
  destruct (ends_with_outcome _ s4) eqn:Eo4.
  { apply step_quiet; [done..|]. eapply ends_with_ne; [exact Eo4|]. set_solver. }
  assert (Ha4 : st_alert s4 = a /\ st_outcome s4 = None).
  { unfold dec in E4. destruct (st_cache_hit s3); [simplify_eq; destruct Ha2; split; congruence|].
    apply decide_policy_frame in E4 as [Ha4 [[Ho4 _]|[Ho4 _]]].
    - destruct Ha2. split; congruence.
    - unfold ends_with_outcome in Eo4. by rewrite Ho4 in Eo4. }
  destruct (node_validate_decision kb cfg s4) as [s5|] eqn:E5; [|by apply step_quiet].
  destruct (ends_with_outcome _ s5) eqn:Eo5.
  { apply step_quiet; [done..|]. eapply ends_with_ne; [exact Eo5|]. set_solver. }
  assert (Ho5 : st_outcome s5 = None).
  { destruct (validate_decision_outcome _ _ E5) as [Ho|Hin]; [destruct Ha4; congruence|]. exfalso.
    destruct (st_outcome s5) as [o|] eqn:Ho; [|set_solver]. unfold ends_with_outcome in Eo5. rewrite Ho in Eo5.
    apply bool_decide_eq_false in Eo5. apply Eo5. set_solver. }
  pose proof (fork_ok x a s5 (set_redis r3 (set_redis r2 w)) Ho5) as Hf.
  destruct (fork _ _ _) as [s6 w6]. apply Hf. intros i Hi _.
  destruct (validate_decision_pass _ _ _ _ _ E5 (proj2 Ha4) Ho5 Hi) as [Hc _].
  destruct Ha4 as [<- _]. done.
Qed.

Lemma process_ok x a w d w' : process x a w = Ok (d, w') ->
  step_ok x a w w' (Some (d_outcome d)).
Proof.
  unfold process. destruct (sid a); cbn [rbind]; [|done]. destruct (severity a); cbn [rbind]; [|done].
  pose proof (pipeline_ok x a w) as [Hca Hli Hen].
  destruct (pipeline x (state0 a) w) as [[s w1]|[[e s] w1]]; intros; simplify_eq; constructor; try done.
  cbn in Hen |- *. rewrite <- Hen. destruct (st_outcome s); cbn; split; intros; congruence.
Qed.

(** ** What the reasoning trace can change *)
Definition with_reasoning (chat : nat -> res pyval) (first : bool) (x : run_inputs) : run_inputs :=
  Inputs (in_prompt x) (in_classify x) (in_correlation x) (in_context x) (in_react x) (in_chat x) chat first
    (t_redis x) (t_open1 x) (t_open2 x) (t_rate x) (t_fail x) (in_now_iso x).

(** Two states, or worlds, that differ at most in audit fields (and in what is cached). *)
Definition same_world (w w' : world) : Prop :=
  w_breaker w = w_breaker w' /\ w_limiter w = w_limiter w' /\ w_calls w = w_calls w'.
Definition decided (i : PolicyIntent) :=
  (pi_rule_id i, pi_action i, pi_src_ip i, pi_dst_ip i, pi_dst_port i, pi_protocol i, pi_priority i,
   pi_ttl_seconds i, pi_comment i, pi_confidence i, pi_notification i).
Definition same_intent (i i' : option PolicyIntent) : Prop := decided <$> i = decided <$> i'.
Definition same_end (r r' : AgentState * world) : Prop :=
  st_outcome r.1 = st_outcome r'.1 /\ st_reason r.1 = st_reason r'.1 /\ same_intent (st_intent r.1) (st_intent r'.1) /\
  same_world r.2 r'.2.

Lemma enforce_step_same x c f p p' s w :
  st_intent (enforce_step x p s w).1 = st_intent s /\
  (enforce_step x p s w).1 = (enforce_step (with_reasoning c f x) p' s w).1 /\
  same_world (enforce_step x p s w).2 (enforce_step (with_reasoning c f x) p' s w).2.
Proof.
  unfold enforce_step, live_enforce, same_world. cbn [t_redis t_open1 t_open2 t_rate t_fail with_reasoning].
  destruct (st_intent s) as [i|] eqn:Ei; [|done]. case_bool_decide; [done|].
  destruct (is_open _ _ _) as [[]|]; [done|]. destruct (check_and_consume _ _ _ _) as [[e|] l]; [done|].
  destruct dry_run; [done|]. cbn. destruct (enforce _ i) as [r|]; [destruct (er_success r)|]; done.
Qed.

Lemma fork_same x c f s w : same_end (fork x s w) (fork (with_reasoning c f x) s w).
Proof.
  unfold fork, same_end. destruct (st_intent s) as [i|] eqn:Ei; [|done].
  match goal with |- context [enforce_step x ?p s w] =>
    match goal with |- context [enforce_step (with_reasoning c f x) ?p' s w] =>
      pose proof (enforce_step_same x c f p p' s w) as (H1' & H2' & H3');
      destruct (enforce_step x p s w) as [s1 w1], (enforce_step (with_reasoning c f x) p' s w) as [s2 w2] end end.
  cbn [fst snd] in *. subst s2. split; [done|split; [done|split; [|done]]].
  unfold same_intent. rewrite H1', Ei. destruct (st_cache_hit s); [done|].
  generalize (node_collect_reasoning (in_reasoning x) (Some i)).
  generalize (node_collect_reasoning (in_reasoning (with_reasoning c f x)) (Some i)).
  by intros [] [].
Qed.

Lemma pipeline_same x c f s w :
  match pipeline x s w, pipeline (with_reasoning c f x) s w with
  | inl r, inl r' => same_end r r'
  | r, r' => r = r'
  end.
Proof.
  assert (Hrefl : forall r, same_end r r) by done.
  unfold pipeline. cbn [in_prompt in_classify in_correlation in_context in_react in_chat t_redis with_reasoning].
  destruct (node_load_context _ s) as [s1|]; [|done].
  case_bool_decide; [apply Hrefl|].
  destruct (node_gather_context _ _ _ _ _) as [[s2|] r2]; [|done].
  destruct (node_check_response_cache _ _ _ _ _) as [[s3 r3]|]; [|done].
  destruct (if st_cache_hit s3 then _ else _) as [s4|]; [|done].
  destruct (ends_with_outcome _ s4); [apply Hrefl|].
  destruct (node_validate_decision _ _ _) as [s5|]; [|done].
  destruct (ends_with_outcome _ s5); [apply Hrefl|]. apply fork_same.
Qed.

(** ** A sequence of runs *)
Fixpoint agent_run (xs : list (run_inputs * SuricataAlert)) (w : world) : world :=
  match xs with
  | [] => w
  | (x, a) :: xs' => match process x a w with Ok (_, w') => agent_run xs' w' | Raise _ => agent_run xs' w end
  end.

Fixpoint rate_times_from (t : Z) (xs : list (run_inputs * SuricataAlert)) : Prop :=
  match xs with [] => True | (x, _) :: xs' => t <= t_rate x /\ rate_times_from (t_rate x) xs' end.

(** The grants of the limiter so far cover the calls made. *)
Definition agent_inv (now : Z) (g : list (Z * string)) (w : world) : Prop :=
  limiter_inv lim now g (w_limiter w) /\ bounded lim now g /\ (length (w_calls w) <= length g)%nat.

Lemma spec_decision_bounded now now' ip g : now <= now' -> bounded lim now g ->
  bounded lim now' (g ++ match spec_decision lim now' ip g with None => [(now', bare_ip ip)] | Some _ => [] end).
Proof.
  intros Hle Hb. assert (Hord : ordered_from now [(now', ip)]) by done.
  destruct (spec_decision lim now' ip g) as [e|] eqn:E.
  - rewrite app_nil_r. destruct Hb as [Hl Hm Ht Hi]. constructor; try done.
    eapply Forall_impl; [exact Hl|]. intros c Hc. cbn in *. lia.
  - destruct Hb as [Hl Hm Ht Hi].
    assert (Hl' : Forall (fun c : Z * string => c.1 <= now') g).
    { eapply Forall_impl; [exact Hl|]. intros c Hc. cbn in *. lia. }
    unfold spec_decision in E. repeat case_match; simplify_eq.
    repeat match goal with H : (_ <=? _) = false |- _ => apply Z.leb_gt in H end.
    constructor.
    + apply Forall_app. split; [done|]. by repeat constructor.
    + rewrite fmap_app. apply (window_bound_snoc _ now'); [by apply Forall_fmap|lia|done].
    + rewrite length_app. cbn. lia.
    + intros ip'. rewrite times_of_snoc. cbn [fst snd]. case_decide; [|done]. subst.
      apply (window_bound_snoc _ now'); [by apply times_of_le|lia|done].
Qed.

Lemma agent_step_inv x a now g w d w' : now <= t_rate x -> agent_inv now g w ->
  process x a w = Ok (d, w') -> exists now' g', now' <= t_rate x /\ agent_inv now' g' w'.
Proof.
  intros Hle (Hl & Hb & Hc) Hp. apply process_ok in Hp as [Hcalls Hlim _].
  destruct Hlim as [Hlim|(src & Hlim & Hden)].
  - exists now, g. split; [done|]. unfold agent_inv. rewrite Hlim. split_and!; [done|done|].
    destruct Hcalls as [->|(i & [Hi _ _ _ _ Hgr Hw])]; [done|].
    exfalso. rewrite Hlim in Hw. pose proof (check_spec lim now (t_rate x) g (pi_src_ip i) _ Hle Hl) as Hs.
    destruct (check_and_consume lim (t_rate x) (pi_src_ip i) (w_limiter w)) as [r st] eqn:Er.
    cbn in Hgr, Hw. subst r. destruct Hs as [_ Hs]. rewrite <- Hw in Hs.
    destruct Hl as [_ Ht _]. destruct Hs as [_ Ht' _]. rewrite length_app in Ht'. cbn in Ht'. lia.
  - pose proof (check_spec lim now (t_rate x) g src _ Hle Hl) as Hs.
    destruct (check_and_consume lim (t_rate x) src (w_limiter w)) as [r st] eqn:Er.
    cbn in Hlim, Hden. destruct Hs as [Hr Hs]. pose proof (spec_decision_bounded now (t_rate x) src g Hle Hb) as Hb'.
    rewrite <- Hr in Hb'. eexists (t_rate x), _. split; [done|]. unfold agent_inv. rewrite Hlim.
    split_and!; [exact Hs|exact Hb'|]. rewrite length_app. destruct r as [e|].
    + rewrite Hden by done. lia.
    + cbn. destruct Hcalls as [->|(i & [-> _ _ _ _ _ _])]; [lia|]. rewrite length_app. cbn. lia.
Qed.

Lemma agent_run_inv xs : forall now g w, agent_inv now g w -> rate_times_from now xs ->
  exists now' g', agent_inv now' g' (agent_run xs w).
Proof.
  induction xs as [|[x a] xs IH]; intros now g w Hi Hr; cbn; [eauto|]. destruct Hr as [Hle Hr].
  assert (Hr' : forall t, t <= t_rate x -> rate_times_from t xs).
  { intros t Ht. destruct xs as [|[y b] xs]; cbn in *; [done|]. destruct Hr. split; [lia|done]. }
  destruct (process x a w) as [[d w']|] eqn:E; [|eauto].
  destruct (agent_step_inv _ _ _ _ _ _ _ Hle Hi E) as (now' & g' & Ht & Hi'). eauto.
Qed.

(** ** Properties *)
(** C3: one run of the agent sends at most one request to the enforcement
    backend, and only outside dry-run mode, for a DROP that passed every
    validation layer with a confidence that enforces, while the circuit breaker
    was closed and after the rate limiter granted its source; the decision is
    reported as enforced exactly when that request was made and succeeded. *)
Theorem enforcement_guarded x a w d w' : process x a w = Ok (d, w') ->
  (w_calls w' = w_calls w \/ exists i, called x a w w' i) /\
  (d_outcome d = ENFORCED <-> exists i, called x a w w' i /\ call_succeeds w i).
Proof.
  intros [Hca _ Hen]%process_ok. split; [done|]. rewrite <- Hen. split; intros; congruence.
Qed.

(** C37: the reasoning trace, whatever it answers and whenever it finishes
    relative to the enforcement, changes nothing but audit fields: the outcome,
    its reason, the breaker, the limiter and the requests to the backend are the
    same, and the decided intent is the same up to those fields. *)
Theorem reasoning_noninterference x chat first a w :
  match process x a w, process (with_reasoning chat first x) a w with
  | Ok (d, w1), Ok (d', w2) =>
      d_outcome d = d_outcome d' /\ d_reason d = d_reason d' /\ same_intent (d_intent d) (d_intent d') /\
      same_world w1 w2
  | Raise e, Raise e' => e = e'
  | _, _ => False
  end.
Proof.
  unfold process. destruct (sid a); cbn [rbind]; [|done]. destruct (severity a); cbn [rbind]; [|done].
  pose proof (pipeline_same x chat first (state0 a) w) as Hs.
  destruct (pipeline x _ w) as [[s1 w1]|[[e1 s1] w1]], (pipeline (with_reasoning _ _ x) _ w) as [[s2 w2]|[[e2 s2] w2]];
    try done.
  - destruct Hs as (Ho & Hr & Hi & Hw). cbn in *. rewrite Ho. done.
  - by simplify_eq.
Qed.

(** Whatever the alerts, the LLM's answers and the backend's, a sequence of
    runs from a fresh limiter, on a clock that does not run backwards, sends at
    most [max_total] requests to the enforcement backend. *)
Theorem agent_blast_radius xs w now :
  w_limiter w = limiter0 -> w_calls w = [] -> rate_times_from now xs ->
  Z.of_nat (length (w_calls (agent_run xs w))) <= Z.max 0 (max_total lim).
Proof.
  intros Hl Hc Hr. destruct (agent_run_inv xs now [] w) as (now' & g & _ & Hb & Hlen); [|done|].
  - split; [rewrite Hl; apply limiter_inv0|split; [apply bounded_nil|by rewrite Hc]].
  - destruct Hb as [_ _ Ht _]. lia.
Qed.
End Agent.

(** A live run on a catalogued DROP: the LLM answers a DROP on the alert's source. *)
Definition sample_inputs : run_inputs :=
  Inputs (Ok "prompt") (Ok (PDict [("content", PStr "threat")])) (Ok None) (Ok "context") None
    (fun _ => Ok (PDict [("action", PStr "DROP"); ("src_ip", PStr "10.1.100.10/32"); ("dst_ip", PStr "10.1.200.20/32");
                         ("dst_port", PInt 22); ("ttl_seconds", PInt 600); ("confidence", PFloat (9#10))]))
    (fun _ => Raise (ValueError "")) false 0 1 1 2 3 "2026-01-01T00:00:00+00:00".
Definition sample_alert : SuricataAlert :=
  mkAlert "" "10.1.100.10" "10.1.200.20" 0 22 "tcp" [("signature_id", PInt 9000001); ("severity", PInt 1)] [].
Definition sample_backend : EnforcementBackend := {|
  enforce n i := Ok (mkResult true (pi_rule_id i) "test" [] ""); revoke n r := Raise (ValueError ""); ping n := true |}.
Definition sample_world : @world redis0 := mkWorld breaker0 limiter0 redis_empty [].
Definition sample_cache : cache_config := CacheConfig (300 * SEC) true.

Local Abbreviation sample_process := (@process external0 meta0 (fun _ => "") redis0 sample_backend catalogue0
  default_settings sample_cache default_limits default_breaker false).
Local Abbreviation sample_run := (@agent_run external0 meta0 (fun _ => "") redis0 sample_backend catalogue0
  default_settings sample_cache default_limits default_breaker false).

Definition sample_end : PolicyDecision * @world redis0 :=
  res_or (mkDecision 0 "" None ERROR NoReason, sample_world) (sample_process sample_inputs sample_alert sample_world).

Lemma sample_end_ok : sample_process sample_inputs sample_alert sample_world = Ok (sample_end.1, sample_end.2).
Proof. rewrite <- surjective_pairing. apply res_or_ok. vm_compute. reflexivity. Qed.

Lemma enforcement_guarded_witness :
  d_outcome sample_end.1 = ENFORCED /\ exists i, w_calls sample_end.2 = [i] /\ pi_action i = DROP.
Proof.
  pose proof (proj2 (@enforcement_guarded external0 meta0 (fun _ => "") redis0 sample_backend catalogue0
    default_settings sample_cache default_limits default_breaker false sample_inputs sample_alert sample_world
    sample_end.1 sample_end.2 sample_end_ok)) as Hiff.
  assert (Hd : d_outcome sample_end.1 = ENFORCED) by (vm_compute; reflexivity).
  split; [exact Hd|]. destruct (proj1 Hiff Hd) as (i & Hc & _).
  exists i. split; [exact (ca_calls _ _ _ _ _ _ _ _ _ Hc)|exact (ca_drop _ _ _ _ _ _ _ _ _ Hc)].
Defined.

Lemma agent_blast_radius_witness :
  let w' := sample_run [(sample_inputs, sample_alert); (sample_inputs, sample_alert)] sample_world in
  length (w_calls w') = 2%nat /\ Z.of_nat (length (w_calls w')) <= Z.max 0 50.
Proof.
  split; [vm_compute; reflexivity|].
  apply (@agent_blast_radius external0 meta0 (fun _ => "") redis0 sample_backend catalogue0
    default_settings sample_cache default_limits default_breaker false _ _ 0); [done..|].
  cbn. lia.
Defined.
