(* ===== verification/Api.v ===== *)
(** * From an alert to the records of its decision (main.py, api/routes.py)

    The callback of the pipeline and the POST route around gate and agent: what is
    saved, cached, published and indexed; the ring of recent decisions with its SSE
    streams; and the routes over decisions, the trigger and the limiter.  The id of a
    decision, its times and texts, the embedding model and the request's JSON are
    inputs; a stream's queue is read and written between its awaits only. *)
From S2P Require Import Prelude PyVal Json Topology Policy Models Safety Redis Gate ResponseCache RateLimiter CircuitBreaker.
From S2P Require Import Enforcement Nodes Agent Postgres DecisionStore EventsStore.
Local Open Scope string_scope.
Local Open Scope Z_scope.
Local Open Scope list_scope.

(** A dict of a decision; the one value that is not JSON, the time its reasoning was
    complete, is kept apart. *)
Record item := Item { it_dict : obj; it_completed : option Z }.

(** ** The ring and the streams *)
Definition RECENT : nat := 200.
Definition QUEUE_SIZE : nat := 100.
Record feed := Feed { recent : list item; queues : list (nat * list item); next_queue : nat }.
Definition feed0 : feed := Feed [] [] 0.

(** [q.put_nowait], a full queue loses the item. *)
Definition offer (it : item) (q : list item) : list item := if (QUEUE_SIZE <=? length q)%nat then q else q ++ [it].
Definition push_decision (it : item) (f : feed) : feed :=
  Feed (take RECENT (it :: recent f)) (map (fun q => (q.1, offer it q.2)) (queues f)) (next_queue f).

Inductive stream_out := Opened | Ping | Data (text : string).

Definition open_stream (f : feed) : feed * nat := (Feed (recent f) (queues f ++ [(next_queue f, [])]) (S (next_queue f)), next_queue f).
Definition close_stream (id : nat) (f : feed) : feed := Feed (recent f) (dict_del (queues f) id) (next_queue f).

Section Feed.
Context `{PyRepr}.

(** [json.dumps(item)]: a time is not serialisable. *)
Definition dump_item (it : item) : res string :=
  match it_completed it with
  | None => Ok (json_dumps false (PDict (it_dict it)))
  | Some _ => Raise (TypeError "Object of type datetime is not JSON serializable")
  end.

(** One round of [event_generator]; whatever ends it, the queue is removed. *)
Definition stream_step (id : nat) (disconnected : bool) (f : feed) : feed * option stream_out :=
  match dict_get (queues f) id with
  | None => (f, None)
  | Some q =>
      if disconnected then (close_stream id f, None) else
      match q with
      | [] => (f, Some Ping)
      | it :: q' =>
          match dump_item it with
          | Ok t => (Feed (recent f) (dict_set (queues f) id q') (next_queue f), Some (Data ("data: " ++ t ++ chr 10 ++ chr 10)%string))
          | Raise _ => (close_stream id f, None)
          end
      end
  end.
End Feed.

(** ** The text of a decision for the embedding (storage/embedder.py) *)
Definition opt_text (o : option string) : string := match o with Some s => str_or s "?" | None => "?" end.
Definition has_text (o : option string) : bool := match o with Some s => nonempty s | None => false end.
Section Text.
Context `{PyRepr}.

(** [v[:n]] *)
Definition front (n : nat) (v : pyval) : res pyval :=
  match v with
  | PStr s => Ok (PStr (py_take n s))
  | PList l => Ok (PList (take n l))
  | _ => Raise (TypeError "object is not subscriptable")
  end.
(** [f"{label}{v[:n]}"] when [v] is not empty *)
Definition part (label : string) (n : nat) (v : pyval) : res (list string) :=
  if truthy v then let* u := front n v in Ok [(label ++ py_str u)%string] else Ok [].

Definition build_decision_text (sid : Z) (src_zone dst_zone : option string)
    (signature primary_hypothesis first_step mitre : pyval) : res string :=
  let head := [("SID " ++ str_of_Z sid)%string] ++
    (if truthy mitre then [("MITRE " ++ py_str mitre)%string] else []) ++
    (if has_text src_zone || has_text dst_zone then [("flow " ++ opt_text src_zone ++ " to " ++ opt_text dst_zone)%string] else []) in
  let* sig := part "sig: " 120 signature in
  let* hyp := part "hypothesis: " 120 primary_hypothesis in
  let* why := part "why: " 160 first_step in
  Ok (py_join " | " (head ++ sig ++ hyp ++ why)).
End Text.

(** What a run is given from outside: the decision's id and texts, clocks, and the time
    its dict is built. *)
Record extras := Extras {
  x_id : string; x_safety : obj; x_latency : Q; x_trace : string; x_reason : string; x_built : Z;
  x_saved : Z; x_saved' : Z; x_gate : Z; x_cached : Z }.

(** ** The dict of a decision *)
Definition meta (i : PolicyIntent) (k : string) (dflt : pyval) : pyval := jget_or (pi_reasoning i) k dflt.
Definition of_intent (d : PolicyDecision) (f : PolicyIntent -> pyval) (none : pyval) : pyval :=
  match d_intent d with Some i => f i | None => none end.
Definition reasoning_done (d : PolicyDecision) : bool :=
  match d_intent d with Some i => truthy (meta i "reasoning_steps" (PList [])) | None => false end.
Definition no_rollback : pyval := PDict [("trigger", PStr ""); ("action", PStr ""); ("monitor_seconds", PInt 300)].

Definition decision_dict (dry_run : bool) (x : extras) (d : PolicyDecision) : obj :=
  let f := of_intent d in
  [("id", PStr (x_id x)); ("alert_sid", PInt (d_alert_sid d)); ("alert_src_ip", PStr (d_alert_src_ip d));
   ("outcome", PStr (outcome_value (d_outcome d)));
   ("action", f (fun i => PStr (action_value (pi_action i))) PNone);
   ("src_ip", f (fun i => PStr (pi_src_ip i)) PNone); ("dst_ip", f (fun i => PStr (pi_dst_ip i)) PNone);
   ("dst_port", f (fun i => PInt (pi_dst_port i)) PNone); ("confidence", f (fun i => PFloat (pi_confidence i)) PNone);
   ("rejection_reason", PStr (x_reason x)); ("safety_checks", PDict (x_safety x));
   ("reasoning", f (fun i => meta i "reasoning_steps" (PList [])) (PList []));
   ("hypotheses", f (fun i => meta i "hypotheses" (PList [])) (PList []));
   ("rollback_plan", f (fun i => meta i "rollback_plan" no_rollback) (PDict []));
   ("rule_id", f (fun i => PStr (pi_rule_id i)) PNone); ("ttl_seconds", f (fun i => PInt (pi_ttl_seconds i)) PNone);
   ("latency_ms", PFloat (x_latency x)); ("dry_run", PBool dry_run); ("trace_id", PStr (x_trace x));
   ("primary_hypothesis", f (fun i => meta i "primary_hypothesis" (PStr "")) PNone);
   ("alternative_actions", f (fun i => meta i "alternative_actions" (PList [])) (PList []));
   ("follow_up_actions", f (fun i => meta i "follow_up_actions" (PList [])) (PList []));
   ("mitre_technique", f (fun i => meta i "mitre_technique" (PStr "")) PNone);
   ("mitre_tactic", f (fun i => meta i "mitre_tactic" (PStr "")) PNone)].
Definition notification_fields (d : PolicyDecision) : obj :=
  let f g := of_intent d (fun i => PStr (g (pi_notification i))) PNone in
  [("notification_title", f un_title); ("notification_body", f un_body);
   ("notification_severity", f (fun n => notification_value (un_severity n)))].
Definition completed_at (x : extras) (d : PolicyDecision) : option Z := if reasoning_done d then Some (x_built x) else None.

(** [intent.reasoning_steps[0]], cut at 200; Stage 2 does not check what it is. *)
Definition first_step (i : PolicyIntent) : res pyval :=
  let steps := meta i "reasoning_steps" (PList []) in
  if truthy steps then let* v := index0 steps in front 200 v else Ok (PStr "").

(** The document of a decision; neither caller passes a signature that is not empty. *)
Definition decision_doc `{PyRepr} (d : PolicyDecision) (i : PolicyIntent) : res string :=
  let* step := first_step i in
  build_decision_text (d_alert_sid d) (ip_to_zone (d_alert_src_ip d))
    (if nonempty (pi_dst_ip i) then ip_to_zone (pi_dst_ip i) else None) (PStr "")
    (por (meta i "primary_hypothesis" (PStr "")) (PStr "")) step (por (meta i "mitre_technique" (PStr "")) (PStr "")).

Section Api.
Context `{External} `{MetaCodec} `{PyRepr} `{RedisServer} `{EnforcementBackend} `{Postgres}.
Context (kb : catalogue) (cfg : settings) (ccfg : cache_config) (lim : limits) (bcfg : breaker_config) (gcfg : gate_config).
Context (dry_run : bool) (dt_str : Z -> string).
#[local] Abbreviation process := (process kb cfg ccfg lim bcfg dry_run).

Record app := App { a_world : world; a_store : store; a_feed : feed; a_tasks : list (string * string) (* documents to embed, by decision *) }.
Definition with_world (w : world) (s : app) : app := App w (a_store s) (a_feed s) (a_tasks s).
Definition with_redis (r : redis) (s : app) : app := with_world (set_redis r (a_world s)) s.

(** The dict as [json.dumps(..., default=str)] writes it. *)
Definition cached_dict (it : item) : obj :=
  it_dict it ++ [("reasoning_completed_at", match it_completed it with Some t => PStr (dt_str t) | None => PNone end)].

(** Save, cache, publish, then schedule the embedding; an exception leaves what was done. *)
Definition record_decision (x : extras) (d : PolicyDecision) (it : item) (s : app) : app * option exn :=
  match save_decision (x_saved x) (x_saved' x) (it_dict it) (it_completed it) (a_store s) with
  | Raise e => (s, Some e)
  | Ok st =>
      let s := App (a_world s) st (a_feed s) (a_tasks s) in
      match cache_decision (x_cached x) (x_id x) (PDict (cached_dict it)) (w_redis (a_world s)) with
      | Raise e => (s, Some e)
      | Ok r =>
          let s := with_redis r s in
          let s := App (a_world s) (a_store s) (push_decision it (a_feed s)) (a_tasks s) in
          match d_intent d with
          | None => (s, None)
          | Some i =>
              match decision_doc d i with
              | Raise e => (s, Some e)
              | Ok doc => (App (a_world s) (a_store s) (a_feed s) (a_tasks s ++ [(x_id x, doc)]), None)
              end
          end
      end
  end.

Inductive handled := Filtered (r : filter_reason) | Decided (d : PolicyDecision).

(** Gate, agent and records; [notify] adds the fields of the user notification. *)
Definition handle_alert (notify : bool) (x : extras) (inp : run_inputs) (alert : SuricataAlert) (s : app)
    : app * (handled + exn) :=
  match should_process gcfg (x_gate x) alert (w_redis (a_world s)) with
  | Raise e => (s, inr e)
  | Ok (Some r, rd) => (with_redis rd s, inl (Filtered r))
  | Ok (None, rd) =>
      let s := with_redis rd s in
      match process inp alert (a_world s) with
      | Raise e => (s, inr e)
      | Ok (d, w) =>
          let it := Item (decision_dict dry_run x d ++ (if notify then notification_fields d else [])) (completed_at x d) in
          match record_decision x d it (with_world w s) with
          | (s, None) => (s, inl (Decided d))
          | (s, Some e) => (s, inr e)
          end
      end
  end.

(** [on_alert] of main.py *)
Definition on_alert : extras -> run_inputs -> SuricataAlert -> app -> app * (handled + exn) := handle_alert true.

(** [POST /alerts] *)
Definition RESPONSE_FIELDS : list string :=
  ["id"; "alert_sid"; "alert_src_ip"; "outcome"; "action"; "src_ip"; "dst_ip"; "confidence"; "rejection_reason"; "latency_ms"; "dry_run"].
Definition response_of (x : extras) (d : PolicyDecision) : obj :=
  filter (fun kv => kv.1 ∈ RESPONSE_FIELDS) (decision_dict dry_run x d).
Definition ingest_alert (reason_text : filter_reason -> string) (x : extras) (inp : run_inputs) (data : obj) (s : app)
    : app * (obj + exn) :=
  match alert_from_raw data with
  | Raise e => (s, inr e)
  | Ok alert =>
      match handle_alert false x inp alert s with
      | (s, inr e) => (s, inr e)
      | (s, inl (Decided d)) => (s, inl (response_of x d))
      | (s, inl (Filtered r)) =>
          match sid alert with
          | Raise e => (s, inr e)
          | Ok n => (s, inl [("id", PStr "filtered"); ("alert_sid", PInt n); ("alert_src_ip", PStr (al_src_ip alert));
                             ("outcome", PStr "filtered"); ("action", PNone); ("src_ip", PNone); ("dst_ip", PNone);
                             ("confidence", PNone); ("rejection_reason", PStr (reason_text r)); ("latency_ms", PFloat 0);
                             ("dry_run", PBool true)])
          end
      end
  end.

(** [_embed_in_bg]: the oldest task that is left, with what the model answers. *)
Definition embed_in_bg (vec : string -> res (option (list Q))) (s : app) : app :=
  match a_tasks s with
  | [] => s
  | (id, doc) :: rest =>
      let s := App (a_world s) (a_store s) (a_feed s) rest in
      match (if nonempty (py_strip doc) then vec doc else Ok None) with
      | Ok (Some v) => App (a_world s) (write_embedding id v (a_store s)).2 (a_feed s) rest
      | _ => s
      end
  end.
End Api.

(** ** The routes *)
Inductive http_reply (A : Type) := Json_ (a : A) | NotFound.
Arguments Json_ {A} a.
Arguments NotFound {A}.

Section Routes.
Context `{PyRepr} `{RedisServer} `{EnforcementBackend} `{Postgres} `{SortedSets}.
Context (json_loads : string -> option pyval) (iso : Z -> string).

(** [GET /decisions] *)
Definition list_decisions_route (limit : Z) (st : store) : res (list obj) := list_decisions_history json_loads iso limit st.

(** [GET /decisions/{id}]: the history first, then the workspace. *)
Definition get_decision_route (id : string) (st : store) : res (http_reply obj) :=
  let* h := get_decision_history json_loads iso id st in
  match h with
  | Some d => Ok (Json_ d)
  | None =>
      let* w := get_decision json_loads iso id st in
      Ok (match w with Some d => Json_ d | None => NotFound end)
  end.

(** [DELETE /decisions/{rule_id}] *)
Definition revoke_decision (n : nat) (rule_id : string) : res obj :=
  let* r := revoke n rule_id in
  Ok [("success", PBool (er_success r)); ("rule_id", PStr rule_id); ("error", PStr (er_error r))].

(** [round(v or 0, 1)] *)
Definition rounded (v : pyval) : res pyval :=
  match por v (PInt 0) with
  | PFloat q => Ok (PFloat (py_round 1 q))
  | PInt z => Ok (PInt z)
  | PBool b => Ok (PInt (if b then 1 else 0))
  | _ => Raise (TypeError "type doesn't define __round__ method")
  end.

(** One entry of the timeline. *)
Definition history_entry (d : obj) : res obj :=
  let sc := por (jget d "safety_checks") (PDict []) in
  let* id := index_key (PDict d) "id" in
  let* created := index_key (PDict d) "created_at" in
  let* n := index_key (PDict d) "alert_sid" in
  let* src := index_key (PDict d) "alert_src_ip" in
  let* outcome := index_key (PDict d) "outcome" in
  let* dry := index_key (PDict d) "dry_run" in
  let* conf := get_of sc "confidence" PNone in
  let* score := get_of (por conf (PDict [])) "score" PNone in
  let* latency := rounded (jget d "latency_ms") in
  let title := jget d "notification_title" in
  Ok [("id", id); ("timestamp", created); ("alert_sid", n); ("attacker_ip", src); ("decision", outcome); ("dry_run", dry);
      ("action", jget d "action"); ("block_src", jget d "src_ip"); ("block_dst", jget d "dst_ip");
      ("confidence", por score (jget d "confidence")); ("latency_ms", latency);
      ("rejection_reason", por (jget d "rejection_reason") (PStr ""));
      ("notification",
        if truthy title then PDict [("title", por title (PStr "")); ("body", por (jget d "notification_body") (PStr ""));
                                    ("severity", por (jget d "notification_severity") (PStr "info"))]
        else PNone)].

Definition shown (include_rejected : bool) (d : obj) : bool :=
  bool_decide (jget d "outcome" ∈ [PStr "enforced"; PStr "dry_run"]) || include_rejected.

(** [GET /policy-history] *)
Definition policy_history (limit : Z) (include_rejected : bool) (st : store) : res (list obj) :=
  let* all := list_decisions_history json_loads iso limit st in
  mapM_res history_entry (filter (fun d => shown include_rejected d = true) all).

(** ** The trigger *)
Definition TRIGGER_KEY : string := "agent:trigger:enabled".
Definition get_trigger_state (now : Z) (s : redis) : res bool :=
  let* v := rget s now TRIGGER_KEY in
  Ok (match v with None => true | Some v => bool_decide (v ∈ [PStr "1"; PStr "true"]) end).
Definition set_trigger_state (now : Z) (enabled : bool) (s : redis) : res redis :=
  rset s now TRIGGER_KEY (PStr (if enabled then "1" else "0")) None.
(** [POST /admin/agent/trigger] *)
Definition admin_agent_trigger_set (now : Z) (body : pyval) (s : redis) : res (bool * redis) :=
  let* v := get_of body "enabled" (PBool true) in
  let enabled := truthy v in
  let* s := set_trigger_state now enabled s in
  Ok (enabled, s).

(** ** Events *)
(** The text of [since]: a number, or a date in milliseconds, or nothing. *)
Definition since_ms (parse_iso : string -> option Z) (since : string) : Z :=
  if nonempty since then
    match py_int since with
    | Ok z => z
    | Raise _ => default 0 (parse_iso since)
    end
  else 0.
(** [GET /events]; a negative limit goes to the store as it is. *)
Definition get_events_route (parse_iso : string -> option Z) (ts : event -> Z) (since : string) (limit : nat) (kind : string) (s : zsets)
    : list event :=
  get_events ts (since_ms parse_iso since) (Nat.min limit 2000) kind s.

(** ** Administration *)
Definition admin_reset (w : world) : world := mkWorld (w_breaker w) (reset (w_limiter w)) (w_redis w) (w_calls w).
(** [GET /health] *)
Definition health_route (n : nat) (dry_run : bool) (breaker limiter : obj) : obj :=
  [("status", PStr "ok"); ("ids_agent", PStr (if ping n then "connected" else "unreachable")); ("dry_run", PBool dry_run);
   ("circuit_breaker", PDict breaker); ("rate_limiter", PDict limiter)].
End Routes.

(** ** Lemmas *)
Section ApiLemmas.
Context `{External} `{MetaCodec} `{PyRepr} `{RedisServer} `{EnforcementBackend} `{PostgresLaws}.
Context (kb : catalogue) (cfg : settings) (ccfg : cache_config) (lim : limits) (bcfg : breaker_config) (gcfg : gate_config).
Context (dry_run : bool) (dt_str : Z -> string).
#[local] Abbreviation process := (process kb cfg ccfg lim bcfg dry_run).
#[local] Abbreviation handle_alert := (handle_alert kb cfg ccfg lim bcfg gcfg dry_run dt_str).
#[local] Abbreviation record_decision := (record_decision dt_str).

Definition alert_item (notify : bool) (x : extras) (d : PolicyDecision) : item :=
  Item (decision_dict dry_run x d ++ (if notify then notification_fields d else [])) (completed_at x d).

(** The record of the decision can be stored. *)
Definition record_fits (notify : bool) (x : extras) (d : PolicyDecision) : Prop :=
  forall fields, common_fields (it_dict (alert_item notify x d)) = Ok fields ->
    row_fits (new_row (x_saved x) fields (completed_at x d)) = true.

(** The rows of the record: the outcome of the decision is a column of both. *)
Definition recorded (x : extras) (d : PolicyDecision) (db db' : pg) : Prop :=
  exists r r', pg_rows db' Decisions ≡ₚ r :: pg_rows db Decisions /\ pg_rows db' History ≡ₚ r' :: pg_rows db History /\
    twin r r' /\ column r "id" = PStr (x_id x) /\ column r "outcome" = PStr (outcome_value (d_outcome d)).

Lemma record_ok notify x d s s' db : a_store s = Some db -> record_fits notify x d ->
  record_decision x d (alert_item notify x d) s = (s', None) ->
  (exists db', a_store s' = Some db' /\ recorded x d db db') /\
  a_feed s' = push_decision (alert_item notify x d) (a_feed s) /\
  w_calls (a_world s') = w_calls (a_world s) /\ w_limiter (a_world s') = w_limiter (a_world s).
Proof.
  intros Hs Hfit Hr. unfold Api.record_decision in Hr. rewrite Hs in Hr.
  destruct (common_fields (it_dict (alert_item notify x d))) as [fields|] eqn:Ef; [|cbn [save_decision] in Hr; rewrite Ef in Hr; done].
  destruct (save_decision (x_saved x) (x_saved' x) _ _ (Some db)) as [st|] eqn:Esave; [|done].
  assert (Hst : exists db', st = Some db').
  { cbn [save_decision] in Esave. rewrite Ef in Esave. cbn [rbind] in Esave.
    apply rbind_ok in Esave as (db' & _ & [= <-]). by exists db'. }
  destruct Hst as [db' ->]. destruct (save_rows _ _ _ _ _ _ _ Esave Ef (Hfit _ Ef)) as (Hd & Hh & _).
  destruct (cache_decision _ _ _ _) as [rd|]; [|done].
  assert (Hrec : recorded x d db db').
  { eexists _, _. split; [exact Hd|]. split; [exact Hh|]. split; [done|].
    unfold common_fields in Ef. cbn [index_key it_dict alert_item] in Ef.
    destruct notify; cbn in Ef; injection Ef as <-; done. }
  destruct (d_intent d) as [i|]; [destruct (decision_doc d i); [|done]|]; injection Hr as <-; cbn; (split; [by exists db'|]); done.
Qed.

(** What handling an alert without an exception does. *)
Lemma handle_ok notify x inp a s s' out db : a_store s = Some db -> handle_alert notify x inp a s = (s', inl out) ->
  (forall d, out = Decided d -> record_fits notify x d) ->
  match out with
  | Filtered _ => a_store s' = a_store s /\ a_feed s' = a_feed s /\ w_calls (a_world s') = w_calls (a_world s)
  | Decided d =>
      (exists db', a_store s' = Some db' /\ recorded x d db db') /\
      a_feed s' = push_decision (alert_item notify x d) (a_feed s) /\
      exists r w, process inp a (set_redis r (a_world s)) = Ok (d, w) /\ w_calls (a_world s') = w_calls w
  end.
Proof.
  intros Hs Hh Hfit. unfold Api.handle_alert in Hh. destruct (should_process _ _ _ _) as [[[rsn|] rd]|]; [| |done].
  - injection Hh as <- <-. done.
  - destruct (process inp a (a_world (with_redis rd s))) as [[d w]|] eqn:Ep; [|done].
    fold (alert_item notify x d) in Hh.
    destruct (record_decision x d (alert_item notify x d) _) as [s1 [e|]] eqn:Er; [done|]. injection Hh as <- <-.
    destruct (record_ok notify x d (with_world w (with_redis rd s)) s1 db Hs (Hfit d eq_refl) Er) as (Hst & Hf & Hc & _).
    split; [exact Hst|]. split; [exact Hf|]. by exists rd, w.
Qed.

(** ** What the history and the backend have seen *)
Definition call_ok (n : nat) (i : PolicyIntent) : bool := match enforce n i with Ok r => er_success r | Raise _ => false end.
(** The successful ones among the requests, the first of them the [n]-th. *)
Fixpoint succeeded (n : nat) (calls : list PolicyIntent) : nat :=
  match calls with [] => 0 | i :: rest => (if call_ok n i then 1 else 0) + succeeded (S n) rest end.
Definition enforced_rows (db : pg) : nat := length (filter (fun r => column r "outcome" = PStr "enforced") (pg_rows db History)).

Lemma succeeded_snoc calls i : forall n,
  succeeded n (calls ++ [i]) = (succeeded n calls + if call_ok (n + length calls) i then 1 else 0)%nat.
Proof.
  induction calls as [|j calls IH]; intros n; cbn -[Nat.add].
  - by rewrite !Nat.add_0_r.
  - rewrite IH. replace (S n + length calls)%nat with (n + S (length calls))%nat by lia. lia.
Qed.

Lemma process_counts inp a w d w' : process inp a w = Ok (d, w') ->
  succeeded 0 (w_calls w') = (succeeded 0 (w_calls w) + if decide (d_outcome d = ENFORCED) then 1 else 0)%nat.
Proof.
  intros [[Hc|(i & Hca)] _ Hen]%process_ok.
  - rewrite Hc, decide_False; [lia|]. intros Ho. destruct (proj1 Hen ltac:(by f_equal)) as (i & [Hi] & _).
    rewrite Hc in Hi. by apply snoc_ne in Hi.
  - assert (Hiff : d_outcome d = ENFORCED <-> call_ok (length (w_calls w)) i = true).
    { unfold call_ok. split.
      - intros Ho. destruct (proj1 Hen ltac:(by f_equal)) as (j & [Hj] & (r & Hr & Hsucc)).
        rewrite (ca_calls _ _ _ _ _ _ _ _ _ Hca) in Hj. apply app_inj_tail in Hj as [_ ->]. by rewrite Hr.
      - intros Hok. destruct (enforce _ i) as [r|] eqn:Er; [|done].
        assert (Hs : Some (d_outcome d) = Some ENFORCED) by (apply Hen; exists i; split; [done|by exists r]). by injection Hs. }
    rewrite (ca_calls _ _ _ _ _ _ _ _ _ Hca), succeeded_snoc. cbn [Nat.add].
    destruct (call_ok _ i), (decide (d_outcome d = ENFORCED)) as [Ho|Ho]; try done; apply Hiff in Ho || destruct Ho; by try apply Hiff.
Qed.

(** What happens to the application: an alert is handled without an exception, a document
    is embedded, rows are updated in both tables, the workspace is emptied, the limiter is
    reset, streams come and go. *)
Inductive api_step : app -> app -> Prop :=
  | step_alert notify x inp a s s' out : handle_alert notify x inp a s = (s', inl out) ->
      (forall d, out = Decided d -> record_fits notify x d) -> api_step s s'
  | step_embed vec s : api_step s (embed_in_bg vec s)
  | step_rows us s db db' : a_store s = Some db -> pg_commit (row_updates us) db = Ok db' ->
      Forall (fun u => update_fits u.2 /\ forall r, column (u.2 r) "outcome" = column r "outcome") us ->
      api_step s (App (a_world s) (Some db') (a_feed s) (a_tasks s))
  | step_empty s db db' : a_store s = Some db -> pg_rows db' Decisions = [] -> pg_rows db' History ≡ₚ pg_rows db History ->
      api_step s (App (a_world s) (Some db') (a_feed s) (a_tasks s))
  | step_reset s : api_step s (with_world (admin_reset (a_world s)) s)
  | step_feed f s : api_step s (App (a_world s) (a_store s) f (a_tasks s)).

Lemma enforced_perm db db' : pg_rows db' History ≡ₚ pg_rows db History -> enforced_rows db' = enforced_rows db.
Proof. intros Hp. unfold enforced_rows. by rewrite Hp. Qed.

Lemma outcome_enforced o : PStr (outcome_value o) = PStr "enforced" <-> o = ENFORCED.
Proof. by destruct o. Qed.

Lemma enforced_updates us db db' : pg_commit (row_updates us) db = Ok db' ->
  Forall (fun u => update_fits u.2 /\ forall r, column (u.2 r) "outcome" = column r "outcome") us ->
  enforced_rows db' = enforced_rows db.
Proof.
  intros Hc Hu. assert (Hf : Forall (fun u => update_fits u.2) us) by (eapply Forall_impl; [exact Hu|]; by intros u []).
  unfold enforced_rows. rewrite (commit_row_updates _ _ _ History Hc Hf).
  assert (Hcol : forall r, column (updated us r) "outcome" = column r "outcome").
  { clear -Hu. induction Hu as [|[i f] us [_ Ho] _ IH]; intros r; [done|].
    change (updated ((i, f) :: us) r) with (updated us (set_row (has_id i) f r)). rewrite IH. unfold set_row.
    destruct (has_id i r); [apply Ho|done]. }
  generalize (pg_rows db History). intros l. induction l as [|r l IH]; [done|]. cbn [map]. rewrite !filter_cons, Hcol.
  destruct (decide _); cbn; by rewrite IH.
Qed.

Lemma embedding_update v : update_fits (set_embedding v) /\ forall r, column (set_embedding v r) "outcome" = column r "outcome".
Proof. split; [by intros r Hr|done]. Qed.

Definition balanced (s s' : app) : Prop := exists db db', a_store s = Some db /\ a_store s' = Some db' /\
  (enforced_rows db' + succeeded 0 (w_calls (a_world s)) = enforced_rows db + succeeded 0 (w_calls (a_world s')))%nat.

Lemma api_step_balanced s s' db : a_store s = Some db -> api_step s s' -> balanced s s'.
Proof.
  intros Hs Hst. destruct Hst as [notify x inp a s s' out Hh Hfit|vec s|us s db0 db' Hs' Hc Hu|s db0 db' Hs' Hd Hp|s|f s].
  - pose proof (handle_ok _ _ _ _ _ _ _ db Hs Hh Hfit) as Hok. destruct out as [r|d].
    + destruct Hok as (Hst & _ & Hc). exists db, db. rewrite Hst, Hc. by split_and!.
    + destruct Hok as ((db' & Hs' & (r1 & r2 & _ & Hrows & Ht & _ & Ho)) & _ & (rd & w & Hp & Hc)).
      exists db, db'. split; [done|]. split; [done|]. rewrite Hc, (process_counts _ _ _ _ _ Hp). cbn [w_calls set_redis].
      unfold enforced_rows. rewrite Hrows, filter_cons.
      assert (Ho' : column r2 "outcome" = PStr (outcome_value (d_outcome d))) by (unfold column in *; by rewrite <- (proj2 (proj2 (proj2 Ht)))).
      rewrite Ho'. destruct (decide (d_outcome d = ENFORCED)) as [He|He].
      * rewrite decide_True by (by apply outcome_enforced). cbn [length]. lia.
      * rewrite decide_False by (by rewrite outcome_enforced). lia.
  - unfold embed_in_bg, balanced. destruct (a_tasks s) as [|[id doc] rest]; [by exists db, db; split_and!|].
    destruct (if nonempty _ then _ else _) as [[v|]|]; [|by exists db, db; split_and!..].
    cbn [a_store a_world]. rewrite Hs. unfold write_embedding. destruct v as [|q v]; [by exists db, db; split_and!|].
    destruct (pg_commit _ db) as [db'|] eqn:Hc; [|by exists db, db; split_and!].
    exists db, db'. split; [done|]. split; [done|]. f_equal.
    apply (enforced_updates [(id, set_embedding (vec_literal (q :: v)))]); [exact Hc|].
    apply Forall_cons_2; [apply embedding_update|apply Forall_nil_2].
  - rewrite Hs in Hs'. injection Hs' as <-. exists db, db'. split; [done|]. split; [done|]. cbn [a_world]. f_equal. by eapply enforced_updates.
  - rewrite Hs in Hs'. injection Hs' as <-. exists db, db'. split; [done|]. split; [done|]. cbn [a_world]. f_equal. by apply enforced_perm.
  - by exists db, db; split_and!.
  - by exists db, db; split_and!.
Qed.

Lemma api_run_balanced s s' : rtc api_step s s' -> forall db, a_store s = Some db -> balanced s s'.
Proof.
  induction 1 as [s|s s1 s2 Hst _ IH]; intros db Hs; [by exists db, db; split_and!|].
  destruct (api_step_balanced _ _ db Hs Hst) as (db0 & db1 & E0 & E1 & Hb1).
  destruct (IH db1 E1) as (db1' & db2 & E1' & E2 & Hb2). rewrite E1 in E1'. injection E1' as <-.
  exists db0, db2. split; [done|]. split; [done|]. lia.
Qed.

(** ** The streams *)
(** What [n] rounds of a stream that is not disconnected write. *)
Fixpoint rounds (id : nat) (n : nat) (f : feed) : feed * list stream_out :=
  match n with
  | O => (f, [])
  | S n => let '(f, o) := stream_step id false f in let '(f, os) := rounds id n f in (f, match o with Some x => x :: os | None => os end)
  end.
Definition data_of (it : item) : stream_out := Data ("data: " ++ json_dumps false (PDict (it_dict it)) ++ chr 10 ++ chr 10)%string.

Lemma pushed_queue it f id q : dict_get (queues f) id = Some q ->
  dict_get (queues (push_decision it f)) id = Some (offer it q).
Proof.
  cbn [push_decision queues]. induction (queues f) as [|[i q'] l IH]; [done|]. cbn.
  destruct (decide (id = i)); [by intros [= ->]|done].
Qed.

Lemma closed_queue id f : dict_get (queues (close_stream id f)) id = None.
Proof. cbn. rewrite dict_get_del. by rewrite decide_True. Qed.

Lemma drain_queue id q : forall f rest, dict_get (queues f) id = Some (q ++ rest) -> Forall (fun it => it_completed it = None) q ->
  exists f', dict_get (queues f') id = Some rest /\ forall n, rounds id (length q + n) f =
    ((rounds id n f').1, map data_of q ++ (rounds id n f').2).
Proof.
  induction q as [|it q IH]; intros f rest Hq Hn.
  - exists f. split; [done|]. intros n. cbn. by destruct (rounds id n f).
  - apply Forall_cons in Hn as [Hit Hn]. cbn in Hq.
    destruct (IH (Feed (recent f) (dict_set (queues f) id (q ++ rest)) (next_queue f)) rest) as (f' & Hf' & Hr);
      [cbn; apply dict_get_set_eq|done|].
    exists f'. split; [done|]. intros n. cbn [length]. change (S (length q) + n)%nat with (S (length q + n)). cbn [rounds].
    unfold stream_step. rewrite Hq. unfold dump_item. rewrite Hit. cbn match. rewrite Hr. done.
Qed.
End ApiLemmas.

(** ** Properties *)
(** C26: the audit trail is complete: from a start with an empty history and no request, as long as
    alerts are handled without an exception, the history holds exactly one "enforced"
    decision for each request to the backend that succeeded, whatever else happens in between:
    rows are relabelled or given their vector, experiments empty the workspace, the limiter
    is reset, streams come and go. *)
Theorem audit_complete `{External} `{MetaCodec} `{PyRepr} `{RedisServer} `{EnforcementBackend} `{PostgresLaws}
    kb cfg ccfg lim bcfg gcfg dry_run dt_str s s' db :
  a_store s = Some db -> pg_rows db History = [] -> w_calls (a_world s) = [] ->
  rtc (api_step kb cfg ccfg lim bcfg gcfg dry_run dt_str) s s' ->
  exists db', a_store s' = Some db' /\ enforced_rows db' = succeeded 0 (w_calls (a_world s')).
Proof.
  intros Hs Hh Hc Hrun. destruct (api_run_balanced _ _ _ _ _ _ _ _ _ _ Hrun db Hs) as (db0 & db' & E0 & E1 & Hb).
  rewrite Hs in E0. injection E0 as <-. exists db'. split; [done|]. unfold enforced_rows in Hb at 2.
  rewrite Hh, Hc in Hb. cbn in Hb. lia.
Qed.

(** a stream that keeps up with its queue gets every decision as it was recorded, after what
    was before it in the queue; but a decision whose reasoning is complete when it is
    recorded carries a time, which cannot be written as JSON: it is never delivered and
    ends every stream that gets to it. *)
Theorem published_decision `{External} `{MetaCodec} `{PyRepr} `{RedisServer} `{EnforcementBackend} `{PostgresLaws}
    kb cfg ccfg lim bcfg gcfg dry_run dt_str notify x inp a s s' d db id q :
  a_store s = Some db -> record_fits dry_run notify x d ->
  handle_alert kb cfg ccfg lim bcfg gcfg dry_run dt_str notify x inp a s = (s', inl (Decided d)) ->
  dict_get (queues (a_feed s)) id = Some q -> (length q < QUEUE_SIZE)%nat -> Forall (fun it => it_completed it = None) q ->
  let '(f, out) := rounds id (S (length q)) (a_feed s') in
  if reasoning_done d then out = map data_of q /\ dict_get (queues f) id = None
  else out = map data_of q ++ [data_of (alert_item dry_run notify x d)] /\ dict_get (queues f) id = Some [].
Proof.
  intros Hs Hfit Hh Hq Hlen Hn.
  destruct (handle_ok kb cfg ccfg lim bcfg gcfg dry_run dt_str _ _ _ _ _ _ (Decided d) db Hs Hh ltac:(by intros d' [= <-])) as (_ & Hf & _).
  apply (pushed_queue (alert_item dry_run notify x d)) in Hq. rewrite <- Hf in Hq. unfold offer in Hq.
  destruct (Nat.leb_spec QUEUE_SIZE (length q)); [lia|].
  destruct (drain_queue id q _ _ Hq Hn) as (f' & Hf' & Hr). rewrite <- Nat.add_1_r, Hr. cbn [rounds].
  unfold stream_step. rewrite Hf'. unfold dump_item. cbn [alert_item it_completed].
  unfold completed_at. destruct (reasoning_done d); cbn [fst snd].
  - rewrite app_nil_r. split; [done|]. apply closed_queue.
  - split; [done|]. cbn. apply dict_get_set_eq.
Qed.

(** A decision on a SID beyond 32 bits cannot be saved: the alert's handling ends with an
    exception after the agent has acted, a rule it enforced stays in force, and neither
    the tables nor the feed know of it. *)
Theorem unaudited_decision `{External} `{MetaCodec} `{PyRepr} `{RedisServer} `{EnforcementBackend} `{PostgresLaws}
    kb cfg ccfg lim bcfg gcfg dry_run dt_str notify x inp a s db rd d w :
  a_store s = Some db -> should_process gcfg (x_gate x) a (w_redis (a_world s)) = Ok (None, rd) ->
  process kb cfg ccfg lim bcfg dry_run inp a (set_redis rd (a_world s)) = Ok (d, w) -> 2147483648 <= d_alert_sid d ->
  exists s' e, handle_alert kb cfg ccfg lim bcfg gcfg dry_run dt_str notify x inp a s = (s', inr e) /\
    w_calls (a_world s') = w_calls w /\ a_store s' = Some db /\ a_feed s' = a_feed s.
Proof.
  intros Hs Hg Hp Hsid. unfold handle_alert. rewrite Hg. cbn [a_world with_redis with_world]. rewrite Hp.
  fold (alert_item dry_run notify x d). unfold record_decision. cbn [a_store with_world with_redis]. rewrite Hs.
  assert (Hfields : exists fields, common_fields (it_dict (alert_item dry_run notify x d)) = Ok fields /\
    jget fields "alert_sid" = PInt (d_alert_sid d)) by (unfold common_fields; destruct notify; eexists; split; reflexivity).
  destruct Hfields as (fields & Ef & Hn). unfold save_decision. rewrite Ef. cbn [rbind].
  assert (Hr : row_refused (new_row (x_saved x) fields (it_completed (alert_item dry_run notify x d))) = true).
  { apply existsb_exists. exists ("alert_sid", (TInteger, false)). split; [apply list_elem_of_In; unfold SCHEMA; set_solver|].
    assert (Hc : column (new_row (x_saved x) fields (it_completed (alert_item dry_run notify x d))) "alert_sid" = PInt (d_alert_sid d)).
    { unfold column, jget in *. cbn [columns new_row]. revert Hn. generalize fields as l. clear. intros l.
      induction l as [|[k v] l IH]; cbn; [done|]. destruct (decide _); [done|exact IH]. }
    cbn [fst snd]. rewrite Hc. cbn. unfold int32. apply negb_true_iff, andb_false_iff. right. by apply Z.leb_gt; lia. }
  match goal with |- context [pg_commit ?ss db] => destruct (commit_refuses ss Decisions _ db ltac:(by left) Hr) as [e ->] end.
  cbn [rbind]. by eexists _, e.
Qed.

(** The texts and numbers of a decision that the columns can hold; the fields the reasoning
    trace wrote must be texts. *)
Definition text_or_none (v : pyval) : bool := match v with PNone => true | PStr s => storable None s | _ => false end.
Definition decision_storable (x : extras) (d : PolicyDecision) : bool :=
  storable None (x_id x) && int32 (d_alert_sid d) && storable None (d_alert_src_ip d) && storable None (x_reason x) &&
  storable None (x_trace x) &&
  match d_intent d with
  | None => true
  | Some i =>
      storable None (pi_src_ip i) && storable None (pi_dst_ip i) && int32 (pi_dst_port i) && storable None (pi_rule_id i) &&
      int32 (pi_ttl_seconds i) &&
      storable (Some 200%nat) (un_title (pi_notification i)) && storable None (un_body (pi_notification i)) &&
      forallb (fun k => text_or_none (meta i k (PStr ""))) ["primary_hypothesis"; "mitre_technique"; "mitre_tactic"]
  end.

Lemma text_fits max v : fits (TString max, true) v = match v with PNone => true | PStr s => storable max s | _ => false end.
Proof. by destruct v. Qed.

(** The columns of the record. *)
Definition record_columns `{PyRepr} (dry_run : bool) (x : extras) (d : PolicyDecision) : obj :=
  let f := of_intent d in
  let json := dumped (it_dict (alert_item dry_run true x d)) in
  [("id", PStr (x_id x)); ("alert_sid", PInt (d_alert_sid d)); ("alert_src_ip", PStr (d_alert_src_ip d));
   ("outcome", PStr (outcome_value (d_outcome d)));
   ("action", f (fun i => PStr (action_value (pi_action i))) PNone);
   ("src_ip", f (fun i => PStr (pi_src_ip i)) PNone); ("dst_ip", f (fun i => PStr (pi_dst_ip i)) PNone);
   ("dst_port", f (fun i => PInt (pi_dst_port i)) PNone); ("confidence", f (fun i => PFloat (pi_confidence i)) PNone);
   ("rejection_reason", PStr (x_reason x)); ("safety_checks", json "safety_checks" (PDict []));
   ("reasoning", json "reasoning" (PList [])); ("hypotheses", json "hypotheses" (PList []));
   ("rollback_plan", json "rollback_plan" (PDict []));
   ("rule_id", f (fun i => PStr (pi_rule_id i)) PNone); ("ttl_seconds", f (fun i => PInt (pi_ttl_seconds i)) PNone);
   ("latency_ms", PFloat (x_latency x)); ("dry_run", PBool dry_run); ("trace_id", PStr (x_trace x));
   ("primary_hypothesis", f (fun i => meta i "primary_hypothesis" (PStr "")) PNone);
   ("alternative_actions", json "alternative_actions" (PList [])); ("follow_up_actions", json "follow_up_actions" (PList []));
   ("mitre_technique", f (fun i => meta i "mitre_technique" (PStr "")) PNone);
   ("mitre_tactic", f (fun i => meta i "mitre_tactic" (PStr "")) PNone);
   ("notification_title", f (fun i => PStr (un_title (pi_notification i))) PNone);
   ("notification_body", f (fun i => PStr (un_body (pi_notification i))) PNone);
   ("notification_severity", f (fun i => PStr (notification_value (un_severity (pi_notification i)))) PNone)].

Lemma record_columns_ok `{PyRepr} dry_run x d :
  common_fields (it_dict (alert_item dry_run true x d)) = Ok (record_columns dry_run x d).
Proof. reflexivity. Qed.

Lemma values_fit : (forall o, fits (TString None, false) (PStr (outcome_value o)) = true) /\
  (forall a, fits (TString None, true) (PStr (action_value a)) = true) /\
  (forall n, fits (TString (Some 20%nat), true) (PStr (notification_value n)) = true).
Proof. split_and!; by intros []. Qed.

(** C27: the record of a decision fits the schema of its table exactly when its texts and numbers
    fit their columns. What the agent computes itself, the outcome, the action, the confidence, the
    severity and the six JSON columns, always fits; the three fields that Stage 2 writes need not be texts. *)
Theorem record_typed `{PyRepr} dry_run x d :
  (forall q, str_forallb printable (repr_other (PFloat q)) = true) ->
  record_fits dry_run true x d <-> decision_storable x d = true.
Proof.
  intros Hf. assert (Hj : forall data k v, fits (TString None, false) (dumped data k v) = true)
    by (intros data k v; by apply storable_printable, dumps_printable).
  assert (Heq : row_fits (new_row (x_saved x) (record_columns dry_run x d) (completed_at x d)) = decision_storable x d).
  { destruct values_fit as (Ho & Ha & Hn). unfold row_fits, SCHEMA. cbn [forallb fst snd].
    unfold column, jget. cbn [columns new_row].
    repeat match goal with |- context [dict_get (record_columns dry_run x d ++ ?l) ?k] =>
      let v := eval lazy -[of_intent dumped outcome_value action_value notification_value meta pi_action pi_src_ip pi_dst_ip
        pi_dst_port pi_confidence pi_rule_id pi_ttl_seconds pi_notification un_title un_body un_severity d_alert_sid
        d_alert_src_ip d_outcome x_id x_reason x_trace x_latency it_dict alert_item] in
        (dict_get (record_columns dry_run x d ++ l) k) in
      change (dict_get (record_columns dry_run x d ++ l) k) with v end.
    unfold decision_storable, of_intent. unfold default, from_option, id. rewrite !Hj, Ho.
    destruct (d_intent d) as [i|]; rewrite ?Ha, ?Hn, ?text_fits; cbn [forallb]; unfold fits, text_or_none; cbn [fst snd];
      apply eq_true_iff_eq; rewrite !andb_true_iff; tauto. }
  rewrite <- Heq. unfold record_fits. rewrite record_columns_ok. split; [intros Hall; by apply Hall|intros Hr fields E].
  by replace fields with (record_columns dry_run x d) by congruence.
Qed.

(** ** Examples *)
#[local] Existing Instance external0.
#[local] Existing Instance meta0.
#[local] Existing Instance redis0.
#[local] Existing Instance sample_backend.
#[local] Instance repr0 : PyRepr := fun _ => "".

Definition sample_extras : extras := Extras "d1" [] 5 "t1" "" 9 9 10 0 0.
Definition sample_app (f : feed) : app := App sample_world (Some pg_empty) f [].
Definition sample_handle (inp : run_inputs) (a : SuricataAlert) (s : app) : app * (handled + exn) :=
  handle_alert catalogue0 default_settings sample_cache default_limits default_breaker default_gate false str_of_Z true
    sample_extras inp a s.
(** The reasoning trace answers before the decision is recorded. *)
Definition reasoned_inputs : run_inputs :=
  Inputs (in_prompt sample_inputs) (in_classify sample_inputs) (in_correlation sample_inputs) (in_context sample_inputs)
    (in_react sample_inputs) (in_chat sample_inputs) (fun _ => Ok (PDict [("reasoning_steps", PList [PStr "s1"])])) false
    0 1 1 2 3 "2026-01-01T00:00:00+00:00".
Definition decided_of (out : handled + exn) : option PolicyDecision := match out with inl (Decided d) => Some d | _ => None end.
(** One stream is open. *)
Definition feed1 : feed := (open_stream feed0).1.
Definition sample_decision (inp : run_inputs) : PolicyDecision :=
  default (mkDecision 0 "" None ERROR NoReason) (decided_of (sample_handle inp sample_alert (sample_app feed1)).2).

Lemma decided_pair (r : app * (handled + exn)) d : decided_of r.2 = Some d -> r = (r.1, inl (Decided d)).
Proof. destruct r as [s [[|d']|]]; try done. by intros [= ->]. Qed.
Lemma decided_default d (o : option PolicyDecision) : bool_decide (is_Some o) = true -> o = Some (default d o).
Proof. destruct o; [done|intros H%bool_decide_eq_true; by destruct H]. Qed.
Lemma sample_handled inp : inp = sample_inputs \/ inp = reasoned_inputs ->
  sample_handle inp sample_alert (sample_app feed1) = ((sample_handle inp sample_alert (sample_app feed1)).1, inl (Decided (sample_decision inp))).
Proof. intros Hi. apply decided_pair, decided_default. destruct Hi as [->| ->]; vm_compute; reflexivity. Qed.

Lemma sample_fits inp : inp = sample_inputs \/ inp = reasoned_inputs -> record_fits false true sample_extras (sample_decision inp).
Proof. intros [->| ->] fields E; vm_compute in E; injection E as <-; vm_compute; reflexivity. Qed.

Lemma Decided_inj d d' : Decided d = Decided d' -> d = d'.
Proof. by intros [= ->]. Qed.

Lemma audit_complete_witness : exists db', a_store (sample_handle sample_inputs sample_alert (sample_app feed1)).1 = Some db' /\
  enforced_rows db' = 1%nat.
Proof.
  destruct (audit_complete catalogue0 default_settings sample_cache default_limits default_breaker default_gate false str_of_Z
    (sample_app feed1) (sample_handle sample_inputs sample_alert (sample_app feed1)).1 pg_empty eq_refl eq_refl eq_refl)
    as (db' & Hs & He).
  - apply rtc_once, (step_alert _ _ _ _ _ _ _ _ true sample_extras sample_inputs sample_alert _ _ (Decided (sample_decision sample_inputs))).
    + apply sample_handled. by left.
    + intros d Hd%Decided_inj. rewrite <- Hd. exact (sample_fits sample_inputs (or_introl eq_refl)).
  - exists db'. split; [exact Hs|]. rewrite He. vm_compute. reflexivity.
Defined.

(** The record of the sample decision fits its table; with a reasoning trace that answers a list as
    the hypothesis it does not. *)
Definition odd_inputs : run_inputs :=
  Inputs (in_prompt sample_inputs) (in_classify sample_inputs) (in_correlation sample_inputs) (in_context sample_inputs)
    (in_react sample_inputs) (in_chat sample_inputs)
    (fun _ => Ok (PDict [("reasoning_steps", PList [PStr "s1"]); ("primary_hypothesis", PList [])])) false
    0 1 1 2 3 "2026-01-01T00:00:00+00:00".
Lemma record_typed_witness :
  record_fits false true sample_extras (sample_decision sample_inputs) /\
  not (record_fits false true sample_extras (sample_decision odd_inputs)).
Proof.
  split.
  - apply (record_typed false sample_extras (sample_decision sample_inputs)); [intros q; reflexivity|vm_compute; reflexivity].
  - intros Hr%record_typed; [vm_compute in Hr; discriminate|intros q; reflexivity].
Defined.

(** The stream gets the decision without reasoning, the one with its reasoning ends it. *)
Lemma published_decision_witness :
  rounds 0 1 (a_feed (sample_handle sample_inputs sample_alert (sample_app feed1)).1) <> rounds 0 1 feed1 /\
  (rounds 0 1 (a_feed (sample_handle reasoned_inputs sample_alert (sample_app feed1)).1)).2 = [].
Proof.
  split.
  - pose proof (published_decision catalogue0 default_settings sample_cache default_limits default_breaker default_gate false str_of_Z true
      sample_extras sample_inputs sample_alert (sample_app feed1) (sample_handle sample_inputs sample_alert (sample_app feed1)).1
      (sample_decision sample_inputs) pg_empty 0 [] eq_refl (sample_fits _ (or_introl eq_refl))) as Hp.
    intros E. cbn [length] in Hp. rewrite E in Hp.
    replace (reasoning_done (sample_decision sample_inputs)) with false in Hp by (vm_compute; reflexivity).
    destruct Hp as [Hout _]; [apply sample_handled; by left|reflexivity|unfold QUEUE_SIZE; lia|apply Forall_nil_2|]. by vm_compute in Hout.
  - pose proof (published_decision catalogue0 default_settings sample_cache default_limits default_breaker default_gate false str_of_Z true
      sample_extras reasoned_inputs sample_alert (sample_app feed1) (sample_handle reasoned_inputs sample_alert (sample_app feed1)).1
      (sample_decision reasoned_inputs) pg_empty 0 [] eq_refl (sample_fits _ (or_intror eq_refl))) as Hp.
    cbn [length] in Hp. destruct (rounds 0 1 _) as [g out].
    replace (reasoning_done (sample_decision reasoned_inputs)) with true in Hp by (vm_compute; reflexivity).
    apply Hp; [apply sample_handled; by right|reflexivity|unfold QUEUE_SIZE; lia|apply Forall_nil_2].
Defined.

Definition big_sid_alert : SuricataAlert :=
  mkAlert "" "10.1.100.10" "10.1.200.20" 0 22 "tcp" [("signature_id", PInt 3000000000); ("severity", PInt 1)] [].

Lemma unaudited_decision_witness : exists s' e, sample_handle sample_inputs big_sid_alert (sample_app feed0) = (s', inr e) /\
  length (w_calls (a_world s')) = 1%nat /\ a_store s' = Some pg_empty.
Proof.
  set (rd := match should_process default_gate 0 big_sid_alert redis_empty with Ok (_, rd) => rd | _ => redis_empty end).
  set (out := res_or (mkDecision 0 "" None ERROR NoReason, sample_world)
    (process catalogue0 default_settings sample_cache default_limits default_breaker false sample_inputs big_sid_alert (set_redis rd sample_world))).
  destruct (unaudited_decision catalogue0 default_settings sample_cache default_limits default_breaker default_gate false str_of_Z true
    sample_extras sample_inputs big_sid_alert (sample_app feed0) pg_empty rd out.1 out.2) as (s' & e & Hh & Hc & Hs & _);
    [reflexivity|vm_compute; reflexivity|vm_compute; reflexivity|by vm_compute|].
  exists s', e. split; [exact Hh|]. split; [|exact Hs]. rewrite Hc. vm_compute. reflexivity.
Defined.
