(* ===== verification/RolePolicy.v ===== *)
(** * Roles and sessions of the secure framework (sam/role_policy.py, session_context.py)

    The policy engine is a dict of policies under one lock, a session manager a
    dict of contexts by client address plus the thread-local current context.
    Each method is one atomic step.  A certificate is what [getpeercert] gives:
    the list of the subject's RDNs, each a list of attributes. *)
From S2P Require Import Prelude PyVal.
Local Open Scope string_scope.
Local Open Scope list_scope.

Inductive SonicRole := S_ADMIN | S_OPERATOR.
Inductive OnapRole := O_ADMIN | O_OPERATOR | O_AGENT.
#[export] Instance SonicRole_eq_dec : EqDecision SonicRole.
Proof. solve_decision. Defined.
#[export] Instance OnapRole_eq_dec : EqDecision OnapRole.
Proof. solve_decision. Defined.

Definition sonic_value (r : SonicRole) : string := match r with S_ADMIN => "admin" | S_OPERATOR => "operator" end.
Definition onap_value (r : OnapRole) : string :=
  match r with O_ADMIN => "admin" | O_OPERATOR => "operator" | O_AGENT => "auto" end.

(** [SonicRole(v)] and [OnapRole(v)] *)
Definition SonicRole_of (v : pyval) : res SonicRole :=
  match v with
  | PStr "admin" => Ok S_ADMIN
  | PStr "operator" => Ok S_OPERATOR
  | _ => Raise (ValueError "is not a valid SonicRole")
  end.
Definition OnapRole_of (v : pyval) : res OnapRole :=
  match v with
  | PStr "admin" => Ok O_ADMIN
  | PStr "operator" => Ok O_OPERATOR
  | PStr "auto" => Ok O_AGENT
  | _ => Raise (ValueError "is not a valid OnapRole")
  end.

(** ** Policies *)
Record RolePolicy := mkPolicy {
  p_onap_role : OnapRole; allowed_sonic_roles : list SonicRole; default_sonic_role : SonicRole }.

Definition can_assume (p : RolePolicy) (r : SonicRole) : bool := bool_decide (r ∈ allowed_sonic_roles p).

Definition policy_to_dict (p : RolePolicy) : pyval :=
  PDict [("onap_role", PStr (onap_value (p_onap_role p)));
         ("allowed_sonic_roles", PList (map (fun r => PStr (sonic_value r)) (allowed_sonic_roles p)));
         ("default_sonic_role", PStr (sonic_value (default_sonic_role p)))].

(** The iteration of a list comprehension over a JSON value; the characters of a
    text are no roles, so only its emptiness matters. *)
Definition iter_roles (v : pyval) : res (list SonicRole) :=
  match v with
  | PList l => mapM_res SonicRole_of l
  | PDict d => mapM_res (fun kv => SonicRole_of (PStr kv.1)) d
  | PStr "" => Ok []
  | PStr _ => Raise (ValueError "is not a valid SonicRole")
  | _ => Raise (TypeError "object is not iterable")
  end.

Definition policy_from_dict (v : pyval) : res RolePolicy :=
  let* r := index_key v "onap_role" in
  let* onap := OnapRole_of r in
  let* l := index_key v "allowed_sonic_roles" in
  let* allowed := iter_roles l in
  let* d := index_key v "default_sonic_role" in
  let* def := SonicRole_of d in
  Ok (mkPolicy onap allowed def).

(** ** The engine *)
Definition engine := list (OnapRole * RolePolicy).

Definition DEFAULT_POLICIES : engine := [
  (O_ADMIN, mkPolicy O_ADMIN [S_ADMIN; S_OPERATOR] S_ADMIN);
  (O_OPERATOR, mkPolicy O_OPERATOR [S_OPERATOR] S_OPERATOR);
  (O_AGENT, mkPolicy O_AGENT [S_ADMIN] S_ADMIN)].

Definition get_policy (e : engine) (r : OnapRole) : option RolePolicy := dict_get e r.

Definition get_all_policies (e : engine) : list (string * pyval) :=
  map (fun rp : OnapRole * RolePolicy => (onap_value rp.1, policy_to_dict rp.2)) e.

Definition update_policy (r : OnapRole) (allowed : option (list SonicRole)) (def : option SonicRole) (e : engine)
    : RolePolicy * engine :=
  let current := get_policy e r in
  let allowed := match allowed, current with
                 | Some l, _ => l
                 | None, Some c => allowed_sonic_roles c
                 | None, None => [S_OPERATOR]
                 end in
  let def := match def, current with
             | Some d, _ => d
             | None, Some c => default_sonic_role c
             | None, None => S_OPERATOR
             end in
  let def := if bool_decide (def ∈ allowed) then def else default S_OPERATOR (head allowed) in
  let p := mkPolicy r allowed def in
  (p, dict_set e r p).

Definition reset_to_defaults (e : engine) : engine := DEFAULT_POLICIES.

Definition can_assume_role (e : engine) (r : OnapRole) (s : SonicRole) : bool :=
  match get_policy e r with Some p => can_assume p s | None => false end.
Definition get_allowed_roles (e : engine) (r : OnapRole) : list SonicRole :=
  match get_policy e r with Some p => allowed_sonic_roles p | None => [] end.
Definition get_default_role (e : engine) (r : OnapRole) : option SonicRole :=
  default_sonic_role <$> get_policy e r.

(** [import_policies] after [json.loads]: an exception leaves the entries before
    the offending one imported. *)
Fixpoint import_loop (d : list (string * pyval)) (e : engine) : option exn * engine :=
  match d with
  | [] => (None, e)
  | (k, v) :: d' =>
      match (let* r := OnapRole_of (PStr k) in let* p := policy_from_dict v in Ok (r, p)) with
      | Ok (r, p) => import_loop d' (dict_set e r p)
      | Raise x => (Some x, e)
      end
  end.
Definition import_policies (data : pyval) (e : engine) : option exn * engine :=
  match data with PDict d => import_loop d e | _ => (Some (AttributeError "items"), e) end.

(** ** Sessions *)
Definition cert := list (list (string * string)).

Definition TRUSTED_ADMIN_OUS : list string := ["internal"; "sdnc"].
Definition TRUSTED_OPERATOR_OUS : list string := ["aws"].
Definition TRUSTED_AGENT_OUS : list string := ["auto"].
Definition NO_CERT_DEFAULT_ROLE : OnapRole := O_ADMIN.

(** [env] is the value of the variable SECURITY_BYPASS.  A connection without a
    certificate and one whose certificate is the empty dict are both [None]. *)
Definition is_security_bypassed (env : option string) : bool :=
  bool_decide (py_lower (default "" env) ∈ ["1"; "true"; "yes"]).

(** The subject as a dict: a later attribute of the same name wins. *)
Definition subject_of (c : cert) : list (string * string) :=
  foldl (fun d kv => dict_set d kv.1 kv.2) [] (concat c).

Definition extract_onap_role_from_cert (env : option string) (c : option cert) : option OnapRole :=
  if is_security_bypassed env then Some O_ADMIN else
  match c with
  | None => Some NO_CERT_DEFAULT_ROLE
  | Some c =>
      let ou := py_lower (default "" (dict_get (subject_of c) "organizationalUnitName")) in
      if bool_decide (ou ∈ TRUSTED_ADMIN_OUS) then Some O_ADMIN
      else if bool_decide (ou ∈ TRUSTED_OPERATOR_OUS) then Some O_OPERATOR
      else if bool_decide (ou ∈ TRUSTED_AGENT_OUS) then Some O_AGENT
      else None
  end.

Definition addr := (string * Z)%type.

Record SessionContext := mkSession {
  client_addr : addr; onap_role : OnapRole; sonic_role : SonicRole;
  session_allowed : list SonicRole; client_cn : option string }.

Definition can_use_role (s : SessionContext) (r : SonicRole) : bool := bool_decide (r ∈ session_allowed s).

(** The [break] leaves the inner loop only: the last RDN with a common name decides,
    by its first one. *)
Definition common_name (c : cert) : option string :=
  foldl (fun acc rdn => match dict_get rdn "commonName" with Some v => Some v | None => acc end) None c.

Record manager := mkManager {
  sessions : list (addr * SessionContext);
  current : option SessionContext (* of the thread that serves the client *) }.

Definition create_session (env : option string) (e : engine) (a : addr) (c : option cert) (m : manager)
    : res SessionContext * manager :=
  match extract_onap_role_from_cert env c with
  | None => (Raise (ValueError "Access denied: No valid certificate or untrusted OU"), m)
  | Some r =>
      let cn := match c with Some c => common_name c | None => None end in
      let allowed := get_allowed_roles e r in
      let '(allowed, def) :=
        match allowed with
        | [] => ([S_OPERATOR], S_OPERATOR)
        | l => (l, default S_OPERATOR (get_default_role e r)) (* roles come from a policy, which has a default *)
        end in
      let ctx := mkSession a r def allowed cn in
      (Ok ctx, mkManager (dict_set (sessions m) a ctx) (Some ctx))
  end.

Definition get_session (m : manager) (a : addr) : option SessionContext := dict_get (sessions m) a.
Definition remove_session (a : addr) (m : manager) : manager :=
  mkManager (dict_del (sessions m) a) None.
Definition session_count (m : manager) : nat := length (sessions m).

(** ** The system: operators change policies while clients come and go *)
Inductive sam_event :=
  | Update (r : OnapRole) (allowed : option (list SonicRole)) (def : option SonicRole)
  | Reset_
  | Connect (env : option string) (a : addr) (c : option cert)
  | Disconnect (a : addr).

Definition sam_step (s : engine * manager) (ev : sam_event) : engine * manager :=
  match ev with
  | Update r allowed def => ((update_policy r allowed def s.1).2, s.2)
  | Reset_ => (reset_to_defaults s.1, s.2)
  | Connect env a c => (s.1, (create_session env s.1 a c s.2).2)
  | Disconnect a => (s.1, remove_session a s.2)
  end.
Definition sam_run (evs : list sam_event) : engine * manager :=
  foldl sam_step (DEFAULT_POLICIES, mkManager [] None) evs.

(** ** Lemmas *)
Definition policy_wf (p : RolePolicy) : Prop :=
  allowed_sonic_roles p = [] \/ default_sonic_role p ∈ allowed_sonic_roles p.
Definition engine_wf (e : engine) : Prop :=
  forall r p, dict_get e r = Some p -> p_onap_role p = r /\ policy_wf p.

(** A session's role is one its policy allows, and its ONAP role is what the
    certificate of some connection from its address gave. *)
Definition session_wf (evs : list sam_event) (a : addr) (s : SessionContext) : Prop :=
  client_addr s = a /\ sonic_role s ∈ session_allowed s /\
  exists env c, Connect env a c ∈ evs /\ extract_onap_role_from_cert env c = Some (onap_role s).

Lemma default_policies_wf : engine_wf DEFAULT_POLICIES.
Proof.
  intros r p. unfold policy_wf. destruct r; intros Hp; vm_compute in Hp; injection Hp as <-; cbn;
    (split; [done|right; set_solver]).
Qed.

Lemma update_policy_wf r allowed def e : engine_wf e -> engine_wf (update_policy r allowed def e).2.
Proof.
  intros He r' p. unfold update_policy. cbn [snd]. rewrite dict_get_set. case_decide; [|by apply He].
  intros; simplify_eq. split; [done|]. unfold policy_wf. cbn.
  match goal with |- context [bool_decide (?d ∈ ?l)] => generalize d; intros d0; destruct l as [|x l']; [auto|] end.
  right. case_bool_decide; [done|]. cbn. set_solver.
Qed.

Lemma create_session_wf env e a c m s m' : engine_wf e -> create_session env e a c m = (Ok s, m') ->
  client_addr s = a /\ sonic_role s ∈ session_allowed s /\
  extract_onap_role_from_cert env c = Some (onap_role s) /\
  m' = mkManager (dict_set (sessions m) a s) (Some s).
Proof.
  intros He. unfold create_session. destruct (extract_onap_role_from_cert env c) as [r|]; [|done].
  unfold get_allowed_roles, get_default_role. destruct (get_policy e r) as [p|] eqn:Ep; cbn.
  - destruct (He r p Ep) as [_ [Hw|Hw]].
    + rewrite Hw. intros; simplify_eq. cbn. set_solver.
    + destruct (allowed_sonic_roles p) eqn:El; [set_solver|]. intros; simplify_eq. cbn. done.
  - intros; simplify_eq. cbn. set_solver.
Qed.

Lemma sam_run_wf evs :
  engine_wf (sam_run evs).1 /\ forall a s, dict_get (sessions (sam_run evs).2) a = Some s -> session_wf evs a s.
Proof.
  unfold sam_run. induction evs as [|ev evs IH] using rev_ind; [split; [apply default_policies_wf|done]|].
  rewrite foldl_app. cbn [foldl]. destruct (foldl _ _ evs) as [e m]. destruct IH as [He Hm]. cbn [fst snd] in *.
  assert (Hmono : forall a s, session_wf evs a s -> session_wf (evs ++ [ev]) a s).
  { intros a s (Ha & Hs & env & c & Hin & Hx). repeat split; [done..|]. exists env, c. split; [set_solver|done]. }
  destruct ev as [r al d| |env a c|a]; cbn [sam_step fst snd].
  - split; [by apply update_policy_wf|auto].
  - split; [apply default_policies_wf|auto].
  - split; [done|]. intros a' s'. destruct (create_session env e a c m) as [[s|x] m'] eqn:E; cbn [snd].
    + apply create_session_wf in E as (Ha & Hr & Hx & ->); [|done]. cbn. rewrite dict_get_set.
      case_decide; [|auto]. intros; simplify_eq. repeat split; [done..|]. exists env, c. split; [set_solver|done].
    + unfold create_session in E. destruct (extract_onap_role_from_cert env c); [|simplify_eq; auto].
      destruct (get_allowed_roles e o); simplify_eq.
  - split; [done|]. intros a' s'. cbn. rewrite dict_get_del. case_decide; [done|auto].
Qed.

#[local] Arguments OnapRole_of : simpl never.
#[local] Arguments SonicRole_of : simpl never.
#[local] Arguments iter_roles : simpl never.

Lemma sonic_of_value r : SonicRole_of (PStr (sonic_value r)) = Ok r.
Proof. by destruct r. Qed.
Lemma onap_of_value r : OnapRole_of (PStr (onap_value r)) = Ok r.
Proof. by destruct r. Qed.

Lemma policy_dict_roundtrip p : policy_from_dict (policy_to_dict p) = Ok p.
Proof.
  destruct p as [r l d]. unfold policy_to_dict, policy_from_dict. cbn [index_key dict_get rbind].
  repeat first [rewrite decide_True by done | rewrite decide_False by done]. cbn [rbind].
  rewrite onap_of_value. cbn [rbind iter_roles].
  assert (Hl : mapM_res SonicRole_of (map (fun r => PStr (sonic_value r)) l) = Ok l).
  { apply mapM_res_ok. induction l; constructor; [apply sonic_of_value|done]. }
  cbn [allowed_sonic_roles default_sonic_role]. unfold iter_roles. rewrite Hl. cbn [rbind]. by rewrite sonic_of_value.
Qed.

(** ** Properties *)
(** Whatever sequence of policy updates, resets, connections and
    disconnections, every registered session has a SONiC role among the roles
    it may use, and its ONAP role is the one a certificate presented from its
    address was classified as; outside the bypass, only a certificate whose
    unit is a trusted one (or the absence of a certificate) opens a session. *)
Theorem session_role_justified evs a s :
  get_session (sam_run evs).2 a = Some s ->
  can_use_role s (sonic_role s) = true /\
  exists env c, Connect env a c ∈ evs /\ extract_onap_role_from_cert env c = Some (onap_role s) /\
    (is_security_bypassed env = true \/ c = None \/
     exists c' ou, c = Some c' /\ ou = py_lower (default "" (dict_get (subject_of c') "organizationalUnitName")) /\
       (onap_role s = O_ADMIN /\ ou ∈ TRUSTED_ADMIN_OUS \/ onap_role s = O_OPERATOR /\ ou ∈ TRUSTED_OPERATOR_OUS \/
        onap_role s = O_AGENT /\ ou ∈ TRUSTED_AGENT_OUS)).
Proof.
  intros Hs. apply (proj2 (sam_run_wf evs)) in Hs as (_ & Hr & env & c & Hin & Hx).
  split; [by apply bool_decide_eq_true|]. exists env, c. split; [done|split; [done|]].
  unfold extract_onap_role_from_cert in Hx. destruct (is_security_bypassed env); [auto|right].
  destruct c as [c|]; [right|auto]. eexists c, _. split; [done|split; [reflexivity|]].
  repeat case_bool_decide; simplify_eq; auto.
Qed.

Lemma session_role_justified_witness :
  let evs := [Update O_AGENT (Some [S_OPERATOR]) None;
              Connect None ("10.0.0.1", 830%Z) (Some [[("organizationalUnitName", "AUTO")]; [("commonName", "ids")]])] in
  exists s, get_session (sam_run evs).2 ("10.0.0.1", 830%Z) = Some s /\ onap_role s = O_AGENT /\
    sonic_role s = S_OPERATOR /\ can_use_role s (sonic_role s) = true.
Proof.
  cbv zeta. eexists. split; [vm_compute; reflexivity|]. split; [reflexivity|split; [reflexivity|]].
  apply (session_role_justified [Update O_AGENT (Some [S_OPERATOR]) None;
      Connect None ("10.0.0.1", 830%Z) (Some [[("organizationalUnitName", "AUTO")]; [("commonName", "ids")]])]
    ("10.0.0.1", 830%Z)).
  vm_compute. reflexivity.
Defined.

(** Importing exported policies restores them: afterwards every
    role has the exported policy, and a role without one keeps what it had. *)
Theorem export_import_roundtrip e e' : NoDup e.*1 ->
  exists e'', import_policies (PDict (get_all_policies e)) e' = (None, e'') /\
    forall r, get_policy e'' r = match get_policy e r with Some p => Some p | None => get_policy e' r end.
Proof.
  unfold import_policies, get_policy. revert e'. induction e as [|[r p] e IH]; intros e' Hnd; cbn; [eauto|].
  apply NoDup_cons in Hnd as [Hr Hnd]. rewrite onap_of_value. cbn [rbind]. rewrite policy_dict_roundtrip. cbn [rbind].
  destruct (IH (dict_set e' r p) Hnd) as (e'' & Hi & Hg). exists e''. split; [done|]. intros r'.
  rewrite Hg, dict_get_set. destruct (decide (r' = r)) as [->|].
  - apply dict_get_None in Hr. cbn in Hr. rewrite Hr. by rewrite decide_True.
  - by rewrite (decide_False (P := r = r')) by congruence.
Qed.

Lemma export_import_roundtrip_witness :
  exists e'', import_policies (PDict (get_all_policies DEFAULT_POLICIES)) [] = (None, e'') /\
    forall r, get_policy e'' r = match get_policy DEFAULT_POLICIES r with Some p => Some p | None => get_policy [] r end.
Proof. apply export_import_roundtrip. vm_compute. repeat constructor; set_solver. Defined.
