(* ===== verification/TamperLog.v ===== *)
(** * The audit log (tamper_logger.py)

    The logger's ring of recent entries, its file as a list of lines, its
    subscribers, and every method as one atomic step under the lock.  Entries are
    JSON values, because those read from the file can be anything; the parsing of
    a line and the outcome of each write are parameters. *)
From S2P Require Import Prelude PyVal Sha256 Json JsonLoads.
Local Open Scope string_scope.
Local Open Scope Z_scope.
Local Open Scope list_scope.

Definition LOG_INTEGRITY_KEY : string := "tamper_detection_key_change_in_production".

Record TamperLogger := mkLogger {
  logs : list pyval; max_logs : nat; log_file : list string; subscribers : list nat }.

(** The arguments of [log]. *)
Record log_args := LogArgs {
  la_event_type : string; la_action : string; la_details : string; la_client_info : option obj;
  la_severity : string; la_is_tampering : option bool; la_transaction_id : option string;
  la_request_data : pyval; la_data_before : pyval; la_data_after : pyval; la_user_identity : option obj }.

(** ** Detection of events that concern a modification *)
Definition any_in (kws : list string) (texts : list string) : bool :=
  existsb (fun kw => existsb (str_contains kw) texts) kws.

Definition modification_keywords : list string := ["create"; "delete"; "update"; "set"; "modify"; "acl"; "rule"; "table"].
Definition auth_keywords : list string := ["unauthorized"; "denied"; "permission"; "access denied"; "forbidden"].
Definition modification_actions : list string := [
  "create"; "delete"; "update"; "set"; "modify"; "edit"; "create_acl"; "delete_acl"; "acl_create"; "acl_delete";
  "create_acl_rule"; "delete_acl_table"; "edit_config"].
Definition auth_failure_keywords : list string := ["unauthorized"; "denied"; "forbidden"; "permission"; "not allowed"].

(** The remaining branches, read-only and system actions, answer as the default does. *)
Definition is_tampering_relevant (action details severity : string) : bool :=
  let a := py_lower action in
  let d := py_lower details in
  if bool_decide (severity ∈ ["error"; "critical"]) && any_in (modification_keywords ++ auth_keywords) [a; d] then true
  else if any_in modification_actions [a] then true
  else any_in auth_failure_keywords [a; d].

(** ** Identity *)
Definition identity_keys : list string := ["cn"; "ou"; "ip"; "port"; "role"; "session_id"].

Definition explicit_identity (user_identity : option obj) : obj :=
  map (fun k => (k, match user_identity with
                    | Some u => let v := jget u k in if truthy v then v else PNone
                    | None => PNone
                    end)) identity_keys.

(** [if not identity[k] and j in info: identity[k] = info[j]] *)
Definition or_from (k j : string) (info identity : obj) : obj :=
  if negb (truthy (jget identity k)) && dict_mem info j then dict_set identity k (jget info j) else identity.

Section Logger.
Context `{PyRepr} (json_loads : string -> option pyval).

Definition fallback_addr (info identity : obj) : obj :=
  if negb (truthy (jget identity "ip")) && dict_mem info "client_addr" then
    match jget info "client_addr" with
    | PList (a :: rest) =>
        let identity := dict_set identity "ip" (PStr (py_str a)) in
        match rest with p :: _ => dict_set identity "port" p | [] => identity end
    | PStr s => dict_set identity "ip" (PStr (default "" (head (split_on ":"%char s))))
    | _ => identity
    end
  else identity.

Definition build_user_identity (user_identity client_info : option obj) : obj :=
  let identity := explicit_identity user_identity in
  match client_info with
  | None | Some [] => identity
  | Some info =>
      let identity := or_from "ip" "client_ip" info identity in
      let identity := fallback_addr info identity in
      let identity := or_from "cn" "cert_cn" info identity in
      let identity := or_from "ou" "cert_ou" info identity in
      let identity := or_from "role" "onap_role" info identity in
      let identity := or_from "role" "sonic_role" info identity in
      or_from "session_id" "session_id" info identity
  end.

(** ** Hashes and signatures *)
Definition compute_hash (data : pyval) : string :=
  sha256_hex (match data with PStr s => s | _ => json_dumps true data end).

Definition hash_or_none (data : pyval) : pyval := if truthy data then PStr (compute_hash data) else PNone.

Definition fields_to_sign (entry : obj) : obj :=
  filter (fun kv : string * pyval => kv.1 <> "integrity_signature") entry.

Definition sign_log_entry (entry : obj) : string :=
  hmac_sha256 LOG_INTEGRITY_KEY (json_dumps true (PDict (fields_to_sign entry))).

(** [compare_digest] raises on anything but ASCII text. *)
Definition verify_log_integrity (entry : pyval) : res bool :=
  match entry with
  | PDict d =>
      match dict_get d "integrity_signature" with
      | None => Ok false
      | Some (PStr stored) =>
          if str_forallb is_ascii_char stored then Ok (bool_decide (stored = sign_log_entry d))
          else Raise (TypeError "comparing strings with non-ASCII characters is not supported")
      | Some _ => Raise (TypeError "unsupported operand types(s)")
      end
  | PStr s => if str_contains "integrity_signature" s then Raise (TypeError "string indices must be integers")
              else Ok false
  | PList l => if bool_decide (PStr "integrity_signature" ∈ l) then Raise (TypeError "list indices must be integers")
               else Ok false
  | _ => Raise (TypeError "argument is not iterable")
  end.

(** ** Logging *)
(** The entry before it is signed; [uuid] and [timestamp] are fresh. *)
Definition unsigned_entry (x : log_args) (uuid timestamp : string) : obj :=
  let tampering := match la_is_tampering x with
                   | Some b => b
                   | None => is_tampering_relevant (la_action x) (la_details x) (la_severity x)
                   end in
  [("timestamp", PStr timestamp); ("event_type", PStr (la_event_type x)); ("action", PStr (la_action x));
   ("severity", PStr (la_severity x)); ("details", PStr (la_details x)); ("is_tampering", PBool tampering);
   ("transaction_id", PStr (default uuid (la_transaction_id x)));
   ("user_identity", PDict (build_user_identity (la_user_identity x) (la_client_info x)));
   ("request_hash", hash_or_none (la_request_data x));
   ("data_before_hash", hash_or_none (la_data_before x)); ("data_after_hash", hash_or_none (la_data_after x));
   ("client_info", PDict (default [] (la_client_info x)))].

Definition log_entry (x : log_args) (uuid timestamp : string) : obj :=
  let e := unsigned_entry x uuid timestamp in
  e ++ [("integrity_signature", PStr (sign_log_entry e))].

(** [written] tells whether the append to the file succeeded.  The result is the
    transaction id and the entry each subscriber is handed. *)
Definition log (x : log_args) (uuid timestamp : string) (written : bool) (l : TamperLogger)
    : string * list (nat * obj) * TamperLogger :=
  let e := log_entry x uuid timestamp in
  (default uuid (la_transaction_id x),
   map (fun s => (s, e)) (subscribers l),
   mkLogger (deque_append (max_logs l) (logs l) (PDict e)) (max_logs l)
     (if written then log_file l ++ [json_dumps false (PDict e)] else log_file l) (subscribers l)).

Definition modification_args (event_type action details : string) (user_identity client_info : option obj)
    (request before after : pyval) (success : bool) (error_msg : string) (tx : option string) : log_args :=
  let info := dict_set (default [] client_info) "success" (PBool success) in
  let info := if nonempty error_msg then dict_set info "error" (PStr error_msg) else info in
  LogArgs event_type action details (Some info) (if success then "info" else "error") (Some true) tx
    request before after user_identity.

Definition access_denied_args (event_type action details : string) (user_identity client_info : option obj)
    (request : pyval) (tx : option string) : log_args :=
  LogArgs event_type action details (Some (dict_set (default [] client_info) "access_denied" (PBool true)))
    "critical" (Some true) tx request PNone PNone user_identity.

(** ** The file *)
Definition parse_lines (lines : list string) : list pyval :=
  omap (fun line => let s := py_strip line in if nonempty s then json_loads s else None) lines.

Definition read_from_file (l : TamperLogger) : list pyval := parse_lines (log_file l).

(** The constructor on an existing file; a missing one reads as no line. *)
Definition load_logs (max : nat) (file : list string) : TamperLogger :=
  mkLogger (foldl (deque_append max) [] (parse_lines (last_n max file))) max file [].

Definition source (from_file : bool) (l : TamperLogger) : list pyval :=
  if from_file then read_from_file l else logs l.

(** ** Queries *)
Definition filter_field (k v : string) (ls : list pyval) : res (list pyval) :=
  if nonempty v then
    let* keep := mapM_res (fun e => index_key e k) ls in
    Ok (map fst (filter (fun ek : pyval * pyval => ek.2 = PStr v) (zip ls keep)))
  else Ok ls.

(** [l[:n]] and [l[-n:]] for an integer [n]. *)
Definition slice_to {A} (n : Z) (l : list A) : list A :=
  if 0 <=? n then take (Z.to_nat n) l else take (length l - Z.to_nat (- n)) l.
Definition last_entries {A} (n : Z) (l : list A) : list A :=
  if 0 <? n then last_n (Z.to_nat n) l else drop (Z.to_nat (- n)) l.

Definition get_logs (limit : option Z) (event_type severity : string) (from_file : bool) (l : TamperLogger)
    : res (list pyval) :=
  let* ls := filter_field "event_type" event_type (source from_file l) in
  let* ls := filter_field "severity" severity ls in
  Ok (match limit with
      | None | Some 0 => ls
      | Some n => if from_file then last_entries n ls else slice_to n ls
      end).

Definition as_text (v : pyval) : res string :=
  match v with PStr s => Ok s | _ => Raise (AttributeError "lower") end.

Definition tampering_event (e : pyval) : res bool :=
  match e with
  | PDict d =>
      match dict_get d "is_tampering" with
      | Some v => Ok (truthy v)
      | None =>
          let* a := index_key e "action" in
          let* t := index_key e "details" in
          let* s := index_key e "severity" in
          let* a := as_text a in
          let* t := as_text t in
          Ok (is_tampering_relevant a t (match s with PStr s => s | _ => "" end))
      end
  | _ => Raise (TypeError "log entry is no object")
  end.

Definition get_tampering_events (from_file : bool) (l : TamperLogger) : res (list pyval) :=
  let ls := source from_file l in
  let* flags := mapM_res tampering_event ls in
  Ok (map fst (filter (fun eb : pyval * bool => eb.2 = true) (zip ls flags))).

Definition get_logs_by_transaction (tx : string) (from_file : bool) (l : TamperLogger) : res (list pyval) :=
  let ls := source from_file l in
  let* ids := mapM_res (fun e => get_of e "transaction_id" PNone) ls in
  Ok (map fst (filter (fun ei : pyval * pyval => ei.2 = PStr tx) (zip ls ids))).

Definition matches_user (cn ip : string) (e : pyval) : res bool :=
  let* identity := get_of e "user_identity" (PDict []) in
  let* c := (if nonempty cn then get_of identity "cn" PNone else Ok PNone) in
  if nonempty cn && bool_decide (c = PStr cn) then Ok true else
  let* i := (if nonempty ip then get_of identity "ip" PNone else Ok PNone) in
  Ok (nonempty ip && bool_decide (i = PStr ip)).

Definition get_logs_by_user (cn ip : string) (from_file : bool) (l : TamperLogger) : res (list pyval) :=
  let ls := source from_file l in
  let* flags := mapM_res (matches_user cn ip) ls in
  Ok (map fst (filter (fun eb : pyval * bool => eb.2 = true) (zip ls flags))).

Definition clear_logs (l : TamperLogger) : TamperLogger :=
  mkLogger [] (max_logs l) (log_file l) (subscribers l).

(** ** The audit report *)
Record audit_report := Report {
  tampering_events : Z; access_denials : Z;
  by_user : list (hkey * Z); by_action : list (hkey * Z); by_severity : list (hkey * Z);
  integrity_verified : Z; integrity_failed : Z; critical_events : list obj }.

Definition report0 : audit_report := Report 0 0 [] [] [] 0 0 [].

Definition count_key (v : pyval) (m : list (hkey * Z)) : res (list (hkey * Z)) :=
  let* k := key_of v in Ok (dict_set m k (default 0 (dict_get m k) + 1)).

Definition head_text (n : nat) (v : pyval) : res pyval :=
  match v with
  | PStr s => Ok (PStr (py_take n s))
  | PList l => Ok (PList (take n l))
  | _ => Raise (TypeError "object is not subscriptable")
  end.

(** The body of the loop over the entries. *)
Definition report_step (r : audit_report) (e : pyval) : res audit_report :=
  let* t := get_of e "is_tampering" PNone in
  let* info := get_of e "client_info" (PDict []) in
  let* denied := get_of info "access_denied" PNone in
  let* identity := get_of e "user_identity" (PDict []) in
  let* cn := get_of identity "cn" PNone in
  let* ip := get_of identity "ip" PNone in
  let user_key := por (por cn ip) (PStr "unknown") in
  let* users := count_key user_key (by_user r) in
  let* action := get_of e "action" (PStr "unknown") in
  let* actions := count_key action (by_action r) in
  let* severity := get_of e "severity" (PStr "info") in
  let* severities := count_key severity (by_severity r) in
  let* ok := verify_log_integrity e in
  let* crit :=
    (if bool_decide (severity = PStr "critical") then
       let* ts := get_of e "timestamp" PNone in
       let* details := get_of e "details" (PStr "") in
       let* text := head_text 100 details in
       Ok [[("timestamp", ts); ("action", action); ("user", user_key); ("details", text)]]
     else Ok []) in
  Ok (Report (tampering_events r + (if truthy t then 1 else 0)) (access_denials r + (if truthy denied then 1 else 0))
        users actions severities
        (integrity_verified r + (if ok : bool then 1 else 0)) (integrity_failed r + (if ok : bool then 0 else 1))
        (critical_events r ++ crit)).

Fixpoint report_loop (r : audit_report) (ls : list pyval) : res audit_report :=
  match ls with
  | [] => Ok r
  | e :: ls' => let* r' := report_step r e in report_loop r' ls'
  end.

(** The total and the report. *)
Definition generate_audit_report (from_file : bool) (l : TamperLogger) : res (Z * audit_report) :=
  let ls := source from_file l in
  let* r := report_loop report0 ls in
  Ok (Z.of_nat (length ls),
      Report (tampering_events r) (access_denials r) (by_user r) (by_action r) (by_severity r)
        (integrity_verified r) (integrity_failed r) (last_n 10 (critical_events r))).
End Logger.

(** ** Lemmas *)
(** A sequence of calls of [log] with what each run of it is given. *)
Definition log_event := (log_args * string * string * bool)%type.
Definition log_run `{PyRepr} (evs : list log_event) (l : TamperLogger) : TamperLogger :=
  foldl (fun l ev => let '(x, uuid, ts, written) := ev in (log x uuid ts written l).2) l evs.
Definition entry_of `{PyRepr} (ev : log_event) : pyval :=
  let '(x, uuid, ts, _) := ev in PDict (log_entry x uuid ts).

#[local] Arguments log_entry : simpl never.
#[local] Arguments json_dumps : simpl never.
#[local] Arguments hmac_sha256 : simpl never.
#[local] Arguments deque_append : simpl never.

Lemma log_run_logs `{PyRepr} evs l : (length (logs l) <= max_logs l)%nat ->
  logs (log_run evs l) = last_n (max_logs l) (logs l ++ map entry_of evs) /\ max_logs (log_run evs l) = max_logs l.
Proof.
  unfold log_run. revert l. induction evs as [|[[[x u] t] w] evs IH]; intros l Hl; cbn [foldl map].
  - rewrite app_nil_r. by rewrite last_n_all.
  - set (l1 := (log x u t w l).2).
    assert (Hm : max_logs l1 = max_logs l) by done.
    assert (Hlogs : logs l1 = deque_append (max_logs l) (logs l) (entry_of (x, u, t, w))) by done.
    destruct (IH l1) as [H1 H2]; [rewrite Hlogs, Hm; apply deque_append_length|].
    rewrite H1, H2, Hm, Hlogs. split; [|done]. unfold deque_append.
    by rewrite last_n_app_last, <- (assoc_L (++)).
Qed.

Lemma own_entry_verifies `{PyRepr} x uuid ts : verify_log_integrity (PDict (log_entry x uuid ts)) = Ok true.
Proof.
  unfold verify_log_integrity, log_entry. set (e := unsigned_entry x uuid ts).
  assert (Hnone : dict_get e "integrity_signature" = None).
  { apply dict_get_None. unfold e, unsigned_entry. cbn. set_solver. }
  assert (Hget : dict_get (e ++ [("integrity_signature", PStr (sign_log_entry e))]) "integrity_signature" =
                 Some (PStr (sign_log_entry e))).
  { revert Hnone. generalize (sign_log_entry e). intros sg. induction e as [|[k v] e' IH]; cbn; [done|].
    case_decide; [done|]. exact IH. }
  rewrite Hget. unfold sign_log_entry at 1. rewrite hmac_ascii. f_equal. apply bool_decide_eq_true.
  unfold sign_log_entry. by do 3 f_equal.
Qed.

Definition total (m : list (hkey * Z)) : Z := foldr (fun kv s => kv.2 + s) 0 m.

Lemma count_key_total v m m' : count_key v m = Ok m' -> total m' = total m + 1.
Proof.
  unfold count_key. destruct (key_of v) as [k|]; cbn [rbind]; [|done]. intros; simplify_eq.
  induction m as [|[k' n] m IH]; [done|]. cbn [dict_set dict_get].
  destruct (decide (k = k')); unfold total in *; simpl in *; lia.
Qed.

(** What one entry adds to the report. *)
Record step_counts (r r' : audit_report) : Prop := {
  sc_user : total (by_user r') = total (by_user r) + 1;
  sc_action : total (by_action r') = total (by_action r) + 1;
  sc_severity : total (by_severity r') = total (by_severity r) + 1;
  sc_integrity : integrity_verified r' + integrity_failed r' = integrity_verified r + integrity_failed r + 1;
  sc_tampering : tampering_events r <= tampering_events r' <= tampering_events r + 1;
  sc_denials : access_denials r <= access_denials r' <= access_denials r + 1 }.

Lemma report_step_counts `{PyRepr} r e r' : report_step r e = Ok r' -> step_counts r r'.
Proof.
  unfold report_step. rewrite !rbind_ok. intros (t & _ & Hr).
  repeat match type of Hr with
    | (let* x := ?m in _) = Ok _ => apply rbind_ok in Hr as (? & ? & Hr)
    | _ => fail
  end.
  simplify_eq. repeat match goal with H : count_key _ _ = Ok _ |- _ => apply count_key_total in H end.
  constructor; cbn; try done; repeat case_match; lia.
Qed.

Lemma report_loop_counts `{PyRepr} ls : forall r r', report_loop r ls = Ok r' ->
  total (by_user r') = total (by_user r) + Z.of_nat (length ls) /\
  total (by_action r') = total (by_action r) + Z.of_nat (length ls) /\
  total (by_severity r') = total (by_severity r) + Z.of_nat (length ls) /\
  integrity_verified r' + integrity_failed r' = integrity_verified r + integrity_failed r + Z.of_nat (length ls) /\
  tampering_events r <= tampering_events r' <= tampering_events r + Z.of_nat (length ls) /\
  access_denials r <= access_denials r' <= access_denials r + Z.of_nat (length ls).
Proof.
  induction ls as [|e ls IH]; intros r r'; cbn [report_loop length].
  - intros; simplify_eq. lia.
  - rewrite rbind_ok. intros (r1 & [H1 H2 H3 H4 H5 H6]%report_step_counts & Hr).
    apply IH in Hr. lia.
Qed.

(** The key under which an entry of the logger itself is counted per user. *)
Definition user_key `{PyRepr} (x : log_args) : pyval :=
  let identity := build_user_identity (la_user_identity x) (la_client_info x) in
  por (por (jget identity "cn") (jget identity "ip")) (PStr "unknown").

Lemma own_entry_step `{PyRepr} r x uuid ts written : is_ok (key_of (user_key x)) = true ->
  exists r', report_step r (entry_of (x, uuid, ts, written)) = Ok r' /\
    integrity_verified r' = integrity_verified r + 1 /\ integrity_failed r' = integrity_failed r.
Proof.
  intros Hk. unfold report_step, entry_of, get_of.
  set (e := log_entry x uuid ts).
  assert (H1 : jget_or e "is_tampering" PNone = PBool (match la_is_tampering x with Some b => b | None =>
            is_tampering_relevant (la_action x) (la_details x) (la_severity x) end)) by reflexivity.
  assert (H2 : jget_or e "client_info" (PDict []) = PDict (default [] (la_client_info x))) by reflexivity.
  assert (H3 : jget_or e "user_identity" (PDict []) =
    PDict (build_user_identity (la_user_identity x) (la_client_info x))) by reflexivity.
  assert (H4 : jget_or e "action" (PStr "unknown") = PStr (la_action x)) by reflexivity.
  assert (H5 : jget_or e "severity" (PStr "info") = PStr (la_severity x)) by reflexivity.
  assert (H6 : jget_or e "details" (PStr "") = PStr (la_details x)) by reflexivity.
  rewrite H1, H2, H3, H4, H5, H6. cbn [rbind]. unfold e. rewrite own_entry_verifies. clear H1 H2 H3 H4 H5 H6.
  unfold user_key in Hk. unfold count_key at 1.
  change (jget_or ?d ?k PNone) with (jget d k).
  destruct (key_of (por _ _)) as [k|]; [|done]. cbn.
  case_bool_decide; eexists; (split; [reflexivity|cbn; lia]).
Qed.

Lemma own_report_loop `{PyRepr} evs : Forall (fun ev : log_event => is_ok (key_of (user_key ev.1.1.1)) = true) evs ->
  forall r, exists r', report_loop r (map entry_of evs) = Ok r' /\
    integrity_verified r' = integrity_verified r + Z.of_nat (length evs) /\ integrity_failed r' = integrity_failed r.
Proof.
  induction 1 as [|[[[x u] t] w] evs Hx Hevs IH]; intros r; cbn [map report_loop length]; [exists r; split; [done|lia]|].
  destruct (own_entry_step r x u t w Hx) as (r1 & -> & H1 & H2). cbn [rbind].
  destruct (IH r1) as (r2 & -> & H3 & H4). exists r2. split; [done|lia].
Qed.

(** ** The file of the logger's own entries *)
Definition was_written (ev : log_event) : Prop := ev.2 = true.
#[export] Instance was_written_dec ev : Decision (was_written ev) := _.

Lemma log_run_file `{PyRepr} evs l :
  log_file (log_run evs l) = log_file l ++ map (fun ev => json_dumps false (entry_of ev)) (filter was_written evs).
Proof.
  unfold log_run. revert l. induction evs as [|[[[x u] t] w] evs IH]; intros l; cbn [foldl map]; [by rewrite app_nil_r|].
  rewrite IH, filter_cons. destruct w.
  - rewrite decide_True by done. cbn [log snd log_file map]. by rewrite <- app_assoc.
  - by rewrite decide_False by (by intros [=]).
Qed.

Lemma parse_own_lines `{PyRepr} float_of evs : Forall (fun ev => loadable (entry_of ev) = true) evs ->
  parse_lines (json_loads float_of) (map (fun ev => json_dumps false (entry_of ev)) evs) = map entry_of evs.
Proof.
  induction 1 as [|ev evs Hev _ IH]; [done|]. cbn [map parse_lines omap list_omap].
  rewrite <- (str_app_nil_r (json_dumps false (entry_of ev))), strip_dumps by done.
  destruct (dumps_head float_of _ Hev) as (c & t & E & _). rewrite E at 1. cbn [nonempty]. rewrite loads_dumps by done. by f_equal.
Qed.

Lemma map_last_n {A B} (f : A -> B) n l : last_n n (map f l) = map f (last_n n l).
Proof. unfold last_n. by rewrite skipn_map, length_map. Qed.

Lemma foldl_append max (l : list pyval) : forall acc, foldl (deque_append max) (last_n max acc) l = last_n max (acc ++ l).
Proof.
  induction l as [|x l IH]; intros acc; cbn [foldl]; [by rewrite app_nil_r|].
  unfold deque_append. rewrite last_n_app_last, IH. by rewrite <- app_assoc.
Qed.

(** ** Properties *)
(** C21: whatever is logged, the ring holds exactly the newest [max_logs] entries
    and the audit report on it succeeds, verifies the signature of every one
    and finds no altered entry (the names and addresses logged being
    scalars, as a certificate's and a socket's are). *)
Theorem own_log_verifies `{PyRepr} json_loads max evs :
  Forall (fun ev : log_event => is_ok (key_of (user_key ev.1.1.1)) = true) evs ->
  let l := log_run evs (mkLogger [] max [] []) in
  logs l = last_n max (map entry_of evs) /\
  exists r, generate_audit_report json_loads false l = Ok (Z.of_nat (length (logs l)), r) /\
    integrity_verified r = Z.of_nat (length (logs l)) /\ integrity_failed r = 0.
Proof.
  intros Hk l. destruct (log_run_logs evs (mkLogger [] max [] [])) as [Hl _]; [cbn; lia|]. cbn [logs max_logs app] in Hl.
  fold l in Hl. split; [done|]. unfold generate_audit_report, source.
  assert (Hlast : logs l = map entry_of (last_n max evs)).
  { rewrite Hl. unfold last_n. by rewrite skipn_map, length_map. }
  rewrite Hlast. destruct (own_report_loop (last_n max evs)) with (r := report0) as (r & -> & Hv & Hf).
  { unfold last_n. by apply Forall_drop. }
  cbn [rbind]. eexists. split; [reflexivity|]. cbn in Hv, Hf |- *. rewrite length_map. lia.
Qed.

(** C22: the file outlives the process: a logger started on the file that an earlier
    one wrote holds the newest of the entries whose write succeeded, reads all of
    them back as they were logged, and its report on the file verifies the
    signature of each (entries without floats, whose texts can be encoded). *)
Theorem restart_verifies `{PyRepr} float_of max max' evs :
  Forall (fun ev : log_event => is_ok (key_of (user_key ev.1.1.1)) = true /\ loadable (entry_of ev) = true) evs ->
  let kept := filter was_written evs in
  let l := load_logs (json_loads float_of) max' (log_file (log_run evs (mkLogger [] max [] []))) in
  read_from_file (json_loads float_of) l = map entry_of kept /\ logs l = last_n max' (map entry_of kept) /\
  exists r, generate_audit_report (json_loads float_of) true l = Ok (Z.of_nat (length kept), r) /\
    integrity_verified r = Z.of_nat (length kept) /\ integrity_failed r = 0.
Proof.
  intros Hevs kept l.
  assert (Hkept : Forall (fun ev : log_event => is_ok (key_of (user_key ev.1.1.1)) = true /\ loadable (entry_of ev) = true) kept).
  { apply Forall_forall. intros ev [_ Hin]%list_elem_of_filter. by eapply Forall_forall in Hevs. }
  apply Forall_and in Hkept as [Hk Hl].
  assert (Hfile : log_file l = map (fun ev => json_dumps false (entry_of ev)) kept) by (cbn; by rewrite log_run_file).
  assert (Hread : read_from_file (json_loads float_of) l = map entry_of kept).
  { unfold read_from_file. by rewrite Hfile, parse_own_lines. }
  split; [done|]. split.
  - subst l. cbn [load_logs logs]. rewrite log_run_file. cbn [log_file app]. fold kept. rewrite map_last_n, parse_own_lines.
    + change ([] : list pyval) with (last_n max' ([] : list pyval)) at 1. rewrite foldl_append. cbn [app].
      rewrite <- map_last_n. apply last_n_all. rewrite last_n_length. lia.
    + unfold last_n. by apply Forall_drop.
  - unfold generate_audit_report, source. rewrite Hread. destruct (own_report_loop kept Hk report0) as (r & -> & Hv & Hf).
    cbn [rbind]. eexists. split; [by rewrite length_map|]. cbn in Hv, Hf |- *. lia.
Qed.

(** On any log, from memory or from the file, whoever wrote its lines: when
    the report succeeds, the counts per user, per action and per severity each
    add up to the number of entries, as do the verified and the failed
    signatures; modifications and denials are at most that many, and at most
    ten critical events are listed. *)
Theorem report_partitions `{PyRepr} json_loads from_file l n r :
  generate_audit_report json_loads from_file l = Ok (n, r) ->
  n = Z.of_nat (length (source json_loads from_file l)) /\
  total (by_user r) = n /\ total (by_action r) = n /\ total (by_severity r) = n /\
  integrity_verified r + integrity_failed r = n /\
  0 <= tampering_events r <= n /\ 0 <= access_denials r <= n /\ (length (critical_events r) <= 10)%nat.
Proof.
  unfold generate_audit_report. rewrite rbind_ok. intros (r1 & Hr & Heq). simplify_eq.
  apply report_loop_counts in Hr.
  assert (Hc : (length (last_n 10 (critical_events r1)) <= 10)%nat) by (rewrite last_n_length; lia).
  unfold report0 in Hr.
  cbn [by_user by_action by_severity tampering_events access_denials integrity_verified integrity_failed
    critical_events] in *. change (total []) with 0 in Hr. splits; lia.
Qed.

Definition sample_args (sev : string) : log_args :=
  LogArgs "gnmi" "push_acl_rule" "Pushed rule r1" (Some [("client_ip", PStr "10.0.0.7")]) sev None None
    (PStr "request") PNone PNone None.
Definition sample_log : list log_event :=
  [(sample_args "info", "tx-1", "2026-01-01T00:00:00+00:00", true);
   (sample_args "error", "tx-2", "2026-01-01T00:00:01+00:00", false)].

Lemma own_log_verifies_witness :
  let l := @log_run (fun _ => "") sample_log (mkLogger [] 1 [] []) in
  length (logs l) = 1%nat /\ exists r, @generate_audit_report (fun _ => "") (fun _ => None) false l = Ok (1, r) /\
    integrity_verified r = 1.
Proof.
  destruct (@own_log_verifies (fun _ => "") (fun _ => None) 1 sample_log) as (Hl & r & Hr & Hv & _).
  { repeat constructor. }
  assert (Hn : length (logs (@log_run (fun _ => "") sample_log (mkLogger [] 1 [] []))) = 1%nat) by (rewrite Hl; reflexivity).
  rewrite Hn in Hr, Hv. split; [exact Hn|]. exists r. split; [exact Hr|exact Hv].
Defined.

Lemma report_partitions_witness :
  let l := mkLogger [PDict [("severity", PStr "info")]; PDict []] 10 [] [] in
  exists r, @generate_audit_report (fun _ => "") (fun _ => None) false l = Ok (2, r) /\ total (by_user r) = 2 /\
    integrity_verified r + integrity_failed r = 2.
Proof.
  cbv zeta. eexists. split; [vm_compute; reflexivity|].
  destruct (@report_partitions (fun _ => "") (fun _ => None) false
    (mkLogger [PDict [("severity", PStr "info")]; PDict []] 10 [] []) 2 _ eq_refl) as (_ & Hu & _ & _ & Hi & _).
  split; [exact Hu|exact Hi].
Defined.

Lemma restart_verifies_witness :
  let l := load_logs loads0 5 (log_file (@log_run (fun _ => "") sample_log (mkLogger [] 1 [] []))) in
  length (logs l) = 1%nat /\ exists r, @generate_audit_report (fun _ => "") loads0 true l = Ok (1, r) /\ integrity_verified r = 1.
Proof.
  destruct (@restart_verifies (fun _ => "") floats0 1 5 sample_log) as (_ & Hl & r & Hr & Hv & _).
  { repeat constructor; vm_compute; reflexivity. }
  split; [etransitivity; [exact (f_equal (@length pyval) Hl)|reflexivity]|]. exists r. split; [exact Hr|exact Hv].
Defined.
