(* ===== verification/GnmiPool.v ===== *)
(** * The connection pool to the leafs (nos_gnmi_pool.py)

    The zone routing of a rule's source and the dict of connections.  A client is
    an object that the pool, sessions and disconnect handlers share: clients live
    in a heap and the dict holds their addresses.  Connecting is asynchronous
    I/O: its outcome is an argument.  Every method is one atomic step. *)
From S2P Require Import Prelude PyVal IpAddr RolePolicy.
From S2P Require Topology.
Local Open Scope string_scope.
Local Open Scope Z_scope.
Local Open Scope list_scope.

Definition ZONE_TO_LEAF : list (string * string) := [
  ("10.1.100.0/24", "192.168.122.20"); ("10.1.200.0/24", "192.168.122.20");
  ("10.2.100.0/24", "192.168.122.21"); ("10.2.50.0/24", "192.168.122.21")].
Definition DEFAULT_LEAF1 : string := "192.168.122.20".
Definition DEFAULT_LEAF2 : string := "192.168.122.21".
Definition LEAF_TLS_HOSTNAME : list (string * string) := [
  (DEFAULT_LEAF1, "sonic-leaf-1"); (DEFAULT_LEAF2, "sonic-leaf-2")].

(** The module-level comprehension; the four prefixes are well formed. *)
Definition ZONE_NETWORKS : list (ip_net * string) :=
  omap (fun zl : string * string => match ip_network zl.1 true with Ok n => Some (n, zl.2) | Raise _ => None end)
    ZONE_TO_LEAF.

(** The loop; [subnet_of] raises on networks of different versions. *)
Fixpoint find_zone (n : ip_net) (zones : list (ip_net * string)) : res (option string) :=
  match zones with
  | [] => Ok None
  | (z, leaf) :: zones' => let* sub := subnet_of n z in if sub : bool then Ok (Some leaf) else find_zone n zones'
  end.

Definition ip_to_leaf (src : string) : res (option string) :=
  match ip_network src false with
  | Raise (ValueError _) => Ok None
  | Raise e => Raise e
  | Ok n => find_zone n ZONE_NETWORKS
  end.

(** ** The pool *)
(** Of a client what the pool reads; the role and with it the credentials it was made with are
    those of its key, and the connection itself is in [GnmiClient]. *)
Record gnmi_client := Client { host : string; connected : bool }.

Definition key := (SonicRole * string)%type.

Record pool := mkPool {
  leaves : list (string * string);
  connections : list (key * option nat);
  enabled : list key;
  heap : gmap nat gnmi_client;
  fresh_client : nat }.

Definition pool0 (ls : list (string * string)) : pool := mkPool ls [] [] ∅ 0.

Definition set_connection (k : key) (c : option nat) (p : pool) : pool :=
  mkPool (leaves p) (dict_set (connections p) k c) (enabled p) (heap p) (fresh_client p).

(** [client.close()] *)
Definition close_client (id : nat) (p : pool) : pool :=
  mkPool (leaves p) (connections p) (enabled p)
    (alter (fun c => Client (host c) false) id (heap p)) (fresh_client p).

Definition existing (k : key) (p : pool) : option nat :=
  match dict_get (connections p) k with Some c => c | None => None end.

Definition close_existing (k : key) (p : pool) : pool :=
  match existing k p with Some id => close_client id p | None => p end.

(** The disconnect handler of the client at [id], made for a role and a leaf. *)
Definition lost (role : SonicRole) (leaf : string) (id : nat) (p : pool) : pool :=
  set_connection (role, leaf) None (close_client id p).

(** [creds] tells whether the credential files exist, [ok] whether connecting succeeds. *)
Definition connect_role_leaf (creds ok : bool) (role : SonicRole) (leaf : string) (p : pool) : bool * pool :=
  if negb creds then (false, p) else
  let id := fresh_client p in
  let p := mkPool (leaves p) (connections p) (enabled p) (<[id := Client leaf ok]> (heap p)) (S id) in
  if ok then
    let k := (role, leaf) in
    let p := close_existing k p in
    (true, mkPool (leaves p) (dict_set (connections p) k (Some id))
             (if bool_decide (k ∈ enabled p) then enabled p else k :: enabled p) (heap p) (fresh_client p))
  else (false, p).

Definition sonic_roles : list SonicRole := [S_ADMIN; S_OPERATOR].

(** [outcome] gives each attempt's [creds] and [ok]. *)
Definition connect_all (outcome : key -> bool * bool) (p : pool) : list (key * bool) * pool :=
  foldl (fun (acc : list (key * bool) * pool) k =>
      let '(results, p) := acc in
      let '(r, p) := connect_role_leaf (outcome k).1 (outcome k).2 k.1 k.2 p in
      (dict_set results k r, p))
    ([], p) (flat_map (fun role => map (fun l : string * string => (role, l.2)) (leaves p)) sonic_roles).

Definition usable (p : pool) (k : key) : option nat :=
  match existing k p with
  | Some id => match heap p !! id with
               | Some c => if connected c then Some id else None
               | None => None
               end
  | None => None
  end.

Definition get_client_by_key (role : SonicRole) (leaf : string) (p : pool) : option nat := usable p (role, leaf).

Definition get_client_for_zone (role : SonicRole) (src : string) (p : pool) : res (option nat) :=
  let* leaf := ip_to_leaf src in
  Ok (get_client_by_key role (default DEFAULT_LEAF1 leaf) p).

Definition get_any_client (role : SonicRole) (p : pool) : option nat :=
  head (omap (fun l : string * string => usable p (role, l.2)) (leaves p)).

(** The shim the NETCONF server calls. *)
Definition get_client (role : SonicRole) (p : pool) : option nat := get_any_client role p.

Definition reconnect (creds ok : bool) (role : SonicRole) (leaf : string) (p : pool) : bool * pool :=
  let k := (role, leaf) in
  let p := match existing k p with Some id => set_connection k None (close_client id p) | None => p end in
  connect_role_leaf creds ok role leaf p.

Definition is_connected (role : SonicRole) (leaf : string) (p : pool) : bool :=
  match usable p (role, leaf) with Some _ => true | None => false end.

Definition get_status (p : pool) : list (string * (string * list (string * bool))) :=
  map (fun l : string * string =>
         (l.1, (l.2, map (fun r => (sonic_value r, is_connected r l.2 p)) sonic_roles))) (leaves p).

Definition close_all (p : pool) : pool :=
  let p := foldl (fun p (kc : key * option nat) => match kc.2 with Some id => close_client id p | None => p end)
             p (connections p) in
  mkPool (leaves p) [] [] (heap p) (fresh_client p).

(** ** Runs *)
Inductive pool_event :=
  | Connect_ (creds ok : bool) (role : SonicRole) (leaf : string)
  | Reconnect_ (creds ok : bool) (role : SonicRole) (leaf : string)
  | Lost_ (role : SonicRole) (leaf : string) (id : nat)
  | CloseAll_.

Definition pool_step (p : pool) (e : pool_event) : pool :=
  match e with
  | Connect_ creds ok r l => (connect_role_leaf creds ok r l p).2
  | Reconnect_ creds ok r l => (reconnect creds ok r l p).2
  | Lost_ r l id => lost r l id p
  | CloseAll_ => close_all p
  end.
Definition pool_run (ls : list (string * string)) (es : list pool_event) : pool := foldl pool_step (pool0 ls) es.

(** ** Lemmas on the routing *)
Lemma zone_networks_eq : ZONE_NETWORKS = [
  (Net IPv4 167863296 None 24, DEFAULT_LEAF1); (Net IPv4 167888896 None 24, DEFAULT_LEAF1);
  (Net IPv4 167928832 None 24, DEFAULT_LEAF2); (Net IPv4 167916032 None 24, DEFAULT_LEAF2)].
Proof. vm_compute. reflexivity. Qed.

(** The leaf that enforces a zone, by its address, as the topology has it. *)
Definition zone_host (zone : string) : option string :=
  leaf ← Topology.z_leaf <$> dict_get Topology.ZONES zone;
  Topology.l_ssh_host <$> dict_get Topology.LEAFS leaf.

Definition zone_covers (n : ip_net) (b : Z) : Prop := b <= n_int n /\ broadcast n <= b + 255.

Lemma subnet_of_zone n b : n_ver n = IPv4 -> n_scope n = None -> net_ok n ->
  exists r, subnet_of n (Net IPv4 b None 24) = Ok r /\ (r = true <-> zone_covers n b).
Proof.
  intros Hv Hs _. unfold subnet_of. cbn [a_ver n_ver]. rewrite Hv, decide_True by done.
  eexists. split; [reflexivity|]. cbn [n_int n_scope]. rewrite Hs, bool_decide_eq_true_2 by done.
  unfold zone_covers, broadcast at 2. cbn [n_int n_ver n_plen]. unfold host_size. cbn [max_prefixlen].
  change (2 ^ (32 - 24)) with 256. rewrite andb_true_iff, orb_true_iff, andb_true_r, Z.ltb_lt, Z.eqb_eq, Z.leb_le. lia.
Qed.

Lemma find_zone_spec n : n_ver n = IPv4 -> n_scope n = None -> net_ok n ->
  exists r, find_zone n ZONE_NETWORKS = Ok r /\
    forall leaf, r = Some leaf <->
      exists zone b, Topology.zone_base zone = Some b /\ zone_host zone = Some leaf /\ zone_covers n b.
Proof.
  intros Hv Hs Hok. rewrite zone_networks_eq. cbn [find_zone].
  destruct (subnet_of_zone n 167863296 Hv Hs Hok) as (r1 & -> & H1).
  destruct (subnet_of_zone n 167888896 Hv Hs Hok) as (r2 & -> & H2).
  destruct (subnet_of_zone n 167928832 Hv Hs Hok) as (r3 & -> & H3).
  destruct (subnet_of_zone n 167916032 Hv Hs Hok) as (r4 & -> & H4). cbn [rbind].
  assert (Hpos : n_int n <= broadcast n).
  { unfold broadcast. pose proof (host_size_pos (n_ver n) (n_plen n)). destruct Hok as [? _]. lia. }
  exists (if r1 then Some DEFAULT_LEAF1 else if r2 then Some DEFAULT_LEAF1 else if r3 then Some DEFAULT_LEAF2
    else if r4 then Some DEFAULT_LEAF2 else None). split; [by destruct r1, r2, r3, r4|]. intros leaf. split.
  - intros Hl. destruct r1; [|destruct r2; [|destruct r3; [|destruct r4; [|done]]]]; injection Hl as <-.
    + exists "WEB", 167863296. split; [done|split; [reflexivity|by apply H1]].
    + exists "DB", 167888896. split; [done|split; [reflexivity|by apply H2]].
    + exists "APP", 167928832. split; [done|split; [reflexivity|by apply H3]].
    + exists "MGT", 167916032. split; [done|split; [reflexivity|by apply H4]].
  - intros (zone & b & Hb & Hz & Hc). unfold Topology.zone_base in Hb. cbn [dict_get] in Hb.
    unfold zone_covers in *.
    repeat case_decide; simplify_eq; vm_compute in Hz; injection Hz as <-;
      destruct r1, r2, r3, r4; try reflexivity;
      repeat match goal with
             | H : true = true <-> _ |- _ => apply proj1 in H; specialize (H eq_refl)
             | H : false = true <-> _ |- _ => apply proj2 in H
             end; try lia;
      repeat match goal with H : _ -> false = true |- _ => first [discriminate (H Hc) | clear H] end; lia.
Qed.

Lemma parse_ipv4_scope s a : parse_ipv4 s = Some a -> a_scope a = None.
Proof.
  unfold parse_ipv4. case_match; [done|]. destruct (ipv4_int_from_string s); cbn; [|done]. by intros [= <-].
Qed.

(** A network of IPv4 has no scope. *)
Lemma ip_network_scope s st n : ip_network s st = Ok n -> n_ver n = IPv4 -> n_scope n = None.
Proof.
  intros Hn Hv. unfold ip_network in Hn. destruct (parse_net IPv4 st s) as [r|] eqn:E.
  - subst r. unfold parse_net in E. destruct (split_on _ s) as [|a [|m [|]]]; try done; cbn in E;
      (destruct (parse_ipv4 a) as [ad|] eqn:Ea; cbn in E; [|done]); apply parse_ipv4_scope in Ea;
      try (destruct (make_prefixlen IPv4 m); cbn in E; [|done]); repeat case_match; by simplify_eq.
  - destruct (parse_net IPv6 st s) as [r|] eqn:E6; [|done]. subst r.
    apply parse_net_addr in E6 as (a & _ & Hv6 & _). congruence.
Qed.

(** ** Lemmas on the pool *)
Record pool_ok (p : pool) : Prop := {
  po_alloc : forall id c, heap p !! id = Some c -> (id < fresh_client p)%nat;
  po_conn : forall role leaf id, existing (role, leaf) p = Some id ->
      exists c, heap p !! id = Some c /\ host c = leaf }.

Lemma existing_set k k' c p : existing k' (set_connection k c p) = if decide (k = k') then c else existing k' p.
Proof. unfold existing, set_connection. cbn. rewrite dict_get_set. by case_decide. Qed.

Lemma close_client_ok id p : pool_ok p -> pool_ok (close_client id p).
Proof.
  intros [Ha Hc]. constructor; cbn.
  - intros i c. destruct (decide (id = i)) as [->|].
    + rewrite lookup_alter_eq. destruct (heap p !! i) eqn:E; [|done]. intros _. by eapply Ha.
    + rewrite lookup_alter_ne by done. apply Ha.
  - intros r l i Hi. apply Hc in Hi as (c & Hl & Hh). destruct (decide (id = i)) as [->|].
    + exists (Client (host c) false). by rewrite lookup_alter_eq, Hl.
    + exists c. by rewrite lookup_alter_ne.
Qed.

Lemma set_none_ok k p : pool_ok p -> pool_ok (set_connection k None p).
Proof.
  intros [Ha Hc]. constructor; [done|]. intros r l i. rewrite existing_set. case_decide; [done|]. apply Hc.
Qed.

Lemma connect_ok creds ok r l p : pool_ok p -> pool_ok (connect_role_leaf creds ok r l p).2.
Proof.
  intros Hp. unfold connect_role_leaf. destruct creds; [|done]. cbn [negb].
  set (id := fresh_client p). set (p1 := mkPool _ _ _ (<[id := Client l ok]> _) _).
  assert (Hp1 : pool_ok p1 /\ heap p1 !! id = Some (Client l ok)).
  { split; [|apply lookup_insert_eq]. destruct Hp as [Ha Hc]. constructor; cbn.
    - intros i c. destruct (decide (id = i)) as [->|]; [intros _; lia|].
      rewrite lookup_insert_ne by done. intros Hi%Ha. lia.
    - intros r' l' i Hi. apply Hc in Hi as (c & Hl & Hh). exists c. split; [|done].
      rewrite lookup_insert_ne; [done|]. apply Ha in Hl. unfold id. lia. }
  clearbody p1. destruct ok; [|apply Hp1]. destruct Hp1 as [Hp1 Hid].
  assert (Hp2 : pool_ok (close_existing (r, l) p1) /\
                exists c, heap (close_existing (r, l) p1) !! id = Some c /\ host c = l).
  { unfold close_existing. destruct (existing (r, l) p1) as [e|] eqn:Ee; [|split; [done|eauto]].
    split; [by apply close_client_ok|]. cbn. destruct (decide (e = id)) as [->|].
    - exists (Client l false). by rewrite lookup_alter_eq, Hid.
    - exists (Client l true). rewrite lookup_alter_ne by done. by rewrite Hid. }
  generalize dependent (close_existing (r, l) p1). intros p2 [[Ha Hc] (c & Hl & Hh)]. constructor; cbn; [done|].
  intros r' l' i. unfold existing. cbn. rewrite dict_get_set. case_decide as Hd.
  - simplify_eq. intros; simplify_eq. eauto.
  - intros Hi. by apply (Hc r').
Qed.

Lemma pool_step_ok p e : pool_ok p -> pool_ok (pool_step p e).
Proof.
  intros Hp. destruct e as [c o r l|c o r l|r l id|]; cbn [pool_step].
  - by apply connect_ok.
  - unfold reconnect. destruct (existing (r, l) p); [|by apply connect_ok].
    apply connect_ok. by apply set_none_ok, close_client_ok.
  - unfold lost. by apply set_none_ok, close_client_ok.
  - unfold close_all.
    assert (Hf : pool_ok (foldl (fun p (kc : key * option nat) => match kc.2 with Some id => close_client id p | None => p end)
      p (connections p))).
    { generalize (connections p). intros cs. revert p Hp. induction cs as [|[k [id|]] cs IH]; intros p Hp; cbn; [done| |auto].
      by apply IH, close_client_ok. }
    destruct Hf as [Ha _]. constructor; [exact Ha|]. by intros.
Qed.

Lemma pool_run_ok ls es : pool_ok (pool_run ls es).
Proof.
  unfold pool_run. assert (H0 : pool_ok (pool0 ls)) by (by constructor).
  revert H0. generalize (pool0 ls). induction es as [|e es IH]; intros p Hp; cbn; [done|]. by apply IH, pool_step_ok.
Qed.

(** ** Properties *)
(** The source of a rule is routed to a leaf exactly when the network lies in one
    zone, to the leaf that enforces this zone in the agent's topology: no
    address the rule matches belongs to the other leaf. Malformed text has no
    leaf, and an IPv6 source raises. *)
Theorem ip_to_leaf_routes src :
  match ip_network src false with
  | Ok n =>
      match n_ver n with
      | IPv4 => exists r, ip_to_leaf src = Ok r /\
          forall leaf, r = Some leaf <->
            exists zone b, Topology.zone_base zone = Some b /\ zone_host zone = Some leaf /\ zone_covers n b
      | IPv6 => exists m, ip_to_leaf src = Raise (TypeError m)
      end
  | Raise _ => ip_to_leaf src = Ok None
  end.
Proof.
  unfold ip_to_leaf. destruct (ip_network src false) as [n|e] eqn:En.
  - destruct (n_ver n) eqn:Hv.
    + apply find_zone_spec; [done|by eapply ip_network_scope|by eapply ip_network_ok].
    + rewrite zone_networks_eq. cbn [find_zone]. unfold subnet_of at 1. cbn [a_ver n_ver].
      rewrite Hv, decide_False by done. cbn. eauto.
  - by apply ip_network_raise in En as [m ->].
Qed.

(** C34: after any sequence of connections, reconnections, losses and shutdowns, the
    client handed out for a rule is connected, and it is a connection to the
    leaf the rule's source is routed to (the first leaf when it has none). *)
Theorem routed_client_correct ls es role src id :
  get_client_for_zone role src (pool_run ls es) = Ok (Some id) ->
  exists leaf c, ip_to_leaf src = Ok leaf /\ heap (pool_run ls es) !! id = Some c /\
    connected c = true /\ host c = default DEFAULT_LEAF1 leaf.
Proof.
  pose proof (pool_run_ok ls es) as [_ Hc]. set (p := pool_run ls es) in *.
  unfold get_client_for_zone, get_client_by_key, usable. rewrite rbind_ok. intros (leaf & Hl & Hu). simplify_eq.
  destruct (existing (role, default DEFAULT_LEAF1 leaf) p) as [i|] eqn:Ei; [|done].
  apply Hc in Ei as (c & Hh & Hhost). rewrite Hh in Hu. destruct (connected c) eqn:Ec; [|done]. simplify_eq.
  exists leaf, c. done.
Qed.

Lemma routed_client_correct_witness :
  let ls := [("leaf-1", "192.168.122.20"); ("leaf-2", "192.168.122.21")] in
  let es := [Connect_ true true S_ADMIN "192.168.122.20"; Connect_ true true S_ADMIN "192.168.122.21";
             Lost_ S_ADMIN "192.168.122.21" 1; Reconnect_ true true S_ADMIN "192.168.122.21"] in
  get_client_for_zone S_ADMIN "10.2.100.10/32" (pool_run ls es) = Ok (Some 2%nat) /\
  exists leaf c, ip_to_leaf "10.2.100.10/32" = Ok leaf /\ heap (pool_run ls es) !! 2%nat = Some c /\
    connected c = true /\ host c = default DEFAULT_LEAF1 leaf.
Proof.
  cbv zeta. split; [vm_compute; reflexivity|].
  apply (routed_client_correct _ _ S_ADMIN). vm_compute. reflexivity.
Defined.

(** A source wider than a zone has no leaf of its own and goes to the first leaf,
    even when every zone it covers is enforced by the other one: the rule is not
    installed where its traffic enters. *)
Theorem wide_source_misrouted :
  ip_to_leaf "10.2.0.0/16" = Ok None /\
  (exists n, ip_network "10.2.0.0/16" false = Ok n /\
     forall zone b, Topology.zone_base zone = Some b -> n_int n <= b <= broadcast n ->
       zone_host zone = Some DEFAULT_LEAF2) /\
  forall role p, get_client_for_zone role "10.2.0.0/16" p = Ok (get_client_by_key role DEFAULT_LEAF1 p).
Proof.
  split; [vm_compute; reflexivity|split].
  - eexists. split; [vm_compute; reflexivity|]. intros zone b Hb. unfold Topology.zone_base in Hb. cbn [dict_get] in Hb.
    unfold broadcast, host_size. cbn. repeat case_decide; simplify_eq; intros; try lia; vm_compute; reflexivity.
  - intros role p. unfold get_client_for_zone.
    assert (Hr : ip_to_leaf "10.2.0.0/16" = Ok None) by (vm_compute; reflexivity). by rewrite Hr.
Qed.
