(* ===== verification/GnmiClient.v ===== *)
(** * The gNMI client (gnmi/gnmiclient.py)

    The connection's state, its monitor, the Get requests with their logging, and
    the Set requests that create and delete an ACL entry.  pygnmi is outside the
    repository: the [n]-th dial has an outcome, the [n]-th request an answer or an
    exception, and a Subscribe stream ends in one of three ways.  The text of an
    exception is a parameter. *)
From S2P Require Import Prelude PyVal Json RolePolicy TamperLog GnmiPool.
Local Open Scope string_scope.
Local Open Scope Z_scope.
Local Open Scope list_scope.

Record sonic_client := SonicClient {
  c_host : string; c_port : Z;
  c_gc : bool (* [self.gc] is set *);
  c_connected : bool;
  c_auto : bool (* [auto_reconnect] *) }.

(** The outcome of a dial: pygnmi raises before or after the client object exists,
    or the server is reached and the connection callback raises or not. *)
Inductive dial_outcome := BuildRaised | ConnectRaised | CallbackRaised | Reached.

(** Requests of the [OC-YANG] target. *)
Inductive oc_request :=
  | OcCapabilities
  | OcGet (path : string)
  | OcUpdate (path : string) (value : pyval)
  | OcDelete (path : string).

Record client_state := ClientState {
  cl : sonic_client;
  asked : list oc_request;
  notes : list log_args;
  disconnects : list exn (* calls of [on_disconnect] *);
  dials : nat }.

Definition with_cl (c : sonic_client) (s : client_state) : client_state :=
  ClientState c (asked s) (notes s) (disconnects s) (dials s).
Definition set_flags (gc conn : bool) (s : client_state) : client_state :=
  let c := cl s in with_cl (SonicClient (c_host c) (c_port c) gc conn (c_auto c)) s.
Definition note_client (x : log_args) (s : client_state) : client_state :=
  ClientState (cl s) (asked s) (notes s ++ [x]) (disconnects s) (dials s).

(** [is_connected()] *)
Definition client_is_connected (s : client_state) : bool := c_connected (cl s) && c_gc (cl s).

Section GnmiClient.
Context (dial : nat -> dial_outcome) (oc : nat -> oc_request -> res pyval) (exn_str : exn -> string).

(** ** Connecting *)
Definition dial_once (o : dial_outcome) (s : client_state) : bool * client_state :=
  match o with
  | BuildRaised => (false, set_flags (c_gc (cl s)) false s)
  | ConnectRaised | CallbackRaised => (false, set_flags true false s)
  | Reached => (true, set_flags true true s)
  end.
Definition connect (s : client_state) : bool * client_state :=
  let '(ok, s') := dial_once (dial (dials s)) s in
  (ok, ClientState (cl s') (asked s') (notes s') (disconnects s') (S (dials s'))).

(** [_ensure_connected] *)
Definition ensure_connected (s : client_state) : bool * client_state :=
  if client_is_connected s then (true, s) else if c_auto (cl s) then connect s else (false, s).

Definition disconnected (e : exn) (s : client_state) : client_state :=
  let s := set_flags (c_gc (cl s)) false s in
  ClientState (cl s) (asked s) (notes s) (disconnects s ++ [e]) (dials s).

Definition connection_errors : list string := ["unavailable"; "connection"; "eof"; "reset"; "broken pipe"; "deadline"].

(** [_handle_rpc_error] *)
Definition handle_rpc_error (e : exn) (s : client_state) : client_state :=
  if existsb (fun err => str_contains err (py_lower (exn_str e))) connection_errors then disconnected e s else s.

Definition close (s : client_state) : client_state := if c_gc (cl s) then set_flags false false s else s.

(** ** The monitor *)
Inductive stream_end :=
  | StreamDone                          (* the stream ended, or was left at the stop event *)
  | StreamError (e : exn) (stopped : bool) (* with the stop event set or not *).

(** One round of [_connection_monitor_loop], with the stop event as the round finds
    it: the state, and whether the loop goes on. *)
Definition monitor_round (stop : bool) (stream : stream_end) (s : client_state) : client_state * bool :=
  if stop then (s, false)
  else if negb (c_connected (cl s)) || negb (c_gc (cl s)) then
    if c_auto (cl s) then ((connect s).2, true) else (s, false)
  else
    match stream with
    | StreamDone => (s, true)
    | StreamError e stopped => if stopped then (s, false) else (disconnected e s, true)
    end.

Fixpoint monitor_loop (rounds : list (bool * stream_end)) (s : client_state) : client_state * bool :=
  match rounds with
  | [] => (s, true)
  | (stop, stream) :: rest =>
      let '(s, go) := monitor_round stop stream s in if go then monitor_loop rest s else (s, false)
  end.

(** ** Requests *)
Definition ask (r : oc_request) (s : client_state) : res pyval * client_state :=
  (oc (length (asked s)) r, ClientState (cl s) (asked s ++ [r]) (notes s) (disconnects s) (dials s)).

Definition where_ (s : client_state) : obj := [("host", PStr (c_host (cl s))); ("port", PInt (c_port (cl s)))].
Definition at_host (s : client_state) : string := (c_host (cl s) ++ ":" ++ str_of_Z (c_port (cl s)))%string.

Definition client_log (action details severity : string) (tampering : option bool) (info : obj) : log_args :=
  LogArgs "gnmi_client" action details (Some info) severity tampering None PNone PNone PNone None.

(** [result.get('notification', [{}])[0].get('update', [{}])[0].get('val', {})] *)
Definition value_of (result : pyval) : res pyval :=
  let* n := get_of result "notification" (PList [PDict []]) in
  let* n := index0 n in
  let* u := get_of n "update" (PList [PDict []]) in
  let* u := index0 u in
  get_of u "val" (PDict []).

Definition get_capabilities (s : client_state) : pyval * client_state :=
  let '(ok, s) := ensure_connected s in
  if negb ok then (PDict [], s) else
  let '(r, s) := ask OcCapabilities s in
  match r with Ok caps => (caps, s) | Raise e => (PDict [], handle_rpc_error e s) end.

Definition get_acl_tables (s : client_state) : pyval * client_state :=
  let '(ok, s) := ensure_connected s in
  if negb ok then
    (PDict [], note_client (client_log "get_acl_tables_not_connected"
       "Failed to retrieve ACL tables from SONiC - not connected" "warning" (Some false) (where_ s)) s)
  else
    let s := note_client (client_log "get_acl_tables_request"
               ("Sending gNMI Get request for ACL tables to SONiC at " ++ at_host s)%string "info" (Some false)
               (where_ s ++ [("path", PStr "openconfig-acl:acl/acl-sets")])) s in
    let '(r, s) := ask (OcGet "openconfig-acl:acl/acl-sets") s in
    let failed e s :=
      (PDict [], note_client (client_log "get_acl_tables_failed"
         ("Failed to retrieve ACL tables from SONiC at " ++ at_host s ++ ": " ++ exn_str e)%string "error" (Some false)
         (where_ s ++ [("error", PStr (exn_str e))])) (handle_rpc_error e s)) in
    match r with
    | Raise e => failed e s
    | Ok result =>
        let s := note_client (client_log "get_acl_tables_success"
                   ("Successfully retrieved ACL tables from SONiC at " ++ at_host s)%string "info" (Some false) (where_ s)) s in
        match value_of result with Ok v => (v, s) | Raise e => failed e s end
    end.

Definition acl_rules_path (table_name acl_type : string) : string :=
  if nonempty table_name
  then ("openconfig-acl:acl/acl-sets/acl-set[name=" ++ table_name ++ "][type=" ++ acl_type ++ "]/acl-entries")%string
  else "openconfig-acl:acl/acl-sets".

(** A missing table name is the empty text. *)
Definition get_acl_rules (table_name acl_type : string) (s : client_state) : pyval * client_state :=
  let '(ok, s) := ensure_connected s in
  if negb ok then (PDict [], s) else
  let '(r, s) := ask (OcGet (acl_rules_path table_name acl_type)) s in
  match (let* result := r in value_of result) with
  | Ok v => (v, s)
  | Raise e => (PDict [], handle_rpc_error e s)
  end.

Definition FALLBACK_PORTS : list string := ["Ethernet0"; "Ethernet4"; "Ethernet8"; "Ethernet12"].

Fixpoint ethernet_names (l : list pyval) : res (list string) :=
  match l with
  | [] => Ok []
  | intf :: l' =>
      let* name := get_of intf "name" (PStr "") in
      let* name := as_str "startswith" name in
      let* rest := ethernet_names l' in
      Ok (if starts_with "Ethernet" name then name :: rest else rest)
  end.

Definition get_available_interfaces (s : client_state) : list string * client_state :=
  let '(ok, s) := ensure_connected s in
  if negb ok then (FALLBACK_PORTS, s) else
  let '(r, s) := ask (OcGet "openconfig-interfaces:interfaces/interface") s in
  match (let* result := r in
         let* data := value_of result in
         let* interfaces := get_of data "openconfig-interfaces:interface" (PList []) in
         let* l := py_iter interfaces in ethernet_names l) with
  | Ok names => (py_sorted names, s)
  | Raise e => (FALLBACK_PORTS, handle_rpc_error e s)
  end.

(** ** Creating an ACL entry *)
Record acl_args := AclArgs {
  a_table : string; a_type : string; a_priority : Z; a_protocol : option string; a_action : string;
  a_src_ip : string; a_dst_ip : string; a_src_port : Z; a_dest_port : Z (* 0 and the empty text for None *);
  a_description : string; a_interfaces : list string; a_stage : string }.

Definition protocol_map : list (string * option string) := [
  ("tcp", Some "IP_TCP"); ("udp", Some "IP_UDP"); ("icmp", Some "IP_ICMP"); ("any", None)].
Definition protocol_oc (p : option string) : option string :=
  match p with
  | Some p => if nonempty p then default None (dict_get protocol_map (py_lower p)) else None
  | None => None
  end.

Definition acl_action (a : acl_args) : string :=
  let action := py_upper (str_or (a_action a) "DROP") in
  if bool_decide (action ∈ ["DROP"; "ACCEPT"]) then action else "DROP".
Definition capitalize (s : string) : string :=
  match s with String c s' => String (to_upper c) (py_lower s') | EmptyString => "" end.

Definition acl_description (a : acl_args) : string :=
  if nonempty (a_description a) then a_description a else
  py_join " " ([capitalize (acl_action a)] ++
    match a_protocol a with
    | Some p => if nonempty p && bool_decide (py_lower p <> "any") then [py_upper p] else []
    | None => []
    end ++
    (if a_dest_port a =? 0 then [] else [("dport " ++ str_of_Z (a_dest_port a))%string])).

Definition sequence_id (a : acl_args) : Z := Z.max 55536 (a_priority a).

Definition has_ports (a : acl_args) : bool := bool_decide (a_protocol a = Some "tcp" \/ a_protocol a = Some "udp").

Definition opt_field (k : string) (present : bool) (v : pyval) : obj := if present then [(k, v)] else [].

Definition ip_config (a : acl_args) : obj :=
  match protocol_oc (a_protocol a) with Some p => [("protocol", PStr p)] | None => [] end ++
  opt_field "source-address" (nonempty (a_src_ip a)) (PStr (a_src_ip a)) ++
  opt_field "destination-address" (nonempty (a_dst_ip a)) (PStr (a_dst_ip a)).
Definition transport_config (a : acl_args) : obj :=
  opt_field "source-port" (negb (a_src_port a =? 0) && has_ports a) (PInt (a_src_port a)) ++
  opt_field "destination-port" (negb (a_dest_port a =? 0) && has_ports a) (PInt (a_dest_port a)).

Definition acl_entry (a : acl_args) : obj :=
  [("sequence-id", PInt (sequence_id a));
   ("config", PDict [("sequence-id", PInt (sequence_id a)); ("description", PStr (acl_description a))]);
   ("actions", PDict [("config", PDict [("forwarding-action", PStr (acl_action a))])]);
   (if bool_decide (a_type a = "ACL_IPV6") then "ipv6" else "ipv4", PDict [("config", PDict (ip_config a))])] ++
  match transport_config a with [] => [] | t => [("transport", PDict [("config", PDict t)])] end.

Definition oc_type (a : acl_args) : string := ("openconfig-acl:" ++ a_type a)%string.

Definition binding (a : acl_args) (intf : string) : pyval :=
  let ref := PDict [("set-name", PStr (a_table a)); ("type", PStr (oc_type a));
                    ("config", PDict [("set-name", PStr (a_table a)); ("type", PStr (oc_type a))])] in
  PDict [("id", PStr intf); ("config", PDict [("id", PStr intf)]);
         (if bool_decide (py_lower (a_stage a) = "egress")
          then ("egress-acl-sets", PDict [("egress-acl-set", PList [ref])])
          else ("ingress-acl-sets", PDict [("ingress-acl-set", PList [ref])]))].

Definition acl_config (a : acl_args) (interfaces : list string) : pyval :=
  PDict [("openconfig-acl:acl", PDict [
    ("acl-sets", PDict [("acl-set", PList [PDict [
        ("name", PStr (a_table a)); ("type", PStr (oc_type a));
        ("config", PDict [("name", PStr (a_table a)); ("type", PStr (oc_type a));
                          ("description", PStr ("ONAP Policy - " ++ a_table a)%string)]);
        ("acl-entries", PDict [("acl-entry", PList [PDict (acl_entry a)])])]])]);
    ("interfaces", PDict [("interface", PList (map (binding a) interfaces))])])].

Definition opt_str (s : string) : pyval := if nonempty s then PStr s else PNone.
Definition opt_int (z : Z) : pyval := if z =? 0 then PNone else PInt z.
Definition proto_val (a : acl_args) : pyval := match a_protocol a with Some p => PStr p | None => PNone end.

Definition acl_info (a : acl_args) (s : client_state) : obj :=
  where_ s ++ [("table_name", PStr (a_table a)); ("acl_type", PStr (a_type a)); ("sequence_id", PInt (sequence_id a))].

(** The interfaces to bind: those given, else those the switch has. *)
Definition bound_interfaces (a : acl_args) (s : client_state) : list string * client_state :=
  match a_interfaces a with
  | [] => let '(l, s) := get_available_interfaces s in (match l with [] => ["Ethernet0"] | _ => l end, s)
  | l => (l, s)
  end.

(** The text of a protocol that is [None] cannot be printed after the request: the
    entry is created and the call raises. *)
Definition create_advanced_acl_rule (a : acl_args) (s : client_state) : res bool * client_state :=
  let '(interfaces, s) := bound_interfaces a s in
  let '(ok, s) := ensure_connected s in
  if negb ok then
    (Raise (RuntimeError "Not connected to gNMI server"),
     note_client (client_log "create_acl_rule_not_connected"
       ("Failed to create ACL rule in table '" ++ a_table a ++ "' - not connected")%string "error" None
       (where_ s ++ [("table_name", PStr (a_table a))])) s)
  else
    let s := note_client (client_log "create_acl_rule_request"
               ("Sending gNMI Set request to create ACL rule in table '" ++ a_table a ++ "' on SONiC at " ++ at_host s)%string
               "info" None
               (acl_info a s ++ [("action", PStr (acl_action a)); ("protocol", proto_val a); ("src_ip", opt_str (a_src_ip a));
                  ("dst_ip", opt_str (a_dst_ip a)); ("src_port", opt_int (a_src_port a)); ("dest_port", opt_int (a_dest_port a))])) s in
    let '(r, s) := ask (OcUpdate "openconfig-acl:acl" (acl_config a interfaces)) s in
    match (let* _ := r in match a_protocol a with Some _ => Ok true | None => Raise (AttributeError "upper") end) with
    | Ok b =>
        (Ok b, note_client (client_log "create_acl_rule_success"
           ("Successfully created ACL rule in table '" ++ a_table a ++ "' (seq: " ++ str_of_Z (sequence_id a) ++
            ") on SONiC at " ++ at_host s)%string "info" None
           (acl_info a s ++ [("action", PStr (acl_action a)); ("protocol", proto_val a)])) s)
    | Raise e =>
        (Raise e, note_client (client_log "create_acl_rule_failed"
           ("Failed to create ACL rule in table '" ++ a_table a ++ "' on SONiC at " ++ at_host s ++ ": " ++ exn_str e)%string
           "error" None (acl_info a s ++ [("error", PStr (exn_str e))])) s)
    end.

Definition create_acl_table_with_rule (table acl_type : string) (dest_port priority : Z) (protocol : option string)
    (s : client_state) : res bool * client_state :=
  create_advanced_acl_rule (AclArgs table acl_type priority protocol "DROP" "" "" 0 dest_port "" [] "ingress") s.

(** ** Deleting *)
Definition delete_acl_rule (table : string) (seq : Z) (acl_type : string) (s : client_state) : res bool * client_state :=
  let '(ok, s) := ensure_connected s in
  if negb ok then (Raise (RuntimeError "Not connected to gNMI server"), s) else
  let '(r, s) := ask (OcDelete ("openconfig-acl:acl/acl-sets/acl-set[name=" ++ table ++ "][type=" ++ acl_type ++
                   "]/acl-entries/acl-entry[sequence-id=" ++ str_of_Z seq ++ "]")%string) s in
  (let* _ := r in Ok true, s).

Definition delete_acl_table (table acl_type : string) (s : client_state) : res bool * client_state :=
  let '(ok, s) := ensure_connected s in
  if negb ok then
    (Raise (RuntimeError "Not connected to gNMI server"),
     note_client (client_log "delete_acl_table_not_connected"
       ("Failed to delete ACL table '" ++ table ++ "' - not connected")%string "error" None
       (where_ s ++ [("table_name", PStr table)])) s)
  else
    let t := List.last (split_on ":"%char acl_type) "" in
    let info s := where_ s ++ [("table_name", PStr table); ("acl_type", PStr t)] in
    let s := note_client (client_log "delete_acl_table_request"
               ("Sending gNMI Delete request for ACL table '" ++ table ++ "' (type: " ++ t ++ ") on SONiC at " ++ at_host s)%string
               "info" None (info s)) s in
    let '(r, s) := ask (OcDelete ("openconfig-acl:acl/acl-sets/acl-set[name=" ++ table ++ "][type=openconfig-acl:" ++ t ++ "]")%string) s in
    match r with
    | Ok _ => (Ok true, note_client (client_log "delete_acl_table_success"
                ("Successfully deleted ACL table '" ++ table ++ "' (type: " ++ t ++ ") from SONiC at " ++ at_host s)%string
                "info" None (info s)) s)
    | Raise e => (Raise e, note_client (client_log "delete_acl_table_failed"
                ("Failed to delete ACL table '" ++ table ++ "' from SONiC at " ++ at_host s ++ ": " ++ exn_str e)%string
                "error" None (info s ++ [("error", PStr (exn_str e))])) s)
    end.
End GnmiClient.

(** ** Runs *)
Inductive client_op :=
  | OpConnect | OpClose | OpCapabilities | OpTables | OpRules (table acl_type : string) | OpInterfaces
  | OpCreate (a : acl_args) | OpDeleteRule (table : string) (seq : Z) (acl_type : string)
  | OpDeleteTable (table acl_type : string) | OpMonitor (stop : bool) (stream : stream_end).

Section ClientRuns.
Context (dial : nat -> dial_outcome) (oc : nat -> oc_request -> res pyval) (exn_str : exn -> string).

Definition client_step (s : client_state) (op : client_op) : client_state :=
  match op with
  | OpConnect => (connect dial s).2
  | OpClose => close s
  | OpCapabilities => (get_capabilities dial oc exn_str s).2
  | OpTables => (get_acl_tables dial oc exn_str s).2
  | OpRules t ty => (get_acl_rules dial oc exn_str t ty s).2
  | OpInterfaces => (get_available_interfaces dial oc exn_str s).2
  | OpCreate a => (create_advanced_acl_rule dial oc exn_str a s).2
  | OpDeleteRule t n ty => (delete_acl_rule dial oc t n ty s).2
  | OpDeleteTable t ty => (delete_acl_table dial oc exn_str t ty s).2
  | OpMonitor stop stream => (monitor_round dial stop stream s).1
  end.
Definition client_run (ops : list client_op) (s : client_state) : client_state := foldl client_step s ops.

Definition client0 (host : string) (port : Z) (auto : bool) : client_state :=
  ClientState (SonicClient host port false false auto) [] [] [] 0.

(** The client as the pool sees it. *)
Definition pool_client (s : client_state) : gnmi_client := Client (c_host (cl s)) (c_connected (cl s)).

(** ** Lemmas *)
(** What every operation keeps: who the client is, and that a connected one has a channel. *)
Definition same_client (s s' : client_state) : Prop :=
  c_host (cl s') = c_host (cl s) /\ c_port (cl s') = c_port (cl s) /\ c_auto (cl s') = c_auto (cl s).
Definition client_wf (s : client_state) : Prop := c_connected (cl s) = true -> c_gc (cl s) = true.

(** A predicate that holds of a state whatever happens to it short of a dial and a
    request also holds after them, when dialling and asking keep it. *)
Record stable (P : client_state -> Prop) : Prop := {
  st_flags : forall gc s, P s -> P (set_flags gc false s);
  st_note : forall x s, P s -> P (note_client x s);
  st_lost : forall e s, P s -> P (disconnected e s);
  st_ensure : forall s, P s -> P (ensure_connected dial s).2;
  st_ask : forall r s, P s -> client_is_connected s = true -> P (ask oc r s).2 }.

Lemma ensure_connected_true s : (ensure_connected dial s).1 = true -> client_is_connected (ensure_connected dial s).2 = true.
Proof.
  unfold ensure_connected. destruct (client_is_connected s) eqn:E; [done|]. destruct (c_auto (cl s)); [|done].
  unfold connect, dial_once. by destruct (dial (dials s)).
Qed.

Lemma note_connected x s : client_is_connected (note_client x s) = client_is_connected s.
Proof. done. Qed.

Section Stable.
Context (P : client_state -> Prop) (HP : stable P).

Lemma stable_rpc_error e s : P s -> P (handle_rpc_error exn_str e s).
Proof. intros. unfold handle_rpc_error. case_match; [by apply HP|done]. Qed.

Lemma stable_close s : P s -> P (close s).
Proof. intros. unfold close. case_match; [by apply HP|done]. Qed.

(** The shape all requests share. *)
Ltac request s :=
  let He := fresh in let Ht := fresh in
  pose proof (st_ensure P HP s) as He; pose proof (ensure_connected_true s) as Ht;
  destruct (ensure_connected dial s) as [[] s1]; cbn [fst snd negb] in *;
  [specialize (Ht eq_refl)|try clear Ht].
Ltac finish :=
  repeat first [assumption | apply stable_rpc_error | apply (st_note P HP)
               | match goal with H : P _ -> _ -> P ?s |- P ?s => apply H end]; auto; done.

Lemma stable_interfaces s : P s -> P (get_available_interfaces dial oc exn_str s).2.
Proof.
  intros Hs. unfold get_available_interfaces. request s; [|by auto].
  match goal with |- context [ask oc ?r s1] => pose proof (st_ask P HP r s1) as Ha end.
  destruct (ask oc _ s1) as [r s2]. cbn [snd] in Ha. case_match; cbn [snd]; finish.
Qed.

Lemma stable_create a s : P s -> P (create_advanced_acl_rule dial oc exn_str a s).2.
Proof.
  intros Hs. unfold create_advanced_acl_rule.
  assert (Hb : P (bound_interfaces dial oc exn_str a s).2).
  { unfold bound_interfaces. pose proof (stable_interfaces s Hs) as Hi. destruct (a_interfaces a); [|done].
    by destruct (get_available_interfaces _ _ _ _). }
  destruct (bound_interfaces _ _ _ _ _) as [l s0]. cbn [snd] in Hb. request s0; [|cbn [snd]; finish].
  match goal with |- context [ask oc ?r ?s2] => pose proof (st_ask P HP r s2) as Ha end.
  destruct (ask oc _ _) as [r s2]. cbn [snd] in Ha. case_match; cbn [snd]; finish.
Qed.

Lemma stable_step s op : op <> OpConnect -> (forall stop stream, op <> OpMonitor stop stream) ->
  P s -> P (client_step s op).
Proof.
  intros Hc Hm Hs. destruct op as [| | | |t ty| |a|t n ty|t ty|stop stream]; try done; cbn [client_step].
  - by apply stable_close.
  - unfold get_capabilities. request s; [|by auto].
    pose proof (st_ask P HP OcCapabilities s1) as Ha. destruct (ask oc _ s1) as [[] s2]; cbn [snd] in *; finish.
  - unfold get_acl_tables. request s; [|cbn [snd]; finish].
    match goal with |- context [ask oc ?r ?s2] => pose proof (st_ask P HP r s2) as Ha end.
    destruct (ask oc _ _) as [[v|e] s2]; cbn [snd] in *; [case_match; cbn [snd]|]; finish.
  - unfold get_acl_rules. request s; [|by auto].
    match goal with |- context [ask oc ?r ?s2] => pose proof (st_ask P HP r s2) as Ha end.
    destruct (ask oc _ _) as [r s2]; cbn [snd] in *. case_match; cbn [snd]; finish.
  - by apply stable_interfaces.
  - by apply stable_create.
  - unfold delete_acl_rule. request s; [|by auto].
    match goal with |- context [ask oc ?r ?s2] => pose proof (st_ask P HP r s2) as Ha end.
    destruct (ask oc _ _) as [r s2]; cbn [snd] in *. finish.
  - unfold delete_acl_table. request s; [|cbn [snd]; finish].
    match goal with |- context [ask oc ?r ?s2] => pose proof (st_ask P HP r s2) as Ha end.
    destruct (ask oc _ _) as [[v|e] s2]; cbn [snd] in *; finish.
  - by destruct (Hm stop stream).
Qed.
End Stable.

(** *** A connected client has a channel *)
Lemma connect_wf s : client_wf (connect dial s).2 /\ same_client s (connect dial s).2 /\
  c_connected (cl (connect dial s).2) = (connect dial s).1.
Proof. unfold connect, dial_once, client_wf, same_client. by destruct (dial (dials s)). Qed.

Lemma wf_stable s0 : stable (fun s => client_wf s /\ same_client s0 s).
Proof.
  constructor; try (intros ? s [Hw Hs]; by split).
  - intros s [Hw Hs]. unfold ensure_connected. destruct (client_is_connected s); [done|].
    destruct (c_auto (cl s)) eqn:Ea; [|done].
    destruct (connect_wf s) as (H1 & (H2 & H3 & H4) & _). split; [done|]. unfold same_client in *. by rewrite H2, H3, H4.
Qed.

Lemma client_run_wf ops : forall s0 s, client_wf s -> same_client s0 s ->
  client_wf (client_run ops s) /\ same_client s0 (client_run ops s).
Proof.
  induction ops as [|op ops IH]; intros s0 s Hw Hs; [done|]. cbn [client_run foldl].
  assert (Hop : client_wf (client_step s op) /\ same_client s0 (client_step s op)).
  { assert (Hconn : client_wf (connect dial s).2 /\ same_client s0 (connect dial s).2).
    { destruct (connect_wf s) as (H1 & (H2 & H3 & H4) & _). split; [done|]. unfold same_client in *. by rewrite H2, H3, H4. }
    destruct op; try (by apply (stable_step _ (wf_stable s0))); [exact Hconn|].
    cbn [client_step]. unfold monitor_round. destruct stop; [done|]. case_match; [by destruct (c_auto (cl s))|].
    destruct stream as [|e []]; [done|done|]. by apply (st_lost _ (wf_stable s0)). }
  destruct Hop. by apply IH.
Qed.
End ClientRuns.

(** ** The entry a Set request writes *)
(** [.../acl-set[name][type]/acl-entry[sequence-id]]: the list keys in the payload. *)
Definition dig (v : pyval) (k : string) : pyval := match v with PDict d => jget d k | _ => PNone end.
Definition first_of (v : pyval) : pyval := match v with PList (x :: _) => x | _ => PNone end.
Definition entry_key (config : pyval) : pyval * pyval * pyval :=
  let set := first_of (dig (dig (dig config "openconfig-acl:acl") "acl-sets") "acl-set") in
  (dig set "name", dig set "type", dig (first_of (dig (dig set "acl-entries") "acl-entry")) "sequence-id").

(** ** Theorems *)
(** whatever operations are called and however requests and dials end, a client is
    connected only when it has a channel, it is still the client of its host, and
    closing and connecting it do to it what the pool's model of a client says. *)
Theorem client_matches_pool dial oc exn_str ops host port auto :
  let s := client_run dial oc exn_str ops (client0 host port auto) in
  client_is_connected s = connected (pool_client s) /\
  pool_client (close s) = Client host false /\
  pool_client (connect dial s).2 = Client host (connect dial s).1.
Proof.
  intros s. destruct (client_run_wf dial oc exn_str ops (client0 host port auto) (client0 host port auto)) as [Hw (Hh & _ & _)];
    [done|done|]. fold s in Hw, Hh. clearbody s. cbn in Hh. unfold client_wf in Hw.
  destruct (connect_wf dial s) as (_ & (Hc & _ & _) & Hk).
  unfold client_is_connected, pool_client, close. split_and!.
  - destruct (c_connected (cl s)); [by rewrite Hw|done].
  - destruct (c_gc (cl s)) eqn:Eg; cbn; rewrite Hh; [done|]. destruct (c_connected (cl s)) eqn:Ec; [specialize (Hw eq_refl); congruence|done].
  - by rewrite Hk, Hc, Hh.
Qed.

(** A client that has lost its connection and does not reconnect by itself sends no request until
    [connect] is called, whatever else is. *)
Theorem disconnected_client_silent dial oc exn_str ops s :
  c_auto (cl s) = false -> c_connected (cl s) = false -> OpConnect ∉ ops ->
  asked (client_run dial oc exn_str ops s) = asked s /\ dials (client_run dial oc exn_str ops s) = dials s.
Proof.
  intros Ha Hc Hops.
  set (P := fun s' => c_auto (cl s') = false /\ c_connected (cl s') = false /\ asked s' = asked s /\ dials s' = dials s).
  assert (HP : stable dial oc P).
  { split; try (intros ? s1 (? & ? & ? & ?); by split_and!).
    - intros s1 (Ha1 & Hc1 & H1 & H2). unfold ensure_connected, client_is_connected. by rewrite Hc1, Ha1.
    - intros r s1 (Ha1 & Hc1 & H1 & H2). unfold client_is_connected. by rewrite Hc1. }
  assert (Hrun : forall s1, P s1 -> P (client_run dial oc exn_str ops s1)).
  { induction ops as [|op ops IH]; [done|]. rewrite not_elem_of_cons in Hops. destruct Hops as [Hop Hops].
    intros s1 H1. cbn [client_run foldl]. apply IH; [done|].
    destruct op; try (by apply (stable_step _ _ _ _ HP)).
    cbn [client_step]. unfold monitor_round. destruct H1 as (Ha1 & Hc1 & H1). destruct stop; [done|]. by rewrite Hc1, Ha1. }
  destruct (Hrun s) as (_ & _ & ? & ?); [by split_and!|done].
Qed.

(** The monitor notices the loss of a connection and, with automatic
    reconnection, makes one as soon as the server can be reached: when the dials
    succeed after [n] failures, [n + 1] rounds are enough.  Without it a lost
    connection is reported once and the loop ends at the next round. *)
Theorem monitor_live dial s n rounds :
  length rounds = S n -> Forall (fun r => r.1 = false) rounds ->
  client_wf s ->
  (c_auto (cl s) = true -> c_connected (cl s) = false ->
   (forall k, (k < n)%nat -> dial (dials s + k)%nat <> Reached) -> dial (dials s + n)%nat = Reached ->
   let r := monitor_loop dial rounds s in
   r.2 = true /\ client_is_connected r.1 = true /\ dials r.1 = (dials s + S n)%nat) /\
  (forall e stop stream rest, c_auto (cl s) = false -> c_connected (cl s) = true ->
   let r := monitor_loop dial ((false, StreamError e false) :: (stop, stream) :: rest) s in
   r.2 = false /\ client_is_connected r.1 = false /\ disconnects r.1 = disconnects s ++ [e]).
Proof.
  intros Hlen Hstop Hw. split.
  - clear Hw. revert s n Hlen. induction Hstop as [|[stop stream] rounds Hr Hstop IH]; [done|].
    intros s n Hlen Ha Hc Hf Hok. cbn in Hr. subst stop. cbn [monitor_loop]. unfold monitor_round. rewrite Hc, Ha. cbn [negb orb].
    assert (Hd : dials (connect dial s).2 = S (dials s) /\ c_auto (cl (connect dial s).2) = true).
    { unfold connect, dial_once. by destruct (dial (dials s)). }
    destruct Hd as [Hd Ha1]. destruct n as [|n].
    + destruct rounds; [|done]. cbn [monitor_loop fst snd]. rewrite Nat.add_0_r in Hok. split; [done|]. split; [|lia].
      unfold connect, client_is_connected. by rewrite Hok.
    + destruct (IH (connect dial s).2 n) as (H1 & H2 & H3); [by injection Hlen|done| | | |].
      * specialize (Hf 0%nat ltac:(lia)). rewrite Nat.add_0_r in Hf. unfold connect, dial_once. by destruct (dial (dials s)).
      * intros k Hk. rewrite Hd. specialize (Hf (S k) ltac:(lia)). by rewrite Nat.add_succ_r in Hf.
      * rewrite Hd. by rewrite Nat.add_succ_r in Hok.
      * split; [done|]. split; [done|]. lia.
  - intros e stop stream rest Ha Hc. cbn [monitor_loop]. unfold monitor_round. rewrite Hc, (Hw Hc). cbn [negb orb].
    destruct stop; cbn; [done|]. by rewrite Ha.
Qed.

(** Every priority of the documented range, and any other below 55536, gives the
    same sequence id: two rules of one table are written to the same list entry,
    so the second replaces the first whatever their priorities. *)
Theorem priorities_collapse a b l l' :
  a_table a = a_table b -> a_type a = a_type b -> a_priority a <= 55536 -> a_priority b <= 55536 ->
  entry_key (acl_config a l) = entry_key (acl_config b l') /\ sequence_id a = 55536.
Proof.
  intros Ht Hy Ha Hb. unfold entry_key, acl_config, oc_type. cbn. unfold sequence_id. rewrite Ht, Hy.
  rewrite !Z.max_l by done. done.
Qed.

Definition sample_rule (priority : Z) (src : string) : acl_args :=
  AclArgs "T" "ACL_IPV4" priority (Some "tcp") "drop" src "" 0 22 "" ["Ethernet0"] "ingress".
Lemma priorities_collapse_witness :
  entry_key (acl_config (sample_rule 1 "10.0.0.1") ["Ethernet0"]) = entry_key (acl_config (sample_rule 10000 "10.0.0.2") ["Ethernet0"])
  /\ sequence_id (sample_rule 1 "10.0.0.1") = 55536.
Proof. apply (priorities_collapse (sample_rule 1 "10.0.0.1") (sample_rule 10000 "10.0.0.2")); vm_compute; done. Defined.

Definition flaky (n : nat) : dial_outcome := if (n <? 2)%nat then ConnectRaised else Reached.
Lemma monitor_live_witness :
  let s := client0 "192.0.2.1" 9339 true in
  let r := monitor_loop flaky (repeat (false, StreamDone) 3) s in
  (r.2 = true /\ client_is_connected r.1 = true /\ dials r.1 = 3%nat).
Proof.
  apply (monitor_live flaky (client0 "192.0.2.1" 9339 true) 2 (repeat (false, StreamDone) 3)); try reflexivity.
  - repeat constructor.
  - discriminate.
  - intros k Hk. destruct k as [|[|k]]; [vm_compute; discriminate..|lia].
Defined.

Lemma disconnected_client_silent_witness :
  let s := client0 "192.0.2.1" 9339 false in
  let s' := client_run flaky (fun _ _ => Ok PNone) (fun _ => "") [OpTables; OpCreate (sample_rule 1 "10.0.0.1"); OpInterfaces] s in
  asked s' = [] /\ dials s' = 0%nat.
Proof.
  apply (disconnected_client_silent flaky (fun _ _ => Ok PNone) (fun _ => "")
    [OpTables; OpCreate (sample_rule 1 "10.0.0.1"); OpInterfaces] (client0 "192.0.2.1" 9339 false)); [reflexivity|reflexivity|].
  intros Hin. repeat (apply elem_of_cons in Hin as [?|Hin]; [discriminate|]). by apply elem_of_nil in Hin.
Defined.
