(* ===== verification/Adapter.v ===== *)
(** * NETCONF edit-config to gNMI (netconf_gnmi_adapter.py)

    A parsed request is a tree of elements.  The adapter's effects are the gNMI
    requests it sends and the calls of the audit logger, kept in order; the [n]-th
    gNMI request succeeds or raises as the environment decides.  The text of an
    exception and of a set in a message are parameters. *)
From S2P Require Import Prelude PyVal Json RolePolicy TamperLog GnmiPool.
Local Open Scope string_scope.
Local Open Scope Z_scope.
Local Open Scope list_scope.

Definition NS_NOS : string := "urn:3snos:iptables".
Definition NETCONF_OPERATION : string := "{urn:ietf:params:xml:ns:netconf:base:1.0}operation".
Definition VALID_ACTIONS : list string := ["ACCEPT"; "DROP"; "RETURN"].
Definition VALID_PROTOCOLS : list string := ["tcp"; "udp"; "icmp"; "all"].
Definition VALID_SOURCES : list string := ["manual"; "sdnc"; "agent"].

(** ** Elements *)
Inductive xml := Elem (ns local : string) (attrs : list (string * string)) (text : option string) (children : list xml).
Definition x_ns (e : xml) := let '(Elem n _ _ _ _) := e in n.
Definition x_local (e : xml) := let '(Elem _ l _ _ _) := e in l.
Definition x_attrs (e : xml) := let '(Elem _ _ a _ _) := e in a.
Definition x_text (e : xml) := let '(Elem _ _ _ t _) := e in t.

(** [.//*] in document order. *)
Fixpoint descendants (e : xml) : list xml :=
  match e with Elem _ _ _ _ cs => flat_map (fun c => c :: descendants c) cs end.
Definition by_local (name : string) (e : xml) : list xml :=
  filter (fun x => x_local x = name) (descendants e).
Definition attr_or (e : xml) (k d : string) : string := default d (dict_get (x_attrs e) k).

(** [_text] *)
Definition text_of (e : xml) (name : string) : option string :=
  match by_local name e with
  | c :: _ => match x_text c with Some s => if nonempty s then Some (py_strip s) else None | None => None end
  | [] => None
  end.
(** [self._text(e, k) or d] *)
Definition text_or (e : xml) (k d : string) : string := str_or (default "" (text_of e k)) d.
Definition int_text_or (e : xml) (k : string) (d : Z) : res Z :=
  match text_of e k with Some s => if nonempty s then py_int s else Ok d | None => Ok d end.

(** ** Replies *)
Definition nl : string := chr 10.
Fixpoint escape (s : string) : string :=
  match s with
  | EmptyString => ""
  | String c s' =>
      ((if bool_decide (c = "&"%char) then "&amp;" else if bool_decide (c = "<"%char) then "&lt;"
        else if bool_decide (c = ">"%char) then "&gt;" else String c "") ++ escape s')%string
  end.
Definition reply_head (msg_id : string) : string :=
  ("<?xml version=" ++ dq ++ "1.0" ++ dq ++ " encoding=" ++ dq ++ "UTF-8" ++ dq ++ "?>" ++ nl ++
   "<rpc-reply xmlns=" ++ dq ++ "urn:ietf:params:xml:ns:netconf:base:1.0" ++ dq ++ " message-id=" ++ dq ++ msg_id
   ++ dq ++ ">" ++ nl)%string.
Definition ok_reply (msg_id : string) : string :=
  (reply_head msg_id ++ "    <ok/>" ++ nl ++ "</rpc-reply>")%string.
Definition error_reply (msg_id err_type err_tag err_msg : string) : string :=
  (reply_head msg_id ++ "    <rpc-error>" ++ nl ++
   "        <error-type>" ++ err_type ++ "</error-type>" ++ nl ++
   "        <error-tag>" ++ err_tag ++ "</error-tag>" ++ nl ++
   "        " ++ (if nonempty err_msg then "<error-message>" ++ escape err_msg ++ "</error-message>" else "") ++ nl ++
   "    </rpc-error>" ++ nl ++ "</rpc-reply>")%string.

(** ** Effects *)
Inductive gnmi_request :=
  | GnmiUpdate (path : string) (value : obj)
  | GnmiDelete (path : string)
  | GnmiGet (path : string).

Record effects := Effects { requests : list (string * gnmi_request) (* with the leaf's address *); audit : list log_args }.

Definition note (x : log_args) (s : effects) : effects := Effects (requests s) (audit s ++ [x]).

(** What the adapter reads: the pool, the clients' attributes, its own client and
    the context of the thread that serves the session. *)
Record adapter_env := Env {
  nos_pool : option pool; objects : gmap nat gnmi_client; self_client : option nat;
  current_ctx : option SessionContext }.

Definition simple_log (event action details severity : string) : log_args :=
  LogArgs event action details None severity None None PNone PNone PNone None.

Section Adapter.
Context (env : adapter_env) (gnmi : nat -> string -> gnmi_request -> res pyval).
Context (exn_str : exn -> string) (set_text : list string -> string).

Definition current_onap_role : option OnapRole := onap_role <$> current_ctx env.

Definition get_routed_client (role : SonicRole) (src_ip : string) : res (option nat) :=
  match nos_pool env with
  | Some p => get_client_for_zone role (str_or src_ip "0.0.0.0/0") p
  | None => Ok None
  end.

(** The client at an address when it is connected. *)
Definition live_client (id : option nat) : option gnmi_client :=
  match id with
  | Some i => match objects env !! i with Some c => if connected c then Some c else None | None => None end
  | None => None
  end.

Definition identity : obj :=
  match current_ctx env with
  | None => []
  | Some c => [("cn", match client_cn c with Some n => PStr n | None => PNone end); ("ip", PStr (client_addr c).1);
               ("onap_role", PStr (onap_value (onap_role c))); ("sonic_role", PStr (sonic_value (sonic_role c)))]
  end.

(** One request to a leaf. *)
Definition send (h : string) (r : gnmi_request) (s : effects) : res pyval * effects :=
  (gnmi (length (requests s)) h r, Effects (requests s ++ [(h, r)]) (audit s)).

Definition rule_path (rule_id : string) : string := ("/nos-iptables:acl/rule[rule-id=" ++ rule_id ++ "]")%string.

(** The fields that are neither [None] nor the empty text. *)
Definition set_field (kv : string * pyval) : Prop := kv.2 <> PNone /\ kv.2 <> PStr "".
#[export] Instance set_field_dec kv : Decision (set_field kv) := _.
Definition clean (data : obj) : obj := filter set_field (data : list (string * pyval)).

Definition field (data : obj) (k : string) : string :=
  match dict_get data k with Some (PStr s) => s | _ => "" end.

(** [_push_rule]: [None] when the rule was written, or the error reply. *)
Definition push_rule (rule_id : string) (data : obj) (src_ip msg_id : string) (s : effects)
    : res (option string) * effects :=
  match get_routed_client S_ADMIN src_ip with
  | Raise e => (Raise e, s)
  | Ok routed =>
      match live_client (match routed with Some i => Some i | None => self_client env end) with
      | None => (Ok (Some (error_reply msg_id "application" "operation-failed" "No gNMI connection available")), s)
      | Some c =>
          let value := clean data in
          let '(r, s) := send (host c) (GnmiUpdate (rule_path rule_id) value) s in
          match r with
          | Ok _ =>
              (Ok None, note (modification_args "gnmi" "push_acl_rule"
                 ("Pushed rule " ++ rule_id ++ " → bridge@" ++ host c)%string (Some identity) None
                 (PDict value) PNone (PDict value) true "" None) s)
          | Raise e =>
              (Ok (Some (error_reply msg_id "application" "operation-failed" (exn_str e))),
               note (modification_args "gnmi" "push_acl_rule"
                 ("Failed rule " ++ rule_id ++ ": " ++ exn_str e)%string (Some identity) None
                 (PDict value) PNone PNone false (exn_str e) None) s)
          end
      end
  end.

Definition delete_clients : list gnmi_client :=
  let pooled := match nos_pool env with
                | Some p => omap (fun l : string * string => id ← get_client_by_key S_ADMIN l.2 p; objects env !! id) (leaves p)
                | None => []
                end in
  match pooled, live_client (self_client env) with
  | [], Some c => [c]
  | l, _ => l
  end.

(** The loop over the clients: every one is tried, the errors are collected. *)
Fixpoint delete_loop (path : string) (cs : list gnmi_client) (s : effects) : list string * effects :=
  match cs with
  | [] => ([], s)
  | c :: cs' =>
      let '(r, s) := send (host c) (GnmiDelete path) s in
      let '(errs, s) := delete_loop path cs' s in
      (match r with Ok _ => errs | Raise e => (host c ++ ": " ++ exn_str e)%string :: errs end, s)
  end.

Definition delete_rule (rule_id msg_id : string) (s : effects) : option string * effects :=
  match delete_clients with
  | [] => (Some (error_reply msg_id "application" "operation-failed" "No gNMI connection available for delete"), s)
  | cs =>
      let '(errs, s) := delete_loop (rule_path rule_id) cs s in
      (match errs with
       | [] => None
       | _ => Some (error_reply msg_id "application" "operation-failed" (py_join "; " errs))
       end, s)
  end.

Definition invalid (msg_id what v : string) (valid : list string) : string :=
  error_reply msg_id "application" "invalid-value"
    ("Invalid " ++ what ++ " '" ++ v ++ "'. Allowed: " ++ set_text valid)%string.

(** The stamp an AGENT session's rule gets. *)
Definition stamp_agent (rule_id : string) (data : obj) : obj :=
  let data := dict_set data "source" (PStr "agent") in
  if nonempty (field data "comment") then data else dict_set data "comment" (PStr ("agent:" ++ rule_id)%string).

Definition agent_denied (action : string) : string := ("AGENT role may only push DROP rules (got " ++ action ++ ")")%string.

Definition validate_and_push (rule_id : string) (data : obj) (msg_id : string) (s : effects)
    : res (option string) * effects :=
  let action := field data "action" in
  if bool_decide (action ∉ VALID_ACTIONS) then (Ok (Some (invalid msg_id "action" action VALID_ACTIONS)), s)
  else if bool_decide (field data "protocol" ∉ VALID_PROTOCOLS) then
    (Ok (Some (invalid msg_id "protocol" (field data "protocol") VALID_PROTOCOLS)), s)
  else if bool_decide (field data "source" ∉ VALID_SOURCES) then
    (Ok (Some (invalid msg_id "source" (field data "source") VALID_SOURCES)), s)
  else if bool_decide (current_onap_role = Some O_AGENT) then
    if bool_decide (action <> "DROP") then
      (Ok (Some (error_reply msg_id "application" "access-denied" (agent_denied action))),
       note (simple_log "security" "agent_action_blocked" (agent_denied action) "warning") s)
    else let data := stamp_agent rule_id data in push_rule rule_id data (field data "src-ip") msg_id s
  else push_rule rule_id data (field data "src-ip") msg_id s.

(** ** The native format *)
Definition nos_rule_data (e : xml) (rule_id : string) : res obj :=
  let* priority := int_text_or e "priority" 1000 in
  let* ttl := int_text_or e "ttl-seconds" 0 in
  Ok [("rule-id", PStr rule_id);
      ("action", PStr (py_upper (text_or e "action" "DROP")));
      ("src-ip", PStr (text_or e "src-ip" "")); ("dst-ip", PStr (text_or e "dst-ip" ""));
      ("protocol", PStr (py_lower (text_or e "protocol" "all")));
      ("src-port", PStr (text_or e "src-port" "")); ("dst-port", PStr (text_or e "dst-port" ""));
      ("priority", PInt priority);
      ("source", PStr (py_lower (text_or e "source" "sdnc")));
      ("comment", PStr (text_or e "comment" "")); ("ttl-seconds", PInt ttl)].

(** One rule: [None] goes on with the next one, a reply ends the request. *)
Definition nos_rule (e : xml) (msg_id : string) (s : effects) : res (option string) * effects :=
  let operation := attr_or e NETCONF_OPERATION "merge" in
  let rule_id := default "" (text_of e "rule-id") in
  if negb (nonempty rule_id) then
    (Ok (Some (error_reply msg_id "application" "invalid-value" "Missing rule-id")), s)
  else if bool_decide (operation ∈ ["delete"; "remove"]) then
    let '(r, s) := delete_rule rule_id msg_id s in (Ok r, s)
  else
    match nos_rule_data e rule_id with
    | Raise x => (Raise x, s)
    | Ok data => validate_and_push rule_id data msg_id s
    end.

(** The loop both formats share: the first reply or exception ends it. *)
Fixpoint rules_loop (one : xml -> effects -> res (option string) * effects) (es : list xml) (s : effects)
    : res (option string) * effects :=
  match es with
  | [] => (Ok None, s)
  | e :: es' =>
      match one e s with
      | (Ok None, s) => rules_loop one es' s
      | stop => stop
      end
  end.

(** The reply of a loop: [ok] when no rule ended it. *)
Definition or_ok (msg_id : string) (r : res (option string) * effects) : res string * effects :=
  (match r.1 with Ok (Some reply) => Ok reply | Ok None => Ok (ok_reply msg_id) | Raise e => Raise e end, r.2).

Definition handle_nos_acl (acl : xml) (msg_id : string) (s : effects) : res string * effects :=
  or_ok msg_id (rules_loop (fun e => nos_rule e msg_id) (by_local "rule" acl) s).

(** ** The OpenConfig format *)
Definition proto_map : list (string * string) := [
  ("IP_TCP", "tcp"); ("IP_UDP", "udp"); ("IP_ICMP", "icmp"); ("TCP", "tcp"); ("UDP", "udp"); ("ICMP", "icmp");
  ("6", "tcp"); ("17", "udp"); ("1", "icmp")].

Definition oc_rule_data (e : xml) (table seq_id : string) : obj :=
  let raw := py_upper (List.last (split_on ":"%char (text_or e "forwarding-action" "DROP")) "") in
  let action := if bool_decide (raw ∈ VALID_ACTIONS) then raw else "DROP" in
  [("rule-id", PStr (table ++ "-" ++ seq_id)%string); ("action", PStr action);
   ("src-ip", PStr (text_or e "source-address" "")); ("dst-ip", PStr (text_or e "destination-address" ""));
   ("protocol", PStr (default "all" (dict_get proto_map (py_upper (text_or e "protocol" "all")))));
   ("src-port", PStr (text_or e "source-port" "")); ("dst-port", PStr (text_or e "destination-port" ""));
   ("priority", PInt (default 1000 (parse_digits seq_id)));
   ("source", PStr "sdnc"); ("comment", PStr ("oc-acl:" ++ table)%string); ("ttl-seconds", PInt 0)].

Definition oc_rule (table msg_id : string) (e : xml) (s : effects) : res (option string) * effects :=
  let seq_id := text_or e "sequence-id" "1000" in
  validate_and_push (table ++ "-" ++ seq_id)%string (oc_rule_data e table seq_id) msg_id s.

Definition handle_openconfig_acl (config : xml) (msg_id : string) (s : effects) : res string * effects :=
  match by_local "acl-sets" config with
  | [] => (Ok (ok_reply msg_id), s)
  | sets :: _ =>
      match by_local "acl-set" sets with
      | [] => (Ok (ok_reply msg_id), s)
      | acl_set :: _ =>
          let table := match by_local "name" acl_set with
                       | n :: _ => default "None" (x_text n) (* an empty element's text prints as None *)
                       | [] => "unnamed"
                       end in
          if bool_decide (attr_or acl_set NETCONF_OPERATION "merge" = "delete") then
            let '(r, s) := delete_rule table msg_id s in (Ok (default (ok_reply msg_id) r), s)
          else or_ok msg_id (rules_loop (oc_rule table msg_id) (by_local "acl-entry" acl_set) s)
      end
  end.

(** ** The two entry points *)
Definition edit_config_body (rpc : xml) (msg_id : string) (s : effects) : res string * effects :=
  match by_local "config" rpc with
  | [] => (Ok (ok_reply msg_id), s)
  | config :: _ =>
      match filter (fun x => x_ns x = NS_NOS) (by_local "acl" config) with
      | acl :: _ => handle_nos_acl acl msg_id s
      | [] =>
          match by_local "acl-sets" config with
          | _ :: _ => handle_openconfig_acl config msg_id s
          | [] => (Ok (ok_reply msg_id), s)
          end
      end
  end.

Definition handle_edit_config (rpc : xml) (s : effects) : string * effects :=
  let msg_id := attr_or rpc "message-id" "1" in
  match edit_config_body rpc msg_id s with
  | (Ok reply, s) => (reply, s)
  | (Raise e, s) => (error_reply msg_id "application" "operation-failed" (exn_str e), s)
  end.

Context (dumps_indent : pyval -> string) (* [json.dumps(v, indent=2)] *).

Definition handle_get_config (s : effects) : string * effects :=
  let s := note (simple_log "gnmi" "get_acl_rules" "Reading /nos-iptables:acl/rule via bridge" "info") s in
  match live_client (self_client env) with
  | None => ("    <data/>", s)
  | Some c =>
      let '(r, s) := send (host c) (GnmiGet "/nos-iptables:acl/rule") s in
      (match r with
       | Ok v => ("    <data><acl xmlns=" ++ dq ++ NS_NOS ++ dq ++ "><raw>" ++
                  escape (if truthy v then dumps_indent v else "{}") ++ "</raw></acl></data>")%string
       | Raise _ => "    <data/>"
       end, s)
  end.
End Adapter.

(** ** Lemmas *)
(** What every request the adapter sends for an edit satisfies.  The role of the session
    restricts only the writes of the AGENT role; every role may delete rules, and an OPERATOR
    writes like an ADMIN ([operator_edits_as_admin] below), as the code has it. *)
Definition rule_sound_for (role : option OnapRole) (r : string * gnmi_request) : Prop :=
  match r.2 with
  | GnmiUpdate path v =>
      path = rule_path (field v "rule-id") /\
      field v "action" ∈ VALID_ACTIONS /\ field v "protocol" ∈ VALID_PROTOCOLS /\ field v "source" ∈ VALID_SOURCES /\
      (forall k x, (k, x) ∈ v -> x <> PNone /\ x <> PStr "") /\
      (role = Some O_AGENT ->
         field v "action" = "DROP" /\ field v "source" = "agent" /\ nonempty (field v "comment") = true)
  | GnmiDelete path => exists rule_id, path = rule_path rule_id
  | GnmiGet _ => False
  end.
Definition rule_sound (env : adapter_env) : string * gnmi_request -> Prop := rule_sound_for (current_onap_role env).

(** The effects [s'] extend [s] by sound requests. *)
Definition extends (env : adapter_env) (s s' : effects) : Prop :=
  exists new, requests s' = requests s ++ new /\ Forall (rule_sound env) new.

Lemma extends_refl env s : extends env s s.
Proof. exists []. by rewrite app_nil_r. Qed.
Lemma extends_trans env s1 s2 s3 : extends env s1 s2 -> extends env s2 s3 -> extends env s1 s3.
Proof.
  intros (n1 & H1 & F1) (n2 & H2 & F2). exists (n1 ++ n2). rewrite H2, H1, app_assoc. split; [done|by apply Forall_app].
Qed.
Lemma extends_send env h r s : rule_sound env (h, r) -> extends env s (Effects (requests s ++ [(h, r)]) (audit s)).
Proof. intros Hr. exists [(h, r)]. split; [done|]. by repeat constructor. Qed.

#[export] Hint Resolve extends_refl extends_trans : cplane.

(** Cleaning keeps the texts that are not empty. *)
Lemma dict_get_filter {V} (P : string * V -> Prop) `{forall x, Decision (P x)} (d : list (string * V)) k v :
  NoDup d.*1 -> dict_get (filter P d) k = Some v <-> dict_get d k = Some v /\ P (k, v).
Proof.
  intros Hnd. induction d as [|[k' v'] d IH]; [cbn; split; [done|by intros []]|].
  rewrite fmap_cons in Hnd. apply NoDup_cons in Hnd as [Hk Hnd]. specialize (IH Hnd). rewrite filter_cons.
  assert (Hnone : dict_get d k' = None) by (by apply dict_get_None).
  destruct (decide (P (k', v'))) as [HP|HP]; cbn [dict_get].
  - case_decide; [|done]. subst. split; [intros; simplify_eq; auto|intros [? ?]; done].
  - case_decide; [|done]. subst. rewrite IH, Hnone. split; [by intros [? ?]|]. intros [? ?]. by simplify_eq.
Qed.

Lemma field_clean data k : NoDup data.*1 -> field (clean data) k = field data k.
Proof.
  intros Hnd. unfold field, clean.
  destruct (dict_get (filter set_field (data : list (string * pyval))) k) as [v|] eqn:E.
  - apply (dict_get_filter _ _ _ _ Hnd) in E as [E _]. by rewrite E.
  - destruct (dict_get data k) as [v|] eqn:Ed; [|done]. destruct v as [| | | |s| |]; try done.
    destruct s as [|c s]; [done|]. exfalso.
    assert (Hs : dict_get (filter set_field (data : list (string * pyval))) k = Some (PStr (String c s))).
    { by apply (dict_get_filter _ _ _ _ Hnd). }
    congruence.
Qed.

Lemma field_set data k v k' : field (dict_set data k (PStr v)) k' = if decide (k = k') then v else field data k'.
Proof. unfold field. rewrite dict_get_set. by case_decide. Qed.

Lemma stamp_agent_fields rule_id data :
  field (stamp_agent rule_id data) "source" = "agent" /\
  nonempty (field (stamp_agent rule_id data) "comment") = true /\
  forall k, k <> "source" -> k <> "comment" -> field (stamp_agent rule_id data) k = field data k.
Proof.
  unfold stamp_agent. rewrite (field_set data "source" _ "comment"), decide_False by done.
  destruct (nonempty (field data "comment")) eqn:E.
  - rewrite !field_set. split; [by rewrite decide_True|split; [by rewrite decide_False|]].
    intros k Hs Hc. by rewrite field_set, decide_False.
  - rewrite !field_set. split; [by rewrite decide_False, decide_True|split; [by rewrite decide_True|]].
    intros k Hs Hc. by rewrite !field_set, !decide_False.
Qed.

Lemma stamp_agent_NoDup rule_id data : NoDup data.*1 -> NoDup (stamp_agent rule_id data).*1.
Proof. intros H. unfold stamp_agent. case_match; repeat apply dict_set_NoDup; done. Qed.

(** Every reply to an edit starts with the head that carries the message id. *)
Section Replies.
Context (env : adapter_env) (gnmi : nat -> string -> gnmi_request -> res pyval).
Context (exn_str : exn -> string) (set_text : list string -> string) (msg : string).

Definition has_head (reply : string) : Prop := exists body, reply = (reply_head msg ++ body)%string.
Definition headed (r : res (option string)) : Prop :=
  match r with Ok (Some reply) => has_head reply | _ => True end.

Lemma ok_reply_head : has_head (ok_reply msg).
Proof. by eexists. Qed.
Lemma error_reply_head t tag m : has_head (error_reply msg t tag m).
Proof. by eexists. Qed.
#[local] Hint Resolve ok_reply_head error_reply_head : core.

Lemma push_rule_head id data src s : headed (push_rule env gnmi exn_str id data src msg s).1.
Proof. unfold push_rule. repeat (case_match; cbn [fst send headed] in *; simplify_eq; auto). Qed.

Lemma delete_rule_head id s : headed (Ok (delete_rule env gnmi exn_str id msg s).1).
Proof. unfold delete_rule. repeat (case_match; cbn [fst headed] in *; simplify_eq; auto). Qed.

Lemma validate_and_push_head id data s : headed (validate_and_push env gnmi exn_str set_text id data msg s).1.
Proof.
  unfold validate_and_push, invalid.
  repeat (case_bool_decide; cbn [fst headed]; auto using push_rule_head).
Qed.

Lemma nos_rule_head e s : headed (nos_rule env gnmi exn_str set_text e msg s).1.
Proof.
  unfold nos_rule. case_match; [by cbn; auto|]. case_bool_decide.
  - pose proof (delete_rule_head (default "" (text_of e "rule-id")) s) as Hd. destruct (delete_rule _ _ _ _ _ _). exact Hd.
  - destruct (nos_rule_data _ _); [apply validate_and_push_head|done].
Qed.

Lemma rules_loop_head one es : (forall e s, headed (one e s).1) -> forall s, headed (rules_loop one es s).1.
Proof.
  intros Hone. induction es as [|e es IH]; intros s; [done|]. cbn [rules_loop].
  specialize (Hone e s). destruct (one e s) as [[[r|]|x] s1]; [exact Hone|apply IH|done].
Qed.

Lemma or_ok_head x reply s : headed x.1 -> or_ok msg x = (Ok reply, s) -> has_head reply.
Proof. unfold or_ok. destruct x as [[[r|]|e] s1]; cbn; intros; simplify_eq; auto. Qed.

Lemma edit_config_body_head rpc s reply s' :
  edit_config_body env gnmi exn_str set_text rpc msg s = (Ok reply, s') -> has_head reply.
Proof.
  unfold edit_config_body. case_match; [intros; simplify_eq; auto|]. case_match.
  - case_match; [intros; simplify_eq; auto|]. unfold handle_openconfig_acl.
    case_match; [done|]. case_match; [intros; simplify_eq; auto|]. case_bool_decide.
    + match goal with |- context [delete_rule env gnmi exn_str ?t msg s] => pose proof (delete_rule_head t s) as Hd end.
      destruct (delete_rule _ _ _ _ _ _) as [[r|] s1]; cbn in Hd |- *; intros; simplify_eq; auto.
    + apply or_ok_head, rules_loop_head. intros. apply validate_and_push_head.
  - apply or_ok_head, rules_loop_head. intros. apply nos_rule_head.
Qed.
End Replies.

Lemma edit_config_head env gnmi exn_str set_text rpc s :
  has_head (attr_or rpc "message-id" "1") (handle_edit_config env gnmi exn_str set_text rpc s).1.
Proof.
  unfold handle_edit_config. destruct (edit_config_body _ _ _ _ _ _ _) as [[r|e] s'] eqn:E.
  - by apply edit_config_body_head in E.
  - apply error_reply_head.
Qed.

Section Soundness.
Context (env : adapter_env) (gnmi : nat -> string -> gnmi_request -> res pyval).
Context (exn_str : exn -> string) (set_text : list string -> string).

Lemma note_extends x s s' : extends env s s' -> extends env s (note x s').
Proof. done. Qed.

Lemma push_rule_extends rule_id data src msg s : NoDup data.*1 -> field data "rule-id" = rule_id ->
  field data "action" ∈ VALID_ACTIONS -> field data "protocol" ∈ VALID_PROTOCOLS ->
  field data "source" ∈ VALID_SOURCES ->
  (current_onap_role env = Some O_AGENT ->
     field data "action" = "DROP" /\ field data "source" = "agent" /\ nonempty (field data "comment") = true) ->
  extends env s (push_rule env gnmi exn_str rule_id data src msg s).2.
Proof.
  intros Hnd Hid Ha Hp Hs Hag. unfold push_rule.
  destruct (get_routed_client env S_ADMIN src) as [routed|e]; [|apply extends_refl].
  destruct (live_client env _) as [c|]; [|apply extends_refl]. cbn [send].
  assert (He : extends env s (Effects (requests s ++ [(host c, GnmiUpdate (rule_path rule_id) (clean data))]) (audit s))).
  { apply extends_send. cbn. rewrite !field_clean by done. split; [by rewrite Hid|]. split; [done|].
    split; [done|]. split; [done|]. split; [|done].
    intros k x Hin. unfold clean in Hin. apply list_elem_of_filter in Hin as [Hin _]. exact Hin. }
  destruct (gnmi _ _ _); by apply note_extends.
Qed.

Lemma validate_and_push_extends rule_id data msg s : NoDup data.*1 -> field data "rule-id" = rule_id ->
  extends env s (validate_and_push env gnmi exn_str set_text rule_id data msg s).2.
Proof.
  intros Hnd Hid. unfold validate_and_push.
  case_bool_decide as Ha; [apply extends_refl|]. case_bool_decide as Hp; [apply extends_refl|].
  case_bool_decide as Hs; [apply extends_refl|].
  case_bool_decide as Hr; [|apply push_rule_extends; done].
  case_bool_decide as Hd; [by apply note_extends, extends_refl|].
  destruct (stamp_agent_fields rule_id data) as (Hsrc & Hc & Hf).
  apply push_rule_extends; [by apply stamp_agent_NoDup|by rewrite Hf|by rewrite Hf|by rewrite Hf| |].
  - rewrite Hsrc. unfold VALID_SOURCES. set_solver.
  - intros _. split; [|done]. rewrite Hf by done. by destruct (decide (field data "action" = "DROP")).
Qed.

Lemma delete_loop_extends path cs s : (exists id, path = rule_path id) ->
  extends env s (delete_loop gnmi exn_str path cs s).2.
Proof.
  intros Hp. revert s. induction cs as [|c cs IH]; intros s; cbn; [apply extends_refl|].
  set (s1 := Effects _ (audit s)). specialize (IH s1).
  destruct (delete_loop gnmi exn_str path cs s1) as [errs s2]. cbn in *.
  eapply extends_trans; [by apply (extends_send env (host c) (GnmiDelete path))|done].
Qed.

Lemma delete_rule_extends id msg s : extends env s (delete_rule env gnmi exn_str id msg s).2.
Proof.
  unfold delete_rule. destruct (delete_clients env) as [|c cs]; [apply extends_refl|].
  pose proof (delete_loop_extends (rule_path id) (c :: cs) s) as He.
  destruct (delete_loop _ _ _ _ _). apply He. eauto.
Qed.

Lemma nos_rule_extends e msg s : extends env s (nos_rule env gnmi exn_str set_text e msg s).2.
Proof.
  unfold nos_rule. case_match; [apply extends_refl|]. case_bool_decide.
  - pose proof (delete_rule_extends (default "" (text_of e "rule-id")) msg s) as He.
    by destruct (delete_rule _ _ _ _ _ _).
  - destruct (nos_rule_data e _) as [data|] eqn:E; [|apply extends_refl]. unfold nos_rule_data in E.
    apply rbind_ok in E as (prio & _ & (ttl & _ & E)%rbind_ok). simplify_eq.
    apply validate_and_push_extends; [|done]. cbn. repeat (constructor; [set_solver|]). constructor.
Qed.

Lemma oc_rule_extends table msg e s : extends env s (oc_rule env gnmi exn_str set_text table msg e s).2.
Proof.
  unfold oc_rule. apply validate_and_push_extends; [|done].
  unfold oc_rule_data. cbn. repeat (constructor; [set_solver|]). constructor.
Qed.

Lemma rules_loop_extends one es : (forall e s, extends env s (one e s).2) -> forall s, extends env s (rules_loop one es s).2.
Proof.
  intros Hone. induction es as [|e es IH]; intros s; cbn; [apply extends_refl|].
  specialize (Hone e s). destruct (one e s) as [[[r|]|x] s1]; [done| |done].
  eapply extends_trans; [exact Hone|apply IH].
Qed.

Lemma edit_config_extends rpc s : extends env s (handle_edit_config env gnmi exn_str set_text rpc s).2.
Proof.
  unfold handle_edit_config.
  assert (He : extends env s (edit_config_body env gnmi exn_str set_text rpc (attr_or rpc "message-id" "1") s).2).
  { unfold edit_config_body, handle_nos_acl, handle_openconfig_acl. set (m := attr_or rpc "message-id" "1").
    destruct (by_local "config" rpc) as [|config ?]; [apply extends_refl|].
    destruct (filter _ _) as [|acl ?].
    - destruct (by_local "acl-sets" config) as [|sets ?]; [apply extends_refl|].
      destruct (by_local "acl-set" sets) as [|set ?]; [apply extends_refl|].
      case_bool_decide.
      + match goal with |- context [delete_rule env gnmi exn_str ?t m s] =>
          pose proof (delete_rule_extends t m s) as He; destruct (delete_rule env gnmi exn_str t m s) end. exact He.
      + apply rules_loop_extends. intros. apply oc_rule_extends.
    - apply rules_loop_extends. intros. apply nos_rule_extends. }
  by destruct (edit_config_body _ _ _ _ _ _ _) as [[r|x] s'].
Qed.
End Soundness.

(** ** The role of a session that is not the agent's *)
Definition with_ctx (c : option SessionContext) (env : adapter_env) : adapter_env :=
  Env (nos_pool env) (objects env) (self_client env) c.

(** The same result and the same requests; the audit may name another user. *)
Definition same_out {A} (x y : A * effects) : Prop := x.1 = y.1 /\ requests x.2 = requests y.2.

Section Roles.
Context (env : adapter_env) (c : option SessionContext) (gnmi : nat -> string -> gnmi_request -> res pyval).
Context (exn_str : exn -> string) (set_text : list string -> string).
Hypothesis (Hr1 : current_onap_role env <> Some O_AGENT).
Hypothesis (Hr2 : current_onap_role (with_ctx c env) <> Some O_AGENT).

Lemma push_rule_same id data src msg s s' : requests s = requests s' ->
  same_out (push_rule env gnmi exn_str id data src msg s) (push_rule (with_ctx c env) gnmi exn_str id data src msg s').
Proof.
  intros Hs. unfold push_rule, send. change (get_routed_client (with_ctx c env)) with (get_routed_client env).
  change (live_client (with_ctx c env)) with (live_client env). change (self_client (with_ctx c env)) with (self_client env).
  destruct (get_routed_client env S_ADMIN src) as [routed|e]; [|done].
  destruct (live_client env _) as [cl|]; [|done]. cbn. rewrite Hs.
  destruct (gnmi _ _ _); split; cbn; congruence.
Qed.

Lemma delete_rule_same id msg s s' : requests s = requests s' ->
  same_out (delete_rule env gnmi exn_str id msg s) (delete_rule (with_ctx c env) gnmi exn_str id msg s').
Proof.
  intros Hs. unfold delete_rule. change (delete_clients (with_ctx c env)) with (delete_clients env).
  destruct (delete_clients env) as [|cl cs]; [done|].
  assert (Hl : forall cs s s', requests s = requests s' ->
    same_out (delete_loop gnmi exn_str (rule_path id) cs s) (delete_loop gnmi exn_str (rule_path id) cs s')).
  { clear s s' Hs. induction cs0 as [|x cs0 IH]; intros s s' Hs; [done|]. cbn. rewrite Hs.
    set (s1 := Effects _ (audit s)). set (s2 := Effects _ (audit s')). destruct (IH s1 s2 eq_refl) as [H1 H2].
    destruct (delete_loop _ _ _ _ s1), (delete_loop _ _ _ _ s2). cbn in *. subst. split; done. }
  destruct (Hl (cl :: cs) s s' Hs) as [H1 H2].
  destruct (delete_loop _ _ _ _ s), (delete_loop _ _ _ _ s'). cbn in *. subst. split; done.
Qed.

Lemma validate_and_push_same id data msg s s' : requests s = requests s' ->
  same_out (validate_and_push env gnmi exn_str set_text id data msg s)
    (validate_and_push (with_ctx c env) gnmi exn_str set_text id data msg s').
Proof.
  intros Hs. unfold validate_and_push. repeat (case_bool_decide; [done|]). by apply push_rule_same.
Qed.

Lemma nos_rule_same e msg s s' : requests s = requests s' ->
  same_out (nos_rule env gnmi exn_str set_text e msg s) (nos_rule (with_ctx c env) gnmi exn_str set_text e msg s').
Proof.
  intros Hs. unfold nos_rule. case_match; [done|]. case_bool_decide.
  - destruct (delete_rule_same (default "" (text_of e "rule-id")) msg s s' Hs) as [H1 H2].
    destruct (delete_rule env _ _ _ _ _), (delete_rule (with_ctx c env) _ _ _ _ _). cbn in *. subst. done.
  - destruct (nos_rule_data e _); [by apply validate_and_push_same|done].
Qed.

Lemma rules_loop_same one one' es :
  (forall e s s', requests s = requests s' -> same_out (one e s) (one' e s')) ->
  forall s s', requests s = requests s' -> same_out (rules_loop one es s) (rules_loop one' es s').
Proof.
  intros Hone. induction es as [|e es IH]; intros s s' Hs; [done|]. cbn.
  destruct (Hone e s s' Hs) as [H1 H2]. destruct (one e s) as [r s1], (one' e s') as [r' s2]. cbn in *. subst r'.
  destruct r as [[r|]|x]; [done| |done]. by apply IH.
Qed.

Lemma or_ok_same msg x y : same_out x y -> same_out (or_ok msg x) (or_ok msg y).
Proof. intros [H1 H2]. unfold or_ok. by rewrite H1. Qed.

Lemma edit_config_same rpc s s' : requests s = requests s' ->
  same_out (handle_edit_config env gnmi exn_str set_text rpc s)
    (handle_edit_config (with_ctx c env) gnmi exn_str set_text rpc s').
Proof.
  intros Hs. unfold handle_edit_config. set (m := attr_or rpc "message-id" "1").
  assert (Hb : same_out (edit_config_body env gnmi exn_str set_text rpc m s)
                 (edit_config_body (with_ctx c env) gnmi exn_str set_text rpc m s')).
  { unfold edit_config_body, handle_nos_acl, handle_openconfig_acl.
    destruct (by_local "config" rpc) as [|config ?]; [done|]. destruct (filter _ _) as [|acl ?].
    - destruct (by_local "acl-sets" config) as [|sets ?]; [done|].
      destruct (by_local "acl-set" sets) as [|set ?]; [done|]. case_bool_decide.
      + match goal with |- context [delete_rule env gnmi exn_str ?t m s] =>
          destruct (delete_rule_same t m s s' Hs) as [H1 H2];
          destruct (delete_rule env gnmi exn_str t m s), (delete_rule (with_ctx c env) gnmi exn_str t m s') end.
        cbn in *. subst. done.
      + apply or_ok_same, rules_loop_same; [|done]. intros. by apply validate_and_push_same.
    - apply or_ok_same, rules_loop_same; [|done]. intros. by apply nos_rule_same. }
  destruct Hb as [H1 H2]. destruct (edit_config_body env _ _ _ _ _ _) as [r s1],
    (edit_config_body (with_ctx c env) _ _ _ _ _ _) as [r' s2]. cbn in *. subst r'. by destruct r.
Qed.
End Roles.

(** ** Properties *)
(** C16: every request an edit-config sends to a leaf is a deletion by rule id or a write of
    a rule with a known action, protocol and source and no empty field, at the
    path of its id; from an AGENT session every write is a DROP, stamped with
    the agent as its source and with a comment. *)
Theorem edit_config_sound env gnmi exn_str set_text rpc s :
  exists new, requests (handle_edit_config env gnmi exn_str set_text rpc s).2 = requests s ++ new /\
    Forall (rule_sound env) new.
Proof. apply edit_config_extends. Qed.

(** The session's role restricts the agent only: an OPERATOR session gets the same replies
    and sends the same writes and deletions as an ADMIN session, whatever the
    request and the leafs' answers. *)
Theorem operator_edits_as_admin env ctx gnmi exn_str set_text rpc s :
  current_onap_role env = Some O_ADMIN -> onap_role ctx = O_OPERATOR ->
  (handle_edit_config env gnmi exn_str set_text rpc s).1 =
    (handle_edit_config (with_ctx (Some ctx) env) gnmi exn_str set_text rpc s).1 /\
  requests (handle_edit_config env gnmi exn_str set_text rpc s).2 =
    requests (handle_edit_config (with_ctx (Some ctx) env) gnmi exn_str set_text rpc s).2.
Proof.
  intros Ha Ho. apply edit_config_same; [by rewrite Ha| |done].
  unfold current_onap_role, with_ctx. cbn. by rewrite Ho.
Qed.

(** A leaf, a session and a request with one rule and one deletion. *)
Definition sample_session (r : OnapRole) : SessionContext := mkSession ("10.0.0.9", 830) r S_OPERATOR [S_OPERATOR] None.
Definition sample_pool : pool :=
  pool_run [("leaf-1", "192.168.122.20")] [Connect_ true true S_ADMIN "192.168.122.20"].
Definition sample_env (r : OnapRole) : adapter_env :=
  Env (Some sample_pool) (heap sample_pool) None (Some (sample_session r)).
Definition leaf_elem (n t : string) : xml := Elem NS_NOS n [] (Some t) [].
Definition sample_rpc : xml :=
  Elem "" "rpc" [("message-id", "7")] None [Elem "" "edit-config" [] None [Elem "" "config" [] None [
    Elem NS_NOS "acl" [] None [
      Elem NS_NOS "rule" [] None [leaf_elem "rule-id" "r1"; leaf_elem "action" "drop"; leaf_elem "src-ip" "10.1.100.10/32"];
      Elem NS_NOS "rule" [(NETCONF_OPERATION, "delete")] None [leaf_elem "rule-id" "r0"]]]]].

Lemma operator_edits_as_admin_witness :
  let run r := handle_edit_config (sample_env r) (fun _ _ _ => Ok PNone) (fun _ => "") (fun _ => "") sample_rpc (Effects [] []) in
  length (requests (run O_ADMIN).2) = 2%nat /\ (run O_ADMIN).1 = ok_reply "7" /\
  requests (run O_ADMIN).2 = requests (run O_OPERATOR).2.
Proof.
  cbv zeta. split; [vm_compute; reflexivity|split; [vm_compute; reflexivity|]].
  apply (operator_edits_as_admin (sample_env O_ADMIN) (sample_session O_OPERATOR)); reflexivity.
Defined.
