(* ===== verification/NetconfFraming.v ===== *)
(** * NETCONF framing (netconf/netconf_session.py: receive_message, send_response)

    A Python [str] is a list of code points here, since the code counts and slices
    them; what [recv] returns is a list of bytes.  [int()] is that of PyVal on
    ASCII text (a decimal digit outside ASCII counts as no digit). *)
From S2P Require Import Prelude PyVal PyText Utf8.
Local Open Scope string_scope.
Local Open Scope Z_scope.
Local Open Scope list_scope.

(** ** Python [str] as code points *)
Definition cps (s : string) : list Z := map (fun c => Z.of_N (code c)) (String.list_ascii_of_string s).

Definition END_CHUNKS : list Z := [10; 35; 35; 10].
Definition EOM : list Z := cps "]]>]]>".

Fixpoint is_prefix (p l : list Z) : bool :=
  match p, l with
  | [], _ => true
  | x :: p', y :: l' => (x =? y) && is_prefix p' l'
  | _ :: _, [] => false
  end.

(** [l.split(sep, 1)] when [sep in l]: the parts around the first occurrence. *)
Fixpoint split_once (sep l : list Z) : option (list Z * list Z) :=
  if is_prefix sep l then Some ([], drop (length sep) l)
  else match l with
       | [] => None
       | x :: l' => match split_once sep l' with Some (a, b) => Some (x :: a, b) | None => None end
       end.

(** [str.isspace] of a code point. *)
Definition space_cp (c : Z) : bool :=
  between 9 13 c || between 28 32 c || between 8192 8202 c ||
  bool_decide (c ∈ [133; 160; 5760; 8232; 8233; 8239; 8287; 12288]).

Fixpoint lstrip_cp (p : Z -> bool) (l : list Z) : list Z :=
  match l with c :: l' => if p c then lstrip_cp p l' else l | [] => [] end.
Definition strip_cp (l : list Z) : list Z := rev (lstrip_cp space_cp (rev (lstrip_cp space_cp l))).

(** A negative index counts from the end; [None] is an IndexError. *)
Definition py_index (l : list Z) (i : Z) : option Z :=
  let n := Z.of_nat (length l) in
  let j := if i <? 0 then i + n else i in
  if (0 <=? j) && (j <? n) then l !! Z.to_nat j else None.

(** The bound of a slice, as an offset in [0 .. len]. *)
Definition slice_bound (n i : Z) : Z := let j := if i <? 0 then i + n else i in Z.max 0 (Z.min n j).
Definition py_slice (l : list Z) (a b : Z) : list Z :=
  let n := Z.of_nat (length l) in
  let i := slice_bound n a in let j := slice_bound n b in
  take (Z.to_nat (j - i)) (drop (Z.to_nat i) l).

(** [l.find(chr(10), pos)] *)
Fixpoint find_from (x : Z) (l : list Z) (at_ : Z) : Z :=
  match l with [] => -1 | y :: l' => if x =? y then at_ else find_from x l' (at_ + 1) end.
Definition py_find (l : list Z) (x pos : Z) : Z :=
  let i := slice_bound (Z.of_nat (length l)) pos in find_from x (drop (Z.to_nat i) l) i.

Definition int_cp (l : list Z) : res Z :=
  if forallb (fun c => between 0 127 c) l
  then py_int (String.string_of_list_ascii (map (fun c => ascii_of_N (Z.to_N c)) l))
  else Raise (ValueError "invalid literal for int() with base 10").

(** ** The decoding of a chunked message *)
Inductive chunk_step :=
  | Advance (pos : Z) (decoded : list (list Z))
  | Break (decoded : list (list Z))
  | Escape (e : exn) (* not caught by the inner [try] *).

(** One iteration of the loop; [pos < len(msg)]. *)
Definition decode_step (msg : list Z) (pos : Z) (decoded : list (list Z)) : chunk_step :=
  match py_index msg pos with
  | None => Escape IndexError
  | Some c =>
      if c =? 35 then
        let newline_pos := py_find msg 10 pos in
        if newline_pos =? -1 then Break decoded else
        match int_cp (py_slice msg (pos + 1) newline_pos) with
        | Raise _ => Break decoded
        | Ok chunk_size =>
            let data_start := newline_pos + 1 in
            let data_end := data_start + chunk_size in
            let decoded := decoded ++ [py_slice msg data_start data_end] in
            if data_end <? Z.of_nat (length msg) then
              match py_index msg data_end with
              | Some d => Advance (if d =? 10 then data_end + 1 else data_end) decoded
              | None => Break decoded
              end
            else Advance data_end decoded
        end
      else Advance (pos + 1) decoded
  end.

(** The loop with fuel; [None] when the fuel runs out. *)
Fixpoint decode_chunks (fuel : nat) (msg : list Z) (pos : Z) (decoded : list (list Z)) : option (res (list (list Z))) :=
  match fuel with
  | O => None
  | S fuel' =>
      if pos <? Z.of_nat (length msg) then
        match decode_step msg pos decoded with
        | Advance pos' decoded' => decode_chunks fuel' msg pos' decoded'
        | Break decoded' => Some (Ok decoded')
        | Escape e => Some (Raise e)
        end
      else Some (Ok decoded)
  end.

(** ** Receiving *)
Inductive recv_event := Data (bytes : list Z) | Eof | Timeout_ | Failure.

Record receiver := Rx { buffer : list Z; use_chunked : bool; hello_complete : bool }.

(** What [receive_message] comes to: a message, the connection closed, still
    waiting in [recv], or a decoding loop that does not end within the fuel. *)
Inductive received := Message (m : list Z) | Closed | Waiting | Looping.

(** The framed part after a piece of data, when the buffer holds a whole message. *)
Definition take_message (fuel : nat) (r : receiver) : option (received * receiver) :=
  let with_buffer b := Rx b (use_chunked r) (hello_complete r) in
  match (if use_chunked r && hello_complete r then split_once END_CHUNKS (buffer r) else None) with
  | Some (msg, rest) =>
      match decode_chunks fuel (lstrip_cp (Z.eqb 10) msg) 0 [] with
      | Some (Ok decoded) => Some (Message (strip_cp (concat decoded)), with_buffer rest)
      | Some (Raise _) => Some (Closed, with_buffer rest)
      | None => Some (Looping, with_buffer rest)
      end
  | None =>
      match split_once EOM (buffer r) with
      | Some (msg, rest) => Some (Message (strip_cp msg), with_buffer rest)
      | None => None
      end
  end.

Fixpoint receive_message (fuel : nat) (es : list recv_event) (r : receiver)
    : received * list recv_event * receiver :=
  match es with
  | [] => (Waiting, [], r)
  | Eof :: es' | Failure :: es' => (Closed, es', r)
  | Timeout_ :: es' => receive_message fuel es' r
  | Data bytes :: es' =>
      let r := Rx (buffer r ++ utf8_decode bytes) (use_chunked r) (hello_complete r) in
      match take_message fuel r with
      | Some (out, r) => (out, es', r)
      | None => receive_message fuel es' r
      end
  end.

(** ** Sending *)
Definition chunk_header (response : list Z) : list Z :=
  [10; 35] ++ cps (str_of_Z (Z.of_nat (length (utf8_encode response)))) ++ [10].

(** The bytes of a response. *)
Definition send_response (chunked : bool) (response : list Z) : list Z :=
  if chunked then utf8_encode (chunk_header response ++ response ++ END_CHUNKS)
  else utf8_encode (response ++ [10] ++ EOM).

Example roundtrip_1 :
  receive_message 100 [Data (send_response true (cps "<ok/>"))] (Rx [] true true) =
  (Message (cps "<ok/>"), [], Rx [] true true).
Proof. vm_compute. reflexivity. Qed.
Example two_chunks :
  receive_message 100 [Data (cps "
#2
<o
#3
k/>
##
")] (Rx [] true true) = (Message (cps "<ok/>"), [], Rx [] true true).
Proof. vm_compute. reflexivity. Qed.

(** ** Lemmas: splitting *)
Lemma is_prefix_spec p l : is_prefix p l = true <-> exists r, l = p ++ r.
Proof.
  revert l. induction p as [|x p IH]; intros l; cbn; [split; [by exists l|done]|].
  destruct l as [|y l]; [split; [done|by intros []]|].
  rewrite andb_true_iff, Z.eqb_eq, IH. split.
  - intros [-> [r ->]]. by exists r.
  - intros [r Hr]. simplify_eq. eauto.
Qed.

Lemma is_prefix_drop p l : is_prefix p l = true -> l = p ++ drop (length p) l.
Proof. intros [r ->]%is_prefix_spec. by rewrite drop_app_length. Qed.

Lemma split_once_spec sep l : match split_once sep l with
  | Some (a, b) => l = a ++ sep ++ b
  | None => forall a b, l <> a ++ sep ++ b
  end.
Proof.
  induction l as [|x l IH]; cbn [split_once].
  - destruct (is_prefix sep []) eqn:E.
    + by apply is_prefix_drop in E.
    + intros a b H. destruct a; [|done]. assert (is_prefix sep [] = true) by (apply is_prefix_spec; by exists b). congruence.
  - destruct (is_prefix sep (x :: l)) eqn:E.
    + by apply is_prefix_drop in E.
    + destruct (split_once sep l) as [[a b]|]; [by rewrite IH|].
      intros a b H. destruct a as [|y a]; [|cbn in H; simplify_eq; by eapply IH].
      assert (is_prefix sep (x :: l) = true) by (apply is_prefix_spec; by exists b). congruence.
Qed.

Lemma split_once_none sep l : (forall a b, l <> a ++ sep ++ b) -> split_once sep l = None.
Proof.
  intros H. pose proof (split_once_spec sep l) as Hs. destruct (split_once sep l) as [[a b]|]; [by apply H in Hs|done].
Qed.

(** When the separator occurs at the end only, it splits there. *)
Lemma split_once_end sep pre : (forall a b, pre ++ sep = a ++ sep ++ b -> b = []) ->
  split_once sep (pre ++ sep) = Some (pre, []).
Proof.
  intros H. pose proof (split_once_spec sep (pre ++ sep)) as Hs.
  destruct (split_once sep (pre ++ sep)) as [[a b]|].
  - pose proof (H a b Hs) as ->. rewrite app_nil_r in Hs. apply app_inv_tail in Hs. by subst.
  - exfalso. apply (Hs pre []). by rewrite app_nil_r.
Qed.

Lemma is_prefix_app p l r : (length p <= length l)%nat -> is_prefix p (l ++ r) = is_prefix p l.
Proof.
  revert l. induction p as [|x p IH]; intros [|y l] Hl; cbn in *; try done; [lia|]. by rewrite IH by lia.
Qed.

(** What follows the first occurrence does not change it. *)
Lemma split_once_app sep l r a b : split_once sep l = Some (a, b) -> split_once sep (l ++ r) = Some (a, b ++ r).
Proof.
  revert a b. induction l as [|x l IH]; intros a b Hs.
  - cbn in Hs. destruct sep as [|y sep]; cbn in Hs; [|done]. simplify_eq. by destruct r.
  - assert (Hlen : (length sep <= length (x :: l))%nat).
    { pose proof (split_once_spec sep (x :: l)) as Hsp. rewrite Hs in Hsp. rewrite Hsp, !length_app. lia. }
    cbn [split_once app] in *. change (x :: l ++ r) with ((x :: l) ++ r).
    rewrite (is_prefix_app sep (x :: l)) by done.
    destruct (is_prefix sep (x :: l)) eqn:Ep.
    + simplify_eq. f_equal. f_equal. by rewrite drop_app_le.
    + destruct (split_once sep l) as [[a' b']|] eqn:E; [|done]. simplify_eq. by rewrite (IH a' b eq_refl).
Qed.

(** A proper prefix of such a text does not hold the separator. *)
Lemma no_sep_in_prefix (sep full b c : list Z) : (forall x y, full = x ++ sep ++ y -> y = []) ->
  full = b ++ c -> c <> [] -> forall x y, b <> x ++ sep ++ y.
Proof.
  intros H Hf Hc x y ->. rewrite <- !app_assoc in Hf. apply H in Hf. by destruct y.
Qed.

(** ** Lemmas: the decoding loop *)
Lemma find_from_range x l : forall at_, 0 <= at_ -> find_from x l at_ = -1 \/ at_ <= find_from x l at_ < at_ + Z.of_nat (length l).
Proof.
  induction l as [|y l IH]; intros at_ Ha; cbn [find_from length]; [auto|]. destruct (x =? y); [lia|].
  destruct (IH (at_ + 1)) as [?|?]; [lia|auto|right; lia].
Qed.

Lemma py_find_range l x pos : 0 <= pos <= Z.of_nat (length l) ->
  py_find l x pos = -1 \/ pos <= py_find l x pos < Z.of_nat (length l).
Proof.
  intros Hp. unfold py_find, slice_bound. destruct (Z.ltb_spec pos 0); [lia|].
  replace (Z.max 0 (Z.min (Z.of_nat (length l)) pos)) with pos by lia.
  destruct (find_from_range x (drop (Z.to_nat pos) l) pos) as [?|Hr]; [lia|auto|].
  rewrite length_drop in Hr. right. lia.
Qed.

(** No text after a [#] that reads as the size of a chunk is negative. *)
Definition size_text_at (msg : list Z) (pos : Z) : list Z := py_slice msg (pos + 1) (py_find msg 10 pos).
Definition size_ok (msg : list Z) (pos : nat) : bool :=
  match msg !! pos with
  | Some 35 => match int_cp (size_text_at msg (Z.of_nat pos)) with Ok size => (py_find msg 10 (Z.of_nat pos) =? -1) || (0 <=? size) | Raise _ => true end
  | _ => true
  end.
Definition sizes_ok (msg : list Z) : bool := forallb (size_ok msg) (seq 0 (length msg)).
Lemma sizes_ok_at msg pos size : sizes_ok msg = true -> 0 <= pos < Z.of_nat (length msg) -> msg !! Z.to_nat pos = Some 35 ->
  py_find msg 10 pos <> -1 -> int_cp (size_text_at msg pos) = Ok size -> 0 <= size.
Proof.
  unfold sizes_ok. rewrite forallb_forall. intros Hs Hp Hc Hn Hi. specialize (Hs (Z.to_nat pos) ltac:(apply in_seq; lia)).
  unfold size_ok in Hs. rewrite Hc, Z2Nat.id, Hi in Hs by lia.
  rewrite (proj2 (Z.eqb_neq _ _) Hn) in Hs. by apply Z.leb_le.
Qed.

Lemma decode_step_advances msg pos d : sizes_ok msg = true -> 0 <= pos < Z.of_nat (length msg) ->
  match decode_step msg pos d with
  | Advance pos' _ => pos < pos'
  | Break _ => True
  | Escape _ => False
  end.
Proof.
  intros Hm Hp. unfold decode_step, py_index at 1.
  destruct (Z.ltb_spec pos 0); [lia|]. destruct (Z.leb_spec 0 pos); [|lia].
  destruct (Z.ltb_spec pos (Z.of_nat (length msg))); [|lia]. cbn [andb].
  destruct (lookup_lt_is_Some_2 msg (Z.to_nat pos)) as [c Hc]; [lia|]. rewrite Hc.
  destruct (Z.eqb_spec c 35) as [->|]; [|lia]. destruct (py_find_range msg 10 pos) as [->|Hf]; [lia|done|].
  destruct (Z.eqb_spec (py_find msg 10 pos) (-1)); [done|].
  destruct (int_cp (py_slice msg (pos + 1) (py_find msg 10 pos))) as [size|] eqn:Ei; [|done].
  apply (sizes_ok_at msg pos size Hm Hp Hc) in Ei; [|done].
  destruct (_ <? Z.of_nat (length msg)); [|lia]. destruct (py_index msg _) as [e|]; [|done].
  destruct (e =? 10); lia.
Qed.

Lemma decode_chunks_total msg : sizes_ok msg = true -> forall fuel pos d, 0 <= pos ->
  (Z.to_nat (Z.of_nat (length msg) - pos) < fuel)%nat -> exists r, decode_chunks fuel msg pos d = Some (Ok r).
Proof.
  intros Hm. induction fuel as [|fuel IH]; intros pos d Hp Hf; [lia|]. cbn.
  destruct (Z.ltb_spec pos (Z.of_nat (length msg))); [|eauto].
  pose proof (decode_step_advances msg pos d Hm ltac:(lia)) as Hs.
  destruct (decode_step msg pos d) as [pos' d'|d'|e]; [|eauto|done]. apply IH; lia.
Qed.

(** ** Lemmas: a response and its decoding *)
Lemma cps_ascii s : str_forallb is_ascii_char s = true -> Forall (fun c => 0 <= c < 128) (cps s).
Proof.
  unfold cps. induction s as [|c s IH]; cbn; [constructor|]. rewrite andb_true_iff. intros [Hc Hs].
  constructor; [|by apply IH]. unfold is_ascii_char in Hc. apply N.ltb_lt in Hc. unfold code in *. lia.
Qed.

Lemma int_cp_cps s : str_forallb is_digit s = true -> int_cp (cps s) = py_int s.
Proof.
  intros Hs. assert (Ha : str_forallb is_ascii_char s = true).
  { eapply str_forallb_impl; [|exact Hs]. intros [[] [] [] [] [] [] [] []]; vm_compute; congruence. }
  unfold int_cp. rewrite (proj2 (forallb_forall _ _)).
  - f_equal. unfold cps. rewrite map_map. rewrite (map_ext _ id), map_id; [apply String.string_of_list_ascii_of_string|].
    intros c. unfold code. by rewrite N2Z.id, ascii_N_embedding.
  - intros c Hc. apply between_spec. pose proof (cps_ascii s Ha) as Hf. rewrite Forall_forall in Hf.
    apply list_elem_of_In, Hf in Hc. lia.
Qed.

Definition size_text (response : list Z) : list Z := cps (str_of_Z (Z.of_nat (length (utf8_encode response)))).

Lemma size_text_digits response : Forall (fun c => 48 <= c <= 57) (size_text response).
Proof.
  unfold size_text. destruct (str_of_nonneg (Z.of_nat (length (utf8_encode response)))) as [Hd _]; [lia|].
  revert Hd. generalize (str_of_Z (Z.of_nat (length (utf8_encode response)))). intros s. unfold cps.
  induction s as [|c s IH]; cbn; [constructor|]. rewrite andb_true_iff. intros [Hc Hs].
  constructor; [|by apply IH]. unfold is_digit in Hc. apply andb_true_iff in Hc as [?%N.leb_le ?%N.leb_le].
  unfold code in *. lia.
Qed.

Lemma find_from_app x l r at_ : Forall (fun c => c <> x) l ->
  find_from x (l ++ x :: r) at_ = at_ + Z.of_nat (length l).
Proof.
  intros Hl. revert at_. induction Hl as [|c l Hc Hl IH]; intros at_; cbn [find_from app length].
  - rewrite Z.eqb_refl. lia.
  - rewrite (proj2 (Z.eqb_neq x c)) by congruence. rewrite IH. lia.
Qed.

Lemma encode_length l : Forall (fun c => scalar c = true) l -> (length l <= length (utf8_encode l))%nat.
Proof.
  induction 1 as [|c l Hc Hl IH]; [done|]. unfold utf8_encode in *. cbn [flat_map]. rewrite length_app. cbn [length].
  assert (1 <= length (encode1 c))%nat; [|lia]. unfold encode1. repeat case_match; cbn; lia.
Qed.

Lemma py_slice_mid {l} (a m r : list Z) i j : l = a ++ m ++ r -> i = Z.of_nat (length a) ->
  j = i + Z.of_nat (length m) -> py_slice l i j = m.
Proof.
  intros -> -> ->. unfold py_slice, slice_bound.
  destruct (Z.ltb_spec (Z.of_nat (length a)) 0); [lia|].
  destruct (Z.ltb_spec (Z.of_nat (length a) + Z.of_nat (length m)) 0); [lia|].
  rewrite !length_app.
  replace (Z.to_nat (Z.max 0 (Z.min (Z.of_nat (length a + (length m + length r))) (Z.of_nat (length a)))))
    with (length a) by lia.
  rewrite drop_app_length. rewrite take_app_le by lia. rewrite take_ge by lia. done.
Qed.

Lemma py_slice_tail {l} (a m : list Z) i j : l = a ++ m -> i = Z.of_nat (length a) ->
  i + Z.of_nat (length m) <= j -> py_slice l i j = m.
Proof.
  intros -> -> Hj. unfold py_slice, slice_bound.
  destruct (Z.ltb_spec (Z.of_nat (length a)) 0); [lia|]. destruct (Z.ltb_spec j 0); [lia|]. rewrite !length_app.
  replace (Z.to_nat (Z.max 0 (Z.min (Z.of_nat (length a + length m)) (Z.of_nat (length a))))) with (length a) by lia.
  rewrite drop_app_length. apply take_ge. lia.
Qed.

(** One chunk that holds the whole response: the size counts bytes, which are at
    least as many as the characters, and the slice is cut off at the end. *)
Lemma decode_response response fuel : Forall (fun c => scalar c = true) response -> (2 <= fuel)%nat ->
  decode_chunks fuel ([35] ++ size_text response ++ [10] ++ response) 0 [] = Some (Ok [response]).
Proof.
  intros Hr Hf. set (msg := [35] ++ size_text response ++ [10] ++ response).
  set (n := Z.of_nat (length (size_text response))).
  assert (Hlen : Z.of_nat (length msg) = n + 2 + Z.of_nat (length response)).
  { unfold msg. rewrite !length_app. cbn. lia. }
  pose proof (encode_length response Hr) as Henc.
  assert (Hstep : exists p, decode_step msg 0 [] = Advance p [response] /\ Z.of_nat (length msg) <= p).
  { unfold decode_step. change (py_index msg 0) with (Some 35). cbn [Z.eqb Pos.eqb].
    assert (Hfind : py_find msg 10 0 = 1 + n).
    { unfold py_find, slice_bound. cbn [Z.ltb Z.compare]. replace (Z.max 0 (Z.min (Z.of_nat (length msg)) 0)) with 0 by lia.
      change (drop (Z.to_nat 0) msg) with (([35] ++ size_text response) ++ 10 :: response).
      rewrite find_from_app; [rewrite length_app; cbn; lia|]. constructor; [done|].
      eapply Forall_impl; [apply size_text_digits|]. cbn. intros. lia. }
    rewrite Hfind. destruct (Z.eqb_spec (1 + n) (-1)); [lia|].
    rewrite (py_slice_mid [35] (size_text response) ([10] ++ response)) by (first [reflexivity|unfold n; lia]).
    destruct (str_of_nonneg (Z.of_nat (length (utf8_encode response)))) as [Hd _]; [lia|].
    unfold size_text at 1. rewrite int_cp_cps, py_int_str by (done || lia).
    destruct (Z.ltb_spec (1 + n + 1 + Z.of_nat (length (utf8_encode response))) (Z.of_nat (length msg))); [lia|].
    exists (1 + n + 1 + Z.of_nat (length (utf8_encode response))). split; [|lia]. f_equal. cbn [app]. f_equal.
    apply (py_slice_tail ([35] ++ size_text response ++ [10])); [unfold msg; by rewrite <- !app_assoc|
      rewrite !length_app; cbn; lia|lia]. }
  destruct Hstep as (p & Hs & Hp). destruct fuel as [|[|fuel]]; [lia..|]. cbn [decode_chunks].
  rewrite Hs. destruct (Z.ltb_spec 0 (Z.of_nat (length msg))); [|lia].
  destruct (Z.ltb_spec p (Z.of_nat (length msg))); [lia|done].
Qed.

(** The stream of a text cut into pieces between characters, with timeouts. *)
Definition text_event (t : option (list Z)) : recv_event :=
  match t with Some t => Data (utf8_encode t) | None => Timeout_ end.
Definition text_of_stream (ts : list (option (list Z))) : list Z := concat (omap id ts).

(** The whole text a chunked response puts on the wire. *)
Definition wire_text (response : list Z) : list Z := chunk_header response ++ response ++ END_CHUNKS.

Lemma wire_scalar response : Forall (fun c => scalar c = true) response ->
  Forall (fun c => scalar c = true) (wire_text response).
Proof.
  intros Hr. unfold wire_text, chunk_header. repeat (apply Forall_app; split); try done; try (repeat constructor; done).
  eapply Forall_impl; [apply size_text_digits|]. intros c Hc. apply ascii_scalar. cbn in Hc. lia.
Qed.

Lemma decode_wire response fuel : Forall (fun c => scalar c = true) response -> (2 <= fuel)%nat ->
  decode_chunks fuel (lstrip_cp (Z.eqb 10) (chunk_header response ++ response)) 0 [] = Some (Ok [response]).
Proof.
  intros Hr Hf. unfold chunk_header. cbn [app lstrip_cp Z.eqb Pos.eqb].
  change (35 :: (cps (str_of_Z (Z.of_nat (length (utf8_encode response)))) ++ [10]) ++ response)
    with ([35] ++ (size_text response ++ [10]) ++ response).
  rewrite <- (app_assoc (size_text response)). by rewrite decode_response.
Qed.

Lemma receive_pieces response fuel : Forall (fun c => scalar c = true) response -> (2 <= fuel)%nat ->
  (forall a b, wire_text response = a ++ END_CHUNKS ++ b -> b = []) ->
  (forall a b, wire_text response <> a ++ EOM ++ b) ->
  forall ts buf, Forall (fun t => t <> Some []) ts -> buf ++ text_of_stream ts = wire_text response -> 
  text_of_stream ts <> [] ->
  exists n, receive_message fuel (map text_event ts) (Rx buf true true) =
    (Message (strip_cp response), repeat Timeout_ n, Rx [] true true).
Proof.
  intros Hr Hf Hend Heom.
  pose proof (wire_scalar response Hr) as Hwire.
  induction ts as [|[t|] ts IH]; intros buf Hne Hbuf Hrest; [done| |].
  - inversion Hne as [|? ? Ht Hts]; subst. change (text_of_stream (Some t :: ts)) with (t ++ text_of_stream ts) in *.
    cbn [map text_event receive_message buffer use_chunked hello_complete].
    assert (Hsc : Forall (fun c => scalar c = true) t).
    { rewrite <- Hbuf in Hwire. apply Forall_app in Hwire as [_ Hw]. by apply Forall_app in Hw as [Hw _]. }
    rewrite decode_encode by done. rewrite app_assoc in Hbuf.
    destruct (decide (text_of_stream ts = [])) as [Hnil|Hnnil].
    + rewrite Hnil, app_nil_r in Hbuf.
      unfold take_message. cbn [buffer use_chunked hello_complete andb]. rewrite Hbuf.
      unfold wire_text. rewrite app_assoc. rewrite split_once_end.
      2: { intros a b Hab. apply (Hend a b). unfold wire_text. by rewrite app_assoc. }
      rewrite decode_wire by done. cbn [concat].
      rewrite app_nil_r. exists (length ts). f_equal. f_equal.
      clear -Hnil Hts. induction ts as [|[t|] ts IH]; [done| |].
      * inversion Hts; subst. change (text_of_stream (Some t :: ts)) with (t ++ text_of_stream ts) in Hnil.
        apply app_nil in Hnil as [-> _]. done.
      * inversion Hts; subst. cbn. f_equal. by apply IH.
    + assert (Hno : forall x y, buf ++ t <> x ++ END_CHUNKS ++ y) by (by eapply no_sep_in_prefix).
      assert (Hne2 : forall x y, buf ++ t <> x ++ EOM ++ y).
      { intros x y Hx. rewrite Hx in Hbuf. rewrite <- !app_assoc in Hbuf. by apply (Heom x (y ++ text_of_stream ts)). }
      unfold take_message. cbn [buffer use_chunked hello_complete andb].
      rewrite (split_once_none END_CHUNKS), (split_once_none EOM) by done. by apply IH.
  - inversion Hne; subst. cbn [map text_event receive_message]. by apply IH.
Qed.

(** ** Properties *)
(** C17: a chunked response in which neither the end-of-chunks nor the end-of-message mark
    occurs arrives as it was sent, up to surrounding white space, in whatever pieces the
    connection delivers it, cut between characters, and whatever timeouts lie between them;
    the buffer is left empty.  A cut inside of a character loses the character
    ([split_character_lost]). *)
Theorem chunked_roundtrip response ts fuel :
  Forall (fun c => scalar c = true) response -> (2 <= fuel)%nat ->
  (forall a b, wire_text response = a ++ END_CHUNKS ++ b -> b = []) ->
  (forall a b, wire_text response <> a ++ EOM ++ b) ->
  Forall (fun t => t <> Some []) ts -> text_of_stream ts = wire_text response ->
  concat (map (fun e => match e with Data b => b | _ => [] end) (map text_event ts)) = send_response true response /\
  exists n, receive_message fuel (map text_event ts) (Rx [] true true) =
    (Message (strip_cp response), repeat Timeout_ n, Rx [] true true).
Proof.
  intros Hr Hf Hend Heom Hne Hts. split.
  - unfold send_response. fold (wire_text response). rewrite <- Hts. clear. unfold text_of_stream.
    induction ts as [|[t|] ts IH]; cbn; [done| |done].
    unfold utf8_encode in *. rewrite flat_map_app. by rewrite <- IH.
  - apply receive_pieces; try done. rewrite Hts. unfold wire_text, chunk_header. done.
Qed.

(** C40: the decoding of a message always ends, within as many steps as the message has
    characters, and raises nothing, unless it holds a [#] after which the text up to the
    next newline reads as a negative number ([negative_chunk_hangs] is such a message). *)
Theorem decode_terminates msg : sizes_ok msg = true ->
  exists chunks, decode_chunks (S (length msg)) msg 0 [] = Some (Ok chunks).
Proof. intros Hm. apply decode_chunks_total; [done|lia|lia]. Qed.

(** [int()] accepts a negative chunk size, which moves the position back: on this nine-byte
    message the decoding loop never ends, whatever the fuel, so a client's
    session thread spins forever while its list of chunks grows. *)
Theorem negative_chunk_hangs fuel es :
  receive_message fuel (Data (cps "
#-4

##
") :: es) (Rx [] true true) = (Looping, es, Rx [] true true).
Proof.
  cbn [receive_message buffer use_chunked hello_complete app]. unfold take_message.
  cbn [use_chunked hello_complete buffer andb].
  change (split_once END_CHUNKS (utf8_decode (cps "
#-4

##
"))) with (Some (cps "
#-4
", [] : list Z)). cbv iota beta.
  change (lstrip_cp (Z.eqb 10) (cps "
#-4
")) with (cps "#-4
"). assert (Hloop : forall d, decode_chunks fuel (cps "#-4
") 0 d = None).
  { induction fuel as [|f IH]; intros d; [done|]. cbn [decode_chunks].
    change (decode_step (cps "#-4
") 0 d) with (Advance 0 (d ++ [[]])). change (0 <? Z.of_nat (length (cps "#-4
"))) with true. apply IH. }
  by rewrite Hloop.
Qed.

(** A second request that arrives in the same piece as the first is kept in the buffer but
    not looked at: the session waits for more data before it answers it, and
    when the peer has nothing else to send the connection ends without a reply. *)
Theorem pipelined_request_unread r1 r2 fuel :
  Forall (fun c => scalar c = true) r1 -> Forall (fun c => scalar c = true) r2 -> (2 <= fuel)%nat ->
  (forall a b, wire_text r1 = a ++ END_CHUNKS ++ b -> b = []) ->
  receive_message fuel [Data (send_response true r1 ++ send_response true r2); Eof] (Rx [] true true) =
    (Message (strip_cp r1), [Eof], Rx (wire_text r2) true true) /\
  receive_message fuel [] (Rx (wire_text r2) true true) = (Waiting, [], Rx (wire_text r2) true true) /\
  receive_message fuel [Eof] (Rx (wire_text r2) true true) = (Closed, [], Rx (wire_text r2) true true).
Proof.
  intros H1 H2 Hf Hend. split; [|split; reflexivity].
  cbn [receive_message buffer use_chunked hello_complete app]. unfold send_response.
  fold (wire_text r1) (wire_text r2). unfold utf8_encode. rewrite <- flat_map_app. fold utf8_encode.
  change (flat_map encode1 (wire_text r1 ++ wire_text r2)) with (utf8_encode (wire_text r1 ++ wire_text r2)).
  rewrite decode_encode by (apply Forall_app; auto using wire_scalar).
  unfold take_message. cbn [buffer use_chunked hello_complete andb].
  rewrite (split_once_app END_CHUNKS (wire_text r1) (wire_text r2) (chunk_header r1 ++ r1) []).
  2: { unfold wire_text. rewrite app_assoc. apply split_once_end. intros a b Hab. apply (Hend a b).
       unfold wire_text. by rewrite app_assoc. }
  rewrite decode_wire by done. cbn [concat]. by rewrite app_nil_r.
Qed.

(** Deciding where a separator occurs in a given text. *)
Definition occurs_at (sep w : list Z) (k : nat) : bool := is_prefix sep (drop k w).
Definition only_at_end (sep w : list Z) : bool :=
  forallb (fun k => implb (occurs_at sep w k) (k + length sep =? length w)%nat) (seq 0 (S (length w))).
Definition nowhere (sep w : list Z) : bool := forallb (fun k => negb (occurs_at sep w k)) (seq 0 (S (length w))).

Lemma occurs_at_app sep a b : occurs_at sep (a ++ sep ++ b) (length a) = true.
Proof. unfold occurs_at. rewrite drop_app_length. apply is_prefix_spec. eauto. Qed.

Lemma only_at_end_spec sep w : only_at_end sep w = true -> forall a b, w = a ++ sep ++ b -> b = [].
Proof.
  unfold only_at_end. rewrite forallb_forall. intros H a b ->. specialize (H (length a)).
  rewrite occurs_at_app, !length_app in H. cbn [implb] in H. rewrite Nat.eqb_eq in H.
  destruct b; [done|]. specialize (H ltac:(apply in_seq; cbn [length]; lia)). cbn [length] in H. lia.
Qed.

Lemma nowhere_spec sep w : nowhere sep w = true -> forall a b, w <> a ++ sep ++ b.
Proof.
  unfold nowhere. rewrite forallb_forall. intros H a b ->. specialize (H (length a)).
  rewrite occurs_at_app, !length_app in H. specialize (H ltac:(apply in_seq; lia)). done.
Qed.

Definition ok_text : list Z := cps "<ok/>" ++ [233].

Lemma ok_text_scalar : Forall (fun c => scalar c = true) ok_text.
Proof. repeat (constructor; [reflexivity|]). constructor. Qed.

Lemma chunked_roundtrip_witness :
  exists n, receive_message 2 (map text_event [Some (take 3 (wire_text ok_text)); None; Some (drop 3 (wire_text ok_text)); None])
    (Rx [] true true) = (Message ok_text, repeat Timeout_ n, Rx [] true true).
Proof.
  apply (chunked_roundtrip ok_text [Some (take 3 (wire_text ok_text)); None; Some (drop 3 (wire_text ok_text)); None] 2).
  - apply ok_text_scalar.
  - lia.
  - apply only_at_end_spec. vm_compute. reflexivity.
  - apply nowhere_spec. vm_compute. reflexivity.
  - repeat (constructor; [discriminate|]). constructor.
  - vm_compute. reflexivity.
Defined.

(** A request with minus signs in it and a size that the peer got wrong. *)
Definition sample_request : list Z := cps "#20
<rpc message-id='-1'><get-config/></rpc>
#9".
Lemma decode_terminates_witness : exists chunks, decode_chunks (S (length sample_request)) sample_request 0 [] = Some (Ok chunks).
Proof. apply (decode_terminates sample_request). vm_compute. reflexivity. Defined.
(** A character of more than one byte that is cut across two reads is dropped: each read is
    decoded by itself, and incomplete bytes are ignored. *)
Lemma split_character_lost :
  receive_message 100 [Data (take 10 (send_response true ok_text)); Data (drop 10 (send_response true ok_text))] (Rx [] true true) =
  (Message (cps "<ok/>"), [], Rx [] true true).
Proof. vm_compute. reflexivity. Qed.

Lemma pipelined_request_unread_witness :
  receive_message 2 [Data (send_response true ok_text ++ send_response true ok_text); Eof] (Rx [] true true) =
    (Message ok_text, [Eof], Rx (wire_text ok_text) true true).
Proof.
  apply (pipelined_request_unread ok_text ok_text 2 ok_text_scalar ok_text_scalar); [lia|].
  apply only_at_end_spec. vm_compute. reflexivity.
Defined.
