(* ===== verification/RoleApi.v ===== *)
(** * The REST API over roles, rules and logs (sam/role_api.py)

    A request is its method, its path and what [_read_json_body] yields; the
    answer is a status with a JSON value, or the exception that leaves the handler
    and closes the connection.  A handler acts on the policies, the session table,
    the pool, the audit log and the leafs.  The service account of the
    single-client mode is a class outside the repository; app.py passes none.
    The answers of the leafs, the text of an exception and the interfaces of a
    switch ([GnmiClient.get_available_interfaces]) are parameters. *)
From S2P Require Import Prelude PyVal PyText Json IpAddr RolePolicy TamperLog GnmiPool Adapter.
Local Open Scope string_scope.
Local Open Scope Z_scope.
Local Open Scope list_scope.

Inductive method := GET | POST | PUT | DELETE | OPTIONS.
Inductive response := Reply (status : Z) (body : pyval) | Preflight | Dropped (e : exn).

Record api := Api {
  policies : option engine; table : option manager; gnmi_pool : option pool;
  audit_log : option TamperLogger; sent_requests : list (string * gnmi_request) }.

Definition set_policies (e : engine) (s : api) : api := Api (Some e) (table s) (gnmi_pool s) (audit_log s) (sent_requests s).
Definition set_log (l : TamperLogger) (s : api) : api := Api (policies s) (table s) (gnmi_pool s) (Some l) (sent_requests s).

(** [_send_error] *)
Definition send_error (message : string) (status : Z) : response :=
  Reply status (PDict [("error", PStr message); ("success", PBool false)]).
Definition success (fields : obj) : response := Reply 200 (PDict (("success", PBool true) :: fields)).
Definition not_found : response := send_error "Not found" 404.

Definition last_part (path : string) : string := List.last (split_on "/"%char path) "".
Definition count_char (c : ascii) (s : string) : nat := pred (length (split_on c s)).
Definition rule_path_of (path : string) : bool :=
  starts_with "/api/rules/" path && (count_char "/" path =? 3)%nat.

Definition session_to_dict (c : SessionContext) : pyval :=
  PDict [("client_addr", PStr ((client_addr c).1 ++ ":" ++ str_of_Z (client_addr c).2)%string);
         ("client_cn", match client_cn c with Some n => PStr n | None => PNone end);
         ("onap_role", PStr (onap_value (onap_role c))); ("sonic_role", PStr (sonic_value (sonic_role c)));
         ("allowed_sonic_roles", PList (map (fun r => PStr (sonic_value r)) (session_allowed c)))].

(** [ip_to_leaf] of any JSON value: an integer is an address, the text of anything
    else that is no [str] is no network. *)
Definition ip_to_leaf_val (v : pyval) : res (option string) :=
  let of_int z :=
    if (0 <=? z) && (z <? 2 ^ 32) then find_zone (Net IPv4 z None 32) ZONE_NETWORKS
    else if (0 <=? z) && (z <? 2 ^ 128) then find_zone (Net IPv6 z None 128) ZONE_NETWORKS
    else Ok None in
  match v with
  | PStr s => ip_to_leaf s
  | PInt z => of_int z
  | PBool b => of_int (if b then 1 else 0)
  | _ => Ok None
  end.

(** [k in v] on a JSON value *)
Definition has_key (v : pyval) (k : string) : res bool :=
  match v with
  | PDict d => Ok (dict_mem d k)
  | PList l => Ok (bool_decide (PStr k ∈ l))
  | PStr s => Ok (str_contains k s)
  | _ => Raise (TypeError "argument is not iterable")
  end.

Section Api.
Context `{PyRepr} (json_loads : string -> option pyval).
Context (gnmi : nat -> string -> gnmi_request -> res pyval) (exn_str : exn -> string).
Context (interfaces : nat -> list string) (port : Z).
(** What the log entry of a request is given: a fresh id, a time and whether the
    append to the file succeeds. *)
Context (stamp : string * string * bool).

(** One call of the audit logger, when there is one. *)
Definition record_log (x : log_args) (s : api) : api :=
  match audit_log s with
  | Some l => set_log (log x stamp.1.1 stamp.1.2 stamp.2 l).2 s
  | None => s
  end.
Definition ask_leaf (h : string) (r : gnmi_request) (s : api) : res pyval * api :=
  (gnmi (length (sent_requests s)) h r,
   Api (policies s) (table s) (gnmi_pool s) (audit_log s) (sent_requests s ++ [(h, r)])).

(** The address of a client the pool handed out. *)
Definition host_of (p : pool) (id : nat) : string := match heap p !! id with Some c => host c | None => "" end.

(** ** Policies *)
Definition body_required : string :=
  ("Request body required. Example: {" ++ dq ++ "allowed_sonic_roles" ++ dq ++ ": [" ++ dq ++ "admin" ++ dq ++ ", " ++ dq
   ++ "operator" ++ dq ++ "]}")%string.

Definition get_policy_response (path : string) (s : api) : response :=
  match policies s with
  | None => send_error "Policy engine not initialized" 500
  | Some e =>
      let role := py_lower (last_part path) in
      match OnapRole_of (PStr role) with
      | Raise _ => send_error ("Invalid ONAP role: " ++ role ++ ". Valid: admin, operator")%string 400
      | Ok r => match get_policy e r with
                | Some p => match policy_to_dict p with PDict d => success d | _ => success [] end
                | None => send_error ("No policy found for " ++ role)%string 404
                end
      end
  end.

(** The roles of a request body: [inl] is the reply that ends the request. *)
Definition body_allowed (body : pyval) : res (response + option (list SonicRole)) :=
  let* given := has_key body "allowed_sonic_roles" in
  if given : bool then
    match (let* v := index_key body "allowed_sonic_roles" in iter_roles v) with
    | Ok l => Ok (inr (Some l))
    | Raise (ValueError m) =>
        Ok (inl (send_error ("Invalid SONiC role in allowed_sonic_roles: " ++ exn_str (ValueError m))%string 400))
    | Raise e => Raise e
    end
  else Ok (inr None).
Definition body_default (body : pyval) : res (response + option SonicRole) :=
  let* given := has_key body "default_sonic_role" in
  if given : bool then
    let* v := index_key body "default_sonic_role" in
    match SonicRole_of v with
    | Ok r => Ok (inr (Some r))
    | Raise _ => Ok (inl (send_error ("Invalid default_sonic_role: " ++ py_str v)%string 400))
    end
  else Ok (inr None).

Definition post_policy (path : string) (body : option pyval) (s : api) : response * api :=
  match policies s with
  | None => (send_error "Policy engine not initialized" 500, s)
  | Some e =>
      let role := py_lower (last_part path) in
      match OnapRole_of (PStr role) with
      | Raise _ => (send_error ("Invalid ONAP role: " ++ role ++ ". Valid: admin, operator")%string 400, s)
      | Ok r =>
          match body with
          | Some b =>
              if negb (truthy b) then (send_error body_required 400, s) else
              match body_allowed b with
              | Raise x => (Dropped x, s)
              | Ok (inl reply) => (reply, s)
              | Ok (inr allowed) =>
                  match body_default b with
                  | Raise x => (Dropped x, s)
                  | Ok (inl reply) => (reply, s)
                  | Ok (inr def) =>
                      let '(p, e) := update_policy r allowed def e in
                      (success (("message", PStr ("Policy updated for " ++ onap_value r)%string) ::
                                match policy_to_dict p with PDict d => d | _ => [] end), set_policies e s)
                  end
              end
          | None => (send_error body_required 400, s)
          end
      end
  end.

Definition reset_policies (s : api) : response * api :=
  match policies s with
  | None => (send_error "Policy engine not initialized" 500, s)
  | Some e =>
      let e := reset_to_defaults e in
      (success [("message", PStr "Policies reset to defaults"); ("policies", PDict (get_all_policies e))], set_policies e s)
  end.

(** ** Rules *)
Fixpoint get_rules_loop (p : pool) (ls : list (string * string)) (s : api) : obj * api :=
  match ls with
  | [] => ([], s)
  | (name, ip) :: ls' =>
      match get_client_by_key S_ADMIN ip p with
      | None =>
          let '(rest, s) := get_rules_loop p ls' s in
          ((name, PDict [("connected", PBool false); ("rules", PList [])]) :: rest, s)
      | Some id =>
          let '(r, s) := ask_leaf (host_of p id) (GnmiGet "/nos-iptables:acl/rule") s in
          let '(rest, s) := get_rules_loop p ls' s in
          ((name, PDict (match r with
                         | Ok data => [("connected", PBool true); ("rules", data)]
                         | Raise e => [("connected", PBool true); ("error", PStr (exn_str e)); ("rules", PList [])]
                         end)) :: rest, s)
      end
  end.
Definition handle_get_rules (s : api) : response * api :=
  match gnmi_pool s with
  | None => (send_error "gNMI pool not available" 503, s)
  | Some p => let '(results, s) := get_rules_loop p (leaves p) s in (success [("leaves", PDict results)], s)
  end.

Fixpoint get_rule_loop (p : pool) (path : string) (ls : list (string * string)) (s : api) : obj * api :=
  match ls with
  | [] => ([], s)
  | (name, ip) :: ls' =>
      match get_client_by_key S_ADMIN ip p with
      | None => get_rule_loop p path ls' s
      | Some id =>
          let '(r, s) := ask_leaf (host_of p id) (GnmiGet path) s in
          let '(rest, s) := get_rule_loop p path ls' s in
          (match r with Ok data => if truthy data then (name, data) :: rest else rest | Raise _ => rest end, s)
      end
  end.
Definition handle_get_rule (rule_id : string) (s : api) : response * api :=
  match gnmi_pool s with
  | None => (send_error "gNMI pool not available" 503, s)
  | Some p =>
      let '(results, s) := get_rule_loop p (rule_path rule_id) (leaves p) s in
      (match results with
       | [] => send_error ("Rule '" ++ rule_id ++ "' not found")%string 404
       | _ => success [("rule_id", PStr rule_id); ("leaves", PDict results)]
       end, s)
  end.

(** [body.get(k) or body.get(k2) or d] *)
Definition get2 (d : obj) (k k2 : string) (x : pyval) : pyval := por (por (jget d k) (jget d k2)) x.
Definition get1 (d : obj) (k : string) (x : pyval) : pyval := por (jget d k) x.

(** The rule of a request body whose action is accepted. *)
Definition rest_rule (d : obj) (rule_id : pyval) (action : string) : res obj :=
  let* protocol := as_str "lower" (get1 d "protocol" (PStr "all")) in
  let* priority := int_of (get1 d "priority" (PInt 1000)) in
  let* source := as_str "lower" (get1 d "source" (PStr "manual")) in
  let* ttl := int_of (get2 d "ttl_seconds" "ttl-seconds" (PInt 0)) in
  Ok [("rule-id", rule_id); ("action", PStr action);
      ("src-ip", get2 d "src_ip" "src-ip" (PStr "")); ("dst-ip", get2 d "dst_ip" "dst-ip" (PStr ""));
      ("protocol", PStr (py_lower protocol));
      ("src-port", PStr (py_str (get2 d "src_port" "src-port" (PStr ""))));
      ("dst-port", PStr (py_str (get2 d "dst_port" "dst-port" (PStr ""))));
      ("priority", PInt priority); ("source", PStr (py_lower source));
      ("comment", get1 d "comment" (PStr "")); ("ttl-seconds", PInt ttl)].

(** Routing, the write and its record.  There is at most one client. *)
Definition push_rest_rule (p : pool) (rule_id src : pyval) (data : obj) (s : api) : response * api :=
  let clean := clean data in
  match (if truthy src then ip_to_leaf_val src else Ok None) with
  | Raise x => (Dropped x, s)
  | Ok leaf =>
      match (match leaf with Some l => get_client_by_key S_ADMIN l p | None => get_any_client S_ADMIN p end) with
      | None => (send_error "No gNMI connection available" 503, s)
      | Some id =>
          let h := host_of p id in
          let '(r, s) := ask_leaf h (GnmiUpdate (rule_path (py_str rule_id)) clean) s in
          match r with
          | Raise e => (send_error (h ++ ": " ++ exn_str e)%string 500, s)
          | Ok _ =>
              let pushed := PList [PStr h] in
              (Reply 201 (PDict [("success", PBool true); ("rule_id", rule_id); ("pushed_to", pushed);
                                 ("rule", PDict clean); ("errors", PList [])]),
               record_log (modification_args "gnmi" "push_acl_rule"
                 ("REST API pushed rule " ++ py_str rule_id ++ " → " ++ py_str pushed)%string None
                 (Some [("rule_data", PDict clean); ("leaf", pushed); ("endpoint", PStr "/api/rules")])
                 (PDict clean) PNone (PDict clean) true "" None) s)
          end
      end
  end.

Definition handle_post_rule (body : option pyval) (s : api) : response * api :=
  match gnmi_pool s with
  | None => (send_error "gNMI pool not available" 503, s)
  | Some p =>
      match body with
      | None => (send_error "JSON body required: {rule_id, action, src_ip, ...}" 400, s)
      | Some b =>
          if negb (truthy b) then (send_error "JSON body required: {rule_id, action, src_ip, ...}" 400, s) else
          match b with
          | PDict d =>
              let rule_id := por (jget d "rule_id") (jget d "rule-id") in
              if negb (truthy rule_id) then (send_error "rule_id required" 400, s) else
              match as_str "upper" (get1 d "action" (PStr "DROP")) with
              | Raise x => (Dropped x, s)
              | Ok action =>
                  let action := py_upper action in
                  if bool_decide (action ∉ ["ACCEPT"; "DROP"; "RETURN"]) then
                    (send_error ("Invalid action '" ++ action ++ "'. Allowed: ACCEPT, DROP, RETURN")%string 400, s)
                  else
                    match rest_rule d rule_id action with
                    | Raise x => (Dropped x, s)
                    | Ok data => push_rest_rule p rule_id (get2 d "src_ip" "src-ip" (PStr "")) data s
                    end
              end
          | _ => (Dropped (AttributeError "get"), s)
          end
      end
  end.

Fixpoint delete_rule_loop (p : pool) (path : string) (ips : list string) (s : api) : list string * list string * api :=
  match ips with
  | [] => ([], [], s)
  | ip :: ips' =>
      match get_client_by_key S_ADMIN ip p with
      | None => delete_rule_loop p path ips' s
      | Some id =>
          let '(r, s) := ask_leaf (host_of p id) (GnmiDelete path) s in
          let '(deleted, errors, s) := delete_rule_loop p path ips' s in
          match r with
          | Ok _ => (ip :: deleted, errors, s)
          | Raise e => (deleted, (ip ++ ": " ++ exn_str e)%string :: errors, s)
          end
      end
  end.
Definition handle_delete_rule (rule_id : string) (s : api) : response * api :=
  match gnmi_pool s with
  | None => (send_error "gNMI pool not available" 503, s)
  | Some p =>
      let '(deleted, errors, s) := delete_rule_loop p (rule_path rule_id) (map snd (leaves p)) s in
      match deleted, errors with
      | [], _ :: _ => (send_error (py_join "; " errors) 500, s)
      | _, _ =>
          let strs l := PList (map PStr l) in
          (success [("rule_id", PStr rule_id); ("deleted_from", strs deleted); ("errors", strs errors)],
           record_log (modification_args "gnmi" "delete_acl_rule"
             ("REST API deleted rule " ++ rule_id ++ " from " ++ py_str (strs deleted))%string None
             (Some [("rule_id", PStr rule_id); ("leaves", strs deleted); ("endpoint", PStr "/api/rules")])
             PNone PNone PNone true "" None) s)
      end
  end.

(** ** Logs *)
Definition logs_response (r : res (list pyval)) : response :=
  match r with
  | Ok l => success [("count", PInt (Z.of_nat (length l))); ("logs", PList l)]
  | Raise x => Dropped x
  end.
Definition no_logger : response := send_error "Tampering detection logger not available" 500.

(** [d[k] = d.get(k, 0) + 1] for the value found under [field]: a key is equal to the
    first one that compares equal to it. *)
Fixpoint count_val (k : hkey) (v : pyval) (m : list (pyval * Z)) : list (pyval * Z) :=
  match m with
  | [] => [(v, 1)]
  | (w, n) :: m' => if match key_of w with Ok k' => bool_decide (k' = k) | Raise _ => false end then (w, n + 1) :: m' else (w, n) :: count_val k v m'
  end.
Definition bump (v : pyval) (m : list (pyval * Z)) : res (list (pyval * Z)) :=
  let* k := key_of v in Ok (count_val k v m).
Definition count_of (v : string) (m : list (pyval * Z)) : Z :=
  foldr (fun (x : pyval * Z) n => (if bool_decide (x.1 = PStr v) then x.2 else 0) + n) 0 m.
(** [json.dumps] of a dict's key *)
Definition json_key (v : pyval) : string := match v with PStr s => s | _ => json_dumps false v end.
Definition counts_dump (m : list (pyval * Z)) : pyval := PDict (map (fun x : pyval * Z => (json_key x.1, PInt x.2)) m).

Fixpoint stats_loop (ls : list pyval) (events severities : list (pyval * Z))
    : res (list (pyval * Z) * list (pyval * Z)) :=
  match ls with
  | [] => Ok (events, severities)
  | l :: ls' =>
      let* e := index_key l "event_type" in
      let* v := index_key l "severity" in
      let* events := bump e events in
      let* severities := bump v severities in
      stats_loop ls' events severities
  end.

Definition log_stats (l : TamperLogger) : response :=
  match (let* all := get_logs json_loads None "" "" true l in
         let* '(events, severities) := stats_loop all [] [] in
         let* tampering := get_tampering_events json_loads true l in
         Ok (all, events, severities, tampering)) with
  | Raise x => Dropped x
  | Ok (all, events, severities, tampering) =>
      success [("total_logs", PInt (Z.of_nat (length all))); ("by_event_type", counts_dump events);
               ("by_severity", counts_dump severities); ("tampering_events", PInt (Z.of_nat (length tampering)));
               ("errors", PInt (count_of "error" severities + count_of "critical" severities))]
  end.

(** ** Dispatch *)
Definition no_account : response := send_error "Service account not initialized" 500.
Definition single_client (what : string) : response :=
  success [("mode", PStr "single-client"); ("message", PStr (what ++ " not available (single-client mode)")%string)].
Definition one_of (path : string) (l : list string) : bool := bool_decide (path ∈ l).

Definition pool_status (p : pool) : obj :=
  [("port", PInt port);
   ("leaves", PDict (map (fun x : string * (string * list (string * bool)) =>
      (x.1, PDict [("ip", PStr x.2.1); ("connections", PDict (map (fun y : string * bool => (y.1, PBool y.2)) x.2.2))]))
      (get_status p)))].

Definition get_interfaces (s : api) : response * api :=
  match gnmi_pool s with
  | None => (send_error "gNMI pool not available" 503, s)
  | Some p =>
      match get_any_client S_ADMIN p with
      | None => (send_error "No gNMI connection available" 503, s)
      | Some id =>
          let ports := interfaces id in
          (success [("ethernet_ports", PList (map PStr ports)); ("count", PInt (Z.of_nat (length ports)))],
           record_log (LogArgs "gnmi" "get_interfaces" "Querying available Ethernet interfaces from SONiC"
             (Some [("endpoint", PStr "/interfaces")]) "info" None None PNone PNone PNone None) s)
      end
  end.

Definition do_GET (path : string) (s : api) : response * api :=
  if one_of path ["/role"; "/role/"; "/role/status"] then (no_account, s)
  else if one_of path ["/policy"; "/policy/"] then
    (match policies s with
     | None => send_error "Policy engine not initialized" 500
     | Some e => success [("policies", PDict (get_all_policies e));
                          ("description", PDict [("admin", PStr "ONAP admin role - typically full access");
                                                 ("operator", PStr "ONAP operator role - limited access")])]
     end, s)
  else if starts_with "/policy/" path then (get_policy_response path s, s)
  else if one_of path ["/sessions"; "/sessions/"] then
    (match table s with
     | Some m => let l := map (fun x : addr * SessionContext => session_to_dict x.2) (sessions m) in
                 success [("count", PInt (Z.of_nat (length l))); ("sessions", PList l)]
     | None => single_client "Session manager"
     end, s)
  else if one_of path ["/pool"; "/pool/"] then
    (match gnmi_pool s with Some p => success (pool_status p) | None => single_client "gNMI pool" end, s)
  else if one_of path ["/interfaces"; "/interfaces/"] then get_interfaces s
  else if bool_decide (path = "/health") then
    (Reply 200 (PDict [("status", PStr "ok"); ("service", PStr "role-api");
       ("mode", PStr (match table s with Some _ => "multi-client" | None => "single-client" end))]), s)
  else if one_of path ["/api/rules"; "/api/rules/"] then handle_get_rules s
  else if rule_path_of path then handle_get_rule (last_part path) s
  else if one_of path ["/api/logs"; "/api/logs/"] then (* neither path holds a query *)
    (match audit_log s with
     | Some l => logs_response (get_logs json_loads None "" "" false l)
     | None => no_logger
     end, s)
  else if bool_decide (path = "/api/logs/tampering") then
    (match audit_log s with
     | Some l => logs_response (get_tampering_events json_loads true l)
     | None => no_logger
     end, s)
  else if bool_decide (path = "/api/logs/stats") then
    (match audit_log s with Some l => log_stats l | None => no_logger end, s)
  else (not_found, s).

Definition do_POST (path : string) (body : option pyval) (s : api) : response * api :=
  if starts_with "/role/switch/" path then (no_account, s)
  else if one_of path ["/role/admin"; "/role/operator"] then (no_account, s)
  else if starts_with "/policy/" path && negb (ends_with "/reset" path) then post_policy path body s
  else if bool_decide (path = "/policy/reset") then reset_policies s
  else if one_of path ["/api/rules"; "/api/rules/"] then handle_post_rule body s
  else (not_found, s).

Definition do_DELETE (path : string) (s : api) : response * api :=
  if rule_path_of path then handle_delete_rule (last_part path) s else (not_found, s).

Definition handle (m : method) (path : string) (body : option pyval) (s : api) : response * api :=
  match m with
  | GET => do_GET path s
  | POST | PUT => do_POST path body s
  | DELETE => do_DELETE path s
  | OPTIONS => (Preflight, s)
  end.
End Api.

(** ** What a request does *)
(** A write of the REST API: an accepted action and no empty field, at the path of
    some rule id. *)
Definition rest_sound (q : string * gnmi_request) : Prop :=
  match q.2 with
  | GnmiUpdate path v =>
      (exists id, path = rule_path id) /\ field v "action" ∈ VALID_ACTIONS /\ (forall k x, (k, x) ∈ v -> x <> PNone /\ x <> PStr "")
  | GnmiDelete path => exists id, path = rule_path id
  | GnmiGet _ => True
  end.
Definition is_get (q : string * gnmi_request) : Prop := match q.2 with GnmiGet _ => True | _ => False end.

(** Policies that are well formed stay so, and the requests sent are of the kind [P]. *)
Definition effect (P : string * gnmi_request -> Prop) (s s' : api) : Prop :=
  (exists new, sent_requests s' = sent_requests s ++ new /\ Forall P new) /\
  (policies s' = policies s \/ exists e e', policies s = Some e /\ policies s' = Some e' /\ (engine_wf e -> engine_wf e')).

Lemma effect_refl P s : effect P s s.
Proof. split; [|by left]. exists []. by rewrite app_nil_r. Qed.
Lemma effect_trans P s1 s2 s3 : effect P s1 s2 -> effect P s2 s3 -> effect P s1 s3.
Proof.
  intros [(n1 & H1 & F1) E1] [(n2 & H2 & F2) E2]. split.
  - exists (n1 ++ n2). rewrite H2, H1, app_assoc. split; [done|by apply Forall_app].
  - destruct E1 as [E1|(e & e' & ? & ? & ?)], E2 as [E2|(e2 & e3 & ? & ? & ?)].
    + left. congruence.
    + right. exists e2, e3. split; [congruence|done].
    + right. exists e, e'. split; [done|]. split; [congruence|done].
    + right. exists e, e3. split; [done|]. split; [done|]. simplify_eq. auto.
Qed.
Lemma effect_weaken (P Q : string * gnmi_request -> Prop) s s' : (forall q, P q -> Q q) -> effect P s s' -> effect Q s s'.
Proof. intros HPQ [(new & Hn & Hf) He]. split; [|done]. exists new. split; [done|]. by eapply Forall_impl. Qed.
Lemma effect_policy P e e' s : policies s = Some e -> (engine_wf e -> engine_wf e') -> effect P s (set_policies e' s).
Proof. intros He Hw. split; [exists []; by rewrite app_nil_r|]. right. by exists e, e'. Qed.

Section ApiLemmas.
Context `{PyRepr} (json_loads : string -> option pyval).
Context (gnmi : nat -> string -> gnmi_request -> res pyval) (exn_str : exn -> string).
Context (interfaces : nat -> list string) (port : Z) (stamp : string * string * bool).

Lemma ask_effect (P : string * gnmi_request -> Prop) h r s : P (h, r) -> effect P s (ask_leaf gnmi h r s).2.
Proof. intros HP. split; [|by left]. exists [(h, r)]. split; [done|]. by repeat constructor. Qed.
Lemma log_effect P x s : effect P s (record_log stamp x s).
Proof. unfold record_log. destruct (audit_log s); [|apply effect_refl]. split; [exists []; by rewrite app_nil_r|by left]. Qed.

Lemma get_rules_effect p ls : forall s, effect is_get s (get_rules_loop gnmi exn_str p ls s).2.
Proof.
  induction ls as [|[name ip] ls IH]; intros s; [apply effect_refl|]. cbn [get_rules_loop].
  destruct (get_client_by_key S_ADMIN ip p) as [id|].
  - pose proof (ask_effect is_get (host_of p id) (GnmiGet "/nos-iptables:acl/rule") s I) as Ha.
    destruct (ask_leaf gnmi _ _ s) as [r s1]. cbn [snd] in Ha. specialize (IH s1).
    destruct (get_rules_loop _ _ _ _ s1) as [rest s2]. by eapply effect_trans.
  - specialize (IH s). by destruct (get_rules_loop _ _ _ _ s).
Qed.

Lemma get_rule_effect p path ls : forall s, effect is_get s (get_rule_loop gnmi p path ls s).2.
Proof.
  induction ls as [|[name ip] ls IH]; intros s; [apply effect_refl|]. cbn [get_rule_loop].
  destruct (get_client_by_key S_ADMIN ip p) as [id|]; [|apply IH].
  pose proof (ask_effect is_get (host_of p id) (GnmiGet path) s I) as Ha.
  destruct (ask_leaf gnmi _ _ s) as [r s1]. cbn [snd] in Ha. specialize (IH s1).
  destruct (get_rule_loop _ _ _ _ s1) as [rest s2]. by eapply effect_trans.
Qed.

Lemma delete_rule_effect p id ips : forall s, effect rest_sound s (delete_rule_loop gnmi exn_str p (rule_path id) ips s).2.
Proof.
  induction ips as [|ip ips IH]; intros s; [apply effect_refl|]. cbn [delete_rule_loop].
  destruct (get_client_by_key S_ADMIN ip p) as [c|]; [|apply IH].
  pose proof (ask_effect rest_sound (host_of p c) (GnmiDelete (rule_path id)) s ltac:(by exists id)) as Ha.
  destruct (ask_leaf gnmi _ _ s) as [r s1]. cbn [snd] in Ha. specialize (IH s1).
  destruct (delete_rule_loop _ _ _ _ _ s1) as [[d e] s2]. cbn [snd] in IH. destruct r; by eapply effect_trans.
Qed.

Lemma rest_rule_fields d id action data : rest_rule d id action = Ok data ->
  NoDup data.*1 /\ dict_get data "action" = Some (PStr action).
Proof.
  unfold rest_rule. intros (pr & _ & (n & _ & (so & _ & (t & _ & Hd)%rbind_ok)%rbind_ok)%rbind_ok)%rbind_ok.
  injection Hd as <-. split; [|done]. cbn. by apply (bool_decide_unpack _).
Qed.

Lemma push_effect p id src data s : NoDup data.*1 -> field data "action" ∈ VALID_ACTIONS ->
  effect rest_sound s (push_rest_rule gnmi exn_str stamp p id src data s).2.
Proof.
  intros Hnd Ha. unfold push_rest_rule. destruct (if truthy src then _ else _) as [leaf|x]; [|apply effect_refl].
  destruct (match leaf with Some l => _ | None => _ end) as [c|]; [|apply effect_refl].
  match goal with |- context [ask_leaf gnmi ?h ?r s] =>
    assert (He : effect rest_sound s (ask_leaf gnmi h r s).2) end.
  { apply ask_effect. cbn. split; [by eexists|]. rewrite field_clean by done. split; [done|].
    intros k x Hin. unfold clean in Hin. apply list_elem_of_filter in Hin as [Hin _]. exact Hin. }
  destruct (ask_leaf gnmi _ _ s) as [[v|e] s1]; cbn [snd] in *; [|done]. eapply effect_trans; [exact He|apply log_effect].
Qed.

Lemma post_rule_effect body s : effect rest_sound s (handle_post_rule gnmi exn_str stamp body s).2.
Proof.
  unfold handle_post_rule. destruct (gnmi_pool s) as [p|]; [|apply effect_refl].
  destruct body as [b|]; [|apply effect_refl]. case_match; [apply effect_refl|].
  destruct b as [ | | | | | |d]; try apply effect_refl. case_match; [apply effect_refl|].
  destruct (as_str _ _) as [action|]; [|apply effect_refl]. case_bool_decide as Hv; [apply effect_refl|].
  destruct (rest_rule d _ _) as [data|] eqn:Ed; [|apply effect_refl].
  apply rest_rule_fields in Ed as [Hnd Hg]. apply push_effect; [done|].
  unfold field. rewrite Hg. unfold VALID_ACTIONS. set_solver.
Qed.

Lemma post_policy_effect path body s : effect is_get s (post_policy exn_str path body s).2.
Proof.
  unfold post_policy. destruct (policies s) as [e|] eqn:Ep; [|apply effect_refl].
  destruct (OnapRole_of _) as [r|]; [|apply effect_refl]. destruct body as [b|]; [|apply effect_refl].
  case_match; [apply effect_refl|].
  destruct (body_allowed exn_str b) as [[|allowed]|]; [apply effect_refl| |apply effect_refl].
  destruct (body_default b) as [[|def]|]; [apply effect_refl| |apply effect_refl].
  pose proof (update_policy_wf r allowed def e) as Hw. destruct (update_policy r allowed def e) as [q e'].
  by apply (effect_policy _ e).
Qed.

(** Only the two rule handlers write; the others at most read the leafs. *)
Lemma do_GET_effect path s : effect is_get s (do_GET json_loads gnmi exn_str interfaces port stamp path s).2.
Proof.
  unfold do_GET. repeat match goal with |- effect _ _ (snd (if ?b then _ else _)) => destruct b end; try apply effect_refl.
  - unfold get_interfaces. destruct (gnmi_pool s) as [p|]; [|apply effect_refl].
    destruct (get_any_client S_ADMIN p); [apply log_effect|apply effect_refl].
  - unfold handle_get_rules. destruct (gnmi_pool s) as [p|]; [|apply effect_refl].
    pose proof (get_rules_effect p (leaves p) s). by destruct (get_rules_loop _ _ _ _ s).
  - unfold handle_get_rule. destruct (gnmi_pool s) as [p|]; [|apply effect_refl].
    pose proof (get_rule_effect p (rule_path (last_part path)) (leaves p) s). by destruct (get_rule_loop _ _ _ _ s).
Qed.

Lemma handle_effect m path body s :
  effect (match m with GET | OPTIONS => is_get | _ => rest_sound end) s
    (handle json_loads gnmi exn_str interfaces port stamp m path body s).2.
Proof.
  assert (Hw : forall q, is_get q -> rest_sound q) by (by intros [h []]).
  assert (Hpost : effect rest_sound s (do_POST gnmi exn_str stamp path body s).2).
  { unfold do_POST. repeat match goal with |- effect _ _ (snd (if ?b then _ else _)) => destruct b end; try apply effect_refl.
    - eapply effect_weaken; [exact Hw|apply post_policy_effect].
    - unfold reset_policies. destruct (policies s) as [e|] eqn:Ep; [|apply effect_refl].
      apply (effect_policy _ e); [done|]. intros _. apply default_policies_wf.
    - apply post_rule_effect. }
  destruct m; cbn [handle]; [apply do_GET_effect|done|done| |apply effect_refl].
  unfold do_DELETE. case_match; [|apply effect_refl]. unfold handle_delete_rule.
  destruct (gnmi_pool s) as [p|]; [|apply effect_refl].
  pose proof (delete_rule_effect p (last_part path) (map snd (leaves p)) s) as Hd.
  destruct (delete_rule_loop _ _ _ _ _ s) as [[d e] s1]. cbn [snd] in Hd.
  assert (Hl : forall x, effect rest_sound s (record_log stamp x s1)).
  { intros x. eapply effect_trans; [exact Hd|apply log_effect]. }
  destruct d, e; cbn [snd]; auto.
Qed.
End ApiLemmas.

(** ** One rule in both formats *)
Record rule_text := RuleText {
  rt_id : string; rt_action : string; rt_src : string; rt_dst : string; rt_protocol : string;
  rt_src_port : string; rt_dst_port : string; rt_priority : Z; rt_source : string; rt_comment : string; rt_ttl : Z }.

Definition rest_body (r : rule_text) : obj :=
  [("rule_id", PStr (rt_id r)); ("action", PStr (rt_action r)); ("src_ip", PStr (rt_src r)); ("dst_ip", PStr (rt_dst r));
   ("protocol", PStr (rt_protocol r)); ("src_port", PStr (rt_src_port r)); ("dst_port", PStr (rt_dst_port r));
   ("priority", PInt (rt_priority r)); ("source", PStr (rt_source r)); ("comment", PStr (rt_comment r));
   ("ttl_seconds", PInt (rt_ttl r))].

Definition field_elem (kv : string * string) : xml := Elem NS_NOS kv.1 [] (Some kv.2) [].
Definition rule_elem (r : rule_text) : xml :=
  Elem NS_NOS "rule" [] None (map field_elem [
    ("rule-id", rt_id r); ("action", rt_action r); ("src-ip", rt_src r); ("dst-ip", rt_dst r);
    ("protocol", rt_protocol r); ("src-port", rt_src_port r); ("dst-port", rt_dst_port r);
    ("priority", str_of_Z (rt_priority r)); ("source", rt_source r); ("comment", rt_comment r);
    ("ttl-seconds", str_of_Z (rt_ttl r))]).
Definition edit_config_of (r : rule_text) : xml :=
  Elem "urn:ietf:params:xml:ns:netconf:base:1.0" "rpc" [("message-id", "1")] None
    [Elem "urn:ietf:params:xml:ns:netconf:base:1.0" "edit-config" [] None
      [Elem "urn:ietf:params:xml:ns:netconf:base:1.0" "config" [] None [Elem NS_NOS "acl" [] None [rule_elem r]]]].

(** No text has white space around it, the action, the protocol and the source are
    accepted ones, and the numbers are not negative; a priority of 0 is left out. *)
Definition rule_ok (r : rule_text) : Prop :=
  Forall (fun s => py_strip s = s) [rt_id r; rt_action r; rt_src r; rt_dst r; rt_protocol r; rt_src_port r; rt_dst_port r;
                                    rt_source r; rt_comment r] /\
  rt_id r <> "" /\ rt_source r <> "" /\ rt_src r <> "" /\
  py_upper (str_or (rt_action r) "DROP") ∈ VALID_ACTIONS /\ py_lower (str_or (rt_protocol r) "all") ∈ VALID_PROTOCOLS /\
  py_lower (rt_source r) ∈ VALID_SOURCES /\ 0 < rt_priority r /\ 0 <= rt_ttl r.

Definition rule_data (r : rule_text) : obj :=
  [("rule-id", PStr (rt_id r)); ("action", PStr (py_upper (str_or (rt_action r) "DROP")));
   ("src-ip", PStr (rt_src r)); ("dst-ip", PStr (rt_dst r)); ("protocol", PStr (py_lower (str_or (rt_protocol r) "all")));
   ("src-port", PStr (rt_src_port r)); ("dst-port", PStr (rt_dst_port r)); ("priority", PInt (rt_priority r));
   ("source", PStr (py_lower (rt_source r))); ("comment", PStr (rt_comment r)); ("ttl-seconds", PInt (rt_ttl r))].

Lemma text_of_field e k v : by_local k e = [field_elem (k, v)] -> py_strip v = v ->
  text_of e k = if nonempty v then Some v else None.
Proof. intros He Hv. unfold text_of. rewrite He. cbn [x_text field_elem snd]. by rewrite Hv. Qed.

Lemma text_or_field e k v d : by_local k e = [field_elem (k, v)] -> py_strip v = v -> text_or e k d = str_or v d.
Proof.
  intros He Hv. unfold text_or. rewrite (text_of_field _ _ v) by done. by destruct v.
Qed.

Lemma int_text_field e k z d : by_local k e = [field_elem (k, str_of_Z z)] -> 0 <= z -> int_text_or e k d = Ok z.
Proof.
  intros He Hz. destruct (str_of_nonneg z Hz) as (Hd & Hv).
  assert (Hn : nonempty (str_of_Z z) = true) by (by destruct (str_of_Z z)).
  unfold int_text_or. rewrite (text_of_field _ _ (str_of_Z z)); [|done|].
  - rewrite Hn. rewrite Hn. by apply py_int_str.
  - apply py_strip_id. eapply str_forallb_impl; [|exact Hd]. apply digit_not_space.
Qed.

Lemma nos_rule_data_of r : rule_ok r -> nos_rule_data (rule_elem r) (rt_id r) = Ok (rule_data r).
Proof.
  intros (Hs & Hid & Hso & Hsrc & Ha & Hp & Hv & Hpr & Ht).
  repeat match goal with H : Forall _ (_ :: _) |- _ => apply Forall_cons in H as [? ?] end.
  assert (Hself : forall v, str_or v "" = v) by (by intros []).
  unfold nos_rule_data. rewrite (int_text_field _ "priority" (rt_priority r)); [|reflexivity|lia].
  rewrite (int_text_field _ "ttl-seconds" (rt_ttl r)); [|reflexivity|lia]. cbn [rbind].
  rewrite (text_or_field _ "action" (rt_action r)), (text_or_field _ "src-ip" (rt_src r)),
    (text_or_field _ "dst-ip" (rt_dst r)), (text_or_field _ "protocol" (rt_protocol r)),
    (text_or_field _ "src-port" (rt_src_port r)), (text_or_field _ "dst-port" (rt_dst_port r)),
    (text_or_field _ "source" (rt_source r)), (text_or_field _ "comment" (rt_comment r)) by (reflexivity || done).
  unfold rule_data. rewrite !Hself. unfold str_or at 3. by rewrite (proj2 (nonempty_true (rt_source r))).
Qed.

Lemma rest_rule_of `{PyRepr} r : rule_ok r ->
  as_str "upper" (get1 (rest_body r) "action" (PStr "DROP")) = Ok (str_or (rt_action r) "DROP") /\
  rest_rule (rest_body r) (PStr (rt_id r)) (py_upper (str_or (rt_action r) "DROP")) = Ok (rule_data r).
Proof.
  intros (Hs & Hid & Hso & Hsrc & Ha & Hp & Hv & Hpr & Ht).
  assert (Hpor : forall s d, por (PStr s) (PStr d) = PStr (str_or s d)).
  { intros s d. unfold por, str_or. cbn. by destruct (nonempty s). }
  assert (Hself : forall v, str_or v "" = v) by (by intros []).
  unfold rest_rule, get1, get2.
  change (jget (rest_body r) "action") with (PStr (rt_action r)). change (jget (rest_body r) "protocol") with (PStr (rt_protocol r)).
  change (jget (rest_body r) "priority") with (PInt (rt_priority r)). change (jget (rest_body r) "source") with (PStr (rt_source r)).
  change (jget (rest_body r) "ttl_seconds") with (PInt (rt_ttl r)). change (jget (rest_body r) "ttl-seconds") with PNone.
  change (jget (rest_body r) "src_ip") with (PStr (rt_src r)). change (jget (rest_body r) "src-ip") with PNone.
  change (jget (rest_body r) "dst_ip") with (PStr (rt_dst r)). change (jget (rest_body r) "dst-ip") with PNone.
  change (jget (rest_body r) "src_port") with (PStr (rt_src_port r)). change (jget (rest_body r) "src-port") with PNone.
  change (jget (rest_body r) "dst_port") with (PStr (rt_dst_port r)). change (jget (rest_body r) "dst-port") with PNone.
  change (jget (rest_body r) "comment") with (PStr (rt_comment r)).
  assert (Htwo : forall s, por (por (PStr s) PNone) (PStr "") = PStr s) by (by intros []).
  assert (Httl : forall z, por (por (PInt z) PNone) (PInt 0) = PInt z) by (by intros []).
  assert (Hprio : por (PInt (rt_priority r)) (PInt 1000) = PInt (rt_priority r)) by (by destruct (rt_priority r)).
  rewrite !Hpor, !Htwo, Httl, Hprio. cbn [as_str rbind int_of py_str]. split; [done|]. rewrite (Hself (rt_comment r)).
  unfold rule_data, str_or at 3. by rewrite (proj2 (nonempty_true (rt_source r))).
Qed.

(** A rule that passes the checks of a session that is not an agent's is written to the
    leaf its source is routed to. *)
Lemma pushed_writes env gnmi exn_str set_text rule_id data msg s id c :
  field data "action" ∈ VALID_ACTIONS -> field data "protocol" ∈ VALID_PROTOCOLS -> field data "source" ∈ VALID_SOURCES ->
  get_routed_client env S_ADMIN (field data "src-ip") = Ok (Some id) -> live_client env (Some id) = Some c ->
  current_onap_role env <> Some O_AGENT ->
  requests (validate_and_push env gnmi exn_str set_text rule_id data msg s).2 =
    requests s ++ [(host c, GnmiUpdate (rule_path rule_id) (clean data))].
Proof.
  intros Ha Hp Hs Hr Hl Ho. unfold validate_and_push. rewrite !bool_decide_eq_false_2 by (done || by intros []).
  unfold push_rule. rewrite Hr, Hl. cbn [send]. by destruct (gnmi _ _ _).
Qed.

(** ** Theorems *)
Definition api_request := (method * string * option pyval * (string * string * bool))%type.
Definition api_run `{PyRepr} (json_loads : string -> option pyval) (gnmi : nat -> string -> gnmi_request -> res pyval)
    (exn_str : exn -> string) (interfaces : nat -> list string) (port : Z) (qs : list api_request) (s : api) : api :=
  foldl (fun s (q : api_request) => (handle json_loads gnmi exn_str interfaces port q.2 q.1.1.1 q.1.1.2 q.1.2 s).2) s qs.

(** C19: whatever requests the API is given, the policies stay well formed (every default
    role is an allowed one) and every write it sends to a leaf has an accepted
    action and no empty field, or is a deletion by id; reads and preflights
    alone send no write. *)
Theorem api_run_sound `{PyRepr} json_loads gnmi exn_str interfaces port qs s e :
  policies s = Some e -> engine_wf e ->
  let s' := api_run json_loads gnmi exn_str interfaces port qs s in
  exists e' new, policies s' = Some e' /\ engine_wf e' /\
    sent_requests s' = sent_requests s ++ new /\ Forall rest_sound new /\
    (Forall (fun q : api_request => q.1.1.1 = GET \/ q.1.1.1 = OPTIONS) qs -> Forall is_get new).
Proof.
  cbn zeta. unfold api_run. revert s e. induction qs as [|[[[m path] body] stamp] qs IH]; intros s e Hp He.
  - exists e, []. cbn. rewrite app_nil_r. by split_and!.
  - cbn [foldl fst snd].
    pose proof (handle_effect json_loads gnmi exn_str interfaces port stamp m path body s) as Hh.
    set (s1 := (handle _ _ _ _ _ _ _ _ _ _).2) in *. destruct Hh as [(n1 & Hn1 & Hf1) Hpol].
    assert (Hs1 : exists e1, policies s1 = Some e1 /\ engine_wf e1).
    { destruct Hpol as [Hpol|(ea & eb & Ha & Hb & Hab)]; [exists e; by rewrite Hpol|].
      exists eb. simplify_eq. auto. }
    destruct Hs1 as (e1 & Hp1 & He1). destruct (IH s1 e1 Hp1 He1) as (e' & n2 & H1 & H2 & H3 & H4 & H5).
    exists e', (n1 ++ n2). rewrite H3, Hn1, app_assoc. split_and!; try done.
    + apply Forall_app. split; [|done]. destruct m; try done; (eapply Forall_impl; [exact Hf1|by intros [h []]]).
    + intros Hq. apply Forall_cons in Hq as [Hm Hq]. apply Forall_app. split; [|auto].
      cbn in Hm. by destruct Hm as [->| ->].
Qed.

Lemma edit_config_writes env gnmi exn_str set_text r s p leaf id c :
  rule_ok r -> ip_to_leaf (rt_src r) = Ok (Some leaf) ->
  get_client_by_key S_ADMIN leaf p = Some id -> heap p !! id = Some c -> connected c = true ->
  nos_pool env = Some p -> objects env = heap p -> current_onap_role env <> Some O_AGENT ->
  requests (handle_edit_config env gnmi exn_str set_text (edit_config_of r) s).2 =
    requests s ++ [(host c, GnmiUpdate (rule_path (rt_id r)) (clean (rule_data r)))].
Proof.
  intros Hr Hl Hk Hc Hlive Hpool Hobj Hrole. pose proof (nos_rule_data_of r Hr) as Hnos.
  destruct Hr as (Hs & Hid & Hso & Hsrc & Hav & Hpv & Hsv & Hpr & Ht).
  repeat match goal with H : Forall _ (_ :: _) |- _ => apply Forall_cons in H as [? ?] end.
  unfold handle_edit_config, edit_config_body.
  change (by_local "config" (edit_config_of r)) with
    [Elem "urn:ietf:params:xml:ns:netconf:base:1.0" "config" [] None [Elem NS_NOS "acl" [] None [rule_elem r]]].
  cbn match. change (filter _ (by_local "acl" _)) with [Elem NS_NOS "acl" [] None [rule_elem r]]. cbn match.
  unfold handle_nos_acl. change (by_local "rule" _) with [rule_elem r]. cbn [rules_loop].
  unfold nos_rule. change (attr_or (rule_elem r) NETCONF_OPERATION "merge") with "merge".
  rewrite (text_of_field _ "rule-id" (rt_id r)) by (reflexivity || done).
  rewrite (proj2 (nonempty_true (rt_id r))) by done. cbn [default]. cbn match.
  change (Datatypes.id (rt_id r)) with (rt_id r). rewrite (proj2 (nonempty_true (rt_id r))) by done.
  cbn [negb]. rewrite bool_decide_eq_false_2 by set_solver. rewrite Hnos. set (m := attr_or _ "message-id" _).
  assert (Hw : requests (validate_and_push env gnmi exn_str set_text (rt_id r) (rule_data r) m s).2 = 
    requests s ++ [(host c, GnmiUpdate (rule_path (rt_id r)) (clean (rule_data r)))]).
  { apply (pushed_writes _ _ _ _ _ _ _ _ id c); [done|done|done| | |done].
    - unfold get_routed_client. rewrite Hpool. change (field (rule_data r) "src-ip") with (rt_src r).
      unfold str_or. rewrite (proj2 (nonempty_true (rt_src r))) by done. unfold get_client_for_zone. rewrite Hl.
      cbn [rbind]. change (default DEFAULT_LEAF1 (Some leaf)) with leaf. by rewrite Hk.
    - unfold live_client. by rewrite Hobj, Hc, Hlive. }
  rewrite <- Hw. by destruct (validate_and_push _ _ _ _ _ _ _ _) as [[[reply|]|e] s'].
Qed.

Lemma post_rule_writes `{PyRepr} gnmi exn_str stamp r a p leaf id c :
  rule_ok r -> ip_to_leaf (rt_src r) = Ok (Some leaf) ->
  get_client_by_key S_ADMIN leaf p = Some id -> heap p !! id = Some c -> gnmi_pool a = Some p ->
  sent_requests (do_POST gnmi exn_str stamp "/api/rules" (Some (PDict (rest_body r))) a).2 =
    sent_requests a ++ [(host c, GnmiUpdate (rule_path (rt_id r)) (clean (rule_data r)))].
Proof.
  intros Hr Hl Hk Hc Ha. pose proof (rest_rule_of r Hr) as [Hact Hrest].
  destruct Hr as (Hs & Hid & Hso & Hsrc & Hav & Hpv & Hsv & Hpr & Ht). clear Hs.
  unfold do_POST. repeat (rewrite (bool_decide_eq_false_2 (_ = _)) by done).
  change (starts_with "/role/switch/" "/api/rules") with false. change (one_of "/api/rules" ["/role/admin"; "/role/operator"]) with false.
  change (starts_with "/policy/" "/api/rules") with false. change (one_of "/api/rules" ["/api/rules"; "/api/rules/"]) with true.
  cbn [andb]. unfold handle_post_rule. rewrite Ha. change (truthy (PDict (rest_body r))) with true. cbn [negb].
  change (jget (rest_body r) "rule_id") with (PStr (rt_id r)). change (jget (rest_body r) "rule-id") with PNone.
  assert (Ht1 : truthy (PStr (rt_id r)) = true) by (by apply nonempty_true).
  unfold por. rewrite Ht1. cbn match. rewrite Ht1. cbn [negb]. rewrite Hact. rewrite bool_decide_eq_false_2 by (intros Hn; by apply Hn).
  rewrite Hrest. assert (Hsr : get2 (rest_body r) "src_ip" "src-ip" (PStr "") = PStr (rt_src r)).
  { unfold get2. change (jget (rest_body r) "src_ip") with (PStr (rt_src r)). unfold por.
    change (truthy (PStr (rt_src r))) with (nonempty (rt_src r)). rewrite (proj2 (nonempty_true (rt_src r))) by done. cbn match.
    change (truthy (PStr (rt_src r))) with (nonempty (rt_src r)). by rewrite (proj2 (nonempty_true (rt_src r))). }
  rewrite Hsr. unfold push_rest_rule. change (truthy (PStr (rt_src r))) with (nonempty (rt_src r)).
  rewrite (proj2 (nonempty_true (rt_src r))) by done. cbn [ip_to_leaf_val]. rewrite Hl, Hk. unfold host_of. rewrite Hc.
  cbn [ask_leaf py_str]. destruct (gnmi _ _ _) as [v|x]; [|done]. unfold record_log. by destruct (audit_log _).
Qed.


(** A rule both ways, on the pool of the two leafs. *)
Definition sample_rule : rule_text :=
  RuleText "r1" "drop" "10.2.100.10/32" "10.2.50.10/32" "TCP" "" "22" 100 "manual" "" 0.
Definition sample_leaves : list (string * string) := [("leaf-1", "192.168.122.20"); ("leaf-2", "192.168.122.21")].
Definition sample_pool : pool :=
  pool_run sample_leaves [Connect_ true true S_ADMIN "192.168.122.20"; Connect_ true true S_ADMIN "192.168.122.21"].
Definition sample_api : api := Api (Some DEFAULT_POLICIES) None (Some sample_pool) None [].


Lemma api_run_sound_witness :
  let qs := [(POST, "/policy/admin", Some (PDict [("allowed_sonic_roles", PList [PStr "operator"])]), ("1", "t", true));
             (POST, "/api/rules", Some (PDict (rest_body sample_rule)), ("2", "t", true));
             (DELETE, "/api/rules/r1", None, ("3", "t", true))] in
  let s' := @api_run (fun _ => "") (fun _ => None) (fun _ _ _ => Ok PNone) (fun _ => "") (fun _ => []) 0 qs sample_api in
  length (sent_requests s') = 3%nat /\
  exists e' new, policies s' = Some e' /\ engine_wf e' /\ sent_requests s' = [] ++ new /\ Forall rest_sound new /\
    (Forall (fun q : api_request => q.1.1.1 = GET \/ q.1.1.1 = OPTIONS) qs -> Forall is_get new).
Proof.
  cbn zeta. split; [vm_compute; reflexivity|].
  exact (@api_run_sound (fun _ => "") (fun _ => None) (fun _ _ _ => Ok PNone) (fun _ => "") (fun _ => []) 0 _ sample_api
    DEFAULT_POLICIES eq_refl default_policies_wf).
Defined.

(** A deletion reports success when no leaf has a live connection, although
    nothing was asked of any leaf. *)
Theorem delete_reports_success `{PyRepr} json_loads gnmi exn_str interfaces port stamp path s p :
  rule_path_of path = true -> gnmi_pool s = Some p -> Forall (fun ip => get_client_by_key S_ADMIN ip p = None) (map snd (leaves p)) ->
  let '(reply, s') := handle json_loads gnmi exn_str interfaces port stamp DELETE path None s in
  reply = success [("rule_id", PStr (last_part path)); ("deleted_from", PList []); ("errors", PList [])] /\
  sent_requests s' = sent_requests s.
Proof.
  intros Hp Hg Hd. cbn [handle]. unfold do_DELETE, handle_delete_rule. rewrite Hp, Hg.
  assert (Hl : delete_rule_loop gnmi exn_str p (rule_path (last_part path)) (map snd (leaves p)) s = ([], [], s)).
  { induction Hd as [|ip ips Hi _ IH]; [done|]. cbn [delete_rule_loop]. by rewrite Hi. }
  rewrite Hl. split; [done|]. unfold record_log. by destruct (audit_log s).
Qed.

Lemma delete_reports_success_witness :
  let s := Api None None (Some (pool_run sample_leaves [])) None [] in
  rule_path_of "/api/rules/r1" = true /\
  let '(reply, s') := @handle (fun _ => "") (fun _ => None) (fun _ _ _ => Ok PNone) (fun _ => "") (fun _ => []) 0 ("1", "t", true)
                        DELETE "/api/rules/r1" None s in
  reply = success [("rule_id", PStr "r1"); ("deleted_from", PList []); ("errors", PList [])] /\ sent_requests s' = [].
Proof.
  cbn zeta. split; [vm_compute; reflexivity|].
  refine (@delete_reports_success (fun _ => "") (fun _ => None) (fun _ _ _ => Ok PNone) (fun _ => "") (fun _ => []) 0 ("1", "t", true)
    "/api/rules/r1" (Api None None (Some (pool_run sample_leaves [])) None []) (pool_run sample_leaves []) _ _ _);
    [vm_compute; reflexivity|reflexivity|]. repeat constructor; vm_compute; reflexivity.
Defined.

(** The query parameters of the log endpoint are never read: a path with a query is
    no path of the API. *)
Theorem logs_query_unreachable `{PyRepr} json_loads gnmi exn_str interfaces port stamp query s :
  handle json_loads gnmi exn_str interfaces port stamp GET ("/api/logs?" ++ query)%string None s = (not_found, s).
Proof.
  cbn [handle]. unfold do_GET, one_of. rewrite !str_app_cons, !str_app_nil_l.
  repeat (rewrite bool_decide_eq_false_2 by set_solver). reflexivity.
Qed.

(** The REST API does not check a rule's protocol and source, which the adapter does. *)
Theorem rest_accepts_any_protocol :
  let r := RuleText "r1" "DROP" "10.2.100.10/32" "" "gre" "" "" 100 "nobody" "" 0 in
  let env := Env (Some sample_pool) (heap sample_pool) None None in
  requests (handle_edit_config env (fun _ _ _ => Ok PNone) (fun _ => "") (fun _ => "") (edit_config_of r) (Effects [] [])).2 = [] /\
  exists v, sent_requests (@handle (fun _ => "") (fun _ => None) (fun _ _ _ => Ok PNone) (fun _ => "") (fun _ => []) 0 ("1", "t", true)
      POST "/api/rules" (Some (PDict (rest_body r))) sample_api).2 = [("192.168.122.21", GnmiUpdate (rule_path "r1") v)] /\
    field v "protocol" = "gre" /\ field v "source" = "nobody".
Proof. cbn zeta. split; [vm_compute; reflexivity|]. eexists. split; [vm_compute; reflexivity|by split]. Qed.
