(* ===== verification/Yang.v ===== *)
(** * The YANG modules a session serves (netconf/netconf_session.py)

    What a session reads of its yang directory: namespaces and revisions found in
    the text of a module, the map from namespaces to modules, the list of schemas
    and the lookup of one module.  The file system is a record of what the
    standard library answers; it does not change during a session.  Reading a
    file gives its whole text or raises, and [re.findall] on the code's one
    pattern is written out. *)
From S2P Require Import Prelude PyVal Json Adapter.
Local Open Scope string_scope.
Local Open Scope Z_scope.
Local Open Scope list_scope.

Record files := Files {
  exists_ : string -> bool;
  listdir : string -> res (list string);
  read_text : string -> res string (* with universal newlines *) }.

(** [os.path.join] of two parts *)
Definition path_join (a b : string) : string :=
  if starts_with "/" b then b
  else if negb (nonempty a) || ends_with "/" a then (a ++ b)%string
  else (a ++ "/" ++ b)%string.

(** [s[:-5]] of a name that ends with [.yang], and its parts around [@] *)
Definition stem (f : string) : string := py_take (py_len f - 5) f.
Definition stem_parts (f : string) : list string := split_on "@"%char (stem f).
Definition module_of (f : string) : string := default "" (head (stem_parts f)).
Definition is_yang (f : string) : bool := ends_with ".yang" f.

(** ** Reading a module *)
(** The part between the first two quotes of the kind [q]. *)
Definition quoted (q : ascii) (line : string) : option string := split_on q line !! 1%nat.

Fixpoint namespace_in (lines : list string) : option string :=
  match lines with
  | [] => None
  | line :: lines' =>
      let line := py_strip line in
      if starts_with "namespace" line then
        match quoted (ascii_of_N 34) line with
        | Some ns => Some ns
        | None => match quoted "'"%char line with Some ns => Some ns | None => namespace_in lines' end
        end
      else namespace_in lines'
  end.

(** Consumes [k] characters that satisfy [p]. *)
Fixpoint eat (k : nat) (p : ascii -> bool) (s : string) : option (string * string) :=
  match k, s with
  | O, _ => Some ("", s)
  | S k', String c s' => if p c then '(a, b) ← eat k' p s'; Some (String c a, b) else None
  | S _, EmptyString => None
  end.
Fixpoint eat_text (t s : string) : option string :=
  match t, s with
  | EmptyString, _ => Some s
  | String a t', String c s' => if bool_decide (a = c) then eat_text t' s' else None
  | String _ _, EmptyString => None
  end.
Definition opt_quote (s : string) : string :=
  match s with
  | String c s' => if bool_decide (c = ascii_of_N 34 \/ c = "'"%char) then s' else s
  | EmptyString => ""
  end.

(** The pattern of a revision statement at the start of [s]: the word, white
    space, an optional quote, a date and an optional quote; the date and the rest. *)
Definition revision_at (s : string) : option (string * string) :=
  s ← eat_text "revision" s;
  '(_, s) ← eat 1 is_space s;
  '(y, s) ← eat 4 is_digit (opt_quote (lstrip s));
  s ← eat_text "-" s; '(m, s) ← eat 2 is_digit s;
  s ← eat_text "-" s; '(d, s) ← eat 2 is_digit s;
  Some ((y ++ "-" ++ m ++ "-" ++ d)%string, opt_quote s).

(** [re.findall]: after a match the search goes on behind it. *)
Fixpoint find_revisions (skip : nat) (s : string) : list string :=
  match s with
  | EmptyString => []
  | String _ s' =>
      match skip with
      | S k => find_revisions k s'
      | O => match revision_at s with
             | Some (date, rest) => date :: find_revisions (String.length s - String.length rest - 1) s'
             | None => find_revisions 0 s'
             end
      end
  end.

Section Yang.
Context (fs : files) (yang_dir : string).

(** [_extract_namespace_from_yang], [_extract_revision_from_yang] *)
Definition extract_namespace (path : string) : option string :=
  match read_text fs path with
  | Ok text => namespace_in (split_on (ascii_of_N 10) text)
  | Raise _ => None
  end.
Definition extract_revision (path : string) : option string :=
  match read_text fs path with
  | Ok text => head (rev (py_sorted (find_revisions 0 text)))
  | Raise _ => None
  end.

(** An optional text that is neither [None] nor empty. *)
Definition given (o : option string) : option string :=
  match o with Some s => if nonempty s then Some s else None | None => None end.

(** The revision of a module: the one in its name, else the one in its text. *)
Definition revision_of (f : string) : option string :=
  match stem_parts f !! 1%nat with Some r => Some r | None => extract_revision (path_join yang_dir f) end.

(** [_build_namespace_to_module_map] *)
Definition map_module (m : list (string * string)) (f : string) : list (string * string) :=
  match given (extract_namespace (path_join yang_dir f)) with
  | None => m
  | Some ns =>
      let m := dict_set m ns (module_of f) in
      match stem_parts f !! 1%nat with
      | Some r => dict_set m (ns ++ "?revision=" ++ r)%string (module_of f)
      | None =>
          match given (extract_revision (path_join yang_dir f)) with
          | Some r => dict_set m (ns ++ "?revision=" ++ r)%string (module_of f)
          | None => m
          end
      end
  end.
Definition namespace_map : list (string * string) :=
  if exists_ fs yang_dir then
    match listdir fs yang_dir with
    | Ok l => foldl map_module [] (filter (fun f => is_yang f = true) l)
    | Raise _ => []
    end
  else [].

(** ** Lookup *)
Definition MONITORING : string := "ietf-netconf-monitoring".
Definition empty_module (name : string) : string := ("module " ++ name ++ " { }")%string.

(** The first file of the directory whose name fits, in the order of [listdir]. *)
Fixpoint search_module (name : string) (l : list string) : option (res string) :=
  match l with
  | [] => None
  | f :: l' =>
      if is_yang f && (bool_decide (stem f = name) || starts_with (name ++ "@")%string (stem f))
      then Some (read_text fs (path_join yang_dir f)) else search_module name l'
  end.

(** [_load_yang_file]; [stub] is the built-in text. *)
Definition load_yang_file (stub name : string) : string :=
  if bool_decide (name = MONITORING) &&
     negb (exists_ fs (path_join yang_dir "ietf-netconf-monitoring@2010-10-04.yang"))
  then stub
  else if negb (exists_ fs yang_dir) then empty_module name
  else
    let exact := path_join yang_dir (name ++ ".yang")%string in
    match (if exists_ fs exact then read_text fs exact else Raise (OtherError "absent")) with
    | Ok text => text
    | Raise _ =>
        match listdir fs yang_dir with
        | Ok l => match search_module name l with Some (Ok text) => text | _ => empty_module name end
        | Raise _ => empty_module name
        end
    end.

(** The module a get-schema identifier means. *)
Definition resolve (m : list (string * string)) (identifier : string) : string :=
  if starts_with "http://" identifier || starts_with "urn:" identifier then
    match dict_get m identifier with
    | Some n => n
    | None => default identifier (dict_get m (default "" (head (split_on "?"%char identifier))))
    end
  else identifier.

(** ** Texts *)
(** [_build_monitoring_schemas] *)
Definition schema_entry (f : string) : string :=
  let ns := default ("urn:yang:module:" ++ module_of f)%string (given (extract_namespace (path_join yang_dir f))) in
  let revision := match given (stem_parts f !! 1%nat) with
                  | Some r => r
                  | None => default "1970-01-01" (given (extract_revision (path_join yang_dir f)))
                  end in
  ("        <schema>" ++ nl ++ "          <identifier>" ++ module_of f ++ "</identifier>" ++ nl ++
   "          <version>" ++ revision ++ "</version>" ++ nl ++ "          <format>yang</format>" ++ nl ++
   "          <namespace>" ++ escape ns ++ "</namespace>" ++ nl ++ "          <location>NETCONF</location>" ++ nl ++
   "        </schema>")%string.

Definition monitoring_schemas : string :=
  let entries :=
    if exists_ fs yang_dir then
      match listdir fs yang_dir with
      | Ok l => map schema_entry (py_sorted (filter (fun f => is_yang f = true) l))
      | Raise _ => []
      end
    else [] in
  ("    <data>" ++ nl ++ "    <netconf-state xmlns=" ++ dq ++ "urn:ietf:params:xml:ns:yang:ietf-netconf-monitoring" ++ dq
   ++ ">" ++ nl ++ "      <schemas>" ++ nl ++ py_join nl entries ++ nl ++ "      </schemas>" ++ nl ++
   "    </netconf-state>" ++ nl ++ "  </data>")%string.

(** [_generate_hello_message]; listing the directory may raise here. *)
Definition capability (f : string) : option string :=
  ns ← given (extract_namespace (path_join yang_dir f));
  r ← given (revision_of f);
  Some ("<capability>" ++ ns ++ "?module=" ++ module_of f ++ "&amp;revision=" ++ r ++ "</capability>")%string.

Definition base_capabilities : list string := [
  "<capability>urn:ietf:params:netconf:base:1.0</capability>";
  "<capability>urn:ietf:params:netconf:base:1.1</capability>";
  "<capability>urn:ietf:params:netconf:capability:writable-running:1.0</capability>";
  "<capability>urn:ietf:params:xml:ns:yang:ietf-netconf-monitoring?module=ietf-netconf-monitoring&amp;revision=2010-10-04</capability>"].

Definition hello_message (session_id : Z) : res string :=
  let* own :=
    if exists_ fs yang_dir then
      let* l := listdir fs yang_dir in Ok (omap capability (filter (fun f => is_yang f = true) (py_sorted l)))
    else Ok [] in
  Ok ("<?xml version=" ++ dq ++ "1.0" ++ dq ++ " encoding=" ++ dq ++ "UTF-8" ++ dq ++ "?>" ++ nl ++
      "<hello xmlns=" ++ dq ++ "urn:ietf:params:xml:ns:netconf:base:1.0" ++ dq ++ ">" ++ nl ++
      "    <capabilities>" ++ nl ++ "        " ++ py_join (nl ++ "        ")%string (base_capabilities ++ own) ++ nl ++
      "    </capabilities>" ++ nl ++ "    <session-id>" ++ str_of_Z session_id ++ "</session-id>" ++ nl ++
      "</hello>]]>]]>")%string.
End Yang.

(** Two modules, one with its revision in its name. *)
Definition sample_module : string :=
  ("module m {" ++ nl ++ "  namespace " ++ dq ++ "urn:m" ++ dq ++ ";" ++ nl ++
   "  revision 2023-01-05 {}" ++ nl ++ "  revision '2024-02-06' {}" ++ nl ++ "}")%string.
Definition sample_files : files :=
  Files (fun p => bool_decide (p ∈ ["/yang"; "/yang/m.yang"; "/yang/n@2020-03-04.yang"]))
    (fun _ => Ok ["n@2020-03-04.yang"; "README"; "m.yang"])
    (fun p => if bool_decide (p = "/yang/m.yang") then Ok sample_module
              else if bool_decide (p = "/yang/n@2020-03-04.yang") then Ok "namespace 'urn:n';" else Raise (OtherError "FileNotFoundError")).
Example sample_map : namespace_map sample_files "/yang" =
  [("urn:n", "n"); ("urn:n?revision=2020-03-04", "n"); ("urn:m", "m"); ("urn:m?revision=2024-02-06", "m")].
Proof. vm_compute. reflexivity. Qed.
Example sample_load : load_yang_file sample_files "/yang" "" "n" = "namespace 'urn:n';".
Proof. vm_compute. reflexivity. Qed.
Example sample_missing : load_yang_file sample_files "/yang" "stub" MONITORING = "stub".
Proof. vm_compute. reflexivity. Qed.

(** ** Escaping is faithful *)
(** What an XML reader makes of character data: the three entities, and the text up
    to the next markup. *)
Fixpoint unescape (s : string) : string :=
  match s with
  | String "&" (String "a" (String "m" (String "p" (String ";" s')))) => String "&" (unescape s')
  | String "&" (String "l" (String "t" (String ";" s'))) => String "<" (unescape s')
  | String "&" (String "g" (String "t" (String ";" s'))) => String ">" (unescape s')
  | String c s' => String c (unescape s')
  | EmptyString => ""
  end.
Fixpoint char_data (s : string) : string :=
  match s with
  | String c s' => if Ascii.eqb c "<" then "" else String c (char_data s')
  | EmptyString => ""
  end.

Lemma unescape_escape s : unescape (escape s) = s.
Proof.
  induction s as [|c s IH]; [done|]. cbn [escape].
  case_bool_decide; [subst; change (String "&" (unescape (escape s)) = String "&" s); by rewrite IH|].
  case_bool_decide; [subst; change (String "<" (unescape (escape s)) = String "<" s); by rewrite IH|].
  case_bool_decide; [subst; change (String ">" (unescape (escape s)) = String ">" s); by rewrite IH|].
  transitivity (String c (unescape (escape s))); [|by rewrite IH].
  destruct c as [[] [] [] [] [] [] [] []]; done.
Qed.

Lemma char_data_escape s t : char_data (escape s ++ String "<" t)%string = escape s.
Proof.
  induction s as [|c s IH]; [done|]. cbn [escape].
  rewrite str_app_assoc.
  repeat case_bool_decide; subst; rewrite !str_app_cons, !str_app_nil_l; cbn [char_data]; try by rewrite IH.
  by rewrite (proj2 (Ascii.eqb_neq c "<")), IH.
Qed.
