(* ===== verification/NetconfSession.v ===== *)
(** * A NETCONF session and the server's handling of a connection
      (netconf/netconf_session.py, netconf/netconfserver.py)

    The dispatch of a request to the adapter, the replies, the session's loop
    from the hello exchange to its end, and the connection handler that opens and
    closes the session context.  Text is a [string] of UTF-8 bytes where the
    adapter reads it and a list of code points where it is framed.  The XML parser,
    the serialisation of an element and the success of the [n]-th [sendall] are
    parameters; the pool a request sees is the one at that time, since other
    threads change it between two requests. *)
From S2P Require Import Prelude PyVal Sha256 Utf8 Json RolePolicy TamperLog GnmiPool.
From S2P Require Import Adapter NetconfFraming Yang.
Local Open Scope string_scope.
Local Open Scope Z_scope.
Local Open Scope list_scope.

Definition NC : string := "urn:ietf:params:xml:ns:netconf:base:1.0".

(** [root.xpath('.//nc:name')] *)
Definition nc (name : string) (root : xml) : list xml :=
  filter (fun e => x_ns e = NC) (by_local name root).
Definition some {A} (l : list A) : bool := match l with [] => false | _ => true end.

Definition text_cp (s : string) : list Z := utf8_decode (bytes_of s).
Definition cp_text (l : list Z) : string :=
  String.string_of_list_ascii (map (fun b => ascii_of_N (Z.to_N b)) (utf8_encode l)).

(** ** Replies *)
(** [_build_rpc_reply], [_build_ok_reply], [_build_error_reply] (which, unlike the
    adapter's, does not escape its message), [_build_schema_response] *)
Definition rpc_reply (data msg_id : string) : string := (reply_head msg_id ++ data ++ nl ++ "</rpc-reply>")%string.
Definition session_error (msg_id err_type err_tag err_msg : string) : string :=
  (reply_head msg_id ++ "    <rpc-error>" ++ nl ++
   "        <error-type>" ++ err_type ++ "</error-type>" ++ nl ++
   "        <error-tag>" ++ err_tag ++ "</error-tag>" ++ nl ++
   "        " ++ (if nonempty err_msg then "<error-message>" ++ err_msg ++ "</error-message>" else "") ++ nl ++
   "    </rpc-error>" ++ nl ++ "</rpc-reply>")%string.
Definition schema_reply (msg_id text : string) : string :=
  (reply_head msg_id ++ "    <data xmlns=" ++ dq ++ "urn:ietf:params:xml:ns:yang:ietf-netconf-monitoring" ++ dq ++ ">" ++
   escape text ++ "</data>" ++ nl ++ "</rpc-reply>")%string.

(** ** The session *)
Record session := Sess {
  rx : receiver;
  running : bool;
  outbox : list (list Z * bool) (* each [sendall] with its success *);
  eff : effects }.

Definition set_rx (r : receiver) (s : session) : session := Sess r (running s) (outbox s) (eff s).
Definition set_eff (e : effects) (s : session) : session := Sess (rx s) (running s) (outbox s) e.
Definition stop_running (s : session) : session := Sess (rx s) false (outbox s) (eff s).

Section Session.
Context (parse_xml : list Z -> res xml) (tostring : xml -> string).
Context (exn_str : exn -> string) (set_text : list string -> string) (dumps_indent : pyval -> string).
Context (gnmi : nat -> string -> gnmi_request -> res pyval) (sent : nat -> bool).
Context (fs : files) (yang_dir stub : string).

(** [self.socket.sendall]: [false] when it raises. *)
Definition sendall (bytes : list Z) (s : session) : bool * session :=
  let ok := sent (length (outbox s)) in (ok, Sess (rx s) (running s) (outbox s ++ [(bytes, ok)]) (eff s)).

(** [send_response]: a failure is caught and ends the session. *)
Definition reply (response : string) (s : session) : session :=
  let '(ok, s) := sendall (send_response (use_chunked (rx s) && hello_complete (rx s)) (text_cp response)) s in
  if ok then s else stop_running s.

Definition is_monitoring_request (root : xml) : bool :=
  match nc "filter" root with
  | f :: _ => str_contains "ietf-netconf-monitoring" (tostring f) || str_contains "netconf-state" (tostring f)
  | [] => false
  end.

(** The identifier of a get-schema request: [None] when its element is empty. *)
Definition schema_identifier (get_schema : xml) : option string :=
  match by_local "identifier" get_schema with
  | e :: _ => x_text e
  | [] => Some "openconfig-acl"
  end.

(** The reply to a parsed request, and whether it closes the session. *)
Definition answer (env : adapter_env) (namespaces : list (string * string)) (root : xml) (e : effects)
    : string * effects * bool :=
  let msg_id := attr_or root "message-id" "1" in
  if some (nc "get-config" root) then
    let '(data, e) := handle_get_config env gnmi dumps_indent e in (rpc_reply data msg_id, e, false)
  else if some (nc "get" root) && is_monitoring_request root then
    (rpc_reply (monitoring_schemas fs yang_dir) msg_id, e, false)
  else if some (nc "get" root) then
    let '(data, e) := handle_get_config env gnmi dumps_indent e in (rpc_reply data msg_id, e, false)
  else if some (nc "edit-config" root) then
    let '(r, e) := handle_edit_config env gnmi exn_str set_text root e in (r, e, false)
  else
    match by_local "get-schema" root with
    | gs :: _ =>
        match schema_identifier gs with
        | None => (session_error msg_id "application" "operation-failed" (exn_str (AttributeError "startswith")), e, false)
        | Some id => (schema_reply msg_id (load_yang_file fs yang_dir stub (resolve namespaces id)), e, false)
        end
    | [] =>
        if some (nc "lock" root) || some (nc "unlock" root) then (ok_reply msg_id, e, false)
        else if some (nc "commit" root) then (ok_reply msg_id, e, false)
        else if some (nc "close-session" root) then (ok_reply msg_id, e, true)
        else (ok_reply msg_id, e, false)
    end.

(** [handle_rpc] *)
Definition handle_rpc (env : adapter_env) (namespaces : list (string * string)) (rpc : list Z) (s : session) : session :=
  match parse_xml (utf8_encode rpc) with
  | Raise x => reply (session_error "1" "application" "operation-failed" (exn_str x)) s
  | Ok root =>
      let '(r, e, close) := answer env namespaces root (eff s) in
      let s := reply r (set_eff e s) in
      if close then stop_running s else s
  end.

(** ** The loop *)
Inductive ending :=
  | Ended         (* the loop is left and the socket closed *)
  | NoHello       (* the connection ended before a hello, or the hello was empty *)
  | SendFailed    (* the hello could not be built or sent *)
  | Blocked       (* waiting in [recv] for more than the given events *)
  | Spinning.     (* decoding a message that [fuel] steps do not decode *)

Context (fuel : nat) (env_at : nat -> adapter_env) (namespaces : list (string * string)).

Definition MAX_IDLE : nat := 60.

(** The request loop: [n] requests handled and [idle] empty messages in a row so
    far.  [None] when [rounds] run out; every round takes an event. *)
Fixpoint rpc_loop (rounds n idle : nat) (es : list recv_event) (s : session) : option (ending * session) :=
  match rounds with
  | O => None
  | S rounds =>
      if negb (running s) then Some (Ended, s) else
      let '(out, es, r) := receive_message fuel es (rx s) in
      let s := set_rx r s in
      match out with
      | Waiting => Some (Blocked, s)
      | Looping => Some (Spinning, s)
      | Closed => Some (Ended, s)
      | Message [] =>
          if (MAX_IDLE <=? S idle)%nat then Some (Ended, s) else rpc_loop rounds n (S idle) es s
      | Message m => rpc_loop rounds (S n) 0 es (handle_rpc (env_at n) namespaces m s)
      end
  end.

(** [run]: the hello exchange fixes the framing, then the loop. *)
Definition run_session (session_id : Z) (es : list recv_event) (e : effects) : option (ending * session) :=
  let s := Sess (Rx [] false false) true [] e in
  match hello_message fs yang_dir session_id with
  | Raise _ => Some (SendFailed, s)
  | Ok hello =>
      let '(ok, s) := sendall (utf8_encode (text_cp hello)) s in
      if negb ok then Some (SendFailed, s) else
      let '(out, es, r) := receive_message fuel es (rx s) in
      match out with
      | Waiting => Some (Blocked, set_rx r s)
      | Looping => Some (Spinning, set_rx r s)
      | Closed | Message [] => Some (NoHello, set_rx r s)
      | Message hello =>
          let chunked := str_contains "urn:ietf:params:netconf:base:1.1" (cp_text hello) in
          rpc_loop (S (length es)) 0 0 es (set_rx (Rx (buffer r) chunked true) s)
      end
  end.
End Session.

(** ** A connection (netconfserver.py: handle_client) *)
Inductive served :=
  | Rejected   (* the certificate opens no session *)
  | NoAdapter  (* no leaf is connected for the session's role *)
  | Served (r : option (ending * session)).

Section Server.
Context (parse_xml : list Z -> res xml) (tostring : xml -> string).
Context (exn_str : exn -> string) (set_text : list string -> string) (dumps_indent : pyval -> string).
Context (gnmi : nat -> string -> gnmi_request -> res pyval) (sent : nat -> bool).
Context (fs : files) (yang_dir stub : string) (fuel : nat).

(** As app.py wires it: with a session manager and the pool.  [pool_open] is the
    pool when the connection opens, [pool_at n] when its [n]-th request is handled;
    [fallback] is the server's own adapter, if any; [others] is what other
    connections do to the session table meanwhile. *)
Definition handle_client (bypass : option string) (policies : engine) (a : addr) (c : option cert)
    (pool_open : pool) (pool_at : nat -> pool) (fallback : option (option nat))
    (others : list (addr * SessionContext) -> list (addr * SessionContext))
    (session_id : Z) (es : list recv_event) (m : manager) : served * manager :=
  match create_session bypass policies a c m with
  | (Raise _, m) => (Rejected, m)
  | (Ok ctx, m) =>
      let adapter := match get_client (sonic_role ctx) pool_open with Some i => Some (Some i) | None => fallback end in
      let out :=
        match adapter with
        | None => NoAdapter
        | Some own =>
            let env_at n := Env (Some (pool_at n)) (heap (pool_at n)) own (Some ctx) in
            Served (run_session parse_xml tostring exn_str set_text dumps_indent gnmi sent fs yang_dir stub
                      fuel env_at (namespace_map fs yang_dir) session_id es (Effects [] []))
        end in
      (out, remove_session a (mkManager (others (sessions m)) (current m)))
  end.
End Server.

(** ** What reaches the leafs *)
(** A read of the rules, the deletion of a rule by its id, or a well-formed write, which for
    the AGENT role is a stamped DROP.  That is all the code confines: deletions are open to
    every role, and an OPERATOR, which role_policy.py calls read-only, writes and deletes
    like an ADMIN ([Adapter.operator_edits_as_admin]). *)
Definition confined (role : option OnapRole) (q : string * gnmi_request) : Prop :=
  match q.2 with
  | GnmiGet path => path = "/nos-iptables:acl/rule"
  | GnmiDelete path => exists rule_id, path = rule_path rule_id
  | GnmiUpdate _ _ => rule_sound_for role q
  end.

Definition grows (role : option OnapRole) (e e' : effects) : Prop :=
  exists new, requests e' = requests e ++ new /\ Forall (confined role) new.

Lemma grows_refl role e : grows role e e.
Proof. exists []. by rewrite app_nil_r. Qed.
Lemma grows_trans role e1 e2 e3 : grows role e1 e2 -> grows role e2 e3 -> grows role e1 e3.
Proof.
  intros (n1 & H1 & F1) (n2 & H2 & F2). exists (n1 ++ n2). rewrite H2, H1, app_assoc. split; [done|by apply Forall_app].
Qed.

(** The messages a session would be given: the non-empty ones, in order. *)
Fixpoint messages (fuel rounds : nat) (es : list recv_event) (r : receiver) : list (list Z) :=
  match rounds with
  | O => []
  | S rounds =>
      match receive_message fuel es r with
      | (Message [], es, r) => messages fuel rounds es r
      | (Message m, es, r) => m :: messages fuel rounds es r
      | _ => []
      end
  end.

Section SessionLemmas.
Context (parse_xml : list Z -> res xml) (tostring : xml -> string).
Context (exn_str : exn -> string) (set_text : list string -> string) (dumps_indent : pyval -> string).
Context (gnmi : nat -> string -> gnmi_request -> res pyval) (sent : nat -> bool).
Context (fs : files) (yang_dir stub : string).
Abbreviation answer := (answer tostring exn_str set_text dumps_indent gnmi fs yang_dir stub).
Abbreviation handle_rpc := (handle_rpc parse_xml tostring exn_str set_text dumps_indent gnmi sent fs yang_dir stub).

Lemma get_config_grows env e : grows (current_onap_role env) e (handle_get_config env gnmi dumps_indent e).2.
Proof.
  unfold handle_get_config. destruct (live_client env _) as [c|]; [|exists []; by rewrite app_nil_r].
  cbn [send]. eexists [_]. split; [done|]. by repeat constructor.
Qed.

Lemma edit_config_grows env root e : grows (current_onap_role env) e (handle_edit_config env gnmi exn_str set_text root e).2.
Proof.
  destruct (edit_config_extends env gnmi exn_str set_text root e) as (new & Hn & Hf). exists new. split; [done|].
  eapply Forall_impl; [exact Hf|]. intros [h [p v|p|p]] Hr; [done|done|]. by destruct Hr.
Qed.

(** The answer to any request: its requests, and a text that carries its id. *)
Lemma answer_spec env ns root e :
  grows (current_onap_role env) e (answer env ns root e).1.2 /\
  has_head (attr_or root "message-id" "1") (answer env ns root e).1.1.
Proof.
  unfold NetconfSession.answer.
  pose proof (get_config_grows env e) as Hg. pose proof (edit_config_grows env root e) as He.
  pose proof (edit_config_head env gnmi exn_str set_text root e) as Hh.
  destruct (handle_get_config _ _ _ _) as [data e1], (handle_edit_config _ _ _ _ _ _) as [r e2].
  assert (Hd : forall d m, has_head m (rpc_reply d m)) by (intros; by eexists).
  assert (Hs : forall m a b c, has_head m (session_error m a b c)) by (intros; by eexists).
  assert (Hy : forall m t, has_head m (schema_reply m t)) by (intros; by eexists).
  cbn [fst snd] in *. pose proof (grows_refl (current_onap_role env) e) as Hr. pose proof (ok_reply_head (attr_or root "message-id" "1")) as Hk.
  destruct (some (nc "get-config" root)); [by split; cbn [fst snd]; auto|].
  destruct (some (nc "get" root) && is_monitoring_request tostring root); [by split; cbn [fst snd]; auto|].
  destruct (some (nc "get" root)); [by split; cbn [fst snd]; auto|]. destruct (some (nc "edit-config" root)); [by split; cbn [fst snd]; auto|].
  destruct (by_local "get-schema" root) as [|gs l].
  - destruct (some (nc "lock" root) || some (nc "unlock" root)); [by split; cbn [fst snd]; auto|].
    destruct (some (nc "commit" root)); [by split; cbn [fst snd]; auto|]. destruct (some (nc "close-session" root)); by split; cbn [fst snd]; auto.
  - destruct (schema_identifier gs); split; cbn [fst snd]; auto.
Qed.

Definition id_of (rpc : list Z) : string :=
  match parse_xml (utf8_encode rpc) with Ok root => attr_or root "message-id" "1" | Raise _ => "1" end.

(** What is sent for a request: one framed text that carries its id. *)
Definition replies_to (chunked : bool) (rpc : list Z) (o : list Z * bool) : Prop :=
  exists r, has_head (id_of rpc) r /\ o.1 = send_response chunked (text_cp r).

Lemma reply_spec r s :
  exists ok, outbox (reply sent r s) = outbox s ++
    [(send_response (use_chunked (rx s) && hello_complete (rx s)) (text_cp r), ok)] /\
    rx (reply sent r s) = rx s /\ eff (reply sent r s) = eff s.
Proof. unfold reply. cbn [sendall]. exists (sent (length (outbox s))). by destruct (sent _). Qed.

Lemma handle_rpc_spec env ns rpc s :
  let s' := handle_rpc env ns rpc s in
  (exists o, outbox s' = outbox s ++ [o] /\ replies_to (use_chunked (rx s) && hello_complete (rx s)) rpc o) /\
  rx s' = rx s /\ grows (current_onap_role env) (eff s) (eff s').
Proof.
  cbn zeta. unfold NetconfSession.handle_rpc, replies_to, id_of. destruct (parse_xml _) as [root|x].
  - pose proof (answer_spec env ns root (eff s)) as [Hg Hh]. destruct (answer _ _ _ _) as [[r e] close]. cbn [fst snd] in *.
    destruct (reply_spec r (set_eff e s)) as (ok & Ho & Hr & Hf).
    assert (Hc : forall b : bool, let s' := if b then stop_running (reply sent r (set_eff e s)) else reply sent r (set_eff e s) in
      outbox s' = outbox (reply sent r (set_eff e s)) /\ rx s' = rx (reply sent r (set_eff e s)) /\
      eff s' = eff (reply sent r (set_eff e s))) by (by intros []).
    destruct (Hc close) as (-> & -> & ->). rewrite Ho, Hr, Hf. split; [|done]. eexists. split; [done|]. eauto.
  - destruct (reply_spec (session_error "1" "application" "operation-failed" (exn_str x)) s) as (ok & -> & -> & ->).
    split; [|eauto using grows_refl]. eexists. split; [done|]. eexists. split; [|done]. by eexists.
Qed.
End SessionLemmas.

(** A message takes at least one event. *)
Lemma receive_consumes fuel es : forall r out es' r', receive_message fuel es r = (out, es', r') ->
  (length es' <= length es)%nat /\ (forall m, out = Message m -> (length es' < length es)%nat) /\
  use_chunked r' = use_chunked r /\ hello_complete r' = hello_complete r.
Proof.
  induction es as [|ev es IH]; intros r out es' r'; cbn [receive_message]; [by intros; simplify_eq|].
  assert (Hrec : forall r1, use_chunked r1 = use_chunked r -> hello_complete r1 = hello_complete r ->
    receive_message fuel es r1 = (out, es', r') ->
    (length es' <= length (ev :: es))%nat /\ (forall m, out = Message m -> (length es' < length (ev :: es))%nat) /\
    use_chunked r' = use_chunked r /\ hello_complete r' = hello_complete r).
  { intros r1 <- <- E. apply IH in E as (? & ? & ? & ?). cbn [length]. splits; try done; intros; lia. }
  destruct ev; [|intros; simplify_eq; cbn; splits; try done; lia|by apply Hrec|intros; simplify_eq; cbn; splits; try done; lia].
  destruct (take_message _ _) as [[out1 r1]|] eqn:Et; [|by apply Hrec].
  intros; simplify_eq. cbn [length]. unfold take_message in Et.
  repeat case_match; simplify_eq; cbn; splits; try done; intros; lia.
Qed.

Section LoopLemmas.
Context (parse_xml : list Z -> res xml) (tostring : xml -> string).
Context (exn_str : exn -> string) (set_text : list string -> string) (dumps_indent : pyval -> string).
Context (gnmi : nat -> string -> gnmi_request -> res pyval) (sent : nat -> bool).
Context (fs : files) (yang_dir stub : string).
Context (fuel : nat) (env_at : nat -> adapter_env) (ns : list (string * string)).
Abbreviation loop := (rpc_loop parse_xml tostring exn_str set_text dumps_indent gnmi sent fs yang_dir stub fuel env_at ns).

(** With more rounds than events the loop comes to an end. *)
Lemma rpc_loop_total rounds : forall n idle es s, (length es < rounds)%nat -> exists r, loop rounds n idle es s = Some r.
Proof.
  induction rounds as [|rounds IH]; intros n idle es s Hl; [lia|]. cbn [rpc_loop].
  destruct (running s); cbn [negb]; [|eauto].
  destruct (receive_message fuel es (rx s)) as [[out es1] r1] eqn:E.
  apply receive_consumes in E as (_ & Hm & _). destruct out as [m| | |]; eauto.
  specialize (Hm m eq_refl). destruct m; [case_match; eauto|]; apply IH; lia.
Qed.

(** The loop's replies answer a prefix of the messages, in order. *)
Lemma rpc_loop_replies rounds : forall n idle es s fin s', loop rounds n idle es s = Some (fin, s') ->
  exists done rest outs, messages fuel rounds es (rx s) = done ++ rest /\ outbox s' = outbox s ++ outs /\
    Forall2 (replies_to parse_xml (use_chunked (rx s) && hello_complete (rx s))) done outs /\
    (fin = Blocked -> rest = []).
Proof.
  induction rounds as [|rounds IH]; intros n idle es s fin s'; [done|]. cbn [rpc_loop messages].
  destruct (running s); cbn [negb]; [|intros; simplify_eq; eexists [], _, []; split; [reflexivity|]; rewrite app_nil_r; splits; done || constructor].
  destruct (receive_message fuel es (rx s)) as [[out es1] r1] eqn:E.
  apply receive_consumes in E as (_ & _ & Hc & Hh).
  assert (Hend : forall f l, Some (f, set_rx r1 s) = Some (fin, s') -> (f = Blocked -> l = []) ->
    exists done rest outs, l = done ++ rest /\ outbox s' = outbox s ++ outs /\
      Forall2 (replies_to parse_xml (use_chunked (rx s) && hello_complete (rx s))) done outs /\ (fin = Blocked -> rest = [])).
  { intros f l Hs Hb. injection Hs as <- <-. exists [], l, []. rewrite app_nil_r. splits; done || constructor. }
  destruct out as [m| | |]; try (intros Hs; exact (Hend _ [] Hs (fun _ => eq_refl))).
  destruct m as [|c m].
  - case_match; [intros Hs; by eapply Hend|]. intros Hs. apply IH in Hs as (dn & rest & outs & H1 & H2 & H3 & H4).
    cbn [rx set_rx outbox] in *. rewrite Hc, Hh in H3. eauto 10.
  - intros Hs. apply IH in Hs as (dn & rest & outs & H1 & H2 & H3 & H4).
    destruct (handle_rpc_spec parse_xml tostring exn_str set_text dumps_indent gnmi sent fs yang_dir stub
      (env_at n) ns (c :: m) (set_rx r1 s)) as ((o & Ho & Hr) & Hx & _).
    rewrite Hx in H1, H3. cbn [rx set_rx outbox] in *. rewrite Hc, Hh in *.
    exists ((c :: m) :: dn), rest, (o :: outs). rewrite H2, Ho, <- app_assoc, H1. splits; [done|done|by constructor|done].
Qed.

Lemma rpc_loop_grows role rounds : (forall n, current_onap_role (env_at n) = role) ->
  forall n idle es s fin s', loop rounds n idle es s = Some (fin, s') -> grows role (eff s) (eff s').
Proof.
  intros Hrole. induction rounds as [|rounds IH]; intros n idle es s fin s'; [done|]. cbn [rpc_loop].
  destruct (running s); cbn [negb]; [|intros; simplify_eq; apply grows_refl].
  destruct (receive_message fuel es (rx s)) as [[out es1] r1].
  destruct out as [[|c m]| | |]; try (intros; simplify_eq; apply grows_refl).
  - case_match; [intros; simplify_eq; apply grows_refl|]. intros Hs. by apply IH in Hs.
  - intros Hs. apply IH in Hs. eapply grows_trans; [|exact Hs].
    destruct (handle_rpc_spec parse_xml tostring exn_str set_text dumps_indent gnmi sent fs yang_dir stub
      (env_at n) ns (c :: m) (set_rx r1 s)) as (_ & _ & Hg). by rewrite Hrole in Hg.
Qed.
End LoopLemmas.

Section RunLemmas.
Context (parse_xml : list Z -> res xml) (tostring : xml -> string).
Context (exn_str : exn -> string) (set_text : list string -> string) (dumps_indent : pyval -> string).
Context (gnmi : nat -> string -> gnmi_request -> res pyval) (sent : nat -> bool).
Context (fs : files) (yang_dir stub : string).
Context (fuel : nat) (env_at : nat -> adapter_env) (ns : list (string * string)).
Abbreviation run := (run_session parse_xml tostring exn_str set_text dumps_indent gnmi sent fs yang_dir stub fuel env_at ns).

Lemma run_session_confined role session_id es e : (forall n, current_onap_role (env_at n) = role) ->
  exists fin s, run session_id es e = Some (fin, s) /\ grows role e (eff s).
Proof.
  intros Hrole. unfold run_session. destruct (hello_message _ _ _) as [hello|]; [|eauto using grows_refl].
  cbn [sendall]. destruct (sent _); cbn [negb]; [|eexists _, _; split; [done|]; apply grows_refl].
  destruct (receive_message _ _ _) as [[out es1] r1].
  destruct out as [[|c m]| | |]; try (eexists _, _; split; [done|]; apply grows_refl).
  match goal with |- context [rpc_loop _ _ _ _ _ _ _ _ _ _ _ _ _ ?rounds ?n ?idle ?l ?s0] =>
    destruct (rpc_loop_total parse_xml tostring exn_str set_text dumps_indent gnmi sent fs yang_dir stub fuel env_at ns
      rounds n idle l s0) as [[fin s'] E]; [lia|] end.
  exists fin, s'. split; [exact E|]. by eapply rpc_loop_grows in E.
Qed.
End RunLemmas.

Lemma create_session_cases bypass policies a c m :
  match extract_onap_role_from_cert bypass c with
  | None => exists e, create_session bypass policies a c m = (Raise e, m)
  | Some role => exists ctx m', create_session bypass policies a c m = (Ok ctx, m') /\ onap_role ctx = role
  end.
Proof.
  unfold create_session. destruct (extract_onap_role_from_cert bypass c) as [role|]; [|eauto].
  destruct (get_allowed_roles policies role); eauto.
Qed.


(** C18: after the hello exchange the session answers the requests it is given one
    by one, in their order: what it has sent besides its hello is one framed
    text for each of the first requests, with that request's message id and in the
    framing the client's hello asked for; when it waits for more data, every
    request it was given has its reply. *)
Theorem replies_in_order parse_xml tostring exn_str set_text dumps_indent gnmi sent fs yang_dir stub fuel env_at ns
    session_id es es' hello r e fin s :
  receive_message fuel es (Rx [] false false) = (Message hello, es', r) -> hello <> [] ->
  run_session parse_xml tostring exn_str set_text dumps_indent gnmi sent fs yang_dir stub fuel env_at ns
    session_id es e = Some (fin, s) ->
  fin <> SendFailed ->
  let chunked := str_contains "urn:ietf:params:netconf:base:1.1" (cp_text hello) in
  exists first done rest outs, outbox s = first :: outs /\
    messages fuel (S (length es')) es' (Rx (buffer r) chunked true) = done ++ rest /\
    Forall2 (replies_to parse_xml chunked) done outs /\ (fin = Blocked -> rest = []).
Proof.
  intros Hr Hh Hrun Hfin chunked. unfold run_session in Hrun.
  destruct (hello_message _ _ _) as [hello0|]; [|by simplify_eq]. cbn [sendall] in Hrun.
  destruct (sent _); cbn [negb] in Hrun; [|by simplify_eq]. cbn [rx] in Hrun. rewrite Hr in Hrun.
  destruct hello as [|c hello]; [done|]. apply rpc_loop_replies in Hrun as (dn & rest & outs & Hm & Ho & Hf & Hb).
  cbn [rx set_rx outbox use_chunked hello_complete] in *. rewrite andb_true_r in Hf.
  eexists _, dn, rest, outs. rewrite Ho. done.
Qed.

Definition schema_start : string :=
  ("    <data xmlns=" ++ dq ++ "urn:ietf:params:xml:ns:yang:ietf-netconf-monitoring" ++ dq ++ ">")%string.

(** a get-schema request for a module that is in the directory is answered with its
    text: the character data of the reply, its entities replaced, is what the
    file holds, and no leaf is asked. *)
Theorem get_schema_faithful tostring exn_str set_text dumps_indent gnmi fs yang_dir stub env ns root e gs rest id text :
  Forall (fun op => nc op root = []) ["get-config"; "get"; "edit-config"] ->
  by_local "get-schema" root = gs :: rest -> schema_identifier gs = Some id ->
  resolve ns id <> MONITORING -> exists_ fs yang_dir = true ->
  let file := path_join yang_dir (resolve ns id ++ ".yang") in
  exists_ fs file = true -> read_text fs file = Ok text ->
  exists data, answer tostring exn_str set_text dumps_indent gnmi fs yang_dir stub env ns root e =
    ((reply_head (attr_or root "message-id" "1") ++ schema_start ++ data)%string, e, false) /\
    unescape (char_data data) = text.
Proof.
  intros Hops Hg Hi Hm Hd file Hf Ht. repeat match goal with H : Forall _ (_ :: _) |- _ => apply Forall_cons in H as [? ?] end.
  unfold answer. repeat match goal with H : nc _ root = [] |- _ => rewrite H; clear H end. cbn [some andb].
  rewrite Hg, Hi. unfold load_yang_file. rewrite bool_decide_eq_false_2 by done. cbn [andb]. rewrite Hd. cbn [negb].
  fold file. rewrite Hf, Ht. exists (escape text ++ "</data>" ++ nl ++ "</rpc-reply>")%string. split.
  - unfold schema_reply, schema_start. by rewrite !str_app_assoc.
  - rewrite str_app_cons, char_data_escape. apply unescape_escape.
Qed.

(** A client of the base protocol that sends its hello and a commit. *)
Definition sample_root : xml := Elem NC "rpc" [("message-id", "7")] None [Elem NC "commit" [] None []].
Definition sample_events : list recv_event :=
  [Data (cps "<hello/>]]>]]><rpc/>]]>]]>"); Timeout_; Data (cps " ")].

Lemma replies_in_order_witness :
  exists fin s, run_session (fun _ => Ok sample_root) (fun _ => "") (fun _ => "") (fun _ => "") (fun _ => "")
      (fun _ _ _ => Ok PNone) (fun _ => true) sample_files "/yang" "" 10 (fun _ => Env None ∅ None None) [] 1
      sample_events (Effects [] []) = Some (fin, s) /\ fin = Blocked /\
  exists first done rest outs, outbox s = first :: outs /\
    messages 10 3 (tail sample_events) (Rx (cps "<rpc/>]]>]]>") false true) = done ++ rest /\
    Forall2 (replies_to (fun _ => Ok sample_root) false) done outs /\ (fin = Blocked -> rest = []).
Proof.
  eexists _, _. split; [vm_compute; reflexivity|]. split; [reflexivity|].
  refine (replies_in_order (fun _ => Ok sample_root) (fun _ => "") (fun _ => "") (fun _ => "") (fun _ => "")
      (fun _ _ _ => Ok PNone) (fun _ => true) sample_files "/yang" "" 10 (fun _ => Env None ∅ None None) [] 1
      sample_events (tail sample_events) (cps "<hello/>") (Rx (cps "<rpc/>]]>]]>") false false) (Effects [] []) Blocked _ _ _ _ _).
  - vm_compute; reflexivity.
  - discriminate.
  - vm_compute; reflexivity.
  - discriminate.
Defined.

Definition sample_get_schema : xml :=
  Elem NC "rpc" [("message-id", "8")] None
    [Elem "urn:ietf:params:xml:ns:yang:ietf-netconf-monitoring" "get-schema" [] None [Elem "" "identifier" [] (Some "urn:m") []]].

Lemma get_schema_faithful_witness :
  exists data, answer (fun _ => "") (fun _ => "") (fun _ => "") (fun _ => "") (fun _ _ _ => Ok PNone)
    sample_files "/yang" "" (Env None ∅ None None) (namespace_map sample_files "/yang") sample_get_schema (Effects [] []) =
    ((reply_head "8" ++ schema_start ++ data)%string, Effects [] [], false) /\ unescape (char_data data) = sample_module.
Proof.
  refine (get_schema_faithful (fun _ => "") (fun _ => "") (fun _ => "") (fun _ => "") (fun _ _ _ => Ok PNone)
    sample_files "/yang" "" (Env None ∅ None None) (namespace_map sample_files "/yang") sample_get_schema (Effects [] [])
    (Elem "urn:ietf:params:xml:ns:yang:ietf-netconf-monitoring" "get-schema" [] None [Elem "" "identifier" [] (Some "urn:m") []])
    [] "urn:m" sample_module _ _ _ _ _ _ _); try (vm_compute; reflexivity).
  - repeat constructor.
  - vm_compute; discriminate.
Defined.
