(* ===== verification/Tools.v ===== *)
(** * The tools of the agent (agent/tools.py, the tool handlers of agent/nodes.py)

    [execute_query_kg] runs a Cypher text of the LLM on the graph server, which may answer
    anything: [query_kg_reads] says which texts are sent and what comes back.  The
    investigation of an alert: the asset's neighbours, the past incidents in the decision
    table and the effect of a block.  The server's answers, the clock, the embedding model
    and SHA-1 are parameters. *)
From S2P Require Import Prelude PyVal Json Models Topology Policy Postgres DecisionStore OperationalMemory Redis Regex Knowledge.
Local Open Scope string_scope.
Local Open Scope Z_scope.
Local Open Scope list_scope.

(** ** [query_kg] *)
Definition phrase (a b : string) : re := seqs [lit a; spaces1; lit b].
Definition KEYWORDS : list string := ["CREATE"; "DELETE"; "MERGE"; "SET"; "REMOVE"; "DROP"; "DETACH"; "FOREACH"].
Definition PHRASES : list (string * string) := [("LOAD", "CSV"); ("CALL", "DBMS"); ("CALL", "APOC.LOAD")].
Definition KG_WRITE_KEYWORD : re :=
  seqs [RBound; alts (map lit KEYWORDS ++ map (fun p => phrase p.1 p.2) PHRASES); RBound].
Definition KG_RESULT_LIMIT : nat := 50.
(** [timeout=5.0]: a keyword of [run] that the driver takes for a parameter of the query. *)
Definition KG_PARAMETERS : obj := [("timeout", PFloat 5)].

(** What the server makes of a text: an exception, or rows that may end with one. *)
Inductive kg_answer := Refused (e : exn) | Rows (rows : list obj) (fail : option exn).
Record kg_result := KgResult {
  kr_ok : bool; kr_rows : list obj; kr_count : Z; kr_truncated : bool; kr_error : option string }.
Definition kg_failed (msg : string) : kg_result := KgResult false [] 0 false (Some msg).
Definition kg_dict (r : kg_result) : pyval :=
  PDict [("ok", PBool (kr_ok r)); ("rows", PList (map PDict (kr_rows r))); ("row_count", PInt (kr_count r));
         ("truncated", PBool (kr_truncated r)); ("error", match kr_error r with Some e => PStr e | None => PNone end)].

(** A node or a map without the mark of the loader. *)
Definition clean_value (v : pyval) : pyval :=
  match v with PDict d => PDict (List.filter (fun kv => negb (bool_decide (kv.1 = "kg_managed"))) d) | v => v end.
Definition clean_row (r : obj) : obj := map (fun kv => (kv.1, clean_value kv.2)) r.
(** The rows that are kept; a row too many ends the reading. *)
Fixpoint collect (room : nat) (rows : list obj) (fail : option exn) : res (list obj * bool) :=
  match rows with
  | [] => match fail with Some e => Raise e | None => Ok ([], false) end
  | r :: rows =>
      match room with
      | O => Ok ([], true)
      | S room => let* '(kept, truncated) := collect room rows fail in Ok (clean_row r :: kept, truncated)
      end
  end.

Section QueryKg.
Context `{UnicodeData} (upper : string -> string) (exn_name exn_str : exn -> string).

(** The queries sent to the server, with their parameters, and the result. *)
Definition execute_query_kg (driver : option (string -> obj -> kg_answer)) (cypher : pyval) : list (string * obj) * res kg_result :=
  match driver with
  | None => ([], Ok (kg_failed "Neo4j driver unavailable — KG offline."))
  | Some run =>
      match cypher with
      | PStr q =>
          match search KG_WRITE_KEYWORD None (points q) with
          | Some m => ([], Ok (kg_failed ("Write operation '" ++ upper (of_points (group0 m)) ++ "' rejected — query_kg is read-only.")%string))
          | None =>
              let failed e := Ok (kg_failed ("Cypher error: " ++ exn_name e ++ ": " ++ exn_str e)%string) in
              ([(q, KG_PARAMETERS)],
               match run q KG_PARAMETERS with
               | Refused e => failed e
               | Rows rows fail =>
                   match collect KG_RESULT_LIMIT rows fail with
                   | Ok (kept, truncated) => Ok (KgResult true kept (Z.of_nat (length kept)) truncated None)
                   | Raise e => failed e
                   end
               end)
          end
      | _ => ([], Raise (TypeError "expected string or bytes-like object"))
      end
  end.
End QueryKg.

(** ** [get_alert_history] and the handlers the LLM's calls go to *)
(** [limit - 1] as the end of [LRANGE]: a negative one counts from the end of the list. *)
Definition history_upto (limit : Z) (l : list pyval) : list pyval :=
  if limit <=? 0 then take (Z.to_nat (Z.of_nat (length l) + limit)) l else take (Z.to_nat limit) l.
Definition range_end (limit : pyval) : res Z :=
  match limit with
  | PInt z => Ok z
  | PBool b => Ok (if b then 1 else 0)
  | PFloat _ => Raise (OtherError "ResponseError")
  | _ => Raise (TypeError "unsupported operand type(s) for -")
  end.
Definition execute_get_alert_history `{RedisServer} `{PyRepr} (now : Z) (src_ip limit : pyval) (s : redis) : res pyval :=
  let* n := range_end limit in
  let history := history_upto n (get_alert_history now (py_str src_ip) 0 s) in
  Ok (PDict [("src_ip", src_ip); ("count", PInt (Z.of_nat (length history))); ("history", PList history)]).

Section Handlers.
Context `{UnicodeData} `{RedisServer} `{PyRepr} (upper : string -> string) (exn_name exn_str : exn -> string).
(** The server, the clock and the store at the [n]-th call. *)
Context (server : nat -> string -> obj -> kg_answer) (clock : nat -> Z) (store : nat -> option redis).

(** [handler( **args )]: the parameters by name, the ones with a default may be left out. *)
Definition bind_args (required optional : list string) (args : pyval) : res obj :=
  match args with
  | PDict d =>
      if forallb (fun k => dict_mem d k) required && forallb (fun kv => bool_decide (kv.1 ∈ required ++ optional)) d then Ok d
      else Raise (TypeError "unexpected or missing argument")
  | _ => Raise (TypeError "argument after ** must be a mapping")
  end.
Definition kg_handler (n : nat) (args : pyval) : res pyval :=
  let* d := bind_args ["cypher"] [] args in
  let* r := (execute_query_kg upper exn_name exn_str (Some (server n)) (jget d "cypher")).2 in
  Ok (PStr (py_str (kg_dict r))).
Definition history_handler (n : nat) (args : pyval) : res pyval :=
  let* d := bind_args ["src_ip"] ["limit"] args in
  match store n with
  | None => Ok (PStr (py_str (PDict [("error", PStr "Redis unavailable")])))
  | Some s =>
      let* r := execute_get_alert_history (clock n) (jget d "src_ip") (jget_or d "limit" (PInt 10)) s in
      Ok (PStr (py_str r))
  end.
Definition tool_handlers (name : string) : option (nat -> pyval -> res pyval) :=
  if bool_decide (name = "query_kg") then Some kg_handler
  else if bool_decide (name = "get_alert_history") then Some history_handler
  else None.
(** What a logged call sends to the graph server. *)
Definition sent_by (n : nat) (use : string * pyval) : list (string * obj) :=
  if bool_decide (use.1 = "query_kg") then
    match bind_args ["cypher"] [] use.2 with
    | Ok d => (execute_query_kg upper exn_name exn_str (Some (server n)) (jget d "cypher")).1
    | Raise _ => []
    end
  else [].
End Handlers.

(** ** The investigation of an alert *)
Section Investigation.
Context (k : knowledge).
Definition flow_entry (p : TrafficPattern) : pyval :=
  PDict [("name", PStr (tp_name p)); ("criticality", PStr (flow_value (pt_criticality_to_business p)))].
Definition count_of {A} (l : list A) : pyval := PInt (Z.of_nat (length l)).

Definition query_asset_neighbors (ip : string) : obj :=
  let bare := bare_ip ip in
  match get_asset k bare with
  | None => [("ip", PStr bare); ("asset_known", PBool false); ("blast_radius_score", PStr "unknown");
             ("note", PStr "IP not in asset inventory — cannot assess impact precisely.")]
  | Some asset =>
      let all := b_patterns (k_baselines k) in
      let as_source := List.filter (fun p : TrafficPattern => bool_decide (tp_src_ip p = bare)) all in
      let as_destination := List.filter (fun p : TrafficPattern =>
        bool_decide (tp_dst_ip p = bare) || (bool_decide (tp_dst_ip p = "rotating") && bool_decide (tp_src_ip p = "10.2.50.10"))) all in
      let by_criticality := match as_criticality asset with CRITICAL => "high" | HIGH => "medium" | _ => "low" end in
      let blast_radius := if (3 <=? length as_destination)%nat then "high" else by_criticality in
      [("ip", PStr bare); ("asset_known", PBool true); ("hostname", PStr (as_hostname asset)); ("tier", PStr (as_tier asset));
       ("criticality", PStr (criticality_value (as_criticality asset)));
       ("expected_inbound_count", count_of as_destination); ("expected_outbound_count", count_of as_source);
       ("outbound_flows", PList (map flow_entry as_source)); ("inbound_flows", PList (map flow_entry as_destination));
       ("blast_radius_score", PStr blast_radius); ("if_blocked", PStr (as_if_blocked_impact asset))]
  end.

Definition simulate_block_impact (src_ip dst_ip : string) (dst_port : Z) : obj :=
  let bare_src := bare_ip src_ip in
  let bare_dst := if nonempty dst_ip then bare_ip dst_ip else "" in
  let all := b_patterns (k_baselines k) in
  let outbound := List.filter (fun p : TrafficPattern => bool_decide (tp_src_ip p = bare_src)) all in
  let inbound := List.filter (fun p : TrafficPattern =>
    bool_decide (tp_dst_ip p = bare_src) ||
    (bool_decide (tp_dst_ip p = "rotating") && bool_decide (bare_src ∈ ["10.1.100.10"; "10.2.100.10"; "10.1.200.10"]))) all in
  let targeted := if nonempty bare_dst && negb (dst_port =? 0) then find_baseline k bare_src bare_dst dst_port "tcp" else None in
  [("src_ip", PStr bare_src); ("dst_ip", PStr bare_dst); ("dst_port", PInt dst_port);
   ("full_block_impact", PDict [("rule_form", PStr ("DROP all from " ++ bare_src));
     ("outbound_flows_broken", PList (map (fun p : TrafficPattern => PDict [("name", PStr (tp_name p));
       ("criticality", PStr (flow_value (pt_criticality_to_business p))); ("consequence", PStr (pt_if_disrupted p))]) outbound));
     ("inbound_flows_broken_count", count_of inbound);
     ("asset_consequence", PStr (match get_asset k bare_src with Some a => as_if_blocked_impact a | None => "unknown impact" end))]);
   ("targeted_block_impact", PDict [("rule_form", PStr (if nonempty bare_dst
        then "DROP " ++ bare_src ++ " → " ++ bare_dst ++ ":" ++ str_of_Z dst_port else "(no dst — N/A)")%string);
     ("matches_legitimate_baseline", PBool (bool_decide (is_Some targeted)));
     ("baseline_name", match targeted with Some p => PStr (tp_name p) | None => PNone end);
     ("narrow_scope", PStr "Only this specific flow blocked — legitimate flows from same src preserved.")]);
   ("recommendation", PStr (if nonempty dst_ip && negb (dst_port =? 0) then
      "TARGETED block (src+dst+port) preferred — preserves legitimate flows from same source. Use FULL block only if attacker pattern is multi-destination scanning."
      else "Insufficient flow tuple for targeted block — only full-source available."))].
End Investigation.

(** ** Past incidents *)
Section Past.
Context `{PyRepr} `{Postgres} `{RedisServer} (iso : Z -> string) (sha1 : string -> string) (embed_text : string -> option (list Q)).
Context (now : Z) (sid : Z) (src_zone dst_zone : option string) (lookback_days : Z) (limit : Z).

Definition opt_text (o : option string) : pyval := match o with Some s => PStr s | None => PNone end.
Definition in_window (r : row) : bool := now - lookback_days * DAY <=? created_at r.
Definition same_sid (r : row) : bool := bool_decide (column r "alert_sid" = PInt sid) && in_window r.
Definition same_technique (mitre : string) (r : row) : bool :=
  bool_decide (column r "mitre_technique" = PStr mitre) && negb (bool_decide (column r "alert_sid" = PInt sid)) && in_window r.
Definition slice_upto {A} (n : Z) (l : list A) : list A :=
  if n <? 0 then take (Z.to_nat (Z.of_nat (length l) + n)) l else take (Z.to_nat n) l.

Definition past_entry (r : row) : pyval :=
  PDict [("id", column r "id"); ("date", PStr (iso (created_at r))); ("outcome", column r "outcome"); ("action", column r "action");
         ("confidence", column r "confidence")].
Definition mitre_entry (r : row) : pyval :=
  PDict [("id", column r "id"); ("alert_sid", column r "alert_sid"); ("date", PStr (iso (created_at r))); ("outcome", column r "outcome");
         ("action", column r "action"); ("confidence", column r "confidence"); ("primary_hypothesis", column r "primary_hypothesis")].

Record exact_match := ExactMatch { em_count : Z; em_breakdown : list (pyval * Z); em_last : list pyval }.
Definition no_exact : exact_match := ExactMatch 0 [] [].
(** The three statements of the exact path see the database as [db1], [db2] and [db3]. *)
Definition exact_sid_match (db1 db2 db3 : pg) : res exact_match :=
  let* counted := pg_select Decisions same_sid Unordered None db1 in
  match counted with
  | [] => Ok no_exact
  | _ =>
      let* by_outcome := pg_select Decisions same_sid Unordered None db2 in
      let* recent := pg_select Decisions same_sid Newest (Some limit) db3 in
      Ok (ExactMatch (Z.of_nat (length counted)) (group_count (fun r => column r "outcome") by_outcome) (map past_entry recent))
  end.

Definition floats_of (v : pyval) : list Q :=
  match v with PList l => omap (fun x => match x with PFloat q => Some q | PInt z => Some (inject_Z z) | _ => None end) l | _ => [] end.
Definition floats (l : list Q) : pyval := PList (map PFloat l).
(** The vector of a text, from the warm cache or computed and cached. *)
Definition vector_of (text : string) (cache : option redis) : option (list Q) * option redis :=
  let key := sha1 text in
  match cache with
  | None => (embed_text text, None)
  | Some r =>
      match get_cached_embedding now key r with
      | Some v => (Some (floats_of v), Some r)
      | None => match embed_text text with
                | None => (None, Some r)
                | Some v => (Some v, Some (cache_embedding now key (floats v) r))
                end
      end
  end.
Definition semantic_match (text : string) (cache : option redis) (db : pg) : list pyval * option redis :=
  if negb (nonempty text) then ([], cache) else
  match vector_of text cache with
  | (None, cache) => ([], cache)
  | (Some v, cache) => (search_similar_by_embedding iso now v None None lookback_days limit (3 # 10) (Some db), cache)
  end.

Definition mitre_match (mitre : option string) (db : pg) : res (list pyval) :=
  match mitre with
  | Some m => if nonempty m then let* rows := pg_select Decisions (same_technique m) Newest (Some limit) db in Ok (map mitre_entry rows) else Ok []
  | None => Ok []
  end.

(** [snap n]: the database when the [n]-th statement runs; an exception in a path counts as
    no result of it. *)
Definition find_similar_past_incidents (text : string) (mitre : option string) (cache : option redis) (snap : option (nat -> pg))
    : res obj * option redis :=
  match snap with
  | None => (Ok [("match_count", PInt 0); ("note", PStr "Postgres unavailable")], cache)
  | Some snap =>
      let head_ := [("sid", PInt sid); ("src_zone", opt_text src_zone); ("dst_zone", opt_text dst_zone); ("lookback_days", PInt lookback_days)] in
      let none note := Ok (head_ ++ [("match_count", PInt 0); ("semantic_match_count", PInt 0); ("mitre_match_count", PInt 0); ("note", PStr note)]) in
      match pg_select Decisions in_window Unordered None (snap 0%nat) with
      | Raise e => (Raise e, cache)
      | Ok [] => (none "No decisions in window — sentinel short-circuit (cold cache).", cache)
      | Ok _ =>
          let exact := match exact_sid_match (snap 1%nat) (snap 2%nat) (snap 3%nat) with Ok m => m | Raise _ => no_exact end in
          let '(semantic, cache) := semantic_match text cache (snap 4%nat) in
          let mitres := match mitre_match mitre (snap 5%nat) with Ok l => l | Raise _ => [] end in
          let n_exact := em_count exact in
          let n_sem := Z.of_nat (length semantic) in
          let n_mitre := Z.of_nat (length mitres) in
          if n_exact + n_sem + n_mitre =? 0 then (none "No similar past incidents — first time agent sees this pattern in window.", cache) else
          let enforced := count_in (em_breakdown exact) "enforced" in
          let signal := (if (0 <? enforced)%Z
            then "agent enforced " ++ str_of_Z enforced ++ "/" ++ str_of_Z n_exact ++ " times — pattern is recurring threat" else "no signal")%string in
          let signal := (if (0 <? n_sem)%Z then signal ++ "; +" ++ str_of_Z n_sem ++ " semantically-similar prior incident(s)" else signal)%string in
          let signal := (if (0 <? n_mitre)%Z then signal ++ "; +" ++ str_of_Z n_mitre ++ " MITRE " ++ py_str (opt_text mitre) ++ " match(es)" else signal)%string in
          (Ok (head_ ++ [("match_count", PInt n_exact); ("semantic_match_count", PInt n_sem); ("mitre_match_count", PInt n_mitre);
             ("outcome_breakdown", PDict (as_dict (em_breakdown exact))); ("last_decisions", PList (em_last exact));
             ("semantic_matches", PList (slice_upto limit semantic)); ("mitre_matches", PList (slice_upto limit mitres));
             ("pattern_assessment", PStr signal)]), cache)
      end
  end.
End Past.

(** ** [prefetch_investigation_context] *)
Section Prefetch.
Context `{PyRepr} `{Postgres} `{RedisServer} (iso : Z -> string) (sha1 : string -> string) (embed_text : string -> option (list Q)) (exn_str : exn -> string).
Context (k : knowledge).
Definition or_mark (o : option string) : string := match o with Some z => if nonempty z then z else "?" | None => "?" end.
(** The SIDs of the catalogue; [text.split()] is a parameter. *)
Definition find_sid (sid : Z) : option Knowledge.SidDetection := dict_get (k_sids k) (PInt sid).
Definition semantic_text (strip : string -> string) (sid : Z) (signature : string) (src_zone dst_zone : option string) : string :=
  match find_sid sid with
  | Some d => strip ("SID " ++ str_of_Z sid ++ " " ++ dt_signature_msg d ++ " flow " ++ or_mark src_zone ++ " to " ++ or_mark dst_zone ++
      " MITRE " ++ dt_mitre_technique d ++ " " ++ dt_mitre_tactic d)%string
  | None => if nonempty signature
      then ("SID " ++ str_of_Z sid ++ " " ++ signature ++ " flow " ++ or_mark src_zone ++ " to " ++ or_mark dst_zone)%string else ""
  end.
Definition technique_of (words : string -> list string) (sid : Z) : res (option string) :=
  match find_sid sid with
  | None => Ok None
  | Some d => if nonempty (dt_mitre_technique d) then
      match words (dt_mitre_technique d) with w :: _ => Ok (Some w) | [] => Raise IndexError end else Ok None
  end.
Definition prefetch_investigation_context (strip : string -> string) (words : string -> list string) (now : Z) (src_ip dst_ip : string)
    (dst_port sid : Z) (signature : string) (cache : option redis) (snap : option (nat -> pg)) : res obj * option redis :=
  let src_zone := ip_to_zone src_ip in
  let dst_zone := if nonempty dst_ip then ip_to_zone dst_ip else None in
  match technique_of words sid with
  | Raise e => (Raise e, cache)
  | Ok mitre =>
      let '(past, cache) := find_similar_past_incidents iso sha1 embed_text now sid src_zone dst_zone 90 5
        (semantic_text strip sid signature src_zone dst_zone) mitre cache snap in
      (Ok [("asset_neighbors", PDict (query_asset_neighbors k src_ip));
           ("past_incidents", match past with Ok d => PDict d | Raise e => PDict [("error", PStr (exn_str e))] end);
           ("block_impact", PDict (simulate_block_impact k src_ip dst_ip dst_port))], cache)
  end.
End Prefetch.

(** ** What counts as a write *)
Section WriteWords.
Context `{UnicodeData}.
(** A keyword, or the words of a phrase with white space between them, in any case of letters. *)
Definition write_phrase (w : list Z) : Prop :=
  (exists kw, (kw ∈ KEYWORDS) /\ Forall2 ci_eq (points kw) w) \/
  (exists p w1 sp w2, (p ∈ PHRASES) /\ w = w1 ++ sp ++ w2 /\ Forall2 ci_eq (points p.1) w1 /\ Forall2 ci_eq (points p.2) w2 /\
     sp <> [] /\ Forall (fun c => space_cp c = true) sp).
(** It occurs as a word of its own. *)
Definition write_word (t : list Z) : Prop :=
  exists u w v, t = u ++ w ++ v /\ write_phrase w /\ at_bound (before None u) (w ++ v) = true /\ at_bound (before None (u ++ w)) v = true.

Lemma matches_star f b w t : Matches (RStar true (RChar f)) b w t <-> Forall (fun c => f c = true) w.
Proof.
  split.
  - intros Hm. remember (RStar true (RChar f)) as r eqn:Er. induction Hm; try discriminate; [constructor|]. injection Er as -> ->.
    apply Forall_app. split; [|by apply IHHm2]. inversion Hm1; subst. by constructor.
  - revert b. induction w as [|c w IH]; intros b Hf; [constructor|]. apply Forall_cons in Hf as [Hc Hf].
    apply (M_more true (RChar f) b [c] w t); [done|by constructor|by apply IH].
Qed.
Lemma matches_spaces1 b w t : Matches spaces1 b w t <-> w <> [] /\ Forall (fun c => space_cp c = true) w.
Proof.
  unfold spaces1, plus. split.
  - inversion 1 as [| |? ? ? w1 w2 ? H1 H2| | | | | | |]; subst. inversion H1; subst. apply matches_star in H2. split; [done|]. by constructor.
  - intros [Hn Hf]. destruct w as [|c w]; [done|]. apply Forall_cons in Hf as [Hc Hf].
    apply (M_seq _ _ b [c] w t); [by constructor|]. by apply matches_star.
Qed.
Lemma matches_phrase x y b w t : Matches (phrase x y) b w t <->
  exists w1 sp w2, w = w1 ++ sp ++ w2 /\ Forall2 ci_eq (points x) w1 /\ (sp <> [] /\ Forall (fun c => space_cp c = true) sp) /\ Forall2 ci_eq (points y) w2.
Proof.
  unfold phrase. rewrite matches_seqs. split.
  - intros (w1 & r1 & -> & H1%matches_lit & H2). rewrite matches_seqs in H2. destruct H2 as (sp & r2 & -> & Hs%matches_spaces1 & H3).
    rewrite matches_seqs in H3. destruct H3 as (w2 & r3 & -> & H3%matches_lit & H4). rewrite matches_seqs in H4. subst r3.
    exists w1, sp, w2. by rewrite app_nil_r.
  - intros (w1 & sp & w2 & -> & H1 & Hs & H2). exists w1, (sp ++ w2). split; [done|]. split; [by apply matches_lit|].
    apply matches_seqs. exists sp, w2. split; [done|]. split; [by apply matches_spaces1|].
    apply matches_seqs. exists w2, []. rewrite app_nil_r. split; [done|]. split; [by apply matches_lit|]. by apply matches_seqs.
Qed.
Lemma matches_write b w t : Matches (alts (map lit KEYWORDS ++ map (fun p => phrase p.1 p.2) PHRASES)) b w t <-> write_phrase w.
Proof.
  rewrite matches_alts. unfold write_phrase. split.
  - intros (r & [(kw & -> & Hk)%list_elem_of_fmap|(p & -> & Hp)%list_elem_of_fmap]%elem_of_app & Hm).
    + left. exists kw. split; [done|]. by apply matches_lit in Hm.
    + right. apply matches_phrase in Hm as (w1 & sp & w2 & -> & ? & [? ?] & ?). by exists p, w1, sp, w2.
  - intros [(kw & Hk & Hf)|(p & w1 & sp & w2 & Hp & -> & H1 & H2 & Hn & Hs)].
    + exists (lit kw). split; [apply elem_of_app; left; by apply (list_elem_of_fmap_2 lit)|by apply matches_lit].
    + exists (phrase p.1 p.2). split; [apply elem_of_app; right; by apply (list_elem_of_fmap_2 (fun p => phrase p.1 p.2))|].
      apply matches_phrase. by exists w1, sp, w2.
Qed.
Lemma write_found t : found KG_WRITE_KEYWORD t = true <-> write_word t.
Proof.
  rewrite found_iff. unfold write_word, KG_WRITE_KEYWORD. split.
  - intros (u & w & v & -> & Hm). rewrite matches_seqs in Hm. destruct Hm as (w0 & w1 & -> & H0' & H1).
    inversion H0' as [| | | | | | |? ? Hb| |]; subst. cbn [app] in *. rewrite matches_seqs in H1. destruct H1 as (w2 & w3 & -> & H2%matches_write & H3).
    rewrite matches_seqs in H3. destruct H3 as (w4 & w5 & -> & H4 & H5). inversion H4 as [| | | | | | |? ? Hb'| |]; subst.
    rewrite matches_seqs in H5. subst w5. rewrite !app_nil_r in *. exists u, w2, v. cbn [app] in *. rewrite !before_app in Hb'. by rewrite !before_nil in *.
  - intros (u & w & v & -> & Hw & Hb & Hb'). exists u, w, v. split; [done|]. rewrite matches_seqs. exists [], w.
    split; [done|]. split; [by constructor|]. rewrite matches_seqs. exists w, []. rewrite app_nil_r. split; [done|].
    split; [by apply matches_write|]. rewrite matches_seqs. exists [], []. split; [done|].
    split; [constructor; by rewrite before_nil, before_app|]. by rewrite matches_seqs.
Qed.
End WriteWords.

Lemma collect_spec room : forall rows fail kept truncated, collect room rows fail = Ok (kept, truncated) ->
  kept = map clean_row (take room rows) /\ truncated = bool_decide (room < length rows)%nat.
Proof.
  induction room as [|room IH]; intros [|r rows] fail kept truncated; cbn [collect take map length].
  - destruct fail; [done|]. by intros [= <- <-].
  - intros [= <- <-]. split; [done|]. symmetry. apply bool_decide_eq_true. lia.
  - destruct fail; [done|]. by intros [= <- <-].
  - destruct (collect room rows fail) as [[l b]|] eqn:E; [|done]. cbn [rbind]. intros [= <- <-]. destruct (IH _ _ _ _ E) as [-> ->].
    split; [done|]. apply bool_decide_ext. lia.
Qed.

(** ** Properties *)
(** C10: A Cypher text of the LLM is sent to the graph server exactly when no write keyword occurs in it
    as a word of its own, in whatever case and with whatever white space in a phrase; it
    is then sent once, as it is.  At most the first 50 rows come back, without the
    loader's mark, and they are marked as truncated exactly when there are more; a text
    that is refused or fails gives no rows. *)
Theorem query_kg_reads `{UnicodeData} upper exn_name exn_str (run : string -> obj -> kg_answer) q sent r :
  execute_query_kg upper exn_name exn_str (Some run) (PStr q) = (sent, r) ->
  exists kr, r = Ok kr /\
    (write_word (points q) -> sent = [] /\ kr_ok kr = false) /\
    (~ write_word (points q) -> sent = [(q, KG_PARAMETERS)]) /\
    (kr_ok kr = true -> exists rows fail, run q KG_PARAMETERS = Rows rows fail /\ kr_rows kr = map clean_row (take 50 rows) /\
       kr_truncated kr = bool_decide (50 < length rows)%nat) /\
    (kr_ok kr = false -> kr_rows kr = []) /\ kr_count kr = Z.of_nat (length (kr_rows kr)) /\ kr_count kr <= 50.
Proof.
  pose proof (write_found (points q)) as Hw. unfold found in Hw. unfold execute_query_kg.
  destruct (search _ None (points q)) as [m|].
  - intros [= <- <-]. eexists. split; [reflexivity|]. split_and!; try done. intros Hn. exfalso. by apply Hn, Hw.
  - assert (Hno : ~ write_word (points q)) by (intros Hn; apply Hw, bool_decide_eq_true in Hn; by destruct Hn).
    cbn zeta. destruct (run q KG_PARAMETERS) as [e|rows fail] eqn:Er; [intros [= <- <-]; eexists; split; [reflexivity|by split_and!]|].
    destruct (collect KG_RESULT_LIMIT rows fail) as [[kept b]|e] eqn:Ec; intros [= <- <-]; [|eexists; split; [reflexivity|by split_and!]].
    apply collect_spec in Ec as [-> ->]. eexists. split; [reflexivity|]. cbn [kr_ok kr_rows kr_count kr_truncated]. split_and!; try done.
    + intros _. by exists rows, fail.
    + rewrite length_map, length_take. unfold KG_RESULT_LIMIT. lia.
Qed.

(** ** Examples *)
#[local] Instance ascii_only : UnicodeData := {| uni_word _ := false; uni_digit _ := false |}.
Definition sample_run (q : string) (ps : obj) : kg_answer := Rows [[("a", PDict [("ip", PStr "10.1.100.10"); ("kg_managed", PBool true)])]] None.
Lemma query_kg_reads_witness : exists kr,
  (execute_query_kg py_upper (fun _ => "") (fun _ => "") (Some sample_run) (PStr "MATCH (a:Asset) RETURN a")).2 = Ok kr /\
  (kr_ok kr = true -> exists rows fail, sample_run "" [] = Rows rows fail /\ kr_rows kr = map clean_row (take 50 rows)).
Proof.
  destruct (query_kg_reads py_upper (fun _ => "") (fun _ => "") sample_run "MATCH (a:Asset) RETURN a" _ _ (surjective_pairing _)) as (kr & E & _ & _ & Hok & _).
  exists kr. split; [exact E|]. intros Ht. destruct (Hok Ht) as (rows & fail & Er & Ek & _). by exists rows, fail.
Defined.
Lemma query_kg_refuses : (execute_query_kg py_upper (fun _ => "") (fun _ => "") (Some sample_run) (PStr "MATCH (n) detach delete n")) =
  ([], Ok (kg_failed "Write operation 'DETACH' rejected — query_kg is read-only.")).
Proof. reflexivity. Qed.
(** A procedure that writes is sent: none of the words is in its name. *)
Lemma write_procedure_sent :
  (execute_query_kg py_upper (fun _ => "") (fun _ => "") (Some sample_run) (PStr "CALL apoc.refactor.rename.label('Zone', 'Z')")).1 =
  [("CALL apoc.refactor.rename.label('Zone', 'Z')", KG_PARAMETERS)].
Proof. reflexivity. Qed.
(** A query that only mentions a word in a text is refused. *)
Lemma read_query_refused : write_word (points "MATCH (s:Sid) WHERE s.recommended_response CONTAINS 'DROP' RETURN s").
Proof. apply write_found. reflexivity. Qed.
