(* ===== verification/Reputation.v ===== *)
(** * The reputation of a source (core/asset_reputation.py)

    The recent labels of a source's decisions, counted in the decision table, a score from
    them and its band, and the text for the prompt.  The score is computed on IEEE
    binary64 numbers (SpecFloat) in the order of the code. *)
From Stdlib Require Import SpecFloat.
From S2P Require Import Prelude PyVal Json Postgres DecisionStore OperationalMemory Binary64.
Local Open Scope string_scope.
Local Open Scope Z_scope.
Local Open Scope list_scope.

(** ** The score *)
Definition TP_PENALTY : spec_float := f_lit 20 100.
Definition RECUR_PENALTY : spec_float := f_lit 10 100.
Definition FP_BONUS : spec_float := f_lit 15 100.
Definition INCONCLUSIVE_PENALTY : spec_float := f_lit 5 100.
Definition NEUTRAL_SCORE : spec_float := f_of 1.

Definition compute_score (tp fp recur inconclusive : Z) : spec_float :=
  let raw := f_add (f_sub (f_sub (f_sub NEUTRAL_SCORE (f_mul TP_PENALTY (f_of tp))) (f_mul RECUR_PENALTY (f_of recur)))
    (f_mul INCONCLUSIVE_PENALTY (f_of inconclusive))) (f_mul FP_BONUS (f_of fp)) in
  f_max (f_of 0) (f_min (f_of 1) raw).
Definition classify_band (score : spec_float) : string :=
  if SFleb (f_lit 85 100) score then "clean"
  else if SFleb (f_lit 60 100) score then "neutral"
  else if SFleb (f_lit 30 100) score then "low"
  else "very_low".

Record AssetReputation := mkReputation {
  rp_src_ip : string; rp_window_hours : Z; rp_score : Q; rp_band : string; rp_tp : Z; rp_fp : Z; rp_recurrence : Z;
  rp_inconclusive : Z; rp_total : Z; rp_has_history : bool; rp_evidence : string; rp_last_seen : option Z }.
Definition empty_reputation (src_ip : string) (window_hours : Z) : AssetReputation :=
  mkReputation src_ip window_hours 1 "clean" 0 0 0 0 0 false "postgres unavailable — neutral default" None.

Section Reputation.
Context `{PyRepr} `{Postgres} (iso : Z -> string).

Definition to_dict (r : AssetReputation) : obj :=
  [("src_ip", PStr (rp_src_ip r)); ("window_hours", PInt (rp_window_hours r)); ("score", PFloat (rp_score r)); ("band", PStr (rp_band r));
   ("tp_count", PInt (rp_tp r)); ("fp_count", PInt (rp_fp r)); ("recurrence_count", PInt (rp_recurrence r));
   ("inconclusive_count", PInt (rp_inconclusive r)); ("total_decisions", PInt (rp_total r)); ("has_history", PBool (rp_has_history r));
   ("evidence", PStr (rp_evidence r)); ("last_seen", match rp_last_seen r with Some t => PStr (iso t) | None => PNone end)].

(** ** [fetch_reputation] *)
Definition LABELS : list string := ["true_positive"; "false_positive"; "recurrence"; "inconclusive"].
Definition outcome_of (r : row) : pyval := column r "retrospective_outcome".
(** The label a group counts for; every other value counts as no label. *)
Definition label_of (v : pyval) : option string := match v with PStr s => if bool_decide (s ∈ LABELS) then Some s else None | _ => None end.
(** [GROUP BY] the label, with the number of rows and the latest time. *)
Definition later (t : option Z) (r : row) : option Z := Some (match t with Some t => Z.max t (created_at r) | None => created_at r end).
Definition group_rows (rows : list row) : list (pyval * (Z * option Z)) :=
  foldl (fun d r => let '(n, t) := default (0, None) (dict_get d (outcome_of r)) in dict_set d (outcome_of r) (n + 1, later t r)) [] rows.
Definition count_groups (groups : list (pyval * (Z * option Z))) : list (option string * Z) :=
  foldl (fun d g => dict_set d (label_of g.1) (default 0 (dict_get d (label_of g.1)) + g.2.1)) [] groups.
Definition latest (groups : list (pyval * (Z * option Z))) : option Z :=
  foldl (fun t g => match g.2.2, t with
    | None, _ => t
    | Some m, None => Some m
    | Some m, Some t => Some (if t <? m then m else t)
    end) None groups.
Definition HOUR : Z := 3600000000.

Definition evidence_text (tp fp recur inconclusive unlabeled window_hours : Z) : string :=
  let part n name := if n =? 0 then [] else [(str_of_Z n ++ " " ++ name)%string] in
  (py_join " / " (part tp "TP" ++ part recur "recurrences" ++ part fp "FP" ++ part inconclusive "inconclusive" ++ part unlabeled "unlabelled")
   ++ " in last " ++ str_of_Z window_hours ++ "h")%string.

Definition fetch_reputation (now : Z) (src_ip : string) (window_hours : Z) (s : store) : res AssetReputation :=
  match s with
  | None => Ok (empty_reputation src_ip window_hours)
  | Some db =>
      let* rows := pg_select Decisions (of_source src_ip (now - window_hours * HOUR)) Unordered None db in
      let groups := group_rows rows in
      let counts := count_groups groups in
      let n label := default 0 (dict_get counts label) in
      let tp := n (Some "true_positive") in
      let fp := n (Some "false_positive") in
      let recur := n (Some "recurrence") in
      let inconclusive := n (Some "inconclusive") in
      let unlabeled := n None in
      let labelled_total := tp + fp + recur + inconclusive in
      let total := labelled_total + unlabeled in
      let has_history := 0 <? total in
      let score := if has_history then compute_score tp fp recur inconclusive else NEUTRAL_SCORE in
      let evidence :=
        if negb has_history then "no past decisions for this IP in window"
        else if labelled_total =? 0
        then (str_of_Z unlabeled ++ " decision(s) in last " ++ str_of_Z window_hours ++ "h not yet retrospectively labelled")%string
        else evidence_text tp fp recur inconclusive unlabeled window_hours in
      Ok (mkReputation src_ip window_hours (py_round 2 (f_value score)) (classify_band score) tp fp recur inconclusive total has_history
        evidence (latest groups))
  end.

(** ** [render_for_prompt] *)
(** [f"{score:.2f}"] of a score between 0 and 1 *)
Definition fixed2 (q : Q) : string :=
  let z := scaled 2 q in (str_of_Z (z / 100) ++ "." ++ pad 2 (str_of_Z (z mod 100)))%string.
Definition interpretation (band : string) : option string :=
  dict_get [("clean", "no concerning behavioral signal"); ("neutral", "mixed signal — proceed with normal vigilance");
    ("low", "RECENT BAD BEHAVIOR — agent has confirmed real threats from this IP. Higher prior toward DROP");
    ("very_low", "REPEAT OFFENDER — multiple confirmed incidents within the window. Strong prior toward DROP")] band.
Definition render_for_prompt (r : AssetReputation) : res string :=
  let title := ("### Runtime reputation (" ++ rp_src_ip r ++ ", last " ++ str_of_Z (rp_window_hours r) ++ "h)" ++ newline ++
    "- score: **" ++ fixed2 (rp_score r) ++ "** (" ++ rp_band r ++ ") — ")%string in
  if negb (rp_has_history r) then Ok (title ++ "first observation, no learning signal yet")%string else
  match interpretation (rp_band r) with
  | None => Raise (KeyError (rp_band r))
  | Some text => Ok (title ++ rp_evidence r ++ newline ++ "- interpretation: " ++ text)%string
  end.
End Reputation.

(** ** Lemmas *)
(** The groups that count for a label. *)
Definition label_sum (l : option string) (gs : list (pyval * (Z * option Z))) : Z :=
  foldr (fun g n => (if decide (label_of g.1 = l) then g.2.1 else 0) + n) 0 gs.
Lemma count_groups_sum gs l : default 0 (dict_get (count_groups gs) l) = label_sum l gs.
Proof.
  assert (Hg : forall d, default 0 (dict_get (foldl (fun d (g : pyval * (Z * option Z)) =>
    dict_set d (label_of g.1) (default 0 (dict_get d (label_of g.1)) + g.2.1)) d gs) l) = default 0 (dict_get d l) + label_sum l gs).
  { induction gs as [|g gs IH]; intros d; cbn [foldl label_sum foldr]; [lia|]. rewrite IH, dict_get_set. fold (label_sum l gs).
    destruct (decide (label_of g.1 = l)) as [->|]; cbn [from_option id]; lia. }
  apply (Hg []).
Qed.
Lemma label_sum_set d k n t l : NoDup d.*1 ->
  label_sum l (dict_set d k (n, t)) = label_sum l d + (if decide (label_of k = l) then n - (default (0, None) (dict_get d k)).1 else 0).
Proof.
  induction d as [|[k' [n' t']] d IH]; intros Hd; cbn [dict_set dict_get label_sum foldr].
  - destruct (decide _); cbn; lia.
  - apply NoDup_cons in Hd as [Hk Hd]. destruct (decide (k' = k)) as [->|Hne].
    + destruct (decide (k = k)); [|done]. cbn [label_sum foldr fst snd from_option id]. destruct (decide (label_of k = l)); lia.
    + destruct (decide (k = k')); [congruence|]. cbn [label_sum foldr fst snd]. fold (label_sum l (dict_set d k (n, t))) (label_sum l d). rewrite IH by done. lia.
Qed.

Definition later_of (a b : option Z) : option Z :=
  match a, b with Some x, Some y => Some (Z.max x y) | None, _ => b | _, None => a end.
Lemma later_of_comm a b : later_of a b = later_of b a.
Proof. destruct a, b; cbn; f_equal; lia. Qed.
Lemma later_of_assoc a b c : later_of a (later_of b c) = later_of (later_of a b) c.
Proof. destruct a, b, c; cbn; f_equal; lia. Qed.
Definition latest_of (gs : list (pyval * (Z * option Z))) : option Z := foldr (fun g t => later_of g.2.2 t) None gs.
Lemma latest_spec gs : latest gs = latest_of gs.
Proof.
  assert (Hg : forall t, foldl (fun t (g : pyval * (Z * option Z)) => match g.2.2, t with
      | None, _ => t | Some m, None => Some m | Some m, Some t => Some (if t <? m then m else t) end) t gs = later_of t (latest_of gs)).
  { induction gs as [|g gs IH]; intros t; cbn [foldl latest_of foldr]; [by destruct t|]. rewrite IH. fold (latest_of gs).
    rewrite later_of_assoc. f_equal. destruct g.2.2 as [m|], t as [t|]; cbn; try done. f_equal. destruct (Z.ltb_spec t m); lia. }
  unfold latest. rewrite Hg. by destruct (latest_of gs).
Qed.
Lemma latest_set d k n r : NoDup d.*1 ->
  latest_of (dict_set d k (n, later (default (0, None) (dict_get d k)).2 r)) = later_of (latest_of d) (Some (created_at r)).
Proof.
  induction d as [|[k' [n' t']] d IH]; intros Hd; cbn [dict_set dict_get latest_of foldr]; [done|].
  apply NoDup_cons in Hd as [Hk Hd]. destruct (decide (k' = k)) as [->|Hne].
  - destruct (decide (k = k)); [|done]. cbn [latest_of foldr fst snd from_option id]. fold (latest_of d).
    destruct t' as [t|], (latest_of d); cbn; f_equal; lia.
  - destruct (decide (k = k')); [congruence|]. cbn [latest_of foldr fst snd]. fold (latest_of (dict_set d k (n, later (default (0, None) (dict_get d k)).2 r))) (latest_of d).
    rewrite IH by done. by rewrite later_of_assoc.
Qed.

(** The number of rows with a label, and the time of the latest row. *)
Definition labelled_as (l : option string) (rows : list row) : Z := Z.of_nat (length (filter (fun r => label_of (outcome_of r) = l) rows)).
Lemma group_rows_spec rows : NoDup (group_rows rows).*1 /\ (forall l, label_sum l (group_rows rows) = labelled_as l rows) /\
  latest_of (group_rows rows) = opt_best Z.max rows.
Proof.
  assert (Hbest : forall rows r, opt_best Z.max (rows ++ [r]) = later_of (opt_best Z.max rows) (Some (created_at r))).
  { intros [|r0 l] r; [done|]. cbn. by rewrite foldl_app. }
  unfold group_rows. induction rows as [|r rows (Hn & Hl & Ht)] using rev_ind; [by repeat constructor|].
  rewrite foldl_app. cbn [foldl]. set (d := foldl _ [] rows) in *.
  pose proof (fun l n t => label_sum_set d (outcome_of r) n t l Hn) as Hset. pose proof (latest_set d (outcome_of r)) as Hlat.
  destruct (default (0, None) (dict_get d (outcome_of r))) as [n t] eqn:E. cbn [fst snd] in Hset, Hlat.
  split_and!; [by apply dict_set_NoDup| |by rewrite Hlat, Hbest, Ht by done].
  intros l. rewrite Hset, Hl. unfold labelled_as. rewrite filter_app, length_app, filter_cons, filter_nil.
  destruct (decide (label_of (outcome_of r) = l)); cbn; lia.
Qed.

(** The labels and the rows without one are all rows. *)
Lemma labelled_total rows : labelled_as (Some "true_positive") rows + labelled_as (Some "false_positive") rows +
  labelled_as (Some "recurrence") rows + labelled_as (Some "inconclusive") rows + labelled_as None rows = Z.of_nat (length rows).
Proof.
  induction rows as [|r rows IH]; [done|]. unfold labelled_as in *. rewrite !filter_cons.
  assert (Hl : label_of (outcome_of r) = None \/ exists s, label_of (outcome_of r) = Some s /\ (s ∈ LABELS)).
  { unfold label_of. destruct (outcome_of r); try by left. case_bool_decide; [right; by eexists|by left]. }
  destruct Hl as [El|(s & El & Hs)]; rewrite El; [rewrite !decide_False, decide_True by done; cbn [length]; lia|].
  unfold LABELS in Hs. rewrite !elem_of_cons, elem_of_nil in Hs. destruct Hs as [-> |[-> |[-> |[-> |[]]]]];
    repeat first [rewrite decide_True by done | rewrite decide_False by done]; cbn [length]; lia.
Qed.

Lemma labelled_perm l rows rows' : rows ≡ₚ rows' -> labelled_as l rows = labelled_as l rows'.
Proof. intros Hp. unfold labelled_as. by rewrite (length_filter_perm _ _ _ Hp). Qed.
Lemma labelled_number s rows : s ∈ LABELS ->
  labelled_as (Some s) rows = Z.of_nat (length (filter (fun r : row => column r "retrospective_outcome" = PStr s) rows)).
Proof.
  intros Hs. unfold labelled_as. do 2 f_equal. apply list_filter_iff. intros r. unfold label_of, outcome_of.
  destruct (column r "retrospective_outcome"); try done. case_bool_decide; split; try done; intros [= <-]; done.
Qed.
Lemma opt_best_max rows t : opt_best Z.max rows = Some t -> Forall (fun r => created_at r <= t) rows.
Proof.
  destruct rows as [|r rows]; [done|]. cbn [opt_best]. intros [= <-].
  assert (Hm : forall b, b <= foldl (fun t r => Z.max t (created_at r)) b rows /\ Forall (fun r => created_at r <= foldl (fun t r => Z.max t (created_at r)) b rows) rows).
  { induction rows as [|r' rows IH]; intros b; cbn [foldl]; [split; [lia|constructor]|]. destruct (IH (Z.max b (created_at r'))) as [H1 H2].
    split; [lia|]. constructor; [lia|done]. }
  destruct (Hm (created_at r)). by constructor.
Qed.

(** ** Bounds of the score *)
Lemma compute_score_bounds tp fp recur inc :
  SFleb (f_of 0) (compute_score tp fp recur inc) = true /\ SFleb (compute_score tp fp recur inc) (f_of 1) = true.
Proof.
  unfold compute_score, f_max, f_min. set (raw := f_add _ _). clearbody raw.
  destruct (SFltb raw (f_of 1)) eqn:E1; [destruct (SFltb (f_of 0) raw) eqn:E0|]; try (by split; [apply ltb_leb|apply ltb_leb]); by split.
Qed.

(** *** Against exact arithmetic *)
(** The score in twentieths, and its band. *)
Definition exact_score (tp fp recur inc : Z) : Z := Z.max 0 (Z.min 20 (20 - 4 * tp - 2 * recur - inc + 3 * fp)).
Definition exact_band (n : Z) : string :=
  if 17 <=? n then "clean" else if 12 <=? n then "neutral" else if 6 <=? n then "low" else "very_low".
Definition band_agrees (tp fp recur inc : Z) : bool :=
  let n := exact_score tp fp recur inc in
  let band := classify_band (compute_score tp fp recur inc) in
  bool_decide (band = exact_band n) || (bool_decide (n ∈ [17; 12; 6]) && bool_decide (band = exact_band (n - 1))).
Definition small : list Z := seqZ 0 4.
Lemma bands_agree : forallb (fun tp => forallb (fun fp => forallb (fun recur => forallb (fun inc => band_agrees tp fp recur inc) small) small) small) small = true.
Proof. vm_cast_no_check (eq_refl true). Qed.
Lemma band_agrees_small tp fp recur inc : 0 <= tp < 4 -> 0 <= fp < 4 -> 0 <= recur < 4 -> 0 <= inc < 4 ->
  let n := exact_score tp fp recur inc in
  let band := classify_band (compute_score tp fp recur inc) in
  band = exact_band n \/ ((n ∈ [17; 12; 6]) /\ band = exact_band (n - 1)).
Proof.
  intros H1 H2 H3 H4 n band. pose proof bands_agree as Hall.
  assert (Hin : forall x, 0 <= x < 4 -> In x small) by (intros x Hx; apply list_elem_of_In, elem_of_seqZ; lia).
  rewrite forallb_forall in Hall. specialize (Hall tp (Hin tp H1)). rewrite forallb_forall in Hall. specialize (Hall fp (Hin fp H2)).
  rewrite forallb_forall in Hall. specialize (Hall recur (Hin recur H3)). rewrite forallb_forall in Hall. specialize (Hall inc (Hin inc H4)).
  unfold band_agrees in Hall. fold n band in Hall. apply orb_true_iff in Hall as [Hb%bool_decide_eq_true|Hb]; [by left|].
  apply andb_true_iff in Hb as [Hn%bool_decide_eq_true Hb%bool_decide_eq_true]. by right.
Qed.
(** Rounding moves a score on a threshold below it: three true positives and a recurrence
    are 0.3 exactly, which is shown, but the band is the lowest one. *)
Lemma threshold_score_falls : exact_score 3 0 1 0 = 6 /\ exact_band 6 = "low" /\
  classify_band (compute_score 3 0 1 0) = "very_low" /\ fixed2 (py_round 2 (f_value (compute_score 3 0 1 0))) = "0.30".
Proof. by vm_compute. Qed.

(** ** Properties *)
(** C29: The reputation of a source counts its decisions in the window by their labels: the four
    counts and the decisions without a label are exact and add up to all of them, the last
    one seen is the latest, the score stays between 0 and 1 and is neutral without a
    decision, and with counts below four the band is the one of exact arithmetic except
    that a score on a threshold may fall into the band below it.  The score is the one of
    the code, [compute_score], with a penalty for inconclusive decisions and every label in
    the window of the same weight; the module's description gives a formula without that
    penalty and says that more recent labels weigh more. *)
Theorem reputation_counts `{PostgresLaws} now src hours (db : pg) rep :
  fetch_reputation now src hours (Some db) = Ok rep ->
  let rows := filter (fun r => of_source src (now - hours * HOUR) r = true) (pg_rows db Decisions) in
  let number label := Z.of_nat (length (filter (fun r : row => column r "retrospective_outcome" = PStr label) rows)) in
  rp_tp rep = number "true_positive" /\ rp_fp rep = number "false_positive" /\ rp_recurrence rep = number "recurrence" /\
  rp_inconclusive rep = number "inconclusive" /\ rp_total rep = Z.of_nat (length rows) /\
  rp_has_history rep = bool_decide (rows <> []) /\
  (forall t, rp_last_seen rep = Some t -> Forall (fun r => created_at r <= t) rows) /\
  exists score, rp_score rep = py_round 2 (f_value score) /\ rp_band rep = classify_band score /\
    SFleb (f_of 0) score = true /\ SFleb score (f_of 1) = true /\ (rows = [] -> rp_band rep = "clean") /\
    (rows <> [] -> score = compute_score (rp_tp rep) (rp_fp rep) (rp_recurrence rep) (rp_inconclusive rep)) /\
    (rows <> [] -> rp_tp rep < 4 -> rp_fp rep < 4 -> rp_recurrence rep < 4 -> rp_inconclusive rep < 4 ->
     let n := exact_score (rp_tp rep) (rp_fp rep) (rp_recurrence rep) (rp_inconclusive rep) in
     rp_band rep = exact_band n \/ ((n ∈ [17; 12; 6]) /\ rp_band rep = exact_band (n - 1))).
Proof.
  intros Hr rows number. unfold fetch_reputation in Hr. apply rbind_ok in Hr as (l & (l' & Hl & _ & ->)%select_rows & Hr); [|done].
  cbn [limited] in Hr. fold rows in Hl. destruct (group_rows_spec l') as (_ & Hsum & Hlast). cbn zeta in Hr.
  rewrite !count_groups_sum, !Hsum, !(labelled_perm _ l' rows Hl), latest_spec, Hlast in Hr.
  rewrite (labelled_total rows) in Hr. rewrite !labelled_number in Hr by (unfold LABELS; set_solver). fold (number "true_positive") in Hr.
  fold (number "false_positive") (number "recurrence") (number "inconclusive") in Hr. injection Hr as <-.
  cbn [rp_tp rp_fp rp_recurrence rp_inconclusive rp_total rp_has_history rp_last_seen rp_score rp_band].
  assert (Hh : (0 <? Z.of_nat (length rows)) = bool_decide (rows <> [])).
  { destruct rows; [done|]. rewrite bool_decide_eq_true_2 by done. apply Z.ltb_lt. cbn. lia. }
  rewrite Hh. split_and!; try done.
  - intros t Ht. rewrite <- Hl. by apply opt_best_max.
  - exists (if bool_decide (rows <> []) then compute_score (number "true_positive") (number "false_positive") (number "recurrence") (number "inconclusive") else NEUTRAL_SCORE).
    destruct (compute_score_bounds (number "true_positive") (number "false_positive") (number "recurrence") (number "inconclusive")) as [B0 B1].
    case_bool_decide as Hne; split_and!; try done.
    intros _ ? ? ? ?. apply band_agrees_small; split; try done; apply Nat2Z.is_nonneg.
Qed.

(** Three true positives and a recurrence among the decisions of the last hour. *)
Definition label_row (label : pyval) (t : Z) : row :=
  Row t None None None [("id", PInt t); ("alert_src_ip", PStr "10.1.100.10"); ("retrospective_outcome", label)].
Definition sample_rows : list row :=
  [label_row (PStr "true_positive") 1; label_row (PStr "true_positive") 2; label_row (PStr "true_positive") 3; label_row (PStr "recurrence") 4; label_row PNone 5].
Lemma reputation_counts_witness : exists rep, fetch_reputation 10 "10.1.100.10" 1 (Some (sample_rows, [])) = Ok rep /\ rp_total rep = 5 /\ rp_band rep = "very_low".
Proof.
  eexists. split; [vm_compute; reflexivity|]. split; [|reflexivity].
  refine (proj1 (proj2 (proj2 (proj2 (proj2 (reputation_counts 10 "10.1.100.10" 1 (sample_rows, []) _ _)))))). vm_compute. reflexivity.
Defined.
