(* ===== verification/Renderers.v ===== *)
(** * The runbook as text (core/system_model.py, baselines.py, threat_playbook.py, threat_patterns.py,
    severity_scoring.py, flow_features.py, enforcement_plane.py, invariants.py)

    What the modules render of their variables for the system prompt: everything at
    start-up, and for an alert the zones, assets, SID and patterns it involves.  The
    iteration order of a set and the text of containers are parameters. *)
From S2P Require Import Prelude PyVal Json Models Topology Policy Knowledge KnowledgeGraph Boot.
Local Open Scope string_scope.
Local Open Scope Z_scope.
Local Open Scope list_scope.

(** The variables of the modules, with the parts the graph does not hold. *)
Record library := Library {
  lb_modules :> modules; lb_patterns : list ThreatPattern; lb_tiers : pyval; lb_rubric : SeverityRubric; lb_features : FlowFeatureSet }.

Notation "'text' [ x ; .. ; y ]" := (concat_str (cons x .. (cons y nil) ..)) (at level 0, format "'text'  [ x ;  .. ;  y ]").
Definition join_lines : list string -> string := py_join newline.
(** [sep.join(v)] *)
Definition join_value (sep : string) (v : pyval) : res string :=
  let* l := py_iter v in
  let* items := mapM_res (fun x => match x with PStr s => Ok s | _ => Raise (TypeError "sequence item: expected str instance") end) l in
  Ok (py_join sep items).
(** [v.items()] *)
Definition items_of (v : pyval) : res obj := match v with PDict d => Ok d | _ => Raise (AttributeError "items") end.

Section Renderers.
Context `{PyRepr} (set_order : list string -> list string).

(** ** system_model.py *)
Definition render_zone (z : Zone) : string :=
  text ["- **"; zn_name z; "** ("; zn_cidr z; ", VLAN "; str_of_Z (zn_vlan z); ", SVI "; zn_svi_gateway z; ", on "; zn_leaf z; ") — ";
        "trust="; trust_value (zn_trust_level z); ", criticality="; criticality_value (zn_criticality z); ". "; zn_purpose z].
Definition render_service (s : Service) : string := text [str_of_Z (sv_port s); "/"; sv_proto s; " "; sv_name s; " ("; sv_facing s; ")"].
Definition render_asset (a : Asset) : string :=
  text ["- **"; as_hostname a; "** `"; as_ip a; "` (zone "; as_zone a; ", "; as_tier a; ") — ";
        "criticality="; criticality_value (as_criticality a); ", data="; data_value (as_data_classification a); newline;
        "  - Role: "; as_role a; newline;
        "  - Services: "; py_join ", " (map render_service (as_services a)); newline;
        "  - Expected inbound: "; str_or (py_join ", " (as_expected_inbound_sources a)) "(none)"; newline;
        "  - Expected outbound: "; str_or (py_join ", " (as_expected_outbound_destinations a)) "(none — does not initiate outbound)"; newline;
        "  - If compromised: "; as_if_compromised_impact a; newline;
        "  - If blocked: "; as_if_blocked_impact a].
Definition render_leaf (l : Leaf) : string :=
  text ["- **"; lf_name l; "** mgmt "; lf_mgmt_ip l; " — manages zones "; py_str (PList (map PStr (lf_zones l))); ". "; lf_role l].
Definition system_model_full (m : library) : string :=
  join_lines (["## DATACENTER SYSTEM MODEL" ++ newline; "### Trust Zones (4)" ++ newline]%string ++ map (fun z => render_zone z.2) (md_zones m) ++
    [newline ++ "### Workload Assets (4 hosts, one per zone)" ++ newline]%string ++ map (fun a => render_asset a.2) (md_assets m) ++
    [newline ++ "### Enforcement Leafs (2)" ++ newline]%string ++ map (fun l => render_leaf l.2) (md_leafs m)).

(** The elements of a set, without duplicates, in the order of its iteration. *)
Definition set_items (l : list string) : list string := set_order (remove_dups l).
Definition bare (ip : string) : string := if nonempty ip then bare_ip ip else "".
Definition zone_of_asset (a : option Asset) : list string := match a with Some a => [as_zone a] | None => [] end.
Definition system_model_for_alert (m : library) (src_ip dst_ip : string) : string :=
  let src_asset := dict_get (md_assets m) (bare src_ip) in
  let dst_asset := dict_get (md_assets m) (bare dst_ip) in
  let relevant_zones := set_items (zone_of_asset src_asset ++ zone_of_asset dst_asset ++ ["MGT"]) in
  let zones := omap (dict_get (md_zones m)) relevant_zones in
  let relevant_leafs := set_items (map zn_leaf zones) in
  let same := bool_decide (bare src_ip = bare dst_ip) in
  join_lines (["## SYSTEM MODEL (alert-specific slice)" ++ newline; "### Zones involved" ++ newline]%string ++ map render_zone zones ++
    [newline ++ "### Hosts involved" ++ newline]%string ++
    match src_asset with Some a => [render_asset a] | None => [] end ++
    match dst_asset with Some a => if same then [] else [render_asset a] | None => [] end ++
    match src_asset, dst_asset with None, None => ["(neither src nor dst is a known workload host)"] | _, _ => [] end ++
    [newline ++ "### Enforcement leafs" ++ newline]%string ++ map render_leaf (omap (dict_get (md_leafs m)) relevant_leafs)).

(** ** baselines.py *)
Definition render_pattern_full (p : TrafficPattern) : string :=
  text ["- **"; tp_name p; "**: "; tp_src_ip p; " → "; tp_dst_ip p; ":"; str_of_Z (tp_dst_port p); "/"; tp_proto p; ", "; pt_cadence p; ", ";
        "~"; str_of_Z (pt_expected_volume_per_hour p); "/hr, criticality="; flow_value (pt_criticality_to_business p); newline;
        "  - "; pt_production_description p; newline;
        "  - Anomaly trigger: "; pt_burst_anomaly_threshold p; newline;
        "  - If disrupted: "; pt_if_disrupted p].
Definition anomalous_lines (m : library) : list string :=
  (newline ++ "### Anomalous patterns (NOT in baseline — red flags)" ++ newline)%string ::
  map (fun s => ("- " ++ py_str s)%string) (b_anomalous_patterns (md_baselines m)).
Definition baselines_full (m : library) : string :=
  let b := md_baselines m in
  join_lines (["## PRODUCTION TRAFFIC BASELINES" ++ newline;
    text ["Steady-state east-west volume: ~"; str_of_Z (b_steady_state b); " flows/minute. ";
          "MGT audit emissions ~"; str_of_Z (b_audit_rate b); "/minute (SID 9000020) are ";
          "REQUIRED VISIBILITY, not incidents."; newline];
    "### Application traffic (business workload)" ++ newline]%string ++
    map render_pattern_full (List.filter (fun p => negb (is_mgt p)) (b_patterns b)) ++
    [newline ++ "### Management plane traffic" ++ newline]%string ++ map render_pattern_full (List.filter is_mgt (b_patterns b)) ++ anomalous_lines m).
Definition involves (bare_src bare_dst : string) (p : TrafficPattern) : bool :=
  (nonempty bare_src && bool_decide (tp_src_ip p = bare_src)) ||
  (nonempty bare_dst && (bool_decide (tp_dst_ip p = bare_dst) || bool_decide (tp_dst_ip p = "rotating"))).
Definition baselines_for_alert (m : library) (src_ip dst_ip : string) : string :=
  let b := md_baselines m in
  let relevant := List.filter (involves (bare src_ip) (bare dst_ip)) (b_patterns b) in
  join_lines (["## PRODUCTION TRAFFIC BASELINES (alert-specific slice)" ++ newline;
    text ["Steady-state datacenter volume: ~"; str_of_Z (b_steady_state b); " flows/minute. ";
          "SID 9000020 emissions ~"; str_of_Z (b_audit_rate b); "/minute are required visibility, not incidents."; newline]]%string ++
    match relevant with
    | [] => [text ["### Baselines: this src/dst pair is NOT part of any known production flow."; newline;
                   "All other east-west baselines involve other IPs and are not relevant to this decision."]]
    | _ => ("### Baselines involving the alert IPs" ++ newline)%string :: map render_pattern_full relevant
    end ++ anomalous_lines m).

(** ** threat_playbook.py *)
Definition render_sid_detail (d : SidDetection) : string :=
  text ["- **SID "; str_of_Z (sd_sid d); "** (P"; str_of_Z (sd_p_level d); ", "; dt_mitre_tactic d; " / "; dt_mitre_technique d; ")"; newline;
        "  - Signature: "; dt_signature_msg d; newline;
        "  - "; dt_production_description d; newline;
        "  - Detection: "; dt_detection_logic d; newline;
        "  - Recommended: "; sd_recommended d; " (TTL "; str_of_Z (dt_default_ttl_seconds d); "s)"; newline;
        "  - False positive likelihood: "; dt_false_positive_likelihood d; newline;
        "  - FP scenarios: "; str_or (py_join "; " (dt_false_positive_scenarios d)) "(none)"].
Definition render_stage (s : KillChainStage) : string :=
  text ["  - Stage "; str_of_Z (ks_stage s); " ("; st_tactic s; ") — signals: ";
        py_join ", " (map (fun n => "SID " ++ str_of_Z n)%string (ks_signals s)); ". "; st_production_indicators s].
Definition render_kill_chain (c : KillChain) : string :=
  join_lines ([text [newline; "**"; ch_name c; "**"]; "- Threat: " ++ ch_production_description c; "- Dwell between stages: " ++ ch_typical_dwell c;
    "- Intervention point: " ++ ch_intervention_point c; "- Containment: " ++ ch_containment_strategy c; "- Stages:"]%string ++
    map render_stage (ch_stages c)).
Definition playbook_full (m : library) : string :=
  join_lines (["## THREAT PLAYBOOK — Active Suricata Detections & Kill Chains" ++ newline; "### Active SID Inventory (8 detections)" ++ newline]%string ++
    map (fun d => render_sid_detail d.2) (md_sids m) ++ [newline ++ "### Kill Chains (multi-stage adversary playbooks)" ++ newline]%string ++
    map render_kill_chain (md_kill_chains m)).
Definition sid_reference (d : SidDetection) : string :=
  text ["- SID "; str_of_Z (sd_sid d); " (P"; str_of_Z (sd_p_level d); "): "; dt_signature_msg d; " — "; sd_recommended d].
Definition playbook_for_alert (m : library) (sid : Z) : string :=
  let other := List.filter (fun d => negb (bool_decide (d.1 = PInt sid))) (md_sids m) in
  join_lines (["## THREAT PLAYBOOK (alert-specific slice)" ++ newline; "### Triggered detection" ++ newline;
    match dict_get (md_sids m) (PInt sid) with
    | Some d => render_sid_detail d
    | None => text ["- SID "; str_of_Z sid; ": UNKNOWN — not in active inventory. Treat with caution."]
    end]%string ++
    match other with
    | [] => []
    | _ => (newline ++ "### Other SIDs in active inventory (reference only)" ++ newline)%string :: map (fun d => sid_reference d.2) other
    end ++
    [text [newline; "### Multi-stage campaign analysis"; newline;
           "Kill-chain playbooks are NOT pre-loaded here. If you suspect this alert is"; newline;
           "part of a multi-stage attack, use `query_kg` to traverse `(Sid)-[:EXPECTED_IN]->(KillChain)`"; newline;
           "and decide based on what you find. Otherwise reason from primitives:"; newline;
           "baseline violation, MITRE technique, blast radius, asset criticality."]]).

(** ** threat_patterns.py *)
Definition patterns_for_zone_pair (m : library) (src_zone dst_zone : string) : list ThreatPattern :=
  List.filter (fun p =>
    let sig := py_lower (py_str (PDict (tt_flow_signature p))) in
    str_contains (py_lower src_zone) sig || str_contains (py_lower dst_zone) sig || str_contains "any" sig || str_contains "workload" sig)
    (lb_patterns m).
Definition targets_port (dst_port : Z) (p : ThreatPattern) : bool :=
  match jget (tt_flow_signature p) "dst_port" with
  | PNone => false
  | PList l => existsb (pyval_eqb (PInt dst_port)) l
  | v => pyval_eqb v (PInt dst_port) || pyval_eqb v (PStr "any")
  end.
Definition patterns_for_dst_port (m : library) (dst_port : Z) : list ThreatPattern := List.filter (targets_port dst_port) (lb_patterns m).
Definition opt_line (title : string) (o : option string) : list string :=
  match o with Some s => if nonempty s then [(title ++ s)%string] else [] | None => [] end.
Definition render_threat (p : ThreatPattern) : res string :=
  let sev := str_or (default "" (tt_severity p)) "(variable, see inference)" in
  let action := match tt_recommended_action p with PStr s => s | _ => "(multi-stage)" end in
  let* corroboration :=
    match tt_requires_corroboration p with
    | Some v => if truthy v then let* s := join_value ", " v in Ok [("  - Requires corroboration: " ++ s)%string] else Ok []
    | None => Ok []
    end in
  Ok (join_lines ([text ["- **"; tt_id p; "** ["; tt_threat_class p; ", "; sev; "]"];
    "  - Signature: " ++ py_str (PDict (tt_flow_signature p));
    text ["  - MITRE: "; tt_mitre_tactic p; py_join "" (opt_line " / " (tt_mitre_technique p))];
    text ["  - Action: "; action; "  · TTL: "; py_str (tt_recommended_ttl_seconds p); "s  · Confidence anchor: "; py_str (tt_confidence_baseline p)]]%string ++
    corroboration ++
    match tt_false_positive_scenarios p with Some (_ :: _ as l) => [("  - FP scenarios: " ++ py_join "; " l)%string] | _ => [] end ++
    opt_line "  - Yatesbury ref: " (tt_ref_yatesbury p) ++ opt_line "  - Note: " (tt_note p))).
(** [PATTERNS_BY_CLASS] *)
Definition patterns_by_class (m : library) : list (string * list ThreatPattern) :=
  foldl (fun d p => dict_set d (tt_threat_class p) (default [] (dict_get d (tt_threat_class p)) ++ [p])) [] (lb_patterns m).
Definition class_le (a b : string * list ThreatPattern) : Prop := text_le a.1 b.1.
#[export] Instance class_le_dec a b : Decision (class_le a b).
Proof. unfold class_le. apply _. Defined.
Definition render_class (c : string * list ThreatPattern) : res (list string) :=
  let* patterns := mapM_res render_threat c.2 in
  Ok (text [newline; "### Class: "; c.1; " ("; str_of_Z (Z.of_nat (length c.2)); " patterns)"; newline] :: patterns).
Definition render_tier (t : string * pyval) : res (list string) :=
  let* auc := get_of t.2 "netvigil_auc" PNone in
  let* anchor := get_of t.2 "agent_confidence_anchor" PNone in
  let* patterns := get_of t.2 "patterns" PNone in
  let* named := if truthy patterns then let* s := join_value ", " patterns in Ok [("  - Patterns: " ++ s)%string] else Ok [] in
  let* aid := get_of t.2 "reasoning_aid" PNone in
  Ok (text ["- **"; t.1; "**: AUC "; py_str auc; ", agent confidence anchor "; py_str anchor] :: named ++
      (if truthy aid then ["  - Reasoning aid: " ++ py_str aid]%string else [])).
Definition threats_full (m : library) : res string :=
  let* classes := mapM_res render_class (merge_sort class_le (patterns_by_class m)) in
  let* tiers :=
    if truthy (lb_tiers m) then
      let* l := items_of (lb_tiers m) in
      let* rows := mapM_res render_tier l in
      Ok ((newline ++ "### Detection Difficulty Tiers (NetVigil NSDI'24 anchor)" ++ newline)%string :: concat rows)
    else Ok [] in
  Ok (join_lines ([text ["## THREAT PATTERNS — Flow-keyed taxonomy "; "("; str_of_Z (Z.of_nat (length (lb_patterns m))); " patterns across ";
                         str_of_Z (Z.of_nat (length (patterns_by_class m))); " classes)"; newline];
    text ["Match incoming `eve.json type:flow` events against these signatures to "; "identify the threat class, severity, and recommended action."; newline]] ++
    concat classes ++ tiers)).
(** [{p.id: p for p in l}.values()] *)
Definition by_id (l : list ThreatPattern) : list ThreatPattern := map snd (foldl (fun d p => dict_set d (tt_id p) p) [] l).
Definition threats_for_alert (m : library) (src_zone dst_zone : string) (dst_port : Z) : res string :=
  let candidates := if nonempty src_zone || nonempty dst_zone then patterns_for_zone_pair m src_zone dst_zone else lb_patterns m in
  let candidates := if dst_port =? 0 then candidates else by_id (candidates ++ patterns_for_dst_port m dst_port) in
  let* rows := mapM_res render_threat candidates in
  Ok (join_lines ([text ["## THREAT PATTERNS (alert-scoped, "; str_of_Z (Z.of_nat (length candidates)); " candidates)"; newline];
    text ["These flow patterns are most relevant to the current observation. ";
          "Match the flow against `flow_signature` and adopt the recommended severity/action."; newline]] ++ rows ++
    [text [newline; "### Procedure"; newline;
           "1. Match the incoming flow event 5-tuple + rate against each `flow_signature`."; newline;
           "2. Pick the FIRST matching pattern (top-down by class importance)."; newline;
           "3. Adopt that pattern's severity/action as starting point."; newline;
           "4. Apply `severity-scoring.md` rubric for any signal adjustment."; newline;
           "5. Verify `requires_corroboration` items via past_incidents before P1 DROP."]])).

(** ** severity_scoring.py *)
Definition field_text (o : obj) (k : string) : string := py_str (jget o k).
Definition points_for_signal (r : SeverityRubric) (name : string) : res Z :=
  let* p := get_of (jget_or (rb_signal_table r) name (PDict [])) "points" (PInt 0) in int_of p.
Definition render_signal_table (r : SeverityRubric) : res string :=
  let* rows := mapM_res (fun e =>
    let* points := get_of e.2 "points" (PInt 0) in
    let* why := get_of e.2 "rationale" (PStr "") in
    Ok (text ["- `"; e.1; "`: +"; py_str points; " — "; py_str why])) (rb_signal_table r) in
  Ok (join_lines (("### Signal Scoring Table" ++ newline)%string :: rows)).
Definition render_severity_mapping (r : SeverityRubric) : string :=
  join_lines (text [newline; "### Total Points → P-level Mapping"; newline] :: map (fun row =>
    text ["- "; field_text row "total_points"; ": **"; field_text row "p_level"; "** ("; field_text row "label"; ") — action: `"; field_text row "action";
          "` TTL "; field_text row "ttl_seconds"; "s notify="; field_text row "notification_severity";
          if truthy (jget row "note") then " — " ++ field_text row "note" else ""]%string) (rb_severity_mapping r)).
Definition render_action_rules (r : SeverityRubric) : string :=
  join_lines (text [newline; "### Action Rules per P-level"; newline] :: map (fun row =>
    text ["- **"; field_text row "p_level"; "**: "; field_text row "primary_action"; " (TTL "; field_text row "ttl_seconds"; "s, notify=";
          field_text row "notify"; ", escalate_human="; field_text row "escalate_to_human"; ", sc_vote=";
          py_str (jget_or row "requires_self_consistency_vote" (PBool false)); ")"]) (rb_action_rules r)).
Definition render_confidence_calibration (r : SeverityRubric) : string :=
  join_lines (text [newline; "### Confidence Calibration"; newline] :: map (fun e => text ["- `"; e.1; "`: "; py_str e.2]) (rb_confidence_calibration r)).
Definition render_hard_overrides (r : SeverityRubric) : string :=
  join_lines (text [newline; "### Hard Overrides (immutable)"; newline] :: map (fun o =>
    text ["- **"; field_text o "rule"; "** → "; field_text o "override_action"; " (severity: "; py_str (jget_or o "severity" (PStr "n/a")); "). ";
          py_str (jget_or o "rationale" (PStr ""))]) (rb_hard_overrides r)).
Definition severity_full (r : SeverityRubric) : res string :=
  let* table := render_signal_table r in
  Ok (join_lines ["## SEVERITY SCORING RUBRIC — deterministic point-based mapping" ++ newline;
    text ["Apply when no SID pre-classification is present. Sum signal points "; "from observed flow, map to P-level, pick action."; newline];
    table; render_severity_mapping r; render_action_rules r; render_confidence_calibration r; render_hard_overrides r;
    text [newline; "### Procedure"; newline;
          "1. Inspect flow event + past_incidents (5-min window)."; newline;
          "2. Add points per matching signal."; newline;
          "3. Map total → P-level → action."; newline;
          "4. Apply hard overrides (MGT/NEVER_BLOCK/confidence-gate)."; newline;
          "5. Calibrate `confidence` field per the heuristics table."; newline;
          "6. Output structured `POLICY_DECISION_SCHEMA`."]]%string).

(** ** flow_features.py *)
Definition render_features (f : FlowFeatureSet) : res string :=
  let* rows := mapM_res (fun x =>
    let sub := jget x "sub_stats" in
    let* stats := if truthy sub then let* s := join_value ", " sub in Ok (" — sub-stats: " ++ s)%string else Ok "" in
    Ok (text ["- **"; field_text x "name"; "**"; stats; ": "; py_str (jget_or x "description" (PStr ""))])) (ff_features_per_ip_pair f) in
  Ok (join_lines (("### Feature set per IP-pair (window = 2 min, per NetVigil Table 2)" ++ newline)%string :: rows)).
(** [v // 60] *)
Definition minutes (v : pyval) : res pyval :=
  match v with
  | PInt z => Ok (PInt (z / 60))
  | PBool b => Ok (PInt 0)
  | PFloat q => Ok (PFloat (inject_Z (Qnum q / (Zpos (Qden q) * 60))))
  | _ => Raise (TypeError "unsupported operand type(s) for //")
  end.
Definition render_window (f : FlowFeatureSet) : res string :=
  let win := ff_detection_window f in
  let* m := minutes (jget_or win "default_seconds" (PInt 120)) in
  let* why := as_str "strip" (jget_or win "rationale" (PStr "")) in
  Ok (text [newline; "### Detection window"; newline; "- Default: **"; field_text win "default_seconds"; "s** ("; py_str m; "-minute aggregation)"; newline;
            "- Rationale: "; py_strip why]).
Definition render_unseen_port (f : FlowFeatureSet) : string :=
  join_lines (text [newline; "### 'Unseen port' tracking (strong signal for scan/lateral)"; newline] :: map (fun e =>
    text ["- Rule: `"; field_text e "rule"; "` → likely **"; field_text e "likely_pattern"; "** (severity_signal_points: +";
          py_str (jget_or e "severity_signal_points" (PInt 0)); ")"]) (ff_unseen_port_policy f)).
Definition render_feature_pattern_map (f : FlowFeatureSet) : string :=
  join_lines (text [newline; "### Feature → Pattern mapping"; newline] :: concat (map (fun e =>
    text ["- **"; e.1; "**:"] ::
    match e.2 with
    | PDict d => map (fun kv => text ["  - "; kv.1; ": "; py_str kv.2]) d
    | v => [text ["  - "; py_str v]]
    end) (ff_feature_to_pattern_map f))).
Definition features_full (f : FlowFeatureSet) : res string :=
  let* features := render_features f in
  let* window := render_window f in
  Ok (join_lines ["## FLOW FEATURE EXTRACTION — NetVigil-aligned (IP-pair aggregation)" ++ newline;
    text ["When reasoning about a raw flow event, compute or query these features ";
          "for the `(src_ip, dst_ip)` pair within the current 2-min window. Then "; "match against threat-patterns.md signatures."; newline];
    features; window; render_unseen_port f; render_feature_pattern_map f;
    text [newline; "### Reasoning procedure"; newline;
          "1. **Aggregate** the incoming flow event into the current 2-min window "; "by `(src_ip, dst_ip)`."; newline;
          "2. **Compute** the 9 features above for that IP pair."; newline;
          "3. **Compare** observed features against `baselines.md` for matching "; "`(src_zone, dst_zone, dst_port)`."; newline;
          "4. **Match** to `threat-patterns.md` signatures (top-down by class)."; newline;
          "5. **Score** severity per `severity-scoring.md`."; newline;
          "6. **Decide** action per pattern recommendation + hard overrides."]]%string).

(** ** enforcement_plane.py *)
Definition gotcha_lines (m : library) : list string := map (fun g => ("- " ++ py_str g)%string) (md_critical_gotchas m).
Definition render_failure (f : FailureMode) : string :=
  text ["- **"; fm_name f; "**: trigger="; fm_trigger f; " → status "; fm_rest_status f; ", body `"; fm_body_signature f; "`. ";
        "State: "; fm_state f; ". Agent action: "; fm_agent_action f].
Definition enforcement_full (m : library) : string :=
  join_lines (["## ENFORCEMENT PLANE — Secure Framework Contract" ++ newline;
    text ["Agent uses SF REST API as single source of truth. NO SSH to LEAFs, NO direct gNMI, ";
          "NO Redis/iptables access. SF endpoint: `http://ids-agent:8766/...` (proxied through "; "ids-agent which forwards to SF)."; newline];
    "### Endpoints in scope" ++ newline]%string ++
    map (fun e => text ["- **"; py_str e.1; "**: "; py_str e.2]) (md_endpoint_contracts m) ++
    [text [newline; "### RBAC"; newline; py_strip (md_rbac_contract m)]; text [newline; "### Critical gotchas"; newline]] ++ gotcha_lines m ++
    [text [newline; "### Failure modes & agent recovery"; newline]] ++ map render_failure (md_failure_modes m)).
Definition enforcement_summary (m : library) : string :=
  join_lines (["## ENFORCEMENT PLANE (summary)" ++ newline;
    text ["Single source of truth: SF REST via `http://ids-agent:8766`. ";
          "Push: `POST /rules` (returns 201, sync — when 201 received rule is on iptables). ";
          "Revoke: `DELETE /rules/{id}` (idempotent). "; "Verify: `GET /rules/{id}`."];
    text [newline; "### RBAC (must obey)"; newline; py_strip (md_rbac_contract m)];
    text [newline; "### Critical gotchas (must obey)"; newline]]%string ++ gotcha_lines m).

(** ** invariants.py *)
Definition AGENT_RULE_PRIORITY : Z := 50.
Definition PRIORITY_DANGER_FLOOR : Z := 1000.
Definition TTL_MIN_SECONDS : Z := 60.
Definition TTL_MAX_SECONDS : Z := 3600.
Definition never_block_line (i : invariants) (cidr : pyval) : string :=
  text ["- `"; py_str cidr; "` — "; py_str (default (PStr "") (dict_get (i_never_block_rationale i) cidr))].
Definition invariants_text (m : library) : res string :=
  let i := md_invariants m in
  let* actions := sorted_values (i_allowed_agent_actions i) in
  let* protected := index0 (PList (i_protected_comment_prefixes i)) in
  Ok (join_lines (["## NETWORK INVARIANTS — HARD CONSTRAINTS" ++ newline;
    "### NEVER_BLOCK list (hard reject if agent proposes blocking these)" ++ newline]%string ++ map (never_block_line i) (i_never_block_cidrs i) ++
    [text [newline; "### Hard constraints on agent actions"; newline];
     text ["- Allowed actions: "; py_str (PList actions); ". Agent role (cert OU=auto) ";
           "physically cannot push ACCEPT or RETURN — Secure Framework adapter rejects with HTTP 400."];
     text ["- Mandatory priority for block rules: **"; str_of_Z AGENT_RULE_PRIORITY; "** (or any value <100). ";
           "Priority >= "; str_of_Z PRIORITY_DANGER_FLOOR; " causes silent ineffectiveness (rule lands AFTER default-drop)."];
     text ["- TTL bounds: ["; str_of_Z TTL_MIN_SECONDS; ", "; str_of_Z TTL_MAX_SECONDS; "] seconds. Agent rules are reversible by design."];
     text ["- Comment provenance: agent rules MUST carry `"; py_str (i_agent_comment_prefix i); "*` prefix. ";
           "Rules with `"; py_str protected; "*` (baseline ZT policy) are IMMUTABLE — agent must never modify."];
     text [newline; "### Off-target enforcement check"; newline];
     text ["- intent.src_ip MUST contain alert.src_ip (CIDR membership). If an LLM proposes a ";
           "different src_ip than the alert source, this is treated as hallucination or prompt injection — "; "rule rejected before push."];
     text [newline; "### Single source of truth"; newline];
     text ["- All state mutations and verifications go through Secure Framework REST API. ";
           "If SF is unreachable → agent escalates, does NOT fallback to SSH/direct iptables."]])).
End Renderers.

(** ** Texts that contain a text *)
Definition within (x p : string) : Prop := exists a b, p = (a ++ x ++ b)%string.
#[export] Instance within_preorder : PreOrder within.
Proof.
  split.
  - intros x. exists "", "". cbn. by rewrite str_app_nil_r.
  - intros x y z (a & b & ->) (c & d & ->). exists (c ++ a)%string, (b ++ d)%string. by rewrite !str_app_assoc.
Qed.
Lemma within_app_l x a b : within x a -> within x (a ++ b).
Proof. intros (c & d & ->). exists c, (d ++ b)%string. by rewrite !str_app_assoc. Qed.
Lemma within_app_r x a b : within x b -> within x (a ++ b).
Proof. intros (c & d & ->). exists (a ++ c)%string, d. by rewrite !str_app_assoc. Qed.
Lemma within_concat x l : x ∈ l -> within x (concat_str l).
Proof. induction 1; cbn; [by apply within_app_l|by apply within_app_r]. Qed.
Lemma within_join sep x l : x ∈ l -> within x (py_join sep l).
Proof.
  induction l as [|y l IH]; [by intros ?%elem_of_nil|]. intros [->|Hx]%elem_of_cons.
  - destruct l; [done|]. cbn. by apply within_app_l.
  - destruct l as [|z l]; [by apply elem_of_nil in Hx|]. cbn. apply within_app_r, within_app_r. by apply IH.
Qed.
#[export] Hint Resolve within_app_l within_app_r within_concat within_join : cplane.

(** Looks for the part of a list that holds an element. *)
Ltac in_list tac :=
  first [ solve [tac] | by left | apply elem_of_cons; right; in_list tac
        | apply elem_of_app; first [left; in_list tac | right; in_list tac] ].
