(* ===== verification/AlertContext.v ===== *)
(** * The context of an alert (core/knowledge_loader.py, render_alert_context)

    What the prompt says of one alert: its hosts, its SID, the baseline of its flow, the
    source's history and reputation, and the investigation of agent/tools.py. *)
From Stdlib Require Import SpecFloat.
From S2P Require Import Prelude PyVal Json Models Topology Policy Postgres DecisionStore OperationalMemory Redis Knowledge KnowledgeGraph Boot Binary64 Tools Reputation Renderers.
Local Open Scope string_scope.
Local Open Scope Z_scope.
Local Open Scope list_scope.

(** [f"{n / 60.0:.1f}"] *)
Definition per_minute (n : Z) : string :=
  let z := scaled 1 (f_value (f_div (f_of n) (f_of 60))) in
  text [if z <? 0 then "-" else ""; str_of_Z (Z.abs z / 10); "."; str_of_Z (Z.abs z mod 10)].
(** [len(v)] and [v[:3]] *)
Definition len_of (v : pyval) : res Z :=
  match v with
  | PList l => Ok (Z.of_nat (length l)) | PStr s => Ok (Z.of_nat (py_len s)) | PDict d => Ok (Z.of_nat (length d))
  | _ => Raise (TypeError "object has no len()")
  end.
Definition first_three (v : pyval) : res (list pyval) :=
  match v with
  | PList l => Ok (take 3 l) | PStr s => Ok (take 3 (map PStr (py_chars s)))
  | _ => Raise (TypeError "object is not subscriptable")
  end.
(** The numbers of matches are integers of [find_similar_past_incidents]. *)
Definition match_count_of (v : pyval) : res Z :=
  match v with PInt z => Ok z | PBool b => Ok (if b then 1 else 0) | _ => Raise (TypeError "unsupported operand type(s) for +") end.
Definition fixed2_of (v : pyval) : res string :=
  match v with
  | PFloat q => Ok (fixed2 q) | PInt z => Ok (fixed2 (inject_Z z))
  | _ => Raise (ValueError "Unknown format code 'f'")
  end.

Section Context_.
Context `{PyRepr}.
Definition knowledge_in (m : modules) : knowledge :=
  Knowledge (md_zones m) (md_assets m) (md_leafs m) (md_baselines m) (md_policy_matrix m) (md_sids m) (md_kill_chains m)
    (EnforcementPlane (md_endpoint_contracts m) (md_field_name_mapping m) (md_critical_gotchas m) [] PNone) (md_invariants m).

Definition source_part (m : modules) (src_ip : string) : string :=
  match get_asset (knowledge_in m) src_ip with
  | Some a => text ["### Source: "; as_hostname a; " ("; as_ip a; ", zone "; as_zone a; ", "; as_tier a; ")"; newline; "- Role: "; as_role a; newline;
      "- Criticality: "; criticality_value (as_criticality a); newline; "- If blocked: "; as_if_blocked_impact a; newline;
      "- If compromised: "; as_if_compromised_impact a]
  | None => text ["### Source: "; src_ip; " (UNKNOWN — not in asset inventory)"]
  end.
Definition destination_part (m : modules) (dst_ip : string) : list string :=
  if nonempty dst_ip then
    match get_asset (knowledge_in m) dst_ip with
    | Some a => [text [newline; "### Destination: "; as_hostname a; " ("; as_ip a; ", zone "; as_zone a; ")"; newline; "- Role: "; as_role a; newline;
        "- Criticality: "; criticality_value (as_criticality a)]]
    | None => []
    end
  else [].
Definition sid_part (m : modules) (sid : option Z) : list string :=
  match sid with
  | Some n =>
      match dict_get (md_sids m) (PInt n) with
      | Some d => [text [newline; "### SID "; str_of_Z n; " trigger condition (observed on wire)"; newline;
          "- Detection logic: "; dt_detection_logic d; newline; "- Severity (catalog): P"; str_of_Z (sd_p_level d); newline;
          "- MITRE: "; dt_mitre_tactic d; " / "; dt_mitre_technique d; newline;
          "- Implication: the threshold above was crossed on this flow during the Suricata window."]]
      | None => []
      end
  | None => []
  end.
Definition baseline_part (m : modules) (src_ip dst_ip : string) (dst_port : Z) (proto : string) : list string :=
  if nonempty dst_ip && negb (dst_port =? 0) then
    match find_baseline (knowledge_in m) src_ip dst_ip dst_port proto with
    | Some p => [text [newline; "### Baseline path match: '"; tp_name p; "' (this flow path IS a known production pattern)"; newline;
        "- Description: "; pt_production_description p; newline; "- Cadence: "; pt_cadence p; newline;
        "- Expected volume: "; str_of_Z (pt_expected_volume_per_hour p); "/hr "; "(≈ "; per_minute (pt_expected_volume_per_hour p); "/min average)"; newline;
        "- Anomaly threshold (from baseline catalog): "; pt_burst_anomaly_threshold p; newline;
        "- Path criticality to business: "; flow_value (pt_criticality_to_business p); newline;
        "- If this path is disrupted: "; pt_if_disrupted p; newline;
        "- Note: baseline-allowed paths can still host behavioral anomalies. ";
        "Compare the SID trigger condition above against the baseline anomaly threshold ";
        "to assess whether this firing is normal load or abuse."; newline;
        "- High-stakes call: proposing DROP on this baseline-ALLOW path means you are ";
        "declaring the system is in a degraded state — behavioural signal overrides ";
        "static policy. Weigh anomaly evidence against the 'If disrupted' impact above ";
        "before deciding. Confidence should reflect how convincingly the SID trigger "; "exceeds the baseline anomaly threshold."]]
    | None => [text [newline; "### Baseline match: NONE — flow is NOT in known production traffic patterns."]]
    end
  else [].
Definition summary_part (src_ip : string) (summary : option obj) : list string :=
  match summary with
  | Some ((_ :: _) as d) => [text [newline; "### Recent activity from "; src_ip; " (last 30 days)"; newline;
      "- Total alerts: "; py_str (jget_or d "total_alerts" (PInt 0)); newline; "- Distinct SIDs: "; py_str (jget_or d "distinct_sids" (PInt 0)); newline;
      "- Trust score: "; py_str (jget d "trust_score"); newline; "- Past decisions: "; py_str (jget_or d "decision_summary" (PStr "(none)"))]]
  | _ => []
  end.
Definition reputation_part (r : option AssetReputation) : res (list string) :=
  match r with Some r => let* t := render_for_prompt r in Ok [(newline ++ t)%string] | None => Ok [] end.

(** *** The investigation *)
(** A tool's result, when there is one that is no error. *)
Definition finding (investigation : obj) (tool : string) : res (option pyval) :=
  let v := jget_or investigation tool (PDict []) in
  if truthy v then let* e := get_of v "error" PNone in Ok (if truthy e then None else Some v) else Ok None.
Definition named_flow (f : pyval) : res string :=
  let* name := index_key f "name" in
  let* criticality := index_key f "criticality" in
  Ok (text [py_str name; "("; py_str criticality; ")"]).
Definition neighbors_part (v : pyval) : res (list string) :=
  let* known := get_of v "asset_known" PNone in
  let* criticality := get_of v "criticality" PNone in
  let* score := get_of v "blast_radius_score" PNone in
  let* outbound := get_of v "outbound_flows" (PList []) in
  let* inbound := get_of v "inbound_flows" (PList []) in
  let* out_line := if truthy outbound then let* l := py_iter outbound in let* names := mapM_res named_flow l in
    Ok [("- Outbound flows from this IP: " ++ py_join ", " names)%string] else Ok [] in
  let* in_line := if truthy inbound then let* n := len_of inbound in Ok [text ["- Inbound flows to this IP: "; str_of_Z n; " flows"]] else Ok [] in
  let* blocked := get_of v "if_blocked" PNone in
  Ok (["### Blast radius assessment (if we block source)"; text ["- Asset known: "; py_str known; ", criticality="; py_str criticality];
       text ["- Blast radius score: **"; py_str score; "**"]] ++ out_line ++ in_line ++
      (if truthy blocked then [("- If blocked: " ++ py_str blocked)%string] else [])).
Definition exact_line (d : pyval) : res string :=
  let* date := index_key d "date" in
  let* date := as_str "__getitem__" date in
  let* o := index_key d "outcome" in
  let* a := index_key d "action" in
  let* c := index_key d "confidence" in
  Ok (text ["["; py_take 10 date; "] "; py_str o; " action="; py_str a; " conf="; py_str c]).
Definition semantic_line (x : pyval) : res string :=
  let* s := index_key x "alert_sid" in
  let* sim := index_key x "similarity" in
  let* sim := fixed2_of sim in
  let* o := index_key x "outcome" in
  Ok (text ["SID "; py_str s; " sim="; sim; " "; py_str o]).
Definition mitre_line (x : pyval) : res string :=
  let* s := index_key x "alert_sid" in
  let* o := index_key x "outcome" in
  let* a := index_key x "action" in
  Ok (text ["SID "; py_str s; " "; py_str o; " action="; py_str a]).
Definition top_lines (line : pyval -> res string) (title key : string) (v : pyval) : res (list string) :=
  let* l := get_of v key (PList []) in
  let* l := first_three l in
  let* texts := mapM_res line l in
  Ok [(title ++ py_join "; " texts)%string].
Definition incidents_part (v : pyval) : res (list string) :=
  let* exact_n := get_of v "match_count" (PInt 0) in
  let* semantic_n := get_of v "semantic_match_count" (PInt 0) in
  let* mitre_n := get_of v "mitre_match_count" (PInt 0) in
  let* e := match_count_of exact_n in
  let* s := match_count_of semantic_n in
  let* t := match_count_of mitre_n in
  let title := text [newline; "### Past similar incidents — multi-strategy retrieval (90-day lookback)"] in
  if e + s + t =? 0 then
    let* note := get_of v "note" (PStr "No history") in Ok [title; "- " ++ py_str note]%string
  else
    let* pattern := get_of v "pattern_assessment" PNone in
    let* exact :=
      if 0 <? e then
        let* breakdown := get_of v "outcome_breakdown" PNone in
        let* last := get_of v "last_decisions" (PList []) in
        let* last := first_three last in
        let* rows := mapM_res exact_line last in
        Ok (("- Outcome breakdown (exact-SID): " ++ py_str breakdown)%string ::
            match last with [] => [] | _ => [("- Recent exact-SID decisions: " ++ py_join "; " rows)%string] end)
      else Ok [] in
    let* semantic := if 0 <? s then top_lines semantic_line "- Semantic-similar (vector cosine): " "semantic_matches" v else Ok [] in
    let* mitre := if 0 <? t then top_lines mitre_line "- Same MITRE technique, different SID: " "mitre_matches" v else Ok [] in
    Ok ([title; text ["- Strategy hits — exact_SID: "; py_str exact_n; ", semantic: "; py_str semantic_n; ", "; "mitre_technique: "; py_str mitre_n];
         "- Pattern: " ++ py_str pattern]%string ++ exact ++ semantic ++ mitre).
Definition broken_line (f : pyval) : res string :=
  let* name := index_key f "name" in
  let* criticality := index_key f "criticality" in
  let* consequence := index_key f "consequence" in
  Ok (text ["  - "; py_str name; " (criticality="; py_str criticality; "): "; py_str consequence]).
Definition impact_part (v : pyval) : res (list string) :=
  let* full := get_of v "full_block_impact" (PDict []) in
  let* targeted := get_of v "targeted_block_impact" (PDict []) in
  let* broken := get_of full "outbound_flows_broken" PNone in
  let* broken_lines := if truthy broken then let* l := py_iter broken in let* rows := mapM_res broken_line l in
    Ok ("- Full-source block would break:" :: rows) else Ok [] in
  let* form := get_of targeted "rule_form" PNone in
  let* form_line :=
    if truthy form then
      let* t := as_str "__contains__" form in
      if str_contains "(no dst" t then Ok [] else
      let* matches := get_of targeted "matches_legitimate_baseline" PNone in
      Ok [text ["- Targeted block ("; t; "): "; "matches baseline="; py_str matches]]
    else Ok [] in
  let* recommendation := get_of v "recommendation" PNone in
  Ok (text [newline; "### Block impact simulation (counterfactual)"] :: broken_lines ++ form_line ++ [("- Recommendation: " ++ py_str recommendation)%string]).
Definition part_of (part : pyval -> res (list string)) (found : option pyval) : res (list string) :=
  match found with Some v => part v | None => Ok [] end.
Definition investigation_part (investigation : option obj) : res (list string) :=
  match investigation with
  | Some ((_ :: _) as d) =>
      let* neighbors := finding d "asset_neighbors" in
      let* neighbors := part_of neighbors_part neighbors in
      let* past := finding d "past_incidents" in
      let* past := part_of incidents_part past in
      let* impact := finding d "block_impact" in
      let* impact := part_of impact_part impact in
      Ok (text [newline; "## INVESTIGATION FINDINGS (pre-fetched, structured)"; newline] :: neighbors ++ past ++ impact)
  | _ => Ok []
  end.

Definition render_alert_context (m : modules) (src_ip dst_ip : string) (dst_port : Z) (proto : string) (sid : option Z) (summary : option obj)
    (investigation : option obj) (reputation : option AssetReputation) : res string :=
  let* reputation := reputation_part reputation in
  let* investigation := investigation_part investigation in
  Ok (join_lines (["## ALERT-SPECIFIC CONTEXT" ++ newline; source_part m src_ip]%string ++ destination_part m dst_ip ++ sid_part m sid ++
    baseline_part m src_ip dst_ip dst_port proto ++ summary_part src_ip summary ++ reputation ++ investigation)).
End Context_.

(** ** What the tools return can be rendered *)
Definition ok {A} (r : res A) : Prop := exists x, r = Ok x.
Lemma ok_bind {A B} (r : res A) (f : A -> res B) : ok r -> (forall x, r = Ok x -> ok (f x)) -> ok (rbind r f).
Proof. intros [x ->] Hf. by apply Hf. Qed.
Lemma ok_map {A B} (f : A -> res B) l : Forall (fun x => ok (f x)) l -> ok (mapM_res f l).
Proof. induction 1 as [|x l [y Hy] _ [ys Hys]]; [by exists []|]. exists (y :: ys). cbn. by rewrite Hy, Hys. Qed.

Section Renders.
Context `{PyRepr} `{Postgres} `{RedisServer} (iso : Z -> string) (sha1 : string -> string) (embed_text : string -> option (list Q)) (exn_str : exn -> string).

Lemma known_band score : ok (match interpretation (classify_band score) with None => Raise (KeyError "") | Some t => Ok t end).
Proof. unfold classify_band. repeat (destruct (SFleb _ _); [by eexists|]). by eexists. Qed.
Lemma reputation_renders now src hours db rep : fetch_reputation now src hours db = Ok rep -> ok (reputation_part (Some rep)).
Proof.
  assert (Hr : forall rep, (rp_has_history rep = true -> exists score, rp_band rep = classify_band score) -> ok (reputation_part (Some rep))).
  { intros r Hb. unfold reputation_part, render_for_prompt. destruct (rp_has_history r); [|by eexists]. destruct (Hb eq_refl) as [score ->].
    cbn [negb]. destruct (known_band score) as [t Ht]. destruct (interpretation _); [|done]. by eexists. }
  unfold fetch_reputation. destruct db as [db|]; [|intros [= <-]; by apply Hr]. destruct (pg_select _ _ _ _ _) as [rows|]; [|done]. cbn [rbind].
  intros [= <-]. apply Hr. by eexists.
Qed.

Lemma rows_render {A} (line : pyval -> res string) (entry : A -> pyval) l : (forall x, ok (line (entry x))) -> ok (mapM_res line (map entry l)).
Proof. intros Hx. apply ok_map, Forall_forall. intros v (x & -> & _)%list_elem_of_fmap. apply Hx. Qed.
Lemma neighbors_ok d l1 l2 : jget_or d "outbound_flows" (PList []) = PList (map flow_entry l1) -> jget_or d "inbound_flows" (PList []) = PList l2 ->
  ok (neighbors_part (PDict d)).
Proof.
  intros E1 E2. unfold neighbors_part. cbn [get_of rbind]. rewrite E1, E2. apply ok_bind.
  - destruct (truthy _); [|by eexists]. cbn [py_iter rbind]. apply ok_bind; [|by eexists]. apply rows_render. by eexists.
  - intros x _. destruct (truthy (PList l2)); by eexists.
Qed.
Lemma neighbors_render k ip : ok (neighbors_part (PDict (query_asset_neighbors k ip))).
Proof. unfold query_asset_neighbors. destruct (get_asset k (bare_ip ip)) as [a|]; [by eapply neighbors_ok|by eexists]. Qed.

Lemma top_ok {A} line (entry : A -> pyval) title key d l : (forall x, ok (line (entry x))) -> jget_or d key (PList []) = PList (map entry l) ->
  ok (top_lines line title key (PDict d)).
Proof.
  intros Hx E. unfold top_lines. cbn [get_of rbind]. rewrite E. cbn [first_three rbind]. rewrite firstn_map. apply ok_bind; [by apply rows_render|by eexists].
Qed.
Lemma incidents_ok d e n t recent (sem : list (row * Q)) mit :
  jget_or d "match_count" (PInt 0) = PInt e -> jget_or d "semantic_match_count" (PInt 0) = PInt n -> jget_or d "mitre_match_count" (PInt 0) = PInt t ->
  jget_or d "last_decisions" (PList []) = PList (map (past_entry iso) recent) ->
  jget_or d "semantic_matches" (PList []) = PList (map (fun x => similar_entry iso x.1 x.2) sem) ->
  jget_or d "mitre_matches" (PList []) = PList (map (mitre_entry iso) mit) -> ok (incidents_part (PDict d)).
Proof.
  intros E1 E2 E3 E4 E5 E6. unfold incidents_part. cbn [get_of rbind]. rewrite E1, E2, E3. cbn [match_count_of rbind].
  destruct (e + n + t =? 0); [by eexists|]. apply ok_bind.
  - destruct (0 <? e); [|by eexists]. rewrite E4. cbn [first_three rbind]. rewrite firstn_map. apply ok_bind; [|by eexists]. apply rows_render. by eexists.
  - intros x _. apply ok_bind; [|intros y _; apply ok_bind; [|by eexists]].
    + destruct (0 <? n); [|by eexists]. eapply top_ok; [|exact E5]. by eexists.
    + destruct (0 <? t); [|by eexists]. eapply top_ok; [|exact E6]. by eexists.
Qed.
Lemma slice_map {A B} (f : A -> B) n l : slice_upto n (map f l) = map f (slice_upto n l).
Proof. unfold slice_upto. rewrite length_map. by destruct (n <? 0); rewrite firstn_map. Qed.
Lemma semantic_entries now days limit text cache db l c : semantic_match iso sha1 embed_text now days limit text cache db = (l, c) ->
  exists sem, l = map (fun x : row * Q => similar_entry iso x.1 x.2) sem.
Proof.
  unfold semantic_match. destruct (negb (nonempty text)); [intros [= <- <-]; by exists []|].
  destruct (vector_of _ _ _ _ _) as [[v|] c']; intros [= <- <-]; [|by exists []].
  unfold search_similar_by_embedding. destruct v as [|q v]; [by exists []|]. destruct (pg_search _ _ _ _) as [rows|]; [|by exists []].
  induction rows as [|[r sim] rows [sem IH]]; [by exists []|]. cbn. destruct (Qle_bool _ _); [|by exists sem].
  exists ((r, default 0%Q sim) :: sem). cbn. by f_equal.
Qed.
Lemma exact_entries now n days limit db1 db2 db3 m : exact_sid_match iso now n days limit db1 db2 db3 = Ok m -> exists l, em_last m = map (past_entry iso) l.
Proof.
  unfold exact_sid_match. destruct (pg_select _ _ _ _ db1) as [[|r counted]|]; [intros [= <-]; by exists []| |done]. cbn [rbind].
  destruct (pg_select _ _ _ _ db2) as [o|]; [|done]. destruct (pg_select _ _ _ _ db3) as [recent|]; [|done]. intros [= <-]. by exists recent.
Qed.
Lemma mitre_entries now n days limit mitre db l : mitre_match iso now n days limit mitre db = Ok l -> exists rows, l = map (mitre_entry iso) rows.
Proof.
  unfold mitre_match. destruct mitre as [t|]; [|intros [= <-]; by exists []]. destruct (nonempty t); [|intros [= <-]; by exists []].
  destruct (pg_select _ _ _ _ db) as [rows|]; [|done]. intros [= <-]. by exists rows.
Qed.
Lemma incidents_render now n src_zone dst_zone days limit text mitre cache snap d c :
  find_similar_past_incidents iso sha1 embed_text now n src_zone dst_zone days limit text mitre cache snap = (Ok d, c) -> ok (incidents_part (PDict d)).
Proof.
  unfold find_similar_past_incidents. destruct snap as [snap|]; [|intros [= <- <-]; by eexists].
  destruct (pg_select _ _ _ _ (snap 0%nat)) as [[|r any]|]; [intros [= <- <-]; by eexists| |done].
  destruct (semantic_match _ _ _ _ _ _ _ _ _) as [semantic c'] eqn:Es. apply semantic_entries in Es as [sem ->].
  assert (He : exists l, em_last (match exact_sid_match iso now n days limit (snap 1%nat) (snap 2%nat) (snap 3%nat) with Ok m => m | Raise _ => no_exact end) = map (past_entry iso) l).
  { destruct (exact_sid_match _ _ _ _ _ _ _ _) as [m|] eqn:E; [by eapply exact_entries|by exists []]. }
  assert (Hm : exists rows, match mitre_match iso now n days limit mitre (snap 5%nat) with Ok l => l | Raise _ => [] end = map (mitre_entry iso) rows).
  { destruct (mitre_match _ _ _ _ _ _ _) as [l|] eqn:E; [by eapply mitre_entries|by exists []]. }
  revert He Hm. generalize (match exact_sid_match iso now n days limit (snap 1%nat) (snap 2%nat) (snap 3%nat) with Ok m => m | Raise _ => no_exact end) as m.
  intros m [recent Hl] [rows ->]. cbn zeta. destruct (_ =? 0); [intros [= <- <-]; by eexists|]. intros [= <- <-]. rewrite Hl, !slice_map.
  by eapply incidents_ok.
Qed.
Definition broken_entry (p : TrafficPattern) : pyval :=
  PDict [("name", PStr (tp_name p)); ("criticality", PStr (flow_value (pt_criticality_to_business p))); ("consequence", PStr (pt_if_disrupted p))].
Lemma impact_ok d f t l form : jget_or d "full_block_impact" (PDict []) = PDict f -> jget_or d "targeted_block_impact" (PDict []) = PDict t ->
  jget_or f "outbound_flows_broken" PNone = PList (map broken_entry l) -> jget_or t "rule_form" PNone = PStr form -> ok (impact_part (PDict d)).
Proof.
  intros E1 E2 E3 E4. unfold impact_part. cbn [get_of rbind]. rewrite E1, E2. cbn [get_of rbind]. rewrite E3, E4. apply ok_bind.
  - destruct (truthy _); [|by eexists]. cbn [py_iter rbind]. apply ok_bind; [|by eexists]. apply rows_render. by eexists.
  - intros x _. apply ok_bind; [|by eexists]. destruct (truthy _); [|by eexists]. cbn [as_str rbind]. destruct (str_contains _ _); by eexists.
Qed.
Lemma impact_render k src dst port : ok (impact_part (PDict (simulate_block_impact k src dst port))).
Proof. by eapply impact_ok. Qed.

(** A failed investigation of past incidents leaves no findings of it. *)
Lemma error_render msg : ok (incidents_part (PDict [("error", PStr msg)])).
Proof. by eexists. Qed.
Lemma finding_ok d tool part v : jget_or d tool (PDict []) = PDict v -> ok (part (PDict v)) ->
  ok (let* found := finding d tool in part_of part found).
Proof.
  intros E Hp. unfold finding. rewrite E. destruct (truthy (PDict v)); [|by eexists]. cbn [get_of rbind]. destruct (truthy _); [by eexists|done].
Qed.
Lemma investigation_renders d n p b : ok (neighbors_part (PDict n)) -> ok (incidents_part (PDict p)) -> ok (impact_part (PDict b)) ->
  d = [("asset_neighbors", PDict n); ("past_incidents", PDict p); ("block_impact", PDict b)] -> ok (investigation_part (Some d)).
Proof.
  intros Hn Hp Hb ->. unfold investigation_part. set (d := [_; _; _]).
  destruct (finding_ok d "asset_neighbors" neighbors_part n eq_refl Hn) as [x1 Hx1]. destruct (finding_ok d "past_incidents" incidents_part p eq_refl Hp) as [x2 Hx2].
  destruct (finding_ok d "block_impact" impact_part b eq_refl Hb) as [x3 Hx3].
  destruct (finding d "asset_neighbors") as [o1|]; [|done]. cbn [rbind] in *. rewrite Hx1. cbn [rbind].
  destruct (finding d "past_incidents") as [o2|]; [|done]. cbn [rbind] in *. rewrite Hx2. cbn [rbind].
  destruct (finding d "block_impact") as [o3|]; [|done]. cbn [rbind] in *. rewrite Hx3. by eexists.
Qed.
Definition unless_raised {A} (r : res A) : option A := match r with Ok x => Some x | Raise _ => None end.
Lemma prefetch_renders k strip words now src dst port n signature cache snap :
  ok (investigation_part (unless_raised (prefetch_investigation_context iso sha1 embed_text exn_str k strip words now src dst port n signature cache snap).1)).
Proof.
  unfold prefetch_investigation_context. destruct (technique_of _ _ _) as [mitre|]; [|by eexists].
  destruct (find_similar_past_incidents _ _ _ _ _ _ _ _ _ _ _ _ _) as [past c] eqn:E. cbn [fst unless_raised].
  destruct past as [pd|e].
  - eapply investigation_renders; [apply neighbors_render|by eapply incidents_render|apply impact_render|done].
  - eapply investigation_renders; [apply neighbors_render|apply error_render|apply impact_render|done].
Qed.
End Renders.

(** ** Properties *)
(** C15: The context of an alert can be rendered whatever the investigation found: with the
    result of the tools or their exception, the reputation or its exception and any
    summary, [render_alert_context] raises nothing, and its text tells of the source, of a
    known destination, of the SID's trigger and of the baseline of the flow. *)
Theorem context_renders `{PyRepr} `{Postgres} `{RedisServer} iso sha1 embed_text exn_str k strip words now src dst port n signature cache snap
    db proto summary (m : modules) :
  let investigation := (prefetch_investigation_context iso sha1 embed_text exn_str k strip words now src dst port n signature cache snap).1 in
  let reputation := fetch_reputation now src 1 db in
  exists t, render_alert_context m src dst port proto (Some n) summary (unless_raised investigation) (unless_raised reputation) = Ok t /\
    within (source_part m src) t /\
    forall x, x ∈ destination_part m dst ++ sid_part m (Some n) ++ baseline_part m src dst port proto -> within x t.
Proof.
  intros investigation reputation. unfold render_alert_context.
  assert (Hr : ok (reputation_part (unless_raised reputation))) by (destruct reputation eqn:E; [by eapply reputation_renders|by eexists]).
  destruct Hr as [r ->]. destruct (prefetch_renders iso sha1 embed_text exn_str k strip words now src dst port n signature cache snap) as [l Hl].
  subst investigation. rewrite Hl. cbn [rbind]. eexists. split; [reflexivity|]. split.
  - apply within_join. in_list idtac.
  - intros x Hx. apply within_join. rewrite !elem_of_app in Hx. rewrite !elem_of_app. naive_solver.
Qed.
