(* ===== verification/KnowledgeLoader.v ===== *)
(** * The tiers of the agent's knowledge (core/knowledge_loader.py)

    The static runbook (cached once), the runbook of an alert, the active rules of the
    secure framework (fetched at most once in a while) and the context of an alert.  The
    HTTP client's answer and the clock (nanoseconds) are parameters. *)
From Stdlib Require Import SpecFloat.
From S2P Require Import Prelude PyVal Json Models Topology Policy DecisionStore Knowledge KnowledgeGraph Boot Binary64 Reputation Renderers Prompts.
Local Open Scope string_scope.
Local Open Scope Z_scope.
Local Open Scope list_scope.

(** ** The state *)
Record loader := Loader { ld_tier1 : option string; ld_tier2 : option string; ld_loaded_at : Z; ld_active_rules : list pyval }.
Definition loader0 : loader := Loader None None 0 [].

Section Loader.
Context `{PyRepr} (set_order : list string -> list string).

(** ** Tier 1 *)
Definition static_core (m : library) : res string :=
  let* threats := threats_full m in
  let* severity := severity_full (lb_rubric m) in
  let* features := features_full (lb_features m) in
  let* invariants := invariants_text m in
  Ok (join_lines ["# DATACENTER ZERO TRUST OPERATIONS RUNBOOK"; "";
    text ["You are the AI security agent for this datacenter. The following knowledge ";
          "base describes the production system you operate. Treat it as authoritative."]; "";
    system_model_full m; ""; baselines_full m; ""; playbook_full m; ""; threats; ""; severity; ""; features; ""; enforcement_full m; "";
    invariants]).
Definition render_static_core (m : library) (s : loader) : loader * res string :=
  match ld_tier1 s with
  | Some t => (s, Ok t)
  | None =>
      match static_core m with
      | Ok t => (Loader (Some t) (ld_tier2 s) (ld_loaded_at s) (ld_active_rules s), Ok t)
      | Raise e => (s, Raise e)
      end
  end.

Definition render_alert_scoped_core (m : library) (sid : Z) (src_ip dst_ip : string) : res string :=
  let src_zone := default "" (ip_to_zone src_ip) in
  let dst_zone := default "" (ip_to_zone dst_ip) in
  let* threats := threats_for_alert m src_zone dst_zone 0 in
  let* severity := severity_full (lb_rubric m) in
  let* features := features_full (lb_features m) in
  let* invariants := invariants_text m in
  Ok (join_lines ["# DATACENTER ZERO TRUST OPERATIONS RUNBOOK (alert-scoped)"; "";
    text ["You are the AI security agent. The runbook below describes the slice of "; "production knowledge most relevant to this specific alert."]; "";
    system_model_for_alert set_order m src_ip dst_ip; ""; baselines_for_alert m src_ip dst_ip; ""; playbook_for_alert m sid; ""; threats; "";
    severity; ""; features; ""; enforcement_summary m; ""; invariants]).

(** ** Tier 2 *)
(** The updates of a notification, of a leaf, of the answer; [val] is what a rule is. *)
Definition update_rules (upd : pyval) : res (list pyval) :=
  let* val := get_of upd "val" (PDict []) in
  Ok (match val with PDict (_ :: _) => [val] | _ => [] end).
Definition notification_rules (n : pyval) : res (list pyval) :=
  match n with
  | PDict d => let* l := py_iter (jget_or d "update" (PList [])) in let* rules := mapM_res update_rules l in Ok (concat rules)
  | _ => Ok []
  end.
Definition leaf_rules (leaf : pyval) : res (list pyval) :=
  match leaf with
  | PDict d =>
      let* notifs := get_of (por (jget d "rules") (PDict [])) "notification" (PList []) in
      let* l := py_iter notifs in
      let* rules := mapM_res notification_rules l in Ok (concat rules)
  | _ => Ok []
  end.
Definition flatten_rules (data : pyval) : res (list pyval) :=
  match data with
  | PList l => Ok l
  | PDict d =>
      let* leaves := items_of (jget_or d "leaves" (PDict [])) in
      let* rules := mapM_res leaf_rules (map snd leaves) in Ok (concat rules)
  | _ => Ok []
  end.

Definition is_agent_rule (r : pyval) : res bool :=
  let* source := get_of r "source" PNone in Ok (pyval_eqb source (PStr "agent")).
Fixpoint agent_rules (l : list pyval) : res (list pyval) :=
  match l with
  | [] => Ok []
  | r :: l => let* mine := is_agent_rule r in let* rest := agent_rules l in Ok (if mine then r :: rest else rest)
  end.
(** [r.get(k1) or r.get(k2) or ... or ""] *)
Fixpoint first_of (ks : list string) (r : pyval) : res pyval :=
  match ks with
  | [] => Ok (PStr "")
  | k :: ks => let* v := get_of r k PNone in if truthy v then Ok v else first_of ks r
  end.
Definition rule_line (r : pyval) : res string :=
  let* src := first_of ["src-prefix"; "src_ip"; "src-ip"] r in
  let* dst := first_of ["dst-prefix"; "dst_ip"; "dst-ip"] r in
  let* rid := first_of ["rule-id"; "rule_id"] r in
  let* action := get_of r "action" (PStr "") in
  Ok (text ["  - "; py_str rid; ": "; py_str action; " src="; py_str src; " dst="; py_str dst]).
Definition rules_text (rules : list pyval) : res string :=
  let* mine := agent_rules rules in
  let* lines := mapM_res rule_line mine in
  let section := match mine with [] => "(no agent-managed rules currently active)" | _ => join_lines lines end in
  Ok (text ["## ACTIVE AGENT-MANAGED RULES (live from Secure Framework)"; newline; newline; section; newline; newline;
            "Use this to detect idempotency — if a rule with same src/dst/port already exists, ";
            "POST same rule_id to refresh TTL rather than creating a duplicate."]).

(** What the client makes of the request: an exception, or a status and the body's [json()]. *)
Definition http_answer : Type := res (Z * res pyval).
(** The rules of an answer that counts: the others leave the rules as they are. *)
Definition rules_of (a : http_answer) : option (list pyval) :=
  match a with
  | Ok (status, body) =>
      if status =? 200 then match rbind body flatten_rules with Ok rules => Some rules | Raise _ => None end else None
  | Raise _ => None
  end.
(** One call, under the lock; the flag tells whether the server was asked. *)
Definition refresh_semi_dynamic (ttl now : Z) (force : bool) (a : http_answer) (s : loader) : loader * (bool * res unit) :=
  if negb force && (now - ld_loaded_at s <? ttl) then (s, (false, Ok tt))
  else
    let rules := default (ld_active_rules s) (rules_of a) in
    match rules_text rules with
    | Ok t => (Loader (ld_tier1 s) (Some t) now rules, (true, Ok tt))
    | Raise e => (Loader (ld_tier1 s) (ld_tier2 s) (ld_loaded_at s) rules, (true, Raise e))
    end.
Definition render_semi_dynamic (s : loader) : string := str_or (default "" (ld_tier2 s)) "(active rules cache not yet populated)".

(** ** The composites *)
Definition build_system_prompt (m : library) (ttl now : Z) (a : http_answer) (s : loader) : loader * res string :=
  match refresh_semi_dynamic ttl now false a s with
  | (s, (_, Raise e)) => (s, Raise e)
  | (s, (_, Ok _)) =>
      match render_static_core m s with
      | (s, Ok t) => (s, Ok (text [t; newline; newline; render_semi_dynamic s]))
      | (s, Raise e) => (s, Raise e)
      end
  end.
Definition build_alert_specific_prompt (m : library) (ttl now : Z) (a : http_answer) (sid : Z) (src_ip dst_ip : string) (s : loader)
  : loader * res string :=
  match refresh_semi_dynamic ttl now false a s with
  | (s, (_, Raise e)) => (s, Raise e)
  | (s, (_, Ok _)) =>
      (s, let* t := render_alert_scoped_core m sid src_ip dst_ip in Ok (text [t; newline; newline; render_semi_dynamic s]))
  end.
End Loader.

(** ** What a prompt of an alert holds *)
Definition with_chains (chains : list Knowledge.KillChain) (m : library) : library :=
  Library (Modules (md_zones m) (md_assets m) (md_leafs m) (md_baselines m) (md_sids m) chains (md_policy_matrix m) (md_endpoint_contracts m)
    (md_field_name_mapping m) (md_critical_gotchas m) (md_failure_modes m) (md_rbac_contract m) (md_invariants m))
    (lb_patterns m) (lb_tiers m) (lb_rubric m) (lb_features m).
(** The parts of the knowledge that an alert calls for. *)
Definition called_for `{PyRepr} (m : library) (sid : Z) (src_ip dst_ip : string) (x : string) : Prop :=
  (exists cidr, (cidr ∈ i_never_block_cidrs (md_invariants m)) /\ x = never_block_line (md_invariants m) cidr) \/
  (exists a ip, (ip ∈ [src_ip; dst_ip]) /\ dict_get (md_assets m) (bare ip) = Some a /\
     (x = render_asset a \/ exists z, dict_get (md_zones m) (as_zone a) = Some z /\ x = render_zone z)) \/
  (exists z, dict_get (md_zones m) "MGT" = Some z /\ x = render_zone z) \/
  (exists d, dict_get (md_sids m) (PInt sid) = Some d /\ x = render_sid_detail d) \/
  (exists p, (p ∈ b_patterns (md_baselines m)) /\ involves (bare src_ip) (bare dst_ip) p = true /\ x = render_pattern_full p) \/
  (exists g, (g ∈ md_critical_gotchas m) /\ x = ("- " ++ py_str g)%string).

Section AlertPrompt.
Context `{PyRepr} (set_order : list string -> list string) (Horder : forall l, set_order l ≡ₚ l).
Implicit Types m : library.

Lemma invariants_within m t cidr : invariants_text m = Ok t -> cidr ∈ i_never_block_cidrs (md_invariants m) ->
  within (never_block_line (md_invariants m) cidr) t.
Proof.
  unfold invariants_text. destruct (sorted_values _) as [actions|]; [|done]. cbn [rbind]. destruct (index0 _) as [protected|]; [|done]. cbn [rbind].
  intros [= <-] Hc. apply within_join. in_list ltac:(by apply (list_elem_of_fmap_2 (never_block_line (md_invariants m)))).
Qed.
Lemma zone_within m src dst z name : name ∈ zone_of_asset (dict_get (md_assets m) (bare src)) ++ zone_of_asset (dict_get (md_assets m) (bare dst)) ++ ["MGT"] ->
  dict_get (md_zones m) name = Some z -> within (render_zone z) (system_model_for_alert set_order m src dst).
Proof.
  intros Hn Hz. apply within_join. in_list ltac:(apply (list_elem_of_fmap_2 render_zone), list_elem_of_omap; exists name; split; [|done];
    unfold set_items; rewrite Horder; by apply elem_of_remove_dups).
Qed.
Lemma asset_within m src dst ip a : ip ∈ [src; dst] -> dict_get (md_assets m) (bare ip) = Some a ->
  within (render_asset a) (system_model_for_alert set_order m src dst).
Proof.
  intros Hip Ha. apply within_join. rewrite !elem_of_cons in Hip. destruct Hip as [->|[->|Hn]]; [| |by apply elem_of_nil in Hn].
  - rewrite Ha. in_list idtac.
  - rewrite Ha. case_bool_decide as E.
    + rewrite E, Ha. in_list idtac.
    + in_list idtac.
Qed.
Lemma sid_within m n d : dict_get (md_sids m) (PInt n) = Some d -> within (render_sid_detail d) (playbook_for_alert m n).
Proof. intros Hd. apply within_join. rewrite Hd. in_list idtac. Qed.
Lemma pattern_within m src dst q : q ∈ b_patterns (md_baselines m) -> involves (bare src) (bare dst) q = true ->
  within (render_pattern_full q) (baselines_for_alert m src dst).
Proof.
  intros Hq Hi. apply within_join. assert (Hr : q ∈ List.filter (involves (bare src) (bare dst)) (b_patterns (md_baselines m)))
    by (apply list_elem_of_In, List.filter_In; split; [by apply list_elem_of_In|done]).
  destruct (List.filter _ _) as [|r l]; [by apply elem_of_nil in Hr|]. in_list ltac:(by apply (list_elem_of_fmap_2 render_pattern_full)).
Qed.
Lemma gotcha_within m g : g ∈ md_critical_gotchas m -> within ("- " ++ py_str g)%string (enforcement_summary m).
Proof. intros Hg. apply within_join. in_list ltac:(by apply (list_elem_of_fmap_2 (fun g => ("- " ++ py_str g)%string))). Qed.

Lemma scoped_core_covers m n src dst p x : render_alert_scoped_core set_order m n src dst = Ok p -> called_for m n src dst x -> within x p.
Proof.
  unfold render_alert_scoped_core. destruct (threats_for_alert _ _ _ _); [|done]. destruct (severity_full _); [|done]. destruct (features_full _); [|done].
  destruct (invariants_text m) as [inv|] eqn:Ei; [|done]. cbn [rbind]. intros [= <-].
  assert (Hpart : forall part, part ∈ [system_model_for_alert set_order m src dst; baselines_for_alert m src dst; playbook_for_alert m n; enforcement_summary m; inv] ->
    within x part -> within x (join_lines ["# DATACENTER ZERO TRUST OPERATIONS RUNBOOK (alert-scoped)"; "";
    text ["You are the AI security agent. The runbook below describes the slice of "; "production knowledge most relevant to this specific alert."]; "";
    system_model_for_alert set_order m src dst; ""; baselines_for_alert m src dst; ""; playbook_for_alert m n; ""; a; "";
    a0; ""; a1; ""; enforcement_summary m; ""; inv])).
  { intros part Hp Hx. etrans; [exact Hx|]. apply within_join. rewrite !elem_of_cons in Hp. rewrite !elem_of_cons. naive_solver. }
  intros [(cidr & Hc & ->)|[(a2 & ip & Hip & Ha & [->|(z & Hz & ->)])|[(z & Hz & ->)|[(d & Hd & ->)|[(q & Hq & Hi & ->)|(g & Hg & ->)]]]]].
  - apply (Hpart inv); [in_list idtac|by apply invariants_within].
  - apply (Hpart (system_model_for_alert set_order m src dst)); [in_list idtac|by apply (asset_within m src dst ip)].
  - apply (Hpart (system_model_for_alert set_order m src dst)); [in_list idtac|]. apply (zone_within m src dst z (as_zone a2)); [|done].
    rewrite !elem_of_cons in Hip. destruct Hip as [->|[->|Hn]]; [| |by apply elem_of_nil in Hn]; rewrite Ha; in_list idtac.
  - apply (Hpart (system_model_for_alert set_order m src dst)); [in_list idtac|]. apply (zone_within m src dst z "MGT"); [in_list idtac|done].
  - apply (Hpart (playbook_for_alert m n)); [in_list idtac|by apply sid_within].
  - apply (Hpart (baselines_for_alert m src dst)); [in_list idtac|by apply pattern_within].
  - apply (Hpart (enforcement_summary m)); [in_list idtac|by apply gotcha_within].
Qed.
End AlertPrompt.

(** ** Calls over time *)
(** A call that asked the server: its time, the answer, and whether the text was rendered. *)
Record asked := Asked { at_ : Z; got : http_answer; done_ : bool }.
Definition call : Type := bool * Z * http_answer.
Definition step `{PyRepr} (ttl : Z) (c : call) (s : loader) : loader * list asked :=
  let '(force, now, a) := c in
  match refresh_semi_dynamic ttl now force a s with
  | (s, (true, r)) => (s, [Asked now a (is_ok r)])
  | (s, (false, _)) => (s, [])
  end.
Fixpoint run `{PyRepr} (ttl : Z) (calls : list call) (s : loader) : loader * list asked :=
  match calls with
  | [] => (s, [])
  | c :: calls => let '(s, l) := step ttl c s in let '(s, l') := run ttl calls s in (s, l ++ l')
  end.
(** The rules of the newest answer that counts. *)
Definition known_rules (log : list asked) : list pyval := default [] (last (omap (fun e => rules_of (got e)) log)).
(** When the text was rendered last, and of which rules; [past]: the log before it. *)
Fixpoint shown_from (past : list asked) (found : option (Z * list pyval)) (log : list asked) : option (Z * list pyval) :=
  match log with
  | [] => found
  | e :: log => let past := past ++ [e] in shown_from past (if done_ e then Some (at_ e, known_rules past) else found) log
  end.
Definition shown (log : list asked) : option (Z * list pyval) := shown_from [] None log.

Section Tier2.
Context `{PyRepr}.
Implicit Types (s : loader) (log : list asked).

Lemma shown_from_snoc past found log e :
  shown_from past found (log ++ [e]) =
  if done_ e then Some (at_ e, known_rules (past ++ log ++ [e])) else shown_from past found log.
Proof.
  revert past found. induction log as [|x log IH]; intros past found; cbn; [done|]. rewrite IH, <- !(assoc_L (++)). done.
Qed.
Lemma shown_snoc log e : shown (log ++ [e]) = if done_ e then Some (at_ e, known_rules (log ++ [e])) else shown log.
Proof. apply (shown_from_snoc []). Qed.
Lemma known_rules_snoc log e : known_rules (log ++ [e]) = default (known_rules log) (rules_of (got e)).
Proof. unfold known_rules. rewrite omap_app. cbn. destruct (rules_of (got e)); cbn; [by rewrite last_snoc|by rewrite app_nil_r]. Qed.
Lemma shown_done log t rules : shown log = Some (t, rules) -> exists e, (e ∈ log) /\ done_ e = true /\ at_ e = t.
Proof.
  induction log as [|e log IH] using rev_ind; [done|]. rewrite shown_snoc. destruct (done_ e) eqn:Ed.
  - intros [= <- <-]. exists e. split_and!; [by apply elem_of_app; right; left|done..].
  - intros (e' & He & ?)%IH. exists e'. split; [by apply elem_of_app; left|done].
Qed.

(** What the state holds of the calls so far. *)
Record tracks s log : Prop := {
  tr_rules : ld_active_rules s = known_rules log;
  tr_shown : match shown log with
             | None => ld_tier2 s = None /\ ld_loaded_at s = 0
             | Some (t, rules) => ld_loaded_at s = t /\ exists x, rules_text rules = Ok x /\ ld_tier2 s = Some x
             end }.
Lemma tracks_step ttl c s log s' l : tracks s log -> step ttl c s = (s', l) -> tracks s' (log ++ l).
Proof.
  destruct c as [[force now] a]. intros [Hr Hs]. unfold step, refresh_semi_dynamic.
  destruct (negb force && (now - ld_loaded_at s <? ttl)); [intros [= <- <-]; by rewrite app_nil_r|].
  assert (Hk : known_rules (log ++ [Asked now a true]) = default (ld_active_rules s) (rules_of a)) by (by rewrite known_rules_snoc, Hr).
  assert (Hk' : known_rules (log ++ [Asked now a false]) = default (ld_active_rules s) (rules_of a)) by (by rewrite known_rules_snoc, Hr).
  destruct (rules_text _) as [x|e] eqn:Ex; intros [= <- <-]; cbn [is_ok].
  - split; [done|]. rewrite shown_snoc. cbn [done_ at_]. rewrite Hk. split; [done|]. by exists x.
  - split; [done|]. rewrite shown_snoc. cbn [done_]. done.
Qed.
Lemma tracks_run ttl calls : forall s log s' l, tracks s log -> run ttl calls s = (s', l) -> tracks s' (log ++ l).
Proof.
  induction calls as [|c calls IH]; intros s log s' l Ht; cbn; [intros [= <- <-]; by rewrite app_nil_r|].
  destruct (step ttl c s) as [s1 l1] eqn:E1. destruct (run ttl calls s1) as [s2 l2] eqn:E2. intros [= <- <-].
  rewrite (assoc_L (++)). eapply IH; [|exact E2]. by eapply tracks_step.
Qed.
Lemma tracks0 : tracks loader0 [].
Proof. by split. Qed.
(** Times that do not go back: what was shown last is the newest of what was shown. *)
Lemma run_times ttl calls : forall s s' l, run ttl calls s = (s', l) -> sublist (map at_ l) (map (fun c : call => c.1.2) calls).
Proof.
  induction calls as [|[[force now] a] calls IH]; intros s s' l; cbn [run map]; [intros [= <- <-]; constructor|].
  destruct (step ttl _ s) as [s1 l1] eqn:E1. destruct (run ttl calls s1) as [s2 l2] eqn:E2. intros [= <- <-]. apply IH in E2. cbn [fst snd].
  unfold step in E1. destruct (refresh_semi_dynamic _ _ _ _ _) as [s3 [[] r]]; simplify_eq; [by constructor|by constructor].
Qed.
Lemma sublist_sorted (l k : list Z) : sublist l k -> StronglySorted Z.le k -> StronglySorted Z.le l.
Proof.
  induction 1 as [|x l k Hs IH|x l k Hs IH]; [done| |]; intros Hk; apply StronglySorted_inv in Hk as [Hk Hx]; [|by apply IH].
  constructor; [by apply IH|]. rewrite Forall_forall in *. intros y Hy. apply Hx. by eapply elem_of_sublist.
Qed.
Lemma shown_newest log t rules e : StronglySorted Z.le (map at_ log) -> shown log = Some (t, rules) -> e ∈ log -> done_ e = true -> at_ e <= t.
Proof.
  induction log as [|x log IH] using rev_ind; [done|]. rewrite map_app. intros Hs. rewrite shown_snoc.
  assert (Hle : forall y, y ∈ log -> at_ y <= at_ x).
  { intros y Hy. apply (StronglySorted_app_1_elem_of Z.le (map at_ log) [at_ x]); [done|by apply list_elem_of_fmap_2|by left]. }
  apply StronglySorted_app_1_l in Hs. destruct (done_ x) eqn:Ed.
  - intros [= <- <-] [He|He%list_elem_of_singleton]%elem_of_app _; [by apply Hle|by subst].
  - intros Hsh [He|He%list_elem_of_singleton]%elem_of_app Hd; [by apply IH|congruence].
Qed.
Lemma shown_none log : (forall e, e ∈ log -> done_ e = false) <-> shown log = None.
Proof.
  induction log as [|e log IH] using rev_ind; [split; [done|intros _ e He; by apply elem_of_nil in He]|].
  rewrite shown_snoc. split.
  - intros Hn. rewrite (Hn e) by (apply elem_of_app; right; by left). apply IH. intros x Hx. apply Hn, elem_of_app. by left.
  - destruct (done_ e) eqn:Ed; [done|]. intros Hs x [Hx|Hx%list_elem_of_singleton]%elem_of_app; [by apply IH|by subst].
Qed.
Lemma rules_text_nonempty rules x : rules_text rules = Ok x -> nonempty x = true.
Proof. unfold rules_text. destruct (agent_rules rules); [|done]. cbn [rbind]. destruct (mapM_res _ _); [|done]. by intros [= <-]. Qed.
End Tier2.

(** ** Properties *)
(** C13: The system message of an alert holds everything the alert calls for: the never-block
    list with its reasons, the profile of either address that is a known asset and its
    zone, the management zone, the detection of its SID, every baseline either address is
    part of, the gotchas of the enforcement plane and the active rules.  It is the same
    whatever the kill chains are, although the docstring of [render_alert_scoped_core]
    promises the matching ones: the code puts none into the text. *)
Theorem alert_prompt `{PyRepr} set_order (m : library) ttl now a n src dst s s' snapshot :
  (forall l, set_order l ≡ₚ l) ->
  build_alert_specific_prompt set_order m ttl now a n src dst s = (s', Ok snapshot) ->
  exists msg, Prompts.build_system_prompt snapshot = Ok msg /\
    (forall x, called_for m n src dst x -> within x msg) /\ within (render_semi_dynamic s') msg /\
    forall chains, build_alert_specific_prompt set_order (with_chains chains m) ttl now a n src dst s = (s', Ok snapshot).
Proof.
  intros Horder Hb. assert (Hch : forall chains, build_alert_specific_prompt set_order (with_chains chains m) ttl now a n src dst s = (s', Ok snapshot))
    by (intros chains; by rewrite <- Hb).
  unfold build_alert_specific_prompt in Hb. destruct (refresh_semi_dynamic ttl now false a s) as [s1 [asks [u|e]]]; [|done].
  destruct (render_alert_scoped_core set_order m n src dst) as [t|e] eqn:Et; [|done]. cbn [rbind] in Hb. injection Hb as -> <-.
  match goal with |- context [Prompts.build_system_prompt ?snap] =>
    destruct (system_prompt_holds snap) as (b & c & ->); set (snapshot := snap); assert (Hw : within snapshot (b ++ snapshot ++ c)%string) by (by exists b, c) end.
  eexists. split; [done|]. split_and!; [| |done].
  - intros x Hx. etrans; [|exact Hw]. etrans; [by eapply scoped_core_covers|]. by apply within_app_l.
  - etrans; [|exact Hw]. by apply within_app_r, within_app_r, within_app_r, within_app_l.
Qed.

(** C14: The active rules in a prompt are never older than the time to live.  Whatever the calls
    before, forced or not, answered or not, at times that do not go back: a call that is
    not forced asks the server exactly when no text was rendered within the time to live,
    the rules it knows are those of the newest answer that counts, and unless the rendering
    raises, the text it leaves is that of the rules known at a time less than the time to
    live ago, or there is none yet. *)
Theorem rules_fresh `{PyRepr} ttl calls now a s log s' asks r :
  0 < ttl -> StronglySorted Z.le (map (fun c : call => c.1.2) calls ++ [now]) ->
  run ttl calls loader0 = (s, log) -> refresh_semi_dynamic ttl now false a s = (s', (asks, r)) ->
  let log' := log ++ (if asks then [Asked now a (is_ok r)] else []) in
  (asks = true <-> ttl <= now - default 0 (option_map fst (shown log))) /\
  (asks = true -> forall e, e ∈ log -> done_ e = true -> ttl <= now - at_ e) /\
  ld_active_rules s' = known_rules log' /\
  (r = Ok tt ->
   match shown log' with
   | None => now < ttl /\ render_semi_dynamic s' = "(active rules cache not yet populated)"
   | Some (t, rules) => now - t < ttl /\ rules_text rules = Ok (render_semi_dynamic s')
   end).
Proof.
  intros Httl Hsorted Hrun Href log'. pose proof (tracks_run ttl calls loader0 [] s log tracks0 Hrun) as Ht. cbn [app] in Ht.
  assert (Hstep : step ttl (false, now, a) s = (s', if asks then [Asked now a (is_ok r)] else [])) by (unfold step; rewrite Href; by destruct asks).
  pose proof (tracks_step _ _ _ _ _ _ Ht Hstep) as [Hr' Hs']. fold log' in Hr', Hs'.
  assert (Hat : ld_loaded_at s = default 0 (option_map fst (shown log))) by (destruct Ht as [_ Hs]; by destruct (shown log) as [[t rules]|]; destruct Hs).
  assert (Hasks : asks = true <-> ttl <= now - default 0 (option_map fst (shown log))).
  { rewrite <- Hat. unfold refresh_semi_dynamic in Href. cbn [negb andb] in Href.
    destruct (Z.ltb_spec (now - ld_loaded_at s) ttl); [simplify_eq; lia|]. destruct (rules_text _); simplify_eq; lia. }
  split_and!; [done| |done|].
  - intros Ha e He Hd. apply Hasks in Ha. destruct (shown log) as [[t rules]|] eqn:Es.
    + assert (at_ e <= t); [|cbn in Ha; lia]. apply (shown_newest log t rules); [|done..].
      apply StronglySorted_app_1_l in Hsorted. by eapply sublist_sorted; [eapply run_times|].
    + by rewrite (proj2 (shown_none log) Es e He) in Hd.
  - intros ->. destruct (shown log') as [[t rules]|] eqn:Es'.
    + destruct Hs' as (Hl & x & Hx & Hx2). unfold render_semi_dynamic. rewrite Hx2. change (default _ (Some x)) with x. unfold str_or.
      rewrite (rules_text_nonempty _ _ Hx). split; [|done]. subst log'. destruct asks.
      * rewrite shown_snoc in Es'. cbn in Es'. injection Es' as <- _. lia.
      * rewrite app_nil_r in Es'. rewrite Es' in Hasks. cbn in Hasks. destruct (Z.lt_ge_cases (now - t) ttl); [done|]. by assert (false = true) by (by apply Hasks).
    + destruct Hs' as [Hl _]. unfold render_semi_dynamic. rewrite Hl. cbn. split; [|done]. subst log'. destruct asks.
      * by rewrite shown_snoc in Es'.
      * rewrite app_nil_r in Es'. rewrite Es' in Hasks. cbn in Hasks. destruct (Z.lt_ge_cases now ttl); [done|].
        by assert (false = true) by (apply Hasks; lia).
Qed.

(** ** Examples *)
#[local] Instance repr0 : PyRepr := fun _ => "?".
Definition sample_library : library :=
  Library sample_modules [] PNone (mkRubric [] [] [] [] []) (mkFeatures [] [] [] [] []).
Definition sample_answer : http_answer :=
  Ok (200, Ok (PDict [("leaves", PDict [("LEAF-1", PDict [("rules", PDict [("notification", PList [PDict [("update", PList [PDict [("val",
    PDict [("rule-id", PStr "r1"); ("source", PStr "agent"); ("action", PStr "DROP"); ("src-prefix", PStr "10.1.100.10/32")])]])]])])])])])).
Definition TTL : Z := 30 * SEC.
Lemma alert_prompt_witness : exists msg,
  within (never_block_line (md_invariants sample_library) (PStr "10.2.50.10/32")) msg /\
  within (render_asset (mkAsset "10.1.100.10" "web-01" "WEB" "presentation" "proxy" HIGH PUBLIC [mkService 80 "tcp" "http" "external" "proxy"]
    ["any"] [] "" "" "ops")) msg.
Proof.
  destruct (build_alert_specific_prompt id sample_library TTL (100 * SEC) sample_answer 9000001 "10.1.100.10" "" loader0) as [s' [snapshot|e]] eqn:E;
    [|exfalso; vm_compute in E; discriminate].
  destruct (alert_prompt id sample_library TTL (100 * SEC) sample_answer 9000001 "10.1.100.10" "" loader0 s' snapshot (fun l => reflexivity l) E)
    as (msg & _ & Hcalled & _).
  exists msg. split; apply Hcalled.
  - left. exists (PStr "10.2.50.10/32"). split; [|reflexivity]. by apply (bool_decide_unpack _).
  - right. left. eexists _, "10.1.100.10". split; [by left|]. split; [reflexivity|]. by left.
Defined.
(** A first call at start-up asks, a second one within the half minute does not. *)
Lemma rules_fresh_witness :
  (false = true <-> TTL <= 10 * SEC) /\ ld_active_rules (run TTL [(true, 100 * SEC, sample_answer)] loader0).1 <> [].
Proof.
  pose (calls := [(true, 100 * SEC, sample_answer)]).
  assert (Hs : StronglySorted Z.le (map (fun c : call => c.1.2) calls ++ [110 * SEC])) by (by repeat constructor).
  destruct (rules_fresh TTL calls (110 * SEC) (Raise (OtherError "ConnectError")) (run TTL calls loader0).1 (run TTL calls loader0).2
    (run TTL calls loader0).1 false (Ok tt) eq_refl Hs eq_refl eq_refl) as (Hasks & _ & Hr & _).
  split; [exact Hasks|]. fold calls. rewrite Hr. by vm_compute.
Defined.
(** Rules that are no objects stop every prompt until an answer counts again: each call asks
    and raises. *)
Definition stuck : loader := Loader None (Some "text") (100 * SEC) [PInt 1].
Lemma bad_rules_reached :
  refresh_semi_dynamic TTL (200 * SEC) false (Ok (200, Ok (PList [PInt 1]))) (Loader None (Some "text") (100 * SEC) []) =
  (stuck, (true, Raise (AttributeError "get"))).
Proof. by vm_compute. Qed.
Lemma bad_rules_stop_prompts m now n src dst a : rules_of a = None -> 130 * SEC <= now ->
  build_alert_specific_prompt id m TTL now a n src dst stuck = (stuck, Raise (AttributeError "get")).
Proof.
  intros Ha Hn. unfold build_alert_specific_prompt, refresh_semi_dynamic. cbn [ld_loaded_at stuck negb andb].
  destruct (Z.ltb_spec (now - 100 * SEC) TTL) as [Hlt|_]; [unfold TTL, SEC in *; lia|]. by rewrite Ha.
Qed.
