(* ===== verification/PromptContext.v ===== *)
(** * The prompts of an alert from the alert alone (agent/nodes.py, 37-200)

    [Prompts] builds the messages of a node from texts it is given; here those texts are
    what the nodes before make of the same alert: [load_context] asks the knowledge loader
    for the system prompt, [gather_context] pushes the alert to the history, reads it back,
    and fetches the summary, the correlation, the investigation and the reputation that the
    context of the alert shows.  [alert_prompts_confined]: of an alert whose SID is
    catalogued nothing outside of the marked block depends on the attacker's texts;
    [signature_steers_retrieval]: of another SID the signature chooses the incidents that
    are shown outside of the block. *)
From S2P Require Import Prelude PyVal Json Models Policy Topology Postgres DecisionStore Redis Nodes Knowledge KnowledgeGraph Boot OperationalMemory Tools Reputation Renderers.
From S2P Require Import Regex PromptGuard Prompts KnowledgeLoader AlertContext.
Local Open Scope string_scope.
Local Open Scope Z_scope.
Local Open Scope list_scope.

(** What the agent finds around it while it builds the prompts of one alert: the loader and
    the answer of the secure framework, the store and the clocks, the database as each
    fetch sees it. *)
Record surroundings `{RedisServer} `{Postgres} := Surroundings {
  sr_library : library; sr_ttl : Z; sr_loaded_at : Z; sr_rules : http_answer; sr_loader : loader;
  sr_redis_now : Z; sr_redis : redis; sr_now : Z; sr_hour : Z; sr_minute : Z;
  sr_summary_db : nat -> option pg; sr_correlation_db : option pg; sr_past_db : option (nat -> pg); sr_reputation_db : option pg }.

Section Context_.
Context `{PyRepr} `{UnicodeData} `{Postgres} `{RedisServer} (iso : Z -> string) (sha1 : string -> string)
  (embed_text : string -> option (list Q)) (exn_str : exn -> string) (set_order : list string -> list string)
  (strip : string -> string) (words : string -> list string).

(** [node_load_context] *)
Definition load_context (w : surroundings) (a : SuricataAlert) : res string :=
  let* n := sid a in
  (build_alert_specific_prompt set_order (sr_library w) (sr_ttl w) (sr_loaded_at w) (sr_rules w) n (al_src_ip a) (al_dest_ip a) (sr_loader w)).2.

Definition pushed (w : surroundings) (a : SuricataAlert) : res redis :=
  push_alert_history (sr_redis_now w) (al_src_ip a) (PDict (al_raw a)) (sr_redis w).
(** [history.get("history", [])] of the handler's answer, or of the default. *)
Definition history_of (r : res pyval) : list pyval :=
  match r with Ok (PDict d) => match jget_or d "history" (PList []) with PList l => l | _ => [] end | _ => [] end.

(** [node_gather_context]: the history, the correlation and the context of the alert; a fetch
    that raises counts as no result. *)
Definition gather_context (w : surroundings) (a : SuricataAlert) : res (list pyval * option obj * string) :=
  let* r := pushed w a in
  let* n := sid a in
  let m := lb_modules (sr_library w) in
  let history := history_of (execute_get_alert_history (sr_redis_now w) (PStr (al_src_ip a)) (PInt 10) r) in
  let summary := unless_raised (get_ip_summary iso (sr_now w) (al_src_ip a) 30 (sr_summary_db w)) in
  let correlation := unless_raised (get_recent_alerts_for_correlation iso (sr_now w) (al_src_ip a) 10 (sr_correlation_db w)) in
  let investigation := unless_raised (prefetch_investigation_context iso sha1 embed_text exn_str (knowledge_in m) strip words (sr_now w)
    (al_src_ip a) (al_dest_ip a) (al_dest_port a) n (signature a) (Some r) (sr_past_db w)).1 in
  let reputation := unless_raised (fetch_reputation (sr_now w) (al_src_ip a) 1 (sr_reputation_db w)) in
  let* context := render_alert_context m (al_src_ip a) (al_dest_ip a) (al_dest_port a) (proto_of a) (Some n) summary investigation reputation in
  Ok (history, correlation, context).

(** The messages that the node of a stage sends for an alert. *)
Definition alert_messages (w : surroundings) (st : stage) (a : SuricataAlert) : res (list pyval) :=
  let* snapshot := load_context w a in
  match st with
  | Classifying => node_messages (sr_hour w) (sr_minute w) snapshot "" [] None Classifying a
  | _ =>
      let* '(history, correlation, context) := gather_context w a in
      node_messages (sr_hour w) (sr_minute w) snapshot context history correlation st a
  end.
End Context_.

(** Alerts that differ in the attacker's texts at most: the same packet, seen at the same
    time, in the event as it was received too. *)
Record same_packet (a b : SuricataAlert) : Prop := {
  sp_trusted : same_trusted a b;
  sp_time : jget_or (al_raw a) "timestamp" (PStr "") = jget_or (al_raw b) "timestamp" (PStr "");
  sp_id : get_of (jget_or (al_raw a) "alert" (PDict [])) "signature_id" PNone = get_of (jget_or (al_raw b) "alert" (PDict [])) "signature_id" PNone }.
#[export] Instance same_packet_equivalence : Equivalence same_packet.
Proof.
  split; [by constructor|intros a b [? ? ?]; by constructor|].
  intros a b c [? ? ?] [? ? ?]; constructor; [by transitivity b|congruence|congruence].
Qed.

Section Lemmas.
Context `{PyRepr} `{UnicodeData} `{Postgres} `{RedisLaws} (iso : Z -> string) (sha1 : string -> string)
  (embed_text : string -> option (list Q)) (exn_str : exn -> string) (set_order : list string -> list string)
  (strip : string -> string) (words : string -> list string).

(** *** The stored embeddings are all that the fetches read of the store besides the history *)
Definition same_embeddings (r r' : redis) : Prop := forall t h, get_cached_embedding t h r = get_cached_embedding t h r'.
Lemma semantic_same r r' now days limit t db : same_embeddings r r' ->
  (semantic_match iso sha1 embed_text now days limit t (Some r) db).1 = (semantic_match iso sha1 embed_text now days limit t (Some r') db).1.
Proof.
  intros Hr. unfold semantic_match, vector_of. destruct (negb (nonempty t)); [done|]. rewrite Hr.
  destruct (get_cached_embedding _ _ _); [done|]. by destruct (embed_text t).
Qed.
Lemma incidents_same r r' now n src_zone dst_zone days limit t mitre snap : same_embeddings r r' ->
  (find_similar_past_incidents iso sha1 embed_text now n src_zone dst_zone days limit t mitre (Some r) snap).1 =
  (find_similar_past_incidents iso sha1 embed_text now n src_zone dst_zone days limit t mitre (Some r') snap).1.
Proof.
  intros Hr. unfold find_similar_past_incidents. destruct snap as [snap|]; [|done].
  destruct (pg_select _ _ _ _ _) as [[|x l]|]; [done| |done].
  pose proof (semantic_same r r' now days limit t (snap 4%nat) Hr) as Hs.
  destruct (semantic_match _ _ _ _ _ _ _ (Some r) _) as [s c], (semantic_match _ _ _ _ _ _ _ (Some r') _) as [s' c']. cbn [fst] in Hs. subst s'.
  cbn zeta. by destruct (_ =? 0).
Qed.
Lemma prefetch_same k r r' now src dst port n sig sig' snap : same_embeddings r r' ->
  semantic_text k strip n sig (ip_to_zone src) (if nonempty dst then ip_to_zone dst else None) =
    semantic_text k strip n sig' (ip_to_zone src) (if nonempty dst then ip_to_zone dst else None) ->
  (prefetch_investigation_context iso sha1 embed_text exn_str k strip words now src dst port n sig (Some r) snap).1 =
  (prefetch_investigation_context iso sha1 embed_text exn_str k strip words now src dst port n sig' (Some r') snap).1.
Proof.
  intros Hr Ht. unfold prefetch_investigation_context. destruct (technique_of _ _ _) as [mitre|]; [|done]. rewrite Ht.
  match goal with |- context [find_similar_past_incidents iso sha1 embed_text now n ?sz ?dz 90 5 ?t mitre (Some r) snap] =>
    pose proof (incidents_same r r' now n sz dz 90 5 t mitre snap Hr) as Hi end.
  destruct (find_similar_past_incidents _ _ _ _ _ _ _ _ _ _ _ (Some r) _) as [p c],
    (find_similar_past_incidents _ _ _ _ _ _ _ _ _ _ _ (Some r') _) as [p' c']. cbn [fst] in *. by subst p'.
Qed.
(** The catalogue speaks for a SID that it has. *)
Lemma catalogued_text k n sig sig' src_zone dst_zone : is_Some (find_sid k n) ->
  semantic_text k strip n sig src_zone dst_zone = semantic_text k strip n sig' src_zone dst_zone.
Proof. intros [d Hd]. unfold semantic_text. by rewrite Hd. Qed.

(** *** The pushed alerts *)
Lemma pushed_list w a r : pushed w a = Ok r ->
  rlist r (sr_redis_now w) (history_key (al_src_ip a)) = take 100 (PDict (al_raw a) :: rlist (sr_redis w) (sr_redis_now w) (history_key (al_src_ip a))).
Proof. apply push_history_list. Qed.
Lemma pushed_same w a b r r' : pushed w a = Ok r -> pushed w b = Ok r' -> same_embeddings r r'.
Proof.
  intros Ha Hb t h. unfold get_cached_embedding.
  by rewrite (push_history_other _ _ _ _ _ t _ Ha), (push_history_other _ _ _ _ _ t _ Hb) by done.
Qed.
(** The history that is read back begins with the alert itself. *)
Lemma history_pushed w a r : pushed w a = Ok r ->
  history_of (execute_get_alert_history (sr_redis_now w) (PStr (al_src_ip a)) (PInt 10) r) =
  PDict (al_raw a) :: take 9 (rlist (sr_redis w) (sr_redis_now w) (history_key (al_src_ip a))).
Proof.
  intros Hr. unfold execute_get_alert_history, get_alert_history. cbn [range_end rbind py_str].
  rewrite (pushed_list _ _ _ Hr). unfold history_upto. change (10 <=? 0) with false. cbn [history_of].
  change (jget_or _ "history" _) with (PList (take (Z.to_nat 10) (take 100 (PDict (al_raw a) :: rlist (sr_redis w) (sr_redis_now w) (history_key (al_src_ip a)))))).
  change (Z.to_nat 10) with 10%nat. cbn iota. rewrite take_take. by change (10 `min` 100)%nat with 10%nat.
Qed.
Lemma history_text_same a b l : same_packet a b -> history_text (PDict (al_raw a) :: l) = history_text (PDict (al_raw b) :: l).
Proof.
  intros [_ Ht Hi]. unfold history_text. cbn [take mapM_res].
  assert (E : history_line (PDict (al_raw a)) = history_line (PDict (al_raw b))); [|by rewrite E].
  unfold history_line. change (get_of (PDict (al_raw ?x)) ?k ?d) with (@Ok pyval (jget_or (al_raw x) k d)). cbn [rbind get_of]. by rewrite Hi, Ht.
Qed.
(** A node's messages depend on the history through its text only. *)
Lemma node_messages_history hour minute snapshot context l l' correlation st a : history_text l = history_text l' ->
  node_messages hour minute snapshot context l correlation st a = node_messages hour minute snapshot context l' correlation st a.
Proof.
  intros Hl. unfold node_messages. destruct (Prompts.build_system_prompt snapshot); [|done]. cbn [rbind]. destruct st; [done| | |done].
  - unfold build_reason_prompt. by rewrite Hl.
  - unfold build_policy_decision_prompt. by rewrite Hl.
Qed.
End Lemmas.

Section Confined.
Context `{PyRepr} `{UnicodeData} `{Postgres} `{RedisLaws} (iso : Z -> string) (sha1 : string -> string)
  (embed_text : string -> option (list Q)) (exn_str : exn -> string) (set_order : list string -> list string)
  (strip : string -> string) (words : string -> list string).
Abbreviation gather := (gather_context iso sha1 embed_text exn_str strip words).
Abbreviation alert_messages := (alert_messages iso sha1 embed_text exn_str set_order strip words).

Lemma load_same w a b : same_trusted a b -> load_context set_order w a = load_context set_order w b.
Proof. intros [E1 E2 E3 E4 E5 E6]. unfold load_context. by rewrite E1, E3, E4. Qed.
(** Two alerts of one packet with a catalogued SID get the same correlation and context, and
    histories of the same text, unless the store refuses the second. *)
Lemma gather_same w a b n past correlation context : same_packet a b -> sid a = Ok n ->
  is_Some (dict_get (md_sids (sr_library w)) (PInt n)) -> gather w a = Ok (past, correlation, context) ->
  (exists e, pushed w b = Raise e /\ gather w b = Raise e) \/
  (exists past', gather w b = Ok (past', correlation, context) /\ history_text past = history_text past').
Proof.
  intros Hab Hn Hsid. pose proof (sp_trusted _ _ Hab) as [E1 E2 E3 E4 E5 E6]. unfold gather_context.
  destruct (pushed w a) as [r|] eqn:Ea; [|done]. cbn [rbind]. rewrite Hn. cbn [rbind]. intros Hg.
  destruct (pushed w b) as [r'|e] eqn:Eb; [|left; by exists e]. right. cbn [rbind]. rewrite <- E1, Hn. cbn [rbind]. revert Hg. unfold proto_of. rewrite <- ?E3, <- ?E4, <- ?E5, <- ?E6.
  rewrite <- (prefetch_same iso sha1 embed_text exn_str strip words (knowledge_in (sr_library w)) r r' (sr_now w) (al_src_ip a) (al_dest_ip a)
    (al_dest_port a) n (signature a) (signature b) (sr_past_db w) (pushed_same w a b r r' Ea Eb))
    by (by apply catalogued_text).
  intros Hg. apply rbind_ok in Hg as (t & -> & Hg). injection Hg as <- <- <-. cbn [rbind]. eexists. split; [reflexivity|].
  pose proof (history_pushed w b r' Eb) as Hb. rewrite <- E3 in Hb. rewrite Hb, (history_pushed w a r Ea). by apply history_text_same.
Qed.

(** ** Properties *)
(** C12: Whatever prompt a node sends for an alert, composed from the alert by all the nodes
    before: when the SID is catalogued, or to classify, the signature and the category reach
    the messages only inside one marked block, as the injection filter leaves them.  For
    every other alert of the same packet, with the attacker's texts replaced, the system
    message, the text before and the text after the block are the same, unless the history's
    store refuses to push it.  Two things are not claimed, against what the prompts say of
    the block: the filter leaves the closing tag, so a signature can end the block early
    ([Prompts.tag_not_filtered]); and of a SID that is not catalogued the signature chooses
    past incidents shown outside of it ([signature_steers_retrieval]). *)
Theorem alert_prompts_confined w st a n ms :
  sid a = Ok n -> st = Classifying \/ is_Some (dict_get (md_sids (sr_library w)) (PInt n)) ->
  alert_messages w st a = Ok ms ->
  exists system before after,
    ms = messages system (before ++ block (clean_fields a) ++ after) /\
    forall b, same_packet a b ->
      alert_messages w st b = Ok (messages system (before ++ block (clean_fields b) ++ after)) \/
      (st <> Classifying /\ exists e, pushed w b = Raise e /\ alert_messages w st b = Raise e).
Proof.
  intros Hn Hst. unfold PromptContext.alert_messages. destruct (load_context set_order w a) as [snapshot|] eqn:El; [|done]. cbn [rbind].
  assert (Hload : forall b, same_packet a b -> load_context set_order w b = Ok snapshot).
  { intros b Hb. by rewrite <- (load_same w a b (sp_trusted _ _ Hb)). }
  assert (Hcase : st = Classifying \/ (st <> Classifying /\ is_Some (dict_get (md_sids (sr_library w)) (PInt n)))).
  { destruct st; [by left|right..]; (split; [done|]); by destruct Hst. }
  destruct Hcase as [->|[Hne Hsid]].
  - intros Hm. destruct (node_messages_confined _ _ _ _ _ _ _ _ _ Hm) as (system & before & after & -> & Hb). exists system, before, after.
    split; [done|]. intros b Hab. left. rewrite (Hload b Hab). cbn [rbind]. apply Hb, Hab.
  - assert (Hside : forall x : SuricataAlert, (match st with
        | Classifying => node_messages (sr_hour w) (sr_minute w) snapshot "" [] None Classifying x
        | _ => let* '(history, correlation, context) := gather w x in
               node_messages (sr_hour w) (sr_minute w) snapshot context history correlation st x end) =
        (let* '(history, correlation, context) := gather w x in
         node_messages (sr_hour w) (sr_minute w) snapshot context history correlation st x)) by (intros x; by destruct st).
    rewrite Hside. destruct (gather w a) as [[[past correlation] context]|] eqn:Eg; [|done]. cbn [rbind].
    intros Hm. destruct (node_messages_confined _ _ _ _ _ _ _ _ _ Hm) as (system & before & after & -> & Hb). exists system, before, after.
    split; [done|]. intros b Hab. rewrite (Hload b Hab). cbn [rbind]. rewrite Hside.
    destruct (gather_same w a b n past correlation context Hab Hn Hsid Eg) as [(e & Hp & ->)|(past' & -> & Hh)].
    + right. split; [done|]. by exists e.
    + left. cbn [rbind]. rewrite <- (node_messages_history _ _ _ _ past past' _ _ _ Hh). apply Hb, Hab.
Qed.
End Confined.

(** ** Examples *)
#[local] Instance repr0 : PyRepr := fun _ => "?".
#[local] Instance ascii_only : UnicodeData := {| uni_word _ := false; uni_digit _ := false |}.
(** A server that tells equal vectors from others. *)
#[local] Instance pg_near : Postgres := {|
  pg := @pg pg0; pg_rows := @pg_rows pg0; pg_commit := @pg_commit pg0; pg_select := @pg_select pg0;
  pg_search v p n s := Ok (map (fun r => (r, Some (if bool_decide (embedding r = Some v) then 1 else 0)%Q)) (take (Z.to_nat n) (filter (fun r => p r = true) s.1))) |}.
Definition sample_embed (t : string) : option (list Q) := if str_contains "burst" t then Some [1%Q; 0%Q] else Some [0%Q; 1%Q].
Definition past_row : row :=
  Row 3 None None (Some (vec_literal [1%Q; 0%Q])) [("id", PStr "d1"); ("alert_sid", PInt 9000010); ("alert_src_ip", PStr "10.1.100.10"); ("outcome", PStr "enforced")].
Definition sample_db : @pg pg_near := ([past_row], []).
Definition sample_around : surroundings := {|
  sr_library := sample_library; sr_ttl := TTL; sr_loaded_at := 100 * SEC; sr_rules := sample_answer; sr_loader := loader0;
  sr_redis_now := 0; sr_redis := redis_empty; sr_now := 10; sr_hour := 9; sr_minute := 5;
  sr_summary_db _ := Some sample_db; sr_correlation_db := Some sample_db; sr_past_db := Some (fun _ => sample_db); sr_reputation_db := Some sample_db |}.
Definition event (n : Z) (sig : string) : SuricataAlert :=
  let al := [("signature_id", PInt n); ("severity", PInt 1); ("signature", PStr sig); ("category", PStr "lateral")] in
  mkAlert "t" "10.1.100.10" "10.1.200.10" 40000 5432 "TCP" al [("timestamp", PStr "t"); ("alert", PDict al)].
Abbreviation sample_messages := (alert_messages (fun _ => "then") (fun t => t) sample_embed (fun _ => "") id id (fun t => [t]) sample_around).
Lemma event_packet n sig sig' : same_packet (event n sig) (event n sig').
Proof. by repeat constructor. Qed.
Lemma event_clean sig : sig ∈ ["WEB to DB"; "curl"] -> clean_fields (event 9000001 sig) = (sig, "lateral").
Proof. rewrite !elem_of_cons. intros [->|[->|Hn]]; [by vm_compute..|by apply elem_of_nil in Hn]. Qed.
Lemma alert_prompts_confined_witness : exists system before after,
  sample_messages Deciding (event 9000001 "WEB to DB") = Ok (messages system (before ++ block ("WEB to DB", "lateral") ++ after)) /\
  sample_messages Deciding (event 9000001 "curl") = Ok (messages system (before ++ block ("curl", "lateral") ++ after)).
Proof.
  destruct (sample_messages Deciding (event 9000001 "WEB to DB")) as [ms|] eqn:E; [|exfalso; vm_compute in E; discriminate].
  destruct (alert_prompts_confined (fun _ => "then") (fun t => t) sample_embed (fun _ => "") id id (fun t => [t]) sample_around Deciding
    (event 9000001 "WEB to DB") 9000001 ms) as (system & before & after & -> & Hb); [reflexivity|right; by eexists|exact E|].
  exists system, before, after. rewrite <- !event_clean by (rewrite !elem_of_cons; auto). split; [reflexivity|].
  destruct (Hb (event 9000001 "curl") (event_packet _ _ _)) as [Hc|(_ & e & He & _)]; [exact Hc|discriminate He].
Defined.
(** The signature of a SID that is not catalogued chooses what is shown outside of the block. *)
Lemma signature_steers_retrieval :
  let context sig := gather_context (fun _ => "then") (fun t => t) sample_embed (fun _ => "") id (fun t => [t]) sample_around (event 9000777 sig) in
  exists h1 k1 c1 h2 k2 c2, context "burst" = Ok (h1, k1, c1) /\ context "curl" = Ok (h2, k2, c2) /\
    str_contains "SID 9000010 sim=1.00 enforced" c1 = true /\ str_contains "sim=" c2 = false.
Proof. cbv zeta. eexists _, _, _, _, _, _. split; [vm_compute; reflexivity|]. split; [vm_compute; reflexivity|]. by vm_compute. Qed.
