(* ===== verification/IdsAgent.v ===== *)
(** * The rule handlers of the ids-agent (src/ids-agent/main.go)

    The Go process between the decision agent and the secure framework: the
    handlers that read, post and delete rules and the manual block.  Bodies are JSON
    values; a JSON object goes through a Go map, which sorts its keys and
    holds numbers as [float64].  A request to the secure framework may be lost, or
    handled with its answer lost.  The handlers that relay the IDS host's answer
    are [alertsHandler] (IncidentMemory.v). *)
From S2P Require Import Prelude PyVal PyText Json RolePolicy TamperLog GnmiPool Adapter RoleApi Enforcement.
Local Open Scope string_scope.
Local Open Scope Z_scope.
Local Open Scope list_scope.

(** What happens to a request between two processes. *)
Inductive hop := Lost | Unanswered | Answered.
#[export] Instance hop_eq_dec : EqDecision hop.
Proof. solve_decision. Defined.

(** The answer of a handler: a status with a JSON body or an empty one, the plain
    text of [http.Error], or a panic, after which the server drops the connection. *)
Inductive go_reply := GoReply (status : Z) (body : option pyval) | GoText (status : Z) (text : string) | GoPanic.

(** The integers a [float64] holds exactly and prints without an exponent. *)
Definition exact_float (z : Z) : bool := Z.abs z <=? 2 ^ 53.

Section Go.
(** How an integer past [2^53] comes back from [float64]. *)
Context (big : Z -> pyval).

(** [json.Marshal] of what [json.Decode] makes of a value. *)
Fixpoint go_value (v : pyval) : pyval :=
  match v with
  | PInt z => if exact_float z then v else big z
  | PFloat q => let r := Qred q in
      if bool_decide (Qden r = 1%positive) then (if exact_float (Qnum r) then PInt (Qnum r) else big (Qnum r)) else v
  | PList l => PList (map go_value l)
  | PDict d => PDict (sort_items (map (fun kv => (kv.1, go_value kv.2)) d))
  | _ => v
  end.

Context `{PyRepr} (json_loads : string -> option pyval).
Context (gnmi : nat -> string -> gnmi_request -> res pyval) (exn_str : exn -> string).
Context (interfaces : nat -> list string) (port : Z) (stamp : string * string * bool).

(** One request to the secure framework and what the caller gets of the answer. *)
Definition sf_request (h : hop) (m : method) (path : string) (body : option pyval) (s : api) : option (Z * option pyval) * api :=
  match h with
  | Lost => (None, s)
  | Unanswered => (None, (handle json_loads gnmi exn_str interfaces port stamp m path body s).2)
  | Answered =>
      let '(r, s') := handle json_loads gnmi exn_str interfaces port stamp m path body s in
      (match r with Reply status b => Some (status, Some b) | Preflight => Some (200, None) | Dropped _ => None end, s')
  end.

(** [json.dumps(v, indent=2)], the text of an answer of the secure framework. *)
Fixpoint json_indent (pad : string) (v : pyval) : string :=
  let pad' := ("  " ++ pad)%string in
  let block l r ls := (l ++ newline ++ py_join ("," ++ newline) (map (fun s => pad' ++ s)%string ls) ++ newline ++ pad ++ r)%string in
  match v with
  | PList (_ :: _ as l) => block "[" "]" (map (json_indent pad') l)
  | PDict (_ :: _ as d) => block "{" "}" (map (fun kv => (json_string kv.1 ++ ": " ++ json_indent pad' kv.2)%string) d)
  | _ => json_dumps false v
  end.

Definition error_body (msg : string) : option pyval := Some (PDict [("error", PStr msg)]).
Definition offline : go_reply := GoReply 503 (error_body "SF offline").
Definition relay (r : option (Z * option pyval)) : go_reply :=
  match r with Some (status, b) => GoReply status b | None => offline end.

(** [rulesPostHandler]; a [null] body decodes into the nil map, and the assignment panics. *)
Definition rulesPostHandler (h : hop) (body : option pyval) (s : api) : go_reply * api :=
  match body with
  | Some (PDict d) =>
      let raw := go_value (PDict (dict_set d "source" (PStr "agent"))) in
      let '(r, s') := sf_request h POST "/api/rules" (Some raw) s in (relay r, s')
  | Some PNone => (GoPanic, s)
  | _ => (GoReply 400 (error_body "invalid JSON"), s)
  end.

(** [Decode] into [[]map[string]interface{}]. *)
Definition decode_rules (v : pyval) : option (list obj) :=
  match v with
  | PNone => Some []
  | PList l => mapM (fun x => match x with PDict d => Some d | PNone => Some [] | _ => None end) l
  | _ => None
  end.

(** [rulesGetHandler]: the status of the answer is not relayed; a failed [Decode] has
    read the whole body, so there is nothing left to copy. *)
Definition rulesGetHandler (h : hop) (source : string) (s : api) : go_reply * api :=
  let '(r, s') := sf_request h GET "/api/rules" None s in
  (match r with
   | None => offline
   | Some (_, b) =>
       if negb (nonempty source) then GoReply 200 b else
       match b ≫= decode_rules with
       | None => GoReply 200 None
       | Some rules =>
           let own d := bool_decide (dict_get d "source" = Some (PStr source)) in
           GoReply 200 (Some (PList (map (fun d => go_value (PDict d)) (List.filter own rules))))
       end
   end, s').

(** [parts[len(parts)-1]] of the path without its final slash. *)
Definition path_id (path : string) : string :=
  last_part (if ends_with "/" path then String.substring 0 (pred (String.length path)) path else path).

(** [rulesDeleteHandler] and [unblockHandler], which take the same request. *)
Definition delete_rule (h : hop) (route : string) (failed : go_reply) (path : string) (s : api) : go_reply * api :=
  let rule_id := path_id path in
  if negb (nonempty rule_id) || bool_decide (rule_id = route) then (GoReply 400 (error_body "rule_id required"), s)
  else let '(r, s') := sf_request h DELETE ("/api/rules/" ++ rule_id)%string None s in
       (match r with Some (status, b) => GoReply status b | None => failed end, s').
Definition rulesDeleteHandler (h : hop) (m : method) (path : string) (s : api) : go_reply * api :=
  match m with DELETE => delete_rule h "rules" offline path s | _ => (GoText 405 "DELETE only", s) end.
(** [err] is the text of the client's error. *)
Definition unblockHandler (h : hop) (err : string) (m : method) (path : string) (s : api) : go_reply * api :=
  match m with
  | DELETE | POST => delete_rule h "unblock" (GoReply 500 (error_body err)) path s
  | _ => (GoText 405 "DELETE or POST only", s)
  end.

(** [strings.NewReplacer(".", "-", "/", "-")] *)
Definition safe_id (ip : string) : string :=
  str_map (fun c => if bool_decide (c = "."%char) || bool_decide (c = "/"%char) then "-"%char else c) ip.

Definition block_payload (src_ip rule_id reason : string) : obj :=
  [("action", PStr "DROP"); ("comment", PStr reason); ("priority", PInt 50);
   ("rule_id", PStr (if nonempty rule_id then rule_id else ("agent-" ++ safe_id src_ip)%string));
   ("source", PStr "agent");
   ("src_ip", PStr (if has_slash src_ip then src_ip else (src_ip ++ "/32")%string))].

(** [pushBlockRule]: the body of the answer, or the text of an error status. *)
Definition pushBlockRule (h : hop) (err src_ip rule_id reason : string) (s : api) : (option pyval + string) * api :=
  let '(r, s') := sf_request h POST "/api/rules" (Some (PDict (block_payload src_ip rule_id reason))) s in
  (match r with
   | None => inr err
   | Some (status, b) =>
       if 400 <=? status
       then inr ("SF " ++ str_of_Z status ++ ": " ++ match b with Some v => json_indent "" v | None => "" end)%string
       else inl b
   end, s').

(** [autoblockHandler]: the fields of the request, each empty when it is absent. *)
Definition autoblockHandler (h : hop) (err sf_url : string) (m : method) (src_ip rule_id reason : string) (s : api) : go_reply * api :=
  match m with
  | GET => (GoReply 200 (Some (PDict [("sf_url", PStr sf_url)])), s)
  | POST =>
      if negb (nonempty src_ip) then (GoReply 400 (error_body "src_ip required"), s)
      else match pushBlockRule h err src_ip rule_id (str_or reason "manual block via IDS Agent") s with
           | (inl b, s') => (GoReply 200 b, s')
           | (inr e, s') => (GoReply 500 (error_body e), s')
           end
  | _ => (GoText 405 "GET or POST only", s)
  end.

(** [rulesHandler] *)
Definition rulesHandler (h : hop) (m : method) (source : string) (body : option pyval) (s : api) : go_reply * api :=
  match m with
  | GET => rulesGetHandler h source s
  | POST => rulesPostHandler h body s
  | _ => (GoText 405 "GET or POST only", s)
  end.

(** [cors]: a preflight does not reach the handlers. *)
Definition cors (next : method -> api -> go_reply * api) (m : method) (s : api) : go_reply * api :=
  match m with OPTIONS => (GoReply 204 None, s) | _ => next m s end.

(** The requests of the proxy backend at the process; [ids_get] is the relayed answer of the
    IDS host to the other paths. *)
Definition serve (ids_get : string -> go_reply) (h : hop) (q : http_request) (s : api) : go_reply * api :=
  match q with
  | Post path payload => if bool_decide (path = "/rules") then cors (fun m => rulesHandler h m "" (Some (PDict payload))) POST s
                         else (GoText 404 "404 page not found", s)
  | Delete path => if starts_with "/rules/" path then cors (fun m => rulesDeleteHandler h m path) DELETE s else (GoText 404 "404 page not found", s)
  | Get path => if bool_decide (path = "/rules") then cors (fun m => rulesHandler h m "" None) GET s else (ids_get path, s)
  end.

(** What the HTTP client of the decision agent gets: text that is no JSON object raises. *)
Definition client_answer (r : go_reply) : res (Z * obj) :=
  match r with
  | GoReply status (Some (PDict d)) => Ok (status, d)
  | GoReply status None => Ok (status, [])
  | _ => Raise (ValueError "no JSON object")
  end.
Definition agent_http (ids_get : string -> go_reply) (h1 h2 : hop) (q : http_request) (s : api) : res (Z * obj) * api :=
  match h1 with
  | Lost => (Raise (OtherError "ConnectError"), s)
  | Unanswered => (Raise (OtherError "ReadTimeout"), (serve ids_get h2 q s).2)
  | Answered => let '(r, s') := serve ids_get h2 q s in (client_answer r, s')
  end.
End Go.

(** ** Theorems *)
(** The filter on the source never shows a rule: the secure framework answers with an
    object, which is no array of rules, and a failed decoding leaves nothing to copy. *)
Theorem rules_filter_empty `{PyRepr} big json_loads gnmi exn_str interfaces port stamp h source s :
  nonempty source = true ->
  (rulesGetHandler big json_loads gnmi exn_str interfaces port stamp h source s).1 ∈ [offline; GoReply 200 None].
Proof.
  intros Hs. unfold rulesGetHandler, sf_request. rewrite Hs. cbn [negb].
  assert (Hd : forall r s', handle json_loads gnmi exn_str interfaces port stamp GET "/api/rules" None s = (r, s') ->
    exists st d, r = Reply st (PDict d)).
  { change (handle _ _ _ _ _ _ GET "/api/rules" None s) with (handle_get_rules gnmi exn_str s). unfold handle_get_rules.
    destruct (gnmi_pool s); [|intros ? ? [= <- _]; by do 2 eexists].
    destruct (get_rules_loop _ _ _ _ _); intros ? ? [= <- _]; by do 2 eexists. }
  destruct h; [by left|by left|]. destruct (handle _ _ _ _ _ _ GET _ _ s) as [r s'] eqn:E.
  destruct (Hd _ _ eq_refl) as (st & d & ->). by right; left.
Qed.
