(* ===== verification/ClosedLoop.v ===== *)
(** * The closed loop: agent, ids-agent, secure framework, leafs

    One run of the decision agent over the REST API of the secure framework, with the
    ids-agent between them: the backend of the run is the proxy, its HTTP client
    is the ids-agent's handler over the API's state.  A run sends at most one rule,
    so the state of the API after the run is the one after the rules it sent. *)
From S2P Require Import Prelude PyVal PyText Json IpAddr Topology Policy Models Safety Redis ResponseCache.
From S2P Require Import RateLimiter CircuitBreaker Enforcement Nodes Agent.
From S2P Require Import RolePolicy TamperLog GnmiPool Adapter RoleApi IdsAgent.
Local Open Scope string_scope.
Local Open Scope Z_scope.
Local Open Scope list_scope.

(** ** Lemmas on the rule's way *)
Lemma dict_get_insert_key {A} (kv : string * A) l k : kv.1 ∉ l.*1 ->
  dict_get (insert_key kv l) k = if decide (k = kv.1) then Some kv.2 else dict_get l k.
Proof.
  induction l as [|[k' v'] l IH]; intros Hk; destruct kv as [kx vx]; [done|]. cbn [insert_key fst snd].
  rewrite fmap_cons in Hk. apply not_elem_of_cons in Hk as [Hne Hk]. cbn in Hne.
  destruct (str_leb kx k'); [done|]. cbn [dict_get]. rewrite (IH Hk). cbn [fst snd].
  destruct (decide (k = k')), (decide (k = kx)); congruence.
Qed.

Lemma insert_key_keys {A} (kv : string * A) l k : k ∈ (insert_key kv l).*1 <-> k = kv.1 \/ k ∈ l.*1.
Proof.
  induction l as [|x l IH]; [cbn; by rewrite elem_of_cons|]. cbn [insert_key].
  destruct (str_leb kv.1 x.1); [by rewrite fmap_cons, elem_of_cons|].
  rewrite !fmap_cons, !elem_of_cons, IH. tauto.
Qed.

Lemma sort_items_keys {A} (l : list (string * A)) k : k ∈ (sort_items l).*1 <-> k ∈ l.*1.
Proof.
  induction l as [|kv l IH]; [done|]. change (sort_items (kv :: l)) with (insert_key kv (sort_items l)).
  by rewrite insert_key_keys, fmap_cons, elem_of_cons, IH.
Qed.

Lemma dict_get_sort_items {A} (l : list (string * A)) k : NoDup l.*1 -> dict_get (sort_items l) k = dict_get l k.
Proof.
  induction l as [|[k' v'] l IH]; [done|]. rewrite fmap_cons. intros [Hk Hd]%NoDup_cons.
  change (sort_items ((k', v') :: l)) with (insert_key (k', v') (sort_items l)).
  rewrite dict_get_insert_key by (by rewrite sort_items_keys). cbn [dict_get fst snd]. by rewrite IH.
Qed.

Lemma dict_get_map_values {A B} (f : A -> B) (l : list (string * A)) k :
  dict_get (map (fun kv => (kv.1, f kv.2)) l) k = f <$> dict_get l k.
Proof. induction l as [|[k' v'] l IH]; [done|]. cbn. by destruct (decide (k = k')). Qed.

(** The object an ids-agent posts holds the decoded value of every key. *)
Lemma go_object_get big (d d' : obj) k : NoDup d.*1 -> go_value big (PDict d) = PDict d' ->
  dict_get d' k = go_value big <$> dict_get d k.
Proof.
  intros Hd [= <-]. rewrite dict_get_sort_items.
  - apply dict_get_map_values.
  - by rewrite <- list_fmap_compose.
Qed.

Lemma rule_src_bare i : bare_ip (rule_src i) = bare_ip (pi_src_ip i).
Proof.
  unfold rule_src. destruct (has_slash (pi_src_ip i)) eqn:E; [done|].
  etransitivity; [by apply (bare_ip_prefix _ "32")|by rewrite bare_ip_no_slash].
Qed.

Lemma rule_payload_keys i : NoDup (rule_payload i).*1.
Proof. unfold rule_payload. repeat case_match; cbn; by apply (bool_decide_unpack _). Qed.

(** The client of the pool a source is routed to. *)
Definition routed (p : pool) (src : pyval) (id : nat) : Prop :=
  match (if truthy src then ip_to_leaf_val src else Ok None) with
  | Ok (Some leaf) => get_client_by_key S_ADMIN leaf p = Some id
  | Ok None => get_any_client S_ADMIN p = Some id
  | Raise _ => False
  end.

Definition refused (r : response) : Prop :=
  match r with Reply status b => 400 <= status /\ exists d, b = PDict d | Preflight => False | Dropped _ => True end.
Definition answered (status : Z) (r : response) : Prop :=
  match r with Reply st b => st = status /\ exists d, b = PDict d | _ => False end.

(** What a posted rule does: nothing and an error, or one write, whose answer is the status. *)
Definition rule_written `{PyRepr} (gnmi : nat -> string -> gnmi_request -> res pyval) (d : obj) (r : response) (s s' : api) : Prop :=
  exists p a data cid, gnmi_pool s = Some p /\ truthy (por (jget d "rule_id") (jget d "rule-id")) = true /\
    as_str "upper" (get1 d "action" (PStr "DROP")) = Ok a /\
    rest_rule d (por (jget d "rule_id") (jget d "rule-id")) (py_upper a) = Ok data /\
    routed p (get2 d "src_ip" "src-ip" (PStr "")) cid /\
    let write := GnmiUpdate (rule_path (py_str (por (jget d "rule_id") (jget d "rule-id")))) (clean data) in
    sent_requests s' = sent_requests s ++ [(host_of p cid, write)] /\
    answered (if is_ok (gnmi (length (sent_requests s)) (host_of p cid) write) then 201 else 500) r.

Lemma post_rule_cases `{PyRepr} gnmi exn_str stamp d s r s' :
  handle_post_rule gnmi exn_str stamp (Some (PDict d)) s = (r, s') ->
  (sent_requests s' = sent_requests s /\ refused r) \/ rule_written gnmi d r s s'.
Proof.
  assert (Hq : forall m st t, 400 <= st -> sent_requests t = sent_requests t /\ refused (send_error m st)) by (cbn; eauto).
  unfold handle_post_rule. destruct (gnmi_pool s) as [p|] eqn:Ep; [|intros [= <- <-]; left; by apply Hq].
  destruct (truthy (PDict d)); cbn [negb]; [|intros [= <- <-]; left; by apply Hq].
  destruct (truthy (por _ _)) eqn:Eid; cbn [negb]; [|intros [= <- <-]; left; by apply Hq].
  destruct (as_str _ _) as [a|x] eqn:Ea; [|intros [= <- <-]; by left].
  case_bool_decide; [intros [= <- <-]; left; by apply Hq|].
  destruct (rest_rule _ _ _) as [data|x] eqn:Ed; [|intros [= <- <-]; by left].
  unfold push_rest_rule. destruct (if truthy (get2 _ _ _ _) then _ else _) as [leaf|x] eqn:El; [|intros [= <- <-]; by left].
  destruct (match leaf with Some l => _ | None => _ end) as [cid|] eqn:Ec; [|intros [= <- <-]; left; by apply Hq].
  cbn [ask_leaf]. intros E. right. exists p, a, data, cid.
  do 4 (split; [done|]). split; [unfold routed; rewrite El; by destruct leaf|]. cbn zeta.
  destruct (gnmi _ _ _) as [v|x] eqn:Eg; injection E as <- <-; cbn [sent_requests is_ok answered];
    (split; [|split; [done|by eexists]]); [|done].
  unfold record_log. by destruct (audit_log _).
Qed.

Lemma dict_get_clean data k v : NoDup data.*1 -> dict_get (clean data) k = Some v -> dict_get data k = Some v.
Proof. intros Hd Hk. by apply (dict_get_filter _ _ _ _ Hd) in Hk as [? _]. Qed.

(** The rule an intent becomes at a leaf: exactly these fields, less the empty ones.  The
    numbers pass through a [float64] of the ids-agent, which holds them when they are
    [exact_float]. *)
Definition rule_fields (i : PolicyIntent) (port : string) (priority ttl : Z) : obj :=
  [("rule-id", PStr (pi_rule_id i)); ("action", PStr "DROP"); ("src-ip", PStr (rule_src i)); ("dst-ip", PStr (rule_dst i));
   ("protocol", PStr (py_lower (str_or (pi_protocol i) "all"))); ("src-port", PStr ""); ("dst-port", PStr port);
   ("priority", PInt priority); ("source", PStr "agent"); ("comment", PStr (pi_comment i)); ("ttl-seconds", PInt ttl)].
Definition agent_rule (i : PolicyIntent) (v : obj) : Prop :=
  exists port priority ttl, v = clean (rule_fields i port priority ttl) /\
    (exact_float (pi_dst_port i) = true -> port = if pi_dst_port i =? 0 then "" else str_of_Z (pi_dst_port i)) /\
    (exact_float (pi_priority i) = true -> priority = if pi_priority i =? 0 then 1000 else pi_priority i) /\
    (exact_float (pi_ttl_seconds i) = true -> ttl = pi_ttl_seconds i).
Lemma agent_rule_src i v : agent_rule i v -> field v "src-ip" = rule_src i.
Proof. intros (port & priority & ttl & -> & _). rewrite field_clean; [done|]. by apply (bool_decide_unpack _). Qed.

Section Posted.
Context `{PyRepr} (big : Z -> pyval).

(** The body the ids-agent posts for an intent. *)
Lemma posted_get i d k : go_value big (PDict (dict_set (rule_payload i) "source" (PStr "agent"))) = PDict d ->
  dict_get d k = if decide ("source" = k) then Some (PStr "agent") else go_value big <$> dict_get (rule_payload i) k.
Proof.
  intros Hd. rewrite (go_object_get big _ _ _ (dict_set_NoDup _ _ _ (rule_payload_keys i)) Hd), dict_get_set. by case_decide.
Qed.

Lemma rule_src_nonempty i : nonempty (rule_src i) = true.
Proof. unfold rule_src. destruct (pi_src_ip i) as [|c s] eqn:E; [done|]. by destruct (has_slash _). Qed.

Lemma payload_dst i : dict_get (rule_payload i) "dst_ip" = if nonempty (rule_dst i) then Some (PStr (rule_dst i)) else None.
Proof. unfold rule_payload. by destruct (nonempty (rule_dst i)), (pi_dst_port i =? 0), (nonempty (pi_protocol i)). Qed.

Lemma payload_port i : dict_get (rule_payload i) "dst_port" = if pi_dst_port i =? 0 then None else Some (PInt (pi_dst_port i)).
Proof. unfold rule_payload. by destruct (nonempty (rule_dst i)), (pi_dst_port i =? 0), (nonempty (pi_protocol i)). Qed.
Lemma payload_protocol i : dict_get (rule_payload i) "protocol" = if nonempty (pi_protocol i) then Some (PStr (pi_protocol i)) else None.
Proof. unfold rule_payload. by destruct (nonempty (rule_dst i)), (pi_dst_port i =? 0), (nonempty (pi_protocol i)). Qed.

Definition ABSENT : list string := ["rule-id"; "src-ip"; "dst-ip"; "ttl-seconds"; "src_port"; "src-port"; "dst-port"].
Lemma payload_absent i k : k ∈ ABSENT -> dict_get (rule_payload i) k = None.
Proof.
  intros Hk. apply dict_get_None. unfold rule_payload.
  rewrite !fmap_app. intros Hin. unfold ABSENT in Hk. rewrite !elem_of_cons, elem_of_nil in Hk.
  destruct Hk as [->|[->|[->|[->|[->|[->|[->|[]]]]]]]];
    destruct (nonempty (rule_dst i)), (pi_dst_port i =? 0), (nonempty (pi_protocol i)); revert Hin; by apply (bool_decide_unpack _).
Qed.

Lemma posted_rule gnmi i d r s s' : go_value big (PDict (dict_set (rule_payload i) "source" (PStr "agent"))) = PDict d ->
  pi_action i = DROP -> rule_written gnmi d r s s' ->
  exists p cid v, gnmi_pool s = Some p /\ routed p (PStr (rule_src i)) cid /\ agent_rule i v /\
    let write := GnmiUpdate (rule_path (pi_rule_id i)) v in
    sent_requests s' = sent_requests s ++ [(host_of p cid, write)] /\
    answered (if is_ok (gnmi (length (sent_requests s)) (host_of p cid) write) then 201 else 500) r.
Proof.
  intros Hd Hact (p & a & data & cid & Hp & Ht & Ha & Hr & Hroute & Hs & Hans).
  assert (Hget : forall k, "source" <> k -> jget d k = default PNone (go_value big <$> dict_get (rule_payload i) k)).
  { intros k Hk. unfold jget. by rewrite (posted_get i d k Hd), decide_False. }
  assert (Hno : forall k, k ∈ ABSENT -> jget d k = PNone).
  { intros k Hk. rewrite Hget, (payload_absent i k Hk); [done|]. intros <-. revert Hk. by apply (bool_decide_unpack _). }
  assert (Hstr : forall k v, "source" <> k -> dict_get (rule_payload i) k = Some (PStr v) -> jget d k = PStr v).
  { intros k v Hk Hv. by rewrite Hget, Hv. }
  assert (Htwo : forall v, por (por (PStr v) PNone) (PStr "") = PStr v) by (by intros []).
  rewrite (Hstr "rule_id" (pi_rule_id i)), (Hno "rule-id") in * by first [done | repeat constructor].
  assert (Hid : por (PStr (pi_rule_id i)) PNone = PStr (pi_rule_id i)).
  { unfold por. destruct (truthy (PStr (pi_rule_id i))) eqn:E; [done|]. exfalso. unfold por in Ht. by rewrite E in Ht. }
  rewrite Hid in *. unfold get1, get2 in *.
  rewrite (Hstr "action" "DROP") in Ha by (done || by (cbn; rewrite Hact)). injection Ha as <-.
  rewrite (Hstr "src_ip" (rule_src i)), (Hno "src-ip"), Htwo in Hroute by first [done | repeat constructor].
  exists p, cid, (clean data). split; [done|]. split; [done|]. split; [|done].
  unfold rest_rule in Hr. apply rbind_ok in Hr as (pr & Hpr & (n & Hn & (so & Hso & (t & Htt & Hdata)%rbind_ok)%rbind_ok)%rbind_ok).
  unfold get1, get2 in *. rewrite (Hno "src-ip"), (Hno "dst-ip"), (Hno "ttl-seconds"), (Hno "src_port"), (Hno "src-port"), (Hno "dst-port") in * by repeat constructor.
  assert (Hsrc : jget d "source" = PStr "agent") by (unfold jget; by rewrite (posted_get i d "source" Hd)).
  rewrite Hsrc in Hso. injection Hso as <-.
  assert (Hdst : por (por (jget d "dst_ip") PNone) (PStr "") = PStr (rule_dst i)).
  { rewrite Hget, payload_dst by done. destruct (nonempty (rule_dst i)) eqn:En; [apply Htwo|].
    by rewrite (proj1 (nonempty_false _) En). }
  assert (Hcom : por (jget d "comment") (PStr "") = PStr (pi_comment i)).
  { rewrite (Hstr "comment" (pi_comment i)) by done. by destruct (pi_comment i). }
  assert (Hproto : pr = str_or (pi_protocol i) "all").
  { rewrite Hget, payload_protocol in Hpr by done. unfold str_or. destruct (nonempty (pi_protocol i)) eqn:En; cbn in Hpr; [|congruence].
    unfold por in Hpr. cbn in Hpr. rewrite En in Hpr. cbn in Hpr. congruence. }
  rewrite Hdst, Hcom, Hproto, (Hstr "src_ip" (rule_src i)), Htwo in Hdata by done. injection Hdata as <-.
  do 3 eexists. split; [reflexivity|]. split; [|split].
  - intros He. rewrite Hget, payload_port by done. destruct (Z.eqb_spec (pi_dst_port i) 0) as [|Hne]; [done|].
    cbn [fmap option_fmap option_map go_value default from_option]. rewrite He. unfold por, id. cbn [truthy].
    rewrite (proj2 (Z.eqb_neq _ _) Hne). cbn [negb truthy]. by rewrite !(proj2 (Z.eqb_neq _ _) Hne).
  - intros He. revert Hn. rewrite Hget by done. change (dict_get (rule_payload i) "priority") with (Some (PInt (pi_priority i))).
    cbn [fmap option_fmap option_map go_value default from_option]. rewrite He. unfold por, id. cbn [truthy].
    destruct (pi_priority i =? 0); cbn; congruence.
  - intros He. revert Htt. rewrite Hget by done. change (dict_get (rule_payload i) "ttl_seconds") with (Some (PInt (pi_ttl_seconds i))).
    cbn [fmap option_fmap option_map go_value default from_option]. rewrite He. unfold por, id. cbn [truthy].
    destruct (Z.eqb_spec (pi_ttl_seconds i) 0) as [Hz|Hz]; cbn; [congruence|]. rewrite (proj2 (Z.eqb_neq _ _) Hz). cbn. congruence.
Qed.
End Posted.

(** ** The loop *)
(** How the requests of one run travel, and the stamp of the log entry they leave. *)
Record passage := Passage { to_ids_agent : hop; to_framework : hop; log_stamp : string * string * bool }.

Section Loop.
Context `{External} `{MetaCodec} `{PyRepr} `{RedisServer}.
Context (kb : catalogue) (cfg : settings) (ccfg : cache_config) (lim : limits) (bcfg : breaker_config) (dry_run : bool).
Context (big : Z -> pyval) (json_loads : string -> option pyval).
Context (gnmi : nat -> string -> gnmi_request -> res pyval) (exn_str : exn -> string).
Context (interfaces : nat -> list string) (port : Z) (ids_get : string -> go_reply).

Definition route (l : passage) (q : http_request) (s : api) : res (Z * obj) * api :=
  agent_http big json_loads gnmi exn_str interfaces port (log_stamp l) ids_get (to_ids_agent l) (to_framework l) q s.

(** The backend of a run: the proxy whose requests the ids-agent answers. *)
Definition loop_backend (l : passage) (s : api) : EnforcementBackend := ids_agent_proxy (fun _ q => (route l q s).1).
Definition posted (l : passage) (s : api) (i : PolicyIntent) : api := (route l (Post "/rules" (rule_payload i)) s).2.

Definition loop_step (l : passage) (x : run_inputs) (a : SuricataAlert) (w : world) (s : api) : res (PolicyDecision * world * api) :=
  match process (H3 := loop_backend l s) kb cfg ccfg lim bcfg dry_run x a w with
  | Ok (d, w') => Ok (d, w', foldl (posted l) s (drop (length (w_calls w)) (w_calls w')))
  | Raise e => Raise e
  end.

(** A sequence of runs; one that raises leaves both states as they are. *)
Fixpoint loop_run (xs : list (passage * run_inputs * SuricataAlert)) (w : world) (s : api) : world * api :=
  match xs with
  | [] => (w, s)
  | (l, x, a) :: xs' =>
      match loop_step l x a w s with
      | Ok (_, w', s') => loop_run xs' w' s'
      | Raise _ => loop_run xs' w s
      end
  end.

Definition accepted (r : res (Z * obj)) : bool := match r with Ok (status, _) => status <? 400 | Raise _ => false end.
Definition sent_ok (s : api) (h : string) (q : gnmi_request) : bool := is_ok (gnmi (length (sent_requests s)) h q).

(** What the way of a posted rule comes to. *)
Definition delivered (l : passage) (i : PolicyIntent) (s s' : api) (acked : bool) : Prop :=
  exists p cid v, gnmi_pool s = Some p /\ routed p (PStr (rule_src i)) cid /\ agent_rule i v /\
    let write := GnmiUpdate (rule_path (pi_rule_id i)) v in
    sent_requests s' = sent_requests s ++ [(host_of p cid, write)] /\
    (acked = true <-> to_ids_agent l = Answered /\ to_framework l = Answered /\ sent_ok s (host_of p cid) write = true).

Lemma handle_rules_post stamp body s :
  handle json_loads gnmi exn_str interfaces port stamp POST "/api/rules" body s = handle_post_rule gnmi exn_str stamp body s.
Proof. reflexivity. Qed.

Lemma framework_post i h stamp s : pi_action i = DROP ->
  let '(r, s') := rulesPostHandler big json_loads gnmi exn_str interfaces port stamp h (Some (PDict (rule_payload i))) s in
  (sent_requests s' = sent_requests s /\ accepted (client_answer r) = false) \/
  delivered (Passage Answered h stamp) i s s' (accepted (client_answer r)).
Proof.
  intros Hact. cbn [rulesPostHandler].
  destruct (go_value big (PDict _)) as [| | | | | |d] eqn:Eg; try done.
  unfold sf_request. rewrite handle_rules_post. destruct h; [by left| |].
  - destruct (handle_post_rule _ _ _ _ s) as [r s'] eqn:Er. cbn [snd relay client_answer]. 
    destruct (post_rule_cases _ _ _ _ _ _ _ Er) as [[Hs _]|Hw]; [by left|]. right.
    destruct (posted_rule big gnmi i d r s s' Eg Hact Hw) as (p & cid & v & ? & ? & ? & ? & _).
    exists p, cid, v. do 3 (split; [done|]). split; [done|]. cbn. by split; [|intros (_ & ? & _)].
  - destruct (handle_post_rule _ _ _ _ s) as [r s'] eqn:Er.
    destruct (post_rule_cases _ _ _ _ _ _ _ Er) as [[Hs Hr]|Hw].
    + left. split; [done|]. destruct r as [st b| |e]; [|done|done]. destruct Hr as [Hr (b' & ->)]. cbn. by apply Z.ltb_ge.
    + right. destruct (posted_rule big gnmi i d r s s' Eg Hact Hw) as (p & cid & v & ? & ? & ? & Hs & Hans). cbn zeta in *.
      exists p, cid, v. do 4 (split; [done|]). unfold sent_ok.
      destruct r as [st b| |e]; [|done|done]. destruct Hans as [-> (b' & ->)]. cbn.
      destruct (is_ok _); (split; [by intros|by intros (_ & _ & ?)]).
Qed.

Lemma route_post l i s : pi_action i = DROP ->
  (sent_requests (posted l s i) = sent_requests s /\ accepted (route l (Post "/rules" (rule_payload i)) s).1 = false) \/
  delivered l i s (posted l s i) (accepted (route l (Post "/rules" (rule_payload i)) s).1).
Proof.
  intros Hact. pose proof (framework_post i (to_framework l) (log_stamp l) s Hact) as Hf.
  destruct l as [h1 h2 stamp]. cbn [to_framework log_stamp] in Hf. unfold posted, route. cbn [to_ids_agent to_framework log_stamp].
  unfold agent_http. destruct h1; [by left| |];
    change (serve _ _ _ _ _ _ _ _ h2 _ s) with (rulesPostHandler big json_loads gnmi exn_str interfaces port stamp h2 (Some (PDict (rule_payload i))) s);
    destruct (rulesPostHandler _ _ _ _ _ _ _ _ _ s) as [r s']; cbn [fst snd] in *; [|exact Hf].
  destruct Hf as [[Hs _]|(p & cid & v & ? & ? & ? & ? & _)]; [by left|]. right. exists p, cid, v. do 4 (split; [done|]).
  cbn. by split; [|intros (? & _)].
Qed.

Lemma loop_calls l s i w :
  call_succeeds (H3 := loop_backend l s) w i <-> accepted (route l (Post "/rules" (rule_payload i)) s).1 = true.
Proof.
  unfold call_succeeds. change (@enforce (loop_backend l s)) with (proxy_enforce (fun _ q => (route l q s).1)).
  unfold proxy_enforce. destruct (route l _ s).1 as [[status data]|e]; cbn.
  - destruct (status <? 400); (split; [by intros (r & [= <-] & ?)|]); [|done]. eauto.
  - by split; [intros (r & [= <-] & ?)|].
Qed.

Lemma drop_snoc {A} (l : list A) x : drop (length l) (l ++ [x]) = [x].
Proof. by rewrite drop_app_length. Qed.

(** One run: nothing was sent, or one rule that passed every layer reached a leaf. *)
Lemma loop_step_ok l x a w s d w' s' : loop_step l x a w s = Ok (d, w', s') ->
  (sent_requests s' = sent_requests s /\ d_outcome d <> ENFORCED) \/
  (exists i, called kb cfg lim dry_run x a w w' i /\ s' = posted l s i /\ delivered l i s s' (bool_decide (d_outcome d = ENFORCED))).
Proof.
  unfold loop_step. destruct (process _ _ _ _ _ _ x a w) as [[d1 w1]|] eqn:Ep; [|done]. intros [= -> -> <-].
  pose proof (process_ok kb cfg ccfg lim bcfg dry_run x a w d w' Ep) as [Hca _ Hen].
  destruct Hca as [Hca|(i & Hi)].
  - rewrite Hca, drop_all. left. split; [done|]. intros He. rewrite He in Hen. destruct (proj1 Hen eq_refl) as (i & [Hc] & _).
    rewrite Hca in Hc. by apply snoc_ne in Hc.
  - rewrite (ca_calls _ _ _ _ _ _ _ _ _ Hi), drop_snoc. cbn [foldl].
    assert (Ho : d_outcome d = ENFORCED <-> accepted (route l (Post "/rules" (rule_payload i)) s).1 = true).
    { rewrite <- (loop_calls l s i w). split.
      - intros He. rewrite He in Hen. destruct (proj1 Hen eq_refl) as (j & Hj & Hs).
        pose proof (ca_calls _ _ _ _ _ _ _ _ _ Hj) as E. rewrite (ca_calls _ _ _ _ _ _ _ _ _ Hi) in E.
        apply app_inv_head in E. by simplify_eq.
      - intros Hs. by assert (Some (d_outcome d) = Some ENFORCED) as [=] by (apply Hen; eauto). }
    destruct (route_post l i s (ca_drop _ _ _ _ _ _ _ _ _ Hi)) as [[Hs Hr]|Hd].
    + left. split; [done|]. rewrite Ho, Hr. done.
    + right. exists i. split; [done|]. split; [done|].
      replace (bool_decide (d_outcome d = ENFORCED)) with (accepted (route l (Post "/rules" (rule_payload i)) s).1); [done|].
      case_bool_decide as Hb; [by apply Ho|]. apply not_true_is_false. by rewrite <- Ho.
Qed.

Lemma handle_post_pool stamp body s : gnmi_pool (handle_post_rule gnmi exn_str stamp body s).2 = gnmi_pool s.
Proof.
  unfold handle_post_rule. destruct (gnmi_pool s) as [p|] eqn:Ep; [|done]. destruct body as [b|]; [|done]. case_match; [done|].
  destruct b as [| | | | | |d]; try done. case_match; [done|]. destruct (as_str _ _); [|done]. case_bool_decide; [done|].
  destruct (rest_rule _ _ _); [|done]. unfold push_rest_rule. destruct (if truthy (get2 _ _ _ _) then _ else _) as [leaf|]; [|done].
  destruct (match leaf with Some l => _ | None => _ end); [|done]. cbn [ask_leaf].
  destruct (gnmi _ _ _); [|done]. unfold record_log. by destruct (audit_log _).
Qed.

Lemma posted_pool l s i : gnmi_pool (posted l s i) = gnmi_pool s.
Proof.
  unfold posted, route, agent_http.
  change (serve _ _ _ _ _ _ _ _ _ _ s) with
    (rulesPostHandler big json_loads gnmi exn_str interfaces port (log_stamp l) (to_framework l) (Some (PDict (rule_payload i))) s).
  assert (Hf : gnmi_pool (rulesPostHandler big json_loads gnmi exn_str interfaces port (log_stamp l) (to_framework l)
                            (Some (PDict (rule_payload i))) s).2 = gnmi_pool s).
  { cbn [rulesPostHandler]. set (body := Some (go_value _ _)). unfold sf_request.
    pose proof (handle_post_pool (log_stamp l) body s) as Hh. rewrite handle_rules_post.
    destruct (to_framework l); [done| |]; destruct (handle_post_rule _ _ _ _ s); exact Hh. }
  destruct (to_ids_agent l); [done| |]; destruct (rulesPostHandler _ _ _ _ _ _ _ _ _ s); exact Hf.
Qed.

Lemma posted_all_pool l is_ : forall s, gnmi_pool (foldl (posted l) s is_) = gnmi_pool s.
Proof. induction is_ as [|i is_ IH]; intros s; [done|]. cbn [foldl]. by rewrite IH, posted_pool. Qed.

(** A rule on a single host spares the never-block ranges; nothing is said of a rule on a
    wider prefix. *)
Definition spares_whitelist (v : obj) : Prop := forall n b m,
  ip_network (field v "src-ip") false = Ok n -> n_plen n = max_prefixlen (n_ver n) ->
  addr_ok b -> in_net b n = true -> m ∈ NEVER_BLOCK_NETS -> in_net b m = false.

Lemma agent_rule_spares i v : agent_rule i v -> is_protected_ip (pi_src_ip i) = false -> spares_whitelist v.
Proof.
  intros Hsrc%agent_rule_src Hp n b m Hn Hl Hb Hin Hm. rewrite Hsrc in Hn.
  destruct (ip_network_addr _ _ _ Hn) as (c & Hc & _).
  destruct (host_net_unique _ _ _ _ _ Hn Hl Hc Hb Hin) as [Hv Hi].
  rewrite (in_net_ext b c) by done. eapply protected_false; [exact Hp| |done].
  rewrite <- rule_src_bare. exact Hc.
Qed.

(** The write [q] is the rule one of the runs decided, validated, at the leaf its source is
    routed to. *)
Definition from_run (xs : list (passage * run_inputs * SuricataAlert)) (p : pool) (q : string * gnmi_request) : Prop :=
  exists l x a i cid v, (l, x, a) ∈ xs /\ pi_action i = DROP /\ cleared kb cfg a i /\
    routed p (PStr (rule_src i)) cid /\ agent_rule i v /\ spares_whitelist v /\
    q = (host_of p cid, GnmiUpdate (rule_path (pi_rule_id i)) v).

Definition runs_of (xs : list (passage * run_inputs * SuricataAlert)) : list (run_inputs * SuricataAlert) :=
  map (fun y => (y.1.2, y.2)) xs.

Lemma loop_run_ok p xs : forall now g w s, agent_inv lim now g w -> rate_times_from now (runs_of xs) -> gnmi_pool s = Some p ->
  let '(w', s') := loop_run xs w s in
  (exists now' g', agent_inv lim now' g' w') /\
  exists new, sent_requests s' = sent_requests s ++ new /\ Forall (from_run xs p) new /\
    (length (w_calls w) + length new <= length (w_calls w'))%nat.
Proof.
  induction xs as [|[[l x] a] xs IH]; intros now g w s Hi Hr Hp; cbn [loop_run].
  - split; [eauto|]. exists []. by rewrite app_nil_r, Nat.add_0_r.
  - destruct Hr as [Hle Hr].
    assert (Hweak : forall q, from_run xs p q -> from_run ((l, x, a) :: xs) p q).
    { intros q (l' & x' & a' & i & cid & v & Hin & Hq). exists l', x', a', i, cid, v. split; [by right|done]. }
    assert (Hr' : forall t, t <= t_rate x -> rate_times_from t (runs_of xs)).
    { intros t Ht. destruct xs as [|[[? y] b] xs]; cbn in *; [done|]. destruct Hr. split; [lia|done]. }
    destruct (loop_step l x a w s) as [[[d w1] s1]|] eqn:E.
    2:{ specialize (IH _ _ w s Hi (Hr' _ Hle) Hp). destruct (loop_run xs w s) as [w2 s2].
        destruct IH as (Hinv & new & Hs & Hf & Hlen). split; [done|]. exists new. split; [done|]. split; [|done]. by eapply Forall_impl. }
    pose proof E as Estep. unfold loop_step in Estep.
    destruct (process _ _ _ _ _ _ x a w) as [[d1 w1']|] eqn:Epr; [|done]. injection Estep as -> -> Es1.
    destruct (agent_step_inv kb cfg ccfg lim bcfg dry_run x a now g w d w1 Hle Hi Epr) as (now1 & g1 & Ht1 & Hi1).
    pose proof (process_ok kb cfg ccfg lim bcfg dry_run x a w d w1 Epr) as [Hca _ _].
    destruct (loop_step_ok _ _ _ _ _ _ _ _ E) as [[Hs _]|(i & Hcall & Hpost & Hdel)].
    + assert (Hp1 : gnmi_pool s1 = Some p) by (by rewrite <- Es1, posted_all_pool).
      specialize (IH _ _ w1 s1 Hi1 (Hr' _ Ht1) Hp1). destruct (loop_run xs w1 s1) as [w2 s2].
      destruct IH as (Hinv & new & Hs2 & Hf & Hlen). split; [done|]. exists new. rewrite Hs2, Hs.
      split; [done|]. split; [by eapply Forall_impl|].
      assert (length (w_calls w) <= length (w_calls w1))%nat; [|lia].
      destruct Hca as [->|(i & Hcall)]; [done|]. rewrite (ca_calls _ _ _ _ _ _ _ _ _ Hcall), length_app. lia.
    + destruct Hdel as (p' & cid & v & Hp' & Hroute & Hrule & Hs & _). rewrite Hp in Hp'. injection Hp' as <-.
      assert (Hp1 : gnmi_pool s1 = Some p) by (by rewrite Hpost, posted_pool).
      specialize (IH _ _ w1 s1 Hi1 (Hr' _ Ht1) Hp1). destruct (loop_run xs w1 s1) as [w2 s2].
      destruct IH as (Hinv & new & Hs2 & Hf & Hlen). split; [done|].
      eexists (_ :: new). rewrite Hs2, Hs, <- app_assoc. split; [reflexivity|]. split.
      * constructor; [|by eapply Forall_impl]. exists l, x, a, i, cid, v. pose proof (ca_cleared _ _ _ _ _ _ _ _ _ Hcall) as Hcl.
        split; [by left|]. split; [exact (ca_drop _ _ _ _ _ _ _ _ _ Hcall)|]. split; [done|]. split; [done|]. split; [done|].
        split; [|done]. destruct Hcl as (n & _ & (Hprot & _) & _). by eapply agent_rule_spares.
      * rewrite (ca_calls _ _ _ _ _ _ _ _ _ Hcall), length_app in Hlen. cbn in *. lia.
Qed.

(** ** Properties *)
(** C1: one run of the agent against the deployed chain sends nothing to a
    leaf and is not reported as enforced, or sends exactly one write: the rule of a DROP
    that passed every layer, at the leaf its source is routed to.  The object written is
    known field by field ([agent_rule]): id, source and destination, protocol in lower
    case ("all" for none), destination port (none for 0), priority (1000 for 0), comment and
    lifetime are the intent's, the action is DROP, [source = agent], and empty fields are
    left out; the three numbers are the intent's when a [float64] of the ids-agent holds
    them (up to [2^53]).  Then the run is
    reported as enforced exactly when that leaf accepted the write and both answers came
    back. *)
Theorem loop_step_installs l x a w s d w' s' : loop_step l x a w s = Ok (d, w', s') ->
  (sent_requests s' = sent_requests s /\ d_outcome d <> ENFORCED) \/
  (exists i p cid v, called kb cfg lim dry_run x a w w' i /\
    gnmi_pool s = Some p /\ routed p (PStr (rule_src i)) cid /\ agent_rule i v /\
    let write := GnmiUpdate (rule_path (pi_rule_id i)) v in
    sent_requests s' = sent_requests s ++ [(host_of p cid, write)] /\
    (d_outcome d = ENFORCED <->
      to_ids_agent l = Answered /\ to_framework l = Answered /\ sent_ok s (host_of p cid) write = true)).
Proof.
  intros H'. destruct (loop_step_ok _ _ _ _ _ _ _ _ H') as [?|(i & Hc & _ & p & cid & v & ? & ? & ? & ? & Hd)]; [by left|right].
  exists i, p, cid, v. rewrite bool_decide_eq_true in Hd. by do 5 (split; [done|]).
Qed.

(** C2: over any sequence of runs from a fresh limiter, whatever the LLM, the
    network and the leafs answer, the leafs get at most [max_total] writes; each is
    the rule of a validated DROP of one of the runs, at the leaf its source is routed
    to.  Of the never-block ranges only this is claimed: a rule whose source is a single
    host spares them.  A wider prefix passes the guardrail when the address before its
    slash is outside them, and can cover them all, against what guardrails.py says
    ([Safety.wide_prefix_passes]). *)
Theorem loop_run_bounded xs w s p now :
  w_limiter w = limiter0 -> w_calls w = [] -> rate_times_from now (runs_of xs) -> gnmi_pool s = Some p ->
  let '(_, s') := loop_run xs w s in
  exists new, sent_requests s' = sent_requests s ++ new /\ Z.of_nat (length new) <= Z.max 0 (max_total lim) /\
    Forall (from_run xs p) new.
Proof.
  intros Hl Hc Hr Hp. assert (Hi : agent_inv lim now [] w).
  { split; [rewrite Hl; apply limiter_inv0|split; [apply bounded_nil|by rewrite Hc]]. }
  pose proof (loop_run_ok p xs now [] w s Hi Hr Hp) as Hrun. destruct (loop_run xs w s) as [w' s'].
  destruct Hrun as ((now' & g' & _ & Hb & Hlen) & new & Hs & Hf & Hn). exists new. split; [done|]. split; [|done].
  destruct Hb as [_ _ Ht _]. lia.
Qed.
End Loop.

(** The sample alert's DROP on the pool of the two leafs, all answers coming back. *)
Definition through : passage := Passage Answered Answered ("1", "t", true).
Local Abbreviation sample_step := (@loop_step external0 meta0 (fun _ => "") redis0 catalogue0 default_settings sample_cache
  default_limits default_breaker false (fun _ => PNone) (fun _ => None) (fun _ _ _ => Ok PNone) (fun _ => "") (fun _ => []) 0
  (fun _ => GoPanic)).
Definition sample_pass : PolicyDecision * @world redis0 * api :=
  res_or (mkDecision 0 "" None ERROR NoReason, sample_world, sample_api) (sample_step through sample_inputs sample_alert sample_world sample_api).
Lemma sample_pass_ok : sample_step through sample_inputs sample_alert sample_world sample_api = Ok (sample_pass.1.1, sample_pass.1.2, sample_pass.2).
Proof. rewrite <- !surjective_pairing. apply res_or_ok. vm_compute. reflexivity. Qed.

Lemma loop_step_installs_witness :
  d_outcome sample_pass.1.1 = ENFORCED /\
  exists i v, agent_rule i v /\ sent_requests sample_pass.2 = [("192.168.122.20", GnmiUpdate (rule_path (pi_rule_id i)) v)].
Proof.
  assert (Hd : d_outcome sample_pass.1.1 = ENFORCED) by (vm_compute; reflexivity). split; [exact Hd|].
  destruct (@loop_step_installs external0 meta0 (fun _ => "") redis0 catalogue0 default_settings sample_cache
    default_limits default_breaker false (fun _ => PNone) (fun _ => None) (fun _ _ _ => Ok PNone) (fun _ => "") (fun _ => []) 0
    (fun _ => GoPanic) through sample_inputs sample_alert sample_world sample_api _ _ _ sample_pass_ok) as [[_ Hn]|(i & p & cid & v & _ & Hp & _ & Hv & Hs & _)].
  - destruct (Hn Hd).
  - exists i, v. split; [exact Hv|]. rewrite Hs. change (sent_requests sample_api) with (@nil (string * gnmi_request)).
    assert (Hh : fst <$> sent_requests sample_pass.2 = ["192.168.122.20"]) by (vm_compute; reflexivity).
    rewrite Hs in Hh. cbn in Hh. injection Hh as Hh. cbn. by rewrite Hh.
Defined.

Lemma loop_run_bounded_witness :
  let xs := [(through, sample_inputs, sample_alert); (through, sample_inputs, sample_alert)] in
  let '(_, s') := @loop_run external0 meta0 (fun _ => "") redis0 catalogue0 default_settings sample_cache
    default_limits default_breaker false (fun _ => PNone) (fun _ => None) (fun _ _ _ => Ok PNone) (fun _ => "") (fun _ => []) 0
    (fun _ => GoPanic) xs sample_world sample_api in
  exists new, sent_requests s' = [] ++ new /\ Z.of_nat (length new) <= Z.max 0 (max_total default_limits) /\
    Forall (from_run catalogue0 default_settings xs sample_pool) new.
Proof.
  apply (@loop_run_bounded external0 meta0 (fun _ => "") redis0 catalogue0 default_settings sample_cache
    default_limits default_breaker false (fun _ => PNone) (fun _ => None) (fun _ _ _ => Ok PNone) (fun _ => "") (fun _ => []) 0
    (fun _ => GoPanic) _ sample_world sample_api sample_pool 0); [reflexivity..| |reflexivity].
  cbn. lia.
Defined.
