(* ===== verification/MarkdownBlocks.v ===== *)
(** * Fenced blocks in a text that is put together from parts

    A Markdown file of the knowledge base is a list of parts joined by line ends: prose,
    and YAML texts between fences.  [blocks_of_parts]: the pattern of the parser
    finds the YAML texts and nothing else, when no line of the prose opens a
    fence and no line of a YAML text closes one. *)
From S2P Require Import Prelude PyVal Sha256 Utf8 Json JsonLoads Regex KnowledgeParser.
Local Open Scope string_scope.
Local Open Scope Z_scope.
Local Open Scope list_scope.

Inductive part := Prose (s : string) | Block (yaml : string).
(** [f"```yaml\n{y}\n```"] *)
Definition part_text (p : part) : string :=
  match p with Prose s => s | Block y => ("```yaml" ++ newline ++ y ++ newline ++ "```")%string end.
(** ["\n".join(parts)] *)
Definition parts_text (l : list part) : string := py_join newline (map part_text l).
Definition blocks (l : list part) : list string := omap (fun p => match p with Block y => Some y | Prose _ => None end) l.

Fixpoint starts (w t : list Z) : bool :=
  match w, t with
  | [], _ => true
  | a :: w', c :: t' => (a =? c) && starts w' t'
  | _, [] => false
  end.
Definition OPEN : list Z := points "```yaml".
Definition CLOSE : list Z := points "```".
(** No line of a text starts with [w]; [bol] tells whether the text begins a line. *)
Fixpoint lines_avoid (w : list Z) (bol : bool) (t : list Z) : bool :=
  match t with
  | [] => true
  | c :: t' => negb (bol && starts w t) && lines_avoid w (c =? 10) t'
  end.
Definition prose_ok (s : string) : bool := text_ok s && lines_avoid OPEN true (points s).
(** The text of a YAML mapping: it begins with no space and no line of it closes a fence. *)
Definition yaml_ok (y : string) : bool :=
  text_ok y && match points y with c :: _ => negb (space_cp c) | [] => false end && lines_avoid CLOSE true (points y).
Definition part_ok (p : part) : bool := match p with Prose s => prose_ok s | Block y => yaml_ok y end.

(** ** Code points of joined texts *)
Lemma points_app s t : text_ok s = true -> points (s ++ t) = points s ++ points t.
Proof.
  unfold text_ok. rewrite bool_decide_eq_true. intros Hs. unfold points. rewrite bytes_of_app, <- Hs at 1.
  by rewrite decode_encode_app by apply decode_scalar, bytes_of_range.
Qed.
Lemma of_points_points s : text_ok s = true -> of_points (points s) = s.
Proof. unfold text_ok. rewrite bool_decide_eq_true. intros Hs. unfold of_points, points. by rewrite Hs, str_of_bytes_of. Qed.

(** ** What the three parts of the pattern match *)
Section Fences.
Context `{UnicodeData}.

Lemma before_cons b c w : before b (c :: w) = before (Some c) w.
Proof. symmetry. apply (before_app b [c] w). Qed.

Lemma ms_chars w : forall b t, ms (seqs (map (fun p => RChar (Z.eqb p)) w)) (b, t) = if starts w t then [(before b w, drop (length w) t)] else [].
Proof.
  induction w as [|a w IH]; intros b t; [done|]. cbn [map seqs foldr ms starts snd]. destruct t as [|c t]; [done|].
  destruct (Z.eqb_spec a c) as [<-|]; [|done]. cbn [flat_map andb]. fold (seqs (map (fun p => RChar (Z.eqb p)) w)).
  rewrite IH, app_nil_r, before_cons. done.
Qed.

Lemma ms_exact s b t : ms (exact s) (b, t) = if starts (points s) t then [(before b (points s), drop (length (points s)) t)] else [].
Proof. apply ms_chars. Qed.

Lemma fence_start s r b t : ms (seqs (RBol :: exact s :: r)) (b, t) =
  if at_bol b && starts (points s) t then ms (seqs r) (before b (points s), drop (length (points s)) t) else [].
Proof.
  cbn [seqs foldr ms fst]. destruct (at_bol b); [|done]. cbn [flat_map andb]. fold (seqs r). cbn [ms]. rewrite app_nil_r.
  rewrite ms_exact. destruct (starts (points s) t); [|done]. cbn [flat_map]. by rewrite app_nil_r.
Qed.

(** A run of [\s*] ends somewhere in the white space. *)
Lemma spaces_ends b t q : q ∈ ms spaces (b, t) -> exists ws, t = ws ++ q.2 /\ q.1 = before b ws /\ Forall (fun c => space_cp c = true) ws.
Proof.
  intros (w & Ht & Hb & Hm)%ms_ends. cbn [fst snd] in *. exists w. split; [done|]. split; [done|]. clear Hb Ht.
  remember spaces as r eqn:Er. revert Er. induction Hm; intros [=]; subst; [constructor|].
  apply Forall_app. split; [|by apply IHHm2]. inversion Hm1; subst. by repeat constructor.
Qed.
Lemma spaces_none b t : (b, t) ∈ ms spaces (b, t).
Proof. apply ms_ends. exists []. by repeat constructor. Qed.
Lemma spaces_one c t b : space_cp c = true -> match t with d :: _ => space_cp d = false | [] => True end ->
  ms spaces (b, c :: t) = [(Some c, t); (b, c :: t)].
Proof.
  intros Hc Ht. unfold spaces. cbn [ms snd length iter fst]. rewrite Hc. rewrite filter_cons_True by (cbn; lia). cbn [filter list_filter flat_map].
  rewrite app_nil_r. destruct t as [|d t]; [done|]. cbn [iter length ms snd]. by rewrite Ht.
Qed.

Lemma open_at b y : at_bol b = true -> match y with c :: _ => space_cp c = false | [] => False end ->
  ms FENCE_OPEN (b, OPEN ++ 10 :: y) = [(Some 10, y)].
Proof.
  intros Hb Hy. unfold FENCE_OPEN. rewrite fence_start, Hb.
  replace (starts (points "```yaml") (OPEN ++ 10 :: y)) with true by (vm_compute; reflexivity).
  cbn [andb]. change (drop (length (points "```yaml")) (OPEN ++ 10 :: y)) with (10 :: y).
  cbn [seqs foldr ms]. rewrite spaces_one by (done || by destruct y). cbn [flat_map ms snd].
  destruct y as [|c y]; [done|]. destruct (Z.eqb_spec 10 c) as [<-|]; [by vm_compute in Hy|]. done.
Qed.

Lemma body_ends b t : ms FENCE_BODY (b, t) = (b, t) :: match t with [] => [] | c :: t' => ms FENCE_BODY (Some c, t') end.
Proof.
  unfold FENCE_BODY. destruct t as [|c t]; [done|]. cbn [ms snd length iter]. rewrite filter_cons_True by (cbn; lia).
  cbn [filter list_filter flat_map]. by rewrite app_nil_r.
Qed.

Lemma close_none b t : at_bol b && starts CLOSE t = false -> ms FENCE_CLOSE (b, t) = [].
Proof. intros Hs. unfold CLOSE in Hs. unfold FENCE_CLOSE. by rewrite fence_start, Hs. Qed.

Lemma close_at b r : at_bol b = true -> match r with c :: _ => c = 10 | [] => True end ->
  exists ws u l, ms FENCE_CLOSE (b, CLOSE ++ r) = (before (Some 96) ws, u) :: l /\ r = ws ++ u /\ Forall (fun c => space_cp c = true) ws.
Proof.
  intros Hb Hr. unfold FENCE_CLOSE. rewrite fence_start, Hb. replace (starts (points "```") (CLOSE ++ r)) with true by (vm_compute; reflexivity).
  cbn [andb]. change (drop (length (points "```")) (CLOSE ++ r)) with r. change (before b (points "```")) with (Some 96).
  assert (Hin : forall q, q ∈ ms (seqs [spaces; REol]) (Some 96, r) -> q ∈ ms spaces (Some 96, r)).
  { intros q. cbn [seqs foldr ms]. rewrite list_elem_of_In, in_flat_map. intros (p & Hp & Hq). apply list_elem_of_In in Hp.
    destruct (at_eol p.2); [|done]. cbn in Hq. destruct Hq as [<-|[]]. done. }
  assert (Hne : (Some 96, r) ∈ ms (seqs [spaces; REol]) (Some 96, r)).
  { cbn [seqs foldr ms]. apply list_elem_of_In, in_flat_map. exists (Some 96, r). split; [apply list_elem_of_In, spaces_none|].
    cbn [snd]. replace (at_eol r) with true; [by left|]. destruct r as [|c r]; [done|]. by subst c. }
  destruct (ms (seqs [spaces; REol]) (Some 96, r)) as [|[qb u] l] eqn:E; [by apply elem_of_nil in Hne|].
  destruct (spaces_ends (Some 96) r (qb, u)) as (ws & -> & Hq & Hw); [apply Hin; by left|]. cbn [fst snd] in *. subst qb. by exists ws, u, l.
Qed.

(** ** The scan *)
Lemma starts_line w v t : Forall (fun c => c <> 10) w -> starts w (v ++ 10 :: t) = starts w v.
Proof.
  intros Hw. revert v. induction Hw as [|a w Ha _ IH]; intros v; [done|]. destruct v as [|c v]; cbn [starts app].
  - by rewrite (proj2 (Z.eqb_neq a 10) Ha).
  - by rewrite IH.
Qed.
Lemma fence_chars : Forall (fun c => c <> 10) OPEN /\ Forall (fun c => c <> 10) CLOSE.
Proof. by split; apply (bool_decide_unpack _). Qed.

Lemma scan_one b c t : at_bol b && starts OPEN (c :: t) = false -> blocks_from 0 b (c :: t) = blocks_from 0 (Some c) t.
Proof.
  intros Hs. cbn [blocks_from]. unfold fences, FENCE_OPEN. unfold OPEN in Hs. by rewrite fence_start, Hs.
Qed.
Lemma scan_skip k : forall b t, (k <= length t)%nat -> blocks_from k b t = blocks_from 0 (before b (take k t)) (drop k t).
Proof.
  induction k as [|k IH]; intros b t Hk; [done|]. destruct t as [|c t]; cbn in Hk; [lia|]. cbn [blocks_from take drop].
  rewrite IH by lia. by rewrite before_cons.
Qed.
Lemma scan_spaces ws u : Forall (fun c => space_cp c = true) ws -> forall b, blocks_from 0 b (ws ++ u) = blocks_from 0 (before b ws) u.
Proof.
  induction 1 as [|c ws Hc _ IH]; intros b; [done|]. cbn [app]. rewrite scan_one, IH, before_cons; [done|].
  cbn [starts OPEN points]. destruct (at_bol b); [|done]. cbn [andb]. change (starts OPEN (c :: ws ++ u)) with ((96 =? c) && starts (tail OPEN) (ws ++ u)).
  destruct (Z.eqb_spec 96 c) as [<-|]; [by vm_compute in Hc|done].
Qed.

(** A text without an opening fence is passed over, with the end of its line. *)
Lemma scan_prose p rest : forall b, lines_avoid OPEN (at_bol b) p = true -> blocks_from 0 b (p ++ 10 :: rest) = blocks_from 0 (Some 10) rest.
Proof.
  induction p as [|c p IH]; intros b; cbn [lines_avoid app].
  - intros _. rewrite scan_one; [done|]. by destruct (at_bol b).
  - intros [Hs Hl]%andb_true_iff. apply negb_true_iff in Hs. rewrite scan_one; [by apply IH|].
    change (c :: p ++ 10 :: rest) with ((c :: p) ++ 10 :: rest). by rewrite starts_line by apply fence_chars.
Qed.
Lemma scan_last p : forall b, lines_avoid OPEN (at_bol b) p = true -> blocks_from 0 b p = [].
Proof.
  induction p as [|c p IH]; intros b; cbn [lines_avoid]; [done|]. intros [Hs Hl]%andb_true_iff. apply negb_true_iff in Hs.
  rewrite scan_one by done. by apply IH.
Qed.

(** The first way to match the body ends before the closing fence. *)
Lemma body_close (q1 : pos) r y : forall b, lines_avoid CLOSE (at_bol b) y = true -> match r with c :: _ => c = 10 | [] => True end ->
  exists ws u l, r = ws ++ u /\ Forall (fun c => space_cp c = true) ws /\
    flat_map (fun q2 => map (fun q3 => (q1, q2, q3)) (ms FENCE_CLOSE q2)) (ms FENCE_BODY (b, y ++ 10 :: CLOSE ++ r)) =
    (q1, (Some 10, CLOSE ++ r), (before (Some 96) ws, u)) :: l.
Proof.
  induction y as [|c y IH]; intros b; cbn [lines_avoid]; intros Hl Hr; rewrite body_ends; cbn [flat_map app].
  - rewrite close_none by (by destruct (at_bol b)). cbn [map app]. rewrite body_ends. cbn [flat_map].
    destruct (close_at (Some 10) r eq_refl Hr) as (ws & u & l & -> & Hu & Hw). by eexists ws, u, _.
  - apply andb_true_iff in Hl as [Hs Hl]. apply negb_true_iff in Hs. rewrite close_none.
    + cbn [map app]. by apply IH.
    + change (c :: y ++ 10 :: CLOSE ++ r) with ((c :: y) ++ 10 :: CLOSE ++ r). by rewrite starts_line by apply fence_chars.
Qed.

Lemma scan_block b y r : at_bol b = true -> match y with c :: _ => space_cp c = false | [] => False end ->
  lines_avoid CLOSE true y = true -> match r with c :: _ => c = 10 | [] => True end ->
  blocks_from 0 b (OPEN ++ 10 :: y ++ 10 :: CLOSE ++ r) = (y ++ [10]) :: blocks_from 0 (Some 96) r.
Proof.
  intros Hb Hy Hl Hr. set (t := OPEN ++ 10 :: y ++ 10 :: CLOSE ++ r).
  assert (Hf : exists ws u l, r = ws ++ u /\ Forall (fun c => space_cp c = true) ws /\
    fences (b, t) = ((Some 10, y ++ 10 :: CLOSE ++ r), (Some 10, CLOSE ++ r), (before (Some 96) ws, u)) :: l).
  { unfold fences, t. rewrite open_at by (done || by destruct y). cbn [flat_map].
    destruct (body_close (Some 10, y ++ 10 :: CLOSE ++ r) r y (Some 10) Hl Hr) as (ws & u & l & Hu & Hw & Heq).
    exists ws, u, (l ++ []). split; [done|]. split; [done|]. by rewrite Heq. }
  destruct Hf as (ws & u & l & Hu & Hw & Hf). assert (Ht : t = 96 :: tail OPEN ++ 10 :: y ++ 10 :: CLOSE ++ r) by reflexivity.
  rewrite Ht. cbn [blocks_from]. rewrite <- Ht, Hf. cbn [head]. f_equal.
  - unfold group0. cbn [fst snd]. change (y ++ 10 :: CLOSE ++ r) with (y ++ [10] ++ CLOSE ++ r). rewrite app_assoc.
    apply take_app_length'. rewrite !length_app. lia.
  - rewrite scan_skip.
    + cbn [snd]. set (m := (tail OPEN ++ 10 :: y ++ 10 :: CLOSE) ++ ws).
      assert (Hm : tail OPEN ++ 10 :: y ++ 10 :: CLOSE ++ r = m ++ u).
      { unfold m. rewrite Hu. cbn [app]. rewrite <- !app_assoc. cbn [app]. by rewrite <- !app_assoc. }
      rewrite Hm. replace (pred (length t - length u)) with (length m) by (rewrite Ht, Hm; cbn [length]; rewrite length_app; lia).
      rewrite take_app_length, drop_app_length, Hu, scan_spaces by done. f_equal. unfold m.
      rewrite <- before_app. f_equal. unfold before. change (tail OPEN ++ 10 :: y ++ 10 :: CLOSE) with (tail OPEN ++ [10] ++ y ++ [10; 96; 96] ++ [96]).
      by rewrite !app_assoc, last_snoc.
    + rewrite Ht. cbn [length]. lia.
Qed.

(** ** The parts *)
Lemma block_points y : text_ok y = true ->
  text_ok (part_text (Block y)) = true /\ points (part_text (Block y)) = OPEN ++ 10 :: points y ++ 10 :: CLOSE.
Proof.
  intros Hy. cbn [part_text]. assert (Ha : forall t, str_forallb is_ascii_char t = true -> text_ok t = true) by (intros; by apply text_ok_ascii).
  split; [do 2 (apply text_ok_app; [by apply Ha|]); apply text_ok_app; [done|by apply Ha]|].
  rewrite points_app by by apply Ha. rewrite points_app by by apply Ha. rewrite points_app by done. by rewrite points_app by by apply Ha.
Qed.
Lemma part_text_ok p : part_ok p = true -> text_ok (part_text p) = true.
Proof.
  destruct p as [s|y]; cbn [part_ok]; [by intros [? _]%andb_true_iff|]. intros [[Hy _]%andb_true_iff _]%andb_true_iff. by apply block_points.
Qed.

(** A part and what follows it. *)
Lemma scan_part p b r : part_ok p = true -> at_bol b = true -> match r with c :: _ => c = 10 | [] => True end ->
  blocks_from 0 b (points (part_text p) ++ r) =
    map (fun y => points y ++ [10]) (blocks [p]) ++ match r with [] => [] | _ :: t => blocks_from 0 (Some 10) t end.
Proof.
  intros Hp Hb Hr. destruct p as [s|y]; cbn [part_ok] in Hp.
  - apply andb_true_iff in Hp as [_ Hp]. change (blocks [Prose s]) with (@nil string). cbn [part_text map app].
    assert (Ha : lines_avoid OPEN (at_bol b) (points s) = true) by (by rewrite Hb).
    destruct r as [|c r]; [rewrite (app_nil_r (points s)); by apply scan_last|]. subst c. by apply scan_prose.
  - apply andb_true_iff in Hp as [[Hy Hf]%andb_true_iff Hl]. rewrite (proj2 (block_points y Hy)).
    change (blocks [Block y]) with [y]. cbn [map app]. rewrite <- !app_assoc. cbn [app]. rewrite <- !app_assoc. cbn [app].
    rewrite scan_block; try done.
    + f_equal. destruct r as [|c r]; [done|]. subst c. by rewrite scan_one.
    + destruct (points y) as [|c z]; [done|]. by apply negb_true_iff in Hf.
Qed.

Lemma blocks_of_parts l : forallb part_ok l = true ->
  block_texts (points (parts_text l)) = map (fun y => points y ++ [10]) (blocks l).
Proof.
  unfold block_texts. assert (Hb : at_bol None = true) by done. revert Hb. generalize (@None Z) as b.
  induction l as [|p l IH]; intros b Hb; [done|]. cbn [forallb]. intros [Hp Hl]%andb_true_iff.
  change (blocks (p :: l)) with (blocks ([p] ++ l)). unfold blocks. rewrite omap_app. fold (blocks [p]). fold (blocks l). rewrite map_app.
  destruct l as [|p' l].
  - unfold parts_text. cbn [map py_join]. rewrite <- (app_nil_r (points (part_text p))). by rewrite scan_part.
  - change (parts_text (p :: p' :: l)) with (part_text p ++ newline ++ parts_text (p' :: l))%string.
    rewrite points_app by by apply part_text_ok. rewrite points_app by by apply text_ok_ascii. change (points newline) with [10]. cbn [app].
    rewrite scan_part by done. by rewrite IH.
Qed.
End Fences.
