(* ===== verification/KnowledgeDump.v ===== *)
(** * Writing the knowledge base (scripts/dump_pydantic_to_markdown.py) and comparing it
      (scripts/verify_knowledge_roundtrip.py)

    The script writes the modules' contents as the Markdown files the parser reads: prose
    for a reader, with the data in YAML blocks.  A file is the list of its items, joined by
    line ends.  The YAML library is the class [Yaml]. *)
From S2P Require Import Prelude PyVal Sha256 Utf8 Json JsonLoads Models Policy Regex Knowledge KnowledgeGraph KnowledgeParser Boot.
From S2P Require Import Renderers MarkdownBlocks.
Local Open Scope string_scope.
Local Open Scope Z_scope.
Local Open Scope list_scope.

Class Yaml := { safe_dump : pyval -> string; safe_load : string -> res pyval }.

(** [s.rstrip()] *)
Definition py_rstrip (s : string) : string := str_rev (lstrip (str_rev s)).

(** A file as text mode reads it: every line end is a line feed. *)
Definition CR : ascii := ascii_of_nat 13.
Definition LF : ascii := ascii_of_nat 10.
Fixpoint universal_newlines (s : string) : string :=
  match s with
  | EmptyString => ""
  | String c s' =>
      if bool_decide (c = CR) then
        String LF (match s' with String d s'' => if bool_decide (d = LF) then universal_newlines s'' else universal_newlines s' | EmptyString => "" end)
      else String c (universal_newlines s')
  end.
(** A line or a text of prose, or a block of data. *)
Inductive item := Note (s : string) | Data (d : obj).

Section Dump.
Context `{PyRepr}.

(** A value among the parts, which [join] takes when it is a text. *)
Definition joined (v : pyval) : res string := match v with PStr s => Ok s | _ => Raise (TypeError "expected str instance") end.
Definition prose (l : list string) : list item := map Note l.

(** ** zones.md, assets.md, leafs.md *)
Definition zone_dump (z : Zone) : obj :=
  [("name", PStr (zn_name z)); ("cidr", PStr (zn_cidr z)); ("leaf", PStr (zn_leaf z)); ("vlan", PInt (zn_vlan z));
   ("svi_gateway", PStr (zn_svi_gateway z)); ("purpose", PStr (zn_purpose z)); ("trust_level", PStr (trust_value (zn_trust_level z)));
   ("criticality", PStr (criticality_value (zn_criticality z)))].
Definition zone_parts (nz : string * Zone) : list item :=
  let z := nz.2 in
  [Note (text ["## "; nz.1; " — "; hd "" (split_on "."%char (zn_purpose z))]); Note "";
   Note (text ["CIDR `"; zn_cidr z; "` on `"; zn_leaf z; "` (VLAN "; str_of_Z (zn_vlan z); ", SVI "; zn_svi_gateway z; "). Trust level: **";
     trust_value (zn_trust_level z); "**, criticality: **"; criticality_value (zn_criticality z); "**."]);
   Note ""; Data (zone_dump z); Note ""].
Definition write_zones (m : modules) : list item :=
  prose ["# Trust Zones"; "";
    "Four trust zones partition the datacenter fabric. Each zone has its own CIDR, VLAN,";
    "SVI gateway, trust posture, and criticality. The agent maps every alert IP to a zone";
    "via CIDR membership; zone-pair determines the policy verdict (see `policy-matrix.md`)."; ""]
  ++ flat_map zone_parts (md_zones m).

Definition asset_dump (a : Asset) : obj :=
  [("ip", PStr (as_ip a)); ("hostname", PStr (as_hostname a)); ("zone", PStr (as_zone a)); ("tier", PStr (as_tier a)); ("role", PStr (as_role a));
   ("criticality", PStr (criticality_value (as_criticality a))); ("data_classification", PStr (data_value (as_data_classification a)));
   ("services", PList (map model_dump (as_services a))); ("expected_inbound_sources", strs (as_expected_inbound_sources a));
   ("expected_outbound_destinations", strs (as_expected_outbound_destinations a)); ("if_compromised_impact", PStr (as_if_compromised_impact a));
   ("if_blocked_impact", PStr (as_if_blocked_impact a)); ("owner_team", PStr (as_owner_team a))].
Definition asset_parts (ia : string * Asset) : list item :=
  let a := ia.2 in
  prose [text ["## "; as_hostname a; " ("; ia.1; ")"]; "";
    text ["**Zone**: "; as_zone a; "  ·  **Tier**: "; as_tier a; "  ·  **Criticality**: "; criticality_value (as_criticality a);
      "  ·  **Data**: "; data_value (as_data_classification a); "  ·  **Owner**: "; as_owner_team a]; "";
    text ["**Role**: "; as_role a]; ""; "**If compromised**:"; ""; text ["> "; as_if_compromised_impact a]; "";
    "**If blocked**:"; ""; text ["> "; as_if_blocked_impact a]; ""]
  ++ [Data (asset_dump a); Note ""].
Definition write_assets (m : modules) : list item :=
  prose ["# Workload Assets"; "";
    "Each zone hosts exactly one production workload. Single-host-per-zone simplifies";
    "tenant identity: zone CIDR maps 1:1 to a host. Each asset declares its services,";
    "expected traffic neighbors, and blast-radius prose for both 'compromised' and";
    "'blocked' counterfactuals — agents use these to weigh containment vs availability."; ""]
  ++ flat_map asset_parts (md_assets m).

Definition leaf_dump (l : Leaf) : obj :=
  [("name", PStr (lf_name l)); ("mgmt_ip", PStr (lf_mgmt_ip l)); ("zones", strs (lf_zones l)); ("role", PStr (lf_role l))].
Definition leaf_parts (nl : string * Leaf) : list item :=
  let l := nl.2 in
  [Note (text ["## "; nl.1]); Note "";
   Note (text ["Mgmt IP `"; lf_mgmt_ip l; "`. Zones: "; py_join ", " (lf_zones l); ". Role: "; lf_role l]); Note "";
   Data (leaf_dump l); Note ""].
Definition write_leafs (m : modules) : list item :=
  prose ["# Leaf Switches (enforcement points)"; "";
    "Two SONiC leafs run iptables FORWARD chains; agent-pushed rules land here. Each leaf";
    "owns the SVIs for its attached zones. Cross-leaf policy is defense-in-depth: same";
    "rule applied on both leafs so source-routing bypass at one leaf still hits the other."; ""]
  ++ flat_map leaf_parts (md_leafs m).

(** ** baselines.md *)
(** [APPLICATION_FLOWS] and [MANAGEMENT_FLOWS], the two halves of [ALL_BASELINES]. *)
Definition is_management (p : TrafficPattern) : bool := bool_decide (tp_src_zone p = "MGT").
Definition APPLICATION_FLOWS (b : baselines) : list TrafficPattern := List.filter (fun p => negb (is_management p)) (b_patterns b).
Definition MANAGEMENT_FLOWS (b : baselines) : list TrafficPattern := List.filter is_management (b_patterns b).

Definition pattern_dump (p : TrafficPattern) : obj :=
  [("name", PStr (tp_name p)); ("src_zone", PStr (tp_src_zone p)); ("src_ip", PStr (tp_src_ip p)); ("dst_zone", PStr (tp_dst_zone p));
   ("dst_ip", PStr (tp_dst_ip p)); ("dst_port", PInt (tp_dst_port p)); ("proto", PStr (tp_proto p)); ("cadence", PStr (pt_cadence p));
   ("expected_volume_per_hour", PInt (pt_expected_volume_per_hour p)); ("burst_anomaly_threshold", PStr (pt_burst_anomaly_threshold p));
   ("production_description", PStr (pt_production_description p)); ("criticality_to_business", PStr (flow_value (pt_criticality_to_business p)));
   ("if_disrupted", PStr (pt_if_disrupted p))].
Definition pattern_parts (p : TrafficPattern) : list item :=
  prose [text ["### "; tp_name p]; "";
    text ["`"; tp_src_ip p; "` → `"; tp_dst_ip p; ":"; str_of_Z (tp_dst_port p); "/"; tp_proto p; "`, cadence: "; pt_cadence p;
      ", criticality: **"; flow_value (pt_criticality_to_business p); "**"]; "";
    pt_production_description p; "";
    text ["- **Anomaly trigger**: "; pt_burst_anomaly_threshold p]; text ["- **If disrupted**: "; pt_if_disrupted p]; ""]
  ++ [Data (pattern_dump p); Note ""].
Definition write_baselines (m : modules) : list item :=
  let b := md_baselines m in
  prose ["# Production Traffic Baselines"; "";
    text ["Steady-state east-west volume: ~"; str_of_Z (b_steady_state b); " flows/minute. MGT audit emissions ~"; str_of_Z (b_audit_rate b);
      "/minute (SID 9000020) are"];
    "REQUIRED VISIBILITY by compliance design — they are NOT incidents. Anything matching";
    "a baseline is normal operation. Anything outside this set is either new application"; "behaviour or intrusion."; "";
    "## Constants"; ""]
  ++ [Data [("steady_state_flows_per_minute", PInt (b_steady_state b)); ("mgt_audit_alert_rate_per_minute", PInt (b_audit_rate b))]]
  ++ prose [""; "## Anomalous patterns (NOT in baseline — red flags)"; "";
    "Flows matching any of these are NEVER seen in production and indicate intrusion:"; ""]
  ++ prose (map (fun ap => text ["- "; py_str ap]) (b_anomalous_patterns b))
  ++ [Note ""; Data [("anomalous_patterns", PList (b_anomalous_patterns b))]]
  ++ prose [""; "## Application traffic flows"; ""]
  ++ flat_map pattern_parts (APPLICATION_FLOWS b)
  ++ prose ["## Management plane flows"; ""]
  ++ flat_map pattern_parts (MANAGEMENT_FLOWS b).

(** ** policy-matrix.md *)
Definition COLUMNS : list string := ["WEB"; "DB"; "APP"; "MGT"].
Definition policy_cell (matrix : list ((pyval * pyval) * pyval)) (src dst : string) : res string :=
  if bool_decide (src = dst) then Ok "—" else joined (default (PStr "DENY") (dict_get matrix (PStr src, PStr dst))).
Definition policy_line (matrix : list ((pyval * pyval) * pyval)) (src : string) : res string :=
  let* cells := mapM_res (policy_cell matrix src) COLUMNS in
  Ok (text ["| "; py_join " | " (text ["**"; src; "**"] :: cells); " |"]).
Definition policy_rule (e : (pyval * pyval) * pyval) : pyval :=
  PDict [("src_zone", e.1.1); ("dst_zone", e.1.2); ("verdict", e.2)].
Definition write_policy (m : modules) : res (list item) :=
  let* table := mapM_res (policy_line (md_policy_matrix m)) COLUMNS in
  Ok (prose ["# Zone-to-Zone Policy Matrix"; "";
      "Explicit ALLOW/DENY per directed zone pair. Pairs not listed default to DENY.";
      "Reply traffic of any ALLOW flow is permitted via stateful conntrack."; "";
      "| Source ↓ \ Destination → | WEB | DB | APP | MGT |"; "|---|---|---|---|---|"]
    ++ prose table
    ++ prose [""; "## Canonical data"; ""]
    ++ [Data [("policy_matrix", PList (map policy_rule (md_policy_matrix m)))]; Note ""]).

(** ** sids.md *)
Definition sid_dump (d : SidDetection) : obj :=
  [("sid", PInt (sd_sid d)); ("severity_p_level", PInt (sd_p_level d)); ("signature_msg", PStr (dt_signature_msg d));
   ("production_description", PStr (dt_production_description d)); ("mitre_tactic", PStr (dt_mitre_tactic d));
   ("mitre_technique", PStr (dt_mitre_technique d)); ("detection_logic", PStr (dt_detection_logic d));
   ("uses_flags_s_workaround", PBool (dt_uses_flags_s_workaround d)); ("recommended_response", PStr (sd_recommended d));
   ("default_ttl_seconds", PInt (dt_default_ttl_seconds d)); ("false_positive_likelihood", PStr (dt_false_positive_likelihood d));
   ("false_positive_scenarios", strs (dt_false_positive_scenarios d))].
Definition sid_parts (sd : pyval * SidDetection) : list item :=
  let d := sd.2 in
  prose ([text ["## SID "; py_str sd.1; " — "; dt_signature_msg d]; "";
    text ["**Severity P"; str_of_Z (sd_p_level d); "**  ·  **MITRE**: "; dt_mitre_tactic d; " / "; dt_mitre_technique d; "  ·  **Response**: ";
      sd_recommended d; "  ·  **FP likelihood**: "; dt_false_positive_likelihood d]; "";
    dt_production_description d; ""; text ["**Detection logic**: `"; dt_detection_logic d; "`"]; ""]
    ++ match dt_false_positive_scenarios d with
       | [] => []
       | fps => ["**False-positive scenarios**:"; ""] ++ map (fun fp => text ["- "; fp]) fps ++ [""]
       end)
  ++ [Data (sid_dump d); Note ""].
Definition sorted_sids (sids : list (pyval * SidDetection)) : res (list (pyval * SidDetection)) :=
  let* ks := sorted_values sids.*1 in
  Ok (omap (fun k => option_map (pair k) (dict_get sids k)) ks).
Definition write_sids (m : modules) : res (list item) :=
  let* sids := sorted_sids (md_sids m) in
  Ok (prose ["# Suricata SID Inventory"; "";
      "Active Suricata signatures the IDS emits. Each SID maps to MITRE ATT&CK";
      "tactic/technique and a recommended response (DROP src_ip / log_only / escalate).";
      "P-level: 1=critical, 2=high, 3=info-recon, 4=audit (visibility, not incident)."; ""]
    ++ flat_map sid_parts sids).

(** ** kill-chains.md *)
Definition stage_dump (st : KillChainStage) : obj :=
  [("stage", PInt (ks_stage st)); ("tactic", PStr (st_tactic st)); ("expected_signals", PList (map PInt (ks_signals st)));
   ("production_indicators", PStr (st_production_indicators st)); ("false_positive_sources", strs (st_false_positive_sources st))].
Definition chain_dump (c : KillChain) : obj :=
  [("name", PStr (ch_name c)); ("production_description", PStr (ch_production_description c));
   ("stages", PList (map (fun st => PDict (stage_dump st)) (ch_stages c))); ("typical_dwell_between_stages", PStr (ch_typical_dwell c));
   ("recommended_intervention_point", PStr (ch_intervention_point c)); ("containment_strategy", PStr (ch_containment_strategy c))].
Definition stage_lines (st : KillChainStage) : list string :=
  text ["- **Stage "; str_of_Z (ks_stage st); " ("; st_tactic st; ")** — expected signals: ";
    str_or (py_join ", " (map str_of_Z (ks_signals st))) "(none)"; ". "; st_production_indicators st]
  :: match st_false_positive_sources st with
     | [] => []
     | fps => [text ["  - *Possible false positives*: "; py_join "; " fps]]
     end.
Definition chain_parts (c : KillChain) : list item :=
  prose ([text ["## "; ch_name c]; ""; ch_production_description c; "";
    text ["- **Typical dwell between stages**: "; ch_typical_dwell c]; text ["- **Recommended intervention**: "; ch_intervention_point c];
    text ["- **Containment**: "; ch_containment_strategy c]; ""; "**Stages**:"; ""]
    ++ flat_map stage_lines (ch_stages c))
  ++ [Note ""; Data (chain_dump c); Note ""].
Definition write_kill_chains (m : modules) : list item :=
  prose ["# Kill Chains"; "";
    "Multi-stage adversary playbooks the agent uses to correlate single SIDs into";
    "campaign hypotheses. Each chain has stages with expected SIDs, indicators, and";
    "false-positive caveats. `recommended_intervention_point` tells the agent which";
    "stage to break for cheapest containment."; ""]
  ++ flat_map chain_parts (md_kill_chains m).

(** ** enforcement-plane.md *)
Definition failure_dump (f : FailureMode) : obj :=
  [("name", PStr (fm_name f)); ("trigger", PStr (fm_trigger f)); ("rest_status", PStr (fm_rest_status f));
   ("body_signature", PStr (fm_body_signature f)); ("state", PStr (fm_state f)); ("agent_action", PStr (fm_agent_action f))].
Definition endpoint_lines (e : pyval * pyval) : res (list string) :=
  let* desc := joined e.2 in Ok [text ["### `"; py_str e.1; "`"]; ""; desc; ""].
Definition failure_lines (f : FailureMode) : list string :=
  [text ["### `"; fm_name f; "`"]; ""; text ["- **Trigger**: "; fm_trigger f]; text ["- **REST status**: "; fm_rest_status f];
   text ["- **Body signature**: "; fm_body_signature f]; text ["- **State after**: "; fm_state f]; text ["- **Agent action**: "; fm_agent_action f]; ""].
Definition contract_row (e : pyval * pyval) : pyval := PDict [("endpoint", e.1); ("description", e.2)].
Definition write_enforcement_plane (m : modules) : res (list item) :=
  let* endpoints := mapM_res endpoint_lines (md_endpoint_contracts m) in
  let rbac := py_strip (md_rbac_contract m) in
  Ok (prose ["# Enforcement Plane Contract"; "";
      "Procedural knowledge for how the agent talks to Secure Framework. Endpoint contracts,";
      "field naming, gotchas, failure modes, RBAC. Source of truth for *behaviour expectations*";
      "of the SF REST API — not graph data, but knowledge agent must apply when constructing rules."; "";
      "## Endpoints in scope"; ""]
    ++ prose (concat endpoints)
    ++ [Data [("endpoint_contracts", PList (map contract_row (md_endpoint_contracts m)))]]
    ++ prose [""; "## Field name mapping"; "";
      "Field names drift across REST request body, YANG/gNMI notification, and ConfigDB key.";
      "Most-confused fields are flagged ⚠️."; ""]
    ++ [Data [("field_name_mapping", PList (md_field_name_mapping m))]]
    ++ prose [""; "## Critical gotchas"; ""]
    ++ prose (map (fun g => text ["- "; py_str g]) (md_critical_gotchas m)) ++ [Note ""]
    ++ [Data [("critical_gotchas", PList (md_critical_gotchas m))]]
    ++ prose [""; "## Failure modes"; ""]
    ++ prose (flat_map failure_lines (md_failure_modes m))
    ++ [Data [("failure_modes", PList (map (fun f => PDict (failure_dump f)) (md_failure_modes m)))]]
    ++ prose [""; "## RBAC contract"; ""; rbac; ""]
    ++ [Data [("rbac_contract", PStr rbac)]; Note ""]).

(** ** invariants.md *)
Definition never_block_row (i : invariants) (cidr : pyval) : pyval :=
  PDict [("cidr", cidr); ("rationale", default (PStr "") (dict_get (i_never_block_rationale i) cidr))].
(** [bounds] is what the module holds of [AGENT_PRIORITY_MIN] and [AGENT_PRIORITY_MAX]: the
    module of the repository has neither. *)
Definition priority_parts (bounds : option (pyval * pyval)) : list item :=
  match bounds with
  | None => []
  | Some (pmin, pmax) =>
      prose ["## Priority bounds (agent-pushed rules)"; "";
        text ["Agent rules: priority ∈ `["; py_str pmin; ", "; py_str pmax; "]`. iptables `-A FORWARD` (priority ≥ 1000)"];
        "lands rule AFTER `nos:zt-default-drop` and is silently ineffective. Use ≤ 100."; ""]
      ++ [Data [("agent_priority_min", pmin); ("agent_priority_max", pmax)]; Note ""]
  end.
Definition write_invariants (bounds : option (pyval * pyval)) (m : modules) : res (list item) :=
  let i := md_invariants m in
  let* actions := sorted_values (i_allowed_agent_actions i) in
  let* names := mapM_res joined actions in
  Ok (prose ["# Network Invariants (HARD SAFETY)"; "";
      "**🛑 Critical safety boundary.** These rules override LLM reasoning. The agent MUST";
      "honour them. If a proposed action violates an invariant, the safety layer fails closed";
      "(no enforcement) regardless of LLM confidence or reasoning quality."; "";
      "## Never-block CIDRs (whitelist)"; "";
      "Blocking any of these IPs causes self-DoS, partition, or loss of audit/perception.";
      "Hardcoded floor enforced both in code (`safety/guardrails.py`) and rendered into the";
      "agent prompt (so the LLM understands *why*, not just *that*)."; ""]
    ++ prose (map (fun c => text ["- `"; py_str c; "` — ";
         py_str (default (PStr "(no rationale recorded)") (dict_get (i_never_block_rationale i) c))]) (i_never_block_cidrs i))
    ++ [Note ""; Data [("never_block", PList (map (never_block_row i) (i_never_block_cidrs i)))]]
    ++ prose [""; "## Allowed agent actions"; "";
      text ["Frozen set: **"; py_join ", " names;
        "**. Agent role can ONLY push DROP rules. ACCEPT/RETURN must escalate to operator (OU=sdnc)."]; ""]
    ++ [Data [("allowed_agent_actions", PList actions)]]
    ++ prose [""; "## Comment provenance prefixes"; "";
      "iptables rule comments encode provenance and enforce ownership boundary."; ""]
    ++ prose (map (fun p => text ["- `"; py_str p; "*` — baseline ZT policy. Agent MUST NOT modify."]) (i_protected_comment_prefixes i))
    ++ prose [text ["- `"; py_str (i_agent_comment_prefix i); "*` — agent-owned rules. Agent maintains TTL + DELETE."];
      "- (no comment) — operator-manual rule. Agent MUST NOT touch without escalation."; ""]
    ++ [Data [("protected_comment_prefixes", PList (i_protected_comment_prefixes i)); ("agent_comment_prefix", i_agent_comment_prefix i)]; Note ""]
    ++ priority_parts bounds).

(** ** README.md *)
Definition README : list string := [
  "# `knowledge/infra/` — Machine-Parsable Knowledge Base";
  "";
  "This directory holds the **single source of truth** for the agent's structured knowledge:";
  "trust zones, workload assets, leaf switches, traffic baselines, policy matrix, Suricata";
  "SIDs, kill chains, enforcement-plane contract, and network invariants.";
  "";
  "## Format";
  "";
  "Each `.md` file is **hybrid** — markdown prose for human readers + ` ```yaml ` code blocks";
  "for the deterministic parser. The YAML blocks are canonical; prose context is rendered";
  "around them so the file reads as documentation.";
  "";
  "The parser (`src/core/knowledge_parser.py`) extracts every YAML block, validates each";
  "against a Pydantic schema, then ETLs the result into Neo4j. Reads at runtime go through";
  "Neo4j, not these files (the files are the *authoring* layer; Neo4j is the *runtime* store).";
  "";
  "## Files";
  "";
  "| File | Entities | Pydantic schema |";
  "|---|---|---|";
  "| `zones.md` | 4 trust zones | `Zone` |";
  "| `assets.md` | 4 workload hosts | `Asset` (with nested `Service`) |";
  "| `leafs.md` | 2 SONiC leafs | `Leaf` |";
  "| `baselines.md` | Application + management traffic flows + anomalous patterns | `TrafficPattern` + constants |";
  "| `policy-matrix.md` | 12 zone-pair verdicts | `(src_zone, dst_zone) → ALLOW/DENY` |";
  "| `sids.md` | 8 Suricata signatures | `SidDetection` |";
  "| `kill-chains.md` | 4 multi-stage adversary playbooks | `KillChain` (with nested `KillChainStage`) |";
  "| `enforcement-plane.md` | SF REST endpoint contracts, gotchas, failure modes, RBAC | mixed |";
  "| `invariants.md` | NEVER_BLOCK CIDRs, allowed actions, comment prefixes | hard safety constants |";
  "";
  "## Workflow";
  "";
  "1. Edit the `.md` file (zone CIDR change, new SID, etc.)";
  "2. Run `python scripts/sync_knowledge_to_neo4j.py` (parses + writes Neo4j)";
  "3. Restart `intelligence-layer` container (RAM cache reloads from Neo4j)";
  "";
  "The parser fails closed — invalid YAML or schema violation aborts sync without touching";
  "Neo4j. Type safety preserved by Pydantic validation at parse time.";
  "";
  "## Why this layout (not pure YAML)";
  "";
  "- Markdown is git-tracked, code-reviewed, renders nicely on GitHub/IDE";
  "- Single file = data + human context (no drift between docs and code)";
  "- YAML blocks parsed deterministically — no LLM extraction, no hallucination risk";
  "- Pydantic validation guarantees parsed entities match schema before reaching Neo4j";
  "";
  "For *unstructured* security knowledge (NIST 800-207, CIS benchmarks, threat intel),";
  "see future `knowledge/standards/` — that layer uses LLM extraction.";
  ""].
Definition write_readme : list item := prose README.

(** ** [main] *)
Definition writers (bounds : option (pyval * pyval)) (m : modules) : list (string * res (list item)) :=
  [("zones.md", Ok (write_zones m)); ("assets.md", Ok (write_assets m)); ("leafs.md", Ok (write_leafs m)); ("baselines.md", Ok (write_baselines m));
   ("policy-matrix.md", write_policy m); ("sids.md", write_sids m); ("kill-chains.md", Ok (write_kill_chains m));
   ("enforcement-plane.md", write_enforcement_plane m); ("invariants.md", write_invariants bounds m); ("README.md", Ok write_readme)].
(** The files written, up to the first writer that raises. *)
Fixpoint run_writers (ws : list (string * res (list item))) : list (string * list item) * option exn :=
  match ws with
  | [] => ([], None)
  | (f, Ok l) :: ws => let '(files, e) := run_writers ws in ((f, l) :: files, e)
  | (_, Raise e) :: _ => ([], Some e)
  end.
Definition main (bounds : option (pyval * pyval)) (m : modules) : list (string * list item) * option exn := run_writers (writers bounds m).

Context `{Yaml}.
(** [_yaml_dump], [_block] *)
Definition _yaml_dump (v : pyval) : string := py_rstrip (safe_dump v).
Definition _block (d : obj) : part := Block (_yaml_dump (PDict d)).
Definition rendered (i : item) : part := match i with Note s => Prose s | Data d => _block d end.
Definition file_text (l : list item) : string := parts_text (map rendered l).

(** The directory after the script: a file it has written, or what was there before. *)
Definition read_after (old : string -> option string) (files : list (string * list item)) (f : string) : option string :=
  match dict_get files f with Some l => Some (universal_newlines (file_text l)) | None => old f end.
End Dump.

(** ** verify_knowledge_roundtrip.py *)
#[export] Instance criticality_eq_dec : EqDecision Criticality.
Proof. solve_decision. Defined.
#[export] Instance trust_eq_dec : EqDecision TrustLevel.
Proof. solve_decision. Defined.
#[export] Instance data_class_eq_dec : EqDecision DataClassification.
Proof. solve_decision. Defined.
#[export] Instance flow_criticality_eq_dec : EqDecision FlowCriticality.
Proof. solve_decision. Defined.
#[export] Instance service_eq_dec : EqDecision Service.
Proof. solve_decision. Defined.
#[export] Instance zone_eq_dec : EqDecision Zone.
Proof. solve_decision. Defined.
#[export] Instance asset_eq_dec : EqDecision Asset.
Proof. solve_decision. Defined.
#[export] Instance leaf_eq_dec : EqDecision Knowledge.Leaf.
Proof. solve_decision. Defined.
#[export] Instance flow_eq_dec : EqDecision traffic_pattern.
Proof. solve_decision. Defined.
#[export] Instance pattern_eq_dec : EqDecision TrafficPattern.
Proof. solve_decision. Defined.
#[export] Instance detection_eq_dec : EqDecision sid_detection.
Proof. solve_decision. Defined.
#[export] Instance sid_eq_dec : EqDecision Knowledge.SidDetection.
Proof. solve_decision. Defined.
#[export] Instance stage_eq_dec : EqDecision kill_chain_stage.
Proof. solve_decision. Defined.
#[export] Instance chain_stage_eq_dec : EqDecision KillChainStage.
Proof. solve_decision. Defined.
#[export] Instance chain_eq_dec : EqDecision Knowledge.KillChain.
Proof. solve_decision. Defined.

(** [a == b] on values: numbers by value, dicts without their order. *)
Definition number (v : pyval) : option Q := option_map fst (as_number v).
Fixpoint py_eqb (a b : pyval) : bool :=
  match number a, number b with
  | Some p, Some q => Qeq_bool p q
  | _, _ =>
      match a, b with
      | PNone, PNone => true
      | PStr s, PStr t => bool_decide (s = t)
      | PList l, PList k =>
          (fix go (l k : list pyval) : bool :=
             match l, k with [], [] => true | x :: l', y :: k' => py_eqb x y && go l' k' | _, _ => false end) l k
      | PDict d, PDict e =>
          (length d =? length e)%nat &&
          (fix go (d : list (string * pyval)) : bool :=
             match d with [] => true | (k, x) :: d' => match dict_get e k with Some y => py_eqb x y | None => false end && go d' end) d
      | _, _ => false
      end
  end.
Definition eqb_lists {A} (eqb : A -> A -> bool) (a b : list A) : bool :=
  (length a =? length b)%nat && forallb (fun xy => eqb xy.1 xy.2) (zip a b).
(** Two dicts hold equal values under the same keys. *)
Definition eqb_dicts {K V} `{EqDecision K} (eqb : V -> V -> bool) (a b : list (K * V)) : bool :=
  (length a =? length b)%nat && forallb (fun e => match dict_get b e.1 with Some v => eqb e.2 v | None => false end) a.
Definition eqb_sets (a b : list pyval) : bool :=
  forallb (fun x => existsb (py_eqb x) b) a && forallb (fun x => existsb (py_eqb x) a) b.
Definition eqb {A} `{EqDecision A} (x y : A) : bool := bool_decide (x = y).

Definition diffs (m : modules) (k : knowledge) : list (string * bool) :=
  let i := md_invariants m in let j := k_invariants k in let b := md_baselines m in let c := k_baselines k in let e := k_enforcement k in
  [("ZONES", eqb_dicts eqb (md_zones m) (k_zones k)); ("ASSETS", eqb_dicts eqb (md_assets m) (k_assets k));
   ("LEAFS", eqb_dicts eqb (md_leafs m) (k_leafs k)); ("ALL_BASELINES (as list)", eqb (b_patterns b) (b_patterns c));
   ("ANOMALOUS_PATTERNS", eqb_lists py_eqb (b_anomalous_patterns b) (b_anomalous_patterns c));
   ("STEADY_STATE_FLOWS_PER_MINUTE", b_steady_state b =? b_steady_state c);
   ("MGT_AUDIT_ALERT_RATE_PER_MINUTE", b_audit_rate b =? b_audit_rate c);
   ("POLICY_MATRIX", eqb_dicts py_eqb (md_policy_matrix m) (k_policy_matrix k)); ("SID_DETECTIONS", eqb_dicts eqb (md_sids m) (k_sids k));
   ("KILL_CHAINS", eqb (md_kill_chains m) (k_kill_chains k));
   ("ENDPOINT_CONTRACTS", eqb_dicts py_eqb (md_endpoint_contracts m) (e_endpoint_contracts e));
   ("FIELD_NAME_MAPPING", eqb_lists py_eqb (md_field_name_mapping m) (e_field_name_mapping e));
   ("CRITICAL_GOTCHAS", eqb_lists py_eqb (md_critical_gotchas m) (e_critical_gotchas e));
   ("FAILURE_MODES (as dicts)", eqb_lists py_eqb (map (fun f => PDict (failure_dump f)) (md_failure_modes m)) (e_failure_modes e));
   ("RBAC_CONTRACT (stripped)", py_eqb (PStr (py_strip (md_rbac_contract m))) (e_rbac_contract e));
   ("NEVER_BLOCK_CIDRS", eqb_lists py_eqb (i_never_block_cidrs i) (i_never_block_cidrs j));
   ("NEVER_BLOCK_RATIONALE", eqb_dicts py_eqb (i_never_block_rationale i) (i_never_block_rationale j));
   ("ALLOWED_AGENT_ACTIONS", eqb_sets (i_allowed_agent_actions i) (i_allowed_agent_actions j));
   ("PROTECTED_COMMENT_PREFIXES", eqb_lists py_eqb (i_protected_comment_prefixes i) (i_protected_comment_prefixes j));
   ("AGENT_COMMENT_PREFIX", py_eqb (i_agent_comment_prefix i) (i_agent_comment_prefix j))].
(** The exit code, for the modules and what the files parse to. *)
Definition verify (m : modules) (parsed : res authored) : res Z :=
  let* a := parsed in
  let fails := Z.of_nat (length (List.filter (fun d => negb d.2) (diffs m (a_graph a)))) in
  Ok (if fails =? 0 then 0 else 1).
