(* ===== verification/DumpRoundtrip.v ===== *)
(** * The knowledge base written and parsed (scripts/dump_pydantic_to_markdown.py,
      core/knowledge_parser.py, scripts/verify_knowledge_roundtrip.py)

    [dump_parses]: what the script writes of the modules, the parser reads as [rewritten]
    describes: the order of the SIDs, flows and actions may differ, rationales are completed
    and the text of the RBAC contract is stripped; [YamlLaws] says that the YAML library
    loads a dumped mapping again, and how its text looks. *)
From S2P Require Import Prelude PyVal PyText Sha256 Utf8 Json JsonLoads Models Policy Regex Knowledge KnowledgeGraph KnowledgeParser.
From S2P Require Import KnowledgeReload KnowledgeRoundtrip KnowledgeRestore Boot Postgres MarkdownBlocks KnowledgeDump.
Local Open Scope string_scope.
Local Open Scope Z_scope.
Local Open Scope list_scope.

Definition no_cr (s : string) : bool := str_forallb (fun c => negb (bool_decide (c = CR))) s.

(** A mapping is loaded as it was dumped; its text begins with no space, has no carriage
    return and no line that begins with a backtick, which YAML reserves. *)
Class YamlLaws `{Yaml} := {
  load_dump d : loadable (PDict d) = true -> safe_load (py_rstrip (safe_dump (PDict d)) ++ newline)%string = Ok (PDict d);
  dump_text d : loadable (PDict d) = true -> d <> [] ->
    yaml_ok (py_rstrip (safe_dump (PDict d))) = true /\ no_cr (py_rstrip (safe_dump (PDict d))) = true }.

(** ** The files *)
(** No line of the prose opens a fence; the data is not empty and YAML can hold it. *)
Definition fine (i : item) : bool :=
  match i with Note s => prose_ok s && no_cr s | Data d => loadable (PDict d) && negb (bool_decide (d = [])) end.
Definition tidy (files : list (string * list item)) : bool := forallb (fun f => forallb fine f.2) files.
Definition data (l : list item) : list obj := omap (fun i => match i with Data d => Some d | Note _ => None end) l.

Lemma data_app a b : data (a ++ b) = data a ++ data b.
Proof. apply omap_app. Qed.
Lemma data_prose l : data (prose l) = [].
Proof. induction l as [|s l IH]; [done|exact IH]. Qed.
Lemma data_flat_map {A} (f : A -> list item) (g : A -> obj) l : (forall x, data (f x) = [g x]) -> data (flat_map f l) = map g l.
Proof. intros Hf. induction l as [|x l IH]; [done|]. cbn [flat_map map]. by rewrite data_app, Hf, IH. Qed.

Lemma universal_id s : no_cr s = true -> universal_newlines s = s.
Proof.
  induction s as [|c s IH]; [done|]. unfold no_cr. cbn [str_forallb universal_newlines]. intros [Hc Hs]%andb_true_iff.
  destruct (bool_decide (c = CR)); [done|]. by rewrite IH.
Qed.
Lemma no_cr_app s t : no_cr (s ++ t) = no_cr s && no_cr t.
Proof. induction s as [|c s IH]; [done|]. rewrite str_app_cons. unfold no_cr in *. cbn. by rewrite IH, andb_assoc. Qed.

Lemma Ok_inj {A} (a b : A) : Ok a = Ok b -> a = b.
Proof. congruence. Qed.

Section Files.
Context `{PyRepr} `{UnicodeData} `{External} `{PydBool} `{YamlLaws}.

Lemma rendered_ok i : fine i = true -> part_ok (rendered i) = true /\ no_cr (part_text (rendered i)) = true.
Proof.
  destruct i as [s|d]; cbn [fine rendered part_ok]; rewrite andb_true_iff; [done|]. intros [Hl Hd]. apply negb_true_iff, bool_decide_eq_false in Hd.
  destruct (dump_text d Hl Hd) as [Hy Hn]. split; [exact Hy|]. cbn [part_text _block]. unfold _yaml_dump. rewrite !no_cr_app. by rewrite Hn.
Qed.

Lemma join_no_cr l : Forall (fun s => no_cr s = true) l -> no_cr (py_join newline l) = true.
Proof.
  induction 1 as [|s l Hs Hl IH]; [done|]. destruct l as [|t l]; [done|].
  change (py_join newline (s :: t :: l)) with (s ++ newline ++ py_join newline (t :: l))%string. by rewrite !no_cr_app, Hs, IH.
Qed.

Lemma text_line y : text_ok y = true -> of_points (points y ++ [10]) = (y ++ newline)%string.
Proof.
  intros Hy. change [10] with (points newline). rewrite <- points_app by done. apply of_points_points.
  apply text_ok_app; [done|by apply text_ok_ascii].
Qed.

(** The parser loads the data of a file. *)
Lemma file_blocks read f items : forallb fine items = true -> read f = Some (universal_newlines (file_text items)) ->
  yaml_blocks read safe_load f = Ok (map PDict (data items)).
Proof.
  intros Hf Hr. assert (Hok : Forall (fun i => part_ok (rendered i) = true /\ no_cr (part_text (rendered i)) = true) items).
  { apply Forall_forall. intros i Hi. apply rendered_ok. apply forallb_forall with (x := i) in Hf; [done|by apply list_elem_of_In]. }
  unfold yaml_blocks. rewrite Hr, universal_id.
  2:{ apply join_no_cr. rewrite map_map. apply Forall_map. eapply Forall_impl; [exact Hok|]. by intros i []. }
  unfold file_text. rewrite blocks_of_parts.
  2:{ apply forallb_forall. intros p (i & <- & Hi)%in_map_iff. rewrite Forall_forall in Hok. apply Hok. by apply list_elem_of_In. }
  clear Hr Hok. induction items as [|i items IH]; [done|]. cbn [forallb] in Hf. apply andb_true_iff in Hf as [Hi Hf].
  destruct i as [s|d]; [by apply IH|]. cbn [fine] in Hi. apply andb_true_iff in Hi as [Hl Hd]. apply negb_true_iff, bool_decide_eq_false in Hd.
  change (blocks (map rendered (Data d :: items))) with (_yaml_dump (PDict d) :: blocks (map rendered items)).
  change (data (Data d :: items)) with (d :: data items). cbn [map mapM_res].
  destruct (dump_text d Hl Hd) as [[[Hy _]%andb_true_iff _]%andb_true_iff _]. rewrite text_line by done. unfold _yaml_dump.
  rewrite load_dump by done. cbn [rbind]. rewrite IH by done. done.
Qed.

(** ** The models *)
Context `{!ExternalLaws} `{!PydBoolLaws}.

Lemma zone_loads z : Zone_of (zone_dump z) = Ok z.
Proof. destruct z. by reads. Qed.
Lemma asset_loads a : Asset_of (asset_dump a) = Ok a.
Proof.
  destruct a as [ip host zone tier role c dc ss ins outs imp blk own]. pose proof (services_field ss) as Hs.
  unfold asset_dump. cbn [as_ip as_hostname as_zone as_tier as_role as_criticality as_data_classification as_services
    as_expected_inbound_sources as_expected_outbound_destinations as_if_compromised_impact as_if_blocked_impact as_owner_team].
  revert Hs. generalize (PList (map model_dump ss)). intros v Hs.
  hide_texts. reads. lazy -[pyd_int] in Hs. rewrite Hs. by reads.
Qed.
Lemma leaf_loads (l : Leaf) : Leaf_of (leaf_dump l) = Ok l.
Proof. destruct l. unfold leaf_dump. cbn. hide_texts. by reads. Qed.
Lemma pattern_loads p : TrafficPattern_of (pattern_dump p) = Ok p.
Proof. destruct p as [[]]. by reads. Qed.
Lemma sid_loads d : SidDetection_of (sid_dump d) = Ok d.
Proof. destruct d as [[]]. unfold sid_dump. cbn. hide_texts. by reads. Qed.

Lemma signals_load l : pyd_list pyd_int (PList (map PInt l)) = Ok l.
Proof. cbn. rewrite (mapM_res_map _ _ (fun z => z)); [by rewrite map_id|]. intros z _. apply pyd_int_PInt. Qed.
Lemma stage_loads st : KillChainStage_of (stage_dump st) = Ok st.
Proof.
  destruct st as [[n sigs] tactic ind srcs]. pose proof (signals_load sigs) as Hs. unfold stage_dump. cbn.
  revert Hs. generalize (map PInt sigs). intros v Hs. hide_texts. reads. lazy -[pyd_int] in Hs. rewrite Hs. by reads.
Qed.
Lemma stages_load sts : pyd_list (pyd_model KillChainStage_of) (PList (map (fun st => PDict (stage_dump st)) sts)) = Ok sts.
Proof.
  unfold pyd_list. rewrite (mapM_res_map _ _ (fun st => st)); [by rewrite map_id|]. intros st _. apply stage_loads.
Qed.
Lemma chain_loads c : KillChain_of (chain_dump c) = Ok c.
Proof.
  destruct c as [name desc sts dwell point strategy]. pose proof (stages_load sts) as Hs. unfold chain_dump.
  cbn [ch_name ch_production_description ch_stages ch_typical_dwell ch_intervention_point ch_containment_strategy].
  revert Hs. generalize (PList (map (fun st => PDict (stage_dump st)) sts)). intros v Hs.
  reads. lazy -[pyd_int pyd_strs] in Hs. rewrite Hs. by reads.
Qed.
Lemma failure_loads f : failure_mode (PDict (failure_dump f)) = Ok f.
Proof. destruct f. by reads. Qed.

(** ** The parsers *)
(** A dict of the rows of distinct entries holds the entries. *)
Lemma dict_of_rows {X K A} `{EqDecision K} (key : pyval -> res K) hash (conv : obj -> res A) (row : X -> obj) (ent : X -> K * A) xs :
  (forall x, x ∈ xs -> key (PDict (row x)) = Ok (ent x).1 /\ conv (row x) = Ok (ent x).2 /\ is_ok (hash (ent x).1) = true) ->
  NoDup (map ent xs).*1 -> forall d, (forall x, x ∈ xs -> (ent x).1 ∉ d.*1) ->
  dict_of key hash conv (map PDict (map row xs)) d = Ok (d ++ map ent xs).
Proof.
  induction xs as [|x xs IH]; intros Hx Hnd d Hd; [by rewrite app_nil_r|]. cbn [map] in *. rewrite fmap_cons in Hnd.
  apply NoDup_cons in Hnd as [Hn Hnd]. destruct (Hx x) as (Hk & Hc & Hh); [by left|]. cbn [dict_of]. rewrite Hk. cbn [rbind kwargs]. rewrite Hc. cbn [rbind].
  destruct (hash (ent x).1) as [h|]; [|done]. cbn [rbind]. rewrite dict_set_fresh by (apply Hd; by left).
  rewrite IH; [by rewrite <- app_assoc; destruct (ent x)| |done|].
  - intros y Hy. apply Hx. by right.
  - intros y Hy. rewrite fmap_app, not_elem_of_app. split; [apply Hd; by right|]. cbn. rewrite list_elem_of_singleton. intros E.
    apply Hn. rewrite <- E. apply list_elem_of_fmap. exists (ent y). split; [done|]. by apply (list_elem_of_fmap_2 ent).
Qed.

Lemma text_dict {A} (conv : obj -> res A) (k : string) (row : A -> obj) (name : A -> string) (xs : list (string * A)) :
  (forall a, conv (row a) = Ok a) -> (forall a, index_key (PDict (row a)) k = Ok (PStr (name a))) ->
  Forall (fun x => x.1 = name x.2) xs -> NoDup xs.*1 ->
  dict_of (text_key k) text_hash conv (map PDict (map (fun x => row x.2) xs)) [] = Ok xs.
Proof.
  intros Hc Hk Hn Hd. rewrite (dict_of_rows _ _ _ _ (fun x => x)); [by rewrite map_id| |by rewrite map_id|by intros x _ ?%elem_of_nil].
  intros x Hx. rewrite Forall_forall in Hn. unfold text_key. rewrite Hk. cbn [rbind]. split; [by rewrite (Hn x Hx)|]. split; [apply Hc|done].
Qed.

(** *** The data of the files *)
Lemma data_zones m : data (write_zones m) = map (fun x => zone_dump x.2) (md_zones m).
Proof. unfold write_zones. by rewrite data_app, data_prose, (data_flat_map _ (fun x => zone_dump x.2)). Qed.
Lemma data_assets m : data (write_assets m) = map (fun x => asset_dump x.2) (md_assets m).
Proof. unfold write_assets. by rewrite data_app, data_prose, (data_flat_map _ (fun x => asset_dump x.2)). Qed.
Lemma data_leafs m : data (write_leafs m) = map (fun x => leaf_dump x.2) (md_leafs m).
Proof. unfold write_leafs. by rewrite data_app, data_prose, (data_flat_map _ (fun x => leaf_dump x.2)). Qed.
Lemma data_chains m : data (write_kill_chains m) = map chain_dump (md_kill_chains m).
Proof.
  unfold write_kill_chains. rewrite data_app, data_prose. apply (data_flat_map chain_parts chain_dump). intros c. unfold chain_parts. by rewrite data_app, data_prose.
Qed.
Lemma data_sids m items : write_sids m = Ok items ->
  exists sids, sorted_sids (md_sids m) = Ok sids /\ data items = map (fun x => sid_dump x.2) sids.
Proof.
  unfold write_sids. intros (sids & Hs & <-%Ok_inj)%rbind_ok. exists sids. split; [done|]. rewrite data_app, data_prose.
  apply (data_flat_map sid_parts (fun x => sid_dump x.2)). intros x. unfold sid_parts. by rewrite data_app, data_prose.
Qed.
Lemma data_baselines m : data (write_baselines m) =
  [("steady_state_flows_per_minute", PInt (b_steady_state (md_baselines m))); ("mgt_audit_alert_rate_per_minute", PInt (b_audit_rate (md_baselines m)))]
  :: [("anomalous_patterns", PList (b_anomalous_patterns (md_baselines m)))]
  :: map pattern_dump (APPLICATION_FLOWS (md_baselines m) ++ MANAGEMENT_FLOWS (md_baselines m)).
Proof.
  unfold write_baselines. rewrite !data_app, !data_prose, map_app. rewrite !(data_flat_map pattern_parts pattern_dump) by done. done.
Qed.
Lemma data_policy m items : write_policy m = Ok items -> data items = [[("policy_matrix", PList (map policy_rule (md_policy_matrix m)))]].
Proof. unfold write_policy. intros (t & _ & <-%Ok_inj)%rbind_ok. rewrite !data_app, !data_prose. done. Qed.
Lemma data_plane m items : write_enforcement_plane m = Ok items -> data items =
  [[("endpoint_contracts", PList (map contract_row (md_endpoint_contracts m)))]; [("field_name_mapping", PList (md_field_name_mapping m))];
   [("critical_gotchas", PList (md_critical_gotchas m))]; [("failure_modes", PList (map (fun f => PDict (failure_dump f)) (md_failure_modes m)))];
   [("rbac_contract", PStr (py_strip (md_rbac_contract m)))]].
Proof. unfold write_enforcement_plane. intros (t & _ & <-%Ok_inj)%rbind_ok. rewrite !data_app, !data_prose. done. Qed.
Lemma data_invariants m items : write_invariants None m = Ok items -> exists actions,
  sorted_values (i_allowed_agent_actions (md_invariants m)) = Ok actions /\ data items =
  [[("never_block", PList (map (never_block_row (md_invariants m)) (i_never_block_cidrs (md_invariants m))))];
   [("allowed_agent_actions", PList actions)];
   [("protected_comment_prefixes", PList (i_protected_comment_prefixes (md_invariants m))); ("agent_comment_prefix", i_agent_comment_prefix (md_invariants m))]].
Proof.
  unfold write_invariants. intros (actions & Ha & (names & _ & <-%Ok_inj)%rbind_ok)%rbind_ok. exists actions. split; [done|].
  rewrite !data_app, !data_prose. done.
Qed.

(** *** What is parsed *)
Lemma scan_patterns ps : forall c a out, scan_baselines (map PDict (map pattern_dump ps)) c a out = Ok (c, a, out ++ ps).
Proof.
  induction ps as [|p ps IH]; intros c a out; [by rewrite app_nil_r|]. cbn [map scan_baselines].
  change (KnowledgeParser.has_key "steady_state_flows_per_minute" (pattern_dump p)) with false.
  change (KnowledgeParser.has_key "anomalous_patterns" (pattern_dump p)) with false.
  change (KnowledgeParser.has_key "name" (pattern_dump p) && KnowledgeParser.has_key "src_ip" (pattern_dump p)) with true. cbn match.
  rewrite pattern_loads. cbn [rbind]. by rewrite IH, <- app_assoc.
Qed.

Lemma policy_rows_load es : forall out, Forall (fun e : (pyval * pyval) * pyval => is_ok (key_of e.1.1) = true /\ is_ok (key_of e.1.2) = true) es ->
  NoDup (out ++ es).*1 -> policy_rows (map policy_rule es) out = Ok (out ++ es).
Proof.
  induction es as [|[[s d] v] es IH]; intros out Hk Hd; [by rewrite app_nil_r|]. apply Forall_cons in Hk as [[Hs Hdst] Hk].
  cbn [map policy_rows]. change (index_key (policy_rule (s, d, v)) "verdict") with (Ok v). change (index_key (policy_rule (s, d, v)) "src_zone") with (Ok s).
  change (index_key (policy_rule (s, d, v)) "dst_zone") with (Ok d). cbn [rbind fst snd] in *. destruct (key_of s), (key_of d); try done. cbn [rbind].
  rewrite dict_set_fresh.
  - rewrite IH; [by rewrite <- app_assoc|done|by rewrite <- app_assoc].
  - rewrite fmap_app in Hd. apply NoDup_app in Hd as (_ & Hd & _). intros Hin. apply (Hd _ Hin). by left.
Qed.

Lemma contracts_load es : forall out, Forall (fun e : pyval * pyval => is_ok (key_of e.1) = true) es ->
  NoDup (out ++ es).*1 -> contracts (map contract_row es) out = Ok (out ++ es).
Proof.
  induction es as [|[k v] es IH]; intros out Hk Hd; [by rewrite app_nil_r|]. apply Forall_cons in Hk as [Hs Hk].
  cbn [map contracts]. change (index_key (contract_row (k, v)) "endpoint") with (Ok k). change (index_key (contract_row (k, v)) "description") with (Ok v).
  cbn [rbind fst] in *. destruct (key_of k); [|done]. cbn [rbind]. rewrite dict_set_fresh.
  - rewrite IH; [by rewrite <- app_assoc|done|by rewrite <- app_assoc].
  - rewrite fmap_app in Hd. apply NoDup_app in Hd as (_ & Hd & _). intros Hin. apply (Hd _ Hin). by left.
Qed.

(** The rationale of every entry, as the parser holds it. *)
Definition rationales (i : invariants) : list (pyval * pyval) :=
  map (fun c => (c, default (PStr "") (dict_get (i_never_block_rationale i) c))) (i_never_block_cidrs i).
Lemma never_block_load i cs : forall out rs, Forall (fun c => is_ok (key_of c) = true) cs -> NoDup (rs.*1 ++ cs) ->
  never_block (map (never_block_row i) cs) out rs =
    Ok (out ++ cs, rs ++ map (fun c => (c, default (PStr "") (dict_get (i_never_block_rationale i) c))) cs).
Proof.
  induction cs as [|c cs IH]; intros out rs Hk Hd; [by rewrite !app_nil_r|]. apply Forall_cons in Hk as [Hc Hk].
  cbn [map never_block]. change (index_key (never_block_row i c) "cidr") with (Ok c).
  change (get_of (never_block_row i c) "rationale" (PStr "")) with (Ok (default (PStr "") (dict_get (i_never_block_rationale i) c))).
  cbn [rbind]. destruct (key_of c); [|done]. cbn [rbind]. rewrite dict_set_fresh.
  - rewrite IH; [by rewrite <- !app_assoc|done|]. rewrite fmap_app. by rewrite <- app_assoc.
  - apply NoDup_app in Hd as (_ & Hd & _). intros Hin. apply (Hd _ Hin). by left.
Qed.

(** ** The script *)
(** Modules as an import fills them. *)
Record modules_ok (m : modules) : Prop := {
  mo_zones : Forall (fun z => z.1 = zn_name z.2) (md_zones m) /\ NoDup (md_zones m).*1;
  mo_assets : Forall (fun a => a.1 = as_ip a.2) (md_assets m) /\ NoDup (md_assets m).*1;
  mo_leafs : Forall (fun l => l.1 = lf_name l.2) (md_leafs m) /\ NoDup (md_leafs m).*1;
  mo_sids : Forall (fun d : pyval * SidDetection => d.1 = PInt (sd_sid d.2)) (md_sids m) /\ NoDup (md_sids m).*1;
  mo_matrix : Forall (fun e : (pyval * pyval) * pyval => is_ok (key_of e.1.1) = true /\ is_ok (key_of e.1.2) = true) (md_policy_matrix m) /\
    NoDup (md_policy_matrix m).*1;
  mo_contracts : Forall (fun e : pyval * pyval => is_ok (key_of e.1) = true) (md_endpoint_contracts m) /\ NoDup (md_endpoint_contracts m).*1;
  mo_cidrs : Forall (fun c => is_ok (key_of c) = true) (i_never_block_cidrs (md_invariants m)) /\ NoDup (i_never_block_cidrs (md_invariants m));
  mo_actions : Forall (fun a => is_ok (key_of a) = true) (i_allowed_agent_actions (md_invariants m)) /\
    NoDup (map key_of (i_allowed_agent_actions (md_invariants m)));
  mo_rationale : NoDup (i_never_block_rationale (md_invariants m)).*1 }.

(** The same knowledge again, but for these: the flows of the management zone come last; the
    SIDs and the allowed actions may come in another order; each never-block entry has the
    rationale it was written with, or an empty one when there is none, and a rationale of
    anything else is gone; the text of the RBAC contract is stripped. *)
Record rewritten (m : modules) (k : knowledge) : Prop := {
  rw_system : k_zones k = md_zones m /\ k_assets k = md_assets m /\ k_leafs k = md_leafs m;
  rw_baselines : k_baselines k = Baselines (APPLICATION_FLOWS (md_baselines m) ++ MANAGEMENT_FLOWS (md_baselines m))
    (b_anomalous_patterns (md_baselines m)) (b_steady_state (md_baselines m)) (b_audit_rate (md_baselines m));
  rw_policy : k_policy_matrix k = md_policy_matrix m;
  rw_playbook : k_sids k ≡ₚ md_sids m /\ k_kill_chains k = md_kill_chains m;
  rw_plane : k_enforcement k = EnforcementPlane (md_endpoint_contracts m) (md_field_name_mapping m) (md_critical_gotchas m)
    (map (fun f => PDict (failure_dump f)) (md_failure_modes m)) (PStr (py_strip (md_rbac_contract m)));
  rw_invariants : exists actions, actions ≡ₚ i_allowed_agent_actions (md_invariants m) /\
    k_invariants k = Invariants (i_never_block_cidrs (md_invariants m)) (rationales (md_invariants m)) actions
      (i_protected_comment_prefixes (md_invariants m)) (i_agent_comment_prefix (md_invariants m)) }.

Lemma main_files m files : main None m = (files, None) -> exists policy sids plane inv,
  write_policy m = Ok policy /\ write_sids m = Ok sids /\ write_enforcement_plane m = Ok plane /\ write_invariants None m = Ok inv /\
  files = [("zones.md", write_zones m); ("assets.md", write_assets m); ("leafs.md", write_leafs m); ("baselines.md", write_baselines m);
    ("policy-matrix.md", policy); ("sids.md", sids); ("kill-chains.md", write_kill_chains m); ("enforcement-plane.md", plane);
    ("invariants.md", inv); ("README.md", write_readme)].
Proof.
  unfold main, writers. cbn [run_writers]. destruct (write_policy m) as [policy|]; [|done]. destruct (write_sids m) as [sids|]; [|done].
  destruct (write_enforcement_plane m) as [plane|]; [|done]. destruct (write_invariants None m) as [inv|]; [|done].
  intros E. apply (f_equal fst) in E. cbn [fst] in E. exists policy, sids, plane, inv. by do 4 (split; [done|]).
Qed.

Lemma sids_load sids l : Forall (fun d : pyval * SidDetection => d.1 = PInt (sd_sid d.2)) sids -> NoDup sids.*1 -> sorted_sids sids = Ok l ->
  l ≡ₚ sids /\ dict_of (fun b => index_key b "sid") key_of SidDetection_of (map PDict (map (fun x => sid_dump x.2) l)) [] = Ok l.
Proof.
  intros Hk Hd (ks & Hs & <-%Ok_inj)%rbind_ok. apply sorted_values_perm in Hs.
  assert (Hperm : omap (fun k => option_map (pair k) (dict_get sids k)) ks ≡ₚ sids).
  { rewrite (omap_perm _ _ _ Hs). clear Hs ks Hk. 
    assert (Hall : forall l, (forall e, e ∈ l -> dict_get sids e.1 = Some e.2) -> omap (fun k => option_map (pair k) (dict_get sids k)) l.*1 = l).
    { induction l as [|[k d] l IH]; intros Hl; [done|]. rewrite fmap_cons. cbn [omap list_omap]. change ((k, d).1) with k.
      pose proof (Hl (k, d) ltac:(by left)) as Hk. cbn [fst snd] in Hk. cbn [omap list_omap fst]. rewrite Hk. cbn [option_map]. f_equal. apply IH. intros e He. apply Hl. by right. }
    rewrite Hall; [done|]. intros [k d] He. by apply dict_get_in. }
  split; [done|]. set (l := omap _ ks) in *. rewrite (dict_of_rows _ _ _ _ (fun x => x)); [by rewrite map_id| |rewrite map_id|by intros x _ ?%elem_of_nil].
  - intros x Hx. rewrite Hperm in Hx. rewrite Forall_forall in Hk. rewrite (Hk x Hx). split; [reflexivity|]. split; [apply sid_loads|done].
  - apply (map_key_nodup fst sids l Hperm). exact Hd.
Qed.

Section Parsed.
Context (m : modules) (read : string -> option string) (policy sids plane inv : list item).
Definition holds (f : string) (l : list item) : Prop := forallb fine l = true /\ read f = Some (universal_newlines (file_text l)).

Lemma zones_parsed : modules_ok m -> holds "zones.md" (write_zones m) -> parse_zones read safe_load = Ok (md_zones m).
Proof.
  intros [[Hk Hd] _ _ _ _ _ _ _ _] [Hf Hr]. unfold parse_zones. rewrite (file_blocks _ _ _ Hf Hr). cbn [rbind]. rewrite data_zones.
  by apply (text_dict Zone_of "name" zone_dump zn_name); [apply zone_loads|..].
Qed.
Lemma assets_parsed : modules_ok m -> holds "assets.md" (write_assets m) -> parse_assets read safe_load = Ok (md_assets m).
Proof.
  intros [_ [Hk Hd] _ _ _ _ _ _ _] [Hf Hr]. unfold parse_assets. rewrite (file_blocks _ _ _ Hf Hr). cbn [rbind]. rewrite data_assets.
  by apply (text_dict Asset_of "ip" asset_dump as_ip); [apply asset_loads|..].
Qed.
Lemma leafs_parsed : modules_ok m -> holds "leafs.md" (write_leafs m) -> parse_leafs read safe_load = Ok (md_leafs m).
Proof.
  intros [_ _ [Hk Hd] _ _ _ _ _ _] [Hf Hr]. unfold parse_leafs. rewrite (file_blocks _ _ _ Hf Hr). cbn [rbind]. rewrite data_leafs.
  by apply (text_dict Leaf_of "name" leaf_dump lf_name); [apply leaf_loads|..].
Qed.
Lemma baselines_parsed : holds "baselines.md" (write_baselines m) -> parse_baselines read safe_load =
  Ok (Baselines (APPLICATION_FLOWS (md_baselines m) ++ MANAGEMENT_FLOWS (md_baselines m))
    (b_anomalous_patterns (md_baselines m)) (b_steady_state (md_baselines m)) (b_audit_rate (md_baselines m))).
Proof.
  intros [Hf Hr]. unfold parse_baselines. rewrite (file_blocks _ _ _ Hf Hr). cbn [rbind]. rewrite data_baselines. cbn [map].
  match goal with |- context [scan_baselines (PDict ?c :: PDict ?a :: ?l) None None []] =>
    change (scan_baselines (PDict c :: PDict a :: l) None None []) with (scan_baselines l (Some c) (Some a) []) end.
  by rewrite scan_patterns.
Qed.
Lemma policy_parsed : modules_ok m -> write_policy m = Ok policy -> holds "policy-matrix.md" policy -> parse_policy_matrix read safe_load = Ok (md_policy_matrix m).
Proof.
  intros [_ _ _ _ [Hk Hd] _ _ _ _] Hw [Hf Hr]. unfold parse_policy_matrix. rewrite (file_blocks _ _ _ Hf Hr). cbn [rbind].
  rewrite (data_policy _ _ Hw). cbn [map policy_block dict_get]. simpl. by rewrite policy_rows_load.
Qed.
Lemma sids_parsed : modules_ok m -> write_sids m = Ok sids -> holds "sids.md" sids -> exists l, parse_sids read safe_load = Ok l /\ l ≡ₚ md_sids m.
Proof.
  intros [_ _ _ [Hk Hd] _ _ _ _ _] Hw [Hf Hr]. destruct (data_sids _ _ Hw) as (l & Hl & Hdata). destruct (sids_load _ _ Hk Hd Hl) as [Hp Hload].
  exists l. split; [|done]. unfold parse_sids. rewrite (file_blocks _ _ _ Hf Hr). cbn [rbind]. by rewrite Hdata.
Qed.
Lemma chains_parsed : holds "kill-chains.md" (write_kill_chains m) -> parse_kill_chains read safe_load = Ok (md_kill_chains m).
Proof.
  intros [Hf Hr]. unfold parse_kill_chains. rewrite (file_blocks _ _ _ Hf Hr). cbn [rbind]. rewrite data_chains, map_map.
  rewrite (mapM_res_map _ _ (fun c => c)); [by rewrite map_id|]. intros c _. apply chain_loads.
Qed.
Lemma plane_parsed : modules_ok m -> write_enforcement_plane m = Ok plane -> holds "enforcement-plane.md" plane -> parse_enforcement_plane read safe_load =
  Ok (EnforcementPlane (md_endpoint_contracts m) (md_field_name_mapping m) (md_critical_gotchas m)
    (map (fun f => PDict (failure_dump f)) (md_failure_modes m)) (PStr (py_strip (md_rbac_contract m)))).
Proof.
  intros [_ _ _ _ _ [Hk Hd] _ _ _] Hw [Hf Hr]. unfold parse_enforcement_plane. rewrite (file_blocks _ _ _ Hf Hr). cbn [rbind]. rewrite (data_plane _ _ Hw).
  set (out := merged _). assert (Ho : out = [("endpoint_contracts", PList (map contract_row (md_endpoint_contracts m)));
    ("field_name_mapping", PList (md_field_name_mapping m)); ("critical_gotchas", PList (md_critical_gotchas m));
    ("failure_modes", PList (map (fun f => PDict (failure_dump f)) (md_failure_modes m))); ("rbac_contract", PStr (py_strip (md_rbac_contract m)))]) by reflexivity.
  rewrite Ho. clear Ho out. match goal with |- (if negb (forallb ?p ?l) then _ else _) = _ => change (forallb p l) with true end. cbn match.
  match goal with |- context [jget ?d "endpoint_contracts"] => change (jget d "endpoint_contracts") with (PList (map contract_row (md_endpoint_contracts m))) end.
  cbn [py_iter rbind]. by rewrite contracts_load.
Qed.
Lemma invariants_parsed : modules_ok m -> write_invariants None m = Ok inv -> holds "invariants.md" inv -> exists actions,
  actions ≡ₚ i_allowed_agent_actions (md_invariants m) /\ parse_invariants read safe_load =
    Ok (Invariants (i_never_block_cidrs (md_invariants m)) (rationales (md_invariants m)) actions
      (i_protected_comment_prefixes (md_invariants m)) (i_agent_comment_prefix (md_invariants m))).
Proof.
  intros [_ _ _ _ _ _ [Hk Hd] [Hak Had] _] Hw [Hf Hr]. destruct (data_invariants _ _ Hw) as (actions & Ha & Hdata). exists actions.
  apply sorted_values_perm in Ha. split; [done|]. unfold parse_invariants. rewrite (file_blocks _ _ _ Hf Hr). cbn [rbind]. rewrite Hdata.
  set (out := merged _). assert (Ho : out = [("never_block", PList (map (never_block_row (md_invariants m)) (i_never_block_cidrs (md_invariants m))));
    ("allowed_agent_actions", PList actions); ("protected_comment_prefixes", PList (i_protected_comment_prefixes (md_invariants m)));
    ("agent_comment_prefix", i_agent_comment_prefix (md_invariants m))]) by reflexivity.
  rewrite Ho. clear Ho out. cbn [dict_get]. simpl. rewrite never_block_load by done. cbn [rbind].
  match goal with |- context [frozenset ?v] => change (frozenset v) with (distinct_values [] actions) end.
  rewrite distinct_all; [done| | |by intros k ?%elem_of_nil].
  - by rewrite Ha.
  - by apply (map_key_nodup key_of (i_allowed_agent_actions (md_invariants m)) actions).
Qed.
End Parsed.
End Files.

(** ** Equality *)
Lemma number_shape v : is_Some (number v) \/ number v = None.
Proof. destruct (number v); eauto. Qed.
Lemma py_eqb_refl v : loadable v = true -> py_eqb v v = true.
Proof.
  induction v as [|b|z|q|s|l IH|d IH] using pyval_nested_ind; intros Hv; cbn [py_eqb number as_number option_map fst].
  - done.
  - apply Qeq_bool_iff. reflexivity.
  - apply Qeq_bool_iff. reflexivity.
  - done.
  - by apply bool_decide_eq_true.
  - cbn [loadable] in Hv. induction IH as [|x l Hx _ IHl]; [done|]. cbn [forallb] in Hv. apply andb_true_iff in Hv as [H1 H2].
    by rewrite Hx, IHl.
  - cbn [loadable] in Hv. apply andb_true_iff in Hv as [Hnd Hall]. apply bool_decide_eq_true in Hnd. rewrite Nat.eqb_refl. cbn [andb].
    assert (Hin : forall e, e ∈ d -> dict_get d e.1 = Some e.2) by (intros [k x] He; by apply dict_get_in). clear Hnd.
    revert Hin. generalize d at 2 3 as full. intros full Hin. induction IH as [|[k x] d Hx _ IHd]; [done|].
    cbn [forallb fst snd] in *. apply andb_true_iff in Hall as [[_ H1]%andb_true_iff H2]. pose proof (Hin (k, x) ltac:(by left)) as Hk. cbn in Hk.
    rewrite Hk, Hx, IHd; [done|done| |done]. intros e He. apply Hin. by right.
Qed.
Lemma eqb_lists_refl l : forallb loadable l = true -> eqb_lists py_eqb l l = true.
Proof.
  intros Hl. unfold eqb_lists. rewrite Nat.eqb_refl. cbn [andb]. induction l as [|x l IH]; [done|]. cbn [forallb zip zip_with fst snd] in *.
  apply andb_true_iff in Hl as [Hx Hl]. rewrite py_eqb_refl by done. by apply IH.
Qed.
Lemma eqb_dicts_perm {K V} `{EqDecision K} (f : V -> V -> bool) (a b : list (K * V)) : a ≡ₚ b -> NoDup a.*1 ->
  Forall (fun e => f e.2 e.2 = true) a -> eqb_dicts f a b = true.
Proof.
  intros Hp Hd Hf. unfold eqb_dicts. rewrite (Permutation_length Hp), Nat.eqb_refl. cbn [andb]. apply forallb_forall. intros [k v] Hin.
  apply list_elem_of_In in Hin. rewrite Forall_forall in Hf. cbn [fst snd]. rewrite (dict_get_in b k v); [by apply (Hf (k, v))| |by rewrite <- Hp].
  by rewrite <- Hp.
Qed.

(** ** What the comparison finds *)
(** The values that the modules hold unchecked are ones that YAML can hold. *)
Record values_ok (m : modules) : Prop := {
  vo_patterns : forallb loadable (b_anomalous_patterns (md_baselines m)) = true;
  vo_matrix : Forall (fun e : (pyval * pyval) * pyval => loadable e.2 = true) (md_policy_matrix m);
  vo_contracts : Forall (fun e : pyval * pyval => loadable e.2 = true) (md_endpoint_contracts m);
  vo_fields : forallb loadable (md_field_name_mapping m) = true;
  vo_gotchas : forallb loadable (md_critical_gotchas m) = true;
  vo_failures : forallb loadable (map (fun f => PDict (failure_dump f)) (md_failure_modes m)) = true;
  vo_cidrs : forallb loadable (i_never_block_cidrs (md_invariants m)) = true;
  vo_rationales : Forall (fun e => loadable e.2 = true) (rationales (md_invariants m));
  vo_actions : forallb loadable (i_allowed_agent_actions (md_invariants m)) = true;
  vo_prefixes : forallb loadable (i_protected_comment_prefixes (md_invariants m)) = true;
  vo_prefix : loadable (i_agent_comment_prefix (md_invariants m)) = true }.

Lemma loadable_field k v d : loadable (PDict d) = true -> (k, v) ∈ d -> loadable v = true.
Proof.
  cbn [loadable]. intros [_ Hd]%andb_true_iff Hin%list_elem_of_In. rewrite forallb_forall in Hd. by apply Hd, andb_true_iff in Hin as [_ ?].
Qed.
Lemma loadable_rows {A} (row : A -> obj) (k : string) (v : A -> pyval) (l : list A) : (forall x, (k, v x) ∈ row x) ->
  loadable (PList (map (fun x => PDict (row x)) l)) = true -> Forall (fun x => loadable (v x) = true) l.
Proof.
  intros Hv Hl. cbn [loadable] in Hl. apply Forall_forall. intros x Hx. apply (loadable_field k _ (row x)); [|apply Hv].
  rewrite forallb_forall in Hl. apply Hl, list_elem_of_In. by apply (list_elem_of_fmap_2 (fun x => PDict (row x))).
Qed.
Lemma eqb_sets_perm a b : a ≡ₚ b -> forallb loadable a = true -> eqb_sets a b = true.
Proof.
  intros Hp Ha. rewrite forallb_forall in Ha. unfold eqb_sets. rewrite andb_true_iff, !forallb_forall. split; intros x Hx; apply existsb_exists; exists x.
  - split; [by apply list_elem_of_In; rewrite <- Hp; apply list_elem_of_In|by apply py_eqb_refl, Ha].
  - assert (Hx' : In x a) by (by apply list_elem_of_In; rewrite Hp; apply list_elem_of_In). split; [done|by apply py_eqb_refl, Ha].
Qed.
Lemma eqb_dicts_same {K V} `{EqDecision K} `{EqDecision V} (a b : list (K * V)) : a ≡ₚ b -> NoDup a.*1 -> eqb_dicts eqb a b = true.
Proof. intros Hp Hd. apply eqb_dicts_perm; [done..|]. apply Forall_forall. intros e _. by apply bool_decide_eq_true. Qed.
(** The parser holds a rationale for every entry and no other: it holds the module's dict
    when that is so of the module's dict. *)
Lemma rationales_same i : NoDup (i_never_block_rationale i).*1 -> Forall (fun e => loadable e.2 = true) (rationales i) ->
  eqb_dicts py_eqb (i_never_block_rationale i) (rationales i) = true <-> (i_never_block_rationale i).*1 ≡ₚ i_never_block_cidrs i.
Proof.
  intros Hd Hl. assert (Hkeys : (rationales i).*1 = i_never_block_cidrs i).
  { unfold rationales. induction (i_never_block_cidrs i) as [|c l IH]; [done|]. cbn [map]. rewrite fmap_cons. cbn [fst]. f_equal. apply IH. }
  split.
  - unfold eqb_dicts. intros [Hlen%Nat.eqb_eq Hin]%andb_true_iff. rewrite forallb_forall in Hin. apply submseteq_length_Permutation.
    + apply NoDup_submseteq; [done|]. intros c (e & -> & He%list_elem_of_In)%list_elem_of_fmap. specialize (Hin _ He). rewrite <- Hkeys.
      destruct (dict_get (rationales i) e.1) eqn:E; [|done]. by apply (list_elem_of_fmap_2 fst _ _ (dict_get_elem _ _ _ E)).
    + rewrite <- Hkeys, !length_fmap. lia.
  - intros Hp. assert (Hr : i_never_block_rationale i ≡ₚ rationales i).
    { unfold rationales. rewrite <- Hp. assert (Hall : forall l, (forall e, e ∈ l -> dict_get (i_never_block_rationale i) e.1 = Some e.2) ->
        map (fun c => (c, default (PStr "") (dict_get (i_never_block_rationale i) c))) l.*1 = l).
      { induction l as [|e l IH]; intros Hl'; [done|]. rewrite fmap_cons. cbn [map]. rewrite (Hl' e) by (by left). rewrite IH; [by destruct e|].
        intros e' He'. apply Hl'. by right. }
      rewrite Hall; [done|]. intros [k v] He. by apply dict_get_in. }
    apply eqb_dicts_perm; [done..|]. eapply Forall_impl; [rewrite Hr; exact Hl|]. intros e. apply py_eqb_refl.
Qed.

Lemma verify_zero m a : verify m (Ok a) = Ok 0 <-> forallb snd (diffs m (a_graph a)) = true.
Proof.
  unfold verify. cbn [rbind]. induction (diffs m (a_graph a)) as [|[n b] l IH]; [done|]. cbn [List.filter forallb snd]. destruct b; cbn [negb andb]; [exact IH|].
  cbn [length]. rewrite (proj2 (Z.eqb_neq _ _)) by lia. done.
Qed.

(** The comparison finds a difference only when a flow of another zone follows one of the
    management zone, or the rationale is not given for the never-block entries alone. *)
Lemma rewritten_diffs `{PyRepr} m k : modules_ok m -> values_ok m -> rewritten m k -> forallb snd (diffs m k) = true <->
  APPLICATION_FLOWS (md_baselines m) ++ MANAGEMENT_FLOWS (md_baselines m) = b_patterns (md_baselines m) /\
  (i_never_block_rationale (md_invariants m)).*1 ≡ₚ i_never_block_cidrs (md_invariants m).
Proof.
  intros [[_ Hz] [_ Ha] [_ Hl] [_ Hs] [_ Hp] [_ Hc] [_ Hn] _ Hr] [V1 V2 V3 V4 V5 V6 V7 V8 V9 V10 V11] [(Ez & Ea & El) Eb Ep [Es Ek] Ee (actions & Hact & Ei)].
  unfold diffs. rewrite Ez, Ea, El, Eb, Ep, Ek, Ee, Ei. cbn [forallb snd b_patterns b_anomalous_patterns b_steady_state b_audit_rate e_endpoint_contracts
    e_field_name_mapping e_critical_gotchas e_failure_modes e_rbac_contract i_never_block_cidrs i_never_block_rationale i_allowed_agent_actions
    i_protected_comment_prefixes i_agent_comment_prefix].
  rewrite !eqb_dicts_same by done. rewrite !eqb_lists_refl by done. rewrite !Z.eqb_refl.
  rewrite (eqb_dicts_perm py_eqb (md_policy_matrix m)); [|done..|eapply Forall_impl; [done|intros e; apply py_eqb_refl]].
  rewrite (eqb_dicts_perm py_eqb (md_endpoint_contracts m)); [|done..|eapply Forall_impl; [done|intros e; apply py_eqb_refl]].
  rewrite (eqb_sets_perm (i_allowed_agent_actions (md_invariants m))) by done. rewrite (py_eqb_refl (i_agent_comment_prefix _)) by done.
  rewrite (proj2 (bool_decide_eq_true _) eq_refl : py_eqb (PStr (py_strip (md_rbac_contract m))) (PStr (py_strip (md_rbac_contract m))) = true).
  rewrite (proj2 (bool_decide_eq_true _) eq_refl : eqb (md_kill_chains m) (md_kill_chains m) = true). cbn [andb].
  rewrite !andb_true_r, andb_true_iff, rationales_same by done. unfold eqb. rewrite bool_decide_eq_true. intuition congruence.
Qed.

Section Theorems.
Context `{PyRepr} `{UnicodeData} `{ExternalLaws} `{PydBoolLaws} `{YamlLaws}.

Lemma fine_data items : forallb fine items = true -> Forall (fun d => loadable (PDict d) = true) (data items).
Proof.
  induction items as [|i items IH]; [constructor|]. cbn [forallb]. intros [Hi Hl]%andb_true_iff. destruct i as [t|d]; [by apply IH|].
  change (data (Data d :: items)) with (d :: data items). constructor; [|by apply IH]. cbn [fine] in Hi. by apply andb_true_iff in Hi as [? _].
Qed.

(** All the files are there after the script, and the others are as before. *)
Lemma written old m files : main None m = (files, None) -> tidy files = true ->
  exists policy sids plane inv, write_policy m = Ok policy /\ write_sids m = Ok sids /\ write_enforcement_plane m = Ok plane /\
    write_invariants None m = Ok inv /\
    let read := read_after old files in
    holds read "zones.md" (write_zones m) /\ holds read "assets.md" (write_assets m) /\ holds read "leafs.md" (write_leafs m) /\
    holds read "baselines.md" (write_baselines m) /\ holds read "policy-matrix.md" policy /\ holds read "sids.md" sids /\
    holds read "kill-chains.md" (write_kill_chains m) /\ holds read "enforcement-plane.md" plane /\ holds read "invariants.md" inv /\
    (forall f, f ∈ ["threat-patterns.md"; "severity-scoring.md"; "flow-features.md"] -> read f = old f).
Proof.
  intros (policy & sids & plane & inv & Hp & Hs & He & Hi & ->)%main_files Ht. exists policy, sids, plane, inv. do 4 (split; [done|]). cbn zeta.
  unfold tidy in Ht. cbn [forallb snd] in Ht. rewrite !andb_true_iff in Ht. destruct Ht as (? & ? & ? & ? & ? & ? & ? & ? & ? & _).
  do 9 (split; [by split|]). intros f Hf. rewrite !elem_of_cons, elem_of_nil in Hf. destruct Hf as [->|[->|[->|[]]]]; reflexivity.
Qed.

Lemma loadable_one k v : loadable (PDict [(k, v)]) = true -> loadable v = true.
Proof. intros Hl. apply (loadable_field k v _ Hl). by left. Qed.
Lemma values_written m files : main None m = (files, None) -> tidy files = true -> values_ok m.
Proof.
  intros (policy & sids & plane & inv & Hp & Hs & He & Hi & ->)%main_files Ht.
  unfold tidy in Ht. cbn [forallb snd] in Ht. rewrite !andb_true_iff in Ht. destruct Ht as (_ & _ & _ & Fb & Fp & _ & _ & Fe & Fi & _).
  apply fine_data in Fb, Fp, Fe, Fi. rewrite data_baselines in Fb. rewrite (data_policy _ _ Hp) in Fp. rewrite (data_plane _ _ He) in Fe.
  destruct (data_invariants _ _ Hi) as (actions & Ha & Ei). rewrite Ei in Fi. apply sorted_values_perm in Ha.
  apply Forall_cons in Fb as [_ [Fb _]%Forall_cons]. apply Forall_cons in Fp as [Fp _].
  rewrite !Forall_cons in Fe. destruct Fe as (Fc & Ff & Fg & Fm & _ & _). rewrite !Forall_cons in Fi. destruct Fi as (Fn & Fa & Fx & _).
  apply loadable_one in Fb, Fp, Fc, Ff, Fg, Fm, Fn, Fa. constructor; try done.
  - apply (loadable_rows (fun e : (pyval * pyval) * pyval => [("src_zone", e.1.1); ("dst_zone", e.1.2); ("verdict", e.2)]) "verdict"); [|exact Fp].
    intros e. do 2 right. by left.
  - apply (loadable_rows (fun e : pyval * pyval => [("endpoint", e.1); ("description", e.2)]) "description"); [|exact Fc]. intros e. right. by left.
  - pose proof (loadable_rows (fun c => [("cidr", c); ("rationale", default (PStr "") (dict_get (i_never_block_rationale (md_invariants m)) c))]) "cidr"
      (fun c => c) _ (fun c => list_elem_of_here _ _) Fn) as Hc. apply forallb_forall. intros c Hin%list_elem_of_In. rewrite Forall_forall in Hc. by apply Hc.
  - unfold rationales. apply Forall_map. cbn [snd].
    apply (loadable_rows (fun c => [("cidr", c); ("rationale", default (PStr "") (dict_get (i_never_block_rationale (md_invariants m)) c))]) "rationale"); [|exact Fn].
    intros c. right. by left.
  - cbn [loadable] in Fa. rewrite forallb_forall in *. intros a Hin%list_elem_of_In. apply Fa, list_elem_of_In. by rewrite Ha.
  - apply (loadable_field "protected_comment_prefixes" (PList _) _ Fx). by left.
  - apply (loadable_field "agent_comment_prefix" _ _ Fx). right. by left.
Qed.

Lemma dump_parsed old m files threats rubric features : modules_ok m -> main None m = (files, None) -> tidy files = true ->
  parse_threat_patterns old safe_load = Ok threats -> parse_severity_scoring old safe_load = Ok rubric ->
  parse_flow_features old safe_load = Ok features ->
  exists k, parse_all (read_after old files) safe_load = Ok (Authored k threats rubric features) /\ rewritten m k.
Proof.
  intros Hm Hmain Htidy Ht Hr Hf. destruct (written old m files Hmain Htidy) as (policy & sids & plane & inv & Wp & Ws & We & Wi & Hread). cbn zeta in Hread.
  destruct Hread as (Hz & Ha & Hl & Hb & Hp & Hs & Hk & He & Hi & Hold). set (read := read_after old files) in *.
  destruct (sids_parsed m read sids Hm Ws Hs) as (l & Es & Ps). destruct (invariants_parsed m read inv Hm Wi Hi) as (actions & Pa & Ei).
  eexists. split.
  - unfold parse_all. rewrite (zones_parsed m read Hm Hz), (assets_parsed m read Hm Ha), (leafs_parsed m read Hm Hl), (baselines_parsed m read Hb),
      (policy_parsed m read policy Hm Wp Hp), Es, (chains_parsed m read Hk), (plane_parsed m read plane Hm We He), Ei. cbn [rbind].
    unfold parse_threat_patterns, parse_severity_scoring, parse_flow_features, yaml_blocks in *. rewrite !Hold by repeat constructor.
    rewrite Ht. cbn [rbind]. rewrite Hr. cbn [rbind]. rewrite Hf. reflexivity.
  - constructor; cbn; try done. by exists actions.
Qed.

(** C9: when the modules' keys are theirs and distinct ([modules_ok]),
    [dump_pydantic_to_markdown.py] writes its files without an exception, the prose among
    the data has no line that opens a fence and the data is such that YAML holds it
    ([tidy]), and the three files that it does not write parse, [parse_all] of the directory
    succeeds.  It gives the same zones, assets, leafs, policy matrix, kill chains, endpoint
    contracts, field mappings, gotchas, failure modes, anomalous patterns and comment
    prefixes as the modules hold; the SIDs and allowed actions in some order; the flows with
    those of the management zone last; each never-block entry, with its rationale or an empty
    one, while a rationale of anything else is lost; the RBAC contract stripped; and the
    other files' patterns, rubric and features. *)
Theorem dump_parses old m files threats rubric features : modules_ok m -> main None m = (files, None) -> tidy files = true ->
  parse_threat_patterns old safe_load = Ok threats -> parse_severity_scoring old safe_load = Ok rubric ->
  parse_flow_features old safe_load = Ok features ->
  exists k, parse_all (read_after old files) safe_load = Ok (Authored k threats rubric features) /\ rewritten m k.
Proof. apply dump_parsed. Qed.

(** On the files that [dump_pydantic_to_markdown.py] has just written,
    [verify_knowledge_roundtrip.py] exits with 0 exactly when the modules list the flows of
    the management zone last and give a rationale for the never-block entries and for
    nothing else; no other part of the modules can differ. *)
Theorem verify_exit old m files threats rubric features : modules_ok m -> main None m = (files, None) -> tidy files = true ->
  parse_threat_patterns old safe_load = Ok threats -> parse_severity_scoring old safe_load = Ok rubric ->
  parse_flow_features old safe_load = Ok features ->
  verify m (parse_all (read_after old files) safe_load) = Ok 0 <->
    APPLICATION_FLOWS (md_baselines m) ++ MANAGEMENT_FLOWS (md_baselines m) = b_patterns (md_baselines m) /\
    (i_never_block_rationale (md_invariants m)).*1 ≡ₚ i_never_block_cidrs (md_invariants m).
Proof.
  intros Hm Hmain Htidy Ht Hr Hf. destruct (dump_parsed _ _ _ _ _ _ Hm Hmain Htidy Ht Hr Hf) as (k & -> & Hk).
  rewrite verify_zero. by apply rewritten_diffs; [|apply (values_written m files)|].
Qed.
End Theorems.

(** ** An instance: JSON, which is YAML *)
#[local] Instance repr0 : PyRepr := fun _ => "".
#[local] Instance ascii_only : UnicodeData := {| uni_word _ := false; uni_digit _ := false |}.
#[local] Existing Instance external0.
#[local] Existing Instance external0_laws.
Definition json_yaml : Yaml := {| safe_dump := json_dumps false;
  safe_load s := match json_loads floats0 (py_strip s) with Some v => Ok v | None => Raise (ValueError "YAMLError") end |}.
#[local] Existing Instance json_yaml.

Lemma printable_points c : printable c = true -> text_ok (String c "") = true /\ points (String c "") = [Z.of_N (code c)].
Proof.
  destruct c as [b0 b1 b2 b3 b4 b5 b6 b7].
  destruct b0, b1, b2, b3, b4, b5, b6, b7; vm_compute; first [done | by intros _; split].
Qed.
Lemma points_printable s : str_forallb printable s = true ->
  text_ok s = true /\ no_cr s = true /\ lines_avoid CLOSE false (points s) = true.
Proof.
  induction s as [|c s IH]; [done|]. cbn [str_forallb]. intros [Hc Hs]%andb_true_iff. destruct (IH Hs) as (Ht & Hn & Hl).
  destruct (printable_points c Hc) as [Hct Hcp]. change (String c s) with (String c "" ++ s)%string. split; [by apply text_ok_app|].
  unfold printable in Hc. apply andb_true_iff in Hc as [Hc _]. apply N.leb_le in Hc. rewrite no_cr_app, Hn, points_app, Hcp by done. split.
  - unfold no_cr. cbn [str_forallb]. rewrite bool_decide_eq_false_2; [done|]. intros ->. by apply Hc.
  - cbn [app lines_avoid andb negb]. by rewrite (proj2 (Z.eqb_neq _ _)) by lia.
Qed.
Lemma rstrip_ends u d : is_space d = false -> py_rstrip (u ++ String d "") = (u ++ String d "")%string.
Proof.
  intros Hd. unfold py_rstrip. rewrite str_rev_app. change (str_rev (String d "")) with (String d "").
  rewrite str_app_cons, str_app_nil_l. cbn [lstrip]. rewrite Hd. change (String d (str_rev u)) with (str_rev (String d "") ++ str_rev u)%string.
  by rewrite <- str_rev_app, str_rev_involutive.
Qed.
Lemma rstrip_dumps v : loadable v = true -> py_rstrip (json_dumps false v) = json_dumps false v.
Proof. intros Hv. destruct (dumps_ends v Hv) as (_ & u & d & -> & Hd). by apply rstrip_ends. Qed.
Lemma json_yaml_laws : YamlLaws.
Proof.
  constructor; intros d Hd; cbn [safe_dump safe_load json_yaml]; rewrite rstrip_dumps by done.
  - by rewrite strip_dumps, loads_dumps by done.
  - intros _. pose proof (dumps_printable (PDict d) ltac:(done)) as Hp. destruct (points_printable _ Hp) as (Ht & Hn & _). split; [|done].
    assert (Hb : exists r, json_dumps false (PDict d) = String "{" r) by (cbn [json_dumps]; rewrite str_app_cons; by eexists). destruct Hb as [r Hr].
    unfold yaml_ok. rewrite Ht. rewrite Hr in Hp |- *. cbn [str_forallb] in Hp. apply andb_true_iff in Hp as [_ Hp].
    destruct (points_printable r Hp) as (_ & _ & Hl). change (String "{" r) with ("{" ++ r)%string. rewrite points_app by done.
    change (points "{") with [123]. cbn [app lines_avoid]. change (starts CLOSE (123 :: points r)) with false. cbn [andb negb]. exact Hl.
Qed.

(** The files that the script does not write, and the modules of [Boot.sample] with the
    rationale of the never-block entries. *)
Definition sample_threat : obj := [("id", PStr "TP-1"); ("threat_class", PStr "scan"); ("flow_signature", PDict [("unique_ports", PStr ">= 20")]);
  ("description", PStr "a port scan"); ("mitre_tactic", PStr "TA0043"); ("recommended_action", PStr "DROP")].
Definition sample_rubric : SeverityRubric := mkRubric [] [[("severity", PStr "HIGH"); ("score", PInt 3)]] [] [] [].
Definition sample_features : FlowFeatureSet := mkFeatures [[("name", PStr "flow_count")]] [("seconds", PInt 60)] [] [] [].
Definition sample_old : string -> option string := read_after (fun _ => None)
  [("threat-patterns.md", [Note "# Patterns"; Data sample_threat]);
   ("severity-scoring.md", [Data [("signal_table", PDict []); ("severity_mapping", PList [PDict [("severity", PStr "HIGH"); ("score", PInt 3)]]);
      ("action_rules", PList []); ("confidence_calibration", PDict []); ("hard_overrides", PList [])]]);
   ("flow-features.md", [Data [("features_per_ip_pair", PList [PDict [("name", PStr "flow_count")]]); ("detection_window", PDict [("seconds", PInt 60)])]])].
Definition sample_written : modules :=
  let m := sample_modules in let i := md_invariants m in
  Modules (md_zones m) (md_assets m) (md_leafs m) (md_baselines m) (md_sids m) (md_kill_chains m) (md_policy_matrix m) (md_endpoint_contracts m)
    (md_field_name_mapping m) (md_critical_gotchas m) (md_failure_modes m) (md_rbac_contract m)
    (Invariants (i_never_block_cidrs i) (map (fun c => (c, PStr "self-DoS")) (i_never_block_cidrs i)) (i_allowed_agent_actions i)
       (i_protected_comment_prefixes i) (i_agent_comment_prefix i)).
Definition sample_files : list (string * list item) := (main None sample_written).1.
Definition sample_threats : list ThreatPattern * pyval * list pyval :=
  ([mkThreat "TP-1" "scan" [("unique_ports", PStr ">= 20")] "a port scan" None None None "TA0043" None (PStr "DROP") None (PInt 0) (PFloat 0)
      None None None None None], PDict [], []).

Lemma sample_modules_ok : modules_ok sample_written.
Proof. constructor; try split; first [by apply (bool_decide_unpack _); vm_compute | by vm_compute; repeat constructor | idtac].
  vm_compute. constructor; [|repeat constructor; by intros ?%elem_of_nil]. by intros ?%list_elem_of_singleton. Qed.

Lemma dump_parses_witness : exists k, parse_all (read_after sample_old sample_files) safe_load =
  Ok (Authored k sample_threats sample_rubric sample_features) /\ rewritten sample_written k.
Proof.
  apply (@dump_parses _ _ _ _ _ _ _ json_yaml_laws sample_old sample_written sample_files sample_threats sample_rubric sample_features sample_modules_ok);
    vm_compute; reflexivity.
Defined.
(** The sample's flows are all of applications, and every entry has its rationale; without
    the rationales the comparison fails. *)
Lemma verify_exit_witness : verify sample_written (parse_all (read_after sample_old sample_files) safe_load) = Ok 0 /\
  verify sample_modules (parse_all (read_after sample_old (main None sample_modules).1) safe_load) <> Ok 0.
Proof.
  split; [|by vm_compute].
  apply (@verify_exit _ _ _ _ _ _ _ json_yaml_laws sample_old sample_written sample_files sample_threats sample_rubric sample_features sample_modules_ok);
    by vm_compute.
Defined.
