(* ===== verification/Schemas.v ===== *)
(** * What the LLM is asked for (agent/tools.py: the tools and the answers' schemas)

    The definitions that the requests carry, and [valid], the part of JSON Schema that they
    use.  [decision_accepted] and [reasoning_accepted]: an answer that the schema allows
    is one that the nodes read field by field; [tools_accepted]: arguments that a tool
    declares are ones that its handler takes. *)
From S2P Require Import Prelude PyVal Json Models Topology Policy Redis Regex Knowledge Reasoning Nodes Tools.
Local Open Scope string_scope.
Local Open Scope Z_scope.
Local Open Scope list_scope.

(** ** The tools and the schemas *)
Definition QUERY_KG_TOOL_DESCRIPTION : string := py_join newline [
  "Run a read-only Cypher query against the knowledge graph.";
  "";
  "Use this when you need a specific fact about the datacenter that ISN'T in your";
  "system prompt. Your prompt has high-level architecture + invariants — for any";
  "specific entity (zone CIDR, asset blast radius, baseline match, kill chain";
  "stage, SID detail), use this tool instead of guessing.";
  "";
  "## SCHEMA";
  "";
  "Nodes:";
  "  (:Zone {name, cidr, leaf, vlan, svi_gateway, trust_level, criticality, purpose})";
  "  (:Asset {ip, hostname, zone, tier, role, criticality, data_classification,";
  "           owner_team, services_json, expected_inbound_sources,";
  "           expected_outbound_destinations, if_compromised_impact, if_blocked_impact})";
  "  (:Leaf {name, mgmt_ip, zones, role})";
  "  (:Sid {sid, severity_p_level, signature_msg, production_description,";
  "         mitre_tactic, mitre_technique, detection_logic, recommended_response,";
  "         default_ttl_seconds, false_positive_likelihood, false_positive_scenarios})";
  "  (:KillChain {name, production_description, typical_dwell,";
  "               recommended_intervention, containment_strategy, stage_count})";
  "  (:Baseline {name, src_zone, src_ip, dst_zone, dst_ip, dst_port, proto,";
  "              cadence, expected_volume_per_hour, burst_anomaly_threshold,";
  "              criticality_to_business, production_description, if_disrupted})";
  "  (:NeverBlockEntry {cidr, rationale})";
  "  (:KnowledgeMeta {key, ...})  — singletons (baseline_constants, rbac_contract, agent_invariants)";
  "";
  "Edges:";
  "  (:Asset)-[:MEMBER_OF]->(:Zone)";
  "  (:Leaf)-[:ENFORCES]->(:Zone)";
  "  (:Zone)-[:ALLOW]->(:Zone)   — policy matrix";
  "  (:Zone)-[:DENY]->(:Zone)";
  "  (:Sid)-[:EXPECTED_IN {stage, tactic, indicators, false_positive_sources}]->(:KillChain)";
  "";
  "## EXAMPLES";
  "";
  "Get full asset profile:";
  "  MATCH (a:Asset {ip: '10.1.100.10'}) RETURN a";
  "";
  "Find baselines involving a src IP (is this flow legitimate?):";
  "  MATCH (b:Baseline) WHERE b.src_ip = '10.1.100.10' OR b.dst_ip = '10.1.100.10'";
  "  RETURN b.name, b.src_ip, b.dst_ip, b.dst_port, b.proto, b.criticality_to_business";
  "";
  "Find kill chains containing this SID + which stage:";
  "  MATCH (s:Sid {sid: 9000001})-[r:EXPECTED_IN]->(k:KillChain)";
  "  RETURN k.name, r.stage, r.tactic, r.indicators, k.containment_strategy";
  "";
  "Get SID detail with FP scenarios:";
  "  MATCH (s:Sid {sid: 9000001}) RETURN s";
  "";
  "Check policy verdict between zones:";
  "  MATCH (s:Zone {name: 'WEB'})-[r:ALLOW|DENY]->(d:Zone {name: 'DB'}) RETURN type(r)";
  "";
  "Find all assets in same zone (lateral movement candidates):";
  "  MATCH (a:Asset)-[:MEMBER_OF]->(z:Zone {name: 'DB'}) RETURN a.ip, a.hostname";
  "";
  "## CONSTRAINTS";
  "";
  "- Read-only: no CREATE/DELETE/MERGE/SET/REMOVE.";
  "- Max 50 rows returned (truncated if more — refine your query).";
  "- 5s timeout. Keep queries simple — no expensive cartesian products.";
  "- Use exact node labels and property names from the schema above.";
  ""].
Definition TOOL_DEFINITIONS : list pyval :=
  [PDict [
     ("type", PStr "function");
     ("function", PDict [
       ("name", PStr "query_kg");
       ("description", PStr QUERY_KG_TOOL_DESCRIPTION);
       ("parameters", PDict [
         ("type", PStr "object");
         ("properties", PDict [
           ("cypher", PDict [("type", PStr "string"); ("description", PStr "Read-only Cypher query against the schema above.")])]);
         ("required", PList [PStr "cypher"])])])];
   PDict [
     ("type", PStr "function");
     ("function", PDict [
       ("name", PStr "get_alert_history");
       ("description", PStr "Retrieve the recent alert history for a given source IP from cache.");
       ("parameters", PDict [
         ("type", PStr "object");
         ("properties", PDict [("src_ip", PDict [("type", PStr "string")]); ("limit", PDict [("type", PStr "integer"); ("default", PInt 10)])]);
         ("required", PList [PStr "src_ip"])])])]].
Definition POLICY_DECISION_SCHEMA : pyval :=
  PDict [
    ("type", PStr "object");
    ("properties", PDict [
      ("action", PDict [
        ("type", PStr "string");
        ("enum", PList [PStr "DROP"; PStr "log_only"]);
        ("description", PStr "Policy action. DROP for P1/P2 threats. log_only for P3/P4 or low confidence.")]);
      ("src_ip", PDict [("type", PStr "string"); ("description", PStr "CIDR e.g. 10.1.100.10/32. MUST contain alert.src_ip.")]);
      ("dst_ip", PDict [("type", PStr "string"); ("description", PStr "CIDR or empty string.")]);
      ("dst_port", PDict [("type", PStr "integer")]);
      ("protocol", PDict [("type", PStr "string"); ("description", PStr "tcp / udp / icmp / all")]);
      ("priority", PDict [("type", PStr "integer"); ("description", PStr "MUST be 50 for agent rules.")]);
      ("ttl_seconds", PDict [("type", PStr "integer"); ("description", PStr "3600 for P1, 1800 for P2, 0 for log_only.")]);
      ("comment", PDict [("type", PStr "string"); ("description", PStr "Short rule description (under 80 chars).")]);
      ("confidence", PDict [
        ("type", PStr "number");
        ("minimum", PFloat 0);
        ("maximum", PFloat 1);
        ("description", PStr "Calibrated confidence in this decision; gates enforcement at 0.85/0.70/0.50.")]);
      ("notification_title", PDict [
        ("type", PStr "string");
        ("description", PStr "SOC-facing title for FE Monitor display (≤120 chars). Name the action + target. Example: 'DROP pushed: APP→DB rate burst'.")]);
      ("notification_body", PDict [
        ("type", PStr "string");
        ("description", PStr "SOC-facing body for FE Monitor display (≤400 chars). Technical sentence(s). Cite IP/port + numeric evidence (SID trigger vs baseline anomaly threshold). Example: 'Blocked 10.2.100.10→10.1.200.10:5432 1800s. SID 9000031 fired at ≥100 SYN/60s vs baseline anomaly_threshold >50/min and expected 2/min — consistent with compromised app abusing DB grant.'")]);
      ("notification_severity", PDict [
        ("type", PStr "string");
        ("enum", PList [PStr "info"; PStr "warn"; PStr "alert"; PStr "critical"]);
        ("description", PStr "FE display tag: 'info' = log_only on P3/P4, 'warn' = log_only on P1/P2, 'alert' = DROP on P1/P2, 'critical' = DROP for cross-tier lateral or destructive content.")])]);
    ("required", PList [PStr "action"; PStr "src_ip"; PStr "confidence"; PStr "notification_title"; PStr "notification_body"; PStr "notification_severity"])].
Definition REASONING_TRACE_SCHEMA : pyval :=
  PDict [
    ("type", PStr "object");
    ("properties", PDict [
      ("primary_hypothesis", PDict [("type", PStr "string"); ("description", PStr "Short name of the leading hypothesis that drove the action.")]);
      ("hypotheses", PDict [
        ("type", PStr "array");
        ("items", PDict [("type", PStr "string")]);
        ("description", PStr "2-3 candidate hypotheses, each as one string: '<name> (probability=<0.X>) — <description>. Evidence: ... Counter: ...'.")]);
      ("reasoning_steps", PDict [
        ("type", PStr "array");
        ("items", PDict [("type", PStr "string")]);
        ("description", PStr "Step-by-step reasoning chain leading to the decision.")]);
      ("alternative_actions", PDict [
        ("type", PStr "array");
        ("items", PDict [("type", PStr "string")]);
        ("description", PStr "Plan B entries as strings: 'if <condition> then <action> because <reason>'.")]);
      ("rollback_plan", PDict [("type", PStr "string"); ("description", PStr "Trigger + action + monitor window if rule causes outage.")]);
      ("follow_up_actions", PDict [
        ("type", PStr "array");
        ("items", PDict [("type", PStr "string")]);
        ("description", PStr "Things to monitor after enforce (kill-chain progression).")]);
      ("mitre_technique", PDict [("type", PStr "string"); ("description", PStr "T-number, e.g. T1021.")]);
      ("mitre_tactic", PDict [("type", PStr "string"); ("description", PStr "TA-number, e.g. TA0008.")])]);
    ("required", PList [PStr "primary_hypothesis"; PStr "reasoning_steps"])].
Definition POLICY_INTENT_SCHEMA : pyval :=
  PDict [
    ("type", PStr "object");
    ("properties", PDict [
      ("action", PDict [
        ("type", PStr "string");
        ("enum", PList [PStr "DROP"; PStr "log_only"]);
        ("description", PStr "Policy action. DROP for P1/P2 threats. log_only for P3/P4 or low confidence.")]);
      ("src_ip", PDict [("type", PStr "string")]);
      ("dst_ip", PDict [("type", PStr "string")]);
      ("dst_port", PDict [("type", PStr "integer")]);
      ("protocol", PDict [("type", PStr "string")]);
      ("priority", PDict [("type", PStr "integer"); ("description", PStr "MUST be 50.")]);
      ("ttl_seconds", PDict [("type", PStr "integer"); ("description", PStr "3600 for P1, 1800 for P2, 0 for log_only.")]);
      ("comment", PDict [("type", PStr "string")]);
      ("confidence", PDict [("type", PStr "number"); ("minimum", PFloat 0); ("maximum", PFloat 1)]);
      ("reasoning_steps", PDict [
        ("type", PStr "array");
        ("items", PDict [("type", PStr "string")]);
        ("description", PStr "Step-by-step reasoning chain.")]);
      ("mitre_technique", PDict [("type", PStr "string")]);
      ("mitre_tactic", PDict [("type", PStr "string")]);
      ("hypotheses", PDict [
        ("type", PStr "array");
        ("items", PDict [("type", PStr "string")]);
        ("description", PStr "2-3 candidate hypotheses, each as a single string formatted: '<name> (probability=<0.X>) — <description>. Evidence: <supporting>. Counter: <disconfirming>'. Models engineer mental process of considering alternatives before deciding.")]);
      ("primary_hypothesis", PDict [("type", PStr "string"); ("description", PStr "Name of the chosen hypothesis that drives the action.")]);
      ("alternative_actions", PDict [
        ("type", PStr "array");
        ("items", PDict [("type", PStr "string")]);
        ("description", PStr "Plan B if primary hypothesis turns out wrong. Each entry as string: 'if <trigger_condition> then <action> because <rationale>'.")]);
      ("rollback_plan", PDict [
        ("type", PStr "string");
        ("description", PStr "If the rule causes outage, how to revert. Format: 'Trigger: <observable>. Action: <revoke command>. Monitor for <N>s.'")]);
      ("follow_up_actions", PDict [
        ("type", PStr "array");
        ("items", PDict [("type", PStr "string")]);
        ("description", PStr "What to monitor after enforcement (e.g., 'check at T+10min if SID 9000002 fires').")])]);
    ("required", PList [PStr "action"; PStr "src_ip"; PStr "confidence"; PStr "reasoning_steps"; PStr "hypotheses"; PStr "primary_hypothesis"])].

(** ** JSON Schema *)
Definition num (v : pyval) : option Q := match v with PInt z => Some (inject_Z z) | PFloat q => Some q | _ => None end.
(** A number without a fraction is an integer, whatever its notation. *)
Definition has_type (t : pyval) (v : pyval) : bool :=
  match t with
  | PStr "string" => match v with PStr _ => true | _ => false end
  | PStr "integer" => match v with PInt _ => true | PFloat q => Qeq_bool q (inject_Z (Z.quot (Qnum q) (Zpos (Qden q)))) | _ => false end
  | PStr "number" => bool_decide (is_Some (num v))
  | PStr "array" => match v with PList _ => true | _ => false end
  | PStr "object" => match v with PDict _ => true | _ => false end
  | _ => true
  end.
Definition bounded (le : Q -> Q -> bool) (x v : pyval) : bool := match num x, num v with Some a, Some b => le a b | _, _ => true end.
Definition requires (x v : pyval) : bool :=
  match x, v with PList l, PDict d => forallb (fun k => match k with PStr k => dict_mem d k | _ => true end) l | _, _ => true end.
(** Every keyword restricts the value on its own; the others are for the reader. *)
Fixpoint valid (schema v : pyval) {struct schema} : bool :=
  match schema with
  | PDict ks =>
      (fix keywords (ks : list (string * pyval)) : bool :=
         match ks with
         | [] => true
         | (k, x) :: ks' =>
             (if String.eqb k "type" then has_type x v
              else if String.eqb k "enum" then match x with PList l => bool_decide (v ∈ l) | _ => true end
              else if String.eqb k "minimum" then bounded Qle_bool x v
              else if String.eqb k "maximum" then bounded (fun a b => Qle_bool b a) x v
              else if String.eqb k "required" then requires x v
              else if String.eqb k "items" then match v with PList l => forallb (valid x) l | _ => true end
              else if String.eqb k "properties" then
                match x, v with
                | PDict ps, PDict d =>
                    (fix properties (ps : list (string * pyval)) : bool :=
                       match ps with
                       | [] => true
                       | (n, p) :: ps' => match dict_get d n with Some y => valid p y | None => true end && properties ps'
                       end) ps
                | _, _ => true
                end
              else true) && keywords ks'
         end) ks
  | _ => true
  end.

(** ** The fields of an answer *)
Definition text_in (d : obj) (k x : string) : string := match dict_get d k with Some (PStr t) => t | _ => x end.
Definition whole_in (d : obj) (k : string) (x : Z) : Z :=
  match dict_get d k with Some (PInt z) => z | Some (PFloat q) => Z.quot (Qnum q) (Zpos (Qden q)) | _ => x end.
Definition texts_in (d : obj) (k : string) : list string :=
  match dict_get d k with Some (PList l) => omap (fun v => match v with PStr t => Some t | _ => None end) l | _ => [] end.

Definition is_text (v : pyval) : bool := match v with PStr _ => true | _ => false end.
Definition is_whole (v : pyval) : bool := has_type (PStr "integer") v.
Definition optional (d : obj) (k : string) (p : pyval -> bool) : bool := match dict_get d k with Some v => p v | None => true end.

Section Fields.
Context `{External} (d : obj) (k : string).
Lemma text_read x : optional d k is_text = true -> pyd_str (jget_or d k (PStr x)) = Ok (text_in d k x).
Proof. unfold optional, jget_or, text_in. by destruct (dict_get d k) as [[]|]. Qed.
Lemma whole_read x : optional d k is_whole = true -> int_of (jget_or d k (PInt x)) = Ok (whole_in d k x).
Proof. unfold optional, jget_or, whole_in. by destruct (dict_get d k) as [[]|]. Qed.
Lemma short_read n : optional d k is_text = true -> short_text n (jget d k) = Ok (py_take n (text_in d k "")).
Proof.
  unfold optional, jget, text_in, short_text, por. destruct (dict_get d k) as [[]|]; try done. intros _. cbn [default truthy].
  change (default PNone (Some (PStr s))) with (PStr s). by destruct s.
Qed.
Lemma present : dict_mem d k = true -> exists v, dict_get d k = Some v.
Proof. unfold dict_mem. destruct (dict_get d k); eauto. done. Qed.
End Fields.
Lemma enum_read (ss : list string) v : is_text v = true -> bool_decide (v ∈ map PStr ss) = true -> exists t, v = PStr t /\ t ∈ ss.
Proof. destruct v; try done. intros _ (t & [= ->] & Ht)%bool_decide_eq_true%list_elem_of_fmap. eauto. Qed.

Lemma optional_impl (p q : pyval -> bool) d k : (forall v, p v = true -> q v = true) -> optional d k p = true -> optional d k q = true.
Proof. unfold optional. destruct (dict_get d k); auto. Qed.
(** What the schema of an object says of its fields. *)
Definition properties (schema : pyval) : obj :=
  match schema with PDict ks => match jget ks "properties" with PDict ps => ps | _ => [] end | _ => [] end.
Definition object_schema (ps : obj) (required : list string) : pyval :=
  PDict [("type", PStr "object"); ("properties", PDict ps); ("required", PList (map PStr required))].
Lemma valid_object d ps names : valid (object_schema ps names) (PDict d) = true ->
  (forall k, k ∈ names -> exists v, dict_get d k = Some v) /\
  forall k p q, dict_get ps k = Some p -> (forall v, valid p v = true -> q v = true) -> optional d k q = true.
Proof.
  cbn. rewrite andb_true_r. intros [Hp Hr]%andb_true_iff. split.
  - intros k Hk. apply present. rewrite forallb_forall in Hr. apply (Hr (PStr k)). by apply in_map, list_elem_of_In.
  - clear Hr. intros k p q Hin%dict_get_elem Hq. apply (optional_impl (valid p)); [exact Hq|].
    induction ps as [|[k' p'] ps IH]; [by apply elem_of_nil in Hin|]. apply andb_true_iff in Hp as [Hn Hp].
    apply elem_of_cons in Hin as [[= -> ->]|Hin]; [exact Hn|by apply IH].
Qed.

Section Object.
Context (d ps : obj) (names : list string) (Hv : valid (object_schema ps names) (PDict d) = true).

Lemma field_text k p : dict_get ps k = Some (PDict (("type", PStr "string") :: p)) -> optional d k is_text = true.
Proof using Hv. intros Hp. eapply (proj2 (valid_object d ps names Hv)); [exact Hp|]. by intros []. Qed.
Lemma field_whole k p : dict_get ps k = Some (PDict (("type", PStr "integer") :: p)) -> optional d k is_whole = true.
Proof using Hv. intros Hp. eapply (proj2 (valid_object d ps names Hv)); [exact Hp|]. intros v. cbn. by intros [? _]%andb_true_iff. Qed.
Lemma field_enum k ss p : k ∈ names -> dict_get ps k = Some (PDict (("type", PStr "string") :: ("enum", PList (map PStr ss)) :: p)) ->
  exists t, dict_get d k = Some (PStr t) /\ t ∈ ss.
Proof using Hv.
  intros Hk Hp. destruct (valid_object d ps names Hv) as [Hr Hf]. destruct (Hr k Hk) as [v Ev].
  pose proof (Hf k _ (fun v => is_text v && bool_decide (v ∈ map PStr ss)) Hp) as Hval. unfold optional in Hval. rewrite Ev in *.
  apply andb_true_iff in Hval as [Ht Hin]; [|by intros w; cbn; intros [? [? _]%andb_true_iff]%andb_true_iff; apply andb_true_iff].
  destruct (enum_read ss v Ht Hin) as (t & -> & ?). eauto.
Qed.
Lemma field_number k a b p : k ∈ names ->
  dict_get ps k = Some (PDict (("type", PStr "number") :: ("minimum", PFloat a) :: ("maximum", PFloat b) :: p)) ->
  exists q, dict_get d k ≫= num = Some q /\ (a <= q <= b)%Q.
Proof using Hv.
  intros Hk Hp. destruct (valid_object d ps names Hv) as [Hr Hf]. destruct (Hr k Hk) as [v Ev]. rewrite Ev. cbn [mbind option_bind].
  pose proof (Hf k _ (fun v => match num v with Some q => Qle_bool a q && Qle_bool q b | None => false end) Hp) as Hval. unfold optional in Hval. rewrite Ev in Hval.
  destruct (num v) as [q|]; [exists q; rewrite <- !Qle_bool_iff; split; [done|]; apply andb_true_iff; apply Hval|exfalso; discriminate Hval];
    intros w; cbn; unfold bounded; cbn [num]; destruct (num w); [|by intros [? _]%andb_true_iff| |by intros [? _]%andb_true_iff];
    by intros [_ [? [? _]%andb_true_iff]%andb_true_iff]%andb_true_iff; apply andb_true_iff.
Qed.
Lemma schema_texts k p : dict_get ps k = Some (PDict (("type", PStr "array") :: ("items", PDict [("type", PStr "string")]) :: p)) ->
  optional d k (fun v => match v with PList l => forallb is_text l | _ => false end) = true.
Proof using Hv.
  intros Hp. eapply (proj2 (valid_object d ps names Hv)); [exact Hp|]. intros [| | | | |l|]; try done. cbn. intros [Hl _]%andb_true_iff.
  apply forallb_forall. rewrite forallb_forall in Hl. intros v Hin. specialize (Hl v Hin). by destruct v.
Qed.
End Object.

(** ** Stage 1 *)
Definition POLICY_REQUIRED : list string :=
  ["action"; "src_ip"; "confidence"; "notification_title"; "notification_body"; "notification_severity"].
(** The intent that the answer's fields make. *)
Definition intent_of (d : obj) (action : PolicyAction) (confidence : Q) (severity : NotificationSeverity) : PolicyIntent :=
  let src := text_in d "src_ip" "" in let dst := text_in d "dst_ip" "" in
  let port := whole_in d "dst_port" 0 in let proto := text_in d "protocol" "tcp" in
  mkIntent (deterministic_rule_id src dst port proto) action src dst port proto (whole_in d "priority" 50) (whole_in d "ttl_seconds" 3600)
    (text_in d "comment" "") confidence []
    (mkNotification (py_take 120 (text_in d "notification_title" "")) (py_take 400 (text_in d "notification_body" "")) severity).

(** C11: an answer that POLICY_DECISION_SCHEMA allows, whether from the
    tool loop or from a call of [chat_json], is never refused and never raises: the node's
    intent has the answered action, source, confidence (between 0 and 1) and severity, the
    other fields as answered or with their defaults, the notification's texts cut to 120
    and 400 characters, and the rule id of its flow. *)
Theorem decision_accepted `{External} react chat s d : stage1_answer react chat = Some (PDict d) ->
  valid POLICY_DECISION_SCHEMA (PDict d) = true ->
  exists action confidence severity,
    dict_get d "action" = Some (PStr (action_value action)) /\ action ∈ [DROP; LOG_ONLY] /\
    dict_get d "confidence" ≫= num = Some confidence /\ (0 <= confidence <= 1)%Q /\
    dict_get d "notification_severity" = Some (PStr (notification_value severity)) /\
    node_decide_policy react chat s = Ok (set_intent (Some (intent_of d action confidence severity)) s).
Proof.
  intros Ha Hv. change POLICY_DECISION_SCHEMA with (object_schema (properties POLICY_DECISION_SCHEMA) POLICY_REQUIRED) in Hv.
  assert (Ht : forall k, k ∈ ["src_ip"; "dst_ip"; "protocol"; "comment"; "notification_title"; "notification_body"] -> optional d k is_text = true).
  { intros k Hk. repeat (apply elem_of_cons in Hk as [->|Hk]); [..|by apply elem_of_nil in Hk]; (eapply field_text; [exact Hv|reflexivity]). }
  assert (Hw : forall k, k ∈ ["dst_port"; "priority"; "ttl_seconds"] -> optional d k is_whole = true).
  { intros k Hk. repeat (apply elem_of_cons in Hk as [->|Hk]); [..|by apply elem_of_nil in Hk]; (eapply field_whole; [exact Hv|reflexivity]). }
  destruct (field_enum _ _ _ Hv "action" ["DROP"; "log_only"] _ ltac:(repeat constructor) eq_refl) as (t & Et & Hact).
  destruct (field_enum _ _ _ Hv "notification_severity" ["info"; "warn"; "alert"; "critical"] _ ltac:(repeat constructor) eq_refl) as (sev & Es & Hsev).
  destruct (field_number _ _ _ Hv "confidence" 0 1 _ ltac:(repeat constructor) eq_refl) as (conf & Ec & Hconf).
  assert (Ha' : exists action, action ∈ [DROP; LOG_ONLY] /\ t = action_value action).
  { repeat (apply elem_of_cons in Hact as [->|Hact]); [exists DROP|exists LOG_ONLY|by apply elem_of_nil in Hact]; (split; [repeat constructor|done]). }
  assert (Hs' : exists severity, sev = notification_value severity).
  { repeat (apply elem_of_cons in Hsev as [->|Hsev]); [by exists INFO|by exists WARN|by exists ALERT|by exists Models.CRITICAL|by apply elem_of_nil in Hsev]. }
  destruct Ha' as (action & Hin & ->), Hs' as (severity & ->). exists action, conf, severity. split_and!; try done; [apply Hconf..|].
  assert (Ja : parse_action (jget_or d "action" (PStr "log_only")) = Ok action) by (unfold jget_or; rewrite Et; by destruct action).
  assert (Js : notification_severity (jget d "notification_severity") = severity) by (unfold jget; rewrite Es; by destruct severity).
  assert (Jc : float_of (jget_or d "confidence" (PFloat 0)) = Ok conf).
  { unfold jget_or. destruct (dict_get d "confidence") as [[]|]; cbn in Ec |- *; congruence. }
  unfold node_decide_policy. rewrite Ha, Ja. cbn [rbind]. rewrite !short_read by (apply Ht; repeat constructor). cbn [rbind].
  rewrite Js. unfold build_intent. rewrite (text_read d "dst_ip"), (text_read d "protocol"), (text_read d "comment") by (apply Ht; repeat constructor).
  rewrite !whole_read by (apply Hw; repeat constructor). cbn [rbind].
  assert (Jp : pyd_str (jget_or d "src_ip" (PStr (al_src_ip (st_alert s)))) = Ok (text_in d "src_ip" "")).
  { destruct (proj1 (valid_object _ _ _ Hv) "src_ip" ltac:(repeat constructor)) as [v Ev]. specialize (Ht "src_ip" ltac:(repeat constructor)).
    unfold optional, jget_or, text_in in *. rewrite Ev in *. by destruct v. }
  rewrite Jp, Jc. cbn [rbind]. unfold make_intent. cbn [pi_confidence].
  destruct Hconf as [->%Qle_bool_iff ->%Qle_bool_iff]. reflexivity.
Qed.

(** ** Stage 2 *)
(** The words a plan is read by. *)
Definition plan_word (t : string) : string :=
  if str_contains "DROP" (py_upper t) then "DROP" else if str_contains "ESCALATE" (py_upper t) then "ESCALATE_HUMAN" else "log_only".
Definition rollback_of (d : obj) : pyval :=
  match dict_get d "rollback_plan" with Some (PStr t) => mk_rollback t t 300 | _ => mk_rollback "" "" 300 end.

Lemma texts_read d k : optional d k (fun v => match v with PList l => forallb is_text l | _ => false end) = true ->
  por (jget d k) (PList []) = PList (map PStr (texts_in d k)) /\ por (jget_or d k (PList [])) (PList []) = PList (map PStr (texts_in d k)).
Proof.
  unfold optional, jget, jget_or, texts_in. destruct (dict_get d k) as [[]|]; try done. intros Hl.
  assert (Hm : map PStr (omap (fun v => match v with PStr t => Some t | _ => None end) l) = l).
  { induction l as [|v l IH]; [done|]. cbn [forallb] in Hl. apply andb_true_iff in Hl as [Hv Hl]. destruct v; try done. cbn. f_equal. by apply IH. }
  cbn [default from_option id]. rewrite Hm. by destruct l.
Qed.

(** An answer that REASONING_TRACE_SCHEMA allows always completes the reasoning: every field
    reaches the intent as it was answered, each plan with the action its text names. *)
Theorem reasoning_accepted `{External} chat i d : first_answer 2 chat 0 = Some (PDict d) -> valid REASONING_TRACE_SCHEMA (PDict d) = true ->
  node_collect_reasoning chat (Some i) = Some
      [("reasoning_steps", PList (map PStr (texts_in d "reasoning_steps")));
       ("hypotheses", PList (read_items read_hypothesis (map PStr (texts_in d "hypotheses"))));
       ("primary_hypothesis", PStr (text_in d "primary_hypothesis" ""));
       ("alternative_actions", PList (map (fun t => mk_alternative t (plan_word t) t) (texts_in d "alternative_actions")));
       ("rollback_plan", rollback_of d); ("follow_up_actions", PList (map PStr (texts_in d "follow_up_actions")));
       ("mitre_technique", PStr (text_in d "mitre_technique" "")); ("mitre_tactic", PStr (text_in d "mitre_tactic" ""))].
Proof.
  intros Ha Hv. change REASONING_TRACE_SCHEMA with (object_schema (properties REASONING_TRACE_SCHEMA) ["primary_hypothesis"; "reasoning_steps"]) in Hv.
  assert (Hl : forall k, k ∈ ["hypotheses"; "reasoning_steps"; "alternative_actions"; "follow_up_actions"] ->
    por (jget d k) (PList []) = PList (map PStr (texts_in d k)) /\ por (jget_or d k (PList [])) (PList []) = PList (map PStr (texts_in d k))).
  { intros k Hk. apply texts_read. repeat (apply elem_of_cons in Hk as [->|Hk]); [..|by apply elem_of_nil in Hk]; (eapply schema_texts; [exact Hv|reflexivity]). }
  assert (Ht : forall k, k ∈ ["primary_hypothesis"; "mitre_technique"; "mitre_tactic"] -> jget_or d k (PStr "") = PStr (text_in d k "")).
  { intros k Hk. assert (Hx : optional d k is_text = true).
    { repeat (apply elem_of_cons in Hk as [->|Hk]); [..|by apply elem_of_nil in Hk]; (eapply field_text; [exact Hv|reflexivity]). }
    revert Hx. unfold optional, jget_or, text_in. by destruct (dict_get d k) as [[]|]. }
  assert (Hb : read_rollback (jget d "rollback_plan") = Ok (rollback_of d)).
  { assert (Hx : optional d "rollback_plan" is_text = true) by (eapply field_text; [exact Hv|reflexivity]).
    revert Hx. unfold optional, jget, rollback_of. by destruct (dict_get d "rollback_plan") as [[]|]. }
  unfold node_collect_reasoning. rewrite Ha. unfold read_reasoning, read_parts.
  rewrite (proj1 (Hl "hypotheses" ltac:(repeat constructor))), (proj1 (Hl "alternative_actions" ltac:(repeat constructor))).
  cbn [py_iter rbind]. rewrite Hb. cbn [rbind].
  rewrite (proj2 (Hl "reasoning_steps" ltac:(repeat constructor))), (proj2 (Hl "follow_up_actions" ltac:(repeat constructor))).
  rewrite !Ht by (repeat constructor). repeat f_equal. generalize (texts_in d "alternative_actions"). clear.
  induction l as [|t l IH]; [done|]. unfold read_items in *. cbn [map omap list_omap read_alternative]. by f_equal.
Qed.

(** ** The tools *)
(** The name and the parameters of a definition. *)
Definition tool_of (v : pyval) : string * pyval :=
  match v with
  | PDict t => match jget t "function" with PDict f => (match jget f "name" with PStr n => n | _ => "" end, jget f "parameters") | _ => ("", PNone) end
  | _ => ("", PNone)
  end.
(** Arguments under the declared names only: the schemas allow others. *)
Definition declared (parameters : pyval) (args : obj) : Prop := forall k, k ∈ args.*1 -> k ∈ (properties parameters).*1.

Section Tools.
Context `{UnicodeData} `{RedisServer} `{PyRepr} (upper : string -> string) (exn_name exn_str : exn -> string).
Context (server : nat -> string -> obj -> kg_answer) (clock : nat -> Z) (store : nat -> option redis).
Local Abbreviation handler := (tool_handlers upper exn_name exn_str server clock store).

Lemma bind_declared required optional args : (forall k, k ∈ required -> exists v, dict_get args k = Some v) ->
  (forall k, k ∈ args.*1 -> k ∈ required ++ optional) -> bind_args required optional (PDict args) = Ok args.
Proof.
  intros Hr Ho. unfold bind_args. rewrite (proj2 (forallb_forall _ required)).
  2:{ intros k Hk%list_elem_of_In. unfold dict_mem. by destruct (Hr k Hk) as [v ->]. }
  rewrite (proj2 (forallb_forall _ args)); [done|]. intros kv Hk%list_elem_of_In. apply bool_decide_eq_true, Ho. by apply (list_elem_of_fmap_2 fst).
Qed.

(** [query_kg] returns a text whatever the server answers. *)
Lemma kg_accepted n args : valid (object_schema [("cypher", PDict [("type", PStr "string"); ("description", PStr "Read-only Cypher query against the schema above.")])] ["cypher"]) (PDict args) = true ->
  (forall k, k ∈ args.*1 -> k ∈ ["cypher"]) -> exists text, kg_handler upper exn_name exn_str server n (PDict args) = Ok (PStr text).
Proof.
  intros Hv Hd. pose proof (field_text _ _ _ Hv "cypher" _ eq_refl) as Hc. apply valid_object in Hv as [Hr _].
  unfold kg_handler. rewrite (bind_declared ["cypher"] [] args Hr Hd). cbn [rbind].
  destruct (Hr "cypher" ltac:(repeat constructor)) as [v Ev]. unfold optional in Hc. unfold jget. rewrite Ev in *. destruct v as [| | | |q| |]; try discriminate Hc.
  cbn [default from_option id]. unfold execute_query_kg.
  destruct (search KG_WRITE_KEYWORD None (points q)); cbn [snd rbind]; [by eexists|]. destruct (server n q KG_PARAMETERS) as [e|rows fail]; cbn [snd rbind]; [by eexists|].
  destruct (collect KG_RESULT_LIMIT rows fail) as [[kept truncated]|e]; by eexists.
Qed.
Lemma history_accepted n args : valid (object_schema [("src_ip", PDict [("type", PStr "string")]);
    ("limit", PDict [("type", PStr "integer"); ("default", PInt 10)])] ["src_ip"]) (PDict args) = true ->
  (forall k, k ∈ args.*1 -> k ∈ ["src_ip"; "limit"]) -> (forall q, dict_get args "limit" <> Some (PFloat q)) ->
  exists text, history_handler clock store n (PDict args) = Ok (PStr text).
Proof.
  intros Hv Hd Hq. pose proof (field_whole _ _ _ Hv "limit" _ eq_refl) as Hl. apply valid_object in Hv as [Hr _].
  unfold history_handler. rewrite (bind_declared ["src_ip"] ["limit"] args Hr Hd). cbn [rbind]. destruct (store n) as [s|]; [|by eexists].
  unfold execute_get_alert_history. unfold optional in Hl. unfold jget_or.
  destruct (dict_get args "limit") as [[| |z|q| | |]|]; try discriminate Hl; [|by destruct (Hq q)|]; cbn [default from_option id range_end rbind]; by eexists.
Qed.

(** Every tool that is offered has a handler, and the handler returns a text for all
    arguments that the tool's parameters allow, under their names; a limit that is written
    with a fraction part is an integer for JSON Schema and none for Redis. *)
Theorem tools_accepted n t : t ∈ TOOL_DEFINITIONS -> exists h, handler (tool_of t).1 = Some h /\
  forall args, valid (tool_of t).2 (PDict args) = true -> declared (tool_of t).2 args -> (forall q, dict_get args "limit" <> Some (PFloat q)) ->
  exists text, h n (PDict args) = Ok (PStr text).
Proof.
  intros Ht. apply elem_of_cons in Ht as [->|Ht]; [|apply list_elem_of_singleton in Ht as ->]; (eexists; split; [reflexivity|]); intros args Hv Hd Hq.
  - by apply kg_accepted.
  - by apply history_accepted.
Qed.
End Tools.

(** ** A concrete answer *)
#[local] Existing Instance external0.
Definition sample_answer : obj := [("action", PStr "DROP"); ("src_ip", PStr "10.1.100.10/32"); ("dst_port", PInt 8080); ("confidence", PFloat (92 # 100));
  ("priority", PFloat 50); ("notification_title", PStr "DROP pushed"); ("notification_body", PStr "Blocked."); ("notification_severity", PStr "alert")].
Lemma decision_accepted_witness (s := state0 (mkAlert "" "10.1.100.10" "10.2.100.10" 1 2 "tcp" [] [])) : exists action confidence severity,
  dict_get sample_answer "action" = Some (PStr (action_value action)) /\ action ∈ [DROP; LOG_ONLY] /\
  dict_get sample_answer "confidence" ≫= num = Some confidence /\ (0 <= confidence <= 1)%Q /\
  dict_get sample_answer "notification_severity" = Some (PStr (notification_value severity)) /\
  node_decide_policy (Some (Ok (PDict sample_answer))) (fun _ => Raise (OtherError "Timeout")) s =
    Ok (set_intent (Some (intent_of sample_answer action confidence severity)) s).
Proof. apply decision_accepted; vm_compute; reflexivity. Defined.
(** What the required keys and the types are for: an answer without the source is about
    the alert's, a title that is a number ends the run. *)
Example title_raises chat s : node_decide_policy (Some (Ok (PDict [("notification_title", PInt 1)]))) chat s =
  Raise (TypeError "object is not subscriptable").
Proof. reflexivity. Qed.
Example limit_raises `{UnicodeData} `{RedisServer} `{PyRepr} clock s :
  valid (tool_of (nth 1 TOOL_DEFINITIONS PNone)).2 (PDict [("src_ip", PStr "10.1.100.10"); ("limit", PFloat 5)]) = true /\
  history_handler clock (fun _ => Some s) 0 (PDict [("src_ip", PStr "10.1.100.10"); ("limit", PFloat 5)]) = Raise (OtherError "ResponseError").
Proof. by split. Qed.
