(* ===== verification/KnowledgeView.v ===== *)
(** * The knowledge graph as a picture (core/kg_visualizer.py, the reads of storage/neo4j_kg.py,
      the /kg routes of api/routes.py)

    The graph that is shown is drawn from the modules, or from what the graph server holds;
    networkx is the class [Networkx], whose nodes and edges the routes turn into the
    elements of Cytoscape.  [kg_json_exact]: what is shown is the modules' knowledge, every
    entity and every relation once.  The HTML page and the GraphML text are made by pyvis
    and networkx and are not modelled. *)
From S2P Require Import Prelude PyVal PyText Sha256 Utf8 Json JsonLoads Models Topology Policy Knowledge KnowledgeGraph KnowledgeReload Boot Renderers.
Local Open Scope string_scope.
Local Open Scope Z_scope.
Local Open Scope list_scope.

(** ** networkx *)
(** A [MultiDiGraph]: its nodes with their attributes, its edges with the key that tells
    parallel ones apart. *)
Class Networkx := {
  nx : Type;
  nx_empty : nx;
  add_node : nx -> pyval -> obj -> res nx;
  add_edge : nx -> pyval -> pyval -> obj -> res nx;
  nx_nodes : nx -> list (pyval * obj);
  nx_edges : nx -> list (pyval * pyval * Z * obj) }.
(** The attributes of a node are updated when it is there. *)
Definition put_node (ns : list (pyval * obj)) (n : pyval) (attrs : obj) : list (pyval * obj) :=
  match dict_get ns n with
  | Some old => dict_set ns n (foldl (fun d kv => dict_set d kv.1 kv.2) old attrs)
  | None => ns ++ [(n, attrs)]
  end.
(** What the documentation says of nodes that are texts; None cannot be a node. *)
Class NetworkxLaws `{Networkx} := {
  empty_graph : nx_nodes nx_empty = [] /\ nx_edges nx_empty = [];
  add_node_text g s attrs : exists g', add_node g (PStr s) attrs = Ok g' /\
    nx_nodes g' = put_node (nx_nodes g) (PStr s) attrs /\ nx_edges g' = nx_edges g;
  add_node_none g attrs : exists m, add_node g PNone attrs = Raise (ValueError m);
  add_edge_texts g s t attrs : exists g' k, add_edge g (PStr s) (PStr t) attrs = Ok g' /\
    nx_nodes g' = put_node (put_node (nx_nodes g) (PStr s) []) (PStr t) [] /\
    nx_edges g' ≡ₚ (PStr s, PStr t, k, attrs) :: nx_edges g /\ (forall a, (PStr s, PStr t, k, a) ∉ nx_edges g) }.

Inductive op := AddNode (n : pyval) (attrs : obj) | AddEdge (u v : pyval) (attrs : obj).
Definition do_op `{Networkx} (o : op) (g : nx) : res nx :=
  match o with AddNode n attrs => add_node g n attrs | AddEdge u v attrs => add_edge g u v attrs end.
Fixpoint run_ops `{Networkx} (ops : list op) (g : nx) : res nx :=
  match ops with [] => Ok g | o :: ops => let* g := do_op o g in run_ops ops g end.

(** ** [build_knowledge_graph] *)
Section Build.
Context `{PyRepr}.
(** [s.replace("-", newline)] *)
Definition broken (s : string) : string := py_join newline (split_on "-"%char s).
Definition attributes (type label title shape : string) : obj :=
  [("type", PStr type); ("label", PStr label); ("title", PStr title); ("shape", PStr shape)].
Definition coloured (label color : string) : obj := [("label", PStr label); ("color", PStr color)].

Definition link : Type := pyval * pyval * obj.
(** A node is added before the edges of its turn of the loop. *)
Definition draw (n : pyval * obj) (ls : list link) : list op := AddNode n.1 n.2 :: map (fun l => AddEdge l.1.1 l.1.2 l.2) ls.

Definition zone_title (z : Zone) : string :=
  text ["Zone "; zn_name z; newline; "CIDR: "; zn_cidr z; newline; "VLAN: "; str_of_Z (zn_vlan z); newline; "SVI: "; zn_svi_gateway z; newline;
    "Trust: "; trust_value (zn_trust_level z); newline; "Criticality: "; criticality_value (zn_criticality z); newline; "Purpose: "; zn_purpose z].
Definition zone_node (nz : string * Zone) : pyval * obj :=
  (PStr nz.1, attributes "zone" (text [nz.1; newline; zn_cidr nz.2]) (zone_title nz.2) "box").
Definition leaf_node (nl : string * Leaf) : pyval * obj :=
  let l := nl.2 in
  (PStr nl.1, attributes "leaf" nl.1
    (text ["LEAF "; nl.1; newline; "Mgmt: "; lf_mgmt_ip l; newline; "Zones: "; py_str (strs (lf_zones l)); newline; lf_role l]) "diamond").
Definition leaf_links (nl : string * Leaf) : list link := map (fun z => (PStr nl.1, PStr z, coloured "enforces" "#f39c12")) (lf_zones nl.2).
Definition asset_title (ip : string) (a : Asset) : string :=
  text ["Host: "; as_hostname a; newline; "IP: "; ip; newline; "Tier: "; as_tier a; newline; "Criticality: "; criticality_value (as_criticality a); newline;
    "Data: "; data_value (as_data_classification a); newline; "Role: "; as_role a; newline; "Owner: "; as_owner_team a; newline;
    "If blocked: "; as_if_blocked_impact a].
Definition asset_node (ia : string * Asset) : pyval * obj :=
  (PStr ia.1, attributes "asset" (text [as_hostname ia.2; newline; ia.1]) (asset_title ia.1 ia.2) "ellipse").
Definition asset_links (ia : string * Asset) : list link := [(PStr ia.1, PStr (as_zone ia.2), coloured "member_of" "#2ecc71")].
Definition policy_link (e : (pyval * pyval) * pyval) : link :=
  (e.1.1, e.1.2, if bool_decide (e.2 = PStr "ALLOW") then coloured "ALLOW" "#27ae60" ++ [("dashes", PBool false)]
                 else coloured "DENY" "#c0392b" ++ [("dashes", PBool true)]).
Definition sid_id (sid : pyval) : string := text ["SID-"; py_str sid].
Definition sid_node (sd : pyval * SidDetection) : pyval * obj :=
  let d := sd.2 in
  (PStr (sid_id sd.1), attributes "sid" (text ["SID "; py_str sd.1; newline; "P"; str_of_Z (sd_p_level d)])
    (text ["SID "; py_str sd.1; " (P"; str_of_Z (sd_p_level d); ")"; newline; "Signature: "; dt_signature_msg d; newline; "Tactic: "; dt_mitre_tactic d; newline;
      "Technique: "; dt_mitre_technique d; newline; "Detection: "; dt_detection_logic d; newline; "Response: "; sd_recommended d; newline;
      "FP likelihood: "; dt_false_positive_likelihood d]) "triangle").
Definition chain_node (c : KillChain) : pyval * obj :=
  (PStr (ch_name c), attributes "kill_chain" (broken (ch_name c))
    (text ["Kill chain: "; ch_name c; newline; newline; ch_production_description c; newline; newline; "Dwell: "; ch_typical_dwell c; newline;
      "Intervention: "; ch_intervention_point c; newline; "Containment: "; ch_containment_strategy c]) "star").
Definition stage_links (chain : string) (st : KillChainStage) : list link :=
  map (fun sid => (PStr (sid_id (PInt sid)), PStr chain, coloured (text ["stage"; str_of_Z (ks_stage st)]) "#9b59b6")) (ks_signals st).
Definition chain_links (c : KillChain) : list link := flat_map (stage_links (ch_name c)) (ch_stages c).
Definition flow_id (name : string) : string := text ["flow:"; name].
Definition flow_node (b : TrafficPattern) : pyval * obj :=
  (PStr (flow_id (tp_name b)), attributes "baseline" (broken (tp_name b))
    (text ["Baseline flow: "; tp_name b; newline; newline; pt_production_description b; newline; newline; "Cadence: "; pt_cadence b; newline;
      "Volume: ~"; str_of_Z (pt_expected_volume_per_hour b); "/hr"; newline; "Criticality: "; flow_value (pt_criticality_to_business b); newline;
      "If disrupted: "; pt_if_disrupted b]) "hexagon").
Definition flow_links (assets : list (string * Asset)) (b : TrafficPattern) : list link :=
  (if dict_mem assets (tp_src_ip b) then [(PStr (tp_src_ip b), PStr (flow_id (tp_name b)), coloured "originates" "#1abc9c")] else [])
  ++ (if dict_mem assets (tp_dst_ip b) then
        [(PStr (flow_id (tp_name b)), PStr (tp_dst_ip b), coloured (text [":"; str_of_Z (tp_dst_port b)]) "#1abc9c")] else []).
Definition build_ops (m : modules) : list op :=
  flat_map (fun z => draw (zone_node z) []) (md_zones m)
  ++ flat_map (fun l => draw (leaf_node l) (leaf_links l)) (md_leafs m)
  ++ flat_map (fun a => draw (asset_node a) (asset_links a)) (md_assets m)
  ++ map (fun e => let l := policy_link e in AddEdge l.1.1 l.1.2 l.2) (md_policy_matrix m)
  ++ flat_map (fun d => draw (sid_node d) []) (md_sids m)
  ++ flat_map (fun c => draw (chain_node c) (chain_links c)) (md_kill_chains m)
  ++ flat_map (fun b => draw (flow_node b) (flow_links (md_assets m) b)) (b_patterns (md_baselines m)).
Definition build_knowledge_graph `{Networkx} (m : modules) : res nx := run_ops (build_ops m) nx_empty.
End Build.

(** ** The reads of the graph server *)
(** The queries of [stats] and [all_nodes_edges]. *)
Class Neo4jDump `{Neo4j} := {
  g_all_nodes : graph -> res (list node);           (* MATCH (n) WHERE n.kg_managed = true RETURN id(n), labels(n), properties(n) *)
  g_all_edges : graph -> res (list edge);           (* MATCH (s)-[r]->(d) WHERE r.kg_managed = true RETURN id(s), id(d), type(r), properties(r) *)
  g_count_nodes : graph -> res Z;
  g_count_edges : graph -> res Z;
  g_by_label : graph -> res (list (string * Z)) }.   (* UNWIND labels(n) AS L RETURN L, count( * ) ORDER BY c DESC *)
Definition managed_nodes (g : graph_data) : list node := List.filter (fun n => managed (n_props n)) (nodes g).
Definition managed_edges (g : graph_data) : list edge := List.filter (fun e => managed (e_props e)) (edges g).
Definition label_count (l : string) (g : graph_data) : Z := Z.of_nat (length (List.filter (labelled l) (managed_nodes g))).
Class Neo4jDumpLaws `{Neo4jDump} := {
  all_nodes_answer g rows : g_all_nodes g = Ok rows -> rows ≡ₚ managed_nodes (contents g);
  all_edges_answer g rows : g_all_edges g = Ok rows -> rows ≡ₚ managed_edges (contents g);
  count_nodes_answer g c : g_count_nodes g = Ok c -> c = Z.of_nat (length (managed_nodes (contents g)));
  count_edges_answer g c : g_count_edges g = Ok c -> c = Z.of_nat (length (managed_edges (contents g)));
  by_label_answer g rows : g_by_label g = Ok rows -> NoDup rows.*1 /\
    (forall l c, (l, c) ∈ rows <-> c = label_count l (contents g) /\ 0 < c) /\ StronglySorted (fun a b => b.2 <= a.2) rows }.

Definition unmarked (props : obj) : obj := dict_del props "kg_managed".
Record dump := Dump { d_nodes : list node; d_edges : list edge }.
Section Reads.
Context `{Neo4jDump}.
Definition stats (g : graph) : res (Z * Z * list (string * Z)) :=
  let* n := g_count_nodes g in
  let* e := g_count_edges g in
  let* rows := g_by_label g in
  Ok (n, e, foldl (fun d r => dict_set d (py_lower r.1) r.2) [] rows).
Definition all_nodes_edges (g : graph) : res dump :=
  let* ns := g_all_nodes g in
  let* es := g_all_edges g in
  Ok (Dump (map (fun n => Node (n_id n) (n_labels n) (unmarked (n_props n))) ns)
           (map (fun e => Edge (e_src e) (e_dst e) (e_type e) (unmarked (e_props e))) es)).
End Reads.

(** ** [graph_from_neo4j_dump] *)
Section FromDump.
Context `{PyRepr}.
Definition LABEL_TO_TYPE : list (string * string) :=
  [("Zone", "zone"); ("Asset", "asset"); ("Leaf", "leaf"); ("Sid", "sid"); ("KillChain", "kill_chain"); ("Baseline", "baseline")].
Definition SHAPES : list (string * string) :=
  [("zone", "box"); ("leaf", "diamond"); ("asset", "ellipse"); ("sid", "triangle"); ("kill_chain", "star"); ("baseline", "hexagon")].
Definition node_type (n : node) : string := match n_labels n with [] => "unknown" | l :: _ => default (py_lower l) (dict_get LABEL_TO_TYPE l) end.
Definition nid (n : node) : pyval :=
  let p := n_props n in
  if bool_decide (node_type n = "asset") then jget p "ip"
  else if bool_decide (node_type n = "sid") then PStr (sid_id (jget p "sid"))
  else if bool_decide (node_type n = "baseline") then PStr (flow_id (py_str (jget p "name")))
  else por (por (jget p "name") (jget p "ip")) (PStr (str_of_Z (n_id n))).
Definition node_title (n : node) : string :=
  join_lines (text [node_type n; ": "; py_str (nid n)] ::
    map (fun kv => text [kv.1; ": "; py_str kv.2]) (List.filter (fun kv => negb (bool_decide (kv.1 ∈ ["ip"; "name"; "sid"]))) (n_props n))).
Definition node_label (n : node) : pyval :=
  let p := n_props n in let type := node_type n in let shown k := py_str (jget_or p k (PStr "?")) in
  if bool_decide (type = "sid") then PStr (text ["SID "; py_str (jget p "sid"); newline; "P"; shown "severity_p_level"])
  else if bool_decide (type = "asset") then PStr (text [shown "hostname"; newline; shown "ip"])
  else if bool_decide (type = "zone") then PStr (text [shown "name"; newline; shown "cidr"])
  else por (por (jget p "name") (jget p "hostname")) (PStr (py_str (nid n))).
Definition dump_node (n : node) : op :=
  AddNode (nid n) [("type", PStr (node_type n)); ("label", node_label n); ("title", PStr (node_title n));
    ("shape", PStr (default "ellipse" (dict_get SHAPES (node_type n))))].
Definition id_to_nid (d : dump) : list (Z * pyval) := foldl (fun t n => dict_set t (n_id n) (nid n)) [] (d_nodes d).
Definition edge_attributes (e : edge) : obj :=
  let type := e_type e in
  if bool_decide (type = "ALLOW") then coloured "ALLOW" "#27ae60"
  else if bool_decide (type = "DENY") then coloured "DENY" "#c0392b"
  else if bool_decide (type = "MEMBER_OF") then coloured "member_of" "#2ecc71"
  else if bool_decide (type = "ENFORCES") then coloured "enforces" "#f39c12"
  else if bool_decide (type = "EXPECTED_IN") then coloured (text ["stage"; py_str (jget_or (e_props e) "stage" (PStr ""))]) "#9b59b6"
  else coloured (py_lower type) "#95a5a6".
Definition dump_edge (ids : list (Z * pyval)) (e : edge) : list op :=
  match dict_get ids (e_src e), dict_get ids (e_dst e) with
  | None, _ | _, None | Some PNone, _ | _, Some PNone => []
  | Some u, Some v => [AddEdge u v (edge_attributes e)]
  end.
Definition dump_ops (d : dump) : list op := map dump_node (d_nodes d) ++ flat_map (dump_edge (id_to_nid d)) (d_edges d).
Definition graph_from_neo4j_dump `{Networkx} (d : dump) : res nx := run_ops (dump_ops d) nx_empty.
End FromDump.

(** ** The routes *)
Section Routes.
Context `{PyRepr} `{Networkx} `{Neo4jDump}.

(** What the server holds when it is there and answers, the modules otherwise. *)
Definition shown_graph (kg : option graph) (m : modules) : res nx :=
  match kg with
  | Some g => match (let* d := all_nodes_edges g in graph_from_neo4j_dump d) with Ok G => Ok G | Raise _ => build_knowledge_graph m end
  | None => build_knowledge_graph m
  end.

Definition count_type (counts : list (pyval * Z)) (attrs : obj) : list (pyval * Z) :=
  let t := jget_or attrs "type" (PStr "unknown") in dict_set counts t (default 0 (dict_get counts t) + 1).
Definition graph_stats (G : nx) : Z * Z * list (pyval * Z) :=
  (Z.of_nat (length (nx_nodes G)), Z.of_nat (length (nx_edges G)), foldl (fun c n => count_type c n.2) [] (nx_nodes G)).
Definition knowledge_graph_stats (kg : option graph) (m : modules) : res (Z * Z * list (pyval * Z)) :=
  let fallback := let* G := build_knowledge_graph m in Ok (graph_stats G) in
  match kg with
  | Some g => match stats g with Ok (n, e, counts) => Ok (n, e, map (fun c => (PStr c.1, c.2)) counts) | Raise _ => fallback end
  | None => fallback
  end.

Definition json_node (n : pyval * obj) : pyval :=
  PDict [("data", PDict [("id", PStr (py_str n.1)); ("type", jget_or n.2 "type" (PStr "unknown")); ("label", jget_or n.2 "label" (PStr (py_str n.1)));
    ("title", jget_or n.2 "title" (PStr "")); ("shape", jget_or n.2 "shape" (PStr "ellipse"))])].
Definition edge_kind (label : pyval) : string :=
  if bool_decide (label ∈ [PStr "ALLOW"; PStr "DENY"]) then "policy"
  else if bool_decide (label ∈ [PStr "member_of"; PStr "enforces"]) then "membership"
  else if starts_with "stage" (py_str label) then "stage"
  else if bool_decide (label = PStr "originates") || starts_with ":" (py_str label) then "flow"
  else "other".
Definition eid (e : pyval * pyval * Z * obj) : string := text [py_str e.1.1.1; "->"; py_str e.1.1.2; "#"; str_of_Z e.1.2].
Definition json_edge (id : string) (u v : pyval) (attrs : obj) : pyval :=
  let label := jget_or attrs "label" (PStr "") in
  PDict [("data", PDict [("id", PStr id); ("source", PStr (py_str u)); ("target", PStr (py_str v)); ("label", PStr (py_str label));
    ("kind", PStr (edge_kind label)); ("color", jget_or attrs "color" (PStr "")); ("dashes", PBool (truthy (jget_or attrs "dashes" (PBool false))))])].
Fixpoint json_edges (seen : list string) (es : list (pyval * pyval * Z * obj)) : list pyval :=
  match es with
  | [] => []
  | e :: es =>
      if bool_decide (eid e ∈ seen) then json_edges seen es
      else json_edge (eid e) e.1.1.1 e.1.1.2 e.2 :: json_edges (eid e :: seen) es
  end.
Definition knowledge_graph_json (kg : option graph) (m : modules) : res (list pyval * list pyval) :=
  let* G := shown_graph kg m in
  Ok (map json_node (nx_nodes G), json_edges [] (nx_edges G)).
End Routes.

(** ** What a run of operations draws *)
(** Nodes are new texts and edges lead between nodes that are there. *)
Fixpoint fits (known : list string) (ops : list op) : Prop :=
  match ops with
  | [] => True
  | AddNode (PStr s) _ :: ops => (s ∉ known) /\ fits (known ++ [s]) ops
  | AddEdge (PStr s) (PStr t) _ :: ops => (s ∈ known) /\ (t ∈ known) /\ fits known ops
  | _ => False
  end.
Definition added (ops : list op) : list (pyval * obj) := omap (fun o => match o with AddNode n a => Some (n, a) | AddEdge _ _ _ => None end) ops.
Definition linked (ops : list op) : list link := omap (fun o => match o with AddEdge u v a => Some (u, v, a) | AddNode _ _ => None end) ops.
Definition forget (e : pyval * pyval * Z * obj) : link := (e.1.1.1, e.1.1.2, e.2).
Definition edge_key (e : pyval * pyval * Z * obj) : pyval * pyval * Z := e.1.

Definition names (ns : list (pyval * obj)) : list string := omap (fun n => match n.1 with PStr s => Some s | _ => None end) ns.
Lemma fits_app ops1 : forall known ops2, fits known ops1 -> fits (known ++ names (added ops1)) ops2 -> fits known (ops1 ++ ops2).
Proof.
  induction ops1 as [|[[| | | |s| |] a|[| | | |s| |] [| | | |t| |] a] ops1 IH]; intros known ops2; cbn [fits app]; try done.
  - by rewrite app_nil_r.
  - intros [Hs Hf] H2. split; [done|]. apply IH; [done|]. by rewrite <- app_assoc.
  - intros (Hs & Ht & Hf) H2. split_and!; [done..|]. by apply IH.
Qed.
Lemma names_of {X} (node : X -> pyval * obj) (id : X -> string) xs : (forall x, (node x).1 = PStr (id x)) -> names (map node xs) = map id xs.
Proof. intros Hid. induction xs as [|x xs IH]; [done|]. unfold names in *. cbn [map omap list_omap]. by rewrite Hid, IH. Qed.

Section Drawn.
Context `{NetworkxLaws}.
Lemma put_new ns n a : n ∉ ns.*1 -> put_node ns n a = ns ++ [(n, a)].
Proof. intros Hn. unfold put_node. by rewrite (proj2 (dict_get_None ns n)). Qed.
Lemma put_old ns n : n ∈ ns.*1 -> put_node ns n [] = ns.
Proof.
  unfold put_node. induction ns as [|[k v] ns IH]; [by intros ?%elem_of_nil|]. rewrite fmap_cons. cbn [fst dict_get dict_set]. intros Hn.
  destruct (decide (n = k)) as [->|Hne]; [done|]. apply elem_of_cons in Hn as [?|Hn]; [done|]. specialize (IH Hn).
  destruct (dict_get ns n) eqn:E; [|by apply dict_get_None in E]. cbn [dict_set]. destruct (decide (n = k)); [done|]. by rewrite IH.
Qed.

Lemma run_ops_drawn ops : forall g known, (nx_nodes g).*1 = map PStr known -> fits known ops -> NoDup (map edge_key (nx_edges g)) ->
  exists G, run_ops ops g = Ok G /\ nx_nodes G = nx_nodes g ++ added ops /\ map forget (nx_edges G) ≡ₚ map forget (nx_edges g) ++ linked ops /\
    NoDup (map edge_key (nx_edges G)).
Proof.
  assert (Hin : forall known s, PStr s ∈ map PStr known <-> s ∈ known).
  { intros known s. split; [by intros (t & [= ->] & ?)%list_elem_of_fmap|]. intros Hs. by apply (list_elem_of_fmap_2 PStr). }
  induction ops as [|[[| | | |s| |] a|[| | | |s| |] [| | | |t| |] a] ops IH]; intros g known Hk Hf Hd; cbn [fits] in Hf; try done.
  - exists g. by rewrite !app_nil_r.
  - destruct Hf as [Hs Hf]. destruct (add_node_text g s a) as (g' & Hg & Hn & He). rewrite put_new in Hn by (by rewrite Hk, Hin).
    destruct (IH g' (known ++ [s])) as (G & HG & HN & HE & HD); [by rewrite Hn, fmap_app, Hk, map_app|done|by rewrite He|].
    exists G. cbn [run_ops do_op]. rewrite Hg. cbn [rbind]. split_and!; [done| |by rewrite HE, He|done]. rewrite HN, Hn, <- app_assoc. done.
  - destruct Hf as (Hs & Ht & Hf). destruct (add_edge_texts g s t a) as (g' & k & Hg & Hn & He & Hfresh).
    assert (Hn' : nx_nodes g' = nx_nodes g).
    { rewrite Hn, (put_old (nx_nodes g) (PStr s)) by (by rewrite Hk, Hin). apply put_old. by rewrite Hk, Hin. }
    destruct (IH g' known) as (G & HG & HN & HE & HD); [by rewrite Hn'|done| |].
    { rewrite He. cbn [map edge_key fst]. apply NoDup_cons. split; [|done]. intros (e & Ek & Hin')%list_elem_of_fmap. destruct e as [[[u v] k'] a'].
      unfold edge_key in Ek. cbn in Ek. simplify_eq. by apply (Hfresh a'). }
    exists G. cbn [run_ops do_op]. rewrite Hg. cbn [rbind]. split_and!; [done|by rewrite HN, Hn'| |done]. rewrite HE, He. cbn [map].
    change (linked (AddEdge (PStr s) (PStr t) a :: ops)) with ((PStr s, PStr t, a) :: linked ops). rewrite <- Permutation_middle. done.
Qed.
End Drawn.

(** A loop that adds a node with edges to nodes that are there. *)
Lemma fits_draw {X} (node : X -> pyval * obj) (links : X -> list link) (id : X -> string) xs : forall known,
  (forall x, (node x).1 = PStr (id x)) -> NoDup (map id xs) -> (forall x, x ∈ xs -> id x ∉ known) ->
  (forall x, x ∈ xs -> Forall (fun l : link => exists s t, l.1.1 = PStr s /\ l.1.2 = PStr t /\ s ∈ id x :: known /\ t ∈ id x :: known) (links x)) ->
  fits known (flat_map (fun x => draw (node x) (links x)) xs) /\
  added (flat_map (fun x => draw (node x) (links x)) xs) = map node xs /\
  linked (flat_map (fun x => draw (node x) (links x)) xs) = flat_map links xs.
Proof.
  assert (Hadd : forall ls : list link, added (map (fun l : link => AddEdge l.1.1 l.1.2 l.2) ls) = []) by (induction ls; [done|exact IHls]).
  assert (Hlink : forall ls : list link, linked (map (fun l : link => AddEdge l.1.1 l.1.2 l.2) ls) = ls).
  { induction ls as [|[[u v] a] ls IH]; [done|]. unfold linked in *. cbn. by f_equal. }
  assert (Hedges : forall known ls rest, Forall (fun l : link => exists s t, l.1.1 = PStr s /\ l.1.2 = PStr t /\ s ∈ known /\ t ∈ known) ls ->
    fits known rest -> fits known (map (fun l : link => AddEdge l.1.1 l.1.2 l.2) ls ++ rest)).
  { intros known ls rest Hls Hr. induction Hls as [|[[u v] a] ls (s & t & Hu & Hv & Hs & Ht) _ IH]; [done|]. cbn in Hu, Hv |- *. by subst u v. }
  intros known Hid. revert known. induction xs as [|x xs IH]; intros known Hd Hk Hl; [done|]. cbn [map] in Hd. apply NoDup_cons in Hd as [Hx Hd].
  cbn [flat_map]. destruct (IH (known ++ [id x])) as (IH1 & IH2 & IH3); [done| | |].
  - intros y Hy. rewrite not_elem_of_app, list_elem_of_singleton. split; [apply Hk; by right|]. intros E. apply Hx. rewrite <- E. by apply (list_elem_of_fmap_2 id).
  - intros y Hy. eapply Forall_impl; [apply Hl; by right|]. intros l (s & t & ? & ? & Hs & Ht). exists s, t. rewrite !elem_of_cons, !elem_of_app in *. tauto.
  - unfold draw at 1 3 5. split_and!.
    + cbn [app fits]. rewrite Hid. split; [apply Hk; by left|]. apply Hedges; [|done].
      eapply Forall_impl; [apply Hl; by left|]. intros l (s & t & ? & ? & Hs & Ht). exists s, t. rewrite !elem_of_cons, !elem_of_app, !list_elem_of_singleton in *. tauto.
    + unfold added in *. cbn [app omap list_omap]. rewrite omap_app, Hadd. cbn [app map]. rewrite IH2. by destruct (node x).
    + unfold linked in *. cbn [app omap list_omap]. by rewrite omap_app, Hlink, IH3.
Qed.

(** ** What is shown of the modules *)
Section Shown.
Context `{PyRepr} (m : modules).
Definition entities : list (pyval * obj) :=
  map zone_node (md_zones m) ++ map leaf_node (md_leafs m) ++ map asset_node (md_assets m) ++ map sid_node (md_sids m)
  ++ map chain_node (md_kill_chains m) ++ map flow_node (b_patterns (md_baselines m)).
Definition relations : list link :=
  flat_map leaf_links (md_leafs m) ++ flat_map asset_links (md_assets m) ++ map policy_link (md_policy_matrix m)
  ++ flat_map chain_links (md_kill_chains m) ++ flat_map (flow_links (md_assets m)) (b_patterns (md_baselines m)).
Definition sid_names : list string := map (fun d : pyval * SidDetection => sid_id d.1) (md_sids m).
Definition flow_names : list string := map (fun b : TrafficPattern => flow_id (tp_name b)) (b_patterns (md_baselines m)).
Definition all_names : list string :=
  (md_zones m).*1 ++ (md_leafs m).*1 ++ (md_assets m).*1 ++ sid_names ++ map ch_name (md_kill_chains m) ++ flow_names.
(** No two entities have the same name, and what is referred to exists. *)
Record closed : Prop := {
  cl_names : NoDup all_names;
  cl_leafs : forall l z, l ∈ md_leafs m -> z ∈ lf_zones l.2 -> z ∈ (md_zones m).*1;
  cl_assets : forall a, a ∈ md_assets m -> as_zone a.2 ∈ (md_zones m).*1;
  cl_matrix : forall e, e ∈ md_policy_matrix m -> exists s t, e.1 = (PStr s, PStr t) /\ s ∈ (md_zones m).*1 /\ t ∈ (md_zones m).*1;
  cl_signals : forall (c : KillChain) (st : KillChainStage) sid, c ∈ md_kill_chains m -> st ∈ ch_stages c -> sid ∈ ks_signals st -> PInt sid ∈ (md_sids m).*1 }.

Lemma policy_fits known : closed -> (forall z, z ∈ (md_zones m).*1 -> z ∈ known) ->
  let ops := map (fun e => let l := policy_link e in AddEdge l.1.1 l.1.2 l.2) (md_policy_matrix m) in
  (forall rest, fits known rest -> fits known (ops ++ rest)) /\ added ops = [] /\ linked ops = map policy_link (md_policy_matrix m).
Proof.
  intros Hc Hz. cbn zeta. pose proof (cl_matrix Hc) as Hm. clear Hc. induction (md_policy_matrix m) as [|e es IH]; [done|].
  destruct IH as (IH1 & IH2 & IH3); [by intros x Hx; apply Hm; right|]. destruct (Hm e ltac:(by left)) as (s & t & Ee & Hs & Ht). cbn [map app fits].
  unfold policy_link at 1 2. rewrite Ee. cbn [fst snd]. split_and!; [|exact IH2|].
  { intros rest Hr. split_and!; [by apply Hz|by apply Hz|by apply IH1]. }
  unfold linked in *. cbn [omap list_omap]. rewrite IH3. by destruct (policy_link e) as [[] ?].
Qed.

Lemma chain_ends known c l : closed -> c ∈ md_kill_chains m -> (forall n, n ∈ sid_names -> n ∈ known) -> l ∈ chain_links c ->
  exists s t, l.1.1 = PStr s /\ l.1.2 = PStr t /\ s ∈ ch_name c :: known /\ t ∈ ch_name c :: known.
Proof.
  intros Hc Hin Hk (st & Hst & (sid & <- & Hsid)%in_map_iff)%list_elem_of_In%in_flat_map. apply list_elem_of_In in Hst, Hsid.
  eexists _, _. split_and!; [reflexivity..| |by left]. right. apply Hk.
  destruct (proj1 (list_elem_of_fmap _ _ _) (cl_signals Hc c st sid Hin Hst Hsid)) as (d & Ed & Hd). unfold sid_names. apply list_elem_of_fmap. exists d. by rewrite Ed.
Qed.
Lemma flow_ends known b l : (forall n, n ∈ (md_assets m).*1 -> n ∈ known) -> l ∈ flow_links (md_assets m) b ->
  exists s t, l.1.1 = PStr s /\ l.1.2 = PStr t /\ s ∈ flow_id (tp_name b) :: known /\ t ∈ flow_id (tp_name b) :: known.
Proof.
  intros Hk. assert (Ha : forall ip, dict_mem (md_assets m) ip = true -> ip ∈ known).
  { intros ip Hip. apply Hk. unfold dict_mem in Hip. destruct (dict_get (md_assets m) ip) eqn:E; [|done]. apply dict_get_elem in E.
    by apply (list_elem_of_fmap_2 fst) in E. }
  unfold flow_links. rewrite elem_of_app. intros [Hl|Hl].
  - destruct (dict_mem _ _) eqn:E; [|by apply elem_of_nil in Hl]. apply list_elem_of_singleton in Hl as ->. eexists _, _. split_and!; [reflexivity..|right; by apply Ha|by left].
  - destruct (dict_mem _ (tp_dst_ip b)) eqn:E; [|by apply elem_of_nil in Hl]. apply list_elem_of_singleton in Hl as ->. eexists _, _.
    split_and!; [reflexivity..|by left|right; by apply Ha].
Qed.

(** One loop after the names that are known. *)
Lemma group {X} (node : X -> pyval * obj) (links : X -> list link) (id : X -> string) xs known :
  (forall x, (node x).1 = PStr (id x)) -> NoDup (known ++ map id xs) ->
  (forall x l, x ∈ xs -> l ∈ links x -> exists s t, l.1.1 = PStr s /\ l.1.2 = PStr t /\ s ∈ id x :: known /\ t ∈ id x :: known) ->
  let ops := flat_map (fun x => draw (node x) (links x)) xs in
  (forall rest, fits (known ++ map id xs) rest -> fits known (ops ++ rest)) /\ added ops = map node xs /\ linked ops = flat_map links xs.
Proof.
  intros Hid Hnd Hl. apply NoDup_app in Hnd as (_ & Hdis & Hnd).
  destruct (fits_draw node links id xs known Hid Hnd) as (Hf & Ha & Hk).
  - intros x Hx Hin. apply (Hdis _ Hin). by apply (list_elem_of_fmap_2 id).
  - intros x Hx. apply Forall_forall. intros l. by apply Hl.
  - cbn zeta. split_and!; [|done..]. intros rest Hr. apply fits_app; [done|]. by rewrite Ha, (names_of node id).
Qed.

Lemma build_fits : closed -> fits [] (build_ops m) /\ added (build_ops m) = entities /\ linked (build_ops m) = relations.
Proof.
  intros Hc. pose proof (cl_names Hc) as Hn. unfold all_names in Hn.
  assert (Hpre : forall a b : list string, NoDup (a ++ b) -> NoDup a) by (intros a b Hab; by apply NoDup_app in Hab as [? _]).
  set (Z := (md_zones m).*1) in *. set (L := (md_leafs m).*1) in *. set (A := (md_assets m).*1) in *. set (C := map ch_name (md_kill_chains m)) in *.
  destruct (group zone_node (fun _ => []) fst (md_zones m) []) as (Fz & Az & Lz); [done|by eapply Hpre|by intros ? ? _ ?%elem_of_nil|].
  destruct (group leaf_node leaf_links fst (md_leafs m) Z) as (Fl & Al & Ll); [done|eapply Hpre; by rewrite <- app_assoc| |].
  { intros x l Hx (z & -> & Hz)%list_elem_of_fmap. eexists _, _. split_and!; [reflexivity..|by left|right]. by apply (cl_leafs Hc x). }
  destruct (group asset_node asset_links fst (md_assets m) (Z ++ L)) as (Fa & Aa & La); [done|eapply Hpre; by rewrite <- !app_assoc| |].
  { intros x l Hx ->%list_elem_of_singleton. eexists _, _. split_and!; [reflexivity..|by left|right]. apply elem_of_app. left. by apply (cl_assets Hc). }
  destruct (policy_fits ((Z ++ L) ++ A) Hc) as (Fp & Ap & Lp); [intros z Hz; rewrite !elem_of_app; by do 2 left|].
  destruct (group sid_node (fun _ => []) (fun d : pyval * SidDetection => sid_id d.1) (md_sids m) ((Z ++ L) ++ A)) as (Fs & As & Ls);
    [done|eapply Hpre; by rewrite <- !app_assoc|by intros ? ? _ ?%elem_of_nil|].
  destruct (group chain_node chain_links ch_name (md_kill_chains m) (((Z ++ L) ++ A) ++ sid_names)) as (Fc & Ac & Lc);
    [done|eapply Hpre; by rewrite <- !app_assoc| |].
  { intros c l Hin. apply chain_ends; [done..|]. intros n Hn'. rewrite !elem_of_app. tauto. }
  destruct (group flow_node (flow_links (md_assets m)) (fun b : TrafficPattern => flow_id (tp_name b)) (b_patterns (md_baselines m))
    ((((Z ++ L) ++ A) ++ sid_names) ++ C)) as (Ff & Af & Lf); [done|by rewrite <- !app_assoc| |].
  { intros b l _. apply flow_ends. intros n Hn'. rewrite !elem_of_app. tauto. }
  unfold build_ops. split_and!.
  - apply Fz, Fl, Fa, Fp, Fs, Fc. rewrite <- app_nil_r. by apply Ff.
  - unfold added in *. rewrite !omap_app, Az, Al, Aa, Ap, As, Ac, Af. done.
  - unfold linked in *. rewrite !omap_app, Lz, Ll, La, Lp, Ls, Lc, Lf. unfold relations.
    assert (Hnil : forall {B} (l : list B), flat_map (fun _ => []) l = ([] : list link)) by (intros B l; induction l; done). by rewrite !Hnil.
Qed.
End Shown.

(** ** The elements *)
Definition plain (s : string) : bool := str_forallb (fun c => negb (bool_decide (c = ">"%char)) && negb (bool_decide (c = "#"%char))) s.
Lemma cut_unique c a : forall a' r r', str_forallb (fun d => negb (bool_decide (d = c))) a = true -> str_forallb (fun d => negb (bool_decide (d = c))) a' = true ->
  (a ++ String c r)%string = (a' ++ String c r')%string -> a = a' /\ r = r'.
Proof.
  induction a as [|x a IH]; intros [|y a'] r r'; cbn [str_forallb]; rewrite ?str_app_cons, ?str_app_nil_l.
  - by intros _ _ [= ->].
  - intros _ [Hy _]%andb_true_iff [= <- _]. by rewrite bool_decide_eq_true_2 in Hy.
  - intros [Hx _]%andb_true_iff _ [= -> _]. by rewrite bool_decide_eq_true_2 in Hx.
  - intros [_ Ha]%andb_true_iff [_ Ha']%andb_true_iff [= <- E]. by destruct (IH a' r r' Ha Ha' E) as [-> ->].
Qed.
Lemma plain_cuts s : plain s = true -> str_forallb (fun d => negb (bool_decide (d = ">"%char))) (s ++ "-") = true /\
  str_forallb (fun d => negb (bool_decide (d = "#"%char))) s = true.
Proof.
  intros Hs. rewrite str_forallb_app, andb_true_r. split; revert Hs; apply str_forallb_impl; by intros c [? ?]%andb_true_iff.
Qed.
Lemma str_of_Z_inj a b : str_of_Z a = str_of_Z b -> a = b.
Proof.
  intros E. pose proof (@loads_dumps (fun _ => "") floats0 (PInt a) eq_refl) as Ha. pose proof (@loads_dumps (fun _ => "") floats0 (PInt b) eq_refl) as Hb.
  cbn [json_dumps] in Ha, Hb. congruence.
Qed.
Lemma eid_unique `{PyRepr} s t k a s' t' k' a' : plain s = true -> plain t = true -> plain s' = true -> plain t' = true ->
  eid (PStr s, PStr t, k, a) = eid (PStr s', PStr t', k', a') -> s = s' /\ t = t' /\ k = k'.
Proof.
  intros Hs Ht Hs' Ht' E. unfold eid in E. cbn [fst snd py_str concat_str foldr] in E.
  assert (Hsplit : forall u v k, (u ++ "->" ++ v ++ "#" ++ str_of_Z k ++ "")%string = ((u ++ "-") ++ String ">" (v ++ String "#" (str_of_Z k)))%string).
  { intros u v z. by rewrite str_app_nil_r, str_app_assoc. }
  rewrite !Hsplit in E. apply cut_unique in E as [Eu E]; [|by apply plain_cuts..]. apply cut_unique in E as [Et Ek]; [|by apply plain_cuts..].
  split_and!; [|done|by apply str_of_Z_inj]. change "-" with (String "-" "") in Eu.
  destruct (decide (s = s')) as [|Hne]; [done|]. exfalso. apply Hne. apply (f_equal str_rev) in Eu. rewrite !str_rev_app in Eu.
  change (str_rev (String "-" "")) with (String "-" "") in Eu. rewrite !str_app_cons, !str_app_nil_l in Eu. injection Eu as Eu.
  by rewrite <- (str_rev_involutive s), Eu, str_rev_involutive.
Qed.

(** Every edge is shown when the identifiers of two are never the same. *)
Lemma json_edges_all `{PyRepr} es : forall seen, NoDup (map eid es) -> (forall e, e ∈ es -> eid e ∉ seen) ->
  json_edges seen es = map (fun e => json_edge (eid e) e.1.1.1 e.1.1.2 e.2) es.
Proof.
  induction es as [|e es IH]; intros seen Hd Hs; [done|]. cbn [map] in *. apply NoDup_cons in Hd as [He Hd]. cbn [json_edges].
  rewrite bool_decide_eq_false_2 by (apply Hs; by left). f_equal. apply IH; [done|]. intros e' He'. rewrite elem_of_cons. intros [E|Hin].
  - apply He. rewrite <- E. by apply (list_elem_of_fmap_2 eid).
  - by apply (Hs e'); [right|].
Qed.

Lemma fits_ends ops : forall known e, fits known ops -> e ∈ linked ops ->
  exists s t, e.1.1 = PStr s /\ e.1.2 = PStr t /\ s ∈ known ++ names (added ops) /\ t ∈ known ++ names (added ops).
Proof.
  induction ops as [|[[| | | |s| |] a|[| | | |s| |] [| | | |t| |] a] ops IH]; intros known e Hf He; cbn [fits] in Hf; try done; [by apply elem_of_nil in He|..].
  - destruct Hf as [_ Hf]. destruct (IH _ e Hf He) as (u & v & ? & ? & Hu & Hv). exists u, v. by rewrite <- !app_assoc in Hu, Hv.
  - destruct Hf as (Hs & Ht & Hf). change (linked (AddEdge (PStr s) (PStr t) a :: ops)) with ((PStr s, PStr t, a) :: linked ops) in He.
    apply elem_of_cons in He as [->|He]; [|by apply (IH _ e Hf)]. exists s, t. rewrite !elem_of_app. by auto.
Qed.
Lemma entity_names `{PyRepr} m : names (entities m) = all_names m.
Proof.
  unfold entities. unfold names. rewrite !omap_app. fold (names (map zone_node (md_zones m))).
  unfold all_names. repeat f_equal; apply names_of; done.
Qed.
Lemma relation_ends `{PyRepr} m e : closed m -> e ∈ relations m ->
  exists s t, e.1.1 = PStr s /\ e.1.2 = PStr t /\ s ∈ all_names m /\ t ∈ all_names m.
Proof.
  intros Hc He. destruct (build_fits m Hc) as (Hf & Ha & Hk). rewrite <- Hk in He. destruct (fits_ends _ _ _ Hf He) as (s & t & Es & Et & Hs & Ht).
  rewrite Ha, entity_names in Hs, Ht. by exists s, t.
Qed.

Section Json.
Context `{PyRepr} `{NetworkxLaws} `{Neo4jDump}.
(** The server is not there, or does not answer. *)
Definition offline (kg : option graph) : Prop := match kg with Some g => exists e, all_nodes_edges g = Raise e | None => True end.

Lemma drawn m : closed m -> exists G, build_knowledge_graph m = Ok G /\ nx_nodes G = entities m /\ map forget (nx_edges G) ≡ₚ relations m /\
  NoDup (map edge_key (nx_edges G)).
Proof.
  intros Hc. destruct (build_fits m Hc) as (Hf & Ha & Hl). destruct empty_graph as [En Ee].
  destruct (run_ops_drawn (build_ops m) nx_empty [] ltac:(by rewrite En) Hf ltac:(rewrite Ee; constructor)) as (G & HG & HN & HE & HD).
  exists G. split_and!; [done|by rewrite HN, En, Ha| |done]. by rewrite HE, Ee, Hl.
Qed.

Lemma eids_unique m G : closed m -> forallb plain (all_names m) = true -> map forget (nx_edges G) ≡ₚ relations m ->
  NoDup (map edge_key (nx_edges G)) -> NoDup (map eid (nx_edges G)).
Proof.
  intros Hc Hp HE HD. rewrite forallb_forall in Hp.
  assert (Hends : forall e, e ∈ nx_edges G -> exists s t, e.1.1 = (PStr s, PStr t) /\ plain s = true /\ plain t = true).
  { intros e He. destruct (relation_ends m (forget e) Hc) as (s & t & Es & Et & Hs & Ht); [rewrite <- HE; by apply (list_elem_of_fmap_2 forget)|].
    exists s, t. destruct e as [[[u v] k] a]. cbn in Es, Et |- *. subst u v. by split_and!; [|apply Hp, list_elem_of_In..]. }
  clear HE Hp Hc. induction (nx_edges G) as [|e es IH]; [constructor|]. cbn [map] in *. apply NoDup_cons in HD as [He HD]. apply NoDup_cons.
  split; [|apply IH; [done|intros e' He'; apply Hends; by right]]. intros (e' & E & He')%list_elem_of_fmap. apply He.
  destruct (Hends e ltac:(by left)) as (s & t & Ee & Ps & Pt), (Hends e' ltac:(by right)) as (s' & t' & Ee' & Ps' & Pt').
  destruct e as [[[u v] k] a], e' as [[[u' v'] k'] a']. cbn in Ee, Ee'. simplify_eq. apply eid_unique in E as (-> & -> & ->); [|done..].
  by apply (list_elem_of_fmap_2 edge_key _ _ He').
Qed.

(** Without an answer of the graph server, and when no two entities of the
    modules have the same name, references resolve and no name has a [>] or a [#],
    [GET /kg/json] answers with one element for each zone, leaf, asset, SID, kill chain and
    flow, with its texts, and one element with an identifier of its own for each relation
    (enforcement, membership, policy, stage, traffic); every relation leads from an element
    to an element. *)
Theorem kg_json_exact kg m : closed m -> forallb plain (all_names m) = true -> offline kg ->
  exists ids shown, knowledge_graph_json kg m = Ok (map json_node (entities m), zip_with (fun id e => json_edge id e.1.1 e.1.2 e.2) ids shown) /\
    length ids = length shown /\ NoDup ids /\ shown ≡ₚ relations m /\
    forall e, e ∈ shown -> exists s t, e.1.1 = PStr s /\ e.1.2 = PStr t /\ s ∈ all_names m /\ t ∈ all_names m.
Proof.
  intros Hc Hp Ho. destruct (drawn m Hc) as (G & HG & HN & HE & HD). exists (map eid (nx_edges G)), (map forget (nx_edges G)).
  pose proof (eids_unique m G Hc Hp HE HD) as Hids. split_and!; [|by rewrite !length_map|done|done|].
  - unfold knowledge_graph_json. assert (Hs : shown_graph kg m = Ok G).
    { unfold shown_graph. destruct kg as [g|]; [|done]. destruct Ho as [e ->]. done. }
    rewrite Hs. cbn [rbind]. rewrite HN, json_edges_all by (done || by intros ? _ ?%elem_of_nil). do 2 f_equal.
    clear. induction (nx_edges G) as [|e es IH]; [done|]. cbn [map zip_with]. by rewrite <- IH.
  - intros e He. apply (relation_ends m e Hc). by rewrite <- HE.
Qed.
End Json.

(** *** What is shown of the server's nodes *)
Section FromServer.
Context `{PyRepr} `{NetworkxLaws}.

Lemma dict_set_all {A} (f : A -> Z) (h : A -> pyval) xs : NoDup (map f xs) -> forall d, (forall x, x ∈ xs -> f x ∉ d.*1) ->
  foldl (fun t x => dict_set t (f x) (h x)) d xs = d ++ map (fun x => (f x, h x)) xs.
Proof.
  induction xs as [|x xs IH]; intros Hd d Hx; cbn [foldl map]; [by rewrite app_nil_r|]. cbn [map] in Hd. apply NoDup_cons in Hd as [Hn Hd].
  rewrite dict_set_fresh by (apply Hx; by left). rewrite IH; [by rewrite <- app_assoc|done|].
  intros y Hy. rewrite fmap_app, not_elem_of_app. split; [apply Hx; by right|]. cbn. rewrite list_elem_of_singleton. intros E. apply Hn. rewrite <- E.
  by apply (list_elem_of_fmap_2 f).
Qed.
Definition find_node (ns : list node) (i : Z) : option node := find (fun n => n_id n =? i) ns.
Lemma id_known d i : NoDup (map n_id (d_nodes d)) -> dict_get (id_to_nid d) i = option_map nid (find_node (d_nodes d) i).
Proof.
  intros Hd. unfold id_to_nid. rewrite dict_set_all by (done || by intros ? _ ?%elem_of_nil). cbn [app]. clear. unfold find_node.
  induction (d_nodes d) as [|n ns IH]; [done|]. cbn [map dict_get find]. destruct (decide (i = n_id n)) as [->|Hne]; [by rewrite Z.eqb_refl|].
  by rewrite (proj2 (Z.eqb_neq _ _)) by congruence.
Qed.
Lemma find_node_in ns i n : find_node ns i = Some n -> n ∈ ns.
Proof. intros [Hn _]%find_some. by apply list_elem_of_In. Qed.

Lemma nodes_fit (name : node -> string) ns : forall known, (forall n, n ∈ ns -> nid n = PStr (name n)) -> NoDup (known ++ map name ns) ->
  fits known (map dump_node ns) /\ (added (map dump_node ns)).*1 = map (fun n => PStr (name n)) ns /\ names (added (map dump_node ns)) = map name ns /\
  linked (map dump_node ns) = [].
Proof.
  induction ns as [|n ns IH]; intros known Hn Hd; [done|]. cbn [map] in *. destruct (IH (known ++ [name n])) as (Hf & Ha & Hm & Hl);
    [by intros x Hx; apply Hn; right|by rewrite <- app_assoc|].
  unfold dump_node at 1 3 5 7. rewrite (Hn n ltac:(by left)). cbn [fits]. split_and!; [|done| |by unfold names in *; cbn; f_equal|exact Hl].
  - apply NoDup_app in Hd as (_ & Hd & _). intros Hin. apply (Hd _ Hin). by left.
  - unfold added in *. cbn [omap list_omap]. rewrite fmap_cons. by f_equal.
Qed.
Definition shown_link (d : dump) (name : node -> string) (e : edge) : option link :=
  match find_node (d_nodes d) (e_src e), find_node (d_nodes d) (e_dst e) with
  | Some a, Some b => Some (PStr (name a), PStr (name b), edge_attributes e)
  | _, _ => None
  end.
Lemma edges_fit d (name : node -> string) es : NoDup (map n_id (d_nodes d)) -> (forall n, n ∈ d_nodes d -> nid n = PStr (name n)) ->
  let ops := flat_map (dump_edge (id_to_nid d)) es in
  fits (map name (d_nodes d)) ops /\ added ops = [] /\ linked ops = omap (shown_link d name) es.
Proof.
  intros Hd Hn. cbn zeta. induction es as [|e es (IH1 & IH2 & IH3)]; [done|]. cbn [flat_map omap list_omap].
  unfold dump_edge at 1 3 5, shown_link at 1. rewrite !id_known by done.
  destruct (find_node _ (e_src e)) as [a|] eqn:Ea; cbn [option_map]; [|done]. apply find_node_in in Ea. rewrite (Hn a Ea).
  destruct (find_node _ (e_dst e)) as [b|] eqn:Eb; cbn [option_map]; [|done]. apply find_node_in in Eb. rewrite (Hn b Eb).
  cbn [app fits]. split_and!; [by apply (list_elem_of_fmap_2 name)..|done|done|]. unfold linked in *. cbn [omap list_omap]. by rewrite IH3.
Qed.

(** Every node the server holds is shown, and of the edges those between them, when the
    nodes have names of their own. *)
Theorem dump_drawn (d : dump) (name : node -> string) : NoDup (map n_id (d_nodes d)) -> (forall n, n ∈ d_nodes d -> nid n = PStr (name n)) ->
  NoDup (map name (d_nodes d)) ->
  exists G, graph_from_neo4j_dump d = Ok G /\ (nx_nodes G).*1 = map (fun n => PStr (name n)) (d_nodes d) /\
    map forget (nx_edges G) ≡ₚ omap (shown_link d name) (d_edges d).
Proof.
  intros Hi Hn Hd. destruct (nodes_fit name (d_nodes d) [] Hn Hd) as (F1 & A1 & N1 & L1).
  destruct (edges_fit d name (d_edges d) Hi Hn) as (F2 & A2 & L2). destruct empty_graph as [En Ee].
  assert (Hf : fits [] (dump_ops d)) by (apply fits_app; [done|by rewrite N1]).
  destruct (run_ops_drawn (dump_ops d) nx_empty [] ltac:(by rewrite En) Hf ltac:(rewrite Ee; constructor)) as (G & HG & HN & HE & _).
  exists G. split_and!; [done| |].
  - rewrite HN, En. unfold dump_ops, added in *. by rewrite omap_app, A2, app_nil_r.
  - rewrite HE, Ee. unfold dump_ops, linked in *. by rewrite omap_app, L1, L2.
Qed.
End FromServer.

(** ** Instances *)
(** A graph on lists; the key of an edge is the first after those of the parallel ones. *)
Record drawing := Drawing { dr_nodes : list (pyval * obj); dr_edges : list (pyval * pyval * Z * obj) }.
Definition parallel (u v : pyval) (e : pyval * pyval * Z * obj) : bool := bool_decide (e.1.1 = (u, v)).
Definition next_key (g : drawing) (u v : pyval) : Z := 1 + foldr Z.max (-1) (map (fun e => e.1.2) (List.filter (parallel u v) (dr_edges g))).
Definition hashable (v : pyval) : res unit :=
  match v with
  | PNone => Raise (ValueError "None cannot be a node")
  | _ => let* _ := key_of v in Ok tt
  end.
#[export] Instance networkx0 : Networkx := {|
  nx := drawing; nx_empty := Drawing [] [];
  add_node g n attrs := let* _ := hashable n in Ok (Drawing (put_node (dr_nodes g) n attrs) (dr_edges g));
  add_edge g u v attrs := let* _ := hashable u in let* _ := hashable v in
    Ok (Drawing (put_node (put_node (dr_nodes g) u []) v []) (dr_edges g ++ [(u, v, next_key g u v, attrs)]));
  nx_nodes := dr_nodes; nx_edges := dr_edges |}.
Lemma next_key_fresh g u v a : (u, v, next_key g u v, a) ∉ dr_edges g.
Proof.
  intros Hin. assert (Hmax : forall l x, x ∈ l -> x <= foldr Z.max (-1) l).
  { induction l as [|y l IH]; intros x Hx; [by apply elem_of_nil in Hx|]. cbn. apply elem_of_cons in Hx as [->|Hx]; [lia|]. specialize (IH x Hx). lia. }
  assert (Hk : next_key g u v ∈ map (fun e : pyval * pyval * Z * obj => e.1.2) (List.filter (parallel u v) (dr_edges g))).
  { apply list_elem_of_fmap. exists (u, v, next_key g u v, a). split; [done|]. apply list_elem_of_In, filter_In.
    split; [by apply list_elem_of_In|by apply bool_decide_eq_true]. }
  apply Hmax in Hk. unfold next_key in Hk at 1. lia.
Qed.
#[export] Instance networkx0_laws : NetworkxLaws.
Proof.
  split; [done|by intros; eexists|by intros; eexists|]. intros g s t attrs. eexists _, _. split_and!; [reflexivity..| |].
  - cbn. by rewrite <- Permutation_cons_append.
  - intros a. apply next_key_fresh.
Qed.

Definition all_labels (g : graph_data) : list string := remove_dups (flat_map n_labels (managed_nodes g)).
Definition count_ge (a b : string * Z) : Prop := b.2 <= a.2.
#[export] Instance count_ge_dec a b : Decision (count_ge a b).
Proof. unfold count_ge. apply _. Defined.
#[export] Instance count_ge_trans : Transitive count_ge.
Proof. intros a b c. unfold count_ge. lia. Qed.
#[export] Instance count_ge_total : Total count_ge.
Proof. intros a b. unfold count_ge. lia. Qed.
#[export] Instance dump0 : @Neo4jDump graph0 := {|
  g_all_nodes (g : @graph graph0) := Ok (managed_nodes (contents g));
  g_all_edges (g : @graph graph0) := Ok (managed_edges (contents g));
  g_count_nodes (g : @graph graph0) := Ok (Z.of_nat (length (managed_nodes (contents g))));
  g_count_edges (g : @graph graph0) := Ok (Z.of_nat (length (managed_edges (contents g))));
  g_by_label (g : @graph graph0) := Ok (merge_sort count_ge (map (fun l => (l, label_count l (contents g))) (all_labels (contents g)))) |}.
Lemma labelled_count l g : l ∈ all_labels g <-> 0 < label_count l g.
Proof.
  unfold all_labels, label_count. rewrite elem_of_remove_dups. split.
  - intros (n & Hn & Hl)%list_elem_of_In%in_flat_map. assert (Hin : In n (List.filter (labelled l) (managed_nodes g))).
    { apply filter_In. split; [done|]. apply bool_decide_eq_true. by apply list_elem_of_In. }
    destruct (List.filter (labelled l) (managed_nodes g)); [done|]. cbn. lia.
  - intros Hc. destruct (List.filter (labelled l) (managed_nodes g)) as [|n ns] eqn:E; [cbn in Hc; lia|].
    assert (Hin : In n (List.filter (labelled l) (managed_nodes g))) by (rewrite E; by left). apply filter_In in Hin as [Hn Hl].
    apply list_elem_of_In, in_flat_map. exists n. split; [done|]. apply list_elem_of_In. by apply bool_decide_eq_true in Hl.
Qed.
#[export] Instance dump0_laws : Neo4jDumpLaws.
Proof.
  split; cbn; try (by intros ? ? [= <-]). intros g rows [= <-].
  assert (Hp := merge_sort_Permutation count_ge (map (fun l => (l, label_count l (graph0_contents g))) (all_labels (graph0_contents g)))).
  assert (Hk : forall ls : list string, (map (fun l => (l, label_count l (graph0_contents g))) ls).*1 = ls).
  { induction ls as [|l ls IH]; [done|]. cbn [map]. by rewrite fmap_cons, IH. }
  split_and!.
  - rewrite Hp, Hk. apply NoDup_remove_dups.
  - intros l c. rewrite Hp. rewrite list_elem_of_fmap. split.
    + intros (l' & [= -> ->] & Hl%labelled_count). done.
    + intros [-> Hc%labelled_count]. by exists l.
  - apply (StronglySorted_merge_sort count_ge).
Qed.

(** ** A small catalogue *)
#[local] Instance repr0 : PyRepr := fun _ => "".
Definition sample_view : modules :=
  let m := sample_modules in
  Modules (md_zones m) (md_assets m) (md_leafs m) (md_baselines m)
    (md_sids m ++ [(PInt 9000003, mkSid (Policy.SidDetection 9000003 3 "log_only") "" "" "" "" "" false 3600 "" [])])
    (md_kill_chains m) (md_policy_matrix m) (md_endpoint_contracts m) (md_field_name_mapping m) (md_critical_gotchas m) (md_failure_modes m)
    (md_rbac_contract m) (md_invariants m).
Lemma sample_closed : closed sample_view.
Proof.
  split; try (by apply (bool_decide_unpack _); vm_compute).
  - intros l z Hl Hz. apply list_elem_of_singleton in Hl as ->. apply list_elem_of_singleton in Hz as ->. by left.
  - intros a ->%list_elem_of_singleton. by left.
  - intros e He. repeat (apply elem_of_cons in He as [->|He]); [..|by apply elem_of_nil in He]; eexists _, _; split; [reflexivity| |reflexivity|];
      (split; [by apply (bool_decide_unpack _); vm_compute|by apply (bool_decide_unpack _); vm_compute]).
  - intros c st sid ->%list_elem_of_singleton Hst Hsid. repeat (apply elem_of_cons in Hst as [->|Hst]); [..|by apply elem_of_nil in Hst];
      repeat (apply elem_of_cons in Hsid as [->|Hsid]); try (by apply elem_of_nil in Hsid); by apply (bool_decide_unpack _); vm_compute.
Qed.
Lemma kg_json_exact_witness : exists ids shown,
  knowledge_graph_json (H:=repr0) None sample_view =
    Ok (map json_node (entities sample_view), zip_with (fun id e => json_edge id e.1.1 e.1.2 e.2) ids shown) /\
  length ids = length shown /\ NoDup ids /\ shown ≡ₚ relations sample_view /\
  forall e, e ∈ shown -> exists s t, e.1.1 = PStr s /\ e.1.2 = PStr t /\ s ∈ all_names sample_view /\ t ∈ all_names sample_view.
Proof. apply (kg_json_exact None sample_view sample_closed); [vm_compute; reflexivity|exact I]. Defined.

Definition data_field (k : string) (v : pyval) : pyval := match v with PDict [("data", PDict d)] => jget d k | _ => PNone end.
Definition kinds (r : res (list pyval * list pyval)) : list pyval := match r with Ok (_, es) => map (data_field "kind") es | Raise _ => [] end.
Definition types (r : res (list pyval * list pyval)) : list pyval := match r with Ok (ns, _) => map (data_field "type") ns | Raise _ => [] end.
(** The server's nodes have no edges for the flows, which the modules' picture has. *)
Lemma server_view_lacks_flows :
  PStr "flow" ∈ kinds (knowledge_graph_json (H:=repr0) None sample_view) /\
  PStr "flow" ∉ kinds (knowledge_graph_json (H:=repr0) (Some sample_loaded) sample_view).
Proof. split; [by apply (bool_decide_unpack _); vm_compute|by apply (bool_decide_unpack _); vm_compute]. Qed.
(** A signal of a kill chain that is no known SID becomes a node without attributes. *)
Lemma unknown_signal_shown : PStr "unknown" ∈ types (knowledge_graph_json (H:=repr0) None sample_modules).
Proof. by apply (bool_decide_unpack _); vm_compute. Qed.
