(* ===== verification/StatusRoutes.v ===== *)
(** * What an operator reads and switches (api/routes.py)

    The counters of the response cache, the window of the flows, the preview of a prompt and
    the switch of the agent.  [trigger_switches]: the switch, the status page, the consumer
    of alerts and the dispatcher of flows agree. *)
From S2P Require Import Prelude PyVal Json Models Topology Policy Redis DecisionStore ResponseCache Flow FlowWindow Dispatcher Renderers KnowledgeLoader.
From S2P Require Import Enforcement Postgres EventsStore Api.
Local Open Scope string_scope.
Local Open Scope Z_scope.
Local Open Scope list_scope.

Section Status.
Context `{PyRepr} `{RedisServer}.

(** [ResponseCache.stats] with the rate and the configuration, [GET /cache/stats]; a failure
    answers zeros and leaves the time to live out. *)
Definition hit_rate (hits total : Z) : Q := if 0 <? total then py_round 3 (inject_Z hits / inject_Z total) else 0.
Definition counter (now : Z) (key : string) (s : redis) : res Z :=
  let* v := rget s now key in int_of (match v with Some v => por v (PInt 0) | None => PInt 0 end).
Definition response_cache_stats (ccfg : cache_config) (now : Z) (s : redis) : obj :=
  match (let* hits := counter now STATS_HITS s in let* misses := counter now STATS_MISSES s in Ok (hits, misses)) with
  | Ok (hits, misses) =>
      [("hits", PInt hits); ("misses", PInt misses); ("total", PInt (hits + misses)); ("hit_rate", PFloat (hit_rate hits (hits + misses)));
       ("ttl_seconds", PInt (cache_ttl ccfg)); ("enabled", PBool (cache_enabled ccfg))]
  | Raise _ => [("hits", PInt 0); ("misses", PInt 0); ("total", PInt 0); ("hit_rate", PFloat 0); ("enabled", PBool (cache_enabled ccfg))]
  end.
(** [POST /cache/reset] *)
Definition response_cache_reset (now : Z) (s : redis) : redis * obj := (reset_stats now s, [("ok", PBool true); ("reset", PStr "stats")]).

(** [GET /admin/agent/trigger] *)
Definition admin_agent_trigger_state (now : Z) (s : redis) : res obj :=
  let* enabled := get_trigger_state now s in Ok [("enabled", PBool enabled)].

(** [GET /admin/flow-batch/status]; the dispatcher may be missing. *)
Definition admin_flow_batch_status {Ev} (fw : option (@FlowWindow Ev)) (window_seconds : Z) (last : option obj) (now : Z) (s : redis) : res obj :=
  match fw with
  | None => Ok [("enabled", PBool false); ("reason", PStr "flow_window not initialized")]
  | Some w =>
      let* enabled := get_trigger_state now s in
      Ok [("enabled", PBool true); ("window_seconds", PInt window_seconds); ("buffer_size", PInt (Z.of_nat (length (w_buffer w))));
          ("window_start", PStr (w_start w)); ("agent_trigger_enabled", PBool enabled);
          ("last_window", PDict (default [] last))]
  end.

(** [GET /prompt/preview]: the prompt of an alert against the static one; [len // 4] tokens. *)
Definition reduction_percent (scoped full : nat) : Q :=
  py_round 1 (inject_Z 100 * (1 - inject_Z (Z.of_nat scoped) / inject_Z (Z.of_nat (Nat.max full 1)))).
Definition prompt_preview (set_order : list string -> list string) (m : library) (ttl t : Z) (a : http_answer) (sid : Z) (src_ip dst_ip : string) (s : loader)
  : loader * res obj :=
  match build_alert_specific_prompt set_order m ttl t a sid src_ip dst_ip s with
  | (s, Raise e) => (s, Raise e)
  | (s, Ok prompt) =>
      match render_static_core m s with
      | (s, Raise e) => (s, Raise e)
      | (s, Ok full) =>
          let tokens n := PInt (Z.of_nat n / 4) in
          (s, Ok [("alert", PDict [("sid", PInt sid); ("src_ip", PStr src_ip); ("dst_ip", PStr dst_ip)]);
                  ("alert_scoped_prompt_chars", PInt (Z.of_nat (py_len prompt))); ("alert_scoped_tokens_approx", tokens (py_len prompt));
                  ("full_prompt_chars_for_comparison", PInt (Z.of_nat (py_len full))); ("full_tokens_approx", tokens (py_len full));
                  ("reduction_percent", PFloat (reduction_percent (py_len prompt) (py_len full))); ("prompt", PStr prompt)])
      end
  end.
End Status.

(** The switch is what the operator set, at any later time, on the status page and for the
    dispatcher, as long as the store answers and nobody sets it again. *)
Theorem trigger_switches `{PyRepr} `{RedisLaws} now body s enabled s' t : admin_agent_trigger_set now body s = Ok (enabled, s') -> now <= t ->
  (exists v, get_of body "enabled" (PBool true) = Ok v /\ enabled = truthy v) /\
  (forall answer, rget s' t trigger_key = Ok answer ->
    admin_agent_trigger_state t s' = Ok [("enabled", PBool enabled)] /\ trigger_enabled (Some s') t = enabled).
Proof.
  intros (v & Hv & (s1 & Hs & [= <- <-])%rbind_ok)%rbind_ok Ht. split; [by exists v|]. intros answer Ha.
  unfold set_trigger_state in Hs. change TRIGGER_KEY with trigger_key in Hs. pose proof (rget_set_same _ _ _ _ _ _ _ _ Hs Ht Ha) as ->.
  unfold admin_agent_trigger_state, get_trigger_state, trigger_enabled. change TRIGGER_KEY with trigger_key. rewrite Ha. cbn [rbind]. by destruct (truthy v).
Qed.
