(* ===== verification/SecureServer.v ===== *)
(** * The secure framework as it starts and accepts connections (app.py,
      netconf/netconfserver.py, the server of sam/role_api.py)

    From the arguments and the files that exist to the TLS context, the pool, the two
    servers and the loop that accepts connections; TLS itself is the class [Tls]. The
    files are taken to be well formed and the ports to be free.
    [session_roles]: whose certificate a session has and what its role is, for every
    configuration the framework starts with. *)
From S2P Require Import Prelude PyVal TamperLog RolePolicy GnmiPool NetconfSession.
Local Open Scope string_scope.
Local Open Scope Z_scope.
Local Open Scope list_scope.

(** ** Arguments (app.py) *)
Record args := Args {
  leaf1_host : string; leaf2_host : string; gnmi_port : Z; sonic_user : string; sonic_pass : string;
  arg_port : Z; arg_cert : option string; arg_key : option string; arg_ca : option string; require_client_cert : bool;
  api_port : Z; cert_dir : string; client_cert : option string; client_key : option string; client_ca : option string }.
Definition default_args (tools : string) : args :=
  Args "192.168.122.20" "192.168.122.21" 9339 "admin" "YourPaSsWoRd" 6513 None None None true 9090 (tools ++ "/certificate")%string None None None.
(** [o or d], [not o] *)
Definition given (o : option string) : bool := match o with Some s => nonempty s | None => false end.
Definition or_else (o : option string) (d : string) : string := match o with Some s => str_or s d | None => d end.

(** role_policy.py *)
Record CertCredentials := mkCreds { cert_file : string; key_file : string; ca_cert : string }.
Definition creds_exist (exists_file : string -> bool) (c : CertCredentials) : bool :=
  forallb exists_file [cert_file c; key_file c; ca_cert c].

(** ** TLS *)
(** [verify_mode]: the authority whose certificates are required, or none is asked for. *)
Record tls_context := SslContext { verify : option string }.
Class Tls := {
  peer : Type;
  (** the handshake, with what [getpeercert] answers afterwards; [None] when it is empty *)
  wrap_socket : tls_context -> peer -> res (option cert);
  issued : string -> peer -> cert -> Prop }.
Class TlsLaws `{Tls} := {
  wrap_required ca p o : wrap_socket (SslContext (Some ca)) p = Ok o -> exists c, o = Some c /\ issued ca p c;
  wrap_none p o : wrap_socket (SslContext None) p = Ok o -> o = None }.

(** ** The NETCONF server (netconfserver.py) *)
Record tls_server := TlsServer {
  listen_port : Z; srv_cert : string; srv_key : string; srv_ca : option string; srv_require : bool }.
(** [NetconfTLSServer(...)]: the server's own files must exist. *)
Definition make_server (exists_file : string -> bool) (s : tls_server) : res tls_server :=
  if negb (exists_file (srv_cert s)) then Raise (OtherError "FileNotFoundError")
  else if negb (exists_file (srv_key s)) then Raise (OtherError "FileNotFoundError")
  else Ok s.
Definition create_ssl_context (exists_file : string -> bool) (s : tls_server) : tls_context :=
  match srv_ca s with
  | Some ca => if srv_require s && nonempty ca && exists_file ca then SslContext (Some ca) else SslContext None
  | None => SslContext None
  end.

(** What the accept loop meets: a client, an error of [accept], an interrupt. *)
Inductive arrival `{Tls} := Client (a : addr) (p : peer) | AcceptError | Interrupt.
(** The handlers that are started, in order; a failed handshake closes its connection. *)
Fixpoint accept_loop `{Tls} (ctx : tls_context) (es : list arrival) : list (addr * option cert) :=
  match es with
  | [] | Interrupt :: _ => []
  | AcceptError :: es => accept_loop ctx es
  | Client a p :: es => match wrap_socket ctx p with Ok c => (a, c) :: accept_loop ctx es | Raise _ => accept_loop ctx es end
  end.
(** How [start] ends: the loop catches the interrupt itself. *)
Inductive start_end := Listening | Returned.
Definition start `{Tls} (es : list arrival) : start_end := if existsb (fun e => match e with Interrupt => true | _ => false end) es then Returned else Listening.

(** ** The REST server (role_api.py) *)
Record role_server := RoleServer { rs_port : Z; rs_multi_client : bool; rs_running : bool }.
Definition role_server_start (s : role_server) : role_server := RoleServer (rs_port s) (rs_multi_client s) true.
Definition role_server_stop (s : role_server) : role_server := RoleServer (rs_port s) (rs_multi_client s) false.
(** [session_manager]: one is given; [get_session_manager]: else the global one is there. *)
Definition create_role_api (port : Z) (session_manager get_session_manager : bool) : role_server :=
  role_server_start (RoleServer port (session_manager || get_session_manager) false).

(** ** [main] *)
Definition entry (event_type action details severity : string) : log_args :=
  LogArgs event_type action details None severity None None PNone PNone PNone None.
Inductive halted := NoServerCertificate | NoClientKey | NoClientFiles | NoConnection.
Record framework := Framework { fw_server : tls_server; fw_context : tls_context; fw_pool : pool; fw_api : role_server }.

Definition own_cert (tools : string) (a : args) : string := or_else (arg_cert a) (tools ++ "/certificate/server/server.crt")%string.
Definition own_key (tools : string) (a : args) : string := or_else (arg_key a) (tools ++ "/certificate/server/server.key")%string.
Definition own_ca (tools : string) (a : args) : string := or_else (arg_ca a) (tools ++ "/certificate/server/trustedCertificates.crt")%string.
(** The one certificate for all connections to the leafs, when it is asked for. *)
Definition override (exists_file : string -> bool) (a : args) : option CertCredentials + halted :=
  if given (client_cert a) then
    if negb (given (client_key a)) || negb (given (client_ca a)) then inr NoClientKey
    else
      let c := mkCreds (default "" (client_cert a)) (default "" (client_key a)) (default "" (client_ca a)) in
      if creds_exist exists_file c then inl (Some c) else inr NoClientFiles
  else inl None.
Definition outcome_entry (r : key * bool) : log_args :=
  let name := (sonic_value r.1.1 ++ "@" ++ r.1.2)%string in
  if r.2 then entry "gnmi" "connect" (name ++ " connected")%string "info" else entry "gnmi" "connect_failed" (name ++ " failed")%string "warning".
Definition framework_of (tools : string) (exists_file : string -> bool) (a : args) (p : pool) : framework :=
  let ca := own_ca tools a in
  let s := TlsServer (arg_port a) (own_cert tools a) (own_key tools a) (if exists_file ca then Some ca else None) (require_client_cert a) in
  Framework s (create_ssl_context exists_file s) p (create_role_api (api_port a) true true).
(** What is logged, and why it stops or what is running; [dial] tells of each connection to a
    leaf whether its files exist and whether it succeeds. *)
Definition main (tools : string) (exists_file : string -> bool) (dial : option CertCredentials -> key -> bool * bool) (a : args)
    : list log_args * (halted + framework) :=
  let boot := entry "system" "startup" "3S-NOS Secure Framework starting" "info" in
  if negb (exists_file (own_cert tools a)) || negb (exists_file (own_key tools a)) then ([boot], inl NoServerCertificate) else
  match override exists_file a with
  | inr h => ([boot], inl h)
  | inl creds =>
      let '(results, p) := connect_all (dial creds) (pool0 [("leaf-1", leaf1_host a); ("leaf-2", leaf2_host a)]) in
      let logs := boot :: map outcome_entry (List.filter snd results ++ List.filter (fun r => negb r.2) results) in
      if existsb snd results then
        (logs ++ [entry "api" "start" ("Role API on :" ++ str_of_Z (api_port a))%string "info";
                  entry "netconf" "start" ("NETCONF on :" ++ str_of_Z (arg_port a))%string "info"], inr (framework_of tools exists_file a p))
      else (logs, inl NoConnection)
  end.
(** After [server.start()]: nothing when it has returned; the shutdown is for an interrupt
    that reaches [main]. *)
Definition shutdown (fw : framework) : list log_args * framework :=
  ([entry "system" "shutdown" "Shutting down" "info"],
   Framework (fw_server fw) (fw_context fw) (close_all (fw_pool fw)) (role_server_stop (fw_api fw))).
Definition after_start (e : option start_end) (fw : framework) : list log_args * framework :=
  match e with Some _ => ([], fw) | None => shutdown fw end.

(** ** Whose session it is *)
Section Roles.
Context `{TlsLaws} (tools : string) (exists_file : string -> bool).
(** Certificates are required of clients. *)
Definition mtls (a : args) : bool := require_client_cert a && nonempty (own_ca tools a) && exists_file (own_ca tools a).
Definition organizational_unit (c : cert) : string := py_lower (default "" (dict_get (subject_of c) "organizationalUnitName")).
Definition role_of_unit (ou : string) : option OnapRole :=
  if bool_decide (ou ∈ TRUSTED_ADMIN_OUS) then Some O_ADMIN
  else if bool_decide (ou ∈ TRUSTED_OPERATOR_OUS) then Some O_OPERATOR
  else if bool_decide (ou ∈ TRUSTED_AGENT_OUS) then Some O_AGENT
  else None.

Lemma main_framework dial a logs fw : main tools exists_file dial a = (logs, inr fw) ->
  exists p, fw = framework_of tools exists_file a p /\ make_server exists_file (fw_server fw) = Ok (fw_server fw).
Proof.
  unfold main. destruct (negb (exists_file (own_cert tools a)) || negb (exists_file (own_key tools a))) eqn:E; [done|].
  destruct (override exists_file a) as [creds|h]; [|done]. destruct (connect_all _ _) as [results p]. destruct (existsb snd results); [|done].
  intros [= _ <-]. exists p. split; [done|]. apply orb_false_iff in E as [Ec Ek]. unfold make_server, framework_of. cbn [fw_server srv_cert srv_key]. by rewrite Ec, Ek.
Qed.
Lemma framework_context a p : fw_context (framework_of tools exists_file a p) = SslContext (if mtls a then Some (own_ca tools a) else None).
Proof.
  unfold framework_of, mtls, create_ssl_context. cbn [fw_context srv_ca srv_require]. destruct (exists_file (own_ca tools a)) eqn:E; cbn; [|by rewrite andb_false_r].
  rewrite E. by destruct (require_client_cert a && nonempty (own_ca tools a)).
Qed.
Lemma accepted ctx es a c : (a, c) ∈ accept_loop ctx es -> exists p, Client a p ∈ es /\ wrap_socket ctx p = Ok c.
Proof.
  induction es as [|e es IH]; [by intros ?%elem_of_nil|]. destruct e as [b p| |]; cbn [accept_loop]; [| |by intros ?%elem_of_nil].
  - destruct (wrap_socket ctx p) as [o|] eqn:E.
    + rewrite elem_of_cons. intros [[= -> ->]|Hin]; [exists p; split; [by left|done]|]. destruct (IH Hin) as (q & Hq & ?). exists q. by split; [right|].
    + intros Hin. destruct (IH Hin) as (q & Hq & ?). exists q. by split; [right|].
  - intros Hin. destruct (IH Hin) as (q & Hq & ?). exists q. by split; [right|].
Qed.
Lemma session_role bypass policies a c m ctx : (create_session bypass policies a c m).1 = Ok ctx ->
  extract_onap_role_from_cert bypass c = Some (onap_role ctx).
Proof.
  pose proof (create_session_cases bypass policies a c m) as Hc. destruct (extract_onap_role_from_cert bypass c) as [role|].
  - destruct Hc as (ctx' & m' & -> & <-). by intros [= ->].
  - by destruct Hc as [e ->].
Qed.

(** C5: for every configuration the framework starts with: when client
    certificates are required and the file of the authority is there, every session belongs
    to a client with a certificate that this authority issued; in every other configuration
    no certificate is asked for.  The role of a session is the one of its certificate's
    unit, and a certificate of another unit is refused, exactly when certificates are asked
    for and the bypass of the environment is off; in every other case nobody is refused and
    every session is one of an administrator. *)
Theorem session_roles dial a logs fw es client c bypass policies m : main tools exists_file dial a = (logs, inr fw) ->
  (client, c) ∈ accept_loop (fw_context fw) es ->
  match (create_session bypass policies client c m).1 with
  | Ok ctx =>
      if mtls a then exists p crt, Client client p ∈ es /\ c = Some crt /\ issued (own_ca tools a) p crt /\
        (if is_security_bypassed bypass then Some O_ADMIN else role_of_unit (organizational_unit crt)) = Some (onap_role ctx)
      else c = None /\ onap_role ctx = O_ADMIN
  | Raise _ => mtls a = true /\ is_security_bypassed bypass = false /\
      exists crt, c = Some crt /\ role_of_unit (organizational_unit crt) = None
  end.
Proof.
  intros (p & -> & _)%main_framework (q & Hq & Hw)%accepted. rewrite framework_context in Hw.
  pose proof (create_session_cases bypass policies client c m) as Hc. unfold extract_onap_role_from_cert in Hc.
  destruct (mtls a).
  - apply wrap_required in Hw as (crt & -> & Hi). fold (organizational_unit crt) in Hc. fold (role_of_unit (organizational_unit crt)) in Hc.
    destruct (is_security_bypassed bypass); [|destruct (role_of_unit (organizational_unit crt)) as [role|] eqn:Er].
    + destruct Hc as (ctx & m' & -> & <-). cbn [fst]. by exists q, crt.
    + destruct Hc as (ctx & m' & -> & <-). cbn [fst]. exists q, crt. by rewrite Er.
    + destruct Hc as [e ->]. cbn [fst]. split_and!; [done|done|]. by exists crt.
  - apply wrap_none in Hw as ->. assert (Hr : exists ctx m', create_session bypass policies client None m = (Ok ctx, m') /\ onap_role ctx = O_ADMIN).
    { by destruct (is_security_bypassed bypass). }
    destruct Hr as (ctx & m' & -> & Hr). cbn [fst]. by split.
Qed.
(** The interrupt ends the loop, and [main] after it, without the shutdown: the connections
    stay open and no entry is logged. *)
Theorem interrupt_skips_shutdown fw es : start (es ++ [Interrupt]) = Returned /\ after_start (Some (start (es ++ [Interrupt]))) fw = ([], fw).
Proof.
  split; [|done]. unfold start. rewrite existsb_app. cbn. by rewrite orb_true_r.
Qed.
End Roles.

(** ** A small world *)
(** Clients show what they hold when they are asked; every certificate of the world is
    issued by the one authority. *)
#[export] Instance tls0 : Tls := {|
  peer := option cert;
  wrap_socket ctx p := match verify ctx with Some _ => match p with Some c => Ok (Some c) | None => Raise (OtherError "SSLError") end | None => Ok None end;
  issued _ p c := p = Some c |}.
#[export] Instance tls0_laws : TlsLaws.
Proof. split; cbn; [intros ca [c|] o [= <-]; by exists c|by intros p o [= <-]]. Qed.
Definition agent_cert : cert := [[("organizationalUnitName", "auto")]; [("commonName", "agent-ids")]].
Definition all_dial (c : option CertCredentials) (k : key) : bool * bool := (true, true).
Definition sample_arrivals : list arrival := [Client ("10.0.0.5", 5000) (Some agent_cert); Client ("10.0.0.6", 5001) None; Interrupt].
Definition started (exists_file : string -> bool) : list log_args * framework :=
  match main "/sf" exists_file all_dial (default_args "/sf") with
  | (logs, inr fw) => (logs, fw)
  | (logs, inl _) => (logs, framework_of "/sf" exists_file (default_args "/sf") (pool0 [])) end.
Lemma started_main : main "/sf" (fun _ => true) all_dial (default_args "/sf") = ((started (fun _ => true)).1, inr (started (fun _ => true)).2).
Proof. vm_compute. reflexivity. Qed.
Lemma started_accepts : (("10.0.0.5", 5000), Some agent_cert) ∈ accept_loop (fw_context (started (fun _ => true)).2) sample_arrivals.
Proof.
  replace (fw_context (started (fun _ => true)).2) with (SslContext (Some "/sf/certificate/server/trustedCertificates.crt")) by (vm_compute; reflexivity). by left.
Qed.
Lemma session_roles_witness :
  match (create_session None DEFAULT_POLICIES ("10.0.0.5", 5000) (Some agent_cert) (mkManager [] None)).1 with
  | Ok ctx =>
      if mtls "/sf" (fun _ => true) (default_args "/sf") then exists p crt, Client ("10.0.0.5", 5000) p ∈ sample_arrivals /\ Some agent_cert = Some crt /\
        issued (own_ca "/sf" (default_args "/sf")) p crt /\
        (if is_security_bypassed None then Some O_ADMIN else role_of_unit (organizational_unit crt)) = Some (onap_role ctx)
      else Some agent_cert = None /\ onap_role ctx = O_ADMIN
  | Raise _ => mtls "/sf" (fun _ => true) (default_args "/sf") = true /\ is_security_bypassed None = false /\ exists crt, Some agent_cert = Some crt /\ role_of_unit (organizational_unit crt) = None
  end.
Proof.
  exact (session_roles "/sf" (fun _ => true) all_dial (default_args "/sf") _ _
    sample_arrivals ("10.0.0.5", 5000) (Some agent_cert) None DEFAULT_POLICIES (mkManager [] None) started_main started_accepts).
Defined.
(** With the defaults and without the file of the authority, a client without a certificate
    gets the session of an administrator. *)
Definition no_ca (f : string) : bool := bool_decide (f ∈ ["/sf/certificate/server/server.crt"; "/sf/certificate/server/server.key"]).
Lemma missing_ca_admits_all : require_client_cert (default_args "/sf") = true /\
  accept_loop (fw_context (started no_ca).2) sample_arrivals = [(("10.0.0.5", 5000), None); (("10.0.0.6", 5001), None)] /\
  match (create_session None DEFAULT_POLICIES ("10.0.0.6", 5001) None (mkManager [] None)).1 with
  | Ok ctx => onap_role ctx = O_ADMIN | Raise _ => False end.
Proof. by vm_compute. Qed.
