(* ===== verification/Evaluation.v ===== *)
(** * The evaluation of the closed loop (experiments/eval_iid.py, eval_memory.py)

    The scenarios, how a decision of the agent is attributed to a run, the polling loop,
    the metrics and the verdict of a run, the summary of a campaign.  The answers of the
    services and the clock are inputs; [fromisoformat(...).timestamp()] is a parameter and
    seconds are exact.  [passed_iff] says when a run counts as passed, [run_ends] that
    every run ends, [p95_rank] what the reported percentile is. *)
From Stdlib Require Import Lqa Qround.
From stdpp Require Import sorting.
From S2P Require Import Prelude PyVal Json PyText Postgres DecisionStore IncidentMemory KnowledgeDump.
Local Open Scope string_scope.
Local Open Scope Z_scope.
Local Open Scope list_scope.

(** ** Scenarios *)
Record scenario := Scenario {
  attacker_ip : string; target_sid : Z; target_dst_ip : string; target_dst_port : Z;
  trigger : string; restore : string; expected_outcome : string }.
Definition default_scenario : scenario :=
  Scenario "10.1.100.10" 9000001 "10.1.200.10" 5432 "compromise-web.sh" "restore-web.sh" "enforced".
Definition SCENARIO_PRESETS : list (string * scenario) := [
  ("web-db-lateral", Scenario "10.1.100.10" 9000001 "10.1.200.10" 5432 "compromise-web.sh" "restore-web.sh" "enforced");
  ("db-exfil", Scenario "10.1.200.10" 9000002 "8.8.8.8" 443 "compromise-db.sh" "restore-db.sh" "enforced");
  ("web-app-burst", Scenario "10.1.100.10" 9000030 "10.2.100.10" 8080 "compromise-web-burst.sh" "restore-web-burst.sh" "enforced");
  ("app-db-burst", Scenario "10.2.100.10" 9000031 "10.1.200.10" 5432 "compromise-app-burst.sh" "restore-app.sh" "enforced");
  ("app-db-bulk", Scenario "10.2.100.10" 9000032 "10.1.200.10" 5432 "compromise-app-bulk.sh" "restore-app.sh" "enforced");
  ("app-db-sql", Scenario "10.2.100.10" 9000033 "10.1.200.10" 5432 "compromise-app-sql.sh" "restore-app.sh" "enforced");
  ("app-mgt-ssh", Scenario "10.2.100.10" 9000035 "10.1.200.10" 22 "compromise-app-ssh.sh" "restore-app.sh" "enforced");
  ("yates-vertical-scan", Scenario "10.2.100.10" 9900007 "10.1.200.10" 0 "compromise-vertical-scan.sh" "restore-app.sh" "log_only");
  ("yates-syn-flood-dos", Scenario "10.2.100.10" 9900020 "10.1.200.10" 5432 "compromise-syn-flood.sh" "restore-app.sh" "enforced");
  ("yates-syn-flood-ddos", Scenario "10.2.100.10" 9900015 "10.1.200.10" 5432 "compromise-syn-ddos.sh" "restore-app.sh" "enforced");
  ("yates-udp-ddos", Scenario "10.2.100.10" 9900015 "10.1.200.10" 53 "compromise-udp-ddos.sh" "restore-app.sh" "enforced");
  ("yates-distributed-scan", Scenario "10.2.100.10" 9900010 "10.1.200.10" 0 "compromise-distributed-scan.sh" "restore-app.sh" "log_only");
  ("yates-infection-monkey", Scenario "10.2.100.10" 9900015 "10.1.200.10" 22 "compromise-infection-monkey.sh" "restore-app.sh" "enforced");
  ("yates-c2-beacon", Scenario "10.2.100.10" 9900010 "8.8.8.8" 443 "compromise-c2-beacon.sh" "restore-app.sh" "enforced");
  ("yates-unauth-db", Scenario "10.1.100.10" 9900015 "10.1.200.10" 5432 "compromise-unauth-db.sh" "restore-web.sh" "enforced")].
(** The preset, when one is named; [None] is [sys.exit(2)]. *)
Definition apply_preset (name : string) : option scenario := dict_get SCENARIO_PRESETS name.

Record cli := Cli {
  c_preset : option string; c_attacker_ip : option string; c_target_sid : option Z; c_target_dst_ip : option string;
  c_target_dst_port : option Z; c_trigger : option string; c_restore : option string; c_expected_outcome : option string }.
Definition override_str (o : option string) (d : string) : string := match o with Some s => str_or s d | None => d end.
Definition parse_cli (a : cli) : option scenario :=
  let base := match c_preset a with Some p => if nonempty p then apply_preset p else Some default_scenario | None => Some default_scenario end in
  option_map (fun s => Scenario
    (override_str (c_attacker_ip a) (attacker_ip s))
    (match c_target_sid a with Some n => if n =? 0 then target_sid s else n | None => target_sid s end)
    (override_str (c_target_dst_ip a) (target_dst_ip s))
    (default (target_dst_port s) (c_target_dst_port a))
    (override_str (c_trigger a) (trigger s)) (override_str (c_restore a) (restore s))
    (override_str (c_expected_outcome a) (expected_outcome s))) base.

(** ** Which decision is the run's *)
(** [EVAL_MODE == "batch"] or not. *)
Definition SYNTHETIC_SID_MIN : Z := 9900000.
Definition SYNTHETIC_SID_MAX : Z := 9900099.
Definition DURATION_SECONDS (batch : bool) : Q := if batch then 240 else 120.
Definition POLL_INTERVAL : Q := 10.
Definition sid_matches_target (batch : bool) (sc : scenario) (sid : Z) : bool :=
  (sid =? target_sid sc) || (batch && (SYNTHETIC_SID_MIN <=? sid) && (sid <=? SYNTHETIC_SID_MAX)).

Fixpoint filter_res {A} (f : A -> res bool) (l : list A) : res (list A) :=
  match l with
  | [] => Ok []
  | x :: l => let* b := f x in let* l' := filter_res f l in Ok (if b then x :: l' else l')
  end.
(** [s.rstrip("/")] *)
Fixpoint lstrip_slash (s : string) : string :=
  match s with String "/"%char s' => lstrip_slash s' | _ => s end.
Definition rstrip_slash (s : string) : string := str_rev (lstrip_slash (str_rev s)).
(** [v in l] for a list of values *)
Definition value_in (v : pyval) (l : list pyval) : bool := existsb (py_eqb v) l.
Definition number_of (v : pyval) : res Q :=
  match v with
  | PInt z => Ok (inject_Z z) | PFloat q => Ok q | PBool b => Ok (if b then 1%Q else 0%Q)
  | _ => Raise (TypeError "must be real number")
  end.
Definition qmax (a b : Q) : Q := if Qle_bool b a then a else b.

Section Run.
Context (timestamp : string -> option Q) (batch : bool) (sc : scenario).

(** The time of creation; 0 when it cannot be read. *)
Definition created_ts (d : pyval) : Q :=
  match d with
  | PDict o => match jget_or o "created_at" (PStr "") with PStr s => default 0%Q (timestamp (replace_z s)) | _ => 0%Q end
  | _ => 0%Q
  end.
Definition from_attacker (d : pyval) : res bool :=
  let* src := get_of d "source_ip" PNone in
  Ok (negb (truthy src && nonempty (attacker_ip sc) && negb (bool_decide (src = PStr (attacker_ip sc))))).
Definition selected (since_ts : Q) (d : pyval) : res bool :=
  if Qle_bool since_ts (created_ts d) then
    let* s := get_of d "alert_sid" (PInt 0) in
    let* sid := int_of (por s (PInt 0)) in
    if sid_matches_target batch sc sid then (if batch then from_attacker d else Ok true) else Ok false
  else Ok false.
(** What the list of decisions is in the answer; [PNone] when there was none. *)
Definition decision_list (data : pyval) : res (list pyval) :=
  let* l := match data with PList _ => Ok data | _ => get_of (por data (PDict [])) "decisions" (PList []) end in
  py_iter (por l (PList [])).
Definition get_decisions_since (data : pyval) (since_ts : Q) : res (list pyval) :=
  let* ds := decision_list data in filter_res (selected since_ts) ds.
(** The selection of eval_memory.py. *)
Definition selected_exact (since_ts : Q) (d : pyval) : res bool :=
  if Qle_bool since_ts (created_ts d) then
    let* s := get_of d "alert_sid" PNone in Ok (py_eqb s (PInt (target_sid sc)))
  else Ok false.
Definition get_decisions_exact (data : pyval) (since_ts : Q) : res (list pyval) :=
  let* ds := decision_list data in filter_res (selected_exact since_ts) ds.
Definition decision_confidence (d : pyval) : res pyval :=
  let* s := get_of d "safety_checks" PNone in
  let* c := get_of (por s (PDict [])) "confidence" PNone in
  get_of (por c (PDict [])) "score" PNone.

(** ** The rules of the agent on the leafs *)
Definition agent_update (upd : pyval) : res (list pyval) :=
  let* val := get_of upd "val" (PDict []) in
  let* source := get_of val "source" PNone in
  if bool_decide (source = PStr "agent") then
    let* path := get_of upd "path" (PStr "") in
    match val with PDict o => Ok [PDict (dict_set o "_path" path)] | _ => Ok [] end
  else Ok [].
(** [for x in v: acc += f(x)] *)
Definition concat_res (f : pyval -> res (list pyval)) (v : pyval) : res (list pyval) :=
  let* l := py_iter v in let* ls := mapM_res f l in Ok (mjoin ls).
Definition leaf_rules (leaf : pyval) : res (list pyval) :=
  let* rules := get_of leaf "rules" PNone in
  let* notifs := get_of (por rules (PDict [])) "notification" (PList []) in
  concat_res (fun notif => let* us := get_of notif "update" (PList []) in concat_res agent_update us) notifs.
Definition agent_rules (data : pyval) : res (list pyval) :=
  if truthy data then
    let* leaves := get_of data "leaves" PNone in
    match por leaves (PDict []) with
    | PDict o => let* ls := mapM_res leaf_rules (map snd o) in Ok (mjoin ls)
    | _ => Raise (AttributeError "values")
    end
  else Ok [].
(** [ATTACKER_IP in src or src.startswith(...)] *)
Definition names_attacker (prefix : string) (src : pyval) : res bool :=
  match src with
  | PStr s => Ok (str_contains (attacker_ip sc) s || starts_with prefix s)
  | PList l => if existsb (py_eqb (PStr (attacker_ip sc))) l then Ok true else Raise (AttributeError "startswith")
  | PDict o => if dict_mem o (attacker_ip sc) then Ok true else Raise (AttributeError "startswith")
  | _ => Raise (TypeError "argument is not iterable")
  end.
Definition rule_source (r : pyval) : res pyval :=
  let* a := get_of r "src-prefix" PNone in
  let* b := get_of r "src_ip" PNone in
  let* c := get_of r "source-ip" PNone in
  Ok (por a (por b (por c (PStr "")))).
Fixpoint rule_blocks_attacker (rules : list pyval) : res bool :=
  match rules with
  | [] => Ok false
  | r :: rules =>
      let* src := rule_source r in
      let* hit := names_attacker (default "" (head (split_on "/"%char (attacker_ip sc)))) src in
      if hit then Ok true else rule_blocks_attacker rules
  end.
(** The rule ids the clean-up deletes, each once. *)
Definition agent_rule_ids (data : pyval) : res (list pyval) :=
  let* rules := agent_rules data in
  let* found := mapM_res (fun r => let* a := get_of r "rule-id" PNone in let* b := get_of r "rule_id" PNone in Ok (por a b)) rules in
  Ok (fold_left (fun acc v => if truthy v && negb (value_in v acc) then acc ++ [v] else acc) found []).
(** How many are deleted, by the answers to the requests. *)
Definition cleanup_agent_rules (data : pyval) (deleted : pyval -> bool) : res nat :=
  let* ids := agent_rule_ids data in Ok (length (List.filter deleted ids)).

(** ** A run *)
Record run_result := Run {
  run_num : Z; started_at : string; r_outcome : pyval; mttd_s : option Q; enforce_latency_ms : option Q; total_latency_s : option Q;
  r_confidence : pyval; alert_count_p1 : Z; rule_pushed : bool; r_rule_id : pyval; r_rejection_reason : pyval; r_dry_run : pyval;
  checks_pass : Z; checks_total : Z; passed : bool;
  t_alert_to_decision_s : option Q; t_decision_to_enforce_ms : option Q; enforcement_correct : option bool }.
Definition new_result (n : Z) (started : string) : run_result :=
  Run n started (PStr "none") None None None PNone 0 false (PStr "") (PStr "") (PBool true) 0 5 false None None None.

(** One turn of the loop: the clock at its test and the answer of [/decisions] in it. *)
Record poll := Poll { poll_now : Q; poll_answer : pyval }.
Inductive waited := Found (d : pyval) | TimedOut | Waiting.
Fixpoint wait_decision (t_attack deadline : Q) (polls : nat -> poll) (i fuel : nat) : res waited :=
  match fuel with
  | O => Ok Waiting
  | S fuel =>
      if Qle_bool deadline (poll_now (polls i)) then Ok TimedOut
      else
        let* ds := get_decisions_since (poll_answer (polls i)) (t_attack - 2) in
        match ds with d :: _ => Ok (Found d) | [] => wait_decision t_attack deadline polls (S i) fuel end
  end.

(** Whether and when the rule is seen: the answers of [/api/rules] with the clock after each. *)
Fixpoint rule_seen (answers : list (pyval * Q)) : res (option Q) :=
  match answers with
  | [] => Ok None
  | (data, now) :: answers =>
      let* rules := agent_rules data in
      let* hit := rule_blocks_attacker rules in
      if hit then Ok (Some now) else rule_seen answers
  end.
Definition source_correct (d : pyval) : res (option bool) :=
  let* s := get_of d "src_ip" PNone in
  let src := por s (PStr "") in
  if truthy src then
    let* b := names_attacker (rstrip_slash (attacker_ip sc)) src in Ok (Some b)
  else Ok None.
Definition created_at_ts (d : pyval) : option Q :=
  match d with PDict o => match dict_get o "created_at" with Some (PStr s) => timestamp (replace_z s) | _ => None end | _ => None end.
(** The metrics of the first decision that is found. *)
Definition take_decision (t_attack : Q) (sf : list (pyval * Q)) (d : pyval) (r : run_result) : res run_result :=
  let* outcome := get_of d "outcome" (PStr "unknown") in
  let* l := get_of d "latency_ms" PNone in
  let* latency := number_of (por l (PInt 0)) in
  let* confidence := decision_confidence d in
  let* reason := get_of d "rejection_reason" PNone in
  let* dry := get_of d "dry_run" (PBool true) in
  let* correct := source_correct d in
  let created := created_at_ts d in
  let first_alert := option_map (fun t => t - latency / 1000)%Q created in
  let* seen := match created with
               | Some t => if bool_decide (outcome = PStr "enforced") then rule_seen (take 8 sf) else Ok None
               | None => Ok None
               end in
  Ok (Run (run_num r) (started_at r) outcome
        (option_map (fun t => py_round 1 (qmax 0 (t - t_attack))) first_alert) (Some (py_round 1 latency)) None
        confidence (match created with Some _ => 1 | None => alert_count_p1 r end) false (PStr "") (por reason (PStr "")) dry 0 5 false
        (match created, first_alert with Some t, Some f => Some (py_round 2 (t - f)) | _, _ => None end)
        (match created, seen with Some t, Some now => Some (py_round 1 (qmax 0 (now - t) * 1000)) | _, _ => None end)
        correct).
(** [v[:60]] *)
Definition slice60 (v : pyval) : res pyval :=
  match v with PStr s => Ok (PStr (py_take 60 s)) | PList l => Ok (PList (take 60 l)) | _ => Raise (TypeError "object is not subscriptable") end.
Definition outcome_ok (r : run_result) : bool := bool_decide (r_outcome r = PStr "enforced" \/ r_outcome r = PStr "dry_run").
Definition checks_of (found : bool) (r : run_result) : list bool :=
  [1 <=? alert_count_p1 r; found; outcome_ok r; rule_pushed r || truthy (r_dry_run r);
   match mttd_s r with Some _ => negb (Qle_bool 30000 (default 0%Q (enforce_latency_ms r))) | None => false end].
(** The rules afterwards, the total latency and the verdict. *)
Definition finish (found : bool) (pre_rules : list pyval) (post : pyval) (r : run_result) : res run_result :=
  let* post_rules := agent_rules post in
  let* pushed := rule_blocks_attacker post_rules in
  let* id := match List.filter (fun x => negb (value_in x pre_rules)) post_rules with
             | [] => Ok (r_rule_id r)
             | x :: _ => let* path := get_of x "_path" (PStr "") in slice60 path
             end in
  let total := match mttd_s r, enforce_latency_ms r with Some m, Some l => Some (py_round 2 (m + l / 1000)) | _, _ => None end in
  let r := Run (run_num r) (started_at r) (r_outcome r) (mttd_s r) (enforce_latency_ms r) total (r_confidence r) (alert_count_p1 r)
             pushed id (r_rejection_reason r) (r_dry_run r) 0 5 false
             (t_alert_to_decision_s r) (t_decision_to_enforce_ms r) (enforcement_correct r) in
  let checks := Z.of_nat (length (List.filter (fun b => b) (checks_of found r))) in
  Ok (Run (run_num r) (started_at r) (r_outcome r) (mttd_s r) (enforce_latency_ms r) total (r_confidence r) (alert_count_p1 r)
        pushed id (r_rejection_reason r) (r_dry_run r) checks 5 ((checks =? 5) && outcome_ok r)
        (t_alert_to_decision_s r) (t_decision_to_enforce_ms r) (enforcement_correct r)).
(** [pre], [post]: the answers of [/api/rules] before and after the attack; [None] when the
    fuel of the loop is used up. *)
Definition run_scenario (n : Z) (started : string) (t_attack duration : Q) (polls : nat -> poll) (sf : list (pyval * Q)) (pre post : pyval) (fuel : nat)
    : res (option run_result) :=
  let* pre_rules := agent_rules pre in
  let* w := wait_decision t_attack (t_attack + duration) polls 0 fuel in
  match w with
  | Waiting => Ok None
  | TimedOut => let* r := finish false pre_rules post (new_result n started) in Ok (Some r)
  | Found d => let* r := take_decision t_attack sf d (new_result n started) in let* r := finish true pre_rules post r in Ok (Some r)
  end.
End Run.

(** ** The summary of a campaign *)
Definition Qle_rel (a b : Q) : Prop := Qle_bool a b = true.
#[export] Instance Qle_rel_dec a b : Decision (Qle_rel a b).
Proof. unfold Qle_rel. apply _. Defined.
Definition qsum (l : list Q) : Q := fold_right Qplus 0%Q l.
Definition least (x : Q) (l : list Q) : Q := fold_left (fun m y => if Qle_bool m y then m else y) l x.
Definition greatest (x : Q) (l : list Q) : Q := fold_left qmax l x.
(** [max(0, ceil(n * 0.95) - 1)] *)
Definition p95_idx (n : nat) : nat := Z.to_nat (Z.max 0 ((19 * Z.of_nat n + 19) / 20 - 1)).
Record summary := Summary { s_avg : option Q; s_min : option Q; s_max : option Q; s_p95 : option Q; s_n : nat }.
Definition summarize (values : list (option Q)) : summary :=
  match omap id values with
  | [] => Summary None None None None 0
  | x :: l =>
      let nums := x :: l in
      Summary (Some (qsum nums / inject_Z (Z.of_nat (length nums)))%Q) (Some (least x l)) (Some (greatest x l))
        (merge_sort Qle_rel nums !! p95_idx (length nums)) (length nums)
  end.
(** The head line: passed, outcome in order, source correct, of how many; and its colour. *)
Record headline := Headline { h_n : nat; h_passed : nat; h_outcome_ok : nat; h_source_ok : nat; h_color : string }.
Definition count_runs (p : run_result -> bool) (l : list run_result) : nat := length (List.filter p l).
Definition render_summary (l : list run_result) : option headline :=
  match l with
  | [] => None
  | _ =>
      let n := length l in let ok := count_runs passed l in
      Some (Headline n ok (count_runs outcome_ok l) (count_runs (fun r => default false (enforcement_correct r)) l)
        (if (ok =? n)%nat then "green" else if (70 * n <=? 100 * ok)%nat then "yellow" else "red"))
  end.
(** The services that answer, the console, and the two scripts on it. *)
Definition preflight (sc : scenario) (health : list pyval) (ping listing : string) : bool :=
  forallb (fun v => negb (bool_decide (v = PNone))) health && str_contains "MGT_PING_OK" ping &&
  forallb (fun s => str_contains s listing) [trigger sc; restore sc].
(** The effect of memory: the change from the first run to the last, in per cent, and how it
    is shown. *)
Record change := Change { ch_delta : Q; ch_percent : Q; ch_arrow : string; ch_color : string }.
Definition delta_of (a b : option Q) (lower_is_better : bool) : option change :=
  match a, b with
  | Some a, Some b =>
      let d := (b - a)%Q in
      let falls := negb (Qle_bool 0 d) in let rises := negb (Qle_bool d 0) in
      Some (Change d (if Qeq_bool a 0 then 0%Q else (d / a * 100)%Q) (if falls then "down" else if rises then "up" else "same")
        (if if lower_is_better then falls else rises then "green" else if Qeq_bool d 0 then "dim" else "red"))
  | _, _ => None
  end.
Definition memory_effect (l : list run_result) : option (list (option change)) :=
  match l with
  | first :: _ :: _ =>
      let final := List.last l first in
      let number := fun v => match number_of v with Ok q => Some q | Raise _ => None end in
      Some [delta_of (mttd_s first) (mttd_s final) true; delta_of (t_alert_to_decision_s first) (t_alert_to_decision_s final) true;
            delta_of (enforce_latency_ms first) (enforce_latency_ms final) true; delta_of (number (r_confidence first)) (number (r_confidence final)) false]
  | _ => None
  end.

(** ** Rounding *)
Lemma div_half_even_mul n d k : 0 < d -> 0 < k -> div_half_even (n * k) (d * k) = div_half_even n d.
Proof.
  intros Hd Hk. unfold div_half_even. rewrite Z.div_mul_cancel_r, Z.mul_mod_distr_r by lia.
  assert ((d * k <? 2 * (n mod d * k)) = (d <? 2 * (n mod d))) as -> by (apply eq_true_iff_eq; rewrite !Z.ltb_lt; nia).
  assert ((2 * (n mod d * k) =? d * k) = (2 * (n mod d) =? d)) as -> by (apply eq_true_iff_eq; rewrite !Z.eqb_eq; nia). done.
Qed.
(** Rounding depends on the number only. *)
#[export] Instance py_round_proper digits : Proper (Qeq ==> eq) (py_round digits).
Proof.
  intros a b Hab. unfold py_round, scaled. f_equal. unfold Qeq in Hab.
  rewrite <-(div_half_even_mul _ (Zpos (Qden a)) (Zpos (Qden b))), <-(div_half_even_mul (Qnum b * _) (Zpos (Qden b)) (Zpos (Qden a))) by lia.
  f_equal; [|lia]. set (p := 10 ^ Z.of_nat digits). replace (Qnum a * p * Zpos (Qden b)) with (Qnum a * Zpos (Qden b) * p) by ring. rewrite Hab. ring.
Qed.

Lemma Qle_bool_false a b : Qle_bool a b = false <-> (b < a)%Q.
Proof.
  destruct (Qle_bool a b) eqn:E; [apply Qle_bool_iff in E; split; [done|lra]|]. split; [|done]. intros _.
  apply Qnot_le_lt. by rewrite <-Qle_bool_iff, E.
Qed.

(** ** The run *)
Section RunFacts.
Context (timestamp : string -> option Q) (batch : bool) (sc : scenario).
#[local] Abbreviation run_scenario := (run_scenario timestamp batch sc).
#[local] Abbreviation wait_decision := (wait_decision timestamp batch sc).

Lemma wait_ends t_attack deadline polls n i : (deadline <= poll_now (polls (i + n)%nat))%Q ->
  wait_decision t_attack deadline polls i (S n) <> Ok Waiting.
Proof.
  revert i. induction n as [|n IH]; intros i Hd; cbn [Evaluation.wait_decision].
  - rewrite Nat.add_0_r in Hd. apply Qle_bool_iff in Hd. by rewrite Hd.
  - destruct (Qle_bool _ _); [done|]. destruct (get_decisions_since _ _ _ _ _) as [[|d ds]|]; cbn [rbind]; [|done|done].
    apply IH. by rewrite <-Nat.add_succ_comm in Hd.
Qed.
Lemma clock_advances t_attack polls n : (t_attack <= poll_now (polls 0%nat))%Q ->
  (forall i, poll_now (polls i) + POLL_INTERVAL <= poll_now (polls (S i)))%Q ->
  (t_attack + POLL_INTERVAL * inject_Z (Z.of_nat n) <= poll_now (polls n))%Q.
Proof.
  intros H0 Hstep. induction n as [|n IH]; [unfold POLL_INTERVAL; change (inject_Z (Z.of_nat 0)) with 0%Q; lra|].
  specialize (Hstep n). rewrite Nat2Z.inj_succ, <-Z.add_1_r, inject_Z_plus. change (inject_Z 1) with 1%Q. unfold POLL_INTERVAL in *. lra.
Qed.
Lemma filter_res_elem {A} (f : A -> res bool) l l' x : filter_res f l = Ok l' -> x ∈ l' -> x ∈ l /\ f x = Ok true.
Proof.
  revert l'. induction l as [|y l IH]; intros l'; cbn; [intros [= <-] []%elem_of_nil|].
  intros (b & Hb & (l2 & Hl & Hr)%rbind_ok)%rbind_ok Hx. injection Hr as <-. destruct b.
  - apply elem_of_cons in Hx as [->|Hx]; [by split; [left|]|]. destruct (IH _ Hl Hx). by split; [right|].
  - destruct (IH _ Hl Hx). by split; [right|].
Qed.
(** What is found is a record in the first answer that has one. *)
Lemma wait_found t_attack deadline polls i fuel d : wait_decision t_attack deadline polls i fuel = Ok (Found d) ->
  exists k l, (i <= k)%nat /\ ~ (deadline <= poll_now (polls k))%Q /\ decision_list (poll_answer (polls k)) = Ok l /\
    d ∈ l /\ selected timestamp batch sc (t_attack - 2) d = Ok true.
Proof.
  revert i. induction fuel as [|fuel IH]; intros i; cbn [Evaluation.wait_decision]; [done|].
  destruct (Qle_bool _ _) eqn:E; [done|]. destruct (get_decisions_since _ _ _ _ _) as [ds|] eqn:Hg; cbn [rbind]; [|done].
  destruct ds as [|x ds].
  - intros (k & l & Hk & ?)%IH. exists k, l. split; [lia|done].
  - intros [= ->]. unfold get_decisions_since in Hg. apply rbind_ok in Hg as (l & Hl & Hf). exists i, l. split; [done|].
    split; [rewrite <-Qle_bool_iff, E; done|]. split; [done|]. apply (filter_res_elem _ _ _ _ Hf). by left.
Qed.
Lemma selected_dict since d : selected timestamp batch sc since d = Ok true -> exists o, d = PDict o.
Proof.
  unfold selected. destruct (Qle_bool _ _); [|done]. destruct d; cbn; try done. by eexists.
Qed.

Lemma finish_passed found pre post r0 r : finish sc found pre post r0 = Ok r ->
  exists rules, agent_rules post = Ok rules /\ rule_blocks_attacker sc rules = Ok (rule_pushed r) /\
    t_alert_to_decision_s r = t_alert_to_decision_s r0 /\
    (passed r = true <-> 1 <= alert_count_p1 r0 /\ found = true /\ outcome_ok r0 = true /\ rule_pushed r || truthy (r_dry_run r0) = true /\
       exists m, mttd_s r0 = Some m /\ Qle_bool 30000 (default 0%Q (enforce_latency_ms r0)) = false).
Proof.
  unfold finish. intros (rules & Hrules & (pushed & Hp & (id & _ & Hr)%rbind_ok)%rbind_ok)%rbind_ok. injection Hr as <-.
  exists rules. split; [done|]. cbn [rule_pushed passed t_alert_to_decision_s]. split; [done|]. split; [done|].
  unfold checks_of, outcome_ok. cbn [alert_count_p1 r_outcome mttd_s rule_pushed r_dry_run enforce_latency_ms].
  generalize (bool_decide (r_outcome r0 = PStr "enforced" \/ r_outcome r0 = PStr "dry_run")) as ok. intros ok.
  rewrite <-Z.leb_le.
  destruct (1 <=? alert_count_p1 r0), found, ok, (pushed || truthy (r_dry_run r0)), (mttd_s r0) as [m|],
    (Qle_bool 30000 _) eqn:E; cbn; split; intros Hx; try done; try (by destruct Hx as (? & ? & ? & ? & ? & ? & ?)).
  repeat split; try done. by exists m.
Qed.

(** Every run ends: each turn of the loop takes at least ten seconds. *)
Theorem run_ends n started t_attack duration polls sf pre post turns : (t_attack <= poll_now (polls 0%nat))%Q ->
  (forall i, poll_now (polls i) + POLL_INTERVAL <= poll_now (polls (S i)))%Q ->
  (duration <= POLL_INTERVAL * inject_Z (Z.of_nat turns))%Q ->
  run_scenario n started t_attack duration polls sf pre post (S turns) <> Ok None.
Proof.
  intros H0 Hstep Hturns. unfold Evaluation.run_scenario.
  assert (Hw : wait_decision t_attack (t_attack + duration) polls 0 (S turns) <> Ok Waiting).
  { apply wait_ends. pose proof (clock_advances _ _ turns H0 Hstep). cbn [Nat.add]. lra. }
  destruct (agent_rules pre) as [rules|]; cbn [rbind]; [|done]. destruct (wait_decision _ _ _ _ _) as [[d| |]|]; cbn [rbind]; [| |done|done].
  - destruct (take_decision _ _ _ _ _ _) as [r|]; cbn [rbind]; [|done]. by destruct (finish _ _ _ _ _).
  - by destruct (finish _ _ _ _ _).
Qed.

Lemma take_decision_spec t_attack sf o r0 r : take_decision timestamp sc t_attack sf (PDict o) r0 = Ok r -> alert_count_p1 r0 = 0 ->
  r_outcome r = jget_or o "outcome" (PStr "unknown") /\ r_dry_run r = jget_or o "dry_run" (PBool true) /\
  exists l, number_of (por (jget o "latency_ms") (PInt 0)) = Ok l /\ enforce_latency_ms r = Some (py_round 1 l) /\
    (created_at_ts timestamp (PDict o) = None /\ mttd_s r = None /\ alert_count_p1 r = 0 /\ t_alert_to_decision_s r = None \/
     exists t, created_at_ts timestamp (PDict o) = Some t /\ mttd_s r <> None /\ alert_count_p1 r = 1 /\
       t_alert_to_decision_s r = Some (py_round 2 (l / 1000))).
Proof.
  unfold take_decision. cbn [get_of rbind]. change (jget_or o "latency_ms" PNone) with (jget o "latency_ms").
  generalize (created_at_ts timestamp (PDict o)) as created. intros created (l & Hl & (conf & _ & (correct & _ & (seen & _ & Hr)%rbind_ok)%rbind_ok)%rbind_ok)%rbind_ok Ha. injection Hr as <-.
  cbn [r_outcome r_dry_run enforce_latency_ms mttd_s alert_count_p1 t_alert_to_decision_s]. do 2 (split; [done|]).
  exists l. split; [done|]. split; [done|]. destruct created as [t|]; [right|by left].
  exists t. cbn. repeat split; [done|]. f_equal. apply py_round_proper. ring.
Qed.

(** A run counts as passed exactly when the loop has found a decision whose
    creation time can be read, whose outcome is [enforced] or [dry_run] and whose
    latency is under 30 seconds, and the decision was a dry run or a rule of the agent
    with the attacker's address is on a leaf afterwards.  The source of the decision
    and the outcome the scenario expects do not matter. *)
Theorem passed_iff n started t_attack duration polls sf pre post fuel r :
  run_scenario n started t_attack duration polls sf pre post fuel = Ok (Some r) ->
  passed r = true <->
  exists o l, wait_decision t_attack (t_attack + duration) polls 0 fuel = Ok (Found (PDict o)) /\
    created_at_ts timestamp (PDict o) <> None /\
    (jget_or o "outcome" (PStr "unknown") = PStr "enforced" \/ jget_or o "outcome" (PStr "unknown") = PStr "dry_run") /\
    number_of (por (jget o "latency_ms") (PInt 0)) = Ok l /\ (py_round 1 l < 30000)%Q /\
    (truthy (jget_or o "dry_run" (PBool true)) = true \/
     exists rules, agent_rules post = Ok rules /\ rule_blocks_attacker sc rules = Ok true).
Proof.
  unfold Evaluation.run_scenario. intros (prules & _ & (w & Hw & Hr)%rbind_ok)%rbind_ok. destruct w as [d| |]; [| |done].
  - destruct (wait_found _ _ _ _ _ _ Hw) as (k & l0 & _ & _ & _ & _ & Hs). destruct (selected_dict _ _ Hs) as [o ->].
    apply rbind_ok in Hr as (r1 & H1 & (r2 & H2 & Hr)%rbind_ok). injection Hr as ->.
    destruct (take_decision_spec _ _ _ _ _ H1 eq_refl) as (Ho & Hd & l & Hl & He & Hc).
    destruct (finish_passed _ _ _ _ _ H2) as (rules & Hrules & Hb & _ & ->). rewrite Hd, He. unfold outcome_ok. rewrite Ho. cbn [default].
    rewrite bool_decide_eq_true, orb_true_iff, Hw. split.
    + intros (Ha & _ & Hout & Hdry & m & Hm & Hlat). exists o, l. destruct Hc as [(_ & ? & _)|(t & Ht & _)]; [congruence|].
      split; [done|]. split; [by rewrite Ht|]. split; [done|]. split; [done|].
      split; [by apply Qle_bool_false|]. destruct Hdry as [Hp|Hp]; [right|by left]. exists rules. by rewrite <-Hp.
    + intros (o' & l' & [= <-] & Hcr & Hout & Hl' & Hlat & Hdry). rewrite Hl in Hl'. injection Hl' as <-.
      destruct Hc as [(? & _)|(t & Ht & Hm & Ha & _)]; [done|]. rewrite Ha. split; [done|]. split; [done|]. split; [done|].
      split; [destruct Hdry as [?|(rules' & Hr' & Hb')]; [by right|left; congruence]|].
      destruct (mttd_s r1) as [m|]; [|done]. exists m. split; [done|]. by apply Qle_bool_false.
  - apply rbind_ok in Hr as (r2 & H2 & Hr). injection Hr as ->. destruct (finish_passed _ _ _ _ _ H2) as (rules & _ & _ & _ & ->). rewrite Hw.
    split; [by intros (_ & ? & _)|by intros (o & l & ? & _)].
Qed.
End RunFacts.

(** ** Attribution *)
(** The records of the decision store have no [source_ip]: in batch mode a decision counts
    for a run whoever the attacker of the scenario is. *)
Definition with_attacker (a : string) (sc : scenario) : scenario :=
  Scenario a (target_sid sc) (target_dst_ip sc) (target_dst_port sc) (trigger sc) (restore sc) (expected_outcome sc).
Section Attribution.
Context `{PyRepr} `{Postgres} (json_loads : string -> option pyval) (iso : Z -> string) (timestamp : string -> option Q) (sc : scenario).

Lemma record_no_source_ip r d : record_to_dict json_loads iso r = Ok d -> dict_get d "source_ip" = None.
Proof.
  unfold record_to_dict. intros (a & _ & (b & _ & (c & _ & (e & _ & (f & _ & (g & _ & Hd)%rbind_ok)%rbind_ok)%rbind_ok)%rbind_ok)%rbind_ok)%rbind_ok.
  by injection Hd as <-.
Qed.
Lemma filter_res_ext {A} (f g : A -> res bool) l : Forall (fun x => f x = g x) l -> filter_res f l = filter_res g l.
Proof. induction 1 as [|x l Hx _ IH]; [done|]. cbn. by rewrite Hx, IH. Qed.
Theorem any_attacker_will_do limit s ds a since : list_decisions_history json_loads iso limit s = Ok ds ->
  get_decisions_since timestamp true (with_attacker a sc) (PList (map PDict ds)) since =
  get_decisions_since timestamp true sc (PList (map PDict ds)) since.
Proof.
  intros Hds. unfold get_decisions_since, decision_list. cbn [rbind].
  assert (Hl : por (PList (map PDict ds)) (PList []) = PList (map PDict ds)) by by destruct ds. rewrite Hl. cbn [py_iter rbind].
  apply filter_res_ext, Forall_map, Forall_forall. intros d Hd. cbn.
  assert (Hn : dict_get d "source_ip" = None).
  { unfold list_decisions_history, list_from in Hds. destruct s as [db|]; [|by injection Hds as <-; apply elem_of_nil in Hd].
    apply rbind_ok in Hds as (rows & _ & Hm). apply mapM_res_ok in Hm. apply list_elem_of_lookup_1 in Hd as [i Hi].
    destruct (Forall2_lookup_r _ _ _ _ _ Hm Hi) as (r & _ & Hr). by apply record_no_source_ip in Hr. }
  unfold selected, from_attacker, sid_matches_target. cbn [get_of rbind].
  assert (jget_or d "source_ip" PNone = PNone) as -> by (unfold jget_or; by rewrite Hn). done.
Qed.
End Attribution.

(** On decisions with an integer SID the selection of eval_memory.py is that of the rule mode. *)
Theorem exact_is_rule_mode timestamp sc ds since : Forall (fun d => exists o n, d = PDict o /\ dict_get o "alert_sid" = Some (PInt n)) ds ->
  get_decisions_exact timestamp sc (PList ds) since = get_decisions_since timestamp false sc (PList ds) since.
Proof.
  intros Hall. unfold get_decisions_exact, get_decisions_since. destruct (decision_list (PList ds)) as [l|] eqn:El; [|done]. cbn [rbind].
  assert (l = ds) as -> by (destruct ds; by injection El as <-). apply filter_res_ext. eapply Forall_impl; [exact Hall|].
  intros d (o & n & -> & Hn). unfold selected_exact, selected. destruct (Qle_bool _ _); [|done]. cbn [get_of rbind].
  assert (Hg : forall x, jget_or o "alert_sid" x = PInt n) by (intros x; unfold jget_or; by rewrite Hn). rewrite !Hg. cbn [rbind].
  assert (int_of (por (PInt n) (PInt 0)) = Ok n) as -> by (unfold por; cbn; destruct (Z.eqb_spec n 0) as [->|]; done).
  cbn [rbind]. unfold sid_matches_target. cbn [andb]. rewrite orb_false_r.
  replace (py_eqb (PInt n) (PInt (target_sid sc))) with (n =? target_sid sc); [by destruct (n =? _)|].
  apply eq_true_iff_eq. cbn. by rewrite Z.eqb_eq, Qeq_bool_iff, inject_Z_injective.
Qed.

(** ** Percentile *)
Lemma Qle_rel_spec a b : Qle_rel a b <-> (a <= b)%Q.
Proof. apply Qle_bool_iff. Qed.
#[local] Instance Qle_rel_trans : Transitive Qle_rel.
Proof. intros a b c. rewrite !Qle_rel_spec. lra. Qed.
#[local] Instance Qle_rel_total : Total Qle_rel.
Proof. intros a b. rewrite !Qle_rel_spec. destruct (Qlt_le_dec a b); [left|right]; lra. Qed.
Lemma sorted_rank (l : list Q) i p : StronglySorted Qle_rel l -> l !! i = Some p ->
  (S i <= length (filter (fun x => Qle_rel x p) l))%nat /\ (length (filter (fun x => ~ Qle_rel p x) l) <= i)%nat.
Proof.
  intros Hs Hi. pose proof (lookup_lt_Some _ _ _ Hi). rewrite <-(take_drop_middle _ _ _ Hi) in Hs |- *. rewrite !filter_app, !length_app.
  apply StronglySorted_app in Hs as (Hcross & _ & [_ Hs]%StronglySorted_inv). split.
  - rewrite filter_all.
    + rewrite filter_cons_True by (rewrite Qle_rel_spec; lra). cbn. rewrite length_take. lia.
    + apply Forall_forall. intros x Hx. apply Hcross; [done|by left].
  - assert (filter (fun x => ~ Qle_rel p x) (p :: drop (S i) l) = []) as ->.
    { apply filter_none. 
      constructor; [rewrite Qle_rel_spec; intros Hn; apply Hn; lra|]. eapply Forall_impl; [exact Hs|]. intros x Hx Hn. by apply Hn. }
    cbn [length]. rewrite Nat.add_0_r. etransitivity; [apply length_filter|]. rewrite length_take. lia.
Qed.
Lemma p95_idx_spec n : (0 < n)%nat -> (p95_idx n < n)%nat /\ (19 * n <= 20 * S (p95_idx n))%nat /\ (20 * p95_idx n < 19 * n)%nat.
Proof. intros Hn. unfold p95_idx. assert (0 < Z.of_nat n) by lia. pose proof (Z.div_mod (19 * Z.of_nat n + 19) 20). pose proof (Z.mod_pos_bound (19 * Z.of_nat n + 19) 20). lia. Qed.

(** The reported percentile is one of the measured values, at least 95% of
    them are at most it, and fewer than 95% are below it. *)
Theorem p95_rank values p : s_p95 (summarize values) = Some p ->
  Some p ∈ values /\
  (95 * s_n (summarize values) <= 100 * length (filter (fun x => Qle_rel x p) (omap id values)))%nat /\
  (100 * length (filter (fun x => ~ Qle_rel p x) (omap id values)) < 95 * s_n (summarize values))%nat.
Proof.
  unfold summarize. destruct (omap id values) as [|x l] eqn:E; [done|]. cbn [s_p95 s_n]. set (nums := x :: l) in *. intros Hp.
  destruct (p95_idx_spec (length nums)) as (Hi & Hlo & Hhi); [cbn; lia|].
  destruct (sorted_rank _ _ _ (StronglySorted_merge_sort Qle_rel nums) Hp) as [Hle Hlt].
  rewrite (merge_sort_Permutation Qle_rel nums) in Hle, Hlt. split; [|split; lia].
  apply list_elem_of_lookup_2 in Hp. rewrite (merge_sort_Permutation Qle_rel nums), <-E in Hp. apply list_elem_of_omap in Hp as (o & Ho & Hx).
  cbn in Hx. by subst.
Qed.

(** ** Sample runs *)
Definition stamp0 (s : string) : option Q := Some 1004%Q.
Definition clock0 (answer : pyval) (i : nat) : poll := Poll (1000 + 10 * inject_Z (Z.of_nat i))%Q (if (i =? 0)%nat then PList [] else answer).
Definition verdict (source outcome : string) (dry : bool) : pyval :=
  PList [PDict [("alert_sid", PInt 9900010); ("alert_src_ip", PStr source); ("outcome", PStr outcome); ("src_ip", PStr source); ("latency_ms", PInt 2500);
    ("created_at", PStr "2026-01-01T00:00:04Z"); ("dry_run", PBool dry)]].
Definition no_rules : pyval := PDict [("leaves", PDict [])].
Definition scan_scenario : scenario := default default_scenario (apply_preset "yates-distributed-scan").
Definition sample_run (source outcome : string) (dry : bool) : res (option run_result) :=
  run_scenario stamp0 true scan_scenario 1 "now" 1000 240 (clock0 (verdict source outcome dry)) [] no_rules no_rules 25.
Definition shown (r : res (option run_result)) : option (pyval * option bool * bool * Z) :=
  match r with Ok (Some r) => Some (r_outcome r, enforcement_correct r, passed r, checks_pass r) | _ => None end.
(** The scenario expects [log_only]; the right answer of the agent fails. *)
Lemma expected_outcome_fails : expected_outcome scan_scenario = "log_only" /\
  shown (sample_run "10.2.100.10" "log_only" false) = Some (PStr "log_only", Some true, false, 3).
Proof. by vm_compute. Qed.
(** A dry run about another host passes. *)
Lemma other_host_passes : attacker_ip scan_scenario = "10.2.100.10" /\
  shown (sample_run "10.9.9.9" "dry_run" true) = Some (PStr "dry_run", Some false, true, 5).
Proof. by vm_compute. Qed.
