(* ===== verification/GraphVerify.v ===== *)
(** * The comparison of the graph with the authored files
      (scripts/verify_neo4j_roundtrip.py)

    The script loads the parsed catalogue into the server, reads it back and compares part
    by part.  [differences_confined]: of an authored catalogue only parts that the server
    keeps in another order, or that the loader cuts, can be reported. *)
From S2P Require Import Prelude PyVal Json JsonLoads Models Topology Policy Knowledge KnowledgeGraph KnowledgeReload KnowledgeRoundtrip KnowledgeRestore Boot KnowledgeDump DumpRoundtrip.
Local Open Scope string_scope.
Local Open Scope Z_scope.
Local Open Scope list_scope.

(** The parts in the order of the comparison, with [expected == actual]. *)
Definition neo4j_diffs (from_md from_neo4j : knowledge) : list (string * bool) :=
  let b := k_baselines from_md in let c := k_baselines from_neo4j in
  let e := k_enforcement from_md in let f := k_enforcement from_neo4j in
  let i := k_invariants from_md in let j := k_invariants from_neo4j in
  [("zones", eqb_dicts eqb (k_zones from_md) (k_zones from_neo4j)); ("assets", eqb_dicts eqb (k_assets from_md) (k_assets from_neo4j));
   ("leafs", eqb_dicts eqb (k_leafs from_md) (k_leafs from_neo4j)); ("baselines.patterns", eqb (b_patterns b) (b_patterns c));
   ("baselines.anomalous_patterns", eqb_lists py_eqb (b_anomalous_patterns b) (b_anomalous_patterns c));
   ("baselines.steady_state_flows_per_minute", b_steady_state b =? b_steady_state c);
   ("baselines.mgt_audit_alert_rate_per_minute", b_audit_rate b =? b_audit_rate c);
   ("policy_matrix", eqb_dicts py_eqb (k_policy_matrix from_md) (k_policy_matrix from_neo4j));
   ("sids", eqb_dicts eqb (k_sids from_md) (k_sids from_neo4j)); ("kill_chains", eqb (k_kill_chains from_md) (k_kill_chains from_neo4j));
   ("ep.endpoint_contracts", eqb_dicts py_eqb (e_endpoint_contracts e) (e_endpoint_contracts f));
   ("ep.field_name_mapping", eqb_lists py_eqb (e_field_name_mapping e) (e_field_name_mapping f));
   ("ep.critical_gotchas", eqb_lists py_eqb (e_critical_gotchas e) (e_critical_gotchas f));
   ("ep.failure_modes", eqb_lists py_eqb (e_failure_modes e) (e_failure_modes f));
   ("ep.rbac_contract", py_eqb (e_rbac_contract e) (e_rbac_contract f));
   ("inv.never_block_cidrs", eqb_lists py_eqb (i_never_block_cidrs i) (i_never_block_cidrs j));
   ("inv.never_block_rationale", eqb_dicts py_eqb (i_never_block_rationale i) (i_never_block_rationale j));
   ("inv.allowed_agent_actions", eqb_sets (i_allowed_agent_actions i) (i_allowed_agent_actions j));
   ("inv.protected_comment_prefixes", eqb_lists py_eqb (i_protected_comment_prefixes i) (i_protected_comment_prefixes j));
   ("inv.agent_comment_prefix", py_eqb (i_agent_comment_prefix i) (i_agent_comment_prefix j))].
Definition failing (ds : list (string * bool)) : list string := map fst (List.filter (fun d => negb d.2) ds).
(** The labels that are reported and the exit code. *)
Definition run `{PyRepr} `{External} `{PydBool} `{Neo4j} (float_of : string -> pyval) (parsed : res knowledge) (g : graph) : graph * res (list string * Z) :=
  match reload_from_models parsed g with
  | (g', Raise e) => (g', Raise e)
  | (g', Ok _) =>
      (g', let* from_neo4j := read_all (json_loads float_of) g' in
           let* from_md := parsed in
           let fails := failing (neo4j_diffs from_md from_neo4j) in
           Ok (fails, if Z.of_nat (length fails) =? 0 then 0 else 1))
  end.

(** The unchecked values of a catalogue are ones that JSON can hold. *)
Record json_values (k : knowledge) : Prop := {
  jv_patterns : forallb loadable (b_anomalous_patterns (k_baselines k)) = true;
  jv_contracts : Forall (fun e : pyval * pyval => loadable e.2 = true) (e_endpoint_contracts (k_enforcement k));
  jv_gotchas : forallb loadable (e_critical_gotchas (k_enforcement k)) = true;
  jv_rbac : loadable (e_rbac_contract (k_enforcement k)) = true;
  jv_actions : forallb loadable (i_allowed_agent_actions (k_invariants k)) = true;
  jv_prefixes : forallb loadable (i_protected_comment_prefixes (k_invariants k)) = true;
  jv_prefix : loadable (i_agent_comment_prefix (k_invariants k)) = true }.
(** Kept in the server's order, or cut by the loader. *)
Definition REORDERED : list string :=
  ["baselines.patterns"; "kill_chains"; "ep.field_name_mapping"; "ep.failure_modes"; "inv.never_block_cidrs"; "inv.never_block_rationale"].

Lemma failing_in ds (allowed : list string) : (forall d, d ∈ ds -> d.2 = true \/ d.1 ∈ allowed) -> Forall (fun l => l ∈ allowed) (failing ds).
Proof.
  intros Hd. apply Forall_forall. unfold failing. intros l (d & -> & Hin%list_elem_of_In)%list_elem_of_fmap.
  apply filter_In in Hin as [Hin Hb]. apply list_elem_of_In in Hin. destruct (Hd d Hin) as [E|]; [by rewrite E in Hb|done].
Qed.
Lemma diffs_restored k k' : authored_ok k -> json_values k -> restored k k' -> Forall (fun l => l ∈ REORDERED) (failing (neo4j_diffs k k')).
Proof.
  intros Hk [J1 J2 J3 J4 J5 J6 J7] Hr. apply failing_in. destruct (rs_baselines _ _ Hr) as (E1 & E2 & E3), (rs_lists _ _ Hr) as (E4 & _ & E5), (rs_prefixes _ _ Hr) as (E6 & E7).
  unfold neo4j_diffs. rewrite E1, E2, E3, E4, E5, E6, E7. apply Forall_forall.
  repeat first [apply Forall_nil | apply Forall_cons; split; cbn [fst snd]]; try done;
    try (right; unfold REORDERED; repeat first [by left | right]; fail); left.
  - apply eqb_dicts_same; [symmetry; apply (rs_zones _ _ Hr)|apply (ok_zones _ Hk)].
  - apply eqb_dicts_same; [symmetry; apply (rs_assets _ _ Hr)|apply (ok_assets _ Hk)].
  - apply eqb_dicts_same; [symmetry; apply (rs_leafs _ _ Hr)|apply (ok_leafs _ Hk)].
  - by apply eqb_lists_refl.
  - apply Z.eqb_refl.
  - apply Z.eqb_refl.
  - destruct (ok_matrix _ Hk) as [Hd Hall]. apply eqb_dicts_perm; [symmetry; apply (rs_matrix _ _ Hr)|done|].
    eapply Forall_impl; [exact Hall|]. by intros e (s & d & _ & _ & _ & [-> | ->]).
  - apply eqb_dicts_same; [symmetry; apply (rs_sids _ _ Hr)|apply (ok_sids _ Hk)].
  - apply eqb_dicts_perm; [symmetry; apply (rs_contracts _ _ Hr)|apply (ok_contracts _ Hk)|].
    eapply Forall_impl; [exact J2|]. intros e. apply py_eqb_refl.
  - by apply eqb_lists_refl.
  - by apply py_eqb_refl.
  - apply eqb_sets_perm; [symmetry; apply (rs_actions _ _ Hr)|done].
  - by apply eqb_lists_refl.
  - by apply py_eqb_refl.
Qed.

(** After a load of an authored catalogue into a graph without foreign nodes, with every
    query answered, the script ends with a report; the reported parts are among those
    whose order is the server's or that the loader cuts, and the exit code is 0 exactly
    when there is none. *)
Theorem differences_confined `{PyRepr} `{ExternalLaws} `{PydBoolLaws} `{Neo4jLaws} float_of k g g' n :
  clean g -> authored_ok k -> json_values k -> reload_from_models (Ok k) g = (g', Ok n) -> answers g' ->
  exists fails code, run float_of (Ok k) g = (g', Ok (fails, code)) /\ Forall (fun l => l ∈ REORDERED) fails /\ (code = 0 <-> fails = []).
Proof.
  intros Hc Hk Hj Hl Ha. destruct (read_all_restored float_of k g' Hk) as (k' & Er & Hr); [by eapply reload_loaded|done|].
  unfold run. rewrite Hl, Er. cbn [rbind]. do 2 eexists. split; [done|]. split; [by apply diffs_restored|].
  destruct (failing _) as [|l ls]; [done|]. cbn [length]. rewrite (proj2 (Z.eqb_neq _ _)) by lia. done.
Qed.
#[local] Existing Instance Boot.repr0.
#[local] Existing Instance external0.
(** The sample has a signal that is no known SID, which its kill chain comes back without,
    and a never-block entry without a rationale, which comes back with an empty one. *)
Lemma sample_reported : (run PStr (Ok sample) emptied).2 = Ok (["kill_chains"; "inv.never_block_rationale"], 1).
Proof. by vm_compute. Qed.
Lemma sample_values : json_values sample.
Proof. constructor; repeat constructor. Qed.
Lemma differences_confined_witness : exists fails code, run PStr (Ok sample) emptied = (sample_loaded, Ok (fails, code)) /\
  Forall (fun l => l ∈ REORDERED) fails /\ (code = 0 <-> fails = []).
Proof.
  apply (differences_confined PStr sample emptied sample_loaded (counts (load_steps sample)) emptied_clean sample_ok sample_values);
    [vm_compute; reflexivity|apply sample_answers].
Defined.
