(* ===== verification/Tracer.v ===== *)
(** * The tracing wrapper (observability/langfuse_tracer.py, the reports of
      agent/llm/openai_compat.py)

    The client of the tracing service is a class: its calls are recorded and each may
    raise.  [span_transparent]: a span changes nothing of the block it surrounds;
    [span_failure_replaces]: unless it cannot be opened. *)
From S2P Require Import Prelude PyVal Json Postgres DecisionStore.
Local Open Scope string_scope.
Local Open Scope Z_scope.
Local Open Scope list_scope.

(** A call of the client: on itself or on an observation, by the number of the call that
    made it. *)
Record call := Call { c_target : option nat; c_method : string; c_kwargs : obj }.
Class Langfuse := {
  construct : string -> string -> string -> res unit;
  raises : nat -> call -> option exn }.
(** A trace or span of the service, or the stub that does nothing. *)
Inductive observation := Noop | Obs (i : nat).
(** The calls so far and the active observation, [None] when there is none. *)
Record tracing := Tracing { active : option observation; calls : list call }.
Definition set_active (o : option observation) (s : tracing) : tracing := Tracing o (calls s).

Section Tracer.
Context `{Langfuse} (exn_str : exn -> string).

Definition invoke (c : call) (s : tracing) : res observation * tracing :=
  let i := length (calls s) in
  (match raises i c with Some e => Raise e | None => Ok (Obs i) end, Tracing (active s) (calls s ++ [c])).
(** A method of an observation. *)
Definition on (o : observation) (method : string) (kwargs : obj) (s : tracing) : res observation * tracing :=
  match o with Noop => (Ok Noop, s) | Obs i => invoke (Call (Some i) method kwargs) s end.

Record tracer := Tracer { enabled : bool; client : bool }.
Definition make_tracer (available : bool) (host public_key secret_key : string) (on_request : bool) : tracer :=
  if on_request && available && nonempty public_key && nonempty secret_key then
    match construct host public_key secret_key with Ok _ => Tracer true true | Raise _ => Tracer false false end
  else Tracer false false.
Definition text_or_none (s : string) : pyval := if nonempty s then PStr s else PNone.

Definition trace (t : tracer) (name user_id session_id : string) (metadata : obj) (tags : list pyval) (input : pyval) (s : tracing) : observation * tracing :=
  if enabled t && client t then
    match invoke (Call None "trace" [("name", PStr name); ("user_id", text_or_none user_id); ("session_id", text_or_none session_id);
                    ("metadata", PDict metadata); ("tags", PList tags); ("input", input)]) s with
    | (Ok o, s) => (o, set_active (Some o) s)
    | (Raise _, s) => (Noop, s)
    end
  else (Noop, s).

(** [with tracer.span(parent, name) as span: body(span)] *)
Definition span {A} (t : tracer) (parent : option observation) (name : string) (input : pyval) (metadata : obj)
    (body : observation -> tracing -> res A * tracing) (s : tracing) : res A * tracing :=
  match parent with
  | Some p =>
      if enabled t then
        match on p "span" [("name", PStr name); ("input", input); ("metadata", PDict metadata)] s with
        | (Raise e, s) => (Raise e, s)
        | (Ok sp, s) =>
            let '(r, s') := body sp (set_active (Some sp) s) in
            let s' := match r with
                      | Raise e => (on sp "update" [("level", PStr "ERROR"); ("status_message", PStr (py_take 200 (exn_str e)))] s').2
                      | Ok _ => s'
                      end in
            (r, (on sp "end" [] (set_active (active s) s')).2)
        end
      else body Noop s
  | None => body Noop s
  end.

Definition generation (t : tracer) (parent : option observation) (name model : string) (input output : pyval) (usage metadata : obj) (level : string) (s : tracing) : tracing :=
  match parent with
  | Some p =>
      if enabled t then
        match on p "generation" [("name", PStr name); ("model", PStr model); ("input", input); ("metadata", PDict metadata)] s with
        | (Raise _, s) => s
        | (Ok g, s) =>
            let kwargs := (match output with PNone => [] | _ => [("output", output)] end) ++
                          (match usage with [] => [] | _ => [("usage", PDict usage)] end) ++
                          (if bool_decide (level = "DEFAULT") then [] else [("level", PStr level)]) in
            match kwargs with
            | [] => (on g "end" [] s).2
            | _ => match on g "update" kwargs s with (Raise _, s) => s | (Ok _, s) => (on g "end" [] s).2 end
            end
        end
      else s
  | None => s
  end.
(** What the LLM client reports of a request: under the active observation, or at the root. *)
Definition record_generation (t : option tracer) (model : string) (temperature : Q) (max_tokens : Z) (input output : pyval) (usage : obj) (latency_ms : Q) (error : string)
    (s : tracing) : tracing :=
  match t with
  | Some t =>
      if enabled t then
        let kwargs := [("name", PStr "llm.chat"); ("model", PStr model); ("input", input);
          ("metadata", PDict [("temperature", PFloat temperature); ("max_tokens", PInt max_tokens); ("latency_ms", PFloat (py_round 1 latency_ms))])] in
        let update := ("output", output) ::
          (match usage with [] => [] | _ => [("usage", PDict [("input", jget_or usage "prompt_tokens" (PInt 0)); ("output", jget_or usage "completion_tokens" (PInt 0));
                                               ("total", jget_or usage "total_tokens" (PInt 0)); ("unit", PStr "TOKENS")])] end) ++
          (if nonempty error then [("level", PStr "ERROR"); ("status_message", PStr error)] else []) in
        let made := match active s with
                    | Some o => Some (on o "generation" kwargs s)
                    | None => if client t then Some (invoke (Call None "generation" kwargs) s) else None
                    end in
        match made with
        | Some (Ok g, s) => match on g "update" update s with (Raise _, s) => s | (Ok _, s) => (on g "end" [] s).2 end
        | Some (Raise _, s) => s
        | None => s
        end
      else s
  | None => s
  end.
Definition score_trace (t : tracer) (trace_id name : string) (value : pyval) (comment : string) (s : tracing) : tracing :=
  if enabled t && client t && nonempty trace_id then
    (invoke (Call None "score" [("trace_id", PStr trace_id); ("name", PStr name); ("value", value); ("comment", text_or_none comment)]) s).2
  else s.
Definition flush (t : tracer) (s : tracing) : tracing := if enabled t && client t then (invoke (Call None "flush" []) s).2 else s.
Definition shutdown (t : tracer) (s : tracing) : tracing := if enabled t && client t then (invoke (Call None "shutdown" []) s).2 else s.

(** ** Theorems *)
(** What a method adds to the record. *)
Definition logged (o : observation) (method : string) (kwargs : obj) : list call :=
  match o with Noop => [] | Obs i => [Call (Some i) method kwargs] end.
Lemma on_calls o method kwargs s : (on o method kwargs s).2 = Tracing (active s) (calls s ++ logged o method kwargs).
Proof. destruct o; [|done]. destruct s. cbn. by rewrite app_nil_r. Qed.

(** A tracer that is off makes no calls and hands the block a stub. *)
Theorem disabled_silent {A} t parent name input metadata (body : observation -> tracing -> res A * tracing) s : enabled t = false ->
  span t parent name input metadata body s = body Noop s /\
  trace t name "" "" metadata [] input s = (Noop, s) /\
  generation t parent name "" input PNone [] metadata "DEFAULT" s = s /\
  score_trace t "" name input "" s = s /\ flush t s = s /\ shutdown t s = s.
Proof. intros E. unfold span, trace, generation, score_trace, flush, shutdown. rewrite E. by destruct parent. Qed.

(** When the span can be opened, the block ends as it does by itself, with the span as the
    active observation; afterwards the former one is active again, and the record holds
    the opening, the calls of the block, a mark of its exception, and the end. *)
Theorem span_transparent {A} t p name input metadata (body : observation -> tracing -> res A * tracing) s sp s1 :
  enabled t = true -> on p "span" [("name", PStr name); ("input", input); ("metadata", PDict metadata)] s = (Ok sp, s1) ->
  let inner := body sp (Tracing (Some sp) (calls s1)) in
  (span t (Some p) name input metadata body s).1 = inner.1 /\
  active (span t (Some p) name input metadata body s).2 = active s /\
  calls (span t (Some p) name input metadata body s).2 =
    calls inner.2 ++
    match inner.1 with Raise e => logged sp "update" [("level", PStr "ERROR"); ("status_message", PStr (py_take 200 (exn_str e)))] | Ok _ => [] end ++
    logged sp "end" [].
Proof.
  intros E Hon. pose proof (on_calls p "span" [("name", PStr name); ("input", input); ("metadata", PDict metadata)] s) as Ha.
  unfold span. rewrite E, Hon in *. cbn [snd] in Ha. assert (active s1 = active s) as Hact by by subst s1.
  change (set_active (Some sp) s1) with (Tracing (Some sp) (calls s1)). destruct (body sp _) as [r s'] eqn:Eb. cbn [fst snd]. rewrite on_calls. cbn [active calls set_active].
  split; [done|]. split; [done|]. destruct r as [x|e]; [done|]. rewrite on_calls. cbn [calls]. by rewrite <-app_assoc.
Qed.

(** The report of the LLM client leaves the active observation as it is and adds at most
    three calls, whatever the client of the service raises. *)
Theorem record_generation_silent t model temperature max_tokens input output usage latency error s :
  let s' := record_generation t model temperature max_tokens input output usage latency error s in
  active s' = active s /\ exists cs, calls s' = calls s ++ cs /\ (length cs <= 3)%nat.
Proof.
  cbn zeta. unfold record_generation.
  assert (Hnone : active s = active s /\ exists cs, calls s = calls s ++ cs /\ (length cs <= 3)%nat) by (split; [done|]; exists []; by rewrite app_nil_r; split; [|cbn; lia]).
  destruct t as [t|]; [|exact Hnone]. destruct (enabled t); [|exact Hnone].
  assert (Hlog : forall o m k, (length (logged o m k) <= 1)%nat) by (intros [|i] m k; cbn; lia).
  assert (Hmade : forall (x : res observation * tracing) cs upd, x.2 = Tracing (active s) (calls s ++ cs) -> (length cs <= 1)%nat ->
    let s' := match x with (Ok g, s) => match on g "update" upd s with (Raise _, s) => s | (Ok _, s) => (on g "end" [] s).2 end | (Raise _, s) => s end in
    active s' = active s /\ exists cs, calls s' = calls s ++ cs /\ (length cs <= 3)%nat).
  { intros [[g|e] s1] cs upd Hs Hcs; cbn [snd] in Hs; subst s1; cbn zeta; [|split; [done|]; exists cs; split; [done|lia]].
    pose proof (on_calls g "update" upd (Tracing (active s) (calls s ++ cs))) as Hu. destruct (on g "update" upd _) as [[u|e] s2]; cbn [snd] in Hu; subst s2.
    - rewrite on_calls. cbn [active calls]. split; [done|]. exists (cs ++ logged g "update" upd ++ logged g "end" []). split; [by rewrite <-!app_assoc|].
      rewrite !length_app. pose proof (Hlog g "update" upd). pose proof (Hlog g "end" []). lia.
    - cbn [active calls]. split; [done|]. exists (cs ++ logged g "update" upd). split; [by rewrite <-app_assoc|]. rewrite length_app. pose proof (Hlog g "update" upd). lia. }
  destruct (active s) as [o|] eqn:Ea; cbn.
  - by eapply Hmade; [rewrite on_calls, Ea|apply Hlog].
  - destruct (client t); [|split; [done|apply Hnone]]. eapply Hmade; [cbn; by rewrite Ea|done].
Qed.

(** A span that cannot be opened raises in place of the block, which does not run. *)
Theorem span_failure_replaces {A} t p name input metadata (body : observation -> tracing -> res A * tracing) s e s1 : enabled t = true ->
  on p "span" [("name", PStr name); ("input", input); ("metadata", PDict metadata)] s = (Raise e, s1) ->
  span t (Some p) name input metadata body s = (Raise e, s1).
Proof. intros E Hon. unfold span. by rewrite E, Hon. Qed.
End Tracer.

(** ** A client that is full *)
#[local] Instance full : Langfuse := {| construct _ _ _ := Ok tt; raises i c := if bool_decide (c_method c = "span") then Some (OtherError "QueueFull") else None |}.
(** The decision of the traced block is lost. *)
Lemma full_client_loses_block : let t := make_tracer true "host" "pk" "sk" true in
  let '(root, s) := trace t "agent.process" "" "" [] [] PNone (Tracing None []) in
  enabled t = true /\ root = Obs 0 /\
  (span (fun _ => "") t (Some root) "validate" PNone [] (fun _ s => (Ok "decision", s)) s).1 = Raise (OtherError "QueueFull").
Proof. by vm_compute. Qed.
